(* ===== verification/_CoqProject ===== *)
-Q . S2P
Prelude.v
Nic.v
Routing.v
Delivery.v
Discovery.v
DiscoveryNode.v
CStrings.v
Daemonize.v
Session.v
Spawn.v
Execvpe.v
Daemon.v
Output.v
RunMsg.v
StrHeap.v
Master.v
Slave.v
Barrier.v
Text.v
Sched.v
InitMain.v
RunNodes.v
RunMain.v
RunStart.v
Signals.v
Notify.v
RunLib.v
RunOpts.v
SlaveStart.v
Parts.v
RunTop.v
RunMaster.v
MasterThreads.v
Log.v
LogLines.v
RtFile.v
Traceroute.v
Ping.v
Netperf.v
NetperfSys.v
NetperfRdma.v
NetperfMain.v
Ethtap.v
SendRecv.v
Rdma.v
RdmaMain.v
RdmaDbg.v
Utility.v
Info.v
