(* ===== verification/Prelude.v ===== *)
(** * Verification of the AXIOM user-space applications

    The repository holds the programs that run beside the AXIOM network
    interface (NIC) on the nodes of a small cluster: [axiom-init], a daemon that
    discovers the network, installs routing tables and serves requests of other
    nodes; [axiom-run], which starts an application on several nodes and connects
    its processes with the terminal of the user; and a set of tools.  The
    development models the code of the daemon, of [axiom-run] with its library
    calls, of every tool and of the common library, and proves what makes them
    correct.

    ** Parts and files

    The daemon ([src/axiom-init]):
    - [Nic]: what the code sees of the driver (limits and calls are class
      parameters, as the driver is not part of the repository), the state-and-stop
      monad [M], and the register operations of the simulator that the repository
      uses for its tests;
    - [Routing]: [axiom_compute_routing_tables] of axiom_routing.c;
    - [Delivery]: the rest of axiom_routing.c, delivery, reception and installation;
    - [Discovery]: axiom_discovery_protocol.c, the depth-first search;
    - [DiscoveryNode]: axiom_discovery_node.c, which composes the three, and
      [Notify]: the processes that start the script at its end;
    - [RtFile]: the files of --save and --routing (axiom-init.c);
    - [Session], [Spawn]: axiom_session.c and axiom_spawn.c, with the class
      [SessionService] as the interface between them;
    - [Execvpe]: lib/execvpe.c, the client of the two services;
    - [Daemon]: the main loop of axiom-init.c over the two services;
    - [InitMain]: the options, the set-up and the end of axiom-init.c, whose calls
      are the operations of the other files, and axiom_allocator_l1.c;
    - [Traceroute]: the answers to ping and traceroute, and axiom-traceroute.c.

    The launcher ([src/axiom-run]):
    - [RunMsg]: the message buffer of common.h as bytes, raw messages, node masks;
    - [Output], [Master]: master.c and rpcfuncs.c; [MasterThreads]: the main thread,
      the receiver and the sender of master.c as a transition system;
    - [Slave]: slave.c; [SlaveStart]: the start and the end of its threads with the
      forked process;
    - [Signals]: the signal masks and handlers around the creation of threads, and
      the termination of a thread (axiom-run.c);
    - [Barrier]: lib/sync.c, and process, slave and master together as one
      transition system;
    - [RunNodes], [RunMain], [RunStart]: axiom-run.c, the node sets, the options
      and the command line of the slaves, and the start of a session, which uses
      the spawn client through the class [Launcher]; [RunOpts]: the meaning, types
      and ranges of the options;
    - [Parts], [RunTop], [RunMaster]: the whole function [main] of axiom-run.c on a
      node with its device, process and daemons, as a slave ([RunTop]) and as a
      master ([RunMaster]); [Parts] has the lemmas by which operations on a part of
      the node become operations on the whole;
    - [RunLib]: lib/rpc.c and lib/nodes.c, the environment and the program of a
      slave (axiom-run.c), and a world in which the library, its slave and the
      master run together.

    The tools:
    - [Ping]: axiom-ping.c, its two threads with the daemon of the destination;
    - [Netperf], [NetperfSys], [NetperfRdma], [NetperfMain]: axiom-netperf, the
      code of client and server, all client threads with the server as a transition
      system, the RDMA test, the options and the handler of axiom-init;
    - [Ethtap]: axiom-ethtap.c, and its nodes joined to a network;
    - [SendRecv]: axiom-send.c and axiom-recv.c, joined by a network of packets;
    - [Rdma], [RdmaMain], [RdmaDbg]: axiom-rdma.c, its parts and the program from its
      command line, and axiom-rdma-dbg.c on the memory zones of the nodes;
    - [Utility], [Info]: axiom-utility.c, axiom-whoami.c and axiom-info.c.

    The common library ([src/axiom_common_library]): [CStrings] (strlcpy.c,
    strlcat.c, strlist.c), [StrHeap] (the lists of strlist.c in memory, with their
    allocations), [Daemonize] (daemonize.c, on a process with a table of
    descriptors), [Sched] (schedfuncs.c), [Log] (logmsg.c) and [LogLines] (the lines
    of several threads); [Text] has the functions of the C library that print and
    read numbers.

    This file holds the machine integers, checked arrays and matrices, counted
    loops, lemmas on lists and the tactics that the others share.

    ** How the code is translated

    C integers are numbers of type [Z] with the wrap-around of their type ([u8],
    [u32], [u64], [s32]) where a value can leave it.  Code that calls the device
    is a function in the monad [M D]: it returns a value and a new device or is
    stuck (blocked in a reception, a loop out of fuel, an access out of bounds).
    Buffers have the size they have in the code: what does not fit is cut or leaves
    them, as there.
    Receptions, results of sends and of system calls are scripts without any
    restriction, so that the theorems hold for every behaviour of the outside
    that their hypotheses allow.  A buffer that the C code reuses is passed on
    with its old contents.  Where C has no defined result (a shift, a count of
    zeros) the model has a value of its own for it.

    Programs with several threads or processes ([Barrier], [Ping], [NetperfSys],
    [MasterThreads], [SlaveStart], [LogLines], [Notify]) are transition systems whose
    steps are the critical sections, sends or system calls of the code; the theorems
    hold for every interleaving, those that something happens in the end for every
    fair one.

    Fuel: [loop] cuts an endless loop after a number of turns.  Theorems that a
    call returns give a number that is enough (the number of pending messages,
    of nodes, of letters of a command line); loops over a mask have 65 turns for
    64 bits.  That the search for routes can fail to end is a theorem as well
    (C3).

    ** What is proved

    - C1 to C3: the routing tables hold exactly first hops of shortest paths; C4,
      C5: they arrive where they belong and errors are seen; C8, C9: the
      registers of master and slaves end up with shortest routes; C10, C11: the
      topology travels whole and the search stays within its arrays.
    - C14 to C17, C19: the main loop refines an abstract daemon, sessions are
      exclusive, the spawn table refines a finite map, and what a client
      describes is what the daemon starts; C18: the process that is created has
      its program, its directory and exactly the ends of the pipes that belong to
      it, and waits for its caller.
    - C21 to C23: the output of every node is written completely and in order,
      the master refines an abstract receiver, the exit status follows the mode;
      C6: for every order of its threads the master sends its reactions in order
      and returns with the exit status; C26: output reaches the other side
      unchanged, through the threads of the slave and the receiver of the master;
      C27: for every order of the threads of a slave and every signal its program
      starts when they are all there, and all have ended when the slave does; C28: a
      remote call gets its answer.
    - C29, C30: the barrier lets nobody pass early, and cannot block for ever.
    - C31, C32, C34 to C37: the variables of axiom-run are well typed behind every
      command line and mean what its options say; the command line survives the way to the slaves; the node
      options stay in the network; [main] of a master, from its command line to its
      exit code, starts a session on each of its nodes and reacts to every message;
      the launches stop at the first refusal; [main] of a slave lets its program run
      behind its own start message and returns its status.
    - C7, C13, C20, C24: a bandwidth test ends with the right answer for every
      interleaving of its threads, with any division into pieces, with raw, long
      and RDMA messages; the two servers of the repository agree.
    - C12, C33, C38, C39: what one node stores, sends or writes to its interface
      is what the other shows, and memory outside the regions is not touched; C39
      starts at the command line of both nodes.
    - C25, C40: a ping and a traceroute end with the whole result for every order
      of the answers.

    What the code gets wrong is outside of the conditions of a theorem, a branch of
    its statement, or an example beside it.  The conditions that matter: networks are
    connected and have at most one link between two nodes (C1, C8, C9); no call fails
    and there is one server thread (C7, C13, C20); the session 32 is not asked for,
    else the daemon does something undefined (C14, C15, C17, C19); strings fit their
    message (C19); nodes are below 63 (C21, C22); what the allocator library answers
    is left out (C6, C22, C26, C35); slaves have their recv_thread (C28, C30);
    scheduling parameters have no negative nice value (C32, C37); all nodes use the
    default port (C33); remote regions start at one address on both nodes and sums of
    32 bits do not wrap (C39).

    Further theorems are not numbered: the string functions for every size of
    buffer ([CStrings]), string lists in memory up to the last block they free
    ([StrHeap]), the wait of the master for its replies ([Delivery]), who handles a
    quit signal ([Signals]), lines of the log that stay whole ([LogLines]), the script
    that is run once and leaves no zombie ([Notify]), scheduling parameters
    ([Sched]), the files of routing tables ([RtFile]), the broadcast of a
    start ([Execvpe]), the end of a slave ([Slave]), the environment of the
    application and what its library reads from it ([RunStart], [RunLib]), failed
    calls of [daemonize] ([Daemonize]), the end of the daemon ([InitMain]), the
    level of the log ([Log]), and the tools that show what the driver returns
    ([Utility], [Info]).  Where a part of the code does not do what it means to, a
    theorem or an example of its file says so.

    Each file ends with the evaluation of its definitions on examples and with an
    application of each theorem to a concrete case.

    ** Not modelled, and why

    The scheduler of the operating system, in whose place are all orders; time and
    the rates and averages in floating point that are printed; help texts and
    messages for the user, and of the lines of the log everything but the prefix,
    as printf is not part of the repository; the allocator libraries behind
    axiom_allocator_l1.c, rpcfuncs.c and axiom-rdma.c and the driver, which are
    outside the repository and parameters here; the compilation of regular
    expressions; the socket and switch transports of the simulator, which are
    arbitrary scripts of messages here, and the test programs. *)

From stdpp Require Export base list numbers strings sets.
From Stdlib Require Export ZArith Lia Bool.

#[export] Set Default Goal Selector "!".

Declare Scope ax_scope.
Delimit Scope ax_scope with ax.
#[global] Open Scope Z_scope.

(** ** Machine integers *)

(** Wrap-around of the unsigned C types the sources use. *)
Definition u8 (x : Z) : Z := x mod 2 ^ 8.
Definition u32 (x : Z) : Z := x mod 2 ^ 32.
Definition u64 (x : Z) : Z := x mod 2 ^ 64.

(** Two's complement reading of a 32-bit pattern (the C type [int]). *)
Definition s32 (x : Z) : Z :=
  let y := x mod 2 ^ 32 in if y <? 2 ^ 31 then y else y - 2 ^ 32.

(** A single bit of an unsigned word, as the C tests [x & (1 << i)]. *)
Definition bit (i : Z) : Z := Z.shiftl 1 i.

Lemma u8_range x : 0 <= u8 x < 256.
Proof. unfold u8. apply Z.mod_pos_bound. lia. Qed.

Lemma u8_small x : 0 <= x < 256 → u8 x = x.
Proof. intros. unfold u8. apply Z.mod_small. lia. Qed.

Lemma u64_small x : 0 <= x < 2 ^ 64 → u64 x = x.
Proof. intros. unfold u64. apply Z.mod_small. lia. Qed.

Lemma u32_small x : 0 <= x < 2 ^ 32 → u32 x = x.
Proof. intros. unfold u32. apply Z.mod_small. lia. Qed.

Lemma s32_small x : - 2 ^ 31 <= x < 2 ^ 31 → s32 x = x.
Proof.
  intros. unfold s32.
  destruct (Z.le_gt_cases 0 x).
  - rewrite Z.mod_small by lia. destruct (Z.ltb_spec x (2 ^ 31)); lia.
  - replace (x mod 2 ^ 32) with (x + 2 ^ 32).
    + destruct (Z.ltb_spec (x + 2 ^ 32) (2 ^ 31)); lia.
    + symmetry. replace x with ((x + 2 ^ 32) + (-1) * 2 ^ 32) at 1 by lia.
      rewrite Z_mod_plus_full. apply Z.mod_small. lia.
Qed.

Lemma testbit_bit i j : 0 <= i → 0 <= j → Z.testbit (bit i) j = bool_decide (i = j).
Proof.
  intros Hi Hj. unfold bit.
  rewrite Z.shiftl_spec by lia.
  case_bool_decide as E.
  - subst. by rewrite Z.sub_diag.
  - destruct (Z.lt_ge_cases j i).
    + by rewrite Z.testbit_neg_r by lia.
    + rewrite Z.bits_above_log2; [done | lia | simpl; lia].
Qed.

Lemma bit_pos i : 0 <= i → 0 < bit i.
Proof. intros. unfold bit. rewrite Z.shiftl_1_l. apply Z.pow_pos_nonneg; lia. Qed.

Lemma testbit_u8 x i : 0 <= i < 8 → Z.testbit (u8 x) i = Z.testbit x i.
Proof. intros. unfold u8. apply Z.mod_pow2_bits_low. lia. Qed.

Lemma testbit_u8_high x i : 8 <= i → Z.testbit (u8 x) i = false.
Proof. intros. unfold u8. apply Z.mod_pow2_bits_high. lia. Qed.

(** The C test [mask & (uint8_t)(1 << i)]. *)
Lemma land_bit_test x i : 0 <= i < 8 →
  (if Z.land x (u8 (bit i)) =? 0 then 0 else 1) = Z.b2z (Z.testbit x i).
Proof.
  intros Hi. destruct (Z.eqb_spec (Z.land x (u8 (bit i))) 0) as [E|E].
  - assert (Ht : Z.testbit (Z.land x (u8 (bit i))) i = false) by (by rewrite E, Z.testbit_0_l).
    rewrite Z.land_spec, testbit_u8, testbit_bit, bool_decide_true, andb_true_r in Ht by lia.
    by rewrite Ht.
  - destruct (Z.testbit x i) eqn:Ht; [done|]. exfalso. apply E. apply Z.bits_inj_iff'. intros j Hj.
    rewrite Z.land_spec, Z.testbit_0_l. destruct (Z.lt_ge_cases j 8).
    + rewrite testbit_u8, testbit_bit by lia. case_bool_decide as Eij; [subst; by rewrite Ht|].
      apply andb_false_r.
    + rewrite testbit_u8_high by lia. apply andb_false_r.
Qed.

(** A word with a set bit is not zero, and conversely. *)
Lemma testbit_nonzero x i : Z.testbit x i = true → x ≠ 0.
Proof. intros H ->. by rewrite Z.testbit_0_l in H. Qed.

Lemma nonzero_has_bit x : 0 < x → ∃ i, 0 <= i ∧ Z.testbit x i = true.
Proof.
  intros H. exists (Z.log2 x). split; [apply Z.log2_nonneg | by apply Z.bit_log2].
Qed.

(** ** C arrays

    An array is a list; an index is a [Z].  Reads outside the array give the
    default of the element type and writes outside leave the array unchanged,
    so the components either prove their indices in range or go through the
    checked accesses of the device monad (file [Nic]). *)

Section Arrays.
Context {A : Type} `{Inhabited A}.
Implicit Types (l : list A) (i j : Z).

Definition alen l : Z := Z.of_nat (length l).
Definition aget l i : A := if i <? 0 then inhabitant else l !!! Z.to_nat i.
Definition aset l i (v : A) : list A := if i <? 0 then l else <[Z.to_nat i := v]> l.

Lemma alen_aset l i v : alen (aset l i v) = alen l.
Proof. unfold alen, aset. case_match; [done|]. by rewrite length_insert. Qed.

Lemma length_aset l i v : length (aset l i v) = length l.
Proof. unfold aset. case_match; [done|]. by rewrite length_insert. Qed.

Lemma aget_aset_eq l i v : 0 <= i < alen l → aget (aset l i v) i = v.
Proof.
  unfold aget, aset, alen. intros.
  destruct (Z.ltb_spec i 0); [lia|].
  apply list_lookup_total_insert_eq. lia.
Qed.

Lemma aget_aset_ne l i j v : i ≠ j → aget (aset l i v) j = aget l j.
Proof.
  unfold aget, aset. intros.
  destruct (Z.ltb_spec i 0), (Z.ltb_spec j 0); try done.
  apply list_lookup_total_insert_ne. lia.
Qed.

Lemma aget_aset l i j v :
  0 <= i < alen l → aget (aset l i v) j = if decide (i = j) then v else aget l j.
Proof.
  intros. case_decide; subst; [by apply aget_aset_eq | by apply aget_aset_ne].
Qed.

Lemma aget_replicate n i v : 0 <= i < Z.of_nat n → aget (replicate n v) i = v.
Proof.
  intros. unfold aget. destruct (Z.ltb_spec i 0); [lia|].
  apply lookup_total_replicate_2. lia.
Qed.

Lemma aget_ext l1 l2 :
  length l1 = length l2 → (∀ i, 0 <= i < alen l1 → aget l1 i = aget l2 i) → l1 = l2.
Proof.
  intros Hlen Heq. apply list_eq. intros k.
  destruct (decide (k < length l1)%nat) as [Hk|Hk].
  - specialize (Heq (Z.of_nat k) ltac:(unfold alen; lia)).
    unfold aget in Heq. destruct (Z.ltb_spec (Z.of_nat k) 0); [lia|].
    rewrite Nat2Z.id in Heq.
    rewrite (list_lookup_lookup_total_lt l1 k) by lia.
    rewrite (list_lookup_lookup_total_lt l2 k) by lia. by f_equal.
  - rewrite (lookup_ge_None_2 l1 k) by lia. by rewrite (lookup_ge_None_2 l2 k) by lia.
Qed.
End Arrays.

(** Access in the middle of a concatenation. *)
Lemma aget_middle {A} `{Inhabited A} (l1 : list A) c l2 : aget (l1 ++ c :: l2) (alen l1) = c.
Proof.
  unfold aget, alen. destruct (Z.ltb_spec (Z.of_nat (length l1)) 0); [lia|].
  rewrite Nat2Z.id, lookup_total_app_r by lia. by rewrite Nat.sub_diag.
Qed.

Lemma aset_middle {A} (l1 : list A) c l2 v : aset (l1 ++ c :: l2) (alen l1) v = l1 ++ v :: l2.
Proof.
  unfold aset, alen. destruct (Z.ltb_spec (Z.of_nat (length l1)) 0); [lia|].
  rewrite Nat2Z.id, insert_app_r_alt by lia. by rewrite Nat.sub_diag.
Qed.

Lemma alen_app {A} (l1 l2 : list A) : alen (l1 ++ l2) = alen l1 + alen l2.
Proof. unfold alen. rewrite length_app. lia. Qed.

(** Two-dimensional arrays, row-major, as the C [t[][n]]. *)
Definition mget (m : list (list Z)) (i j : Z) : Z := aget (aget m i) j.
Definition mset (m : list (list Z)) (i j v : Z) : list (list Z) := aset m i (aset (aget m i) j v).

Section Matrices.
Implicit Types (m : list (list Z)).

(** All rows of [m] have [c] columns and there are [r] rows. *)
Definition mdim (r c : Z) m : Prop :=
  alen m = r ∧ ∀ i, 0 <= i < r → alen (aget m i) = c.

Lemma mget_mset r c m i j v i' j' :
  mdim r c m → 0 <= i < r → 0 <= j < c →
  mget (mset m i j v) i' j' = if decide (i = i' ∧ j = j') then v else mget m i' j'.
Proof.
  intros [Hr Hc] Hi Hj. unfold mget, mset.
  rewrite aget_aset by lia. case_decide as E; [subst i'|].
  - rewrite aget_aset by (rewrite Hc; lia).
    destruct (decide (j = j')), (decide (i = i ∧ j = j')); naive_solver.
  - rewrite decide_False by naive_solver. done.
Qed.

Lemma mget_mset_eq r c m i j v :
  mdim r c m → 0 <= i < r → 0 <= j < c → mget (mset m i j v) i j = v.
Proof. intros. erewrite mget_mset by done. by rewrite decide_True. Qed.

Lemma mget_mset_ne r c m i j v i' j' :
  mdim r c m → 0 <= i < r → 0 <= j < c → ¬ (i = i' ∧ j = j') →
  mget (mset m i j v) i' j' = mget m i' j'.
Proof. intros. erewrite mget_mset by done. by rewrite decide_False. Qed.

Lemma aget_mset_other m i j v i' : i ≠ i' → aget (mset m i j v) i' = aget m i'.
Proof. intros. unfold mset. by rewrite aget_aset_ne. Qed.

Lemma mdim_mset r c m i j v : mdim r c m → 0 <= i < r → mdim r c (mset m i j v).
Proof.
  intros [Hr Hc] Hi. unfold mset. split; [by rewrite alen_aset|].
  intros k Hk. rewrite aget_aset by lia.
  case_decide; subst; [rewrite alen_aset|]; auto.
Qed.
End Matrices.

(** ** Counted loops *)

(** [for (i = a; i < b; i++) s = body(i, s)] *)
Definition for_z {S} (a b : Z) (body : Z → S → S) (s : S) : S :=
  foldl (fun s i => body i s) s (seqZ a (b - a)).

(** Invariant rule: [P i] holds before iteration [i]. *)
Lemma for_z_ind {S} (P : Z → S → Prop) a b body s :
  a <= b → P a s →
  (∀ i s, a <= i < b → P i s → P (i + 1) (body i s)) →
  P b (for_z a b body s).
Proof.
  intros Hab H0 Hstep. unfold for_z.
  remember (Z.to_nat (b - a)) as n eqn:Hn.
  assert (Hb : b = a + Z.of_nat n) by lia. clear Hn. subst b.
  replace (a + Z.of_nat n - a) with (Z.of_nat n) by lia.
  clear Hab. induction n as [|n IH] in a, s, H0, Hstep |- *.
  - simpl. by replace (a + Z.of_nat 0) with a by lia.
  - rewrite seqZ_cons by lia. cbn [foldl].
    replace (Z.pred (Z.of_nat (Datatypes.S n))) with (Z.of_nat n) by lia.
    replace (Z.succ a) with (a + 1) by lia.
    replace (a + Z.of_nat (Datatypes.S n)) with (a + 1 + Z.of_nat n) by lia.
    apply IH.
    + apply Hstep; [lia|done].
    + intros i s' Hi. apply Hstep. lia.
Qed.

(** Plain invariant rule. *)
Lemma for_z_inv {S} (P : S → Prop) a b body s :
  P s → (∀ i s, a <= i < b → P s → P (body i s)) → P (for_z a b body s).
Proof.
  intros H0 Hstep. destruct (Z.le_gt_cases a b) as [Hab|Hab].
  - by apply (for_z_ind (fun _ => P)).
  - unfold for_z. rewrite seqZ_nil by lia. done.
Qed.

Lemma for_z_step {S} a b body (s : S) :
  a < b → for_z a b body s = for_z (a + 1) b body (body a s).
Proof.
  intros. unfold for_z. rewrite seqZ_cons by lia. cbn [foldl].
  by replace (Z.pred (b - a)) with (b - (a + 1)) by lia.
Qed.

Lemma for_z_done {S} a b body (s : S) : b <= a → for_z a b body s = s.
Proof. intros. unfold for_z. by rewrite seqZ_nil by lia. Qed.

(** ** Counting *)

(** Counting with integers. *)
Section Counting.
Context {A : Type}.
Definition count (P : A → bool) (l : list A) : Z := foldr (fun x acc => (if P x then 1 else 0) + acc) 0 l.
Definition sum_over (f : A → Z) (l : list A) : Z := foldr (fun x acc => f x + acc) 0 l.

Lemma count_app P l1 l2 : count P (l1 ++ l2) = count P l1 + count P l2.
Proof. induction l1 as [|x l1 IH]; [done|]. cbn. unfold count in *. rewrite IH. lia. Qed.
Lemma count_cons P x l : count P (x :: l) = (if P x then 1 else 0) + count P l.
Proof. done. Qed.
Lemma count_nonneg P l : 0 <= count P l.
Proof. induction l as [|x l IH]; cbn; [lia|]. unfold count in *. destruct (P x); lia. Qed.
Lemma count_middle P l1 x l2 : count P (l1 ++ x :: l2) = (if P x then 1 else 0) + count P (l1 ++ l2).
Proof. rewrite !count_app, count_cons. lia. Qed.

Lemma sum_ext f g l : (∀ x, x ∈ l → f x = g x) → sum_over f l = sum_over g l.
Proof.
  induction l as [|x l IH]; intros H; [done|]. cbn. unfold sum_over in *.
  rewrite IH by set_solver. rewrite (H x) by set_solver. done.
Qed.

Lemma sum_zero (l : list A) : sum_over (fun _ => 0) l = 0.
Proof. induction l as [|x l IH]; [done|exact IH]. Qed.

(** One summand grows by one. *)
Lemma sum_incr f g l y : NoDup l → y ∈ l → g y = f y + 1 → (∀ x, x ≠ y → g x = f x) →
  sum_over g l = sum_over f l + 1.
Proof.
  intros Hnd Hin Hy Hne. induction Hnd as [|x l Hx Hnd IH]; [by inversion Hin|]. cbn. unfold sum_over in *.
  apply elem_of_cons in Hin as [->|Hin].
  - rewrite Hy. assert (E : foldr (fun x acc => g x + acc) 0 l = foldr (fun x acc => f x + acc) 0 l).
    { apply sum_ext. intros z Hz. apply Hne. by intros ->. }
    rewrite E. lia.
  - rewrite IH by done. rewrite (Hne x) by (by intros ->). lia.
Qed.

(** When the sum of bounded summands is as large as it can be, so are they. *)
Lemma sum_bound f l m : (∀ x, x ∈ l → f x <= m) → sum_over f l <= alen l * m.
Proof.
  induction l as [|x l IH]; intros H; unfold sum_over, alen in *; cbn [foldr length]; [lia|].
  specialize (IH ltac:(set_solver)). specialize (H x ltac:(set_solver)). lia.
Qed.
Lemma sum_max f l m : (∀ x, x ∈ l → f x <= m) → sum_over f l = alen l * m → ∀ x, x ∈ l → f x = m.
Proof.
  induction l as [|y l IH]; intros H Hs x Hx; [by inversion Hx|]. unfold sum_over, alen in *. cbn [foldr length] in Hs.
  pose proof (sum_bound f l m ltac:(set_solver)) as Hb. unfold sum_over, alen in Hb.
  pose proof (H y ltac:(set_solver)). apply elem_of_cons in Hx as [->|Hx]; [lia|].
  apply IH; [set_solver|lia|done].
Qed.

Lemma sum_cons f x l : sum_over f (x :: l) = f x + sum_over f l.
Proof. done. Qed.
Lemma sum_app f l1 l2 : sum_over f (l1 ++ l2) = sum_over f l1 + sum_over f l2.
Proof. induction l1 as [|x l1 IH]; [done|]. cbn. unfold sum_over in *. rewrite IH. lia. Qed.
Lemma sum_nonneg f l : (∀ x, x ∈ l → 0 <= f x) → 0 <= sum_over f l.
Proof.
  induction l as [|x l IH]; intros H; [done|]. rewrite sum_cons. pose proof (H x ltac:(set_solver)).
  specialize (IH ltac:(set_solver)). lia.
Qed.
Lemma sum_insert f l i x y : l !! i = Some x → sum_over f (<[i := y]> l) = sum_over f l - f x + f y.
Proof.
  revert i. induction l as [|z l IH]; intros [|i] H; simplify_eq/=; unfold sum_over in *; [cbn; lia|].
  cbn. rewrite (IH i) by done. lia.
Qed.
Lemma sum_lookup f l i x : (∀ x, x ∈ l → 0 <= f x) → l !! i = Some x → f x <= sum_over f l.
Proof.
  intros Hf H. rewrite <- (take_drop_middle l i x H). rewrite sum_app, sum_cons.
  assert (Ht : ∀ y, y ∈ take i l ++ drop (S i) l → 0 <= f y).
  { intros y Hy. apply Hf. rewrite <- (take_drop_middle l i x H). set_solver. }
  pose proof (sum_nonneg f (take i l) ltac:(set_solver)). pose proof (sum_nonneg f (drop (S i) l) ltac:(set_solver)). lia.
Qed.
End Counting.

(** Turning one element of a duplicate-free list from rejected to accepted adds
    one to the number of accepted elements. *)
Lemma length_filter_update {A} (P Q : A → bool) (l : list A) (x : A) :
  NoDup l → x ∈ l → P x = false → Q x = true → (∀ y, y ≠ x → Q y = P y) →
  length (List.filter Q l) = S (length (List.filter P l)).
Proof.
  intros Hnd Hin HP HQ Hext. induction Hnd as [|y l Hy Hnd IH]; [by inversion Hin|].
  assert (Hsame : x ∉ l → List.filter Q l = List.filter P l).
  { intros Hx. clear - Hx Hext. induction l as [|z l IH]; [done|].
    cbn. rewrite (Hext z) by set_solver. rewrite IH by set_solver. done. }
  apply elem_of_cons in Hin as [->|Hin].
  - cbn. rewrite HP, HQ. cbn. by rewrite Hsame.
  - cbn. rewrite (Hext y) by set_solver. destruct (P y); cbn; by rewrite IH.
Qed.

Lemma length_filter_mono {A} (P Q : A → bool) (l : list A) :
  (∀ y, y ∈ l → P y = true → Q y = true) →
  (length (List.filter P l) <= length (List.filter Q l))%nat.
Proof.
  induction l as [|y l IH]; intros Hsub; [done|]. cbn.
  specialize (IH ltac:(set_solver)). specialize (Hsub y ltac:(set_solver)).
  destruct (P y), (Q y); cbn; try lia; by specialize (Hsub eq_refl).
Qed.

Lemma length_filter_strict {A} (P Q : A → bool) (l : list A) (x : A) :
  (∀ y, y ∈ l → P y = true → Q y = true) → x ∈ l → P x = false → Q x = true →
  (length (List.filter P l) < length (List.filter Q l))%nat.
Proof.
  induction l as [|y l IH]; intros Hsub Hin HP HQ; [by inversion Hin|]. cbn.
  apply elem_of_cons in Hin as [->|Hin].
  - rewrite HP, HQ. cbn. apply Nat.lt_succ_r. apply length_filter_mono. set_solver.
  - specialize (IH ltac:(set_solver) Hin HP HQ). specialize (Hsub y ltac:(set_solver)).
    destruct (P y), (Q y); cbn; try lia; by specialize (Hsub eq_refl).
Qed.

Lemma length_filter_full {A} (P : A → bool) (l : list A) :
  (length l <= length (List.filter P l))%nat → ∀ x, x ∈ l → P x = true.
Proof.
  induction l as [|y l IH]; intros Hlen x Hx; [by inversion Hx|]. cbn in Hlen.
  pose proof (List.filter_length_le P l) as Hle.
  destruct (P y) eqn:E; cbn in Hlen; [|lia].
  apply elem_of_cons in Hx as [->|Hx]; [done|]. apply IH; [lia|done].
Qed.

Lemma filter_ext_in {A} (P Q : A → Prop) `{∀ x, Decision (P x), ∀ x, Decision (Q x)} (l : list A) :
  (∀ x, x ∈ l → P x ↔ Q x) → filter P l = filter Q l.
Proof.
  induction l as [|x l IH]; intros Hl; [done|]. rewrite !filter_cons, IH by set_solver.
  specialize (Hl x ltac:(set_solver)). do 2 case_decide; naive_solver.
Qed.

Lemma filter_none {A} (P : A → Prop) `{∀ x, Decision (P x)} (l : list A) :
  (∀ x, x ∈ l → ¬ P x) → filter P l = [].
Proof.
  induction l as [|x l IH]; intros Hl; [done|]. rewrite filter_cons, decide_False, IH; set_solver.
Qed.

Lemma concat_singletons {A B} (f : A → B) (l : list A) :
  concat ((fun x => [f x]) <$> l) = f <$> l.
Proof. induction l as [|x l IH]; [done|]. cbn. by rewrite <- IH. Qed.

Lemma fmap_concat {A B} (f : A → B) (ls : list (list A)) :
  f <$> concat ls = concat ((fun l : list A => f <$> l) <$> ls).
Proof. induction ls as [|l ls IH]; [done|]. cbn. by rewrite fmap_app, IH. Qed.

Lemma elem_of_concat {A} (x : A) (ls : list (list A)) : x ∈ concat ls ↔ ∃ l, l ∈ ls ∧ x ∈ l.
Proof.
  rewrite list_elem_of_In, in_concat. split; intros (l & H1 & H2); exists l;
    [by rewrite !list_elem_of_In | by rewrite <- !list_elem_of_In].
Qed.

(** Selecting from a concatenation what only the block of [x] contributes. *)
Lemma omap_concat_pick {A B E} (g : B → option E) (f : A → list B) (l : list A) (x : A) :
  (∀ y, y ≠ x → omap g (f y) = []) → NoDup l → x ∈ l →
  omap g (concat (f <$> l)) = omap g (f x).
Proof.
  intros Hf Hnd Hin.
  assert (Hout : ∀ l', x ∉ l' → omap g (concat (f <$> l')) = []).
  { induction l' as [|y l' IH]; intros Hx; [done|]. cbn.
    rewrite omap_app, Hf, IH by set_solver. done. }
  induction Hnd as [|y l Hy Hnd IH]; [by inversion Hin|]. cbn. rewrite omap_app.
  apply elem_of_cons in Hin as [<-|Hin].
  - by rewrite (Hout l Hy), app_nil_r.
  - rewrite (Hf y) by (by intros ->). by apply IH.
Qed.

(** ** Tactics and hints *)

Create HintDb axdb.
Create Rewrite HintDb axrw.
#[export] Hint Rewrite @alen_aset @length_aset : axrw.
#[export] Hint Resolve u8_range bit_pos mdim_mset : axdb.


(** Case analysis on the boolean comparisons of the model. *)
Ltac zcases :=
  repeat match goal with
  | |- context [?a <? ?b] => destruct (Z.ltb_spec a b)
  | |- context [?a <=? ?b] => destruct (Z.leb_spec a b)
  | |- context [?a =? ?b] => destruct (Z.eqb_spec a b)
  | H : context [?a <? ?b] |- _ => destruct (Z.ltb_spec a b)
  | H : context [?a <=? ?b] |- _ => destruct (Z.leb_spec a b)
  | H : context [?a =? ?b] |- _ => destruct (Z.eqb_spec a b)
  end.

(** Split conjunctions of hypotheses and introduce existential witnesses. *)
Ltac destr_all :=
  repeat match goal with
  | H : _ ∧ _ |- _ => destruct H
  | H : ∃ _, _ |- _ => destruct H
  end.

(** Enumerate a bounded integer. *)
Ltac enum x :=
  match goal with
  | H : ?lo <= x < ?hi |- _ =>
      let H' := fresh in
      assert (H' : x = lo ∨ lo + 1 <= x < hi) by lia; cbn in H';
      destruct H' as [->|H']; [clear H | clear H; first [exfalso; lia | enum x]]
  end.
