(* ===== verification/Nic.v ===== *)
(** * The NIC interface

    What the applications see of the AXIOM NIC: the limits and return codes of
    the driver's headers (a parameter: they are not part of this repository),
    the API calls as operations of a device type, the monad in which the
    protocol code runs, and one concrete device, the simulator of
    [axiom-init/axiom-discovery/test/axiom_simulator/axiom_nic_simulator.c],
    whose receive and send results are read from arbitrary scripts. *)

From S2P Require Import Prelude.

(** ** Limits and return codes of the driver headers *)

Class NicConsts := {
  AXIOM_NODES_NUM : Z;
  AXIOM_INTERFACES_NUM : Z;
  AXIOM_INTERFACES_MAX : Z;
  AXIOM_NULL_NODE : Z;
  AXIOM_INIT_MASTER_NODE : Z;
  AXIOM_IF_CONNECTED : Z;
  AXIOMREG_ROUTING_LOOPBACK_IF : Z;
  AXIOM_IF_LOOPBACK : Z;
  AXIOM_RET_OK : Z;
  AXIOM_RET_ERROR : Z;
  AXIOM_RET_IS_OK : Z → bool
}.

(** What the code relies on: node ids and interface masks are [uint8_t], the
    interfaces are numbered from 0, the two return codes are told apart. *)
Class NicConstsOk `{NicConsts} := {
  nodes_num_range : 1 <= AXIOM_NODES_NUM <= 256;
  interfaces_num_range : 1 <= AXIOM_INTERFACES_NUM <= 8;
  interfaces_max_num : AXIOM_INTERFACES_MAX = AXIOM_INTERFACES_NUM - 1;
  null_node_range : 0 <= AXIOM_NULL_NODE < 256;
  master_node_range : 0 <= AXIOM_INIT_MASTER_NODE < AXIOM_NODES_NUM;
  if_connected_bit : 0 < AXIOM_IF_CONNECTED < 256;
  loopback_if_range : 0 <= AXIOMREG_ROUTING_LOOPBACK_IF < 8;
  ret_ok_ok : AXIOM_RET_IS_OK AXIOM_RET_OK = true;
  ret_error_not_ok : AXIOM_RET_IS_OK AXIOM_RET_ERROR = false
}.

(** ** Messages *)

(** Commands of the discovery messages. *)
Inductive discovery_cmd :=
  | AXIOM_DSCV_CMD_REQ_ID
  | AXIOM_DSCV_CMD_RSP_NOID
  | AXIOM_DSCV_CMD_RSP_ID
  | AXIOM_DSCV_CMD_SETID
  | AXIOM_DSCV_CMD_START
  | AXIOM_DSCV_CMD_TOPOLOGY
  | AXIOM_DSCV_CMD_END_TOPOLOGY
  | DSCV_CMD_OTHER (code : Z).

(** Commands of the routing-table messages. *)
Inductive routing_cmd :=
  | AXIOM_RT_CMD_INFO
  | AXIOM_RT_CMD_END_INFO
  | AXIOM_RT_CMD_RT_REPLY
  | AXIOM_RT_CMD_SET_ROUTING
  | RT_CMD_OTHER (code : Z).

#[export] Instance discovery_cmd_eq_dec : EqDecision discovery_cmd.
Proof. solve_decision. Defined.
#[export] Instance routing_cmd_eq_dec : EqDecision routing_cmd.
Proof. solve_decision. Defined.

(** A discovery message as the API delivers it: local interface and fields. *)
Record dmsg := mk_dmsg {
  d_if : Z; d_cmd : discovery_cmd; d_src : Z; d_dst : Z; d_sif : Z; d_dif : Z
}.

(** A routing-delivery message: the peer node and the fields. *)
Record rmsg := mk_rmsg { r_peer : Z; r_cmd : routing_cmd; r_node : Z; r_if : Z }.

(** ** The monad of the protocol code *)

(** Why a call does not return: the device never delivers the message it
    waits for, a loop does not end, an array is accessed out of bounds. *)
Inductive stuck := Blocked | Diverges | OutOfBounds.

Inductive outcome (D A : Type) :=
  | Ret (a : A) (d : D)
  | Stuck (why : stuck) (d : D).
Arguments Ret {D A}.
Arguments Stuck {D A}.

Definition M (D A : Type) : Type := D → outcome D A.

#[export] Instance M_ret D : MRet (M D) := fun A a d => Ret a d.
#[export] Instance M_bind D : MBind (M D) := fun A B f c d =>
  match c d with Ret a d' => f a d' | Stuck w d' => Stuck w d' end.

Definition stop {D A} (w : stuck) : M D A := fun d => Stuck w d.

(** Checked accesses to a C matrix (the index may come from the network). *)
Definition rd {D} (m : list (list Z)) (i j : Z) : M D Z :=
  if (0 <=? i) && (i <? alen m) && (0 <=? j) && (j <? alen (aget m i))
  then mret (mget m i j) else stop OutOfBounds.
Definition wr {D} (m : list (list Z)) (i j v : Z) : M D (list (list Z)) :=
  if (0 <=? i) && (i <? alen m) && (0 <=? j) && (j <? alen (aget m i))
  then mret (mset m i j v) else stop OutOfBounds.

Definition rd1 {D} (l : list Z) (i : Z) : M D Z :=
  if (0 <=? i) && (i <? alen l) then mret (aget l i) else stop OutOfBounds.
Definition wr1 {D} (l : list Z) (i v : Z) : M D (list Z) :=
  if (0 <=? i) && (i <? alen l) then mret (aset l i v) else stop OutOfBounds.

(** A loop body either goes on with a new state ([inl]) or leaves the loop with
    a result ([inr]: a [break] or a [return]). *)
Fixpoint for_list {D S R} (l : list Z) (body : Z → S → M D (S + R)) (s : S) : M D (S + R) :=
  match l with
  | [] => mret (inl s)
  | i :: l' => r ← body i s;
      match r with inl s' => for_list l' body s' | inr x => mret (inr x) end
  end.

(** [for (i = a; i < b; i++)] with effects and early exit. *)
Definition for_m {D S R} (a b : Z) (body : Z → S → M D (S + R)) (s : S) : M D (S + R) :=
  for_list (seqZ a (b - a)) body s.

(** An unbounded loop, cut after [fuel] turns. *)
Fixpoint loop {D S R} (fuel : nat) (body : S → M D (S + R)) (s : S) : M D R :=
  match fuel with
  | O => stop Diverges
  | S fuel => r ← body s;
      match r with inl s' => loop fuel body s' | inr x => mret x end
  end.

(** ** The API calls *)

Class NicDev (D : Type) := {
  axiom_get_node_id : M D Z;
  axiom_set_node_id : Z → M D unit;
  axiom_get_if_number : M D Z;
  axiom_get_if_info : Z → Z → M D Z;   (** interface, old contents of [*if_features] *)
  axiom_set_routing : Z → Z → M D unit;
  axiom_get_routing : Z → M D Z;
  axiom_send_raw_discovery : Z → discovery_cmd → Z → Z → Z → Z → M D Z;
  axiom_recv_raw_discovery : M D (Z * dmsg);
  axiom_send_raw_delivery : Z → routing_cmd → Z → Z → M D Z;
  axiom_recv_raw_delivery : M D (Z * rmsg);
  axiom_send_raw_set_routing : Z → routing_cmd → M D Z;
  axiom_recv_raw_set_routing : M D (Z * (Z * routing_cmd))
}.

(** Device operations of a counted loop without early exit. *)
Fixpoint for_each {D} (l : list Z) (body : Z → M D unit) : M D unit :=
  match l with [] => mret tt | i :: l' => body i ;; for_each l' body end.

(** ** The simulated device *)

(** What a device call does to the outside. *)
Inductive event :=
  | EvDiscovery (ifc : Z) (cmd : discovery_cmd) (src dst sif dif : Z)
  | EvDelivery (dst : Z) (cmd : routing_cmd) (node ifs : Z)
  | EvSetRouting (ifc : Z) (cmd : routing_cmd).

Record simdev := mk_simdev {
  sd_node_id : Z;
  sd_num_interfaces : Z;
  sd_connected : list bool;
  sd_routing : list (list Z);          (** [local_routing[node][interface]] *)
  sd_disc_in : list (Z * dmsg);        (** results of the discovery receives *)
  sd_deliv_in : list (Z * rmsg);       (** results of the delivery receives *)
  sd_set_in : list (Z * (Z * routing_cmd));
  sd_send : list Z;                    (** results of the sends; then all are OK *)
  sd_log : list event                  (** what was sent, in order *)
}.

(** Field updates of the device. *)
Definition set_sd_routing (rt : list (list Z)) (d : simdev) : simdev :=
  mk_simdev (sd_node_id d) (sd_num_interfaces d) (sd_connected d) rt
    (sd_disc_in d) (sd_deliv_in d) (sd_set_in d) (sd_send d) (sd_log d).
Definition set_sd_disc_in (l : list (Z * dmsg)) (d : simdev) : simdev :=
  mk_simdev (sd_node_id d) (sd_num_interfaces d) (sd_connected d) (sd_routing d)
    l (sd_deliv_in d) (sd_set_in d) (sd_send d) (sd_log d).
Definition set_sd_deliv_in (l : list (Z * rmsg)) (d : simdev) : simdev :=
  mk_simdev (sd_node_id d) (sd_num_interfaces d) (sd_connected d) (sd_routing d)
    (sd_disc_in d) l (sd_set_in d) (sd_send d) (sd_log d).
Definition set_sd_set_in (l : list (Z * (Z * routing_cmd))) (d : simdev) : simdev :=
  mk_simdev (sd_node_id d) (sd_num_interfaces d) (sd_connected d) (sd_routing d)
    (sd_disc_in d) (sd_deliv_in d) l (sd_send d) (sd_log d).
Definition add_sd_log (evs : list event) (rest : list Z) (d : simdev) : simdev :=
  mk_simdev (sd_node_id d) (sd_num_interfaces d) (sd_connected d) (sd_routing d)
    (sd_disc_in d) (sd_deliv_in d) (sd_set_in d) rest (sd_log d ++ evs).

Section Sim.
Context `{NicConsts}.

(** A send: logged, with the next scripted result (then all succeed). *)
Definition sd_push (e : event) : M simdev Z := fun d =>
  match sd_send d with
  | [] => Ret AXIOM_RET_OK (add_sd_log [e] [] d)
  | r :: rs => Ret r (add_sd_log [e] rs d)
  end.

(** The registers, from [axiom_nic_simulator.c]. *)
Definition sim_get_node_id : M simdev Z := fun d => Ret (sd_node_id d) d.

Definition sim_set_node_id (node_id : Z) : M simdev unit := fun d =>
  Ret tt (mk_simdev node_id (sd_num_interfaces d) (sd_connected d) (sd_routing d)
            (sd_disc_in d) (sd_deliv_in d) (sd_set_in d) (sd_send d) (sd_log d)).

Definition sim_get_if_number : M simdev Z := fun d => Ret (sd_num_interfaces d) d.

Definition sim_get_if_info (if_number old : Z) : M simdev Z := fun d =>
  Ret (if AXIOM_INTERFACES_MAX <? if_number then old
       else if aget (sd_connected d) if_number then AXIOM_IF_CONNECTED else 0) d.

Definition sim_set_routing (node_id enabled_mask : Z) : M simdev unit := fun d =>
  let rt := for_z 0 (AXIOM_INTERFACES_MAX + 1)
    (fun i m => mset m node_id i (if Z.land enabled_mask (u8 (bit i)) =? 0 then 0 else 1))
    (sd_routing d) in
  Ret tt (set_sd_routing rt d).

Definition sim_get_routing (node_id : Z) : M simdev Z := fun d =>
  Ret (for_z 0 (AXIOM_INTERFACES_MAX + 1)
    (fun i m => if mget (sd_routing d) node_id i =? 1 then u8 (Z.lor m (u8 (bit i))) else m) 0) d.

#[export] Instance simdev_nic : NicDev simdev := {|
  axiom_get_node_id := sim_get_node_id;
  axiom_set_node_id := sim_set_node_id;
  axiom_get_if_number := sim_get_if_number;
  axiom_get_if_info := sim_get_if_info;
  axiom_set_routing := sim_set_routing;
  axiom_get_routing := sim_get_routing;
  axiom_send_raw_discovery i c s t si di := sd_push (EvDiscovery i c s t si di);
  axiom_recv_raw_discovery d :=
    match sd_disc_in d with
    | [] => Stuck Blocked d
    | x :: xs => Ret x (set_sd_disc_in xs d)
    end;
  axiom_send_raw_delivery t c n i := sd_push (EvDelivery t c n i);
  axiom_recv_raw_delivery d :=
    match sd_deliv_in d with
    | [] => Stuck Blocked d
    | x :: xs => Ret x (set_sd_deliv_in xs d)
    end;
  axiom_send_raw_set_routing i c := sd_push (EvSetRouting i c);
  axiom_recv_raw_set_routing d :=
    match sd_set_in d with
    | [] => Stuck Blocked d
    | x :: xs => Ret x (set_sd_set_in xs d)
    end
|}.
End Sim.

(** ** Laws of the monad and of the device *)

Lemma bind_ret {D A B} (c : M D A) (f : A → M D B) d a d' :
  c d = Ret a d' → (c ≫= f) d = f a d'.
Proof. unfold mbind, M_bind. by intros ->. Qed.

Lemma bind_stuck {D A B} (c : M D A) (f : A → M D B) d w d' :
  c d = Stuck w d' → (c ≫= f) d = Stuck w d'.
Proof. unfold mbind, M_bind. by intros ->. Qed.

Lemma bind_assoc {D A B E} (c : M D A) (f : A → M D B) (g : B → M D E) d :
  ((c ≫= f) ≫= g) d = (c ≫= (fun a => f a ≫= g)) d.
Proof. unfold mbind, M_bind. by destruct (c d). Qed.

Lemma for_list_app {D S R} (l1 l2 : list Z) (body : Z → S → M D (S + R)) s d :
  for_list (l1 ++ l2) body s d =
  (for_list l1 body s ≫= fun r =>
     match r with inl s' => for_list l2 body s' | inr x => mret (inr x) end) d.
Proof.
  induction l1 as [|i l1 IH] in s, d |- *; [done|]. cbn.
  unfold mbind, M_bind. destruct (body i s d) as [[s'|x] d'|w d']; [|done..].
  by rewrite IH.
Qed.

Section Laws.
Context `{C : NicConsts} {COK : NicConstsOk}.

(** The messages of [evs] sent in order until a send fails: the reference
    behaviour of the sending loops.  [inl]: all were sent, with the last
    result; [inr]: the failing result. *)
Fixpoint send_seq (evs : list event) (ret : Z) : M simdev (Z + Z) :=
  match evs with
  | [] => mret (inl ret)
  | e :: evs => ret ← sd_push e;
      if AXIOM_RET_IS_OK ret then send_seq evs ret else mret (inr ret)
  end.

Lemma send_seq_app l1 l2 ret d :
  send_seq (l1 ++ l2) ret d =
  (send_seq l1 ret ≫= fun r =>
     match r with inl s' => send_seq l2 s' | inr x => mret (inr x) end) d.
Proof.
  induction l1 as [|e l1 IH] in ret, d |- *; [done|]. cbn.
  unfold mbind, M_bind. destruct (sd_push e d) as [r d'|w d']; [|done].
  destruct (AXIOM_RET_IS_OK r); [by rewrite IH | done].
Qed.

Lemma bind_send_app l1 l2 ret (f : Z + Z → M simdev Z) d :
  (send_seq (l1 ++ l2) ret ≫= f) d =
  (send_seq l1 ret ≫= fun r =>
     match r with inl s' => send_seq l2 s' ≫= f | inr x => f (inr x) end) d.
Proof.
  unfold mbind, M_bind. rewrite send_seq_app. unfold mbind, M_bind.
  by destruct (send_seq l1 ret d) as [[|] ?|].
Qed.

(** A sequence of sends always returns, with the last result when all went. *)
Lemma send_seq_inl evs ret d : AXIOM_RET_IS_OK ret = true →
  ∃ r d', send_seq evs ret d = Ret r d' ∧
    match r with inl ret' => AXIOM_RET_IS_OK ret' = true | inr e => AXIOM_RET_IS_OK e = false end.
Proof.
  induction evs as [|e evs IH] in ret, d |- *; intros Hr; [by eexists (inl ret), d|].
  cbn. unfold mbind, M_bind, sd_push. destruct (sd_send d) as [|r rs].
  - destruct (AXIOM_RET_IS_OK AXIOM_RET_OK) eqn:E; [by apply IH | by eexists (inr _), _].
  - destruct (AXIOM_RET_IS_OK r) eqn:E; [by apply IH | by eexists (inr _), _].
Qed.

(** When no send fails, everything is logged. *)
Lemma send_seq_all evs ret d : sd_send d = [] →
  send_seq evs ret d = Ret (inl (if evs is [] then ret else AXIOM_RET_OK)) (add_sd_log evs [] d).
Proof using COK.
  intros Hs. destruct d as [? ? ? ? ? ? ? sn lg]; cbn in Hs; subst.
  induction evs as [|e evs IH] in ret, lg |- *.
  - unfold add_sd_log. cbn. by rewrite app_nil_r.
  - cbn. unfold mbind, M_bind, sd_push, add_sd_log. cbn. rewrite ret_ok_ok, IH.
    unfold add_sd_log. cbn. rewrite <- app_assoc. cbn. by destruct evs.
Qed.

(** What was logged is always a prefix of what was to be sent: all of it, when all
    of its sends succeed, or up to the first send that fails.  Each send takes one
    result. *)
Lemma send_seq_run evs ret d : AXIOM_RET_IS_OK ret = true → ∃ k x r d',
  send_seq evs ret d = Ret r d' ∧ sd_log d' = sd_log d ++ take k evs ∧ sd_send d' = drop k (sd_send d) ∧
  match r with
  | inl y => y = x ∧ AXIOM_RET_IS_OK x = true ∧ k = length evs ∧ Forall (fun r => AXIOM_RET_IS_OK r = true) (take k (sd_send d))
  | inr y => y = x ∧ AXIOM_RET_IS_OK x = false ∧ (0 < k <= length evs)%nat ∧ sd_send d !! Nat.pred k = Some x ∧
      Forall (fun r => AXIOM_RET_IS_OK r = true) (take (Nat.pred k) (sd_send d))
  end.
Proof using COK.
  induction evs as [|e evs IH] in ret, d |- *; intros Hr.
  { exists 0%nat, ret, (inl ret), d. cbn. by rewrite app_nil_r. }
  cbn [send_seq length]. unfold mbind, M_bind, sd_push.
  set (d1 := match sd_send d with [] => add_sd_log [e] [] d | _ :: rs => add_sd_log [e] rs d end).
  set (r1 := match sd_send d with [] => AXIOM_RET_OK | r :: _ => r end).
  replace (match sd_send d with [] => _ | _ => _ end) with (Ret r1 d1 : outcome simdev Z)
    by (unfold r1, d1; by destruct (sd_send d)).
  assert (Hl : sd_log d1 = sd_log d ++ [e]) by (unfold d1; by destruct (sd_send d)).
  assert (Hs : sd_send d1 = tail (sd_send d)) by (unfold d1; by destruct (sd_send d)).
  destruct (AXIOM_RET_IS_OK r1) eqn:E.
  - destruct (IH r1 d1 E) as (k & x & r & d' & Heq & Hlog & Hx).
    destruct Hx as [Hrest Hx]. rewrite Hs in Hrest, Hx. rewrite Hl, <- app_assoc in Hlog.
    exists (S k), x, r, d'. split; [done|]. split; [done|]. split; [rewrite Hrest; by destruct (sd_send d), k|].
    unfold r1 in E. destruct r.
    + destruct Hx as (? & ? & -> & Hx). split_and!; [done..|]. destruct (sd_send d); [done|]. by constructor.
    + destruct Hx as (? & ? & Hk & Hx & Ha). split_and!; [done|done|lia|lia| |]; (destruct k; [lia|]);
        destruct (sd_send d); try done. by constructor.
  - exists 1%nat, r1, (inr r1), d1. rewrite Hl, Hs. split_and!; try done; try lia.
    unfold r1 in *. destruct (sd_send d); [by rewrite ret_ok_ok in E|done].
Qed.

(** A loop whose turns are sequences of sends is a sequence of sends. *)
Lemma loop_send_seq (msgs : Z → list event) (body : Z → Z → M simdev (Z + Z)) l ret d :
  (∀ x ret d, x ∈ l → AXIOM_RET_IS_OK ret = true → body x ret d = send_seq (msgs x) ret d) →
  AXIOM_RET_IS_OK ret = true →
  for_list l body ret d = send_seq (concat (msgs <$> l)) ret d.
Proof.
  intros Hb. induction l as [|x l IH] in ret, d, Hb |- *; intros Hr; [done|].
  cbn. rewrite send_seq_app. unfold mbind, M_bind. rewrite Hb by (done || set_solver).
  destruct (send_seq_inl (msgs x) ret d Hr) as (r & d' & -> & Hok).
  destruct r; [|done]. apply IH; [|done]. intros. apply Hb; [set_solver|done].
Qed.
End Laws.

(** ** Absence of faults

    [no_fault Q o]: the call returned with [Q], or waits for a message that does
    not come; it has neither accessed an array out of bounds nor run on without
    end. *)
Section NoFault.
Context {D : Type}.

Definition no_fault {A} (Q : A → D → Prop) (o : outcome D A) : Prop :=
  match o with Ret a d => Q a d | Stuck w _ => w = Blocked end.

Lemma no_fault_mono {A} (P Q : A → D → Prop) o :
  no_fault P o → (∀ a d, P a d → Q a d) → no_fault Q o.
Proof. destruct o; cbn; auto. Qed.

Lemma no_fault_bind {A B} (P : A → D → Prop) (Q : B → D → Prop) (c : M D A) f d :
  no_fault P (c d) → (∀ a d', P a d' → no_fault Q (f a d')) → no_fault Q ((c ≫= f) d).
Proof. unfold mbind, M_bind. destruct (c d); cbn; auto. Qed.

Lemma no_fault_for {S R} (I : Z → S → D → Prop) (J : R → D → Prop) a b body s d :
  a <= b → I a s d →
  (∀ i s d, a <= i < b → I i s d →
    no_fault (fun r d' => match r with inl s' => I (i + 1) s' d' | inr x => J x d' end) (body i s d)) →
  no_fault (fun r d' => match r with inl s' => I b s' d' | inr x => J x d' end) (for_m a b body s d).
Proof.
  intros Hab. remember (Z.to_nat (b - a)) as n eqn:Hn. unfold for_m.
  induction n as [|n IH] in a, s, d, Hab, Hn |- *; intros HI Hbody.
  - rewrite seqZ_nil by lia. cbn. by replace b with a by lia.
  - rewrite seqZ_cons by lia. cbn [for_list]. eapply no_fault_bind; [apply Hbody; [lia|done]|].
    intros [s'|x] d' H; [|done].
    replace (Z.pred (b - a)) with (b - (a + 1)) by lia. replace (Z.succ a) with (a + 1) by lia.
    apply IH; [lia|lia|done|]. intros i s1 d1 Hi. apply Hbody. lia.
Qed.

Lemma no_fault_loop {S R} (I : S → D → Prop) (J : R → D → Prop) (size : D → nat) fuel body s d :
  (size d < fuel)%nat → I s d →
  (∀ s d, I s d → no_fault (fun r d' => match r with
     | inl s' => I s' d' ∧ (size d' < size d)%nat | inr x => J x d' end) (body s d)) →
  no_fault J (loop fuel body s d).
Proof.
  induction fuel as [|fuel IH] in s, d |- *; intros Hf HI Hbody; [lia|]. cbn [loop].
  eapply no_fault_bind; [by apply Hbody|]. intros [s'|x] d' H; [|done].
  apply IH; [lia|apply H|done].
Qed.
End NoFault.

(** ** A concrete instance, for evaluation *)

Definition nic8 : NicConsts := {|
  AXIOM_NODES_NUM := 8; AXIOM_INTERFACES_NUM := 4; AXIOM_INTERFACES_MAX := 3;
  AXIOM_NULL_NODE := 255; AXIOM_INIT_MASTER_NODE := 1; AXIOM_IF_CONNECTED := 1;
  AXIOMREG_ROUTING_LOOPBACK_IF := 4; AXIOM_IF_LOOPBACK := 4; AXIOM_RET_OK := 0; AXIOM_RET_ERROR := -1;
  AXIOM_RET_IS_OK r := 0 <=? r
|}.

Lemma nic8_ok : @NicConstsOk nic8.
Proof. split; cbn; lia || done. Qed.
