(* ===== verification/Routing.v ===== *)
(** * Routing tables (axiom_routing.c, first part)

    The computation of the routing tables of all nodes by the master from the
    discovered topology ([axiom_compute_routing_tables]): a breadth-first
    search per node, whose first hops are recorded as interface masks. *)

From S2P Require Import Prelude Nic.

Definition AXIOM_NULL_RT_INTERFACE : Z := 0.

Section Compute.
Context `{C : NicConsts}.
Implicit Types (topology : list (list Z)).

(** The locals of [axiom_compute_routing_tables] and its in/out array. *)
Record rstate := mk_rstate {
  routing_tables : list (list Z);
  neighbour_table0 : list Z;
  neighbour_table1 : list Z;
  neighbours_counter : Z
}.

Definition axiom_init_routing_neighbour (actual : Z) (st : rstate) : rstate :=
  for_z 0 AXIOM_NODES_NUM (fun i st =>
    mk_rstate (mset (routing_tables st) actual i AXIOM_NULL_RT_INTERFACE)
      (aset (neighbour_table0 st) i AXIOM_NULL_NODE)
      (aset (neighbour_table1 st) i AXIOM_NULL_NODE)
      (neighbours_counter st)) st.

(** One interface of [axiom_compute_neighbours_route]. *)
Definition neighbour_if (actual : Z) topology (ifc : Z) (st : rstate) : rstate :=
  let n := mget topology actual ifc in
  if n =? AXIOM_NULL_NODE then st else
  let to_set := u8 (Z.lor (mget (routing_tables st) actual n) (u8 (bit ifc))) in
  mk_rstate (mset (routing_tables st) actual n to_set)
    (aset (neighbour_table0 st) n n) (neighbour_table1 st)
    (u8 (neighbours_counter st + 1)).

Definition axiom_compute_neighbours_route (actual : Z) topology (st : rstate) : rstate :=
  for_z 0 (AXIOM_INTERFACES_MAX + 1) (neighbour_if actual topology)
    (mk_rstate (routing_tables st) (neighbour_table0 st) (neighbour_table1 st) 0).

(** One interface of a first-level neighbour: the body of the inner loop. *)
Definition second_if (actual : Z) topology (first ifc : Z) (st : rstate) : rstate :=
  let s := mget topology first ifc in
  if (s =? AXIOM_NULL_NODE) || (s =? actual) then st
  else if mget (routing_tables st) actual s =? AXIOM_NULL_RT_INTERFACE then
    mk_rstate (mset (routing_tables st) actual s (mget (routing_tables st) actual first))
      (neighbour_table0 st) (aset (neighbour_table1 st) s s)
      (u8 (neighbours_counter st + 1))
  else st.

Definition second_node (actual : Z) topology (node_index : Z) (st : rstate) : rstate :=
  let first := aget (neighbour_table0 st) node_index in
  if first =? AXIOM_NULL_NODE then st
  else for_z 0 (AXIOM_INTERFACES_MAX + 1) (second_if actual topology first) st.

(** One turn of the [do ... while], the final [memcpy] included. *)
Definition second_level (actual : Z) topology (master last : Z) (st : rstate) : rstate :=
  let st := for_z master last (second_node actual topology) st in
  mk_rstate (routing_tables st) (neighbour_table1 st) (neighbour_table1 st)
    (neighbours_counter st).

(** The [do ... while]; [None] when the fuel does not suffice. *)
Fixpoint second_levels (fuel : nat) (actual : Z) topology (master last : Z)
    (st : rstate) : option rstate :=
  match fuel with
  | O => None
  | S fuel =>
      let st := second_level actual topology master last st in
      if neighbours_counter st <? last - master - 1
      then second_levels fuel actual topology master last st
      else Some st
  end.

(** The body of the loop over the nodes. *)
Definition compute_node (fuel : nat) topology (master last actual : Z) (st : rstate)
    : option rstate :=
  let st := axiom_init_routing_neighbour actual st in
  let st := axiom_compute_neighbours_route actual topology st in
  second_levels fuel actual topology master last st.

Fixpoint compute_nodes (fuel : nat) topology (master last : Z) (nodes : list Z)
    (st : rstate) : option rstate :=
  match nodes with
  | [] => Some st
  | a :: nodes => st ← compute_node fuel topology master last a st;
                  compute_nodes fuel topology master last nodes st
  end.

(** [neighbour_table] is an uninitialised local: its contents are arbitrary. *)
Definition axiom_compute_routing_tables (fuel : nat) topology (rts : list (list Z))
    (nt0 nt1 : list Z) (master_id last_node : Z) : option (list (list Z)) :=
  routing_tables <$> compute_nodes fuel topology master_id last_node
    (seqZ master_id (last_node - master_id)) (mk_rstate rts nt0 nt1 0).
End Compute.

(** ** Paths of the topology *)

Section Paths.
Context `{C : NicConsts}.
Context (topology : list (list Z)).

(** Interface [i] of node [u] is linked to node [v]. *)
Definition edge (u i v : Z) : Prop :=
  0 <= i <= AXIOM_INTERFACES_MAX ∧ mget topology u i = v ∧ v ≠ AXIOM_NULL_NODE.
Definition adj (u v : Z) : Prop := ∃ i, edge u i v.

(** [walk a n v]: [v] is reached from [a] over [n] links. *)
Inductive walk (a : Z) : nat → Z → Prop :=
  | walk_nil : walk a O a
  | walk_snoc n u v : walk a n u → adj u v → walk a (S n) v.

(** [via a i n v]: [v] is reached over [n] links, the first through [i]. *)
Inductive via (a i : Z) : nat → Z → Prop :=
  | via_one v : edge a i v → via a i 1 v
  | via_snoc n u v : via a i n u → adj u v → via a i (S n) v.

(** [v] is at distance [n] from [a]. *)
Definition dist (a : Z) (n : nat) (v : Z) : Prop :=
  walk a n v ∧ ∀ m, (m < n)%nat → ¬ walk a m v.

Lemma via_walk a i n v : via a i n v → walk a n v.
Proof.
  induction 1 as [v Hv | n u v _ IH Huv].
  - eapply walk_snoc; [apply walk_nil | by exists i].
  - by eapply walk_snoc.
Qed.

(** A walk through [i] is a link on [i] followed by a walk. *)
Lemma via_first_hop a i n v :
  via a i (S n) v ↔ ∃ u, edge a i u ∧ walk u n v.
Proof.
  split.
  - intros Hv. remember (S n) as k eqn:Hk.
    induction Hv as [v Hv | m u v Hv IH Huv] in n, Hk |- *; simplify_eq.
    + exists v. split; [done | apply walk_nil].
    + destruct n as [|n]; [by inversion Hv|].
      destruct (IH n eq_refl) as (w & Hw & Hwu). exists w. split; [done|].
      by eapply walk_snoc.
  - intros (u & Hu & Hw). induction Hw as [| n w v _ IH Hwv].
    + by apply via_one.
    + eapply via_snoc; eauto.
Qed.

Lemma dist_pred a n v : dist a (S n) v → ∃ u, dist a n u ∧ adj u v.
Proof.
  intros [Hw Hmin]. inversion Hw as [|? u ? Hu Huv]; subst.
  exists u. split; [split; [done|] | done].
  intros m Hm Hmu. apply (Hmin (S m)); [lia|]. by eapply walk_snoc.
Qed.

(** Every node on the way to [v] is met at its own distance. *)
Lemma dist_below a n v k : dist a n v → (k <= n)%nat → ∃ u, dist a k u.
Proof.
  intros Hd Hk. remember (n - k)%nat as j eqn:Hj.
  induction j as [|j IH] in n, v, Hd, Hk, Hj |- *.
  - exists v. by replace k with n by lia.
  - destruct n as [|n]; [lia|]. destruct (dist_pred _ _ _ Hd) as (u & Hu & _).
    apply (IH n u); [done|lia|lia].
Qed.

Lemma dist_zero a v : dist a 0 v → v = a.
Proof. intros [H _]. by inversion H. Qed.

Lemma dist_unique a n m v : dist a n v → dist a m v → n = m.
Proof.
  intros [Hn Hn'] [Hm Hm']. destruct (Nat.lt_trichotomy n m) as [?|[?|?]]; [|done|].
  - exfalso. by eapply Hm'.
  - exfalso. by eapply Hn'.
Qed.
End Paths.

(** ** Well-formed topologies *)

(** The discovered nodes are the ids [master .. last-1]; every linked interface
    of a discovered node leads to a discovered node, never to the node itself. *)
Record topo_ok `{C : NicConsts} (topology : list (list Z)) (master last : Z) : Prop := {
  to_low : 0 <= master;
  to_high : last <= AXIOM_NODES_NUM;
  to_null : ¬ (master <= AXIOM_NULL_NODE < last);
  to_closed : ∀ u i v, master <= u < last → edge topology u i v → master <= v < last;
  to_noself : ∀ u i, master <= u < last → ¬ edge topology u i u
}.

(** No two interfaces of [u] lead to the same node. *)
Definition single_links `{C : NicConsts} (topology : list (list Z)) (u : Z) : Prop :=
  ∀ i j v, edge topology u i v → edge topology u j v → i = j.

(** Every discovered node is reached from [a]. *)
Definition connected `{C : NicConsts} (topology : list (list Z)) (master last a : Z) : Prop :=
  ∀ b, master <= b < last → ∃ n, walk topology a n b.

(** ** The breadth-first search of one node *)

Section Bfs.
Context `{C : NicConsts} {COK : NicConstsOk}.
Context (topology : list (list Z)) (master last a : Z).
Context (TO : topo_ok topology master last) (Ha : master <= a < last).

Abbreviation R st b := (mget (routing_tables st) a b).
Abbreviation IFN := (AXIOM_INTERFACES_MAX + 1).

Record dims (st : rstate) : Prop := {
  dm_rt : mdim AXIOM_NODES_NUM AXIOM_NODES_NUM (routing_tables st);
  dm_n0 : alen (neighbour_table0 st) = AXIOM_NODES_NUM;
  dm_n1 : alen (neighbour_table1 st) = AXIOM_NODES_NUM
}.

(** A neighbour table only lists routed nodes, each at its own index. *)
Definition nt_ok (st : rstate) (nt : list Z) : Prop :=
  ∀ f, master <= f < last → aget nt f ≠ AXIOM_NULL_NODE → aget nt f = f ∧ R st f ≠ 0.

(** The state after [k] turns of the loop: the routed nodes are those at
    distance at most [k+1], and each routed node that is not in the frontier
    has all its neighbours routed. *)
Record bfs (k : nat) (st : rstate) : Prop := {
  b_dims : dims st;
  b_self : R st a = 0;
  b_sound : ∀ b, 0 <= b < AXIOM_NODES_NUM → R st b ≠ 0 →
    master <= b < last ∧ 0 < R st b < 256 ∧
    ∃ d, (d <= S k)%nat ∧ dist topology a d b ∧
         ∀ i, 0 <= i → Z.testbit (R st b) i = true → via topology a i d b;
  b_level : ∀ d b, (d <= S k)%nat → walk topology a d b → b = a ∨ R st b ≠ 0;
  b_nt0 : nt_ok st (neighbour_table0 st);
  b_nt1 : nt_ok st (neighbour_table1 st);
  b_closed : ∀ f s, master <= f < last → R st f ≠ 0 →
    aget (neighbour_table0 st) f = AXIOM_NULL_NODE → adj topology f s → s = a ∨ R st s ≠ 0
}.

Lemma in_nodes b : master <= b < last → 0 <= b < AXIOM_NODES_NUM.
Proof using TO. destruct TO. lia. Qed.

Lemma not_null b : master <= b < last → b ≠ AXIOM_NULL_NODE.
Proof using TO. destruct TO. lia. Qed.

Lemma edge_dec u i : 0 <= i < IFN →
  mget topology u i = AXIOM_NULL_NODE ∨ edge topology u i (mget topology u i).
Proof. intros. destruct (decide (mget topology u i = AXIOM_NULL_NODE)); [by left|]. right. repeat split; [lia|lia|done]. Qed.

Lemma adj_range u v : master <= u < last → adj topology u v → master <= v < last.
Proof using TO. intros Hu [i Hi]. by eapply to_closed. Qed.

Lemma walk_range n b : walk topology a n b → master <= b < last.
Proof using TO Ha. induction 1; [done | by eapply adj_range]. Qed.

(** *** The initialisation *)

Lemma init_routing_spec st :
  dims st →
  let st' := axiom_init_routing_neighbour a st in
  dims st' ∧
  (∀ b, 0 <= b < AXIOM_NODES_NUM → R st' b = 0 ∧
     aget (neighbour_table0 st') b = AXIOM_NULL_NODE ∧
     aget (neighbour_table1 st') b = AXIOM_NULL_NODE) ∧
  (∀ r, r ≠ a → aget (routing_tables st') r = aget (routing_tables st) r).
Proof using TO Ha COK.
  intros Hd. simpl. pose proof nodes_num_range as HN. pose proof (in_nodes a Ha) as Ha'.
  set (P := fun (i : Z) (s : rstate) => dims s ∧
    (∀ b, 0 <= b < i → R s b = 0 ∧ aget (neighbour_table0 s) b = AXIOM_NULL_NODE ∧
       aget (neighbour_table1 s) b = AXIOM_NULL_NODE) ∧
    (∀ r, r ≠ a → aget (routing_tables s) r = aget (routing_tables st) r)).
  apply (for_z_ind P); unfold P.
  - lia.
  - split; [done|]. split; [intros; lia | done].
  - clear P. intros i s Hi ([Hrt Hn0 Hn1] & Hz & Ho). cbn.
    split; [|split].
    + split; cbn; [by apply mdim_mset; [|lia] | by rewrite alen_aset | by rewrite alen_aset].
    + intros b Hb. erewrite mget_mset by (done || lia).
      rewrite !aget_aset by lia.
      destruct (decide (i = b)) as [->|Hne].
      * by rewrite decide_True.
      * rewrite decide_False by naive_solver. apply Hz. lia.
    + intros r Hr. rewrite aget_mset_other by done. by apply Ho.
Qed.

(** *** The first level *)

(** After [j] interfaces the set bits of the row are the linked interfaces
    below [j]. *)
Record level1 (j : Z) (st : rstate) : Prop := {
  l_dims : dims st;
  l_bits : ∀ b i, 0 <= b < AXIOM_NODES_NUM → 0 <= i →
    Z.testbit (R st b) i = true ↔ i < j ∧ edge topology a i b;
  l_byte : ∀ b, 0 <= b < AXIOM_NODES_NUM → 0 <= R st b < 256;
  l_nt0 : ∀ b, 0 <= b < AXIOM_NODES_NUM →
    aget (neighbour_table0 st) b = if R st b =? 0 then AXIOM_NULL_NODE else b;
  l_nt1 : ∀ b, 0 <= b < AXIOM_NODES_NUM → aget (neighbour_table1 st) b = AXIOM_NULL_NODE
}.

Lemma or_bit_spec x i j : 0 <= i < 8 → 0 <= j → 0 <= x < 256 →
  Z.testbit (u8 (Z.lor x (u8 (bit i)))) j = Z.testbit x j || bool_decide (i = j).
Proof.
  intros Hi Hj Hx. destruct (Z.lt_ge_cases j 8).
  - rewrite testbit_u8, Z.lor_spec, testbit_u8, testbit_bit by lia. done.
  - rewrite testbit_u8_high by lia. rewrite bool_decide_false by lia.
    rewrite <- (u8_small x) by lia. by rewrite testbit_u8_high by lia.
Qed.

Lemma or_bit_nonzero x i : 0 <= i < 8 → 0 <= x < 256 → u8 (Z.lor x (u8 (bit i))) ≠ 0.
Proof.
  intros Hi Hx. apply testbit_nonzero with i.
  rewrite or_bit_spec by lia. rewrite bool_decide_true by done. apply orb_true_r.
Qed.

Lemma ifn_range i : 0 <= i < IFN → 0 <= i < 8.
Proof using COK. pose proof interfaces_num_range. rewrite interfaces_max_num. lia. Qed.

Lemma level1_step j st :
  0 <= j < IFN → level1 j st → level1 (j + 1) (neighbour_if a topology j st).
Proof using TO Ha COK.
  intros Hj [[Hrt Hn0 Hn1] Hbits Hbyte Hnt0 Hnt1]. pose proof (ifn_range j Hj) as Hj8.
  pose proof (in_nodes a Ha) as Ha'. unfold neighbour_if.
  destruct (edge_dec a j Hj) as [E|E].
  - rewrite E, Z.eqb_refl. split; try done.
    intros b i Hb Hi. rewrite Hbits by done. split; [naive_solver lia|].
    intros [Hij He]. split; [|done].
    destruct (decide (i = j)) as [->|]; [|lia]. destruct He as (_ & He & Hn). congruence.
  - set (n := mget topology a j) in *. pose proof E as (_ & _ & Hn).
    assert (Hnr : 0 <= n < AXIOM_NODES_NUM) by (apply in_nodes; by eapply to_closed).
    rewrite (proj2 (Z.eqb_neq _ _) Hn).
    pose proof (Hbyte n Hnr) as Hb0.
    split; cbn.
    + split; cbn; [by apply mdim_mset | by rewrite alen_aset | done].
    + intros b i Hb Hi. erewrite mget_mset by done.
      destruct (decide (n = b)) as [<-|Hne].
      * rewrite decide_True by done. rewrite or_bit_spec by lia.
        rewrite orb_true_iff, Hbits, bool_decide_eq_true by done.
        split; [intros [[? ?]|<-]; (split; [lia|done]) |].
        intros [? He]. destruct (decide (j = i)); [by right | left; split; [lia|done]].
      * rewrite decide_False by naive_solver. rewrite Hbits by done.
        split; [intros [? ?]; split; [lia|done]|]. intros [? He]. split; [|done].
        destruct (decide (i = j)) as [->|]; [|lia]. by destruct He as (_ & ? & _).
    + intros b Hb. erewrite mget_mset by done. case_decide; [apply u8_range | by apply Hbyte].
    + intros b Hb. erewrite mget_mset by done. rewrite aget_aset by lia.
      destruct (decide (n = b)) as [<-|Hne].
      * rewrite decide_True by done.
        by rewrite (proj2 (Z.eqb_neq _ _) (or_bit_nonzero _ _ Hj8 Hb0)).
      * rewrite decide_False by naive_solver. by apply Hnt0.
    + done.
Qed.

Lemma level1_start st : dims st →
  let st0 := axiom_init_routing_neighbour a st in
  level1 0 (mk_rstate (routing_tables st0) (neighbour_table0 st0) (neighbour_table1 st0) 0).
Proof using TO Ha COK.
  intros Hd. destruct (init_routing_spec st Hd) as (Hd' & Hz & _). split; cbn.
  - destruct Hd'. by split.
  - intros b i Hb Hi. destruct (Hz b Hb) as (-> & _ & _). rewrite Z.testbit_0_l.
    split; [done | intros [? _]; lia].
  - intros b Hb. destruct (Hz b Hb) as (-> & _ & _). lia.
  - intros b Hb. destruct (Hz b Hb) as (-> & -> & _). done.
  - intros b Hb. by destruct (Hz b Hb) as (_ & _ & ->).
Qed.

Lemma level1_all st : dims st →
  level1 IFN (axiom_compute_neighbours_route a topology (axiom_init_routing_neighbour a st)).
Proof using TO Ha COK.
  intros Hd. unfold axiom_compute_neighbours_route. pose proof interfaces_num_range.
  apply (for_z_ind level1).
  - rewrite interfaces_max_num. lia.
  - by apply level1_start.
  - intros i s Hi. apply level1_step. lia.
Qed.

Lemma dist_one b : b ≠ a → adj topology a b → dist topology a 1 b.
Proof.
  intros Hne Hadj. split; [eapply walk_snoc; [apply walk_nil|done]|].
  intros m Hm. assert (m = 0%nat) as -> by lia. by inversion 1.
Qed.

Lemma level1_bfs st : level1 IFN st → bfs 0 st.
Proof using TO Ha COK.
  intros [Hd Hbits Hbyte Hnt0 Hnt1].
  assert (Hnz : ∀ b, 0 <= b < AXIOM_NODES_NUM → R st b ≠ 0 → adj topology a b).
  { intros b Hb Hr. pose proof (Hbyte b Hb).
    destruct (nonzero_has_bit (R st b)) as (i & Hi & Ht); [lia|].
    apply Hbits in Ht; [|done..]. exists i. tauto. }
  assert (Hz : ∀ b, adj topology a b → R st b ≠ 0).
  { intros b [i Hi]. assert (Hb : master <= b < last) by by eapply to_closed.
    apply testbit_nonzero with i. pose proof (proj1 Hi) as Hi'.
    apply Hbits; [by apply in_nodes | lia | split; [lia|done]]. }
  assert (Hself : R st a = 0).
  { destruct (decide (R st a = 0)) as [|Hr]; [done|].
    apply Hnz in Hr as [i Hi]; [|by apply in_nodes]. by destruct (to_noself _ _ _ TO a i Ha). }
  split; try done.
  - intros b Hb Hr. pose proof (Hnz b Hb Hr) as Hadj. split; [by eapply adj_range|].
    pose proof (Hbyte b Hb). split; [lia|]. exists 1%nat. split; [lia|]. split.
    + apply dist_one; [|done]. by intros ->.
    + intros i Hi Ht. apply via_one. apply Hbits in Ht; tauto.
  - intros d b Hd1 Hw. inversion Hw as [|n u ? Hu Huv]; subst; [by left|]. right.
    assert (n = 0%nat) as -> by lia. inversion Hu; subst. by apply Hz.
  - intros f Hf Hne. rewrite Hnt0 in * by by apply in_nodes.
    destruct (Z.eqb_spec (R st f) 0); done.
  - intros f Hf Hne. by rewrite Hnt1 in Hne by by apply in_nodes.
  - intros f s Hf Hr Hn. rewrite Hnt0 in Hn by by apply in_nodes.
    destruct (Z.eqb_spec (R st f) 0); [done|]. by apply not_null in Hf.
Qed.

(** *** Counting the routed nodes *)

Definition routed (st : rstate) (b : Z) : bool := negb (R st b =? 0).
Definition nrouted (st : rstate) : Z :=
  Z.of_nat (length (List.filter (routed st) (seqZ master (last - master)))).

Lemma routed_true st b : routed st b = true ↔ R st b ≠ 0.
Proof. unfold routed. zcases; naive_solver. Qed.
Lemma routed_false st b : routed st b = false ↔ R st b = 0.
Proof. unfold routed. zcases; naive_solver. Qed.

Lemma elem_nodes b : b ∈ seqZ master (last - master) ↔ master <= b < last.
Proof. rewrite elem_of_seqZ. lia. Qed.

(** [a] itself is never routed, so at most all the others are. *)
Lemma nrouted_max st : R st a = 0 → nrouted st <= last - master - 1.
Proof using Ha.
  intros Hself. unfold nrouted.
  pose proof (length_filter_update (routed st) (fun b => (b =? a) || routed st b)
    (seqZ master (last - master)) a) as Hu.
  pose proof (List.filter_length_le (fun b => (b =? a) || routed st b)
    (seqZ master (last - master))) as Hle. rewrite length_seqZ in Hle.
  rewrite Hu in Hle; [lia| | | | |].
  - apply NoDup_seqZ.
  - by apply elem_nodes.
  - by apply routed_false.
  - by rewrite Z.eqb_refl.
  - intros y Hy. by rewrite (proj2 (Z.eqb_neq _ _) Hy).
Qed.

Lemma nrouted_full st b :
  R st a = 0 → last - master - 1 <= nrouted st → master <= b < last → b ≠ a → R st b ≠ 0.
Proof using Ha.
  intros Hself Hn Hb Hne. apply routed_true.
  assert (Hall : ((b =? a) || routed st b) = true).
  { apply (length_filter_full (fun b => (b =? a) || routed st b) (seqZ master (last - master)));
      [|by apply elem_nodes].
    rewrite (length_filter_update (routed st) _ _ a), length_seqZ.
    - unfold nrouted in Hn. lia.
    - apply NoDup_seqZ.
    - by apply elem_nodes.
    - by apply routed_false.
    - by rewrite Z.eqb_refl.
    - intros y Hy. by rewrite (proj2 (Z.eqb_neq _ _) Hy). }
  by rewrite (proj2 (Z.eqb_neq _ _) Hne) in Hall.
Qed.

(** *** One turn of the loop *)

(** Where a turn that started in [st0] is, having expanded the links [seen]. *)
Record sweep (st0 : rstate) (seen : Z → Z → Prop) (st : rstate) : Prop := {
  s_dims : dims st;
  s_nt0 : neighbour_table0 st = neighbour_table0 st0;
  s_self : R st a = 0;
  s_old : ∀ b, R st0 b ≠ 0 → R st b = R st0 b;
  s_new : ∀ b, 0 <= b < AXIOM_NODES_NUM → R st0 b = 0 → R st b ≠ 0 →
    b ≠ a ∧ aget (neighbour_table1 st) b = b ∧
    ∃ f, master <= f < last ∧ R st0 f ≠ 0 ∧ adj topology f b ∧ R st b = R st0 f;
  s_nt1 : nt_ok st (neighbour_table1 st);
  s_seen : ∀ f i s, seen f i → edge topology f i s → s = a ∨ R st s ≠ 0;
  s_count : neighbours_counter st0 = nrouted st0 → neighbours_counter st = nrouted st
}.

Lemma nrouted_add st s v cnt nt0 nt1 :
  dims st → master <= s < last → R st s = 0 → v ≠ 0 →
  nrouted (mk_rstate (mset (routing_tables st) a s v) nt0 nt1 cnt) = nrouted st + 1.
Proof using TO Ha.
  intros [Hrt _ _] Hs Hz Hv. unfold nrouted.
  pose proof (in_nodes a Ha). pose proof (in_nodes s Hs).
  rewrite (length_filter_update (routed st) _ _ s); [lia| | | | |].
  - apply NoDup_seqZ.
  - by apply elem_nodes.
  - by apply routed_false.
  - apply routed_true. cbn. by erewrite mget_mset_eq.
  - intros y Hy. unfold routed. cbn. by erewrite mget_mset_ne by (done || naive_solver).
Qed.

(** The [uint8_t] counter does not wrap when one more node is routed. *)
Lemma count_fits st s v :
  dims st → R st a = 0 → master <= s < last → R st s = 0 → s ≠ a →
  0 < v → u8 (nrouted st + 1) = nrouted st + 1.
Proof using TO Ha COK.
  intros Hd Hself Hs Hz Hsa Hv. apply u8_small.
  pose proof (nrouted_max (mk_rstate (mset (routing_tables st) a s v) [] [] 0)) as Hmax.
  rewrite nrouted_add in Hmax by (done || lia). cbn in Hmax.
  pose proof (in_nodes a Ha). pose proof (in_nodes s Hs).
  erewrite mget_mset_ne in Hmax by (apply Hd || done || naive_solver). specialize (Hmax Hself).
  pose proof nodes_num_range. destruct TO. unfold nrouted in *. lia.
Qed.

Lemma sweep_weaken st0 (seen seen' : Z → Z → Prop) st :
  (∀ f i, seen' f i → seen f i) → sweep st0 seen st → sweep st0 seen' st.
Proof. intros Himp []. split; eauto. Qed.

(** Expanding interface [j] of the routed node [f]. *)
Lemma sweep_if st0 seen f j st :
  master <= f < last → R st0 f ≠ 0 → 0 <= j < IFN → sweep st0 seen st →
  sweep st0 (fun f' i => seen f' i ∨ f' = f ∧ i = j) (second_if a topology f j st).
Proof using TO Ha COK.
  intros Hf Hr0 Hj [Hd Hnt0 Hself Hold Hnew Hnt1 Hseen Hcnt]. unfold second_if.
  pose proof (in_nodes a Ha) as Ha'. destruct (edge_dec f j Hj) as [E|E].
  { rewrite E, Z.eqb_refl. cbn. split; try done.
    intros f' i s [?|[-> ->]] He; [by eapply Hseen|]. destruct He as (_ & <- & ?). done. }
  set (s := mget topology f j) in *.
  assert (Hs : master <= s < last) by by eapply to_closed.
  assert (Huniq : ∀ s', edge topology f j s' → s' = s) by (by intros s' (_ & <- & _)).
  rewrite (proj2 (Z.eqb_neq _ _) (not_null s Hs)). cbn.
  destruct (Z.eqb_spec s a) as [Hsa|Hsa].
  { split; try done. intros f' i s' [?|[-> ->]] He; [by eapply Hseen|]. left. by rewrite (Huniq s'). }
  unfold AXIOM_NULL_RT_INTERFACE. destruct (Z.eqb_spec (R st s) 0) as [Hz|Hnz].
  2:{ split; try done. intros f' i s' [?|[-> ->]] He; [by eapply Hseen|]. right. by rewrite (Huniq s'). }
  pose proof (in_nodes s Hs) as Hs'. destruct Hd as [Hrt Hn0 Hn1].
  assert (HRf : R st f = R st0 f) by by apply Hold.
  assert (Hz0 : R st0 s = 0).
  { destruct (decide (R st0 s = 0)); [done|]. by rewrite Hold in Hz. }
  assert (Hget : ∀ b, mget (mset (routing_tables st) a s (R st f)) a b =
    if decide (s = b) then R st0 f else R st b).
  { intros b. erewrite mget_mset by done. rewrite HRf.
    destruct (decide (s = b)); [by rewrite decide_True | by rewrite decide_False by naive_solver]. }
  split; cbn.
  - split; cbn; [by apply mdim_mset | done | by rewrite alen_aset].
  - done.
  - by rewrite Hget, decide_False.
  - intros b Hb. rewrite Hget, decide_False by congruence. by apply Hold.
  - intros b Hb Hb0. rewrite Hget. rewrite aget_aset by lia. case_decide as Eb.
    + subst b. intros _. split; [done|]. split; [done|]. exists f. split; [done|]. split; [done|]. split; [by exists j | done].
    + by apply Hnew.
  - intros g Hg. rewrite aget_aset by lia. rewrite Hget. case_decide as Eg.
    + subst g. done.
    + by apply Hnt1.
  - intros f' i s' Hs1 He. rewrite Hget. case_decide; [by right|].
    destruct Hs1 as [?|[-> ->]]; [by eapply Hseen|]. apply Huniq in He. congruence.
  - intros H0. rewrite nrouted_add by (done || by rewrite ?HRf).
    rewrite Hcnt by done. apply (count_fits st s 1); done.
Qed.

(** Expanding all interfaces of the node at index [n] of the frontier. *)
Lemma sweep_node st0 seen n st :
  nt_ok st0 (neighbour_table0 st0) → master <= n < last → sweep st0 seen st →
  sweep st0 (fun f i => seen f i ∨
      f = n ∧ 0 <= i < IFN ∧ aget (neighbour_table0 st0) n ≠ AXIOM_NULL_NODE)
    (second_node a topology n st).
Proof using TO Ha COK.
  intros Hok Hn Hsw. unfold second_node. rewrite (s_nt0 _ _ _ Hsw).
  destruct (Z.eqb_spec (aget (neighbour_table0 st0) n) AXIOM_NULL_NODE) as [E|E].
  - eapply sweep_weaken; [|exact Hsw]. naive_solver.
  - destruct (Hok n Hn E) as [-> Hr].
    eapply sweep_weaken; [|apply (for_z_ind (fun j st =>
      sweep st0 (fun f i => seen f i ∨ f = n ∧ 0 <= i < j) st) 0 IFN)].
    + naive_solver.
    + pose proof interfaces_num_range. rewrite interfaces_max_num. lia.
    + eapply sweep_weaken; [|exact Hsw]. naive_solver lia.
    + intros j s Hj Hs. eapply sweep_weaken; [|by apply sweep_if].
      intros f i [?|[-> ?]]; [by left; left|].
      destruct (decide (i = j)); [by right | left; right; split; [done|lia]].
Qed.

Lemma sweep_start k st : bfs k st → sweep st (fun _ _ => False) st.
Proof. intros []. by split. Qed.

Lemma sweep_all k st : bfs k st →
  sweep st (fun f i => master <= f < last ∧ 0 <= i < IFN ∧
      aget (neighbour_table0 st) f ≠ AXIOM_NULL_NODE)
    (for_z master last (second_node a topology) st).
Proof using TO Ha COK.
  intros Hb.
  apply (for_z_ind (fun n s => sweep st (fun f i => master <= f < n ∧ 0 <= i < IFN ∧
      aget (neighbour_table0 st) f ≠ AXIOM_NULL_NODE) s)).
  - lia.
  - eapply sweep_weaken; [|by eapply sweep_start]. naive_solver lia.
  - intros n s Hn Hs.
    eapply sweep_weaken; [|by apply sweep_node; [apply b_nt0 with k| |]].
    intros f i (? & ? & ?). destruct (decide (f = n)) as [->|]; [by right|].
    left. split_and!; [lia|lia|lia|lia|done].
Qed.

(** The routed nodes of [st0] keep their place in the search. *)
Lemma sweep_bfs k st0 st : bfs k st0 →
  sweep st0 (fun f i => master <= f < last ∧ 0 <= i < IFN ∧
      aget (neighbour_table0 st0) f ≠ AXIOM_NULL_NODE) st →
  bfs (S k) (mk_rstate (routing_tables st) (neighbour_table1 st) (neighbour_table1 st)
               (neighbours_counter st)).
Proof using TO Ha.
  intros [Hd Hself Hsound Hlevel Hnt0 Hnt1 Hclosed] [Hd' Hn0 Hself' Hold Hnew Hok1 Hseen _].
  assert (Hkeep : ∀ b, R st0 b ≠ 0 → R st b ≠ 0) by (intros b Hb; by rewrite Hold).
  assert (Hexp : ∀ f s, master <= f < last → R st0 f ≠ 0 → adj topology f s → s = a ∨ R st s ≠ 0).
  { intros f s Hf Hr Hadj.
    destruct (decide (aget (neighbour_table0 st0) f = AXIOM_NULL_NODE)) as [E|E].
    - destruct (Hclosed f s Hf Hr E Hadj); [by left | right; by apply Hkeep].
    - destruct Hadj as [i Hi]. eapply Hseen; [|exact Hi].
      pose proof (proj1 Hi). split_and!; [lia|lia|lia|lia|done]. }
  split; cbn; try done.
  - by destruct Hd'.
  - intros b Hb Hr. destruct (decide (R st0 b = 0)) as [E|E].
    + destruct (Hnew b Hb E Hr) as (Hba & _ & f & Hf & Hrf & Hfb & ->).
      split; [by eapply adj_range|].
      destruct (Hsound f (in_nodes f Hf) Hrf) as (_ & Hbyte & d & Hdk & Hdist & Hvia).
      split; [done|]. exists (S d). split; [lia|].
      assert (Hfar : ∀ m, (m <= S k)%nat → ¬ walk topology a m b).
      { intros m Hm Hw. by destruct (Hlevel m b Hm Hw). }
      split; [split|].
      * eapply walk_snoc; [apply Hdist | done].
      * intros m Hm. apply Hfar. lia.
      * intros i Hi Ht. eapply via_snoc; [by apply Hvia | done].
    + rewrite Hold by done. destruct (Hsound b Hb E) as (? & ? & d & ? & ? & ?).
      split; [done|]. split; [done|]. exists d. split; [lia|done].
  - intros d b Hdk Hw. inversion Hw as [|n u ? Hu Huv]; subst; [by left|].
    destruct (Hlevel n u ltac:(lia) Hu) as [->|Hru].
    + destruct (Hlevel 1%nat b ltac:(lia)); [|by left | right; by apply Hkeep].
      eapply walk_snoc; [apply walk_nil|done].
    + eapply Hexp; [|done..]. by eapply walk_range.
  - intros f s Hf Hr Hn Hadj. destruct (decide (R st0 f = 0)) as [E|E].
    + destruct (Hnew f (in_nodes f Hf) E Hr) as (_ & Hf1 & _).
      rewrite Hn in Hf1. by destruct (not_null f Hf).
    + by eapply Hexp.
Qed.

Lemma second_level_bfs k st : bfs k st → bfs (S k) (second_level a topology master last st).
Proof using TO Ha COK. intros Hb. eapply sweep_bfs; [done | by eapply sweep_all]. Qed.

Lemma second_level_count k st : bfs k st →
  neighbours_counter st = nrouted st →
  let st' := second_level a topology master last st in neighbours_counter st' = nrouted st'.
Proof using TO Ha COK. intros Hb Hc. exact (s_count _ _ _ (sweep_all k st Hb) Hc). Qed.

Lemma second_level_old k st b : bfs k st → R st b ≠ 0 →
  R (second_level a topology master last st) b ≠ 0.
Proof using TO Ha COK.
  intros Hb Hr. change (R (for_z master last (second_node a topology) st) b ≠ 0).
  by rewrite (s_old _ _ _ (sweep_all k st Hb)).
Qed.

Lemma second_level_mono k st : bfs k st →
  nrouted st <= nrouted (second_level a topology master last st).
Proof using TO Ha COK.
  intros Hb. unfold nrouted. apply Nat2Z.inj_le, length_filter_mono.
  intros y _. rewrite !routed_true. by eapply second_level_old.
Qed.

(** If a turn routes no new node, everything reachable was routed. *)
Lemma quiet_turn_closed k st : bfs k st →
  (∀ b, master <= b < last → R (second_level a topology master last st) b ≠ 0 → R st b ≠ 0) →
  ∀ n b, walk topology a n b → b = a ∨ R st b ≠ 0.
Proof using TO Ha COK.
  intros Hb Hquiet. induction 1 as [|n u b Hw IH Hub]; [by left|].
  assert (Hbr : master <= b < last) by by eapply walk_range, walk_snoc.
  destruct IH as [->|Hu].
  - destruct (b_level _ _ Hb 1%nat b ltac:(lia)); [|by left|by right].
    eapply walk_snoc; [apply walk_nil|done].
  - assert (Hur : master <= u < last) by by eapply walk_range.
    destruct (decide (aget (neighbour_table0 st) u = AXIOM_NULL_NODE)) as [E|E];
      [by apply (b_closed _ _ Hb u)|].
    destruct Hub as [i Hi]. pose proof (proj1 Hi).
    destruct (s_seen _ _ _ (sweep_all k st Hb) u i b);
      [split; [done | split; [lia|done]] | done | by left |].
    right. by apply Hquiet.
Qed.

(** If not all the other nodes are routed, one of them is not. *)
Lemma unrouted_exists st : R st a = 0 → nrouted st < last - master - 1 →
  ∃ b, master <= b < last ∧ b ≠ a ∧ R st b = 0.
Proof using Ha.
  intros Hself Hlt.
  destruct (decide (Exists (fun b => b ≠ a ∧ R st b = 0) (seqZ master (last - master))))
    as [Hex|Hnex].
  { apply Exists_exists in Hex as (b & Hin & ? & ?). apply elem_nodes in Hin. by exists b. }
  assert (Hf : length (List.filter (fun b => (b =? a) || routed st b)
    (seqZ master (last - master))) = length (seqZ master (last - master))).
  { rewrite List.forallb_filter_id; [done|]. apply List.forallb_forall. intros b Hin.
    apply list_elem_of_In in Hin. destruct (Z.eqb_spec b a); [done|]. cbn.
    apply routed_true. intros E. apply Hnex, Exists_exists. by exists b. }
  rewrite (length_filter_update (routed st) _ _ a), length_seqZ in Hf;
    [unfold nrouted in Hlt; lia | apply NoDup_seqZ | by apply elem_nodes
    | by apply routed_false | by rewrite Z.eqb_refl |].
  intros y Hy. by rewrite (proj2 (Z.eqb_neq _ _) Hy).
Qed.

Lemma second_level_progress k st : bfs k st → connected topology master last a →
  nrouted st < last - master - 1 →
  nrouted st < nrouted (second_level a topology master last st).
Proof using TO Ha COK.
  intros Hb Hconn Hlt.
  destruct (decide (Exists (fun b => R st b = 0 ∧ R (second_level a topology master last st) b ≠ 0)
    (seqZ master (last - master)))) as [Hex|Hno].
  - apply Exists_exists in Hex as (b & Hin & H0 & H1).
    unfold nrouted. apply Nat2Z.inj_lt. apply length_filter_strict with b; [|done| |].
    + intros y _. rewrite !routed_true. by eapply second_level_old.
    + by apply routed_false.
    + by apply routed_true.
  - exfalso. destruct (unrouted_exists st (b_self _ _ Hb) Hlt) as (b & Hbr & Hne & Hz).
    destruct (Hconn b Hbr) as [n Hn].
    destruct (quiet_turn_closed k st Hb) with n b; [|done..].
    intros b' Hb' Hr Hz'. apply Hno, Exists_exists. exists b'.
    split; [by apply elem_nodes | done].
Qed.

(** *** The loop *)

Lemma second_levels_bfs fuel k st st' : bfs k st →
  second_levels fuel a topology master last st = Some st' → ∃ k', bfs k' st'.
Proof using TO Ha COK.
  induction fuel as [|fuel IH] in k, st |- *; [done|]. intros Hb. cbn.
  pose proof (second_level_bfs k st Hb). case_match; [by apply (IH (S k))|].
  intros [= <-]. eauto.
Qed.

Lemma second_levels_total fuel k st : bfs k st → connected topology master last a →
  neighbours_counter st = nrouted st →
  last - master - nrouted st <= Z.of_nat fuel → (0 < fuel)%nat →
  ∃ k' st', second_levels fuel a topology master last st = Some st' ∧ bfs k' st' ∧
    last - master - 1 <= nrouted st'.
Proof using TO Ha COK.
  intros Hb Hconn Hcnt Hfuel H0. induction fuel as [|fuel IH] in k, st, Hb, Hcnt, Hfuel, H0 |- *; [lia|].
  cbn [second_levels]. pose proof (second_level_bfs k st Hb) as Hb'.
  pose proof (second_level_count k st Hb Hcnt) as Hc'. cbv zeta in Hc' |- *.
  pose proof (second_level_mono k st Hb) as Hm.
  destruct (Z.ltb_spec (neighbours_counter (second_level a topology master last st))
    (last - master - 1)) as [Hlt|Hge].
  - pose proof (second_level_progress k st Hb Hconn ltac:(lia)).
    apply (IH (S k)); [done|done|lia|lia].
  - eexists _, _. split; [done|]. split; [done|lia].
Qed.

(** With single links the counter counts the routed nodes from the start. *)
Lemma level1_count st : single_links topology a → dims st →
  let st' := axiom_compute_neighbours_route a topology (axiom_init_routing_neighbour a st) in
  neighbours_counter st' = nrouted st'.
Proof using TO Ha COK.
  intros Hsl Hd. destruct (init_routing_spec st Hd) as (Hd' & Hz & _).
  cbn. unfold axiom_compute_neighbours_route. pose proof interfaces_num_range.
  apply (for_z_ind (fun j s => level1 j s ∧ neighbours_counter s = nrouted s)).
  - rewrite interfaces_max_num. lia.
  - split.
    + apply (level1_start st Hd).
    + unfold nrouted. cbn. rewrite (List.filter_ext_in _ (fun _ => false)).
      * by rewrite List.filter_false.
      * intros b Hb. apply list_elem_of_In, elem_nodes, in_nodes in Hb.
        apply routed_false. cbn. apply (Hz b Hb).
  - intros j s Hj [Hl Hc]. split; [by apply level1_step|].
    unfold neighbour_if. destruct (edge_dec a j) as [E|E]; [lia|by rewrite E, Z.eqb_refl|].
    set (n := mget topology a j) in *. pose proof E as (_ & _ & Hn).
    assert (Hnr : master <= n < last) by by eapply to_closed.
    pose proof (in_nodes n Hnr) as Hn'. pose proof (ifn_range j ltac:(lia)) as Hj8.
    rewrite (proj2 (Z.eqb_neq _ _) Hn). cbn.
    assert (Hbits := l_bits _ _ Hl). pose proof (l_byte _ _ Hl n Hn') as Hby.
    assert (Hnz : ∀ b, 0 <= b < AXIOM_NODES_NUM → (∀ i, edge topology a i b → ¬ i < j) → R s b = 0).
    { intros b Hbr He. pose proof (l_byte _ _ Hl b Hbr).
      destruct (decide (R s b = 0)) as [|Hr]; [done|].
      destruct (nonzero_has_bit (R s b)) as (i & Hi & Ht); [lia|].
      apply Hbits in Ht as [? ?]; [|done..]. by destruct (He i). }
    assert (Hrn : R s n = 0).
    { apply (Hnz n Hn'). intros i Hi. rewrite (Hsl i j n Hi E). lia. }
    rewrite nrouted_add; [|by destruct Hl|done|done|by apply or_bit_nonzero].
    rewrite Hc. apply (count_fits s n 1); [by destruct Hl | | done | done | | lia].
    2:{ intros ->. by destruct (to_noself _ _ _ TO a j Ha). }
    { apply (Hnz a (in_nodes a Ha)). intros i Hi. by destruct (to_noself _ _ _ TO a i Ha). }
Qed.
End Bfs.

(** ** Unreachable nodes *)

Section Diverge.
Context `{C : NicConsts} {COK : NicConstsOk}.
Context (topology : list (list Z)) (master last a : Z).
Context (TO : topo_ok topology master last) (Ha : master <= a < last).
Context (b : Z) (Hb : master <= b < last) (Hba : b ≠ a).
Context (Hcut : ∀ n, ¬ walk topology a n b).

(** A node that is not reachable is never routed, so the count stays short. *)
Lemma unreachable_short k st :
  bfs topology master last a k st → nrouted master last a st < last - master - 1.
Proof using Ha Hb Hba Hcut TO.
  intros Hbfs.
  destruct (decide (last - master - 1 <= nrouted master last a st)) as [Hge|]; [|lia].
  exfalso. pose proof (nrouted_full master last a Ha st b (b_self _ _ _ _ _ _ Hbfs) Hge Hb Hba) as Hr.
  destruct (b_sound _ _ _ _ _ _ Hbfs b) as (_ & _ & d & _ & [Hw _] & _); [|done|].
  - by eapply in_nodes.
  - by apply (Hcut d).
Qed.

Lemma second_levels_diverges fuel k st :
  bfs topology master last a k st → neighbours_counter st = nrouted master last a st →
  second_levels fuel a topology master last st = None.
Proof using Ha Hb Hba Hcut TO COK.
  induction fuel as [|fuel IH] in k, st |- *; [done|]. intros Hbfs Hc.
  cbn [second_levels]. cbv zeta.
  pose proof (second_level_bfs _ _ _ _ TO Ha k st Hbfs) as Hbfs'.
  pose proof (second_level_count _ _ _ _ TO Ha k st Hbfs Hc) as Hc'. cbv zeta in Hc'.
  rewrite (proj2 (Z.ltb_lt _ _)); [by apply (IH (S k))|].
  rewrite Hc'. by apply (unreachable_short (S k)).
Qed.
End Diverge.

(** ** All nodes *)

(** [mask] is a set of interfaces of [a], each the start of a shortest path to
    [b]; it is not empty. *)
Definition shortest_route `{C : NicConsts} (topology : list (list Z)) (a b mask : Z) : Prop :=
  0 < mask < 256 ∧ ∃ d, dist topology a d b ∧
    ∀ i, 0 <= i → Z.testbit mask i = true → via topology a i d b.

Section Tables.
Context `{C : NicConsts} {COK : NicConstsOk}.
Context (topology : list (list Z)) (master last : Z).
Context (TO : topo_ok topology master last).

(** Only the row of the current node is written. *)
Definition same_rows (a : Z) (st st' : rstate) : Prop :=
  ∀ r, r ≠ a → aget (routing_tables st') r = aget (routing_tables st) r.

Lemma same_rows_refl a st : same_rows a st st.
Proof. done. Qed.
Lemma same_rows_trans a st1 st2 st3 :
  same_rows a st1 st2 → same_rows a st2 st3 → same_rows a st1 st3.
Proof. intros H1 H2 r Hr. by rewrite H2, H1. Qed.

Lemma same_rows_loop a x y body st :
  (∀ i s, same_rows a s (body i s)) → same_rows a st (for_z x y body st).
Proof.
  intros Hb. apply (for_z_inv (same_rows a st)); [apply same_rows_refl|].
  intros i s _ Hs. by eapply same_rows_trans.
Qed.

Lemma same_rows_neighbour_if a i st : same_rows a st (neighbour_if a topology i st).
Proof.
  unfold neighbour_if. case_match; [done|]. intros r Hr. cbn. by apply aget_mset_other.
Qed.

Lemma same_rows_second_level a st : same_rows a st (second_level a topology master last st).
Proof.
  unfold second_level. apply (same_rows_loop a master last (second_node a topology)).
  intros n s. unfold second_node. case_match; [done|]. apply same_rows_loop.
  intros i s'. unfold second_if. repeat case_match; try done.
  intros r Hr. cbn. by apply aget_mset_other.
Qed.

Lemma same_rows_second_levels fuel a st st' :
  second_levels fuel a topology master last st = Some st' → same_rows a st st'.
Proof.
  induction fuel as [|fuel IH] in st |- *; [done|]. cbn [second_levels]. cbv zeta.
  case_match; intros Heq; simplify_eq; [eapply same_rows_trans; [|by apply IH]|];
    apply same_rows_second_level.
Qed.

Lemma compute_node_rows fuel a st st' : master <= a < last → dims st →
  compute_node fuel topology master last a st = Some st' → same_rows a st st'.
Proof using TO COK.
  intros Ha Hd Hc. eapply same_rows_trans; [|by eapply same_rows_second_levels].
  eapply same_rows_trans; [|apply same_rows_loop, same_rows_neighbour_if].
  intros r Hr. cbn. by apply (init_routing_spec topology master last a TO Ha st Hd).
Qed.

Lemma compute_node_sound fuel a st st' : master <= a < last → dims st →
  compute_node fuel topology master last a st = Some st' →
  ∃ k, bfs topology master last a k st'.
Proof using TO COK.
  intros Ha Hd. unfold compute_node. apply (second_levels_bfs _ _ _ _ TO Ha _ 0).
  apply (level1_bfs _ _ _ _ TO Ha). by apply (level1_all _ master last).
Qed.

Lemma compute_node_total fuel a st : master <= a < last → dims st →
  single_links topology a → connected topology master last a →
  last - master <= Z.of_nat fuel →
  ∃ k st', compute_node fuel topology master last a st = Some st' ∧
    bfs topology master last a k st' ∧ last - master - 1 <= nrouted master last a st'.
Proof using TO COK.
  intros Ha Hd Hsl Hconn Hf. unfold compute_node.
  apply (second_levels_total _ _ _ _ TO Ha _ 0); [|done| | |lia].
  - apply (level1_bfs _ _ _ _ TO Ha). by apply (level1_all _ master last).
  - by apply level1_count.
  - unfold nrouted. lia.
Qed.

(** What the finished row of [a] says. *)
Definition row_sound (a : Z) (rts : list (list Z)) : Prop :=
  mget rts a a = 0 ∧
  ∀ b, 0 <= b < AXIOM_NODES_NUM → mget rts a b ≠ 0 →
    master <= b < last ∧ shortest_route topology a b (mget rts a b).
Definition row_complete (a : Z) (rts : list (list Z)) : Prop :=
  ∀ b, master <= b < last → b ≠ a → mget rts a b ≠ 0.

Lemma bfs_row_sound a k st :
  bfs topology master last a k st → row_sound a (routing_tables st).
Proof.
  intros []. split; [done|]. intros b Hb Hr.
  destruct (b_sound0 b Hb Hr) as (? & ? & d & ? & ? & ?).
  split; [done|]. split; [done|]. by exists d.
Qed.

Lemma row_sound_ext a rts rts' : aget rts' a = aget rts a → row_sound a rts → row_sound a rts'.
Proof. unfold row_sound, mget. by intros ->. Qed.
Lemma row_complete_ext a rts rts' :
  aget rts' a = aget rts a → row_complete a rts → row_complete a rts'.
Proof. unfold row_complete, mget. by intros ->. Qed.

Lemma compute_nodes_rows fuel nodes st st' : dims st →
  (∀ a, a ∈ nodes → master <= a < last) →
  compute_nodes fuel topology master last nodes st = Some st' →
  dims st' ∧ ∀ r, r ∉ nodes → aget (routing_tables st') r = aget (routing_tables st) r.
Proof using TO COK.
  induction nodes as [|a nodes IH] in st |- *; cbn.
  - intros ? _ [= <-]. done.
  - intros Hd Hin. destruct (compute_node _ _ _ _ _ _) as [st1|] eqn:E; [cbn|done].
    intros Hc. assert (Ha : master <= a < last) by (apply Hin; set_solver).
    destruct (compute_node_sound _ _ _ _ Ha Hd E) as [k Hb].
    destruct (IH st1 (b_dims _ _ _ _ _ _ Hb) ltac:(set_solver) Hc) as [Hd' Hr].
    split; [done|]. intros r Hr'. rewrite Hr by set_solver.
    apply (compute_node_rows _ _ _ _ Ha Hd E). set_solver.
Qed.

Lemma compute_nodes_sound fuel nodes st st' : dims st → NoDup nodes →
  (∀ a, a ∈ nodes → master <= a < last) →
  compute_nodes fuel topology master last nodes st = Some st' →
  ∀ a, a ∈ nodes → row_sound a (routing_tables st').
Proof using TO COK.
  intros Hd Hnd. induction Hnd as [|a nodes Ha0 Hnd IH] in st, Hd |- *; cbn; [set_solver|].
  intros Hin. destruct (compute_node _ _ _ _ _ _) as [st1|] eqn:E; [cbn|done].
  intros Hc. assert (Ha : master <= a < last) by (apply Hin; set_solver).
  destruct (compute_node_sound _ _ _ _ Ha Hd E) as [k Hb]. pose proof (b_dims _ _ _ _ _ _ Hb) as Hd1.
  intros x [->|Hx]%elem_of_cons; [|by apply (IH st1 Hd1); [set_solver|..]].
  eapply row_sound_ext; [|by eapply bfs_row_sound].
  destruct (compute_nodes_rows fuel nodes st1 st' Hd1 ltac:(set_solver) Hc) as [_ Hr]. by apply Hr.
Qed.

Lemma compute_nodes_total fuel nodes st : dims st → NoDup nodes →
  (∀ a, a ∈ nodes → master <= a < last) →
  (∀ a, a ∈ nodes → single_links topology a ∧ connected topology master last a) →
  last - master <= Z.of_nat fuel →
  ∃ st', compute_nodes fuel topology master last nodes st = Some st' ∧
    ∀ a, a ∈ nodes → row_complete a (routing_tables st').
Proof using TO COK.
  intros Hd Hnd Hin Hok Hf. induction Hnd as [|a nodes Ha0 Hnd IH] in st, Hd, Hin, Hok |- *; cbn.
  { exists st. split; [done|set_solver]. }
  assert (Ha : master <= a < last) by (apply Hin; set_solver).
  destruct (Hok a ltac:(set_solver)) as [Hsl Hcn].
  destruct (compute_node_total fuel a st Ha Hd Hsl Hcn Hf) as (k & st1 & -> & Hb & Hn). cbn.
  pose proof (b_dims _ _ _ _ _ _ Hb) as Hd1.
  destruct (IH st1 Hd1 ltac:(set_solver) ltac:(set_solver)) as (st' & Hc & Hall).
  exists st'. split; [done|]. intros x [->|Hx]%elem_of_cons; [|by apply Hall].
  apply (row_complete_ext a (routing_tables st1)).
  - destruct (compute_nodes_rows fuel nodes st1 st' Hd1 ltac:(set_solver) Hc) as [_ Hr]. by apply Hr.
  - intros b Hbr Hne. eapply nrouted_full; [done| |done..]. by eapply b_self.
Qed.
End Tables.

(** ** The theorems *)

Section Theorems.
Context `{C : NicConsts} {COK : NicConstsOk}.
Implicit Types (topology rts : list (list Z)).

(** The computation ends with all rows sound and complete. *)
Lemma tables_total fuel topology rts nt0 nt1 master last :
  topo_ok topology master last →
  (∀ a, master <= a < last → single_links topology a ∧ connected topology master last a) →
  mdim AXIOM_NODES_NUM AXIOM_NODES_NUM rts →
  alen nt0 = AXIOM_NODES_NUM → alen nt1 = AXIOM_NODES_NUM →
  last - master <= Z.of_nat fuel →
  ∃ rts', axiom_compute_routing_tables fuel topology rts nt0 nt1 master last = Some rts' ∧
    mdim AXIOM_NODES_NUM AXIOM_NODES_NUM rts' ∧
    ∀ a, master <= a < last → row_sound topology master last a rts' ∧ row_complete master last a rts'.
Proof using COK.
  intros TO Hok Hrt Hn0 Hn1 Hf. unfold axiom_compute_routing_tables.
  set (st := mk_rstate rts nt0 nt1 0). assert (Hd : dims st) by done.
  assert (Hin : ∀ a, a ∈ seqZ master (last - master) → master <= a < last)
    by (intros a; rewrite elem_of_seqZ; lia).
  destruct (compute_nodes_total _ _ _ TO fuel _ st Hd (NoDup_seqZ _ _) Hin) as (st' & Hc & Hcompl).
  { intros a Ha. by apply Hok, Hin. }
  { done. }
  rewrite Hc. eexists. split; [done|].
  destruct (compute_nodes_rows _ _ _ TO fuel _ st st' Hd Hin Hc) as [Hd' _]. split; [apply Hd'|].
  intros a Ha. assert (Ha' : a ∈ seqZ master (last - master)) by (rewrite elem_of_seqZ; lia).
  split; [|by apply Hcompl].
  apply (compute_nodes_sound _ _ _ TO fuel _ st st' Hd (NoDup_seqZ _ _) Hin Hc a Ha').
Qed.

(** C1. Shortest routes, total: on a well-formed topology in which all nodes are
    connected and no two interfaces of a node lead to the same neighbour,
    the computation ends (one turn of the loop per node suffices as fuel) and
    each entry of each row is a non-empty set of interfaces every one of which
    starts a shortest path to the destination; no row routes its own node. *)
Theorem compute_routing_tables_shortest fuel topology rts nt0 nt1 master last :
  topo_ok topology master last →
  (∀ a, master <= a < last → single_links topology a ∧ connected topology master last a) →
  mdim AXIOM_NODES_NUM AXIOM_NODES_NUM rts →
  alen nt0 = AXIOM_NODES_NUM → alen nt1 = AXIOM_NODES_NUM →
  last - master <= Z.of_nat fuel →
  ∃ rts', axiom_compute_routing_tables fuel topology rts nt0 nt1 master last = Some rts' ∧
    ∀ a b, master <= a < last → master <= b < last →
      if decide (a = b) then mget rts' a b = 0
      else shortest_route topology a b (mget rts' a b).
Proof using COK.
  intros TO Hok Hrt Hn0 Hn1 Hf.
  destruct (tables_total fuel topology rts nt0 nt1 master last TO Hok Hrt Hn0 Hn1 Hf)
    as (rts' & Hc & _ & Hrows).
  exists rts'. split; [done|]. intros a b Ha Hb. destruct (Hrows a Ha) as [[Hself Hs] Hcompl].
  case_decide; [by subst|]. apply Hs; [destruct TO; lia|]. by apply Hcompl.
Qed.

(** C2. Soundness with any links: whatever the topology (parallel links
    included), every entry the computation leaves non-zero names interfaces
    that all start shortest paths to the destination. *)
Theorem compute_routing_tables_sound fuel topology rts nt0 nt1 master last rts' a b :
  topo_ok topology master last →
  mdim AXIOM_NODES_NUM AXIOM_NODES_NUM rts →
  alen nt0 = AXIOM_NODES_NUM → alen nt1 = AXIOM_NODES_NUM →
  axiom_compute_routing_tables fuel topology rts nt0 nt1 master last = Some rts' →
  master <= a < last → 0 <= b < AXIOM_NODES_NUM → mget rts' a b ≠ 0 →
  master <= b < last ∧ shortest_route topology a b (mget rts' a b).
Proof using COK.
  intros TO Hrt Hn0 Hn1 Hc Ha Hb Hr. unfold axiom_compute_routing_tables in Hc.
  destruct (compute_nodes _ _ _ _ _ _) as [st'|] eqn:E; [|done]. cbn in Hc. simplify_eq.
  apply (compute_nodes_sound _ _ _ TO fuel _ (mk_rstate rts nt0 nt1 0) st'
    ltac:(done) (NoDup_seqZ _ _)) with a in E; [|intros x; rewrite elem_of_seqZ; lia
    |rewrite elem_of_seqZ; lia]. by apply E.
Qed.

(** C3. The loop does not end on a cut network: if the master has single links
    and some discovered node is not reachable from it, no amount of fuel makes
    the computation return. *)
Theorem compute_routing_tables_diverges fuel topology rts nt0 nt1 master last b :
  topo_ok topology master last →
  mdim AXIOM_NODES_NUM AXIOM_NODES_NUM rts →
  alen nt0 = AXIOM_NODES_NUM → alen nt1 = AXIOM_NODES_NUM →
  single_links topology master → master < b < last →
  (∀ n, ¬ walk topology master n b) →
  axiom_compute_routing_tables fuel topology rts nt0 nt1 master last = None.
Proof using COK.
  intros TO Hrt Hn0 Hn1 Hsl Hb Hcut. unfold axiom_compute_routing_tables.
  rewrite seqZ_cons by lia. cbn [compute_nodes].
  set (st := mk_rstate rts nt0 nt1 0). assert (Hd : dims st) by done.
  assert (Hm : master <= master < last) by lia.
  enough (compute_node fuel topology master last master st = None) as -> by done.
  apply (second_levels_diverges _ _ _ _ TO Hm b) with 0%nat; [lia|lia|done| |].
  - apply (level1_bfs _ _ _ _ TO Hm). by apply (level1_all _ master last).
  - by apply level1_count.
Qed.
End Theorems.

(** ** Evaluation *)

Section Examples.
#[local] Existing Instance nic8.
#[local] Existing Instance nic8_ok.

Definition zeros8 : list (list Z) := replicate 8 (replicate 8 0).

(** Nodes 1 - 2 - 3 on a chain: 1.if0 - 2.if1, 2.if0 - 3.if1. *)
Definition chain3 : list (list Z) :=
  [[255;255;255;255]; [2;255;255;255]; [3;1;255;255]; [255;2;255;255];
   [255;255;255;255]; [255;255;255;255]; [255;255;255;255]; [255;255;255;255]].

(** Nodes 1 = 2 - 3 - 4 where 1 and 2 are joined by two links. *)
Definition double_chain : list (list Z) :=
  [[255;255;255;255]; [2;2;255;255]; [1;1;3;255]; [2;4;255;255];
   [3;255;255;255]; [255;255;255;255]; [255;255;255;255]; [255;255;255;255]].

(** Two nodes, no link. *)
Definition cut2 : list (list Z) := replicate 8 (replicate 4 255).

Example chain3_tables :
  axiom_compute_routing_tables 3 chain3 zeros8 (replicate 8 0) (replicate 8 0) 1 4 =
  Some [replicate 8 0; [0;0;1;1;0;0;0;0]; [0;2;0;1;0;0;0;0]; [0;2;2;0;0;0;0;0];
        replicate 8 0; replicate 8 0; replicate 8 0; replicate 8 0].
Proof. vm_compute. reflexivity. Qed.

(** With a double link the counter runs ahead of the routed nodes, the loop
    stops early and node 1 gets no route to node 4, three links away. *)
Theorem parallel_links_lose_a_route :
  (∃ rts', axiom_compute_routing_tables 4 double_chain zeros8 (replicate 8 0) (replicate 8 0) 1 5
     = Some rts' ∧ mget rts' 1 4 = 0 ∧ mget rts' 1 3 = 3) ∧
  walk double_chain 1 3 4.
Proof.
  split.
  - eexists. vm_compute. done.
  - eapply walk_snoc; [eapply walk_snoc; [eapply walk_snoc; [apply walk_nil|]|]|].
    + exists 0. vm_compute. done.
    + exists 2. vm_compute. done.
    + exists 1. vm_compute. done.
Qed.

Lemma chain3_edges u i v : 1 <= u < 4 → edge chain3 u i v →
  (u = 1 ∧ i = 0 ∧ v = 2) ∨ (u = 2 ∧ i = 0 ∧ v = 3) ∨ (u = 2 ∧ i = 1 ∧ v = 1) ∨
  (u = 3 ∧ i = 1 ∧ v = 2).
Proof.
  intros Hu (Hi & Hv & Hn). assert (Hi' : 0 <= i < 4) by (cbn in Hi; lia). clear Hi.
  enum u; enum i; vm_compute in Hv; subst v; cbn in Hn; try done; lia.
Qed.

Lemma chain3_ok : topo_ok chain3 1 4.
Proof.
  split; cbn; try lia.
  - intros u i v Hu He. apply chain3_edges in He; lia.
  - intros u i Hu He. apply chain3_edges in He; lia.
Qed.

Lemma chain3_hops : adj chain3 1 2 ∧ adj chain3 2 3 ∧ adj chain3 2 1 ∧ adj chain3 3 2.
Proof. repeat split; [exists 0|exists 0|exists 1|exists 1]; vm_compute; done. Qed.

Lemma chain3_nodes a : 1 <= a < 4 → single_links chain3 a ∧ connected chain3 1 4 a.
Proof.
  intros Ha. split.
  - intros i j v Hi Hj. apply chain3_edges in Hi; [|done]. apply chain3_edges in Hj; [|done]. lia.
  - intros b Hb. destruct chain3_hops as (H12 & H23 & H21 & H32).
    enum a; enum b; first [ exists 0%nat; apply walk_nil
      | exists 1%nat; eapply walk_snoc; [apply walk_nil|eassumption]
      | exists 2%nat; eapply walk_snoc; [eapply walk_snoc; [apply walk_nil|]|]; eassumption ].
Qed.

Lemma zeros8_dim : mdim 8 8 zeros8.
Proof. split; [done|]. intros i Hi. enum i; done. Qed.

Lemma compute_routing_tables_shortest_witness :
  ∃ rts', axiom_compute_routing_tables 3 chain3 zeros8 (replicate 8 0) (replicate 8 0) 1 4 = Some rts' ∧
    shortest_route chain3 1 3 (mget rts' 1 3).
Proof.
  destruct (compute_routing_tables_shortest 3 chain3 zeros8 (replicate 8 0) (replicate 8 0) 1 4
    chain3_ok chain3_nodes zeros8_dim eq_refl eq_refl ltac:(lia)) as (rts' & Hc & Hr).
  exists rts'. split; [exact Hc|]. exact (Hr 1 3 ltac:(lia) ltac:(lia)).
Defined.

Lemma compute_routing_tables_sound_witness :
  ∃ rts', axiom_compute_routing_tables 3 chain3 zeros8 (replicate 8 0) (replicate 8 0) 1 4 = Some rts' ∧
    1 <= 3 < 4 ∧ shortest_route chain3 1 3 (mget rts' 1 3).
Proof.
  eexists. split; [vm_compute; reflexivity|].
  apply (compute_routing_tables_sound 3 chain3 zeros8 (replicate 8 0) (replicate 8 0) 1 4 _ 1 3
    chain3_ok zeros8_dim eq_refl eq_refl); [vm_compute; reflexivity | lia | cbn; lia | vm_compute; done].
Defined.

Lemma cut2_edges u i v : 1 <= u < 3 → ¬ edge cut2 u i v.
Proof.
  intros Hu (Hi & Hv & Hn). assert (Hi' : 0 <= i < 4) by (cbn in Hi; lia). clear Hi.
  enum u; enum i; vm_compute in Hv; subst v; by apply Hn.
Qed.

Lemma cut2_walk n v : walk cut2 1 n v → v = 1.
Proof.
  induction 1 as [|n u v _ -> [i Hi]]; [done|]. exfalso. apply (cut2_edges 1 i v); [lia|done].
Qed.

Lemma compute_routing_tables_diverges_witness :
  axiom_compute_routing_tables 100 cut2 zeros8 (replicate 8 0) (replicate 8 0) 1 3 = None.
Proof.
  apply (compute_routing_tables_diverges 100 cut2 zeros8 (replicate 8 0) (replicate 8 0) 1 3 2).
  - split; try (cbn; lia).
    + intros u i v Hu He. by destruct (cut2_edges u i v Hu).
    + intros u i Hu. by apply cut2_edges.
  - exact zeros8_dim.
  - reflexivity.
  - reflexivity.
  - intros i j v He. exfalso. apply (cut2_edges 1 i v); [lia|exact He].
  - lia.
  - intros n Hw. apply cut2_walk in Hw. lia.
Defined.
End Examples.
