(* ===== verification/Delivery.v ===== *)
(** * Delivery and installation of the routing tables (axiom_routing.c, second part)

    The master sends every node its row and waits for the replies; each slave
    collects its row, answers, and installs it when told to, forwarding the
    order to its neighbours. *)

From stdpp Require Import gmap.
From S2P Require Import Prelude Nic Routing.

Section Code.
Context `{C : NicConsts} {D : Type} {N : NicDev D}.
Implicit Types (rts : list (list Z)) (routing_table : list Z).

Definition axiom_init_routing_table (routing_table : list Z) : list Z :=
  for_z 0 AXIOM_NODES_NUM (fun i t => aset t i AXIOM_NULL_RT_INTERFACE) routing_table.

(** The row of one destination: [INFO] messages for the routed nodes.  The
    state is [ret]; [inr] is the early [return]. *)
Definition deliver_row rts (last dest ret : Z) : M D (Z + Z) :=
  for_m 0 last (fun idx ret =>
    let ifaces := mget rts dest idx in
    if ifaces =? AXIOM_NULL_RT_INTERFACE then mret (inl ret) else
    ret ← axiom_send_raw_delivery dest AXIOM_RT_CMD_INFO idx ifaces;
    mret (if AXIOM_RET_IS_OK ret then inl ret else inr ret)) ret.

Definition axiom_delivery_routing_tables rts (master last : Z) : M D Z :=
  r ← for_m (master + 1) last (fun dest ret =>
        if negb (AXIOM_RET_IS_OK ret) then mret (inl ret)
        else deliver_row rts last dest ret) AXIOM_RET_OK;
  match r with
  | inr ret => mret ret
  | inl ret =>
      r ← for_m (master + 1) last (fun dest ret =>
            if negb (AXIOM_RET_IS_OK ret) then mret (inl ret) else
            ret ← axiom_send_raw_delivery dest AXIOM_RT_CMD_END_INFO 0 0;
            mret (if AXIOM_RET_IS_OK ret then inl ret else inr ret)) ret;
      mret (match r with inl ret => ret | inr ret => ret end)
  end.

(** One turn of the reply loop; the state is [reply_received] and
    [reply_received_num]. *)
Definition wait_reply (target : Z) '(reply_received, reply_received_num)
    : M D (list Z * Z + Z) :=
  if reply_received_num =? target then mret (inr AXIOM_RET_OK) else
  '(ret, m) ← axiom_recv_raw_delivery;
  if negb (AXIOM_RET_IS_OK ret) || negb (bool_decide (r_cmd m = AXIOM_RT_CMD_RT_REPLY))
  then mret (inr AXIOM_RET_ERROR) else
  seen ← rd1 reply_received (r_node m);
  if seen =? 0 then
    reply_received ← wr1 reply_received (r_node m) 1;
    mret (inl (reply_received, reply_received_num + 1))
  else mret (inl (reply_received, reply_received_num)).

Definition axiom_wait_rt_received (fuel : nat) (master last : Z) : M D Z :=
  loop fuel (wait_reply (last - master - 1))
    (replicate (Z.to_nat AXIOM_NODES_NUM) 0, 0).

(** One turn of the receive loop; the state is [routing_table] and [max_id],
    the result the error code, the table and [*max_node_id]. *)
Definition receive_row (node_id max_node_id : Z) '(routing_table, max_id)
    : M D (list Z * Z + Z * list Z * Z) :=
  '(ret, m) ← axiom_recv_raw_delivery;
  if negb (AXIOM_RET_IS_OK ret) then mret (inr (ret, routing_table, max_node_id)) else
  match r_cmd m with
  | AXIOM_RT_CMD_INFO =>
      routing_table ← wr1 routing_table (r_node m) (r_if m);
      mret (inl (routing_table, if max_id <? r_node m then r_node m else max_id))
  | AXIOM_RT_CMD_END_INFO =>
      let max_node_id := if max_id <? node_id then node_id else max_id in
      ret ← axiom_send_raw_delivery (r_peer m) AXIOM_RT_CMD_RT_REPLY node_id 0;
      mret (inr (ret, routing_table, max_node_id))
  | _ => mret (inl (routing_table, max_id))
  end.

Definition axiom_receive_routing_tables (fuel : nat) (node_id : Z) routing_table
    (max_node_id : Z) : M D (Z * list Z * Z) :=
  loop fuel (receive_row node_id max_node_id) (axiom_init_routing_table routing_table, 0).

Definition axiom_write_routing_table routing_table : M D unit :=
  for_each (seqZ 0 AXIOM_NODES_NUM) (fun node => axiom_set_routing node (aget routing_table node)).

(** One interface of the loop that sends [SET_ROUTING] on the connected
    interfaces; the state is [ret], the contents of [if_features] (left by the
    previous turn) and [num_interface]. *)
Definition send_set_if (if_index : Z) '(ret, if_features, num_interface)
    : M D (Z * Z * Z + Z) :=
  if negb (AXIOM_RET_IS_OK ret) then mret (inl (ret, if_features, num_interface)) else
  if_features ← axiom_get_if_info if_index if_features;
  if Z.land if_features AXIOM_IF_CONNECTED =? 0
  then mret (inl (ret, if_features, num_interface)) else
  ret ← axiom_send_raw_set_routing if_index AXIOM_RT_CMD_SET_ROUTING;
  mret (if AXIOM_RET_IS_OK ret then inl (ret, if_features, u8 (num_interface + 1)) else inr ret).

Definition send_set_routing (if_features num_interface ret : Z) : M D (Z * Z * Z + Z) :=
  for_m 0 (AXIOM_INTERFACES_MAX + 1) send_set_if (ret, if_features, num_interface).

(** The master waits for one message per connected interface. *)
Definition recv_set_if (if_index : Z) '(ret, if_features) : M D (Z * Z + Z) :=
  if negb (AXIOM_RET_IS_OK ret) then mret (inl (ret, if_features)) else
  if_features ← axiom_get_if_info if_index if_features;
  if Z.land if_features AXIOM_IF_CONNECTED =? 0 then mret (inl (ret, if_features)) else
  '(ret, _) ← axiom_recv_raw_set_routing;
  mret (if AXIOM_RET_IS_OK ret then inl (ret, if_features) else inr ret).

Definition recv_set_routing (if_features ret : Z) : M D (Z * Z + Z) :=
  for_m 0 (AXIOM_INTERFACES_MAX + 1) recv_set_if (ret, if_features).

(** The slave waits for the first order and then writes its table. *)
Definition wait_first_set (fuel : nat) routing_table : M D Z :=
  loop fuel (fun ret =>
    '(ret, (_, cmd)) ← axiom_recv_raw_set_routing;
    if negb (AXIOM_RET_IS_OK ret) then mret (inr ret) else
    if bool_decide (cmd = AXIOM_RT_CMD_SET_ROUTING)
    then axiom_write_routing_table routing_table ;; mret (inr ret)
    else mret (inl ret)) AXIOM_RET_OK.

(** The slave waits for the other [num_interface - 1] messages. *)
Definition wait_others (num_interface ret : Z) : M D Z :=
  r ← for_m 1 num_interface (fun _ ret =>
        '(ret, _) ← axiom_recv_raw_set_routing;
        mret (if AXIOM_RET_IS_OK ret then inl ret else inr ret)) ret;
  mret (match r with inl ret => ret | inr ret => ret end).

Definition axiom_set_routing_table (fuel : nat) routing_table (master : bool)
    : M D (Z * list Z) :=
  node_id ← axiom_get_node_id;
  routing_table ← wr1 routing_table node_id (u8 (bit AXIOMREG_ROUTING_LOOPBACK_IF));
  if master then
    axiom_write_routing_table routing_table ;;
    r ← send_set_routing 0 0 AXIOM_RET_OK;
    match r with
    | inr ret => mret (ret, routing_table)
    | inl (ret, if_features, _) =>
        r ← recv_set_routing if_features ret;
        mret (match r with inl (ret, _) => ret | inr ret => ret end, routing_table)
    end
  else
    ret ← wait_first_set fuel routing_table;
    if negb (AXIOM_RET_IS_OK ret) then mret (ret, routing_table) else
    r ← send_set_routing 0 0 ret;
    match r with
    | inr ret => mret (ret, routing_table)
    | inl (ret, _, num_interface) =>
        ret ← wait_others num_interface ret;
        mret (ret, routing_table)
    end.
End Code.

(** ** What the master sends *)

Section Deliver.
Context `{C : NicConsts} {COK : NicConstsOk}.
Implicit Types (rts : list (list Z)).

(** The nodes that the row of [dest] routes, below [last]. *)
Definition row_nodes rts (last dest : Z) : list Z :=
  List.filter (fun idx => negb (mget rts dest idx =? 0)) (seqZ 0 last).
Definition row_msgs rts (last dest : Z) : list event :=
  (fun idx => EvDelivery dest AXIOM_RT_CMD_INFO idx (mget rts dest idx)) <$> row_nodes rts last dest.

(** All rows, then the end marks. *)
Definition delivery_msgs rts (master last : Z) : list event :=
  let dests := seqZ (master + 1) (last - (master + 1)) in
  concat (row_msgs rts last <$> dests) ++
  ((fun dest => EvDelivery dest AXIOM_RT_CMD_END_INFO 0 0) <$> dests).

Lemma deliver_row_seq rts last dest ret d :
  deliver_row rts last dest ret d = send_seq (row_msgs rts last dest) ret d.
Proof.
  unfold deliver_row, row_msgs, row_nodes, for_m. rewrite Z.sub_0_r.
  induction (seqZ 0 last) as [|i l IH] in ret, d |- *; [done|]. cbn.
  unfold AXIOM_NULL_RT_INTERFACE in *.
  destruct (mget rts dest i =? 0) eqn:E; cbn; [apply IH|].
  unfold mbind, M_bind. cbn. destruct (sd_push _ d) as [r d'|]; [|done]. cbn.
  destruct (AXIOM_RET_IS_OK r); [apply IH | done].
Qed.

(** The delivery as a sequence of sends. *)
Lemma delivery_seq rts master last d :
  axiom_delivery_routing_tables rts master last d =
  (send_seq (delivery_msgs rts master last) AXIOM_RET_OK ≫= fun r =>
     mret (match r with inl ret => ret | inr ret => ret end)) d.
Proof using COK.
  unfold axiom_delivery_routing_tables, delivery_msgs, for_m.
  set (dests := seqZ _ _). unfold mbind at 1, M_bind at 1.
  rewrite (loop_send_seq (row_msgs rts last)); [|intros dest ret d' _ Hr; rewrite Hr; apply deliver_row_seq
    | apply ret_ok_ok].
  rewrite (bind_send_app (concat _)). unfold mbind, M_bind.
  destruct (send_seq_inl (concat (row_msgs rts last <$> dests)) AXIOM_RET_OK d ret_ok_ok)
    as (r & d' & -> & Hok).
  destruct r as [ret|ret]; [|done].
  rewrite (loop_send_seq (fun dest => [EvDelivery dest AXIOM_RT_CMD_END_INFO 0 0])); [| |apply Hok].
  - by rewrite concat_singletons.
  - intros dest r1 d1 _ Hr. rewrite Hr. cbn. unfold mbind, M_bind. cbn.
    destruct (sd_push _ d1) as [r2 d2|]; [|done]. cbn. by destruct (AXIOM_RET_IS_OK r2).
Qed.

(** With no failing send everything is sent. *)
Lemma delivery_all rts master last d : sd_send d = [] →
  axiom_delivery_routing_tables rts master last d =
  Ret AXIOM_RET_OK (add_sd_log (delivery_msgs rts master last) [] d).
Proof using COK.
  intros Hs. rewrite delivery_seq. unfold mbind, M_bind. rewrite send_seq_all by done.
  by destruct (delivery_msgs rts master last).
Qed.

(** C4. The master's delivery on every script of send results: what is sent is
    a prefix of the reference list, which has the routed entries of each
    slave's row in order and then the end marks.  The call succeeds exactly when
    all of it was sent and no send failed; otherwise the first send that failed is
    the last one tried, and its code is returned. *)
Theorem delivery_refines rts master last d :
  ∃ k ret d', axiom_delivery_routing_tables rts master last d = Ret ret d' ∧
    sd_log d' = sd_log d ++ take k (delivery_msgs rts master last) ∧ sd_send d' = drop k (sd_send d) ∧
    (AXIOM_RET_IS_OK ret = true → k = length (delivery_msgs rts master last) ∧
       Forall (fun r => AXIOM_RET_IS_OK r = true) (take k (sd_send d))) ∧
    (AXIOM_RET_IS_OK ret = false → (0 < k <= length (delivery_msgs rts master last))%nat ∧ sd_send d !! Nat.pred k = Some ret ∧
       Forall (fun r => AXIOM_RET_IS_OK r = true) (take (Nat.pred k) (sd_send d))).
Proof using COK.
  rewrite delivery_seq.
  destruct (send_seq_run (delivery_msgs rts master last) AXIOM_RET_OK d ret_ok_ok)
    as (k & ret & r & d' & Heq & Hlog & Hs & Hr).
  unfold mbind, M_bind. rewrite Heq. exists k, ret, d'.
  destruct r as [?|?]; [destruct Hr as (-> & Hok & Hr)|destruct Hr as (-> & Hok & Hr)]; split_and!; try done; congruence.
Qed.
End Deliver.

(** ** What a slave receives *)

Section Receive.
Context `{C : NicConsts} {COK : NicConstsOk}.
Implicit Types (rts : list (list Z)).

(** The messages of a log that are addressed to [dest], as [dest] receives
    them from [master]. *)
Definition inbox_of (master dest : Z) : list event → list (Z * rmsg) :=
  omap (fun e => match e with
    | EvDelivery t c n i => if t =? dest then Some (AXIOM_RET_OK, mk_rmsg master c n i) else None
    | _ => None
    end).

Definition info_msg (master : Z) (x : Z * Z) : Z * rmsg :=
  (AXIOM_RET_OK, mk_rmsg master AXIOM_RT_CMD_INFO x.1 x.2).
Definition end_msg (master : Z) : Z * rmsg :=
  (AXIOM_RET_OK, mk_rmsg master AXIOM_RT_CMD_END_INFO 0 0).
Definition row_pairs rts (last dest : Z) : list (Z * Z) :=
  (fun idx => (idx, mget rts dest idx)) <$> row_nodes rts last dest.

Lemma inbox_row rts master last dest dest' :
  inbox_of master dest (row_msgs rts last dest') =
  if dest' =? dest then info_msg master <$> row_pairs rts last dest else [].
Proof.
  unfold inbox_of, row_msgs, row_pairs.
  destruct (Z.eqb_spec dest' dest) as [->|Hne];
    induction (row_nodes _ _ _) as [|i l IH]; cbn; [done| |done|].
  - rewrite Z.eqb_refl. cbn. f_equal. exact IH.
  - rewrite (proj2 (Z.eqb_neq _ _) Hne). exact IH.
Qed.

Lemma inbox_delivery rts master last dest : master < dest < last →
  inbox_of master dest (delivery_msgs rts master last) =
  (info_msg master <$> row_pairs rts last dest) ++ [end_msg master].
Proof.
  intros Hd. unfold delivery_msgs. set (dests := seqZ _ _).
  assert (Hin : dest ∈ dests) by (apply elem_of_seqZ; lia).
  assert (Hnd : NoDup dests) by apply NoDup_seqZ.
  unfold inbox_of. rewrite omap_app. f_equal.
  - change (omap _) with (inbox_of master dest).
    unfold inbox_of. rewrite (omap_concat_pick _ (row_msgs rts last) _ dest) by
      (done || (intros x Hx; pose proof (inbox_row rts master last dest x) as Hi;
                by rewrite (proj2 (Z.eqb_neq _ _) Hx) in Hi)).
    pose proof (inbox_row rts master last dest dest) as Hi. by rewrite Z.eqb_refl in Hi.
  - rewrite <- concat_singletons, (omap_concat_pick _ _ _ dest); cbn; [by rewrite Z.eqb_refl| |done..].
    intros x Hx. by rewrite (proj2 (Z.eqb_neq _ _) Hx).
Qed.

Definition store_pairs (t : list Z) (l : list (Z * Z)) : list Z :=
  foldl (fun t x => aset t x.1 x.2) t l.
Definition max_pairs (m : Z) (l : list (Z * Z)) : Z :=
  foldl (fun m x => if m <? x.1 then x.1 else m) m l.

Lemma wr1_in {D} t i v (d : D) : 0 <= i < alen t → wr1 t i v d = Ret (aset t i v) d.
Proof.
  intros. unfold wr1. destruct (Z.leb_spec 0 i), (Z.ltb_spec i (alen t)); try lia. done.
Qed.

(** The loop stores the entries it receives and answers the end mark. *)
Lemma receive_loop fuel node_id mx t m l rest master d :
  sd_deliv_in d = (info_msg master <$> l) ++ end_msg master :: rest →
  (∀ x, x ∈ l → 0 <= x.1 < alen t) → (length l < fuel)%nat →
  loop fuel (receive_row node_id mx) (t, m) d =
  (ret ← sd_push (EvDelivery master AXIOM_RT_CMD_RT_REPLY node_id 0);
   mret (ret, store_pairs t l, if max_pairs m l <? node_id then node_id else max_pairs m l))
    (set_sd_deliv_in rest d).
Proof using COK.
  induction l as [|x l IH] in fuel, t, m, d |- *; intros Hin Hr Hf.
  - destruct fuel as [|fuel]; [cbn in Hf; lia|]. cbn in Hin. cbn.
    unfold mbind, M_bind. cbn. rewrite Hin. cbn. rewrite ret_ok_ok. cbn.
    by destruct (sd_push _ _).
  - destruct fuel as [|fuel]; [cbn in Hf; lia|]. cbn in Hin. cbn [loop].
    assert (Hx : 0 <= x.1 < alen t) by (apply Hr; set_solver).
    unfold mbind at 1, M_bind at 1. unfold receive_row at 1, mbind at 1, M_bind at 1.
    cbn [axiom_recv_raw_delivery simdev_nic]. rewrite Hin. unfold info_msg at 1.
    rewrite ret_ok_ok. cbn [negb r_cmd].
    rewrite (bind_ret (wr1 t _ _) _ _ _ _ (wr1_in _ _ _ _ Hx)).
    unfold mret at 1, M_ret at 1. cbn [r_node r_if].
    rewrite IH; [done|done| |cbn in Hf; lia].
    intros y Hy. rewrite alen_aset. apply Hr. set_solver.
Qed.

Lemma aget_store_pairs t l k : (∀ x, x ∈ l → 0 <= x.1 < alen t) →
  (∀ x y, x ∈ l → y ∈ l → x.1 = y.1 → x = y) →
  aget (store_pairs t l) k =
    match List.find (fun x => x.1 =? k) l with Some x => x.2 | None => aget t k end.
Proof.
  induction l as [|x l IH] in t |- *; intros Hr Hu; [done|]. cbn.
  rewrite IH; [|intros y Hy; rewrite alen_aset; apply Hr; set_solver|intros; apply Hu; set_solver].
  rewrite aget_aset by (apply Hr; set_solver).
  destruct (Z.eqb_spec x.1 k) as [E|E].
  - rewrite decide_True by done. destruct (List.find _ l) as [y|] eqn:F; [|done].
    apply List.find_some in F as [Hy Hk]. apply list_elem_of_In in Hy. apply Z.eqb_eq in Hk.
    by rewrite (Hu x y) by (set_solver || congruence).
  - by rewrite decide_False.
Qed.

Lemma find_row_pairs rts last dest k :
  List.find (fun x => x.1 =? k) (row_pairs rts last dest) =
  if (0 <=? k) && (k <? last) && negb (mget rts dest k =? 0) then Some (k, mget rts dest k) else None.
Proof.
  destruct (List.find _ _) as [x|] eqn:F.
  - apply List.find_some in F as [Hx Hk]. apply Z.eqb_eq in Hk.
    apply list_elem_of_In, list_elem_of_fmap in Hx as (idx & -> & Hi). cbn in Hk. subst idx.
    apply list_elem_of_In, List.filter_In in Hi as [Hi Hn].
    apply list_elem_of_In, elem_of_seqZ in Hi. rewrite Hn.
    destruct (Z.leb_spec 0 k), (Z.ltb_spec k last); [done|lia..].
  - destruct (Z.leb_spec 0 k), (Z.ltb_spec k last), (negb (mget rts dest k =? 0)) eqn:E; try done.
    exfalso. assert (Hin : (k, mget rts dest k) ∈ row_pairs rts last dest).
    { apply list_elem_of_fmap. exists k. split; [done|].
      apply list_elem_of_In, List.filter_In. split; [|done].
      apply list_elem_of_In, elem_of_seqZ. lia. }
    apply list_elem_of_In in Hin. eapply List.find_none in F; [|exact Hin].
    cbn in F. by rewrite Z.eqb_refl in F.
Qed.

Lemma row_pairs_range rts last dest x : x ∈ row_pairs rts last dest →
  0 <= x.1 < last ∧ x.2 = mget rts dest x.1.
Proof.
  intros (idx & -> & Hi)%list_elem_of_fmap. apply list_elem_of_In, List.filter_In in Hi as [Hi _].
  apply list_elem_of_In, elem_of_seqZ in Hi. cbn. lia.
Qed.

Lemma init_table_spec t k : alen t = AXIOM_NODES_NUM →
  alen (axiom_init_routing_table t) = AXIOM_NODES_NUM ∧
  (0 <= k < AXIOM_NODES_NUM → aget (axiom_init_routing_table t) k = 0).
Proof using COK.
  intros Ht. unfold axiom_init_routing_table. pose proof nodes_num_range.
  apply (for_z_ind (fun i t => alen t = AXIOM_NODES_NUM ∧ (0 <= k < i → aget t k = 0))).
  - lia.
  - split; [done|lia].
  - intros i t' Hi [Hl Hz]. rewrite alen_aset. split; [done|]. intros Hk.
    rewrite aget_aset by lia. case_decide; [done|]. apply Hz. lia.
Qed.

(** The greatest id of the pairs, or the value at the start when that is greater. *)
Lemma max_pairs_spec m l : max_pairs m l = foldr Z.max m l.*1.
Proof.
  unfold max_pairs. induction l as [|x l IH] in m |- *; [done|]. cbn. rewrite IH.
  assert (Hm : ∀ a b k, foldr Z.max (Z.max a b) k = Z.max a (foldr Z.max b k)) by (clear; intros a b k; induction k; cbn; lia).
  rewrite <- Hm. f_equal. destruct (Z.ltb_spec m x.1); lia.
Qed.

(** The greatest node id that the row of [dest] and its own number name. *)
Definition greatest_node rts (last dest : Z) : Z := foldr Z.max dest (row_nodes rts last dest).

Lemma greatest_node_spec rts last dest : 0 <= dest →
  let m := max_pairs 0 (row_pairs rts last dest) in (if m <? dest then dest else m) = greatest_node rts last dest.
Proof.
  intros Hd. cbv zeta. rewrite max_pairs_spec. unfold greatest_node, row_pairs. rewrite <- list_fmap_compose.
  change (compose fst _) with (fun idx : Z => idx). rewrite list_fmap_id.
  assert (Hm : ∀ k, foldr Z.max dest k = Z.max dest (foldr Z.max 0 k)) by (intros k; induction k; cbn; lia).
  rewrite Hm. destruct (Z.ltb_spec (foldr Z.max 0 (row_nodes rts last dest)) dest); lia.
Qed.

Lemma foldr_max_spec a l : (foldr Z.max a l = a ∨ foldr Z.max a l ∈ l) ∧ a <= foldr Z.max a l ∧ ∀ n, n ∈ l → n <= foldr Z.max a l.
Proof.
  induction l as [|x l (Hm & Hge & Hall)]; cbn; [split_and!; [by left|lia|by intros ? ?%elem_of_nil]|]. split_and!; [|lia|].
  - destruct (Z.max_spec x (foldr Z.max a l)) as [[_ ->]|[_ ->]]; [|right; left]. destruct Hm; [by left|right; by right].
  - intros n [->|Hn]%elem_of_cons; [lia|]. specialize (Hall n Hn). lia.
Qed.

(** The slave's reception of its row: the received table and the reply. *)
Lemma receive_run fuel rts master last dest rest mx t d :
  master < dest < last → last <= AXIOM_NODES_NUM → alen t = AXIOM_NODES_NUM →
  sd_deliv_in d = inbox_of master dest (delivery_msgs rts master last) ++ rest →
  (length (row_pairs rts last dest) < fuel)%nat →
  0 <= dest → ∃ t', axiom_receive_routing_tables fuel dest t mx d =
      (ret ← sd_push (EvDelivery master AXIOM_RT_CMD_RT_REPLY dest 0); mret (ret, t', greatest_node rts last dest))
        (set_sd_deliv_in rest d) ∧
    alen t' = AXIOM_NODES_NUM ∧
    ∀ k, 0 <= k < AXIOM_NODES_NUM → aget t' k = if k <? last then mget rts dest k else 0.
Proof using COK.
  intros Hd Hl Ht Hin Hf Hdest. rewrite inbox_delivery, <- app_assoc in Hin by done.
  destruct (init_table_spec t 0 Ht) as [Hti _].
  assert (Hr : ∀ x, x ∈ row_pairs rts last dest → 0 <= x.1 < alen (axiom_init_routing_table t)).
  { intros x Hx. apply row_pairs_range in Hx as [? _]. lia. }
  unfold axiom_receive_routing_tables.
  rewrite (receive_loop _ _ _ _ _ (row_pairs rts last dest) rest master) by done.
  rewrite greatest_node_spec by done. eexists. split; [done|]. split.
  { rewrite <- Hti. generalize (axiom_init_routing_table t). clear.
    induction (row_pairs rts last dest) as [|x l IH]; intros t; [done|]. cbn. by rewrite IH, alen_aset. }
  intros k Hk. rewrite aget_store_pairs.
  - rewrite find_row_pairs. destruct (init_table_spec t k Ht) as [_ ->]; [|done].
    destruct (Z.leb_spec 0 k), (Z.ltb_spec k last); [|done|lia|lia].
    by destruct (Z.eqb_spec (mget rts dest k) 0).
  - done.
  - intros x y Hx Hy E. apply row_pairs_range in Hx as [_ Hx], Hy as [_ Hy].
    destruct x, y. cbn in *. congruence.
Qed.

(** C5. The delivered row arrives: a slave that receives exactly what the
    master's delivery sends to it ends with the master's row for it (entries
    from [last] on are zero) and with the greatest node id that the row and its own
    number name, having answered the end mark with its id, and leaves the rest of
    its inbox untouched; the number of messages plus one is enough fuel. *)
Theorem delivery_receive_roundtrip fuel rts master last dest rest mx t d :
  master < dest < last → last <= AXIOM_NODES_NUM → alen t = AXIOM_NODES_NUM →
  sd_deliv_in d = inbox_of master dest (delivery_msgs rts master last) ++ rest →
  (length (row_pairs rts last dest) < fuel)%nat → 0 <= dest →
  ∃ ret t' mx' d', axiom_receive_routing_tables fuel dest t mx d = Ret (ret, t', mx') d' ∧
    (mx' = dest ∨ mx' ∈ row_nodes rts last dest) ∧ dest <= mx' ∧ (∀ n, n ∈ row_nodes rts last dest → n <= mx') ∧
    ret = (if sd_send d is r :: _ then r else AXIOM_RET_OK) ∧
    (∀ k, 0 <= k < AXIOM_NODES_NUM →
       aget t' k = if k <? last then mget rts dest k else 0) ∧
    sd_log d' = sd_log d ++ [EvDelivery master AXIOM_RT_CMD_RT_REPLY dest 0] ∧
    sd_deliv_in d' = rest.
Proof using COK.
  intros Hd Hl Ht Hin Hf Hdest.
  destruct (receive_run fuel rts master last dest rest mx t d Hd Hl Ht Hin Hf Hdest) as (t' & -> & _ & Hg).
  destruct (foldr_max_spec dest (row_nodes rts last dest)) as (Hm & Hge & Hall).
  unfold mbind, M_bind, sd_push. cbn. destruct (sd_send d); eexists _, t', _, _; (split; [reflexivity|]); done.
Qed.
End Receive.

(** ** The replies the master waits for *)

Section Wait.
Context `{C : NicConsts} {COK : NicConstsOk}.

(** A well-formed reply of some node. *)
Definition good_reply (x : Z * rmsg) : Prop :=
  AXIOM_RET_IS_OK x.1 = true ∧ r_cmd x.2 = AXIOM_RT_CMD_RT_REPLY ∧
  0 <= r_node x.2 < AXIOM_NODES_NUM.
(** A receive error, or any other command. *)
Definition bad_reply (x : Z * rmsg) : Prop :=
  AXIOM_RET_IS_OK x.1 = false ∨ r_cmd x.2 ≠ AXIOM_RT_CMD_RT_REPLY.

Definition reply_nodes (l : list (Z * rmsg)) : gset Z := list_to_set ((fun x => r_node x.2) <$> l).

(** [reply_received] is the characteristic array of the set of nodes seen. *)
Definition seen_rep (rr : list Z) (seen : gset Z) : Prop :=
  alen rr = AXIOM_NODES_NUM ∧
  ∀ k, 0 <= k < AXIOM_NODES_NUM → aget rr k = if decide (k ∈ seen) then 1 else 0.

Lemma rd1_in {D} t i (d : D) : 0 <= i < alen t → rd1 t i d = Ret (aget t i) d.
Proof. intros. unfold rd1. destruct (Z.leb_spec 0 i), (Z.ltb_spec i (alen t)); try lia. done. Qed.

Lemma wait_reply_good target rr seen x xs d :
  seen_rep rr seen → good_reply x → sd_deliv_in d = x :: xs →
  Z.of_nat (size seen) ≠ target →
  ∃ rr', seen_rep rr' ({[r_node x.2]} ∪ seen) ∧
    wait_reply target (rr, Z.of_nat (size seen)) d =
    Ret (inl (rr', Z.of_nat (size ({[r_node x.2]} ∪ seen)))) (set_sd_deliv_in xs d).
Proof.
  intros [Hl Hrep] (Hok & Hcmd & Hn) Hin Hne. unfold wait_reply.
  rewrite (proj2 (Z.eqb_neq _ _) Hne). unfold mbind at 1, M_bind at 1.
  cbn [axiom_recv_raw_delivery simdev_nic]. rewrite Hin. destruct x as [ret m]. cbn [fst snd] in *.
  rewrite Hok, Hcmd, bool_decide_eq_true_2 by done. cbn [negb orb].
  rewrite (bind_ret _ _ _ _ _ (rd1_in rr (r_node m) _ ltac:(lia))).
  rewrite Hrep by done. destruct (decide (r_node m ∈ seen)) as [Hs|Hs]; cbn [Z.eqb].
  - exists rr. replace ({[r_node m]} ∪ seen) with seen by set_solver. done.
  - rewrite (bind_ret _ _ _ _ _ (wr1_in rr (r_node m) 1 _ ltac:(lia))).
    exists (aset rr (r_node m) 1). split.
    + split; [by rewrite alen_aset|]. intros k Hk. rewrite aget_aset by lia.
      repeat case_decide; subst; first [done | set_solver | by apply Hrep | rewrite Hrep by done; case_decide; set_solver].
    + rewrite size_union by set_solver. rewrite size_singleton.
      repeat f_equal. lia.
Qed.

Lemma wait_loop_ok target rr seen l rest fuel d :
  seen_rep rr seen → Forall good_reply l → sd_deliv_in d = l ++ rest →
  Z.of_nat (size seen) <= target <= Z.of_nat (size (reply_nodes l ∪ seen)) →
  (length l < fuel)%nat →
  ∃ l1 l2, l = l1 ++ l2 ∧ Z.of_nat (size (reply_nodes l1 ∪ seen)) = target ∧
    loop fuel (wait_reply target) (rr, Z.of_nat (size seen)) d =
    Ret AXIOM_RET_OK (set_sd_deliv_in (l2 ++ rest) d).
Proof.
  intros Hrep Hg. induction Hg as [|x l Hx Hg IH] in rr, seen, Hrep, fuel, d |- *;
    intros Hin Hsz Hf; (destruct fuel as [|fuel]; [cbn in Hf; lia|]).
  - exists [], []. unfold reply_nodes in *. cbn in *. rewrite (left_id_L ∅ (∪)) in *.
    assert (Ht : Z.of_nat (size seen) = target) by lia. split_and!; [done|done|].
    rewrite Ht, Z.eqb_refl. cbn. f_equal. destruct d. unfold set_sd_deliv_in. cbn in *. by subst.
  - destruct (decide (Z.of_nat (size seen) = target)) as [Ht|Ht].
    + exists [], (x :: l). split; [done|]. unfold reply_nodes. cbn.
      rewrite (left_id_L ∅ (∪)). split; [done|]. rewrite Ht, Z.eqb_refl. cbn. f_equal.
      destruct d. unfold set_sd_deliv_in. cbn in *. by subst.
    + destruct (wait_reply_good target rr seen x (l ++ rest) d Hrep Hx Hin Ht) as (rr' & Hrep' & Hstep).
      cbn [loop]. rewrite (bind_ret _ _ _ _ _ Hstep).
      destruct (IH rr' _ fuel (set_sd_deliv_in (l ++ rest) d) Hrep' eq_refl) as (l1 & l2 & -> & Hsz' & Heq).
      * rewrite (assoc_L (∪)). unfold reply_nodes in *. cbn in Hsz.
        replace (list_to_set ((λ x0 : Z * rmsg, r_node x0.2) <$> l) ∪ {[r_node x.2]} ∪ seen)
          with ({[r_node x.2]} ∪ list_to_set ((λ x0 : Z * rmsg, r_node x0.2) <$> l) ∪ seen) by set_solver.
        split; [|apply Hsz]. 
        rewrite size_union_alt, size_singleton.
        pose proof (subseteq_size (seen ∖ {[r_node x.2]}) seen ltac:(set_solver)). lia.
      * cbn in Hf. lia.
      * exists (x :: l1), l2. split; [done|]. split; [|by rewrite Heq].
        rewrite <- Hsz'. f_equal. f_equal. unfold reply_nodes. cbn. set_solver.
Qed.

Lemma wait_loop_error target rr seen l x rest fuel d :
  seen_rep rr seen → Forall good_reply l → bad_reply x → sd_deliv_in d = l ++ x :: rest →
  Z.of_nat (size (reply_nodes l ∪ seen)) < target → (length l < fuel)%nat →
  loop fuel (wait_reply target) (rr, Z.of_nat (size seen)) d =
  Ret AXIOM_RET_ERROR (set_sd_deliv_in rest d).
Proof.
  intros Hrep Hg Hbad. induction Hg as [|y l Hy Hg IH] in rr, seen, Hrep, fuel, d |- *;
    intros Hin Hsz Hf; (destruct fuel as [|fuel]; [cbn in Hf; lia|]).
  - unfold reply_nodes in Hsz. cbn in Hsz. rewrite (left_id_L ∅ (∪)) in Hsz.
    assert (Hbody : wait_reply target (rr, Z.of_nat (size seen)) d =
      Ret (inr AXIOM_RET_ERROR) (set_sd_deliv_in rest d)).
    { unfold wait_reply. rewrite (proj2 (Z.eqb_neq _ _)) by lia. unfold mbind at 1, M_bind at 1.
      cbn [axiom_recv_raw_delivery simdev_nic]. cbn in Hin. rewrite Hin. destruct x as [ret m].
      destruct Hbad as [Hb|Hb]; cbn [fst snd] in Hb.
      - by rewrite Hb.
      - rewrite (bool_decide_eq_false_2 _ Hb), orb_true_r. done. }
    cbn [loop]. by rewrite (bind_ret _ _ _ _ _ Hbody).
  - pose proof (subseteq_size seen (reply_nodes (y :: l) ∪ seen) ltac:(set_solver)).
    destruct (wait_reply_good target rr seen y (l ++ x :: rest) d Hrep Hy Hin ltac:(lia))
      as (rr' & Hrep' & Hstep).
    cbn [loop]. rewrite (bind_ret _ _ _ _ _ Hstep).
    rewrite (IH rr' _ fuel (set_sd_deliv_in (l ++ x :: rest) d)); [done|done|done| |cbn in Hf; lia].
    replace (reply_nodes l ∪ ({[r_node y.2]} ∪ seen)) with (reply_nodes (y :: l) ∪ seen); [done|].
    unfold reply_nodes. cbn. set_solver.
Qed.

Lemma seen_rep_start : seen_rep (replicate (Z.to_nat AXIOM_NODES_NUM) 0) ∅.
Proof using COK.
  pose proof nodes_num_range. split.
  - unfold alen. rewrite length_replicate. lia.
  - intros k Hk. rewrite aget_replicate by lia. done.
Qed.

(** The master's wait succeeds exactly when enough distinct nodes answered:
    if the replies in the inbox come from at least [last - master - 1]
    distinct nodes, duplicates and any order allowed, the wait returns
    success after the shortest prefix with that many distinct nodes. *)
Theorem wait_rt_received_complete fuel master last l rest d :
  Forall good_reply l → sd_deliv_in d = l ++ rest →
  0 <= last - master - 1 <= Z.of_nat (size (reply_nodes l)) → (length l < fuel)%nat →
  ∃ l1 l2, l = l1 ++ l2 ∧ Z.of_nat (size (reply_nodes l1)) = last - master - 1 ∧
    axiom_wait_rt_received fuel master last d = Ret AXIOM_RET_OK (set_sd_deliv_in (l2 ++ rest) d).
Proof using COK.
  intros Hg Hin Hsz Hf.
  destruct (wait_loop_ok (last - master - 1) _ ∅ l rest fuel d seen_rep_start Hg Hin)
    as (l1 & l2 & Hl & Hs & Heq).
  - rewrite (right_id_L ∅ (∪)), size_empty. lia.
  - done.
  - exists l1, l2. rewrite (right_id_L ∅ (∪)) in Hs. done.
Qed.

(** A receive error or a message that is not a reply, before enough
    distinct nodes have answered, makes the wait return the error code. *)
Theorem wait_rt_received_error fuel master last l x rest d :
  Forall good_reply l → bad_reply x → sd_deliv_in d = l ++ x :: rest →
  Z.of_nat (size (reply_nodes l)) < last - master - 1 → (length l < fuel)%nat →
  axiom_wait_rt_received fuel master last d = Ret AXIOM_RET_ERROR (set_sd_deliv_in rest d).
Proof using COK.
  intros Hg Hbad Hin Hsz Hf.
  apply (wait_loop_error (last - master - 1) _ ∅ l x rest fuel d seen_rep_start Hg Hbad Hin);
    [by rewrite (right_id_L ∅ (∪)) | done].
Qed.
End Wait.

(** ** Installing the tables *)

Section Install.
Context `{C : NicConsts} {COK : NicConstsOk}.

(** The connected interfaces of a device, in order. *)
Definition connected_ifs (d : simdev) : list Z :=
  List.filter (fun i => aget (sd_connected d) i) (seqZ 0 AXIOM_INTERFACES_NUM).
Definition set_msgs (d : simdev) : list event :=
  (fun i => EvSetRouting i AXIOM_RT_CMD_SET_ROUTING) <$> connected_ifs d.

Lemma if_connected_land : (Z.land AXIOM_IF_CONNECTED AXIOM_IF_CONNECTED =? 0) = false.
Proof using COK.
  rewrite Z.land_diag. apply Z.eqb_neq. pose proof if_connected_bit. lia.
Qed.

Lemma get_if_info_sim i old d : 0 <= i < AXIOM_INTERFACES_NUM →
  axiom_get_if_info i old d = Ret (if aget (sd_connected d) i then AXIOM_IF_CONNECTED else 0) d.
Proof using COK.
  intros Hi. pose proof interfaces_max_num. cbn. unfold sim_get_if_info.
  by destruct (Z.ltb_spec AXIOM_INTERFACES_MAX i); [lia|].
Qed.

Lemma send_set_if_sim i ret f num d : 0 <= i < AXIOM_INTERFACES_NUM →
  AXIOM_RET_IS_OK ret = true → sd_send d = [] → 0 <= num < 255 →
  send_set_if i (ret, f, num) d =
  if aget (sd_connected d) i
  then Ret (inl (AXIOM_RET_OK, AXIOM_IF_CONNECTED, num + 1))
         (add_sd_log [EvSetRouting i AXIOM_RT_CMD_SET_ROUTING] [] d)
  else Ret (inl (ret, 0, num)) d.
Proof using COK.
  intros Hi Hok Hs Hn. unfold send_set_if. rewrite Hok. cbn [negb].
  rewrite (bind_ret _ _ _ _ _ (get_if_info_sim i f d Hi)).
  destruct (aget (sd_connected d) i).
  - rewrite if_connected_land. unfold mbind, M_bind. cbn. unfold sd_push. rewrite Hs.
    rewrite ret_ok_ok, u8_small by lia. done.
  - by rewrite Z.land_0_l.
Qed.

(** With working sends, the order goes out once on every connected
    interface and the interfaces are counted. *)
Lemma send_set_loop l f num ret d :
  (∀ i, i ∈ l → 0 <= i < AXIOM_INTERFACES_NUM) → sd_send d = [] →
  AXIOM_RET_IS_OK ret = true → 0 <= num → num + Z.of_nat (length l) <= 255 →
  let conn := List.filter (fun i => aget (sd_connected d) i) l in
  ∃ f' r, for_list l send_set_if (ret, f, num) d =
  Ret (inl (r, f', num + Z.of_nat (length conn)))
    (add_sd_log ((fun i => EvSetRouting i AXIOM_RT_CMD_SET_ROUTING) <$> conn) [] d) ∧
  AXIOM_RET_IS_OK r = true.
Proof using COK.
  induction l as [|i l IH] in f, num, ret, d |- *; intros Hr Hs Hok Hnum Hlen.
  { exists f, ret. split; [|done]. cbn. rewrite Z.add_0_r. unfold add_sd_log.
    rewrite app_nil_r, <- Hs. by destruct d. }
  cbn in Hlen. cbn [for_list]. unfold mbind at 1, M_bind at 1.
  rewrite send_set_if_sim by (done || lia || (apply Hr; set_solver)). cbn [List.filter].
  destruct (aget (sd_connected d) i) eqn:E.
  - edestruct (IH AXIOM_IF_CONNECTED (num + 1) AXIOM_RET_OK
      (add_sd_log [EvSetRouting i AXIOM_RT_CMD_SET_ROUTING] [] d)) as (f' & r & Heq & Hr');
      [intros; apply Hr; set_solver | done | apply ret_ok_ok | lia | lia |].
    exists f', r. split; [|done]. rewrite Heq. cbn.
    unfold add_sd_log at 1 2 3. cbn. rewrite <- app_assoc. cbn.
    do 3 f_equal. lia.
  - apply IH; [intros; apply Hr; set_solver | done.. | lia].
Qed.

Lemma recv_set_loop l f ret msgs rest d :
  (∀ i, i ∈ l → 0 <= i < AXIOM_INTERFACES_NUM) →
  AXIOM_RET_IS_OK ret = true →
  Forall (fun x => AXIOM_RET_IS_OK x.1 = true) msgs →
  sd_set_in d = msgs ++ rest →
  length msgs = length (List.filter (fun i => aget (sd_connected d) i) l) →
  ∃ f' r, for_list l recv_set_if (ret, f) d = Ret (inl (r, f')) (set_sd_set_in rest d) ∧
  AXIOM_RET_IS_OK r = true.
Proof using COK.
  induction l as [|i l IH] in f, ret, msgs, d |- *; intros Hr Hok Hall Hin Hlen.
  { destruct msgs; [|done]. exists f, ret. split; [|done]. cbn in *. subst. by destruct d. }
  cbn [for_list]. unfold mbind at 1, M_bind at 1. unfold recv_set_if at 1. rewrite Hok. cbn [negb].
  rewrite (bind_ret _ _ _ _ _ (get_if_info_sim i f d ltac:(apply Hr; set_solver))).
  cbn [List.filter] in Hlen. destruct (aget (sd_connected d) i) eqn:E.
  - rewrite if_connected_land. destruct msgs as [|[r1 m1] msgs]; [done|].
    inversion Hall as [|? ? Hok1 Hall']; subst. cbn in Hok1.
    unfold mbind at 1, M_bind at 1. cbn [axiom_recv_raw_set_routing simdev_nic].
    rewrite Hin. cbn. rewrite Hok1.
    apply (IH _ _ msgs (set_sd_set_in (msgs ++ rest) d)); [intros; apply Hr; set_solver|done..|].
    by injection Hlen.
  - rewrite Z.land_0_l. cbn. by apply (IH _ _ msgs); [intros; apply Hr; set_solver|..].
Qed.

Lemma wait_others_all msgs rest ret d :
  AXIOM_RET_IS_OK ret = true →
  Forall (fun x => AXIOM_RET_IS_OK x.1 = true) msgs → sd_set_in d = msgs ++ rest →
  ∃ r, wait_others (Z.of_nat (length msgs) + 1) ret d = Ret r (set_sd_set_in rest d) ∧
    AXIOM_RET_IS_OK r = true.
Proof.
  intros Hok Hall Hin. unfold wait_others, for_m.
  replace (Z.of_nat (length msgs) + 1 - 1) with (Z.of_nat (length msgs)) by lia.
  generalize 1 as k. intros k. unfold mbind at 1, M_bind at 1.
  induction Hall as [|[r1 m1] msgs Hok1 Hall IH] in ret, d, k, Hok, Hin |- *.
  - exists ret. cbn in *. subst. by destruct d.
  - cbn [length]. rewrite seqZ_cons by lia. cbn [for_list].
    unfold mbind at 1, M_bind at 1. unfold mbind at 1, M_bind at 1.
    cbn [axiom_recv_raw_set_routing simdev_nic]. rewrite Hin. cbn -[Z.of_nat]. cbn in Hok1. rewrite Hok1.
    replace (Z.pred (Z.of_nat (S (length msgs)))) with (Z.of_nat (length msgs)) by lia.
    apply (IH r1 (set_sd_set_in (msgs ++ rest) d) Hok1 eq_refl (Z.succ k)).
Qed.

(** *** The routing registers *)

Lemma sim_set_routing_spec node mask rt :
  mdim AXIOM_NODES_NUM AXIOM_INTERFACES_NUM rt → 0 <= node < AXIOM_NODES_NUM →
  let rt' := for_z 0 (AXIOM_INTERFACES_MAX + 1)
    (fun i m => mset m node i (if Z.land mask (u8 (bit i)) =? 0 then 0 else 1)) rt in
  mdim AXIOM_NODES_NUM AXIOM_INTERFACES_NUM rt' ∧
  ∀ n i, 0 <= i < AXIOM_INTERFACES_NUM →
    mget rt' n i = if decide (n = node) then Z.b2z (Z.testbit mask i) else mget rt n i.
Proof using COK.
  intros Hd Hn. pose proof interfaces_num_range. pose proof interfaces_max_num.
  set (P := fun (j : Z) m => mdim AXIOM_NODES_NUM AXIOM_INTERFACES_NUM m ∧
    ∀ n i, 0 <= i < AXIOM_INTERFACES_NUM →
      mget m n i = if decide (n = node ∧ i < j) then Z.b2z (Z.testbit mask i) else mget rt n i).
  assert (HP : P (AXIOM_INTERFACES_MAX + 1) (for_z 0 (AXIOM_INTERFACES_MAX + 1)
    (fun i m => mset m node i (if Z.land mask (u8 (bit i)) =? 0 then 0 else 1)) rt)).
  { apply (for_z_ind P); unfold P.
    - lia.
    - split; [done|]. intros n i Hi. rewrite decide_False by lia. done.
    - intros j m Hj [Hdm Hm]. split; [by apply mdim_mset|]. intros n i Hi.
      erewrite mget_mset by (done || lia).
      destruct (decide (node = n ∧ j = i)) as [[<- <-]|Hne].
      + rewrite decide_True by lia. by rewrite land_bit_test by lia.
      + rewrite Hm by done. destruct (decide (n = node ∧ i < j)) as [[-> ?]|Hne'].
        * by rewrite decide_True by lia.
        * by rewrite decide_False by lia. }
  destruct HP as [Hd' Hg]. split; [done|]. intros n i Hi. rewrite Hg by done.
  destruct (decide (n = node)); [rewrite decide_True by lia | rewrite decide_False by lia]; done.
Qed.

(** Writing the mask [f n] for every node [n] of a list sets these registers
    and changes nothing else of the device. *)
Lemma set_routing_each f l d :
  (∀ n, n ∈ l → 0 <= n < AXIOM_NODES_NUM) →
  mdim AXIOM_NODES_NUM AXIOM_INTERFACES_NUM (sd_routing d) →
  ∃ rt, for_each l (fun n => axiom_set_routing n (f n)) d = Ret tt (set_sd_routing rt d) ∧
    mdim AXIOM_NODES_NUM AXIOM_INTERFACES_NUM rt ∧
    ∀ n i, 0 <= i < AXIOM_INTERFACES_NUM →
      mget rt n i = if decide (n ∈ l) then Z.b2z (Z.testbit (f n) i) else mget (sd_routing d) n i.
Proof using COK.
  induction l as [|x l IH] in d |- *; intros Hl Hd.
  - exists (sd_routing d). cbn. split; [by destruct d|]. split; [done|].
    intros n i Hi. by rewrite decide_False by set_solver.
  - destruct (sim_set_routing_spec x (f x) (sd_routing d) Hd ltac:(apply Hl; set_solver)) as [Hd2 Hg2].
    set (rt1 := for_z _ _ _ _) in *.
    assert (Hset : axiom_set_routing x (f x) d = Ret tt (set_sd_routing rt1 d)) by done.
    cbn [for_each]. rewrite (bind_ret _ _ _ _ _ Hset).
    destruct (IH (set_sd_routing rt1 d) ltac:(set_solver) Hd2) as (rt & Heq & Hdr & Hg).
    exists rt. rewrite Heq. split; [by destruct d|]. split; [done|].
    intros n i Hi. rewrite Hg by done. cbn. rewrite Hg2 by done.
    repeat case_decide; subst; set_solver.
Qed.

(** After the write, the registers hold the bits of the table and nothing
    else of the device has changed. *)
Lemma write_routing_table_spec t d :
  mdim AXIOM_NODES_NUM AXIOM_INTERFACES_NUM (sd_routing d) →
  ∃ rt, axiom_write_routing_table t d = Ret tt (set_sd_routing rt d) ∧
    mdim AXIOM_NODES_NUM AXIOM_INTERFACES_NUM rt ∧
    ∀ n i, 0 <= n < AXIOM_NODES_NUM → 0 <= i < AXIOM_INTERFACES_NUM →
      mget rt n i = Z.b2z (Z.testbit (aget t n) i).
Proof using COK.
  intros Hd. unfold axiom_write_routing_table.
  destruct (set_routing_each (aget t) (seqZ 0 AXIOM_NODES_NUM) d) as (rt & Heq & Hdr & Hg); [|done|].
  { intros n. rewrite elem_of_seqZ. lia. }
  exists rt. split; [done|]. split; [done|]. intros n i Hn Hi.
  rewrite Hg by done. rewrite decide_True; [done|]. apply elem_of_seqZ. lia.
Qed.

Definition with_loopback (t : list Z) (node_id : Z) : list Z :=
  aset t node_id (u8 (bit AXIOMREG_ROUTING_LOOPBACK_IF)).

(** What both roles leave in the device: the registers hold the table, the
    order was sent once per connected interface, [rest] is left to receive. *)
Definition installed (t : list Z) (rest : list (Z * (Z * routing_cmd))) (d d' : simdev) : Prop :=
  (∀ n i, 0 <= n < AXIOM_NODES_NUM → 0 <= i < AXIOM_INTERFACES_NUM →
     mget (sd_routing d') n i = Z.b2z (Z.testbit (aget t n) i)) ∧
  sd_log d' = sd_log d ++ set_msgs d ∧ sd_set_in d' = rest.

Lemma ifs_range i : i ∈ seqZ 0 (AXIOM_INTERFACES_MAX + 1 - 0) → 0 <= i < AXIOM_INTERFACES_NUM.
Proof using COK. rewrite elem_of_seqZ, interfaces_max_num. lia. Qed.

Lemma send_set_routing_sim ret d : sd_send d = [] → AXIOM_RET_IS_OK ret = true →
  ∃ f r, send_set_routing 0 0 ret d =
    Ret (inl (r, f, Z.of_nat (length (connected_ifs d)))) (add_sd_log (set_msgs d) [] d) ∧
    AXIOM_RET_IS_OK r = true.
Proof using COK.
  intros Hs Hok. unfold send_set_routing, for_m, set_msgs, connected_ifs.
  pose proof interfaces_num_range.
  replace AXIOM_INTERFACES_NUM with (AXIOM_INTERFACES_MAX + 1 - 0) by (rewrite interfaces_max_num; lia).
  apply (send_set_loop _ 0 0 ret d ifs_range Hs Hok); [lia|].
  rewrite length_seqZ, interfaces_max_num. lia.
Qed.

(** The slave's installation: when the order arrives and then one message
    on each of the other connected interfaces, the slave returns success with
    its registers holding the received table (its own entry replaced by the
    loopback interface), has sent the order exactly once on every connected
    interface, and consumed exactly one message per connected interface. *)
Lemma set_routing_table_slave fuel t d first ifc others rest :
  alen t = AXIOM_NODES_NUM → 0 <= sd_node_id d < AXIOM_NODES_NUM →
  mdim AXIOM_NODES_NUM AXIOM_INTERFACES_NUM (sd_routing d) → sd_send d = [] → (0 < fuel)%nat →
  sd_set_in d = (first, (ifc, AXIOM_RT_CMD_SET_ROUTING)) :: others ++ rest →
  AXIOM_RET_IS_OK first = true → Forall (fun x => AXIOM_RET_IS_OK x.1 = true) others →
  S (length others) = length (connected_ifs d) →
  ∃ ret d', axiom_set_routing_table fuel t false d = Ret (ret, with_loopback t (sd_node_id d)) d' ∧
    AXIOM_RET_IS_OK ret = true ∧ installed (with_loopback t (sd_node_id d)) rest d d'.
Proof using COK.
  intros Ht Hid Hrt Hs Hf Hin Hok Hall Hlen. destruct fuel as [|fuel]; [lia|].
  unfold axiom_set_routing_table. unfold mbind at 1, M_bind at 1. cbn [axiom_get_node_id simdev_nic].
  unfold sim_get_node_id. rewrite (bind_ret _ _ _ _ _ (wr1_in t (sd_node_id d) _ d ltac:(lia))).
  set (t' := aset t _ _).
  set (d1 := set_sd_set_in (others ++ rest) d).
  destruct (write_routing_table_spec t' d1 Hrt) as (rt & Hw & _ & Hg).
  assert (Hfirst : wait_first_set (S fuel) t' d = Ret first (set_sd_routing rt d1)).
  { unfold wait_first_set. cbn [loop]. unfold mbind, M_bind.
    cbn [axiom_recv_raw_set_routing simdev_nic]. rewrite Hin. rewrite Hok. cbn [negb].
    rewrite bool_decide_eq_true_2 by done. fold d1. by rewrite Hw. }
  rewrite (bind_ret _ _ _ _ _ Hfirst), Hok. cbn [negb].
  destruct (send_set_routing_sim first (set_sd_routing rt d1) Hs Hok) as (f & r & Hsend & Hr).
  rewrite (bind_ret _ _ _ _ _ Hsend).
  change (connected_ifs (set_sd_routing rt d1)) with (connected_ifs d).
  rewrite <- Hlen, Nat2Z.inj_succ.
  destruct (wait_others_all others rest r (add_sd_log (set_msgs d) [] (set_sd_routing rt d1)) Hr Hall eq_refl)
    as (r2 & Hw2 & Hr2).
  change (set_msgs (set_sd_routing rt d1)) with (set_msgs d).
  replace (Z.succ (Z.of_nat (length others))) with (Z.of_nat (length others) + 1) by lia.
  rewrite (bind_ret _ _ _ _ _ Hw2). eexists _, _. split; [done|]. split; [done|].
  split; [done|]. done.
Qed.

(** The master's installation: with one message per connected interface to
    receive, it returns success with its registers set, the order sent once
    on every connected interface and one message consumed per interface. *)
Lemma set_routing_table_master fuel t d msgs rest :
  alen t = AXIOM_NODES_NUM → 0 <= sd_node_id d < AXIOM_NODES_NUM →
  mdim AXIOM_NODES_NUM AXIOM_INTERFACES_NUM (sd_routing d) → sd_send d = [] →
  sd_set_in d = msgs ++ rest → Forall (fun x => AXIOM_RET_IS_OK x.1 = true) msgs →
  length msgs = length (connected_ifs d) →
  ∃ ret d', axiom_set_routing_table fuel t true d = Ret (ret, with_loopback t (sd_node_id d)) d' ∧
    AXIOM_RET_IS_OK ret = true ∧ installed (with_loopback t (sd_node_id d)) rest d d'.
Proof using COK.
  intros Ht Hid Hrt Hs Hin Hall Hlen.
  unfold axiom_set_routing_table. unfold mbind at 1, M_bind at 1. cbn [axiom_get_node_id simdev_nic].
  unfold sim_get_node_id. rewrite (bind_ret _ _ _ _ _ (wr1_in t (sd_node_id d) _ d ltac:(lia))).
  set (t' := aset t _ _).
  destruct (write_routing_table_spec t' d Hrt) as (rt & Hw & _ & Hg).
  rewrite (bind_ret _ _ _ _ _ Hw).
  destruct (send_set_routing_sim AXIOM_RET_OK (set_sd_routing rt d) Hs ret_ok_ok) as (f & r & Hsend & Hr).
  rewrite (bind_ret _ _ _ _ _ Hsend). unfold recv_set_routing, for_m.
  change (set_msgs (set_sd_routing rt d)) with (set_msgs d).
  destruct (recv_set_loop (seqZ 0 (AXIOM_INTERFACES_MAX + 1 - 0)) f r msgs rest
    (add_sd_log (set_msgs d) [] (set_sd_routing rt d)) ifs_range Hr Hall Hin) as (f2 & r2 & Hrecv & Hr2).
  { rewrite Hlen. unfold connected_ifs. rewrite interfaces_max_num. do 3 f_equal. lia. }
  rewrite (bind_ret _ _ _ _ _ Hrecv). eexists _, _. split; [done|]. split; [done|].
  split; [done|]. done.
Qed.
End Install.

(** ** Evaluation *)

Section Examples.
#[local] Existing Instance nic8.
#[local] Existing Instance nic8_ok.

(** The tables of the chain 1 - 2 - 3, and a node with interfaces 0 and 1 linked. *)
Definition chain3_rts : list (list Z) :=
  [replicate 8 0; [0;0;1;1;0;0;0;0]; [0;2;0;1;0;0;0;0]; [0;2;2;0;0;0;0;0];
   replicate 8 0; replicate 8 0; replicate 8 0; replicate 8 0].

Definition dev_with (node : Z) (deliv : list (Z * rmsg)) (set_in : list (Z * (Z * routing_cmd)))
    (sends : list Z) : simdev :=
  mk_simdev node 4 [true; true; false; false] (replicate 8 (replicate 4 0)) [] deliv set_in sends [].

Lemma delivery_refines_witness :
  ∃ k d', axiom_delivery_routing_tables chain3_rts 1 4 (dev_with 1 [] [] [0; -5; 0]) = Ret (-5) d' ∧
    sd_log d' = take k (delivery_msgs chain3_rts 1 4) ∧ k = 2%nat.
Proof.
  destruct (delivery_refines chain3_rts 1 4 (dev_with 1 [] [] [0; -5; 0]))
    as (k & ret & d' & Heq & Hlog & _ & _ & Herr).
  assert (Hret : ret = -5) by (vm_compute in Heq; congruence). subst ret.
  exists k, d'. split; [exact Heq|]. split; [exact Hlog|].
  destruct (Herr eq_refl) as (? & Hk & Hok). destruct k as [|[|[|k]]]; cbn in *; try done; try lia.
  apply Forall_cons in Hok as [_ Hok]. by apply Forall_cons in Hok as [? _].
Defined.

Lemma delivery_receive_roundtrip_witness :
  ∃ ret t' mx' d', axiom_receive_routing_tables 9 2 (replicate 8 7) 0
      (dev_with 2 (inbox_of 1 2 (delivery_msgs chain3_rts 1 4)) [] []) = Ret (ret, t', mx') d' ∧
    3 <= mx' ∧ aget t' 3 = 1 ∧ sd_log d' = [EvDelivery 1 AXIOM_RT_CMD_RT_REPLY 2 0].
Proof.
  destruct (delivery_receive_roundtrip 9 chain3_rts 1 4 2 [] 0 (replicate 8 7)
    (dev_with 2 (inbox_of 1 2 (delivery_msgs chain3_rts 1 4)) [] []))
    as (ret & t' & mx' & d' & Heq & _ & _ & Hmx & _ & Ht & Hlog & _).
  - lia.
  - cbn; lia.
  - reflexivity.
  - vm_compute. reflexivity.
  - vm_compute. lia.
  - lia.
  - exists ret, t', mx', d'. split; [exact Heq|]. split; [apply Hmx; change (row_nodes chain3_rts 4 2) with [1; 3]; right; left|].
    split; [exact (Ht 3 ltac:(cbn; lia)) | exact Hlog].
Defined.

Definition reply (n : Z) : Z * rmsg := (0, mk_rmsg n AXIOM_RT_CMD_RT_REPLY n 0).

Lemma wait_rt_received_complete_witness :
  ∃ l2, axiom_wait_rt_received 4 1 4 (dev_with 1 [reply 3; reply 3; reply 2] [] []) =
    Ret 0 (dev_with 1 (l2 ++ []) [] []).
Proof.
  destruct (wait_rt_received_complete 4 1 4 [reply 3; reply 3; reply 2] []
    (dev_with 1 [reply 3; reply 3; reply 2] [] [])) as (l1 & l2 & _ & _ & Heq).
  - repeat constructor; cbn; lia || done.
  - reflexivity.
  - vm_compute. done.
  - cbn. lia.
  - exists l2. exact Heq.
Defined.

Lemma wait_rt_received_error_witness :
  axiom_wait_rt_received 4 1 4 (dev_with 1 [reply 3; (-1, mk_rmsg 2 AXIOM_RT_CMD_RT_REPLY 2 0)] [] []) =
  Ret (-1) (dev_with 1 [] [] []).
Proof.
  etransitivity; [apply (wait_rt_received_error 4 1 4 [reply 3] (-1, mk_rmsg 2 AXIOM_RT_CMD_RT_REPLY 2 0) []
    (dev_with 1 [reply 3; (-1, mk_rmsg 2 AXIOM_RT_CMD_RT_REPLY 2 0)] [] []))|reflexivity].
  - repeat constructor; cbn; lia || done.
  - left. reflexivity.
  - reflexivity.
  - vm_compute. done.
  - cbn. lia.
Defined.

Lemma regs_dim : mdim 8 4 (replicate 8 (replicate 4 0)).
Proof. split; [done|]. intros i Hi. unfold aget. zcases; [lia|]. by rewrite lookup_total_replicate_2 by lia. Qed.

Definition order (i : Z) : Z * (Z * routing_cmd) := (0, (i, AXIOM_RT_CMD_SET_ROUTING)).

End Examples.
