(* ===== verification/Discovery.v ===== *)
(** * The discovery protocol (axiom_discovery_protocol.c)

    A depth-first search of the network: the node that runs [discover_phase]
    polls its interfaces, gives the next id to a neighbour that has none, lets
    that neighbour search on and merges the topology it sends back. *)

From S2P Require Import Prelude Nic Routing Delivery.

Section Code.
Context `{C : NicConsts} {D : Type} {N : NicDev D}.
Implicit Types (topology : list (list Z)).

Definition axiom_topology_init topology : list (list Z) :=
  for_z 0 AXIOM_NODES_NUM (fun i t =>
    for_z 0 AXIOM_INTERFACES_NUM (fun j t => mset t i j AXIOM_NULL_NODE) t) topology.

Definition axiom_codify_routing_mask (if_id : Z) : Z := u8 (bit if_id).

Definition axiom_routing_init : M D unit :=
  for_each (seqZ 0 AXIOM_NODES_NUM) (fun node_id => axiom_set_routing node_id 0).

(** [for (node_index = start; node_index <= next_id; node_index++)] with
    [uint8_t] counters: it never ends when [next_id] is 255. *)
Definition route_range (start next_id mask : Z) : M D unit :=
  if (255 <=? next_id) && (start <=? next_id) then stop Diverges
  else for_each (seqZ start (next_id - start + 1)) (fun n => axiom_set_routing n mask).

(** One message of the wait for the neighbour's topology; the state is
    [*next_id] and [topology], leaving the loop returns them. *)
Definition topology_msg (node_id i start : Z) '(next_id, topology)
    : M D (Z * list (list Z) + Z * list (list Z)) :=
  '(ret, m) ← axiom_recv_raw_discovery;
  if negb (AXIOM_RET_IS_OK ret) then mret (inr (next_id, topology)) else
  match d_cmd m with
  | AXIOM_DSCV_CMD_REQ_ID =>
      ret ← axiom_send_raw_discovery (d_if m) AXIOM_DSCV_CMD_RSP_ID node_id (d_src m) (d_if m) 0;
      mret (if AXIOM_RET_IS_OK ret then inl (next_id, topology) else inr (next_id, topology))
  | AXIOM_DSCV_CMD_TOPOLOGY =>
      topology ← wr topology (d_src m) (d_sif m) (d_dst m);
      topology ← wr topology (d_dst m) (d_dif m) (d_src m);
      mret (inl (next_id, topology))
  | AXIOM_DSCV_CMD_END_TOPOLOGY =>
      let next_id := d_src m in
      route_range start next_id (axiom_codify_routing_mask i) ;;
      mret (inr (next_id, topology))
  | _ => mret (inl (next_id, topology))
  end.

(** The neighbour on interface [i] has no id: give it one and let it search. *)
Definition new_neighbour (fuel : nat) (node_id i : Z) (m : dmsg) (next_id : Z) topology
    : M D (Z * list (list Z) + Z * list (list Z)) :=
  let next_id := u8 (next_id + 1) in
  ret ← axiom_send_raw_discovery i AXIOM_DSCV_CMD_SETID node_id next_id 0 0;
  if negb (AXIOM_RET_IS_OK ret) then mret (inr (next_id, topology)) else
  axiom_set_routing next_id (axiom_codify_routing_mask i) ;;
  topology ← wr topology node_id i next_id;
  topology ← wr topology next_id (d_sif m) node_id;
  ret ← axiom_send_raw_discovery i AXIOM_DSCV_CMD_START node_id next_id 0 0;
  if negb (AXIOM_RET_IS_OK ret) then mret (inr (next_id, topology)) else
  r ← loop fuel (topology_msg node_id i next_id) (next_id, topology);
  mret (inl r).

(** The body of the loop over the interfaces; [inr] is the [break]. *)
Definition discover_if (fuel : nat) (node_id i : Z) '(next_id, topology, if_features)
    : M D (Z * list (list Z) * Z + Z * list (list Z)) :=
  if_features ← axiom_get_if_info i if_features;
  if Z.land if_features AXIOM_IF_CONNECTED =? 0
  then mret (inl (next_id, topology, if_features)) else
  t ← rd topology node_id i;
  if negb (t =? AXIOM_NULL_NODE) then mret (inl (next_id, topology, if_features)) else
  ret ← axiom_send_raw_discovery i AXIOM_DSCV_CMD_REQ_ID node_id 0 0 0;
  if negb (AXIOM_RET_IS_OK ret) then mret (inr (next_id, topology)) else
  '(ret, m) ← axiom_recv_raw_discovery;
  if negb (AXIOM_RET_IS_OK ret) then mret (inr (next_id, topology)) else
  match d_cmd m with
  | AXIOM_DSCV_CMD_RSP_ID =>
      topology ← wr topology node_id (d_if m) (d_src m);
      topology ← wr topology (d_src m) (d_sif m) node_id;
      mret (inl (next_id, topology, if_features))
  | AXIOM_DSCV_CMD_RSP_NOID =>
      r ← new_neighbour fuel node_id i m next_id topology;
      mret (match r with
            | inl (next_id, topology) => inl (next_id, topology, if_features)
            | inr x => inr x
            end)
  | _ => mret (inr (next_id, topology))
  end.

(** The result is always [AXIOM_RET_OK]; [*next_id] and [topology] are the
    in/out parameters. *)
Definition discover_phase (fuel : nat) (next_id : Z) topology : M D (Z * Z * list (list Z)) :=
  node_id ← axiom_get_node_id;
  axiom_set_routing node_id (axiom_codify_routing_mask AXIOM_IF_LOOPBACK) ;;
  num_interface ← axiom_get_if_number;
  r ← for_m 0 num_interface (discover_if fuel node_id) (next_id, topology, 0);
  mret (match r with
        | inl (next_id, topology, _) => (AXIOM_RET_OK, next_id, topology)
        | inr (next_id, topology) => (AXIOM_RET_OK, next_id, topology)
        end).

(** The result: error code, topology and [*last_node]. *)
Definition axiom_master_node_discovery (fuel : nat) topology (master_id : Z)
    : M D (Z * list (list Z) * Z) :=
  let topology := axiom_topology_init topology in
  axiom_routing_init ;;
  axiom_set_node_id master_id ;;
  '(ret, next_id, topology) ← discover_phase fuel master_id topology;
  mret (ret, topology, u8 (next_id + 1)).

(** [while (msg_cmd != wanted && OK(ret)) recv]: the last message and result. *)
Definition wait_cmd (fuel : nat) (wanted : discovery_cmd) (m : dmsg) : M D (Z * dmsg) :=
  loop fuel (fun '(ret, m) =>
    if bool_decide (d_cmd m = wanted) || negb (AXIOM_RET_IS_OK ret) then mret (inr (ret, m))
    else x ← axiom_recv_raw_discovery; mret (inl x)) (AXIOM_RET_OK, m).

(** [for (w = 0; w < AXIOM_INTERFACES_NUM; w++) if (topology[n][w] == i) break;] *)
Definition remote_if topology (n i : Z) : M D Z :=
  r ← for_m 0 AXIOM_INTERFACES_NUM (fun w _ =>
        x ← rd topology n w; mret (if x =? i then inr w else inl tt)) tt;
  mret (match r with inl _ => AXIOM_INTERFACES_NUM | inr w => w end).

(** One entry of the topology sent back; [inr] is the early [return]. *)
Definition send_entry topology (src_interface i j ret : Z) : M D (Z + Z) :=
  x ← rd topology i j;
  if x =? AXIOM_NULL_NODE then mret (inl ret) else
  w ← remote_if topology x i;
  ret ← axiom_send_raw_discovery src_interface AXIOM_DSCV_CMD_TOPOLOGY i x j w;
  mret (if AXIOM_RET_IS_OK ret then inl ret else inr ret).

Definition send_topology topology (src_interface ret : Z) : M D (Z + Z) :=
  for_m 0 AXIOM_NODES_NUM (fun i ret =>
    for_m 0 AXIOM_INTERFACES_NUM (fun j ret => send_entry topology src_interface i j ret) ret) ret.

(** The part of the slave after the START message. *)
Definition slave_search (fuel : nat) topology (node_id : Z) (m : dmsg)
    : M D (Z * list (list Z) * Z) :=
  '(_, next_id, topology) ← discover_phase fuel (d_dst m) topology;
  r ← send_topology topology (d_if m) AXIOM_RET_OK;
  match r with
  | inr ret => mret (ret, topology, node_id)
  | inl _ =>
      ret ← axiom_send_raw_discovery (d_if m) AXIOM_DSCV_CMD_END_TOPOLOGY next_id 0 0 0;
      mret (ret, topology, node_id)
  end.

(** The result: error code, topology and [*node_id] ([old_id] when not set). *)
Definition axiom_slave_node_discovery (fuel : nat) topology (old_id first_interface : Z)
    (first_cmd : discovery_cmd) (first_src : Z) : M D (Z * list (list Z) * Z) :=
  if negb (bool_decide (first_cmd = AXIOM_DSCV_CMD_REQ_ID))
  then mret (AXIOM_RET_ERROR, topology, old_id) else
  let topology := axiom_topology_init topology in
  axiom_routing_init ;;
  axiom_set_node_id 0 ;;
  node_id ← axiom_get_node_id;
  for_each (seqZ AXIOM_INIT_MASTER_NODE (first_src - AXIOM_INIT_MASTER_NODE + 1))
    (fun i => axiom_set_routing i (axiom_codify_routing_mask first_interface)) ;;
  if negb (node_id =? 0) then
    ret ← axiom_send_raw_discovery first_interface AXIOM_DSCV_CMD_RSP_ID node_id first_src
            first_interface 0;
    mret (ret, topology, node_id)
  else
  ret ← axiom_send_raw_discovery first_interface AXIOM_DSCV_CMD_RSP_NOID node_id first_src
          first_interface 0;
  if negb (AXIOM_RET_IS_OK ret) then mret (ret, topology, node_id) else
  '(ret, m) ← wait_cmd fuel AXIOM_DSCV_CMD_SETID
                (mk_dmsg first_interface first_cmd first_src 0 0 0);
  if negb (AXIOM_RET_IS_OK ret) then mret (ret, topology, node_id) else
  axiom_set_node_id (d_dst m) ;;
  let node_id := d_dst m in
  '(ret, m) ← wait_cmd fuel AXIOM_DSCV_CMD_START m;
  if negb (AXIOM_RET_IS_OK ret) then mret (ret, topology, node_id) else
  slave_search fuel topology node_id m.
End Code.

(** ** Checked accesses in range *)

Section Access.
Context {D : Type}.

Lemma access_in r c m i j : mdim r c m → 0 <= i < r → 0 <= j < c →
  ((0 <=? i) && (i <? alen m) && (0 <=? j) && (j <? alen (aget m i))) = true.
Proof.
  intros [Hr Hc] Hi Hj. rewrite Hr, Hc by lia.
  destruct (Z.leb_spec 0 i), (Z.ltb_spec i r), (Z.leb_spec 0 j), (Z.ltb_spec j c); lia || done.
Qed.

Lemma rd_in r c m i j (d : D) : mdim r c m → 0 <= i < r → 0 <= j < c →
  rd m i j d = Ret (mget m i j) d.
Proof. intros. unfold rd. by erewrite access_in. Qed.

Lemma wr_in r c m i j v (d : D) : mdim r c m → 0 <= i < r → 0 <= j < c →
  wr m i j v d = Ret (mset m i j v) d.
Proof. intros. unfold wr. by erewrite access_in. Qed.
End Access.

(** ** The transfer of a topology *)

Section Transfer.
Context `{C : NicConsts} {COK : NicConstsOk}.
Implicit Types (T P Q : list (list Z)).

(** A topology whose links join existing nodes and go both ways. *)
Record topo_wf T : Prop := {
  tw_dim : mdim AXIOM_NODES_NUM AXIOM_INTERFACES_NUM T;
  tw_node : ∀ i j, 0 <= i < AXIOM_NODES_NUM → 0 <= j < AXIOM_INTERFACES_NUM →
    mget T i j ≠ AXIOM_NULL_NODE → i ≠ AXIOM_NULL_NODE ∧ 0 <= mget T i j < AXIOM_NODES_NUM;
  tw_sym : ∀ i j, 0 <= i < AXIOM_NODES_NUM → 0 <= j < AXIOM_INTERFACES_NUM →
    mget T i j ≠ AXIOM_NULL_NODE →
    ∃ w, 0 <= w < AXIOM_INTERFACES_NUM ∧ mget T (mget T i j) w = i
}.

(** The first interface of [n] that leads to [i]. *)
Definition first_if T (n i : Z) : Z :=
  default AXIOM_INTERFACES_NUM
    (List.find (fun w => mget T n w =? i) (seqZ 0 AXIOM_INTERFACES_NUM)).

(** The message for the link at [i], [j], as received on interface [ifc]. *)
Definition link_msg T (ifc i j : Z) : dmsg :=
  mk_dmsg ifc AXIOM_DSCV_CMD_TOPOLOGY i (mget T i j) j (first_if T (mget T i j) i).

Definition topo_links T (ifc : Z) : list dmsg :=
  concat ((fun i => concat ((fun j =>
    if mget T i j =? AXIOM_NULL_NODE then [] else [link_msg T ifc i j])
    <$> seqZ 0 AXIOM_INTERFACES_NUM)) <$> seqZ 0 AXIOM_NODES_NUM).

Definition msg_event (ifc : Z) (m : dmsg) : event :=
  EvDiscovery ifc (d_cmd m) (d_src m) (d_dst m) (d_sif m) (d_dif m).

Lemma remote_if_first T n i (d : simdev) :
  mdim AXIOM_NODES_NUM AXIOM_INTERFACES_NUM T → 0 <= n < AXIOM_NODES_NUM →
  remote_if T n i d = Ret (first_if T n i) d.
Proof.
  intros Hd Hn. unfold remote_if, first_if, for_m. rewrite Z.sub_0_r.
  assert (Hl : ∀ w, w ∈ seqZ 0 AXIOM_INTERFACES_NUM → 0 <= w < AXIOM_INTERFACES_NUM)
    by (intros w; rewrite elem_of_seqZ; lia).
  induction (seqZ 0 AXIOM_INTERFACES_NUM) as [|w l IH]; [done|].
  cbn [for_list List.find].
  unfold mbind at 1, M_bind at 1. unfold mbind at 1, M_bind at 1. unfold mbind at 1, M_bind at 1.
  rewrite (rd_in _ _ T n w d Hd Hn) by (apply Hl; set_solver). unfold mret at 1, M_ret at 1.
  destruct (mget T n w =? i); [done|]. apply IH. set_solver.
Qed.

(** The first interface back is an interface back. *)
Lemma first_if_back T i j : topo_wf T →
  0 <= i < AXIOM_NODES_NUM → 0 <= j < AXIOM_INTERFACES_NUM → mget T i j ≠ AXIOM_NULL_NODE →
  0 <= first_if T (mget T i j) i < AXIOM_INTERFACES_NUM ∧
  mget T (mget T i j) (first_if T (mget T i j) i) = i.
Proof.
  intros HT Hi Hj Hn. destruct (tw_sym T HT i j Hi Hj Hn) as (w & Hw & Hback).
  unfold first_if. destruct (List.find _ _) as [w'|] eqn:E.
  - apply find_some in E as [Hin Heq]. apply list_elem_of_In, elem_of_seqZ in Hin.
    cbn. split; [lia|]. by apply Z.eqb_eq.
  - exfalso. eapply find_none in E; [|apply list_elem_of_In, elem_of_seqZ; split; [apply Hw|lia]].
    apply Z.eqb_neq in E. lia.
Qed.

(** The sending loops are the sequence of the link messages. *)
Lemma send_topology_seq T ifc pif ret d : topo_wf T → AXIOM_RET_IS_OK ret = true →
  send_topology T ifc ret d = send_seq (msg_event ifc <$> topo_links T pif) ret d.
Proof.
  intros HT Hr. unfold send_topology, topo_links, for_m.
  rewrite fmap_concat, !Z.sub_0_r, <- list_fmap_compose.
  apply loop_send_seq; [|done]. intros i ret1 d1 Hi Hr1. apply elem_of_seqZ in Hi.
  unfold compose. rewrite fmap_concat, <- list_fmap_compose.
  apply loop_send_seq; [|done]. intros j ret2 d2 Hj Hr2. apply elem_of_seqZ in Hj.
  unfold compose, send_entry.
  rewrite (bind_ret _ _ _ _ _ (rd_in _ _ T i j d2 (tw_dim T HT) ltac:(lia) ltac:(lia))).
  destruct (Z.eqb_spec (mget T i j) AXIOM_NULL_NODE) as [E|E]; [done|].
  destruct (tw_node T HT i j ltac:(lia) ltac:(lia) E) as [_ Hx].
  rewrite (bind_ret _ _ _ _ _ (remote_if_first T _ i d2 (tw_dim T HT) Hx)).
  cbn. unfold mbind, M_bind. cbn. destruct (sd_push _ d2) as [r d3|]; [|done].
  cbn. by destruct (AXIOM_RET_IS_OK r).
Qed.
(** What the parent does with one message: a topology link is stored, an id
    request is answered. *)
Definition store_msg P (m : dmsg) : list (list Z) :=
  if decide (d_cmd m = AXIOM_DSCV_CMD_TOPOLOGY)
  then mset (mset P (d_src m) (d_sif m) (d_dst m)) (d_dst m) (d_dif m) (d_src m) else P.
Definition answer (node_id : Z) (m : dmsg) : list event :=
  if decide (d_cmd m = AXIOM_DSCV_CMD_REQ_ID)
  then [EvDiscovery (d_if m) AXIOM_DSCV_CMD_RSP_ID node_id (d_src m) (d_if m) 0] else [].

(** A message that can arrive while the parent waits: an id request of another
    searching node, or a link of [T]. *)
Definition is_link (m : dmsg) : bool := bool_decide (d_cmd m = AXIOM_DSCV_CMD_TOPOLOGY).
Record link_of T (m : dmsg) : Prop := {
  lk_src : 0 <= d_src m < AXIOM_NODES_NUM; lk_dst : 0 <= d_dst m < AXIOM_NODES_NUM;
  lk_sif : 0 <= d_sif m < AXIOM_INTERFACES_NUM; lk_dif : 0 <= d_dif m < AXIOM_INTERFACES_NUM;
  lk_fwd : mget T (d_src m) (d_sif m) = d_dst m; lk_back : mget T (d_dst m) (d_dif m) = d_src m;
  lk_null : d_src m ≠ AXIOM_NULL_NODE ∧ d_dst m ≠ AXIOM_NULL_NODE
}.
Definition waits_for T (m : dmsg) : Prop :=
  d_cmd m = AXIOM_DSCV_CMD_REQ_ID ∨ (d_cmd m = AXIOM_DSCV_CMD_TOPOLOGY ∧ link_of T m).

Lemma topo_links_of T ifc m : topo_wf T → m ∈ topo_links T ifc →
  d_cmd m = AXIOM_DSCV_CMD_TOPOLOGY ∧ link_of T m.
Proof.
  intros HT. unfold topo_links. rewrite elem_of_concat. intros (l & Hl & Hm).
  apply list_elem_of_fmap in Hl as (i & -> & Hi). apply elem_of_seqZ in Hi.
  apply elem_of_concat in Hm as (l & Hl & Hm).
  apply list_elem_of_fmap in Hl as (j & -> & Hj). apply elem_of_seqZ in Hj.
  destruct (Z.eqb_spec (mget T i j) AXIOM_NULL_NODE) as [E|E]; [set_solver|].
  apply list_elem_of_singleton in Hm as ->. split; [done|].
  destruct (tw_node T HT i j ltac:(lia) ltac:(lia) E).
  destruct (first_if_back T i j HT ltac:(lia) ltac:(lia) E). by split; cbn; try lia.
Qed.

(** Every link of the topology is announced. *)
Lemma topo_links_all T ifc i j : 0 <= i < AXIOM_NODES_NUM → 0 <= j < AXIOM_INTERFACES_NUM →
  mget T i j ≠ AXIOM_NULL_NODE → link_msg T ifc i j ∈ topo_links T ifc.
Proof.
  intros Hi Hj E. unfold topo_links. apply elem_of_concat. eexists. split.
  { apply list_elem_of_fmap. exists i. split; [done|]. apply elem_of_seqZ. lia. }
  apply elem_of_concat. eexists. split.
  { apply list_elem_of_fmap. exists j. split; [done|]. apply elem_of_seqZ. lia. }
  destruct (Z.eqb_spec (mget T i j) AXIOM_NULL_NODE); set_solver.
Qed.

(** Storing one message of [T]: dimensions, entries that [T] does not have and
    entries already equal to [T]'s. *)
Lemma store_msg_spec T P m : mdim AXIOM_NODES_NUM AXIOM_INTERFACES_NUM P → waits_for T m →
  mdim AXIOM_NODES_NUM AXIOM_INTERFACES_NUM (store_msg P m) ∧
  (∀ a b, mget T a b = AXIOM_NULL_NODE → mget (store_msg P m) a b = mget P a b) ∧
  (∀ a b, mget P a b = mget T a b → mget (store_msg P m) a b = mget T a b) ∧
  (is_link m = true → mget (store_msg P m) (d_src m) (d_sif m) = d_dst m).
Proof.
  intros Hd [Hc|[Hc L]]; unfold store_msg, is_link; rewrite Hc.
  { rewrite decide_False by done. naive_solver. }
  rewrite decide_True by done. pose proof (lk_src T m L). pose proof (lk_dst T m L).
  pose proof (lk_sif T m L). pose proof (lk_dif T m L). destruct (lk_null T m L).
  pose proof (lk_fwd T m L) as F. pose proof (lk_back T m L) as B.
  set (P1 := mset P (d_src m) (d_sif m) (d_dst m)).
  assert (Hd1 : mdim AXIOM_NODES_NUM AXIOM_INTERFACES_NUM P1) by (by apply mdim_mset).
  split; [by apply mdim_mset|].
  assert (Hg : ∀ a b, let x := mget (mset P1 (d_dst m) (d_dif m) (d_src m)) a b in
    (x = mget T a b ∧ mget T a b ≠ AXIOM_NULL_NODE) ∨
    (x = mget P a b ∧ ¬ (d_src m = a ∧ d_sif m = b))).
  { intros a b. cbn zeta. erewrite mget_mset by done.
    case_decide as E1; [left; destruct E1; subst; by rewrite B|].
    unfold P1. erewrite mget_mset by done.
    case_decide as E2; [left; destruct E2; subst; by rewrite F|]. by right. }
  split_and!.
  - intros a b Hn. destruct (Hg a b) as [[_ E]|[E _]]; done.
  - intros a b Hp. destruct (Hg a b) as [[E _]|[E _]]; congruence.
  - intros _. destruct (Hg (d_src m) (d_sif m)) as [[E _]|[_ E]]; [congruence|]. by destruct E.
Qed.

(** All messages stored: exactly the entries of [T] that were announced. *)
Lemma store_all T P l : mdim AXIOM_NODES_NUM AXIOM_INTERFACES_NUM P →
  (∀ m, m ∈ l → waits_for T m) →
  let Q := foldl store_msg P l in
  mdim AXIOM_NODES_NUM AXIOM_INTERFACES_NUM Q ∧
  (∀ a b, mget T a b = AXIOM_NULL_NODE → mget Q a b = mget P a b) ∧
  (∀ a b, mget P a b = mget T a b → mget Q a b = mget T a b) ∧
  (∀ m, m ∈ l → is_link m = true → mget Q (d_src m) (d_sif m) = mget T (d_src m) (d_sif m)).
Proof.
  induction l as [|m l IH] in P |- *; intros Hd Hl; [set_solver|]. cbn [foldl].
  destruct (store_msg_spec T P m Hd ltac:(apply Hl; set_solver)) as (Hd1 & Hn1 & Ht1 & Hm1).
  destruct (IH (store_msg P m) Hd1 ltac:(set_solver)) as (Hd2 & Hn2 & Ht2 & Hm2).
  split; [done|]. split; [|split].
  - intros a b E. rewrite Hn2 by done. auto.
  - auto.
  - intros m' [->|Hm']%elem_of_cons Hk; [|auto]. apply Ht2. rewrite Hm1 by done.
    destruct (Hl m ltac:(set_solver)) as [Hc|[_ L]]; [|by rewrite (lk_fwd T m L)].
    unfold is_link in Hk. rewrite bool_decide_eq_true in Hk. congruence.
Qed.

(** One turn of the wait. *)
Lemma topology_msg_turn T node_id i start next P m xs d :
  mdim AXIOM_NODES_NUM AXIOM_INTERFACES_NUM P → waits_for T m →
  sd_disc_in d = (AXIOM_RET_OK, m) :: xs → sd_send d = [] →
  topology_msg node_id i start (next, P) d =
  Ret (inl (next, store_msg P m)) (add_sd_log (answer node_id m) [] (set_sd_disc_in xs d)).
Proof using COK.
  intros Hd Hm Hin Hs. unfold topology_msg, mbind at 1, M_bind at 1.
  cbn [axiom_recv_raw_discovery simdev_nic]. rewrite Hin, ret_ok_ok. cbn [negb].
  destruct Hm as [Hc|[Hc L]]; unfold store_msg, answer; rewrite Hc; cbn [decide].
  - rewrite decide_False, decide_True by done. unfold mbind, M_bind.
    cbn [axiom_send_raw_discovery simdev_nic]. unfold sd_push. cbn [set_sd_disc_in sd_send].
    rewrite Hs, ret_ok_ok. done.
  - rewrite decide_True, decide_False by done.
    pose proof (lk_src T m L). pose proof (lk_dst T m L).
    pose proof (lk_sif T m L). pose proof (lk_dif T m L).
    rewrite (bind_ret _ _ _ _ _ (wr_in _ _ P _ _ (d_dst m) _ Hd (lk_src T m L) (lk_sif T m L))).
    rewrite (bind_ret _ _ _ _ _ (wr_in _ _ (mset P _ _ _) _ _ (d_src m) _
      (mdim_mset _ _ _ _ _ _ Hd (lk_src T m L)) (lk_dst T m L) (lk_dif T m L))).
    unfold mret, M_ret. f_equal. destruct d. unfold add_sd_log. cbn in *. by rewrite app_nil_r, Hs.
Qed.

Definition end_topology (ifc next : Z) : Z * dmsg :=
  (AXIOM_RET_OK, mk_dmsg ifc AXIOM_DSCV_CMD_END_TOPOLOGY next 0 0 0).

(** The whole wait: all messages stored and answered, then the end mark. *)
Lemma topology_loop T node_id i start next0 next ifc P l rest fuel d :
  mdim AXIOM_NODES_NUM AXIOM_INTERFACES_NUM P → (∀ m, m ∈ l → waits_for T m) →
  sd_disc_in d = (pair AXIOM_RET_OK <$> l) ++ end_topology ifc next :: rest → sd_send d = [] →
  (length l < fuel)%nat →
  loop fuel (topology_msg node_id i start) (next0, P) d =
  (route_range start next (axiom_codify_routing_mask i) ;; mret (next, foldl store_msg P l))
    (add_sd_log (concat (answer node_id <$> l)) [] (set_sd_disc_in rest d)).
Proof using COK.
  induction l as [|m l IH] in P, fuel, d |- *; intros Hd Hl Hin Hs Hf;
    (destruct fuel as [|fuel]; [cbn in Hf; lia|]); cbn [loop].
  - cbn in Hin. unfold topology_msg, end_topology in *.
    unfold mbind at 1, M_bind at 1. unfold mbind at 1, M_bind at 1.
    cbn [axiom_recv_raw_discovery simdev_nic]. rewrite Hin, ret_ok_ok. cbn [negb d_cmd d_src].
    replace (add_sd_log _ _ _) with (set_sd_disc_in rest d)
      by (destruct d; unfold add_sd_log; cbn in *; by rewrite app_nil_r, Hs).
    unfold mbind, M_bind. by destruct (route_range _ _ _ _).
  - rewrite (bind_ret _ _ _ _ _ (topology_msg_turn T node_id i start next0 P m _ d Hd
      (Hl m (list_elem_of_here _ _)) Hin Hs)).
    destruct (store_msg_spec T P m Hd (Hl m (list_elem_of_here _ _))) as [Hd1 _].
    rewrite IH; [|done|set_solver|by destruct d|done|cbn in Hf; lia].
    cbn. f_equal. destruct d. unfold add_sd_log. cbn. by rewrite <- app_assoc.
Qed.
Lemma route_range_spec start next mask d :
  0 <= start → next < AXIOM_NODES_NUM → next < 255 →
  mdim AXIOM_NODES_NUM AXIOM_INTERFACES_NUM (sd_routing d) →
  ∃ rt, route_range start next mask d = Ret tt (set_sd_routing rt d) ∧
    mdim AXIOM_NODES_NUM AXIOM_INTERFACES_NUM rt ∧
    ∀ n i, 0 <= i < AXIOM_INTERFACES_NUM →
      mget rt n i = if decide (start <= n <= next) then Z.b2z (Z.testbit mask i)
                    else mget (sd_routing d) n i.
Proof using COK.
  intros Hs Hn H255 Hd. unfold route_range. destruct (Z.leb_spec 255 next); [lia|]. cbn [andb].
  destruct (set_routing_each (fun _ => mask) (seqZ start (next - start + 1)) d) as (rt & Heq & Hdr & Hg).
  { intros n. rewrite elem_of_seqZ. lia. }
  { done. }
  exists rt. split; [done|]. split; [done|]. intros n i Hi. rewrite Hg by done.
  destruct (decide (n ∈ _)) as [E|E]; rewrite elem_of_seqZ in E;
    [rewrite decide_True by lia | rewrite decide_False by lia]; done.
Qed.

Lemma topo_links_waits T ifc l : topo_wf T → List.filter is_link l = topo_links T ifc →
  (∀ m, m ∈ l → is_link m = false → d_cmd m = AXIOM_DSCV_CMD_REQ_ID) →
  ∀ m, m ∈ l → waits_for T m.
Proof.
  intros HT Hl Hr m Hm. destruct (is_link m) eqn:E; [right|left; auto].
  apply (topo_links_of T ifc m HT). rewrite <- Hl. apply list_elem_of_In, filter_In.
  by rewrite <- list_elem_of_In.
Qed.

(** C10. The transfer of a topology from a slave to its parent is a merge.  The
    slave sends one message per link; the parent, which receives them in
    between any id requests of other searching nodes and then the end mark, ends
    its wait with the slave's entry wherever the slave knows a link and its own
    entry elsewhere; it answers every id request, routes all ids from [start] to
    the returned one through interface [i] and reads nothing more. *)
Theorem topology_transfer T P ifc pif node_id i start next0 next l rest fuel dc dp :
  topo_wf T → mdim AXIOM_NODES_NUM AXIOM_INTERFACES_NUM P →
  sd_send dc = [] → sd_send dp = [] →
  mdim AXIOM_NODES_NUM AXIOM_INTERFACES_NUM (sd_routing dp) →
  0 <= i < AXIOM_INTERFACES_NUM → 0 <= start → next < AXIOM_NODES_NUM → next < 255 →
  List.filter is_link l = topo_links T pif →
  (∀ m, m ∈ l → is_link m = false → d_cmd m = AXIOM_DSCV_CMD_REQ_ID) →
  sd_disc_in dp = (pair AXIOM_RET_OK <$> l) ++ end_topology pif next :: rest →
  (length l < fuel)%nat →
  send_topology T ifc AXIOM_RET_OK dc =
    Ret (inl AXIOM_RET_OK) (add_sd_log (msg_event ifc <$> topo_links T pif) [] dc) ∧
  ∃ Q rt,
    loop fuel (topology_msg node_id i start) (next0, P) dp =
      Ret (next, Q) (set_sd_routing rt
        (add_sd_log (concat (answer node_id <$> l)) [] (set_sd_disc_in rest dp))) ∧
    (∀ a b, 0 <= a < AXIOM_NODES_NUM → 0 <= b < AXIOM_INTERFACES_NUM →
      mget Q a b = if mget T a b =? AXIOM_NULL_NODE then mget P a b else mget T a b) ∧
    (∀ n j, 0 <= j < AXIOM_INTERFACES_NUM →
      mget rt n j = if decide (start <= n <= next) then Z.b2z (j =? i) else mget (sd_routing dp) n j).
Proof using COK.
  intros HT HP Hsc Hsp Hrt Hi Hst Hnx H255 Hl Hreq Hin Hf.
  pose proof (topo_links_waits T pif l HT Hl Hreq) as Hw. pose proof interfaces_num_range.
  split.
  { rewrite (send_topology_seq T ifc pif) by (done || apply ret_ok_ok).
    rewrite send_seq_all by done. by destruct (msg_event ifc <$> topo_links T pif). }
  rewrite (topology_loop T node_id i start next0 next pif P l rest fuel dp HP Hw Hin Hsp Hf).
  set (d1 := add_sd_log _ _ _).
  destruct (route_range_spec start next (axiom_codify_routing_mask i) d1 Hst Hnx H255 Hrt)
    as (rt & Heq & _ & Hg).
  rewrite (bind_ret _ _ _ _ _ Heq). exists (foldl store_msg P l), rt. split; [done|].
  destruct (store_all T P l HP Hw) as (_ & Hn & _ & Ht). split.
  - intros a b Ha Hb. destruct (Z.eqb_spec (mget T a b) AXIOM_NULL_NODE) as [E|E]; [by apply Hn|].
    pose proof (topo_links_all T pif a b Ha Hb E) as Hm. rewrite <- Hl in Hm.
    apply list_elem_of_In, filter_In in Hm as [Hm Hk]. rewrite <- list_elem_of_In in Hm.
    apply (Ht _ Hm Hk).
  - intros n j Hj. rewrite Hg by done. case_decide; [|done].
    unfold axiom_codify_routing_mask. rewrite testbit_u8, testbit_bit by lia.
    destruct (Z.eqb_spec j i); [by rewrite bool_decide_true|by rewrite bool_decide_false by lia].
Qed.
End Transfer.

(** ** Safety of the search *)

Section Safety.
Context `{C : NicConsts} {COK : NicConstsOk}.
Implicit Types (T : list (list Z)).
Abbreviation topo_dim := (mdim AXIOM_NODES_NUM AXIOM_INTERFACES_NUM).

(** A message that a node with [k] interfaces can receive: ids and interfaces
    are those of the network, and the id that ends a sub-search leaves room for
    the neighbours still to be polled. *)
Record msg_wf (k : Z) (m : dmsg) : Prop := {
  mw_if : 0 <= d_if m < AXIOM_INTERFACES_NUM;
  mw_src : 0 <= d_src m < AXIOM_NODES_NUM; mw_dst : 0 <= d_dst m < AXIOM_NODES_NUM;
  mw_sif : 0 <= d_sif m < AXIOM_INTERFACES_NUM; mw_dif : 0 <= d_dif m < AXIOM_INTERFACES_NUM;
  mw_end : d_cmd m = AXIOM_DSCV_CMD_END_TOPOLOGY → d_src m + k < AXIOM_NODES_NUM
}.

(** The device during the search; at most [lim] messages are still to come. *)
Record dev_wf (node k : Z) (lim : nat) (d : simdev) : Prop := {
  dw_node : sd_node_id d = node;
  dw_ifs : sd_num_interfaces d = k;
  dw_msgs : ∀ x, x ∈ sd_disc_in d → msg_wf k x.2;
  dw_lim : (length (sd_disc_in d) <= lim)%nat
}.

Lemma send_no_fault i c s t si di node k lim d : dev_wf node k lim d →
  no_fault (fun _ d' => dev_wf node k lim d' ∧ sd_disc_in d' = sd_disc_in d)
    (axiom_send_raw_discovery i c s t si di d).
Proof.
  intros [? ? ? ?]. cbn. unfold sd_push. by destruct (sd_send d); cbn; (split; [split|]).
Qed.

Lemma recv_no_fault node k lim d : dev_wf node k lim d →
  no_fault (fun x d' => msg_wf k x.2 ∧ dev_wf node k lim d' ∧
    (length (sd_disc_in d') < length (sd_disc_in d))%nat) (axiom_recv_raw_discovery d).
Proof.
  intros [? ? Hm ?]. cbn. destruct (sd_disc_in d) as [|x xs] eqn:E; [done|]. cbn in *.
  split; [apply Hm; set_solver|]. split; [|lia].
  by split; cbn; [| |set_solver|lia].
Qed.

Lemma set_routing_no_fault n mask node k lim d : dev_wf node k lim d →
  no_fault (fun _ d' => dev_wf node k lim d' ∧ sd_disc_in d' = sd_disc_in d) (axiom_set_routing n mask d).
Proof. intros [? ? ? ?]. cbn. by split; [split|]. Qed.

Lemma route_range_no_fault start next mask node k lim d : next < 255 → dev_wf node k lim d →
  no_fault (fun _ d' => dev_wf node k lim d') (route_range start next mask d).
Proof.
  intros Hn Hd. unfold route_range. destruct (Z.leb_spec 255 next); [lia|]. cbn [andb].
  induction (seqZ start _) as [|x l IH] in d, Hd |- *; [done|]. cbn [for_each].
  eapply no_fault_bind; [by apply set_routing_no_fault|]. intros [] d' [Hd' _]. by apply IH.
Qed.

Lemma rd_no_fault T i j node k lim d : topo_dim T → 0 <= i < AXIOM_NODES_NUM →
  0 <= j < AXIOM_INTERFACES_NUM → dev_wf node k lim d →
  no_fault (fun _ d' => dev_wf node k lim d') (rd T i j d).
Proof. intros. by erewrite rd_in. Qed.

Lemma wr_no_fault T i j v (d : simdev) : topo_dim T → 0 <= i < AXIOM_NODES_NUM →
  0 <= j < AXIOM_INTERFACES_NUM →
  no_fault (fun T' d' => topo_dim T' ∧ d' = d) (wr T i j v d).
Proof. intros. erewrite wr_in by done. cbn. split; [by apply mdim_mset|done]. Qed.

(** The bookkeeping between two messages: the id counter leaves room for [r]
    more neighbours. *)
Definition ids_left (r : Z) (st : Z * list (list Z)) : Prop :=
  0 <= st.1 ∧ st.1 + r < AXIOM_NODES_NUM ∧ topo_dim st.2.

Lemma ids_left_le r r' st : ids_left r st → r' <= r → ids_left r' st.
Proof. intros (? & ? & ?) ?. split; [done|]. split; [lia|done]. Qed.

Lemma topology_msg_no_fault node_id i start r node k lim st d :
  0 <= r <= k → 0 < k → ids_left r st → dev_wf node k lim d →
  no_fault (fun x d' => match x with
    | inl st' => (ids_left r st' ∧ dev_wf node k lim d') ∧
                 (length (sd_disc_in d') < length (sd_disc_in d))%nat
    | inr st' => ids_left r st' ∧ dev_wf node k lim d' end) (topology_msg node_id i start st d).
Proof using COK.
  destruct st as [next T]. intros Hr Hk (Hn & Hroom & HT) Hd. pose proof nodes_num_range. cbn in *.
  unfold topology_msg. eapply no_fault_bind; [by apply (recv_no_fault node k lim)|].
  intros [ret m] d1 (Hm & Hd1 & Hlen). cbn in Hm. case_match; [done|].
  destruct Hm as [? ? ? ? ? Hend]. destruct (d_cmd m) eqn:E; try done.
  - eapply no_fault_bind; [by apply (send_no_fault _ _ _ _ _ _ node k lim)|].
    intros ret' d2 [Hd2 Hin]. cbn. destruct (AXIOM_RET_IS_OK ret'); [rewrite Hin|]; done.
  - eapply no_fault_bind; [by apply wr_no_fault|]. intros T1 d2 [HT1 ->].
    eapply no_fault_bind; [by apply wr_no_fault|]. intros T2 d3 [HT2 ->]. done.
  - specialize (Hend eq_refl).
    eapply no_fault_bind; [apply (route_range_no_fault _ _ _ node k lim); [lia|done]|].
    intros [] d2 Hd2. split; [|done]. split; cbn; [lia|]. split; [lia|done].
Qed.

(** A neighbour without an id uses one id and one interface. *)
Lemma new_neighbour_no_fault fuel node_id i r m st node k lim d :
  (lim < fuel)%nat → 0 < k → 0 <= r < k → 0 <= node_id < AXIOM_NODES_NUM → 0 <= i < AXIOM_INTERFACES_NUM →
  msg_wf k m → ids_left (r + 1) st → dev_wf node k lim d →
  no_fault (fun x d' => match x with inl st' => ids_left r st' | inr st' => ids_left r st' end ∧
    dev_wf node k lim d') (new_neighbour fuel node_id i m st.1 st.2 d).
Proof using COK.
  destruct st as [next T]. intros Hf Hk Hr Hnode Hi Hm (Hn & Hroom & HT) Hd.
  pose proof nodes_num_range. cbn in *. unfold new_neighbour. rewrite u8_small by lia.
  assert (Hids : ∀ T', topo_dim T' → ids_left r (next + 1, T')).
  { intros T' HT'. repeat split; cbn; lia || apply HT'. }
  eapply no_fault_bind; [by apply (send_no_fault _ _ _ _ _ _ node k lim)|].
  intros ret d1 [Hd1 _]. case_match; [by split; [apply Hids|]|].
  eapply no_fault_bind; [by apply (set_routing_no_fault _ _ node k lim)|]. intros [] d2 [Hd2 _].
  eapply no_fault_bind; [by apply wr_no_fault|]. intros T1 d3 [HT1 ->].
  eapply no_fault_bind; [apply wr_no_fault; [done|lia|apply Hm]|]. intros T2 d4 [HT2 ->].
  eapply no_fault_bind; [by apply (send_no_fault _ _ _ _ _ _ node k lim)|].
  intros ret2 d5 [Hd5 _]. case_match; [by split; [apply Hids|]|].
  eapply no_fault_bind.
  - apply (no_fault_loop (fun st d => ids_left r st ∧ dev_wf node k lim d)
      (fun st d => ids_left r st ∧ dev_wf node k lim d) (fun d => length (sd_disc_in d))).
    + pose proof (dw_lim _ _ _ _ Hd5). lia.
    + by split; [apply Hids|].
    + intros st d6 [Hst Hd6]. apply topology_msg_no_fault; [lia|done..].
  - intros st d6 [Hst Hd6]. by destruct st.
Qed.

Lemma discover_if_no_fault fuel node_id i st f node k lim d :
  (lim < fuel)%nat → 0 <= node_id < AXIOM_NODES_NUM → k <= AXIOM_INTERFACES_NUM → 0 <= i < k →
  ids_left (k - i) st → dev_wf node k lim d →
  no_fault (fun x d' => match x with
      | inl (next, T, _) => ids_left (k - (i + 1)) (next, T) ∧ dev_wf node k lim d'
      | inr st' => ids_left 0 st' ∧ dev_wf node k lim d' end)
    (discover_if fuel node_id i (st.1, st.2, f) d).
Proof using COK.
  destruct st as [next T]. intros Hf Hnode Hk Hi (Hn & Hroom & HT) Hd. cbn in *.
  assert (Hids : ∀ T' r, topo_dim T' → r <= k - i → ids_left r (next, T')).
  { intros T' r HT' Hr. repeat split; cbn; lia || apply HT'. }
  unfold discover_if. unfold mbind at 1, M_bind at 1. cbn [axiom_get_if_info simdev_nic].
  unfold sim_get_if_info. set (f' := if _ <? _ then _ else _). case_match; [by cbn; (split; [apply Hids; [|lia]|])|].
  eapply no_fault_bind; [apply (rd_no_fault _ _ _ node k lim); done || lia|].
  intros t d1 Hd1. case_match; [by cbn; (split; [apply Hids; [|lia]|])|].
  eapply no_fault_bind; [by apply (send_no_fault _ _ _ _ _ _ node k lim)|].
  intros ret d2 [Hd2 _]. case_match; [by cbn; (split; [apply Hids; [|lia]|])|].
  eapply no_fault_bind; [by apply (recv_no_fault node k lim)|].
  intros [ret2 m] d3 (Hm & Hd3 & _). case_match; [by cbn; (split; [apply Hids; [|lia]|])|]. cbn in Hm.
  destruct (d_cmd m); try by split; [apply Hids; [|lia]|].
  - eapply no_fault_bind.
    + apply (new_neighbour_no_fault fuel node_id i (k - (i + 1)) m (next, T) node k lim);
        try done; try lia. apply Hids; [done|lia].
    + intros x d4 [Hx Hd4]. destruct x as [[n T']|[n T']]; cbn in *; [by split|]. split; [|done].
      eapply ids_left_le; [apply Hx|lia].
  - eapply no_fault_bind; [apply wr_no_fault; [done|done|apply Hm]|]. intros T1 d4 [HT1 ->].
    eapply no_fault_bind; [apply wr_no_fault; [done|apply Hm|apply Hm]|]. intros T2 d5 [HT2 ->].
    by split; [apply Hids; [|lia]|].
Qed.

(** C11. The search of a node never faults.  Whatever the neighbours send within
    the limits of the network, in whatever order, and whatever sends or receives
    fail, [discover_phase] stays inside its arrays and each of its loops ends
    once the messages have been read: it returns (with [AXIOM_RET_OK], a topology
    of the same dimensions and an id of the network) or waits for a message. *)
Theorem discover_phase_safe fuel next T d :
  topo_dim T → 0 <= sd_node_id d < AXIOM_NODES_NUM →
  0 <= sd_num_interfaces d <= AXIOM_INTERFACES_NUM →
  0 <= next → next + sd_num_interfaces d < AXIOM_NODES_NUM →
  (∀ x, x ∈ sd_disc_in d → msg_wf (sd_num_interfaces d) x.2) →
  (length (sd_disc_in d) < fuel)%nat →
  no_fault (fun '(ret, next', T') d' => ret = AXIOM_RET_OK ∧ topo_dim T' ∧
      0 <= next' < AXIOM_NODES_NUM ∧ sd_node_id d' = sd_node_id d)
    (discover_phase fuel next T d).
Proof using COK.
  intros HT Hnode Hk Hn Hroom Hmsgs Hf. set (k := sd_num_interfaces d) in *.
  set (lim := length (sd_disc_in d)) in *. set (node := sd_node_id d) in *.
  assert (Hd : dev_wf node k lim d) by (split; [done|done|done|lia]).
  unfold discover_phase. unfold mbind at 1, M_bind at 1. cbn [axiom_get_node_id simdev_nic].
  unfold sim_get_node_id.
  eapply no_fault_bind; [by apply (set_routing_no_fault _ _ node k lim)|]. intros [] d1 [Hd1 _].
  unfold mbind at 1, M_bind at 1. cbn [axiom_get_if_number simdev_nic]. unfold sim_get_if_number.
  rewrite (dw_ifs _ _ _ _ Hd1). eapply no_fault_bind.
  - apply (no_fault_for (fun i '(next, T, _) d => ids_left (k - i) (next, T) ∧ dev_wf node k lim d)
      (fun st d => ids_left 0 st ∧ dev_wf node k lim d)); [lia| |].
    + split; [|done]. repeat split; cbn; lia || apply HT.
    + intros i [[n1 T1] f] d2 Hi [Hids Hd2].
      eapply no_fault_mono.
      * by apply (discover_if_no_fault fuel node i (n1, T1) f node k lim); [done|done|lia|lia|..].
      * by intros [[[? ?] ?]|?] ? ?.
  - intros r d2 Hr.
    assert (Hfin : ∀ n' T', ids_left 0 (n', T') ∧ dev_wf node k lim d2 → AXIOM_RET_OK = AXIOM_RET_OK ∧
      topo_dim T' ∧ 0 <= n' < AXIOM_NODES_NUM ∧ sd_node_id d2 = node).
    { intros n' T' [(? & ? & ?) Hd2]. cbn in *. by split_and!; try lia; try apply Hd2. }
    destruct r as [[[n' T'] f]|[n' T']]; cbn in *; apply Hfin; [|done].
    by rewrite Z.sub_diag in Hr.
Qed.
End Safety.

(** ** Evaluation *)

Section Examples.
#[local] Existing Instance nic8.
#[local] Existing Instance nic8_ok.

Definition none8 : list (list Z) := replicate 8 (replicate 4 255).

(** A node that receives [disc] and whose interfaces [ifs] are linked. *)
Definition search_dev (node : Z) (ifs : list bool) (disc : list dmsg) : simdev :=
  mk_simdev node 4 ifs (replicate 8 (replicate 4 0)) (pair 0 <$> disc) [] [] [] [].

(** What the neighbour receives on its interface [ifc]. *)
Definition deliver_on (ifc : Z) (l : list event) : list dmsg :=
  omap (fun e => match e with
    | EvDiscovery _ c s t si di => Some (mk_dmsg ifc c s t si di) | _ => None end) l.

(** Two nodes, interface 0 of the master linked to interface 2 of the slave:
    the messages of both sides fit together and both end with the topology. *)
Definition pair_topology : list (list Z) := mset (mset none8 1 0 2) 2 2 1.

Example two_nodes :
  let ifs1 := [true; false; false; false] in let ifs2 := [false; false; true; false] in
  let to_slave := [mk_dmsg 2 AXIOM_DSCV_CMD_SETID 1 2 0 0; mk_dmsg 2 AXIOM_DSCV_CMD_START 1 2 0 0;
                   mk_dmsg 2 AXIOM_DSCV_CMD_RSP_ID 1 2 0 0] in
  match axiom_slave_node_discovery 9 none8 7 2 AXIOM_DSCV_CMD_REQ_ID 1 (search_dev 7 ifs2 to_slave) with
  | Ret (ret, T, id) ds =>
      ret = 0 ∧ id = 2 ∧ T = pair_topology ∧
      match axiom_master_node_discovery 9 none8 1
              (search_dev 0 ifs1 (deliver_on 0 (sd_log ds))) with
      | Ret (ret, T, last) dm =>
          ret = 0 ∧ last = 3 ∧ T = pair_topology ∧
          deliver_on 2 (sd_log dm) = mk_dmsg 2 AXIOM_DSCV_CMD_REQ_ID 1 0 0 0 :: to_slave
      | Stuck _ _ => False
      end
  | Stuck _ _ => False
  end.
Proof. vm_compute. repeat split. Qed.

Lemma chain3_wf : topo_wf chain3.
Proof.
  split.
  - split; [done|]. cbn. intros i Hi. by enum i.
  - cbn. intros i j Hi Hj. enum i; enum j; vm_compute; intros Hn; (by destruct Hn) || (repeat split; done).
  - cbn. intros i j Hi Hj. enum i; enum j; vm_compute; try (intros Hn; by destruct Hn);
      intros _; (exists 0; done) || (exists 1; done).
Qed.

Lemma none8_dim : mdim 8 4 none8.
Proof. split; [done|]. intros i Hi. by enum i. Qed.

(** The master merges the chain that its neighbour found, while node 3 asks for
    its id on interface 1. *)
Lemma topology_transfer_witness :
  let req := mk_dmsg 1 AXIOM_DSCV_CMD_REQ_ID 3 0 0 0 in
  ∃ Q rt d', loop 9 (topology_msg 1 0 2) (2, mset none8 1 3 5)
      (search_dev 1 [true; true; true; true] (req :: topo_links chain3 0 ++ [(end_topology 0 3).2])) =
    Ret (3, Q) (set_sd_routing rt d') ∧ mget Q 2 0 = 3 ∧ mget Q 1 3 = 5 ∧ mget rt 3 0 = 1.
Proof.
  intros req.
  destruct (topology_transfer chain3 (mset none8 1 3 5) 1 0 1 0 2 2 3 (req :: topo_links chain3 0) []
    9 (search_dev 2 [] []) (search_dev 1 [true; true; true; true]
      (req :: topo_links chain3 0 ++ [(end_topology 0 3).2]))) as (_ & Q & rt & Heq & HQ & Hrt);
    try done; try (cbn; lia).
  - exact chain3_wf.
  - apply mdim_mset; [exact none8_dim|cbn; lia].
  - split; [done|]. cbn. intros i Hi. by enum i.
  - intros m [->|Hm]%elem_of_cons Hl; [done|].
    destruct (topo_links_of chain3 0 m chain3_wf Hm) as [Hc _].
    unfold is_link in Hl. by rewrite bool_decide_true in Hl.
  - vm_compute. lia.
  - exists Q, rt. eexists. split; [exact Heq|]. split_and!.
    + rewrite HQ by (cbn; lia). reflexivity.
    + rewrite HQ by (cbn; lia). reflexivity.
    + rewrite Hrt by (cbn; lia). reflexivity.
Defined.

(** A neighbour without an id whose search sends a link back and never ends. *)
Lemma discover_phase_safe_witness :
  no_fault (fun '(ret, _, _) d' => ret = 0 ∧ sd_node_id d' = 1)
    (discover_phase 3 1 none8 (search_dev 1 [true; true; true; true]
       [mk_dmsg 0 AXIOM_DSCV_CMD_RSP_NOID 0 1 3 0; mk_dmsg 0 AXIOM_DSCV_CMD_TOPOLOGY 2 3 0 1])).
Proof.
  eapply no_fault_mono.
  - apply (discover_phase_safe 3 1 none8); try (cbn; lia).
    + exact none8_dim.
    + intros x Hx. cbn in Hx. rewrite !elem_of_cons in Hx.
      destruct Hx as [->|[->|Hx]]; [by split; cbn; try lia..|]. by apply not_elem_of_nil in Hx.
  - intros [[ret n] T] d' (Hr & _ & _ & Hn). by split.
Defined.
End Examples.
