(* ===== verification/DiscoveryNode.v ===== *)
(** * The discovery of a node (axiom_discovery_node.c)

    Master and slave put the phases together: search, computation and delivery
    of the routing tables, installation, notification.  The theorems say that
    the registers of every node end up with shortest routes. *)

From stdpp Require Import gmap.
From S2P Require Import Prelude Nic Routing Delivery Discovery.

Section Code.
Context `{C : NicConsts} {D : Type} {N : NicDev D}.
Implicit Types (topology : list (list Z)) (final_routing_table : list Z).

(** The results are the topology, the final routing table and whether the end
    of the discovery was notified ([false]: an early return).  [rts], [nt0] and
    [nt1] are the contents of the uninitialised locals. *)
Definition axiom_discovery_master (fuel : nat) topology final_routing_table
    (rts : list (list Z)) (nt0 nt1 : list Z) : M D (list (list Z) * list Z * bool) :=
  let master_id := AXIOM_INIT_MASTER_NODE in
  '(ret, topology, last_node) ← axiom_master_node_discovery fuel topology master_id;
  if negb (AXIOM_RET_IS_OK ret) then mret (topology, final_routing_table, false) else
  match axiom_compute_routing_tables fuel topology rts nt0 nt1 master_id last_node with
  | None => stop Diverges
  | Some routing_tables =>
      let final_routing_table := aget routing_tables master_id in
      ret ← axiom_delivery_routing_tables routing_tables master_id last_node;
      if negb (AXIOM_RET_IS_OK ret) then mret (topology, final_routing_table, false) else
      ret ← axiom_wait_rt_received fuel master_id last_node;
      if negb (AXIOM_RET_IS_OK ret) then mret (topology, final_routing_table, false) else
      '(ret, final_routing_table) ← axiom_set_routing_table fuel final_routing_table true;
      mret (topology, final_routing_table, AXIOM_RET_IS_OK ret)
  end.

(** [first_src], [first_cmd] and [first_node] are the interface and the fields of
    the message that started the discovery; [old_id] the uninitialised [node_id]. *)
Definition axiom_discovery_slave (fuel : nat) topology final_routing_table
    (first_src : Z) (first_cmd : discovery_cmd) (first_node old_id : Z)
    : M D (list (list Z) * list Z * bool) :=
  '(ret, topology, node_id) ← axiom_slave_node_discovery fuel topology old_id first_src
      first_cmd first_node;
  if negb (AXIOM_RET_IS_OK ret) then mret (topology, final_routing_table, false) else
  '(ret, final_routing_table, _) ← axiom_receive_routing_tables fuel node_id final_routing_table 0;
  if negb (AXIOM_RET_IS_OK ret) then mret (topology, final_routing_table, false) else
  '(ret, final_routing_table) ← axiom_set_routing_table fuel final_routing_table false;
  mret (topology, final_routing_table, AXIOM_RET_IS_OK ret).
End Code.

Section Theorems.
Context `{C : NicConsts} {COK : NicConstsOk}.
Implicit Types (topology T rts : list (list Z)).

(** The routing registers of node [a] towards every node of the network: the
    interfaces set for another node each begin a shortest path to it, those for
    the node itself are the loopback interface. *)
Definition routes T (master last a : Z) (d : simdev) : Prop :=
  ∀ n, master <= n < last → ∃ mask,
    (∀ i, 0 <= i < AXIOM_INTERFACES_NUM → mget (sd_routing d) n i = Z.b2z (Z.testbit mask i)) ∧
    if decide (n = a) then mask = u8 (bit AXIOMREG_ROUTING_LOOPBACK_IF)
    else shortest_route T a n mask.

(** An installed row of sound and complete tables is a set of routes. *)
Lemma installed_routes T master last a rts t rest d d' :
  0 <= master → last <= AXIOM_NODES_NUM → 0 <= a < AXIOM_NODES_NUM → alen t = AXIOM_NODES_NUM →
  row_sound T master last a rts → row_complete master last a rts →
  (∀ k, master <= k < last → aget t k = mget rts a k) →
  installed (with_loopback t a) rest d d' → routes T master last a d'.
Proof.
  intros Hm Hl Ha Ht [_ Hs] Hc Hrow (Hreg & _) n Hn.
  exists (aget (with_loopback t a) n). split; [intros i Hi; apply Hreg; [lia|done]|].
  unfold with_loopback. rewrite aget_aset by lia. destruct (decide (n = a)) as [->|Hne].
  - by rewrite decide_True.
  - rewrite decide_False by done. rewrite Hrow by done. apply Hs; [lia|]. by apply Hc.
Qed.

(** C8. The slave's end of the discovery, on a network that is connected from every
    node and has at most one link between two nodes: when its search has given it the
    id [a] and the master has computed the tables of that network, sends it its row
    and the order to install it arrives, the slave reports success, has replied
    to the master, has passed the order on once per connected interface, and its
    registers route every node of the network on shortest paths. *)
Theorem discovery_slave_installs fuel T rts0 nt0 nt1 rts master last a
    top0 rt0 ifc cmd src old ret0 top1 d0 d first ifc1 others rest rest' :
  topo_ok T master last → (∀ a, master <= a < last → single_links T a ∧ connected T master last a) →
  master < a < last →
  mdim AXIOM_NODES_NUM AXIOM_NODES_NUM rts0 → alen nt0 = AXIOM_NODES_NUM → alen nt1 = AXIOM_NODES_NUM →
  axiom_compute_routing_tables fuel T rts0 nt0 nt1 master last = Some rts → last - master <= Z.of_nat fuel →
  axiom_slave_node_discovery fuel top0 old ifc cmd src d0 = Ret (ret0, top1, a) d →
  AXIOM_RET_IS_OK ret0 = true → sd_node_id d = a → sd_send d = [] →
  mdim AXIOM_NODES_NUM AXIOM_INTERFACES_NUM (sd_routing d) → alen rt0 = AXIOM_NODES_NUM →
  sd_deliv_in d = inbox_of master a (delivery_msgs rts master last) ++ rest →
  (length (row_pairs rts last a) < fuel)%nat →
  sd_set_in d = (first, (ifc1, AXIOM_RT_CMD_SET_ROUTING)) :: others ++ rest' →
  AXIOM_RET_IS_OK first = true → Forall (fun x => AXIOM_RET_IS_OK x.1 = true) others →
  S (length others) = length (connected_ifs d) →
  ∃ rt d', axiom_discovery_slave fuel top0 rt0 ifc cmd src old d0 = Ret (top1, rt, true) d' ∧
    routes T master last a d' ∧
    sd_log d' = sd_log d ++ EvDelivery master AXIOM_RT_CMD_RT_REPLY a 0 :: set_msgs d.
Proof using COK.
  intros TO Hnodes Ha Hrts0 Hn0 Hn1 Hcomp Hf Hdisc Hret Hid Hsend Hregs Hrt Hin Hfuel Hset Hfirst Hoth Hlen.
  destruct (tables_total fuel T rts0 nt0 nt1 master last TO Hnodes Hrts0 Hn0 Hn1 Hf)
    as (rts' & Hc & _ & Hrows). rewrite Hc in Hcomp. simplify_eq.
  destruct (Hrows (sd_node_id d) ltac:(lia)) as [Hs Hcompl].
  assert (Hlast : 0 <= master ∧ last <= AXIOM_NODES_NUM) by (destruct TO; lia).
  destruct (receive_run fuel rts master last (sd_node_id d) rest 0 rt0 d Ha (proj2 Hlast) Hrt Hin Hfuel ltac:(lia))
    as (t & Hrecv & Ht & Hrow).
  unfold axiom_discovery_slave. rewrite (bind_ret _ _ _ _ _ Hdisc), Hret. cbn [negb].
  unfold mbind at 1, M_bind at 1. rewrite Hrecv. unfold mbind at 1, M_bind at 1, sd_push at 1.
  cbn [sd_send set_sd_deliv_in]. rewrite Hsend. unfold mret at 1, M_ret at 1. rewrite ret_ok_ok. cbn [negb].
  set (d1 := add_sd_log _ _ _).
  assert (Hnode : 0 <= sd_node_id d < AXIOM_NODES_NUM) by lia.
  destruct (set_routing_table_slave fuel t d1 first ifc1 others rest' Ht Hnode Hregs eq_refl
    ltac:(lia) Hset Hfirst Hoth Hlen) as (r2 & d' & Hst & Hr2 & Hinst).
  rewrite (bind_ret _ _ _ _ _ Hst), Hr2. eexists _, d'. split; [done|]. split.
  - apply (installed_routes T master last (sd_node_id d) rts t rest' d1); try done || lia.
    intros k Hk. rewrite Hrow by lia. by destruct (Z.ltb_spec k last); [|lia].
  - destruct Hinst as (_ & -> & _). cbn. by rewrite <- app_assoc.
Qed.

(** C9. The master's end of the discovery: when its search returns the topology
    of a network that is connected from every node and has at most one link between
    two nodes, no send fails, all slaves reply and each neighbour answers the order, the
    master reports success, has delivered to every slave the row of the tables
    it computed, and its registers route every node on shortest paths. *)
Theorem discovery_master_installs fuel T last rts0 nt0 nt1 top0 rt0 d0 d replies msgs rest rest' :
  let master := AXIOM_INIT_MASTER_NODE in
  axiom_master_node_discovery fuel top0 master d0 = Ret (AXIOM_RET_OK, T, last) d →
  topo_ok T master last → (∀ a, master <= a < last → single_links T a ∧ connected T master last a) →
  master < last →
  mdim AXIOM_NODES_NUM AXIOM_NODES_NUM rts0 → alen nt0 = AXIOM_NODES_NUM → alen nt1 = AXIOM_NODES_NUM →
  last - master <= Z.of_nat fuel →
  sd_node_id d = master → sd_send d = [] →
  mdim AXIOM_NODES_NUM AXIOM_INTERFACES_NUM (sd_routing d) →
  Forall good_reply replies → sd_deliv_in d = replies ++ rest →
  Z.of_nat (size (reply_nodes replies)) = last - master - 1 → (length replies < fuel)%nat →
  sd_set_in d = msgs ++ rest' → Forall (fun x => AXIOM_RET_IS_OK x.1 = true) msgs →
  length msgs = length (connected_ifs d) →
  ∃ rts rt d', axiom_compute_routing_tables fuel T rts0 nt0 nt1 master last = Some rts ∧
    axiom_discovery_master fuel top0 rt0 rts0 nt0 nt1 d0 = Ret (T, rt, true) d' ∧
    routes T master last master d' ∧
    sd_log d' = sd_log d ++ delivery_msgs rts master last ++ set_msgs d.
Proof using COK.
  intros master Hdisc TO Hnodes Hml Hrts0 Hn0 Hn1 Hf Hid Hsend Hregs Hgood Hin Hsz Hfl Hset Hmsgs Hlen.
  destruct (tables_total fuel T rts0 nt0 nt1 master last TO Hnodes Hrts0 Hn0 Hn1 Hf)
    as (rts & Hc & Hdim & Hrows). exists rts.
  destruct (Hrows master ltac:(lia)) as [Hs Hcompl].
  assert (Hlast : 0 <= master ∧ last <= AXIOM_NODES_NUM) by (destruct TO; lia).
  unfold axiom_discovery_master. fold master.
  rewrite (bind_ret _ _ _ _ _ Hdisc), ret_ok_ok. cbn [negb]. rewrite Hc.
  assert (Hdel : axiom_delivery_routing_tables rts master last d =
    Ret AXIOM_RET_OK (add_sd_log (delivery_msgs rts master last) [] d)) by (by apply delivery_all).
  rewrite (bind_ret _ _ _ _ _ Hdel), ret_ok_ok. cbn [negb]. set (d1 := add_sd_log _ _ _).
  destruct (wait_loop_ok (last - master - 1) _ ∅ replies rest fuel d1 seen_rep_start Hgood Hin)
    as (l1 & l2 & Hl & _ & Hwait); [rewrite (right_id_L ∅ (∪)), size_empty; lia|done|].
  rewrite (bind_ret (axiom_wait_rt_received _ _ _) _ _ _ _ Hwait), ret_ok_ok. cbn [negb].
  set (d2 := set_sd_deliv_in _ _).
  assert (Hnode : 0 <= sd_node_id d < AXIOM_NODES_NUM) by lia.
  assert (Ht : alen (aget rts master) = AXIOM_NODES_NUM) by (apply Hdim; lia).
  destruct (set_routing_table_master fuel (aget rts master) d2 msgs rest' Ht
    Hnode Hregs eq_refl Hset Hmsgs Hlen) as (r2 & d' & Hst & Hr2 & Hinst).
  rewrite (bind_ret _ _ _ _ _ Hst), Hr2. eexists _, d'. split; [done|]. split; [done|]. split.
  - change (sd_node_id d2) with (sd_node_id d) in Hinst. rewrite Hid in Hinst.
    by apply (installed_routes T master last master rts (aget rts master) rest' d2); try done || lia.
  - destruct Hinst as (_ & -> & _). cbn. by rewrite <- app_assoc.
Qed.
End Theorems.

(** ** Evaluation *)

Section Examples.
#[local] Existing Instance nic8.
#[local] Existing Instance nic8_ok.

Lemma pair_edges u i v : 1 <= u < 3 → edge pair_topology u i v →
  (u = 1 ∧ i = 0 ∧ v = 2) ∨ (u = 2 ∧ i = 2 ∧ v = 1).
Proof.
  intros Hu (Hi & Hv & Hn). assert (Hi' : 0 <= i < 4) by (cbn in Hi; lia). clear Hi.
  enum u; enum i; vm_compute in Hv; subst v; cbn in Hn; try done; lia.
Qed.

Lemma pair_topo : topo_ok pair_topology 1 3.
Proof.
  split; cbn; try lia.
  - intros u i v Hu He. apply pair_edges in He; lia.
  - intros u i Hu He. apply pair_edges in He; lia.
Qed.

Lemma pair_net a : 1 <= a < 3 → single_links pair_topology a ∧ connected pair_topology 1 3 a.
Proof.
  intros Ha. split.
  - intros i j v Hi Hj. apply pair_edges in Hi; [|done]. apply pair_edges in Hj; [|done]. lia.
  - intros b Hb.
    assert (H12 : adj pair_topology 1 2) by (exists 0; by vm_compute).
    assert (H21 : adj pair_topology 2 1) by (exists 2; by vm_compute).
    enum a; enum b; first [ exists 0%nat; apply walk_nil
      | exists 1%nat; eapply walk_snoc; [apply walk_nil|eassumption] ].
Qed.

(** Both ends of the two-node network: node 1 on interface 0, node 2 on 2. *)
Definition master_dev : simdev :=
  mk_simdev 0 4 [true; false; false; false] (replicate 8 (replicate 4 0))
    (pair 0 <$> [mk_dmsg 0 AXIOM_DSCV_CMD_RSP_NOID 0 1 2 0; mk_dmsg 0 AXIOM_DSCV_CMD_REQ_ID 2 0 0 0;
       mk_dmsg 0 AXIOM_DSCV_CMD_TOPOLOGY 1 2 0 2; mk_dmsg 0 AXIOM_DSCV_CMD_TOPOLOGY 2 1 2 0;
       mk_dmsg 0 AXIOM_DSCV_CMD_END_TOPOLOGY 2 0 0 0])
    [reply 2] [order 0] [] [].

Definition slave_dev : simdev :=
  mk_simdev 7 4 [false; false; true; false] (replicate 8 (replicate 4 0))
    (pair 0 <$> [mk_dmsg 2 AXIOM_DSCV_CMD_SETID 1 2 0 0; mk_dmsg 2 AXIOM_DSCV_CMD_START 1 2 0 0;
       mk_dmsg 2 AXIOM_DSCV_CMD_RSP_ID 1 2 0 0])
    [(0, mk_rmsg 1 AXIOM_RT_CMD_INFO 1 4); (0, mk_rmsg 1 AXIOM_RT_CMD_END_INFO 0 0)] [order 2] [] [].

Lemma regs_dims (m : list (list Z)) :
  alen m = 8 → Forall (fun r => length r = 4%nat) m → mdim 8 4 m.
Proof.
  intros Hl Hall. split; [done|]. intros i Hi. unfold aget. destruct (Z.ltb_spec i 0); [lia|].
  unfold alen in *. rewrite (Forall_lookup_total_1 _ _ _ Hall) by lia. done.
Qed.

Lemma discovery_master_installs_witness :
  ∃ rt d', axiom_discovery_master 9 none8 (replicate 8 0) zeros8 (replicate 8 0) (replicate 8 0)
      master_dev = Ret (pair_topology, rt, true) d' ∧ routes pair_topology 1 3 1 d'.
Proof.
  edestruct (discovery_master_installs 9 pair_topology 3 zeros8 (replicate 8 0) (replicate 8 0)
    none8 (replicate 8 0) master_dev) with (replies := [reply 2]) (msgs := [order 0])
    (rest := @nil (Z * rmsg)) (rest' := @nil (Z * (Z * routing_cmd))) as (rts & rt & d' & _ & Heq & Hr & _).
  - vm_compute. reflexivity.
  - exact pair_topo.
  - exact pair_net.
  - cbn. lia.
  - exact zeros8_dim.
  - reflexivity.
  - reflexivity.
  - cbn. lia.
  - reflexivity.
  - reflexivity.
  - by apply regs_dims; [|repeat constructor].
  - apply (Forall_cons_2 _ (reply 2) []); [|constructor]. repeat split; cbn; lia || done.
  - reflexivity.
  - reflexivity.
  - cbn. lia.
  - reflexivity.
  - apply (Forall_cons_2 _ (order 0) []); [reflexivity|constructor].
  - reflexivity.
  - exists rt, d'. split; [exact Heq|exact Hr].
Defined.

Lemma discovery_slave_installs_witness :
  ∃ rt d', axiom_discovery_slave 9 none8 (replicate 8 0) 2 AXIOM_DSCV_CMD_REQ_ID 1 0 slave_dev =
      Ret (pair_topology, rt, true) d' ∧ routes pair_topology 1 3 2 d'.
Proof.
  edestruct (discovery_slave_installs 9 pair_topology zeros8 (replicate 8 0) (replicate 8 0)
    [replicate 8 0; [0;0;1;0;0;0;0;0]; [0;4;0;0;0;0;0;0]; replicate 8 0;
     replicate 8 0; replicate 8 0; replicate 8 0; replicate 8 0] 1 3 2
    none8 (replicate 8 0) 2 AXIOM_DSCV_CMD_REQ_ID 1 0) with (d0 := slave_dev) (others := @nil (Z * (Z * routing_cmd)))
    (rest := @nil (Z * rmsg)) (rest' := @nil (Z * (Z * routing_cmd)))
    as (rt & d' & Heq & Hr & _).
  - exact pair_topo.
  - exact pair_net.
  - lia.
  - exact zeros8_dim.
  - reflexivity.
  - reflexivity.
  - vm_compute. reflexivity.
  - cbn. lia.
  - vm_compute. reflexivity.
  - reflexivity.
  - reflexivity.
  - reflexivity.
  - by apply regs_dims; [|repeat constructor].
  - reflexivity.
  - vm_compute. reflexivity.
  - vm_compute. lia.
  - reflexivity.
  - reflexivity.
  - constructor.
  - reflexivity.
  - exists rt, d'. split; [exact Heq|exact Hr].
Defined.
End Examples.
