(* ===== verification/CStrings.v ===== *)
(** * C strings and string lists (axiom_common_library)

    [strlcpy.c], [strlcat.c] and the append side of [strlist.c].  A buffer is a
    list of bytes; a C string in a buffer is the bytes before the first NUL. *)

From S2P Require Import Prelude.

(** ** strlcpy and strlcat *)

(** [while (--n != 0) if (( *d++ = *s++) == 0) break;] with [n] turns left: the
    buffer, the two positions and whether the loop was left by the [break]. *)
Fixpoint copy_loop (n : nat) (dst src : list Z) (d s : Z) : list Z * Z * Z * bool :=
  match n with
  | O => (dst, d, s, false)
  | S n =>
      let c := aget src s in
      let dst := aset dst d c in
      if c =? 0 then (dst, d + 1, s + 1, true) else copy_loop n dst src (d + 1) (s + 1)
  end.

(** [while ( *s++ ) ;] on the bytes from position [s] on: the final position. *)
Fixpoint scan_nul (bytes : list Z) (s : Z) : Z :=
  match bytes with
  | [] => s
  | c :: bytes => if c =? 0 then s + 1 else scan_nul bytes (s + 1)
  end.

(** The result: the destination buffer and the returned count. *)
Definition strlcpy (dst src : list Z) (size : Z) : list Z * Z :=
  let '(dst, d, s, nul) :=
    if size =? 0 then (dst, 0, 0, false) else copy_loop (Z.to_nat (size - 1)) dst src 0 0 in
  if nul then (dst, s - 1) else
  let dst := if size =? 0 then dst else aset dst d 0 in
  (dst, scan_nul (drop (Z.to_nat s) src) s - 1).

(** [while (n-- != 0 && *dst != 0) dst++;]: the distance walked. *)
Fixpoint end_loop (n : nat) (dst : list Z) (d : Z) : Z :=
  match n with
  | O => d
  | S n => if aget dst d =? 0 then d else end_loop n dst (d + 1)
  end.

(** [while ( *src != 0) { if (n != 0) { *dst++ = *src; n--; } src++; }] *)
Fixpoint append_loop (bytes : list Z) (n : Z) (dst : list Z) (d s : Z) : list Z * Z * Z :=
  match bytes with
  | [] => (dst, d, s)
  | c :: bytes =>
      if c =? 0 then (dst, d, s)
      else if n =? 0 then append_loop bytes n dst d (s + 1)
      else append_loop bytes (n - 1) (aset dst d c) (d + 1) (s + 1)
  end.

Definition strlen (bytes : list Z) : Z := scan_nul bytes 0 - 1.

Definition strlcat (dst src : list Z) (dsize : Z) : list Z * Z :=
  let dlen := end_loop (Z.to_nat dsize) dst 0 in
  let n := dsize - dlen in
  if n =? 0 then (dst, dlen + strlen src) else
  let '(dst, d, s) := append_loop src (n - 1) dst dlen 0 in
  (aset dst d 0, dlen + s).

(** ** String lists *)

(** A string, or the NULL pointer. *)
Definition cstr : Type := option (list Z).

Record strlist := mk_strlist { sl_size : Z; sl_data : list cstr }.

Definition sl_init : strlist := mk_strlist 0 [].

(** The string in a buffer. *)
Definition cstr_of (bytes : list Z) : list Z := take (Z.to_nat (strlen bytes)) bytes.

(** [_insert] at the tail: the duplicate of [s] is made with [strlcpy] into a new
    buffer of [strlen(s) + 1] bytes ([fresh] is its indeterminate contents). *)
Definition dup (fresh s : list Z) : list Z := cstr_of (strlcpy fresh s (strlen s + 1)).1.
Definition sl_append (p : strlist) (s : option (list Z)) : strlist :=
  mk_strlist (sl_size p + 1)
    (sl_data p ++ [match s with
                   | None => None
                   | Some s => Some (dup (replicate (Z.to_nat (strlen s + 1)) 0) s)
                   end]).

(** [_insert_all] at the tail of a NULL-terminated array, whose strings are the
    elements before the terminator. *)
Definition sl_append_all (p : strlist) (args : option (list (list Z))) : strlist :=
  match args with
  | None => p
  | Some args => foldl (fun p s => sl_append p (Some s)) p args
  end.

Definition sl_get (p : strlist) : list cstr := sl_data p.

(** [sl_free] releases the strings and leaves the empty list. *)
Definition sl_free (p : strlist) : strlist := sl_init.

(** ** Correctness *)

(** [s] is the string at the start of the buffer [b]. *)
Definition holds (b s : list Z) : Prop := (0 ∉ s) ∧ ∃ rest, b = s ++ 0 :: rest.

Lemma scan_nul_holds b s p : holds b s → scan_nul b p = p + alen s + 1.
Proof.
  intros [Hs [rest ->]]. unfold alen. induction s as [|c s IH] in p, Hs |- *.
  - cbn. lia.
  - cbn [app scan_nul length]. destruct (Z.eqb_spec c 0) as [->|_]; [set_solver|].
    rewrite IH by set_solver. lia.
Qed.

Lemma strlen_holds b s : holds b s → strlen b = alen s.
Proof. intros H. unfold strlen. rewrite (scan_nul_holds b s) by done. lia. Qed.

Lemma cstr_of_holds b s : holds b s → cstr_of b = s.
Proof.
  intros H. unfold cstr_of. rewrite (strlen_holds b s H). destruct H as [_ [rest ->]].
  unfold alen. rewrite Nat2Z.id. by rewrite take_app_length.
Qed.

(** The copy loop after [done] has been copied: [s] is left to copy over [old]. *)
Lemma copy_loop_spec n copied s rest old tail :
  0 ∉ s → length old = n →
  copy_loop n (copied ++ old ++ tail) (copied ++ s ++ 0 :: rest) (alen copied) (alen copied) =
  if decide (length s < n)%nat
  then (copied ++ s ++ 0 :: drop (S (length s)) old ++ tail,
        alen copied + alen s + 1, alen copied + alen s + 1, true)
  else (copied ++ take n s ++ tail, alen copied + Z.of_nat n, alen copied + Z.of_nat n, false).
Proof.
  induction n as [|n IH] in copied, s, old |- *; intros Hs Hold.
  - destruct old; [|done]. rewrite decide_False by lia. cbn. repeat f_equal; lia.
  - destruct old as [|o old]; [done|]. injection Hold as Hold. cbn [copy_loop app].
    destruct s as [|c s].
    + cbn [app]. rewrite aget_middle, aset_middle. cbn.
      rewrite decide_True by lia. unfold alen. cbn. repeat f_equal; lia.
    + cbn [app]. rewrite aget_middle, aset_middle.
      destruct (Z.eqb_spec c 0) as [->|_]; [set_solver|].
      replace (alen copied + 1) with (alen (copied ++ [c])) by (rewrite alen_app; unfold alen; cbn; lia).
      change (c :: old ++ tail) with ([c] ++ old ++ tail).
      change (c :: s ++ 0 :: rest) with ([c] ++ s ++ 0 :: rest).
      rewrite (app_assoc copied [c] (old ++ tail)), (app_assoc copied [c] (s ++ 0 :: rest)).
      rewrite IH by (done || set_solver). rewrite !alen_app. unfold alen. cbn [length].
      destruct (decide (length s < n)%nat), (decide (S (length s) < S n)%nat); try lia;
        rewrite <- !app_assoc; cbn [app take drop length];
        repeat apply (f_equal2 pair); done || lia.
Qed.

(** The result of [strlcpy]. *)
Lemma strlcpy_eq dst src s size :
  holds src s → 0 <= size <= alen dst →
  strlcpy dst src size =
  (if size =? 0 then dst
   else take (Z.to_nat (size - 1)) s ++ 0 ::
        drop (S (min (length s) (Z.to_nat (size - 1)))) dst, alen s).
Proof.
  intros Hsrc Hsize. pose proof Hsrc as [Hs [rest ->]]. unfold strlcpy.
  destruct (Z.eqb_spec size 0) as [->|Hnz].
  { cbn [drop]. change (Z.to_nat 0) with 0%nat. rewrite drop_0.
    rewrite (scan_nul_holds _ s) by done. f_equal. lia. }
  set (n := Z.to_nat (size - 1)).
  assert (Hlen : (n < length dst)%nat) by (unfold alen in Hsize; lia).
  destruct (lookup_lt_is_Some_2 dst n Hlen) as [o Ho].
  pose proof (take_drop_middle dst n o Ho) as Hdst.
  pose proof (copy_loop_spec n [] s rest (take n dst) (o :: drop (S n) dst) Hs
    ltac:(rewrite length_take; lia)) as Hcopy.
  cbn [app] in Hcopy. change (alen (@nil Z)) with 0 in Hcopy. rewrite Hdst in Hcopy. rewrite Hcopy. clear Hcopy.
  case_decide as Hfit.
  - f_equal; [|lia]. rewrite (take_ge s) by lia. rewrite Nat.min_l by lia. do 2 f_equal.
    rewrite <- Hdst at 3. rewrite drop_app_le by (rewrite length_take; lia). done.
  - assert (Hmid : alen (take n s) = 0 + Z.of_nat n) by (unfold alen; rewrite length_take; lia).
    rewrite <- Hmid, aset_middle. rewrite Nat.min_r by lia. f_equal.
    replace (Z.to_nat (alen (take n s))) with n by (unfold alen in *; lia).
    rewrite drop_app_le by lia.
    rewrite (scan_nul_holds _ (drop n s)).
    + unfold alen in *. rewrite length_drop. lia.
    + split; [|by exists rest]. intros Hin. apply Hs. rewrite <- (take_drop n s). set_solver.
Qed.

(** [strlcpy] is its documentation: into a buffer of at least [size] bytes
    it copies at most [size - 1] bytes of the source string and terminates the
    copy with a NUL (unless [size] is 0); it never writes at or after [size]; it
    returns the length of the source, and the copy is complete exactly when that
    is less than [size]. *)
Theorem strlcpy_spec dst src s size :
  holds src s → 0 <= size <= alen dst →
  let '(dst', ret) := strlcpy dst src size in
  ret = alen s ∧ alen dst' = alen dst ∧
  (∀ i, size <= i → aget dst' i = aget dst i) ∧
  (0 < size → holds dst' (take (Z.to_nat (size - 1)) s) ∧ (ret < size ↔ holds dst' s)).
Proof.
  intros Hsrc Hsize. pose proof Hsrc as [Hs _]. rewrite (strlcpy_eq dst src s size Hsrc Hsize).
  split; [done|]. destruct (Z.eqb_spec size 0) as [->|Hnz]; [split; [done|]; split; [done|lia]|].
  set (n := Z.to_nat (size - 1)). set (k := S (min (length s) n)).
  assert (Hpre : length (take n s ++ [0]) = k) by (rewrite length_app, length_take; cbn; lia).
  assert (Hk : (k <= length dst)%nat) by (unfold alen in *; lia).
  change (0 :: drop k dst) with ([0] ++ drop k dst). rewrite app_assoc.
  assert (Hholds : holds ((take n s ++ [0]) ++ drop k dst) (take n s)).
  { split; [|exists (drop k dst); by rewrite <- app_assoc].
    intros Hin. apply Hs. rewrite <- (take_drop n s). set_solver. }
  split; [unfold alen; rewrite length_app, Hpre, length_drop; lia|]. split.
  - intros i Hi. unfold aget. destruct (Z.ltb_spec i 0); [done|].
    rewrite lookup_total_app_r by lia. rewrite lookup_total_drop. f_equal. lia.
  - intros _. split; [done|]. split.
    + intros Hlt. rewrite take_ge in Hholds |- * by (unfold alen in *; lia). done.
    + intros Hs'. pose proof (strlen_holds _ _ Hholds) as E. rewrite (strlen_holds _ _ Hs') in E.
      unfold alen in *. rewrite length_take in E. lia.
Qed.

Lemma end_loop_spec n d rest p pre : 0 ∉ d → alen pre = p →
  end_loop n (pre ++ d ++ 0 :: rest) p = p + Z.of_nat (min n (length d)).
Proof.
  induction n as [|n IH] in d, p, pre |- *; intros Hd Hp; [cbn; lia|]. subst p. cbn [end_loop].
  destruct d as [|c d]; cbn [app].
  - rewrite aget_middle. cbn. lia.
  - rewrite aget_middle. destruct (Z.eqb_spec c 0) as [->|_]; [set_solver|].
    change (c :: d ++ 0 :: rest) with ([c] ++ d ++ 0 :: rest). rewrite app_assoc.
    rewrite IH; [cbn [length]; lia|set_solver|]. rewrite alen_app. unfold alen. cbn. lia.
Qed.

Lemma append_loop_spec s rest n copied old p :
  0 ∉ s → 0 <= n → (Z.to_nat n <= length old)%nat →
  append_loop (s ++ 0 :: rest) n (copied ++ old) (alen copied) p =
  (copied ++ take (Z.to_nat n) s ++ drop (min (Z.to_nat n) (length s)) old,
   alen copied + Z.of_nat (min (Z.to_nat n) (length s)), p + alen s).
Proof.
  induction s as [|c s IH] in n, copied, old, p |- *; intros Hs Hn Hold.
  - cbn. rewrite take_nil, Nat.min_0_r, drop_0. repeat apply (f_equal2 pair); done || (unfold alen; cbn; lia).
  - cbn [app append_loop]. destruct (Z.eqb_spec c 0) as [->|_]; [set_solver|].
    destruct (Z.eqb_spec n 0) as [->|Hnz].
    + rewrite IH by (done || set_solver). cbn. repeat apply (f_equal2 pair); done || (unfold alen; cbn; lia).
    + destruct old as [|o old]; [cbn in Hold; lia|]. rewrite aset_middle.
      change (c :: old) with ([c] ++ old). rewrite app_assoc.
      replace (alen copied + 1) with (alen (copied ++ [c])) by (rewrite alen_app; unfold alen; cbn; lia).
      cbn in Hold. rewrite IH by (set_solver || lia).
      replace (Z.to_nat n) with (S (Z.to_nat (n - 1))) by lia.
      rewrite <- app_assoc. cbn [app take length Nat.min drop].
      repeat apply (f_equal2 pair); [done| |unfold alen; cbn; lia].
      rewrite alen_app. unfold alen. cbn [length]. lia.
Qed.

(** [strlcat] is its documentation: the source string is appended to the
    destination string as far as it fits into [dsize] bytes, the result is
    always terminated, and the sum of the two lengths is returned; when the
    destination already fills [dsize] bytes nothing is written. *)
Theorem strlcat_spec dst d src s dsize :
  holds dst d → holds src s → 0 <= dsize <= alen dst →
  strlcat dst src dsize =
  if dsize <=? alen d then (dst, dsize + alen s)
  else let k := Z.to_nat (dsize - alen d - 1) in
       (d ++ take k s ++ 0 :: drop (S (min k (length s))) (drop (length d) dst), alen d + alen s).
Proof.
  intros [Hd [rd ->]] Hsrc Hsz. pose proof Hsrc as [Hs [rs Ers]]. unfold strlcat.
  pose proof (end_loop_spec (Z.to_nat dsize) d rd 0 [] Hd eq_refl) as Hend. cbn [app] in Hend.
  rewrite Hend. rewrite (strlen_holds src s) by done. rewrite alen_app in Hsz. unfold alen in *. cbn [length] in Hsz.
  destruct (Z.leb_spec dsize (Z.of_nat (length d))) as [Hle|Hgt].
  - rewrite Nat.min_l by lia. destruct (Z.eqb_spec (dsize - (0 + Z.of_nat (Z.to_nat dsize))) 0); [|lia].
    f_equal. lia.
  - rewrite Nat.min_r by lia. destruct (Z.eqb_spec (dsize - (0 + Z.of_nat (length d))) 0); [lia|].
    rewrite Ers. change (0 + Z.of_nat (length d)) with (alen d).
    rewrite append_loop_spec by (done || (cbn [length]; unfold alen in *; lia)). unfold alen.
    replace (dsize - Z.of_nat (length d) - 1) with (dsize - (0 + Z.of_nat (length d)) - 1) by lia.
    cbn zeta. set (k := Z.to_nat (dsize - (0 + _) - 1)).
    replace (Z.to_nat (dsize - Z.of_nat (length d) - 1)) with k by (unfold k; lia).
    rewrite drop_app_length. apply (f_equal2 pair); [|lia].
    set (j := min k (length s)).
    assert (Hj : (j < length (0%Z :: rd))%nat) by (unfold j, k; cbn [length]; lia).
    destruct (lookup_lt_is_Some_2 _ _ Hj) as [o Ho]. rewrite (drop_S _ _ _ Ho).
    rewrite app_assoc. replace (Z.of_nat (length d) + Z.of_nat j) with (alen (d ++ take k s)).
    + rewrite aset_middle. by rewrite <- app_assoc.
    + unfold alen. rewrite length_app, length_take. unfold j. lia.
Qed.


(** The duplicate of a string is the string. *)
Lemma dup_holds fresh b s : holds b s → length fresh = S (length s) → dup fresh b = s.
Proof.
  intros Hb Hf. unfold dup. rewrite (strlen_holds b s Hb).
  rewrite (strlcpy_eq fresh b s) by (done || unfold alen; lia).
  destruct (Z.eqb_spec (alen s + 1) 0); [unfold alen in *; lia|].
  apply cstr_of_holds. destruct Hb as [Hs _]. split; [done|]. eexists.
  rewrite take_ge by (unfold alen; lia). done.
Qed.

(** A buffer that holds just the string. *)
Definition cbuf (s : list Z) : list Z := s ++ [0].

Lemma holds_cbuf s : 0 ∉ s → holds (cbuf s) s.
Proof. intros Hs. split; [done|]. by exists []. Qed.

Lemma sl_append_holds p b s : holds b s →
  sl_append p (Some b) = mk_strlist (sl_size p + 1) (sl_data p ++ [Some s]).
Proof.
  intros Hb. unfold sl_append. rewrite (dup_holds _ b s Hb); [done|].
  rewrite length_replicate, (strlen_holds b s Hb). unfold alen. lia.
Qed.

(** Lists whose size field is right. *)
Definition sl_wf (p : strlist) : Prop := sl_size p = alen (sl_data p).

Lemma sl_wf_init : sl_wf sl_init.
Proof. done. Qed.
Lemma sl_wf_append p s : sl_wf p → sl_wf (sl_append p s).
Proof. unfold sl_wf, sl_append, alen. cbn. rewrite length_app. cbn. lia. Qed.

(** Appending a NULL-terminated array adds exactly its strings, in order,
    and keeps the size field equal to the number of elements. *)
Theorem sl_append_all_spec p bufs ss :
  sl_wf p → Forall2 holds bufs ss →
  sl_get (sl_append_all p (Some bufs)) = sl_get p ++ (Some <$> ss) ∧
  sl_wf (sl_append_all p (Some bufs)).
Proof.
  intros Hp H. unfold sl_get. cbn [sl_append_all].
  induction H as [|b s bufs ss Hb _ IH] in p, Hp |- *; cbn [foldl fmap list_fmap].
  { by rewrite app_nil_r. }
  destruct (IH (sl_append p (Some b)) (sl_wf_append _ _ Hp)) as [-> ?]. split; [|done].
  rewrite (sl_append_holds p b s Hb). cbn. by rewrite <- app_assoc.
Qed.

(** ** Evaluation *)

Lemma strlcpy_spec_witness :
  strlcpy [9; 9; 9; 9; 9] [65; 66; 67; 68; 0; 7] 3 = ([65; 66; 0; 9; 9], 4) ∧
  holds [65; 66; 0; 9; 9] [65; 66].
Proof.
  split; [reflexivity|].
  assert (Hb : holds [65; 66; 67; 68; 0; 7] [65; 66; 67; 68]) by (split; [set_solver|by exists [7]]).
  destruct (strlcpy_spec [9; 9; 9; 9; 9] [65; 66; 67; 68; 0; 7] _ 3 Hb) as (_ & _ & _ & H).
  - unfold alen. cbn. lia.
  - apply H. lia.
Defined.

Lemma strlcat_spec_witness :
  strlcat [65; 0; 9; 9; 9] [66; 67; 68; 0] 4 = ([65; 66; 67; 0; 9], 4).
Proof.
  assert (Hd : holds [65; 0; 9; 9; 9] [65]) by (split; [set_solver|by exists [9; 9; 9]]).
  assert (Hb : holds [66; 67; 68; 0] [66; 67; 68]) by (split; [set_solver|by exists []]).
  rewrite (strlcat_spec _ _ _ _ 4 Hd Hb) by (unfold alen; cbn; lia). reflexivity.
Defined.

Lemma sl_append_all_spec_witness :
  sl_get (sl_append_all sl_init (Some [[65; 0; 3]; [0]])) = [Some [65]; Some []].
Proof.
  apply (sl_append_all_spec sl_init [[65; 0; 3]; [0]] [[65]; []] sl_wf_init).
  repeat constructor; set_solver || (by exists [3]) || by exists [].
Defined.
