(* ===== verification/Daemonize.v ===== *)
(** * Creation of processes (axiom_common_library/daemonize.c)

    [daemonize] makes the pipes of the new process, forks, and in the new process
    sets up the working directory and the descriptors before it executes a
    program.  The calls of the system are a class; its instance is a process with a
    table of descriptors, whose calls fail when a script says so. *)

From stdpp Require Import gmap.
From S2P Require Import Prelude Nic.

(** The calls of the system.  [d_pipe] gives the read and the write end, [d_open_null]
    opens /dev/null (for writing when its argument says so) and gives -1 when it
    fails, [d_poll] is the atomic read of the shared number, [d_execvpe] is false
    when it returns. *)
Class ProcDev (D : Type) := {
  d_pipe : M D (option (Z * Z));
  d_close : Z → M D unit;
  d_getcwd : M D (option (list Z));
  d_chdir : list Z → M D bool;
  d_mmap : M D bool;
  d_store : Z → M D unit;
  d_poll : Z → M D Z;
  d_munmap : M D unit;
  d_fork : M D Z;
  d_setsid : M D unit;
  d_open_null : bool → M D Z;
  d_dup2 : Z → Z → M D unit;
  d_getdtablesize : M D Z;
  d_execvpe : list Z → list (list Z) → option (list (list Z)) → M D bool
}.

(** What becomes of a call: it returns in the process that made it or in the new
    one, or the new process executes a program or exits. *)
Inductive dresult := Returned (pid : Z) | Executed | Exited.

Section Code.
Context {D : Type} `{PD : ProcDev D}.

(** *** The number that two processes share *)

(** [smfd] is the field of the structure, which nobody sets. *)
Definition sync_open (smfd : Z) : M D Z :=
  ok ← d_mmap;
  if negb ok then d_close smfd ;; mret (-1) else d_store 0 ;; mret 0.

Definition sync_wakeup : M D Z := _ ← d_poll 1; mret 0.

Definition sync_turn (_ : unit) : M D (unit + Z) :=
  v ← d_poll 0; mret (if v =? 0 then inl tt else inr 0).
Definition sync_wait (fuel : nat) : M D Z := loop fuel sync_turn tt.

Definition sync_close : M D Z := d_munmap ;; mret 0.

(** *** daemonize *)

Definition close_fd (fd : Z) : M D unit := if fd =? -1 then mret tt else d_close fd.

(** The macro [CLEAN]: the descriptors of the new process are those for its input,
    output and errors; [pipefd] is the array of the caller. *)
Definition CLEAN (fdin fdout fderr : Z) (pipefd : option (Z * Z * Z)) : M D unit :=
  close_fd fdout ;; close_fd fdin ;; close_fd fderr ;;
  match pipefd with
  | None => mret tt
  | Some (p0, p1, p2) => close_fd p0 ;; close_fd p1 ;; close_fd p2
  end.

(** The pipes; whether all could be made. *)
Definition make_pipes : M D (bool * (Z * Z * Z) * (Z * Z * Z)) :=
  r ← d_pipe;
  match r with
  | None => CLEAN (-1) (-1) (-1) (Some (-1, -1, -1)) ;; mret (false, (-1, -1, -1), (-1, -1, -1))
  | Some (r1, w1) =>
      r ← d_pipe;
      match r with
      | None => CLEAN (-1) w1 (-1) (Some (-1, r1, -1)) ;; mret (false, (-1, w1, -1), (-1, r1, -1))
      | Some (r0, w0) =>
          r ← d_pipe;
          match r with
          | None => CLEAN r0 w1 (-1) (Some (w0, r1, -1)) ;; mret (false, (r0, w1, -1), (w0, r1, -1))
          | Some (r2, w2) => mret (true, (r0, w1, w2), (w0, r1, r2))
          end
      end
  end.

(** [for (i = getdtablesize(); i >= 0; --i)] *)
Fixpoint close_others (i : nat) : M D unit :=
  (if 2 <? Z.of_nat i then d_close (Z.of_nat i) else mret tt) ;;
  match i with O => mret tt | S i => close_others i end.

(** The part of the new process: [exec] is the program, [args] and [env] are the
    arrays or NULL. *)
Definition new_process (fuel : nat) (exec : option (list Z)) (args env : option (list (list Z)))
    (newsession : bool) (fdin fdout fderr : Z) (sync : option Z) : M D dresult :=
  (if newsession then d_setsid else mret tt) ;;
  fd ← (if fdin =? -1 then d_open_null false else mret fdin);
  (if fd =? -1 then mret tt else d_dup2 fd 0) ;;
  fd ← (if fdout =? -1 then d_open_null true else mret fdout);
  (if fd =? -1 then mret tt else d_dup2 fd 1 ;; d_dup2 fd 2) ;;
  fd ← (if fderr =? -1 then d_open_null true else mret fderr);
  (if fd =? -1 then mret tt else d_dup2 fd 2) ;;
  (match sync with None => mret tt | Some _ => _ ← sync_wait fuel; _ ← sync_close; mret tt end) ;;
  size ← d_getdtablesize;
  close_others (Z.to_nat size) ;;
  match exec with
  | None => mret (Returned 0)
  | Some exec =>
      let args := match args with None | Some [] => [exec] | Some args => args end in
      ok ← d_execvpe exec args env;
      mret (if ok : bool then Executed else Exited)
  end.

(** [pipefd]: whether the caller gives an array; the result has its contents. *)
Definition daemonize (fuel : nat) (cwd exec : option (list Z)) (args env : option (list (list Z)))
    (pipefd newsession : bool) (sync : option Z) : M D (dresult * option (Z * Z * Z)) :=
  '(ok, fds, ends) ← (if pipefd then r ← make_pipes; mret (r.1.1, r.1.2, Some r.2)
                      else mret (true, (-1, -1, -1), None));
  if negb ok then mret (Returned (-1), ends) else
  let '(fdin, fdout, fderr) := fds in
  let fail := CLEAN fdin fdout fderr ends ;; mret (Returned (-1), ends) in
  old ← (match cwd with
         | None => mret (Some None)
         | Some dir =>
             old ← d_getcwd;
             match old with
             | None => mret None
             | Some old => ok ← d_chdir dir; mret (if ok : bool then Some (Some old) else None)
             end
         end);
  match old with
  | None => fail
  | Some oldcwd =>
      res ← (match sync with None => mret 0 | Some smfd => sync_open smfd end);
      if negb (res =? 0) then fail else
      pid ← d_fork;
      if negb (pid =? 0) then
        (match oldcwd with None => mret tt | Some old => _ ← d_chdir old; mret tt end) ;;
        close_fd fdin ;; close_fd fdout ;; close_fd fderr ;;
        mret (Returned (if pid <? 0 then -1 else pid), ends)
      else
        r ← new_process fuel exec args env newsession fdin fdout fderr sync;
        mret (r, ends)
  end.
End Code.

(** ** A process *)

(** What a descriptor refers to: an end of a pipe, /dev/null, any other file. *)
Inductive file := PipeR (n : Z) | PipeW (n : Z) | DevNull (write : bool) | OtherFile (n : Z).

(** The descriptors, their limit, the working directory, the number of the next
    pipe, which of the next calls fail, the result of [fork], the shared number
    with what the other process adds before each reading, whether the session is
    new, and the program that is executed. *)
Record proc := mk_proc {
  pr_fds : gmap Z file;
  pr_limit : Z;
  pr_cwd : list Z;
  pr_pipes : Z;
  pr_fails : list bool;
  pr_fork : Z;
  pr_shared : option Z;
  pr_others : list Z;
  pr_session : bool;
  pr_program : option (list Z * list (list Z) * option (list (list Z)))
}.

Definition with_fds (m : gmap Z file) (p : proc) : proc :=
  mk_proc m (pr_limit p) (pr_cwd p) (pr_pipes p) (pr_fails p) (pr_fork p) (pr_shared p) (pr_others p) (pr_session p) (pr_program p).
Definition with_pipe (m : gmap Z file) (p : proc) : proc :=
  mk_proc m (pr_limit p) (pr_cwd p) (pr_pipes p + 1) (pr_fails p) (pr_fork p) (pr_shared p) (pr_others p) (pr_session p) (pr_program p).
Definition with_cwd (c : list Z) (p : proc) : proc :=
  mk_proc (pr_fds p) (pr_limit p) c (pr_pipes p) (pr_fails p) (pr_fork p) (pr_shared p) (pr_others p) (pr_session p) (pr_program p).
Definition with_fails (l : list bool) (p : proc) : proc :=
  mk_proc (pr_fds p) (pr_limit p) (pr_cwd p) (pr_pipes p) l (pr_fork p) (pr_shared p) (pr_others p) (pr_session p) (pr_program p).
Definition with_shared (v : option Z) (l : list Z) (p : proc) : proc :=
  mk_proc (pr_fds p) (pr_limit p) (pr_cwd p) (pr_pipes p) (pr_fails p) (pr_fork p) v l (pr_session p) (pr_program p).
Definition with_session (p : proc) : proc :=
  mk_proc (pr_fds p) (pr_limit p) (pr_cwd p) (pr_pipes p) (pr_fails p) (pr_fork p) (pr_shared p) (pr_others p) true (pr_program p).
Definition with_fork (pid : Z) (p : proc) : proc :=
  mk_proc (pr_fds p) (pr_limit p) (pr_cwd p) (pr_pipes p) (pr_fails p) pid (pr_shared p) (pr_others p) (pr_session p) (pr_program p).
Definition with_program (x : list Z * list (list Z) * option (list (list Z))) (p : proc) : proc :=
  mk_proc (pr_fds p) (pr_limit p) (pr_cwd p) (pr_pipes p) (pr_fails p) (pr_fork p) (pr_shared p) (pr_others p) (pr_session p) (Some x).

(** The lowest free descriptor. *)
Fixpoint find_free (fuel : nat) (i : Z) (m : gmap Z file) : Z :=
  match fuel with
  | O => i
  | S fuel => match m !! i with None => i | Some _ => find_free fuel (i + 1) m end
  end.
Definition lowest (m : gmap Z file) : Z := find_free (size m) 0 m.

(** A call that can fail: the script decides when it is not used up. *)
Definition fallible {A} (bad : A) (good : M proc A) : M proc A := fun p =>
  match pr_fails p with
  | [] => good p
  | true :: l => Ret bad (with_fails l p)
  | false :: l => good (with_fails l p)
  end.

(** Both ends of a new pipe have to be below the limit. *)
Definition new_pipe : M proc (option (Z * Z)) := fun p =>
  let r := lowest (pr_fds p) in
  let m := <[r := PipeR (pr_pipes p)]> (pr_fds p) in
  let w := lowest m in
  if pr_limit p <=? w then Ret None p
  else Ret (Some (r, w)) (with_pipe (<[w := PipeW (pr_pipes p)]> m) p).

#[export] Instance proc_dev : ProcDev proc := {|
  d_pipe := fallible None new_pipe;
  d_close fd p := Ret tt (with_fds (delete fd (pr_fds p)) p);
  d_getcwd := fallible None (fun p => Ret (Some (pr_cwd p)) p);
  d_chdir dir := fallible false (fun p => Ret true (with_cwd dir p));
  d_mmap := fallible false (fun p => Ret true (with_shared (Some 0) (pr_others p) p));
  d_store v p := Ret tt (with_shared (Some v) (pr_others p) p);
  d_poll n p := match pr_shared p with
    | None => Stuck OutOfBounds p
    | Some v =>
        let v := v + hd 0 (pr_others p) in
        Ret v (with_shared (Some (v + n)) (tail (pr_others p)) p)
    end;
  d_munmap p := Ret tt (with_shared None (pr_others p) p);
  d_fork p := Ret (pr_fork p) p;
  d_setsid p := Ret tt (with_session p);
  d_open_null write := fallible (-1) (fun p =>
    let fd := lowest (pr_fds p) in
    if pr_limit p <=? fd then Ret (-1) p else Ret fd (with_fds (<[fd := DevNull write]> (pr_fds p)) p));
  d_dup2 fd fd2 p := Ret tt (with_fds (match pr_fds p !! fd with None => pr_fds p | Some f => <[fd2 := f]> (pr_fds p) end) p);
  d_getdtablesize p := Ret (pr_limit p) p;
  d_execvpe exec args env := fallible false (fun p => Ret true (with_program (exec, args, env) p))
|}.

(** ** Descriptors *)

Section Descriptors.

Lemma used_bound (m : gmap Z file) (n : Z) : 0 <= n → (∀ i, 0 <= i < n → is_Some (m !! i)) → n <= Z.of_nat (size m).
Proof.
  intros Hn H. assert (Hs : list_to_set (seqZ 0 n) ⊆ (dom m : gset Z)).
  { intros i Hi. apply elem_of_list_to_set, elem_of_seqZ in Hi. apply elem_of_dom, H. lia. }
  apply subseteq_size in Hs. rewrite size_dom, size_list_to_set, length_seqZ in Hs by apply NoDup_seqZ. lia.
Qed.

Lemma find_free_spec m fuel i : 0 <= i → i + Z.of_nat fuel = Z.of_nat (size m) → (∀ j, 0 <= j < i → is_Some (m !! j)) →
  i <= find_free fuel i m ∧ m !! find_free fuel i m = None ∧ ∀ j, 0 <= j < find_free fuel i m → is_Some (m !! j).
Proof.
  induction fuel as [|fuel IH] in i |- *; intros Hi Hf Hused; cbn [find_free].
  - split; [lia|]. split; [|done]. destruct (m !! i) eqn:E; [|done]. exfalso.
    pose proof (used_bound m (i + 1) ltac:(lia)) as Hb. assert (i + 1 <= Z.of_nat (size m)); [|lia]. apply Hb.
    intros j Hj. destruct (decide (j = i)) as [->|]; [by rewrite E|]. apply Hused. lia.
  - destruct (m !! i) eqn:E; [|by split].
    destruct (IH (i + 1)) as (H1 & H2 & H3); [lia|lia| |split; [lia|done]].
    intros j Hj. destruct (decide (j = i)) as [->|]; [by rewrite E|]. apply Hused. lia.
Qed.

Lemma lowest_spec m : 0 <= lowest m ∧ m !! lowest m = None ∧ ∀ j, 0 <= j < lowest m → is_Some (m !! j).
Proof. unfold lowest. apply find_free_spec; [lia|lia|]. lia. Qed.

Lemma lowest_size m : lowest m <= Z.of_nat (size m).
Proof. destruct (lowest_spec m) as (H0 & _ & Hu). by apply used_bound. Qed.

(** The second of two new descriptors is above the first. *)
Lemma lowest_next m f : lowest m < lowest (<[lowest m := f]> m) ∧ m !! lowest (<[lowest m := f]> m) = None.
Proof.
  destruct (lowest_spec m) as (H0 & Hn & Hu). destruct (lowest_spec (<[lowest m := f]> m)) as (H0' & Hn' & Hu').
  assert (Hne : lowest (<[lowest m := f]> m) ≠ lowest m) by (intros E; by rewrite E, lookup_insert_eq in Hn').
  rewrite lookup_insert_ne in Hn' by done. split; [|done].
  destruct (Z.lt_ge_cases (lowest (<[lowest m := f]> m)) (lowest m)); [|lia].
  destruct (Hu (lowest (<[lowest m := f]> m))) as [x Hx]; [lia|]. by rewrite Hn' in Hx.
Qed.

(** What [close_others] leaves. *)
Lemma close_others_spec n p : ∃ m, close_others n p = Ret tt (with_fds m p) ∧
  ∀ i, m !! i = if decide (2 < i <= Z.of_nat n) then None else pr_fds p !! i.
Proof.
  induction n as [|n IH] in p |- *; cbn [close_others].
  - exists (pr_fds p). split; [by destruct p|]. intros i. by rewrite decide_False by lia.
  - destruct (Z.ltb_spec 2 (Z.of_nat (S n))).
    + destruct (IH (with_fds (delete (Z.of_nat (S n)) (pr_fds p)) p)) as (m & Hm & Hl). exists m.
      split; [exact Hm|]. intros i. rewrite Hl. cbn [pr_fds with_fds].
      destruct (decide (i = Z.of_nat (S n))) as [->|].
      * rewrite lookup_delete_eq. repeat case_decide; done || lia.
      * rewrite lookup_delete_ne by done. repeat case_decide; done || lia.
    + destruct (IH p) as (m & Hm & Hl). exists m. split; [exact Hm|]. intros i. rewrite Hl. repeat case_decide; done || lia.
Qed.

(** *** The pipes *)

(** The descriptors of a process are below its limit. *)
Definition fds_ok (p : proc) : Prop := ∀ i, is_Some (pr_fds p !! i) → 0 <= i < pr_limit p.

(** Three pipes in a table [m]. *)
Definition three_pipes (r1 w1 r0 w0 r2 w2 n : Z) (m : gmap Z file) : gmap Z file :=
  <[w2 := PipeW (n + 2)]> (<[r2 := PipeR (n + 2)]> (<[w0 := PipeW (n + 1)]> (<[r0 := PipeR (n + 1)]>
    (<[w1 := PipeW n]> (<[r1 := PipeR n]> m))))).

(** New descriptors, in the order in which they are given away. *)
Definition fresh_fds (m : gmap Z file) (r1 w1 r0 w0 r2 w2 : Z) : Prop :=
  0 <= r1 ∧ r1 < w1 ∧ w1 < r0 ∧ r0 < w0 ∧ w0 < r2 ∧ r2 < w2 ∧
  m !! r1 = None ∧ m !! w1 = None ∧ m !! r0 = None ∧ m !! w0 = None ∧ m !! r2 = None ∧ m !! w2 = None.

(** The numbers the system gives. *)
Definition new_fds (n : Z) (m : gmap Z file) : Z * Z * Z * Z * Z * Z :=
  let r1 := lowest m in let m := <[r1 := PipeR n]> m in
  let w1 := lowest m in let m := <[w1 := PipeW n]> m in
  let r0 := lowest m in let m := <[r0 := PipeR (n + 1)]> m in
  let w0 := lowest m in let m := <[w0 := PipeW (n + 1)]> m in
  let r2 := lowest m in let m := <[r2 := PipeR (n + 1 + 1)]> m in
  (r1, w1, r0, w0, r2, lowest m).

(** One pipe, with the lower bound that the table has for new descriptors. *)
Lemma pipe_ok p : pr_fails p = [] → Z.of_nat (size (pr_fds p)) + 2 <= pr_limit p →
  ∃ r w, d_pipe p = Ret (Some (r, w)) (with_pipe (<[w := PipeW (pr_pipes p)]> (<[r := PipeR (pr_pipes p)]> (pr_fds p))) p) ∧
    r = lowest (pr_fds p) ∧ w = lowest (<[r := PipeR (pr_pipes p)]> (pr_fds p)) ∧ r < w < pr_limit p ∧
    Z.of_nat (size (<[w := PipeW (pr_pipes p)]> (<[r := PipeR (pr_pipes p)]> (pr_fds p)))) = Z.of_nat (size (pr_fds p)) + 2.
Proof.
  intros Hf Hr. eexists _, _. destruct (lowest_spec (pr_fds p)) as (_ & Hn & _).
  destruct (lowest_next (pr_fds p) (PipeR (pr_pipes p))) as [Hlt _].
  destruct (lowest_spec (<[lowest (pr_fds p) := PipeR (pr_pipes p)]> (pr_fds p))) as (_ & Hn' & _).
  pose proof (lowest_size (<[lowest (pr_fds p) := PipeR (pr_pipes p)]> (pr_fds p))) as Hs.
  rewrite map_size_insert_None in Hs by done.
  cbn [d_pipe proc_dev]. unfold fallible, new_pipe. rewrite Hf.
  destruct (Z.leb_spec (pr_limit p) (lowest (<[lowest (pr_fds p) := PipeR (pr_pipes p)]> (pr_fds p)))); [lia|].
  split; [reflexivity|]. split; [done|]. split; [done|]. split; [lia|].
  rewrite !map_size_insert_None by done. lia.
Qed.

Lemma make_pipes_ok p : pr_fails p = [] → Z.of_nat (size (pr_fds p)) + 6 <= pr_limit p →
  ∃ r1 w1 r0 w0 r2 w2, new_fds (pr_pipes p) (pr_fds p) = (r1, w1, r0, w0, r2, w2) ∧
    fresh_fds (pr_fds p) r1 w1 r0 w0 r2 w2 ∧ w2 < pr_limit p ∧
    make_pipes p = Ret (true, (r0, w1, w2), (w0, r1, r2))
      (mk_proc (three_pipes r1 w1 r0 w0 r2 w2 (pr_pipes p) (pr_fds p)) (pr_limit p) (pr_cwd p) (pr_pipes p + 3)
        [] (pr_fork p) (pr_shared p) (pr_others p) (pr_session p) (pr_program p)).
Proof.
  intros Hf Hr. destruct (pipe_ok p Hf ltac:(lia)) as (r1 & w1 & E1 & Hr1 & Hw1 & Hlt1 & Hs1).
  set (p1 := with_pipe _ p) in E1. destruct (pipe_ok p1 Hf) as (r0 & w0 & E0 & Hr0 & Hw0 & Hlt0 & Hs0); [cbn; lia|].
  set (p2 := with_pipe _ p1) in E0.
  destruct (pipe_ok p2 Hf) as (r2 & w2 & E2 & Hr2 & Hw2 & Hlt2 & Hs2); [cbn in Hs0 |- *; lia|].
  cbn [p1 p2 with_pipe pr_fds pr_pipes pr_limit] in *.
  assert (G1 := lowest_next (<[r1 := PipeR (pr_pipes p)]> (pr_fds p)) (PipeW (pr_pipes p))). rewrite <- Hw1, <- Hr0 in G1.
  set (m2 := <[w1 := _]> _) in *.
  assert (G2 := lowest_next (<[r0 := PipeR (pr_pipes p + 1)]> m2) (PipeW (pr_pipes p + 1))). rewrite <- Hw0, <- Hr2 in G2.
  set (m4 := <[w0 := _]> _) in *.
  destruct (lowest_spec (pr_fds p)) as (H0 & N1 & _). rewrite <- Hr1 in H0, N1.
  destruct (lowest_spec (<[r1 := PipeR (pr_pipes p)]> (pr_fds p))) as (_ & N2 & _). rewrite <- Hw1 in N2.
  destruct (lowest_spec m2) as (_ & N3 & _). rewrite <- Hr0 in N3.
  destruct (lowest_spec (<[r0 := PipeR (pr_pipes p + 1)]> m2)) as (_ & N4 & _). rewrite <- Hw0 in N4.
  destruct (lowest_spec m4) as (_ & N5 & _). rewrite <- Hr2 in N5.
  destruct (lowest_spec (<[r2 := PipeR (pr_pipes p + 1 + 1)]> m4)) as (_ & N6 & _). rewrite <- Hw2 in N6.
  unfold m4, m2 in N3, N4, N5, N6.
  repeat match goal with H : <[_ := _]> _ !! _ = None |- _ => rewrite lookup_insert_ne in H by lia end.
  exists r1, w1, r0, w0, r2, w2. split; [by subst|]. split; [unfold fresh_fds; split_and!; done || lia|]. split; [lia|].
  unfold make_pipes. rewrite (bind_ret _ _ _ _ _ E1). cbn iota beta. rewrite (bind_ret _ _ _ _ _ E0). cbn iota beta.
  rewrite (bind_ret _ _ _ _ _ E2). cbn iota beta. unfold mret, M_ret, three_pipes, with_pipe. cbn. rewrite Hf.
  unfold m4, m2. replace (pr_pipes p + 1 + 1) with (pr_pipes p + 2) by lia.
  by replace (pr_pipes p + 2 + 1) with (pr_pipes p + 3) by lia.
Qed.
End Descriptors.

(** ** The wait of the new process *)

Section Wait.

(** Another process changes the number before the new one has looked too often. *)
Definition woken (fuel : nat) (sync : option Z) (others : list Z) : Prop :=
  match sync with
  | None => True
  | Some _ => ∃ k x rest, others = replicate k 0 ++ x :: rest ∧ x ≠ 0 ∧ (k < fuel)%nat
  end.

Lemma sync_turn_eq p : pr_shared p = Some 0 → let v := hd 0 (pr_others p) in
  sync_turn tt p = Ret (if v =? 0 then inl tt else inr 0) (with_shared (Some v) (tail (pr_others p)) p).
Proof.
  intros Hs v. unfold sync_turn, mbind, M_bind. cbn [d_poll proc_dev]. rewrite Hs. fold v.
  by rewrite Z.add_0_l, Z.add_0_r.
Qed.

Lemma sync_wait_woken fuel k x rest p : pr_shared p = Some 0 → pr_others p = replicate k 0 ++ x :: rest → x ≠ 0 →
  (k < fuel)%nat → sync_wait fuel p = Ret 0 (with_shared (Some x) rest p).
Proof.
  unfold sync_wait. induction k as [|k IH] in fuel, p |- *; intros Hs Ho Hx Hk; (destruct fuel as [|fuel]; [lia|]); cbn [loop];
    rewrite (bind_ret _ _ _ _ _ (sync_turn_eq p Hs)), Ho; cbn [replicate app hd tail].
  - by destruct (Z.eqb_spec x 0).
  - cbn [Z.eqb]. rewrite IH; try done; lia.
Qed.

(** Nobody wakes it: it waits, however often it looks. *)
Lemma sync_wait_asleep fuel p : pr_shared p = Some 0 → Forall (fun x => x = 0) (pr_others p) →
  ∃ p', sync_wait fuel p = Stuck Diverges p' ∧ pr_program p' = pr_program p.
Proof.
  unfold sync_wait. induction fuel as [|fuel IH] in p |- *; intros Hs Ho; [by eexists|].
  cbn [loop]. rewrite (bind_ret _ _ _ _ _ (sync_turn_eq p Hs)).
  assert (Hh : hd 0 (pr_others p) = 0) by (destruct Ho; done). rewrite Hh. cbn [Z.eqb].
  apply (IH (with_shared (Some 0) (tail (pr_others p)) p)); [done|].
  cbn. destruct Ho; [constructor|done].
Qed.
End Wait.

(** ** The new process *)

Section NewProcess.

(** The three standard descriptors. *)
Definition standard (f0 f1 f2 : file) : gmap Z file := <[0 := f0]> (<[1 := f1]> (<[2 := f2]> ∅)).

Lemma standard_eq (m m' : gmap Z file) limit f0 f1 f2 : m !! 0 = Some f0 → m !! 1 = Some f1 → m !! 2 = Some f2 →
  (∀ i, is_Some (m !! i) → 0 <= i < limit) → 0 <= limit →
  (∀ i, m' !! i = if decide (2 < i <= Z.of_nat (Z.to_nat limit)) then None else m !! i) → m' = standard f0 f1 f2.
Proof.
  intros H0 H1 H2 Hb Hl Hm. apply map_eq. intros i. rewrite Hm. unfold standard.
  destruct (decide (i = 0)) as [->|]; [by rewrite lookup_insert_eq|]. rewrite lookup_insert_ne by done.
  destruct (decide (i = 1)) as [->|]; [by rewrite lookup_insert_eq|]. rewrite lookup_insert_ne by done.
  destruct (decide (i = 2)) as [->|]; [by rewrite lookup_insert_eq|]. rewrite lookup_insert_ne, lookup_empty by done.
  case_decide; [done|]. destruct (m !! i) as [f|] eqn:E; [|done]. destruct (Hb i); [by rewrite E|]. lia.
Qed.

(** From the descriptors on: the wait, the closing and the program. *)
Definition last_part (fuel : nat) (exec : list Z) (args env : option (list (list Z))) (sync : option Z) : M proc dresult :=
  (match sync with None => mret tt | Some _ => _ ← sync_wait fuel; _ ← sync_close; mret tt end) ;;
  size ← d_getdtablesize;
  close_others (Z.to_nat size) ;;
  ok ← d_execvpe exec (match args with None | Some [] => [exec] | Some args => args end) env;
  mret (if ok : bool then Executed else Exited).

Lemma last_part_ok fuel exec args env sync p f0 f1 f2 :
  pr_fds p !! 0 = Some f0 → pr_fds p !! 1 = Some f1 → pr_fds p !! 2 = Some f2 → fds_ok p → 0 <= pr_limit p → pr_fails p = [] →
  (is_Some sync → pr_shared p = Some 0) → woken fuel sync (pr_others p) →
  ∃ p', last_part fuel exec args env sync p = Ret Executed p' ∧ pr_fds p' = standard f0 f1 f2 ∧ pr_cwd p' = pr_cwd p ∧
    pr_session p' = pr_session p ∧
    pr_program p' = Some (exec, match args with None | Some [] => [exec] | Some args => args end, env).
Proof.
  intros H0 H1 H2 Hok Hl Hf Hs Hw.
  assert (Hp : ∃ sh ot, (match sync with None => mret tt | Some _ => _ ← sync_wait fuel; _ ← sync_close; mret tt end : M proc unit) p =
    Ret tt (with_shared sh ot p)).
  { destruct sync as [smfd|]; [|exists (pr_shared p), (pr_others p); by destruct p].
    destruct Hw as (k & x & rest & Ho & Hx & Hk).
    rewrite (bind_ret _ _ _ _ _ (sync_wait_woken fuel k x rest p (Hs (mk_is_Some _ _ eq_refl)) Ho Hx Hk)).
    by eexists None, rest. }
  destruct Hp as (sh & ot & Hp). unfold last_part. rewrite (bind_ret _ _ _ _ _ Hp).
  unfold mbind at 1, M_bind at 1. cbn [d_getdtablesize proc_dev pr_limit with_shared].
  destruct (close_others_spec (Z.to_nat (pr_limit p)) (with_shared sh ot p)) as (m & Hm & Hlook).
  rewrite (bind_ret _ _ _ _ _ Hm). unfold mbind, M_bind. cbn [d_execvpe proc_dev]. unfold fallible.
  cbn [pr_fails with_fds with_shared]. rewrite Hf. eexists. split; [reflexivity|]. cbn.
  split; [|done]. by apply (standard_eq (pr_fds p) m (pr_limit p)).
Qed.

Definition after_session (newsession : bool) (p : proc) : proc := if newsession then with_session p else p.

(** The descriptors of the pipes become the standard ones, whatever their numbers. *)
Lemma new_process_pipes fuel exec args env newsession sync p m r1 w1 r0 w0 r2 w2 n :
  fresh_fds m r1 w1 r0 w0 r2 w2 → pr_fds p = three_pipes r1 w1 r0 w0 r2 w2 n m →
  new_process fuel (Some exec) args env newsession r0 w1 w2 sync p =
    last_part fuel exec args env sync
      (with_fds (<[2 := PipeW (n + 2)]> (<[2 := PipeW n]> (<[1 := PipeW n]> (<[0 := PipeR (n + 1)]> (pr_fds p)))))
        (after_session newsession p)).
Proof.
  intros (H0 & H1 & H2 & H3 & H4 & H5 & _) Hm. unfold new_process.
  rewrite (bind_ret _ _ _ tt (after_session newsession p)) by (by destruct newsession).
  set (p1 := after_session newsession p). assert (Hfds : pr_fds p1 = pr_fds p) by (by destruct newsession).
  destruct (Z.eqb_spec r0 (-1)); [lia|]. destruct (Z.eqb_spec w1 (-1)); [lia|]. destruct (Z.eqb_spec w2 (-1)); [lia|].
  rewrite (bind_ret (mret r0) _ _ r0 p1) by done. destruct (Z.eqb_spec r0 (-1)); [done|].
  assert (L0 : pr_fds p !! r0 = Some (PipeR (n + 1))) by (rewrite Hm; unfold three_pipes; by simplify_map_eq by lia).
  assert (L1 : pr_fds p !! w1 = Some (PipeW n)) by (rewrite Hm; unfold three_pipes; by simplify_map_eq by lia).
  assert (L2 : pr_fds p !! w2 = Some (PipeW (n + 2))) by (rewrite Hm; unfold three_pipes; by simplify_map_eq by lia).
  assert (Hdup : ∀ fd fd2 f m0, m0 !! fd = Some f →
    d_dup2 fd fd2 (with_fds m0 p1) = Ret tt (with_fds (<[fd2 := f]> m0) p1)).
  { intros fd fd2 f m0 E. cbn [d_dup2 proc_dev pr_fds with_fds]. by rewrite E. }
  assert (Hp1 : p1 = with_fds (pr_fds p) p1) by (rewrite <- Hfds; by destruct p1). rewrite Hp1 at 1.
  rewrite (bind_ret _ _ _ _ _ (Hdup r0 0 _ _ L0)).
  rewrite (bind_ret (mret w1) _ _ w1 _) by done. destruct (Z.eqb_spec w1 (-1)); [done|]. rewrite bind_assoc.
  assert (L1' : <[0 := PipeR (n + 1)]> (pr_fds p) !! w1 = Some (PipeW n)) by (by simplify_map_eq by lia).
  rewrite (bind_ret _ _ _ _ _ (Hdup w1 1 _ _ L1')).
  assert (L1'' : <[1 := PipeW n]> (<[0 := PipeR (n + 1)]> (pr_fds p)) !! w1 = Some (PipeW n)).
  { destruct (decide (w1 = 1)) as [->|]; by simplify_map_eq by lia. }
  rewrite (bind_ret _ _ _ _ _ (Hdup w1 2 _ _ L1'')).
  rewrite (bind_ret (mret w2) _ _ w2 _) by done. destruct (Z.eqb_spec w2 (-1)); [done|].
  assert (L2' : <[2 := PipeW n]> (<[1 := PipeW n]> (<[0 := PipeR (n + 1)]> (pr_fds p))) !! w2 = Some (PipeW (n + 2))).
  { by simplify_map_eq by lia. }
  by rewrite (bind_ret _ _ _ _ _ (Hdup w2 2 _ _ L2')).
Qed.
End NewProcess.

(** ** What daemonize does *)

Section Theorems.

(** The start of the call with pipes, up to [fork]; the working directory is
    changed and the shared number is zero. *)
Lemma daemonize_pipes_run fuel cwd exec args env newsession (sync : option Z) p :
  pr_fails p = [] → Z.of_nat (size (pr_fds p)) + 6 <= pr_limit p →
  ∃ r1 w1 r0 w0 r2 w2, new_fds (pr_pipes p) (pr_fds p) = (r1, w1, r0, w0, r2, w2) ∧
    fresh_fds (pr_fds p) r1 w1 r0 w0 r2 w2 ∧ w2 < pr_limit p ∧
    let q := mk_proc (three_pipes r1 w1 r0 w0 r2 w2 (pr_pipes p) (pr_fds p)) (pr_limit p) (default (pr_cwd p) cwd)
        (pr_pipes p + 3) [] (pr_fork p) (if sync is Some _ then Some 0 else pr_shared p) (pr_others p) (pr_session p) (pr_program p) in
    daemonize fuel cwd exec args env true newsession sync p =
      (if pr_fork p =? 0 then
         r ← new_process fuel exec args env newsession r0 w1 w2 sync; mret (r, Some (w0, r1, r2))
       else
         (match cwd with None => mret tt | Some _ => _ ← d_chdir (pr_cwd p); mret tt end) ;;
         close_fd r0 ;; close_fd w1 ;; close_fd w2 ;;
         mret (Returned (if pr_fork p <? 0 then -1 else pr_fork p), Some (w0, r1, r2))) q.
Proof.
  intros Hf Hr. destruct (make_pipes_ok p Hf Hr) as (r1 & w1 & r0 & w0 & r2 & w2 & Hnum & Hfr & Hlim & Hm).
  exists r1, w1, r0, w0, r2, w2. split; [done|]. split; [done|]. split; [done|]. cbn zeta. unfold daemonize.
  set (q0 := mk_proc _ _ (pr_cwd p) _ _ _ _ _ _ _) in Hm.
  erewrite bind_ret; [|rewrite (bind_ret _ _ _ _ _ Hm); reflexivity]. cbn [fst snd negb].
  set (q1 := mk_proc (pr_fds q0) (pr_limit p) (default (pr_cwd p) cwd) (pr_pipes p + 3) [] (pr_fork p) (pr_shared p) (pr_others p) (pr_session p) (pr_program p)).
  rewrite (bind_ret _ _ _ (Some (match cwd with None => None | Some _ => Some (pr_cwd p) end)) q1); [|by destruct cwd].
  set (q2 := mk_proc (pr_fds q0) (pr_limit p) (default (pr_cwd p) cwd) (pr_pipes p + 3) [] (pr_fork p)
    (if sync is Some _ then Some 0 else pr_shared p) (pr_others p) (pr_session p) (pr_program p)).
  rewrite (bind_ret _ _ _ 0 q2) by (by destruct sync). cbn [negb Z.eqb].
  rewrite (bind_ret d_fork _ _ (pr_fork p) q2) by done. destruct (Z.eqb_spec (pr_fork p) 0); [done|]. cbn [negb].
  destruct cwd; done.
Qed.

(** A descriptor of the table with the pipes is below the limit. *)
Lemma three_pipes_ok m limit r1 w1 r0 w0 r2 w2 n i : (∀ i, is_Some (m !! i) → 0 <= i < limit) →
  fresh_fds m r1 w1 r0 w0 r2 w2 → w2 < limit →
  is_Some (three_pipes r1 w1 r0 w0 r2 w2 n m !! i) → 0 <= i < limit.
Proof.
  intros Hok (H0 & H1 & H2 & H3 & H4 & H5 & _) Hlim. unfold three_pipes.
  repeat (rewrite lookup_insert; case_decide; [lia|]). apply Hok.
Qed.

(** What the caller keeps of the pipes: the other ends, under the numbers that are
    returned in the array. *)
Definition with_ends (p0 p1 p2 n : Z) (m : gmap Z file) : gmap Z file :=
  <[p0 := PipeW (n + 1)]> (<[p1 := PipeR n]> (<[p2 := PipeR (n + 2)]> m)).

Lemma close_ends m r1 w1 r0 w0 r2 w2 n : fresh_fds m r1 w1 r0 w0 r2 w2 →
  delete w2 (delete w1 (delete r0 (three_pipes r1 w1 r0 w0 r2 w2 n m))) = with_ends w0 r1 r2 n m.
Proof.
  intros (H0 & H1 & H2 & H3 & H4 & H5 & N1 & N2 & N3 & N4 & N5 & N6). apply map_eq. intros i. unfold three_pipes, with_ends.
  rewrite !lookup_delete, !lookup_insert. repeat case_decide; subst; done || lia.
Qed.

(** The two processes, with the number they share. *)
Lemma daemonize_both fuel cwd exec args env newsession sync p child :
  fds_ok p → pr_fails p = [] → Z.of_nat (size (pr_fds p)) + 6 <= pr_limit p → 0 < child →
  woken fuel sync (pr_others p) →
  ∃ p0 p1 p2 caller new,
    daemonize fuel cwd (Some exec) args env true newsession sync (with_fork child p) =
      Ret (Returned child, Some (p0, p1, p2)) caller ∧
    pr_fds caller = with_ends p0 p1 p2 (pr_pipes p) (pr_fds p) ∧ NoDup [p0; p1; p2] ∧
    pr_fds p !! p0 = None ∧ pr_fds p !! p1 = None ∧ pr_fds p !! p2 = None ∧ pr_cwd caller = pr_cwd p ∧
    pr_shared caller = (if sync is Some _ then Some 0 else pr_shared p) ∧ pr_others caller = pr_others p ∧
    daemonize fuel cwd (Some exec) args env true newsession sync (with_fork 0 p) =
      Ret (Executed, Some (p0, p1, p2)) new ∧
    pr_fds new = standard (PipeR (pr_pipes p + 1)) (PipeW (pr_pipes p)) (PipeW (pr_pipes p + 2)) ∧
    pr_cwd new = default (pr_cwd p) cwd ∧ pr_session new = (newsession || pr_session p) ∧
    pr_program new = Some (exec, match args with None | Some [] => [exec] | Some args => args end, env).
Proof.
  intros Hok Hf Hr Hchild Hw.
  destruct (daemonize_pipes_run fuel cwd (Some exec) args env newsession sync (with_fork child p) Hf Hr)
    as (r1 & w1 & r0 & w0 & r2 & w2 & Hnum & Hfr & Hlim & Hcaller).
  destruct (daemonize_pipes_run fuel cwd (Some exec) args env newsession sync (with_fork 0 p) Hf Hr)
    as (r1' & w1' & r0' & w0' & r2' & w2' & Hnum' & _ & _ & Hnew).
  cbn [pr_pipes pr_fds with_fork] in Hnum, Hnum', Hfr. rewrite Hnum in Hnum'. injection Hnum' as <- <- <- <- <- <-.
  cbn [pr_fork with_fork Z.eqb pr_pipes pr_fds pr_limit pr_cwd pr_shared pr_others pr_session pr_program] in Hcaller, Hnew, Hlim.
  destruct (Z.eqb_spec child 0); [lia|]. destruct (Z.ltb_spec child 0); [lia|].
  set (q := mk_proc _ _ _ _ _ child _ _ _ _) in Hcaller. set (q0 := mk_proc _ _ _ _ _ 0 _ _ _ _) in Hnew.
  pose proof Hfr as (F0 & F1 & F2 & F3 & F4 & F5 & N1 & N2 & N3 & N4 & N5 & N6).
  assert (Hcl : ∀ fd (m0 : gmap Z file) p0, 0 <= fd → close_fd fd (with_fds m0 p0) = Ret tt (with_fds (delete fd m0) p0)).
  { intros fd m0 p0 Hfd. unfold close_fd. by destruct (Z.eqb_spec fd (-1)); [lia|]. }
  set (m := three_pipes _ _ _ _ _ _ _ _) in q, q0.
  set (dup := <[2 := PipeW (pr_pipes p + 2)]> (<[2 := PipeW (pr_pipes p)]> (<[1 := PipeW (pr_pipes p)]>
    (<[0 := PipeR (pr_pipes p + 1)]> m)))).
  destruct (last_part_ok fuel exec args env sync (with_fds dup (after_session newsession q0))
    (PipeR (pr_pipes p + 1)) (PipeW (pr_pipes p)) (PipeW (pr_pipes p + 2))) as (new & Hrun & Hfds & Hcwd & Hsess & Hprog).
  { cbn. unfold dup. by simplify_map_eq. }
  { cbn. unfold dup. by simplify_map_eq. }
  { cbn. unfold dup. by simplify_map_eq. }
  { intros i. replace (pr_limit _) with (pr_limit p) by (by destruct newsession). cbn [pr_fds with_fds]. unfold dup.
    repeat (rewrite lookup_insert; case_decide; [lia|]). by apply three_pipes_ok. }
  { replace (pr_limit _) with (pr_limit p) by (by destruct newsession). lia. }
  { by destruct newsession. }
  { intros Hs. destruct newsession; cbn; by destruct sync, Hs. }
  { by destruct newsession. }
  exists w0, r1, r2, (with_fds (with_ends w0 r1 r2 (pr_pipes p) (pr_fds p)) (with_cwd (pr_cwd p) q)), new.
  split_and!; try done.
  - rewrite Hcaller. rewrite (bind_ret _ _ _ tt (with_fds m (with_cwd (pr_cwd p) q))) by (by destruct cwd).
    rewrite (bind_ret _ _ _ _ _ (Hcl r0 m _ ltac:(lia))). rewrite (bind_ret _ _ _ _ _ (Hcl w1 _ _ ltac:(lia))).
    rewrite (bind_ret _ _ _ _ _ (Hcl w2 _ _ ltac:(lia))). by rewrite <- (close_ends _ _ _ _ _ _ _ _ Hfr).
  - repeat (apply NoDup_cons; split; [set_unfold; lia|]). apply NoDup_nil_2.
  - rewrite Hnew. rewrite (bind_ret _ _ _ Executed new); [done|]. rewrite <- Hrun.
    exact (new_process_pipes fuel exec args env newsession sync q0 _ _ _ _ _ _ _ _ Hfr eq_refl).
  - rewrite Hcwd. by destruct newsession.
  - rewrite Hsess. by destruct newsession.
Qed.

(** C18. The two processes of one call with pipes, which differ in what [fork] returns.
    The caller gets back its working directory, its descriptors and, under new
    numbers, the other ends of three pipes.  The new process runs the program in
    its directory, and its only descriptors are the ends that belong to those of
    the caller: what the caller writes to [pipefd[0]] is its input, [pipefd[1]] is
    its output and [pipefd[2]] its errors.  This holds for every table of
    descriptors of the caller, also when the standard ones are closed. *)
Theorem daemonize_pipes fuel cwd exec args env newsession sync p child :
  fds_ok p → pr_fails p = [] → Z.of_nat (size (pr_fds p)) + 6 <= pr_limit p → 0 < child →
  woken fuel sync (pr_others p) →
  ∃ p0 p1 p2 caller new,
    daemonize fuel cwd (Some exec) args env true newsession sync (with_fork child p) =
      Ret (Returned child, Some (p0, p1, p2)) caller ∧
    pr_fds caller = with_ends p0 p1 p2 (pr_pipes p) (pr_fds p) ∧ NoDup [p0; p1; p2] ∧
    pr_fds p !! p0 = None ∧ pr_fds p !! p1 = None ∧ pr_fds p !! p2 = None ∧ pr_cwd caller = pr_cwd p ∧
    daemonize fuel cwd (Some exec) args env true newsession sync (with_fork 0 p) =
      Ret (Executed, Some (p0, p1, p2)) new ∧
    pr_fds new = standard (PipeR (pr_pipes p + 1)) (PipeW (pr_pipes p)) (PipeW (pr_pipes p + 2)) ∧
    pr_cwd new = default (pr_cwd p) cwd ∧ pr_session new = (newsession || pr_session p) ∧
    pr_program new = Some (exec, match args with None | Some [] => [exec] | Some args => args end, env).
Proof.
  intros Hok Hf Hr Hchild Hw.
  destruct (daemonize_both fuel cwd exec args env newsession sync p child Hok Hf Hr Hchild Hw)
    as (p0 & p1 & p2 & caller & new & H1 & H2 & H3 & H4 & H5 & H6 & H7 & _ & _ & H8).
  exists p0, p1, p2, caller, new. done.
Qed.

(** *** Failures *)

(** What the calls before [fork] leave alone. *)
Definition same (p q : proc) : Prop := pr_cwd q = pr_cwd p ∧ pr_fork q = pr_fork p.

Lemma fallible_cases {A} (bad : A) (good : M proc A) p : (∃ l, fallible bad good p = Ret bad (with_fails l p)) ∨
  ∃ l, fallible bad good p = good (with_fails l p).
Proof.
  unfold fallible. destruct (pr_fails p) as [|[] l] eqn:E; [right|left|right]; [exists []|by eexists..].
  f_equal. destruct p. cbn in E. by subst.
Qed.

Lemma pipe_cases p : (∃ q, d_pipe p = Ret None q ∧ pr_fds q = pr_fds p ∧ same p q) ∨
  ∃ r w f g q, d_pipe p = Ret (Some (r, w)) q ∧ pr_fds q = <[w := g]> (<[r := f]> (pr_fds p)) ∧ same p q ∧
    0 <= r < w ∧ pr_fds p !! r = None ∧ pr_fds p !! w = None.
Proof.
  cbn [d_pipe proc_dev].
  destruct (fallible_cases None new_pipe p) as [[l ->]|[l ->]].
  { left. eexists. split; [done|]. by destruct p. }
  unfold new_pipe. cbn [pr_fds pr_pipes pr_limit with_fails]. destruct (_ <=? _); [left; eexists; split; [done|by destruct p]|]. right.
  destruct (lowest_spec (pr_fds p)) as (H0 & Hn & _). destruct (lowest_next (pr_fds p) (PipeR (pr_pipes p))) as [Hlt Hn'].
  eexists _, _, _, _, _. split; [reflexivity|]. cbn. by split_and!.
Qed.

(** Closing what was opened gives the table from before. *)
Ltac close_all := apply map_eq; intros ?; rewrite ?lookup_delete, ?lookup_insert; repeat case_decide; subst; done || lia || congruence.

Lemma close_fd_eq fd p : 0 <= fd → close_fd fd p = Ret tt (with_fds (delete fd (pr_fds p)) p).
Proof. intros H. unfold close_fd. by destruct (Z.eqb_spec fd (-1)); [lia|]. Qed.

Lemma close_none p : close_fd (-1) p = Ret tt p.
Proof. done. Qed.

(** [CLEAN] with the descriptors of some of the pipes. *)
Lemma clean_fds fdin fdout fderr p0 p1 p2 p :
  Forall (fun fd => fd = -1 ∨ 0 <= fd) [fdout; fdin; fderr; p0; p1; p2] → pr_fds p !! (-1) = None →
  CLEAN fdin fdout fderr (Some (p0, p1, p2)) p =
    Ret tt (with_fds (delete p2 (delete p1 (delete p0 (delete fderr (delete fdin (delete fdout (pr_fds p))))))) p).
Proof.
  intros H Hn. assert (Hc : ∀ fd m, fd = -1 ∨ 0 <= fd → m !! (-1) = None →
    close_fd fd (with_fds m p) = Ret tt (with_fds (delete fd m) p) ∧ delete fd m !! (-1) = None).
  { intros fd m [-> | Hfd] Hq; [by rewrite delete_id|]. rewrite close_fd_eq, lookup_delete_ne by lia. done. }
  repeat (apply Forall_cons in H as [? H]). unfold CLEAN.
  assert (Hp : p = with_fds (pr_fds p) p) by (by destruct p). rewrite Hp at 1.
  destruct (Hc fdout _ ltac:(done) Hn) as [E1 N1]. rewrite (bind_ret _ _ _ _ _ E1).
  destruct (Hc fdin _ ltac:(done) N1) as [E2 N2]. rewrite (bind_ret _ _ _ _ _ E2).
  destruct (Hc fderr _ ltac:(done) N2) as [E3 N3]. rewrite (bind_ret _ _ _ _ _ E3).
  destruct (Hc p0 _ ltac:(done) N3) as [E4 N4]. rewrite (bind_ret _ _ _ _ _ E4).
  destruct (Hc p1 _ ltac:(done) N4) as [E5 N5]. rewrite (bind_ret _ _ _ _ _ E5).
  by destruct (Hc p2 _ ltac:(done) N5) as [-> _].
Qed.

(** Pipes that cannot all be made leave nothing. *)
Lemma make_pipes_cases p : pr_fds p !! (-1) = None →
  ∃ ok fdin fdout fderr p0 p1 p2 q, make_pipes p = Ret (ok, (fdin, fdout, fderr), (p0, p1, p2)) q ∧ same p q ∧
    (if ok : bool then
       Forall (fun fd => 0 <= fd) [fdout; fdin; fderr; p0; p1; p2] ∧ pr_fds q !! (-1) = None ∧
       delete p2 (delete p1 (delete p0 (delete fderr (delete fdin (delete fdout (pr_fds q)))))) = pr_fds p
     else pr_fds q = pr_fds p).
Proof.
  intros Hn. unfold make_pipes.
  destruct (pipe_cases p) as [(q1 & E1 & F1 & S1)|(r1 & w1 & f1 & g1 & q1 & E1 & F1 & S1 & L1 & A1 & B1)];
    rewrite (bind_ret _ _ _ _ _ E1); cbn iota beta.
  { rewrite (bind_ret _ _ _ _ _ (clean_fds (-1) (-1) (-1) (-1) (-1) (-1) q1 ltac:(repeat constructor) ltac:(by rewrite F1))).
    eexists _, _, _, _, _, _, _, _. split; [reflexivity|]. split; [done|]. cbn [pr_fds with_fds]. rewrite F1. close_all. }
  assert (M1 : pr_fds q1 !! (-1) = None) by (rewrite F1, !lookup_insert_ne by lia; done).
  destruct (pipe_cases q1) as [(q0 & E0 & F0 & S0)|(r0 & w0 & f0 & g0 & q0 & E0 & F0 & S0 & L0 & A0 & B0)];
    rewrite (bind_ret _ _ _ _ _ E0); cbn iota beta; (assert (S10 : same p q0) by (unfold same in *; intuition congruence)).
  { rewrite (bind_ret _ _ _ _ _ (clean_fds (-1) w1 (-1) (-1) r1 (-1) q0 ltac:(repeat (constructor; [lia|]); constructor) ltac:(by rewrite F0))).
    eexists _, _, _, _, _, _, _, _. split; [reflexivity|]. split; [done|]. cbn [pr_fds with_fds]. rewrite F0, F1. close_all. }
  assert (M0 : pr_fds q0 !! (-1) = None) by (rewrite F0, !lookup_insert_ne by lia; done).
  rewrite F1 in A0, B0. rewrite lookup_insert in A0, B0. repeat (case_decide; [done|]). rewrite lookup_insert in A0, B0. repeat (case_decide; [done|]).
  destruct (pipe_cases q0) as [(q2 & E2 & F2 & S2)|(r2 & w2 & f2 & g2 & q2 & E2 & F2 & S2 & L2 & A2 & B2)];
    rewrite (bind_ret _ _ _ _ _ E2); cbn iota beta; (assert (S20 : same p q2) by (unfold same in *; intuition congruence)).
  { rewrite (bind_ret _ _ _ _ _ (clean_fds r0 w1 (-1) w0 r1 (-1) q2 ltac:(repeat (constructor; [lia|]); constructor) ltac:(by rewrite F2))).
    eexists _, _, _, _, _, _, _, _. split; [reflexivity|]. split; [done|]. cbn [pr_fds with_fds]. rewrite F2, F0, F1. close_all. }
  assert (M2 : pr_fds q2 !! (-1) = None) by (rewrite F2, !lookup_insert_ne by lia; done).
  rewrite F0, F1 in A2, B2. rewrite !lookup_insert in A2, B2. repeat (case_decide; [done|]).
  eexists _, _, _, _, _, _, _, _. split; [reflexivity|]. split; [done|]. split; [repeat (constructor; [lia|]); constructor|].
  split; [done|]. rewrite F2, F0, F1. close_all.
Qed.

(** The pipes when they are wanted; [CLEAN] undoes what has been done. *)
Lemma pipes_cases (pipefd : bool) p : pr_fds p !! (-1) = None →
  ∃ ok fdin fdout fderr ends q,
    (if pipefd then r ← make_pipes; mret (r.1.1, r.1.2, Some r.2) else mret (true, (-1, -1, -1), None) :
      M proc (bool * (Z * Z * Z) * option (Z * Z * Z))) p = Ret (ok, (fdin, fdout, fderr), ends) q ∧ same p q ∧
    (if ok : bool then ∀ q', pr_fds q' = pr_fds q → CLEAN fdin fdout fderr ends q' = Ret tt (with_fds (pr_fds p) q')
     else pr_fds q = pr_fds p).
Proof.
  intros Hn. destruct pipefd.
  - destruct (make_pipes_cases p Hn) as (ok & fdin & fdout & fderr & p0 & p1 & p2 & q & E & Hs & H).
    exists ok, fdin, fdout, fderr, (Some (p0, p1, p2)), q. rewrite (bind_ret _ _ _ _ _ E). split; [done|]. split; [done|].
    destruct ok; [|done]. destruct H as (Hpos & Hm & Hd). intros q' Hq'.
    rewrite clean_fds, Hq', Hd; [done| |by rewrite Hq'].
    eapply Forall_impl; [exact Hpos|]. intros x Hx. by right.
  - exists true, (-1), (-1), (-1), None, p. split; [done|]. split; [done|]. intros q' Hq'.
    unfold CLEAN. cbn. rewrite <- Hq'. by destruct q'.
Qed.

Lemma close_fd_returns fd p : ∃ q, close_fd fd p = Ret tt q.
Proof. unfold close_fd. destruct (fd =? -1); by eexists. Qed.

(** The change of the directory; it fails without an effect. *)
Lemma enter_cases cwd p : ∃ r q,
  (match cwd with
   | None => mret (Some None)
   | Some dir =>
       old ← d_getcwd;
       match old with
       | None => mret None
       | Some old => ok ← d_chdir dir; mret (if ok : bool then Some (Some old) else None)
       end
   end : M proc (option (option (list Z)))) p = Ret r q ∧ pr_fds q = pr_fds p ∧ pr_fork q = pr_fork p ∧
  (r = None → pr_cwd q = pr_cwd p).
Proof.
  destruct cwd as [dir|]; [|by exists (Some None), p]. unfold mbind, M_bind. cbn [d_getcwd d_chdir proc_dev].
  destruct (fallible_cases None (fun p => Ret (Some (pr_cwd p)) p) p) as [[l ->]|[l ->]]; [by eexists _, _|].
  destruct (fallible_cases false (fun p => Ret true (with_cwd dir p)) (with_fails l p)) as [[l' ->]|[l' ->]]; by eexists _, _.
Qed.

(** A call that fails before there is a second process has changed nothing: the
    descriptors and the working directory of the caller are as before, whichever
    call of the system has failed. *)
Theorem daemonize_fails fuel cwd exec args env pipefd newsession p ends p' :
  pr_fds p !! (-1) = None → 0 < pr_fork p →
  daemonize fuel cwd exec args env pipefd newsession None p = Ret (Returned (-1), ends) p' →
  pr_fds p' = pr_fds p ∧ pr_cwd p' = pr_cwd p.
Proof.
  intros Hn Hfork. unfold daemonize.
  destruct (pipes_cases pipefd p Hn) as (ok & fdin & fdout & fderr & ends0 & q & E & [Hc Hk] & Hok).
  rewrite (bind_ret _ _ _ _ _ E). cbn iota beta. destruct ok; cbn [negb]; [|by intros [= _ <-]].
  destruct (enter_cases cwd q) as (r & q1 & E1 & Hf1 & Hk1 & Hc1). rewrite (bind_ret _ _ _ _ _ E1).
  destruct r as [oldcwd|].
  2:{ rewrite (bind_ret _ _ _ _ _ (Hok q1 Hf1)). intros [= _ <-]. cbn. split; [done|]. by rewrite Hc1. }
  rewrite (bind_ret (mret 0) _ _ 0 q1) by done. cbn [negb Z.eqb].
  rewrite (bind_ret d_fork _ _ (pr_fork q1) q1) by done. destruct (Z.eqb_spec (pr_fork q1) 0); [lia|]. cbn [negb].
  assert (Hb : ∃ q2, (match oldcwd with None => mret tt | Some old => _ ← d_chdir old; mret tt end : M proc unit) q1 = Ret tt q2).
  { destruct oldcwd as [old|]; [|by eexists]. unfold mbind, M_bind. cbn [d_chdir proc_dev].
    destruct (fallible_cases false (fun p => Ret true (with_cwd old p)) q1) as [[l ->]|[l ->]]; by eexists. }
  destruct Hb as [q2 E2]. rewrite (bind_ret _ _ _ _ _ E2).
  destruct (close_fd_returns fdin q2) as [q3 E3]. rewrite (bind_ret _ _ _ _ _ E3).
  destruct (close_fd_returns fdout q3) as [q4 E4]. rewrite (bind_ret _ _ _ _ _ E4).
  destruct (close_fd_returns fderr q4) as [q5 E5]. rewrite (bind_ret _ _ _ _ _ E5).
  destruct (Z.ltb_spec (pr_fork q1) 0); [lia|]. intros [= H1 _ _]. lia.
Qed.

(** The program is not started before the caller has called [sync_wakeup]. *)
Theorem daemonize_waits fuel cwd exec args env newsession smfd p :
  pr_fails p = [] → Z.of_nat (size (pr_fds p)) + 6 <= pr_limit p → pr_program p = None →
  Forall (fun x => x = 0) (pr_others p) →
  ∃ new, daemonize fuel cwd (Some exec) args env true newsession (Some smfd) (with_fork 0 p) = Stuck Diverges new ∧
    pr_program new = None.
Proof.
  intros Hf Hr Hp Ho.
  destruct (daemonize_pipes_run fuel cwd (Some exec) args env newsession (Some smfd) (with_fork 0 p) Hf Hr)
    as (r1 & w1 & r0 & w0 & r2 & w2 & _ & Hfr & _ & Hnew). cbn [pr_fork with_fork Z.eqb] in Hnew. rewrite Hnew.
  set (q := mk_proc _ _ _ _ _ _ _ _ _ _). cbn [pr_fds with_fork] in Hfr.
  pose proof (new_process_pipes fuel exec args env newsession (Some smfd) q _ _ _ _ _ _ _ _ Hfr eq_refl) as Hnp.
  set (q1 := with_fds _ (after_session newsession q)) in Hnp.
  destruct (sync_wait_asleep fuel q1) as (new & Hw & Hprog); [by destruct newsession|by destruct newsession|].
  exists new. assert (Hl : last_part fuel exec args env (Some smfd) q1 = Stuck Diverges new).
  { unfold last_part. rewrite (bind_stuck _ _ _ _ _ (bind_stuck _ _ _ _ _ Hw)). done. }
  rewrite Hl in Hnp. rewrite (bind_stuck _ _ _ _ _ Hnp). split; [done|]. rewrite Hprog. unfold q1. by destruct newsession.
Qed.

(** Opening /dev/null and making it a standard descriptor. *)
Lemma open_null_eq write (m : gmap Z file) p : pr_fails p = [] → Z.of_nat (size m) < pr_limit p →
  d_open_null write (with_fds m p) = Ret (lowest m) (with_fds (<[lowest m := DevNull write]> m) p) ∧
  0 <= lowest m < pr_limit p ∧ m !! lowest m = None ∧
  Z.of_nat (size (<[lowest m := DevNull write]> m)) = Z.of_nat (size m) + 1.
Proof.
  intros Hf Hl. pose proof (lowest_size m). destruct (lowest_spec m) as (H0 & Hn & _).
  cbn [d_open_null proc_dev]. unfold fallible. cbn [pr_fails with_fds]. rewrite Hf. cbn [pr_fds pr_limit with_fds].
  destruct (Z.leb_spec (pr_limit p) (lowest m)); [lia|]. split; [done|]. split; [lia|]. split; [done|].
  rewrite map_size_insert_None by done. lia.
Qed.

Lemma dup2_eq fd fd2 f (m : gmap Z file) p : m !! fd = Some f → d_dup2 fd fd2 (with_fds m p) = Ret tt (with_fds (<[fd2 := f]> m) p).
Proof. intros E. cbn [d_dup2 proc_dev pr_fds with_fds]. by rewrite E. Qed.

Lemma size_insert_le (m : gmap Z file) i f : Z.of_nat (size (<[i := f]> m)) <= Z.of_nat (size m) + 1.
Proof. destruct (m !! i) eqn:E; [rewrite map_size_insert_Some by done|rewrite map_size_insert_None by done]; lia. Qed.

(** The new process without pipes, from a table [m0]. *)
Lemma new_process_null fuel exec args env newsession m0 p :
  pr_fails p = [] → Z.of_nat (size m0) + 6 <= pr_limit p → (∀ i, is_Some (m0 !! i) → 0 <= i < pr_limit p) →
  ∃ m, new_process fuel (Some exec) args env newsession (-1) (-1) (-1) None (with_fds m0 p) =
      last_part fuel exec args env None (with_fds m (after_session newsession p)) ∧
    m !! 0 = Some (DevNull false) ∧ m !! 1 = Some (DevNull true) ∧ m !! 2 = Some (DevNull true) ∧
    (∀ i, is_Some (m !! i) → 0 <= i < pr_limit p).
Proof.
  intros Hf Hr Hok. set (p1 := after_session newsession p).
  assert (Hl1 : pr_fails p1 = []) by (by destruct newsession).
  assert (Hlim : pr_limit p1 = pr_limit p) by (by destruct newsession).
  destruct (open_null_eq false m0 p1 Hl1 ltac:(lia)) as (O0 & B0 & _ & S0).
  set (fd0 := lowest m0) in *. set (m1 := <[0 := DevNull false]> (<[fd0 := DevNull false]> m0)).
  pose proof (size_insert_le (<[fd0 := DevNull false]> m0) 0 (DevNull false)) as S1. fold m1 in S1.
  destruct (open_null_eq true m1 p1 Hl1 ltac:(lia)) as (O1 & B1 & N1 & S2). set (fd1 := lowest m1) in *.
  set (m2 := <[2 := DevNull true]> (<[1 := DevNull true]> (<[fd1 := DevNull true]> m1))).
  pose proof (size_insert_le (<[fd1 := DevNull true]> m1) 1 (DevNull true)) as S3.
  pose proof (size_insert_le (<[1 := DevNull true]> (<[fd1 := DevNull true]> m1)) 2 (DevNull true)) as S4. fold m2 in S4.
  destruct (open_null_eq true m2 p1 Hl1 ltac:(lia)) as (O2 & B2 & N2 & _). set (fd2 := lowest m2) in *.
  assert (Z1 : fd1 ≠ 0) by (intros E; rewrite E in N1; unfold m1 in N1; by rewrite lookup_insert_eq in N1).
  assert (Z2 : fd2 ≠ 0 ∧ fd2 ≠ 1 ∧ fd2 ≠ 2).
  { split_and!; intros E; rewrite E in N2; unfold m2, m1 in N2; by simplify_map_eq by lia. }
  exists (<[2 := DevNull true]> (<[fd2 := DevNull true]> m2)). split_and!.
  - unfold new_process. rewrite (bind_ret _ _ _ tt (with_fds m0 p1)) by (by destruct newsession).
    change ((-1) =? -1) with true. cbn iota.
    rewrite (bind_ret _ _ _ _ _ O0). destruct (Z.eqb_spec fd0 (-1)); [lia|].
    rewrite (bind_ret _ _ _ _ _ (dup2_eq fd0 0 (DevNull false) _ p1 (lookup_insert_eq _ _ _))). fold m1.
    rewrite (bind_ret _ _ _ _ _ O1). destruct (Z.eqb_spec fd1 (-1)); [lia|]. rewrite bind_assoc.
    rewrite (bind_ret _ _ _ _ _ (dup2_eq fd1 1 (DevNull true) _ p1 (lookup_insert_eq _ _ _))).
    assert (L1 : <[1 := DevNull true]> (<[fd1 := DevNull true]> m1) !! fd1 = Some (DevNull true)).
    { destruct (decide (fd1 = 1)) as [->|]; by simplify_map_eq by lia. }
    rewrite (bind_ret _ _ _ _ _ (dup2_eq fd1 2 _ _ p1 L1)). fold m2.
    rewrite (bind_ret _ _ _ _ _ O2). destruct (Z.eqb_spec fd2 (-1)); [lia|].
    by rewrite (bind_ret _ _ _ _ _ (dup2_eq fd2 2 (DevNull true) _ p1 (lookup_insert_eq _ _ _))).
  - unfold m2, m1. by simplify_map_eq by lia.
  - unfold m2, m1. by simplify_map_eq by lia.
  - by simplify_map_eq.
  - intros i. unfold m2, m1. repeat (rewrite lookup_insert; case_decide; [lia|]). apply Hok.
Qed.

(** Without pipes the new process has /dev/null as its standard descriptors and no
    other, and the caller keeps what it has. *)
Theorem daemonize_null fuel cwd exec args env newsession p child :
  fds_ok p → pr_fails p = [] → Z.of_nat (size (pr_fds p)) + 6 <= pr_limit p → 0 < child →
  (∃ caller, daemonize fuel cwd (Some exec) args env false newsession None (with_fork child p) =
      Ret (Returned child, None) caller ∧ pr_fds caller = pr_fds p ∧ pr_cwd caller = pr_cwd p) ∧
  (∃ new, daemonize fuel cwd (Some exec) args env false newsession None (with_fork 0 p) = Ret (Executed, None) new ∧
    pr_fds new = standard (DevNull false) (DevNull true) (DevNull true) ∧ pr_cwd new = default (pr_cwd p) cwd ∧
    pr_program new = Some (exec, match args with None | Some [] => [exec] | Some args => args end, env)).
Proof.
  intros Hok Hf Hr Hchild. set (old := match cwd with None => None | Some _ => Some (pr_cwd p) end).
  set (q k := mk_proc (pr_fds p) (pr_limit p) (default (pr_cwd p) cwd) (pr_pipes p) [] k
    (pr_shared p) (pr_others p) (pr_session p) (pr_program p)).
  assert (Hstart : ∀ k, daemonize fuel cwd (Some exec) args env false newsession None (with_fork k p) =
    (if k =? 0 then r ← new_process fuel (Some exec) args env newsession (-1) (-1) (-1) None; mret (r, None)
     else (match old with None => mret tt | Some old => _ ← d_chdir old; mret tt end) ;;
       mret (Returned (if k <? 0 then -1 else k), None)) (q k)).
  { intros k. unfold daemonize. rewrite (bind_ret (mret _) _ _ _ _ eq_refl). cbn iota beta. cbn [negb].
    rewrite (bind_ret _ _ _ (Some old) (q k)).
    { cbn iota beta. rewrite (bind_ret (mret 0) _ _ 0 _ eq_refl). cbn [negb Z.eqb].
      rewrite (bind_ret d_fork _ _ k (q k)) by done. by destruct (k =? 0). }
    unfold old, mbind, M_bind, q, with_fork, fallible, mret, M_ret. destruct cwd as [dir|]; cbn; rewrite ?Hf; cbn; by rewrite ?Hf. }
  split.
  - rewrite Hstart. destruct (Z.eqb_spec child 0); [lia|]. destruct (Z.ltb_spec child 0); [lia|].
    exists (with_cwd (pr_cwd p) (q child)). unfold old. by destruct cwd.
  - destruct (new_process_null fuel exec args env newsession (pr_fds p) (q 0) eq_refl Hr Hok) as (m & Hnp & M0 & M1 & M2 & Hm).
    destruct (last_part_ok fuel exec args env None (with_fds m (after_session newsession (q 0)))
      (DevNull false) (DevNull true) (DevNull true)) as (new & Hrun & Hfds & Hcwd & _ & Hprog); try done.
    { intros i. destruct newsession; apply Hm. }
    { destruct newsession; cbn; lia. }
    { by destruct newsession. }
    exists new. rewrite Hstart. cbn [Z.eqb]. rewrite (bind_ret _ _ _ Executed new) by (by rewrite <- Hrun, <- Hnp).
    split; [done|]. split; [done|]. split; [|done]. rewrite Hcwd. by destruct newsession.
Qed.
End Theorems.

(** ** Evaluation *)

Section Examples.

(** A process whose standard input is closed; the caller wakes the new process
    before its third look. *)
Definition ex_proc (fails : list bool) : proc :=
  mk_proc (<[1 := OtherFile 1]> (<[2 := OtherFile 2]> (<[4 := OtherFile 7]> ∅))) 64 [47] 10 fails 0 None [0; 0; 1] false None.

Lemma ex_proc_ok fails : fds_ok (ex_proc fails).
Proof.
  intros i. cbn. rewrite !lookup_insert. repeat case_decide; try lia. rewrite lookup_empty. by intros [].
Qed.

Lemma daemonize_pipes_witness : ∃ p0 p1 p2 new,
  daemonize 5 (Some [47; 97]) (Some [108; 115]) None None true true (Some 3) (with_fork 0 (ex_proc [])) =
    Ret (Executed, Some (p0, p1, p2)) new ∧ NoDup [p0; p1; p2] ∧
  pr_fds new = standard (PipeR 11) (PipeW 10) (PipeW 12) ∧ pr_cwd new = [47; 97].
Proof.
  assert (Hsize : Z.of_nat (size (pr_fds (ex_proc []))) + 6 <= pr_limit (ex_proc [])) by (vm_compute; discriminate).
  assert (Hchild : 0 < 77) by lia.
  assert (Hw : woken 5 (Some 3) (pr_others (ex_proc []))).
  { exists 2%nat, 1, []. split; [reflexivity|]. split; [discriminate|lia]. }
  destruct (daemonize_pipes 5 (Some [47; 97]) [108; 115] None None true (Some 3) (ex_proc []) 77 (ex_proc_ok []) eq_refl Hsize
    Hchild Hw) as (p0 & p1 & p2 & caller & new & _ & _ & Hnd & _ & _ & _ & _ & Hnew & Hfds & Hcwd & _).
  exists p0, p1, p2, new. split; [exact Hnew|]. split; [exact Hnd|]. split; [exact Hfds|exact Hcwd].
Defined.

Lemma daemonize_null_witness : ∃ new,
  daemonize 5 None (Some [108; 115]) None None false true None (with_fork 0 (ex_proc [])) = Ret (Executed, None) new ∧
  pr_fds new = standard (DevNull false) (DevNull true) (DevNull true).
Proof.
  assert (Hsize : Z.of_nat (size (pr_fds (ex_proc []))) + 6 <= pr_limit (ex_proc [])) by (vm_compute; discriminate).
  assert (Hchild : 0 < 77) by lia.
  destruct (daemonize_null 5 None [108; 115] None None true (ex_proc []) 77 (ex_proc_ok []) eq_refl Hsize Hchild)
    as [_ (new & Hnew & Hfds & _)].
  exists new. split; [exact Hnew|exact Hfds].
Defined.

Lemma daemonize_waits_witness : ∃ new,
  daemonize 9 None (Some [108; 115]) None None true true (Some 3)
    (with_fork 0 (with_shared None [] (ex_proc []))) = Stuck Diverges new ∧ pr_program new = None.
Proof.
  assert (Hsize : Z.of_nat (size (pr_fds (with_shared None [] (ex_proc [])))) + 6 <= pr_limit (ex_proc [])) by (vm_compute; discriminate).
  exact (daemonize_waits 9 None [108; 115] None None true 3 (with_shared None [] (ex_proc [])) eq_refl Hsize eq_refl (Forall_nil_2 _)).
Defined.

(** The third pipe cannot be made. *)
Lemma daemonize_fails_witness : ∃ ends p',
  daemonize 5 None (Some [108; 115]) None None true true None (with_fork 77 (ex_proc [false; false; true])) =
    Ret (Returned (-1), ends) p' ∧ pr_fds p' = pr_fds (ex_proc []) ∧ pr_cwd p' = [47].
Proof.
  eexists _, _. split; [vm_compute; reflexivity|].
  refine (daemonize_fails 5 None (Some [108; 115]) None None true true (with_fork 77 (ex_proc [false; false; true])) _ _ eq_refl
    _ _); [reflexivity|]. vm_compute. reflexivity.
Defined.

(** When [fork] fails, the ends of the caller stay open, ... *)
Example fork_fails : match daemonize 5 None (Some [108; 115]) None None true true None (with_fork (-1) (ex_proc [])) with
  | Ret (Returned r, Some (p0, _, _)) p' => r = -1 ∧ pr_fds p' !! p0 = Some (PipeW 11)
  | _ => False end.
Proof. vm_compute. done. Qed.

(** ... and when the shared memory cannot be had, the caller is left in the other
    directory and a descriptor is closed whose number nobody has set. *)
Example sync_open_fails :
  match daemonize 5 (Some [47; 97]) (Some [108; 115]) None None false true (Some 4)
    (with_fork 77 (ex_proc [false; false; true])) with
  | Ret (Returned r, _) p' => r = -1 ∧ pr_cwd p' = [47; 97] ∧ pr_fds (ex_proc []) !! 4 = Some (OtherFile 7) ∧ pr_fds p' !! 4 = None
  | _ => False end.
Proof. vm_compute. done. Qed.
End Examples.
