(* ===== verification/Session.v ===== *)
(** * The session service of axiom-init (axiom_session.c)

    The sessions are the bits of one unsigned word, set when free.  The
    specification is the finite set of the sessions in use; the interface that
    the spawn service relies on is the class [SessionService] with its laws. *)

From stdpp Require Import gmap.
From S2P Require Import Prelude.

(** Constants of the driver headers. *)
Class SessionConsts := {
  AXIOM_SESSION_EMPTY : Z;
  AXIOM_CMD_SESSION_REQ : Z;
  AXIOM_CMD_SESSION_REPLY : Z
}.

(** The mark of no session is a byte that is not a session number. *)
Class SessionConstsOk `{SessionConsts} := {
  session_empty_range : 32 < AXIOM_SESSION_EMPTY < 256
}.

(** ** The code *)

Section Code.
Context `{C : SessionConsts}.

(** [__builtin_ctz] of a non-zero word. *)
Definition ctz (x : Z) : Z := default 0 (List.find (Z.testbit x) (seqZ 0 32)).

(** The initial value of [sessions]. *)
Definition sessions0 : Z := 2 ^ 32 - 1.

(** [next]: the session and the new value of [sessions]. *)
Definition next (sessions : Z) : Z * Z :=
  if sessions =? 0 then (AXIOM_SESSION_EMPTY, sessions)
  else let ses := u8 (ctz sessions) in
       (ses, u32 (Z.land sessions (Z.lnot (bit ses)))).

(** [None]: the assertion fails. *)
Definition release (sessions ses : Z) : option Z :=
  if (0 <=? ses) && (ses <? 32) then Some (u32 (Z.lor sessions (bit ses))) else None.

(** [None]: a shift by the width of the word, which C leaves undefined; the
    test of the code lets the value 32 pass. *)
Definition used (sessions ses : Z) : option bool :=
  if 32 <? ses then Some false
  else if ses =? 32 then None
  else Some (Z.land sessions (bit ses) =? 0).

Definition axiom_session_release : Z → Z → option Z := release.
Definition axiom_session_is_used : Z → Z → option bool := used.

(** The fields of a request; the reply goes to [reply_port] of the source. *)
Record session_req := mk_session_req { sr_command : Z; sr_port : Z; sr_session : Z }.
Record session_reply := mk_session_reply { rp_dst : Z; rp_port : Z; rp_command : Z; rp_session : Z }.

(** One message: the new [sessions] and the reply sent, if any. *)
Definition axiom_session (sessions src : Z) (payload : session_req)
    : option (Z * option session_reply) :=
  if negb (sr_command payload =? AXIOM_CMD_SESSION_REQ) then Some (sessions, None) else
  let port := sr_port payload in
  if negb (sr_session payload =? AXIOM_SESSION_EMPTY) then
    u ← used sessions (sr_session payload);
    if (u : bool) then
      sessions ← release sessions (sr_session payload);
      Some (sessions, None)
    else Some (sessions, None)
  else
    let '(ses, sessions) := next sessions in
    Some (sessions, Some (mk_session_reply src port AXIOM_CMD_SESSION_REPLY ses)).
End Code.

(** ** The interface for the spawn service *)

Class SessionService (St : Type) := {
  session_is_used : St → Z → option bool;
  session_release : St → Z → option St
}.

(** What a client may rely on: the sessions in use form a set of numbers below
    32, which the two operations test and shrink.  The number 32 must not be asked
    for: the test shifts by the width of the word. *)
Class SessionLaws (St : Type) `{SessionService St} := {
  session_ok : St → Prop;
  in_use : St → gset Z;
  in_use_range st x : session_ok st → x ∈ in_use st → 0 <= x < 32;
  session_is_used_spec st x : session_ok st → 0 <= x → x ≠ 32 →
    session_is_used st x = Some (bool_decide (x ∈ in_use st));
  session_is_used_32 st : session_is_used st 32 = None;
  session_release_spec st x : session_ok st → 0 <= x < 32 →
    ∃ st', session_release st x = Some st' ∧ session_ok st' ∧ in_use st' = in_use st ∖ {[x]}
}.

#[export] Instance session_word : SessionService Z := {|
  session_is_used := axiom_session_is_used;
  session_release := axiom_session_release
|}.

(** ** The abstraction *)

Definition word_ok (w : Z) : Prop := 0 <= w < 2 ^ 32.
Definition word_used (w : Z) : gset Z :=
  list_to_set (List.filter (fun i => negb (Z.testbit w i)) (seqZ 0 32)).

Lemma elem_word_used w x : x ∈ word_used w ↔ 0 <= x < 32 ∧ Z.testbit w x = false.
Proof.
  unfold word_used. rewrite elem_of_list_to_set, list_elem_of_In, filter_In, <- list_elem_of_In, elem_of_seqZ.
  rewrite negb_true_iff. intuition lia.
Qed.

Lemma testbit_high w x : word_ok w → 32 <= x → Z.testbit w x = false.
Proof.
  intros Hw Hx. destruct (Z.eq_dec w 0) as [->|Hz]; [apply Z.testbit_0_l|].
  apply Z.bits_above_log2; [unfold word_ok in Hw; lia|].
  apply Z.log2_lt_pow2; [unfold word_ok in Hw; lia|].
  apply Z.lt_le_trans with (2 ^ 32); [unfold word_ok in Hw; lia|]. apply Z.pow_le_mono_r; lia.
Qed.

Lemma word_ok_u32 x : word_ok (u32 x).
Proof. unfold word_ok, u32. apply Z.mod_pos_bound. lia. Qed.

Lemma testbit_u32 x i : 0 <= i < 32 → Z.testbit (u32 x) i = Z.testbit x i.
Proof. intros. unfold u32. apply Z.mod_pow2_bits_low. lia. Qed.

(** The C test [(w & (1 << i)) == 0]. *)
Lemma land_bit_zero w i : 0 <= i → (Z.land w (bit i) =? 0) = negb (Z.testbit w i).
Proof.
  intros Hi. destruct (Z.testbit w i) eqn:E; cbn.
  - apply Z.eqb_neq. intros H. assert (Ht : Z.testbit (Z.land w (bit i)) i = false)
      by (by rewrite H, Z.testbit_0_l).
    by rewrite Z.land_spec, E, testbit_bit, bool_decide_true in Ht by lia.
  - apply Z.eqb_eq. apply Z.bits_inj_iff'. intros j Hj.
    rewrite Z.land_spec, Z.testbit_0_l, testbit_bit by lia.
    case_bool_decide; [subst; by rewrite E|]. apply andb_false_r.
Qed.

Lemma used_spec w x : 0 <= x → x ≠ 32 → used w x = Some (bool_decide (x ∈ word_used w)).
Proof.
  intros Hx Hne. unfold used. destruct (Z.ltb_spec 32 x).
  - rewrite bool_decide_false; [done|]. rewrite elem_word_used. lia.
  - destruct (Z.eqb_spec x 32); [done|]. rewrite land_bit_zero by lia. f_equal.
    destruct (Z.testbit w x) eqn:E; symmetry; cbn.
    + apply bool_decide_eq_false. rewrite elem_word_used, E. by intros [].
    + apply bool_decide_eq_true. rewrite elem_word_used. split; [lia|done].
Qed.

Lemma release_spec w x : word_ok w → 0 <= x < 32 →
  ∃ w', release w x = Some w' ∧ word_ok w' ∧ word_used w' = word_used w ∖ {[x]}.
Proof.
  intros Hw Hx. unfold release.
  destruct (Z.leb_spec 0 x), (Z.ltb_spec x 32); try lia. cbn [andb].
  eexists. split; [done|]. split; [apply word_ok_u32|]. apply set_eq. intros y.
  rewrite elem_of_difference, elem_of_singleton, !elem_word_used. split.
  - intros [Hy Ht]. rewrite testbit_u32, Z.lor_spec, testbit_bit in Ht by lia.
    apply orb_false_iff in Ht as [? Hb]. apply bool_decide_eq_false in Hb. naive_solver.
  - intros [[Hy Ht] Hne]. split; [done|]. rewrite testbit_u32, Z.lor_spec, testbit_bit, Ht by lia.
    by rewrite bool_decide_false.
Qed.

#[export] Instance session_word_laws : SessionLaws Z := {|
  session_ok := word_ok;
  in_use := word_used;
  in_use_range w x _ H := proj1 (proj1 (elem_word_used w x) H);
  session_is_used_spec w x _ H0 H1 := used_spec w x H0 H1;
  session_is_used_32 w := eq_refl;
  session_release_spec := release_spec
|}.

(** ** The service refines a set of sessions *)

Section Refinement.
Context `{C : SessionConsts} {COK : SessionConstsOk}.

Inductive session_op := Acquire | Release (x : Z) | Ignored.

#[export] Instance session_op_eq_dec : EqDecision session_op.
Proof. solve_decision. Defined.

Definition op_of (payload : session_req) : session_op :=
  if negb (sr_command payload =? AXIOM_CMD_SESSION_REQ) then Ignored
  else if sr_session payload =? AXIOM_SESSION_EMPTY then Acquire
  else Release (sr_session payload).

(** The specification: the set after the operation and the session granted. *)
Definition spec_step (S : gset Z) (o : session_op) : gset Z * option Z :=
  match o with
  | Ignored => (S, None)
  | Release x => (S ∖ {[x]}, None)
  | Acquire =>
      match List.find (fun i => negb (bool_decide (i ∈ S))) (seqZ 0 32) with
      | Some i => ({[i]} ∪ S, Some i)
      | None => (S, Some AXIOM_SESSION_EMPTY)
      end
  end.

(** The cases of a step of the specification. *)
Lemma spec_step_cases S o S' r : spec_step S o = (S', r) →
  match o with
  | Ignored => S' = S ∧ r = None
  | Release x => S' = S ∖ {[x]} ∧ r = None
  | Acquire => (∃ i, (i ∉ S) ∧ S' = {[i]} ∪ S ∧ r = Some i) ∨ (S' = S ∧ r = Some AXIOM_SESSION_EMPTY)
  end.
Proof.
  unfold spec_step. destruct o; [|naive_solver..].
  destruct (List.find _ _) as [i|] eqn:E; [|naive_solver].
  apply find_some in E as [_ E]. apply negb_true_iff, bool_decide_eq_false in E. naive_solver.
Qed.

Lemma find_ext {A} (f g : A → bool) l : (∀ x, x ∈ l → f x = g x) → List.find f l = List.find g l.
Proof.
  induction l as [|x l IH]; intros H; [done|]. cbn. rewrite (H x) by set_solver.
  destruct (g x); [done|]. apply IH. set_solver.
Qed.

Lemma find_free w :
  List.find (fun i => negb (bool_decide (i ∈ word_used w))) (seqZ 0 32) =
  List.find (Z.testbit w) (seqZ 0 32).
Proof.
  apply find_ext. intros i Hi. apply elem_of_seqZ in Hi. destruct (Z.testbit w i) eqn:E.
  - rewrite bool_decide_false; [done|]. rewrite elem_word_used, E. by intros [].
  - rewrite bool_decide_true; [done|]. rewrite elem_word_used. split; [lia|done].
Qed.

(** Clearing the bit of a session puts it in use. *)
Lemma word_used_clear w i : 0 <= i < 32 →
  word_used (u32 (Z.land w (Z.lnot (bit i)))) = {[i]} ∪ word_used w.
Proof.
  intros Hi. apply set_eq. intros y. rewrite elem_of_union, elem_of_singleton, !elem_word_used. split.
  - intros [Hy Ht]. rewrite testbit_u32, Z.land_spec, Z.lnot_spec, testbit_bit in Ht by lia.
    destruct (decide (i = y)); [by left|right]. rewrite bool_decide_false in Ht by done.
    by rewrite andb_true_r in Ht.
  - intros [->|[Hy Ht]]; (split; [lia|]); rewrite testbit_u32, Z.land_spec, Z.lnot_spec, testbit_bit by lia.
    + rewrite bool_decide_true by done. apply andb_false_r.
    + by rewrite Ht.
Qed.

(** [next] grants the lowest free session. *)
Lemma next_spec w : word_ok w →
  let '(ses, w') := next w in
  word_ok w' ∧ spec_step (word_used w) Acquire = (word_used w', Some ses).
Proof.
  intros Hw. unfold next, spec_step. rewrite find_free.
  destruct (Z.eqb_spec w 0) as [->|Hnz].
  - split; [done|]. destruct (List.find _ _) as [i|] eqn:E; [|done].
    apply find_some in E as [_ E]. by rewrite Z.testbit_0_l in E.
  - unfold ctz. destruct (List.find _ _) as [i|] eqn:E.
    + apply find_some in E as [Hin _]. apply list_elem_of_In, elem_of_seqZ in Hin.
      change (default 0 (Some i)) with i.
      rewrite u8_small by lia. split; [apply word_ok_u32|]. rewrite word_used_clear by lia. done.
    + exfalso. destruct (nonzero_has_bit w ltac:(unfold word_ok in Hw; lia)) as (i & Hi & Ht).
      destruct (Z.lt_ge_cases i 32); [|by rewrite testbit_high in Ht by done].
      eapply find_none in E; [|apply list_elem_of_In, elem_of_seqZ; split; [apply Hi|lia]]. congruence.
Qed.

(** The requests that the code does not survive. *)
Definition asks_32 (payload : session_req) : bool :=
  (sr_command payload =? AXIOM_CMD_SESSION_REQ) && (sr_session payload =? 32).

Lemma not_asks_32 payload : sr_session payload ≠ 32 → asks_32 payload = false.
Proof. intros H. unfold asks_32. rewrite (proj2 (Z.eqb_neq _ 32) H). apply andb_false_r. Qed.

Lemma session_asked_32 w src payload : asks_32 payload = true → axiom_session w src payload = None.
Proof using COK.
  unfold asks_32, axiom_session. rewrite andb_true_iff. intros [-> E%Z.eqb_eq]. rewrite E. pose proof session_empty_range. cbn [negb].
  by rewrite (proj2 (Z.eqb_neq 32 _)) by lia.
Qed.

(** One message refines one step of the specification. *)
Lemma session_step w src payload : word_ok w → 0 <= sr_session payload → asks_32 payload = false →
  ∃ w' r, axiom_session w src payload = Some (w', r) ∧ word_ok w' ∧
    spec_step (word_used w) (op_of payload) = (word_used w', rp_session <$> r) ∧
    (∀ y, r = Some y → rp_dst y = src ∧ rp_port y = sr_port payload ∧ rp_command y = AXIOM_CMD_SESSION_REPLY).
Proof.
  intros Hw H0 H32. unfold asks_32 in H32. unfold axiom_session, op_of.
  destruct (sr_command payload =? AXIOM_CMD_SESSION_REQ); cbn [negb andb] in *.
  2:{ exists w, None. split_and!; done. }
  destruct (sr_session payload =? AXIOM_SESSION_EMPTY); cbn [negb].
  - pose proof (next_spec w Hw) as Hn. destruct (next w) as [ses w']. destruct Hn as [Hw' Hs].
    eexists w', (Some _). split_and!; [done|done|exact Hs|]. by intros y [= <-].
  - apply Z.eqb_neq in H32. rewrite used_spec by done. cbn. case_bool_decide as Hin.
    + pose proof (proj1 (proj1 (elem_word_used _ _) Hin)) as Hr.
      destruct (release_spec w (sr_session payload) Hw Hr) as (w' & -> & Hw' & Hu). cbn.
      exists w', None. rewrite Hu. split_and!; done.
    + exists w, None. split_and!; try done. cbn. f_equal. apply set_eq. intros y.
      rewrite elem_of_difference, elem_of_singleton. split; [by intros []|]. intros Hy.
      split; [done|]. by intros ->.
Qed.

(** ** Sequences of messages *)

(** The service over a sequence of messages: the sessions granted. *)
Fixpoint session_run (w : Z) (msgs : list (Z * session_req)) : option (Z * list (option session_reply)) :=
  match msgs with
  | [] => Some (w, [])
  | (src, payload) :: msgs =>
      '(w, r) ← axiom_session w src payload;
      '(w, rs) ← session_run w msgs;
      Some (w, r :: rs)
  end.

Fixpoint spec_run (S : gset Z) (ops : list session_op) : gset Z * list (option Z) :=
  match ops with
  | [] => (S, [])
  | o :: ops => let '(S1, r) := spec_step S o in let '(S2, rs) := spec_run S1 ops in (S2, r :: rs)
  end.

Definition req_ok (m : Z * session_req) : Prop := 0 <= sr_session m.2 ∧ sr_session m.2 ≠ 32.

(** C15. The session service refines the set of sessions in use.  On every sequence of
    messages without a request for the number 32 it grants and releases exactly the
    sessions that the specification does, without ever failing an assertion, and
    keeps the word an image of the set; a request for the number 32, which any client
    can send, makes it shift by the width of the word, which C leaves undefined. *)
Theorem session_refines w msgs : word_ok w → Forall (fun m : Z * session_req => 0 <= sr_session m.2) msgs →
  if existsb (fun m : Z * session_req => asks_32 m.2) msgs then session_run w msgs = None else
  ∃ w' rs, session_run w msgs = Some (w', rs) ∧ word_ok w' ∧
    spec_run (word_used w) ((fun m : Z * session_req => op_of m.2) <$> msgs) =
      (word_used w', (fun r : option session_reply => rp_session <$> r) <$> rs).
Proof using COK.
  intros Hw H. induction H as [|[src p] msgs H0 _ IH] in w, Hw |- *; cbn [session_run existsb snd].
  { exists w, []. done. }
  destruct (asks_32 p) eqn:E; cbn [orb]; [by rewrite session_asked_32|].
  destruct (session_step w src p Hw H0 E) as (w1 & r & -> & Hw1 & Hs & _). cbn [mbind option_bind].
  specialize (IH w1 Hw1). destruct (existsb _ msgs); [by rewrite IH|].
  destruct IH as (w' & rs & -> & Hw' & Hr). cbn. exists w', (r :: rs). rewrite Hs, Hr. done.
Qed.

(** A message leaves a session in use unless it releases it, and does not grant
    it again. *)
Lemma session_keeps w src p w' r x : word_ok w → req_ok (src, p) →
  axiom_session w src p = Some (w', r) → x ∈ word_used w → op_of p ≠ Release x →
  word_ok w' ∧ x ∈ word_used w' ∧ ∀ y, r = Some y → rp_session y ≠ x.
Proof using COK.
  intros Hw [H0 H32] Heq Hx Hop.
  destruct (session_step w src p Hw H0 (not_asks_32 _ H32)) as (w1 & r1 & Heq1 & Hw1 & Hs & _).
  rewrite Heq in Heq1. injection Heq1 as <- <-. split; [done|].
  pose proof session_empty_range. pose proof (proj1 (proj1 (elem_word_used w x) Hx)).
  apply spec_step_cases in Hs. destruct (op_of p) as [|z|].
  - destruct Hs as [(i & Hi & -> & Hr)|[-> Hr]].
    + split; [apply elem_of_union; by right|]. intros y ->. injection Hr as <-. intros E. by rewrite E in Hi.
    + split; [done|]. intros y ->. injection Hr as ->. lia.
  - destruct Hs as [-> Hr]. split; [|by intros y ->].
    apply elem_of_difference. split; [done|]. rewrite elem_of_singleton. by intros ->.
  - destruct Hs as [-> Hr]. split; [done|]. by intros y ->.
Qed.

(** A granted session is in use afterwards. *)
Lemma session_grants w src p w' y : word_ok w → req_ok (src, p) →
  axiom_session w src p = Some (w', Some y) → rp_session y ≠ AXIOM_SESSION_EMPTY →
  word_ok w' ∧ rp_session y ∈ word_used w'.
Proof using COK.
  intros Hw [H0 H32] Heq Hne.
  destruct (session_step w src p Hw H0 (not_asks_32 _ H32)) as (w1 & r1 & Heq1 & Hw1 & Hs & _).
  rewrite Heq in Heq1. injection Heq1 as <- <-. split; [done|].
  apply spec_step_cases in Hs. destruct (op_of p); [|by destruct Hs..].
  destruct Hs as [(i & _ & -> & Hr)|[_ Hr]]; cbn in Hr; [|congruence].
  injection Hr as ->. apply elem_of_union. left. by apply elem_of_singleton.
Qed.

Lemma session_run_app w l1 l2 :
  session_run w (l1 ++ l2) =
  ('(w1, rs1) ← session_run w l1; '(w2, rs2) ← session_run w1 l2; Some (w2, rs1 ++ rs2)).
Proof.
  induction l1 as [|[src p] l1 IH] in w |- *; cbn.
  { by destruct (session_run w l2) as [[? ?]|]. }
  destruct (axiom_session w src p) as [[w1 r]|]; [cbn|done]. rewrite IH.
  destruct (session_run w1 l1) as [[w2 rs]|]; [cbn|done].
  by destruct (session_run w2 l2) as [[? ?]|].
Qed.

Lemma session_run_keeps w l w' rs x : word_ok w → Forall req_ok l →
  session_run w l = Some (w', rs) → x ∈ word_used w → (∀ m, m ∈ l → op_of m.2 ≠ Release x) →
  word_ok w' ∧ x ∈ word_used w'.
Proof using COK.
  intros Hw H. induction H as [|[src p] l Hm _ IH] in w, Hw, rs |- *; cbn; intros Heq Hx Hop.
  { injection Heq as <- _. done. }
  destruct (axiom_session w src p) as [[w1 r]|] eqn:E1; [cbn in Heq|done].
  destruct (session_run w1 l) as [[w2 rs2]|] eqn:E2; [cbn in Heq|done]. injection Heq as <- _.
  destruct (session_keeps w src p w1 r x Hw Hm E1 Hx) as (Hw1 & Hx1 & _).
  { apply (Hop (src, p)). apply list_elem_of_here. }
  eapply IH; [done|done|done|]. intros m Hin. apply Hop. by apply list_elem_of_further.
Qed.

(** C16. No session is granted twice: in every run, between two requests that
    are granted the same session there is a request that releases it. *)
Theorem session_exclusive w m1 m2 msgs w' r1 r2 rs :
  word_ok w → Forall req_ok (m1 :: msgs ++ [m2]) →
  session_run w (m1 :: msgs ++ [m2]) = Some (w', Some r1 :: rs ++ [Some r2]) →
  rp_session r1 = rp_session r2 → rp_session r1 ≠ AXIOM_SESSION_EMPTY →
  ∃ m, m ∈ msgs ∧ op_of m.2 = Release (rp_session r1).
Proof using COK.
  intros Hw Hall Heq Hr Hne. destruct m1 as [src1 p1], m2 as [src2 p2].
  apply Forall_cons in Hall as [H1 Hall]. apply Forall_app in Hall as [Hm H2].
  apply Forall_cons in H2 as [H2 _].
  cbn in Heq. destruct (axiom_session w src1 p1) as [[w1 y1]|] eqn:E1; [cbn in Heq|done].
  rewrite session_run_app in Heq.
  destruct (session_run w1 msgs) as [[w2 rs1]|] eqn:E2; [cbn in Heq|done].
  destruct (axiom_session w2 src2 p2) as [[w3 y2]|] eqn:E3; [cbn in Heq|done].
  injection Heq as Hw3 Hy1 Hrs. apply app_inj_tail in Hrs as [Hrs1 Hy2]. subst w3 y1 y2 rs1.
  destruct (session_grants w src1 p1 w1 r1 Hw H1 E1 Hne) as [Hw1 Hx].
  destruct (decide (Exists (fun m => op_of m.2 = Release (rp_session r1)) msgs)) as [Hex|Hno].
  { by apply Exists_exists in Hex. }
  exfalso. rewrite <- Forall_Exists_neg, Forall_forall in Hno.
  destruct (session_run_keeps w1 msgs w2 rs (rp_session r1) Hw1 Hm E2 Hx Hno) as [Hw2 Hx2].
  destruct (decide (op_of p2 = Release (rp_session r1))) as [Hop|Hop].
  - destruct H2 as [H0 H32]. destruct (session_step w2 src2 p2 Hw2 H0 (not_asks_32 _ H32)) as (w4 & r & E4 & _ & Hs & _).
    rewrite E3 in E4. injection E4 as <- <-. rewrite Hop in Hs. apply spec_step_cases in Hs as [_ Hs]. done.
  - destruct (session_keeps w2 src2 p2 w' (Some r2) _ Hw2 H2 E3 Hx2 Hop) as (_ & _ & Hk).
    by apply (Hk r2).
Qed.
End Refinement.

(** ** Evaluation *)

Section Examples.
#[local] Instance ses_consts : SessionConsts := {|
  AXIOM_SESSION_EMPTY := 255; AXIOM_CMD_SESSION_REQ := 5; AXIOM_CMD_SESSION_REPLY := 6 |}.
#[local] Instance ses_consts_ok : SessionConstsOk.
Proof. split. cbn. lia. Qed.

(** Two clients acquire, the first releases, a third acquires. *)
Definition ses_msgs : list (Z * session_req) :=
  [(2, mk_session_req 5 7 255); (3, mk_session_req 5 7 255);
   (2, mk_session_req 5 7 0); (4, mk_session_req 5 9 255)].

Lemma ses_msgs_ok : Forall req_ok ses_msgs.
Proof. repeat (apply Forall_cons; split; [split; cbn; lia|]). constructor. Qed.

Example ses_run : session_run sessions0 ses_msgs =
  Some (2 ^ 32 - 4, [Some (mk_session_reply 2 7 6 0); Some (mk_session_reply 3 7 6 1); None;
                     Some (mk_session_reply 4 9 6 0)]).
Proof. vm_compute. reflexivity. Qed.

(** A client that sends number 32 makes the daemon shift by the word size. *)
Example ses_undefined : axiom_session sessions0 2 (mk_session_req 5 7 32) = None.
Proof. reflexivity. Qed.

Lemma session_refines_witness :
  ∃ w' rs, session_run sessions0 ses_msgs = Some (w', rs) ∧ word_ok w'.
Proof.
  destruct (session_refines sessions0 ses_msgs) as (w' & rs & Hr & Hw & _).
  - vm_compute. split; [discriminate|reflexivity].
  - eapply Forall_impl; [exact ses_msgs_ok|]. by intros m [? _].
  - exists w', rs. split; [exact Hr|exact Hw].
Defined.

Lemma session_exclusive_witness :
  ∃ m, m ∈ [(3, mk_session_req 5 7 255); (2, mk_session_req 5 7 0)] ∧ op_of m.2 = Release 0.
Proof.
  apply (session_exclusive sessions0 (2, mk_session_req 5 7 255) (4, mk_session_req 5 9 255)
    [(3, mk_session_req 5 7 255); (2, mk_session_req 5 7 0)] (2 ^ 32 - 4)
    (mk_session_reply 2 7 6 0) (mk_session_reply 4 9 6 0) [Some (mk_session_reply 3 7 6 1); None]).
  - vm_compute. split; [discriminate|reflexivity].
  - exact ses_msgs_ok.
  - vm_compute. reflexivity.
  - reflexivity.
  - discriminate.
Defined.
End Examples.
