(* ===== verification/Spawn.v ===== *)
(** * The spawn service of axiom-init (axiom_spawn.c)

    A client describes a program to run by a sequence of messages tagged with a
    session; the daemon collects them in a table of four entries and starts the
    program when the last message carries the EXEC flag.  The specification is a
    finite map from sessions to descriptions. *)

From stdpp Require Import gmap.
From S2P Require Import Prelude CStrings Session.

(** Constants of the driver headers. *)
Class SpawnConsts := {
  AXIOM_CMD_SPAWN_REQ : Z;
  AXIOM_SPAWN_FLAG_RESET : Z;
  AXIOM_SPAWN_FLAG_EXEC : Z;
  AXIOM_SPAWN_MAX_DATA_SIZE : Z
}.

(** The two flags have no bit in common and a message has room for data. *)
Class SpawnConstsOk `{SpawnConsts} := {
  spawn_reset_nonzero : AXIOM_SPAWN_FLAG_RESET ≠ 0;
  spawn_flags_apart : Z.land AXIOM_SPAWN_FLAG_RESET AXIOM_SPAWN_FLAG_EXEC = 0;
  spawn_exec_nonzero : AXIOM_SPAWN_FLAG_EXEC ≠ 0;
  spawn_data_size : 0 < AXIOM_SPAWN_MAX_DATA_SIZE
}.

Inductive spawn_type :=
  | AXIOM_SPAWN_TYPE_EXE | AXIOM_SPAWN_TYPE_CWD | AXIOM_SPAWN_TYPE_ARG | AXIOM_SPAWN_TYPE_ENV
  | SPAWN_TYPE_OTHER (code : Z).

(** A request; [sp_bytes] is the whole data buffer of the message. *)
Record spawn_req := mk_spawn_req {
  sp_command : Z; sp_session : Z; sp_flags : Z; sp_type : spawn_type; sp_bytes : list Z
}.

(** A call of [daemonize]: working directory, executable and the two arrays. *)
Record dcall := mk_dcall { dc_cwd : cstr; dc_exec : cstr; dc_args : list cstr; dc_env : list cstr }.

Record info := mk_info {
  i_session : Z; i_exec : cstr; i_cwd : cstr; i_args : strlist; i_env : strlist
}.
#[export] Instance info_inhabited : Inhabited info :=
  populate (mk_info 0 None None sl_init sl_init).

Definition MAX_CONCURRENT_SPAWNS : Z := 4.

(** ** The code *)

Section Code.
Context `{CS : SessionConsts} `{CP : SpawnConsts} {St : Type} `{SS : SessionService St}.

Definition EMPTY_APPLICATION_ID : Z := AXIOM_SESSION_EMPTY.

Definition axiom_spawn_init : list info :=
  replicate (Z.to_nat MAX_CONCURRENT_SPAWNS) (mk_info EMPTY_APPLICATION_ID None None sl_init sl_init).

(** The search for the entry of the session: final [idx] and [idx_free]. *)
Fixpoint find_slot (tbl : list info) (ses idx idx_free : Z) : Z * Z :=
  match tbl with
  | [] => (idx, idx_free)
  | i :: tbl =>
      let idx_free := if i_session i =? EMPTY_APPLICATION_ID then idx else idx_free in
      if i_session i =? ses then (idx, idx_free) else find_slot tbl ses (idx + 1) idx_free
  end.

(** The entry back to its default values, session kept. *)
Definition reset_info (i : info) : info :=
  mk_info (i_session i) None None (sl_free (i_args i)) (sl_free (i_env i)).

(** The string of a message, copied to new memory. *)
Definition copy_data (bytes : list Z) : list Z :=
  dup (replicate (Z.to_nat (strlen bytes + 1)) 0) bytes.

(** The [switch] on the type of the message; the data is terminated first. *)
Definition store_data (ty : spawn_type) (bytes : list Z) (i : info) : info :=
  let bytes := aset bytes (AXIOM_SPAWN_MAX_DATA_SIZE - 1) 0 in
  match ty with
  | AXIOM_SPAWN_TYPE_EXE =>
      mk_info (i_session i) (Some (copy_data bytes)) (i_cwd i) (i_args i) (i_env i)
  | AXIOM_SPAWN_TYPE_CWD =>
      mk_info (i_session i) (i_exec i) (Some (copy_data bytes)) (i_args i) (i_env i)
  | AXIOM_SPAWN_TYPE_ARG =>
      mk_info (i_session i) (i_exec i) (i_cwd i) (sl_append (i_args i) (Some bytes)) (i_env i)
  | AXIOM_SPAWN_TYPE_ENV =>
      mk_info (i_session i) (i_exec i) (i_cwd i) (i_args i) (sl_append (i_env i) (Some bytes))
  | SPAWN_TYPE_OTHER _ => i
  end.

(** The end of a request: store, and with the EXEC flag start the program and
    release entry and session. *)
Definition finish (tbl : list info) (st : St) (idx flags : Z) (ty : spawn_type) (bytes : list Z)
    : option (list info * St * option dcall) :=
  let i := aget tbl idx in
  let i := if Z.land flags AXIOM_SPAWN_FLAG_RESET =? 0 then i else reset_info i in
  let i := store_data ty bytes i in
  if Z.land flags AXIOM_SPAWN_FLAG_EXEC =? 0 then Some (aset tbl idx i, st, None) else
  let args := sl_append (i_args i) None in
  let env := sl_append (i_env i) None in
  let call := mk_dcall (i_cwd i) (i_exec i) (sl_get args) (sl_get env) in
  st ← session_release st (i_session i);
  Some (aset tbl idx (mk_info EMPTY_APPLICATION_ID None None (sl_free args) (sl_free env)), st, Some call).

(** One request: the new table and sessions and the program started, if any.
    [None]: undefined behaviour or a failed assertion of the session service. *)
Definition axiom_spawn_req (tbl : list info) (st : St) (payload : spawn_req)
    : option (list info * St * option dcall) :=
  if negb (sp_command payload =? AXIOM_CMD_SPAWN_REQ) then Some (tbl, st, None) else
  u ← session_is_used st (sp_session payload);
  if negb u then Some (tbl, st, None) else
  let '(idx, idx_free) := find_slot tbl (sp_session payload) 0 (-1) in
  if MAX_CONCURRENT_SPAWNS <=? idx then
    if idx_free =? -1 then Some (tbl, st, None) else
    let i := aget tbl idx_free in
    let tbl := aset tbl idx_free
      (mk_info (sp_session payload) (i_exec i) (i_cwd i) (i_args i) (i_env i)) in
    finish tbl st idx_free (Z.lor (sp_flags payload) AXIOM_SPAWN_FLAG_RESET)
      (sp_type payload) (sp_bytes payload)
  else finish tbl st idx (sp_flags payload) (sp_type payload) (sp_bytes payload).
End Code.

(** ** The search for an entry *)

Section Slots.
Context `{CS : SessionConsts}.

Definition busy (i : info) : bool := negb (i_session i =? EMPTY_APPLICATION_ID).
Definition sessions_of (tbl : list info) : list Z := i_session <$> List.filter busy tbl.

Lemma find_slot_found tbl1 i tbl2 k f : i_session i ≠ EMPTY_APPLICATION_ID →
  i_session i ∉ sessions_of tbl1 →
  (find_slot (tbl1 ++ i :: tbl2) (i_session i) k f).1 = k + alen tbl1.
Proof.
  intros Hne. induction tbl1 as [|j tbl1 IH] in k, f |- *; cbn; intros Hin.
  { rewrite Z.eqb_refl. cbn. unfold alen. cbn. lia. }
  destruct (Z.eqb_spec (i_session j) (i_session i)) as [E|_].
  - exfalso. unfold sessions_of in Hin. cbn in Hin. unfold busy at 1 in Hin.
    destruct (Z.eqb_spec (i_session j) EMPTY_APPLICATION_ID); [congruence|]. cbn in Hin. set_solver.
  - rewrite IH; [unfold alen; cbn [length]; lia|].
    unfold sessions_of in *. cbn in Hin. destruct (busy j); [cbn in Hin; set_solver|done].
Qed.

(** Without an entry of the session, the last free entry is proposed. *)
Lemma find_slot_none tbl ses k f : ses ≠ EMPTY_APPLICATION_ID → ses ∉ sessions_of tbl →
  let '(idx, free) := find_slot tbl ses k f in
  idx = k + alen tbl ∧
  ((Forall (fun i => busy i = true) tbl ∧ free = f) ∨
   ∃ tbl1 i tbl2, tbl = tbl1 ++ i :: tbl2 ∧ busy i = false ∧ free = k + alen tbl1).
Proof.
  intros Hne. induction tbl as [|j tbl IH] in k, f |- *; intros Hin; cbn [find_slot].
  { split; [unfold alen; cbn; lia|]. left. by split. }
  assert (Hj : busy j = true → i_session j ≠ ses).
  { intros Hb E. apply Hin. unfold sessions_of. cbn. rewrite Hb. cbn. set_solver. }
  assert (Htl : ses ∉ sessions_of tbl).
  { intros Ht. apply Hin. unfold sessions_of in *. cbn. destruct (busy j); [cbn; set_solver|done]. }
  unfold busy in Hj. destruct (Z.eqb_spec (i_session j) EMPTY_APPLICATION_ID) as [E|E].
  - destruct (Z.eqb_spec (i_session j) ses); [congruence|].
    specialize (IH (k + 1) k Htl). destruct (find_slot tbl ses (k + 1) k) as [idx free].
    destruct IH as [-> IH]. split; [unfold alen; cbn [length]; lia|]. right.
    destruct IH as [[_ ->]|(t1 & i & t2 & -> & Hb & ->)].
    + exists [], j, tbl. split; [done|]. split; [unfold busy; by rewrite E, Z.eqb_refl|]. unfold alen. cbn. lia.
    + exists (j :: t1), i, t2. split; [done|]. split; [done|]. unfold alen. cbn [length]. lia.
  - destruct (Z.eqb_spec (i_session j) ses) as [E'|_]; [by destruct (Hj eq_refl)|].
    specialize (IH (k + 1) f Htl). destruct (find_slot tbl ses (k + 1) f) as [idx free].
    destruct IH as [-> IH]. split; [unfold alen; cbn [length]; lia|].
    destruct IH as [[Hall ->]|(t1 & i & t2 & -> & Hb & ->)].
    + left. split; [|done]. constructor; [|done]. unfold busy. apply negb_true_iff, Z.eqb_neq. done.
    + right. exists (j :: t1), i, t2. split; [done|]. split; [done|]. unfold alen. cbn [length]. lia.
Qed.
End Slots.

(** ** The specification *)

(** The description of a program collected so far. *)
Record desc := mk_desc { d_exec : cstr; d_cwd : cstr; d_args : list cstr; d_env : list cstr }.
Definition desc0 : desc := mk_desc None None [] [].

Definition desc_store (ty : spawn_type) (s : list Z) (x : desc) : desc :=
  match ty with
  | AXIOM_SPAWN_TYPE_EXE => mk_desc (Some s) (d_cwd x) (d_args x) (d_env x)
  | AXIOM_SPAWN_TYPE_CWD => mk_desc (d_exec x) (Some s) (d_args x) (d_env x)
  | AXIOM_SPAWN_TYPE_ARG => mk_desc (d_exec x) (d_cwd x) (d_args x ++ [Some s]) (d_env x)
  | AXIOM_SPAWN_TYPE_ENV => mk_desc (d_exec x) (d_cwd x) (d_args x) (d_env x ++ [Some s])
  | SPAWN_TYPE_OTHER _ => x
  end.

Definition desc_call (x : desc) : dcall :=
  mk_dcall (d_cwd x) (d_exec x) (d_args x ++ [None]) (d_env x ++ [None]).

Section Spec.
Context `{CS : SessionConsts} {CSOK : SessionConstsOk} `{CP : SpawnConsts} {CPOK : SpawnConstsOk}.

(** The end of a request: with the EXEC flag the program is started and the
    description and the session are given up. *)
Definition spec_finish (m : gmap Z desc) (U : gset Z) (ses flags : Z) (x : desc)
    : gmap Z desc * gset Z * option dcall :=
  if Z.land flags AXIOM_SPAWN_FLAG_EXEC =? 0 then (<[ses := x]> m, U, None)
  else (delete ses m, U ∖ {[ses]}, Some (desc_call x)).

(** A request with string [s] on the descriptions [m] and the sessions in use
    [U]: ignored for a session not in use, or when four other programs are
    already being described. *)
Definition spec_req (m : gmap Z desc) (U : gset Z) (ses flags : Z) (ty : spawn_type) (s : list Z)
    : gmap Z desc * gset Z * option dcall :=
  if negb (bool_decide (ses ∈ U)) then (m, U, None) else
  match m !! ses with
  | None => if (4 <=? size m)%nat then (m, U, None)
            else spec_finish m U ses flags (desc_store ty s desc0)
  | Some x => spec_finish m U ses flags
                (desc_store ty s (if Z.land flags AXIOM_SPAWN_FLAG_RESET =? 0 then x else desc0))
  end.

(** *** The abstraction of the table *)

Definition abs_info (i : info) : desc :=
  mk_desc (i_exec i) (i_cwd i) (sl_data (i_args i)) (sl_data (i_env i)).
Definition entries (tbl : list info) : list (Z * desc) :=
  (fun i => (i_session i, abs_info i)) <$> List.filter busy tbl.
Definition abs_tbl (tbl : list info) : gmap Z desc := list_to_map (entries tbl).

Record tbl_ok (tbl : list info) : Prop := {
  tbl_len : length tbl = 4%nat;
  tbl_nodup : NoDup (sessions_of tbl)
}.

Lemma entries_keys tbl : (entries tbl).*1 = sessions_of tbl.
Proof. unfold entries, sessions_of. rewrite <- list_fmap_compose. done. Qed.

Lemma entries_app t1 t2 : entries (t1 ++ t2) = entries t1 ++ entries t2.
Proof. unfold entries. by rewrite List.filter_app, fmap_app. Qed.

Lemma sessions_of_app t1 t2 : sessions_of (t1 ++ t2) = sessions_of t1 ++ sessions_of t2.
Proof. unfold sessions_of. by rewrite List.filter_app, fmap_app. Qed.

Lemma sessions_of_middle t1 i t2 :
  sessions_of (t1 ++ i :: t2) ≡ₚ (if busy i then [i_session i] else []) ++ sessions_of (t1 ++ t2).
Proof.
  rewrite !sessions_of_app. unfold sessions_of at 2. cbn. destruct (busy i); cbn; [|done].
  symmetry. apply Permutation_middle.
Qed.

(** The map of a table with one entry singled out. *)
Lemma abs_tbl_middle t1 i t2 : NoDup (sessions_of (t1 ++ i :: t2)) →
  abs_tbl (t1 ++ i :: t2) =
  if busy i then <[i_session i := abs_info i]> (abs_tbl (t1 ++ t2)) else abs_tbl (t1 ++ t2).
Proof.
  intros Hnd. unfold abs_tbl. rewrite !entries_app. unfold entries at 2. cbn.
  destruct (busy i) eqn:E; cbn; [|done].
  rewrite <- (list_to_map_cons (M := gmap Z)). apply list_to_map_proper.
  - rewrite fmap_app, fmap_cons, entries_keys. cbn [fst].
    change ((fun i0 => _) <$> List.filter busy t2) with (entries t2). rewrite entries_keys.
    rewrite sessions_of_app in Hnd. unfold sessions_of at 2 in Hnd. cbn in Hnd. rewrite E in Hnd. done.
  - symmetry. apply Permutation_middle.
Qed.

Lemma abs_tbl_lookup_none tbl ses : ses ∉ sessions_of tbl → abs_tbl tbl !! ses = None.
Proof. intros H. apply not_elem_of_list_to_map_1. by rewrite entries_keys. Qed.

Lemma abs_tbl_size tbl : NoDup (sessions_of tbl) → size (abs_tbl tbl) = length (List.filter busy tbl).
Proof.
  intros H. unfold abs_tbl. rewrite map_size_list_to_map by (by rewrite entries_keys).
  unfold entries. by rewrite length_fmap.
Qed.
End Spec.

(** ** The service refines the specification *)

Section Refinement.
Context `{CS : SessionConsts} {CSOK : SessionConstsOk} `{CP : SpawnConsts} {CPOK : SpawnConstsOk}.
Context {St : Type} `{SS : SessionService St} {SL : SessionLaws St}.
Implicit Types (tbl : list info) (st : St).

(** The string that a message carries. *)
Definition msg_str (bytes : list Z) : list Z :=
  cstr_of (aset bytes (AXIOM_SPAWN_MAX_DATA_SIZE - 1) 0).

Lemma holds_cstr_of b : 0 ∈ b → holds b (cstr_of b).
Proof.
  intros Hin. apply list_elem_of_split_l in Hin as (l1 & l2 & -> & Hl).
  assert (H : holds (l1 ++ 0 :: l2) l1) by (split; [done|by exists l2]).
  by rewrite (cstr_of_holds _ l1 H).
Qed.

Lemma msg_holds bytes : alen bytes = AXIOM_SPAWN_MAX_DATA_SIZE →
  holds (aset bytes (AXIOM_SPAWN_MAX_DATA_SIZE - 1) 0) (msg_str bytes).
Proof using CPOK.
  intros Hl. apply holds_cstr_of. pose proof spawn_data_size.
  assert (Hr : 0 <= AXIOM_SPAWN_MAX_DATA_SIZE - 1 < alen bytes) by lia.
  pose proof (aget_aset_eq bytes (AXIOM_SPAWN_MAX_DATA_SIZE - 1) 0 Hr) as E.
  rewrite <- E at 1. unfold aget. destruct (Z.ltb_spec (AXIOM_SPAWN_MAX_DATA_SIZE - 1) 0); [lia|].
  apply list_elem_of_lookup_total_2. rewrite length_aset. unfold alen in Hl. lia.
Qed.

Lemma copy_data_holds b s : holds b s → copy_data b = s.
Proof.
  intros H. unfold copy_data. apply dup_holds; [done|].
  rewrite length_replicate, (strlen_holds b s H). unfold alen. lia.
Qed.

Lemma store_data_abs ty bytes i : alen bytes = AXIOM_SPAWN_MAX_DATA_SIZE →
  i_session (store_data ty bytes i) = i_session i ∧
  abs_info (store_data ty bytes i) = desc_store ty (msg_str bytes) (abs_info i).
Proof using CPOK.
  intros Hl. pose proof (msg_holds bytes Hl) as Hh. unfold store_data.
  destruct ty; (split; [done|]); unfold abs_info, desc_store;
    cbn [i_exec i_cwd i_args i_env d_exec d_cwd d_args d_env];
    by rewrite ?(copy_data_holds _ _ Hh), ?(sl_append_holds _ _ _ Hh).
Qed.

(** The end of a request on the entry [i] of session [i_session i]. *)
Lemma finish_refines t1 i t2 st flags ty bytes : alen bytes = AXIOM_SPAWN_MAX_DATA_SIZE →
  tbl_ok (t1 ++ i :: t2) → session_ok st → busy i = true → i_session i ∈ in_use st →
  ∃ tbl' st' call, finish (t1 ++ i :: t2) st (alen t1) flags ty bytes = Some (tbl', st', call) ∧
    tbl_ok tbl' ∧ session_ok st' ∧
    (abs_tbl tbl', in_use st', call) =
    spec_finish (abs_tbl (t1 ++ i :: t2)) (in_use st) (i_session i) flags
      (desc_store ty (msg_str bytes)
        (if Z.land flags AXIOM_SPAWN_FLAG_RESET =? 0 then abs_info i else desc0)).
Proof using CPOK SL.
  intros Hl [Hlen Hnd] Hst Hb Hin. unfold finish, spec_finish. rewrite aget_middle.
  set (i1 := if Z.land flags AXIOM_SPAWN_FLAG_RESET =? 0 then i else reset_info i).
  assert (Hi1 : i_session i1 = i_session i ∧
    abs_info i1 = if Z.land flags AXIOM_SPAWN_FLAG_RESET =? 0 then abs_info i else desc0)
    by (unfold i1; by destruct (_ =? 0)).
  destruct Hi1 as [Hs1 <-]. destruct (store_data_abs ty bytes i1 Hl) as [Hs2 <-].
  set (i2 := store_data ty bytes i1) in *. rewrite Hs1 in Hs2.
  assert (Hperm := sessions_of_middle t1 i t2). rewrite Hb in Hperm. cbn in Hperm.
  assert (Hb2 : busy i2 = true) by (unfold busy in *; by rewrite Hs2).
  assert (Hnd' : NoDup (i_session i :: sessions_of (t1 ++ t2))) by (by rewrite <- Hperm).
  assert (Hfresh : abs_tbl (t1 ++ t2) !! i_session i = None)
    by (apply abs_tbl_lookup_none; by inversion Hnd').
  rewrite (abs_tbl_middle t1 i t2 Hnd), Hb.
  destruct (Z.land flags AXIOM_SPAWN_FLAG_EXEC =? 0).
  - rewrite aset_middle. eexists _, _, _. split; [done|].
    assert (Hnd2 : NoDup (sessions_of (t1 ++ i2 :: t2))).
    { rewrite sessions_of_middle, Hb2, Hs2. done. }
    split; [split; [rewrite length_app in *; cbn in *; lia|done]|]. split; [done|].
    rewrite (abs_tbl_middle t1 i2 t2 Hnd2), Hb2, Hs2. by rewrite insert_insert_eq.
  - rewrite Hs2. destruct (session_release_spec st (i_session i) Hst) as (st' & -> & Hst' & Hu).
    { by eapply in_use_range. }
    cbn. rewrite aset_middle. eexists _, _, _. split; [done|].
    set (i3 := mk_info _ _ _ _ _). assert (Hb3 : busy i3 = false) by (unfold busy; cbn; by rewrite Z.eqb_refl).
    assert (Hnd3 : NoDup (sessions_of (t1 ++ i3 :: t2))).
    { rewrite sessions_of_middle, Hb3. by inversion Hnd'. }
    split; [split; [rewrite length_app in *; cbn in *; lia|done]|]. split; [done|].
    rewrite (abs_tbl_middle t1 i3 t2 Hnd3), Hb3, delete_insert_id by done. by rewrite Hu.
Qed.
(** The flags of the first message of a session. *)
Lemma auto_reset flags :
  (Z.land (Z.lor flags AXIOM_SPAWN_FLAG_RESET) AXIOM_SPAWN_FLAG_RESET =? 0) = false ∧
  Z.land (Z.lor flags AXIOM_SPAWN_FLAG_RESET) AXIOM_SPAWN_FLAG_EXEC =
  Z.land flags AXIOM_SPAWN_FLAG_EXEC.
Proof using CPOK.
  rewrite !Z.land_lor_distr_l, Z.land_diag, spawn_flags_apart, Z.lor_0_r. split; [|done].
  apply Z.eqb_neq. rewrite Z.lor_eq_0_iff. intros [_ H]. by apply spawn_reset_nonzero.
Qed.

Lemma filter_busy_full tbl : Forall (fun i => busy i = true) tbl → List.filter busy tbl = tbl.
Proof. induction 1 as [|i tbl Hi _ IH]; [done|]. cbn. by rewrite Hi, IH. Qed.

Lemma filter_busy_free t1 i t2 : busy i = false →
  (length (List.filter busy (t1 ++ i :: t2)) < length (t1 ++ i :: t2))%nat.
Proof.
  intros Hb. rewrite List.filter_app, !length_app. cbn. rewrite Hb.
  pose proof (List.filter_length_le busy t1). pose proof (List.filter_length_le busy t2). lia.
Qed.

Definition spawn_ok (p : spawn_req) : Prop :=
  alen (sp_bytes p) = AXIOM_SPAWN_MAX_DATA_SIZE ∧ 0 <= sp_session p ∧ sp_session p ≠ 32.

(** A request as the driver delivers it, and those that the session service does not
    survive. *)
Definition spawn_wf (p : spawn_req) : Prop := alen (sp_bytes p) = AXIOM_SPAWN_MAX_DATA_SIZE ∧ 0 <= sp_session p.
Definition spawn_asks_32 (p : spawn_req) : bool := (sp_command p =? AXIOM_CMD_SPAWN_REQ) && (sp_session p =? 32).

Lemma spawn_ok_wf p : spawn_ok p → spawn_wf p ∧ spawn_asks_32 p = false.
Proof.
  intros (Hl & H0 & H32). split; [by split|]. unfold spawn_asks_32. rewrite (proj2 (Z.eqb_neq _ 32) H32). apply andb_false_r.
Qed.

Lemma spawn_asked_32 tbl st p : spawn_asks_32 p = true → axiom_spawn_req tbl st p = None.
Proof using SL.
  unfold spawn_asks_32, axiom_spawn_req. rewrite andb_true_iff. intros [-> E%Z.eqb_eq]. rewrite E, session_is_used_32. done.
Qed.

Definition spec_of (m : gmap Z desc) (U : gset Z) (p : spawn_req) : gmap Z desc * gset Z * option dcall :=
  if sp_command p =? AXIOM_CMD_SPAWN_REQ
  then spec_req m U (sp_session p) (sp_flags p) (sp_type p) (msg_str (sp_bytes p)) else (m, U, None).

(** A new session takes a free entry, if there is one. *)
Lemma spawn_new tbl st p : tbl_ok tbl → session_ok st → spawn_wf p →
  sp_session p ∈ in_use st → sp_session p ≠ EMPTY_APPLICATION_ID → sp_session p ∉ sessions_of tbl →
  let '(idx, idx_free) := find_slot tbl (sp_session p) 0 (-1) in
  idx = 4 ∧
  ((size (abs_tbl tbl) = 4%nat ∧ idx_free = -1) ∨
   (size (abs_tbl tbl) < 4)%nat ∧ idx_free ≠ -1 ∧
   ∃ tbl' st' call, finish (aset tbl idx_free (mk_info (sp_session p) (i_exec (aget tbl idx_free))
       (i_cwd (aget tbl idx_free)) (i_args (aget tbl idx_free)) (i_env (aget tbl idx_free))))
       st idx_free (Z.lor (sp_flags p) AXIOM_SPAWN_FLAG_RESET) (sp_type p) (sp_bytes p)
       = Some (tbl', st', call) ∧
     tbl_ok tbl' ∧ session_ok st' ∧
     (abs_tbl tbl', in_use st', call) = spec_finish (abs_tbl tbl) (in_use st) (sp_session p)
       (sp_flags p) (desc_store (sp_type p) (msg_str (sp_bytes p)) desc0)).
Proof using CPOK SL.
  intros [Hlen Hnd] Hst (Hl & H0) Hin Hne Hnew.
  pose proof (find_slot_none tbl (sp_session p) 0 (-1) Hne Hnew) as Hf.
  destruct (find_slot tbl (sp_session p) 0 (-1)) as [idx free].
  destruct Hf as [-> Hf]. unfold alen. rewrite Hlen. split; [done|].
  rewrite (abs_tbl_size tbl Hnd). destruct Hf as [[Hall ->]|(t1 & i & t2 & -> & Hb & ->)].
  - left. by rewrite (filter_busy_full tbl Hall).
  - right. pose proof (filter_busy_free t1 i t2 Hb). split; [lia|].
    rewrite Z.add_0_l. split; [unfold alen; lia|].
    rewrite aget_middle, aset_middle. set (j := mk_info _ _ _ _ _).
    assert (Hbj : busy j = true) by (apply negb_true_iff, Z.eqb_neq; done).
    pose proof (sessions_of_middle t1 i t2) as Hp. rewrite Hb in Hp. cbn in Hp.
    assert (Hndj : NoDup (sessions_of (t1 ++ j :: t2))).
    { rewrite sessions_of_middle, Hbj. cbn. constructor; [by rewrite <- Hp|by rewrite <- Hp]. }
    destruct (auto_reset (sp_flags p)) as [Hr He].
    destruct (finish_refines t1 j t2 st (Z.lor (sp_flags p) AXIOM_SPAWN_FLAG_RESET) (sp_type p)
      (sp_bytes p) Hl) as (tbl' & st' & call & Heq & Hok & Hst' & Habs); try done.
    { split; [rewrite length_app in *; cbn in *; lia|done]. }
    exists tbl', st', call. split; [done|]. split; [done|]. split; [done|]. rewrite Habs, Hr.
    unfold spec_finish. rewrite He, (abs_tbl_middle t1 j t2 Hndj), Hbj, (abs_tbl_middle t1 i t2 Hnd), Hb.
    assert (Hnone : abs_tbl (t1 ++ t2) !! sp_session p = None)
      by (apply abs_tbl_lookup_none; by rewrite <- Hp).
    cbn [i_session j]. by rewrite insert_insert_eq, delete_insert_id, delete_id by done.
Qed.

(** One request refines one step of the specification. *)
Lemma spawn_step tbl st p : tbl_ok tbl → session_ok st → spawn_wf p → spawn_asks_32 p = false →
  ∃ tbl' st' call, axiom_spawn_req tbl st p = Some (tbl', st', call) ∧
    tbl_ok tbl' ∧ session_ok st' ∧
    (abs_tbl tbl', in_use st', call) = spec_of (abs_tbl tbl) (in_use st) p.
Proof using CPOK CSOK SL.
  intros Htbl Hst Hp H32. pose proof Hp as (Hl & H0). unfold spawn_asks_32 in H32. unfold axiom_spawn_req, spec_of.
  destruct (sp_command p =? AXIOM_CMD_SPAWN_REQ); cbn [negb andb] in *; [|by eauto 10]. apply Z.eqb_neq in H32.
  rewrite session_is_used_spec by done. cbn. unfold spec_req.
  case_bool_decide as Hin; cbn [negb]; [|by eauto 10].
  assert (Hne : sp_session p ≠ EMPTY_APPLICATION_ID).
  { pose proof (in_use_range _ _ Hst Hin). pose proof session_empty_range. unfold EMPTY_APPLICATION_ID. lia. }
  destruct (decide (sp_session p ∈ sessions_of tbl)) as [Hold|Hnew].
  - pose proof Htbl as [Hlen Hnd].
    unfold sessions_of in Hold. apply list_elem_of_fmap in Hold as (i & Hs & Hi).
    apply list_elem_of_In, filter_In in Hi as [Hi Hb].
    apply list_elem_of_In, list_elem_of_split in Hi as (t1 & t2 & ->).
    pose proof (sessions_of_middle t1 i t2) as Hperm. rewrite Hb in Hperm. cbn in Hperm.
    assert (Hnd' := Hnd). rewrite Hperm in Hnd'. apply NoDup_cons in Hnd' as [Hfresh _].
    rewrite sessions_of_app in Hfresh.
    assert (Hne' : i_session i ≠ EMPTY_APPLICATION_ID) by congruence.
    pose proof (find_slot_found t1 i t2 0 (-1) Hne' ltac:(set_solver)) as Hf.
    rewrite Hs. destruct (find_slot _ _ _ _) as [idx free]. cbn in Hf. subst idx.
    rewrite length_app in Hlen. cbn in Hlen.
    destruct (Z.leb_spec MAX_CONCURRENT_SPAWNS (0 + alen t1)); [unfold MAX_CONCURRENT_SPAWNS, alen in *; lia|].
    rewrite Z.add_0_l. rewrite (abs_tbl_middle t1 i t2 Hnd), Hb, lookup_insert_eq.
    rewrite <- Hs, Hs. rewrite Hs in Hin.
    destruct (finish_refines t1 i t2 st (sp_flags p) (sp_type p) (sp_bytes p) Hl Htbl Hst Hb Hin)
      as (tbl' & st' & call & Heq & Hok & Hst' & Habs).
    exists tbl', st', call. rewrite (abs_tbl_middle t1 i t2 Hnd), Hb in Habs. done.
  - pose proof (spawn_new tbl st p Htbl Hst Hp Hin Hne Hnew) as Hn.
    destruct (find_slot tbl (sp_session p) 0 (-1)) as [idx free]. destruct Hn as [-> Hn].
    rewrite (abs_tbl_lookup_none tbl _ Hnew). cbn [Z.leb MAX_CONCURRENT_SPAWNS Z.compare Pos.compare].
    destruct Hn as [[Hfull ->]|(Hroom & Hfree & tbl' & st' & call & Heq & Hok & Hst' & Habs)].
    + rewrite Hfull. cbn. by eauto 10.
    + destruct (Z.eqb_spec free (-1)); [done|].
      destruct (Nat.leb_spec 4 (size (abs_tbl tbl))); [lia|]. by eauto 10.
Qed.
(** ** Sequences of requests *)

Fixpoint spawn_run (tbl : list info) (st : St) (ps : list spawn_req)
    : option (list info * St * list (option dcall)) :=
  match ps with
  | [] => Some (tbl, st, [])
  | p :: ps =>
      '(tbl, st, call) ← axiom_spawn_req tbl st p;
      '(tbl, st, calls) ← spawn_run tbl st ps;
      Some (tbl, st, call :: calls)
  end.

Fixpoint spec_spawn_run (m : gmap Z desc) (U : gset Z) (ps : list spawn_req)
    : gmap Z desc * gset Z * list (option dcall) :=
  match ps with
  | [] => (m, U, [])
  | p :: ps =>
      let '(m, U, call) := spec_of m U p in
      let '(m, U, calls) := spec_spawn_run m U ps in
      (m, U, call :: calls)
  end.

Lemma spawn_run_total tbl st ps : tbl_ok tbl → session_ok st → Forall spawn_wf ps →
  if existsb spawn_asks_32 ps then spawn_run tbl st ps = None else
  ∃ tbl' st' calls, spawn_run tbl st ps = Some (tbl', st', calls) ∧ tbl_ok tbl' ∧ session_ok st' ∧
    spec_spawn_run (abs_tbl tbl) (in_use st) ps = (abs_tbl tbl', in_use st', calls).
Proof using CPOK CSOK SL.
  intros Htbl Hst H. induction H as [|p ps Hp _ IH] in tbl, st, Htbl, Hst |- *; cbn [spawn_run spec_spawn_run existsb].
  { by eauto 10. }
  destruct (spawn_asks_32 p) eqn:E; cbn [orb]; [by rewrite spawn_asked_32|].
  destruct (spawn_step tbl st p Htbl Hst Hp E) as (tbl1 & st1 & call & -> & Htbl1 & Hst1 & <-). cbn [mbind option_bind].
  specialize (IH tbl1 st1 Htbl1 Hst1). destruct (existsb spawn_asks_32 ps); [by rewrite IH|].
  destruct IH as (tbl2 & st2 & calls & -> & Htbl2 & Hst2 & ->). cbn. by eauto 10.
Qed.

Lemma spawn_run_refines tbl st ps : tbl_ok tbl → session_ok st → Forall spawn_ok ps →
  ∃ tbl' st' calls, spawn_run tbl st ps = Some (tbl', st', calls) ∧
    tbl_ok tbl' ∧ session_ok st' ∧
    spec_spawn_run (abs_tbl tbl) (in_use st) ps = (abs_tbl tbl', in_use st', calls).
Proof using CPOK CSOK SL.
  intros Htbl Hst H.
  assert (Hwf : Forall spawn_wf ps) by (eapply Forall_impl; [exact H|]; by intros p [? _]%spawn_ok_wf).
  pose proof (spawn_run_total tbl st ps Htbl Hst Hwf) as Hrun. destruct (existsb spawn_asks_32 ps) eqn:E; [|done].
  apply existsb_exists in E as (p & Hin & Hp). apply list_elem_of_In in Hin. rewrite Forall_forall in H.
  destruct (spawn_ok_wf p (H p Hin)). congruence.
Qed.

(** The initial table is empty. *)
Lemma spawn_init_ok : tbl_ok axiom_spawn_init ∧ abs_tbl axiom_spawn_init = ∅.
Proof.
  assert (Hf : List.filter busy axiom_spawn_init = []).
  { unfold axiom_spawn_init. induction (Z.to_nat MAX_CONCURRENT_SPAWNS) as [|n IH]; [done|].
    cbn. unfold busy at 1. cbn. by rewrite Z.eqb_refl. }
  split; [split; [done|]|]; unfold sessions_of, abs_tbl, entries; rewrite Hf; [constructor|done].
Qed.

(** C17. From its initial table the spawn service implements the map of
    descriptions.  On every sequence of requests none of which names the session 32
    it collects, starts and gives up exactly what the specification does (at most
    four programs at a time, each session apart from the others), starts the same
    programs in the same order and never fails an assertion of the session service; a
    request that names the session 32 makes that service do something undefined. *)
Theorem spawn_refines st ps : session_ok st → Forall spawn_wf ps →
  if existsb spawn_asks_32 ps then spawn_run axiom_spawn_init st ps = None else
  ∃ tbl' st' calls, spawn_run axiom_spawn_init st ps = Some (tbl', st', calls) ∧
    spec_spawn_run ∅ (in_use st) ps = (abs_tbl tbl', in_use st', calls) ∧
    (size (abs_tbl tbl') <= 4)%nat.
Proof using CPOK CSOK SL.
  intros Hst Hps. destruct spawn_init_ok as [Hok Habs]. pose proof (spawn_run_total axiom_spawn_init st ps Hok Hst Hps) as H.
  destruct (existsb spawn_asks_32 ps); [done|]. destruct H as (tbl' & st' & calls & Hrun & [Hlen Hnd] & _ & Hspec).
  rewrite Habs in Hspec. exists tbl', st', calls. split; [done|]. split; [done|].
  rewrite (abs_tbl_size tbl' Hnd), <- Hlen. apply List.filter_length_le.
Qed.
End Refinement.
