(* ===== verification/Execvpe.v ===== *)
(** * The client of the spawn service (axiom-init/lib/execvpe.c)

    [axinit_execvpe] acquires a session from the daemon of a node (or of every
    node), sends it the executable, the arguments, the environment and the
    working directory, and has it started.  The last theorem joins the client to
    the daemon of file [Spawn]. *)

From stdpp Require Import gmap.
From S2P Require Import Prelude CStrings Nic Session Spawn.

(** Flags of [axiom_init_api.h]. *)
Definition AXINIT_EXEC_BROADCAST : Z := 1.
Definition AXINIT_EXEC_NOSELF : Z := 2.

(** The layout of the messages is the driver's: [spawn_overlay p] is the byte of
    the spawn message [p] at the place of the [session_id] of a session request. *)
Class SpawnLayout := { spawn_overlay : spawn_req → Z }.

(** The calls of the client: messages to the daemon of a node (by [axiom_send_raw]
    or [axiom_send], with the size of the data), the reception of a reply, which
    overwrites the shared buffer, and the environment of the process. *)
Class ExecDev (D : Type) := {
  ed_node_id : M D Z;
  ed_num_nodes : M D Z;
  ed_send_session : Z → session_req → M D Z;
  ed_recv_reply : M D (Z * Z * list Z);
  ed_send_spawn : Z → spawn_req → Z → M D Z;
  ed_getcwd : M D (option (list Z))
}.

Section Code.
Context `{CN : NicConsts} `{CS : SessionConsts} `{CP : SpawnConsts} `{LY : SpawnLayout}.
Context {D : Type} `{ED : ExecDev D}.

(** Fill the buffer and send it; the size sent is [len + 1] bytes of data. *)
Definition send_string (node ses flags : Z) (ty : spawn_type) (s buf : list Z) : M D (Z * list Z) :=
  let '(buf, len) := strlcpy buf (cbuf s) AXIOM_SPAWN_MAX_DATA_SIZE in
  ret ← ed_send_spawn node (mk_spawn_req AXIOM_CMD_SPAWN_REQ ses flags ty buf) (len + 1);
  mret (ret, buf).

(** [while ( *pargs != NULL )] over an array of strings; [inr]: [goto release]. *)
Fixpoint send_strings (node ses : Z) (ty : spawn_type) (l : list (list Z)) (buf : list Z)
    : M D (list Z + Z * spawn_req) :=
  match l with
  | [] => mret (inl buf)
  | s :: l =>
      '(ret, buf) ← send_string node ses 0 ty s buf;
      if AXIOM_RET_IS_OK ret then send_strings node ses ty l buf
      else mret (inr (ret, mk_spawn_req AXIOM_CMD_SPAWN_REQ ses 0 ty buf))
  end.

Definition send_array (node ses : Z) (ty : spawn_type) (l : option (list (list Z))) (buf : list Z)
    : M D (list Z + Z * spawn_req) :=
  match l with None => mret (inl buf) | Some l => send_strings node ses ty l buf end.

(** The label [release:]: the request reuses the buffer of the last message. *)
Definition exec_release (node port msg : Z) (last : spawn_req) : M D Z :=
  ed_send_session node (mk_session_req AXIOM_CMD_SESSION_REQ port (spawn_overlay last)) ;;
  mret msg.

(** The spawn messages of one node after the session is known; [inl]: started. *)
Definition exec_describe (node port ses : Z) (filename : list Z) (argv envp : option (list (list Z)))
    (buf : list Z) : M D (unit + Z) :=
  '(ret, buf) ← send_string node ses AXIOM_SPAWN_FLAG_RESET AXIOM_SPAWN_TYPE_EXE filename buf;
  if negb (AXIOM_RET_IS_OK ret) then
    r ← exec_release node port ret
          (mk_spawn_req AXIOM_CMD_SPAWN_REQ ses AXIOM_SPAWN_FLAG_RESET AXIOM_SPAWN_TYPE_EXE buf);
    mret (inr r)
  else
  x ← send_array node ses AXIOM_SPAWN_TYPE_ARG argv buf;
  match x with inr (ret, p) => r ← exec_release node port ret p; mret (inr r) | inl buf =>
  x ← send_array node ses AXIOM_SPAWN_TYPE_ENV envp buf;
  match x with inr (ret, p) => r ← exec_release node port ret p; mret (inr r) | inl buf =>
  cwd ← ed_getcwd;
  match cwd with
  | None =>
      r ← exec_release node port AXIOM_RET_ERROR
            (mk_spawn_req AXIOM_CMD_SPAWN_REQ ses AXIOM_SPAWN_FLAG_EXEC AXIOM_SPAWN_TYPE_CWD buf);
      mret (inr r)
  | Some s =>
      '(ret, buf) ← send_string node ses AXIOM_SPAWN_FLAG_EXEC AXIOM_SPAWN_TYPE_CWD s buf;
      if AXIOM_RET_IS_OK ret then mret (inl tt) else
      r ← exec_release node port ret
            (mk_spawn_req AXIOM_CMD_SPAWN_REQ ses AXIOM_SPAWN_FLAG_EXEC AXIOM_SPAWN_TYPE_CWD buf);
      mret (inr r)
  end end end.

(** One node: acquire a session, then describe the program. *)
Definition exec_node (node port : Z) (filename : list Z) (argv envp : option (list (list Z)))
    : M D (unit + Z) :=
  ret ← ed_send_session node (mk_session_req AXIOM_CMD_SESSION_REQ port AXIOM_SESSION_EMPTY);
  if negb (AXIOM_RET_IS_OK ret) then mret (inr ret) else
  '(ret, session, buf) ← ed_recv_reply;
  if negb (AXIOM_RET_IS_OK ret) then mret (inr ret) else
  if session =? AXIOM_SESSION_EMPTY then mret (inr AXIOM_RET_ERROR) else
  exec_describe node port session filename argv envp buf.

(** [while (++node < axiom_get_num_nodes(dev))], [node] being a byte. *)
Definition exec_next (node start_counter : Z) : M D (Z * Z + Z) :=
  let node := u8 (node + 1) in
  n ← ed_num_nodes;
  mret (if node <? n then inl (node, start_counter) else inr start_counter).

Definition exec_turn (port flags : Z) (filename : list Z) (argv envp : option (list (list Z)))
    '(node, start_counter) : M D (Z * Z + Z) :=
  self ← ed_node_id;
  if negb (Z.land flags AXINIT_EXEC_NOSELF =? 0) && (node =? self) then exec_next node start_counter else
  x ← exec_node node port filename argv envp;
  match x with
  | inr ret => mret (inr ret)
  | inl _ =>
      let start_counter := start_counter + 1 in
      if Z.land flags AXINIT_EXEC_BROADCAST =? 0 then mret (inr start_counter)
      else exec_next node start_counter
  end.

Definition axinit_execvpe (fuel : nat) (port node flags : Z) (filename : list Z)
    (argv envp : option (list (list Z))) : M D Z :=
  let node := if Z.land flags AXINIT_EXEC_BROADCAST =? 0 then node else 0 in
  loop fuel (exec_turn port flags filename argv envp) (node, 0).
End Code.

(** ** A scripted device *)

Inductive exec_event :=
  | EvSession (node : Z) (q : session_req)
  | EvSpawn (node : Z) (p : spawn_req) (size : Z).

Record execdev := mk_execdev {
  xd_self : Z; xd_nodes : Z;
  xd_replies : list (Z * Z * list Z);
  xd_cwd : option (list Z);
  xd_fail : list Z;                  (** results of the sends; then all succeed *)
  xd_log : list exec_event
}.

Section Sim.
Context `{CN : NicConsts}.

Definition xd_push (e : exec_event) : M execdev Z := fun d =>
  match xd_fail d with
  | [] => Ret AXIOM_RET_OK (mk_execdev (xd_self d) (xd_nodes d) (xd_replies d) (xd_cwd d) [] (xd_log d ++ [e]))
  | r :: rs => Ret r (mk_execdev (xd_self d) (xd_nodes d) (xd_replies d) (xd_cwd d) rs (xd_log d ++ [e]))
  end.

#[export] Instance execdev_dev : ExecDev execdev := {|
  ed_node_id d := Ret (xd_self d) d;
  ed_num_nodes d := Ret (xd_nodes d) d;
  ed_send_session node q := xd_push (EvSession node q);
  ed_recv_reply d := match xd_replies d with
    | [] => Stuck Blocked d
    | x :: xs => Ret x (mk_execdev (xd_self d) (xd_nodes d) xs (xd_cwd d) (xd_fail d) (xd_log d))
    end;
  ed_send_spawn node p size := xd_push (EvSpawn node p size);
  ed_getcwd d := Ret (xd_cwd d) d
|}.
End Sim.

(** ** What the client sends *)

Section Messages.
Context `{CN : NicConsts} {CNOK : NicConstsOk} `{CS : SessionConsts} `{CP : SpawnConsts} {CPOK : SpawnConstsOk}.
Context `{LY : SpawnLayout}.
Implicit Types (d : execdev).

(** The description of a program as messages: flags, type and string. *)
Definition script (filename : list Z) (argv envp : option (list (list Z))) (cwd : list Z)
    : list (Z * spawn_type * list Z) :=
  (AXIOM_SPAWN_FLAG_RESET, AXIOM_SPAWN_TYPE_EXE, filename) ::
  ((fun s => (0, AXIOM_SPAWN_TYPE_ARG, s)) <$> default [] argv) ++
  ((fun s => (0, AXIOM_SPAWN_TYPE_ENV, s)) <$> default [] envp) ++
  [(AXIOM_SPAWN_FLAG_EXEC, AXIOM_SPAWN_TYPE_CWD, cwd)].

(** The event [e] carries the message [x] of the session [ses] to [node]: the
    string, cut to the size of the buffer, with the size of the whole string. *)
Definition carries (node ses : Z) (x : Z * spawn_type * list Z) (e : exec_event) : Prop :=
  ∃ buf, e = EvSpawn node (mk_spawn_req AXIOM_CMD_SPAWN_REQ ses x.1.1 x.1.2 buf) (alen x.2 + 1) ∧
    alen buf = AXIOM_SPAWN_MAX_DATA_SIZE ∧
    holds buf (take (Z.to_nat (AXIOM_SPAWN_MAX_DATA_SIZE - 1)) x.2).

Definition logged (evs : list exec_event) d : execdev :=
  mk_execdev (xd_self d) (xd_nodes d) (xd_replies d) (xd_cwd d) [] (xd_log d ++ evs).

Lemma logged_app evs1 evs2 d : logged evs2 (logged evs1 d) = logged (evs1 ++ evs2) d.
Proof. unfold logged. cbn. by rewrite <- app_assoc. Qed.

Lemma xd_push_ok e d : xd_fail d = [] → xd_push e d = Ret AXIOM_RET_OK (logged [e] d).
Proof. intros H. unfold xd_push. by rewrite H. Qed.

Lemma send_string_ok node ses flags ty s buf d : xd_fail d = [] →
  alen buf = AXIOM_SPAWN_MAX_DATA_SIZE → 0 ∉ s →
  ∃ buf' e, send_string node ses flags ty s buf d = Ret (AXIOM_RET_OK, buf') (logged [e] d) ∧
    alen buf' = AXIOM_SPAWN_MAX_DATA_SIZE ∧ carries node ses (flags, ty, s) e.
Proof using CPOK.
  intros Hf Hl Hs. unfold send_string. pose proof spawn_data_size.
  rewrite (strlcpy_eq buf (cbuf s) s) by (apply holds_cbuf; done) || lia. destruct (Z.eqb_spec AXIOM_SPAWN_MAX_DATA_SIZE 0) as [?|_]; [lia|].
  set (n := Z.to_nat (AXIOM_SPAWN_MAX_DATA_SIZE - 1)). set (buf' := take n s ++ _).
  assert (Hl' : alen buf' = AXIOM_SPAWN_MAX_DATA_SIZE).
  { unfold buf', alen in *. rewrite length_app. cbn [length]. rewrite length_take, length_drop. lia. }
  cbn [ed_send_spawn execdev_dev]. unfold mbind, M_bind. rewrite xd_push_ok by done.
  eexists buf', _. split; [done|]. split; [done|]. exists buf'. split; [done|]. split; [done|].
  split; [|by eexists]. intros Hin. apply Hs. rewrite <- (take_drop n s). apply elem_of_app. by left.
Qed.

Lemma send_strings_ok node ses ty l buf d : xd_fail d = [] →
  alen buf = AXIOM_SPAWN_MAX_DATA_SIZE → Forall (fun s => 0 ∉ s) l →
  ∃ buf' evs, send_strings node ses ty l buf d = Ret (inl buf') (logged evs d) ∧
    alen buf' = AXIOM_SPAWN_MAX_DATA_SIZE ∧
    Forall2 (carries node ses) ((fun s => (0, ty, s)) <$> l) evs.
Proof using CNOK CPOK.
  intros Hf Hl H. induction H as [|s l Hs _ IH] in buf, d, Hf, Hl |- *; cbn [send_strings].
  { exists buf, []. split; [|by split]. unfold logged. destruct d. cbn in *. subst. by rewrite app_nil_r. }
  destruct (send_string_ok node ses 0 ty s buf d Hf Hl Hs) as (buf1 & e & He & Hl1 & Hc).
  rewrite (bind_ret _ _ _ _ _ He), ret_ok_ok.
  destruct (IH buf1 (logged [e] d) eq_refl Hl1) as (buf2 & evs & -> & Hl2 & Hc2).
  exists buf2, (e :: evs). rewrite logged_app. split; [done|]. split; [done|]. by constructor.
Qed.

Definition nul_free (l : option (list (list Z))) : Prop := Forall (fun s => 0 ∉ s) (default [] l).

Lemma send_array_ok node ses ty l buf d : xd_fail d = [] →
  alen buf = AXIOM_SPAWN_MAX_DATA_SIZE → nul_free l →
  ∃ buf' evs, send_array node ses ty l buf d = Ret (inl buf') (logged evs d) ∧
    alen buf' = AXIOM_SPAWN_MAX_DATA_SIZE ∧
    Forall2 (carries node ses) ((fun s => (0, ty, s)) <$> default [] l) evs.
Proof using CNOK CPOK.
  intros Hf Hl Hn. destruct l as [l|]; [by apply send_strings_ok|].
  exists buf, []. split; [|by split]. unfold logged. destruct d. cbn in *. subst. by rewrite app_nil_r.
Qed.

(** All messages of one node. *)
Lemma exec_describe_ok node port ses filename argv envp cwd buf d : xd_fail d = [] → xd_cwd d = Some cwd →
  alen buf = AXIOM_SPAWN_MAX_DATA_SIZE → 0 ∉ filename → nul_free argv → nul_free envp → 0 ∉ cwd →
  ∃ evs, exec_describe node port ses filename argv envp buf d = Ret (inl tt) (logged evs d) ∧
    Forall2 (carries node ses) (script filename argv envp cwd) evs.
Proof using CNOK CPOK.
  intros Hf Hcwd Hl Hfn Ha He Hc. unfold exec_describe.
  destruct (send_string_ok node ses AXIOM_SPAWN_FLAG_RESET AXIOM_SPAWN_TYPE_EXE filename buf d Hf Hl Hfn)
    as (b1 & e1 & H1 & Hb1 & Hc1).
  rewrite (bind_ret _ _ _ _ _ H1), ret_ok_ok. cbn [negb].
  destruct (send_array_ok node ses AXIOM_SPAWN_TYPE_ARG argv b1 (logged [e1] d) eq_refl Hb1 Ha)
    as (b2 & e2 & H2 & Hb2 & Hc2). rewrite (bind_ret _ _ _ _ _ H2).
  destruct (send_array_ok node ses AXIOM_SPAWN_TYPE_ENV envp b2 (logged e2 (logged [e1] d)) eq_refl Hb2 He)
    as (b3 & e3 & H3 & Hb3 & Hc3). rewrite (bind_ret _ _ _ _ _ H3).
  set (d3 := logged e3 _). assert (Hg : ed_getcwd d3 = Ret (Some cwd) d3) by (cbn; by rewrite Hcwd).
  rewrite (bind_ret _ _ _ _ _ Hg).
  destruct (send_string_ok node ses AXIOM_SPAWN_FLAG_EXEC AXIOM_SPAWN_TYPE_CWD cwd b3 d3 eq_refl Hb3 Hc)
    as (b4 & e4 & H4 & Hb4 & Hc4).
  rewrite (bind_ret _ _ _ _ _ H4), ret_ok_ok. unfold d3. rewrite !logged_app.
  eexists. split; [done|]. unfold script. cbn [app]. constructor; [done|].
  repeat apply Forall2_app; try done. by constructor.
Qed.

(** Acquisition and description: [evs] are the messages to [node]. *)
Definition node_msgs (port : Z) (filename : list Z) (argv envp : option (list (list Z))) (cwd : list Z)
    (node : Z) (rep : Z * Z * list Z) (evs : list exec_event) : Prop :=
  ∃ l, evs = EvSession node (mk_session_req AXIOM_CMD_SESSION_REQ port AXIOM_SESSION_EMPTY) :: l ∧
    Forall2 (carries node rep.1.2) (script filename argv envp cwd) l.

Definition reply_ok (rep : Z * Z * list Z) : Prop :=
  AXIOM_RET_IS_OK rep.1.1 = true ∧ rep.1.2 ≠ AXIOM_SESSION_EMPTY ∧
  alen rep.2 = AXIOM_SPAWN_MAX_DATA_SIZE.

Definition with_replies (l : list (Z * Z * list Z)) d : execdev :=
  mk_execdev (xd_self d) (xd_nodes d) l (xd_cwd d) (xd_fail d) (xd_log d).

Lemma exec_node_ok node port filename argv envp cwd rep reps d :
  xd_fail d = [] → xd_cwd d = Some cwd → xd_replies d = rep :: reps → reply_ok rep →
  0 ∉ filename → nul_free argv → nul_free envp → 0 ∉ cwd →
  ∃ evs, exec_node node port filename argv envp d = Ret (inl tt) (logged evs (with_replies reps d)) ∧
    node_msgs port filename argv envp cwd node rep evs.
Proof using CNOK CPOK.
  intros Hf Hcwd Hrep (Hok & Hne & Hl) Hfn Ha He Hc. destruct rep as [[ret ses] buf]. cbn in *.
  unfold exec_node. set (q := mk_session_req _ _ _).
  assert (H1 : ed_send_session node q d = Ret AXIOM_RET_OK (logged [EvSession node q] d)) by (by apply xd_push_ok).
  rewrite (bind_ret _ _ _ _ _ H1), ret_ok_ok. cbn [negb].
  set (d1 := logged _ _).
  assert (H2 : ed_recv_reply d1 = Ret (ret, ses, buf) (with_replies reps d1)) by (cbn; by rewrite Hrep).
  rewrite (bind_ret _ _ _ _ _ H2), Hok. cbn [negb].
  destruct (Z.eqb_spec ses AXIOM_SESSION_EMPTY); [done|].
  destruct (exec_describe_ok node port ses filename argv envp cwd buf (with_replies reps d1) eq_refl Hcwd Hl
    Hfn Ha He Hc) as (evs & -> & Hall).
  exists (EvSession node q :: evs). split; [|by exists evs].
  unfold d1, logged, with_replies. cbn. by rewrite <- app_assoc.
Qed.

(** The nodes that a broadcast contacts, from [node] on. *)
Definition targets (flags self node num : Z) : list Z :=
  List.filter (fun n => negb (negb (Z.land flags AXINIT_EXEC_NOSELF =? 0) && (n =? self)))
    (seqZ node (num - node)).

(** The step to the next node. *)
Lemma exec_next_ok node count d : 0 <= node → node + 1 <= xd_nodes d <= 255 →
  exec_next node count d =
  Ret (if node + 1 <? xd_nodes d then inl (node + 1, count) else inr count) d.
Proof. intros H0 H1. unfold exec_next. rewrite u8_small by lia. done. Qed.

Definition keep (flags self n : Z) : bool :=
  negb (negb (Z.land flags AXINIT_EXEC_NOSELF =? 0) && (n =? self)).

Lemma targets_step flags self node num : node < num →
  targets flags self node num =
  (if keep flags self node then [node] else []) ++ targets flags self (node + 1) num.
Proof.
  intros H. unfold targets. rewrite seqZ_cons by lia. cbn [List.filter]. fold (keep flags self node).
  replace (Z.pred (num - node)) with (num - (node + 1)) by lia.
  replace (Z.succ node) with (node + 1) by lia. by destruct (keep flags self node).
Qed.

(** What the strings must satisfy to be C strings. *)
Definition strings_ok (filename : list Z) (argv envp : option (list (list Z))) (cwd : list Z) : Prop :=
  (0 ∉ filename) ∧ nul_free argv ∧ nul_free envp ∧ (0 ∉ cwd).

(** One turn of the broadcast. *)
Lemma exec_turn_ok port flags filename argv envp cwd node count reps rest d :
  Z.land flags AXINIT_EXEC_BROADCAST ≠ 0 → strings_ok filename argv envp cwd →
  xd_fail d = [] → xd_cwd d = Some cwd → 0 <= node → node + 1 <= xd_nodes d <= 255 →
  xd_replies d = reps ++ rest → Forall reply_ok reps →
  length reps = length (if keep flags (xd_self d) node then [node] else []) →
  ∃ evss, exec_turn port flags filename argv envp (node, count) d =
      Ret (if node + 1 <? xd_nodes d then inl (node + 1, count + alen reps) else inr (count + alen reps))
        (logged (concat evss) (with_replies rest d)) ∧
    Forall3 (node_msgs port filename argv envp cwd)
      (if keep flags (xd_self d) node then [node] else []) reps evss.
Proof using CNOK CPOK.
  intros Hb (Hfn & Ha & He & Hc) Hf Hcwd H0 Hn Hr Hok Hlen.
  unfold exec_turn. unfold mbind at 1, M_bind at 1. cbn [ed_node_id execdev_dev].
  unfold keep in *. destruct (_ && _) eqn:E; cbn [negb] in Hlen |- *.
  - destruct reps; [|done]. cbn in Hr. exists []. split; [|constructor].
    rewrite exec_next_ok by done. change (alen (@nil (Z * Z * list Z))) with 0. rewrite Z.add_0_r.
    f_equal. destruct d. unfold logged, with_replies. cbn in *. subst. by rewrite app_nil_r.
  - destruct reps as [|rep [|? ?]]; [done| |done]. apply Forall_cons in Hok as [Hok _].
    destruct (exec_node_ok node port filename argv envp cwd rep rest d Hf Hcwd Hr Hok Hfn Ha He Hc)
      as (evs & Hev & Hmsgs).
    rewrite (bind_ret _ _ _ _ _ Hev). destruct (Z.eqb_spec (Z.land flags AXINIT_EXEC_BROADCAST) 0); [done|].
    rewrite exec_next_ok by done. exists [evs]. cbn [concat app]. rewrite app_nil_r.
    split; [done|]. repeat constructor. done.
Qed.

Lemma broadcast_loop k fuel port flags filename argv envp cwd node count reps rest d :
  Z.land flags AXINIT_EXEC_BROADCAST ≠ 0 → strings_ok filename argv envp cwd →
  xd_fail d = [] → xd_cwd d = Some cwd → 0 <= node → node + Z.of_nat (S k) = xd_nodes d → xd_nodes d <= 255 →
  (k < fuel)%nat → xd_replies d = reps ++ rest → Forall reply_ok reps →
  length reps = length (targets flags (xd_self d) node (xd_nodes d)) →
  ∃ evss, loop fuel (exec_turn port flags filename argv envp) (node, count) d =
      Ret (count + alen reps) (logged (concat evss) (with_replies rest d)) ∧
    Forall3 (node_msgs port filename argv envp cwd) (targets flags (xd_self d) node (xd_nodes d)) reps evss.
Proof using CNOK CPOK.
  intros Hb Hstr. induction k as [|k IH] in fuel, node, count, reps, d |- *;
    intros Hf Hcwd H0 Hn H255 Hfuel Hr Hok Hlen; (destruct fuel as [|fuel]; [lia|]); cbn [loop];
    rewrite targets_step in Hlen |- * by lia; rewrite length_app in Hlen;
    set (tg := if keep flags (xd_self d) node then [node] else []) in *;
    rewrite <- (take_drop (length tg) reps), <- app_assoc in Hr;
    rewrite <- (take_drop (length tg) reps) in Hok; apply Forall_app in Hok as [Hok1 Hok2];
    (destruct (exec_turn_ok port flags filename argv envp cwd node count (take (length tg) reps)
      (drop (length tg) reps ++ rest) d Hb Hstr Hf Hcwd H0 ltac:(lia) Hr Hok1) as (ev1 & Ht & Hm1);
      [rewrite length_take; fold tg; lia|]);
    rewrite (bind_ret _ _ _ _ _ Ht); fold tg in Hm1.
  - destruct (Z.ltb_spec (node + 1) (xd_nodes d)); [lia|]. exists ev1.
    assert (Htl : targets flags (xd_self d) (node + 1) (xd_nodes d) = [])
      by (unfold targets; rewrite seqZ_nil by lia; done).
    rewrite Htl in Hlen |- *. cbn in Hlen. rewrite take_ge in Hm1 |- * by lia. rewrite drop_ge by lia.
    rewrite app_nil_r. done.
  - destruct (Z.ltb_spec (node + 1) (xd_nodes d)); [|lia].
    set (d1 := logged _ _) in *.
    destruct (IH fuel (node + 1) (count + alen (take (length tg) reps)) (drop (length tg) reps) d1)
      as (ev2 & Hl & Hm2); try done; try lia.
    { unfold d1. cbn. lia. }
    { rewrite length_drop. unfold d1. cbn [xd_self xd_nodes logged with_replies]. lia. }
    exists (ev1 ++ ev2). split.
    + rewrite Hl. f_equal; [rewrite <- Z.add_assoc, <- alen_app, take_drop; done|].
      unfold d1, logged, with_replies. cbn. by rewrite concat_app, <- app_assoc.
    + rewrite <- (take_drop (length tg) reps). by apply Forall3_app.
Qed.

(** A broadcast reaches every node once: when no send fails and every daemon
    grants a session, [axinit_execvpe] in broadcast mode asks each node of the
    network in turn (the own one only without NOSELF) for a session, sends it the
    complete description of the program under the session it was granted, sends
    nothing else, reads one reply per node and returns the number of nodes. *)
Theorem execvpe_broadcast fuel port node0 flags filename argv envp cwd reps rest d :
  Z.land flags AXINIT_EXEC_BROADCAST ≠ 0 → strings_ok filename argv envp cwd →
  xd_fail d = [] → xd_cwd d = Some cwd → 0 < xd_nodes d <= 255 → (Z.to_nat (xd_nodes d) <= fuel)%nat →
  xd_replies d = reps ++ rest → Forall reply_ok reps →
  length reps = length (targets flags (xd_self d) 0 (xd_nodes d)) →
  ∃ evss d', axinit_execvpe fuel port node0 flags filename argv envp d = Ret (alen reps) d' ∧
    xd_log d' = xd_log d ++ concat evss ∧ xd_replies d' = rest ∧
    Forall3 (node_msgs port filename argv envp cwd) (targets flags (xd_self d) 0 (xd_nodes d)) reps evss.
Proof using CNOK CPOK.
  intros Hb Hstr Hf Hcwd Hn Hfuel Hr Hok Hlen. unfold axinit_execvpe.
  destruct (Z.eqb_spec (Z.land flags AXINIT_EXEC_BROADCAST) 0); [done|].
  destruct (broadcast_loop (Z.to_nat (xd_nodes d) - 1) fuel port flags filename argv envp cwd 0 0 reps rest d)
    as (evss & Hl & Hm); try done; try lia.
  rewrite Hl. eexists evss, _. split; [done|]. done.
Qed.
End Messages.

(** ** Client and daemon together *)

Section Conversation.
Context `{CP : SpawnConsts} {CPOK : SpawnConstsOk}.

(** The daemon receives the first [size] bytes of the data into a buffer whose
    other bytes are left from earlier messages. *)
Definition delivered (e : exec_event) (q : spawn_req) : Prop :=
  match e with
  | EvSession _ _ => False
  | EvSpawn _ p size =>
      sp_command q = sp_command p ∧ sp_session q = sp_session p ∧ sp_flags q = sp_flags p ∧
      sp_type q = sp_type p ∧ alen (sp_bytes q) = AXIOM_SPAWN_MAX_DATA_SIZE ∧
      take (Z.to_nat size) (sp_bytes q) = take (Z.to_nat size) (sp_bytes p)
  end.

(** The request [q] brings the message [x] of session [ses] to the daemon. *)
Record brings (ses : Z) (x : Z * spawn_type * list Z) (q : spawn_req) : Prop := {
  br_cmd : sp_command q = AXIOM_CMD_SPAWN_REQ; br_ses : sp_session q = ses;
  br_flags : sp_flags q = x.1.1; br_type : sp_type q = x.1.2;
  br_len : alen (sp_bytes q) = AXIOM_SPAWN_MAX_DATA_SIZE;
  br_str : msg_str (sp_bytes q) = x.2
}.

Lemma delivered_brings node ses x e q : carries node ses x e → delivered e q →
  alen x.2 < AXIOM_SPAWN_MAX_DATA_SIZE → brings ses x q.
Proof using CPOK.
  intros (buf & -> & Hl & Hh) (Hc & Hs & Hf & Ht & Hlq & Hb) Hlen. cbn in *.
  split; try done. unfold msg_str. apply cstr_of_holds. unfold alen in *.
  rewrite take_ge in Hh by lia. destruct Hh as [Hnz [rest ->]]. split; [done|].
  replace (Z.to_nat (Z.of_nat (length x.2) + 1)) with (length x.2 + 1)%nat in Hb by lia.
  rewrite take_app_add in Hb. cbn in Hb.
  rewrite <- (take_drop (length x.2 + 1) (sp_bytes q)), Hb, <- app_assoc. cbn [app].
  set (tl := drop _ _). unfold aset. destruct (Z.ltb_spec (AXIOM_SPAWN_MAX_DATA_SIZE - 1) 0); [lia|].
  set (n := Z.to_nat (AXIOM_SPAWN_MAX_DATA_SIZE - 1)).
  rewrite insert_app_r_alt by lia. destruct (n - length x.2)%nat as [|j]; cbn; by eexists.
Qed.

Lemma spec_other m U p ses : sp_session p ≠ ses →
  let '(m', U', _) := spec_of m U p in m' !! ses = m !! ses ∧ (ses ∈ U' ↔ ses ∈ U).
Proof.
  intros Hne. unfold spec_of, spec_req, spec_finish.
  repeat case_match; simplify_eq; try done; split; try done;
    rewrite ?lookup_insert_ne, ?lookup_delete_ne by done; try done; set_solver.
Qed.

(** The requests of [ses] between its first and its last one are collected,
    whatever other sessions send in between. *)
Lemma spec_collect ses x l m U : ses ∈ U → m !! ses = Some x →
  (∀ q, q ∈ l → sp_session q = ses → ∃ y, brings ses y q ∧ y.1.1 = 0) →
  let '(m', U', _) := spec_spawn_run m U l in
  ses ∈ U' ∧ m' !! ses = Some (foldl (fun x q => desc_store (sp_type q) (msg_str (sp_bytes q)) x) x
    (List.filter (fun q => sp_session q =? ses) l)).
Proof.
  induction l as [|q l IH] in x, m, U |- *; intros Hu Hx Hl; [done|]. cbn [spec_spawn_run List.filter].
  destruct (Z.eqb_spec (sp_session q) ses) as [Hs|Hs].
  - destruct (Hl q ltac:(set_solver) Hs) as (y & [Hcmd _ Hfl _ _ _] & Hy).
    assert (Hq : spec_of m U q = (<[ses := desc_store (sp_type q) (msg_str (sp_bytes q)) x]> m, U, None)).
    { unfold spec_of, spec_req, spec_finish. rewrite Hcmd, Z.eqb_refl, Hs, bool_decide_true by done.
      cbn [negb]. rewrite Hx, Hfl, Hy, !Z.land_0_l. done. }
    rewrite Hq. specialize (IH (desc_store (sp_type q) (msg_str (sp_bytes q)) x)
      (<[ses := desc_store (sp_type q) (msg_str (sp_bytes q)) x]> m) U Hu).
    destruct (spec_spawn_run _ U l) as [[m2 U2] calls]. cbn [foldl].
    apply IH; [by rewrite lookup_insert_eq|set_solver].
  - pose proof (spec_other m U q ses Hs) as Ho. destruct (spec_of m U q) as [[m1 U1] c].
    destruct Ho as [Hm HU]. specialize (IH x m1 U1).
    destruct (spec_spawn_run m1 U1 l) as [[m2 U2] calls]. apply IH; [by apply HU|congruence|set_solver].
Qed.

(** The strings of the messages collected in order. *)
Lemma collect_brings ses xs qs d0 : Forall2 (brings ses) xs qs →
  foldl (fun x q => desc_store (sp_type q) (msg_str (sp_bytes q)) x) d0 qs =
  foldl (fun x y => desc_store y.1.2 y.2 x) d0 xs.
Proof.
  intros H. induction H as [|x q xs qs [] _ IH] in d0 |- *; [done|]. cbn.
  by rewrite IH, br_type0, br_str0.
Qed.

Lemma collect_args l d0 :
  foldl (fun x y => desc_store y.1.2 y.2 x) d0 ((fun s => (0, AXIOM_SPAWN_TYPE_ARG, s)) <$> l) =
  mk_desc (d_exec d0) (d_cwd d0) (d_args d0 ++ (Some <$> l)) (d_env d0).
Proof.
  induction l as [|s l IH] in d0 |- *; cbn; [by destruct d0; cbn; rewrite app_nil_r|].
  rewrite IH. cbn. by rewrite <- app_assoc.
Qed.

Lemma collect_env l d0 :
  foldl (fun x y => desc_store y.1.2 y.2 x) d0 ((fun s => (0, AXIOM_SPAWN_TYPE_ENV, s)) <$> l) =
  mk_desc (d_exec d0) (d_cwd d0) (d_args d0) (d_env d0 ++ (Some <$> l)).
Proof.
  induction l as [|s l IH] in d0 |- *; cbn; [by destruct d0; cbn; rewrite app_nil_r|].
  rewrite IH. cbn. by rewrite <- app_assoc.
Qed.

Lemma spec_run_app m U l1 l2 :
  spec_spawn_run m U (l1 ++ l2) =
  let '(m1, U1, c1) := spec_spawn_run m U l1 in
  let '(m2, U2, c2) := spec_spawn_run m1 U1 l2 in (m2, U2, c1 ++ c2).
Proof.
  induction l1 as [|q l1 IH] in m, U |- *; cbn; [by destruct (spec_spawn_run m U l2) as [[? ?] ?]|].
  destruct (spec_of m U q) as [[m1 U1] c]. rewrite IH.
  destruct (spec_spawn_run m1 U1 l1) as [[? ?] ?]. by destruct (spec_spawn_run _ _ l2) as [[? ?] ?].
Qed.

(** The program that the client describes. *)
Definition program (filename : list Z) (argv envp : option (list (list Z))) (cwd : list Z) : dcall :=
  mk_dcall (Some cwd) (Some filename) ((Some <$> default [] argv) ++ [None])
    ((Some <$> default [] envp) ++ [None]).

(** The whole conversation of a session at the daemon. *)
Lemma spec_conversation ses filename argv envp cwd m U q1 mid q2 :
  ses ∈ U → (is_Some (m !! ses) ∨ (size m < 4)%nat) →
  Forall2 (brings ses) (script filename argv envp cwd)
    (q1 :: List.filter (fun q => sp_session q =? ses) mid ++ [q2]) →
  let '(m', U', calls) := spec_spawn_run m U (q1 :: mid ++ [q2]) in
  m' !! ses = None ∧ (ses ∉ U') ∧ last calls = Some (Some (program filename argv envp cwd)).
Proof using CPOK.
  intros Hu Hm H. unfold script in H. rewrite app_assoc in H.
  inversion H as [|x1 ? xs ? Hb1 Hrest]; subst. clear H.
  apply Forall2_app_inv in Hrest as [Hmid Hlast].
  2:{ apply Forall2_length in Hrest. repeat rewrite length_app in Hrest. rewrite length_app. cbn in Hrest. lia. }
  inversion Hlast as [|x2 ? ? ? Hb2 _]; subst.
  set (desc1 := desc_store AXIOM_SPAWN_TYPE_EXE filename desc0).
  assert (H1 : spec_of m U q1 = (<[ses := desc1]> m, U, None)).
  { destruct Hb1 as [Hcmd Hses Hfl Hty _ Hstr]. cbn in Hfl, Hty, Hstr.
    unfold spec_of, spec_req, spec_finish. rewrite Hcmd, Z.eqb_refl, Hses, Hfl, Hty, Hstr, bool_decide_true by done.
    cbn [negb]. rewrite Z.land_diag, spawn_flags_apart, Z.eqb_refl.
    destruct (Z.eqb_spec AXIOM_SPAWN_FLAG_RESET 0) as [E|_]; [by apply spawn_reset_nonzero in E|].
    destruct (m !! ses) eqn:Em; [done|]. destruct Hm as [[? ?]|Hm]; [done|].
    destruct (Nat.leb_spec 4 (size m)); [lia|done]. }
  cbn [spec_spawn_run]. rewrite H1, spec_run_app.
  pose proof (spec_collect ses desc1 mid (<[ses := desc1]> m) U Hu (lookup_insert_eq _ _ _)) as Hc.
  destruct (spec_spawn_run (<[ses:=desc1]> m) U mid) as [[m1 U1] c1].
  destruct Hc as [Hu1 Hm1].
  { intros q Hq Hs. assert (Hin : q ∈ List.filter (fun q => sp_session q =? ses) mid).
    { apply list_elem_of_In, filter_In. split; [by apply list_elem_of_In|]. by apply Z.eqb_eq. }
    apply list_elem_of_lookup in Hin as [k Hk].
    destruct (Forall2_lookup_r _ _ _ _ _ Hmid Hk) as (y & Hy & Hbr). exists y. split; [done|].
    apply list_elem_of_lookup_2, elem_of_app in Hy.
    destruct Hy as [Hy|Hy]; apply list_elem_of_fmap in Hy as (? & -> & _); done. }
  rewrite (collect_brings ses _ _ _ Hmid), foldl_app, collect_args, collect_env in Hm1.
  cbn [spec_spawn_run]. destruct Hb2 as [Hcmd Hses Hfl Hty _ Hstr]. cbn in Hm1, Hfl, Hty, Hstr.
  unfold spec_of, spec_req, spec_finish. rewrite Hcmd, Z.eqb_refl, Hses, bool_decide_true by done. cbn [negb].
  rewrite Hm1, Hfl, Hty, Hstr, (Z.land_comm AXIOM_SPAWN_FLAG_EXEC AXIOM_SPAWN_FLAG_RESET),
    spawn_flags_apart, Z.eqb_refl, Z.land_diag.
  destruct (Z.eqb_spec AXIOM_SPAWN_FLAG_EXEC 0) as [E|_]; [by apply spawn_exec_nonzero in E|].
  split; [by rewrite lookup_delete_eq|]. split.
  - intros [_ Hn]%elem_of_difference. by apply Hn, elem_of_singleton.
  - by rewrite app_comm_cons, last_snoc.
Qed.
End Conversation.

Section EndToEnd.
Context `{CN : NicConsts} {CNOK : NicConstsOk} `{CS : SessionConsts} {CSOK : SessionConstsOk}.
Context `{CP : SpawnConsts} {CPOK : SpawnConstsOk} `{LY : SpawnLayout}.
Context {St : Type} `{SS : SessionService St} {SL : SessionLaws St}.

(** The strings fit into one message each. *)
Definition strings_short (filename : list Z) (argv envp : option (list (list Z))) (cwd : list Z) : Prop :=
  Forall (fun x => alen x.2 < AXIOM_SPAWN_MAX_DATA_SIZE) (script filename argv envp cwd).

(** How the messages [evs] of a session arrive at the daemon: in order, with
    requests of other sessions in any number after the first one. *)
Definition arrives (ses : Z) (evs : list exec_event) (qs : list spawn_req) : Prop :=
  ∃ q1 mid q2, qs = q1 :: mid ++ [q2] ∧ Forall spawn_ok qs ∧
    Forall2 delivered evs (q1 :: List.filter (fun q => sp_session q =? ses) mid ++ [q2]).

Lemma arrives_brings node ses xs evs qs : Forall2 (carries node ses) xs evs → Forall2 delivered evs qs →
  Forall (fun x => alen x.2 < AXIOM_SPAWN_MAX_DATA_SIZE) xs → Forall2 (brings ses) xs qs.
Proof using CPOK.
  intros H1. induction H1 as [|x e xs evs Hc _ IH] in qs |- *; intros H2 Hs; inversion H2; subst; [done|].
  apply Forall_cons in Hs as [Hx Hs]. constructor; [by eapply delivered_brings|by apply IH].
Qed.

(** C19. A program described by the client is the program that the daemon
    starts, when each of its strings fits into one message with its terminator: when
    the sends succeed and the daemon granted a session that has room in its table, the
    call returns 1, and however the daemon's buffers were filled before and whatever
    requests of other sessions (but the number 32) come meanwhile, the last message
    makes the daemon start exactly the given executable with the given
    arguments, environment and working directory (the arrays terminated by
    NULL), release the session and free its entry. *)
Theorem execvpe_spawn fuel port node flags filename argv envp cwd rep reps d tbl st :
  Z.land flags AXINIT_EXEC_BROADCAST = 0 → Z.land flags AXINIT_EXEC_NOSELF = 0 →
  strings_ok filename argv envp cwd → strings_short filename argv envp cwd →
  xd_fail d = [] → xd_cwd d = Some cwd → xd_replies d = rep :: reps → reply_ok rep → (0 < fuel)%nat →
  tbl_ok tbl → session_ok st → rep.1.2 ∈ in_use st →
  (is_Some (abs_tbl tbl !! rep.1.2) ∨ (size (abs_tbl tbl) < 4)%nat) →
  ∃ evs d', axinit_execvpe fuel port node flags filename argv envp d = Ret 1 d' ∧
    xd_log d' = xd_log d ++
      EvSession node (mk_session_req AXIOM_CMD_SESSION_REQ port AXIOM_SESSION_EMPTY) :: evs ∧
    ∀ qs, arrives rep.1.2 evs qs →
      ∃ tbl' st' calls, spawn_run tbl st qs = Some (tbl', st', calls) ∧
        last calls = Some (Some (program filename argv envp cwd)) ∧
        (rep.1.2 ∉ in_use st') ∧ abs_tbl tbl' !! rep.1.2 = None.
Proof using CNOK CSOK CPOK SL.
  intros Hb Hns (Hfn & Ha & He & Hc) Hshort Hf Hcwd Hr Hok Hfuel Htbl Hst Hu Hroom.
  destruct (exec_node_ok node port filename argv envp cwd rep reps d Hf Hcwd Hr Hok Hfn Ha He Hc)
    as (evs0 & Hev & evs & -> & Hcarry).
  exists evs, (logged (EvSession node (mk_session_req AXIOM_CMD_SESSION_REQ port AXIOM_SESSION_EMPTY) :: evs)
    (with_replies reps d)). split; [|split; [reflexivity|]].
  { unfold axinit_execvpe. destruct fuel as [|fuel]; [lia|]. cbn [loop]. rewrite Hb. cbn [Z.eqb].
    unfold exec_turn, mbind at 1, M_bind at 1. unfold mbind at 1, M_bind at 1. cbn [ed_node_id execdev_dev].
    rewrite Hns. cbn [Z.eqb negb andb]. rewrite (bind_ret _ _ _ _ _ Hev). rewrite Hb. reflexivity. }
  intros qs (q1 & mid & q2 & -> & Hqs & Hdel).
  pose proof (arrives_brings _ _ _ _ _ Hcarry Hdel Hshort) as Hbr.
  destruct (spawn_run_refines tbl st _ Htbl Hst Hqs) as (tbl' & st' & calls & Hrun & _ & _ & Hspec).
  pose proof (spec_conversation rep.1.2 filename argv envp cwd _ _ q1 mid q2 Hu Hroom Hbr) as Hconv.
  rewrite Hspec in Hconv. destruct Hconv as (Hm & HU & Hl). by exists tbl', st', calls.
Qed.
End EndToEnd.

(** ** Evaluation *)

Section Examples.
#[local] Existing Instance nic8.
#[local] Existing Instance nic8_ok.
#[local] Instance x_session : SessionConsts := {|
  AXIOM_SESSION_EMPTY := 255; AXIOM_CMD_SESSION_REQ := 5; AXIOM_CMD_SESSION_REPLY := 6 |}.
#[local] Instance x_session_ok : SessionConstsOk.
Proof. split. cbn. lia. Qed.
#[local] Instance x_spawn : SpawnConsts := {|
  AXIOM_CMD_SPAWN_REQ := 7; AXIOM_SPAWN_FLAG_RESET := 1; AXIOM_SPAWN_FLAG_EXEC := 2;
  AXIOM_SPAWN_MAX_DATA_SIZE := 6 |}.
#[local] Instance x_spawn_ok : SpawnConstsOk.
Proof. by split. Qed.
#[local] Instance x_layout : SpawnLayout := {| spawn_overlay p := sp_session p |}.

Definition x_rep (ses : Z) : Z * Z * list Z := (0, ses, [9; 9; 9; 9; 9; 9]).
Definition x_dev (self nodes : Z) (reps : list (Z * Z * list Z)) : execdev :=
  mk_execdev self nodes reps (Some [47]) [] [].

(** The sessions 0 and 1 are in use. *)
Definition x_word : Z := 2 ^ 32 - 4.

Lemma x_word_ok : session_ok x_word.
Proof. split; vm_compute; done. Qed.

(** The program "a" with the argument "a" and the environment "b=c" in "/",
    received over stale data, while another session sends an argument. *)
Definition x_req (ses flags : Z) (ty : spawn_type) (bytes : list Z) : spawn_req :=
  mk_spawn_req 7 ses flags ty bytes.
Definition x_qs : list spawn_req :=
  [x_req 0 1 AXIOM_SPAWN_TYPE_EXE [97; 0; 8; 8; 8; 8]; x_req 1 0 AXIOM_SPAWN_TYPE_ARG [98; 98; 0; 8; 8; 8];
   x_req 0 0 AXIOM_SPAWN_TYPE_ARG [97; 0; 0; 8; 8; 8]; x_req 0 0 AXIOM_SPAWN_TYPE_ENV [98; 61; 99; 0; 8; 8];
   x_req 0 2 AXIOM_SPAWN_TYPE_CWD [47; 0; 99; 0; 8; 8]].

Example x_run : match spawn_run axiom_spawn_init x_word x_qs with
  | Some (_, w, calls) => w = x_word + 1 ∧ last calls = Some (Some (program [97] (Some [[97]]) (Some [[98; 61; 99]]) [47]))
  | None => False
  end.
Proof. vm_compute. done. Qed.

Lemma x_qs_ok : Forall spawn_ok x_qs.
Proof. repeat (apply Forall_cons; split; [by split_and!|]). constructor. Qed.

Lemma spawn_refines_witness :
  ∃ tbl' st' calls, spawn_run axiom_spawn_init x_word x_qs = Some (tbl', st', calls) ∧
    (size (abs_tbl tbl') <= 4)%nat.
Proof.
  assert (Hwf : Forall spawn_wf x_qs) by (eapply Forall_impl; [exact x_qs_ok|]; by intros p [? _]%spawn_ok_wf).
  destruct (spawn_refines x_word x_qs x_word_ok Hwf) as (tbl' & st' & calls & Hr & _ & Hs).
  exists tbl', st', calls. split; [exact Hr|exact Hs].
Defined.

Lemma x_strings_ok : strings_ok [97] (Some [[97]]) (Some [[98; 61; 99]]) [47].
Proof. split_and!; try set_solver; (constructor; [set_solver|constructor]). Qed.

Lemma execvpe_broadcast_witness :
  ∃ d', axinit_execvpe 3 9 0 3 [97] None None (x_dev 1 3 [x_rep 4; x_rep 5]) = Ret 2 d' ∧ xd_replies d' = [].
Proof.
  destruct (execvpe_broadcast 3 9 0 3 [97] None None [47] [x_rep 4; x_rep 5] []
    (x_dev 1 3 [x_rep 4; x_rep 5])) as (evss & d' & Heq & _ & Hr & _); try done.
  - split_and!; try set_solver; constructor.
  - repeat (apply Forall_cons; split; [by split_and!|]). constructor.
  - exists d'. split; [exact Heq|exact Hr].
Defined.

Lemma execvpe_spawn_witness :
  ∃ d', axinit_execvpe 1 9 2 0 [97] (Some [[97]]) (Some [[98; 61; 99]]) (x_dev 1 3 [x_rep 0]) = Ret 1 d' ∧
  ∃ tbl' st' calls, spawn_run axiom_spawn_init x_word x_qs = Some (tbl', st', calls) ∧
    last calls = Some (Some (program [97] (Some [[97]]) (Some [[98; 61; 99]]) [47])) ∧ 0 ∉ in_use st'.
Proof.
  destruct (execvpe_spawn 1 9 2 0 [97] (Some [[97]]) (Some [[98; 61; 99]]) [47] (x_rep 0) []
    (x_dev 1 3 [x_rep 0]) axiom_spawn_init x_word) as (evs & d' & Heq & Hlog & Hdaemon); try done.
  - exact x_strings_ok.
  - repeat (apply Forall_cons; split; [done|]). constructor.
  - lia.
  - apply spawn_init_ok.
  - right. destruct spawn_init_ok as [_ ->]. rewrite map_size_empty. lia.
  - exists d'. split; [exact Heq|]. vm_compute in Heq. injection Heq as <-. cbn in Hlog. injection Hlog as <-.
    destruct (Hdaemon x_qs) as (tbl' & st' & calls & Hrun & Hlast & Hfree & _); [|exists tbl', st', calls; split; [exact Hrun|by split]].
    eexists _, [_; _; _], _. split; [reflexivity|]. split; [exact x_qs_ok|]. cbn.
    repeat (constructor; [by split_and!|]). constructor.
Defined.
End Examples.
