(* ===== verification/Daemon.v ===== *)
(** * The main loop of the daemon (axiom-init/axiom-init.c)

    The daemon waits for messages of other nodes and of programs on its own node
    and gives each to the service that its command names.  The session and the
    spawn service share the state of the daemon; the calls of the others are
    recorded. *)

From stdpp Require Import gmap.
From S2P Require Import Prelude Nic CStrings Session Spawn.

(** The commands of the driver's headers that have no service elsewhere in this
    development. *)
Class InitConsts := {
  AXIOM_DSCV_CMD_REQ_ID : Z;
  AXIOM_CMD_START_DISCOVERY : Z;
  AXIOM_CMD_PING : Z;
  AXIOM_CMD_TRACEROUTE : Z;
  AXIOM_CMD_ALLOC : Z;
  AXIOM_CMD_ALLOC_APPID : Z;
  AXIOM_CMD_ALLOC_RELEASE : Z
}.

(** How the headers lay out the messages of the two services over a payload. *)
Class InitLayout := {
  init_command : list Z → Z;
  as_session : list Z → session_req;
  as_spawn : list Z → spawn_req
}.

(** One turn of [select]: it fails, the Unix socket has a datagram, or the device
    has a message (its source, the command that [axiom_recv_init] reports and the
    payload); [None] is a failed reception.  [stale] is what the variable
    [src] of the turn happens to hold: only the device sets it. *)
Inductive init_event :=
  | SelectFail (eintr : bool)
  | FromSocket (stale : Z) (payload : option (list Z))
  | FromDevice (m : option (Z * Z * list Z)).

(** What a turn does besides the state: the call of a service of another file, an
    answer, the start of a program, the table saved, or a message discarded. *)
Inductive action :=
  | DiscoverySlave (src : Z) (payload : list Z)
  | DiscoveryMaster
  | SaveTable
  | Pong (src : Z) (payload : list Z)
  | TracerouteReply (src : Z) (payload : list Z)
  | AllocatorL1 (src : Z) (payload : list Z)
  | Reply (r : session_reply)
  | Start (c : dcall)
  | Discarded.

(** The static variables of the two services. *)
Record istate := mk_istate { is_sessions : Z; is_spawns : list info }.

Section Code.
Context `{CS : SessionConsts} `{CP : SpawnConsts} `{IC : InitConsts} `{LY : InitLayout}.

Definition istate0 : istate := mk_istate sessions0 axiom_spawn_init.

Definition save (save_rt : bool) : list action := if save_rt then [SaveTable] else [].

(** The [switch] on the command; [None]: undefined behaviour or a failed
    assertion of a service. *)
Definition dispatch (save_rt : bool) (cmd src : Z) (payload : list Z) (st : istate) : option (istate * list action) :=
  if cmd =? AXIOM_DSCV_CMD_REQ_ID then Some (st, DiscoverySlave src payload :: save save_rt)
  else if cmd =? AXIOM_CMD_START_DISCOVERY then Some (st, DiscoveryMaster :: save save_rt)
  else if cmd =? AXIOM_CMD_PING then Some (st, [Pong src payload])
  else if cmd =? AXIOM_CMD_TRACEROUTE then Some (st, [TracerouteReply src payload])
  else if cmd =? AXIOM_CMD_SPAWN_REQ then
    '(spawns, sessions, call) ← axiom_spawn_req (is_spawns st) (is_sessions st) (as_spawn payload);
    Some (mk_istate sessions spawns, match call with Some c => [Start c] | None => [] end)
  else if cmd =? AXIOM_CMD_SESSION_REQ then
    '(sessions, r) ← axiom_session (is_sessions st) src (as_session payload);
    Some (mk_istate sessions (is_spawns st), match r with Some y => [Reply y] | None => [] end)
  else if (cmd =? AXIOM_CMD_ALLOC) || (cmd =? AXIOM_CMD_ALLOC_APPID) || (cmd =? AXIOM_CMD_ALLOC_RELEASE) then
    Some (st, [AllocatorL1 src payload])
  else Some (st, [Discarded]).

(** One turn: [inr] leaves the loop. *)
Definition init_turn (save_rt : bool) (e : init_event) (st : istate) : option (istate * list action + unit) :=
  match e with
  | SelectFail eintr => Some (if eintr then inl (st, []) else inr tt)
  | FromSocket _ None | FromDevice None => Some (inr tt)
  | FromSocket stale (Some payload) => x ← dispatch save_rt (init_command payload) stale payload st; Some (inl x)
  | FromDevice (Some (src, cmd, payload)) => x ← dispatch save_rt cmd src payload st; Some (inl x)
  end.

(** The loop over the events: the final state, the actions and whether the loop
    was left. *)
Fixpoint init_loop (save_rt : bool) (evs : list init_event) (st : istate) : option (istate * list action * bool) :=
  match evs with
  | [] => Some (st, [], false)
  | e :: evs =>
      x ← init_turn save_rt e st;
      match x with
      | inr _ => Some (st, [], true)
      | inl (st, acts) => '(st, acts', ended) ← init_loop save_rt evs st; Some (st, acts ++ acts', ended)
      end
  end.
End Code.

(** ** The daemon refines a set of sessions and a map of programs *)

Section Refinement.
Context `{CS : SessionConsts} {CSOK : SessionConstsOk} `{CP : SpawnConsts} {CPOK : SpawnConstsOk}.
Context `{IC : InitConsts} `{LY : InitLayout}.

(** What the code relies on: the commands of the two services are no others. *)
Hypothesis commands_apart :
  (AXIOM_CMD_SPAWN_REQ ∉ [AXIOM_DSCV_CMD_REQ_ID; AXIOM_CMD_START_DISCOVERY; AXIOM_CMD_PING; AXIOM_CMD_TRACEROUTE]) ∧
  (AXIOM_CMD_SESSION_REQ ∉ [AXIOM_DSCV_CMD_REQ_ID; AXIOM_CMD_START_DISCOVERY; AXIOM_CMD_PING; AXIOM_CMD_TRACEROUTE;
                           AXIOM_CMD_SPAWN_REQ]).

(** Payloads as the driver delivers them: spawn messages with their whole data
    buffer, sessions that are numbers of a byte. *)
Definition payload_ok (cmd : Z) (b : list Z) : Prop :=
  (cmd = AXIOM_CMD_SPAWN_REQ → spawn_wf (as_spawn b)) ∧
  (cmd = AXIOM_CMD_SESSION_REQ → 0 <= sr_session (as_session b)).

(** Payloads with the session 32, which the services do not survive. *)
Definition payload_32 (cmd : Z) (b : list Z) : bool :=
  ((cmd =? AXIOM_CMD_SPAWN_REQ) && spawn_asks_32 (as_spawn b)) || ((cmd =? AXIOM_CMD_SESSION_REQ) && asks_32 (as_session b)).

Definition event_payload (e : init_event) : option (Z * list Z) :=
  match e with
  | SelectFail _ => None
  | FromSocket _ b => (fun b => (init_command b, b)) <$> b
  | FromDevice m => (fun m => (m.1.2, m.2)) <$> m
  end.
Definition event_ok (e : init_event) : Prop :=
  match event_payload e with Some (cmd, b) => payload_ok cmd b | None => True end.

Definition event_32 (e : init_event) : bool :=
  match event_payload e with Some (cmd, b) => payload_32 cmd b | None => false end.

(** The abstract daemon: the programs being described and the sessions in use,
    with the sessions granted and the programs started. *)
Definition adaemon : Type := gmap Z desc * gset Z.
Definition spec_message (s : adaemon) (cmd : Z) (b : list Z) : adaemon * (option Z * option dcall) :=
  if cmd =? AXIOM_CMD_SPAWN_REQ then
    let '(m, U, call) := spec_of s.1 s.2 (as_spawn b) in ((m, U), (None, call))
  else if cmd =? AXIOM_CMD_SESSION_REQ then
    let '(U, granted) := spec_step s.2 (op_of (as_session b)) in ((s.1, U), (granted, None))
  else (s, (None, None)).

(** Events after which the loop is left. *)
Definition ends (e : init_event) : bool :=
  match e with SelectFail eintr => negb eintr | FromSocket _ None | FromDevice None => true | _ => false end.

Fixpoint spec_loop (s : adaemon) (evs : list init_event) : adaemon * list (option Z * option dcall) * bool :=
  match evs with
  | [] => (s, [], false)
  | e :: evs =>
      if ends e then (s, [], true) else
      match event_payload e with
      | None => spec_loop s evs
      | Some (cmd, b) => let '(s, o) := spec_message s cmd b in
                  let '(s, os, ended) := spec_loop s evs in (s, o :: os, ended)
      end
  end.

(** The events that the loop takes before it is left. *)
Fixpoint taken (evs : list init_event) : list init_event :=
  match evs with [] => [] | e :: evs => if ends e then [] else e :: taken evs end.

(** The sessions granted and the programs started, in order. *)
Definition granted_of (a : action) : option Z := match a with Reply r => Some (rp_session r) | _ => None end.
Definition started_of (a : action) : option dcall := match a with Start c => Some c | _ => None end.

Definition abs (st : istate) : adaemon := (abs_tbl (is_spawns st), word_used (is_sessions st)).
Definition istate_ok (st : istate) : Prop := word_ok (is_sessions st) ∧ tbl_ok (is_spawns st).

Lemma in_use_word (w : Z) : in_use w = word_used w.
Proof. reflexivity. Qed.

Lemma spawn_message b st : istate_ok st → spawn_wf (as_spawn b) → spawn_asks_32 (as_spawn b) = false →
  ∃ t' w' call, axiom_spawn_req (is_spawns st) (is_sessions st) (as_spawn b) = Some (t', w', call) ∧
    istate_ok (mk_istate w' t') ∧ spec_message (abs st) AXIOM_CMD_SPAWN_REQ b = (abs (mk_istate w' t'), (None, call)).
Proof using CSOK CPOK.
  intros [Hw Ht] Hsp H32. unfold spec_message, abs. rewrite Z.eqb_refl. cbn [fst snd is_spawns is_sessions].
  destruct (spawn_step (SL := session_word_laws) (is_spawns st) (is_sessions st) (as_spawn b) Ht Hw Hsp H32)
    as (t' & w' & call & Heq & Ht' & Hw' & Habs).
  exists t', w', call. split; [exact Heq|]. split; [split; [exact Hw'|exact Ht']|].
  rewrite (in_use_word w'), (in_use_word (is_sessions st)) in Habs. rewrite <- Habs. reflexivity.
Qed.

Lemma session_message src b st : istate_ok st → 0 <= sr_session (as_session b) → asks_32 (as_session b) = false →
  AXIOM_CMD_SESSION_REQ ≠ AXIOM_CMD_SPAWN_REQ →
  ∃ w' r, axiom_session (is_sessions st) src (as_session b) = Some (w', r) ∧
    istate_ok (mk_istate w' (is_spawns st)) ∧
    spec_message (abs st) AXIOM_CMD_SESSION_REQ b = (abs (mk_istate w' (is_spawns st)), (rp_session <$> r, None)).
Proof using CSOK.
  intros [Hw Ht] H0 H32 Hne. unfold spec_message, abs. rewrite (proj2 (Z.eqb_neq _ _) Hne), Z.eqb_refl.
  cbn [fst snd is_spawns is_sessions].
  destruct (session_step (is_sessions st) src (as_session b) Hw H0 H32) as (w' & r & Heq & Hw' & Hs & _).
  exists w', r. split; [exact Heq|]. split; [split; [exact Hw'|exact Ht]|]. by rewrite Hs.
Qed.

Lemma dispatch_refines save_rt cmd src b st : istate_ok st → payload_ok cmd b → payload_32 cmd b = false →
  ∃ st' acts, dispatch save_rt cmd src b st = Some (st', acts) ∧ istate_ok st' ∧
    spec_message (abs st) cmd b = (abs st', (head (omap granted_of acts), head (omap started_of acts))) ∧
    (length (omap granted_of acts) <= 1)%nat ∧ (length (omap started_of acts) <= 1)%nat.
Proof using CSOK CPOK commands_apart.
  intros Hst [Hsp Hse] H32. destruct commands_apart as [A1 A2]. unfold payload_32 in H32. apply orb_false_iff in H32 as [H32 H32'].
  unfold dispatch.
  destruct (Z.eq_dec cmd AXIOM_CMD_SPAWN_REQ) as [->|E].
  { rewrite Z.eqb_refl in H32. destruct (spawn_message b st Hst (Hsp eq_refl) H32) as (t' & w' & call & -> & Hok & ->).
    rewrite !not_elem_of_cons in A1. destruct A1 as (B1 & B2 & B3 & B4 & _). rewrite Z.eqb_refl.
    rewrite (proj2 (Z.eqb_neq _ _) B1), (proj2 (Z.eqb_neq _ _) B2), (proj2 (Z.eqb_neq _ _) B3), (proj2 (Z.eqb_neq _ _) B4).
    cbn [mbind option_bind]. eexists _, _. split; [reflexivity|]. split; [exact Hok|].
    destruct call; (split; [reflexivity|]); cbn; lia. }
  destruct (Z.eq_dec cmd AXIOM_CMD_SESSION_REQ) as [->|E2].
  { rewrite Z.eqb_refl in H32'. destruct (session_message src b st Hst (Hse eq_refl) H32' E) as (w' & r & -> & Hok & ->).
    rewrite !not_elem_of_cons in A2. destruct A2 as (B1 & B2 & B3 & B4 & B5 & _). rewrite Z.eqb_refl.
    rewrite (proj2 (Z.eqb_neq _ _) B1), (proj2 (Z.eqb_neq _ _) B2), (proj2 (Z.eqb_neq _ _) B3), (proj2 (Z.eqb_neq _ _) B4),
      (proj2 (Z.eqb_neq _ _) B5).
    cbn [mbind option_bind]. eexists _, _. split; [reflexivity|]. split; [exact Hok|].
    destruct r; (split; [reflexivity|]); cbn; lia. }
  unfold spec_message. rewrite (proj2 (Z.eqb_neq _ _) E), (proj2 (Z.eqb_neq _ _) E2). unfold save.
  repeat case_match; (eexists _, _; split; [reflexivity|]; split; [exact Hst|]; split; [reflexivity|]; cbn; lia).
Qed.

Lemma dispatch_32 save_rt cmd src b st : payload_32 cmd b = true → dispatch save_rt cmd src b st = None.
Proof using CSOK CPOK commands_apart.
  destruct commands_apart as [A1 A2]. rewrite !not_elem_of_cons in A1. rewrite !not_elem_of_cons in A2. destruct A1 as (B1 & B2 & B3 & B4 & _), A2 as (B5 & B6 & B7 & B8 & B9 & _).
  unfold payload_32. rewrite orb_true_iff, !andb_true_iff. intros [[->%Z.eqb_eq H]|[->%Z.eqb_eq H]]; unfold dispatch.
  - rewrite (proj2 (Z.eqb_neq _ _) B1), (proj2 (Z.eqb_neq _ _) B2), (proj2 (Z.eqb_neq _ _) B3), (proj2 (Z.eqb_neq _ _) B4), Z.eqb_refl.
    rewrite (spawn_asked_32 (SL := session_word_laws)) by done. done.
  - rewrite (proj2 (Z.eqb_neq _ _) B5), (proj2 (Z.eqb_neq _ _) B6), (proj2 (Z.eqb_neq _ _) B7), (proj2 (Z.eqb_neq _ _) B8),
      (proj2 (Z.eqb_neq _ _) B9), Z.eqb_refl. by rewrite session_asked_32.
Qed.

(** C14. The daemon serves every sequence of events as its two services do alone:
    whatever messages come from the network and from the own node, in whatever order
    and mixture, as long as none that is taken asks for the session 32, no turn fails
    an assertion or does something undefined; the sessions granted and the programs
    started are, message by message, those of the abstract daemon, whose set of
    sessions the two services share; and the loop is left exactly at the first failed
    wait or reception.  A message for the session 32 makes it do something undefined. *)
Theorem daemon_refines save_rt evs st : istate_ok st → Forall event_ok evs →
  if existsb event_32 (taken evs) then init_loop save_rt evs st = None else
  ∃ st' acts ended outs, init_loop save_rt evs st = Some (st', acts, ended) ∧ istate_ok st' ∧
    spec_loop (abs st) evs = (abs st', outs, ended) ∧ ended = existsb ends evs ∧
    omap granted_of acts = omap fst outs ∧ omap started_of acts = omap snd outs.
Proof using CSOK CPOK commands_apart.
  intros Hst H. induction H as [|e evs He _ IH] in st, Hst |- *; cbn [init_loop spec_loop existsb taken].
  { exists st, [], false, []. split; [reflexivity|]. split; [exact Hst|]. done. }
  destruct (ends e) eqn:Ee; cbn [orb existsb].
  { assert (Ht : init_turn save_rt e st = Some (inr tt)) by (by destruct e as [[]|? []|[[]|]]).
    rewrite Ht. cbn [mbind option_bind]. exists st, [], true, []. split; [reflexivity|]. split; [exact Hst|]. done. }
  destruct (event_payload e) as [[cmd b]|] eqn:Eb.
  - assert (Ht : ∃ src, init_turn save_rt e st = (x ← dispatch save_rt cmd src b st; Some (inl x))).
    { destruct e as [[]|stale [?|]|[[[src ?] ?]|]]; cbn in *; simplify_eq; by eexists. }
    destruct Ht as [src Ht]. unfold event_ok in He. unfold event_32 at 1. rewrite Eb in He |- *. rewrite Ht.
    destruct (payload_32 cmd b) eqn:E32; cbn [orb]; [by rewrite dispatch_32|].
    destruct (dispatch_refines save_rt cmd src b st Hst He E32) as (st1 & acts1 & Hd & Hst1 & Hs & L1 & L2).
    rewrite Hd. cbn [mbind option_bind]. specialize (IH st1 Hst1). destruct (existsb event_32 (taken evs)); [by rewrite IH|].
    destruct IH as (st' & acts & ended & outs & -> & Hok & Hspec & Hend & Hg & Hc).
    cbn [mbind option_bind]. eexists st', _, ended, _. split; [reflexivity|]. split; [exact Hok|]. rewrite Hs, Hspec.
    split; [reflexivity|]. split; [exact Hend|].
    rewrite !omap_app, Hg, Hc. split.
    + cbn. destruct (omap granted_of acts1) as [|? [|]]; [done..|]. cbn in L1. lia.
    + cbn. destruct (omap started_of acts1) as [|? [|]]; [done..|]. cbn in L2. lia.
  - assert (Ht : init_turn save_rt e st = Some (inl (st, []))) by (by destruct e as [[]|? []|[[]|]]).
    rewrite Ht. cbn [mbind option_bind]. unfold event_32 at 1. rewrite Eb. cbn [orb]. specialize (IH st Hst).
    destruct (existsb event_32 (taken evs)); [by rewrite IH|]. destruct IH as (st' & acts & ended & outs & -> & Hrest).
    cbn [mbind option_bind]. exists st', acts, ended, outs. split; [reflexivity|exact Hrest].
Qed.
End Refinement.

(** ** Evaluation *)

Section Examples.
#[local] Instance dm_session : SessionConsts := {|
  AXIOM_SESSION_EMPTY := 255; AXIOM_CMD_SESSION_REQ := 5; AXIOM_CMD_SESSION_REPLY := 6 |}.
#[local] Instance dm_session_ok : SessionConstsOk.
Proof. split. cbn. lia. Qed.
#[local] Instance dm_spawn : SpawnConsts := {|
  AXIOM_CMD_SPAWN_REQ := 7; AXIOM_SPAWN_FLAG_RESET := 1; AXIOM_SPAWN_FLAG_EXEC := 2;
  AXIOM_SPAWN_MAX_DATA_SIZE := 3 |}.
#[local] Instance dm_spawn_ok : SpawnConstsOk.
Proof. by split. Qed.
#[local] Instance dm_init : InitConsts := {|
  AXIOM_DSCV_CMD_REQ_ID := 0; AXIOM_CMD_START_DISCOVERY := 1; AXIOM_CMD_PING := 2; AXIOM_CMD_TRACEROUTE := 3;
  AXIOM_CMD_ALLOC := 8; AXIOM_CMD_ALLOC_APPID := 9; AXIOM_CMD_ALLOC_RELEASE := 10 |}.
(** The fields one after the other; the type of a spawn message is its fourth. *)
#[local] Instance dm_layout : InitLayout := {|
  init_command b := aget b 0;
  as_session b := mk_session_req (aget b 0) (aget b 1) (aget b 2);
  as_spawn b := mk_spawn_req (aget b 0) (aget b 1) (aget b 2)
    (if aget b 3 =? 0 then AXIOM_SPAWN_TYPE_EXE else AXIOM_SPAWN_TYPE_CWD) (take 3 (drop 4 b)) |}.

(** A session is granted, a ping comes, and the program "a" starts in "/". *)
Definition dm_events : list init_event :=
  [FromDevice (Some (2, 5, [5; 9; 255])); FromSocket 3 (Some [2; 1; 1]); SelectFail true;
   FromDevice (Some (2, 7, [7; 0; 1; 0; 97; 0; 0])); FromDevice (Some (2, 7, [7; 0; 2; 1; 47; 0; 0])); FromDevice None].

Lemma dm_events_ok : Forall event_ok dm_events.
Proof.
  repeat (apply Forall_cons; split; [try done; split; cbn; intros; try lia; try (split_and!; done || lia)|]). constructor.
Qed.

Example dm_run : init_loop false dm_events istate0 =
  Some (istate0, [Reply (mk_session_reply 2 9 6 0); Pong 3 [2; 1; 1];
                  Start (mk_dcall (Some [47]) (Some [97]) [None] [None])], true).
Proof. vm_compute. reflexivity. Qed.

Lemma daemon_refines_witness :
  ∃ st' acts ended outs, init_loop false dm_events istate0 = Some (st', acts, ended) ∧ istate_ok st' ∧
    spec_loop (abs istate0) dm_events = (abs st', outs, ended) ∧ ended = true ∧
    omap granted_of acts = omap fst outs ∧ omap started_of acts = omap snd outs.
Proof.
  assert (Ha : (AXIOM_CMD_SPAWN_REQ ∉ [AXIOM_DSCV_CMD_REQ_ID; AXIOM_CMD_START_DISCOVERY; AXIOM_CMD_PING; AXIOM_CMD_TRACEROUTE]) ∧
    (AXIOM_CMD_SESSION_REQ ∉ [AXIOM_DSCV_CMD_REQ_ID; AXIOM_CMD_START_DISCOVERY; AXIOM_CMD_PING; AXIOM_CMD_TRACEROUTE; AXIOM_CMD_SPAWN_REQ])).
  { cbn. rewrite !not_elem_of_cons. repeat split; try done; apply not_elem_of_nil. }
  assert (Hok : istate_ok istate0) by (split; [vm_compute; split; [discriminate|reflexivity]|exact (proj1 spawn_init_ok)]).
  exact (daemon_refines Ha false dm_events istate0 Hok dm_events_ok).
Defined.
End Examples.
