(* ===== verification/Output.v ===== *)
(** * The output of the slaves at the axiom-run master (axiom-run/master.c)

    [emit] collects the output of every node and writes it line by line, with an
    optional mark of the node; [flush] writes what is left at the end.  Writes
    to the standard streams succeed. *)

From S2P Require Import Prelude.

(** [BUFSIZ] of the C library. *)
Class Stdio := { BUFSIZ : Z }.

Definition MAX_NUM_NODES : Z := 63.
Definition IDENT_FLAG : Z := 1.
Definition ALTERNATE_IDENT_FLAG : Z := 2.
Definition newline : Z := 10.

(** What is written: the mark of a node, bytes that a node sent (with the node,
    for the statements), the line break of [flush]. *)
Inductive out_item :=
  | OIdent (alternate : bool) (node : Z)
  | OBytes (node : Z) (bytes : list Z)
  | ONewline.

Section Code.
Context `{IO : Stdio}.
Definition MAX_BUFFER_SIZE : Z := BUFSIZ.

(** The pending output: one buffer per node, [sz] is its length. *)
Implicit Types (info : list (list Z)) (buffer : list Z).

(** Position of the first and of the last line break. *)
Definition memchr buffer : option nat := fst <$> list_find (eq newline) buffer.
Definition memrchr buffer : option nat :=
  (fun i => length buffer - S i)%nat <$> memchr (reverse buffer).

Definition ident (emit_id alternate : bool) (node : Z) : list out_item :=
  if emit_id then [OIdent alternate node] else [].

(** The [for (;;)] of [emit]; [i] is the position of the next line break.  The
    result: what is written and the bytes left. *)
Fixpoint emit_loop (fuel : nat) (emit_id alternate : bool) (node : Z) buffer (i : nat)
    (no_stop_emit : bool) : list out_item * list Z :=
  match fuel with
  | O => ([], buffer)
  | S fuel =>
      let res := S i in
      let items := ident (emit_id && no_stop_emit) alternate node ++ [OBytes node (take res buffer)] in
      let buffer := drop res buffer in
      match memchr buffer with
      | None => (items, buffer)
      | Some j =>
          let '(items', rest) := emit_loop fuel emit_id alternate node buffer j true in
          (items ++ items', rest)
      end
  end.

(** [None]: an assertion fails, or the node has no buffer. *)
Definition emit (node : Z) buffer info (flags : Z) : option (list (list Z) * list out_item) :=
  let emit_id := negb (Z.land flags IDENT_FLAG =? 0) in
  let alternate := negb (Z.land flags ALTERNATE_IDENT_FLAG =? 0) in
  if negb ((0 <=? node) && (node <? alen info)) then None else
  let pending := aget info node in
  match (if emit_id then memchr buffer else memrchr buffer) with
  | Some i =>
      let '(items, no_stop_emit) :=
        if 0 <? alen pending then (ident emit_id alternate node ++ [OBytes node pending], false)
        else ([], true) in
      let '(items', rest) := emit_loop (length buffer) emit_id alternate node buffer i no_stop_emit in
      if MAX_BUFFER_SIZE <? alen rest then None
      else Some (aset info node rest, items ++ items')
  | None =>
      let '(items, pending) :=
        if MAX_BUFFER_SIZE <? alen pending + alen buffer
        then (if 0 <? alen pending then ([OBytes node pending], []) else ([], pending))
        else ([], pending) in
      if MAX_BUFFER_SIZE <? alen buffer + alen pending then None
      else Some (aset info node (pending ++ buffer), items)
  end.

(** One node of [flush]; the test of the flags is the one of the code, which is
    true for every non-zero value. *)
Definition flush_node (flags node : Z) '(info, items) : list (list Z) * list out_item :=
  let pending := aget info node in
  if 0 <? alen pending then
    (aset info node [],
     items ++ ident (negb (flags =? 0)) (negb (Z.land flags ALTERNATE_IDENT_FLAG =? 0)) node ++
     [OBytes node pending; ONewline])
  else (info, items).

Definition flush info (num_nodes flags : Z) : list (list Z) * list out_item :=
  for_z 0 num_nodes (flush_node flags) (info, []).
End Code.

(** ** Lines *)

(** The complete lines of a string, each with its line break, and the rest. *)
Fixpoint split_lines (s : list Z) : list (list Z) * list Z :=
  match s with
  | [] => ([], [])
  | c :: s =>
      let '(ls, r) := split_lines s in
      if c =? newline then ([c] :: ls, r)
      else match ls with [] => ([], c :: r) | l :: ls => ((c :: l) :: ls, r) end
  end.

Lemma split_lines_concat s : concat (split_lines s).1 ++ (split_lines s).2 = s.
Proof.
  induction s as [|c s IH]; [done|]. cbn. destruct (split_lines s) as [ls r]. cbn in IH.
  destruct (c =? newline); cbn; [by rewrite IH|]. destruct ls; cbn in *; by rewrite <- IH.
Qed.

Lemma split_lines_rest s : newline ∉ (split_lines s).2.
Proof.
  induction s as [|c s IH]; [set_solver|]. cbn. destruct (split_lines s) as [ls r]. cbn in IH.
  destruct (Z.eqb_spec c newline); [done|]. destruct ls; cbn in *; [|done].
  rewrite elem_of_cons. naive_solver.
Qed.

Lemma split_lines_none s : newline ∉ s → split_lines s = ([], s).
Proof.
  induction s as [|c s IH]; intros H; [done|]. cbn. rewrite IH by set_solver.
  destruct (Z.eqb_spec c newline); [set_solver|done].
Qed.

(** A prefix without line break joins the first line. *)
Lemma split_lines_prefix p s : newline ∉ p →
  split_lines (p ++ s) =
  match split_lines s with
  | ([], r) => ([], p ++ r)
  | (l :: ls, r) => ((p ++ l) :: ls, r)
  end.
Proof.
  induction p as [|c p IH]; intros H; cbn; [by destruct (split_lines s) as [[|? ?] ?]|].
  rewrite IH by set_solver. destruct (Z.eqb_spec c newline); [set_solver|].
  by destruct (split_lines s) as [[|l ls] r].
Qed.

Lemma split_lines_first p s : newline ∉ p →
  split_lines (p ++ newline :: s) = ((p ++ [newline]) :: (split_lines s).1, (split_lines s).2).
Proof.
  intros H. rewrite split_lines_prefix by done. cbn. by destruct (split_lines s).
Qed.

(** The text that precedes a line of [node]. *)
Definition digit (n : Z) : Z := 48 + n.
Definition fmt02 (n : Z) : list Z :=
  if n <? 100 then [digit (n / 10); digit (n mod 10)]
  else [digit (n / 100); digit (n / 10 mod 10); digit (n mod 10)].
Definition mark (alternate : bool) (node : Z) : list Z :=
  if alternate then [123] ++ fmt02 node ++ [125] else fmt02 node ++ [58].

Definition render (o : out_item) : list Z :=
  match o with
  | OIdent alternate node => mark alternate node
  | OBytes _ bytes => bytes
  | ONewline => [newline]
  end.
Definition render_all (l : list out_item) : list Z := concat (render <$> l).

Lemma render_all_app l1 l2 : render_all (l1 ++ l2) = render_all l1 ++ render_all l2.
Proof. unfold render_all. by rewrite fmap_app, concat_app. Qed.

(** The bytes of node [n] among what is written. *)
Definition node_bytes (n : Z) (l : list out_item) : list Z :=
  concat ((fun o => match o with OBytes m b => if m =? n then b else [] | _ => [] end) <$> l).

Lemma node_bytes_app n l1 l2 : node_bytes n (l1 ++ l2) = node_bytes n l1 ++ node_bytes n l2.
Proof. unfold node_bytes. by rewrite fmap_app, concat_app. Qed.

(** ** Correctness of emit *)

Section Emit.
Context `{IO : Stdio}.
Implicit Types (info : list (list Z)) (buffer : list Z).

Lemma memchr_some buffer i : memchr buffer = Some i →
  ∃ p s, buffer = p ++ newline :: s ∧ (newline ∉ p) ∧ length p = i.
Proof.
  unfold memchr. intros H. apply fmap_Some in H as ([j c] & Hf & ->). cbn.
  apply list_find_Some in Hf as (Hj & <- & Hlt).
  exists (take j buffer), (drop (S j) buffer). rewrite take_drop_middle by done. split; [done|]. split.
  - intros Hin. apply list_elem_of_lookup in Hin as [k Hk].
    apply lookup_take_Some in Hk as [Hk Hkj]. by apply (Hlt k newline).
  - rewrite length_take. apply lookup_lt_Some in Hj. lia.
Qed.

Lemma memchr_none buffer : memchr buffer = None → newline ∉ buffer.
Proof.
  unfold memchr. intros H. apply fmap_None, list_find_None in H.
  intros Hin. rewrite Forall_forall in H. by apply (H newline).
Qed.

Lemma memrchr_some buffer i : memrchr buffer = Some i →
  ∃ p s, buffer = p ++ newline :: s ∧ (newline ∉ s) ∧ length p = i.
Proof.
  unfold memrchr. intros H. apply fmap_Some in H as (j & Hf & ->).
  apply memchr_some in Hf as (p & s & Hb & Hp & <-).
  assert (Hb' : buffer = reverse s ++ newline :: reverse p).
  { rewrite <- (reverse_involutive buffer), Hb, reverse_app, reverse_cons, <- app_assoc. done. }
  exists (reverse s), (reverse p). split; [done|]. split; [by rewrite elem_of_reverse|].
  rewrite Hb', length_app. cbn [length]. rewrite !length_reverse. lia.
Qed.

Lemma memrchr_none buffer : memrchr buffer = None → newline ∉ buffer.
Proof.
  unfold memrchr. intros H. apply fmap_None, memchr_none in H. by rewrite elem_of_reverse in H.
Qed.

Lemma memchr_absent buffer : newline ∉ buffer → memchr buffer = None.
Proof.
  intros H. destruct (memchr buffer) as [i|] eqn:E; [|done].
  apply memchr_some in E as (p & s & -> & _). set_solver.
Qed.

(** The text in front of a line. *)
Definition prefix (flags node : Z) : list Z :=
  if Z.land flags IDENT_FLAG =? 0 then []
  else mark (negb (Z.land flags ALTERNATE_IDENT_FLAG =? 0)) node.

Lemma take_line (p s : list Z) : take (S (length p)) (p ++ newline :: s) = p ++ [newline] ∧
  drop (S (length p)) (p ++ newline :: s) = s.
Proof.
  change (p ++ newline :: s) with (p ++ [newline] ++ s). rewrite app_assoc.
  replace (S (length p)) with (length (p ++ [newline])) by (rewrite length_app; cbn; lia).
  by rewrite take_app_length, drop_app_length.
Qed.

(** With marks, the loop writes the lines of the buffer. *)
Lemma emit_loop_lines fuel alternate node buffer i ns : memchr buffer = Some i →
  (length buffer <= fuel)%nat →
  let '(items, rest) := emit_loop fuel true alternate node buffer i ns in
  ∃ l ls, split_lines buffer = (l :: ls, rest) ∧
    render_all items = (if ns then mark alternate node else []) ++ l ++
      concat ((fun l => mark alternate node ++ l) <$> ls) ∧
    ∀ n, node_bytes n items = if node =? n then concat (l :: ls) else [].
Proof.
  induction fuel as [|fuel IH] in buffer, i, ns |- *; intros Hm Hf.
  { destruct buffer; [done|cbn in Hf; lia]. }
  apply memchr_some in Hm as (p & s & -> & Hp & <-). cbn [emit_loop].
  destruct (take_line p s) as [-> ->]. rewrite split_lines_first by done.
  assert (Hhead : ∀ n, node_bytes n (ident (true && ns) alternate node ++ [OBytes node (p ++ [newline])]) =
    if node =? n then p ++ [newline] else []).
  { intros n. destruct ns; cbn; unfold node_bytes; cbn; destruct (node =? n); by rewrite ?app_nil_r. }
  assert (Hrend : render_all (ident (true && ns) alternate node ++ [OBytes node (p ++ [newline])]) =
    (if ns then mark alternate node else []) ++ p ++ [newline]).
  { rewrite render_all_app. unfold render_all. cbn. rewrite app_nil_r. by destruct ns; cbn; rewrite ?app_nil_r. }
  destruct (memchr s) as [j|] eqn:Ej.
  - specialize (IH s j true Ej ltac:(rewrite length_app in Hf; cbn in Hf; lia)).
    destruct (emit_loop fuel true alternate node s j true) as [items' rest].
    destruct IH as (l & ls & Hs & Hr & Hn). rewrite Hs. exists (p ++ [newline]), (l :: ls).
    split; [done|]. split.
    + rewrite render_all_app, Hrend, Hr, <- !app_assoc. cbn. by rewrite <- !app_assoc.
    + intros n. rewrite node_bytes_app, Hhead, Hn. destruct (node =? n); done.
  - rewrite (split_lines_none s) by (by apply memchr_none). exists (p ++ [newline]), []. split; [done|].
    split; [by rewrite Hrend; cbn; rewrite app_nil_r|]. intros n. rewrite Hhead. cbn. by rewrite app_nil_r.
Qed.

(** Without marks, the loop writes everything up to the last line break. *)
Lemma emit_loop_plain fuel alternate node buffer i ns : memrchr buffer = Some i →
  (length buffer <= fuel)%nat →
  let '(items, rest) := emit_loop fuel false alternate node buffer i ns in
  ∃ l ls, split_lines buffer = (l :: ls, rest) ∧
    render_all items = concat (l :: ls) ∧
    ∀ n, node_bytes n items = if node =? n then concat (l :: ls) else [].
Proof.
  intros Hm Hf. apply memrchr_some in Hm as (p & s & -> & Hs & <-).
  destruct fuel as [|fuel]; [rewrite length_app in Hf; cbn in Hf; lia|]. cbn [emit_loop andb ident app].
  destruct (take_line p s) as [-> ->]. rewrite (memchr_absent s Hs).
  assert (Hsplit : ∃ l ls, split_lines (p ++ newline :: s) = (l :: ls, s) ∧ concat (l :: ls) = p ++ [newline]).
  { clear Hf. induction p as [|c p IH].
    - exists [newline], []. cbn. by rewrite (split_lines_none s).
    - destruct IH as (l & ls & Hl & Hc). cbn. rewrite Hl. destruct (Z.eqb_spec c newline) as [->|_].
      + exists [newline], (l :: ls). cbn in *. by rewrite Hc.
      + exists (c :: l), ls. cbn in *. by rewrite Hc. }
  destruct Hsplit as (l & ls & -> & Hc). exists l, ls. split; [done|]. rewrite Hc.
  unfold render_all, node_bytes. cbn. split; [by rewrite app_nil_r|].
  intros n. destruct (node =? n); by rewrite ?app_nil_r.
Qed.
(** Both modes: the search for a line break and the loop. *)
Lemma emit_scan (emit_id alternate : bool) node buffer : newline ∈ buffer →
  ∃ i, (if emit_id then memchr buffer else memrchr buffer) = Some i ∧
    ∀ ns, let '(items, rest) := emit_loop (length buffer) emit_id alternate node buffer i ns in
      ∃ l ls, split_lines buffer = (l :: ls, rest) ∧
        render_all items = (if emit_id && ns then mark alternate node else []) ++ l ++
          concat ((fun l => (if emit_id then mark alternate node else []) ++ l) <$> ls) ∧
        ∀ n, node_bytes n items = if node =? n then concat (l :: ls) else [].
Proof.
  intros Hb. destruct emit_id.
  - destruct (memchr buffer) as [i|] eqn:E; [|by apply memchr_none in E].
    exists i. split; [done|]. intros ns. by apply emit_loop_lines.
  - destruct (memrchr buffer) as [i|] eqn:E; [|by apply memrchr_none in E].
    exists i. split; [done|]. intros ns.
    pose proof (emit_loop_plain (length buffer) alternate node buffer i ns E (le_n _)) as H1.
    destruct (emit_loop _ _ _ _ _ _ _) as [items rest]. destruct H1 as (l & ls & Hs & Hr & Hnb).
    exists l, ls. split; [done|]. split; [|done]. rewrite Hr. cbn. f_equal. f_equal.
    clear. induction ls as [|x ls IH]; [done|]. cbn. by rewrite <- IH.
Qed.

(** A buffer with a line break. *)
Lemma emit_newline node buffer info flags : let pending := aget info node in
  0 <= node < alen info → newline ∉ pending → newline ∈ buffer → alen buffer <= MAX_BUFFER_SIZE →
  let '(ls, rest) := split_lines (pending ++ buffer) in
  ∃ items, emit node buffer info flags = Some (aset info node rest, items) ∧
    render_all items = concat ((fun l => prefix flags node ++ l) <$> ls) ∧
    ∀ n, node_bytes n items = if node =? n then concat ls else [].
Proof.
  intros pending Hn Hp Hb Hsz. unfold emit, prefix. fold pending.
  destruct (Z.leb_spec 0 node), (Z.ltb_spec node (alen info)); try lia. cbn [andb negb].
  set (alternate := negb (Z.land flags ALTERNATE_IDENT_FLAG =? 0)).
  destruct (emit_scan (negb (Z.land flags IDENT_FLAG =? 0)) alternate node buffer Hb) as (i & -> & Hloop).
  rewrite split_lines_prefix by done.
  replace (if Z.land flags IDENT_FLAG =? 0 then [] else mark alternate node)
    with (if negb (Z.land flags IDENT_FLAG =? 0) then mark alternate node else [])
    by (by destruct (Z.land flags IDENT_FLAG =? 0)).
  set (emit_id := negb (Z.land flags IDENT_FLAG =? 0)) in *.
  set (ns := negb (0 <? alen pending)). specialize (Hloop ns).
  assert (Hrest : alen (split_lines buffer).2 <= alen buffer).
  { unfold alen. rewrite <- (split_lines_concat buffer) at 2. rewrite length_app. lia. }
  assert (Hhead : ∃ head, (if 0 <? alen pending then (ident emit_id alternate node ++ [OBytes node pending], false)
      else ([], true)) = (head, ns) ∧
    (∀ n, node_bytes n head = if node =? n then pending else []) ∧
    render_all head = if ns then [] else (if emit_id then mark alternate node else []) ++ pending).
  { unfold ns. destruct (Z.ltb_spec 0 (alen pending)) as [H1|H1]; (eexists; split; [reflexivity|]); cbn [negb].
    - rewrite render_all_app. unfold node_bytes, render_all.
      destruct emit_id; cbn; rewrite ?app_nil_r; (split; [intros n; by destruct (node =? n); rewrite ?app_nil_r|done]).
    - split; [|done]. intros n. destruct pending; [by destruct (node =? n)|unfold alen in H1; cbn in H1; lia]. }
  destruct Hhead as (head & -> & Hhn & Hhr).
  destruct (emit_loop _ _ _ _ _ _ _) as [items rest]. destruct Hloop as (l & ls & Hs & Hr & Hnb).
  rewrite Hs in Hrest |- *. cbn in Hrest. destruct (Z.ltb_spec MAX_BUFFER_SIZE (alen rest)); [lia|].
  exists (head ++ items). split; [done|]. split.
  - rewrite render_all_app, Hhr, Hr. cbn [fmap list_fmap concat].
    destruct ns eqn:Ens; cbn; [|by destruct emit_id; cbn; rewrite <- ?app_assoc].
    assert (Hp0 : pending = []).
    { unfold ns in Ens. destruct (Z.ltb_spec 0 (alen pending)); [done|].
      apply nil_length_inv. unfold alen in *. lia. }
    by rewrite Hp0, andb_true_r, <- app_assoc.
  - intros n. rewrite node_bytes_app, Hhn, Hnb. destruct (node =? n); cbn; by rewrite ?app_assoc.
Qed.

(** A buffer without line break: it is kept, and when it does not fit what was
    pending is written without its mark. *)
Lemma emit_plain node buffer info flags : let pending := aget info node in
  0 <= node < alen info → newline ∉ buffer → alen buffer <= MAX_BUFFER_SIZE →
  emit node buffer info flags =
  if alen pending + alen buffer <=? MAX_BUFFER_SIZE then Some (aset info node (pending ++ buffer), [])
  else Some (aset info node buffer, [OBytes node pending]).
Proof.
  intros pending Hn Hb Hsz. unfold emit. fold pending.
  destruct (Z.leb_spec 0 node), (Z.ltb_spec node (alen info)); try lia. cbn [andb negb].
  rewrite (memchr_absent buffer Hb).
  replace (memrchr buffer) with (@None nat)
    by (unfold memrchr; rewrite memchr_absent; [done|by rewrite elem_of_reverse]).
  replace (if negb (Z.land flags IDENT_FLAG =? 0) then @None nat else None) with (@None nat) by (by case_match).
  destruct (Z.leb_spec (alen pending + alen buffer) MAX_BUFFER_SIZE) as [Hfit|Hover].
  - destruct (Z.ltb_spec MAX_BUFFER_SIZE (alen pending + alen buffer)); [lia|].
    destruct (Z.ltb_spec MAX_BUFFER_SIZE (alen buffer + alen pending)); [lia|done].
  - destruct (Z.ltb_spec MAX_BUFFER_SIZE (alen pending + alen buffer)); [|lia].
    destruct (Z.ltb_spec 0 (alen pending)); [|lia]. change (alen (@nil Z)) with 0.
    destruct (Z.ltb_spec MAX_BUFFER_SIZE (alen buffer + 0)); [lia|done].
Qed.

(** *** Sequences of output messages *)

Fixpoint emit_run info (flags : Z) (msgs : list (Z * list Z)) : option (list (list Z) * list out_item) :=
  match msgs with
  | [] => Some (info, [])
  | (node, buffer) :: msgs =>
      '(info, items) ← emit node buffer info flags;
      '(info, items') ← emit_run info flags msgs;
      Some (info, items ++ items')
  end.

Lemma emit_run_app info flags l1 l2 :
  emit_run info flags (l1 ++ l2) =
  '(info, items) ← emit_run info flags l1;
  '(info, items') ← emit_run info flags l2;
  Some (info, items ++ items').
Proof.
  induction l1 as [|[node buffer] l1 IH] in info |- *; cbn.
  { by destruct (emit_run info flags l2) as [[? ?]|]. }
  destruct (emit node buffer info flags) as [[info1 items1]|]; cbn; [|done]. rewrite IH.
  destruct (emit_run info1 flags l1) as [[info2 items2]|]; cbn; [|done].
  destruct (emit_run info2 flags l2) as [[info3 items3]|]; cbn; [|done]. by rewrite app_assoc.
Qed.

(** The pending buffers hold no complete line. *)
Definition info_ok info : Prop :=
  alen info = MAX_NUM_NODES ∧ ∀ n, 0 <= n < MAX_NUM_NODES → newline ∉ aget info n.

Definition msg_ok (m : Z * list Z) : Prop :=
  0 <= m.1 < MAX_NUM_NODES ∧ alen m.2 <= MAX_BUFFER_SIZE.

(** All bytes that node [n] sent. *)
Definition stream (n : Z) (msgs : list (Z * list Z)) : list Z :=
  concat ((fun m : Z * list Z => if m.1 =? n then m.2 else []) <$> msgs).

Lemma emit_step node buffer info flags : info_ok info → msg_ok (node, buffer) →
  ∃ info' items, emit node buffer info flags = Some (info', items) ∧ info_ok info' ∧
    ∀ n, 0 <= n < MAX_NUM_NODES →
      node_bytes n items ++ aget info' n = aget info n ++ (if node =? n then buffer else []).
Proof.
  intros [Hlen Hnl] [Hn Hsz]. cbn in Hn, Hsz.
  assert (Hset : ∀ l, newline ∉ l → info_ok (aset info node l)).
  { intros l Hl. split; [by rewrite alen_aset|]. intros n Hn'. rewrite aget_aset by lia.
    case_decide; [done|]. by apply Hnl. }
  destruct (decide (newline ∈ buffer)) as [Hin|Hout].
  - pose proof (emit_newline node buffer info flags ltac:(lia) (Hnl node Hn) Hin Hsz) as H.
    pose proof (split_lines_concat (aget info node ++ buffer)) as Hc.
    pose proof (split_lines_rest (aget info node ++ buffer)) as Hr.
    destruct (split_lines _) as [ls rest]. destruct H as (items & -> & _ & Hnb). cbn in Hc, Hr.
    exists (aset info node rest), items. split; [done|]. split; [by apply Hset|].
    intros n Hn'. rewrite Hnb, aget_aset by lia.
    destruct (Z.eqb_spec node n) as [<-|Hne]; [by rewrite decide_True|].
    rewrite decide_False by done. by rewrite app_nil_r.
  - rewrite emit_plain by (done || lia). case_match; (eexists _, _; split; [done|]; split).
    + apply Hset. pose proof (Hnl node Hn). set_solver.
    + intros n Hn'. rewrite aget_aset by lia. destruct (Z.eqb_spec node n) as [<-|Hne]; cbn.
      * by rewrite decide_True.
      * by rewrite decide_False, app_nil_r.
    + by apply Hset.
    + intros n Hn'. rewrite aget_aset by lia. unfold node_bytes. cbn.
      destruct (Z.eqb_spec node n) as [<-|Hne]; cbn; rewrite ?app_nil_r.
      * by rewrite decide_True.
      * by rewrite decide_False.
Qed.

Lemma emit_run_bytes info flags msgs : info_ok info → Forall msg_ok msgs →
  ∃ info' items, emit_run info flags msgs = Some (info', items) ∧ info_ok info' ∧
    ∀ n, 0 <= n < MAX_NUM_NODES → node_bytes n items ++ aget info' n = aget info n ++ stream n msgs.
Proof.
  intros Hi H. induction H as [|[node buffer] msgs Hm _ IH] in info, Hi |- *; cbn [emit_run].
  { exists info, []. split; [done|]. split; [done|]. intros n _. unfold stream. cbn. by rewrite app_nil_r. }
  destruct (emit_step node buffer info flags Hi Hm) as (info1 & items1 & -> & Hi1 & Hb1). cbn.
  destruct (IH info1 Hi1) as (info2 & items2 & -> & Hi2 & Hb2). cbn.
  exists info2, (items1 ++ items2). split; [done|]. split; [done|]. intros n Hn.
  rewrite node_bytes_app, <- app_assoc, Hb2, app_assoc, Hb1, <- app_assoc by done. done.
Qed.

(** Whole lines: while the partial lines fit their buffers, what the master
    has written after any sequence of output messages is a sequence of complete
    lines, each preceded by the mark of its node when marks are on; a message
    writes exactly the lines it completes, in order, and the rest of the last
    line stays pending; lines of different nodes are never mixed. *)
Theorem emit_spec node buffer info flags :
  info_ok info → msg_ok (node, buffer) → alen (aget info node) + alen buffer <= MAX_BUFFER_SIZE →
  let '(ls, rest) := split_lines (aget info node ++ buffer) in
  ∃ items, emit node buffer info flags = Some (aset info node rest, items) ∧
    render_all items = concat ((fun l => prefix flags node ++ l) <$> ls).
Proof.
  intros [Hlen Hnl] [Hn Hsz] Hfit. cbn in Hn, Hsz.
  destruct (decide (newline ∈ buffer)) as [Hin|Hout].
  - pose proof (emit_newline node buffer info flags ltac:(lia) (Hnl node Hn) Hin Hsz) as H.
    destruct (split_lines _) as [ls rest]. destruct H as (items & Heq & Hr & _). by exists items.
  - pose proof (Hnl node Hn). rewrite split_lines_none by set_solver. exists []. split; [|done].
    rewrite emit_plain by (done || lia). destruct (Z.leb_spec (alen (aget info node) + alen buffer) MAX_BUFFER_SIZE); [done|lia].
Qed.

Lemma flush_spec info flags : alen info = MAX_NUM_NODES → ∀ n, 0 <= n < MAX_NUM_NODES →
  aget (flush info MAX_NUM_NODES flags).1 n = [] ∧
  node_bytes n (flush info MAX_NUM_NODES flags).2 = aget info n.
Proof.
  intros Hlen n Hn. unfold flush.
  set (P := fun (i : Z) (st : list (list Z) * list out_item) => alen st.1 = MAX_NUM_NODES ∧
    aget st.1 n = (if n <? i then [] else aget info n) ∧
    node_bytes n st.2 = if n <? i then aget info n else []).
  assert (HP : P MAX_NUM_NODES (for_z 0 MAX_NUM_NODES (flush_node flags) (info, []))).
  { apply (for_z_ind P); unfold P.
    - unfold MAX_NUM_NODES. lia.
    - destruct (Z.ltb_spec n 0); [lia|done].
    - intros i [info1 items] Hi (Hl & Hg & Hb). cbn [fst snd] in Hl, Hg, Hb. unfold flush_node.
      destruct (Z.ltb_spec 0 (alen (aget info1 i))) as [Hpos|Hz]; cbn [fst snd].
      + rewrite alen_aset, aget_aset by lia. split; [done|]. rewrite node_bytes_app, Hb.
        destruct (decide (i = n)) as [->|Hne].
        * destruct (Z.ltb_spec n n), (Z.ltb_spec n (n + 1)); try lia. split; [done|].
          rewrite Hg. unfold ident, node_bytes. destruct (negb (flags =? 0)); cbn; by rewrite Z.eqb_refl, app_nil_r.
        * assert (Hnb : node_bytes n (ident (negb (flags =? 0)) (negb (Z.land flags ALTERNATE_IDENT_FLAG =? 0)) i ++
            [OBytes i (aget info1 i); ONewline]) = []).
          { unfold ident, node_bytes. destruct (negb (flags =? 0)); cbn; by rewrite (proj2 (Z.eqb_neq i n) Hne). }
          rewrite Hnb, app_nil_r, Hg.
          destruct (Z.ltb_spec n i), (Z.ltb_spec n (i + 1)); try lia; done.
      + split; [done|]. rewrite Hg, Hb. destruct (decide (i = n)) as [->|Hne].
        * destruct (Z.ltb_spec n n), (Z.ltb_spec n (n + 1)); try lia.
          assert (E : aget info1 n = []) by (apply nil_length_inv; unfold alen in Hz; lia).
          rewrite <- Hg, E. done.
        * destruct (Z.ltb_spec n i), (Z.ltb_spec n (i + 1)); try lia; done. }
  destruct HP as (_ & Hg & Hb). rewrite Hg, Hb. by destruct (Z.ltb_spec n MAX_NUM_NODES); [|lia].
Qed.

(** A node without a buffer: behind the array for node 63, which the assertion lets
    pass, and a failed assertion above it. *)
Lemma emit_outside node buffer info flags : alen info = MAX_NUM_NODES → MAX_NUM_NODES <= node → emit node buffer info flags = None.
Proof.
  intros Hl Hn. unfold emit. rewrite Hl, (proj2 (Z.ltb_ge node MAX_NUM_NODES)) by done. by rewrite andb_false_r.
Qed.

Lemma emit_run_outside info flags msgs : info_ok info → Forall (fun m => 0 <= m.1 ∧ alen m.2 <= MAX_BUFFER_SIZE) msgs →
  existsb (fun m => MAX_NUM_NODES <=? m.1) msgs = true → emit_run info flags msgs = None.
Proof.
  intros Hi H. induction H as [|[node buffer] msgs [Hn Hs] _ IH] in info, Hi |- *; cbn; [done|].
  destruct (Z.leb_spec MAX_NUM_NODES node); cbn [orb]; intros He.
  - rewrite emit_outside by (done || apply Hi). done.
  - destruct (emit_step node buffer info flags Hi) as (info1 & items1 & -> & Hi1 & _); [by split|]. cbn. by rewrite IH.
Qed.

(** C21. No output is lost, duplicated or reordered: after any sequence of output
    messages of the nodes 0 to 62, none longer than the buffer of a node, and the final
    flush, the bytes of each node among what was written are exactly the bytes it
    sent, in order, and no output is left pending; partial lines that overflow their
    buffer are included.  A message of a node from 63 on has no buffer: the master
    writes behind the array for node 63 and aborts above it. *)
Theorem output_preserved flags msgs :
  Forall (fun m => 0 <= m.1 ∧ alen m.2 <= MAX_BUFFER_SIZE) msgs →
  let info0 := replicate (Z.to_nat MAX_NUM_NODES) [] in
  if existsb (fun m => MAX_NUM_NODES <=? m.1) msgs then emit_run info0 flags msgs = None else
  ∃ info items, emit_run info0 flags msgs = Some (info, items) ∧
    ∀ n, 0 <= n < MAX_NUM_NODES →
      node_bytes n (items ++ (flush info MAX_NUM_NODES flags).2) = stream n msgs ∧
      aget (flush info MAX_NUM_NODES flags).1 n = [].
Proof.
  intros Hm info0.
  assert (Hget : ∀ n, 0 <= n < MAX_NUM_NODES → aget info0 n = [])
    by (intros n Hn; apply aget_replicate; unfold MAX_NUM_NODES in *; lia).
  assert (Hi : info_ok info0).
  { split; [done|]. intros n Hn. rewrite Hget by done. set_solver. }
  destruct (existsb _ msgs) eqn:E; [by apply emit_run_outside|].
  assert (Hok : Forall msg_ok msgs).
  { rewrite Forall_forall in Hm |- *. intros m Hin. destruct (Hm m Hin) as [H0 Hs]. split; [|done]. split; [done|].
    destruct (Z.lt_ge_cases m.1 MAX_NUM_NODES) as [|Hge]; [done|]. apply not_true_iff_false in E. exfalso. apply E, existsb_exists.
    exists m. split; [by apply list_elem_of_In|by apply Z.leb_le]. }
  destruct (emit_run_bytes info0 flags msgs Hi Hok) as (info & items & Hr & [Hlen _] & Hb).
  exists info, items. split; [done|]. intros n Hn.
  destruct (flush_spec info flags Hlen n Hn) as [Hf1 Hf2]. split; [|done].
  by rewrite node_bytes_app, Hf2, Hb, Hget by done.
Qed.
End Emit.

(** ** Evaluation *)

Section Examples.
#[local] Instance small_stdio : Stdio := {| BUFSIZ := 8 |}.

Definition no_output : list (list Z) := replicate 63 [].

(** Nodes 1 and 2 send halves of lines: "ab" "c\nd" and "xy\n". *)
Definition two_streams : list (Z * list Z) := [(1, [97; 98]); (2, [120; 121; 10]); (1, [99; 10; 100])].

Example two_streams_out :
  match emit_run no_output 1 two_streams with
  | Some (info, items) => render_all items = [48; 50; 58; 120; 121; 10; 48; 49; 58; 97; 98; 99; 10] ∧ aget info 1 = [100]
  | None => False
  end.
Proof. vm_compute. done. Qed.

Lemma no_output_ok : info_ok no_output.
Proof.
  split; [done|]. intros n Hn. unfold no_output.
  rewrite (aget_replicate 63 n) by (unfold MAX_NUM_NODES in Hn; lia). set_solver.
Qed.

Lemma emit_spec_witness :
  ∃ items, emit 2 [120; 121; 10; 122] no_output 3 = Some (aset no_output 2 [122], items) ∧
    render_all items = [123; 48; 50; 125; 120; 121; 10].
Proof.
  apply (emit_spec 2 [120; 121; 10; 122] no_output 3 no_output_ok);
    [split; [unfold MAX_NUM_NODES; cbn; lia|]|]; vm_compute; discriminate.
Defined.

Lemma output_preserved_witness :
  ∃ info items, emit_run no_output 1 two_streams = Some (info, items) ∧
    node_bytes 1 (items ++ (flush info MAX_NUM_NODES 1).2) = [97; 98; 99; 10; 100].
Proof.
  destruct (output_preserved 1 two_streams) as (info & items & Hr & Hb).
  - repeat (apply Forall_cons; split; [split; [cbn; lia|vm_compute; discriminate]|]). constructor.
  - exists info, items. split; [exact Hr|]. apply (Hb 1). unfold MAX_NUM_NODES. lia.
Defined.
End Examples.
