(* ===== verification/RunMsg.v ===== *)
(** * Messages between the master and the slaves of axiom-run

    The message buffer of [axiom-run/common.h] and [axiom-run/axiom-run.h] as
    bytes, the calls of the NIC that carry raw messages, and the sets of nodes
    that axiom-run keeps as 64-bit masks.  Multi-byte fields are little endian,
    as on the processors the NIC is built for. *)

From S2P Require Import Prelude Nic.

(** ** Constants *)

Definition CMD_EXIT : Z := 0x80.
Definition CMD_KILL : Z := 0x81.
Definition CMD_SEND_TO_STDOUT : Z := 0x82.
Definition CMD_SEND_TO_STDERR : Z := 0x83.
Definition CMD_RECV_FROM_STDIN : Z := 0x84.
Definition CMD_BARRIER : Z := 0x85.
Definition CMD_RPC : Z := 0x86.
Definition CMD_START : Z := 0x87.

Definition BARRIER_SERVICE : Z := 0x01.
Definition EXIT_SERVICE : Z := 0x02.
Definition REDIRECT_SERVICE : Z := 0x04.
Definition RPC_SERVICE : Z := 0x08.
Definition ALLOCATOR_SERVICE : Z := 0x10.
Definition KILL_SERVICE : Z := 0x20.

(** The C test [services & S]. *)
Definition has (services s : Z) : bool := negb (Z.land services s =? 0).

(** What the driver's headers fix: the size of a raw payload, the width of the
    type of sizes and the command of the allocator's replies. *)
Class RunConsts := {
  AXIOM_RAW_PAYLOAD_MAX_SIZE : Z;
  SIZE_BITS : Z;
  AXIOM_CMD_ALLOC_REPLY : Z
}.

(** ** The message buffer *)

(** Little-endian fields. *)
Fixpoint le_put (n : nat) (x : Z) : list Z :=
  match n with O => [] | S n => (x mod 256) :: le_put n (x / 256) end.
Definition le_get (l : list Z) : Z := foldr (fun b acc => b + 256 * acc) 0 l.

(** [n] bytes at offset [off] of a buffer. *)
Definition field (off n : nat) (b : list Z) : list Z := take n (drop off b).
Definition set_field (off : nat) (v b : list Z) : list Z :=
  take off b ++ v ++ drop (off + length v) b.

(** [header_t]: the command, three bytes of padding and the union, whose largest
    member is the one of CMD_RPC. *)
Definition sizeof_header : nat := 20.

Definition h_command (b : list Z) : Z := aget b 0.
Definition h_status (b : list Z) : Z := s32 (le_get (field 4 4 b)).
Definition h_barrier_id (b : list Z) : Z := le_get (field 4 4 b).
Definition h_rpc_id (b : list Z) : Z := le_get (field 4 8 b).
Definition h_rpc_function (b : list Z) : Z := le_get (field 12 4 b).
Definition h_rpc_size (b : list Z) : Z := le_get (field 16 4 b).
Definition h_magic (b : list Z) : Z := le_get (field 4 8 b).
Definition b_raw (b : list Z) : list Z := drop sizeof_header b.

Definition set_command (c : Z) (b : list Z) : list Z := set_field 0 [u8 c] b.
Definition set_status (s : Z) (b : list Z) : list Z := set_field 4 (le_put 4 s) b.
Definition set_barrier_id (i : Z) (b : list Z) : list Z := set_field 4 (le_put 4 i) b.
Definition set_rpc_id (i : Z) (b : list Z) : list Z := set_field 4 (le_put 8 i) b.
Definition set_rpc_function (i : Z) (b : list Z) : list Z := set_field 12 (le_put 4 i) b.
Definition set_rpc_size (i : Z) (b : list Z) : list Z := set_field 16 (le_put 4 i) b.
Definition set_magic (m : Z) (b : list Z) : list Z := set_field 4 (le_put 8 m) b.
Definition set_raw (v b : list Z) : list Z := set_field sizeof_header v b.

(** A reception overwrites the beginning of the buffer. *)
Definition overwrite (payload b : list Z) : list Z := payload ++ drop (length payload) b.

Section Size.
Context `{RC : RunConsts}.
(** Arithmetic on [axiom_raw_payload_size_t]. *)
Definition usize (x : Z) : Z := x mod 2 ^ SIZE_BITS.

(** What the code relies on: a buffer holds a header and data, its size fits the
    type of sizes, and the allocator's command is none of axiom-run's. *)
Class RunConstsOk := {
  payload_max : Z.of_nat sizeof_header < AXIOM_RAW_PAYLOAD_MAX_SIZE < 2 ^ SIZE_BITS;
  size_bits_pos : 0 <= SIZE_BITS;
  alloc_reply_cmd : 0 <= AXIOM_CMD_ALLOC_REPLY < CMD_EXIT
}.
End Size.

(** ** The raw calls of the NIC *)

(** [axiom_send_raw] with node, port and payload; [axiom_recv_raw] with its
    result, the sender and the bytes written to the buffer (at most its size);
    [axiom_send_iov_raw] with the parts of the payload. *)
Class RawDev (D : Type) := {
  axiom_send_raw : Z → Z → list Z → M D Z;
  axiom_recv_raw : M D (Z * Z * list Z);
  axiom_send_iov_raw : Z → Z → list (list Z) → M D Z
}.

(** [select] on a descriptor and on the event that ends the thread, followed by a
    [read] when there is data.  A failure tells whether it was [EINTR]; the data
    is at most as long as the buffer it is read to. *)
Inductive sel_result :=
  | SelFail (eintr : bool)
  | SelEnd
  | ReadFail (eintr : bool)
  | ReadData (bytes : list Z).

Class Input (D : Type) := { select_read : M D sel_result }.

(** A scripted device: results of the receptions and of the sends (when these
    are used up, sends succeed), and the log of what was sent. *)
Record rawsim := mk_rawsim {
  rs_in : list (Z * Z * list Z);
  rs_send : list Z;
  rs_log : list (Z * Z * list Z)
}.

Section Sim.
Context `{CN : NicConsts}.

Definition rs_push (e : Z * Z * list Z) : M rawsim Z := fun d =>
  match rs_send d with
  | [] => Ret AXIOM_RET_OK (mk_rawsim (rs_in d) [] (rs_log d ++ [e]))
  | r :: rs => Ret r (mk_rawsim (rs_in d) rs (rs_log d ++ [e]))
  end.

#[export] Instance rawsim_dev : RawDev rawsim := {|
  axiom_send_raw node port payload := rs_push (node, port, payload);
  axiom_recv_raw d := match rs_in d with
    | [] => Stuck Blocked d
    | x :: xs => Ret x (mk_rawsim xs (rs_send d) (rs_log d))
    end;
  axiom_send_iov_raw node port parts := rs_push (node, port, concat parts)
|}.

(** [evs] are sent, whatever the results. *)
Definition rs_after (evs : list (Z * Z * list Z)) (d : rawsim) : rawsim :=
  mk_rawsim (rs_in d) (drop (length evs) (rs_send d)) (rs_log d ++ evs).

Lemma rs_push_after e d : ∃ r, rs_push e d = Ret r (rs_after [e] d).
Proof. unfold rs_push, rs_after. destruct d as [i [|r rs] l]; cbn; by eexists. Qed.

Lemma rs_after_app l1 l2 d : rs_after l2 (rs_after l1 d) = rs_after (l1 ++ l2) d.
Proof.
  unfold rs_after. cbn. rewrite length_app, drop_drop, <- app_assoc. done.
Qed.

Lemma rs_after_nil d : rs_after [] d = d.
Proof. unfold rs_after. cbn. rewrite app_nil_r. by destruct d. Qed.
End Sim.

(** A device with an input: the results of [select_read] are scripted. *)
#[export] Instance input_dev {D} : Input (list sel_result * D) := {|
  select_read d := match d.1 with
    | [] => Stuck Blocked d
    | x :: xs => Ret x (xs, d.2)
    end
|}.

(** The calls of a device that is part of a larger state. *)
Definition lift_snd {E D A} (c : M D A) : M (E * D) A := fun d =>
  match c d.2 with Ret a d2 => Ret a (d.1, d2) | Stuck w d2 => Stuck w (d.1, d2) end.

#[export] Instance raw_snd {E D} `{RawDev D} : RawDev (E * D) := {|
  axiom_send_raw node port payload := lift_snd (axiom_send_raw node port payload);
  axiom_recv_raw := lift_snd axiom_recv_raw;
  axiom_send_iov_raw node port parts := lift_snd (axiom_send_iov_raw node port parts)
|}.

(** ** Lemmas on the fields *)

Lemma length_le_put n x : length (le_put n x) = n.
Proof. induction n in x |- *; cbn; auto. Qed.

Lemma le_get_put n x : le_get (le_put n x) = x mod 256 ^ Z.of_nat n.
Proof.
  induction n as [|n IH] in x |- *; [cbn; by rewrite Z.mod_1_r|].
  cbn [le_put le_get foldr]. change (foldr _ 0 (le_put n (x / 256))) with (le_get (le_put n (x / 256))).
  rewrite IH, Nat2Z.inj_succ, Z.pow_succ_r by lia.
  rewrite (Z.rem_mul_r x 256) by lia. lia.
Qed.

Lemma le_put_bytes n x : Forall (fun b => 0 <= b < 256) (le_put n x).
Proof. induction n in x |- *; cbn; constructor; auto. apply Z.mod_pos_bound. lia. Qed.

Lemma set_field_bytes off v b :
  Forall (fun b => 0 <= b < 256) v → Forall (fun b => 0 <= b < 256) b →
  Forall (fun b => 0 <= b < 256) (set_field off v b).
Proof.
  intros Hv Hb. unfold set_field. apply Forall_app. split; [by apply Forall_take|].
  apply Forall_app. split; [done|by apply Forall_drop].
Qed.

Lemma length_set_field off v b : (off + length v <= length b)%nat → length (set_field off v b) = length b.
Proof. intros H. unfold set_field. rewrite !length_app, length_take, length_drop. lia. Qed.

Lemma field_set_field off n v b : length v = n → (off <= length b)%nat → field off n (set_field off v b) = v.
Proof.
  intros <- H. unfold field, set_field. rewrite drop_app_length' by (rewrite length_take; lia).
  by rewrite take_app_length.
Qed.

(** Fields that do not overlap. *)
Lemma field_set_other off n off' v b :
  (off + n <= off' ∨ off' + length v <= off)%nat → (off' + length v <= length b)%nat →
  field off n (set_field off' v b) = field off n b.
Proof.
  intros Ho Hl. apply list_eq. intros i. unfold field, set_field.
  rewrite !lookup_take. case_decide; [|done]. rewrite !lookup_drop.
  destruct Ho as [Ho|Ho].
  - rewrite lookup_app_l by (rewrite length_take; lia). rewrite lookup_take. case_decide; [done|lia].
  - rewrite lookup_app_r by (rewrite length_take; lia). rewrite length_take.
    rewrite lookup_app_r by lia. rewrite lookup_drop. f_equal. lia.
Qed.

(** What is read from the buffer comes from the message when this reaches far
    enough. *)
Lemma field_overwrite off n p b : (off + n <= length p)%nat → field off n (overwrite p b) = field off n p.
Proof.
  intros H. unfold field, overwrite. rewrite drop_app_le by lia.
  rewrite take_app_le by (rewrite length_drop; lia). done.
Qed.

Lemma take_overwrite p b : take (length p) (overwrite p b) = p.
Proof. unfold overwrite. by rewrite take_app_length. Qed.

Lemma length_overwrite p b : (length p <= length b)%nat → length (overwrite p b) = length b.
Proof. intros. unfold overwrite. rewrite length_app, length_drop. lia. Qed.

Lemma command_field b : (0 < length b)%nat → field 0 1 b = [h_command b].
Proof.
  unfold field, h_command, aget. destruct b as [|x b]; cbn; [lia|done].
Qed.

Lemma command_overwrite p b : (0 < length p)%nat → h_command (overwrite p b) = h_command p.
Proof. destruct p as [|x p]; cbn; [lia|done]. Qed.

(** The header and the data of a buffer that is filled in two parts. *)
Lemma take_set_raw v b : (sizeof_header <= length b)%nat →
  take sizeof_header (set_raw v b) = take sizeof_header b ∧
  take (length v + sizeof_header) (set_raw v b) = take sizeof_header b ++ v.
Proof.
  intros H. unfold set_raw, set_field. split.
  - rewrite take_app_le by (rewrite length_take; lia). by rewrite take_take, Nat.min_id.
  - rewrite app_assoc. rewrite take_app_length'; [done|]. rewrite length_app, length_take. lia.
Qed.

Lemma take_set_command c b : (sizeof_header <= length b)%nat →
  length (set_command c b) = length b ∧
  take sizeof_header (set_command c b) = set_command c (take sizeof_header b).
Proof.
  unfold sizeof_header. destruct b as [|x b]; cbn; [lia|]. intros _. by rewrite drop_0.
Qed.

(** Bits of the services and flags. *)
Lemma has_lor x a b : has x (Z.lor a b) = has x a || has x b.
Proof.
  unfold has. rewrite Z.land_lor_distr_r.
  destruct (Z.eqb_spec (Z.lor (Z.land x a) (Z.land x b)) 0) as [E|E], (Z.eqb_spec (Z.land x a) 0) as [Ea|Ea],
    (Z.eqb_spec (Z.land x b) 0) as [Eb|Eb]; cbn; try done.
  all: try (apply Z.lor_eq_0_iff in E as [? ?]; done). exfalso. apply E. by rewrite Ea, Eb.
Qed.

Lemma has_lor_l a b x : has (Z.lor a b) x = has a x || has b x.
Proof.
  assert (H : ∀ y, has y x = has x y) by (intros y; unfold has; by rewrite Z.land_comm).
  by rewrite !H, has_lor.
Qed.

Lemma has_pow2 x k : 0 <= k → has x (2 ^ k) = Z.testbit x k.
Proof.
  intros Hk. unfold has. destruct (Z.testbit x k) eqn:E.
  - destruct (Z.eqb_spec (Z.land x (2 ^ k)) 0) as [E0|]; [|done].
    assert (H : Z.testbit (Z.land x (2 ^ k)) k = true) by (by rewrite Z.land_spec, E, Z.pow2_bits_true).
    by rewrite E0, Z.testbit_0_l in H.
  - replace (Z.land x (2 ^ k)) with 0; [done|]. symmetry. apply Z.bits_inj_0. intros j.
    rewrite Z.land_spec, Z.pow2_bits_eqb by lia. destruct (Z.eqb_spec k j) as [<-|]; [by rewrite E|apply andb_false_r].
Qed.

Lemma has_clear x k j : 0 <= k → 0 <= j →
  has (Z.land x (Z.lnot (2 ^ k))) (2 ^ j) = has x (2 ^ j) && negb (k =? j).
Proof.
  intros Hk Hj. rewrite !has_pow2 by done. by rewrite Z.land_spec, Z.lnot_spec, Z.pow2_bits_eqb.
Qed.

(** ** Sets of nodes *)

(** The nodes of a mask, in increasing order. *)
Definition members (nodes : Z) : list Z := filter (fun i => Z.testbit nodes i = true) (seqZ 0 64).

(** [while (n != 0) { if (n & 0x1) nnodes++; n >>= 1; }] *)
Fixpoint count_nodes (fuel : nat) (n nnodes : Z) : Z :=
  match fuel with
  | O => nnodes
  | S fuel =>
      if n =? 0 then nnodes else
      count_nodes fuel (Z.shiftr n 1) (if Z.land n 1 =? 0 then nnodes else nnodes + 1)
  end.

(** The same set with the numbers shifted, as the loops see it. *)
Definition members_from (base : Z) (fuel : nat) (n : Z) : list Z :=
  filter (fun i => Z.testbit n (i - base) = true) (seqZ base (Z.of_nat fuel)).

Lemma members_from_0 n : members_from 0 64 n = members n.
Proof.
  unfold members_from, members. apply list_filter_iff. intros i. by rewrite Z.sub_0_r.
Qed.

Lemma land_1_odd n : (Z.land n 1 =? 0) = negb (Z.odd n).
Proof.
  change 1 with (Z.ones 1) at 1. rewrite Z.land_ones by lia. change (2 ^ 1) with 2. rewrite Zmod_odd.
  by destruct (Z.odd n).
Qed.

Lemma members_from_step base fuel n : 
  members_from base (S fuel) n =
  (if Z.land n 1 =? 0 then [] else [base]) ++ members_from (base + 1) fuel (Z.shiftr n 1).
Proof.
  unfold members_from. rewrite seqZ_cons by lia. rewrite filter_cons, land_1_odd, Z.sub_diag.
  replace (Z.pred (Z.of_nat (S fuel))) with (Z.of_nat fuel) by lia.
  replace (Z.succ base) with (base + 1) by lia.
  assert (E : filter (fun i => Z.testbit n (i - base) = true) (seqZ (base + 1) (Z.of_nat fuel)) =
    filter (fun i => Z.testbit (Z.shiftr n 1) (i - (base + 1)) = true) (seqZ (base + 1) (Z.of_nat fuel))).
  { apply filter_ext_in. intros i Hi. apply elem_of_seqZ in Hi.
    rewrite Z.shiftr_spec by lia. by replace (i - (base + 1) + 1) with (i - base) by lia. }
  rewrite E, Z.bit0_odd. destruct (Z.odd n); cbn; [by rewrite decide_True|by rewrite decide_False].
Qed.

Lemma members_from_zero base fuel : members_from base fuel 0 = [].
Proof.
  unfold members_from. apply filter_none. intros i _. by rewrite Z.testbit_0_l.
Qed.

Lemma shiftr_bound n (fuel : nat) : 0 <= n < 2 ^ Z.of_nat (S fuel) → 0 <= Z.shiftr n 1 < 2 ^ Z.of_nat fuel.
Proof.
  rewrite Nat2Z.inj_succ, Z.pow_succ_r by lia. intros H. rewrite Z.shiftr_div_pow2 by lia.
  change (2 ^ 1) with 2. split; [apply Z.div_pos; lia|apply Z.div_lt_upper_bound; lia].
Qed.

Lemma count_nodes_from base fuel n nnodes : 0 <= n < 2 ^ Z.of_nat fuel →
  count_nodes fuel n nnodes = nnodes + alen (members_from base fuel n).
Proof.
  induction fuel as [|fuel IH] in base, n, nnodes |- *; intros Hn.
  { unfold members_from. rewrite seqZ_nil by lia. replace (alen _) with 0 by done. cbn. lia. }
  cbn [count_nodes]. destruct (Z.eqb_spec n 0) as [->|H0].
  { rewrite members_from_zero. change (alen _) with 0. lia. }
  rewrite (IH (base + 1)) by (by apply shiftr_bound). rewrite members_from_step.
  rewrite alen_app. destruct (Z.land n 1 =? 0); [change (alen []) with 0|change (alen [base]) with 1]; lia.
Qed.

Lemma count_nodes_members n : 0 <= n < 2 ^ 64 → count_nodes 64 n 0 = alen (members n).
Proof. intros H. rewrite (count_nodes_from 0) by done. by rewrite members_from_0. Qed.

Lemma elem_of_members i nodes : i ∈ members nodes ↔ 0 <= i < 64 ∧ Z.testbit nodes i = true.
Proof. unfold members. rewrite list_elem_of_filter, elem_of_seqZ. naive_solver lia. Qed.

Lemma members_NoDup nodes : NoDup (members nodes).
Proof. apply NoDup_filter, NoDup_seqZ. Qed.
