(* ===== verification/StrHeap.v ===== *)
(** * String lists in memory (axiom_common_library/strlist.c)

    The array of pointers as bytes, the strings as blocks that [malloc] has given
    and [free] takes back, insertion at both ends, allocations that fail.  The lists
    of file [CStrings] are what a list built at its tail represents. *)

From stdpp Require Import gmap.
From S2P Require Import Prelude CStrings Nic RunMsg.

Section Code.
(** The contents of memory that has not been written. *)
Variable garbage : nat → list Z.

(** The blocks by their addresses, and the results of the next allocations; 0 is
    the null pointer, also when the results are used up. *)
Record memory := mk_memory { y_heap : gmap Z (list Z); y_allocs : list Z }.

Definition malloc (m : memory) : Z * memory := (hd 0 (y_allocs m), mk_memory (y_heap m) (tail (y_allocs m))).
Definition store (a : Z) (b : list Z) (m : memory) : memory := mk_memory (<[a := b]> (y_heap m)) (y_allocs m).

(** [strlist_t]: the size, and the bytes of the array. *)
Record hlist := mk_hlist { h_size : nat; h_bytes : list Z }.

Definition hl_init : hlist := mk_hlist 0 [].

(** [data[i]]. *)
Definition get_ptr (i : nat) (bytes : list Z) : Z := le_get (field (8 * i) 8 bytes).
Definition put_ptr (i : nat) (a : Z) (bytes : list Z) : list Z := set_field (8 * i) (le_put 8 a) bytes.

(** [memmove(p->data, p->data + 1, n)]: [n] bytes. *)
Definition memmove_down (n : nat) (bytes : list Z) : list Z := take n (drop 8 bytes) ++ drop n bytes.

(** [_insert].  Of the address of the array it matters only whether there is one. *)
Definition hl_insert (p : hlist) (s : option (list Z)) (head : bool) (m : memory) : hlist * memory :=
  let '(ptr, m) := malloc m in
  if ptr =? 0 then (p, m) else
  let bytes := h_bytes p ++ garbage 8 in
  let size := S (h_size p) in
  let '(bytes, idx) := if head then (memmove_down (size - 1) bytes, 0%nat) else (bytes, (size - 1)%nat) in
  match s with
  | None => (mk_hlist size (put_ptr idx 0 bytes), m)
  | Some s =>
      let len := strlen s + 1 in
      let '(s2, m) := malloc m in
      if s2 =? 0 then (mk_hlist size bytes, m)
      else (mk_hlist size (put_ptr idx s2 bytes), store s2 (strlcpy (garbage (Z.to_nat len)) s len).1 m)
  end.

(** [_insert_all] of the strings before the null pointer. *)
Definition hl_insert_all (p : hlist) (args : option (list (list Z))) (head : bool) (m : memory) : hlist * memory :=
  match args with
  | None => (p, m)
  | Some args => foldl (fun pm s => hl_insert pm.1 (Some s) head pm.2) (p, m) args
  end.

(** [free] of something that is no block is undefined. *)
Definition free (a : Z) (m : memory) : option memory :=
  match y_heap m !! a with Some _ => Some (mk_memory (delete a (y_heap m)) (y_allocs m)) | None => None end.

Fixpoint free_loop (n i : nat) (bytes : list Z) (m : memory) : option memory :=
  match n with
  | O => Some m
  | S n =>
      let a := get_ptr i bytes in
      m ← (if a =? 0 then Some m else free a m);
      free_loop n (S i) bytes m
  end.

Definition hl_free (p : hlist) (m : memory) : option (hlist * memory) :=
  m ← free_loop (h_size p) 0 (h_bytes p) m; Some (hl_init, m).

(** What the array shows: the strings at its pointers; [None]: no string there. *)
Definition hl_get (p : hlist) (m : memory) : list (option cstr) :=
  (fun i => let a := get_ptr i (h_bytes p) in
     if a =? 0 then Some None else (fun b => Some (cstr_of b)) <$> y_heap m !! a) <$> seq 0 (h_size p).

(** ** Lists that are built at the tail *)

Hypothesis length_garbage : ∀ n, length (garbage n) = n.

(** The bytes of the pointers [addrs]. *)
Definition pack (addrs : list Z) : list Z := concat (le_put 8 <$> addrs).

Lemma length_pack addrs : length (pack addrs) = (8 * length addrs)%nat.
Proof. unfold pack. induction addrs as [|a l IH]; [done|]. cbn [fmap list_fmap concat length]. rewrite length_app, IH, length_le_put. lia. Qed.

Lemma pack_snoc addrs a : pack (addrs ++ [a]) = pack addrs ++ le_put 8 a.
Proof. unfold pack. rewrite fmap_app, concat_app. cbn [fmap list_fmap concat]. by rewrite app_nil_r. Qed.

Lemma get_pack addrs i a : addrs !! i = Some a → 0 <= a < 2 ^ 64 → get_ptr i (pack addrs) = a.
Proof.
  intros Hi Ha. unfold get_ptr, field, pack.
  assert (H : take 8 (drop (8 * i) (concat (le_put 8 <$> addrs))) = le_put 8 a).
  { induction addrs as [|b l IH] in i, Hi |- *; [done|]. destruct i as [|i].
    - injection Hi as ->. rewrite Nat.mul_0_r, drop_0. cbn [fmap list_fmap concat]. by rewrite take_app_length' by (by rewrite length_le_put).
    - cbn [fmap list_fmap concat]. rewrite drop_app_ge by (rewrite length_le_put; lia). rewrite length_le_put.
      replace (8 * S i - 8)%nat with (8 * i)%nat by lia. by apply IH. }
  rewrite H, le_get_put. apply Z.mod_small. lia.
Qed.

Lemma put_last addrs a : put_ptr (length addrs) a (pack addrs ++ garbage 8) = pack (addrs ++ [a]).
Proof.
  unfold put_ptr, set_field. rewrite pack_snoc. rewrite take_app_length' by (rewrite length_pack; lia).
  rewrite drop_ge; [by rewrite app_nil_r|]. rewrite length_app, length_pack, length_garbage, length_le_put. lia.
Qed.

(** The memory [m] is [heap0] and the blocks of the strings of [q], which the array
    of [p] has the addresses of. *)
Definition owns (heap0 : gmap Z (list Z)) (m : memory) (p : hlist) (q : strlist) : Prop := ∃ addrs,
  h_size p = length addrs ∧ h_bytes p = pack addrs ∧
  Forall2 (fun a (so : cstr) => match so with
    | None => a = 0
    | Some s => 0 < a < 2 ^ 64 ∧ ∃ b, y_heap m !! a = Some b ∧ holds b s end) addrs (sl_data q) ∧
  NoDup (filter (fun a => a ≠ 0) addrs) ∧
  (∀ a, a ∈ addrs → a ≠ 0 → heap0 !! a = None) ∧
  (∀ a, a = 0 ∨ a ∉ addrs → y_heap m !! a = heap0 !! a).

Lemma owns_init m : owns (y_heap m) m hl_init sl_init.
Proof. exists []. split_and!; try done; [by apply NoDup_nil_2|intros a Ha; by apply not_elem_of_nil in Ha]. Qed.


(** The allocations that the next insertion needs: for the array, for the string. *)
Definition grants (x : Z * Z) (m : memory) : Prop :=
  y_allocs m = x.1 :: x.2 :: drop 2 (y_allocs m) ∧ x.1 ≠ 0 ∧ 0 < x.2 < 2 ^ 64 ∧ y_heap m !! x.2 = None.

Lemma owns_append heap0 m p q b s x : owns heap0 m p q → holds b s → grants x m →
  let '(p', m') := hl_insert p (Some b) false m in
  owns heap0 m' p' (sl_append q (Some b)) ∧ y_allocs m' = drop 2 (y_allocs m) ∧
  ∀ a, y_heap m' !! a = None ↔ y_heap m !! a = None ∧ a ≠ x.2.
Proof.
  intros (addrs & Hsz & Hby & Hal & Hnd & Hout & Hsame) Hb (Hg & Harr & Hadr & Hfree). destruct x as [arr a]. cbn [fst snd] in *.
  unfold hl_insert, malloc. rewrite Hg. cbn [hd tail y_allocs y_heap].
  rewrite (proj2 (Z.eqb_neq _ _) Harr), (proj2 (Z.eqb_neq a 0)) by lia.
  rewrite (strlen_holds b s Hb). set (blk := (strlcpy _ _ _).1).
  assert (Hblk : holds blk s).
  { unfold blk. rewrite (strlcpy_eq _ b s) by (done || unfold alen; rewrite ?length_garbage; lia).
    destruct (Z.eqb_spec (alen s + 1) 0); [unfold alen in *; lia|]. destruct Hb as [Hs _]. split; [done|]. eexists. cbn [fst].
    rewrite take_ge by (unfold alen; lia). done. }
  assert (Hnew : a ∉ addrs).
  { intros Hin. apply list_elem_of_lookup_1 in Hin as [i Hi]. destruct (Forall2_lookup_l _ _ _ _ _ Hal Hi) as (so & _ & Hso).
    destruct so as [s'|]; [destruct Hso as (_ & b' & Hb' & _); congruence|lia]. }
  unfold store. cbn [y_heap y_allocs]. split; [|split; [done|]].
  - exists (addrs ++ [a]). cbn [h_size h_bytes]. rewrite Hsz, Hby. replace (S (length addrs) - 1)%nat with (length addrs) by lia.
    split_and!; [rewrite length_app; cbn; lia|by rewrite put_last| | | |].
    + rewrite (sl_append_holds q b s Hb). cbn [sl_data]. apply Forall2_app.
      * eapply Forall2_impl; [exact Hal|]. intros a' [s'|] H'; [|done]. destruct H' as (Hr & b' & Hb' & Hh). split; [done|]. exists b'.
        split; [|done]. cbn [y_heap]. rewrite lookup_insert_ne; [done|]. intros ->. congruence.
      * constructor; [|constructor]. split; [done|]. exists blk. cbn [y_heap]. by rewrite lookup_insert_eq.
    + rewrite filter_app. apply NoDup_app. split; [done|]. split.
      * intros a' H' H2. apply list_elem_of_filter in H' as [_ H'], H2 as [_ H2]. apply list_elem_of_singleton in H2 as ->. done.
      * cbn. destruct (decide (a ≠ 0)); [apply NoDup_singleton|constructor].
    + intros a' Hin Hn. apply elem_of_app in Hin as [Hin|Hin]; [by apply Hout|]. apply list_elem_of_singleton in Hin as ->.
      by rewrite <- (Hsame a (or_intror Hnew)).
    + intros a' Hin. rewrite elem_of_app, list_elem_of_singleton in Hin. cbn [y_heap].
      rewrite lookup_insert_ne by (intros ->; destruct Hin as [Hin|Hin]; [lia|naive_solver]). apply Hsame. naive_solver.
  - intros a'. cbn [y_heap]. destruct (decide (a' = a)) as [->|Hn]; [rewrite lookup_insert_eq; naive_solver|rewrite lookup_insert_ne by done; naive_solver].
Qed.

(** What the list shows. *)
Lemma owns_get heap0 m p q : owns heap0 m p q → hl_get p m = Some <$> sl_data q.
Proof.
  intros (addrs & Hsz & Hby & Hal & _ & _ & _). unfold hl_get. rewrite Hsz, Hby. apply list_eq. intros i. rewrite !list_lookup_fmap.
  destruct (decide (i < length addrs)%nat) as [Hi|Hi].
  - rewrite lookup_seq_lt by done. cbn [fmap option_fmap option_map]. destruct (lookup_lt_is_Some_2 addrs i Hi) as [a Ha].
    destruct (Forall2_lookup_l _ _ _ _ _ Hal Ha) as (so & Hq & Hso). rewrite Hq. cbn [Nat.add fmap option_fmap option_map]. destruct so as [s|].
    + destruct Hso as (Hr & b & Hb & Hh). rewrite (get_pack addrs i a Ha) by lia. rewrite (proj2 (Z.eqb_neq a 0)) by lia.
      rewrite Hb. cbn. by rewrite (cstr_of_holds b s Hh).
    + subst a. by rewrite (get_pack addrs i 0 Ha).
  - rewrite lookup_seq_ge by lia. cbn. by rewrite (lookup_ge_None_2 (sl_data q)) by (rewrite <- (Forall2_length _ _ _ Hal); lia).
Qed.

(** The pointers [rest] of the array are freed. *)
Lemma free_loop_run addrs before rest m :
  addrs = before ++ rest → (∀ a, a ∈ addrs → 0 <= a < 2 ^ 64) →
  NoDup (filter (fun a => a ≠ 0) rest) → (∀ a, a ∈ rest → a ≠ 0 → is_Some (y_heap m !! a)) →
  ∃ m', free_loop (length rest) (length before) (pack addrs) m = Some m' ∧ y_allocs m' = y_allocs m ∧
    ∀ a, (a ∈ rest → a ≠ 0 → y_heap m' !! a = None) ∧ (a = 0 ∨ a ∉ rest → y_heap m' !! a = y_heap m !! a).
Proof.
  intros Hall Hr. induction rest as [|b rest IH] in before, m, Hall |- *; intros Hnd Hin; cbn [length free_loop].
  - exists m. split; [done|]. split; [done|]. intros a. split; [intros H; by apply not_elem_of_nil in H|done].
  - assert (Hb : get_ptr (length before) (pack addrs) = b).
    { apply get_pack; [by rewrite Hall, lookup_app_r, Nat.sub_diag by done|]. apply Hr. rewrite Hall. set_solver. }
    rewrite Hb. replace (S (length before)) with (length (before ++ [b])) by (rewrite length_app; cbn; lia).
    assert (Hall2 : addrs = (before ++ [b]) ++ rest) by (by rewrite <- app_assoc).
    rewrite filter_cons in Hnd. destruct (Z.eqb_spec b 0) as [E|E].
    + cbn [mbind option_bind]. rewrite decide_False in Hnd by (intros H; by apply H). destruct (IH _ m Hall2 Hnd) as (m' & Hf & Ha & Hm); [intros a Hi; apply Hin; by right|].
      exists m'. split; [done|]. split; [done|]. intros a. destruct (Hm a) as [H1 H2]. split.
      * intros Hi Hn. apply elem_of_cons in Hi as [->|Hi]; [done|by apply H1].
      * intros Hi. apply H2. destruct Hi as [|Hi]; [by left|right; intros H; apply Hi; by right].
    + rewrite decide_True in Hnd by done. apply NoDup_cons in Hnd as [Hnot Hnd].
      assert (Hbr : b ∉ rest) by (intros H; apply Hnot; by apply list_elem_of_filter).
      destruct (Hin b ltac:(by left) E) as [blk Hblk]. unfold free. rewrite Hblk. cbn [mbind option_bind].
      destruct (IH _ (mk_memory (delete b (y_heap m)) (y_allocs m)) Hall2 Hnd) as (m' & Hf & Ha & Hm).
      { intros a Hi Hn. cbn [y_heap]. rewrite lookup_delete_ne by (by intros ->). apply Hin; [by right|done]. }
      exists m'. split; [done|]. split; [done|]. intros a. destruct (Hm a) as [H1 H2]. cbn [y_heap] in H2. split.
      * intros Hi Hn. destruct (decide (a ∈ rest)) as [Hi2|Hi2]; [by apply H1|].
        rewrite H2 by (by right). assert (a = b) as -> by (apply elem_of_cons in Hi as [|]; done). by rewrite lookup_delete_eq.
      * intros Hi. rewrite H2 by (destruct Hi as [|Hi]; [by left|right; intros H; apply Hi; by right]).
        rewrite lookup_delete_ne; [done|]. intros ->. destruct Hi as [|Hi]; [done|apply Hi; by left].
Qed.

Lemma owns_free heap0 m p q : owns heap0 m p q → hl_free p m = Some (hl_init, mk_memory heap0 (y_allocs m)).
Proof.
  intros (addrs & Hsz & Hby & Hal & Hnd & Hout & Hsame).
  assert (Hblk : ∀ a, a ∈ addrs → (a = 0 ∨ 0 < a < 2 ^ 64 ∧ is_Some (y_heap m !! a))).
  { intros a Hin. apply list_elem_of_lookup_1 in Hin as [i Hi]. destruct (Forall2_lookup_l _ _ _ _ _ Hal Hi) as (so & _ & Hso).
    destruct so as [s|]; [right|by left]. destruct Hso as (Hr & b & Hb & _). split; [done|]. by exists b. }
  destruct (free_loop_run addrs [] addrs m eq_refl) as (m' & Hf & Ha & Hm); [|done|..].
  - intros a Hin. destruct (Hblk a Hin) as [->|[? _]]; lia.
  - intros a Hin Hn. by destruct (Hblk a Hin) as [|[_ ?]].
  - unfold hl_free. rewrite Hsz, Hby. cbn [length] in Hf. rewrite Hf. cbn [mbind option_bind]. do 2 f_equal. destruct m' as [h' al']. cbn in *. subst al'. f_equal.
    apply map_eq. intros a. destruct (Hm a) as [H1 H2]. destruct (decide (a = 0 ∨ a ∉ addrs)) as [Hd|Hd].
    + rewrite H2 by done. by apply Hsame.
    + assert (a ∈ addrs ∧ a ≠ 0) as [Hi Hn].
      { split; [destruct (decide (a ∈ addrs)); [done|exfalso; apply Hd; by right]|intros ->; apply Hd; by left]. }
      rewrite H1 by done. by rewrite Hout.
Qed.

(** A list of strings in memory is a list of strings: when there is memory, what is
    appended from an array of strings, whatever the buffers hold behind them, is
    what the array of pointers shows, as the lists without memory say, and
    [sl_free] gives back exactly the blocks that were taken, each once. *)
Theorem strlist_in_memory bufs ss grant m rest : Forall2 holds bufs ss →
  y_allocs m = concat ((fun x : Z * Z => [x.1; x.2]) <$> grant) ++ rest → length grant = length bufs →
  Forall (fun x => x.1 ≠ 0 ∧ 0 < x.2 < 2 ^ 64 ∧ y_heap m !! x.2 = None) grant → NoDup (grant.*2) →
  let '(p, m') := hl_insert_all hl_init (Some bufs) false m in
  hl_get p m' = Some <$> (Some <$> ss) ∧
  hl_get p m' = Some <$> sl_get (sl_append_all sl_init (Some bufs)) ∧
  hl_free p m' = Some (hl_init, mk_memory (y_heap m) rest).
Proof.
  intros Hb Hal Hlen Hg Hnd.
  assert (Hgen : ∀ p m1 q, owns (y_heap m) m1 p q → y_allocs m1 = concat ((fun x : Z * Z => [x.1; x.2]) <$> grant) ++ rest →
    Forall (fun x => x.1 ≠ 0 ∧ 0 < x.2 < 2 ^ 64 ∧ y_heap m1 !! x.2 = None) grant →
    let '(p', m') := hl_insert_all p (Some bufs) false m1 in
    owns (y_heap m) m' p' (sl_append_all q (Some bufs)) ∧ y_allocs m' = rest).
  { clear Hal Hg. revert grant Hlen Hnd. induction Hb as [|b s bufs ss Hb Hbs IH]; intros grant Hlen Hnd p m1 q Hown Hal Hg.
    - destruct grant; [|done]. by split.
    - destruct grant as [|x grant]; [done|]. apply Forall_cons in Hg as [(G1 & G2 & G3) Hg]. cbn in Hnd. apply NoDup_cons in Hnd as [Hx Hnd].
      assert (Hgr : grants x m1) by (unfold grants; rewrite Hal; split; [reflexivity|by split]).
      pose proof (owns_append _ _ _ _ _ _ _ Hown Hb Hgr) as H. unfold hl_insert_all, sl_append_all. cbn [foldl fst snd].
      destruct (hl_insert p (Some b) false m1) as [p1 m2]. destruct H as (Hown2 & Hal2 & Hdom).
      apply (IH grant ltac:(by injection Hlen) Hnd p1 m2 _ Hown2); [by rewrite Hal2, Hal|].
      apply Forall_forall. intros y Hy. rewrite Forall_forall in Hg. destruct (Hg y Hy) as (Y1 & Y2 & Y3). split; [done|]. split; [done|].
      apply Hdom. split; [done|]. intros E. apply Hx. rewrite <- E. by apply list_elem_of_fmap_2. }
  specialize (Hgen hl_init m sl_init (owns_init m) Hal Hg). destruct (hl_insert_all hl_init (Some bufs) false m) as [p m'].
  destruct Hgen as [Hown Hrest]. pose proof (owns_get _ _ _ _ Hown) as Hget. split; [|split; [exact Hget|by rewrite (owns_free _ _ _ _ Hown), Hrest]].
  rewrite Hget. change (sl_data ?q) with (sl_get q). by rewrite (proj1 (sl_append_all_spec sl_init bufs ss sl_wf_init Hb)).
Qed.
End Code.

(** ** Evaluation *)

Section Examples.

(** Memory that has not been written holds 0xaa. *)
Definition ex_garbage (n : nat) : list Z := replicate n 170.
Definition ex_mem (allocs : list Z) : memory := mk_memory {[ 7 := [1; 2; 3] ]} allocs.

Lemma strlist_in_memory_witness :
  let '(p, m') := hl_insert_all ex_garbage hl_init (Some [[65; 0; 9]; [0; 8]; [66; 67; 0]]) false (ex_mem [1; 64; 1; 96; 1; 128; 5]) in
  hl_get p m' = [Some (Some [65]); Some (Some []); Some (Some [66; 67])] ∧ hl_free p m' = Some (hl_init, ex_mem [5]).
Proof.
  assert (Hb : Forall2 holds [[65; 0; 9]; [0; 8]; [66; 67; 0]] [[65]; []; [66; 67]]).
  { repeat constructor; (set_solver || (by exists [9]) || (by exists [8]) || by exists []). }
  assert (Hg : Forall (fun x : Z * Z => x.1 ≠ 0 ∧ 0 < x.2 < 2 ^ 64 ∧ y_heap (ex_mem [1; 64; 1; 96; 1; 128; 5]) !! x.2 = None) [(1, 64); (1, 96); (1, 128)]).
  { repeat constructor; try done. }
  assert (Hn : NoDup ([(1, 64); (1, 96); (1, 128)].*2)) by (cbn; apply (bool_decide_unpack _); vm_compute; exact I).
  pose proof (strlist_in_memory ex_garbage (fun n => length_replicate n 170) [[65; 0; 9]; [0; 8]; [66; 67; 0]] [[65]; []; [66; 67]] [(1, 64); (1, 96); (1, 128)]
    (ex_mem [1; 64; 1; 96; 1; 128; 5]) [5] Hb eq_refl eq_refl Hg Hn) as H. revert H.
  destruct (hl_insert_all ex_garbage hl_init _ false _) as [p m']. intros (H1 & _ & H3). exact (conj H1 H3).
Defined.

(** The insertion at the head moves bytes, not pointers, and towards the front: of
    two strings the first is lost, and so is its block, and the last place of the
    array is left unwritten. *)
Example insert_loses : 
  let '(p, m') := hl_insert_all ex_garbage hl_init (Some [[65; 0]; [66; 0]]) true (ex_mem [1; 64; 1; 96]) in
  hl_get p m' = [Some (Some [66]); None] ∧ y_heap m' !! 64 = Some [65; 0] ∧ hl_free p m' = None.
Proof. vm_compute. done. Qed.

(** From the tenth string on the pointer behind the first is damaged as well. *)
Example insert_damages :
  let '(p, m) := hl_insert_all ex_garbage hl_init (Some (replicate 9 [65; 0])) false
    (ex_mem (concat ((fun a => [1; a]) <$> seqZ 100 9))) in
  let '(p', m') := hl_insert ex_garbage p (Some [66; 0]) true (mk_memory (y_heap m) [1; 200]) in
  get_ptr 1 (h_bytes p) = 101 ∧ get_ptr 1 (h_bytes p') = 102.
Proof. vm_compute. done. Qed.

(** When there is no memory for a string the list has grown all the same, by a
    pointer that has not been written, and [sl_free] frees it. *)
Example malloc_fails :
  let '(p, m') := hl_insert ex_garbage hl_init (Some [65; 0]) false (ex_mem [1; 0]) in
  h_size p = 1%nat ∧ hl_get p m' = [None] ∧ hl_free p m' = None.
Proof. vm_compute. done. Qed.
End Examples.
