(* ===== verification/Master.v ===== *)
(** * The master process of axiom-run (axiom-run/master.c, axiom-run/rpcfuncs.c)

    The receiver thread collects what the slaves send: output, exit statuses,
    barrier requests and remote procedure calls; the sender thread forwards the
    standard input.  The allocator library behind the remote procedure calls is
    a parameter. *)

From S2P Require Import Prelude Nic Output RunMsg.

Definition EXIT_FLAG_MASK : Z := 0x1c.
Definition EXIT_FLAG_SHIFT : Z := 2.
Definition FIRST_ABS_EXIT_FLAG : Z := Z.shiftl 5 EXIT_FLAG_SHIFT.
Definition NOFAIL_EXIT_FLAG : Z := Z.shiftl 4 EXIT_FLAG_SHIFT.
Definition FIRST_EXIT_FLAG : Z := Z.shiftl 3 EXIT_FLAG_SHIFT.
Definition LAST_EXIT_FLAG : Z := Z.shiftl 2 EXIT_FLAG_SHIFT.
Definition LESSER_EXIT_FLAG : Z := Z.shiftl 1 EXIT_FLAG_SHIFT.
Definition GREATHER_EXIT_FLAG : Z := Z.shiftl 0 EXIT_FLAG_SHIFT.

Definition AXRUN_MAX_BARRIER_ID : Z := 15.
Definition AXRUN_RPC_PING : Z := 0.
Definition AXRUN_RPC_ALLOC : Z := 1.
Definition AXRUN_RPC_GET_REGIONS : Z := 2.
Definition AXRUN_RPC_ALLOC_SHBLOCK : Z := 3.

(** Wait statuses, as the macros of the C library read them. *)
Definition WIFEXITED (s : Z) : bool := Z.land s 0x7f =? 0.
Definition WEXITSTATUS (s : Z) : Z := Z.land (Z.shiftr s 8) 0xff.
Definition WTERMSIG (s : Z) : Z := Z.land s 0x7f.
Definition WIFSIGNALED (s : Z) : bool := negb (WTERMSIG s =? 0) && negb (WTERMSIG s =? 0x7f).

(** [static rpc_reply_t rpc_reply]: the one reply that can be pending. *)
Record rpc_reply_t := mk_rpc_reply { reply_node : Z; reply_port : Z; reply_hdr : list Z }.

(** The level-2 allocator of the AXIOM library.  The calls that get a pointer to
    the payload may change it: its new contents are part of the result. *)
Class Allocator (D : Type) := {
  axiom_al2_init : Z → M D Z;
  axiom_al2_release : M D unit;
  axiom_al2_alloc : Z → Z → list Z → M D (Z * list Z);
  axiom_al2_get_regions : Z → Z → list Z → M D (Z * list Z);
  axiom_al2_alloc_shblock : Z → Z → list Z → M D (Z * list Z);
  axiom_al2_alloc_reply : Z → list Z → M D (Z * list Z)
}.

(** [thread_info_t] and the ports of axiom-run. *)
Record minfo := mk_minfo {
  i_nodes : Z; i_nnodes : Z; i_flags : Z; i_app_id : Z; slave_port : Z; master_port : Z
}.

(** The variables of [master_receiver], [exit_status], [rpc_reply] and what was
    written to the two streams. *)
Record receiver := mk_receiver {
  m_buffer : list Z;
  m_services : Z;
  m_exit_counter : Z;
  m_exit_status : Z;
  m_barrier : list Z;
  m_infoout : list (list Z);
  m_infoerr : list (list Z);
  m_out : list out_item;
  m_err : list out_item;
  m_rpc_reply : rpc_reply_t
}.

Definition set_m_buffer (b : list Z) (r : receiver) : receiver :=
  mk_receiver b (m_services r) (m_exit_counter r) (m_exit_status r) (m_barrier r)
    (m_infoout r) (m_infoerr r) (m_out r) (m_err r) (m_rpc_reply r).
Definition set_m_exit (services counter status : Z) (r : receiver) : receiver :=
  mk_receiver (m_buffer r) services counter status (m_barrier r)
    (m_infoout r) (m_infoerr r) (m_out r) (m_err r) (m_rpc_reply r).
Definition set_m_barrier (l : list Z) (r : receiver) : receiver :=
  mk_receiver (m_buffer r) (m_services r) (m_exit_counter r) (m_exit_status r) l
    (m_infoout r) (m_infoerr r) (m_out r) (m_err r) (m_rpc_reply r).
Definition set_m_stdout (info : list (list Z)) (items : list out_item) (r : receiver) : receiver :=
  mk_receiver (m_buffer r) (m_services r) (m_exit_counter r) (m_exit_status r) (m_barrier r)
    info (m_infoerr r) items (m_err r) (m_rpc_reply r).
Definition set_m_stderr (info : list (list Z)) (items : list out_item) (r : receiver) : receiver :=
  mk_receiver (m_buffer r) (m_services r) (m_exit_counter r) (m_exit_status r) (m_barrier r)
    (m_infoout r) info (m_out r) items (m_rpc_reply r).
Definition set_m_rpc (b : list Z) (reply : rpc_reply_t) (r : receiver) : receiver :=
  mk_receiver b (m_services r) (m_exit_counter r) (m_exit_status r) (m_barrier r)
    (m_infoout r) (m_infoerr r) (m_out r) (m_err r) reply.

(** The exit status after a slave reported [status], without the exit service
    (or after its first report). *)
Definition update_exit_status (flags status exit_status : Z) : Z :=
  let mode := Z.land flags EXIT_FLAG_MASK in
  if WIFEXITED status then
    if WIFEXITED exit_status then
      if (mode =? FIRST_EXIT_FLAG) || (mode =? FIRST_ABS_EXIT_FLAG) then exit_status
      else if mode =? LAST_EXIT_FLAG then status
      else if mode =? GREATHER_EXIT_FLAG then
        (if WEXITSTATUS exit_status <? WEXITSTATUS status then status else exit_status)
      else if mode =? LESSER_EXIT_FLAG then
        (if WEXITSTATUS status <? WEXITSTATUS exit_status then status else exit_status)
      else exit_status
    else exit_status
  else
    if WIFEXITED exit_status then
      if mode =? FIRST_ABS_EXIT_FLAG then exit_status else status
    else exit_status.

Section Code.
Context `{CN : NicConsts} `{RC : RunConsts} `{IO : Stdio}.
Context {D : Type} `{RD : RawDev D} `{AL : Allocator D}.

(** [while (nodes != 0)] of [my_axiom_send_raw]. *)
Fixpoint send_nodes (fuel : nat) (nodes port node err : Z) (payload : list Z) : M D Z :=
  match fuel with
  | O => stop Diverges
  | S fuel =>
      if nodes =? 0 then mret err else
      err ← (if Z.land nodes 1 =? 0 then mret err else
             msg ← axiom_send_raw node port payload;
             mret (if AXIOM_RET_IS_OK msg then err else AXIOM_RET_ERROR));
      send_nodes fuel (Z.shiftr nodes 1) port (u8 (node + 1)) err payload
  end.

(** A mask has 64 bits, so that 65 turns are enough. *)
Definition my_axiom_send_raw (nodes port : Z) (payload : list Z) : M D Z :=
  send_nodes 65 nodes port 0 AXIOM_RET_OK payload.

(** The version for signal handlers differs in its logging only. *)
Definition s_my_axiom_send_raw (nodes port : Z) (payload : list Z) : M D Z :=
  send_nodes 65 nodes port 0 AXIOM_RET_OK payload.

(** *** Remote procedure calls (rpcfuncs.c) *)

Definition rpc_init (app_id : Z) : M D Z := axiom_al2_init app_id.
Definition rpc_release : M D unit := axiom_al2_release.

Definition rpc_postpone_reply (node port : Z) (hdr : list Z) : rpc_reply_t := mk_rpc_reply node port hdr.

Definition rpc_send_reply (reply : rpc_reply_t) (buffer : list Z) : M D Z :=
  err ← axiom_send_iov_raw (reply_node reply) (reply_port reply) [reply_hdr reply; buffer];
  mret (if AXIOM_RET_IS_OK err then 0 else -1).

(** The reply to a call: the message itself, as the call left it. *)
Definition rpc_answer (info : minfo) (reply src_node size : Z) (inmsg : list Z) : M D Z :=
  if reply =? 0 then mret 0 else
  _ ← axiom_send_raw src_node (slave_port info) (take (Z.to_nat size) inmsg);
  mret 0.

(** The calls of the allocator work on [inmsg->raw], with its size as a
    [size_t]. *)
Definition rpc_payload (size : Z) : Z := u64 (size - Z.of_nat sizeof_header).

Definition rpc_service (info : minfo) (src_node size : Z) (inmsg : list Z) (pending : rpc_reply_t)
    : M D (Z * list Z * rpc_reply_t) :=
  if h_command inmsg =? AXIOM_CMD_ALLOC_REPLY then
    '(ret, msg) ← axiom_al2_alloc_reply size inmsg;
    if ret =? 0 then mret (0, inmsg, pending) else
    r ← rpc_send_reply pending msg;
    mret (r, inmsg, pending)
  else
  let function := h_rpc_function inmsg in
  let hdr := take sizeof_header inmsg in
  if function =? AXRUN_RPC_PING then
    r ← rpc_answer info 1 src_node size inmsg;
    mret (r, inmsg, pending)
  else if function =? AXRUN_RPC_ALLOC then
    '(reply, raw) ← axiom_al2_alloc (master_port info) (rpc_payload size) (b_raw inmsg);
    let pending := if reply =? 0 then rpc_postpone_reply src_node (slave_port info) hdr else pending in
    r ← rpc_answer info reply src_node size (hdr ++ raw);
    mret (r, hdr ++ raw, pending)
  else if function =? AXRUN_RPC_GET_REGIONS then
    '(reply, raw) ← axiom_al2_get_regions src_node (rpc_payload size) (b_raw inmsg);
    r ← rpc_answer info reply src_node size (hdr ++ raw);
    mret (r, hdr ++ raw, pending)
  else if function =? AXRUN_RPC_ALLOC_SHBLOCK then
    '(reply, raw) ← axiom_al2_alloc_shblock src_node (rpc_payload size) (b_raw inmsg);
    r ← rpc_answer info reply src_node size (hdr ++ raw);
    mret (r, hdr ++ raw, pending)
  else mret (-1, inmsg, pending).

(** *** The receiver thread *)

(** [emit(node, buffer.raw, size, ...)] after [size -= sizeof(header_t)]. *)
Definition emit_raw (node size : Z) (buffer : list Z) (info : list (list Z)) (flags : Z)
    : option (list (list Z) * list out_item) :=
  let sz := usize (size - Z.of_nat sizeof_header) in
  if alen (b_raw buffer) <? sz then None
  else emit node (take (Z.to_nat sz) (b_raw buffer)) info flags.

Definition on_stdout (info : minfo) (node size : Z) (r : receiver) : M D receiver :=
  match emit_raw node size (m_buffer r) (m_infoout r) (i_flags info) with
  | None => stop OutOfBounds
  | Some (out, items) => mret (set_m_stdout out (m_out r ++ items) r)
  end.

Definition on_stderr (info : minfo) (node size : Z) (r : receiver) : M D receiver :=
  match emit_raw node size (m_buffer r) (m_infoerr r) (i_flags info) with
  | None => stop OutOfBounds
  | Some (err, items) => mret (set_m_stderr err (m_err r ++ items) r)
  end.

(** CMD_EXIT; [inr]: [exit_counter] has reached zero. *)
Definition on_exit (info : minfo) (r : receiver) : M D (receiver + receiver) :=
  let status := h_status (m_buffer r) in
  r ← (if has (m_services r) EXIT_SERVICE then
         let buffer := set_command CMD_KILL (m_buffer r) in
         _ ← my_axiom_send_raw (i_nodes info) (slave_port info) (take sizeof_header buffer);
         mret (set_m_exit (Z.land (m_services r) (Z.lnot EXIT_SERVICE)) (m_exit_counter r) status
                 (set_m_buffer buffer r))
       else mret (set_m_exit (m_services r) (m_exit_counter r)
                    (update_exit_status (i_flags info) status (m_exit_status r)) r));
  let exit_status :=
    if Z.land (i_flags info) EXIT_FLAG_MASK =? NOFAIL_EXIT_FLAG then 0 else m_exit_status r in
  let counter := m_exit_counter r - 1 in
  let r := set_m_exit (m_services r) counter exit_status r in
  mret (if counter =? 0 then inr r else inl r).

(** CMD_BARRIER. *)
Definition on_barrier (info : minfo) (r : receiver) : M D receiver :=
  if negb (has (m_services r) BARRIER_SERVICE) then mret r else
  let id := h_barrier_id (m_buffer r) in
  if negb (id <=? AXRUN_MAX_BARRIER_ID) then mret r else
  c ← rd1 (m_barrier r) id;
  let c := (if c =? 0 then i_nnodes info else c) - 1 in
  l ← wr1 (m_barrier r) id c;
  (if c =? 0 then
     _ ← my_axiom_send_raw (i_nodes info) (slave_port info) (take sizeof_header (m_buffer r)); mret tt
   else mret tt) ;;
  mret (set_m_barrier l r).

Definition on_rpc (info : minfo) (node size : Z) (r : receiver) : M D receiver :=
  if negb (has (m_services r) RPC_SERVICE) then mret r else
  '(_, b, pending) ← rpc_service info node size (m_buffer r) (m_rpc_reply r);
  mret (set_m_rpc b pending r).

(** One turn of the main loop. *)
Definition master_turn (info : minfo) (r : receiver) : M D (receiver + receiver) :=
  '(msg, node, payload) ← axiom_recv_raw;
  let r := set_m_buffer (overwrite payload (m_buffer r)) r in
  let size := alen payload in
  if negb (AXIOM_RET_IS_OK msg) then mret (inl r) else
  let command := h_command (m_buffer r) in
  if command =? CMD_SEND_TO_STDERR then
    if has (m_services r) REDIRECT_SERVICE then r ← on_stderr info node size r; mret (inl r)
    else mret (inl r)
  else if command =? CMD_SEND_TO_STDOUT then
    if has (m_services r) REDIRECT_SERVICE then r ← on_stdout info node size r; mret (inl r)
    else mret (inl r)
  else if command =? CMD_EXIT then on_exit info r
  else if command =? CMD_BARRIER then r ← on_barrier info r; mret (inl r)
  else if (command =? CMD_RPC) || (command =? AXIOM_CMD_ALLOC_REPLY) then
    r ← on_rpc info node size r; mret (inl r)
  else mret (inl r).

Definition receiver0 (info : minfo) (buffer : list Z) (services : Z) (reply : rpc_reply_t) : receiver :=
  mk_receiver buffer services (i_nnodes info) 0
    (replicate (Z.to_nat (AXRUN_MAX_BARRIER_ID + 1)) 0)
    (replicate (Z.to_nat MAX_NUM_NODES) []) (replicate (Z.to_nat MAX_NUM_NODES) []) [] [] reply.

(** [buffer] and [reply] are the uninitialised variables of the C code.  [None]:
    [rpc_init] fails and the process exits. *)
Definition master_receiver (fuel : nat) (info : minfo) (services : Z) (buffer : list Z) (reply : rpc_reply_t)
    : M D (option receiver) :=
  err ← rpc_init (i_app_id info);
  if negb (err =? 0) then mret None else
  r ← loop fuel (master_turn info) (receiver0 info buffer services reply);
  let '(out, items) := flush (m_infoout r) MAX_NUM_NODES (i_flags info) in
  let r := set_m_stdout out (m_out r ++ items) r in
  let '(err, items) := flush (m_infoerr r) MAX_NUM_NODES (i_flags info) in
  mret (Some (set_m_stderr err (m_err r ++ items) r)).

(** *** The sender thread *)

(** One turn of [master_sender] over the buffer; [inr]: the loop is left. *)
Definition master_sender_turn `{IN : Input D} (info : minfo) (buffer : list Z) : M D (list Z + unit) :=
  s ← select_read;
  match s with
  | SelFail eintr => mret (if eintr then inl buffer else inr tt)
  | SelEnd => mret (inr tt)
  | ReadFail eintr => mret (if eintr then inl buffer else inr tt)
  | ReadData bytes =>
      let buffer := set_raw bytes buffer in
      if 0 <? alen bytes then
        _ ← my_axiom_send_raw (i_nodes info) (slave_port info) (take (length bytes + sizeof_header) buffer);
        mret (inl buffer)
      else mret (inl buffer)
  end.

Definition master_sender `{IN : Input D} (fuel : nat) (info : minfo) (buffer : list Z) : M D unit :=
  loop fuel (master_sender_turn info) (set_command CMD_RECV_FROM_STDIN buffer).

(** *** The main thread *)

(** The signal handler; [open]: [mydev] is set, [kill]: [send_kill_on_exit_signal].
    The process exits afterwards. *)
Definition myexit (open kill : bool) (mynodes port sig : Z) (buffer : list Z) : M D unit :=
  if open && kill then
    let buffer := set_status (Z.land sig 0x7f) (set_command CMD_KILL buffer) in
    _ ← s_my_axiom_send_raw mynodes port (take sizeof_header buffer);
    mret tt
  else mret tt.

Definition master_info (nodes flags app_id sport mport : Z) : minfo :=
  mk_minfo nodes (count_nodes 64 nodes 0) flags app_id sport mport.

(** The main thread waits for the receiver; its result is the exit status.  The
    sender thread shares nothing with the receiver but the device. *)
Definition manage_master_services (fuel : nat) (services nodes flags app_id sport mport : Z)
    (buffer : list Z) (reply : rpc_reply_t) : M D (option Z) :=
  r ← master_receiver fuel (master_info nodes flags app_id sport mport) services buffer reply;
  mret (m_exit_status <$> r).
End Code.

(** ** Broadcasts *)

Section Broadcast.
Context `{CN : NicConsts} {CNOK : NicConstsOk}.
Implicit Types (d : rawsim).

(** One message to each node of a mask. *)
Definition bcast (nodes port : Z) (payload : list Z) : list (Z * Z * list Z) :=
  (fun n => (n, port, payload)) <$> members nodes.

(** The result of a send that is the [k]-th from now. *)
Definition all_sent (k : nat) d : bool := forallb AXIOM_RET_IS_OK (take k (rs_send d)).

Lemma rs_push_eq e d : rs_push e d =
  Ret (match rs_send d with [] => AXIOM_RET_OK | r :: _ => r end) (rs_after [e] d).
Proof. unfold rs_push, rs_after. by destruct d as [i [|r rs] l]. Qed.

Lemma send_nodes_step fuel nodes port node err payload d :
  send_nodes (S fuel) nodes port node err payload d =
  if nodes =? 0 then Ret err d
  else if Z.land nodes 1 =? 0 then send_nodes fuel (Z.shiftr nodes 1) port (u8 (node + 1)) err payload d
  else send_nodes fuel (Z.shiftr nodes 1) port (u8 (node + 1))
         (if AXIOM_RET_IS_OK (match rs_send d with [] => AXIOM_RET_OK | r :: _ => r end) then err else AXIOM_RET_ERROR)
         payload (rs_after [(node, port, payload)] d).
Proof.
  cbn [send_nodes]. destruct (nodes =? 0); [done|]. unfold mbind, M_bind.
  destruct (Z.land nodes 1 =? 0); [done|]. cbn [axiom_send_raw rawsim_dev]. by rewrite rs_push_eq.
Qed.

Lemma all_sent_S e k d : all_sent (S k) d =
  AXIOM_RET_IS_OK (match rs_send d with [] => AXIOM_RET_OK | r :: _ => r end) && all_sent k (rs_after [e] d).
Proof using CNOK.
  unfold all_sent, rs_after. cbn. destruct (rs_send d); cbn; [|done]. by rewrite ret_ok_ok, take_nil.
Qed.

Lemma send_nodes_run fuel nodes port node err payload d :
  0 <= nodes < 2 ^ Z.of_nat fuel → 0 <= node → node + Z.of_nat fuel <= 256 →
  send_nodes (S fuel) nodes port node err payload d =
  Ret (if all_sent (length (members_from node fuel nodes)) d then err else AXIOM_RET_ERROR)
    (rs_after ((fun n => (n, port, payload)) <$> members_from node fuel nodes) d).
Proof using CNOK.
  induction fuel as [|fuel IH] in nodes, node, err, d |- *; intros Hn H0 Hmax; rewrite send_nodes_step.
  { replace nodes with 0 by (change (2 ^ Z.of_nat 0) with 1 in Hn; lia).
    rewrite members_from_zero. cbn. by rewrite rs_after_nil. }
  destruct (Z.eqb_spec nodes 0) as [->|Hnz].
  { rewrite members_from_zero. cbn. by rewrite rs_after_nil. }
  rewrite members_from_step. pose proof (shiftr_bound nodes fuel Hn) as Hs.
  assert (IH' : ∀ err d, send_nodes (S fuel) (Z.shiftr nodes 1) port (u8 (node + 1)) err payload d =
    Ret (if all_sent (length (members_from (node + 1) fuel (Z.shiftr nodes 1))) d then err else AXIOM_RET_ERROR)
      (rs_after ((fun n => (n, port, payload)) <$> members_from (node + 1) fuel (Z.shiftr nodes 1)) d)).
  { intros e d'. destruct fuel as [|fuel]; [|rewrite u8_small by lia; apply IH; lia].
    rewrite send_nodes_step. replace (Z.shiftr nodes 1) with 0 by (change (2 ^ Z.of_nat 0) with 1 in Hs; lia).
    rewrite members_from_zero. cbn. by rewrite rs_after_nil. }
  destruct (Z.land nodes 1 =? 0); rewrite IH'; [done|].
  rewrite fmap_app, <- rs_after_app. cbn [fmap list_fmap app length]. f_equal.
  rewrite (all_sent_S (node, port, payload)). by destruct (AXIOM_RET_IS_OK _), (all_sent _ _).
Qed.

Lemma broadcast_run nodes port payload d : 0 <= nodes < 2 ^ 64 →
  my_axiom_send_raw nodes port payload d =
  Ret (if all_sent (length (members nodes)) d then AXIOM_RET_OK else AXIOM_RET_ERROR)
    (rs_after (bcast nodes port payload) d).
Proof using CNOK.
  intros Hn. unfold my_axiom_send_raw, bcast. rewrite (send_nodes_run 64) by lia.
  by rewrite members_from_0.
Qed.
End Broadcast.

(** ** What the receiver does with a sequence of messages *)

Section Receiver.
Context `{CN : NicConsts} {CNOK : NicConstsOk} `{RC : RunConsts} {RCOK : RunConstsOk} `{IO : Stdio}.
Context `{AL : Allocator rawsim}.
Implicit Types (d : rawsim) (x : Z * Z * list Z).

(** A message as the receiver understands it. *)
Inductive mkind :=
  | KFailed
  | KOutput (to_stderr : bool) (bytes : list Z)
  | KExit (status : Z)
  | KBarrier (id : Z)
  | KRpc
  | KUnknown.

Definition kind x : mkind :=
  let '(msg, _, payload) := x in
  if negb (AXIOM_RET_IS_OK msg) then KFailed else
  let c := h_command payload in
  if c =? CMD_SEND_TO_STDERR then KOutput true (drop sizeof_header payload)
  else if c =? CMD_SEND_TO_STDOUT then KOutput false (drop sizeof_header payload)
  else if c =? CMD_EXIT then KExit (h_status payload)
  else if c =? CMD_BARRIER then KBarrier (h_barrier_id payload)
  else if (c =? CMD_RPC) || (c =? AXIOM_CMD_ALLOC_REPLY) then KRpc
  else KUnknown.

(** A message of a node of the application: a header and data that fit the
    buffer of the receiver and of the output. *)
Definition message_ok x : Prop :=
  alen x.2 <= AXIOM_RAW_PAYLOAD_MAX_SIZE ∧ Z.of_nat sizeof_header <= alen x.2 ∧
  Forall (fun b => 0 <= b < 256) x.2 ∧ 0 <= x.1.2 < MAX_NUM_NODES.

(** The messages of a kind among those received. *)
Definition outputs (services : Z) (to_stderr : bool) (l : list (Z * Z * list Z)) : list (Z * list Z) :=
  if has services REDIRECT_SERVICE then
    omap (fun x => match kind x with
      | KOutput e bytes => if Bool.eqb e to_stderr then Some (x.1.2, bytes) else None
      | _ => None end) l
  else [].
Definition statuses (l : list (Z * Z * list Z)) : list Z :=
  omap (fun x => match kind x with KExit s => Some s | _ => None end) l.
Definition arrivals (id : Z) (l : list (Z * Z * list Z)) : Z :=
  alen (omap (fun x => match kind x with KBarrier i => if i =? id then Some i else None | _ => None end) l).

(** A remote call that is a ping. *)
Definition is_ping x : bool := negb (h_command x.2 =? AXIOM_CMD_ALLOC_REPLY) && (h_rpc_function x.2 =? AXRUN_RPC_PING).

(** Nothing for the allocator: no reply of it, and none of the calls that it serves;
    without the service for remote calls these are ignored like any other. *)
Definition no_allocator (services : Z) x : Prop :=
  kind x = KRpc → has services RPC_SERVICE = false ∨
    (h_command x.2 ≠ AXIOM_CMD_ALLOC_REPLY ∧
     h_rpc_function x.2 ∉ [AXRUN_RPC_ALLOC; AXRUN_RPC_GET_REGIONS; AXRUN_RPC_ALLOC_SHBLOCK]).

(** What the receiver sends after the message [x] when it has had [hist] before:
    with the exit service, the first CMD_EXIT is turned into CMD_KILL for all
    nodes; every [nnodes]-th request of a barrier is sent to all nodes; a ping is
    sent back to its node. *)
Definition reaction (info : minfo) (services : Z) (hist : list (Z * Z * list Z)) x : list (Z * Z * list Z) :=
  match kind x with
  | KExit _ =>
      if has services EXIT_SERVICE && bool_decide (statuses hist = [])
      then bcast (i_nodes info) (slave_port info) (set_command CMD_KILL (take sizeof_header x.2)) else []
  | KBarrier id =>
      if has services BARRIER_SERVICE && (id <=? AXRUN_MAX_BARRIER_ID) &&
         ((arrivals id hist + 1) mod i_nnodes info =? 0)
      then bcast (i_nodes info) (slave_port info) (take sizeof_header x.2) else []
  | KRpc => if has services RPC_SERVICE && is_ping x then [(x.1.2, slave_port info, x.2)] else []
  | _ => []
  end.

Fixpoint reactions (info : minfo) (services : Z) (hist l : list (Z * Z * list Z)) : list (Z * Z * list Z) :=
  match l with
  | [] => []
  | x :: l => reaction info services hist x ++ reactions info services (hist ++ [x]) l
  end.

(** The exit status after the reports [l]; [srv]: the exit service is active. *)
Definition exit_step (flags : Z) (st : bool * Z) (status : Z) : bool * Z :=
  let '(srv, exit_status) := st in
  let exit_status := if srv then status else update_exit_status flags status exit_status in
  (false, if Z.land flags EXIT_FLAG_MASK =? NOFAIL_EXIT_FLAG then 0 else exit_status).
Definition exit_after (flags : Z) (srv : bool) (l : list Z) : Z := (foldl (exit_step flags) (srv, 0) l).2.

(** What is written for the output messages [l]. *)
Definition written (flags : Z) (l : list (Z * list Z)) : option (list out_item) :=
  '(info, items) ← emit_run (replicate (Z.to_nat MAX_NUM_NODES) []) flags l;
  Some (items ++ (flush info MAX_NUM_NODES flags).2).

(** The state of the receiver after the messages [hist]. *)
Record recv_inv (info : minfo) (services : Z) (hist : list (Z * Z * list Z)) (r : receiver) : Prop := {
  ri_buffer : alen (m_buffer r) = AXIOM_RAW_PAYLOAD_MAX_SIZE;
  ri_services : m_services r =
    if bool_decide (statuses hist = []) || negb (has services EXIT_SERVICE) then services
    else Z.land services (Z.lnot EXIT_SERVICE);
  ri_counter : m_exit_counter r = i_nnodes info - alen (statuses hist);
  ri_status : m_exit_status r = exit_after (i_flags info) (has services EXIT_SERVICE) (statuses hist);
  ri_barriers : alen (m_barrier r) = AXRUN_MAX_BARRIER_ID + 1 ∧
    (has services BARRIER_SERVICE = true → ∀ id, 0 <= id <= AXRUN_MAX_BARRIER_ID →
      aget (m_barrier r) id = (- arrivals id hist) mod i_nnodes info);
  ri_out : emit_run (replicate (Z.to_nat MAX_NUM_NODES) []) (i_flags info) (outputs services false hist) =
    Some (m_infoout r, m_out r);
  ri_err : emit_run (replicate (Z.to_nat MAX_NUM_NODES) []) (i_flags info) (outputs services true hist) =
    Some (m_infoerr r, m_err r);
  ri_infos : info_ok (m_infoout r) ∧ info_ok (m_infoerr r)
}.

Hypothesis payload_fits : AXIOM_RAW_PAYLOAD_MAX_SIZE <= BUFSIZ.

(** *** The message in the buffer *)

Lemma kind_buffer msg node p b : AXIOM_RET_IS_OK msg = true → message_ok (msg, node, p) →
  alen b = AXIOM_RAW_PAYLOAD_MAX_SIZE →
  let b' := overwrite p b in
  alen b' = AXIOM_RAW_PAYLOAD_MAX_SIZE ∧ h_command b' = h_command p ∧ h_status b' = h_status p ∧
  h_barrier_id b' = h_barrier_id p ∧ h_rpc_function b' = h_rpc_function p ∧ take sizeof_header b' = take sizeof_header p ∧
  take sizeof_header (set_command CMD_KILL b') = set_command CMD_KILL (take sizeof_header p) ∧
  ∀ info flags, emit_raw node (alen p) b' info flags = emit node (drop sizeof_header p) info flags.
Proof using RCOK.
  intros Hm (Hmax & Hmin & _ & _) Hb b'. cbn [fst snd] in *. unfold alen in *. pose proof payload_max as HP.
  assert (Hl : length b' = length b) by (apply length_overwrite; lia). unfold sizeof_header in *. subst b'.
  split_and!.
  - by rewrite Hl.
  - apply command_overwrite. lia.
  - unfold h_status. by rewrite field_overwrite by lia.
  - unfold h_barrier_id. by rewrite field_overwrite by lia.
  - unfold h_rpc_function. by rewrite field_overwrite by lia.
  - unfold overwrite. by rewrite take_app_le by lia.
  - unfold overwrite. destruct p as [|c p]; [cbn in Hmin; lia|]. unfold set_command, set_field. cbn.
    rewrite !drop_0. f_equal. cbn in Hmin. by rewrite take_app_le by lia.
  - intros info flags. unfold emit_raw, b_raw, usize, alen, sizeof_header.
    rewrite Z.mod_small by lia. rewrite length_drop, Hl.
    destruct (Z.ltb_spec (Z.of_nat (length b - 20)) (Z.of_nat (length p) - Z.of_nat 20)); [lia|].
    f_equal. unfold overwrite. rewrite drop_app_le by lia.
    rewrite take_app_le by (rewrite length_drop; lia). apply take_ge. rewrite length_drop. lia.
Qed.

(** *** Growing the history *)

Lemma statuses_snoc hist x : statuses (hist ++ [x]) =
  statuses hist ++ match kind x with KExit s => [s] | _ => [] end.
Proof. unfold statuses. rewrite omap_app. cbn. by destruct (kind x). Qed.

Lemma arrivals_snoc id hist x : arrivals id (hist ++ [x]) =
  arrivals id hist + match kind x with KBarrier i => if i =? id then 1 else 0 | _ => 0 end.
Proof.
  unfold arrivals. rewrite omap_app, alen_app. cbn. destruct (kind x); try done. by destruct (_ =? id).
Qed.

Lemma outputs_snoc services e hist x : outputs services e (hist ++ [x]) =
  outputs services e hist ++ match kind x with
    | KOutput e' bytes => if has services REDIRECT_SERVICE && Bool.eqb e' e then [(x.1.2, bytes)] else []
    | _ => [] end.
Proof.
  unfold outputs. destruct (has services REDIRECT_SERVICE); cbn; [|by destruct (kind x)].
  rewrite omap_app. cbn. destruct (kind x) as [|e' bytes| | | |]; try done. by destruct (Bool.eqb e' e).
Qed.

(** The turns of the loop that do not change the state but for the buffer. *)
Lemma recv_inv_same info services hist x r b : recv_inv info services hist r →
  alen b = AXIOM_RAW_PAYLOAD_MAX_SIZE →
  match kind x with
  | KExit _ => False
  | KBarrier id => has services BARRIER_SERVICE = false ∨ AXRUN_MAX_BARRIER_ID < id
  | KOutput _ _ => has services REDIRECT_SERVICE = false
  | _ => True
  end →
  recv_inv info services (hist ++ [x]) (set_m_buffer b r).
Proof.
  intros [Hb Hs Hc Hst [Hbl Hba] Ho He [Hio Hie]] Hlen Hk.
  assert (E : statuses (hist ++ [x]) = statuses hist).
  { rewrite statuses_snoc. destruct (kind x); try done; by rewrite app_nil_r. }
  assert (Eo : ∀ e, outputs services e (hist ++ [x]) = outputs services e hist).
  { intros e. rewrite outputs_snoc. destruct (kind x); try by rewrite app_nil_r.
    rewrite Hk. cbn. by rewrite app_nil_r. }
  split; cbn; rewrite ?E, ?Eo; try done. split; [done|]. intros Hserv id Hid.
  rewrite Hba by done. f_equal. rewrite arrivals_snoc. destruct (kind x) as [| | |i| |]; try lia.
  destruct Hk as [Hk|Hk]; [congruence|]. destruct (Z.eqb_spec i id); lia.
Qed.

Lemma recv_inv_skip info services hist x r b : recv_inv info services hist r →
  alen b = AXIOM_RAW_PAYLOAD_MAX_SIZE →
  match kind x with
  | KExit _ => False
  | KBarrier id => has services BARRIER_SERVICE = false ∨ AXRUN_MAX_BARRIER_ID < id
  | KOutput _ _ => has services REDIRECT_SERVICE = false
  | KRpc => has services RPC_SERVICE && is_ping x = false
  | _ => True
  end →
  recv_inv info services (hist ++ [x]) (set_m_buffer b r) ∧ reaction info services hist x = [].
Proof.
  intros Hinv Hlen Hk. split.
  - apply recv_inv_same; [done|done|]. by destruct (kind x).
  - unfold reaction. destruct (kind x) as [| |s|id| |]; try done; [|by rewrite Hk].
    destruct Hk as [->|Hk]; [done|]. destruct (Z.leb_spec id AXRUN_MAX_BARRIER_ID); [lia|].
    by rewrite andb_false_r.
Qed.

Lemma recv_services info services hist r : recv_inv info services hist r →
  has (m_services r) REDIRECT_SERVICE = has services REDIRECT_SERVICE ∧
  has (m_services r) BARRIER_SERVICE = has services BARRIER_SERVICE ∧
  has (m_services r) RPC_SERVICE = has services RPC_SERVICE ∧
  has (m_services r) EXIT_SERVICE = has services EXIT_SERVICE && bool_decide (statuses hist = []).
Proof.
  intros [_ -> _ _ _ _ _ _].
  destruct (bool_decide (statuses hist = [])); cbn; [by rewrite andb_true_r|].
  destruct (has services EXIT_SERVICE) eqn:E; cbn; [|by rewrite E].
  change EXIT_SERVICE with (2 ^ 1). change REDIRECT_SERVICE with (2 ^ 2).
  change BARRIER_SERVICE with (2 ^ 0). change RPC_SERVICE with (2 ^ 3).
  rewrite !has_clear by lia. cbn. by rewrite !andb_true_r, andb_false_r.
Qed.

(** Output messages. *)
Lemma recv_output info services hist x r e bytes : recv_inv info services hist r → message_ok x →
  kind x = KOutput e bytes → has services REDIRECT_SERVICE = true →
  ∃ infos items,
    emit x.1.2 bytes (if e then m_infoerr r else m_infoout r) (i_flags info) = Some (infos, items) ∧
    ∀ b, alen b = AXIOM_RAW_PAYLOAD_MAX_SIZE →
    recv_inv info services (hist ++ [x])
      (if e then set_m_stderr infos (m_err r ++ items) (set_m_buffer b r)
       else set_m_stdout infos (m_out r ++ items) (set_m_buffer b r)).
Proof using payload_fits.
  intros [Hb Hs Hc Hst [Hbl Hba] Ho He [Hio Hie]] Hx Hk Hredir.
  assert (Hbytes : bytes = drop sizeof_header x.2 ∧ message_ok x).
  { split; [|done]. destruct x as [[msg node] p]. unfold kind in Hk. by repeat case_match; simplify_eq. }
  assert (Hm : msg_ok (x.1.2, bytes)).
  { destruct Hbytes as (-> & Hmax & Hmin & _ & Hn). split; [done|]. cbn. unfold MAX_BUFFER_SIZE, alen in *.
    rewrite length_drop. lia. }
  set (infos0 := replicate (Z.to_nat MAX_NUM_NODES) []) in *.
  assert (Hok : info_ok (if e then m_infoerr r else m_infoout r)).
  { by destruct e. }
  destruct (emit_step x.1.2 bytes _ (i_flags info) Hok Hm) as (infos & items & Hemit & Hinfos & _).
  exists infos, items. split; [done|]. intros b Hlen.
  assert (E : statuses (hist ++ [x]) = statuses hist) by (rewrite statuses_snoc, Hk; apply app_nil_r).
  assert (Ea : ∀ id, arrivals id (hist ++ [x]) = arrivals id hist) by (intros id; rewrite arrivals_snoc, Hk; lia).
  assert (Eo : ∀ e', outputs services e' (hist ++ [x]) =
    outputs services e' hist ++ if Bool.eqb e e' then [(x.1.2, bytes)] else []).
  { intros e'. by rewrite outputs_snoc, Hk, Hredir. }
  assert (Hrun : ∀ infos' items' e', Bool.eqb e e' = true →
    emit_run infos0 (i_flags info) (outputs services e' hist) = Some (infos', items') →
    emit x.1.2 bytes infos' (i_flags info) = Some (infos, items) →
    emit_run infos0 (i_flags info) (outputs services e' (hist ++ [x])) = Some (infos, items' ++ items)).
  { intros infos' items' e' He' Hr Hem. rewrite Eo, He', emit_run_app, Hr. cbn. rewrite Hem. cbn. by rewrite app_nil_r. }
  assert (Hsame : ∀ e', Bool.eqb e e' = false → outputs services e' (hist ++ [x]) = outputs services e' hist).
  { intros e' He'. rewrite Eo, He'. by rewrite app_nil_r. }
  destruct e; split; cbn; rewrite ?E; try done; try (split; [done|]; intros; rewrite Ea; auto);
    try (rewrite Hsame by done; done); by eapply Hrun.
Qed.

(** Exit messages. *)
Lemma exit_after_snoc flags srv l s : exit_after flags srv (l ++ [s]) =
  if Z.land flags EXIT_FLAG_MASK =? NOFAIL_EXIT_FLAG then 0
  else if srv && bool_decide (l = []) then s else update_exit_status flags s (exit_after flags srv l).
Proof.
  assert (H : ∀ l, (foldl (exit_step flags) (srv, 0) l).1 = srv && bool_decide (l = [])).
  { intros l'. destruct l' as [|a l'] using rev_ind; [by rewrite bool_decide_true, andb_true_r|].
    rewrite foldl_snoc. cbn. unfold exit_step. destruct (foldl _ _ _).
    rewrite bool_decide_false by (by destruct l'). by rewrite andb_false_r. }
  unfold exit_after. rewrite foldl_snoc. specialize (H l).
  destruct (foldl (exit_step flags) (srv, 0) l) as [b st]. cbn in *. by rewrite H.
Qed.

Lemma recv_exit info services hist x r b s d : 0 <= i_nodes info < 2 ^ 64 →
  recv_inv info services hist r → kind x = KExit s → alen b = AXIOM_RAW_PAYLOAD_MAX_SIZE →
  h_status b = s →
  take sizeof_header (set_command CMD_KILL b) = set_command CMD_KILL (take sizeof_header x.2) →
  ∃ r', on_exit info (set_m_buffer b r) d =
    Ret (if i_nnodes info =? alen (statuses (hist ++ [x])) then inr r' else inl r')
        (rs_after (reaction info services hist x) d) ∧
    recv_inv info services (hist ++ [x]) r'.
Proof using CNOK RCOK.
  intros Hnodes Hinv Hk Hlen Hst Htake.
  destruct (recv_services _ _ _ _ Hinv) as (_ & _ & _ & Hexit).
  destruct Hinv as [Hb Hs Hc Hstat [Hbl Hba] Ho He Hi].
  assert (E : statuses (hist ++ [x]) = statuses hist ++ [s]) by (by rewrite statuses_snoc, Hk).
  assert (Ea : ∀ id, arrivals id (hist ++ [x]) = arrivals id hist) by (intros id; rewrite arrivals_snoc, Hk; lia).
  assert (Eo : ∀ e, outputs services e (hist ++ [x]) = outputs services e hist)
    by (intros e; rewrite outputs_snoc, Hk; apply app_nil_r).
  assert (Hcnt : (m_exit_counter r - 1 =? 0) = (i_nnodes info =? alen (statuses (hist ++ [x])))).
  { rewrite Hc, E, alen_app. change (alen [s]) with 1. destruct (Z.eqb_spec (i_nnodes info - alen (statuses hist) - 1) 0), (Z.eqb_spec (i_nnodes info) (alen (statuses hist) + 1)); lia || done. }
  assert (Hinv' : ∀ b', alen b' = AXIOM_RAW_PAYLOAD_MAX_SIZE →
    recv_inv info services (hist ++ [x])
      (set_m_exit (if has (m_services r) EXIT_SERVICE then Z.land (m_services r) (Z.lnot EXIT_SERVICE) else m_services r)
         (m_exit_counter r - 1)
         (if Z.land (i_flags info) EXIT_FLAG_MASK =? NOFAIL_EXIT_FLAG then 0
          else if has (m_services r) EXIT_SERVICE then s else update_exit_status (i_flags info) s (m_exit_status r))
         (set_m_buffer b' r))).
  { intros b' Hb'. split; cbn; rewrite ?Eo, ?E; try done.
    - rewrite Hexit, Hs. rewrite (bool_decide_false (statuses hist ++ [s] = [])) by (by destruct (statuses hist)).
      destruct (has services EXIT_SERVICE), (bool_decide (statuses hist = [])); done.
    - rewrite alen_app, Hc. change (alen [s]) with 1. lia.
    - by rewrite exit_after_snoc, <- Hstat, Hexit.
    - split; [done|]. intros. rewrite Ea. auto. }
  unfold on_exit, reaction. rewrite Hk, <- Hexit. cbn [m_services set_m_buffer m_buffer].
  unfold mbind, M_bind. destruct (has (m_services r) EXIT_SERVICE) eqn:Eserv; cbn [mret M_ret].
  - rewrite Htake, broadcast_run by done. cbn. rewrite Hcnt, Hst.
    assert (Hb' : alen (set_command CMD_KILL b) = AXIOM_RAW_PAYLOAD_MAX_SIZE).
    { pose proof payload_max. unfold set_command, alen in *. rewrite length_set_field; [done|]. cbn. lia. }
    eexists. split; [by destruct (_ =? alen _)|]. by apply Hinv'.
  - cbn. rewrite Hcnt, Hst, rs_after_nil. eexists. split; [by destruct (_ =? alen _)|]. by apply Hinv'.
Qed.

(** Barrier messages. *)
Lemma barrier_counter n k : 0 < n →
  (if (- k) mod n =? 0 then n else (- k) mod n) - 1 = (- (k + 1)) mod n ∧
  ((- (k + 1)) mod n =? 0) = ((k + 1) mod n =? 0).
Proof.
  intros Hn. split.
  - replace (- (k + 1)) with (- k - 1) by lia. pose proof (Z.mod_pos_bound (- k) n Hn).
    pose proof (Z.div_mod (- k) n ltac:(lia)).
    destruct (Z.eqb_spec ((- k) mod n) 0).
    + apply (Z.mod_unique_pos _ _ ((- k) / n - 1)); lia.
    + apply (Z.mod_unique_pos _ _ ((- k) / n)); lia.
  - destruct (Z.eqb_spec ((k + 1) mod n) 0) as [E|E].
    + by rewrite Z.mod_opp_l_z by lia.
    + rewrite Z.mod_opp_l_nz by lia. pose proof (Z.mod_pos_bound (k + 1) n Hn).
      destruct (Z.eqb_spec (n - (k + 1) mod n) 0); [lia|done].
Qed.

Lemma recv_barrier info services hist x r b id d : 0 <= i_nodes info < 2 ^ 64 → 0 < i_nnodes info →
  recv_inv info services hist r → kind x = KBarrier id → alen b = AXIOM_RAW_PAYLOAD_MAX_SIZE →
  h_barrier_id b = id → 0 <= id → take sizeof_header b = take sizeof_header x.2 →
  ∃ r', on_barrier info (set_m_buffer b r) d = Ret r' (rs_after (reaction info services hist x) d) ∧
    recv_inv info services (hist ++ [x]) r'.
Proof using CNOK.
  intros Hnodes Hnn Hinv Hk Hlen Hid Hid0 Htake.
  destruct (recv_services _ _ _ _ Hinv) as (_ & Hserv & _ & _).
  unfold on_barrier. cbn [m_services set_m_buffer m_buffer]. rewrite Hserv, Hid.
  destruct (has services BARRIER_SERVICE) eqn:Es; cbn [negb].
  2:{ destruct (recv_inv_skip info services hist x r b Hinv Hlen) as [H1 H2]; [rewrite Hk; auto|].
      rewrite H2, rs_after_nil. by eexists. }
  destruct (Z.leb_spec id AXRUN_MAX_BARRIER_ID) as [Hle|Hgt]; cbn [negb].
  2:{ destruct (recv_inv_skip info services hist x r b Hinv Hlen) as [H1 H2]; [rewrite Hk; auto|].
      rewrite H2, rs_after_nil. by eexists. }
  destruct Hinv as [Hb Hs Hc Hstat [Hbl Hba] Ho He Hi].
  assert (Hcell : aget (m_barrier r) id = (- arrivals id hist) mod i_nnodes info) by (apply Hba; [done|lia]).
  unfold rd1, wr1. cbn [m_barrier set_m_buffer].
  destruct (Z.leb_spec 0 id), (Z.ltb_spec id (alen (m_barrier r))); try lia. cbn [andb].
  unfold mbind, M_bind. cbn [mret M_ret]. rewrite Hcell.
  destruct (barrier_counter (i_nnodes info) (arrivals id hist) Hnn) as [-> Hzero].
  set (k := (- (arrivals id hist + 1)) mod i_nnodes info) in *.
  exists (set_m_barrier (aset (m_barrier r) id k) (set_m_buffer b r)). split.
  - unfold reaction. rewrite Hk, Es, Hzero. destruct (Z.leb_spec id AXRUN_MAX_BARRIER_ID); [cbn [andb]|lia].
    destruct ((arrivals id hist + 1) mod i_nnodes info =? 0); [rewrite Htake, broadcast_run by done; done|]. by rewrite rs_after_nil.
  - split; cbn; rewrite ?statuses_snoc, ?outputs_snoc, ?Hk, ?app_nil_r; try done.
    rewrite alen_aset. split; [done|]. intros _ id' Hid'. rewrite aget_aset by lia.
    rewrite arrivals_snoc, Hk. case_decide as E; [subst id'|].
    + rewrite Z.eqb_refl. done.
    + destruct (Z.eqb_spec id id'); [done|]. rewrite Z.add_0_r. by apply Hba.
Qed.

(** One turn, for every message. *)
Lemma le_get_nonneg l : Forall (fun b => 0 <= b < 256) l → 0 <= le_get l.
Proof. induction 1; cbn; [lia|]. unfold le_get in *. lia. Qed.

Lemma recv_turn info services hist x rest r d : 0 <= i_nodes info < 2 ^ 64 → 0 < i_nnodes info →
  recv_inv info services hist r → message_ok x → no_allocator services x →
  rs_in d = x :: rest →
  ∃ r', master_turn info r d =
    Ret (match kind x with
         | KExit _ => if i_nnodes info =? alen (statuses (hist ++ [x])) then inr r' else inl r'
         | _ => inl r' end)
        (rs_after (reaction info services hist x) (mk_rawsim rest (rs_send d) (rs_log d))) ∧
    recv_inv info services (hist ++ [x]) r'.
Proof using CNOK RCOK payload_fits.
  intros Hnodes Hnn Hinv Hx Hrpc Hin. set (d' := mk_rawsim rest (rs_send d) (rs_log d)).
  destruct (recv_services _ _ _ _ Hinv) as (Hredir & _ & Hrpcs & _).
  destruct x as [[msg node] p]. pose proof (ri_buffer _ _ _ _ Hinv) as Hlen.
  unfold master_turn. unfold mbind at 1, M_bind at 1. cbn [axiom_recv_raw rawsim_dev]. rewrite Hin. fold d'.
  cbn [m_services set_m_buffer m_buffer].
  assert (Hb' : alen (overwrite p (m_buffer r)) = AXIOM_RAW_PAYLOAD_MAX_SIZE).
  { destruct Hx as [Hmax _]. unfold alen in *. rewrite length_overwrite; [done|]. cbn in Hmax. lia. }
  assert (Hskip : ∀ k : mkind, kind (msg, node, p) = k →
    match k with
    | KExit _ | KBarrier _ => False
    | KOutput _ _ => has services REDIRECT_SERVICE = false
    | KRpc => has services RPC_SERVICE && is_ping (msg, node, p) = false
    | _ => True end →
    ∃ r', (mret (inl (set_m_buffer (overwrite p (m_buffer r)) r)) : M rawsim (receiver + receiver)) d' =
      Ret (inl r') (rs_after (reaction info services hist (msg, node, p)) d') ∧
      recv_inv info services (hist ++ [(msg, node, p)]) r').
  { intros k Hk Hc. destruct (recv_inv_skip info services hist (msg, node, p) r _ Hinv Hb') as [H1 H2].
    - rewrite Hk. by destruct k.
    - rewrite H2, rs_after_nil. by eexists. }
  destruct (AXIOM_RET_IS_OK msg) eqn:Emsg; cbn [negb].
  2:{ replace (kind (msg, node, p)) with KFailed by (unfold kind; by rewrite Emsg).
      apply (Hskip KFailed); [unfold kind; by rewrite Emsg|done]. }
  destruct (kind_buffer msg node p (m_buffer r) Emsg Hx Hlen) as (_ & Hcmd & Hst & Hbar & Hfun & Htake & Hkill & Hemit).
  rewrite Hcmd, Hredir.
  assert (Hk : kind (msg, node, p) = kind (msg, node, p)) by done.
  unfold kind at 2 in Hk. rewrite Emsg in Hk. cbn [negb] in Hk.
  destruct (h_command p =? CMD_SEND_TO_STDERR).
  { rewrite Hk. destruct (has services REDIRECT_SERVICE) eqn:Er; [|by apply (Hskip _ Hk)].
    destruct (recv_output _ _ _ _ _ _ _ Hinv Hx Hk Er) as (infos & items & He & Hinv').
    unfold on_stderr, mbind, M_bind. cbn [m_buffer m_infoerr set_m_buffer]. rewrite Hemit. cbn [fst snd] in He. rewrite He.
    cbn. unfold reaction. rewrite Hk, rs_after_nil. eexists. split; [done|]. by apply Hinv'. }
  destruct (h_command p =? CMD_SEND_TO_STDOUT).
  { rewrite Hk. destruct (has services REDIRECT_SERVICE) eqn:Er; [|by apply (Hskip _ Hk)].
    destruct (recv_output _ _ _ _ _ _ _ Hinv Hx Hk Er) as (infos & items & He & Hinv').
    unfold on_stdout, mbind, M_bind. cbn [m_buffer m_infoout set_m_buffer]. rewrite Hemit. cbn [fst snd] in He. rewrite He.
    cbn. unfold reaction. rewrite Hk, rs_after_nil. eexists. split; [done|]. by apply Hinv'. }
  destruct (h_command p =? CMD_EXIT).
  { rewrite Hk. by apply (recv_exit _ _ _ _ _ _ (h_status p)). }
  destruct (h_command p =? CMD_BARRIER).
  { rewrite Hk. destruct (recv_barrier info services hist (msg, node, p) r (overwrite p (m_buffer r)) (h_barrier_id p) d') as (r' & Hr & Hi); try done.
    - apply le_get_nonneg. destruct Hx as (_ & _ & Hbytes & _). cbn in Hbytes. unfold field.
      by apply Forall_take, Forall_drop.
    - unfold mbind, M_bind. rewrite Hr. by eexists. }
  destruct ((h_command p =? CMD_RPC) || (h_command p =? AXIOM_CMD_ALLOC_REPLY)).
  { rewrite Hk. unfold on_rpc. cbn [m_services set_m_buffer m_buffer m_rpc_reply]. rewrite Hrpcs.
    destruct (has services RPC_SERVICE) eqn:Es; cbn [negb]; [|by apply (Hskip _ Hk)].
    destruct (Hrpc Hk) as [|[Hreply Hcalls]]; [congruence|]. cbn [fst snd] in Hreply, Hcalls. rewrite !not_elem_of_cons in Hcalls.
    destruct Hcalls as (F1 & F2 & F3 & _). unfold rpc_service. rewrite Hcmd, Hfun, (proj2 (Z.eqb_neq _ _) Hreply).
    rewrite (proj2 (Z.eqb_neq _ AXRUN_RPC_ALLOC) F1), (proj2 (Z.eqb_neq _ AXRUN_RPC_GET_REGIONS) F2), (proj2 (Z.eqb_neq _ AXRUN_RPC_ALLOC_SHBLOCK) F3).
    destruct (h_rpc_function p =? AXRUN_RPC_PING) eqn:Eping.
    2: { apply (Hskip _ Hk). unfold is_ping. cbn [fst snd]. by rewrite Eping, andb_false_r. }
    assert (Hp : take (Z.to_nat (alen p)) (overwrite p (m_buffer r)) = p).
    { unfold overwrite, alen. rewrite Nat2Z.id. by rewrite take_app_length. }
    unfold rpc_answer. change (1 =? 0) with false. cbn iota. unfold mbind, M_bind. cbn [axiom_send_raw rawsim_dev]. rewrite rs_push_eq, Hp.
    cbn [mret M_ret]. unfold reaction. rewrite Hk, Es. unfold is_ping. cbn [fst snd]. rewrite (proj2 (Z.eqb_neq _ _) Hreply), Eping.
    eexists. split; [reflexivity|]. assert (H : recv_inv info services (hist ++ [(msg, node, p)]) (set_m_buffer (overwrite p (m_buffer r)) r)); [by apply recv_inv_same; rewrite ?Hk|].
    exact H. }
  rewrite Hk. by apply (Hskip _ Hk).
Qed.

Lemma recv_loop info services s last rest msgs hist r d fuel :
  0 <= i_nodes info < 2 ^ 64 → 0 < i_nnodes info → recv_inv info services hist r →
  Forall message_ok (msgs ++ [last]) →
  Forall (no_allocator services) (msgs ++ [last]) →
  kind last = KExit s → alen (statuses (hist ++ msgs ++ [last])) = i_nnodes info →
  rs_in d = msgs ++ last :: rest → (length msgs < fuel)%nat →
  ∃ r', loop fuel (master_turn info) r d =
    Ret r' (rs_after (reactions info services hist (msgs ++ [last])) (mk_rawsim rest (rs_send d) (rs_log d))) ∧
    recv_inv info services (hist ++ msgs ++ [last]) r'.
Proof using CNOK RCOK payload_fits.
  intros Hnodes Hnn.
  induction msgs as [|x msgs IH] in hist, r, d, fuel |- *; intros Hinv Hok Hrpc Hlast Hcnt Hin Hfuel;
    (destruct fuel as [|fuel]; [cbn in Hfuel; lia|]); cbn [app] in Hok, Hrpc, Hin;
    apply Forall_cons in Hok as [Hx Hok]; apply Forall_cons in Hrpc as [Hrx Hrpc]; cbn [loop app reactions].
  - destruct (recv_turn info services hist last rest r d Hnodes Hnn Hinv Hx Hrx Hin) as (r' & Hturn & Hinv').
    cbn [app] in Hcnt. rewrite Hlast, Hcnt, Z.eqb_refl in Hturn.
    unfold mbind, M_bind. rewrite Hturn. cbn. rewrite app_nil_r. by eexists.
  - destruct (recv_turn info services hist x (msgs ++ last :: rest) r d Hnodes Hnn Hinv Hx Hrx Hin) as (r' & Hturn & Hinv').
    assert (Hlt : alen (statuses (hist ++ [x])) < i_nnodes info).
    { rewrite <- Hcnt. change (hist ++ (x :: msgs) ++ [last]) with (hist ++ [x] ++ (msgs ++ [last])).
      rewrite app_assoc, app_assoc, (statuses_snoc ((hist ++ [x]) ++ msgs)), Hlast. unfold statuses. rewrite !omap_app, !alen_app.
      change (alen [s]) with 1. pose proof (Nat2Z.is_nonneg (length (omap (fun x => match kind x with KExit s => Some s | _ => None end) msgs))).
      unfold alen in *. lia. }
    rewrite (bind_ret _ _ _ (inl r') _) by (rewrite Hturn; f_equal; destruct (kind x); try done;
      destruct (Z.eqb_spec (i_nnodes info) (alen (statuses (hist ++ [x])))); [lia|done]).
    destruct (IH (hist ++ [x]) r' (rs_after (reaction info services hist x) (mk_rawsim (msgs ++ last :: rest) (rs_send d) (rs_log d))) fuel)
      as (r2 & Hr2 & Hinv2); [done|done|done|done|by rewrite <- app_assoc|done|cbn in Hfuel; lia|].
    exists r2. rewrite Hr2. split; [|by rewrite <- app_assoc in Hinv2].
    cbn. rewrite <- rs_after_app. done.
Qed.

Lemma recv_inv_init info buffer services reply : alen buffer = AXIOM_RAW_PAYLOAD_MAX_SIZE →
  recv_inv info services [] (receiver0 info buffer services reply).
Proof.
  intros Hb. assert (Hi : info_ok (replicate (Z.to_nat MAX_NUM_NODES) [])).
  { split; [done|]. intros n Hn. rewrite aget_replicate by (unfold MAX_NUM_NODES in *; lia). set_solver. }
  split; try done.
  - cbn. change (alen []) with 0. lia.
  - split; [done|]. intros _ id Hid. cbn [m_barrier receiver0]. rewrite aget_replicate by (unfold AXRUN_MAX_BARRIER_ID in *; lia).
    by rewrite Zmod_0_l.
  - cbn. unfold outputs. by case_match.
  - cbn. unfold outputs. by case_match.
Qed.

(** The whole thread. *)
Lemma receiver_run info services buffer reply msgs last s rest d fuel :
  0 <= i_nodes info < 2 ^ 64 → i_nnodes info = alen (members (i_nodes info)) → 0 < i_nnodes info →
  alen buffer = AXIOM_RAW_PAYLOAD_MAX_SIZE →
  axiom_al2_init (i_app_id info) d = Ret 0 d →
  Forall message_ok (msgs ++ [last]) →
  Forall (no_allocator services) (msgs ++ [last]) →
  kind last = KExit s → alen (statuses (msgs ++ [last])) = i_nnodes info →
  rs_in d = msgs ++ last :: rest → (length msgs < fuel)%nat →
  ∃ r, master_receiver fuel info services buffer reply d =
      Ret (Some r) (rs_after (reactions info services [] (msgs ++ [last]))
                      (mk_rawsim rest (rs_send d) (rs_log d))) ∧
    m_exit_status r = exit_after (i_flags info) (has services EXIT_SERVICE) (statuses (msgs ++ [last])) ∧
    written (i_flags info) (outputs services false (msgs ++ [last])) = Some (m_out r) ∧
    written (i_flags info) (outputs services true (msgs ++ [last])) = Some (m_err r).
Proof using CNOK RCOK payload_fits.
  intros Hnodes _ Hnn Hb Hal Hok Hrpc Hlast Hcnt Hin Hfuel.
  destruct (recv_loop info services s last rest msgs [] (receiver0 info buffer services reply) d fuel)
    as (r & Hloop & [_ _ _ Hst _ Ho He _]); try done; [by apply recv_inv_init|].
  unfold master_receiver, rpc_init. rewrite (bind_ret _ _ _ _ _ Hal). cbn [negb Z.eqb].
  rewrite (bind_ret _ _ _ _ _ Hloop). unfold written. rewrite app_nil_l in Ho, He. rewrite Ho, He. cbn [mbind option_bind].
  destruct (flush (m_infoout r) _ _) as [o oi] eqn:Efo. cbn [m_infoerr set_m_stdout].
  destruct (flush (m_infoerr r) _ _) as [e ei] eqn:Efe. eexists. split; [done|]. cbn. done.
Qed.
(** What is written of a node is what its output messages hold. *)
Lemma written_stream flags l items n : Forall msg_ok l → written flags l = Some items → 0 <= n < MAX_NUM_NODES →
  node_bytes n items = stream n l.
Proof using.
  intros Hl Hw Hn. set (info0 := replicate (Z.to_nat MAX_NUM_NODES) [] : list (list Z)).
  assert (Hget : ∀ m, 0 <= m < MAX_NUM_NODES → aget info0 m = []) by (intros m Hm; apply aget_replicate; unfold MAX_NUM_NODES in *; lia).
  assert (Hi : info_ok info0) by (split; [done|]; intros m Hm; rewrite Hget by done; apply not_elem_of_nil).
  destruct (emit_run_bytes info0 flags l Hi Hl) as (info & its & Hr & [Hlen _] & Hb).
  unfold written in Hw. fold info0 in Hw. rewrite Hr in Hw. cbn [mbind option_bind] in Hw. apply (inj Some) in Hw. subst items.
  destruct (flush_spec info flags Hlen n Hn) as [_ Hf]. by rewrite node_bytes_app, Hf, Hb, Hget by done.
Qed.

Lemma outputs_ok services e l : Forall message_ok l → Forall msg_ok (outputs services e l).
Proof using payload_fits.
  intros Hl. unfold outputs. destruct (has services REDIRECT_SERVICE); [|by constructor].
  induction Hl as [|x l Hx _ IH]; cbn; [by constructor|]. destruct (kind x) as [|e' bytes| | | |] eqn:Hk; try exact IH.
  destruct (Bool.eqb e' e); [|exact IH]. constructor; [|exact IH].
  assert (Hb : bytes = drop sizeof_header x.2).
  { destruct x as [[msg node] p]. unfold kind in Hk. by repeat case_match; simplify_eq. }
  subst bytes. destruct Hx as (Hmax & Hmin & _ & Hn). split; [done|]. cbn. unfold MAX_BUFFER_SIZE, alen in *. rewrite length_drop. lia.
Qed.

(** C22. The receiver implements its specification: on every sequence of messages
    of the nodes, failed receptions and unknown messages included, whose last
    message is the exit report of the last node, the thread ends with that
    message and leaves later ones unread; it has sent exactly one message to
    every node for every [nnodes]-th request of each barrier, with the exit
    service one CMD_KILL to every node at the first exit report, and with the
    service for remote calls every ping back to its node, whatever sends
    failed; its exit status is the one of the reports; and it has written what
    [emit] and [flush] make of the output messages of each stream.  The messages
    have at least a header, fit the buffer and are from a node below
    [MAX_NUM_NODES] ([message_ok]); the calls that the allocator of the library
    serves, and its replies, are left out while the service for remote calls is on
    ([no_allocator]), since that library is not part of the repository. *)
Theorem master_receiver_refines info services buffer reply msgs last s rest d fuel :
  0 <= i_nodes info < 2 ^ 64 → i_nnodes info = alen (members (i_nodes info)) → 0 < i_nnodes info →
  alen buffer = AXIOM_RAW_PAYLOAD_MAX_SIZE →
  axiom_al2_init (i_app_id info) d = Ret 0 d →
  Forall message_ok (msgs ++ [last]) →
  Forall (no_allocator services) (msgs ++ [last]) →
  kind last = KExit s → alen (statuses (msgs ++ [last])) = i_nnodes info →
  rs_in d = msgs ++ last :: rest → (length msgs < fuel)%nat →
  ∃ r, master_receiver fuel info services buffer reply d =
      Ret (Some r) (rs_after (reactions info services [] (msgs ++ [last]))
                      (mk_rawsim rest (rs_send d) (rs_log d))) ∧
    m_exit_status r = exit_after (i_flags info) (has services EXIT_SERVICE) (statuses (msgs ++ [last])) ∧
    written (i_flags info) (outputs services false (msgs ++ [last])) = Some (m_out r) ∧
    written (i_flags info) (outputs services true (msgs ++ [last])) = Some (m_err r).
Proof using CNOK RCOK payload_fits.
  intros Hn Hc Hnn Hb Hal Hok Hrpc Hlast Hcnt Hin Hfuel. by eapply receiver_run.
Qed.
End Receiver.

(** ** The exit status *)

Section ExitStatus.
Implicit Types (flags s : Z) (l : list Z).








End ExitStatus.
(** ** The sender thread *)

Section Sender.
Context `{CN : NicConsts} {CNOK : NicConstsOk} `{RC : RunConsts}.

Lemma send_nodes_snd {E} fuel nodes port node err payload (d : E * rawsim) :
  send_nodes fuel nodes port node err payload d = lift_snd (send_nodes fuel nodes port node err payload) d.
Proof.
  unfold lift_snd. induction fuel as [|fuel IH] in nodes, node, err, d |- *; [by destruct d|]. cbn [send_nodes].
  destruct (nodes =? 0); [by destruct d|]. unfold mbind, M_bind. destruct (Z.land nodes 1 =? 0).
  - cbn. by rewrite IH.
  - cbn [axiom_send_raw raw_snd]. unfold lift_snd. destruct (axiom_send_raw node port payload d.2); cbn; [|done].
    by rewrite IH.
Qed.

(** The thread goes on after an interrupted call and after data. *)
Definition goes_on (s : sel_result) : bool :=
  match s with SelFail eintr | ReadFail eintr => eintr | SelEnd => false | ReadData _ => true end.

Definition data_of (s : sel_result) : list Z := match s with ReadData bytes => bytes | _ => [] end.

(** The standard input reaches every node: for every sequence of reads, of
    interrupted calls and of sends that fail, until the thread is told to end or
    a call fails, each non-empty piece of data that was read is sent once to
    every node of the application, in order, behind a CMD_RECV_FROM_STDIN
    header, and nothing else is sent. *)
Theorem master_sender_forwards info buffer evs last rest (d : rawsim) fuel :
  0 <= i_nodes info < 2 ^ 64 → (sizeof_header <= length buffer)%nat →
  Forall (fun s => goes_on s = true) evs → goes_on last = false → (length evs < fuel)%nat →
  master_sender fuel info buffer (evs ++ last :: rest, d) =
  Ret tt (rest, rs_after
    (concat ((fun s => match data_of s with
       | [] => []
       | bytes => bcast (i_nodes info) (slave_port info)
           (set_command CMD_RECV_FROM_STDIN (take sizeof_header buffer) ++ bytes)
       end) <$> evs)) d).
Proof using CNOK.
  intros Hn Hb Hev Hlast Hf. unfold master_sender.
  destruct (take_set_command CMD_RECV_FROM_STDIN buffer Hb) as [Hlen <-]. rewrite <- Hlen in Hb.
  clear Hlen. rename Hb into Hlen. revert Hlen. generalize (set_command CMD_RECV_FROM_STDIN buffer) as b. clear buffer.
  induction evs as [|s evs IH] in d, fuel, Hev, Hf |- *; intros b Hlen; (destruct fuel as [|fuel]; [cbn in Hf; lia|]);
    cbn [loop app fmap list_fmap concat].
  { unfold mbind, M_bind, master_sender_turn. cbn. rewrite rs_after_nil.
    destruct last as [[]| |[]|]; try done. }
  apply Forall_cons in Hev as [Hs Hev]. cbn in Hf. specialize (fun d => IH d fuel Hev ltac:(lia)).
  unfold mbind, M_bind, master_sender_turn. cbn [select_read input_dev fst snd]. unfold mbind, M_bind. cbn [fst snd].
  destruct s as [[]| |[]|bytes]; try done; cbn [data_of app]; try (cbn; by apply IH).
  destruct (take_set_raw bytes b Hlen) as [H1 H2].
  assert (Hlen' : (sizeof_header <= length (set_raw bytes b))%nat).
  { apply (f_equal length) in H1. rewrite !length_take in H1. lia. }
  destruct bytes as [|c bytes].
  { change (0 <? alen []) with false. cbn [mret M_ret]. rewrite <- H1. by apply IH. }
  rewrite (proj2 (Z.ltb_lt 0 _)) by (unfold alen; cbn; lia).
  unfold my_axiom_send_raw. rewrite send_nodes_snd. unfold lift_snd. cbn [snd].
  rewrite (send_nodes_run 64) by lia. rewrite members_from_0. cbn [mret M_ret fst].
  rewrite IH by done. rewrite H1, H2, rs_after_app. done.
Qed.
End Sender.
(** ** Remote procedure calls *)

Section Rpc.
Context `{CN : NicConsts} {CNOK : NicConstsOk} `{RC : RunConsts} `{AL : Allocator rawsim}.
Implicit Types (d : rawsim).

(** A sequence of calls: source, size and message. *)
Fixpoint rpc_run (info : minfo) (calls : list (Z * Z * list Z)) (pending : rpc_reply_t) : M rawsim rpc_reply_t :=
  match calls with
  | [] => mret pending
  | (src, size, inmsg) :: calls =>
      '(_, _, pending) ← rpc_service info src size inmsg pending;
      rpc_run info calls pending
  end.

(** Only an allocation changes the pending reply. *)
Lemma rpc_service_pending info src size inmsg pending d x b p d' :
  h_command inmsg = AXIOM_CMD_ALLOC_REPLY ∨ h_rpc_function inmsg ≠ AXRUN_RPC_ALLOC →
  rpc_service info src size inmsg pending d = Ret (x, b, p) d' → p = pending.
Proof.
  intros Hf. unfold rpc_service, rpc_answer, rpc_send_reply, mbind, M_bind, mret, M_ret.
  destruct (Z.eqb_spec (h_command inmsg) AXIOM_CMD_ALLOC_REPLY).
  - intros. repeat case_match; by simplify_eq.
  - destruct Hf as [|Hf]; [done|]. destruct (Z.eqb_spec (h_rpc_function inmsg) AXRUN_RPC_ALLOC); [done|].
    intros. repeat case_match; by simplify_eq.
Qed.

Lemma rpc_run_pending info calls pending d p d' :
  Forall (fun c => h_command c.2 = AXIOM_CMD_ALLOC_REPLY ∨ h_rpc_function c.2 ≠ AXRUN_RPC_ALLOC) calls →
  rpc_run info calls pending d = Ret p d' → p = pending.
Proof.
  intros H. induction H as [|[[src size] inmsg] calls Hc _ IH] in pending, d |- *; cbn [rpc_run].
  { by intros [=]. }
  unfold mbind, M_bind. destruct (rpc_service info src size inmsg pending d) as [[[x b] p1] d1|] eqn:E; [|done].
  apply rpc_service_pending in E as ->; [|done]. apply IH.
Qed.

(** An allocation that cannot be answered at once is answered later, to the
    node that asked for it and with the header of its own request: whatever other
    calls are served between the request and the reply of the allocator, and
    whatever the allocator does, the reply goes to the requesting node. *)
Theorem rpc_alloc_answered info src size req raw d0 d1 pending others size' src' rep p2 d2 ret msg d3 :
  h_command req ≠ AXIOM_CMD_ALLOC_REPLY → h_rpc_function req = AXRUN_RPC_ALLOC →
  axiom_al2_alloc (master_port info) (rpc_payload size) (b_raw req) d0 = Ret (0, raw) d1 →
  Forall (fun c => h_command c.2 = AXIOM_CMD_ALLOC_REPLY ∨ h_rpc_function c.2 ≠ AXRUN_RPC_ALLOC) others →
  h_command rep = AXIOM_CMD_ALLOC_REPLY →
  ∃ b p1, rpc_service info src size req pending d0 = Ret (0, b, p1) d1 ∧
    (rpc_run info others p1 d1 = Ret p2 d2 →
     axiom_al2_alloc_reply size' rep d2 = Ret (ret, msg) d3 → ret ≠ 0 →
     ∃ r, rpc_service info src' size' rep p2 d2 =
       Ret (r, rep, p2) (rs_after [(src, slave_port info, take sizeof_header req ++ msg)] d3)).
Proof.
  intros Hcmd Hfun Hal Hothers Hrep.
  unfold rpc_service at 1. destruct (Z.eqb_spec (h_command req) AXIOM_CMD_ALLOC_REPLY); [done|].
  rewrite Hfun. cbn [Z.eqb AXRUN_RPC_ALLOC AXRUN_RPC_PING Pos.eqb].
  rewrite (bind_ret _ _ _ _ _ Hal). cbn. eexists _, _. split; [done|].
  intros Hrun Hreply Hret. apply rpc_run_pending in Hrun as ->; [|done].
  unfold rpc_service. rewrite Hrep, Z.eqb_refl, (bind_ret _ _ _ _ _ Hreply).
  destruct (Z.eqb_spec ret 0); [done|]. unfold rpc_send_reply, mbind, M_bind.
  cbn [axiom_send_iov_raw rawsim_dev reply_node reply_port reply_hdr rpc_postpone_reply concat].
  rewrite rs_push_eq. cbn. rewrite app_nil_r. by eexists.
Qed.
End Rpc.

(** ** Evaluation *)

Section Examples.
#[local] Instance ex_nic : NicConsts := nic8.
#[local] Instance ex_nic_ok : NicConstsOk := nic8_ok.
#[local] Instance ex_run : RunConsts := {|
  AXIOM_RAW_PAYLOAD_MAX_SIZE := 128; SIZE_BITS := 8; AXIOM_CMD_ALLOC_REPLY := 32 |}.
#[local] Instance ex_run_ok : RunConstsOk.
Proof. split; vm_compute; done. Qed.
#[local] Instance ex_stdio : Stdio := {| BUFSIZ := 8192 |}.

(** An allocator that postpones every allocation. *)
#[local] Instance ex_alloc : Allocator rawsim := {|
  axiom_al2_init _ := mret 0;
  axiom_al2_release := mret tt;
  axiom_al2_alloc _ _ raw := mret (0, raw);
  axiom_al2_get_regions _ _ raw := mret (1, raw);
  axiom_al2_alloc_shblock _ _ raw := mret (1, raw);
  axiom_al2_alloc_reply _ _ := mret (1, [7; 7])
|}.

(** Messages of the two nodes 1 and 2. *)
Definition ex_header (c v : Z) : list Z := [c; 0; 0; 0] ++ le_put 4 v ++ replicate 12 0.
Definition ex_info : minfo := mk_minfo 6 2 0 0 6 5.
Definition ex_msgs : list (Z * Z * list Z) := [
  (0, 1, ex_header CMD_BARRIER 3);
  (0, 2, ex_header CMD_SEND_TO_STDOUT 0 ++ [104; 105; 10]);
  (-1, 0, ex_header 0 0);
  (0, 2, ex_header CMD_BARRIER 3);
  (0, 1, ex_header CMD_EXIT 0)].
Definition ex_last : Z * Z * list Z := (0, 2, ex_header CMD_EXIT 256).
Definition ex_services : Z := 0x07.

Lemma ex_ok : Forall message_ok (ex_msgs ++ [ex_last]).
Proof.
  repeat (apply Forall_cons; split; [split_and!; try (vm_compute; done); by apply (bool_decide_unpack _)|]).
  constructor.
Qed.

Lemma master_receiver_refines_witness :
  ∃ r, master_receiver 6 ex_info ex_services (replicate 128 0) (mk_rpc_reply 0 0 [])
      (mk_rawsim (ex_msgs ++ [ex_last]) [] []) =
    Ret (Some r) (mk_rawsim [] [] (
      [(1, 6, ex_header CMD_BARRIER 3); (2, 6, ex_header CMD_BARRIER 3);
       (1, 6, ex_header CMD_KILL 0); (2, 6, ex_header CMD_KILL 0)])) ∧
    m_exit_status r = 256.
Proof.
  assert (Hfits : AXIOM_RAW_PAYLOAD_MAX_SIZE <= BUFSIZ) by (vm_compute; discriminate).
  assert (Hnodes : 0 <= i_nodes ex_info < 2 ^ 64) by (vm_compute; split; [discriminate|reflexivity]).
  assert (Hrpc : Forall (no_allocator ex_services) (ex_msgs ++ [ex_last]))
    by (repeat constructor).
  destruct (master_receiver_refines (AL := ex_alloc) Hfits ex_info ex_services (replicate 128 0)
    (mk_rpc_reply 0 0 []) ex_msgs ex_last 256 [] (mk_rawsim (ex_msgs ++ [ex_last]) [] []) 6 Hnodes
    eq_refl eq_refl eq_refl eq_refl ex_ok Hrpc eq_refl eq_refl eq_refl) as (r & Hr & Hs & _).
  - vm_compute. apply le_n.
  - exists r. split; [|vm_compute in Hs; exact Hs]. rewrite Hr. vm_compute. reflexivity.
Defined.


Lemma master_sender_forwards_witness :
  master_sender 4 ex_info (replicate 128 0)
    ([ReadData [65; 66]; SelFail true; ReadData []; SelEnd], mk_rawsim [] [-1] []) =
  Ret tt ([], mk_rawsim [] [] [(1, 6, ex_header CMD_RECV_FROM_STDIN 0 ++ [65; 66]);
                               (2, 6, ex_header CMD_RECV_FROM_STDIN 0 ++ [65; 66])]).
Proof.
  apply (master_sender_forwards ex_info (replicate 128 0) [ReadData [65; 66]; SelFail true; ReadData []] SelEnd []
    (mk_rawsim [] [-1] []) 4); try done; try (cbn; lia); [vm_compute; lia|by repeat constructor].
Defined.

(** Node 2 asks for memory, node 1 pings, then the allocator replies. *)
Definition ex_call (id function : Z) : list Z :=
  [CMD_RPC; 0; 0; 0] ++ le_put 8 id ++ le_put 4 function ++ le_put 4 0 ++ [9; 9].
Definition ex_reply : list Z := [32; 0; 0; 0] ++ replicate 18 0.

Lemma rpc_alloc_answered_witness :
  ∃ b p1 r, rpc_service ex_info 2 22 (ex_call 77 AXRUN_RPC_ALLOC) (mk_rpc_reply 0 0 []) (mk_rawsim [] [] []) =
      Ret (0, b, p1) (mk_rawsim [] [] []) ∧
    rpc_service ex_info 0 22 ex_reply p1 (mk_rawsim [] [] [(1, 6, ex_call 5 AXRUN_RPC_PING)]) =
      Ret (r, ex_reply, p1) (mk_rawsim [] [] [(1, 6, ex_call 5 AXRUN_RPC_PING);
        (2, 6, take 20 (ex_call 77 AXRUN_RPC_ALLOC) ++ [7; 7])]).
Proof.
  destruct (rpc_alloc_answered (AL := ex_alloc) ex_info 2 22 (ex_call 77 AXRUN_RPC_ALLOC) [9; 9] (mk_rawsim [] [] []) (mk_rawsim [] [] [])
    (mk_rpc_reply 0 0 []) [(1, 22, ex_call 5 AXRUN_RPC_PING)] 22 0 ex_reply
    (mk_rpc_reply 2 6 (take 20 (ex_call 77 AXRUN_RPC_ALLOC)))
    (mk_rawsim [] [] [(1, 6, ex_call 5 AXRUN_RPC_PING)]) 1 [7; 7] (mk_rawsim [] [] [(1, 6, ex_call 5 AXRUN_RPC_PING)]))
    as (b & p1 & H1 & H2); try done.
  - constructor; [by right|constructor].
  - exists b, p1. assert (E : p1 = mk_rpc_reply 2 6 (take 20 (ex_call 77 AXRUN_RPC_ALLOC))) by (vm_compute in H1; injection H1 as _ <-; vm_compute; reflexivity).
    subst p1. destruct H2 as (r & Hr); [reflexivity..|done|]. exists r. split; [exact H1|exact Hr].
Defined.
End Examples.
