(* ===== verification/Slave.v ===== *)
(** * The slave process of axiom-run (axiom-run/slave.c)

    A slave runs one process of the application and serves it: its output goes
    to the master, the master's standard input, signals, barrier releases and
    replies go to the process, and at the end the master gets the exit status. *)

From S2P Require Import Prelude Nic Output RunMsg Master.

(** Addresses of the Unix sockets of [common.h]: the slave itself, a process that
    waits at a barrier, a thread that waits for a reply. *)
Inductive sockaddr :=
  | SLAVE_TEMPLATE_NAME (pid : Z)
  | BARRIER_CHILD_TEMPLATE_NAME (pid : Z) (barrier_id : Z)
  | RPC_CHILD_TEMPLATE_NAME (pid : Z) (tid : Z).

#[export] Instance sockaddr_eq_dec : EqDecision sockaddr.
Proof. solve_decision. Defined.

Definition SIGKILL : Z := 9.

(** Results of the system calls of the slave.  [select] is followed by the one
    descriptor that is ready besides the event that ends the thread. *)
Inductive ready := RawFail (eintr : bool) | RawEnd | RawReady.
Inductive wrote := WriteFail (eintr : bool) | Wrote (n : Z).
Inductive killed := KillOk | KillFail (esrch : bool).
Inductive sock_in := SockFail (eintr : bool) | SockEnd | RecvFail | RecvData (bytes : list Z).
Inductive waited := WaitFail (eintr : bool) | WaitChild (status : Z).
Inductive late_read := LateFail | LateData (bytes : list Z).
Inductive late := LateSelFail | LateTimeout | LateReady (out err : option late_read).

Class SlaveDev (D : Type) := {
  s_getpid : M D Z;
  s_select_raw : M D ready;
  s_write : list Z → M D wrote;            (** to the standard input of the process *)
  s_kill : Z → Z → M D killed;
  s_sendto : sockaddr → list Z → M D Z;
  s_recv : M D sock_in;
  s_unlink : sockaddr → M D unit;
  s_waitpid : M D waited;
  s_select_late : bool → bool → M D late   (** which of the two streams are closed *)
}.

(** Variables that the threads share: the node and port of the master, the pid
    of the process, the signal that ends it. *)
Record sinfo := mk_sinfo {
  s_services : Z; s_pid : Z; s_termmode : Z; s_master_node : Z; s_master_port : Z
}.

Section Code.
Context `{CN : NicConsts} `{RC : RunConsts}.
Context {D : Type} `{RD : RawDev D} `{SD : SlaveDev D}.

(** *** Output of the process *)

(** One turn of [send_thread] over the buffer; the end of the file ends it. *)
Definition send_turn `{IN : Input D} (info : sinfo) (buffer : list Z) : M D (list Z + unit) :=
  s ← select_read;
  match s with
  | SelFail eintr => mret (if eintr then inl buffer else inr tt)
  | SelEnd => mret (inr tt)
  | ReadFail eintr => mret (if eintr then inl buffer else inr tt)
  | ReadData bytes =>
      let buffer := set_raw bytes buffer in
      if 0 <? alen bytes then
        _ ← axiom_send_raw (s_master_node info) (s_master_port info) (take (length bytes + sizeof_header) buffer);
        mret (inl buffer)
      else mret (inr tt)
  end.

Definition send_thread `{IN : Input D} (fuel : nat) (info : sinfo) (cmd : Z) (buffer : list Z) : M D unit :=
  loop fuel (send_turn info) (set_command cmd buffer).

(** *** Messages of the master *)

(** [output]: write everything, going on after interrupted and empty writes. *)
Definition output_turn (buf : list Z) : M D (list Z + unit) :=
  if alen buf <=? 0 then mret (inr tt) else
  r ← s_write buf;
  mret (match r with
        | WriteFail eintr => if eintr then inl buf else inr tt
        | Wrote sz => if sz =? 0 then inl buf else inl (drop (Z.to_nat sz) buf)
        end).

Definition output (fuel : nat) (buf : list Z) : M D unit := loop fuel output_turn buf.

Definition on_stdin (fuel : nat) (size : Z) (buffer : list Z) : M D unit :=
  let sz := usize (size - Z.of_nat sizeof_header) in
  if alen (b_raw buffer) <? sz then stop OutOfBounds
  else output fuel (take (Z.to_nat sz) (b_raw buffer)).

Definition on_kill (info : sinfo) : M D unit :=
  res ← s_kill (s_pid info) (s_termmode info);
  match res with
  | KillFail false => _ ← s_kill (s_pid info) SIGKILL; mret tt
  | _ => mret tt
  end.

(** The size of the datagram is the result of [select], which is 1 here. *)
Definition on_release (buffer : list Z) : M D unit :=
  pid ← s_getpid;
  _ ← s_sendto (BARRIER_CHILD_TEMPLATE_NAME pid (h_barrier_id buffer)) (take 1 buffer);
  mret tt.

Definition on_reply (size : Z) (buffer : list Z) : M D unit :=
  pid ← s_getpid;
  _ ← s_sendto (RPC_CHILD_TEMPLATE_NAME pid (h_rpc_id buffer)) (take (Z.to_nat size) buffer);
  mret tt.

(** One turn of [recv_thread]; the state is the buffer and [my_sigterm]. *)
Definition recv_thread_turn (fuel : nat) (info : sinfo) (st : list Z * bool) : M D (list Z * bool + bool) :=
  let '(buffer, my_sigterm) := st in
  s ← s_select_raw;
  match s with
  | RawFail eintr => mret (if eintr then inl st else inr my_sigterm)
  | RawEnd => mret (inr my_sigterm)
  | RawReady =>
      '(msg, _, payload) ← axiom_recv_raw;
      let buffer := overwrite payload buffer in
      let size := alen payload in
      if negb (AXIOM_RET_IS_OK msg) then mret (inl (buffer, my_sigterm)) else
      let command := h_command buffer in
      if command =? CMD_RECV_FROM_STDIN then
        (if has (s_services info) REDIRECT_SERVICE then on_stdin fuel size buffer else mret tt) ;;
        mret (inl (buffer, my_sigterm))
      else if command =? CMD_KILL then
        if has (s_services info) (Z.lor EXIT_SERVICE KILL_SERVICE) then
          on_kill info ;; mret (inl (buffer, true))
        else mret (inl (buffer, my_sigterm))
      else if command =? CMD_BARRIER then
        (if has (s_services info) BARRIER_SERVICE then on_release buffer else mret tt) ;;
        mret (inl (buffer, my_sigterm))
      else if command =? CMD_RPC then
        (if has (s_services info) RPC_SERVICE then on_reply size buffer else mret tt) ;;
        mret (inl (buffer, my_sigterm))
      else mret (inl (buffer, my_sigterm))
  end.

(** [wfuel] bounds the turns of [output]. *)
Definition recv_thread (fuel wfuel : nat) (info : sinfo) (buffer : list Z) : M D bool :=
  loop fuel (recv_thread_turn wfuel info) (buffer, false).

(** *** Requests of the process *)

(** [recv(sock, &buffer, sizeof (buffer), ...)] cuts a longer datagram. *)
Definition sock_turn (info : sinfo) (buffer : list Z) : M D (list Z + unit) :=
  s ← s_recv;
  match s with
  | SockFail eintr => mret (if eintr then inl buffer else inr tt)
  | SockEnd => mret (inr tt)
  | RecvFail => mret (inl buffer)
  | RecvData bytes =>
      let bytes := take (Z.to_nat AXIOM_RAW_PAYLOAD_MAX_SIZE) bytes in
      let buffer := overwrite bytes buffer in
      _ ← axiom_send_raw (s_master_node info) (s_master_port info) (take (length bytes) buffer);
      mret (inl buffer)
  end.

Definition sock_thread (fuel : nat) (info : sinfo) (buffer : list Z) : M D unit :=
  loop fuel (sock_turn info) buffer.

(** *** The main thread *)

(** The exit message: the rest of the header keeps what is in the buffer. *)
Definition exit_message (status : Z) (buffer : list Z) : list Z :=
  take sizeof_header (set_status status (set_command CMD_EXIT buffer)).

(** The signal handler; the process exits afterwards. *)
Definition myexit (info : sinfo) (open : bool) (sig : Z) (buffer : list Z) : M D unit :=
  (if 0 <? s_pid info then _ ← s_kill (s_pid info) sig; mret tt else mret tt) ;;
  pid ← s_getpid;
  s_unlink (SLAVE_TEMPLATE_NAME pid) ;;
  if open then
    _ ← axiom_send_raw (s_master_node info) (s_master_port info) (exit_message (Z.land sig 0x7f) buffer);
    mret tt
  else mret tt.

(** The threads that are started. *)
Inductive sthread := ThOut | ThErr | ThIn | ThSock.

Definition slave_threads (services pid : Z) : list sthread :=
  if negb (services =? 0) && (0 <? pid) then
    (if has services REDIRECT_SERVICE then [ThOut; ThErr] else []) ++
    (if has services (Z.lor REDIRECT_SERVICE (Z.lor EXIT_SERVICE KILL_SERVICE)) then [ThIn] else []) ++
    (if has services (Z.lor BARRIER_SERVICE RPC_SERVICE) then [ThSock] else [])
  else [].

#[export] Instance sthread_eq_dec : EqDecision sthread.
Proof. solve_decision. Defined.

(** [sock_thread] comes with the services for barriers and remote calls,
    [recv_thread] with those for redirection, exit and kill. *)
Lemma sock_thread_started services pid : has services BARRIER_SERVICE = true ∨ has services RPC_SERVICE = true →
  0 < pid → ThSock ∈ slave_threads services pid.
Proof.
  intros Hs Hp. unfold slave_threads. rewrite (proj2 (Z.ltb_lt _ _) Hp), (has_lor _ BARRIER_SERVICE).
  destruct (Z.eqb_spec services 0) as [->|_]; [by destruct Hs|]. cbn [negb andb]. rewrite !elem_of_app. do 2 right.
  destruct Hs as [->| ->]; rewrite ?orb_true_r; by left.
Qed.

Lemma recv_thread_started services pid :
  has services (Z.lor REDIRECT_SERVICE (Z.lor EXIT_SERVICE KILL_SERVICE)) = true → 0 < pid → ThIn ∈ slave_threads services pid.
Proof.
  intros Hs Hp. unfold slave_threads. rewrite (proj2 (Z.ltb_lt _ _) Hp).
  destruct (Z.eqb_spec services 0) as [E|_]; [by rewrite E in Hs|]. cbn [negb andb]. rewrite Hs, !elem_of_app. right. left. by left.
Qed.

(** The wait for the process: [status] is 0 after a failure. *)
Definition wait_turn (_ : unit) : M D (unit + Z) :=
  w ← s_waitpid;
  mret (match w with
        | WaitChild status => inr status
        | WaitFail eintr => if eintr then inl tt else inr 0
        end).

(** A process killed on the master's order counts as ended normally. *)
Definition child_status (my_sigterm : bool) (termmode status : Z) : Z :=
  if my_sigterm && WIFSIGNALED status && (WTERMSIG status =? termmode) then 0 else status.

(** Output that arrives late; the state is the buffer and the closed streams. *)
Definition late_out (info : sinfo) (cmd : Z) (r : option late_read) (buffer : list Z) (closed : bool)
    : M D (list Z * bool) :=
  match r with
  | None | Some LateFail => mret (buffer, closed)
  | Some (LateData bytes) =>
      let buffer := set_raw bytes buffer in
      if 0 <? alen bytes then
        let buffer := set_command cmd buffer in
        _ ← axiom_send_raw (s_master_node info) (s_master_port info) (take (length bytes + sizeof_header) buffer);
        mret (buffer, closed)
      else mret (buffer, true)
  end.

Definition late_turn (info : sinfo) (st : list Z * bool * bool) : M D (list Z * bool * bool + unit) :=
  let '(buffer, closedout, closederr) := st in
  s ← s_select_late closedout closederr;
  match s with
  | LateSelFail | LateTimeout => mret (inr tt)
  | LateReady out err =>
      '(buffer, closedout) ← late_out info CMD_SEND_TO_STDOUT out buffer closedout;
      '(buffer, closederr) ← late_out info CMD_SEND_TO_STDERR err buffer closederr;
      mret (if closedout && closederr then inr tt else inl (buffer, closedout, closederr))
  end.

(** The main thread from the start of the process; [status0] and the buffers are
    the uninitialised variables, [my_sigterm] is set by [recv_thread]. *)
Definition manage_slave_services (fuel : nat) (info : sinfo) (my_sigterm : bool) (status0 : Z)
    (buffer late_buffer : list Z) : M D Z :=
  status ← (if 0 <? s_pid info then
              status ← loop fuel wait_turn tt;
              mret (child_status my_sigterm (s_termmode info) status)
            else mret status0);
  (if negb (s_services info =? 0) && (0 <? s_pid info) then
     (if has (s_services info) (Z.lor BARRIER_SERVICE RPC_SERVICE) then
        pid ← s_getpid; s_unlink (SLAVE_TEMPLATE_NAME pid)
      else mret tt) ;;
     (if has (s_services info) REDIRECT_SERVICE then loop fuel (late_turn info) (late_buffer, false, false)
      else mret tt)
   else mret tt) ;;
  _ ← axiom_send_raw (s_master_node info) (s_master_port info) (exit_message status buffer);
  mret status.
End Code.
(** ** A scripted process environment *)

(** Scripts of the results of the calls and logs of their effects; [ss_raw] is the
    NIC.  A write takes at most what it is given; writes succeed when the script
    is used up, and so do signals. *)
Record slavesim := mk_slavesim {
  ss_raw : rawsim;
  ss_ready : list ready;
  ss_writes : list wrote;
  ss_stdin : list Z;
  ss_kills : list killed;
  ss_signals : list (Z * Z);
  ss_sent : list (sockaddr * list Z);
  ss_sock : list sock_in;
  ss_wait : list waited;
  ss_late : list late;
  ss_pid : Z
}.

Definition with_raw (r : rawsim) (d : slavesim) : slavesim :=
  mk_slavesim r (ss_ready d) (ss_writes d) (ss_stdin d) (ss_kills d) (ss_signals d) (ss_sent d)
    (ss_sock d) (ss_wait d) (ss_late d) (ss_pid d).
Definition with_ready (l : list ready) (d : slavesim) : slavesim :=
  mk_slavesim (ss_raw d) l (ss_writes d) (ss_stdin d) (ss_kills d) (ss_signals d) (ss_sent d)
    (ss_sock d) (ss_wait d) (ss_late d) (ss_pid d).
Definition with_stdin (l : list wrote) (bytes : list Z) (d : slavesim) : slavesim :=
  mk_slavesim (ss_raw d) (ss_ready d) l bytes (ss_kills d) (ss_signals d) (ss_sent d)
    (ss_sock d) (ss_wait d) (ss_late d) (ss_pid d).
Definition with_signals (l : list killed) (s : list (Z * Z)) (d : slavesim) : slavesim :=
  mk_slavesim (ss_raw d) (ss_ready d) (ss_writes d) (ss_stdin d) l s (ss_sent d)
    (ss_sock d) (ss_wait d) (ss_late d) (ss_pid d).
Definition with_sent (l : list (sockaddr * list Z)) (d : slavesim) : slavesim :=
  mk_slavesim (ss_raw d) (ss_ready d) (ss_writes d) (ss_stdin d) (ss_kills d) (ss_signals d) l
    (ss_sock d) (ss_wait d) (ss_late d) (ss_pid d).
Definition with_scripts (k : list sock_in) (w : list waited) (l : list late) (d : slavesim) : slavesim :=
  mk_slavesim (ss_raw d) (ss_ready d) (ss_writes d) (ss_stdin d) (ss_kills d) (ss_signals d) (ss_sent d)
    k w l (ss_pid d).

Section Sim.
Context `{CN : NicConsts}.

Definition lift_raw {A} (c : M rawsim A) : M slavesim A := fun d =>
  match c (ss_raw d) with Ret a r => Ret a (with_raw r d) | Stuck w r => Stuck w (with_raw r d) end.

#[export] Instance slavesim_raw : RawDev slavesim := {|
  axiom_send_raw node port payload := lift_raw (axiom_send_raw node port payload);
  axiom_recv_raw := lift_raw axiom_recv_raw;
  axiom_send_iov_raw node port parts := lift_raw (axiom_send_iov_raw node port parts)
|}.

#[export] Instance slavesim_dev : SlaveDev slavesim := {|
  s_getpid d := Ret (ss_pid d) d;
  s_select_raw d := match ss_ready d with [] => Stuck Blocked d | x :: l => Ret x (with_ready l d) end;
  s_write buf d := match ss_writes d with
    | [] => Ret (Wrote (alen buf)) (with_stdin [] (ss_stdin d ++ buf) d)
    | Wrote n :: l =>
        let n := Z.max 0 (Z.min n (alen buf)) in
        Ret (Wrote n) (with_stdin l (ss_stdin d ++ take (Z.to_nat n) buf) d)
    | WriteFail e :: l => Ret (WriteFail e) (with_stdin l (ss_stdin d) d)
    end;
  s_kill pid sig d := match ss_kills d with
    | [] => Ret KillOk (with_signals [] (ss_signals d ++ [(pid, sig)]) d)
    | x :: l => Ret x (with_signals l (ss_signals d ++ [(pid, sig)]) d)
    end;
  s_sendto a bytes d := Ret (alen bytes) (with_sent (ss_sent d ++ [(a, bytes)]) d);
  s_recv d := match ss_sock d with [] => Stuck Blocked d | x :: l => Ret x (with_scripts l (ss_wait d) (ss_late d) d) end;
  s_unlink _ d := Ret tt d;
  s_waitpid d := match ss_wait d with [] => Stuck Blocked d | x :: l => Ret x (with_scripts (ss_sock d) l (ss_late d) d) end;
  s_select_late _ _ d := match ss_late d with [] => Stuck Blocked d | x :: l => Ret x (with_scripts (ss_sock d) (ss_wait d) l d) end
|}.

Definition slave_after (evs : list (Z * Z * list Z)) (d : slavesim) : slavesim := with_raw (rs_after evs (ss_raw d)) d.

Lemma slave_send node port payload d : ∃ r,
  (axiom_send_raw node port payload : M slavesim Z) d = Ret r (slave_after [(node, port, payload)] d).
Proof. cbn. unfold lift_raw. rewrite rs_push_eq. by eexists. Qed.

Lemma slave_after_app l1 l2 d : slave_after l2 (slave_after l1 d) = slave_after (l1 ++ l2) d.
Proof. unfold slave_after. cbn. by rewrite rs_after_app. Qed.

Lemma slave_after_nil d : slave_after [] d = d.
Proof. unfold slave_after. rewrite rs_after_nil. by destruct d. Qed.
End Sim.

(** ** Output of the process, from the slave to the terminal *)

Section Redirect.
Context `{CN : NicConsts} {CNOK : NicConstsOk} `{RC : RunConsts} {RCOK : RunConstsOk} `{IO : Stdio} `{AL : Allocator rawsim}.
Hypothesis payload_fits : AXIOM_RAW_PAYLOAD_MAX_SIZE <= BUFSIZ.

(** A message of the redirect service. *)
Definition redirect_message (cmd : Z) (buffer bytes : list Z) : list Z :=
  set_command cmd (take sizeof_header buffer) ++ bytes.

Lemma redirect_message_fields cmd buffer bytes : (sizeof_header <= length buffer)%nat → 0 <= cmd < 256 →
  h_command (redirect_message cmd buffer bytes) = cmd ∧
  drop sizeof_header (redirect_message cmd buffer bytes) = bytes ∧
  length (redirect_message cmd buffer bytes) = (sizeof_header + length bytes)%nat.
Proof.
  intros Hb Hc. unfold redirect_message.
  assert (Hl : length (set_command cmd (take sizeof_header buffer)) = sizeof_header).
  { destruct (take_set_command cmd buffer Hb) as [H1 H2]. rewrite <- H2, length_take, H1. lia. }
  split_and!.
  - unfold h_command. rewrite <- (u8_small cmd) at 2 by lia. by destruct buffer.
  - by apply drop_app_length'.
  - by rewrite length_app, Hl.
Qed.

(** The thread goes on after data, and the end of the file stops it. *)
Definition reads_on (s : sel_result) : bool :=
  match s with ReadData [] => false | _ => goes_on s end.

Definition pieces (evs : list sel_result) : list (list Z) :=
  omap (fun s => match s with ReadData [] => None | ReadData bytes => Some bytes | _ => None end) evs.

Lemma send_thread_run info cmd buffer evs last rest (d : rawsim) fuel :
  (sizeof_header <= length buffer)%nat →
  Forall (fun s => reads_on s = true) evs → reads_on last = false → (length evs < fuel)%nat →
  send_thread fuel info cmd buffer (evs ++ last :: rest, d) =
  Ret tt (rest, rs_after ((fun bytes => (s_master_node info, s_master_port info, redirect_message cmd buffer bytes))
                            <$> pieces evs) d).
Proof.
  intros Hb Hev Hlast Hf. unfold send_thread, redirect_message.
  destruct (take_set_command cmd buffer Hb) as [Hlen <-]. rewrite <- Hlen in Hb. clear Hlen. revert Hb.
  generalize (set_command cmd buffer) as b. clear buffer.
  induction evs as [|s evs IH] in d, fuel, Hev, Hf |- *; intros b Hlen; (destruct fuel as [|fuel]; [cbn in Hf; lia|]);
    cbn [loop app].
  { unfold mbind, M_bind, send_turn. cbn. rewrite rs_after_nil.
    destruct last as [[]| |[]|[|c bytes]]; try done. }
  apply Forall_cons in Hev as [Hs Hev]. cbn in Hf. specialize (fun d => IH d fuel Hev ltac:(lia)).
  unfold mbind, M_bind, send_turn. cbn [select_read input_dev fst snd]. unfold mbind, M_bind. cbn [fst snd].
  destruct s as [[]| |[]|[|c bytes]]; try done; try (cbn; by apply IH).
  destruct (take_set_raw (c :: bytes) b Hlen) as [H1 H2].
  assert (Hlen' : (sizeof_header <= length (set_raw (c :: bytes) b))%nat).
  { apply (f_equal length) in H1. rewrite !length_take in H1. lia. }
  rewrite (proj2 (Z.ltb_lt 0 _)) by (unfold alen; cbn; lia).
  cbn [axiom_send_raw raw_snd]. unfold lift_snd. cbn [snd axiom_send_raw rawsim_dev].
  rewrite rs_push_eq. cbn [mret M_ret fst]. rewrite IH by done. rewrite H1, H2, rs_after_app. done.
Qed.

(** The messages of a redirect thread of a node among those that the master gets. *)
Definition redirect_cmd (to_stderr : bool) : Z := if to_stderr then CMD_SEND_TO_STDERR else CMD_SEND_TO_STDOUT.
Definition of_thread (node : Z) (to_stderr : bool) (x : Z * Z * list Z) : Prop :=
  AXIOM_RET_IS_OK x.1.1 = true ∧ x.1.2 = node ∧ h_command x.2 = redirect_cmd to_stderr.
#[local] Instance of_thread_dec node e x : Decision (of_thread node e x).
Proof. apply _. Defined.

Lemma thread_stream services node e l : has services REDIRECT_SERVICE = true →
  stream node (outputs services e l) = concat (drop sizeof_header <$> (snd <$> filter (of_thread node e) l)).
Proof.
  intros Hs. unfold outputs. rewrite Hs. induction l as [|[[msg n] p] l IH]; [done|]. cbn [omap list_omap].
  assert (Hk : kind (msg, n, p) = KOutput e (drop sizeof_header p) ↔ AXIOM_RET_IS_OK msg = true ∧ h_command p = redirect_cmd e).
  { unfold kind, redirect_cmd. destruct (AXIOM_RET_IS_OK msg); cbn [negb]; [|by split; [|intros []]].
    destruct (Z.eqb_spec (h_command p) CMD_SEND_TO_STDERR) as [E1|E1]; [rewrite E1; destruct e; naive_solver|].
    destruct (Z.eqb_spec (h_command p) CMD_SEND_TO_STDOUT) as [E2|E2]; [rewrite E2; destruct e; naive_solver|].
    split; [repeat case_match; congruence|]. intros [_ H]. by destruct e. }
  assert (Hb : ∀ e' bytes, kind (msg, n, p) = KOutput e' bytes → bytes = drop sizeof_header p).
  { unfold kind. intros e' bytes. repeat case_match; congruence. }
  destruct (decide (of_thread node e (msg, n, p))) as [Ht|Ht].
  - rewrite filter_cons_True by done. destruct Ht as (H1 & H2 & H3). cbn in H1, H2, H3. subst n.
    rewrite (proj2 Hk) by done. rewrite Bool.eqb_reflx. unfold stream in *. cbn. by rewrite Z.eqb_refl, IH.
  - rewrite filter_cons_False by done. rewrite <- IH. destruct (kind (msg, n, p)) as [|e' bytes| | | |] eqn:E; try done.
    destruct (Bool.eqb e' e) eqn:Ee; [|done]. apply Bool.eqb_prop in Ee as ->. pose proof (Hb e bytes eq_refl) as ->.
    unfold stream. cbn. destruct (Z.eqb_spec n node) as [->|]; [|done]. exfalso. apply Ht. split; [|split]; [by apply Hk|done|by apply Hk].
Qed.

Lemma pieces_concat evs : Forall (fun s => reads_on s = true) evs → concat (pieces evs) = concat (data_of <$> evs).
Proof.
  induction 1 as [|s evs Hs _ IH]; [done|].
  destruct s as [[]| |[]|[|c bytes]]; try done; try (cbn; exact IH).
  change (pieces (ReadData (c :: bytes) :: evs)) with ((c :: bytes) :: pieces evs). cbn [fmap list_fmap concat data_of]. by rewrite IH.
Qed.

(** C26. Output end to end: what the process of a node writes to its two streams, in
    whatever pieces the two threads of the slave read it and whatever calls are
    interrupted, becomes messages to the master; and in every session of the
    master that gets these messages, each thread's in their order, among any
    well-formed messages of all nodes that call for nothing of the allocator, what
    the master has written of the node to its standard output are exactly the bytes
    of the first stream and to its standard error those of the second, in order.
    What arrives after the end of the process is read by the main thread of the
    slave, which is not part of this. *)
Theorem redirect_end_to_end sl services node (buffer : bool → list Z) (evs : bool → list sel_result) (last : bool → sel_result)
    (rest : bool → list sel_result) (d : bool → rawsim) fuel :
  (∀ e, (sizeof_header <= length (buffer e))%nat) → has services REDIRECT_SERVICE = true → 0 <= node < MAX_NUM_NODES →
  (∀ e, Forall (fun s => reads_on s = true) (evs e)) → (∀ e, reads_on (last e) = false) →
  (∀ e, (length (evs e) < fuel)%nat) →
  ∃ sent : bool → list (Z * Z * list Z),
    (∀ e, send_thread fuel sl (if e : bool then CMD_SEND_TO_STDERR else CMD_SEND_TO_STDOUT) (buffer e) (evs e ++ last e :: rest e, d e) =
        Ret tt (rest e, rs_after (sent e) (d e)) ∧
      Forall (fun m => m.1 = (s_master_node sl, s_master_port sl)) (sent e)) ∧
    ∀ (info : minfo) mbuffer reply msgs lastmsg s mrest (dm : rawsim) mfuel,
      0 <= i_nodes info < 2 ^ 64 → i_nnodes info = alen (members (i_nodes info)) → 0 < i_nnodes info →
      alen mbuffer = AXIOM_RAW_PAYLOAD_MAX_SIZE → axiom_al2_init (i_app_id info) dm = Ret 0 dm →
      Forall message_ok (msgs ++ [lastmsg]) → Forall (no_allocator services) (msgs ++ [lastmsg]) →
      kind lastmsg = KExit s → alen (statuses (msgs ++ [lastmsg])) = i_nnodes info →
      rs_in dm = msgs ++ lastmsg :: mrest → (length msgs < mfuel)%nat →
      (∀ e, snd <$> filter (of_thread node e) (msgs ++ [lastmsg]) = snd <$> sent e) →
      ∃ r dm', master_receiver mfuel info services mbuffer reply dm = Ret (Some r) dm' ∧
        node_bytes node (m_out r) = concat (data_of <$> evs false) ∧
        node_bytes node (m_err r) = concat (data_of <$> evs true).
Proof using CNOK RCOK payload_fits.
  intros Hb Hserv Hn Hev Hlast Hf.
  exists (fun e => (fun bytes => (s_master_node sl, s_master_port sl, redirect_message (redirect_cmd e) (buffer e) bytes)) <$> pieces (evs e)).
  split.
  { intros e. split; [by apply send_thread_run|]. apply Forall_fmap, Forall_forall. done. }
  intros info mbuffer reply msgs lastmsg s mrest dm mfuel Hnodes Hnn Hpos Hmb Hal Hok Hrpc Hk Hcnt Hin Hfuel Hsent.
  destruct (receiver_run payload_fits info services mbuffer reply msgs lastmsg s mrest dm mfuel) as (r & Hr & _ & Ho & He); try done.
  eexists r, _. split; [exact Hr|].
  assert (H : ∀ e items, written (i_flags info) (outputs services e (msgs ++ [lastmsg])) = Some items →
    node_bytes node items = concat (data_of <$> evs e)).
  { intros e items Hw. rewrite (written_stream _ _ _ _ (outputs_ok payload_fits services e _ Hok) Hw Hn).
    rewrite thread_stream, Hsent, <- pieces_concat by done. f_equal. rewrite <- !list_fmap_compose.
    rewrite <- (list_fmap_id (pieces (evs e))) at 2. apply list_fmap_ext. intros _ bytes _. unfold compose.
    destruct (redirect_message_fields (redirect_cmd e) (buffer e) bytes (Hb e)) as (_ & Hd & _); [by destruct e|]. cbn [snd]. rewrite Hd. done. }
  split; [by apply H|by apply H].
Qed.
End Redirect.
(** ** Standard input of the process *)

Section Stdin.
Context `{CN : NicConsts} {CNOK : NicConstsOk} `{RC : RunConsts} {RCOK : RunConstsOk}.

Lemma output_turn_run c buf (d : slavesim) : output_turn (c :: buf) d =
  match ss_writes d with
  | [] => Ret (inl []) (with_stdin [] (ss_stdin d ++ c :: buf) d)
  | WriteFail e :: ws => Ret (if e then inl (c :: buf) else inr tt) (with_stdin ws (ss_stdin d) d)
  | Wrote n :: ws =>
      let k := Z.to_nat (Z.max 0 (Z.min n (alen (c :: buf)))) in
      Ret (inl (drop k (c :: buf))) (with_stdin ws (ss_stdin d ++ take k (c :: buf)) d)
  end.
Proof.
  unfold output_turn. destruct (Z.leb_spec (alen (c :: buf)) 0); [unfold alen in *; cbn in *; lia|].
  unfold mbind, M_bind. cbn [s_write slavesim_dev]. destruct (ss_writes d) as [|[e|n] ws]; [|done|]; cbv zeta.
  - cbn [mret M_ret]. destruct (Z.eqb_spec (alen (c :: buf)) 0); [lia|].
    by rewrite drop_ge by (unfold alen; lia).
  - cbn [mret M_ret]. destruct (Z.eqb_spec (Z.max 0 (Z.min n (alen (c :: buf)))) 0) as [E|E]; [by rewrite E|done].
Qed.

Lemma output_run fuel buf (d : slavesim) :
  Forall (fun w => w ≠ WriteFail false) (ss_writes d) → (length (ss_writes d) + length buf < fuel)%nat →
  ∃ l, output fuel buf d = Ret tt (with_stdin l (ss_stdin d ++ buf) d).
Proof.
  unfold output. induction fuel as [|fuel IH] in buf, d |- *; intros Hw Hf; [lia|]. cbn [loop].
  unfold mbind, M_bind. destruct buf as [|c buf].
  { cbn. exists (ss_writes d). rewrite app_nil_r. by destruct d. }
  rewrite output_turn_run. destruct (ss_writes d) as [|[e|n] ws] eqn:Ew.
  - destruct fuel as [|fuel]; [cbn in Hf; lia|]. cbn. by eexists.
  - apply Forall_cons in Hw as [Hw Hws]. cbn in Hf. destruct e; [|done].
    destruct (IH (c :: buf) (with_stdin ws (ss_stdin d) d) Hws ltac:(cbn; lia)) as (l & ->). by eexists.
  - apply Forall_cons in Hw as [Hw Hws]. cbv zeta. set (k := Z.to_nat _).
    destruct (IH (drop k (c :: buf)) (with_stdin ws (ss_stdin d ++ take k (c :: buf)) d) Hws) as (l & ->).
    { rewrite length_drop. cbn in *. lia. }
    cbn [ss_stdin with_stdin]. rewrite <- app_assoc, take_drop. by eexists.
Qed.

(** Standard input end to end: a message that the master's sender made of
    [bytes] makes the slave write exactly these bytes to its process, through
    any sequence of partial, empty and interrupted writes; nothing else changes. *)
Theorem stdin_roundtrip fuel info buffer sigterm mbuffer bytes msg node rs rest (d : slavesim) :
  let payload := redirect_message CMD_RECV_FROM_STDIN mbuffer bytes in
  (sizeof_header <= length mbuffer)%nat → alen payload <= AXIOM_RAW_PAYLOAD_MAX_SIZE →
  alen buffer = AXIOM_RAW_PAYLOAD_MAX_SIZE → has (s_services info) REDIRECT_SERVICE = true →
  AXIOM_RET_IS_OK msg = true → ss_ready d = RawReady :: rs → rs_in (ss_raw d) = (msg, node, payload) :: rest →
  Forall (fun w => w ≠ WriteFail false) (ss_writes d) → (length (ss_writes d) + length bytes < fuel)%nat →
  ∃ l, recv_thread_turn fuel info (buffer, sigterm) d =
    Ret (inl (overwrite payload buffer, sigterm))
      (with_stdin l (ss_stdin d ++ bytes) (with_ready rs
         (with_raw (mk_rawsim rest (rs_send (ss_raw d)) (rs_log (ss_raw d))) d))).
Proof using RCOK.
  intros payload Hmb Hmax Hb Hserv Hmsg Hready Hin Hw Hf.
  destruct (redirect_message_fields CMD_RECV_FROM_STDIN mbuffer bytes Hmb ltac:(done)) as (Hcmd & Hdrop & Hlen).
  fold payload in Hcmd, Hdrop, Hlen. pose proof payload_max as HP. unfold alen in *.
  assert (Hl : length (overwrite payload buffer) = length buffer) by (apply length_overwrite; lia).
  unfold recv_thread_turn, mbind, M_bind. cbn [s_select_raw slavesim_dev]. rewrite Hready.
  cbn [axiom_recv_raw slavesim_raw]. unfold lift_raw. cbn [ss_raw with_ready axiom_recv_raw rawsim_dev]. rewrite Hin.
  rewrite Hmsg. cbn [negb]. rewrite command_overwrite by (unfold sizeof_header in *; lia). rewrite Hcmd, Hserv.
  cbn [Z.eqb CMD_RECV_FROM_STDIN Pos.eqb]. unfold on_stdin, usize. rewrite Z.mod_small by (unfold alen; lia).
  unfold b_raw, alen. rewrite length_drop, Hl.
  destruct (Z.ltb_spec (Z.of_nat (length buffer - sizeof_header)) (Z.of_nat (length payload) - Z.of_nat sizeof_header)); [lia|].
  replace (take (Z.to_nat (Z.of_nat (length payload) - Z.of_nat sizeof_header)) (drop sizeof_header (overwrite payload buffer))) with bytes.
  2:{ unfold overwrite. rewrite drop_app_le by lia. rewrite Hdrop, take_app_le by lia. symmetry. apply take_ge. lia. }
  edestruct (output_run fuel bytes) as (l & Hout); [| |rewrite Hout]; [done..|]. cbn. by eexists.
Qed.
End Stdin.

(** ** The end of the process *)

Section End_.
Context `{CN : NicConsts} {CNOK : NicConstsOk} `{RC : RunConsts}.

(** The output messages of a piece of late output. *)
Definition late_messages (cmd : Z) (r : option late_read) : list (Z * list Z) :=
  match r with Some (LateData (c :: bytes)) => [(cmd, c :: bytes)] | _ => [] end.

Definition late_pieces (l : list late) : list (Z * list Z) :=
  concat ((fun x => match x with
    | LateReady out err => late_messages CMD_SEND_TO_STDOUT out ++ late_messages CMD_SEND_TO_STDERR err
    | _ => [] end) <$> l).

Definition eof (r : option late_read) : bool := match r with Some (LateData []) => true | _ => false end.

(** [l] is exactly what the loop reads before it ends: by a timeout, a failure or
    when both streams have ended. *)
Fixpoint late_ends (closedout closederr : bool) (l : list late) : bool :=
  match l with
  | [] => false
  | LateReady out err :: l =>
      let closedout := closedout || eof out in
      let closederr := closederr || eof err in
      if closedout && closederr then bool_decide (length l = 0%nat) else late_ends closedout closederr l
  | _ :: l => bool_decide (length l = 0%nat)
  end.

(** Only the command of the buffer changes between the messages. *)
Definition same_header (b b0 : list Z) : Prop :=
  (sizeof_header <= length b)%nat ∧ ∀ cmd bytes, redirect_message cmd b bytes = redirect_message cmd b0 bytes.

Lemma same_header_set b b0 cmd bytes : same_header b b0 →
  same_header (set_command cmd (set_raw bytes b)) b0 ∧
  take (length bytes + sizeof_header) (set_command cmd (set_raw bytes b)) = redirect_message cmd b0 bytes.
Proof.
  intros [Hl Hr]. destruct (take_set_raw bytes b Hl) as [H1 H2].
  assert (Hl' : (sizeof_header <= length (set_raw bytes b))%nat).
  { apply (f_equal length) in H1. rewrite !length_take in H1. lia. }
  destruct (take_set_command cmd (set_raw bytes b) Hl') as [H3 H4].
  split; [split|].
  - by rewrite H3.
  - intros c x. rewrite <- Hr. unfold redirect_message. rewrite H4, H1. f_equal.
  - rewrite <- Hr. unfold redirect_message.
    assert (E : ∀ n l, (0 < n)%nat → take n (set_command cmd l) = set_command cmd (take n l)).
    { intros [|n] [|x l] Hn; cbn; [lia|lia|by rewrite take_nil|by rewrite !drop_0]. }
    rewrite E by (unfold sizeof_header; lia). rewrite H2.
    unfold set_command, set_field. destruct b; [cbn in Hl; unfold sizeof_header in Hl; lia|]. cbn. by rewrite drop_0.
Qed.

Definition late_sends (info : sinfo) (b0 : list Z) (l : list (Z * list Z)) : list (Z * Z * list Z) :=
  (fun x => (s_master_node info, s_master_port info, redirect_message x.1 b0 x.2)) <$> l.

Lemma late_sends_app info b0 l1 l2 : late_sends info b0 (l1 ++ l2) = late_sends info b0 l1 ++ late_sends info b0 l2.
Proof. unfold late_sends. by rewrite fmap_app. Qed.

Lemma late_out_run info cmd r b b0 closed (d : slavesim) : same_header b b0 →
  ∃ b', late_out info cmd r b closed d =
    Ret (b', closed || eof r) (slave_after (late_sends info b0 (late_messages cmd r)) d) ∧ same_header b' b0.
Proof.
  intros Hb. unfold late_out. destruct r as [[|[|c bytes]]|]; cbn [late_messages eof late_sends fmap list_fmap].
  - rewrite slave_after_nil, orb_false_r. by eexists.
  - change (0 <? alen []) with false. rewrite slave_after_nil, orb_true_r. eexists. split; [done|].
    destruct (same_header_set b b0 cmd [] Hb) as [H _]. destruct Hb as [Hl Hr].
    unfold set_raw, set_field. cbn [length app]. rewrite Nat.add_0_r, take_drop. done.
  - rewrite (proj2 (Z.ltb_lt 0 _)) by (unfold alen; cbn; lia).
    destruct (same_header_set b b0 cmd (c :: bytes) Hb) as [H1 H2]. unfold mbind, M_bind.
    destruct (slave_send (s_master_node info) (s_master_port info)
      (take (length (c :: bytes) + sizeof_header) (set_command cmd (set_raw (c :: bytes) b))) d) as (r & ->).
    rewrite H2, orb_false_r. by eexists.
  - rewrite slave_after_nil, orb_false_r. by eexists.
Qed.

Lemma late_loop info b0 l rest co ce b (d : slavesim) fuel : same_header b b0 →
  late_ends co ce l = true → ss_late d = l ++ rest → (length l <= fuel)%nat →
  loop fuel (late_turn info) (b, co, ce) d =
  Ret tt (with_scripts (ss_sock d) (ss_wait d) rest (slave_after (late_sends info b0 (late_pieces l)) d)).
Proof.
  induction l as [|x l IH] in co, ce, b, d, fuel |- *; intros Hb Hend Hin Hf; [done|].
  destruct fuel as [|fuel]; [cbn in Hf; lia|]. cbn [loop]. unfold mbind, M_bind. unfold late_turn at 1. unfold mbind, M_bind.
  cbn [s_select_late slavesim_dev]. rewrite Hin. cbn [app].
  destruct x as [| |out err]; cbn [late_ends] in Hend.
  1,2: apply bool_decide_eq_true in Hend; destruct l; [|done]; cbn; by destruct d as [[] ? ? ? ? ? ? ? ? ? ?]; unfold slave_after, rs_after; cbn; rewrite app_nil_r.
  set (d1 := with_scripts (ss_sock d) (ss_wait d) (l ++ rest) d).
  destruct (late_out_run info CMD_SEND_TO_STDOUT out b b0 co d1 Hb) as (b1 & -> & Hb1).
  destruct (late_out_run info CMD_SEND_TO_STDERR err b1 b0 ce
    (slave_after (late_sends info b0 (late_messages CMD_SEND_TO_STDOUT out)) d1) Hb1) as (b2 & -> & Hb2).
  rewrite slave_after_app, <- late_sends_app.
  unfold late_pieces. cbn [fmap list_fmap concat]. fold (late_pieces l).
  cbn [mret M_ret]. destruct ((co || eof out) && (ce || eof err)).
  - apply bool_decide_eq_true in Hend. destruct l; [|done]. cbn [late_pieces fmap list_fmap concat app]. by rewrite app_nil_r.
  - rewrite (IH _ _ b2) by (done || (cbn in Hf; lia)).
    rewrite (late_sends_app _ _ (_ ++ _) (late_pieces l)), <- slave_after_app. done.
Qed.

(** The end of a slave: interrupted waits are repeated; when the process has
    ended, all late output is sent in order (standard output first in each turn),
    then exactly one exit message, and nothing after it; its status, which is
    also the result, is the one of the process, except that death by the signal
    with which the slave obeyed the master counts as zero. *)
Theorem slave_reports info my_sigterm status0 buffer late_buffer k status wrest l lrest (d : slavesim) fuel :
  0 < s_pid info → has (s_services info) REDIRECT_SERVICE = true →
  (sizeof_header <= length late_buffer)%nat →
  ss_wait d = replicate k (WaitFail true) ++ WaitChild status :: wrest →
  ss_late d = l ++ lrest → late_ends false false l = true → (k < fuel)%nat → (length l <= fuel)%nat →
  let result := child_status my_sigterm (s_termmode info) status in
  manage_slave_services fuel info my_sigterm status0 buffer late_buffer d =
  Ret result (with_scripts (ss_sock d) wrest lrest
    (slave_after (late_sends info late_buffer (late_pieces l) ++
       [(s_master_node info, s_master_port info, exit_message result buffer)]) d)).
Proof.
  intros Hpid Hserv Hlb Hwait Hlate Hends Hk Hl result.
  assert (Hw : loop fuel wait_turn tt d = Ret status (with_scripts (ss_sock d) wrest (ss_late d) d)).
  { clear Hl Hlate Hends. induction k as [|k IH] in d, fuel, Hwait, Hk |- *; (destruct fuel as [|fuel]; [lia|]);
      cbn [loop]; unfold mbind, M_bind; unfold wait_turn at 1; unfold mbind, M_bind; cbn [s_waitpid slavesim_dev];
      rewrite Hwait; cbn [replicate app mret M_ret]; [done|].
    rewrite IH by (cbn; done || lia). done. }
  unfold manage_slave_services. rewrite (proj2 (Z.ltb_lt 0 (s_pid info)) Hpid).
  assert (Hs0 : s_services info ≠ 0) by (intros E; by rewrite E in Hserv).
  rewrite (proj2 (Z.eqb_neq _ _) Hs0), Hserv. cbn [negb andb].
  unfold mbind, M_bind. rewrite Hw. cbn [mret M_ret]. fold result.
  set (d1 := with_scripts (ss_sock d) wrest (ss_late d) d).
  destruct (has (s_services info) (Z.lor BARRIER_SERVICE RPC_SERVICE)); cbn [s_getpid s_unlink slavesim_dev mret M_ret];
    rewrite (late_loop info late_buffer l lrest false false late_buffer d1 fuel) by done;
    match goal with |- context [axiom_send_raw ?n ?p ?m ?dd] => destruct (slave_send n p m dd) as (r & ->) end;
    cbn; f_equal; unfold slave_after, rs_after, with_raw, with_scripts; cbn; f_equal; rewrite length_app, drop_drop, <- app_assoc; done.
Qed.
End End_.

(** ** Evaluation *)

Section Examples.
#[local] Instance ex_nic : NicConsts := nic8.
#[local] Instance ex_nic_ok : NicConstsOk := nic8_ok.
#[local] Instance ex_run : RunConsts := {|
  AXIOM_RAW_PAYLOAD_MAX_SIZE := 128; SIZE_BITS := 8; AXIOM_CMD_ALLOC_REPLY := 32 |}.
#[local] Instance ex_run_ok : RunConstsOk.
Proof. split; vm_compute; done. Qed.

Definition ex_sinfo : sinfo := mk_sinfo 0x27 41 15 0 5.
Definition ex_buffer : list Z := replicate 128 0.

(** With the barrier service alone the thread that would receive the release is
    not started. *)
Example barrier_only_threads : slave_threads BARRIER_SERVICE 41 = [ThSock].
Proof. reflexivity. Qed.

(** An allocator that does nothing. *)
#[local] Instance ex_alloc : Allocator rawsim := {|
  axiom_al2_init _ := mret 0;
  axiom_al2_release := mret tt;
  axiom_al2_alloc _ _ raw := mret (1, raw);
  axiom_al2_get_regions _ _ raw := mret (1, raw);
  axiom_al2_alloc_shblock _ _ raw := mret (1, raw);
  axiom_al2_alloc_reply _ _ := mret (1, [])
|}.
#[local] Instance ex_stdio : Stdio := {| BUFSIZ := 8192 |}.

(** Node 2 writes "hi\n" in two pieces to its standard error and "x" to its standard
    output; node 1 writes too, and both report their ends. *)
Definition ex_evs (e : bool) : list sel_result :=
  if e then [ReadData [104]; ReadFail true; ReadData [105; 10]] else [ReadData [120]].
Definition ex_msgs : list (Z * Z * list Z) := [
  (0, 2, redirect_message CMD_SEND_TO_STDERR ex_buffer [104]);
  (0, 1, redirect_message CMD_SEND_TO_STDERR ex_buffer [121; 10]);
  (0, 2, redirect_message CMD_SEND_TO_STDOUT ex_buffer [120]);
  (0, 1, exit_message 0 ex_buffer);
  (0, 2, redirect_message CMD_SEND_TO_STDERR ex_buffer [105; 10])].
Definition ex_exit : Z * Z * list Z := (0, 2, exit_message 0 ex_buffer).

Lemma ex_msgs_ok : Forall message_ok (ex_msgs ++ [ex_exit]).
Proof.
  repeat (apply Forall_cons; split; [split_and!; try (vm_compute; done); by apply (bool_decide_unpack _)|]).
  constructor.
Qed.

Lemma redirect_end_to_end_witness :
  ∃ r dm', master_receiver 9 (mk_minfo 6 2 0 0 6 5) 0x27 ex_buffer (mk_rpc_reply 0 0 [])
      (mk_rawsim (ex_msgs ++ [ex_exit]) [] []) = Ret (Some r) dm' ∧
    node_bytes 2 (m_out r) = [120] ∧ node_bytes 2 (m_err r) = [104; 105; 10].
Proof.
  assert (Hfits : AXIOM_RAW_PAYLOAD_MAX_SIZE <= BUFSIZ) by (vm_compute; discriminate).
  assert (Hnodes : 0 <= 6 < 2 ^ 64) by lia. assert (Hn : 0 <= 2 < MAX_NUM_NODES) by (unfold MAX_NUM_NODES; lia).
  assert (Hno : Forall (no_allocator 0x27) (ex_msgs ++ [ex_exit])) by (repeat constructor; vm_compute; discriminate).
  destruct (redirect_end_to_end (AL := ex_alloc) Hfits ex_sinfo 0x27 2 (fun _ => ex_buffer) ex_evs (fun _ => ReadData []) (fun _ => [])
    (fun _ => mk_rawsim [] [-1] []) 9) as (sent & Hsent & Hm).
  - intros _. vm_compute. lia.
  - reflexivity.
  - exact Hn.
  - intros []; repeat constructor.
  - reflexivity.
  - intros []; cbn; lia.
  - destruct (Hm (mk_minfo 6 2 0 0 6 5) ex_buffer (mk_rpc_reply 0 0 []) ex_msgs ex_exit 0 [] (mk_rawsim (ex_msgs ++ [ex_exit]) [] []) 9%nat)
      as (r & dm' & Hr & Ho & He); try reflexivity; try assumption; try exact ex_msgs_ok.
    + cbn. lia.
    + intros e. destruct (Hsent e) as [Hrun _].
      apply (f_equal (fun o => match o with Ret _ x | Stuck _ x => rs_log x.2 end)) in Hrun.
      cbn [snd rs_after rs_log app] in Hrun.
      destruct e; rewrite <- Hrun; vm_compute; reflexivity.
    + exists r, dm'. split; [exact Hr|]. split; [exact Ho|exact He].
Defined.

(** Two bytes are accepted, then a write is interrupted. *)
Definition ex_world (payload : list Z) : slavesim :=
  mk_slavesim (mk_rawsim [(0, 0, payload)] [] []) [RawReady] [Wrote 2; WriteFail true] [] [] [] []
    [] [WaitFail true; WaitChild 15] [LateReady (Some (LateData [65])) None; LateTimeout] 40.

Lemma stdin_roundtrip_witness :
  let payload := redirect_message CMD_RECV_FROM_STDIN ex_buffer [97; 98; 99; 10] in
  ∃ l, recv_thread_turn 9 ex_sinfo (ex_buffer, false) (ex_world payload) =
    Ret (inl (overwrite payload ex_buffer, false))
      (with_stdin l [97; 98; 99; 10] (with_ready [] (with_raw (mk_rawsim [] [] []) (ex_world payload)))).
Proof.
  intros payload.
  apply (stdin_roundtrip 9 ex_sinfo ex_buffer false ex_buffer [97; 98; 99; 10] 0 0 [] [] (ex_world payload));
    try reflexivity; try (vm_compute; discriminate).
  - vm_compute. lia.
  - repeat constructor; discriminate.
  - cbn. lia.
Defined.

Lemma slave_reports_witness :
  manage_slave_services 4 ex_sinfo true 0 ex_buffer ex_buffer (ex_world []) =
  Ret 0 (with_scripts [] [] [] (slave_after
    [(0, 5, redirect_message CMD_SEND_TO_STDOUT ex_buffer [65]); (0, 5, exit_message 0 ex_buffer)] (ex_world []))).
Proof.
  apply (slave_reports ex_sinfo true 0 ex_buffer ex_buffer 1 15 [] [LateReady (Some (LateData [65])) None; LateTimeout]
    [] (ex_world []) 4); try reflexivity; try (cbn; lia). vm_compute. lia.
Defined.
End Examples.
