(* ===== verification/Barrier.v ===== *)
(** * The barrier of an application (axiom-run/lib/sync.c and its way through
    slave and master)

    [axrun_sync] is called by the processes of an application; the request goes
    through the slave to the master and the release comes back.  The second part
    joins the three programs into one transition system and proves that it is a
    barrier. *)

From S2P Require Import Prelude Nic Output RunMsg Master Slave.

(** The calls of the library: the variable AXIOM_USOCK, as [atoi] reads it, and
    the datagram socket.  [y_recv] gives [None] when it fails. *)
Class SyncDev (D : Type) := {
  y_usock : M D (option Z);
  y_socket : M D bool;
  y_bind : sockaddr → M D bool;
  y_sendto : sockaddr → list Z → M D Z;
  y_recv : M D (option (list Z));
  y_close : M D unit;
  y_unlink : sockaddr → M D unit
}.

(** The request: the header is a variable of the function. *)
Definition sync_request (barrier_id : Z) (header : list Z) : list Z :=
  set_barrier_id barrier_id (set_command CMD_BARRIER header).

(** The test of the reply, which is received over the request. *)
Definition sync_check (barrier_id : Z) (header : list Z) : bool :=
  (h_barrier_id header =? barrier_id) && (h_command header =? CMD_BARRIER).

Section Code.
Context {D : Type} `{YD : SyncDev D}.

(** The label [error:]. *)
Definition sync_error (sock : bool) (path : option sockaddr) : M D Z :=
  (if sock then y_close else mret tt) ;;
  match path with Some a => y_unlink a ;; mret (-1) | None => mret (-1) end.

Definition axrun_sync (barrier_id : Z) (header : list Z) : M D Z :=
  if AXRUN_MAX_BARRIER_ID <? barrier_id then sync_error false None else
  s ← y_usock;
  match s with
  | None => sync_error false None
  | Some ppid =>
      sock ← y_socket;
      if negb sock then sync_error false None else
      let path := BARRIER_CHILD_TEMPLATE_NAME ppid barrier_id in
      ok ← y_bind path;
      if negb ok then sync_error true (Some path) else
      let header := sync_request barrier_id header in
      res ← y_sendto (SLAVE_TEMPLATE_NAME ppid) header;
      if negb (res =? Z.of_nat sizeof_header) then sync_error true (Some path) else
      r ← y_recv;
      match r with
      | None => sync_error true (Some path)
      | Some bytes =>
          if negb (sync_check barrier_id (overwrite bytes header)) then sync_error true (Some path) else
          y_close ;; y_unlink path ;; mret 0
      end
  end.
End Code.

(** ** Requests and replies *)

Section Messages.

Lemma sync_request_fields id header : length header = sizeof_header → 0 <= id < 2 ^ 32 →
  length (sync_request id header) = sizeof_header ∧ h_command (sync_request id header) = CMD_BARRIER ∧
  h_barrier_id (sync_request id header) = id.
Proof.
  intros Hl Hid. unfold sync_request, set_barrier_id. unfold sizeof_header in *.
  destruct (take_set_command CMD_BARRIER header ltac:(unfold sizeof_header; lia)) as [Hl' _].
  split_and!.
  - by rewrite length_set_field by (rewrite length_le_put; lia); rewrite Hl'.
  - unfold h_command, set_field. destruct header as [|c header]; [cbn in Hl; lia|]. reflexivity.
  - unfold h_barrier_id. rewrite field_set_field by (rewrite ?length_le_put; lia || done).
    rewrite le_get_put. change (256 ^ Z.of_nat 4) with (2 ^ 32). by rewrite Z.mod_small.
Qed.

(** The one byte that the slave sends is enough: the rest of the header is still
    that of the request. *)
Lemma sync_check_one_byte id header : length header = sizeof_header → 0 <= id < 2 ^ 32 →
  sync_check id (overwrite [CMD_BARRIER] (sync_request id header)) = true.
Proof.
  intros Hl Hid. destruct (sync_request_fields id header Hl Hid) as (Hlen & Hc & Hi).
  replace (overwrite [CMD_BARRIER] (sync_request id header)) with (sync_request id header).
  - unfold sync_check. by rewrite Hc, Hi, !Z.eqb_refl.
  - destruct (sync_request id header) as [|c l]; [done|]. assert (c = CMD_BARRIER) as -> by exact Hc. unfold overwrite. cbn. by rewrite drop_0.
Qed.
End Messages.
(** ** The transition system *)

(** Updating a table of counters. *)
Definition upd {A} (f : Z → Z → A) (n id : Z) (v : A) : Z → Z → A :=
  fun n' id' => if decide (n' = n ∧ id' = id) then v else f n' id'.

Section System.
Context `{CN : NicConsts} {CNOK : NicConstsOk} `{RC : RunConsts} {RCOK : RunConstsOk} `{IO : Stdio}.
Context `{AL : Allocator rawsim}.

(** The application: the data of the master, of the slave of each node and the
    pid of each slave. *)
Variables (info : minfo) (services : Z) (slave : Z → sinfo) (pid : Z → Z).

(** The state of the system: how often the process of a node has entered and has
    left each barrier, the header of the call that waits, the datagrams to the
    slaves, the messages to the master, the master, the messages to the slaves
    and the datagrams to the processes. *)
Record sys := mk_sys {
  entered : Z → Z → Z;
  left : Z → Z → Z;
  header : Z → Z → list Z;
  requests : list (Z * list Z);
  up : list (Z * list Z);
  master : receiver;
  down : list (Z * list Z);
  releases : list (Z * (sockaddr * list Z))
}.

Definition sys0 (buffer : list Z) (reply : rpc_reply_t) : sys :=
  mk_sys (fun _ _ => 0) (fun _ _ => 0) (fun _ _ => []) [] [] (receiver0 info buffer services reply) [] [].

(** The world of a slave for one turn of a thread. *)
Definition slave_world (n : Z) (msgs : list (Z * Z * list Z)) (rdy : list ready) (sock : list sock_in) : slavesim :=
  mk_slavesim (mk_rawsim msgs [] []) rdy [] [] [] [] [] sock [] [] (pid n).

(** The slave of a node has started a service thread. *)
Definition runs (t : sthread) (n : Z) : Prop := t ∈ slave_threads (s_services (slave n)) (s_pid (slave n)).

(** One step: a process enters a barrier where it is not waiting; a turn of
    [sock_thread]; a turn of [master_receiver] with a request or with any message
    that is neither an exit report nor a remote procedure call; a turn of
    [recv_thread]; a process gets its reply.  A thread of a slave takes a turn
    only if the slave has started it.  Datagrams and messages are taken in
    any order, and a thread starts from any contents of its buffer. *)
Inductive step : sys → sys → Prop :=
  | step_enter s n id h :
      n ∈ members (i_nodes info) → 0 <= id <= AXRUN_MAX_BARRIER_ID →
      entered s n id = left s n id → length h = sizeof_header → Forall (fun b => 0 <= b < 256) h →
      step s (mk_sys (upd (entered s) n id (entered s n id + 1)) (left s)
        (upd (header s) n id (sync_request id h))
        (requests s ++ [(n, sync_request id h)]) (up s) (master s) (down s) (releases s))
  | step_forward s l1 n bytes l2 buffer b' d' :
      runs ThSock n → requests s = l1 ++ (n, bytes) :: l2 → alen buffer = AXIOM_RAW_PAYLOAD_MAX_SIZE →
      sock_turn (slave n) buffer (slave_world n [] [] [RecvData bytes]) = Ret (inl b') d' →
      step s (mk_sys (entered s) (left s) (header s) (l1 ++ l2)
        (up s ++ ((fun e : Z * Z * list Z => (n, e.2)) <$> rs_log (ss_raw d'))) (master s) (down s) (releases s))
  | step_master s l1 n p l2 r' d' :
      up s = l1 ++ (n, p) :: l2 →
      master_turn info (master s) (mk_rawsim [(AXIOM_RET_OK, n, p)] [] []) = Ret (inl r') d' →
      step s (mk_sys (entered s) (left s) (header s) (requests s) (l1 ++ l2) r'
        (down s ++ ((fun e : Z * Z * list Z => (e.1.1, e.2)) <$> rs_log d')) (releases s))
  | step_other s x r' d' :
      message_ok x → match kind x with KExit _ | KBarrier _ | KRpc => False | _ => True end →
      master_turn info (master s) (mk_rawsim [x] [] []) = Ret (inl r') d' →
      step s (mk_sys (entered s) (left s) (header s) (requests s) (up s) r'
        (down s ++ ((fun e : Z * Z * list Z => (e.1.1, e.2)) <$> rs_log d')) (releases s))
  | step_deliver s l1 n p l2 buffer sig st' d' :
      runs ThIn n → down s = l1 ++ (n, p) :: l2 → alen buffer = AXIOM_RAW_PAYLOAD_MAX_SIZE →
      recv_thread_turn 1 (slave n) (buffer, sig) (slave_world n [(AXIOM_RET_OK, 0, p)] [RawReady] []) = Ret (inl st') d' →
      step s (mk_sys (entered s) (left s) (header s) (requests s) (up s) (master s)
        (l1 ++ l2) (releases s ++ ((fun e => (n, e)) <$> ss_sent d')))
  | step_leave s l1 n id bytes l2 :
      releases s = l1 ++ (n, (BARRIER_CHILD_TEMPLATE_NAME (pid n) id, bytes)) :: l2 →
      left s n id < entered s n id → sync_check id (overwrite bytes (header s n id)) = true →
      step s (mk_sys (entered s) (upd (left s) n id (left s n id + 1)) (header s) (requests s) (up s) (master s)
        (down s) (l1 ++ l2)).

Inductive reachable (s0 : sys) : sys → Prop :=
  | reach_refl : reachable s0 s0
  | reach_step s s' : reachable s0 s → step s s' → reachable s0 s'.

(** Requests of a node for a barrier among messages, and its releases. *)
Definition of_barrier (n id : Z) (x : Z * list Z) : bool := (x.1 =? n) && (h_barrier_id x.2 =? id).
Definition to_child (n id : Z) (x : Z * (sockaddr * list Z)) : bool :=
  (x.1 =? n) && bool_decide (x.2.1 = BARRIER_CHILD_TEMPLATE_NAME (pid n) id).

(** A message that carries a request of a node of the application. *)
Definition is_request (p : list Z) : Prop := ∃ id h, 0 <= id <= AXRUN_MAX_BARRIER_ID ∧
  length h = sizeof_header ∧ Forall (fun b => 0 <= b < 256) h ∧ p = sync_request id h.

Definition rounds (hist : list (Z * Z * list Z)) (id : Z) : Z := arrivals id hist / i_nnodes info.

Record sys_inv (s : sys) (hist : list (Z * Z * list Z)) (P : Z → Z → Z) : Prop := {
  si_master : recv_inv info services hist (master s);
  si_statuses : statuses hist = [];
  si_wf : Forall (fun x => x.1 ∈ members (i_nodes info) ∧ is_request x.2) (requests s ++ up s ++ down s);
  si_releases : Forall (fun x => x.1 ∈ members (i_nodes info) ∧
    ∃ id, 0 <= id <= AXRUN_MAX_BARRIER_ID ∧
      x.2 = (BARRIER_CHILD_TEMPLATE_NAME (pid x.1) id, [CMD_BARRIER])) (releases s);
  si_header : ∀ n id, n ∈ members (i_nodes info) → 0 <= id <= AXRUN_MAX_BARRIER_ID →
    left s n id < entered s n id → ∃ h, length h = sizeof_header ∧ header s n id = sync_request id h;
  si_sum : ∀ id, 0 <= id <= AXRUN_MAX_BARRIER_ID →
    arrivals id hist = sum_over (fun n => P n id) (members (i_nodes info));
  si_node : ∀ n id, n ∈ members (i_nodes info) → 0 <= id <= AXRUN_MAX_BARRIER_ID →
    entered s n id = count (of_barrier n id) (requests s) + count (of_barrier n id) (up s) + P n id ∧
    left s n id + count (of_barrier n id) (down s) + count (to_child n id) (releases s) = rounds hist id ∧
    left s n id <= entered s n id <= left s n id + 1 ∧
    rounds hist id <= P n id <= rounds hist id + 1
}.
(** A broadcast reaches every node once; the arithmetic of a round. *)
Lemma count_broadcast n id p l : NoDup l → n ∈ l →
  count (of_barrier n id) ((fun m => (m, p)) <$> l) = if h_barrier_id p =? id then 1 else 0.
Proof.
  intros Hnd Hin.
  assert (Hout : ∀ l, n ∉ l → count (of_barrier n id) ((fun m => (m, p)) <$> l) = 0).
  { induction l0 as [|m l0 IH]; intros Hx; [done|]. cbn [fmap list_fmap]. rewrite count_cons. unfold of_barrier at 1. cbn [fst snd].
    destruct (Z.eqb_spec m n); [set_solver|]. cbn. apply IH. set_solver. }
  induction Hnd as [|m l Hm Hnd IH]; [by inversion Hin|]. cbn [fmap list_fmap]. rewrite count_cons. unfold of_barrier at 1. cbn [fst snd].
  apply elem_of_cons in Hin as [<-|Hin].
  - rewrite Z.eqb_refl, Hout by done. cbn. by destruct (_ =? id).
  - destruct (Z.eqb_spec m n) as [->|]; [done|]. cbn. by apply IH.
Qed.

Lemma round_over A N : 0 < N → 0 <= A →
  if (A + 1) mod N =? 0 then (A + 1) / N = A / N + 1 ∧ A + 1 = N * (A / N + 1) else (A + 1) / N = A / N.
Proof.
  intros HN HA. pose proof (Z.div_mod A N ltac:(lia)). pose proof (Z.mod_pos_bound A N HN).
  pose proof (Z.div_mod (A + 1) N ltac:(lia)). pose proof (Z.mod_pos_bound (A + 1) N HN).
  set (q := A / N) in *. set (r := A mod N) in *. set (q1 := (A + 1) / N) in *. set (r1 := (A + 1) mod N) in *.
  clearbody q r q1 r1. assert (Hq : q1 <= q ∨ q + 1 <= q1) by lia.
  destruct (Z.eqb_spec r1 0); destruct Hq; nia.
Qed.

(** *** What the turns do *)

Hypothesis nodes_word : 0 <= i_nodes info < 2 ^ 64.
Hypothesis nodes_range : ∀ n, n ∈ members (i_nodes info) → n < MAX_NUM_NODES.
Hypothesis nnodes_members : i_nnodes info = alen (members (i_nodes info)).
Hypothesis nnodes_pos : 0 < i_nnodes info.
Hypothesis barrier_on : has services BARRIER_SERVICE = true.
Hypothesis slaves_on : ∀ n, has (s_services (slave n)) BARRIER_SERVICE = true.
Hypothesis payload_fits : AXIOM_RAW_PAYLOAD_MAX_SIZE <= BUFSIZ.

Lemma request_id p : is_request p → ∃ id, 0 <= id <= AXRUN_MAX_BARRIER_ID ∧
  h_barrier_id p = id ∧ h_command p = CMD_BARRIER ∧ length p = sizeof_header ∧ Forall (fun b => 0 <= b < 256) p.
Proof.
  intros (id & h & Hid & Hl & Hb & ->). unfold AXRUN_MAX_BARRIER_ID in *.
  destruct (sync_request_fields id h Hl ltac:(lia)) as (H1 & H2 & H3). exists id. split_and!; try done; try lia.
  apply set_field_bytes; [apply le_put_bytes|]. apply set_field_bytes; [|done].
  apply Forall_singleton, u8_range.
Qed.

Lemma forward_eq n bytes buffer : is_request bytes → ∃ b' d',
  sock_turn (slave n) buffer (slave_world n [] [] [RecvData bytes]) = Ret (inl b') d' ∧
  rs_log (ss_raw d') = [(s_master_node (slave n), s_master_port (slave n), bytes)].
Proof using RCOK.
  intros Hp. destruct (request_id bytes Hp) as (_ & _ & _ & _ & Hl & _). pose proof payload_max.
  unfold sock_turn, mbind, M_bind, slave_world. cbn. eexists _, _. split; [done|]. cbn. rewrite take_overwrite, take_ge; [done|lia].
Qed.

Lemma forward_run n bytes buffer b' d' : is_request bytes →
  sock_turn (slave n) buffer (slave_world n [] [] [RecvData bytes]) = Ret (inl b') d' →
  rs_log (ss_raw d') = [(s_master_node (slave n), s_master_port (slave n), bytes)].
Proof using RCOK.
  intros Hp H. destruct (forward_eq n bytes buffer Hp) as (b1 & d1 & H1 & H2). rewrite H1 in H. by injection H as _ <-.
Qed.

Lemma deliver_eq n p buffer sig : is_request p → alen buffer = AXIOM_RAW_PAYLOAD_MAX_SIZE →
  ∃ st' d', recv_thread_turn 1 (slave n) (buffer, sig) (slave_world n [(AXIOM_RET_OK, 0, p)] [RawReady] []) =
      Ret (inl st') d' ∧
    ss_sent d' = [(BARRIER_CHILD_TEMPLATE_NAME (pid n) (h_barrier_id p), [CMD_BARRIER])].
Proof using CNOK slaves_on.
  intros Hp Hb. destruct (request_id p Hp) as (id & Hid & Hi & Hc & Hl & _). unfold sizeof_header in Hl.
  unfold recv_thread_turn, mbind, M_bind. cbn [s_select_raw slavesim_dev slave_world ss_ready axiom_recv_raw slavesim_raw].
  unfold lift_raw, slave_world. cbn [ss_raw with_ready axiom_recv_raw rawsim_dev rs_in]. rewrite ret_ok_ok. cbn [negb].
  rewrite command_overwrite by lia. rewrite Hc, slaves_on.
  cbn [Z.eqb Pos.eqb CMD_BARRIER CMD_RECV_FROM_STDIN CMD_KILL]. unfold on_release. cbn. eexists _, _. split; [done|]. cbn.
  destruct p as [|c p]; [cbn in Hl; lia|]. assert (c = CMD_BARRIER) as -> by exact Hc.
  unfold h_barrier_id. by rewrite field_overwrite by lia.
Qed.

Lemma deliver_run n p buffer sig st' d' : is_request p → alen buffer = AXIOM_RAW_PAYLOAD_MAX_SIZE →
  recv_thread_turn 1 (slave n) (buffer, sig) (slave_world n [(AXIOM_RET_OK, 0, p)] [RawReady] []) = Ret (inl st') d' →
  ss_sent d' = [(BARRIER_CHILD_TEMPLATE_NAME (pid n) (h_barrier_id p), [CMD_BARRIER])].
Proof using CNOK slaves_on.
  intros Hp Hb H. destruct (deliver_eq n p buffer sig Hp Hb) as (st1 & d1 & H1 & H2). rewrite H1 in H. by injection H as _ <-.
Qed.

Lemma request_message n p : n ∈ members (i_nodes info) → is_request p →
  message_ok (AXIOM_RET_OK, n, p) ∧ kind (AXIOM_RET_OK, n, p) = KBarrier (h_barrier_id p) ∧ take sizeof_header p = p.
Proof using CNOK RCOK nodes_range.
  intros Hn Hp. destruct (request_id p Hp) as (id & Hid & Hi & Hc & Hl & Hb). pose proof payload_max.
  split_and!.
  - split_and!; cbn; [unfold alen; lia|unfold alen; lia|done|apply elem_of_members in Hn; lia|by apply nodes_range].
  - unfold kind. rewrite ret_ok_ok, Hc. done.
  - apply take_ge. lia.
Qed.

(** *** Preservation *)

Lemma inv_init buffer reply : alen buffer = AXIOM_RAW_PAYLOAD_MAX_SIZE → sys_inv (sys0 buffer reply) [] (fun _ _ => 0).
Proof.
  intros Hb. split; cbn; try done.
  - by apply recv_inv_init.
  - intros id _. by rewrite sum_zero.
Qed.

(** Steps that only move things. *)
Lemma inv_enter s hist P n id h : sys_inv s hist P →
  n ∈ members (i_nodes info) → 0 <= id <= AXRUN_MAX_BARRIER_ID →
  entered s n id = left s n id → length h = sizeof_header → Forall (fun b => 0 <= b < 256) h →
  sys_inv (mk_sys (upd (entered s) n id (entered s n id + 1)) (left s)
        (upd (header s) n id (sync_request id h))
        (requests s ++ [(n, sync_request id h)]) (up s) (master s) (down s) (releases s)) hist P.
Proof.
  intros [Hm Hst Hwf Hrel Hh Hsum Hnode] Hn Hid Heq Hl Hb. unfold AXRUN_MAX_BARRIER_ID in *.
  destruct (sync_request_fields id h Hl ltac:(lia)) as (_ & _ & Hi).
  split; cbn [entered left header requests up master down releases]; try done.
  - rewrite Forall_app in Hwf. destruct Hwf as [Hw1 Hw2]. apply Forall_app. split; [|done].
    apply Forall_app. split; [done|]. apply Forall_singleton. split; [done|]. exists id, h. done.
  - intros n' id' Hn' Hid'. unfold upd. case_decide as E; [|by apply Hh].
    destruct E as [-> ->]. intros _. by exists h.
  - intros n' id' Hn' Hid'. destruct (Hnode n' id' Hn' Hid') as (H1 & H2 & H3 & H4).
    rewrite count_app, count_cons. unfold upd, of_barrier at 2. cbn [fst snd count foldr]. rewrite Hi.
    case_decide as E.
    + destruct E as [-> ->]. rewrite !Z.eqb_refl. cbn. lia.
    + destruct (Z.eqb_spec n n'), (Z.eqb_spec id id'); cbn; lia.
Qed.

Lemma inv_forward s hist P l1 n bytes l2 : sys_inv s hist P → requests s = l1 ++ (n, bytes) :: l2 →
  sys_inv (mk_sys (entered s) (left s) (header s) (l1 ++ l2) (up s ++ [(n, bytes)]) (master s) (down s) (releases s)) hist P.
Proof.
  intros [Hm Hst Hwf Hrel Hh Hsum Hnode] Hr. rewrite Hr in *.
  split; cbn [entered left header requests up master down releases]; try done.
  - eapply Permutation_Forall; [|exact Hwf]. solve_Permutation.
  - intros n' id' Hn' Hid'. destruct (Hnode n' id' Hn' Hid') as (H1 & H2 & H3 & H4).
    rewrite count_middle in H1. rewrite (count_app _ (up s)), (count_cons _ _ []). change (count _ []) with 0. lia.
Qed.

Lemma inv_deliver s hist P l1 n p l2 : sys_inv s hist P → down s = l1 ++ (n, p) :: l2 →
  sys_inv (mk_sys (entered s) (left s) (header s) (requests s) (up s) (master s) (l1 ++ l2)
    (releases s ++ [(n, (BARRIER_CHILD_TEMPLATE_NAME (pid n) (h_barrier_id p), [CMD_BARRIER]))])) hist P.
Proof.
  intros [Hm Hst Hwf Hrel Hh Hsum Hnode] Hd. rewrite Hd in *.
  assert (Hnp : n ∈ members (i_nodes info) ∧ is_request p).
  { rewrite !Forall_app in Hwf. destruct Hwf as (_ & _ & _ & Hw). by apply Forall_cons in Hw as [Hw _]. }
  destruct Hnp as [Hn Hp]. destruct (request_id p Hp) as (id & Hid & Hi & _).
  split; cbn [entered left header requests up master down releases]; try done.
  - rewrite !Forall_app in Hwf |- *. destruct Hwf as (? & ? & ? & Hw). apply Forall_cons in Hw as [_ Hw]. done.
  - apply Forall_app. split; [done|]. apply Forall_singleton. split; [done|]. exists id. by rewrite Hi.
  - intros n' id' Hn' Hid'. destruct (Hnode n' id' Hn' Hid') as (H1 & H2 & H3). split; [done|]. split; [|done].
    rewrite count_middle in H2. rewrite (count_app _ (releases s)), (count_cons _ _ []). change (count _ []) with 0. rewrite <- H2.
    replace (to_child n' id' (n, (BARRIER_CHILD_TEMPLATE_NAME (pid n) (h_barrier_id p), [CMD_BARRIER])))
      with (of_barrier n' id' (n, p)); [lia|].
    unfold to_child, of_barrier. cbn [fst snd]. destruct (Z.eqb_spec n n') as [<-|]; [|done]. cbn.
    destruct (Z.eqb_spec (h_barrier_id p) id') as [<-|Hne]; [by rewrite bool_decide_true|].
    rewrite bool_decide_false; [done|]. intros [=]. done.
Qed.

Lemma inv_leave s hist P l1 n id bytes l2 : sys_inv s hist P →
  releases s = l1 ++ (n, (BARRIER_CHILD_TEMPLATE_NAME (pid n) id, bytes)) :: l2 → left s n id < entered s n id →
  sys_inv (mk_sys (entered s) (upd (left s) n id (left s n id + 1)) (header s) (requests s) (up s) (master s)
        (down s) (l1 ++ l2)) hist P.
Proof.
  intros [Hm Hst Hwf Hrel Hh Hsum Hnode] Hr Hlt. rewrite Hr in *.
  split; cbn [entered left header requests up master down releases]; try done.
  - eapply Forall_app in Hrel as [Hr1 Hr2]. apply Forall_cons in Hr2 as [_ Hr2]. by apply Forall_app.
  - intros n' id' Hn' Hid'. unfold upd. case_decide as E; [|by apply Hh]. destruct E as [-> ->]. intros H.
    apply Hh; [done|done|lia].
  - intros n' id' Hn' Hid'. destruct (Hnode n' id' Hn' Hid') as (H1 & H2 & H3 & H4).
    rewrite count_middle in H2. unfold to_child at 1 in H2. cbn [fst snd] in H2. unfold upd.
    destruct (decide (n' = n ∧ id' = id)) as [[-> ->]|E].
    + rewrite Z.eqb_refl, bool_decide_true in H2 by done. cbn in H2. lia.
    + rewrite (proj2 (andb_false_iff _ _)) in H2; [lia|].
      destruct (Z.eqb_spec n n') as [<-|]; [right|by left]. apply bool_decide_eq_false. intros [=]. naive_solver.
Qed.

(** A message that is no request changes nothing here. *)
Lemma inv_other s hist P x r' d' : sys_inv s hist P → message_ok x →
  match kind x with KExit _ | KBarrier _ | KRpc => False | _ => True end →
  master_turn info (master s) (mk_rawsim [x] [] []) = Ret (inl r') d' →
  rs_log d' = [] ∧
  sys_inv (mk_sys (entered s) (left s) (header s) (requests s) (up s) r' (down s) (releases s)) (hist ++ [x]) P.
Proof using CNOK RCOK nnodes_pos nodes_word payload_fits.
  intros [Hm Hst Hwf Hrel Hh Hsum Hnode] Hx Hk Hturn.
  destruct (recv_turn payload_fits info services hist x [] (master s) (mk_rawsim [x] [] []))
    as (r1 & Hturn1 & Hinv); try done; [unfold no_allocator; by destruct (kind x)|].
  rewrite Hturn1 in Hturn. assert (Hreact : reaction info services hist x = []) by (unfold reaction; by destruct (kind x)).
  rewrite Hreact in Hturn. assert (E : r1 = r' ∧ rs_after [] (mk_rawsim [] [] []) = d').
  { destruct (kind x); try done; by injection Hturn. }
  destruct E as [-> <-]. split; [done|].
  assert (Ha : ∀ id, arrivals id (hist ++ [x]) = arrivals id hist).
  { intros id. rewrite arrivals_snoc. destruct (kind x); try done; lia. }
  split; cbn [entered left header requests up master down releases]; try done.
  - rewrite statuses_snoc, Hst. by destruct (kind x).
  - intros id Hid. rewrite Ha. by apply Hsum.
  - intros n id Hn Hid. unfold rounds. rewrite Ha. by apply Hnode.
Qed.

Lemma count_release m id p (over : bool) : m ∈ members (i_nodes info) →
  count (of_barrier m id) (if over then (fun m => (m, p)) <$> members (i_nodes info) else []) =
  if over && (h_barrier_id p =? id) then 1 else 0.
Proof. intros Hm. destruct over; [|done]. by rewrite count_broadcast by (apply members_NoDup || done). Qed.

(** What a turn of the master does with a request: the release goes to all nodes
    when the round is over. *)
Lemma request_turn s hist n p r' d' : recv_inv info services hist (master s) → statuses hist = [] →
  n ∈ members (i_nodes info) → is_request p →
  master_turn info (master s) (mk_rawsim [(AXIOM_RET_OK, n, p)] [] []) = Ret (inl r') d' →
  recv_inv info services (hist ++ [(AXIOM_RET_OK, n, p)]) r' ∧
  ((fun e : Z * Z * list Z => (e.1.1, e.2)) <$> rs_log d') =
    if (arrivals (h_barrier_id p) hist + 1) mod i_nnodes info =? 0 then (fun m => (m, p)) <$> members (i_nodes info) else [].
Proof using CNOK RCOK nnodes_pos nodes_word payload_fits nodes_range barrier_on.
  intros Hm Hst Hn Hp Hturn. destruct (request_message n p Hn Hp) as (Hok & Hk & Htake).
  destruct (request_id p Hp) as (id & Hid & Hid' & _). set (x := (AXIOM_RET_OK, n, p)) in *.
  destruct (recv_turn payload_fits info services hist x [] (master s) (mk_rawsim [x] [] []))
    as (r1 & Hturn1 & Hinv); try done; [unfold no_allocator; by rewrite Hk|].
  rewrite Hturn1, Hk in Hturn. injection Hturn as -> <-. split; [done|].
  cbn [rs_log rs_after app]. unfold reaction. rewrite Hk, barrier_on, Hid'. cbn [andb snd x].
  rewrite (proj2 (Z.leb_le id AXRUN_MAX_BARRIER_ID)) by lia. cbn [andb]. destruct (_ mod _ =? 0); [|done].
  unfold bcast. rewrite Htake, <- list_fmap_compose. done.
Qed.

(** A request at the master: the counter of its node grows, and the round is
    over exactly when all nodes have asked for it. *)
Lemma inv_master s hist P l1 n p l2 r' d' : sys_inv s hist P → up s = l1 ++ (n, p) :: l2 →
  master_turn info (master s) (mk_rawsim [(AXIOM_RET_OK, n, p)] [] []) = Ret (inl r') d' →
  sys_inv (mk_sys (entered s) (left s) (header s) (requests s) (l1 ++ l2) r'
    (down s ++ ((fun e : Z * Z * list Z => (e.1.1, e.2)) <$> rs_log d')) (releases s))
    (hist ++ [(AXIOM_RET_OK, n, p)]) (upd P n (h_barrier_id p) (P n (h_barrier_id p) + 1)).
Proof using CNOK RCOK nnodes_pos nodes_word payload_fits nodes_range barrier_on nnodes_members slave.
  clear slaves_on. intros [Hm Hst Hwf Hrel Hh Hsum Hnode] Hup Hturn. rewrite Hup in *.
  assert (Hnp : n ∈ members (i_nodes info) ∧ is_request p).
  { rewrite !Forall_app in Hwf. destruct Hwf as (_ & [_ Hw] & _). by apply Forall_cons in Hw as [Hw _]. }
  destruct Hnp as [Hn Hp]. destruct (request_message n p Hn Hp) as (Hok & Hk & _).
  destruct (request_turn s hist n p r' d' Hm Hst Hn Hp Hturn) as [Hinv Hlog].
  destruct (request_id p Hp) as (id & Hid & Hid' & _). rewrite Hid' in *. set (x := (AXIOM_RET_OK, n, p)) in *.
  rewrite Hlog. clear Hlog Hturn.
  assert (Ha : ∀ id', arrivals id' (hist ++ [x]) = arrivals id' hist + if id =? id' then 1 else 0)
    by (intros id'; by rewrite arrivals_snoc, Hk).
  assert (Hpos : 0 <= arrivals id hist) by (unfold arrivals, alen; lia).
  pose proof (round_over (arrivals id hist) (i_nnodes info) nnodes_pos Hpos) as Hround.
  (* the node that asks had not asked in this round *)
  assert (HPn : P n id = rounds hist id).
  { destruct (Hnode n id Hn Hid) as (H1 & H2 & H3 & H4). rewrite count_middle in H1.
    unfold of_barrier at 2 in H1. cbn [fst snd] in H1. rewrite Hid', !Z.eqb_refl in H1. cbn in H1.
    pose proof (count_nonneg (of_barrier n id) (requests s)). pose proof (count_nonneg (of_barrier n id) (l1 ++ l2)).
    pose proof (count_nonneg (of_barrier n id) (down s)). pose proof (count_nonneg (to_child n id) (releases s)). lia. }
  assert (Hsum' : sum_over (fun m => upd P n id (P n id + 1) m id) (members (i_nodes info)) = arrivals id hist + 1).
  { rewrite (Hsum id Hid). apply (sum_incr _ _ _ n); [apply members_NoDup|done|unfold upd; by rewrite decide_True|].
    intros y Hy. unfold upd. by rewrite decide_False by naive_solver. }
  assert (Hle : ∀ m, m ∈ members (i_nodes info) → rounds hist id <= upd P n id (P n id + 1) m id <= rounds hist id + 1).
  { intros m Hmm. unfold upd. case_decide as E; [lia|]. by apply Hnode. }
  split; cbn [entered left header requests up master down releases]; try done.
  - by rewrite statuses_snoc, Hk, Hst.
  - rewrite !Forall_app in Hwf |- *. destruct Hwf as (H1 & [H2 H3] & H4). apply Forall_cons in H3 as [_ H3].
    split_and!; try done. apply Forall_app. split; [done|]. destruct (_ mod _ =? 0); [|by constructor]. apply Forall_fmap, Forall_forall. intros m Hmm. done.
  - intros id' Hid2. rewrite Ha. destruct (Z.eqb_spec id id') as [<-|Hne].
    + by rewrite Hsum'.
    + rewrite Z.add_0_r, (Hsum id' Hid2). apply sum_ext. intros y _. unfold upd. by rewrite decide_False by naive_solver.
  - intros m id' Hmm Hid2. destruct (Hnode m id' Hmm Hid2) as (H1 & H2 & H3 & H4).
    rewrite count_middle in H1. unfold of_barrier at 2 in H1. cbn [fst snd] in H1. rewrite Hid' in H1.
    rewrite (count_app _ (down s)), count_release, Hid' by done. unfold rounds. rewrite Ha.
    fold (rounds hist id) in *. fold (rounds hist id') in *.
    destruct (Z.eqb_spec id id') as [<-|Hne].
    2:{ rewrite andb_false_r in H1 |- *. cbn iota in H1 |- *. rewrite !Z.add_0_r. fold (rounds hist id'). unfold upd.
        rewrite decide_False by naive_solver. lia. }
    assert (HPm : upd P n id (P n id + 1) m id = P m id + if n =? m then 1 else 0).
    { unfold upd. destruct (Z.eqb_spec n m) as [<-|]; [by rewrite decide_True|]. rewrite decide_False by naive_solver. lia. }
    rewrite andb_true_r in H1. pose proof (Hle m Hmm) as Hlem. unfold rounds in Hlem at 1 2.
    destruct ((arrivals id hist + 1) mod i_nnodes info =? 0).
    + destruct Hround as [Hr1 Hr2]. cbn [andb]. rewrite Hr1. fold (rounds hist id).
      assert (Hmax : upd P n id (P n id + 1) m id = rounds hist id + 1).
      { apply (sum_max (fun m => upd P n id (P n id + 1) m id) (members (i_nodes info)) (rounds hist id + 1)); [|by rewrite Hsum', Hr2, nnodes_members|done].
        intros y Hy. by apply Hle. }
      rewrite HPm in *. lia.
    + cbn [andb]. rewrite Hround. fold (rounds hist id) in *. rewrite HPm in *. lia.
Qed.

Lemma inv_step s s' hist P : sys_inv s hist P → step s s' → ∃ hist' P', sys_inv s' hist' P'.
Proof using CNOK RCOK nnodes_pos nodes_word payload_fits nodes_range barrier_on nnodes_members slaves_on.
  intros Hinv Hstep.
  assert (Hreq : ∀ x, x ∈ requests s ++ up s ++ down s → is_request x.2).
  { intros x Hx. pose proof (si_wf _ _ _ Hinv) as Hwf. rewrite Forall_forall in Hwf. by apply Hwf. }
  destruct Hstep as [s n id h|s l1 n bytes l2 buffer b' d' _ Hr Hb Hrun|s l1 n p l2 r' d' Hu Hrun|s x r' d' Hx Hk Hrun|s l1 n p l2 buffer sig st' d' _ Hd Hb Hrun|s l1 n id bytes l2 Hr Hlt Hc].
  - exists hist, P. by apply inv_enter.
  - exists hist, P. rewrite (forward_run n bytes buffer b' d'); [by apply inv_forward| |done]. apply (Hreq (n, bytes)). rewrite Hr. set_solver.
  - eexists _, _. by apply inv_master.
  - destruct (inv_other s hist P x r' d' Hinv Hx Hk Hrun) as [-> Hinv']. cbn. rewrite app_nil_r. by eexists _, _.
  - exists hist, P. rewrite (deliver_run n p buffer sig st' d'); [|apply (Hreq (n, p)); rewrite Hd; set_solver|done|done].
    by apply inv_deliver.
  - exists hist, P. by apply (inv_leave s hist P l1 n id bytes l2).
Qed.

Lemma inv_reachable buffer reply s : alen buffer = AXIOM_RAW_PAYLOAD_MAX_SIZE →
  reachable (sys0 buffer reply) s → ∃ hist P, sys_inv s hist P.
Proof using CNOK RCOK nnodes_pos nodes_word payload_fits nodes_range barrier_on nnodes_members slaves_on.
  intros Hb. induction 1 as [|s s' _ (hist & P & Hinv) Hstep].
  - eexists _, _. by apply inv_init.
  - by apply (inv_step s s' hist P).
Qed.

(** C29. The barrier is a barrier: in every reachable state of processes, slaves
    and master, whatever the order in which datagrams and messages travel, a
    process has left a barrier at most as often as every process of the
    application has entered it, so that nobody leaves a round before all have
    entered it; and a reply that reaches a waiting process is accepted by it,
    although the slave sends only its first byte. *)
Theorem barrier_safe buffer reply s n m id :
  alen buffer = AXIOM_RAW_PAYLOAD_MAX_SIZE → reachable (sys0 buffer reply) s →
  n ∈ members (i_nodes info) → m ∈ members (i_nodes info) → 0 <= id <= AXRUN_MAX_BARRIER_ID →
  left s n id <= entered s m id ∧
  ∀ bytes, (n, (BARRIER_CHILD_TEMPLATE_NAME (pid n) id, bytes)) ∈ releases s →
    left s n id < entered s n id ∧ sync_check id (overwrite bytes (header s n id)) = true.
Proof using CNOK RCOK nnodes_pos nodes_word payload_fits nodes_range barrier_on nnodes_members slaves_on.
  intros Hb Hreach Hn Hm Hid. destruct (inv_reachable buffer reply s Hb Hreach) as (hist & P & [_ _ _ Hrel Hh _ Hnode]).
  destruct (Hnode n id Hn Hid) as (H1 & H2 & H3 & H4). destruct (Hnode m id Hm Hid) as (K1 & K2 & K3 & K4).
  pose proof (count_nonneg (of_barrier n id) (down s)). pose proof (count_nonneg (to_child n id) (releases s)).
  pose proof (count_nonneg (of_barrier m id) (requests s)). pose proof (count_nonneg (of_barrier m id) (up s)).
  split; [lia|]. intros bytes Hin.
  assert (Hcnt : 1 <= count (to_child n id) (releases s)).
  { apply list_elem_of_split in Hin as (l1 & l2 & ->). rewrite count_middle. unfold to_child at 1. cbn [fst snd].
    rewrite Z.eqb_refl, bool_decide_true by done. cbn. pose proof (count_nonneg (to_child n id) (l1 ++ l2)). lia. }
  assert (Hlt : left s n id < entered s n id).
  { pose proof (count_nonneg (of_barrier n id) (requests s)). pose proof (count_nonneg (of_barrier n id) (up s)). lia. }
  split; [done|]. destruct (Hh n id Hn Hid Hlt) as (h & Hl & ->). rewrite Forall_forall in Hrel.
  destruct (Hrel _ Hin) as (_ & id' & _ & Heq). cbn in Heq. injection Heq as _ ->.
  apply sync_check_one_byte; [done|unfold AXRUN_MAX_BARRIER_ID in *; lia].
Qed.

(** When nothing is in transit and all have entered, all have left. *)
Lemma quiet_left s hist P id k : sys_inv s hist P →
  requests s = [] → up s = [] → down s = [] → releases s = [] → 0 <= id <= AXRUN_MAX_BARRIER_ID →
  (∀ m, m ∈ members (i_nodes info) → entered s m id = k) →
  ∀ n, n ∈ members (i_nodes info) → left s n id = k.
Proof using CNOK RCOK nnodes_pos nodes_word payload_fits nodes_range barrier_on nnodes_members slaves_on.
  intros [_ _ _ _ _ Hsum Hnode] Hr Hu Hd Hl Hid Hk n Hn.
  rewrite Hr, Hu, Hd, Hl in Hnode.
  assert (HP : ∀ m, m ∈ members (i_nodes info) → P m id = k).
  { intros m Hm. destruct (Hnode m id Hm Hid) as (H1 & _). rewrite (Hk m Hm) in H1. cbn in H1. lia. }
  assert (Hsk : arrivals id hist = i_nnodes info * k).
  { rewrite (Hsum id Hid), nnodes_members.
    assert (E : ∀ l, (∀ m, m ∈ l → P m id = k) → sum_over (fun n => P n id) l = alen l * k).
    { induction l as [|y l IH]; intros H; [done|]. unfold sum_over, alen in *. cbn [foldr length].
      rewrite (H y), IH by set_solver. lia. }
    by apply E. }
  destruct (Hnode n id Hn Hid) as (_ & H2 & _). unfold rounds in H2. rewrite Hsk, Z.mul_comm, Z.div_mul in H2 by lia.
  cbn in H2. lia.
Qed.

(** What is in transit, weighted by the steps it still causes. *)
Definition transit (s : sys) : nat :=
  length (requests s) * (2 * length (members (i_nodes info)) + 3) +
  length (up s) * (2 * length (members (i_nodes info)) + 2) + length (down s) * 2 + length (releases s).

(** The barrier service starts [sock_thread], but a slave starts [recv_thread] only
    with one of the services for redirection, exit and kill. *)
Hypothesis children : ∀ n, 0 < s_pid (slave n).
Hypothesis recv_on : ∀ n, has (s_services (slave n)) (Z.lor REDIRECT_SERVICE (Z.lor EXIT_SERVICE KILL_SERVICE)) = true.

Lemma sock_runs n : runs ThSock n.
Proof using children slaves_on.
  clear recv_on. apply sock_thread_started; [left; apply slaves_on|apply children].
Qed.

Lemma recv_runs n : runs ThIn n.
Proof using children recv_on.
  clear slaves_on. apply recv_thread_started; [apply recv_on|apply children].
Qed.

(** While something is in transit, some step makes it travel on. *)
Lemma transit_step s hist P : sys_inv s hist P → transit s ≠ 0%nat →
  ∃ s', step s s' ∧ entered s' = entered s ∧ (transit s' < transit s)%nat.
Proof using CNOK RCOK nnodes_pos nodes_word payload_fits nodes_range slaves_on children recv_on.
  intros Hinv Ht. set (N := length (members (i_nodes info))).
  assert (Hbuf : alen (replicate (Z.to_nat AXIOM_RAW_PAYLOAD_MAX_SIZE) 0) = AXIOM_RAW_PAYLOAD_MAX_SIZE).
  { pose proof payload_max. unfold alen. rewrite length_replicate. lia. }
  pose proof (si_wf _ _ _ Hinv) as Hwf. rewrite !Forall_app in Hwf. destruct Hwf as (Hreq & Hup & Hdown).
  destruct (requests s) as [|[n bytes] l] eqn:Er.
  2:{ apply Forall_cons in Hreq as [[_ Hp] _].
      destruct (forward_eq n bytes (replicate (Z.to_nat AXIOM_RAW_PAYLOAD_MAX_SIZE) 0) Hp) as (b' & d' & Hrun & Hlog).
      eexists. split; [eapply (step_forward s [] n bytes l); [apply sock_runs|exact Er|exact Hbuf|exact Hrun]|]. split; [done|].
      unfold transit. rewrite Er. cbn [requests up down releases app length].
      rewrite length_app, length_fmap, Hlog. cbn. lia. }
  destruct (up s) as [|[n p] l] eqn:Eu.
  2:{ apply Forall_cons in Hup as [[Hn Hp] _]. destruct (request_message n p Hn Hp) as (Hok & Hk & _).
      destruct (recv_turn payload_fits info services hist (AXIOM_RET_OK, n, p) [] (master s) (mk_rawsim [(AXIOM_RET_OK, n, p)] [] []))
        as (r1 & Hturn & _); try done; [apply Hinv|unfold no_allocator; by rewrite Hk|]. rewrite Hk in Hturn.
      eexists. split; [eapply (step_master s [] n p l); [exact Eu|exact Hturn]|]. split; [done|].
      unfold transit. rewrite Er, Eu. cbn [requests up down releases app length rs_log rs_after rs_send rs_in].
      rewrite length_app, length_fmap.
      assert (Hreact : (length (reaction info services hist (AXIOM_RET_OK, n, p)) <= N)%nat).
      { unfold reaction. rewrite Hk. destruct (_ && _); [|cbn; lia]. unfold bcast. by rewrite length_fmap. }
      fold N. nia. }
  destruct (down s) as [|[n p] l] eqn:Ed.
  2:{ apply Forall_cons in Hdown as [[Hn Hp] _].
      destruct (deliver_eq n p _ false Hp Hbuf) as (st' & d' & Hrun & Hsent).
      eexists. split; [eapply (step_deliver s [] n p l); [apply recv_runs|exact Ed|exact Hbuf|exact Hrun]|]. split; [done|].
      unfold transit. rewrite Er, Eu, Ed. cbn [requests up down releases app length].
      rewrite length_app, length_fmap, Hsent. cbn. lia. }
  destruct (releases s) as [|[n [a bytes]] l] eqn:El.
  2:{ pose proof (si_releases _ _ _ Hinv) as Hrel. rewrite El in Hrel. apply Forall_cons in Hrel as [(Hn & id & Hid & Heq) _].
      cbn [fst snd] in Hn, Heq. injection Heq as -> ->.
      destruct (si_node _ _ _ Hinv n id Hn Hid) as (H1 & H2 & H3 & H4). rewrite El, count_cons in H2.
      unfold to_child at 1 in H2. cbn [fst snd] in H2. rewrite Z.eqb_refl, bool_decide_true in H2 by done. cbn [andb] in H2.
      rewrite Ed, Er, Eu in *. pose proof (count_nonneg (to_child n id) l). cbn [count foldr] in H1, H2.
      assert (Hlt : left s n id < entered s n id) by lia.
      destruct (si_header _ _ _ Hinv n id Hn Hid Hlt) as (h & Hl & Hh).
      eexists. split; [eapply (step_leave s [] n id [CMD_BARRIER] l); [exact El|exact Hlt|]|].
      - rewrite Hh. apply sync_check_one_byte; [done|unfold AXRUN_MAX_BARRIER_ID in *; lia].
      - split; [done|]. unfold transit. rewrite Er, Eu, Ed, El. cbn. lia. }
  unfold transit in Ht. rewrite Er, Eu, Ed, El in Ht. done.
Qed.

Inductive steps : sys → sys → Prop :=
  | steps_refl s : steps s s
  | steps_cons s s1 s2 : step s s1 → steps s1 s2 → steps s s2.

Lemma drain s hist P : sys_inv s hist P →
  ∃ s' hist' P', steps s s' ∧ entered s' = entered s ∧ transit s' = 0%nat ∧ sys_inv s' hist' P'.
Proof using CNOK RCOK nnodes_pos nodes_word payload_fits nodes_range barrier_on nnodes_members slaves_on children recv_on.
  remember (transit s) as k eqn:Hk. revert s hist P Hk.
  induction k as [k IH] using lt_wf_ind. intros s hist P Hk Hinv. destruct (decide (transit s = 0%nat)) as [H0|H0].
  { exists s, hist, P. split; [constructor|]. done. }
  destruct (transit_step s hist P Hinv H0) as (s1 & Hstep & He & Hlt).
  destruct (inv_step s s1 hist P Hinv Hstep) as (hist1 & P1 & Hinv1).
  destruct (IH (transit s1) ltac:(lia) s1 hist1 P1 eq_refl Hinv1) as (s2 & hist2 & P2 & Hs & He2 & Ht & Hinv2).
  exists s2, hist2, P2. split; [by econstructor|]. by rewrite He2, He.
Qed.

(** C30. The barrier opens when every slave has its [recv_thread], that is when the
    service for barriers comes with one of those for redirection, exit and kill:
    then from every reachable state in which all processes have
    entered a barrier equally often, the system can go on, without any process
    entering anything, until every process has left it as often as it entered:
    there is no deadlock, whatever is in transit and whatever round it belongs to.
    Without one of these services no process ever leaves a barrier
    ([no_recv_thread]). *)
Theorem barrier_opens buffer reply s id k :
  alen buffer = AXIOM_RAW_PAYLOAD_MAX_SIZE → reachable (sys0 buffer reply) s → 0 <= id <= AXRUN_MAX_BARRIER_ID →
  (∀ m, m ∈ members (i_nodes info) → entered s m id = k) →
  ∃ s', steps s s' ∧ entered s' = entered s ∧ ∀ n, n ∈ members (i_nodes info) → left s' n id = k.
Proof using CNOK RCOK nnodes_pos nodes_word payload_fits nodes_range barrier_on nnodes_members slaves_on children recv_on.
  intros Hb Hreach Hid Hk. destruct (inv_reachable buffer reply s Hb Hreach) as (hist & P & Hinv).
  destruct (drain s hist P Hinv) as (s' & hist' & P' & Hs & He & Ht & Hinv'). exists s'. split; [done|]. split; [done|].
  unfold transit in Ht. apply (quiet_left s' hist' P'); try done; try (apply nil_length_inv; nia). by rewrite He.
Qed.
End System.

(** Without the thread that receives, nobody ever leaves: the barrier service alone
    does not start it (slave.c, [manage_slave_services]). *)
Section Alone.
Context `{CN : NicConsts} `{RC : RunConsts} `{IO : Stdio} `{AL : Allocator rawsim}.
Variables (info : minfo) (services : Z) (slave : Z → sinfo) (pid : Z → Z).

Lemma no_recv_thread buffer reply s : (∀ n, s_services (slave n) = BARRIER_SERVICE) →
  reachable info slave pid (sys0 info services buffer reply) s → releases s = [] ∧ ∀ n id, left s n id = 0.
Proof.
  intros Hs. induction 1 as [|s s' _ [Hr Hl] Hstep]; [done|].
  destruct Hstep as [| | | |s l1 n p l2 buffer' sig st' d' Hrun _ _ _|s l1 n id bytes l2 Hrel _ _]; try done.
  - unfold runs in Hrun. rewrite Hs in Hrun. unfold slave_threads in Hrun. destruct (_ && _); [|set_solver].
    cbn in Hrun. set_solver.
  - rewrite Hr in Hrel. by destruct l1.
Qed.
End Alone.

(** ** Evaluation *)

Section Examples.
#[local] Instance ex_nic : NicConsts := nic8.
#[local] Instance ex_nic_ok : NicConstsOk := nic8_ok.
#[local] Instance ex_run : RunConsts := {|
  AXIOM_RAW_PAYLOAD_MAX_SIZE := 128; SIZE_BITS := 8; AXIOM_CMD_ALLOC_REPLY := 32 |}.
#[local] Instance ex_run_ok : RunConstsOk.
Proof. split; vm_compute; done. Qed.
#[local] Instance ex_stdio : Stdio := {| BUFSIZ := 8192 |}.
#[local] Instance ex_alloc : Allocator rawsim := {|
  axiom_al2_init _ := mret 0;
  axiom_al2_release := mret tt;
  axiom_al2_alloc _ _ raw := mret (0, raw);
  axiom_al2_get_regions _ _ raw := mret (1, raw);
  axiom_al2_alloc_shblock _ _ raw := mret (1, raw);
  axiom_al2_alloc_reply _ _ := mret (1, [])
|}.

(** Two nodes, 1 and 2; both have entered barrier 3 once. *)
Definition two_nodes : minfo := mk_minfo 6 2 0 0 6 5.
Definition two_slaves (n : Z) : sinfo := mk_sinfo 0x27 (100 + Z.abs n) 15 0 5.
Definition two_pids (n : Z) : Z := 40 + n.
Definition both_entered : sys :=
  mk_sys (upd (upd (fun _ _ => 0) 1 3 1) 2 3 1) (fun _ _ => 0)
    (upd (upd (fun _ _ => []) 1 3 (sync_request 3 (replicate 20 0))) 2 3 (sync_request 3 (replicate 20 0)))
    [(1, sync_request 3 (replicate 20 0)); (2, sync_request 3 (replicate 20 0))] []
    (receiver0 two_nodes (replicate 128 0) 7 (mk_rpc_reply 0 0 [])) [] [].

Lemma both_entered_reachable :
  reachable two_nodes two_slaves two_pids (sys0 two_nodes 7 (replicate 128 0) (mk_rpc_reply 0 0 [])) both_entered.
Proof.
  assert (Hb : Forall (fun b => 0 <= b < 256) (replicate 20 0)) by (by apply (bool_decide_unpack _)).
  eapply reach_step; [eapply reach_step; [apply reach_refl|]|].
  - apply (step_enter two_nodes two_slaves two_pids (sys0 two_nodes 7 (replicate 128 0) (mk_rpc_reply 0 0 [])) 1 3 (replicate 20 0));
      try done. apply elem_of_members. done.
  - apply (step_enter two_nodes two_slaves two_pids
      (mk_sys (upd (fun _ _ => 0) 1 3 1) (fun _ _ => 0) (upd (fun _ _ => []) 1 3 (sync_request 3 (replicate 20 0)))
         [(1, sync_request 3 (replicate 20 0))] [] (receiver0 two_nodes (replicate 128 0) 7 (mk_rpc_reply 0 0 [])) [] [])
      2 3 (replicate 20 0)); try done. apply elem_of_members. done.
Qed.

Lemma two_nodes_range n : n ∈ members (i_nodes two_nodes) → n < MAX_NUM_NODES.
Proof. intros H. vm_compute in H. unfold MAX_NUM_NODES. set_solver by lia. Qed.

Lemma barrier_safe_witness : left both_entered 1 3 <= entered both_entered 2 3.
Proof.
  assert (Hfits : AXIOM_RAW_PAYLOAD_MAX_SIZE <= BUFSIZ) by (vm_compute; discriminate).
  assert (Hword : 0 <= i_nodes two_nodes < 2 ^ 64) by (vm_compute; split; [discriminate|reflexivity]).
  apply (barrier_safe two_nodes 7 two_slaves two_pids Hword two_nodes_range eq_refl eq_refl eq_refl (fun _ => eq_refl) Hfits
    (replicate 128 0) (mk_rpc_reply 0 0 []) both_entered 1 2 3 eq_refl both_entered_reachable);
    try (apply elem_of_members; done). unfold AXRUN_MAX_BARRIER_ID. lia.
Defined.

Lemma barrier_opens_witness : ∃ s', steps two_nodes two_slaves two_pids both_entered s' ∧ left s' 1 3 = 1 ∧ left s' 2 3 = 1.
Proof.
  assert (Hfits : AXIOM_RAW_PAYLOAD_MAX_SIZE <= BUFSIZ) by (vm_compute; discriminate).
  assert (Hword : 0 <= i_nodes two_nodes < 2 ^ 64) by (vm_compute; split; [discriminate|reflexivity]).
  assert (Hpids : ∀ n, 0 < s_pid (two_slaves n)) by (intros n; cbn; lia).
  destruct (barrier_opens two_nodes 7 two_slaves two_pids Hword two_nodes_range eq_refl eq_refl eq_refl (fun _ => eq_refl) Hfits
    Hpids (fun _ => eq_refl) (replicate 128 0) (mk_rpc_reply 0 0 []) both_entered 3 1 eq_refl both_entered_reachable) as (s' & Hs & _ & Hl).
  - unfold AXRUN_MAX_BARRIER_ID. lia.
  - intros m Hm. vm_compute in Hm. apply elem_of_cons in Hm as [->|Hm]; [reflexivity|].
    apply list_elem_of_singleton in Hm as ->. reflexivity.
  - exists s'. split; [exact Hs|]. split; apply Hl; apply elem_of_members; done.
Defined.
End Examples.
