(* ===== verification/Text.v ===== *)
(** * Numbers and words in text

    The functions of the C library with which the programs print and read
    numbers: the conversions of [printf] and [sscanf], [atoi], [atol], [strtoul]
    and the splitting of words.  A string is the list of its characters. *)

From S2P Require Import Prelude.

(** Literals. *)
Definition str (s : string) : list Z := (fun c => Z.of_nat (Ascii.nat_of_ascii c)) <$> String.list_ascii_of_string s.

Definition is_space (c : Z) : bool := (c =? 32) || ((9 <=? c) && (c <=? 13)).

(** ** Printing *)

(** Digits and letters in lower case, as [%lx] prints them. *)
Definition digit_char (d : Z) : Z := if d <? 10 then 48 + d else 87 + d.

Fixpoint print_digits (base : Z) (fuel : nat) (n : Z) (acc : list Z) : list Z :=
  match fuel with
  | O => acc
  | S fuel =>
      let acc := digit_char (n mod base) :: acc in
      if n / base =? 0 then acc else print_digits base fuel (n / base) acc
  end.

(** [%lu] and [%lx] of a 64-bit number; [%d] and [%ld]. *)
Definition fmt_unsigned (base n : Z) : list Z := print_digits base 64 n [].
Definition fmt_x (n : Z) : list Z := fmt_unsigned 16 n.
Definition fmt_d (n : Z) : list Z := if n <? 0 then 45 :: fmt_unsigned 10 (- n) else fmt_unsigned 10 n.

(** ** Reading *)

Definition digit_value (c : Z) : option Z :=
  if (48 <=? c) && (c <=? 57) then Some (c - 48)
  else if (97 <=? c) && (c <=? 122) then Some (c - 87)
  else if (65 <=? c) && (c <=? 90) then Some (c - 55)
  else None.

Definition is_digit (base c : Z) : bool :=
  match digit_value c with Some v => v <? base | None => false end.

(** The digits at the beginning of a string, and the rest. *)
Fixpoint scan_digits (base : Z) (s : list Z) (acc : Z) : Z * list Z :=
  match s with
  | c :: s' =>
      if is_digit base c then scan_digits base s' (acc * base + default 0 (digit_value c)) else (acc, s)
  | [] => (acc, [])
  end.

Fixpoint skip_spaces (s : list Z) : list Z :=
  match s with c :: s' => if is_space c then skip_spaces s' else s | [] => [] end.

(** The sign: 45 is the minus. *)
Definition scan_sign (s : list Z) : bool * list Z :=
  match s with
  | 45 :: s => (true, s)
  | 43 :: s => (false, s)
  | _ => (false, s)
  end.

Definition starts_digit (base : Z) (s : list Z) : bool :=
  match s with c :: _ => is_digit base c | [] => false end.

(** [long] values saturate. *)
Definition clamp64 (n : Z) : Z := Z.max (- 2 ^ 63) (Z.min (2 ^ 63 - 1) n).

(** A signed decimal number; [None]: there is none. *)
Definition scan_long (s : list Z) : option (Z * list Z) :=
  let '(neg, s) := scan_sign (skip_spaces s) in
  if starts_digit 10 s then
    let '(n, s) := scan_digits 10 s 0 in Some (clamp64 (if neg then - n else n), s)
  else None.

(** [%d]: a [long] cut to an [int]. *)
Definition scan_int (s : list Z) : option (Z * list Z) :=
  '(n, s) ← scan_long s; Some (s32 n, s).

Definition atol (s : list Z) : Z := match scan_long s with Some (n, _) => n | None => 0 end.
Definition atoi (s : list Z) : Z := s32 (atol s).

(** [%lu]: saturating, and negated modulo 2^64 after a minus; [%u] and [%hhu] keep
    the low bits. *)
Definition scan_ulong (s : list Z) : option (Z * list Z) :=
  let '(neg, s) := scan_sign (skip_spaces s) in
  if starts_digit 10 s then
    let '(n, s) := scan_digits 10 s 0 in
    let n := Z.min n (2 ^ 64 - 1) in
    Some (if neg then u64 (- n) else n, s)
  else None.
Definition scan_u32 (s : list Z) : option (Z * list Z) := '(n, s) ← scan_ulong s; Some (u32 n, s).
Definition scan_u8 (s : list Z) : option (Z * list Z) := '(n, s) ← scan_ulong s; Some (u8 n, s).

(** The prefix 0x before hexadecimal digits. *)
Definition skip_0x (s : list Z) : list Z :=
  match s with 48 :: x :: s' => if (x =? 120) || (x =? 88) then s' else s | _ => s end.

(** [%lx]: saturating, and negated modulo 2^64 after a minus. *)
Definition scan_hex (s : list Z) : option (Z * list Z) :=
  let '(neg, s) := scan_sign (skip_spaces s) in
  let s := skip_0x s in
  if starts_digit 16 s then
    let '(n, s) := scan_digits 16 s 0 in
    let n := Z.min n (2 ^ 64 - 1) in
    Some (if neg then u64 (- n) else n, s)
  else None.

(** ** Words *)

Definition strchr (c : Z) (s : list Z) : bool := bool_decide (c ∈ s).

(** [strncmp(p, s, strlen(p)) == 0] *)
Fixpoint has_prefix (p s : list Z) : bool :=
  match p, s with
  | [], _ => true
  | a :: p, b :: s => (a =? b) && has_prefix p s
  | _ :: _, [] => false
  end.

(** The parts of a string between the characters [c]. *)
Fixpoint split_on (c : Z) (s : list Z) : list (list Z) :=
  match s with
  | [] => [[]]
  | a :: s =>
      if a =? c then [] :: split_on c s
      else match split_on c s with w :: ws => (a :: w) :: ws | [] => [[a]] end
  end.

(** The tokens of [strtok]: empty parts are skipped. *)
Definition strtok (c : Z) (s : list Z) : list (list Z) := filter (fun w => w ≠ []) (split_on c s).

(** ** Round trips *)

Lemma digit_value_char d : 0 <= d < 36 → digit_value (digit_char d) = Some d.
Proof.
  intros H. unfold digit_char, digit_value. destruct (Z.ltb_spec d 10).
  - destruct (Z.leb_spec 48 (48 + d)), (Z.leb_spec (48 + d) 57); try lia. cbn. f_equal. lia.
  - destruct (Z.leb_spec 48 (87 + d)), (Z.leb_spec (87 + d) 57), (Z.leb_spec 97 (87 + d)), (Z.leb_spec (87 + d) 122); try lia.
    cbn. f_equal. lia.
Qed.

Lemma is_digit_char base d : 0 <= d < base → base <= 36 → is_digit base (digit_char d) = true.
Proof. intros H Hb. unfold is_digit. rewrite digit_value_char by lia. apply Z.ltb_lt. lia. Qed.

(** [v] is the value that the digits [l] add to what was read before. *)
Lemma scan_digits_app base l acc rest : Forall (fun c => is_digit base c = true) l → starts_digit base rest = false →
  scan_digits base (l ++ rest) acc = (foldl (fun acc c => acc * base + default 0 (digit_value c)) acc l, rest).
Proof.
  intros Hl Hr. induction Hl as [|c l Hc _ IH] in acc |- *; cbn.
  - destruct rest as [|c rest]; [done|]. cbn in *. by rewrite Hr.
  - by rewrite Hc, IH.
Qed.

Lemma print_digits_spec base fuel n acc : 2 <= base <= 36 → 0 <= n < base ^ Z.of_nat fuel → (0 < fuel)%nat →
  ∃ l, print_digits base fuel n acc = l ++ acc ∧ Forall (fun c => is_digit base c = true) l ∧ l ≠ [] ∧
    ∀ a, foldl (fun acc c => acc * base + default 0 (digit_value c)) a l = a * base ^ alen l + n.
Proof.
  intros Hb. induction fuel as [|fuel IH] in n, acc |- *; intros Hn Hf; [lia|]. cbn [print_digits].
  pose proof (Z.mod_pos_bound n base ltac:(lia)) as Hmod. pose proof (Z.div_mod n base ltac:(lia)) as Hdm.
  destruct (Z.eqb_spec (n / base) 0) as [E|E].
  - exists [digit_char (n mod base)]. split; [done|]. split; [by apply Forall_singleton, is_digit_char; lia|]. split; [done|].
    intros a. cbn. rewrite digit_value_char by lia. change (alen [_]) with 1. cbn. lia.
  - rewrite Nat2Z.inj_succ, Z.pow_succ_r in Hn by lia.
    assert (Hq : 0 <= n / base < base ^ Z.of_nat fuel).
    { split; [apply Z.div_pos; lia|apply Z.div_lt_upper_bound; lia]. }
    assert (Hf' : (0 < fuel)%nat) by (destruct fuel; [cbn in Hq; lia|lia]).
    destruct (IH (n / base) (digit_char (n mod base) :: acc) Hq Hf') as (l & Heq & Hd & Hne & Hv).
    exists (l ++ [digit_char (n mod base)]). split; [by rewrite Heq, <- app_assoc|]. split.
    { apply Forall_app. split; [done|]. apply Forall_singleton, is_digit_char; lia. }
    split; [by destruct l|]. intros a. rewrite foldl_snoc, Hv, digit_value_char by lia. cbn [default].
    rewrite alen_app. change (alen [_]) with 1. unfold id. rewrite Z.pow_add_r, Z.pow_1_r by (unfold alen; lia). lia.
Qed.

Lemma fmt_unsigned_spec base n : 2 <= base <= 36 → 0 <= n < 2 ^ 64 →
  Forall (fun c => is_digit base c = true) (fmt_unsigned base n) ∧ fmt_unsigned base n ≠ [] ∧
  ∀ rest, starts_digit base rest = false → scan_digits base (fmt_unsigned base n ++ rest) 0 = (n, rest).
Proof.
  intros Hb Hn. assert (Hpow : 2 ^ 64 <= base ^ Z.of_nat 64) by (apply Z.pow_le_mono_l; lia).
  destruct (print_digits_spec base 64 n [] Hb ltac:(lia) ltac:(lia)) as (l & Heq & Hd & Hne & Hv).
  rewrite app_nil_r in Heq. unfold fmt_unsigned. rewrite Heq. split; [done|]. split; [done|].
  intros rest Hr. rewrite scan_digits_app by done. by rewrite Hv.
Qed.

Lemma digit_not_space c : is_digit 10 c = true → is_space c = false ∧ c ≠ 45 ∧ c ≠ 43.
Proof.
  unfold is_digit, digit_value, is_space. intros H. repeat case_match; simplify_eq; zcases; cbn; try done; lia.
Qed.

Lemma starts_digit_app base l rest : Forall (fun c => is_digit base c = true) l → l ≠ [] → starts_digit base (l ++ rest) = true.
Proof. intros H Hne. destruct l; [done|]. by apply Forall_cons in H as [H _]. Qed.

(** Reading back what [%d] printed. *)
(** A number without a sign starts with a digit. *)
Lemma scan_plain n rest : 0 <= n < 2 ^ 64 →
  skip_spaces (fmt_unsigned 10 n ++ rest) = fmt_unsigned 10 n ++ rest ∧
  scan_sign (fmt_unsigned 10 n ++ rest) = (false, fmt_unsigned 10 n ++ rest).
Proof.
  intros Hn. destruct (fmt_unsigned_spec 10 n ltac:(lia) Hn) as (Hd & Hne & _).
  destruct (fmt_unsigned 10 n) as [|c l]; [done|]. apply Forall_cons in Hd as [Hc _].
  destruct (digit_not_space c Hc) as (H1 & H2 & H3). cbn [app skip_spaces]. rewrite H1. split; [done|].
  unfold scan_sign. by repeat case_match; simplify_eq.
Qed.

Lemma scan_ulong_fmt n rest : 0 <= n < 2 ^ 64 → starts_digit 10 rest = false →
  scan_ulong (fmt_unsigned 10 n ++ rest) = Some (n, rest).
Proof.
  intros Hn Hr. destruct (fmt_unsigned_spec 10 n ltac:(lia) Hn) as (Hd & Hne & Hs). unfold scan_ulong.
  destruct (scan_plain n rest Hn) as [-> ->]. rewrite starts_digit_app by done. rewrite Hs by done. do 2 f_equal. lia.
Qed.

Lemma scan_long_fmt n rest : - 2 ^ 63 <= n < 2 ^ 63 → starts_digit 10 rest = false →
  scan_long (fmt_d n ++ rest) = Some (n, rest).
Proof.
  intros Hn Hr. unfold scan_long, fmt_d. destruct (Z.ltb_spec n 0).
  - destruct (fmt_unsigned_spec 10 (- n) ltac:(lia) ltac:(lia)) as (Hd & Hne & Hs).
    cbn [app skip_spaces]. change (is_space 45) with false. cbn [scan_sign].
    rewrite starts_digit_app by done. rewrite Hs by done. do 2 f_equal. unfold clamp64. lia.
  - destruct (fmt_unsigned_spec 10 n ltac:(lia) ltac:(lia)) as (Hd & Hne & Hs).
    destruct (scan_plain n rest ltac:(lia)) as [-> ->]. rewrite starts_digit_app by done. rewrite Hs by done. do 2 f_equal. unfold clamp64. lia.
Qed.

Lemma scan_int_fmt n rest : - 2 ^ 31 <= n < 2 ^ 31 → starts_digit 10 rest = false →
  scan_int (fmt_d n ++ rest) = Some (n, rest).
Proof. intros Hn Hr. unfold scan_int. rewrite scan_long_fmt by lia || done. cbn. by rewrite s32_small. Qed.

Lemma atol_fmt n : - 2 ^ 63 <= n < 2 ^ 63 → atol (fmt_d n) = n.
Proof. intros Hn. unfold atol. rewrite <- (app_nil_r (fmt_d n)). by rewrite scan_long_fmt. Qed.

Lemma atoi_fmt n : - 2 ^ 31 <= n < 2 ^ 31 → atoi (fmt_d n) = n.
Proof. intros Hn. unfold atoi. rewrite atol_fmt by lia. by apply s32_small. Qed.

(** Reading back what [0x%lx] printed. *)
Lemma scan_hex_fmt n rest : 0 <= n < 2 ^ 64 → starts_digit 16 rest = false →
  scan_hex (str "0x" ++ fmt_x n ++ rest) = Some (n, rest).
Proof.
  intros Hn Hr. destruct (fmt_unsigned_spec 16 n ltac:(lia) Hn) as (Hd & Hne & Hs).
  unfold scan_hex, fmt_x. change (str "0x") with [48; 120]. cbn [app skip_spaces]. change (is_space 48) with false.
  cbn [scan_sign skip_0x]. change ((120 =? 120) || (120 =? 88)) with true. cbn iota.
  rewrite starts_digit_app by done. rewrite Hs by done. do 2 f_equal. lia.
Qed.

(** What the digits of a number cannot be. *)
Lemma fmt_unsigned_not base c n : 2 <= base <= 36 → is_digit base c = false → 0 <= n < 2 ^ 64 → c ∉ fmt_unsigned base n.
Proof.
  intros Hb Hc Hn Hin. destruct (fmt_unsigned_spec base n Hb Hn) as (Hd & _ & _).
  rewrite Forall_forall in Hd. specialize (Hd c Hin). by rewrite Hc in Hd.
Qed.

Lemma split_on_cons c s : ∃ w ws, split_on c s = w :: ws.
Proof. induction s as [|a s (w & ws & E)]; cbn; [by eauto|]. rewrite E. case_match; eauto. Qed.

Lemma split_on_app c a s : c ∉ a → split_on c (a ++ c :: s) = a :: split_on c s.
Proof.
  induction a as [|x a IH]; intros H; cbn; [by rewrite Z.eqb_refl|].
  apply not_elem_of_cons in H as [Hx Ha]. rewrite (proj2 (Z.eqb_neq _ _)) by congruence. by rewrite IH.
Qed.

(** The lengths of numbers. *)
Lemma length_digits base (k : nat) n : 2 <= base <= 36 → 0 <= n < base ^ Z.of_nat k → (0 < k <= 64)%nat →
  (length (fmt_unsigned base n) <= k)%nat.
Proof.
  intros Hb Hn Hk. unfold fmt_unsigned.
  assert (H : ∀ fuel n acc k, (0 < k <= fuel)%nat → 0 <= n < base ^ Z.of_nat k →
    (length (print_digits base fuel n acc) <= k + length acc)%nat).
  { clear -Hb. induction fuel as [|fuel IH]; intros n acc k Hk Hn; [lia|]. cbn [print_digits].
    destruct (Z.eqb_spec (n / base) 0) as [E|E]; [cbn; lia|].
    destruct k as [|[|k]]; [lia|exfalso; apply E, Z.div_small; cbn in Hn; lia|].
    etransitivity; [apply (IH _ _ (S k)); [lia|]|cbn; lia].
    rewrite (Nat2Z.inj_succ (S k)), Z.pow_succ_r in Hn by lia. split; [apply Z.div_pos; lia|apply Z.div_lt_upper_bound; lia]. }
  pose proof (H 64%nat n [] k Hk Hn). cbn [length] in *. lia.
Qed.

Lemma length_fmt_d n : - 2 ^ 63 <= n < 2 ^ 63 → (length (fmt_d n) <= 20)%nat.
Proof.
  intros Hn. unfold fmt_d. destruct (Z.ltb_spec n 0).
  - cbn [length]. pose proof (length_digits 10 19 (- n) ltac:(lia) ltac:(cbn; lia) ltac:(lia)). lia.
  - pose proof (length_digits 10 19 n ltac:(lia) ltac:(cbn; lia) ltac:(lia)). lia.
Qed.

Lemma length_fmt_d_int n : - 2 ^ 31 <= n < 2 ^ 31 → (length (fmt_d n) <= 11)%nat.
Proof.
  intros Hn. unfold fmt_d. destruct (Z.ltb_spec n 0).
  - cbn [length]. pose proof (length_digits 10 10 (- n) ltac:(lia) ltac:(cbn; lia) ltac:(lia)). lia.
  - pose proof (length_digits 10 10 n ltac:(lia) ltac:(cbn; lia) ltac:(lia)). lia.
Qed.

Lemma length_fmt_x n : 0 <= n < 2 ^ 64 → (length (fmt_x n) <= 16)%nat.
Proof. intros Hn. apply length_digits; [lia|cbn; lia|lia]. Qed.
