(* ===== verification/Sched.v ===== *)
(** * Scheduling parameters (axiom_common_library/schedfuncs.c)

    The parameters that the option -S gives and that the master of axiom-run
    passes to its slaves as text. *)

From S2P Require Import Prelude Text.

(** Policies of the Linux headers. *)
Definition SCHED_OTHER : Z := 0.
Definition SCHED_FIFO : Z := 1.
Definition SCHED_RR : Z := 2.
Definition SCHED_BATCH : Z := 3.
Definition SCHED_IDLE : Z := 5.
Definition SCHED_DEADLINE : Z := 6.

(** The static variables [sched_policy], [sched_p0], [sched_p1], [sched_p2]. *)
Record sched := mk_sched { sched_policy : Z; sched_p0 : Z; sched_p1 : Z; sched_p2 : Z }.
Definition sched0 : sched := mk_sched SCHED_OTHER 0 0 0.

Definition set_p0 (v : Z) (s : sched) : sched := mk_sched (sched_policy s) v (sched_p1 s) (sched_p2 s).
Definition set_p1 (v : Z) (s : sched) : sched := mk_sched (sched_policy s) (sched_p0 s) v (sched_p2 s).
Definition set_p2 (v : Z) (s : sched) : sched := mk_sched (sched_policy s) (sched_p0 s) (sched_p1 s) v.

(** [snprintf] into a buffer of [size] bytes. *)
Definition snprintf (size : Z) (text : list Z) : list Z := take (Z.to_nat (size - 1)) text.

(** The text; [None]: nothing is written for an unknown policy. *)
Definition sch_text (s : sched) : option (list Z) :=
  let p := sched_policy s in
  if p =? SCHED_IDLE then Some (fmt_d p)
  else if (p =? SCHED_OTHER) || (p =? SCHED_BATCH) || (p =? SCHED_FIFO) || (p =? SCHED_RR) then
    Some (fmt_d p ++ str "," ++ fmt_unsigned 10 (sched_p0 s))
  else if p =? SCHED_DEADLINE then
    Some (fmt_d p ++ str "," ++ fmt_unsigned 10 (sched_p0 s) ++ str "u," ++ fmt_unsigned 10 (sched_p1 s) ++
          str "u," ++ fmt_unsigned 10 (sched_p2 s) ++ str "u")
  else None.

Definition sch_encodeopt (s : sched) (buf : list Z) (bufsize : Z) : list Z :=
  match sch_text s with Some t => snprintf bufsize t | None => buf end.

(** The name of a policy, when there is no number. *)
Definition policy_name (s : list Z) : option (Z * list Z) :=
  if has_prefix (str "OTHER") s then Some (SCHED_OTHER, drop 5 s)
  else if has_prefix (str "DEADLINE") s then Some (SCHED_DEADLINE, drop 8 s)
  else if has_prefix (str "FIFO") s then Some (SCHED_FIFO, drop 4 s)
  else if has_prefix (str "BATCH") s then Some (SCHED_BATCH, drop 5 s)
  else if has_prefix (str "IDLE") s then Some (SCHED_IDLE, drop 4 s)
  else if has_prefix (str "RR") s then Some (SCHED_RR, drop 2 s)
  else None.

(** A number with its unit: the value, whether it is a percentage, the rest.  117
    is 'u', 109 is 'm' and 37 is '%'. *)
Definition unit_value (deadline percent_ok : bool) (v : Z) (s : list Z) : Z * bool * list Z :=
  if deadline then
    match s with
    | c :: s' =>
        if c =? 117 then (v, false, s')
        else if c =? 109 then (u64 (v * 1000), false, s')
        else if percent_ok && (c =? 37) then (v, true, s')
        else (u64 (v * (1000 * 1000)), false, s)
    | [] => (u64 (v * (1000 * 1000)), false, s)
    end
  else (v, false, s).

(** The defaults when there is only a policy. *)
Definition sch_defaults (s : sched) : sched :=
  let p := sched_policy s in
  if (p =? SCHED_OTHER) || (p =? SCHED_BATCH) then set_p0 0 s
  else if (p =? SCHED_FIFO) || (p =? SCHED_RR) then set_p0 1 s
  else if p =? SCHED_DEADLINE then mk_sched p (100 * 1000) (995 * 1000) (1000 * 1000)
  else s.

(** A further parameter after [end]; [set] stores it.  The result is [None] for
    an error, with the variables as they are then. *)
Definition sch_param (set : Z → sched → sched) (percent_ok : bool) (s : sched) (rest : list Z)
    : sched * option (bool * list Z) :=
  match rest with
  | [] => (s, Some (false, []))
  | c :: start =>
      if negb (c =? 44) then (s, None) else
      match scan_long start with
      | None => (set 0 s, None)
      | Some (n, rest) =>
          let '(v, per, rest) := unit_value (sched_policy s =? SCHED_DEADLINE) percent_ok (u64 n) rest in
          (set v s, Some (per, rest))
      end
  end.

(** 0 or -1 and the new variables. *)
Definition sch_decodeopt (optarg : option (list Z)) (s : sched) : Z * sched :=
  match optarg with
  | None => (0, s)
  | Some start =>
      let first := match scan_long start with
        | Some (n, rest) => Some (s32 n, rest)
        | None => policy_name start
        end in
      match first with
      | None => (-1, mk_sched 0 (sched_p0 s) (sched_p1 s) (sched_p2 s))
      | Some (policy, rest) =>
          let s := mk_sched policy (sched_p0 s) (sched_p1 s) (sched_p2 s) in
          let '(s, r0) := match rest with
            | [] => (sch_defaults s, Some (false, []))
            | _ => sch_param set_p0 true s rest
            end in
          match r0 with None => (-1, s) | Some (per, rest) =>
          let '(s, r1) := sch_param set_p1 false s rest in
          match r1 with None => (-1, s) | Some (_, rest) =>
          let '(s, r2) := sch_param set_p2 false s rest in
          match r2 with None => (-1, s) | Some (_, rest) =>
          match rest with
          | _ :: _ => (-1, s)
          | [] => (0, if per : bool then set_p0 (u64 (sched_p0 s * sched_p2 s) / 100) s else s)
          end end end end
      end
  end.

(** The attributes that [sch_setsched] passes to the system. *)
Record sched_attr := mk_attr {
  a_policy : Z; a_nice : Z; a_priority : Z; a_runtime : Z; a_deadline : Z; a_period : Z
}.

Definition sch_setsched (s : sched) : sched_attr :=
  let p := sched_policy s in
  if (p =? SCHED_OTHER) || (p =? SCHED_BATCH) then mk_attr (u32 p) (s32 (sched_p0 s)) 0 0 0 0
  else if (p =? SCHED_FIFO) || (p =? SCHED_RR) then mk_attr (u32 p) 0 (u32 (sched_p0 s)) 0 0 0
  else if p =? SCHED_DEADLINE then
    mk_attr (u32 p) 0 0 (u64 (sched_p0 s * 1000)) (u64 (sched_p1 s * 1000)) (u64 (sched_p2 s * 1000))
  else mk_attr (u32 p) 0 0 0 0 0.

(** ** The text carries the parameters *)

Lemma snprintf_fits size t : (length t < Z.to_nat size)%nat → snprintf size t = t.
Proof. intros H. unfold snprintf. apply take_ge. lia. Qed.

Definition known_policy (p : Z) : Prop := p ∈ [SCHED_OTHER; SCHED_FIFO; SCHED_RR; SCHED_BATCH; SCHED_IDLE; SCHED_DEADLINE].

(** Parameters as the option can give them. *)
Definition sched_ok (s : sched) : Prop :=
  known_policy (sched_policy s) ∧ 0 <= sched_p0 s < 2 ^ 63 ∧ 0 <= sched_p1 s < 2 ^ 63 ∧ 0 <= sched_p2 s < 2 ^ 63.

Lemma fmt_unsigned_long n rest : 0 <= n < 2 ^ 63 → starts_digit 10 rest = false →
  scan_long (fmt_unsigned 10 n ++ rest) = Some (n, rest).
Proof.
  intros Hn Hr. rewrite <- (scan_long_fmt n rest) by (lia || done). unfold fmt_d.
  by destruct (Z.ltb_spec n 0); [lia|].
Qed.

Lemma sch_param_plain set pc s n : sched_policy s ≠ SCHED_DEADLINE → 0 <= n < 2 ^ 63 →
  sch_param set pc s (str "," ++ fmt_unsigned 10 n) = (set n s, Some (false, [])).
Proof.
  intros Hp Hn. unfold sch_param. change (str ",") with [44]. cbn [app Z.eqb Pos.eqb negb].
  rewrite <- (app_nil_r (fmt_unsigned 10 n)), fmt_unsigned_long by done.
  rewrite (proj2 (Z.eqb_neq _ _) Hp). cbn. by rewrite u64_small by lia.
Qed.

Lemma sch_param_deadline set pc s n rest : sched_policy s = SCHED_DEADLINE → 0 <= n < 2 ^ 63 →
  sch_param set pc s (str "," ++ fmt_unsigned 10 n ++ str "u" ++ rest) = (set n s, Some (false, rest)).
Proof.
  intros Hp Hn. unfold sch_param. change (str ",") with [44]. change (str "u") with [117]. cbn [app Z.eqb Pos.eqb negb].
  rewrite fmt_unsigned_long by done. rewrite Hp, Z.eqb_refl. cbn. by rewrite u64_small by lia.
Qed.

Lemma sch_decode_encode s s0 buf bufsize t : sched_ok s → sch_text s = Some t → alen t < bufsize →
  let '(ret, s') := sch_decodeopt (Some (sch_encodeopt s buf bufsize)) s0 in
  ret = 0 ∧ sch_setsched s' = sch_setsched s.
Proof.
  intros (Hp & H0 & H1 & H2) Ht Hfit. unfold sch_encodeopt. rewrite Ht. unfold snprintf.
  rewrite take_ge by (unfold alen in Hfit; lia). clear Hfit.
  destruct s as [p p0 p1 p2]. unfold sch_text in Ht. cbn [sched_policy sched_p0 sched_p1 sched_p2] in *.
  assert (Hpol : ∀ rest, starts_digit 10 rest = false → scan_long (fmt_d p ++ rest) = Some (p, rest) ∧ s32 p = p).
  { intros rest Hr. assert (0 <= p < 7) by (unfold known_policy in Hp; repeat (apply elem_of_cons in Hp as [->|Hp]; [done|]); by apply not_elem_of_nil in Hp).
    split; [apply scan_long_fmt; [lia|done]|apply s32_small; lia]. }
  clear Hp. destruct (Z.eqb_spec p SCHED_IDLE) as [->|Hidle].
  { apply (inj Some) in Ht; subst t. vm_compute. done. }
  destruct ((p =? SCHED_OTHER) || (p =? SCHED_BATCH) || (p =? SCHED_FIFO) || (p =? SCHED_RR)) eqn:Eplain.
  - apply (inj Some) in Ht; subst t.
    assert (Hd : p ≠ SCHED_DEADLINE) by (by intros ->).
    unfold sch_decodeopt. destruct (Hpol (str "," ++ fmt_unsigned 10 p0) eq_refl) as [-> ->].
    change (match str "," ++ fmt_unsigned 10 p0 with [] => _ | _ :: _ => ?x end) with x.
    rewrite sch_param_plain by done. split; [done|].
    unfold sch_setsched. cbn. by rewrite (proj2 (Z.eqb_neq _ _) Hd).
  - destruct (Z.eqb_spec p SCHED_DEADLINE) as [->|]; [|done]. apply (inj Some) in Ht; subst t.
    set (rest := str "," ++ _) in *.
    assert (Hrest : rest = str "," ++ fmt_unsigned 10 p0 ++ str "u" ++ str "," ++ fmt_unsigned 10 p1 ++ str "u" ++
      str "," ++ fmt_unsigned 10 p2 ++ str "u" ++ []) by done.
    unfold sch_decodeopt. destruct (Hpol rest eq_refl) as [-> ->].
    change (match rest with [] => _ | _ :: _ => ?x end) with x. rewrite Hrest.
    do 3 (rewrite sch_param_deadline by done). done.
Qed.

(** The scheduling option survives its way to the slaves: when the text fits
    the buffer, the slave that decodes what the master encoded, whatever its
    variables were, succeeds and sets exactly the same attributes for its
    threads. *)
Theorem sched_roundtrip s s0 buf bufsize t : sched_ok s → sch_text s = Some t → alen t < bufsize →
  let '(ret, s') := sch_decodeopt (Some (sch_encodeopt s buf bufsize)) s0 in
  ret = 0 ∧ sch_setsched s' = sch_setsched s.
Proof. apply sch_decode_encode. Qed.

(** ** Evaluation *)

(** A negative nice value is printed as a large number, which the slave reads as
    the greatest one: the option does not survive. *)
Example nice_is_lost :
  let s := (sch_decodeopt (Some (str "OTHER,-5")) sched0).2 in
  a_nice (sch_setsched s) = -5 ∧
  a_nice (sch_setsched (sch_decodeopt (Some (sch_encodeopt s [] 64)) sched0).2) = -1.
Proof. vm_compute. done. Qed.

Lemma sched_roundtrip_witness :
  let '(ret, s') := sch_decodeopt (Some (sch_encodeopt (mk_sched SCHED_DEADLINE 100000 995000 1000000) [] 64)) sched0 in
  ret = 0 ∧ sch_setsched s' = mk_attr 6 0 0 100000000 995000000 1000000000.
Proof.
  apply (sched_roundtrip (mk_sched SCHED_DEADLINE 100000 995000 1000000) sched0 [] 64
    (str "6,100000u,995000u,1000000u")); [|reflexivity|vm_compute; reflexivity].
  split; [unfold known_policy; cbn; set_solver|]. cbn. lia.
Defined.
