(* ===== verification/InitMain.v ===== *)
(** * The program axiom-init (axiom-init.c, main) and its allocator service

    The options, the set-up of the device and of the Unix socket, the way to the
    main loop of [Daemon] and the end of the program; and the handler of
    axiom_allocator_l1.c, which serves the allocator messages of that loop. *)

From S2P Require Import Prelude Nic Daemon Text Sched.

(** ** The options *)

(** [main]: files are the names in the two arrays; [None] is an array nobody has
    written to. *)
Record init_opts := mk_init_opts {
  io_master : bool;
  io_nodeid : option Z;
  io_rt : bool;
  io_save : bool;
  io_rt_filename : option (list Z);
  io_rt_save_filename : option (list Z);
  io_verbose : bool;
  io_sched : sched
}.
Definition init_opts0 : init_opts := mk_init_opts false None false false None None false sched0.

(** The name is copied to an array of 1024 bytes whose last one is not used. *)
Definition copy_name (s : list Z) : list Z := snprintf 1023 s.

(** One option, as the letters [getopt_long] gives with their arguments, which only
    --sched can lack; [inr] is an exit code.  [sch_decodeopt] calls [_usage], which
    exits, before every return of -1. *)
Definition init_option (o : init_opts) (v : Z * option (list Z)) : init_opts + Z :=
  let c := v.1 in let arg := default [] v.2 in
  if c =? 83 then
    let '(r, s) := sch_decodeopt v.2 (io_sched o) in
    if r =? -1 then inr (-1) else
    inl (mk_init_opts (io_master o) (io_nodeid o) (io_rt o) (io_save o) (io_rt_filename o)
      (io_rt_save_filename o) (io_verbose o) s)
  else if c =? 109 then inl (mk_init_opts true (io_nodeid o) (io_rt o) (io_save o) (io_rt_filename o)
    (io_rt_save_filename o) (io_verbose o) (io_sched o))
  else if c =? 110 then
    match scan_u8 arg with
    | None => inr (-1)
    | Some (n, _) => inl (mk_init_opts (io_master o) (Some n) (io_rt o) (io_save o) (io_rt_filename o)
        (io_rt_save_filename o) (io_verbose o) (io_sched o))
    end
  else if c =? 114 then inl (mk_init_opts (io_master o) (io_nodeid o) true (io_save o) (Some (copy_name arg))
    (io_rt_save_filename o) (io_verbose o) (io_sched o))
  else if c =? 115 then inl (mk_init_opts (io_master o) (io_nodeid o) (io_rt o) true (io_rt_filename o)
    (Some (copy_name arg)) (io_verbose o) (io_sched o))
  else if c =? 118 then inl (mk_init_opts (io_master o) (io_nodeid o) (io_rt o) (io_save o) (io_rt_filename o)
    (io_rt_save_filename o) true (io_sched o))
  else if c =? 86 then inr 0
  else inr (-1).

Fixpoint init_options (o : init_opts) (l : list (Z * option (list Z))) : init_opts + Z :=
  match l with
  | [] => inl o
  | v :: l => match init_option o v with inl o => init_options o l | inr code => inr code end
  end.

(** ** The set-up *)

(** The calls of [main]; those whose failure is looked at give whether they
    succeeded.  [n_rt_to_file] and [n_rt_from_file] are the functions of [RtFile],
    [n_loop] is the main loop of [Daemon]. *)
Class InitDev (D : Type) := {
  n_setsched : sched → M D bool;
  n_open : M D bool;
  n_bind : M D bool;
  n_spawn_init : M D unit;
  n_allocator_init : M D unit;
  n_set_node_id : Z → M D unit;
  n_discovery_master : M D unit;
  n_rt_to_file : option (list Z) → M D bool;
  n_rt_from_file : option (list Z) → M D bool;
  n_socket : M D bool;
  n_unlink : M D unit;
  n_bind_socket : M D bool;
  n_chmod : M D bool;
  n_get_fds : M D bool;
  n_close_socket : M D unit;
  n_close : M D unit;
  n_loop : bool → option (list Z) → M D unit
}.

Section Code.
Context {D : Type} `{ID : InitDev D}.

(** The routing table: whether to go on. *)
Definition init_routing (o : init_opts) : M D bool :=
  if io_master o then
    n_discovery_master ;; (if io_save o then n_rt_to_file (io_rt_filename o) else mret true)
  else if io_rt o then
    ok ← n_rt_from_file (io_rt_filename o);
    if negb ok then mret false else (if io_save o then n_rt_to_file (io_rt_filename o) else mret true)
  else mret true.

Definition init_socket : M D bool :=
  ok ← n_socket;
  if negb ok then n_close ;; mret false else
  n_unlink ;;
  ok ← n_bind_socket;
  if negb ok then n_close_socket ;; n_close ;; mret false else
  ok ← n_chmod;
  if negb ok then n_close_socket ;; n_unlink ;; n_close ;; mret false else
  ok ← n_get_fds;
  if negb ok then n_close_socket ;; n_unlink ;; n_close ;; mret false else
  mret true.

(** [main] after the port is bound. *)
Definition init_run (o : init_opts) : M D Z :=
  n_spawn_init ;; n_allocator_init ;;
  (match io_nodeid o with Some n => n_set_node_id n | None => mret tt end) ;;
  ok ← init_routing o;
  if negb ok then n_close ;; mret (-1) else
  ok ← init_socket;
  if negb ok then mret (-1) else
  n_loop (io_save o) (io_rt_filename o) ;;
  n_close_socket ;; n_unlink ;; n_close ;; mret 0.

Definition init_main (args : list (Z * option (list Z))) : M D Z :=
  match init_options init_opts0 args with
  | inr code => mret code
  | inl o =>
      ok ← n_setsched (io_sched o);
      if negb ok then mret (-1) else
      ok ← n_open;
      if negb ok then mret (-1) else
      ok ← n_bind;
      if negb ok then mret (-1) else init_run o
  end.
End Code.

(** ** What is left behind *)

(** A system in which calls fail as a script says: whether the device and the
    socket are open and the name of the socket exists, and the calls that the tables
    saw. *)
Inductive init_act :=
  | ActSpawnInit | ActAllocInit | ActSetNodeId (n : Z) | ActDiscovery
  | ActSave (file : option (list Z)) | ActLoad (file : option (list Z)) | ActLoop (save : bool) (file : option (list Z)).

Record initsim := mk_initsim {
  in_fails : list bool;
  in_dev : bool;
  in_sock : bool;
  in_name : bool;
  in_acts : list init_act
}.

Definition in_do (a : init_act) : M initsim unit := fun d =>
  Ret tt (mk_initsim (in_fails d) (in_dev d) (in_sock d) (in_name d) (in_acts d ++ [a])).
(** The next call: [good] when it succeeds. *)
Definition in_try (good : initsim → initsim) : M initsim bool := fun d =>
  match in_fails d with
  | true :: l => Ret false (mk_initsim l (in_dev d) (in_sock d) (in_name d) (in_acts d))
  | _ => Ret true (good (mk_initsim (tail (in_fails d)) (in_dev d) (in_sock d) (in_name d) (in_acts d)))
  end.
Definition in_set (f : initsim → initsim) : M initsim unit := fun d => Ret tt (f d).

Definition set_dev (b : bool) (d : initsim) := mk_initsim (in_fails d) b (in_sock d) (in_name d) (in_acts d).
Definition set_sock (b : bool) (d : initsim) := mk_initsim (in_fails d) (in_dev d) b (in_name d) (in_acts d).
Definition set_name (b : bool) (d : initsim) := mk_initsim (in_fails d) (in_dev d) (in_sock d) b (in_acts d).

#[export] Instance initsim_dev : InitDev initsim := {|
  n_setsched _ := in_try id;
  n_open := in_try (set_dev true);
  n_bind := in_try id;
  n_spawn_init := in_do ActSpawnInit;
  n_allocator_init := in_do ActAllocInit;
  n_set_node_id n := in_do (ActSetNodeId n);
  n_discovery_master := in_do ActDiscovery;
  n_rt_to_file f := in_do (ActSave f) ;; in_try id;
  n_rt_from_file f := in_do (ActLoad f) ;; in_try id;
  n_socket := in_try (set_sock true);
  n_unlink := in_set (set_name false);
  n_bind_socket := in_try (set_name true);
  n_chmod := in_try id;
  n_get_fds := in_try id;
  n_close_socket := in_set (set_sock false);
  n_close := in_set (set_dev false);
  n_loop s f := in_do (ActLoop s f)
|}.

Section Theorems.

Lemma in_try_cases good d : (∃ l, in_try good d = Ret false (mk_initsim l (in_dev d) (in_sock d) (in_name d) (in_acts d))) ∨
  ∃ l, in_try good d = Ret true (good (mk_initsim l (in_dev d) (in_sock d) (in_name d) (in_acts d))).
Proof. unfold in_try. destruct (in_fails d) as [|[] l]; [right|left|right]; by eexists. Qed.

(** One call of the set-up; its two outcomes are two goals. *)
Ltac try_call := match goal with
  | |- context [in_try ?g ?d] => destruct (in_try_cases g d) as [[? ->]|[? ->]]
  end; cbn -[in_try init_options].
Ltac run := cbn -[in_try init_options]; unfold mbind, M_bind, mret, M_ret, in_set, in_do; cbn -[in_try init_options].

(** The files that are written and read. *)
Definition act_file (a : init_act) : option (option (list Z)) :=
  match a with ActSave f | ActLoad f => Some f | ActLoop true f => Some f | _ => None end.

Lemma routing_run o d : ∃ ok l acts, init_routing o d = Ret ok (mk_initsim l (in_dev d) (in_sock d) (in_name d) (in_acts d ++ acts)) ∧
  Forall (fun a => match act_file a with Some f => f = io_rt_filename o | None => True end) acts.
Proof.
  unfold init_routing.
  assert (Hnone : ∃ ok l acts, (Ret true d : outcome initsim bool) =
      Ret ok (mk_initsim l (in_dev d) (in_sock d) (in_name d) (in_acts d ++ acts)) ∧
    Forall (fun a => match act_file a with Some f => f = io_rt_filename o | None => True end) acts).
  { exists true, (in_fails d), []. rewrite app_nil_r. split; [by destruct d|by apply Forall_nil]. }
  destruct (io_master o), (io_rt o), (io_save o); try exact Hnone; run; repeat (try_call; run);
    (eexists _, _, _; split; [rewrite <- ?app_assoc; reflexivity|]; cbn [app];
     repeat (apply Forall_cons; split; [done|]); by apply Forall_nil).
Qed.

(** After the set-up of the socket: everything is open, or all is closed again and
    the name is gone, unless the failure came before it could exist. *)
Lemma socket_run d : in_sock d = false → ∃ l ok n,
  init_socket d = Ret ok (mk_initsim l (ok && in_dev d) ok n (in_acts d)) ∧ (ok = false → n = true → in_name d = true).
Proof.
  intros Hs. unfold init_socket. run.
  repeat (try_call; run); try (eexists _, false, _; split; [cbn; rewrite ?Hs; reflexivity|done]).
  eexists _, true, _. split; [cbn; reflexivity|done].
Qed.

(** The routing tables that a run reads and writes. *)
Definition files_ok (o : init_opts) (acts : list init_act) : Prop :=
  Forall (fun a => match act_file a with Some f => f = io_rt_filename o | None => True end) acts.

Lemma init_run_ends o d : in_sock d = false →
  ∃ code l n acts, init_run o d = Ret code (mk_initsim l false false n (in_acts d ++ acts)) ∧
    (n = true → in_name d = true) ∧ files_ok o acts.
Proof.
  intros Hs. set (pre := [ActSpawnInit; ActAllocInit] ++ match io_nodeid o with Some k => [ActSetNodeId k] | None => [] end).
  assert (Hpre : files_ok o pre).
  { unfold pre, files_ok. destruct (io_nodeid o); repeat (apply Forall_cons; split; [done|]); by apply Forall_nil. }
  assert (Hdo : ∀ a d0, in_do a d0 = Ret tt (mk_initsim (in_fails d0) (in_dev d0) (in_sock d0) (in_name d0) (in_acts d0 ++ [a]))) by done.
  unfold init_run. cbn [n_spawn_init n_allocator_init initsim_dev].
  rewrite (bind_ret _ _ _ _ _ (Hdo _ _)), (bind_ret _ _ _ _ _ (Hdo _ _)). cbn [in_fails in_dev in_sock in_name in_acts].
  rewrite (bind_ret _ _ _ tt (mk_initsim (in_fails d) (in_dev d) (in_sock d) (in_name d) (in_acts d ++ pre))).
  2:{ unfold pre. destruct (io_nodeid o); unfold mret, M_ret; cbn; unfold in_do; cbn; rewrite <- ?app_assoc; reflexivity. }
  clearbody pre.
  destruct (routing_run o (mk_initsim (in_fails d) (in_dev d) (in_sock d) (in_name d) (in_acts d ++ pre)))
    as (ok & l & acts & Hrun & Hf). rewrite (bind_ret _ _ _ _ _ Hrun). cbn [in_dev in_sock in_name in_acts].
  destruct ok; cbn [negb].
  2:{ exists (-1), l, (in_name d), (pre ++ acts). cbn. rewrite Hs, <- app_assoc. split; [done|]. split; [done|]. by apply (proj2 (Forall_app _ pre acts)). }
  destruct (socket_run (mk_initsim l (in_dev d) (in_sock d) (in_name d) ((in_acts d ++ pre) ++ acts)) Hs)
    as (l2 & ok & n & Hsock & Hn). rewrite (bind_ret _ _ _ _ _ Hsock). cbn [in_dev in_name in_acts] in *.
  destruct ok; cbn [negb].
  - eexists 0, l2, false, (pre ++ acts ++ [ActLoop (io_save o) (io_rt_filename o)]). rewrite !app_assoc.
    split; [reflexivity|]. split; [done|]. apply Forall_app; split; [by apply Forall_app|].
    apply Forall_singleton. cbn. by destruct (io_save o).
  - eexists (-1), l2, n, (pre ++ acts). cbn. rewrite <- !app_assoc. split; [done|]. split; [by apply Hn|]. by apply (proj2 (Forall_app _ pre acts)).
Qed.

Arguments init_run : simpl never.

(** The program from its options to its end, whichever calls fail: it returns, the
    Unix socket is closed, its name does not exist unless it did before and the
    set-up did not come that far, and the device is closed unless its port could not
    be bound, when nothing has been done.  Every file that is read or written is the
    one of --routing: a table is never saved to the file of --save. *)
Theorem init_main_ends args d : in_dev d = false → in_sock d = false →
  ∃ code d' acts, init_main args d = Ret code d' ∧ in_sock d' = false ∧ (in_name d' = true → in_name d = true) ∧
    in_acts d' = in_acts d ++ acts ∧ (in_dev d' = true → acts = []) ∧
    match init_options init_opts0 args with inl o => files_ok o acts | inr c => code = c ∧ acts = [] end.
Proof.
  intros Hdev Hsock. unfold init_main. destruct (init_options init_opts0 args) as [o|c].
  2:{ exists c, d, []. rewrite app_nil_r, Hdev. done. }
  assert (Hearly : ∀ l dev, ∃ code d' acts,
    (Ret (-1) (mk_initsim l dev (in_sock d) (in_name d) (in_acts d)) : outcome initsim Z) = Ret code d' ∧ in_sock d' = false ∧
    (in_name d' = true → in_name d = true) ∧ in_acts d' = in_acts d ++ acts ∧ (in_dev d' = true → acts = []) ∧ files_ok o acts).
  { intros l dev. eexists _, _, []. split; [done|]. cbn. rewrite app_nil_r. split_and!; try done. by apply Forall_nil. }
  do 3 (unfold mbind at 1, M_bind at 1; cbn -[in_try init_run]; try_call; [apply Hearly|]).
  match goal with |- context [init_run o ?d1] => destruct (init_run_ends o d1 Hsock) as (code & l & n & acts & -> & Hn & Hf) end.
  by eexists _, _, acts.
Qed.
End Theorems.

(** ** The allocator service (axiom_allocator_l1.c) *)

(** The message: its command, the port for the reply and the data of the allocator,
    whose type the library fixes. *)
Class AllocL1Consts := {
  AXIOM_CMD_ALLOC_APPID_REPLY : Z;
  AXIOM_CMD_ALLOC_REPLY_L1 : Z
}.

Record al1_payload (I : Type) := mk_al1_payload { ap_command : Z; ap_reply_port : Z; ap_info : I }.
Arguments mk_al1_payload {I}.
Arguments ap_command {I}.
Arguments ap_reply_port {I}.
Arguments ap_info {I}.

(** The calls of the library: whether to reply, with the data as the call leaves
    them; and the reply with node, port and message. *)
Class AllocL1Dev (I D : Type) := {
  axiom_al1_init : M D unit;
  axiom_al1_alloc_appid : I → M D (Z * I);
  axiom_al1_alloc : I → M D (Z * I);
  axiom_al1_release : I → M D (Z * I);
  al1_set_error : Z → I → I;
  al1_send : Z → Z → al1_payload I → M D Z
}.

Section Allocator.
Context `{CN : NicConsts} `{IC : InitConsts} `{LC : AllocL1Consts} {I D : Type} `{AD : AllocL1Dev I D}.

Definition axiom_allocator_l1_init : M D unit := axiom_al1_init.

Definition axiom_allocator_l1 (src : Z) (p : al1_payload I) : M D unit :=
  let cmd := ap_command p in
  '(reply, p) ←
    (if cmd =? AXIOM_CMD_ALLOC_APPID then
       r ← axiom_al1_alloc_appid (ap_info p);
       mret (r.1, mk_al1_payload AXIOM_CMD_ALLOC_APPID_REPLY (ap_reply_port p) r.2)
     else if cmd =? AXIOM_CMD_ALLOC then
       r ← axiom_al1_alloc (ap_info p);
       mret (r.1, mk_al1_payload AXIOM_CMD_ALLOC_REPLY_L1 (ap_reply_port p) r.2)
     else if cmd =? AXIOM_CMD_ALLOC_RELEASE then
       r ← axiom_al1_release (ap_info p);
       mret (r.1, mk_al1_payload cmd (ap_reply_port p) r.2)
     else mret (1, mk_al1_payload cmd (ap_reply_port p) (al1_set_error AXIOM_RET_ERROR (ap_info p))));
  if reply =? 0 then mret tt else _ ← al1_send src (ap_reply_port p) p; mret tt.
End Allocator.

(** The library as a function, with the replies in a log. *)
Section AllocatorSpec.
Context `{CN : NicConsts} {CNOK : NicConstsOk} `{IC : InitConsts} `{LC : AllocL1Consts} {I : Type}.
Context (appid alloc release : I → Z * I) (set_error : Z → I → I).

#[local] Instance al1_sim : AllocL1Dev I (list (Z * Z * al1_payload I)) := {|
  axiom_al1_init := mret tt;
  axiom_al1_alloc_appid i := mret (appid i);
  axiom_al1_alloc i := mret (alloc i);
  axiom_al1_release i := mret (release i);
  al1_set_error := set_error;
  al1_send node port p d := Ret AXIOM_RET_OK (d ++ [(node, port, p)])
|}.

(** What a request asks for: the answer of the library and the command of the
    reply; a command that is none is answered with an error. *)
Definition al1_answer (cmd : Z) (i : I) : Z * Z * I :=
  if cmd =? AXIOM_CMD_ALLOC_APPID then ((appid i).1, AXIOM_CMD_ALLOC_APPID_REPLY, (appid i).2)
  else if cmd =? AXIOM_CMD_ALLOC then ((alloc i).1, AXIOM_CMD_ALLOC_REPLY_L1, (alloc i).2)
  else if cmd =? AXIOM_CMD_ALLOC_RELEASE then ((release i).1, cmd, (release i).2)
  else (1, cmd, set_error AXIOM_RET_ERROR i).

(** One request of the main loop has at most one reply; it goes to the node of the
    request, at the port the request names, and it is sent exactly when the library
    has something to say. *)
Theorem allocator_l1_answers src p d :
  let '(reply, cmd, i) := al1_answer (ap_command p) (ap_info p) in
  axiom_allocator_l1 src p d =
    Ret tt (if reply =? 0 then d else d ++ [(src, ap_reply_port p, mk_al1_payload cmd (ap_reply_port p) i)]).
Proof.
  unfold al1_answer, axiom_allocator_l1. destruct p as [cmd port i]. cbn [ap_command ap_reply_port ap_info].
  destruct (cmd =? AXIOM_CMD_ALLOC_APPID); [|destruct (cmd =? AXIOM_CMD_ALLOC); [|destruct (cmd =? AXIOM_CMD_ALLOC_RELEASE)]];
    unfold mbind, M_bind, mret, M_ret; cbn; try done; by destruct (_ =? 0).
Qed.
End AllocatorSpec.

(** ** Evaluation *)

Section Examples.

(** axiom-init -m -r a -s b: the table of the master is saved to a. *)
Definition ex_args : list (Z * option (list Z)) := [(109, None); (114, Some (str "a")); (115, Some (str "b"))].

Lemma init_main_ends_witness : ∃ code d' acts,
  init_main ex_args (mk_initsim [] false false true []) = Ret code d' ∧ in_sock d' = false ∧ in_acts d' = [] ++ acts ∧
  match init_options init_opts0 ex_args with
  | inl o => files_ok o acts ∧ io_rt_save_filename o = Some (str "b") ∧ io_rt_filename o = Some (str "a")
  | inr _ => False end.
Proof.
  destruct (init_main_ends ex_args (mk_initsim [] false false true []) eq_refl eq_refl)
    as (code & d' & acts & Hrun & Hs & _ & Ha & _ & Hf).
  exists code, d', acts. split; [exact Hrun|]. split; [exact Hs|]. split; [exact Ha|].
  split; [exact Hf|]. split; reflexivity.
Defined.

Example init_saves_to_a : match init_main ex_args (mk_initsim [] false false true []) with
  | Ret code d' => code = 0 ∧ in_name d' = false ∧
      in_acts d' = [ActSpawnInit; ActAllocInit; ActDiscovery; ActSave (Some (str "a")); ActLoop true (Some (str "a"))]
  | Stuck _ _ => False end.
Proof. vm_compute. done. Qed.

(** Without -r the name of the file is whatever the array holds. *)
Example init_saves_nowhere : match init_main [(109, None); (115, Some (str "b"))] (mk_initsim [] false false true []) with
  | Ret _ d' => in_acts d' = [ActSpawnInit; ActAllocInit; ActDiscovery; ActSave None; ActLoop true None]
  | Stuck _ _ => False end.
Proof. vm_compute. done. Qed.
End Examples.
