(* ===== verification/RunNodes.v ===== *)
(** * Sets of nodes of axiom-run (axiom-run/axiom-run.c)

    The arguments that name nodes, and the nodes a session uses. *)

From S2P Require Import Prelude Text Nic Output RunMsg.

(** ** Sets of nodes *)

Definition MAX_NODES_SUPPORTED : Z := 63.
Definition ALL_NODES : Z := 0xfffffffffffffffe.

Definition ALL_NODES_MASK (x : Z) : Z :=
  if MAX_NODES_SUPPORTED <=? x then 0xfffffffffffffffe else u64 (Z.shiftl (u64 (Z.shiftl 1 x - 1)) 1).

(** [sscanf(s, "%d-%d", &a, &b) == 2] *)
Definition scan_range (s : list Z) : option (Z * Z) :=
  '(a, s) ← scan_int s;
  match s with 45 :: s => '(b, _) ← scan_int s; Some (a, b) | _ => None end.

(** One part of the argument; [None]: the program exits with a message. *)
Definition decode_node (r : Z) (s : list Z) : option Z :=
  if strchr 45 s then
    '(a, b) ← scan_range s;
    if (a <? 1) || (b <? a) || (Output.MAX_NUM_NODES <? b) then None
    else if b - a + 1 =? Output.MAX_NUM_NODES then Some ALL_NODES
    else Some (Z.lor r (u64 (Z.shiftl (u64 (Z.shiftl 1 (b - a + 1) - 1)) a)))
  else
    '(a, _) ← scan_int s;
    if (a <? 1) || (Output.MAX_NUM_NODES <? a) then None else Some (Z.lor r (u64 (Z.shiftl 1 a))).

Fixpoint decode_nodes (r : Z) (l : list (list Z)) : option Z :=
  match l with [] => Some r | s :: l => r ← decode_node r s; decode_nodes r l end.

Definition decode_node_arg (arg : list Z) : option Z :=
  if has_prefix (str "0x") arg then fst <$> scan_hex arg
  else decode_nodes 0 (strtok 44 arg).

(** The nodes before the first colon and the port after it. *)
Definition decode_gdb_arg (arg : list Z) : option (Z * Z) :=
  match split_on 58 arg with
  | a :: _ :: _ =>
      nodes ← decode_node_arg a;
      Some (nodes, atoi (drop (S (length a)) arg))
  | _ => None
  end.

(** [__clz]: the loop over the 64 bits. *)
Fixpoint clz_loop (fuel : nat) (n c : Z) : Z :=
  match fuel with
  | O => c
  | S fuel =>
      if n =? 0 then c
      else if negb (Z.land n 0x8000000000000000 =? 0) then c
      else clz_loop fuel (u64 (Z.shiftl n 1)) (c + 1)
  end.
Definition clz (n : Z) : Z := if n =? 0 then 64 else clz_loop 65 n 0.

(** The nodes the master uses, from those of the options and the number of nodes
    of the network.  The assertion behind it, that there is one, is a branch of
    [RunTop.run_session], which aborts without. *)
Definition used_nodes (nodes num_nodes : Z) : Z :=
  let n := if Output.MAX_NUM_NODES <? num_nodes then Output.MAX_NUM_NODES else num_nodes in
  let nodes := if nodes =? 0 then ALL_NODES_MASK n else nodes in
  let bn := MAX_NODES_SUPPORTED - clz nodes - 1 in
  if n <? bn then Z.land nodes (ALL_NODES_MASK n) else nodes.

(** ** The argument of -n *)

Section NodeArg.

(** A part of the argument: a node or a range of nodes. *)
Inductive node_item := Single (a : Z) | Range (a b : Z).

Definition item_text (it : node_item) : list Z :=
  match it with Single a => fmt_d a | Range a b => fmt_d a ++ 45 :: fmt_d b end.

(** The parts separated by commas. *)
Fixpoint nodes_text (items : list node_item) : list Z :=
  match items with
  | [] => []
  | [it] => item_text it
  | it :: items => item_text it ++ 44 :: nodes_text items
  end.

Definition item_first (it : node_item) : Z := match it with Single a | Range a _ => a end.
Definition item_last (it : node_item) : Z := match it with Single a | Range _ a => a end.
Definition item_int (it : node_item) : Prop :=
  - 2 ^ 31 <= item_first it < 2 ^ 31 ∧ - 2 ^ 31 <= item_last it < 2 ^ 31.
Definition item_ok (it : node_item) : Prop := 1 <= item_first it ∧ item_first it <= item_last it <= Output.MAX_NUM_NODES.
Definition item_has (it : node_item) (i : Z) : Prop := item_first it <= i <= item_last it.

Lemma fmt_d_not c n : is_digit 10 c = false → c ≠ 45 → - 2 ^ 31 <= n < 2 ^ 31 → c ∉ fmt_d n.
Proof.
  intros Hc H45 Hn. unfold fmt_d. destruct (Z.ltb_spec n 0); [apply not_elem_of_cons; split; [done|]|];
    apply fmt_unsigned_not; try done; lia.
Qed.

Lemma item_text_not c it : is_digit 10 c = false → c ≠ 45 → item_int it → c ∉ item_text it.
Proof.
  intros Hc H45. destruct it as [a|a b]; intros [Ha Hb]; cbn in *; [by apply fmt_d_not|].
  rewrite elem_of_app, elem_of_cons. intros [H|[H|H]]; [|done|]; by apply fmt_d_not in H.
Qed.

Lemma fmt_d_nonempty n : - 2 ^ 31 <= n < 2 ^ 31 → fmt_d n ≠ [].
Proof.
  intros Hn. unfold fmt_d. destruct (Z.ltb_spec n 0); [done|].
  destruct (fmt_unsigned_spec 10 n ltac:(lia) ltac:(lia)) as (_ & Hne & _). done.
Qed.

Lemma strtok_items items : Forall item_int items → strtok 44 (nodes_text items) = item_text <$> items.
Proof.
  intros Hall. unfold strtok. induction Hall as [|it items Hit Hall IH]; [done|].
  assert (Hne : item_text it ≠ []).
  { destruct it; cbn; [by apply fmt_d_nonempty, Hit|]. by destruct (fmt_d a). }
  assert (Hno : 44 ∉ item_text it) by (by apply item_text_not).
  assert (Hlast : split_on 44 (item_text it) = [item_text it]).
  { clear -Hno. induction (item_text it) as [|x l IH]; [done|]. apply not_elem_of_cons in Hno as [Hx Hl]. cbn.
    rewrite (proj2 (Z.eqb_neq _ _)) by congruence. by rewrite IH. }
  destruct items as [|it2 items].
  - cbn [nodes_text]. rewrite Hlast, filter_cons, decide_True by done. done.
  - change (nodes_text (it :: it2 :: items)) with (item_text it ++ 44 :: nodes_text (it2 :: items)).
    rewrite split_on_app by done. rewrite filter_cons, decide_True by done. cbn [fmap list_fmap]. by f_equal.
Qed.

Lemma nodes_text_not c items : is_digit 10 c = false → c ≠ 45 → c ≠ 44 → Forall item_int items → c ∉ nodes_text items.
Proof.
  intros Hc H45 H44 Hall. induction Hall as [|it items Hit Hall IH]; [apply not_elem_of_nil|].
  pose proof (item_text_not c it Hc H45 Hit). destruct items; [done|].
  change (nodes_text _) with (item_text it ++ 44 :: nodes_text (n :: items)). set_solver.
Qed.

(** Bits of a range of nodes. *)
Lemma range_bits a b i : 1 <= a <= b → b <= 63 → b - a + 1 ≠ 63 → 
  Z.testbit (u64 (Z.shiftl (u64 (Z.shiftl 1 (b - a + 1) - 1)) a)) i = true ↔ a <= i <= b.
Proof.
  intros Ha Hb Hne. rewrite (Z.shiftl_1_l (b - a + 1)).
  replace (2 ^ (b - a + 1) - 1) with (Z.ones (b - a + 1)) by (rewrite Z.ones_equiv; lia).
  rewrite (u64_small (Z.ones _)) by (rewrite Z.ones_equiv; pose proof (Z.pow_le_mono_r 2 (b - a + 1) 63 ltac:(lia) ltac:(lia));
    pose proof (Z.pow_pos_nonneg 2 (b - a + 1) ltac:(lia) ltac:(lia)); lia).
  destruct (Z.ltb_spec i 0) as [|Hi]; [rewrite Z.testbit_neg_r by done; split; [done|lia]|].
  unfold u64. destruct (Z.ltb_spec i 64).
  - rewrite Z.mod_pow2_bits_low, Z.shiftl_spec by lia.
    destruct (Z.ltb_spec i a); [rewrite Z.testbit_neg_r by lia; split; [done|lia]|].
    rewrite Z.testbit_ones_nonneg by lia. rewrite Z.ltb_lt. lia.
  - rewrite Z.mod_pow2_bits_high by lia. split; [done|lia].
Qed.

Lemma single_bits a i : 1 <= a <= 63 → Z.testbit (u64 (Z.shiftl 1 a)) i = true ↔ a <= i <= a.
Proof.
  intros Ha. rewrite Z.shiftl_1_l, u64_small by (pose proof (Z.pow_le_mono_r 2 a 63 ltac:(lia) ltac:(lia));
    pose proof (Z.pow_pos_nonneg 2 a ltac:(lia) ltac:(lia)); lia).
  rewrite Z.pow2_bits_eqb, Z.eqb_eq by lia. lia.
Qed.

Lemma all_nodes_bits i : Z.testbit ALL_NODES i = true ↔ 1 <= i <= 63.
Proof.
  pose proof (range_bits 1 62 i ltac:(lia) ltac:(lia) ltac:(lia)) as H1.
  pose proof (single_bits 63 i ltac:(lia)) as H2.
  change ALL_NODES with (Z.lor (u64 (Z.shiftl (u64 (Z.shiftl 1 (62 - 1 + 1) - 1)) 1)) (u64 (Z.shiftl 1 63))).
  rewrite Z.lor_spec, orb_true_iff, H1, H2. lia.
Qed.

(** One part: the mask [r] gets the nodes of the part, or the part is refused. *)
Lemma decode_item r it : item_int it → (∀ i, Z.testbit r i = true → 1 <= i <= 63) →
  match decode_node r (item_text it) with
  | None => ¬ item_ok it
  | Some r' => item_ok it ∧ ∀ i, Z.testbit r' i = true ↔ Z.testbit r i = true ∨ item_has it i
  end.
Proof.
  intros Hint Hr. unfold decode_node, item_ok, item_has. change Output.MAX_NUM_NODES with 63.
  destruct it as [a|a b]; destruct Hint as [Ha Hb]; cbn [item_text item_first item_last] in *.
  - destruct (strchr 45 (fmt_d a)) eqn:E.
    + apply bool_decide_eq_true in E. unfold fmt_d in E. destruct (Z.ltb_spec a 0) as [Hneg|].
      * unfold scan_range. rewrite <- (app_nil_r (fmt_d a)), scan_int_fmt by done. cbn. lia.
      * exfalso; revert E; apply fmt_unsigned_not; done || lia.
    + rewrite <- (app_nil_r (fmt_d a)), scan_int_fmt by done. cbn [mbind option_bind].
      destruct (Z.ltb_spec a 1), (Z.ltb_spec 63 a); cbn [orb]; try lia. split; [lia|]. intros i.
      rewrite Z.lor_spec, orb_true_iff, single_bits by lia. done.
  - assert (Hc : strchr 45 (fmt_d a ++ 45 :: fmt_d b) = true) by (apply bool_decide_eq_true; set_solver).
    rewrite Hc. unfold scan_range. rewrite scan_int_fmt by done. cbn [mbind option_bind].
    rewrite <- (app_nil_r (fmt_d b)), scan_int_fmt by done. cbn [mbind option_bind].
    destruct (Z.ltb_spec a 1), (Z.ltb_spec b a), (Z.ltb_spec 63 b); cbn [orb]; try lia.
    destruct (Z.eqb_spec (b - a + 1) 63).
    + split; [lia|]. intros i. rewrite all_nodes_bits. specialize (Hr i). intuition lia.
    + split; [lia|]. intros i. rewrite Z.lor_spec, orb_true_iff, range_bits by lia. done.
Qed.

Lemma decode_items r items : Forall item_int items → (∀ i, Z.testbit r i = true → 1 <= i <= 63) →
  match decode_nodes r (item_text <$> items) with
  | None => ∃ it, it ∈ items ∧ ¬ item_ok it
  | Some r' => Forall item_ok items ∧
      ∀ i, Z.testbit r' i = true ↔ Z.testbit r i = true ∨ ∃ it, it ∈ items ∧ item_has it i
  end.
Proof.
  intros Hint. induction Hint as [|it items Hit Hint IH] in r |- *; intros Hr; cbn [fmap list_fmap decode_nodes].
  { split; [done|]. intros i. set_solver. }
  pose proof (decode_item r it Hit Hr) as Hd. destruct (decode_node r (item_text it)) as [r1|]; cbn [mbind option_bind].
  2:{ exists it. set_solver. }
  destruct Hd as [Hok Hb].
  assert (Hr1 : ∀ i, Z.testbit r1 i = true → 1 <= i <= 63).
  { intros i Hi. apply Hb in Hi as [Hi|Hi]; [by apply Hr|]. unfold item_ok, item_has in *. change Output.MAX_NUM_NODES with 63 in *. lia. }
  specialize (IH r1 Hr1). destruct (decode_nodes r1 _).
  - destruct IH as [Hall Hbits]. split; [by constructor|]. intros i. rewrite Hbits, Hb. set_solver.
  - destruct IH as (it' & Hin & Hbad). exists it'. set_solver.
Qed.

(** The argument of -n means the nodes it lists: for any list of nodes and
    ranges written with commas, the mask has exactly the bits of the nodes
    listed; and the program refuses the argument exactly when some part is not
    within 1 and 63 or is a range in the wrong order. *)
Theorem decode_node_arg_spec items : Forall item_int items →
  match decode_node_arg (nodes_text items) with
  | None => ∃ it, it ∈ items ∧ ¬ item_ok it
  | Some r => Forall item_ok items ∧ ∀ i, Z.testbit r i = true ↔ ∃ it, it ∈ items ∧ item_has it i
  end.
Proof.
  intros H. unfold decode_node_arg.
  destruct (has_prefix (str "0x") (nodes_text items)) eqn:E.
  { exfalso. apply (nodes_text_not 120 items); try done.
    destruct (nodes_text items) as [|x [|y l]]; cbn in E; try done; [by rewrite andb_false_r in E|].
    apply andb_true_iff in E as [_ E]. rewrite andb_true_r in E. apply Z.eqb_eq in E. set_solver. }
  rewrite strtok_items by done. pose proof (decode_items 0 items H) as Hd.
  assert (H0 : ∀ i, Z.testbit 0 i = true → 1 <= i <= 63) by (intros i; by rewrite Z.testbit_0_l).
  specialize (Hd H0). destruct (decode_nodes 0 _); [|done]. destruct Hd as [Hall Hb]. split; [done|].
  intros i. rewrite Hb, Z.testbit_0_l. naive_solver.
Qed.
End NodeArg.

Lemma decode_node_arg_spec_witness :
  decode_node_arg (nodes_text [Range 1 3; Single 7]) = Some 142 ∧
  ∀ i, Z.testbit 142 i = true ↔ ∃ it, it ∈ [Range 1 3; Single 7] ∧ item_has it i.
Proof.
  assert (E : decode_node_arg (nodes_text [Range 1 3; Single 7]) = Some 142) by (vm_compute; reflexivity).
  assert (Hint : Forall item_int [Range 1 3; Single 7]) by (repeat constructor; cbn; lia).
  pose proof (decode_node_arg_spec [Range 1 3; Single 7] Hint) as H. rewrite E in H. exact (conj E (proj2 H)).
Defined.

(** The part of the comment of [decode_node_arg] on hexadecimal masks does not
    match: 0x5 is nodes 0 and 2. *)
Example decode_hex_bits : (fun m => members m) <$> decode_node_arg (str "0x5") = Some [0; 2].
Proof. reflexivity. Qed.

(** ** The nodes of a session *)

Lemma clz_loop_spec fuel n c : 0 < n < 2 ^ 64 → 63 - Z.log2 n < Z.of_nat fuel →
  clz_loop fuel n c = c + 63 - Z.log2 n.
Proof.
  induction fuel as [|fuel IH] in n, c |- *; intros Hn Hf; [pose proof (Z.log2_lt_pow2 n 64 ltac:(lia)); lia|].
  cbn [clz_loop]. destruct (Z.eqb_spec n 0); [lia|].
  change 0x8000000000000000 with (2 ^ 63). pose proof (has_pow2 n 63 ltac:(lia)) as Hh. unfold has in Hh. rewrite Hh.
  assert (Hlog : Z.log2 n < 64) by (apply Z.log2_lt_pow2; lia).
  destruct (Z.testbit n 63) eqn:E.
  - assert (63 <= Z.log2 n); [|lia]. destruct (Z.le_gt_cases 63 (Z.log2 n)); [done|].
    rewrite Z.bits_above_log2 in E; [done|lia|lia].
  - assert (Hlt : n < 2 ^ 63).
    { apply Z.log2_lt_pow2; [lia|]. destruct (Z.lt_ge_cases (Z.log2 n) 63); [done|].
      assert (E63 : Z.log2 n = 63) by lia. pose proof (Z.bit_log2 n ltac:(lia)) as Hb. rewrite E63 in Hb. congruence. }
    rewrite Z.shiftl_mul_pow2 by lia. change (2 ^ 1) with 2. rewrite u64_small by lia. rewrite IH; [|lia|].
    + rewrite Z.mul_comm, Z.log2_double by lia. lia.
    + rewrite Z.mul_comm, Z.log2_double by lia. lia.
Qed.

Lemma clz_log2 n : 0 < n < 2 ^ 64 → clz n = 63 - Z.log2 n.
Proof.
  intros H. unfold clz. destruct (Z.eqb_spec n 0); [lia|]. rewrite clz_loop_spec; [lia|done|].
  pose proof (Z.log2_nonneg n). lia.
Qed.

Lemma mask_bits n i : 1 <= n <= 63 → Z.testbit (ALL_NODES_MASK n) i = true ↔ 1 <= i <= n.
Proof.
  intros Hn. unfold ALL_NODES_MASK. destruct (Z.leb_spec MAX_NODES_SUPPORTED n) as [H|H]; unfold MAX_NODES_SUPPORTED in H.
  - rewrite all_nodes_bits. lia.
  - pose proof (range_bits 1 n i ltac:(lia) ltac:(lia) ltac:(lia)) as Hr.
    replace (n - 1 + 1) with n in Hr by lia. done.
Qed.

Lemma mask_range n : 1 <= n <= 63 → 0 < ALL_NODES_MASK n < 2 ^ 64 ∧ Z.log2 (ALL_NODES_MASK n) = n.
Proof.
  intros Hn. set (m := ALL_NODES_MASK n).
  assert (H : 0 <= m < 2 ^ 64).
  { unfold m, ALL_NODES_MASK. destruct (_ <=? _); [done|]. apply Z.mod_pos_bound. done. }
  assert (Hpos : 0 < m).
  { destruct (Z.eq_dec m 0) as [E|]; [|lia]. pose proof (proj2 (mask_bits n 1 Hn) ltac:(lia)) as Hb. fold m in Hb.
    rewrite E in Hb. done. }
  split; [lia|]. pose proof (Z.bit_log2 m Hpos) as Hl. apply mask_bits in Hl; [|done].
  destruct (Z.eq_dec (Z.log2 m) n); [done|]. pose proof (proj2 (mask_bits n n Hn) ltac:(lia)) as Hb. fold m in Hb.
  rewrite Z.bits_above_log2 in Hb by lia. done.
Qed.

(** C34. The nodes of a session lie in the network: without an option they are
    exactly the nodes 1 to n of the network (at most 63); with one, the nodes
    asked for among 1 to n are all kept, no other node is added, and no node
    above n + 1 stays.  (The node n + 1 does stay: the number of the highest node
    is taken one too small.) *)
Theorem used_nodes_bounds nodes num : 0 <= nodes < 2 ^ 64 → 1 <= num →
  let n := Z.min Output.MAX_NUM_NODES num in
  let u := used_nodes nodes num in
  (nodes = 0 → ∀ i, Z.testbit u i = true ↔ 1 <= i <= n) ∧
  (nodes ≠ 0 → ∀ i, (Z.testbit u i = true → Z.testbit nodes i = true ∧ i <= n + 1) ∧
                    (1 <= i <= n → Z.testbit u i = Z.testbit nodes i)).
Proof.
  intros Hnodes Hnum n u. assert (Hn : 1 <= n <= 63) by (unfold n, Output.MAX_NUM_NODES; lia).
  assert (Hu : u = let nodes := if nodes =? 0 then ALL_NODES_MASK n else nodes in
    if n <? MAX_NODES_SUPPORTED - clz nodes - 1 then Z.land nodes (ALL_NODES_MASK n) else nodes).
  { unfold u, used_nodes. replace (if Output.MAX_NUM_NODES <? num then Output.MAX_NUM_NODES else num) with n; [done|].
    unfold n. destruct (Z.ltb_spec Output.MAX_NUM_NODES num); lia. }
  clearbody u n. subst u. cbn zeta. destruct (mask_range n Hn) as [Hm Hlm]. unfold MAX_NODES_SUPPORTED.
  destruct (Z.eqb_spec nodes 0) as [->|Hne]; split; try done; intros _ i.
  - rewrite clz_log2, Hlm by done. destruct (Z.ltb_spec n (63 - (63 - n) - 1)); [lia|]. by apply mask_bits.
  - rewrite clz_log2 by lia. destruct (Z.ltb_spec n (63 - (63 - Z.log2 nodes) - 1)) as [|Hcrop].
    + rewrite Z.land_spec. split.
      * rewrite andb_true_iff, mask_bits by done. intros [? ?]. split; [done|lia].
      * intros Hi. apply mask_bits in Hi; [|done]. by rewrite Hi, andb_true_r.
    + split; [|done]. intros Hi. split; [done|]. destruct (Z.le_gt_cases i (n + 1)); [done|].
      rewrite Z.bits_above_log2 in Hi; [done|lia|lia].
Qed.

Lemma used_nodes_bounds_witness :
  let u := used_nodes 0x1000e 3 in
  members u = [1; 2; 3] ∧
  ((0x1000e = 0 → ∀ i, Z.testbit u i = true ↔ 1 <= i <= 3) ∧
   (0x1000e ≠ 0 → ∀ i, (Z.testbit u i = true → Z.testbit 0x1000e i = true ∧ i <= 3 + 1) ∧
                       (1 <= i <= 3 → Z.testbit u i = Z.testbit 0x1000e i))).
Proof.
  assert (H1 : 0 <= 0x1000e < 2 ^ 64) by lia. assert (H2 : 1 <= 3) by lia.
  split; [vm_compute; reflexivity|]. exact (used_nodes_bounds 0x1000e 3 H1 H2).
Defined.

(** Node 4 of a network of three nodes is not cropped. *)
Example used_nodes_beyond : members (used_nodes 0x1e 3) = [1; 2; 3; 4].
Proof. vm_compute. reflexivity. Qed.
