(* ===== verification/RunMain.v ===== *)
(** * The command line of axiom-run (axiom-run/axiom-run.c)

    The options, the command line that the master gives to its slaves, and the
    exit code. *)

From S2P Require Import Prelude Text Sched CStrings Nic RunMsg Master Slave RunNodes.

(** ** Options *)

Definition SIGINT : Z := 2.
Definition SIGQUIT : Z := 3.
Definition SIGABRT : Z := 6.
Definition SIGTERM : Z := 15.

Definition MY_DEFAULT_PORT : Z := 5.
Definition MY_DEFAULT_MASTER_PORT : Z := MY_DEFAULT_PORT.
Definition MY_DEFAULT_SLAVE_PORT : Z := MY_DEFAULT_PORT + 1.
Definition MY_DEFAULT_MASTER_NODE : Z := 0.

Definition NO_REDIRECT : Z := 1024.
Definition NO_EXIT : Z := 1025.
Definition NO_BARRIER : Z := 1026.
Definition NO_RPC : Z := 1027.
Definition NO_ALLOCATOR : Z := 1028.
Definition NO_KILL : Z := 1029.

(** The code of a letter. *)
Definition chr (s : string) : Z := default 0 (head (str s)).

Inductive has_arg := no_argument | required_argument | optional_argument.

Definition long_options : list (string * has_arg * Z) := [
  ("redirect", no_argument, chr "r"); ("no-redirect", no_argument, NO_REDIRECT);
  ("ident", optional_argument, chr "i"); ("exit", no_argument, chr "e"); ("no-exit", no_argument, NO_EXIT);
  ("kill", no_argument, chr "k"); ("no-kill", no_argument, NO_KILL);
  ("exitmode", required_argument, chr "E"); ("termmode", required_argument, chr "T");
  ("barrier", no_argument, chr "b"); ("no-barrier", no_argument, NO_BARRIER);
  ("rpc", no_argument, chr "c"); ("no-rpc", no_argument, NO_RPC);
  ("slave", no_argument, chr "s"); ("master", required_argument, chr "m");
  ("nodes", required_argument, chr "n"); ("numnodes", required_argument, chr "N");
  ("port", required_argument, chr "p"); ("env", required_argument, chr "u");
  ("gdb", required_argument, chr "g"); ("allocator", no_argument, chr "a");
  ("no-allocator", no_argument, NO_ALLOCATOR); ("profile", required_argument, chr "P");
  ("extension", required_argument, chr "X"); ("magic", required_argument, chr "x");
  ("help", no_argument, chr "h"); ("deephelp", no_argument, chr "H"); ("version", no_argument, chr "V");
  ("sched", optional_argument, chr "S")]%string.

(** "+rekbcasp:E:T:P:X:m:x:hHn:N:u:g:i::VS:" *)
Definition short_option (c : Z) : option has_arg :=
  if strchr c (str "rekbcashHV") then Some no_argument
  else if strchr c (str "pETPXmxnNugS") then Some required_argument
  else if strchr c (str "i") then Some optional_argument
  else None.

(** An option as [getopt_long] gives it: its value (63 is the question mark, for
    errors) and its argument. *)
Definition optv : Type := Z * option (list Z).

(** [-i] takes the next word when it begins with a digit. *)
Definition take_digit (v : optv) (args : list (list Z)) : optv * list (list Z) :=
  match args with
  | (c :: w) :: args' =>
      if (v.1 =? chr "i") && (48 <=? c) && (c <=? 57) then ((v.1, Some (c :: w)), args') else (v, args)
  | _ => (v, args)
  end.

(** The long options a name can stand for: an exact match or a common beginning. *)
Definition find_long (name : list Z) : option (has_arg * Z) :=
  match filter (fun o : string * has_arg * Z => str o.1.1 = name) long_options with
  | o :: _ => Some (o.1.2, o.2)
  | [] => match filter (fun o : string * has_arg * Z => has_prefix name (str o.1.1) = true) long_options with
          | [o] => Some (o.1.2, o.2)
          | _ => None
          end
  end.

Definition long_option (word : list Z) (args : list (list Z)) : optv * list (list Z) :=
  let '(name, value) := match split_on 61 word with
    | a :: _ :: _ => (a, Some (drop (S (length a)) word))
    | _ => (word, None)
    end in
  match find_long name, value with
  | None, _ => ((63, None), args)
  | Some (no_argument, v), None => ((v, None), args)
  | Some (no_argument, _), Some _ => ((63, None), args)
  | Some (required_argument, v), Some x => ((v, Some x), args)
  | Some (required_argument, v), None =>
      match args with x :: args => ((v, Some x), args) | [] => ((63, None), []) end
  | Some (optional_argument, v), x => take_digit (v, x) args
  end.

(** [getopt_long]: the options and the first words that are none; [cluster] is the
    rest of a word of short options. *)
Fixpoint getopt (fuel : nat) (cluster : list Z) (args : list (list Z)) : list optv * list (list Z) :=
  match fuel with
  | O => ([], args)
  | S fuel =>
      let next (v : optv) cluster args := let '(l, rest) := getopt fuel cluster args in (v :: l, rest) in
      match cluster with
      | c :: cluster =>
          match short_option c with
          | None => next (63, None) cluster args
          | Some no_argument => next (c, None) cluster args
          | Some required_argument =>
              match cluster, args with
              | _ :: _, _ => next (c, Some cluster) [] args
              | [], x :: args => next (c, Some x) [] args
              | [], [] => next (63, None) [] []
              end
          | Some optional_argument =>
              let '(v, args) := take_digit (c, match cluster with [] => None | _ => Some cluster end) args in
              next v [] args
          end
      | [] =>
          match args with
          | [] => ([], [])
          | (45 :: 45 :: []) :: args => ([], args)
          | (45 :: 45 :: word) :: args => let '(v, args) := long_option word args in next v [] args
          | (45 :: c :: cluster) :: args => getopt fuel (c :: cluster) args
          | _ => ([], args)
          end
      end
  end.

(** The variables that the options set. *)
Record run_opts := mk_opts {
  o_services : Z; o_flags : Z; o_termmode : Z; o_envstr : list Z;
  o_nodes : Z; o_gdb : Z * Z; o_slave : bool; o_port : Z;
  o_master_node : Z; o_master_port : Z; o_magic : Z; o_sched : sched
}.

Definition DEFAULT_SPAWN_ENV_REGEXP : list Z := str "PATH|SHELL|AXIOM_.*|EXTRAE_.*".

Definition opts0 : run_opts :=
  mk_opts 0 0 SIGTERM DEFAULT_SPAWN_ENV_REGEXP 0 (0, 0) false (-1) (-1) (-1) 0 sched0.

Definition set_services (v : Z) (o : run_opts) : run_opts :=
  mk_opts v (o_flags o) (o_termmode o) (o_envstr o) (o_nodes o) (o_gdb o) (o_slave o) (o_port o)
    (o_master_node o) (o_master_port o) (o_magic o) (o_sched o).
Definition set_flags (v : Z) (o : run_opts) : run_opts :=
  mk_opts (o_services o) v (o_termmode o) (o_envstr o) (o_nodes o) (o_gdb o) (o_slave o) (o_port o)
    (o_master_node o) (o_master_port o) (o_magic o) (o_sched o).
Definition set_termmode (v : Z) (o : run_opts) : run_opts :=
  mk_opts (o_services o) (o_flags o) v (o_envstr o) (o_nodes o) (o_gdb o) (o_slave o) (o_port o)
    (o_master_node o) (o_master_port o) (o_magic o) (o_sched o).
Definition set_envstr (v : list Z) (o : run_opts) : run_opts :=
  mk_opts (o_services o) (o_flags o) (o_termmode o) v (o_nodes o) (o_gdb o) (o_slave o) (o_port o)
    (o_master_node o) (o_master_port o) (o_magic o) (o_sched o).
Definition set_nodes (v : Z) (o : run_opts) : run_opts :=
  mk_opts (o_services o) (o_flags o) (o_termmode o) (o_envstr o) v (o_gdb o) (o_slave o) (o_port o)
    (o_master_node o) (o_master_port o) (o_magic o) (o_sched o).
Definition set_gdb (v : Z * Z) (o : run_opts) : run_opts :=
  mk_opts (o_services o) (o_flags o) (o_termmode o) (o_envstr o) (o_nodes o) v (o_slave o) (o_port o)
    (o_master_node o) (o_master_port o) (o_magic o) (o_sched o).
Definition set_slave (v : bool) (o : run_opts) : run_opts :=
  mk_opts (o_services o) (o_flags o) (o_termmode o) (o_envstr o) (o_nodes o) (o_gdb o) v (o_port o)
    (o_master_node o) (o_master_port o) (o_magic o) (o_sched o).
Definition set_port (v : Z) (o : run_opts) : run_opts :=
  mk_opts (o_services o) (o_flags o) (o_termmode o) (o_envstr o) (o_nodes o) (o_gdb o) (o_slave o) v
    (o_master_node o) (o_master_port o) (o_magic o) (o_sched o).
Definition set_master (node port : Z) (o : run_opts) : run_opts :=
  mk_opts (o_services o) (o_flags o) (o_termmode o) (o_envstr o) (o_nodes o) (o_gdb o) (o_slave o) (o_port o)
    node port (o_magic o) (o_sched o).
Definition set_magicn (v : Z) (o : run_opts) : run_opts :=
  mk_opts (o_services o) (o_flags o) (o_termmode o) (o_envstr o) (o_nodes o) (o_gdb o) (o_slave o) (o_port o)
    (o_master_node o) (o_master_port o) v (o_sched o).
Definition set_sched (v : sched) (o : run_opts) : run_opts :=
  mk_opts (o_services o) (o_flags o) (o_termmode o) (o_envstr o) (o_nodes o) (o_gdb o) (o_slave o) (o_port o)
    (o_master_node o) (o_master_port o) (o_magic o) v.

(** What handling an option leads to: go on, exit, or write beyond [envstr]. *)
Inductive opt_result := Go (o : run_opts) | Exit (code : Z) | Fault.

Definition MAXENVREGEXP : Z := 2048.
Definition EXIT_FAILURE : Z := 1.

(** [strncpy(envstr, s, MAXENVREGEXP)]; the last byte is set to 0 before use. *)
Definition copy_env (s : list Z) : list Z := take (Z.to_nat (MAXENVREGEXP - 1)) s.

Definition to_lower (c : Z) : Z := if (65 <=? c) && (c <=? 90) then c + 32 else c.
Definition strcasecmp0 (a b : list Z) : bool := bool_decide (to_lower <$> a = to_lower <$> b).
Definition strcmp0 (a b : list Z) : bool := bool_decide (a = b).

Definition on (s : Z) (o : run_opts) : opt_result := Go (set_services (Z.lor (o_services o) s) o).
Definition off (s : Z) (o : run_opts) : opt_result := Go (set_services (Z.land (o_services o) (Z.lnot s)) o).

Definition all_services : Z :=
  Z.lor REDIRECT_SERVICE (Z.lor EXIT_SERVICE (Z.lor KILL_SERVICE (Z.lor RPC_SERVICE (Z.lor BARRIER_SERVICE ALLOCATOR_SERVICE)))).

(** -P *)
Definition opt_profile (arg : list Z) (o : run_opts) : opt_result :=
  if strcmp0 arg (str "gasnet") then
    Go (set_envstr (copy_env (str "PATH|SHELL|AXIOM_.*|GASNET_.*|EXTRAE_.*"))
       (set_termmode SIGQUIT
       (set_flags (Z.lor (Z.lor (o_flags o) Output.IDENT_FLAG) FIRST_ABS_EXIT_FLAG)
       (set_services (Z.lor (o_services o) all_services) o))))
  else if strcmp0 arg (str "ompss") then
    Go (set_envstr (copy_env (str "PATH|SHELL|AXIOM_.*|GASNET_.*|NX_.*|EXTRAE_.*|LD_LIBRARY_PATH|LD_PRELOAD"))
       (set_flags (Z.lor (o_flags o) Output.IDENT_FLAG)
       (set_services (Z.lor (o_services o) all_services) o)))
  else if strcmp0 arg (str "all") then
    Go (set_flags (Z.lor (o_flags o) Output.IDENT_FLAG)
       (set_services (Z.lor (o_services o) (Z.land all_services (Z.lnot EXIT_SERVICE))) o))
  else Exit (-1).

(** -X: [strncat] appends without regard to the size of the buffer. *)
Definition opt_extension (arg : list Z) (o : run_opts) : opt_result :=
  if strcmp0 arg (str "vimar") then
    let e := o_envstr o ++ str "|GST_.*|OPENCV_.*" in
    if MAXENVREGEXP <=? alen e then Fault else Go (set_envstr e o)
  else Exit (-1).

(** -i *)
Definition opt_ident (arg : option (list Z)) (o : run_opts) : opt_result :=
  let o := set_flags (Z.lor (o_flags o) Output.IDENT_FLAG) o in
  match arg with
  | Some a => if atoi a =? 1 then Go (set_flags (Z.lor (o_flags o) Output.ALTERNATE_IDENT_FLAG) o) else Go o
  | None => Go o
  end.

(** -E *)
Definition opt_exitmode (arg : list Z) (o : run_opts) : opt_result :=
  let mode := atoi arg in
  if (mode <? 0) || (5 <? mode) then Exit (-1)
  else Go (set_flags (Z.lor (Z.land (o_flags o) (Z.lnot EXIT_FLAG_MASK)) (Z.shiftl mode EXIT_FLAG_SHIFT)) o).

(** -T *)
Definition opt_termmode (arg : list Z) (o : run_opts) : opt_result :=
  let mode := atoi arg in
  let mode :=
    if mode =? 0 then
      if strcasecmp0 arg (str "TERM") then SIGTERM
      else if strcasecmp0 arg (str "QUIT") then SIGQUIT
      else if strcasecmp0 arg (str "INT") then SIGINT
      else if strcasecmp0 arg (str "ABRT") then SIGABRT
      else if strcasecmp0 arg (str "KILL") then SIGKILL
      else mode
    else mode in
  if (mode =? SIGTERM) || (mode =? SIGINT) || (mode =? SIGABRT) || (mode =? SIGQUIT) || (mode =? SIGKILL)
  then Go (set_termmode mode o) else Exit (-1).

(** -m: [sscanf(optarg, "%d,%d", ...)] stores what it could read. *)
Definition opt_master (arg : list Z) (o : run_opts) : opt_result :=
  if strchr 44 arg then
    match scan_int arg with
    | None => Go o
    | Some (node, rest) =>
        match rest with
        | 44 :: rest =>
            match scan_int rest with
            | Some (port, _) => Go (set_master node port o)
            | None => Go (set_master node (o_master_port o) o)
            end
        | _ => Go (set_master node (o_master_port o) o)
        end
    end
  else Go (set_master (atoi arg) (o_master_port o) o).

(** -N *)
Definition opt_numnodes (arg : list Z) (o : run_opts) : opt_result :=
  let n := atoi arg in
  if n <=? 0 then Exit (-1) else Go (set_nodes (ALL_NODES_MASK n) o).

(** The [switch] of the option loop.  Arguments that [getopt_long] guarantees are
    there. *)
Definition opt_step (v : optv) (o : run_opts) : opt_result :=
  let '(opt, optarg) := v in
  let arg := default [] optarg in
  if opt =? chr "P" then opt_profile arg o
  else if opt =? chr "X" then opt_extension arg o
  else if opt =? chr "u" then Go (set_envstr (copy_env arg) o)
  else if opt =? chr "r" then on REDIRECT_SERVICE o
  else if opt =? NO_REDIRECT then off REDIRECT_SERVICE o
  else if opt =? chr "i" then opt_ident optarg o
  else if opt =? chr "S" then Go (set_sched (sch_decodeopt optarg (o_sched o)).2 o)
  else if opt =? chr "b" then on BARRIER_SERVICE o
  else if opt =? NO_BARRIER then off BARRIER_SERVICE o
  else if opt =? chr "c" then on RPC_SERVICE o
  else if opt =? NO_RPC then off RPC_SERVICE o
  else if opt =? chr "e" then on EXIT_SERVICE o
  else if opt =? NO_EXIT then off EXIT_SERVICE o
  else if opt =? chr "k" then on KILL_SERVICE o
  else if opt =? NO_KILL then off KILL_SERVICE o
  else if opt =? chr "a" then on ALLOCATOR_SERVICE o
  else if opt =? NO_ALLOCATOR then off ALLOCATOR_SERVICE o
  else if opt =? chr "E" then opt_exitmode arg o
  else if opt =? chr "T" then opt_termmode arg o
  else if opt =? chr "n" then
    match decode_node_arg arg with Some n => Go (set_nodes n o) | None => Exit EXIT_FAILURE end
  else if opt =? chr "N" then opt_numnodes arg o
  else if opt =? chr "g" then
    match decode_gdb_arg arg with Some g => Go (set_gdb g o) | None => Exit EXIT_FAILURE end
  else if opt =? chr "s" then Go (set_slave true o)
  else if opt =? chr "p" then Go (set_port (atoi arg) o)
  else if opt =? chr "m" then opt_master arg o
  else if opt =? chr "x" then Go (set_magicn (atol arg) o)
  else if (opt =? chr "h") || (opt =? chr "H") then Exit (-1)
  else if opt =? chr "V" then Exit 0
  else if (opt =? 63) || (opt =? 58) then Go o
  else Exit (-1).

Fixpoint opt_loop (l : list optv) (o : run_opts) : opt_result :=
  match l with
  | [] => Go o
  | v :: l => match opt_step v o with Go o => opt_loop l o | r => r end
  end.

(** The ports after the checks of the parameters: [slave_port] and [master_port]. *)
Definition final_ports (o : run_opts) : Z * Z :=
  let slave_port := if negb (o_port o =? -1) && o_slave o then o_port o else -1 in
  let master_port := if negb (o_port o =? -1) && negb (o_slave o) then o_port o else o_master_port o in
  (if slave_port =? -1 then MY_DEFAULT_SLAVE_PORT else slave_port,
   if master_port =? -1 then MY_DEFAULT_MASTER_PORT else master_port).

(** The command line up to the application: [inl]: the exit code. *)
Definition parse_args (args : list (list Z)) : Z + run_opts * list (list Z) :=
  let '(opts, app) := getopt (S (sum_list_with (fun w => S (length w)) args)) [] args in
  match opt_loop opts opts0 with
  | Exit code => inl code
  | Fault => inl (-1)
  | Go o =>
      match app with
      | [] => inl EXIT_FAILURE
      | _ => if o_slave o && (o_magic o =? 0) then inl EXIT_FAILURE else inr (o, app)
      end
  end.

(** The command line of the slaves.  [snprintf] writes to a buffer of 64 bytes. *)
Definition service_flags (services : Z) : list (list Z) :=
  (if has services REDIRECT_SERVICE then [str "-r"] else []) ++
  (if has services BARRIER_SERVICE then [str "-b"] else []) ++
  (if has services EXIT_SERVICE then [str "-e"] else []) ++
  (if has services KILL_SERVICE then [str "-k"] else []) ++
  (if has services RPC_SERVICE then [str "-c"] else []).

Definition slave_args (argv0 : list Z) (o : run_opts) (nodes sport mnode mport magic : Z)
    (app : list (list Z)) : list (list Z) :=
  [argv0; str "-s"; str "-n"; snprintf 64 (str "0x" ++ fmt_x nodes);
   str "-p"; snprintf 64 (fmt_d sport);
   str "-m"; snprintf 64 (fmt_d mnode ++ str "," ++ fmt_d mport);
   str "-S"; sch_encodeopt (o_sched o) (snprintf 64 (fmt_d mnode ++ str "," ++ fmt_d mport)) 64;
   str "-u"; str ".*"; str "-x"; snprintf 64 (fmt_d magic)] ++
  service_flags (o_services o) ++
  (if o_termmode o =? SIGTERM then [] else [str "-T"; snprintf 64 (fmt_d (o_termmode o))]) ++
  (if (o_gdb o).1 =? 0 then [] else [str "-g"; snprintf 64 (str "0x" ++ fmt_x (o_gdb o).1 ++ str ":" ++ fmt_d (o_gdb o).2)]) ++
  app.

(** The exit code of axiom-run. *)
Definition exit_code (exitval : Z) : Z :=
  if WIFEXITED exitval then WEXITSTATUS exitval
  else if WIFSIGNALED exitval then WTERMSIG exitval + 128 else 255.

(** ** The slaves get the options of the master *)

Section SlaveArgs.

(** Words of short options, each on its own. *)
Definition word_of (v : optv) : list (list Z) :=
  match v.2 with None => [[45; v.1]] | Some x => [[45; v.1]; x] end.
Definition words (l : list optv) : list (list Z) := concat (word_of <$> l).

Definition plain_opt (v : optv) : bool :=
  match short_option v.1, v.2 with
  | Some no_argument, None | Some required_argument, Some _ => negb (v.1 =? 45)
  | _, _ => false
  end.

(** The first word of the application is no option. *)
Definition app_word (args : list (list Z)) : bool :=
  match args with (c :: _) :: _ => negb (c =? 45) | _ => false end.

Lemma getopt_stop fuel app : app_word app = true → getopt (S fuel) [] app = ([], app).
Proof.
  unfold app_word. destruct app as [|[|c w] app]; try done. intros H. cbn [getopt].
  destruct (Z.eqb_spec c 45) as [|Hc]; [done|]. clear H. repeat case_match; simplify_eq; done.
Qed.

Lemma getopt_word fuel v args : plain_opt v = true →
  getopt (S (S fuel)) [] (word_of v ++ args) = (v :: (getopt fuel [] args).1, (getopt fuel [] args).2).
Proof.
  destruct v as [c arg]. unfold plain_opt, word_of. cbn [fst snd]. intros H.
  destruct (short_option c) as [[]|] eqn:Es; destruct arg as [x|]; try done;
    (destruct (Z.eqb_spec c 45) as [|Hc]; [done|]); cbn [app].
  - assert (E : getopt (S (S fuel)) [] ([45; c] :: args) = getopt (S fuel) [c] args).
    { cbn [getopt]. repeat case_match; simplify_eq; done. }
    rewrite E. cbn [getopt]. rewrite Es. by destruct (getopt fuel [] args).
  - assert (E : getopt (S (S fuel)) [] ([45; c] :: x :: args) = getopt (S fuel) [c] (x :: args)).
    { cbn [getopt]. repeat case_match; simplify_eq; done. }
    rewrite E. cbn [getopt]. rewrite Es. by destruct (getopt fuel [] args).
Qed.

Lemma getopt_words fuel l app : Forall (fun v => plain_opt v = true) l → app_word app = true →
  (2 * length l < fuel)%nat → getopt fuel [] (words l ++ app) = (l, app).
Proof.
  intros Hl Happ. induction Hl as [|v l Hv _ IH] in fuel |- *; intros Hf.
  - destruct fuel; [lia|]. by apply getopt_stop.
  - destruct fuel as [|[|fuel]]; [cbn in Hf; lia..|]. unfold words. cbn [fmap list_fmap concat]. rewrite <- app_assoc.
    rewrite getopt_word by done. fold (words l). rewrite IH by (cbn in Hf; lia). done.
Qed.

Lemma words_fuel l appl :
  (2 * length l < S (sum_list_with (fun w => S (length w)) (words l ++ appl)))%nat.
Proof.
  induction l as [|[c [x|]] l IH]; [cbn; lia|..]; unfold words; cbn [fmap list_fmap concat word_of snd fst app];
    fold (words l); cbn [app sum_list_with length]; lia.
Qed.

(** The options in the command line of a slave. *)
Definition service_opts (services : Z) : list optv :=
  (if has services REDIRECT_SERVICE then [(chr "r", None)] else []) ++
  (if has services BARRIER_SERVICE then [(chr "b", None)] else []) ++
  (if has services EXIT_SERVICE then [(chr "e", None)] else []) ++
  (if has services KILL_SERVICE then [(chr "k", None)] else []) ++
  (if has services RPC_SERVICE then [(chr "c", None)] else []).

Definition slave_opts (o : run_opts) (nodes sport mnode mport magic : Z) : list optv :=
  [(chr "s", None); (chr "n", Some (str "0x" ++ fmt_x nodes)); (chr "p", Some (fmt_d sport));
   (chr "m", Some (fmt_d mnode ++ str "," ++ fmt_d mport));
   (chr "S", Some (sch_encodeopt (o_sched o) (snprintf 64 (fmt_d mnode ++ str "," ++ fmt_d mport)) 64));
   (chr "u", Some (str ".*")); (chr "x", Some (fmt_d magic))] ++
  service_opts (o_services o) ++
  (if o_termmode o =? SIGTERM then [] else [(chr "T", Some (fmt_d (o_termmode o)))]) ++
  (if (o_gdb o).1 =? 0 then [] else [(chr "g", Some (str "0x" ++ fmt_x (o_gdb o).1 ++ str ":" ++ fmt_d (o_gdb o).2))]).

Lemma words_app l1 l2 : words (l1 ++ l2) = words l1 ++ words l2.
Proof. unfold words. by rewrite fmap_app, concat_app. Qed.

(** Values as the options of the master and the device give them. *)
Record run_ok (o : run_opts) (nodes sport mnode mport magic : Z) : Prop := {
  ro_services : 0 <= o_services o < 64;
  ro_nodes : 0 <= nodes < 2 ^ 64;
  ro_sport : - 2 ^ 31 <= sport < 2 ^ 31 ∧ sport ≠ -1;
  ro_mnode : - 2 ^ 31 <= mnode < 2 ^ 31;
  ro_mport : - 2 ^ 31 <= mport < 2 ^ 31 ∧ mport ≠ -1;
  ro_magic : - 2 ^ 63 <= magic < 2 ^ 63 ∧ magic ≠ 0;
  ro_termmode : o_termmode o ∈ [SIGTERM; SIGINT; SIGABRT; SIGQUIT; SIGKILL];
  ro_gdb : 0 <= (o_gdb o).1 < 2 ^ 64 ∧ - 2 ^ 31 <= (o_gdb o).2 < 2 ^ 31;
  ro_sched : sched_ok (o_sched o) ∧ ∃ t, sch_text (o_sched o) = Some t ∧ alen t < 64
}.

Lemma words_plain v l : words (v :: l) = word_of v ++ words l.
Proof. done. Qed.

Lemma slave_args_words argv0 o nodes sport mnode mport magic appl : run_ok o nodes sport mnode mport magic →
  slave_args argv0 o nodes sport mnode mport magic appl =
  argv0 :: words (slave_opts o nodes sport mnode mport magic) ++ appl.
Proof.
  intros [Hserv Hn [Hs _] Hmn [Hmp _] [Hmg _] Ht [Hg1 Hg2] _]. unfold slave_args, slave_opts.
  pose proof (length_fmt_x nodes Hn). pose proof (length_fmt_d_int sport Hs). pose proof (length_fmt_d_int mnode Hmn).
  pose proof (length_fmt_d_int mport Hmp). pose proof (length_fmt_d magic Hmg). pose proof (length_fmt_x _ Hg1).
  pose proof (length_fmt_d_int _ Hg2).
  assert (Htm : - 2 ^ 31 <= o_termmode o < 2 ^ 31).
  { unfold SIGTERM, SIGINT, SIGABRT, SIGQUIT, SIGKILL in Ht.
    repeat (apply elem_of_cons in Ht as [->|Ht]; [lia|]). by apply not_elem_of_nil in Ht. }
  pose proof (length_fmt_d_int _ Htm).
  change (str "0x") with [48; 120]. change (str ",") with [44]. change (str ":") with [58].
  rewrite !snprintf_fits by (rewrite ?length_app; cbn [length]; rewrite ?length_app; cbn [length]; lia).
  assert (E : service_flags (o_services o) = words (service_opts (o_services o))).
  { unfold service_flags, service_opts. rewrite !words_app. by repeat case_match. }
  rewrite E, !words_app, !words_plain. unfold word_of; cbn [snd fst app]. rewrite <- !app_assoc. cbn [app].
  change (words []) with (@nil (list Z)). cbn [app]. repeat f_equal; by case_match.
Qed.
Lemma slave_opts_plain o nodes sport mnode mport magic :
  Forall (fun v => plain_opt v = true) (slave_opts o nodes sport mnode mport magic).
Proof.
  unfold slave_opts, service_opts. repeat (apply Forall_app_2 || apply Forall_cons_2); try done; by repeat case_match; repeat constructor.
Qed.

Lemma decode_hex nodes : 0 <= nodes < 2 ^ 64 → decode_node_arg (str "0x" ++ fmt_x nodes) = Some nodes.
Proof.
  intros H. unfold decode_node_arg. change (has_prefix _ _) with true. cbn iota.
  rewrite <- (app_nil_r (fmt_x nodes)), scan_hex_fmt by done. done.
Qed.

Lemma decode_gdb nodes port : 0 <= nodes < 2 ^ 64 → - 2 ^ 31 <= port < 2 ^ 31 →
  decode_gdb_arg (str "0x" ++ fmt_x nodes ++ str ":" ++ fmt_d port) = Some (nodes, port).
Proof.
  intros Hn Hp. rewrite app_assoc. change (str ":" ++ fmt_d port) with (58 :: fmt_d port).
  set (a := str "0x" ++ fmt_x nodes). unfold decode_gdb_arg.
  rewrite split_on_app.
  - destruct (split_on_cons 58 (fmt_d port)) as (w & ws & ->). assert (Ha : decode_node_arg a = Some nodes) by by apply decode_hex. rewrite Ha. cbn [mbind option_bind].
    rewrite cons_middle, app_assoc, drop_app_length' by (rewrite length_app; cbn; lia). by rewrite atoi_fmt.
  - unfold a. rewrite elem_of_app. intros [H|H]; [by vm_compute in H; set_solver|].
    by apply fmt_unsigned_not in H.
Qed.

(** The effect of the options of a slave, from the initial values. *)
Lemma service_loop services rest o : 0 <= services < 64 → o_services o = 0 →
  opt_loop (service_opts services ++ rest) o =
  opt_loop rest (set_services (Z.land services (Z.lnot ALLOCATOR_SERVICE)) o).
Proof.
  intros Hs Ho. destruct o. cbn in Ho. subst. unfold set_services; cbn.
  assert (H : ∀ k, (k < 64)%nat → ∀ rest, opt_loop (service_opts (Z.of_nat k) ++ rest)
     (mk_opts 0 o_flags0 o_termmode0 o_envstr0 o_nodes0 o_gdb0 o_slave0 o_port0 o_master_node0 o_master_port0 o_magic0 o_sched0)
    = opt_loop rest (mk_opts (Z.land (Z.of_nat k) (-17)) o_flags0 o_termmode0 o_envstr0 o_nodes0 o_gdb0 o_slave0 o_port0
       o_master_node0 o_master_port0 o_magic0 o_sched0)).
  { intros k Hk r. do 64 (destruct k as [|k]; [reflexivity|]). lia. }
  specialize (H (Z.to_nat services) ltac:(lia) rest). by rewrite Z2Nat.id in H by lia.
Qed.
Lemma opt_master_fmt node port o : - 2 ^ 31 <= node < 2 ^ 31 → - 2 ^ 31 <= port < 2 ^ 31 →
  opt_master (fmt_d node ++ str "," ++ fmt_d port) o = Go (set_master node port o).
Proof.
  intros Hn Hp. unfold opt_master. change (str "," ++ fmt_d port) with (44 :: fmt_d port).
  assert (Hc : strchr 44 (fmt_d node ++ 44 :: fmt_d port) = true) by (apply bool_decide_eq_true; set_solver).
  rewrite Hc, scan_int_fmt by done. rewrite <- (app_nil_r (fmt_d port)), scan_int_fmt by done. done.
Qed.

Lemma opt_termmode_fmt m o : m ∈ [SIGTERM; SIGINT; SIGABRT; SIGQUIT; SIGKILL] →
  opt_termmode (fmt_d m) o = Go (set_termmode m o).
Proof.
  intros H. repeat (apply elem_of_cons in H as [->|H]; [reflexivity|]). by apply not_elem_of_nil in H.
Qed.

Lemma opt_cons v l o o' : opt_step v o = Go o' → opt_loop (v :: l) o = opt_loop l o'.
Proof. intros H. cbn [opt_loop]. by rewrite H. Qed.

Lemma step_nodes nodes o : 0 <= nodes < 2 ^ 64 →
  opt_step (chr "n", Some (str "0x" ++ fmt_x nodes)) o = Go (set_nodes nodes o).
Proof.
  intros H. transitivity (match decode_node_arg (str "0x" ++ fmt_x nodes) with
    Some n => Go (set_nodes n o) | None => Exit EXIT_FAILURE end); [done|]. by rewrite decode_hex.
Qed.

Lemma step_port port o : - 2 ^ 31 <= port < 2 ^ 31 → opt_step (chr "p", Some (fmt_d port)) o = Go (set_port port o).
Proof. intros H. transitivity (Go (set_port (atoi (fmt_d port)) o)); [done|]. by rewrite atoi_fmt. Qed.

Lemma step_magic magic o : - 2 ^ 63 <= magic < 2 ^ 63 → opt_step (chr "x", Some (fmt_d magic)) o = Go (set_magicn magic o).
Proof. intros H. transitivity (Go (set_magicn (atol (fmt_d magic)) o)); [done|]. by rewrite atol_fmt. Qed.

(** The last two options are there only when they matter. *)
Lemma tail_loop o o1 : o_termmode o ∈ [SIGTERM; SIGINT; SIGABRT; SIGQUIT; SIGKILL] → o_termmode o1 = SIGTERM →
  0 <= (o_gdb o).1 < 2 ^ 64 → - 2 ^ 31 <= (o_gdb o).2 < 2 ^ 31 →
  opt_loop ((if o_termmode o =? SIGTERM then [] else [(chr "T", Some (fmt_d (o_termmode o)))]) ++
    (if (o_gdb o).1 =? 0 then [] else [(chr "g", Some (str "0x" ++ fmt_x (o_gdb o).1 ++ str ":" ++ fmt_d (o_gdb o).2))])) o1
  = Go (let o2 := set_termmode (o_termmode o) o1 in if (o_gdb o).1 =? 0 then o2 else set_gdb (o_gdb o) o2).
Proof.
  intros Ht Ht1 Hg1 Hg2.
  assert (Hgdb : ∀ o2, opt_loop (if (o_gdb o).1 =? 0 then [] else
      [(chr "g", Some (str "0x" ++ fmt_x (o_gdb o).1 ++ str ":" ++ fmt_d (o_gdb o).2))]) o2 =
    Go (if (o_gdb o).1 =? 0 then o2 else set_gdb (o_gdb o) o2)).
  { intros o2. destruct ((o_gdb o).1 =? 0); [done|]. apply opt_cons.
    change (opt_step _ o2) with (match decode_gdb_arg (str "0x" ++ fmt_x (o_gdb o).1 ++ str ":" ++ fmt_d (o_gdb o).2)
      with Some g => Go (set_gdb g o2) | None => Exit EXIT_FAILURE end).
    rewrite decode_gdb by done. by destruct (o_gdb o). }
  destruct (Z.eqb_spec (o_termmode o) SIGTERM) as [E|E]; cbn [app].
  - rewrite Hgdb. f_equal. assert (E1 : set_termmode (o_termmode o) o1 = o1) by (rewrite E, <- Ht1; by destruct o1).
    cbn. by rewrite E1.
  - rewrite (opt_cons _ _ _ (set_termmode (o_termmode o) o1)); [apply Hgdb|]. by apply opt_termmode_fmt.
Qed.

(** The options after the whole command line of a slave. *)
Definition slave_values (o : run_opts) (nodes sport mnode mport magic : Z) (s : sched) : run_opts :=
  mk_opts (Z.land (o_services o) (Z.lnot ALLOCATOR_SERVICE)) 0 (o_termmode o) (str ".*") nodes
    (if (o_gdb o).1 =? 0 then (0, 0) else o_gdb o) true sport mnode mport magic s.

Lemma slave_loop o nodes sport mnode mport magic : run_ok o nodes sport mnode mport magic →
  ∃ s, opt_loop (slave_opts o nodes sport mnode mport magic) opts0 =
       Go (slave_values o nodes sport mnode mport magic s) ∧
       sch_setsched s = sch_setsched (o_sched o).
Proof.
  intros [Hserv Hn [Hs _] Hmn [Hmp _] [Hmg _] Ht [Hg1 Hg2] [Hsok (t & Htxt & Hlen)]].
  set (buf := snprintf 64 (fmt_d mnode ++ str "," ++ fmt_d mport)).
  set (dec := sch_decodeopt (Some (sch_encodeopt (o_sched o) buf 64)) sched0).
  exists dec.2. split.
  2:{ pose proof (sch_decode_encode (o_sched o) sched0 buf 64 t Hsok Htxt Hlen) as H. fold dec in H. by destruct dec, H. }
  unfold slave_opts. fold buf. cbn [app].
  rewrite (opt_cons _ _ _ (set_slave true opts0)) by done.
  rewrite (opt_cons (chr "n", _) _ _ (set_nodes nodes (set_slave true opts0)))
    by by apply step_nodes.
  rewrite (opt_cons (chr "p", _) _ _ (set_port sport (set_nodes nodes (set_slave true opts0))))
    by by apply step_port.
  rewrite (opt_cons (chr "m", _) _ _ (set_master mnode mport (set_port sport (set_nodes nodes (set_slave true opts0)))))
    by by apply opt_master_fmt.
  rewrite (opt_cons (chr "S", _) _ _ (set_sched dec.2 (set_master mnode mport (set_port sport (set_nodes nodes (set_slave true opts0))))))
    by done.
  rewrite (opt_cons (chr "u", _) _ _ (set_envstr (str ".*") (set_sched dec.2 (set_master mnode mport (set_port sport (set_nodes nodes (set_slave true opts0)))))))
    by done.
  rewrite (opt_cons (chr "x", _) _ _ (set_magicn magic (set_envstr (str ".*") (set_sched dec.2 (set_master mnode mport (set_port sport (set_nodes nodes (set_slave true opts0))))))))
    by by apply step_magic.
  rewrite service_loop, tail_loop by done. unfold slave_values. by destruct ((o_gdb o).1 =? 0).
Qed.

Lemma slave_args_parse argv0 o nodes sport mnode mport magic appl :
  run_ok o nodes sport mnode mport magic → app_word appl = true →
  ∃ s, parse_args (tail (slave_args argv0 o nodes sport mnode mport magic appl)) =
      inr (slave_values o nodes sport mnode mport magic s, appl) ∧
    sch_setsched s = sch_setsched (o_sched o) ∧
    final_ports (slave_values o nodes sport mnode mport magic s) = (sport, mport).
Proof.
  intros Hok Happ. destruct (slave_loop _ _ _ _ _ _ Hok) as (s & Hloop & Hs). exists s.
  rewrite slave_args_words by done. cbn [tail]. split_and!; [|done|].
  - unfold parse_args. rewrite getopt_words by (done || apply slave_opts_plain || apply words_fuel).
    rewrite Hloop. destruct appl; [done|]. cbn [o_slave o_magic slave_values andb].
    by rewrite (proj2 (Z.eqb_neq _ _) (proj2 (ro_magic _ _ _ _ _ _ Hok))).
  - unfold final_ports. cbn. pose proof (ro_sport _ _ _ _ _ _ Hok) as [_ H1]. pose proof (ro_mport _ _ _ _ _ _ Hok) as [_ H2].
    rewrite (proj2 (Z.eqb_neq sport (-1)) H1). cbn. by rewrite (proj2 (Z.eqb_neq sport (-1)) H1), (proj2 (Z.eqb_neq mport (-1)) H2).
Qed.

(** C32. The command line that the master builds for its slaves carries the part of
    its configuration that slaves need, where the values are within their types and
    the scheduling parameters are those of a known policy, with a nice value that
    is not negative and a text that fits 64 bytes ([run_ok]; a negative nice value
    is lost, [nice_is_lost]).  Parsed by a slave it ends with the same application
    and arguments, and gives the slave mode, the nodes of the session, the node and
    the port of the master, the port of the slaves, the number of the session,
    the signal to end the application, the debugger, the scheduling attributes
    and all services except the allocator, which only the master runs.  The flags
    for marks and the mode of exit, which only the master uses, are not passed on,
    and the expression for the environment is the one that lets every variable
    pass. *)
Theorem slave_args_roundtrip argv0 o nodes sport mnode mport magic appl :
  run_ok o nodes sport mnode mport magic → app_word appl = true →
  ∃ o', parse_args (tail (slave_args argv0 o nodes sport mnode mport magic appl)) = inr (o', appl) ∧
    o_slave o' = true ∧ o_services o' = Z.land (o_services o) (Z.lnot ALLOCATOR_SERVICE) ∧
    o_nodes o' = nodes ∧ final_ports o' = (sport, mport) ∧ o_master_node o' = mnode ∧ o_magic o' = magic ∧
    o_termmode o' = o_termmode o ∧ ((o_gdb o).1 ≠ 0 → o_gdb o' = o_gdb o) ∧ ((o_gdb o).1 = 0 → (o_gdb o').1 = 0) ∧
    sch_setsched (o_sched o') = sch_setsched (o_sched o) ∧ o_flags o' = 0 ∧ o_envstr o' = str ".*".
Proof.
  intros Hok Happ. destruct (slave_args_parse argv0 o nodes sport mnode mport magic appl Hok Happ) as (s & Hp & Hs & Hports).
  exists (slave_values o nodes sport mnode mport magic s). split_and!; try done; intros H; cbn.
  - by rewrite (proj2 (Z.eqb_neq _ _) H).
  - by rewrite H.
Qed.
End SlaveArgs.

(** ** Evaluation *)

Definition ex_opts : run_opts :=
  set_gdb (4, 9000) (set_termmode SIGQUIT (set_services 0x3f opts0)).
Definition ex_appl : list (list Z) := [str "./hello"; str "-n"; str "3"].

(** The command line of the master of the example. *)
Example ex_master_parse :
  parse_args [str "-P"; str "all"; str "--exit"; str "-TQUIT"; str "-g"; str "2:9000"; str "./hello"; str "-n"; str "3"] =
  inr (set_flags Output.IDENT_FLAG ex_opts, ex_appl).
Proof. vm_compute. reflexivity. Qed.

Lemma slave_args_roundtrip_witness :
  ∃ o', parse_args (tail (slave_args (str "axiom-run") ex_opts 6 6 1 5 1500000000 ex_appl)) = inr (o', ex_appl) ∧
    o_slave o' = true ∧ o_services o' = 0x2f ∧
    o_nodes o' = 6 ∧ final_ports o' = (6, 5) ∧ o_master_node o' = 1 ∧ o_magic o' = 1500000000 ∧
    o_termmode o' = SIGQUIT ∧ (4 ≠ 0 → o_gdb o' = (4, 9000)) ∧ (4 = 0 → (o_gdb o').1 = 0) ∧
    sch_setsched (o_sched o') = mk_attr 0 0 0 0 0 0 ∧ o_flags o' = 0 ∧ o_envstr o' = str ".*".
Proof.
  apply (slave_args_roundtrip (str "axiom-run") ex_opts 6 6 1 5 1500000000 ex_appl); [|reflexivity].
  constructor; cbn; try lia.
  - vm_compute. right. right. right. left.
  - split; [|exists (str "0,0"); split; [reflexivity|vm_compute; reflexivity]].
    split; [vm_compute; left|]. cbn. lia.
Defined.
