(* ===== verification/RunStart.v ===== *)
(** * The start of a session of axiom-run (axiom-run/axiom-run.c)

    The environment of the application, the start of the slaves through the spawn
    service and the message that lets them run the application. *)

From S2P Require Import Prelude Text Sched CStrings Nic Session Spawn Execvpe RunMsg RunNodes.

(** ** The environment *)

Section Environment.
(** [regexec] on the name of a variable: the beginning and the end of the first
    match of the expression of the option -u. *)
Context (regexec : list Z → option (Z * Z)).

(** The name of a variable, before the first equals sign. *)
Definition var_name (s : list Z) : option (list Z) :=
  match split_on 61 s with a :: _ :: _ => Some a | _ => None end.

(** One variable: whether it is copied and the new value of [already]. *)
Definition env_var (s : list Z) (already : bool) : bool * bool :=
  match var_name s with
  | None => (false, already)
  | Some name =>
      (match regexec name with Some (so, eo) => (so =? 0) && (eo =? alen name) | None => false end,
       already || has_prefix (str "AXIOM_RUN") s || has_prefix (str "AXIOM_NODES") s)
  end.

Fixpoint env_loop (environ env : list (list Z)) (already : bool) : list (list Z) * bool :=
  match environ with
  | [] => (env, already)
  | s :: environ =>
      let '(copy, already) := env_var s already in
      env_loop environ (if copy then env ++ [s] else env) already
  end.

Definition prepare_env (environ : list (list Z)) (slave : bool) (nodes : Z) : list (list Z) :=
  let '(env, already) := env_loop environ [] false in
  if slave && negb already then
    env ++ [snprintf 64 (str "AXIOM_RUN=" ++ fmt_d (count_nodes 64 nodes 0));
            snprintf 64 (str "AXIOM_NODES=0x" ++ fmt_x nodes)]
  else env.
End Environment.

(** ** The start of the slaves *)

(** What [start] uses of the spawn service: [axinit_execvpe] with the port, the
    node, the program, its arguments and its environment. *)
Class Launcher (D : Type) := {
  launch : Z → Z → list Z → list (list Z) → list (list Z) → M D Z
}.

Section Code.
Context `{CN : NicConsts}.

(** The start message: the header of a buffer with any contents [junk]. *)
Definition start_message (junk : list Z) (magic : Z) : list Z :=
  take sizeof_header (set_magic magic (set_command CMD_START junk)).

Section Master.
Context {D : Type} `{LA : Launcher D} `{RD : RawDev D}.

Definition notify_barrier (junk : list Z) (node port magic : Z) : M D Z :=
  axiom_send_raw node port (start_message junk magic).

(** The arguments under the debugger; the text has room for 16 bytes. *)
Definition gdb_argv (filename : list Z) (argv : list (list Z)) (gdb_port : Z) : list (list Z) :=
  [str "gdbserver"; snprintf 16 (str "0.0.0.0:" ++ fmt_d gdb_port); filename] ++ tail argv.

(** The first loop: it ends at the first node that cannot be started. *)
Fixpoint start_exec (fuel : nat) (master_port nodes gdb_nodes gdb_port node err : Z)
    (filename : list Z) (argv envp : list (list Z)) : M D Z :=
  match fuel with
  | O => stop Diverges
  | S fuel =>
      if nodes =? 0 then mret err else
      x ← (if Z.land nodes 1 =? 0 then mret (inl err) else
           err ← (if Z.land gdb_nodes 1 =? 0 then launch master_port node filename argv envp
                  else launch master_port node (str "gdbserver") (gdb_argv filename argv gdb_port) envp);
           mret (if AXIOM_RET_IS_OK err then inl err else inr err));
      match x with
      | inr err => mret err
      | inl err =>
          start_exec fuel master_port (Z.shiftr nodes 1) (Z.shiftr gdb_nodes 1) gdb_port (u8 (node + 1)) err
            filename argv envp
      end
  end.

(** The second loop: errors are only logged. *)
Fixpoint start_notify (fuel : nat) (junk : list Z) (slave_port nodes node magic : Z) : M D unit :=
  match fuel with
  | O => stop Diverges
  | S fuel =>
      if nodes =? 0 then mret tt else
      (if Z.land nodes 1 =? 0 then mret tt else
       _ ← notify_barrier junk node slave_port magic; mret tt) ;;
      start_notify fuel junk slave_port (Z.shiftr nodes 1) (u8 (node + 1)) magic
  end.

(** A mask has 64 bits: 65 turns are enough. *)
Definition start (junk : list Z) (master_port slave_port nodes : Z) (filename : list Z)
    (argv envp : list (list Z)) (gdb_nodes gdb_port magic : Z) : M D Z :=
  err ← start_exec 65 master_port nodes gdb_nodes gdb_port 0 AXIOM_RET_OK filename argv envp;
  start_notify 65 junk slave_port nodes 0 magic ;;
  mret err.
End Master.

Section Slave.
Context {D : Type} `{RD : RawDev D}.

(** One reception; the buffer keeps what a short message does not overwrite. *)
Definition barrier_turn (magic : Z) (buffer : list Z) : M D (list Z + unit) :=
  '(msg, _, payload) ← axiom_recv_raw;
  let buffer := overwrite payload buffer in
  if negb (AXIOM_RET_IS_OK msg) then mret (inl buffer)
  else if negb (h_command buffer =? CMD_START) then mret (inl buffer)
  else if negb (h_magic buffer =? u64 magic) then mret (inl buffer)
  else mret (inr tt).

Definition wait_on_barrier (fuel : nat) (magic : Z) (buffer : list Z) : M D unit :=
  loop fuel (barrier_turn magic) buffer.
End Slave.
End Code.

(** The spawn client of file [Execvpe] as the launcher: one node, so one turn. *)
#[export] Instance execvpe_launcher {D} `{NicConsts} `{SessionConsts} `{SpawnConsts} `{SpawnLayout} `{ExecDev D}
  : Launcher D := {| launch port node filename argv envp :=
    axinit_execvpe 1 port node 0 filename (Some argv) (Some envp) |}.

(** A call on the first part of a state. *)
Definition lift_fst {E D A} (c : M D A) : M (D * E) A := fun d =>
  match c d.1 with Ret a d1 => Ret a (d1, d.2) | Stuck w d1 => Stuck w (d1, d.2) end.

(** The spawn client beside the raw messages. *)
Definition launcher_fst {D E} (L : Launcher D) : Launcher (D * E) :=
  {| launch port node filename argv envp := lift_fst (launch port node filename argv envp) |}.

(** ** The loops over a mask as loops over its nodes *)

Section Loops.
Context `{CN : NicConsts} {D : Type} `{LA : Launcher D} `{RD : RawDev D}.

(** What runs on a node. *)
Definition program_of (filename : list Z) (argv : list (list Z)) (gdb_nodes gdb_port n : Z) : list Z * list (list Z) :=
  if Z.testbit gdb_nodes n then (str "gdbserver", gdb_argv filename argv gdb_port) else (filename, argv).

Fixpoint launch_list (master_port : Z) (prog : Z → list Z * list (list Z)) (envp : list (list Z))
    (l : list Z) (err : Z) : M D Z :=
  match l with
  | [] => mret err
  | n :: l =>
      err ← launch master_port n (prog n).1 (prog n).2 envp;
      if AXIOM_RET_IS_OK err then launch_list master_port prog envp l err else mret err
  end.

Lemma launch_list_ext master_port p1 p2 envp l err d : (∀ n, n ∈ l → p1 n = p2 n) →
  launch_list master_port p1 envp l err d = launch_list master_port p2 envp l err d.
Proof.
  induction l as [|n l IH] in err, d |- *; intros H; [done|]. cbn [launch_list]. rewrite (H n) by set_solver.
  unfold mbind, M_bind. destruct (launch _ _ _ _ _ _); [|done]. case_match; [|done]. apply IH. set_solver.
Qed.

Lemma start_exec_members fuel mport nodes gdb gport base err filename argv envp d :
  0 <= nodes < 2 ^ Z.of_nat fuel → 0 <= base → base + Z.of_nat fuel <= 255 →
  start_exec (S fuel) mport nodes gdb gport base err filename argv envp d =
  launch_list mport (fun n => program_of filename argv gdb gport (n - base)) envp (members_from base fuel nodes) err d.
Proof.
  induction fuel as [|fuel IH] in nodes, gdb, base, err, d |- *; intros Hn Hb Hf.
  { assert (nodes = 0) as -> by lia. by rewrite members_from_zero. }
  rename fuel into f. remember (S f) as fuel eqn:Ef. cbn [start_exec].
  destruct (Z.eqb_spec nodes 0) as [->|H0]; [by rewrite members_from_zero|].
  subst fuel. rename f into fuel. rewrite members_from_step. apply shiftr_bound in Hn.
  assert (Hrest : ∀ err d, start_exec (S fuel) mport (Z.shiftr nodes 1) (Z.shiftr gdb 1) gport (u8 (base + 1)) err filename argv envp d =
    launch_list mport (fun n => program_of filename argv gdb gport (n - base)) envp
      (members_from (base + 1) fuel (Z.shiftr nodes 1)) err d).
  { intros e d'. rewrite u8_small by lia. rewrite IH by lia. apply launch_list_ext. intros n Hin.
    unfold members_from in Hin. apply list_elem_of_filter in Hin as [_ Hin]. apply elem_of_seqZ in Hin.
    unfold program_of. rewrite Z.shiftr_spec by lia. by replace (n - (base + 1) + 1) with (n - base) by lia. }
  destruct (Z.land nodes 1 =? 0); cbn [app].
  - exact (Hrest err d).
  - cbn [launch_list]. rewrite Z.sub_diag, land_1_odd.
    assert (Hp : program_of filename argv gdb gport 0 =
      if Z.odd gdb then (str "gdbserver", gdb_argv filename argv gport) else (filename, argv))
      by (unfold program_of; by rewrite Z.bit0_odd).
    rewrite Hp. unfold mbind, M_bind.
    destruct (Z.odd gdb); cbn [negb fst snd]; (destruct (launch _ _ _ _ _ _) as [e d'|]; [|done]); cbn [mret M_ret];
      (destruct (AXIOM_RET_IS_OK e); [apply Hrest|done]).
Qed.

Fixpoint notify_list (junk : list Z) (slave_port magic : Z) (l : list Z) : M D unit :=
  match l with
  | [] => mret tt
  | n :: l => _ ← notify_barrier junk n slave_port magic; notify_list junk slave_port magic l
  end.

Lemma start_notify_members fuel junk port nodes base magic d :
  0 <= nodes < 2 ^ Z.of_nat fuel → 0 <= base → base + Z.of_nat fuel <= 255 →
  start_notify (S fuel) junk port nodes base magic d =
  notify_list junk port magic (members_from base fuel nodes) d.
Proof.
  induction fuel as [|fuel IH] in nodes, base, d |- *; intros Hn Hb Hf.
  { assert (nodes = 0) as -> by lia. by rewrite members_from_zero. }
  rename fuel into f. remember (S f) as fuel eqn:Ef. cbn [start_notify].
  destruct (Z.eqb_spec nodes 0) as [->|H0]; [by rewrite members_from_zero|].
  subst fuel. rename f into fuel. rewrite members_from_step. apply shiftr_bound in Hn. rewrite u8_small by lia.
  destruct (Z.land nodes 1 =? 0); cbn [app notify_list]; unfold mbind, M_bind.
  - cbn [mret M_ret]. by apply IH; lia.
  - destruct (notify_barrier _ _ _ _ _) as [e d'|]; [|done]. cbn [mret M_ret]. by apply IH; lia.
Qed.
End Loops.

(** ** The messages of a start *)

Section StartSpec.
Context `{CN : NicConsts} {CNOK : NicConstsOk} `{CS : SessionConsts} `{CP : SpawnConsts} {CPOK : SpawnConstsOk}.
Context `{LY : SpawnLayout}.
Implicit Types (d : execdev * rawsim).

#[local] Instance sim_launcher : Launcher (execdev * rawsim) := launcher_fst execvpe_launcher.

(** One node. *)
Lemma execvpe_one port node filename argv envp cwd rep reps (x : execdev) :
  xd_fail x = [] → xd_cwd x = Some cwd → xd_replies x = rep :: reps → reply_ok rep →
  strings_ok filename argv envp cwd →
  ∃ evs, axinit_execvpe 1 port node 0 filename argv envp x = Ret 1 (logged evs (with_replies reps x)) ∧
    node_msgs port filename argv envp cwd node rep evs.
Proof using CNOK CPOK.
  intros Hf Hcwd Hr Hok (Hfn & Ha & He & Hc).
  destruct (exec_node_ok node port filename argv envp cwd rep reps x Hf Hcwd Hr Hok Hfn Ha He Hc) as (evs & Hev & Hm).
  exists evs. split; [|done]. unfold axinit_execvpe. cbn [loop]. change (Z.land 0 _ =? 0) with true. cbn iota.
  unfold exec_turn, mbind at 1, M_bind at 1. unfold mbind at 1, M_bind at 1. cbn [ed_node_id execdev_dev].
  change (Z.land 0 _ =? 0) with true. cbn [negb andb]. rewrite (bind_ret _ _ _ _ _ Hev). reflexivity.
Qed.

(** A node that has no session left. *)
Lemma execvpe_refused port node filename argv envp ret buf reps (x : execdev) :
  xd_fail x = [] → xd_replies x = (ret, AXIOM_SESSION_EMPTY, buf) :: reps → AXIOM_RET_IS_OK ret = true →
  axinit_execvpe 1 port node 0 filename argv envp x =
  Ret AXIOM_RET_ERROR
    (logged [EvSession node (mk_session_req AXIOM_CMD_SESSION_REQ port AXIOM_SESSION_EMPTY)] (with_replies reps x)).
Proof using CNOK.
  intros Hf Hr Hok. unfold axinit_execvpe. cbn [loop]. change (Z.land 0 _ =? 0) with true. cbn iota.
  unfold exec_turn, mbind at 1, M_bind at 1. unfold mbind at 1, M_bind at 1. cbn [ed_node_id execdev_dev].
  change (Z.land 0 _ =? 0) with true. cbn [negb andb].
  unfold exec_node. set (q := mk_session_req _ _ _).
  assert (H1 : ed_send_session node q x = Ret AXIOM_RET_OK (logged [EvSession node q] x)) by (by apply xd_push_ok).
  unfold mbind, M_bind. rewrite H1, ret_ok_ok. cbn [negb ed_recv_reply execdev_dev logged xd_replies]. rewrite Hr, Hok.
  cbn [negb]. rewrite Z.eqb_refl. reflexivity.
Qed.

Lemma nul_free_program filename argv gdb gport n cwd envp : - 2 ^ 31 <= gport < 2 ^ 31 →
  strings_ok filename (Some argv) envp cwd →
  strings_ok (program_of filename argv gdb gport n).1 (Some (program_of filename argv gdb gport n).2) envp cwd.
Proof.
  intros Hg (Hf & Ha & He & Hc). unfold program_of. destruct (Z.testbit gdb n); [|done].
  split; [|split; [|done]]; cbn [fst snd].
  - vm_compute. intros H. repeat (apply elem_of_cons in H as [H|H]; [done|]). by apply not_elem_of_nil in H.
  - unfold nul_free, gdb_argv in *. cbn [default] in *. cbn [app]. repeat apply Forall_cons_2; try done.
    + vm_compute. intros H. repeat (apply elem_of_cons in H as [H|H]; [done|]). by apply not_elem_of_nil in H.
    + unfold snprintf. intros H%elem_of_take. destruct H as (i & H & _). apply list_elem_of_lookup_2 in H.
      apply elem_of_app in H as [H|H].
      * vm_compute in H. repeat (apply elem_of_cons in H as [H|H]; [done|]). by apply not_elem_of_nil in H.
      * revert H. by apply fmt_d_not.
    + by apply Forall_tail.
Qed.

(** The messages to the nodes of [l], each with its own program. *)
Definition launched (port : Z) (prog : Z → list Z * list (list Z)) (envp : list (list Z)) (cwd : list Z)
    (n : Z) (rep : Z * Z * list Z) (evs : list exec_event) : Prop :=
  node_msgs port (prog n).1 (Some (prog n).2) (Some envp) cwd n rep evs.

Hypothesis started_ok : AXIOM_RET_IS_OK 1 = true.

Lemma launch_list_ok port prog envp cwd l err reps rest d :
  (∀ n, strings_ok (prog n).1 (Some (prog n).2) (Some envp) cwd) →
  xd_fail d.1 = [] → xd_cwd d.1 = Some cwd → xd_replies d.1 = reps ++ rest → Forall reply_ok reps →
  length reps = length l → AXIOM_RET_IS_OK err = true →
  ∃ evss err', (∀ l2, launch_list port prog envp (l ++ l2) err d =
      launch_list port prog envp l2 err' (logged (concat evss) (with_replies rest d.1), d.2)) ∧
    AXIOM_RET_IS_OK err' = true ∧ Forall3 (launched port prog envp cwd) l reps evss.
Proof using CNOK CPOK started_ok.
  intros Hs. induction l as [|n l IH] in err, reps, d |- *; intros Hf Hcwd Hr Hok Hlen Herr.
  { destruct reps; [|done]. exists [], err. cbn in Hr. split; [|by split; [|constructor]]. intros l2. cbn [app concat].
    f_equal. destruct d as [[] ?]; unfold logged, with_replies; cbn in *. subst. by rewrite app_nil_r. }
  destruct reps as [|rep reps]; [done|]. apply Forall_cons in Hok as [Hok1 Hok]. cbn in Hlen.
  destruct (execvpe_one port n (prog n).1 (Some (prog n).2) (Some envp) cwd rep (reps ++ rest) d.1 Hf Hcwd Hr Hok1 (Hs n))
    as (evs & Hev & Hm).
  destruct (IH 1 reps (logged evs (with_replies (reps ++ rest) d.1), d.2)) as (evss & err' & Hl & He & Hall); try done; [lia|].
  exists (evs :: evss), err'. split; [|by split; [|constructor]]. intros l2. cbn [app launch_list].
  unfold mbind, M_bind. cbn [launch sim_launcher launcher_fst execvpe_launcher]. unfold lift_fst. rewrite Hev, started_ok, Hl.
  f_equal. unfold logged, with_replies. cbn. by rewrite <- app_assoc.
Qed.

Lemma notify_list_ok junk port magic l d :
  notify_list junk port magic l d =
  Ret tt (d.1, rs_after ((fun n => (n, port, start_message junk magic)) <$> l) d.2).
Proof.
  induction l as [|n l IH] in d |- *; cbn [notify_list fmap list_fmap].
  { rewrite rs_after_nil. by destruct d. }
  unfold notify_barrier, mbind, M_bind. cbn [axiom_send_raw raw_snd]. unfold lift_snd. cbn [axiom_send_raw rawsim_dev].
  destruct (rs_push_after (n, port, start_message junk magic) d.2) as [r ->]. rewrite IH. cbn [fst snd].
  by rewrite rs_after_app.
Qed.

(** A session starts on every one of its nodes: when every daemon grants a
    session, [start] asks each node of the mask in increasing order for one and
    sends it the complete description of its program (the debugger with the
    application on the nodes of the debugger's mask), then sends the start
    message with the number of the session to the slave port of each node, and
    nothing else; the start messages follow all launches. *)
Theorem start_spec junk mport sport nodes filename argv envp gdb gport magic cwd reps rest d :
  0 <= nodes < 2 ^ 64 → - 2 ^ 31 <= gport < 2 ^ 31 → strings_ok filename (Some argv) (Some envp) cwd →
  xd_fail d.1 = [] → xd_cwd d.1 = Some cwd → xd_replies d.1 = reps ++ rest → Forall reply_ok reps →
  length reps = length (members nodes) →
  ∃ err evss d', start junk mport sport nodes filename argv envp gdb gport magic d = Ret err d' ∧
    AXIOM_RET_IS_OK err = true ∧
    xd_log d'.1 = xd_log d.1 ++ concat evss ∧ xd_replies d'.1 = rest ∧
    Forall3 (launched mport (program_of filename argv gdb gport) envp cwd) (members nodes) reps evss ∧
    rs_log d'.2 = rs_log d.2 ++ ((fun n => (n, sport, start_message junk magic)) <$> members nodes) ∧
    rs_in d'.2 = rs_in d.2.
Proof using CNOK CPOK started_ok.
  intros Hn Hg Hs Hf Hcwd Hr Hok Hlen.
  set (prog := program_of filename argv gdb gport).
  destruct (launch_list_ok mport prog envp cwd (members nodes) AXIOM_RET_OK reps rest d) as (evss & err & Hl & He & Hall);
    try done; [intros n; by apply nul_free_program|apply ret_ok_ok|].
  specialize (Hl []). rewrite app_nil_r in Hl. cbn [launch_list] in Hl.
  exists err, evss. eexists. split; [|split; [done|]].
  { unfold start, mbind, M_bind. rewrite start_exec_members by lia. rewrite members_from_0.
    rewrite (launch_list_ext _ _ prog) by (intros n _; by rewrite Z.sub_0_r). rewrite Hl. cbn [mret M_ret].
    rewrite start_notify_members by lia. rewrite members_from_0, notify_list_ok. cbn [mret M_ret]. reflexivity. }
  split_and!; done.
Qed.

(** C36. A refused node stops the launches: when the daemon of a node has no
    session left, [start] returns an error and contacts no daemon of a later
    node; the nodes before it were launched completely.  The start message still
    goes to all nodes of the session, also to those where nothing was launched. *)
Theorem start_refused junk mport sport nodes filename argv envp gdb gport magic cwd reps rest l1 n l2 ret buf d :
  0 <= nodes < 2 ^ 64 → - 2 ^ 31 <= gport < 2 ^ 31 → strings_ok filename (Some argv) (Some envp) cwd →
  xd_fail d.1 = [] → xd_cwd d.1 = Some cwd → members nodes = l1 ++ n :: l2 →
  xd_replies d.1 = reps ++ (ret, AXIOM_SESSION_EMPTY, buf) :: rest → Forall reply_ok reps →
  AXIOM_RET_IS_OK ret = true → length reps = length l1 →
  ∃ evss d', start junk mport sport nodes filename argv envp gdb gport magic d = Ret AXIOM_RET_ERROR d' ∧
    xd_log d'.1 = xd_log d.1 ++ concat evss ++
      [EvSession n (mk_session_req AXIOM_CMD_SESSION_REQ mport AXIOM_SESSION_EMPTY)] ∧
    xd_replies d'.1 = rest ∧
    Forall3 (launched mport (program_of filename argv gdb gport) envp cwd) l1 reps evss ∧
    rs_log d'.2 = rs_log d.2 ++ ((fun n => (n, sport, start_message junk magic)) <$> members nodes).
Proof using CNOK CPOK started_ok.
  intros Hn Hg Hs Hf Hcwd Hm Hr Hok Hret Hlen.
  set (prog := program_of filename argv gdb gport).
  destruct (launch_list_ok mport prog envp cwd l1 AXIOM_RET_OK reps ((ret, AXIOM_SESSION_EMPTY, buf) :: rest) d)
    as (evss & err & Hl & He & Hall); try done; [intros k; by apply nul_free_program|apply ret_ok_ok|].
  specialize (Hl (n :: l2)). rewrite <- Hm in Hl. cbn [launch_list] in Hl.
  exists evss. eexists. split.
  { unfold start, mbind, M_bind. rewrite start_exec_members by lia. rewrite members_from_0.
    rewrite (launch_list_ext _ _ prog) by (intros k _; by rewrite Z.sub_0_r). rewrite Hl. unfold mbind, M_bind.
    cbn [launch sim_launcher launcher_fst execvpe_launcher]. unfold lift_fst. cbn [fst snd].
    rewrite (execvpe_refused mport n _ _ _ ret buf rest) by done. rewrite ret_error_not_ok. cbn [mret M_ret].
    rewrite start_notify_members by lia. rewrite members_from_0, notify_list_ok. cbn [mret M_ret]. reflexivity. }
  cbn. split_and!; try done. by rewrite <- !app_assoc.
Qed.
End StartSpec.

(** ** The start message at the slave *)

Section Handshake.
Context `{CN : NicConsts}.

Lemma start_message_fields junk magic : (sizeof_header <= length junk)%nat →
  length (start_message junk magic) = sizeof_header ∧ h_command (start_message junk magic) = CMD_START ∧
  h_magic (start_message junk magic) = u64 magic.
Proof.
  intros Hj. unfold start_message. destruct (take_set_command CMD_START junk Hj) as [Hl _].
  assert (Hl2 : length (set_magic magic (set_command CMD_START junk)) = length junk).
  { unfold set_magic. rewrite length_set_field, Hl; [done|]. rewrite length_le_put. unfold sizeof_header in *. lia. }
  assert (Hf : ∀ off n b, (off + n <= sizeof_header)%nat → field off n (take sizeof_header b) = field off n b).
  { intros off n b H. unfold field. rewrite skipn_firstn_comm, take_take. f_equal. lia. }
  split; [rewrite length_take; lia|]. split.
  - reflexivity.
  - unfold h_magic. rewrite Hf by (unfold sizeof_header; lia). unfold set_magic.
    rewrite field_set_field by (rewrite ?length_le_put, ?Hl; unfold sizeof_header in *; done || lia).
    rewrite le_get_put. done.
Qed.

(** A reception that is not the start of the session [magic]: it failed, or the
    message has another command or the number of another session. *)
Definition other_message (magic : Z) (m : Z * Z * list Z) : Prop :=
  AXIOM_RET_IS_OK m.1.1 = false ∨
  ((sizeof_header <= length m.2)%nat ∧ (h_command m.2 ≠ CMD_START ∨ h_magic m.2 ≠ u64 magic)).

Lemma barrier_turn_other magic m rest buffer (d : rawsim) : other_message magic m → rs_in d = m :: rest →
  barrier_turn magic buffer d =
  Ret (inl (overwrite m.2 buffer)) (mk_rawsim rest (rs_send d) (rs_log d)).
Proof.
  destruct m as [[ret n] p]. intros Ho Hin. unfold barrier_turn, mbind, M_bind. cbn [axiom_recv_raw rawsim_dev].
  rewrite Hin. cbn [fst snd] in *. destruct Ho as [Hr|[Hl Ho]]; [cbn [fst snd] in Hr; by rewrite Hr|]. cbn [snd] in *.
  destruct (AXIOM_RET_IS_OK ret); [|done]. cbn [negb]. unfold sizeof_header in Hl.
  rewrite command_overwrite by lia. destruct (Z.eqb_spec (h_command p) CMD_START); [|done]. cbn [negb].
  unfold h_magic at 1. rewrite field_overwrite by lia. fold (h_magic p).
  destruct Ho as [?|Ho]; [done|]. by rewrite (proj2 (Z.eqb_neq _ _) Ho).
Qed.

Lemma barrier_skip magic pre fuel buffer rest (d : rawsim) :
  Forall (other_message magic) pre → rs_in d = pre ++ rest →
  ∃ buffer', wait_on_barrier (length pre + fuel) magic buffer d =
    wait_on_barrier fuel magic buffer' (mk_rawsim rest (rs_send d) (rs_log d)).
Proof.
  intros Hpre. induction Hpre as [|m pre Hm _ IH] in buffer, d |- *; intros Hin.
  { exists buffer. cbn in Hin |- *. rewrite <- Hin. by destruct d. }
  destruct (IH (overwrite m.2 buffer) (mk_rawsim (pre ++ rest) (rs_send d) (rs_log d)) eq_refl) as [b Hb].
  exists b. unfold wait_on_barrier in *. cbn [length Nat.add loop]. unfold mbind, M_bind.
  rewrite (barrier_turn_other _ _ (pre ++ rest)) by done. exact Hb.
Qed.

(** The start message of the own session ends the wait. *)
Lemma barrier_starts junk magic pre ret n rest fuel buffer (d : rawsim) :
  Forall (other_message magic) pre → AXIOM_RET_IS_OK ret = true → (sizeof_header <= length junk)%nat →
  (length pre < fuel)%nat → rs_in d = pre ++ (ret, n, start_message junk magic) :: rest →
  wait_on_barrier fuel magic buffer d = Ret tt (mk_rawsim rest (rs_send d) (rs_log d)).
Proof.
  intros Hpre Hret Hj Hf Hin. destruct (start_message_fields junk magic Hj) as (Hl & Hc & Hm).
  replace fuel with (length pre + S (fuel - length pre - 1))%nat by lia.
  destruct (barrier_skip magic pre (S (fuel - length pre - 1)) buffer _ d Hpre Hin) as [b ->].
  unfold wait_on_barrier. cbn [loop]. unfold barrier_turn, mbind, M_bind. cbn [axiom_recv_raw rawsim_dev rs_in]. rewrite Hret.
  cbn [negb]. unfold sizeof_header in Hl. rewrite command_overwrite, Hc by lia. cbn [negb].
  unfold h_magic at 1. rewrite field_overwrite by lia. fold (h_magic (start_message junk magic)).
  rewrite Hm, !Z.eqb_refl. done.
Qed.

(** A slave runs the application exactly when its own session starts:
    whatever failures and messages of other commands or sessions come first, it
    reads on until the start message that the master of its session sends and
    returns then, having read nothing after it; as long as this message does not
    come it keeps waiting. *)
Theorem wait_on_barrier_spec junk magic pre ret n rest fuel buffer (d : rawsim) :
  Forall (other_message magic) pre → AXIOM_RET_IS_OK ret = true → (sizeof_header <= length junk)%nat →
  (length pre < fuel)%nat →
  (rs_in d = pre ++ (ret, n, start_message junk magic) :: rest →
     wait_on_barrier fuel magic buffer d = Ret tt (mk_rawsim rest (rs_send d) (rs_log d))) ∧
  (rs_in d = pre →
     wait_on_barrier fuel magic buffer d = Stuck Blocked (mk_rawsim [] (rs_send d) (rs_log d))).
Proof.
  intros Hpre Hret Hj Hf. split; intros Hin; [by eapply barrier_starts|].
  replace fuel with (length pre + S (fuel - length pre - 1))%nat by lia.
  rewrite <- (app_nil_r pre) in Hin. by destruct (barrier_skip magic pre (S (fuel - length pre - 1)) buffer _ d Hpre Hin) as [b ->].
Qed.

(** The start of another session is none of the own one. *)
Lemma other_session junk magic magic' ret n : (sizeof_header <= length junk)%nat → u64 magic' ≠ u64 magic →
  other_message magic (ret, n, start_message junk magic').
Proof.
  intros Hj Hne. destruct (start_message_fields junk magic' Hj) as (Hl & Hc & Hm). right. cbn [snd].
  rewrite Hl, Hm. split; [done|by right].
Qed.
End Handshake.

(** ** The environment of the application *)

Section EnvironmentSpec.
Context (regexec : list Z → option (Z * Z)).

(** The variable is copied: the expression matches its whole name. *)
Definition copied (s : list Z) : bool := (env_var regexec s false).1.
(** A variable of an enclosing session. *)
Definition preset (s : list Z) : bool := (env_var regexec s false).2.

Lemma env_loop_spec environ env already :
  env_loop regexec environ env already = (env ++ List.filter copied environ, already || existsb preset environ).
Proof.
  induction environ as [|s environ IH] in env, already |- *; cbn [env_loop List.filter existsb].
  { by rewrite app_nil_r, orb_false_r. }
  assert (E : env_var regexec s already = (copied s, already || preset s)).
  { unfold copied, preset, env_var. destruct (var_name s); cbn; [by rewrite orb_assoc|by rewrite orb_false_r]. }
  rewrite E, IH, orb_assoc. f_equal. destruct (copied s); [by rewrite <- app_assoc|done].
Qed.

(** The text of the two variables of the session fits its buffers. *)
Lemma prepare_env_strings environ slave nodes : 0 <= nodes < 2 ^ 64 →
  prepare_env regexec environ slave nodes =
    List.filter copied environ ++
    (if slave && negb (existsb preset environ) then
       [str "AXIOM_RUN=" ++ fmt_d (alen (members nodes)); str "AXIOM_NODES=" ++ str "0x" ++ fmt_x nodes]
     else []) ∧ 0 <= alen (members nodes) <= 64.
Proof.
  intros Hn. assert (Hm : 0 <= alen (members nodes) <= 64).
  { unfold alen, members. pose proof (length_filter (fun i => Z.testbit nodes i = true) (seqZ 0 64)) as H.
    rewrite length_seqZ in H. lia. }
  split; [|done]. unfold prepare_env. rewrite env_loop_spec. cbn [app orb].
  destruct (slave && _); [|by rewrite app_nil_r]. rewrite count_nodes_members by done. repeat f_equal; apply snprintf_fits.
  - pose proof (length_fmt_d_int (alen (members nodes)) ltac:(lia)). rewrite length_app.
    change (length (str "AXIOM_RUN=")) with 10%nat. lia.
  - pose proof (length_fmt_x nodes Hn). rewrite !length_app.
    change (length (str "AXIOM_NODES=")) with 12%nat. change (length (str "0x")) with 2%nat. lia.
Qed.

(** The environment of the application: it keeps, in order, exactly the
    variables whose whole name matches the expression; in a slave that runs in no
    enclosing session it then has the two variables of the session, from which
    the application reads back the number of its nodes and their mask. *)
Theorem prepare_env_spec environ slave nodes : 0 <= nodes < 2 ^ 64 →
  let kept := List.filter copied environ in
  if slave && negb (existsb preset environ) then
    ∃ run mask, prepare_env regexec environ slave nodes = kept ++ [str "AXIOM_RUN=" ++ run; str "AXIOM_NODES=" ++ mask] ∧
      atoi run = alen (members nodes) ∧ scan_hex mask = Some (nodes, [])
  else prepare_env regexec environ slave nodes = kept.
Proof.
  intros Hn kept. destruct (prepare_env_strings environ slave nodes Hn) as [-> Hm].
  destruct (slave && _); [|by rewrite app_nil_r].
  exists (fmt_d (alen (members nodes))), (str "0x" ++ fmt_x nodes). split; [done|]. split.
  - apply atoi_fmt. lia.
  - rewrite <- (app_nil_r (fmt_x nodes)). by apply scan_hex_fmt.
Qed.
End EnvironmentSpec.

(** ** Evaluation *)

Section Examples.
#[local] Existing Instance nic8.
#[local] Existing Instance nic8_ok.
#[local] Existing Instance x_session.
#[local] Existing Instance x_spawn.
#[local] Existing Instance x_spawn_ok.
#[local] Existing Instance x_layout.
#[local] Existing Instance sim_launcher.

Definition ex_junk : list Z := replicate 20 7.
(** Two nodes, 1 and 2; node 2 runs under the debugger. *)
Definition ex_start (reps : list (Z * Z * list Z)) : outcome (execdev * rawsim) Z :=
  start ex_junk 5 6 6 [97] [[97]; [98]] [[98; 61; 99]] 4 9000 77 (x_dev 1 3 reps, mk_rawsim [] [] []).

Lemma ex_start_strings : strings_ok [97] (Some [[97]; [98]]) (Some [[98; 61; 99]]) [47].
Proof. split_and!; try set_solver; repeat (constructor; [set_solver|]); constructor. Qed.

Lemma start_spec_witness :
  ∃ err d', ex_start [x_rep 4; x_rep 5] = Ret err d' ∧ AXIOM_RET_IS_OK err = true ∧ xd_replies d'.1 = [] ∧
    rs_log d'.2 = [(1, 6, start_message ex_junk 77); (2, 6, start_message ex_junk 77)].
Proof.
  assert (H1 : 0 <= 6 < 2 ^ 64) by lia. assert (H2 : - 2 ^ 31 <= 9000 < 2 ^ 31) by lia.
  assert (H3 : Forall reply_ok [x_rep 4; x_rep 5]) by (repeat (apply Forall_cons; split; [by split_and!|]); constructor).
  destruct (start_spec (CN := nic8) (CS := x_session) eq_refl ex_junk 5 6 6 [97] [[97]; [98]] [[98; 61; 99]] 4 9000 77 [47] [x_rep 4; x_rep 5] []
    (x_dev 1 3 [x_rep 4; x_rep 5], mk_rawsim [] [] []) H1 H2 ex_start_strings eq_refl eq_refl eq_refl H3 eq_refl)
    as (err & evss & d' & Heq & Herr & _ & Hr & _ & Hlog & _).
  exists err, d'. exact (conj Heq (conj Herr (conj Hr Hlog))).
Defined.

(** Node 2 has no session left. *)
Lemma start_refused_witness :
  ∃ d', ex_start [x_rep 4; x_rep 255] = Ret (-1) d' ∧ xd_replies d'.1 = [] ∧
    rs_log d'.2 = [(1, 6, start_message ex_junk 77); (2, 6, start_message ex_junk 77)].
Proof.
  assert (H1 : 0 <= 6 < 2 ^ 64) by lia. assert (H2 : - 2 ^ 31 <= 9000 < 2 ^ 31) by lia.
  assert (H3 : Forall reply_ok [x_rep 4]) by (repeat (apply Forall_cons; split; [by split_and!|]); constructor).
  destruct (start_refused (CN := nic8) (CS := x_session) eq_refl ex_junk 5 6 6 [97] [[97]; [98]] [[98; 61; 99]] 4 9000 77 [47] [x_rep 4] [] [1] 2 []
    0 [9; 9; 9; 9; 9; 9] (x_dev 1 3 [x_rep 4; x_rep 255], mk_rawsim [] [] []) H1 H2 ex_start_strings eq_refl eq_refl
    eq_refl eq_refl H3 eq_refl eq_refl) as (evss & d' & Heq & _ & Hr & _ & Hlog).
  exists d'. exact (conj Heq (conj Hr Hlog)).
Defined.

(** A failed reception and the start of the session 76 come first. *)
Definition ex_before : list (Z * Z * list Z) := [(-1, 0, []); (0, 1, start_message ex_junk 76)].

Lemma wait_on_barrier_spec_witness :
  wait_on_barrier 5 77 [] (mk_rawsim (ex_before ++ [(0, 1, start_message ex_junk 77); (0, 1, [1])]) [] []) =
    Ret tt (mk_rawsim [(0, 1, [1])] [] []).
Proof.
  assert (Hpre : Forall (other_message 77) ex_before).
  { constructor; [by left|]. constructor; [|constructor]. right. split; [vm_compute; lia|right; vm_compute; done]. }
  assert (H2 : (sizeof_header <= length ex_junk)%nat) by (vm_compute; lia).
  assert (H3 : (length ex_before < 5)%nat) by (vm_compute; lia).
  exact (proj1 (wait_on_barrier_spec (CN := nic8) ex_junk 77 ex_before 0 1 [(0, 1, [1])] 5 []
    (mk_rawsim (ex_before ++ [(0, 1, start_message ex_junk 77); (0, 1, [1])]) [] []) Hpre eq_refl H2 H3) eq_refl).
Defined.

(** An expression that matches the names PATH and SHELL. *)
Definition ex_regexec (s : list Z) : option (Z * Z) :=
  if has_prefix (str "PATH") s then Some (0, 4) else if has_prefix (str "SHELL") s then Some (0, 5) else None.
Definition ex_environ : list (list Z) := [str "PATH=/bin"; str "PATHX=1"; str "HOME=/"; str "SHELL=sh"].

Lemma prepare_env_spec_witness :
  ∃ run mask, prepare_env ex_regexec ex_environ true 6 =
      [str "PATH=/bin"; str "SHELL=sh"; str "AXIOM_RUN=" ++ run; str "AXIOM_NODES=" ++ mask] ∧
    atoi run = 2 ∧ scan_hex mask = Some (6, []).
Proof. assert (H : 0 <= 6 < 2 ^ 64) by lia. exact (prepare_env_spec ex_regexec ex_environ true 6 H). Defined.
End Examples.
