(* ===== verification/Signals.v ===== *)
(** * Signals and threads of axiom-run (axiom-run/axiom-run.c)

    [block_all_signals] and [restore_signals_and_set_quit_handler], between which
    master and slave create their threads, on the signal masks of the threads and
    the actions of the process; and [terminate_thread].  The calls of the C library
    can fail. *)

From stdpp Require Import gmap.
From S2P Require Import Prelude Nic RunMsg Output Master Slave RunMain.

Definition SIGSTOP : Z := 19.
Definition SIGCHLD : Z := 17.
Definition SA_NOCLDSTOP : Z := 1.

(** The signals 1 to 64. *)
Definition all_signals : gset Z := list_to_set (seqZ 1 64).
(** The kernel never blocks these two. *)
Definition unblockable : gset Z := {[ SIGKILL; SIGSTOP ]}.
(** The signals that end axiom-run. *)
Definition quit_signals : gset Z := {[ SIGINT; SIGQUIT; SIGTERM ]}.

Inductive disposition (H : Type) := SigDefault | SigHandler (h : H).
Arguments SigDefault {H}.
Arguments SigHandler {H} h.

Section Code.
(** The threads and the handlers. *)
Context {T H : Type} `{EqDecision T}.

(** The masks of the threads, the actions of the process, and which of the next
    calls fail; those after them succeed. *)
Record sigproc := mk_sigproc {
  sp_masks : T → gset Z;
  sp_actions : Z → disposition H * Z;
  sp_fails : list bool
}.

Definition set_mask (t : T) (m : gset Z) (s : sigproc) : sigproc :=
  mk_sigproc (fun t' => if decide (t' = t) then m ∖ unblockable else sp_masks s t') (sp_actions s) (sp_fails s).
Definition set_action (sig : Z) (a : disposition H * Z) (s : sigproc) : sigproc :=
  mk_sigproc (sp_masks s) (fun sig' => if decide (sig' = sig) then a else sp_actions s sig') (sp_fails s).
Definition with_sp_fails (l : list bool) (s : sigproc) : sigproc := mk_sigproc (sp_masks s) (sp_actions s) l.

(** The result of the next call. *)
Definition call_ok (s : sigproc) : bool := negb (hd false (sp_fails s)).
Definition called (s : sigproc) : sigproc := with_sp_fails (tail (sp_fails s)) s.

(** A call with its effect, and a check after it; [None]: [exit(EXIT_FAILURE)]. *)
Definition checked (f : sigproc → sigproc) (s : sigproc) : option sigproc :=
  if call_ok s then Some (f (called s)) else None.
(** [pthread_sigmask]: its result is not stored, the check looks at the result of
    the call before, which succeeded. *)
Definition unchecked (f : sigproc → sigproc) (s : sigproc) : sigproc :=
  if call_ok s then f (called s) else called s.

(** By the thread [t]; [junk] is the uninitialised old mask. *)
Definition block_all_signals (t : T) (junk : gset Z) (s : sigproc) : option (gset Z * sigproc) :=
  s ← checked (fun s => s) s;
  let oldset := if call_ok s then sp_masks s t else junk in
  Some (oldset, unchecked (set_mask t all_signals) s).

(** [sigdelset] fails for no signal that exists. *)
Definition sigdelset (sig : Z) (st : gset Z * sigproc) : option (gset Z * sigproc) :=
  s ← checked (fun s => s) st.2; Some (st.1 ∖ {[ sig ]}, s).

Definition restore_signals_and_set_quit_handler (t : T) (oldset : gset Z) (myhandler : H) (s : sigproc) : option (gset Z * sigproc) :=
  s ← checked (set_action SIGINT (SigHandler myhandler, 0)) s;
  s ← checked (set_action SIGQUIT (SigHandler myhandler, 0)) s;
  s ← checked (set_action SIGTERM (SigHandler myhandler, 0)) s;
  s ← checked (set_action SIGCHLD (SigDefault, SA_NOCLDSTOP)) s;
  st ← sigdelset SIGINT (oldset, s);
  st ← sigdelset SIGQUIT st;
  st ← sigdelset SIGTERM st;
  '(oldset, s) ← sigdelset SIGCHLD st;
  Some (oldset, unchecked (set_mask t oldset) s).

(** [pthread_create]: the new thread has the mask of its creator. *)
Definition create_thread (t k : T) (s : sigproc) : sigproc := set_mask k (sp_masks s t) s.

(** What master and slave do with their threads [ks]. *)
Definition start_threads (t : T) (ks : list T) (junk : gset Z) (myhandler : H) (s : sigproc) : option sigproc :=
  '(oldset, s) ← block_all_signals t junk s;
  let s := foldl (fun s k => create_thread t k s) s ks in
  '(_, s) ← restore_signals_and_set_quit_handler t oldset myhandler s;
  Some s.

(** A signal sent to the process is taken by a thread that does not block it. *)
Definition takes (s : sigproc) (sig : Z) (t : T) : Prop := sig ∉ sp_masks s t.
End Code.
Arguments sigproc : clear implicits.

(** ** The end of a thread *)

Inductive tcall := EventWrite (endfd : Z) | CancelThread | JoinThread.

(** The calls; the results of [eventfd_write] and [pthread_cancel]. *)
Definition terminate_thread (endfd : Z) (write_ok cancel_ok : bool) : list tcall :=
  let '(calls, endfd) :=
    if negb (endfd =? -1) then ([EventWrite endfd], if write_ok then endfd else -1) else ([], endfd) in
  if endfd =? -1 then
    if cancel_ok then calls ++ [CancelThread; JoinThread] else calls ++ [CancelThread]
  else calls ++ [JoinThread].

(** ** Who handles the quit signals *)

Section Proofs.
Context {T H : Type} `{EqDecision T}.
Implicit Types (s : sigproc T H) (t k : T) (ks : list T).

Lemma mask_same t m s : sp_masks (set_mask t m s) t = m ∖ unblockable.
Proof. cbn. by rewrite decide_True. Qed.

Lemma mask_other t t' m s : t' ≠ t → sp_masks (set_mask t m s) t' = sp_masks s t'.
Proof. intros Hn. cbn. by rewrite decide_False. Qed.

Lemma create_masks t ks s k : t ∉ ks →
  let s' := foldl (fun s k => create_thread t k s) s ks in
  sp_masks s' t = sp_masks s t ∧ (k ∈ ks → sp_masks s' k = sp_masks s t ∖ unblockable) ∧
  sp_actions s' = sp_actions s ∧ sp_fails s' = sp_fails s.
Proof.
  intros Hnin s'. assert (Hgen : sp_masks s' t = sp_masks s t ∧
    (k ∈ ks ∨ sp_masks s k = sp_masks s t ∖ unblockable → sp_masks s' k = sp_masks s t ∖ unblockable) ∧
    sp_actions s' = sp_actions s ∧ sp_fails s' = sp_fails s); [|naive_solver].
  unfold s'. clear s'. induction ks as [|j ks IH] in s, Hnin |- *; cbn [foldl].
  - split_and!; try done. intros [Hk|Hk]; [by apply not_elem_of_nil in Hk|done].
  - apply not_elem_of_cons in Hnin as [Hj Hnin]. destruct (IH (create_thread t j s) Hnin) as (H1 & H2 & H3 & H4).
    assert (Ht : sp_masks (create_thread t j s) t = sp_masks s t) by (by apply mask_other). rewrite Ht in *.
    split_and!; try done. intros Hk. apply H2. destruct (decide (k = j)) as [->|Hkj]; [right; apply mask_same|].
    destruct Hk as [[->|Hk]%elem_of_cons|Hk]; [done|by left|right]. unfold create_thread. by rewrite mask_other.
Qed.

(** When no call fails. *)
Lemma called_ok s : sp_fails s = [] → called s = s.
Proof. destruct s. cbn. by intros ->. Qed.

Lemma checked_ok f s : sp_fails s = [] → checked f s = Some (f s).
Proof. intros E. unfold checked, call_ok. by rewrite called_ok, E. Qed.

Lemma unchecked_ok f s : sp_fails s = [] → unchecked f s = f s.
Proof. intros E. unfold unchecked, call_ok. by rewrite called_ok, E. Qed.

Lemma block_ok t junk s : sp_fails s = [] → block_all_signals t junk s = Some (sp_masks s t, set_mask t all_signals s).
Proof. intros E. unfold block_all_signals. rewrite checked_ok by done. cbn [mbind option_bind]. unfold call_ok. by rewrite E, unchecked_ok. Qed.

Lemma restore_ok t oldset (h : H) s : sp_fails s = [] →
  ∃ s1, restore_signals_and_set_quit_handler t oldset h s = Some (oldset ∖ {[ SIGINT ]} ∖ {[ SIGQUIT ]} ∖ {[ SIGTERM ]} ∖ {[ SIGCHLD ]},
      set_mask t (oldset ∖ {[ SIGINT ]} ∖ {[ SIGQUIT ]} ∖ {[ SIGTERM ]} ∖ {[ SIGCHLD ]}) s1) ∧
    sp_masks s1 = sp_masks s ∧
    ∀ sig, sp_actions s1 sig = if decide (sig ∈ quit_signals) then (SigHandler h, 0)
      else if decide (sig = SIGCHLD) then (SigDefault, SA_NOCLDSTOP) else sp_actions s sig.
Proof.
  intros E. set (s1 := set_action SIGCHLD (SigDefault, SA_NOCLDSTOP) (set_action SIGTERM (SigHandler h, 0)
    (set_action SIGQUIT (SigHandler h, 0) (set_action SIGINT (SigHandler h, 0) s)))).
  exists s1. split; [|split; [done|]].
  - unfold restore_signals_and_set_quit_handler. do 4 (rewrite checked_ok by done; cbn [mbind option_bind]).
    fold s1. unfold sigdelset. do 4 (cbn [fst snd]; rewrite checked_ok by done; cbn [mbind option_bind]).
    cbn [fst snd]. by rewrite unchecked_ok.
  - intros sig. unfold quit_signals. cbn [s1 set_action sp_actions].
    destruct (decide (sig = SIGCHLD)) as [->|Hc]; [by rewrite decide_False by set_solver|].
    destruct (decide (sig = SIGTERM)) as [->|Ht]; [by rewrite decide_True by set_solver|].
    destruct (decide (sig = SIGQUIT)) as [->|Hq]; [by rewrite decide_True by set_solver|].
    destruct (decide (sig = SIGINT)) as [->|Hi]; [by rewrite decide_True by set_solver|]. by rewrite decide_False by set_solver.
Qed.

Lemma quit_blocked sig : sig ∈ quit_signals → sig ∈ all_signals ∖ unblockable.
Proof.
  unfold quit_signals, all_signals, unblockable. intros Hs. apply elem_of_difference. split.
  - apply elem_of_list_to_set, elem_of_seqZ. revert Hs. rewrite !elem_of_union, !elem_of_singleton. unfold SIGINT, SIGQUIT, SIGTERM. lia.
  - revert Hs. rewrite !elem_of_union, !elem_of_singleton. unfold SIGINT, SIGQUIT, SIGTERM, SIGKILL, SIGSTOP. lia.
Qed.

(** The service threads block every signal that can be blocked, so that the quit
    handler runs in the main thread only: of all threads it alone takes the quit
    signals, whatever its mask was before, and the end of a child does what it does
    by default, without a signal for a child that is only stopped. *)
Theorem quit_handled_by_main t ks junk (h : H) s s' : t ∉ ks → sp_fails s = [] → start_threads t ks junk h s = Some s' →
  (∀ sig, sig ∈ quit_signals → sp_actions s' sig = (SigHandler h, 0) ∧ ∀ k, k ∈ t :: ks → takes s' sig k ↔ k = t) ∧
  (∀ k, k ∈ ks → sp_masks s' k = all_signals ∖ unblockable) ∧
  sp_masks s' t = sp_masks s t ∖ quit_signals ∖ {[ SIGCHLD ]} ∖ unblockable ∧
  sp_actions s' SIGCHLD = (SigDefault, SA_NOCLDSTOP) ∧
  (∀ sig, sig ∉ quit_signals → sig ≠ SIGCHLD → sp_actions s' sig = sp_actions s sig).
Proof.
  intros Hnin E. unfold start_threads. rewrite block_ok by done. cbn [mbind option_bind].
  set (s1 := set_mask t all_signals s). set (s2 := foldl _ s1 ks).
  assert (Hc := fun k => create_masks t ks s1 k Hnin).
  destruct (restore_ok t (sp_masks s t) h s2) as (s3 & Hr & Hm & Ha); [destruct (Hc t) as (_ & _ & _ & Hfl); unfold s2; by rewrite Hfl|].
  rewrite Hr. cbn [mbind option_bind]. intros [= <-].
  assert (Hk : ∀ k, k ∈ ks → sp_masks (set_mask t (sp_masks s t ∖ {[SIGINT]} ∖ {[SIGQUIT]} ∖ {[SIGTERM]} ∖ {[SIGCHLD]}) s3) k = all_signals ∖ unblockable).
  { intros k Hk. rewrite mask_other by (by intros ->). rewrite Hm. destruct (Hc k) as (_ & H2 & _). unfold s2. rewrite (H2 Hk).
    unfold s1. rewrite mask_same. set_solver. }
  split_and!.
  - intros sig Hs. cbn [set_mask sp_actions]. rewrite Ha, decide_True by done. split; [done|]. intros k Hin. unfold takes. split.
    + intros Ht. apply elem_of_cons in Hin as [->|Hin]; [done|]. exfalso. apply Ht. rewrite Hk by done. by apply quit_blocked.
    + intros ->. rewrite mask_same. unfold quit_signals in Hs. set_solver.
  - exact Hk.
  - rewrite mask_same. unfold quit_signals. set_solver.
  - cbn [set_mask sp_actions]. rewrite Ha, decide_False, decide_True; [done|done|]. unfold quit_signals, SIGCHLD, SIGINT, SIGQUIT, SIGTERM. set_solver by lia.
  - intros sig Hs Hn. cbn [set_mask sp_actions]. rewrite Ha, !decide_False by done. destruct (Hc t) as (_ & _ & H3 & _). unfold s2. by rewrite H3.
Qed.

(** A failure that is checked ends the process. *)
Lemma failed_call_exits t ks junk (h : H) s : hd false (sp_fails s) = true → start_threads t ks junk h s = None.
Proof. intros E. unfold start_threads, block_all_signals, checked, call_ok. by rewrite E. Qed.

(** A thread that is asked to end is joined, by its event or by a cancellation. *)
Lemma terminate_joins endfd write_ok cancel_ok :
  JoinThread ∈ terminate_thread endfd write_ok cancel_ok ↔ (endfd ≠ -1 ∧ write_ok = true) ∨ cancel_ok = true.
Proof.
  unfold terminate_thread. destruct (Z.eqb_spec endfd (-1)) as [->|Hn]; cbn [negb].
  - destruct cancel_ok; set_solver.
  - destruct write_ok; [rewrite (proj2 (Z.eqb_neq _ _) Hn); set_solver|]. change (-1 =? -1) with true. destruct cancel_ok; set_solver.
Qed.
End Proofs.

(** ** Evaluation *)

Section Examples.

(** The main thread, 0, and two service threads; SIGUSR1 was blocked before. *)
Definition ex_sig (fails : list bool) : sigproc nat Z :=
  mk_sigproc (fun _ => {[ 10 ]}) (fun _ => (SigDefault, 0)) fails.

Lemma quit_handled_by_main_witness : ∃ s', start_threads 0%nat [1%nat; 2%nat] ∅ 7 (ex_sig []) = Some s' ∧
  takes s' SIGTERM 0%nat ∧ ¬ takes s' SIGTERM 1%nat ∧ ¬ takes s' SIGTERM 2%nat.
Proof.
  assert (Hnin : 0%nat ∉ [1%nat; 2%nat]) by set_solver.
  destruct (start_threads 0%nat [1%nat; 2%nat] ∅ 7 (ex_sig [])) as [s'|] eqn:E; [|by vm_compute in E].
  destruct (quit_handled_by_main 0%nat [1%nat; 2%nat] ∅ 7 (ex_sig []) s' Hnin eq_refl E) as (H & _).
  destruct (H SIGTERM ltac:(set_solver)) as [_ Hk]. exists s'. split; [done|].
  split; [by apply Hk; [set_solver|]|]. split; intros Ht; apply Hk in Ht; try done; set_solver.
Defined.

(** When [pthread_sigmask] fails in [block_all_signals], which is not noticed, the
    service threads take the signals as well; and the old mask is the junk of an
    uninitialised variable. *)
Example unblocked_threads : ∃ s', start_threads 0%nat [1%nat] ∅ 7 (ex_sig [false; true]) = Some s' ∧ takes s' SIGTERM 1%nat.
Proof. eexists. split; [reflexivity|]. unfold takes. by apply (bool_decide_unpack _). Qed.
End Examples.
