(* ===== verification/Notify.v ===== *)
(** * The end of the discovery (axiom-init/axiom-discovery/axiom_discovery_node.c)

    [notify_end_of_discovery] starts the notification script in a process of its
    own, by two forks.  The processes take their steps in any order and every call
    can fail; the runs are so few that all of them are computed. *)

From stdpp Require Import list relations.
From S2P Require Import Prelude Text RunMain.

Definition NOTIFY_SCRIPT_NAME : list Z := str "axiom_end_discovery.sh".
Definition NOTIFY_SCRIPT : list Z := str "/etc/axiom/" ++ NOTIFY_SCRIPT_NAME.
Definition EXIT_SUCCESS : Z := 0.

(** Where a process is: before [access], [fork], [waitpid] and after the function
    in the daemon; before the second [fork], before [exit], before [execl]; the
    program with its arguments; ended but not waited for. *)
Inductive npoint :=
  | AtAccess | AtFork | AtWait (pid : nat) | AtReturn | AtFork2 | AtExit (code : Z) | AtExec
  | InProgram (file : list Z) (args : list (list Z)) | Zombie (code : Z).

(** The processes by their number: the number of the parent and the place.  The
    process 0 adopts the children of a process that ends. *)
Record nproc := mk_nproc { np_parent : nat; np_at : npoint }.
Definition nsystem := list (option nproc).

(** The daemon is the process 1. *)
Definition nsystem0 : nsystem := [None; Some (mk_nproc 0 AtAccess)].

Definition goes (pid : nat) (x : npoint) (s : nsystem) : nsystem :=
  alter (option_map (fun p => mk_nproc (np_parent p) x)) pid s.
(** A new process, whose number is the next one. *)
Definition forks (pid : nat) (parent child : npoint) (s : nsystem) : nsystem :=
  goes pid parent s ++ [Some (mk_nproc pid child)].
Definition adopt (pid : nat) (s : nsystem) : nsystem :=
  map (option_map (fun p => if (np_parent p =? pid)%nat then mk_nproc 0 (np_at p) else p)) s.

(** The next states when the process [pid] takes a step, for all results of its
    call. *)
Definition proc_step (pid : nat) (s : nsystem) : list nsystem :=
  match s !! pid with
  | Some (Some p) =>
      match np_at p with
      | AtAccess => [goes pid AtReturn s; goes pid AtFork s]
      | AtFork => [goes pid AtReturn s; forks pid (AtWait (length s)) AtFork2 s]
      | AtFork2 => [goes pid (AtExit EXIT_FAILURE) s; forks pid (AtExit EXIT_SUCCESS) AtExec s]
      | AtExec => [goes pid (InProgram NOTIFY_SCRIPT [NOTIFY_SCRIPT_NAME]) s; goes pid (AtExit EXIT_FAILURE) s]
      | AtExit code => [adopt pid (goes pid (Zombie code) s)]
      | AtWait child =>
          match s !! child with
          | Some (Some (mk_nproc _ (Zombie _))) => [goes pid AtReturn (<[child := None]> s)]
          | _ => []
          end
      | AtReturn | InProgram _ _ | Zombie _ => []
      end
  | _ => []
  end.

(** The next states when any process takes a step. *)
Definition nexts (s : nsystem) : list nsystem := concat (map (fun pid => proc_step pid s) (seq 0 (length s))).

Definition nstep (s s' : nsystem) : Prop := s' ∈ nexts s.

(** The states after exactly [n] steps. *)
Fixpoint level (n : nat) : list nsystem :=
  match n with O => [nsystem0] | S n => concat (map nexts (level n)) end.

Lemma level_spec n s : nsteps nstep n nsystem0 s → s ∈ level n.
Proof.
  induction n as [|n IH] in s |- *; intros H.
  - inversion H; subst. by left.
  - apply nsteps_inv_r in H as (y & Hy & Hs). cbn. apply list_elem_of_In, in_concat. exists (nexts y).
    split; [apply in_map|]; apply list_elem_of_In; [by apply IH|exact Hs].
Qed.

(** ** What a state promises *)

Definition returned (s : nsystem) : bool :=
  match s !! 1%nat with Some (Some p) => match np_at p with AtReturn => true | _ => false end | _ => false end.
Definition children (pid : nat) (s : nsystem) : list nproc :=
  omap (fun o => match o with Some p => if (np_parent p =? pid)%nat then Some p else None | None => None end) s.
Definition in_program (p : nproc) : bool := match np_at p with InProgram _ _ => true | _ => false end.
Definition programs (s : nsystem) : list nproc := omap (fun o => match o with Some p => if in_program p then Some p else None | None => None end) s.
Definition runs_script (p : nproc) : bool :=
  match np_at p with InProgram file args => bool_decide (file = NOTIFY_SCRIPT ∧ args = [NOTIFY_SCRIPT_NAME]) | _ => false end.

Definition promised (s : nsystem) : bool :=
  (* the daemon has no child when it goes on *)
  implb (returned s) (match children 1 s with [] => true | _ => false end) &&
  (* at most one program, the script, and not as a child of the daemon *)
  (match programs s with [] => true | [p] => runs_script p && negb (np_parent p =? 1)%nat | _ => false end) &&
  (* nobody waits for ever *)
  (returned s || match nexts s with [] => false | _ => true end).

(** All steps are taken after so many. *)
Definition last_level : nat := 8.

Lemma levels_end : level last_level = [].
Proof. vm_compute. reflexivity. Qed.

Lemma levels_promised : forallb (fun n => forallb promised (level n)) (seq 0 last_level) = true.
Proof. vm_compute. reflexivity. Qed.

Lemma level_empty n : (last_level <= n)%nat → level n = [].
Proof. induction 1 as [|n _ IH]; [exact levels_end|]. cbn. by rewrite IH. Qed.

(** For every order of the steps and all results of the calls: the daemon is never
    left with a child, whether the script is started or not, so that no process is
    left for it to wait for; at most one program is run, the script with its name,
    and never as a child of the daemon; and there is always a next step until the
    function has returned, after less than so many steps of all processes. *)
Theorem notify_clean n s : nsteps nstep n nsystem0 s →
  (n < last_level)%nat ∧
  (returned s = true → children 1 s = []) ∧
  (∀ p, p ∈ programs s → runs_script p = true ∧ np_parent p ≠ 1%nat) ∧ (length (programs s) <= 1)%nat ∧
  (returned s = false → ∃ s', nstep s s').
Proof.
  intros H. apply level_spec in H. destruct (decide (n < last_level)%nat) as [Hn|Hn].
  2:{ rewrite level_empty in H by lia. by apply not_elem_of_nil in H. }
  pose proof levels_promised as Hp. rewrite forallb_forall in Hp. specialize (Hp n). rewrite forallb_forall in Hp.
  assert (Hs : promised s = true) by (apply Hp; [apply in_seq; lia|by apply list_elem_of_In]).
  unfold promised in Hs. rewrite !andb_true_iff in Hs. destruct Hs as [[H1 H2] H3]. split; [done|]. split_and!.
  - intros Hr. rewrite Hr in H1. by destruct (children 1 s).
  - intros p Hin. destruct (programs s) as [|q [|]]; [by apply not_elem_of_nil in Hin| |done].
    apply list_elem_of_singleton in Hin as ->. apply andb_true_iff in H2 as [-> H2]. split; [done|]. intros E. by rewrite E in H2.
  - destruct (programs s) as [|q [|]]; cbn; try done; lia.
  - intros Hr. rewrite Hr in H3. unfold nstep. destruct (nexts s) as [|s' l]; [done|]. exists s'. by left.
Qed.

(** ** Evaluation *)

(** The script is run, and the daemon goes on while it runs. *)
Example notify_runs : existsb (fun s => returned s && match programs s with [p] => runs_script p | _ => false end) (level 6) = true.
Proof. vm_compute. reflexivity. Qed.

Lemma notify_clean_witness : ∃ s, nsteps nstep 2 nsystem0 s ∧ returned s = true ∧ children 1 s = [].
Proof.
  assert (H : nsteps nstep 2 nsystem0 [None; Some (mk_nproc 0 AtReturn)]).
  { eapply nsteps_l; [|apply nsteps_once]; unfold nstep; [right; left|vm_compute; left]. }
  exists [None; Some (mk_nproc 0 AtReturn)]. destruct (notify_clean 2 _ H) as (_ & Hc & _). split; [exact H|]. split; [reflexivity|].
  exact (Hc eq_refl).
Defined.
