(* ===== verification/RunLib.v ===== *)
(** * The library of the applications (axiom-run/lib/rpc.c, axiom-run/lib/nodes.c)

    [axrun_rpc] calls a function of the master, [axrun_get_nodes] and
    [axrun_get_num_nodes] read the variables that axiom-run has left in the
    environment.  The second part lets the library run against its slave and the
    master: one world joins the three programs. *)

From S2P Require Import Prelude Nic Output RunMsg Master Slave Barrier Text Sched RunNodes RunMain RunStart.

(** ** The environment *)

(** [getenv] over the list of the variables. *)
Fixpoint getenv (name : list Z) (environ : list (list Z)) : option (list Z) :=
  match environ with
  | [] => None
  | s :: environ =>
      if has_prefix (name ++ str "=") s then Some (drop (length name + 1) s) else getenv name environ
  end.

(** The base of a number for [strtoull] with base 0, and its digits. *)
Definition scan_base (s : list Z) : Z * list Z :=
  match s with
  | 48 :: x :: s' =>
      if ((x =? 120) || (x =? 88)) && starts_digit 16 s' then (16, s') else (8, s)
  | 48 :: _ => (8, s)
  | _ => (10, s)
  end.

(** [strtoull(s, NULL, 0)], and [strtoul], where [long] has 64 bits. *)
Definition strtoull (s : list Z) : Z :=
  let '(neg, s) := scan_sign (skip_spaces s) in
  let '(base, s) := scan_base s in
  let n := Z.min (scan_digits base s 0).1 (2 ^ 64 - 1) in
  if neg then u64 (- n) else n.

Definition axrun_get_nodes (environ : list (list Z)) : Z :=
  match getenv (str "AXIOM_NODES") environ with None => 0 | Some s => strtoull s end.

Definition axrun_get_num_nodes (environ : list (list Z)) : Z :=
  match getenv (str "AXIOM_RUN") environ with None => -1 | Some s => s32 (strtoull s) end.

(** ** Remote procedure calls *)

(** The header of a call: [header] is the variable of the function. *)
Definition rpc_request (tid function size : Z) (header : list Z) : list Z :=
  set_rpc_size size (set_rpc_function function (set_rpc_id tid (set_command CMD_RPC header))).

Section Code.
Context {D : Type} `{YD : SyncDev D}.

(** [send_payload] are the bytes to send; [recv_payload] is the buffer of the
    caller, when there is one, and [recv_size] the size he gives.  The result of
    the call, the new value of [recv_size] and the buffer.  The datagram is cut to
    the space that [recvmsg] is given; the size of the data is a [size_t]. *)
Definition axrun_rpc (function tid : Z) (header send_payload : list Z) (recv_size : Z)
    (recv_payload : option (list Z)) : M D (Z * Z * option (list Z)) :=
  let error sock path := r ← sync_error sock path; mret (r, recv_size, recv_payload) in
  s ← y_usock;
  match s with
  | None => error false None
  | Some ppid =>
      sock ← y_socket;
      if negb sock then error false None else
      let path := RPC_CHILD_TEMPLATE_NAME ppid tid in
      ok ← y_bind path;
      if negb ok then error true (Some path) else
      let header := rpc_request tid function (alen send_payload) header in
      res ← y_sendto (SLAVE_TEMPLATE_NAME ppid) (header ++ send_payload);
      if negb (u64 res =? u64 (Z.of_nat sizeof_header + alen send_payload)) then error true (Some path) else
      let finish n buf := y_close ;; y_unlink path ;; mret (0, n, buf) in
      match recv_payload with
      | Some buf =>
          if 0 <? recv_size then
            r ← y_recv;
            match r with
            | None => error true (Some path)
            | Some bytes =>
                let bytes := take (sizeof_header + Z.to_nat recv_size) bytes in
                let data := drop sizeof_header bytes in
                if alen buf <? alen data then stop OutOfBounds else
                finish (u64 (alen bytes - Z.of_nat sizeof_header)) (Some (overwrite data buf))
            end
          else finish recv_size recv_payload
      | None => finish recv_size recv_payload
      end
  end.
End Code.

(** ** The library, its slave and the master *)

Section World.
Context `{CN : NicConsts} {CNOK : NicConstsOk} `{RC : RunConsts} {RCOK : RunConstsOk} `{IO : Stdio}.
Context `{AL : Allocator rawsim}.

(** The data of the master and of the slave, the node and the pid of the slave. *)
Variables (info : minfo) (slave : sinfo) (node pid : Z).

(** The names in the file system, the name of the socket of the caller, the
    datagrams that wait there, the receiver of the master and the buffers of the
    two threads of the slave. *)
Record appworld := mk_appworld {
  aw_names : list sockaddr;
  aw_socket : option sockaddr;
  aw_queue : list (list Z);
  aw_master : receiver;
  aw_sock_buffer : list Z;
  aw_recv_buffer : list Z
}.

(** A message of the master reaches [recv_thread], if the slave has started it: the
    datagrams it sends. *)
Definition slave_delivers (buffer p : list Z) : list (sockaddr * list Z) :=
  if bool_decide (ThIn ∉ slave_threads (s_services slave) (s_pid slave)) then [] else
  match recv_thread_turn 1 slave (buffer, false)
    (mk_slavesim (mk_rawsim [(AXIOM_RET_OK, 0, p)] [] []) [RawReady] [] [] [] [] [] [] [] [] pid) with
  | Ret _ d => ss_sent d
  | Stuck _ _ => []
  end.

(** A datagram of the application on its way: [sock_thread], if there is one, sends
    as much of it on as its buffer takes, the master
    takes a turn for every message, [recv_thread] gets what goes to its node.  The
    receiver of the master and the datagrams that come back. *)
Definition master_step (st : receiver * list (list Z)) (p : list Z) : receiver * list (list Z) :=
  match master_turn info st.1 (mk_rawsim [(AXIOM_RET_OK, node, p)] [] []) with
  | Ret (inl r) d => (r, st.2 ++ ((fun e : Z * Z * list Z => e.2) <$> filter (fun e => e.1.1 = node) (rs_log d)))
  | _ => st
  end.

Definition transport (bytes : list Z) (w : appworld) : receiver * list (sockaddr * list Z) :=
  if bool_decide (ThSock ∉ slave_threads (s_services slave) (s_pid slave)) then (aw_master w, []) else
  match sock_turn slave (aw_sock_buffer w)
    (mk_slavesim (mk_rawsim [] [] []) [] [] [] [] [] [] [RecvData bytes] [] [] pid) with
  | Ret _ d =>
      let '(r, replies) := foldl master_step (aw_master w, []) ((fun e => e.2) <$> rs_log (ss_raw d)) in
      (r, replies ≫= slave_delivers (aw_recv_buffer w))
  | Stuck _ _ => (aw_master w, [])
  end.

Definition arrives (a : option sockaddr) (l : list (sockaddr * list Z)) : list (list Z) :=
  snd <$> filter (fun e => a = Some e.1) l.

(** A name that exists cannot be bound; a datagram that has no receiver is lost;
    [recv] without a datagram blocks. *)
#[export] Instance appworld_dev : SyncDev appworld := {|
  y_usock w := Ret (Some pid) w;
  y_socket w := Ret true w;
  y_bind a w :=
    if decide (a ∈ aw_names w) then Ret false w
    else Ret true (mk_appworld (a :: aw_names w) (Some a) (aw_queue w) (aw_master w) (aw_sock_buffer w) (aw_recv_buffer w));
  y_sendto a bytes w :=
    if decide (a = SLAVE_TEMPLATE_NAME pid) then
      let '(r, back) := transport bytes w in
      Ret (alen bytes) (mk_appworld (aw_names w) (aw_socket w) (aw_queue w ++ arrives (aw_socket w) back) r
        (aw_sock_buffer w) (aw_recv_buffer w))
    else Ret (-1) w;
  y_recv w :=
    match aw_queue w with
    | [] => Stuck Blocked w
    | x :: l => Ret (Some x) (mk_appworld (aw_names w) (aw_socket w) l (aw_master w) (aw_sock_buffer w) (aw_recv_buffer w))
    end;
  y_close w := Ret tt (mk_appworld (aw_names w) None [] (aw_master w) (aw_sock_buffer w) (aw_recv_buffer w));
  y_unlink a w := Ret tt (mk_appworld (filter (fun b => b ≠ a) (aw_names w)) (aw_socket w) (aw_queue w) (aw_master w)
    (aw_sock_buffer w) (aw_recv_buffer w))
|}.

Lemma rpc_request_fields tid function size header : length header = sizeof_header →
  let h := rpc_request tid function size header in
  length h = sizeof_header ∧ h_command h = CMD_RPC ∧ h_rpc_id h = u64 tid ∧ h_rpc_function h = u32 function ∧
  h_rpc_size h = u32 size.
Proof.
  intros Hl h. unfold h, rpc_request, set_rpc_size, set_rpc_function, set_rpc_id, sizeof_header in *.
  destruct (take_set_command CMD_RPC header ltac:(unfold sizeof_header; lia)) as [Hc _].
  assert (Hlen : ∀ off n x (b : list Z), (off + n <= length b)%nat → length (set_field off (le_put n x) b) = length b).
  { intros. rewrite length_set_field by (rewrite length_le_put; lia). done. }
  assert (H1 : length (set_field 4 (le_put 8 tid) (set_command CMD_RPC header)) = 20%nat) by (rewrite Hlen; lia).
  set (b1 := set_field 4 (le_put 8 tid) (set_command CMD_RPC header)) in *.
  assert (H2 : length (set_field 12 (le_put 4 function) b1) = 20%nat) by (rewrite Hlen; lia).
  set (b2 := set_field 12 (le_put 4 function) b1) in *.
  split_and!.
  - rewrite Hlen; lia.
  - unfold b2, b1. destruct header as [|c header]; [cbn in Hl; lia|]. reflexivity.
  - unfold h_rpc_id. rewrite field_set_other by (rewrite ?length_le_put; lia). unfold b2.
    rewrite field_set_other by (rewrite ?length_le_put; lia). unfold b1.
    rewrite field_set_field by (rewrite ?length_le_put; lia || done). by rewrite le_get_put.
  - unfold h_rpc_function. rewrite field_set_other by (rewrite ?length_le_put; lia). unfold b2.
    rewrite field_set_field by (rewrite ?length_le_put; lia || done). by rewrite le_get_put.
  - unfold h_rpc_size. rewrite field_set_field by (rewrite ?length_le_put; lia || done). by rewrite le_get_put.
Qed.

(** *** A call, step by step *)

Hypothesis rpc_on : has (s_services slave) RPC_SERVICE = true.
Hypothesis child : 0 < s_pid slave.
Hypothesis recv_on : has (s_services slave) (Z.lor REDIRECT_SERVICE (Z.lor EXIT_SERVICE KILL_SERVICE)) = true.

(** What a message holds of the data behind the header of a call. *)
Definition carried (payload : list Z) : list Z := take (Z.to_nat AXIOM_RAW_PAYLOAD_MAX_SIZE - sizeof_header) payload.

(** The reply is delivered, as a whole, to the thread whose number it carries. *)
Lemma reply_delivered buffer p : (sizeof_header <= length p)%nat → h_command p = CMD_RPC →
  slave_delivers buffer p = [(RPC_CHILD_TEMPLATE_NAME pid (h_rpc_id p), p)].
Proof using CNOK rpc_on child recv_on.
  intros Hl Hc. unfold sizeof_header in Hl. unfold slave_delivers.
  rewrite bool_decide_false by (intros H; apply H; by apply recv_thread_started). unfold recv_thread_turn, mbind, M_bind.
  cbn [s_select_raw slavesim_dev ss_ready axiom_recv_raw slavesim_raw].
  unfold lift_raw. cbn [ss_raw with_ready axiom_recv_raw rawsim_dev rs_in]. rewrite ret_ok_ok. cbn [negb].
  rewrite command_overwrite by lia. rewrite Hc, rpc_on.
  cbn [Z.eqb Pos.eqb CMD_RPC CMD_BARRIER CMD_RECV_FROM_STDIN CMD_KILL]. unfold on_reply, mbind, M_bind, mret, M_ret.
  cbn [s_getpid s_sendto slavesim_dev with_raw with_ready with_sent ss_pid ss_sent app].
  unfold h_rpc_id. rewrite field_overwrite by lia. unfold alen. by rewrite Nat2Z.id, take_overwrite.
Qed.

(** The turn of the master for a call that [rpc_service] answers with [reply]. *)
Lemma master_answers r replies p reply ret b pending d :
  has (m_services r) RPC_SERVICE = true → (sizeof_header <= length p)%nat → h_command p = CMD_RPC →
  rpc_service info node (alen p) (overwrite p (m_buffer r)) (m_rpc_reply r) (mk_rawsim [] [] []) = Ret (ret, b, pending) d →
  rs_log d = [(node, slave_port info, reply)] →
  ∃ r', master_step (r, replies) p = (r', replies ++ [reply]) ∧ m_services r' = m_services r ∧ m_rpc_reply r' = pending.
Proof using CNOK.
  intros Hs Hl Hc Hrpc Hlog. unfold sizeof_header in Hl. unfold master_step, master_turn, mbind, M_bind.
  cbn [fst snd axiom_recv_raw rawsim_dev rs_in rs_send rs_log]. rewrite ret_ok_ok. cbn [negb m_buffer set_m_buffer m_services].
  rewrite command_overwrite by lia. rewrite Hc.
  cbn [Z.eqb Pos.eqb orb CMD_RPC CMD_BARRIER CMD_EXIT CMD_SEND_TO_STDERR CMD_SEND_TO_STDOUT].
  unfold on_rpc, mbind, M_bind. cbn [m_buffer set_m_buffer m_services m_rpc_reply]. rewrite Hs. cbn [negb].
  rewrite Hrpc. cbn. rewrite Hlog. rewrite filter_cons_True by done. eexists. split; [done|]. done.
Qed.

(** The way of a call through the three programs. *)
Lemma transport_rpc w p reply ret b pending d :
  has (m_services (aw_master w)) RPC_SERVICE = true → (sizeof_header <= length p)%nat → h_command p = CMD_RPC →
  (sizeof_header <= length reply)%nat → h_command reply = CMD_RPC →
  rpc_service info node (alen p) (overwrite p (m_buffer (aw_master w))) (m_rpc_reply (aw_master w)) (mk_rawsim [] [] []) =
    Ret (ret, b, pending) d →
  rs_log d = [(node, slave_port info, reply)] →
  ∀ bytes, take (Z.to_nat AXIOM_RAW_PAYLOAD_MAX_SIZE) bytes = p →
  ∃ r', transport bytes w = (r', [(RPC_CHILD_TEMPLATE_NAME pid (h_rpc_id reply), reply)]) ∧
    m_services r' = m_services (aw_master w) ∧ m_rpc_reply r' = pending.
Proof using CNOK rpc_on child recv_on.
  intros Hs Hl Hc Hlr Hcr Hrpc Hlog bytes Hbytes.
  destruct (master_answers _ [] p reply ret b pending d Hs Hl Hc Hrpc Hlog) as (r' & Hm & Hs' & Hp).
  exists r'. split; [|done]. unfold transport.
  rewrite bool_decide_false by (intros H; apply H; apply sock_thread_started; [by right|done]). unfold sock_turn, mbind, M_bind.
  cbn [s_recv slavesim_dev ss_sock with_scripts axiom_send_raw slavesim_raw].
  unfold lift_raw, rs_push. cbn [ss_raw with_scripts axiom_send_raw rawsim_dev].
  unfold rs_push. cbn [rs_send rs_log rs_in mret M_ret]. cbn [ss_raw with_raw rs_log app fmap list_fmap snd foldl].
  rewrite take_overwrite, Hbytes, Hm. cbn [app mbind list_bind]. by rewrite reply_delivered, app_nil_r.
Qed.

(** The header of a call in front of its data. *)
Lemma request_app h payload : length h = sizeof_header →
  (sizeof_header <= length (h ++ payload))%nat ∧ h_command (h ++ payload) = h_command h ∧
  h_rpc_id (h ++ payload) = h_rpc_id h ∧ h_rpc_function (h ++ payload) = h_rpc_function h.
Proof.
  intros Hl. assert (Hf : ∀ off n, (off + n <= sizeof_header)%nat → field off n (h ++ payload) = field off n h).
  { intros off n Ho. unfold field. rewrite drop_app_le by lia. by rewrite take_app_le by (rewrite length_drop; lia). }
  split_and!; [rewrite length_app; lia| |unfold h_rpc_id; by rewrite Hf by (unfold sizeof_header; lia)
              |unfold h_rpc_function; by rewrite Hf by (unfold sizeof_header; lia)].
  by destruct h.
Qed.

(** The answer to a ping is the call itself. *)
Lemma ping_service tid header size payload buffer pending : length header = sizeof_header →
  let p := rpc_request tid AXRUN_RPC_PING size header ++ payload in
  ∃ d, rpc_service info node (alen p) (overwrite p buffer) pending (mk_rawsim [] [] []) =
    Ret (0, overwrite p buffer, pending) d ∧ rs_log d = [(node, slave_port info, p)].
Proof using RCOK.
  intros Hl p. destruct (rpc_request_fields tid AXRUN_RPC_PING size header Hl) as (Hlen & Hc & _ & Hf & _).
  destruct (request_app _ payload Hlen) as (Hp & Hcp0 & _ & Hfp0). fold p in Hp, Hcp0, Hfp0. rewrite Hc in Hcp0. rewrite Hf in Hfp0.
  assert (Hcp : h_command (overwrite p buffer) = CMD_RPC) by (by rewrite command_overwrite by (unfold sizeof_header in Hp; lia)).
  assert (Hfp : h_rpc_function (overwrite p buffer) = AXRUN_RPC_PING).
  { unfold h_rpc_function. rewrite field_overwrite by (unfold sizeof_header in Hp; lia). exact Hfp0. }
  unfold rpc_service. rewrite Hcp, Hfp. pose proof alloc_reply_cmd as Ha.
  destruct (Z.eqb_spec CMD_RPC AXIOM_CMD_ALLOC_REPLY) as [E|_].
  { rewrite <- E in Ha. unfold CMD_RPC, CMD_EXIT in Ha. lia. }
  cbn [Z.eqb AXRUN_RPC_PING]. unfold rpc_answer, mbind, M_bind. cbn [Z.eqb]. eexists. split; [reflexivity|].
  cbn. unfold alen. by rewrite Nat2Z.id, take_overwrite.
Qed.

(** A new name is removed again. *)
Lemma unlink_bound (a : sockaddr) l : a ∉ l → filter (fun b => b ≠ a) (a :: l) = l.
Proof.
  intros H. rewrite filter_cons_False by (intros E; by apply E). induction l as [|b l IH]; [done|].
  rewrite filter_cons_True by set_solver. f_equal. apply IH. set_solver.
Qed.

(** C28. A remote call from end to end, where the slave has its [recv_thread], that is
    where the service for remote calls comes with one of those for redirection,
    exit and kill: the process sends a ping, its slave passes on as much as a
    message takes, the master answers, the slave finds the thread by the number in
    the header and the caller gets the bytes back that the message has carried, as
    many as its buffer takes, with their number; the socket is closed and its name
    is gone.  Without [recv_thread] the caller waits for ever ([rpc_alone]). *)
Theorem rpc_ping_returns tid header payload recv_size buf w :
  length header = sizeof_header → 0 <= tid < 2 ^ 64 → 0 < recv_size < 2 ^ 64 → recv_size <= alen buf →
  has (m_services (aw_master w)) RPC_SERVICE = true →
  RPC_CHILD_TEMPLATE_NAME pid tid ∉ aw_names w → aw_queue w = [] →
  ∃ w', axrun_rpc AXRUN_RPC_PING tid header payload recv_size (Some buf) w =
      Ret (0, Z.min recv_size (alen (carried payload)), Some (overwrite (take (Z.to_nat recv_size) (carried payload)) buf)) w' ∧
    aw_names w' = aw_names w ∧ aw_socket w' = None ∧ aw_queue w' = [] ∧
    m_services (aw_master w') = m_services (aw_master w) ∧ m_rpc_reply (aw_master w') = m_rpc_reply (aw_master w).
Proof using CNOK RCOK rpc_on child recv_on.
  intros Hl Htid Hsize Hbuf Hs Hname Hq. pose proof payload_max as Hmax.
  destruct (rpc_request_fields tid AXRUN_RPC_PING (alen payload) header Hl) as (Hlen & Hc & Hid & _).
  set (p := rpc_request tid AXRUN_RPC_PING (alen payload) header ++ carried payload).
  destruct (request_app _ (carried payload) Hlen) as (Hp & Hcp & Hidp & _). fold p in Hp, Hcp, Hidp.
  assert (Hcut : take (Z.to_nat AXIOM_RAW_PAYLOAD_MAX_SIZE) (rpc_request tid AXRUN_RPC_PING (alen payload) header ++ payload) = p).
  { rewrite take_app_ge by lia. by rewrite Hlen. }
  rewrite Hc in Hcp. rewrite Hid, u64_small in Hidp by done.
  set (path := RPC_CHILD_TEMPLATE_NAME pid tid) in *.
  set (w1 := mk_appworld (path :: aw_names w) (Some path) (aw_queue w) (aw_master w) (aw_sock_buffer w) (aw_recv_buffer w)).
  destruct (ping_service tid header (alen payload) (carried payload) (m_buffer (aw_master w)) (m_rpc_reply (aw_master w)) Hl) as (d & Hrpc & Hlog).
  destruct (transport_rpc w1 p p _ _ _ d Hs Hp Hcp Hp Hcp Hrpc Hlog _ Hcut) as (r' & Ht & Hs' & Hr').
  unfold axrun_rpc, mbind, M_bind. cbn [y_usock y_socket y_bind appworld_dev negb]. rewrite decide_False by done.
  cbn [negb]. fold path w1. cbn [y_sendto appworld_dev]. rewrite decide_True by done. rewrite Ht, Hidp. fold path.
  assert (Halen : alen (rpc_request tid AXRUN_RPC_PING (alen payload) header ++ payload) = Z.of_nat sizeof_header + alen payload)
    by (rewrite alen_app; unfold alen at 1; by rewrite Hlen).
  rewrite Halen.
  rewrite Z.eqb_refl. cbn [negb]. destruct (Z.ltb_spec 0 recv_size); [|lia].
  cbn [y_recv appworld_dev aw_queue w1]. rewrite Hq. unfold arrives. cbn [aw_socket w1].
  rewrite filter_cons_True by done. cbn [filter list_filter fmap list_fmap snd app].
  assert (Htake : take (sizeof_header + Z.to_nat recv_size) p =
    rpc_request tid AXRUN_RPC_PING (alen payload) header ++ take (Z.to_nat recv_size) (carried payload)).
  { unfold p. rewrite take_app_ge by lia. f_equal. f_equal. lia. }
  rewrite Htake, drop_app_length' by done.
  assert (Hdata : alen (take (Z.to_nat recv_size) (carried payload)) = Z.min recv_size (alen (carried payload))) by (unfold alen; rewrite length_take; lia).
  destruct (Z.ltb_spec (alen buf) (alen (take (Z.to_nat recv_size) (carried payload)))); [lia|].
  cbn [y_close y_unlink appworld_dev aw_names w1]. rewrite unlink_bound by done.
  assert (E : u64 (alen (rpc_request tid AXRUN_RPC_PING (alen payload) header ++ take (Z.to_nat recv_size) (carried payload)) -
    Z.of_nat sizeof_header) = Z.min recv_size (alen (carried payload))).
  { rewrite alen_app. unfold alen at 1. rewrite Hlen, Hdata, u64_small; [lia|]. unfold alen. lia. }
  rewrite E. eexists. split; [reflexivity|]. done.
Qed.

(** The name of the socket is removed although another call has made it: when a
    barrier is entered twice on a node, the second call fails and takes away the
    name under which the slave would reach the first. *)
Theorem sync_conflict id header w : 0 <= id <= AXRUN_MAX_BARRIER_ID →
  BARRIER_CHILD_TEMPLATE_NAME pid id ∈ aw_names w →
  ∃ w', axrun_sync id header w = Ret (-1) w' ∧ (BARRIER_CHILD_TEMPLATE_NAME pid id ∉ aw_names w').
Proof.
  intros Hid Hin. unfold axrun_sync. destruct (Z.ltb_spec AXRUN_MAX_BARRIER_ID id); [lia|].
  unfold mbind, M_bind. cbn [y_usock y_socket y_bind appworld_dev negb]. rewrite decide_True by done.
  cbn. eexists. split; [reflexivity|]. cbn. rewrite list_elem_of_filter. naive_solver.
Qed.
End World.

(** ** The application and its environment *)

Section Application.
Context (regexec : list Z → option (Z * Z)).

Lemma has_prefix_app p s : has_prefix p s = true → ∃ rest, s = p ++ rest.
Proof.
  induction p as [|a p IH] in s |- *; [by exists s|]. destruct s as [|b s]; [done|]. cbn.
  intros [->%Z.eqb_eq Hp]%andb_true_iff. destruct (IH s Hp) as [rest ->]. by exists rest.
Qed.

Lemma has_prefix_self p rest : has_prefix p (p ++ rest) = true.
Proof. induction p as [|a p IH]; cbn; [done|]. by rewrite Z.eqb_refl. Qed.

(** A variable that [getenv] would take instead belongs to an enclosing session. *)
Lemma preset_name name s : 61 ∉ name → name = str "AXIOM_RUN" ∨ name = str "AXIOM_NODES" →
  has_prefix (name ++ str "=") s = true → preset regexec s = true.
Proof.
  intros Hno Hname Hp. destruct (has_prefix_app _ _ Hp) as [rest ->]. rewrite <- app_assoc. change (str "=" ++ rest) with (61 :: rest).
  assert (Hv : var_name (name ++ 61 :: rest) = Some name).
  { unfold var_name. rewrite split_on_app by done. by destruct (split_on_cons 61 rest) as (w & ws & ->). }
  unfold preset, env_var. rewrite Hv. cbn [snd orb].
  destruct Hname as [-> | ->]; rewrite has_prefix_self; [done|by rewrite orb_true_r].
Qed.

Lemma getenv_skip name l rest : 61 ∉ name → name = str "AXIOM_RUN" ∨ name = str "AXIOM_NODES" →
  existsb (preset regexec) l = false → getenv name (l ++ rest) = getenv name rest.
Proof.
  intros Hno Hname. induction l as [|s l IH]; [done|]. cbn [existsb app getenv].
  intros [Hs Hl]%orb_false_iff. destruct (has_prefix _ s) eqn:E; [|by apply IH].
  rewrite (preset_name name s Hno Hname E) in Hs. done.
Qed.

Lemma existsb_filter {A} (f g : A → bool) l : existsb f l = false → existsb f (List.filter g l) = false.
Proof.
  induction l as [|x l IH]; [done|]. cbn. intros [H1 H2]%orb_false_iff. destruct (g x); [cbn; rewrite H1|]; by apply IH.
Qed.

(** Small decimal numbers have no leading zero. *)
Lemma strtoull_small n : 0 <= n <= 64 → strtoull (fmt_d n) = n.
Proof.
  intros Hn. assert (H : Forall (fun k => strtoull (fmt_d k) = k) (seqZ 0 65)) by (apply (bool_decide_unpack _); vm_compute; done).
  rewrite Forall_forall in H. apply H, elem_of_seqZ. lia.
Qed.

Lemma strtoull_hex n : 0 <= n < 2 ^ 64 → strtoull (str "0x" ++ fmt_x n) = n.
Proof.
  intros Hn. destruct (fmt_unsigned_spec 16 n ltac:(lia) Hn) as (Hd & Hne & Hs).
  unfold strtoull. change (str "0x") with [48; 120]. cbn [app skip_spaces]. change (is_space 48) with false.
  cbn iota. cbn [scan_sign scan_base]. change ((120 =? 120) || (120 =? 88)) with true. cbn [andb].
  pose proof (starts_digit_app 16 (fmt_x n) [] Hd Hne) as Hst. rewrite app_nil_r in Hst. rewrite Hst.
  pose proof (Hs [] eq_refl) as Hscan. rewrite app_nil_r in Hscan. unfold fmt_x. rewrite Hscan. cbn. lia.
Qed.

(** The two variables in the environment of a slave. *)
Lemma app_sees_nodes_env environ nodes : 0 <= nodes < 2 ^ 64 → existsb (preset regexec) environ = false →
  let env := prepare_env regexec environ true nodes in
  getenv (str "AXIOM_NODES") env = Some (str "0x" ++ fmt_x nodes) ∧
  getenv (str "AXIOM_RUN") env = Some (fmt_d (alen (members nodes))).
Proof.
  intros Hn Hpre env. unfold env. destruct (prepare_env_strings regexec environ true nodes Hn) as [-> Hm].
  rewrite Hpre. cbn [andb negb].
  rewrite !getenv_skip by (try (by apply existsb_filter); try (by left); try (by right); apply (bool_decide_unpack _); vm_compute; done).
  cbn [getenv]. rewrite (has_prefix_self (str "AXIOM_RUN=")).
  change (has_prefix (str "AXIOM_NODES" ++ str "=") (str "AXIOM_RUN=" ++ fmt_d (alen (members nodes)))) with false. cbn iota.
  rewrite (has_prefix_self (str "AXIOM_NODES=")).
  change (length (str "AXIOM_NODES") + 1)%nat with (length (str "AXIOM_NODES=")).
  change (length (str "AXIOM_RUN") + 1)%nat with (length (str "AXIOM_RUN=")).
  by rewrite !drop_app_length.
Qed.

(** What an application learns about its session: in a slave of no enclosing
    session the two functions of the library give the mask of the nodes that
    axiom-run was started with and their number, whatever other variables the
    environment has. *)
Theorem app_sees_nodes environ nodes : 0 <= nodes < 2 ^ 64 → existsb (preset regexec) environ = false →
  let env := prepare_env regexec environ true nodes in
  axrun_get_nodes env = nodes ∧ axrun_get_num_nodes env = alen (members nodes).
Proof.
  intros Hn Hpre env. destruct (app_sees_nodes_env environ nodes Hn Hpre) as [H1 H2].
  destruct (prepare_env_strings regexec environ true nodes Hn) as [_ Hm].
  unfold axrun_get_nodes, axrun_get_num_nodes, env. rewrite H1, H2.
  split; [by apply strtoull_hex|]. rewrite strtoull_small by done. apply s32_small. lia.
Qed.
End Application.

(** ** The environment and the program of a slave (axiom-run.c, main) *)

Section SlaveMain.
Context (regexec : list Z → option (Z * Z)).
(** Names of two variables, from the headers of the allocator. *)
Context (AXIOM_ENV_ALLOC_APPID AXIOM_ENV_ALLOC_APPMASTER : list Z).

(** The smallest node of a mask, the result of [__builtin_ctzll]. *)
Definition app_master (nodes : Z) : Z := hd 64 (members nodes).

(** The environment that [main] builds; [app_id] is the answer of the allocator,
    [None] when it gives none and the program exits. *)
Definition session_env (environ : list (list Z)) (slave : bool) (nodes services pid : Z) (app_id : option Z) :
    option (list (list Z)) :=
  let env := prepare_env regexec environ slave nodes in
  let env := if slave && has services (Z.lor BARRIER_SERVICE RPC_SERVICE)
             then env ++ [snprintf 128 (str "AXIOM_USOCK=" ++ fmt_d pid)] else env in
  if negb slave && has services ALLOCATOR_SERVICE then
    app_id ← app_id;
    Some (env ++ [snprintf 128 (AXIOM_ENV_ALLOC_APPID ++ str "=" ++ fmt_d app_id);
                  snprintf 128 (AXIOM_ENV_ALLOC_APPMASTER ++ str "=" ++ fmt_d (app_master nodes))])
  else Some env.

(** The program and its arguments: under the debugger on the nodes of [gdb_nodes].
    The mask of the own node is a shift of an [int]. *)
Definition slave_exec (gdb_nodes gdb_port my_node : Z) (argv : list (list Z)) : list Z * list (list Z) :=
  if negb (gdb_nodes =? 0) && negb (Z.land gdb_nodes (u64 (s32 (bit my_node))) =? 0) then
    (str "gdbserver", gdb_argv (hd [] argv) argv gdb_port)
  else (hd [] argv, argv).

(** On the nodes below 31 the debugger runs exactly where it was asked for. *)
Lemma slave_exec_low gdb_nodes gdb_port id argv : gdb_nodes = 0 ∨ 0 <= id < 31 →
  slave_exec gdb_nodes gdb_port id argv =
  if Z.testbit gdb_nodes id
  then (str "gdbserver", [str "gdbserver"; snprintf 16 (str "0.0.0.0:" ++ fmt_d gdb_port); hd [] argv] ++ tail argv)
  else (hd [] argv, argv).
Proof.
  intros H. unfold slave_exec, gdb_argv. destruct (Z.eqb_spec gdb_nodes 0) as [->|Hne]; [by rewrite Z.testbit_0_l|].
  destruct H as [|Hid]; [done|]. cbn [negb andb].
  assert (Hb : u64 (s32 (bit id)) = bit id).
  { unfold bit. rewrite Z.shiftl_1_l. assert (0 < 2 ^ id < 2 ^ 31) by (split; [|apply Z.pow_lt_mono_r]; lia).
    unfold s32. rewrite (Z.mod_small (2 ^ id)) by lia. destruct (Z.ltb_spec (2 ^ id) (2 ^ 31)); [|lia]. apply u64_small. lia. }
  rewrite Hb. unfold bit. rewrite Z.shiftl_1_l. fold (has gdb_nodes (2 ^ id)). rewrite has_pow2 by lia. by destruct (Z.testbit _ _).
Qed.

(** The pid of the slave for [axrun_sync] and [axrun_rpc]. *)
Definition axrun_usock (environ : list (list Z)) : option Z := atoi <$> getenv (str "AXIOM_USOCK") environ.

Definition no_variable (name : list Z) (environ : list (list Z)) : Prop :=
  Forall (fun s => has_prefix (name ++ str "=") s = false) environ.

Lemma getenv_none name l rest : no_variable name l → getenv name (l ++ rest) = getenv name rest.
Proof. induction 1 as [|s l Hs _ IH]; [done|]. cbn [app getenv]. by rewrite Hs. Qed.

Lemma getenv_snoc name environ s v : getenv name environ = Some v → getenv name (environ ++ s) = Some v.
Proof. induction environ as [|x l IH]; [done|]. cbn [app getenv]. by destruct (has_prefix _ x). Qed.

(** Everything the library of an application reads is there: in a slave of no
    enclosing session with one of the two services that need the slave, the mask
    of the nodes, their number and the pid of the slave. *)
Theorem session_env_spec environ nodes services pid app_id :
  0 <= nodes < 2 ^ 64 → - 2 ^ 31 <= pid < 2 ^ 31 → has services (Z.lor BARRIER_SERVICE RPC_SERVICE) = true →
  existsb (preset regexec) environ = false → no_variable (str "AXIOM_USOCK") environ →
  ∃ env, session_env environ true nodes services pid app_id = Some env ∧
    axrun_get_nodes env = nodes ∧ axrun_get_num_nodes env = alen (members nodes) ∧ axrun_usock env = Some pid.
Proof.
  intros Hn Hpid Hs Hpre Hno. unfold session_env. rewrite Hs. cbn [andb negb]. eexists. split; [reflexivity|].
  destruct (app_sees_nodes_env regexec environ nodes Hn Hpre) as [H1 H2].
  unfold axrun_get_nodes, axrun_get_num_nodes. rewrite (getenv_snoc _ _ _ _ H1), (getenv_snoc _ _ _ _ H2).
  destruct (prepare_env_strings regexec environ true nodes Hn) as [Henv Hm].
  split; [by apply strtoull_hex|]. split; [rewrite strtoull_small by done; apply s32_small; lia|].
  unfold axrun_usock. rewrite Henv, Hpre. cbn [andb negb]. rewrite <- app_assoc, getenv_none.
  2:{ apply Forall_forall. intros s Hin. unfold no_variable in Hno. rewrite Forall_forall in Hno. apply Hno.
      apply list_elem_of_In. apply list_elem_of_In in Hin. by apply filter_In in Hin as [Hin _]. }
  cbn [app getenv]. change (has_prefix (str "AXIOM_USOCK" ++ str "=") (str "AXIOM_RUN=" ++ fmt_d (alen (members nodes)))) with false.
  change (has_prefix (str "AXIOM_USOCK" ++ str "=") (str "AXIOM_NODES=" ++ str "0x" ++ fmt_x nodes)) with false. cbn iota.
  rewrite snprintf_fits.
  2:{ pose proof (length_fmt_d_int pid Hpid). rewrite length_app. change (length (str "AXIOM_USOCK=")) with 12%nat. lia. }
  rewrite (has_prefix_self (str "AXIOM_USOCK=")).
  change (length (str "AXIOM_USOCK") + 1)%nat with (length (str "AXIOM_USOCK=")). rewrite drop_app_length. cbn. by rewrite atoi_fmt.
Qed.
End SlaveMain.

(** ** Evaluation *)

Section Examples.
#[local] Instance ex_nic : NicConsts := nic8.
#[local] Instance ex_nic_ok : NicConstsOk := nic8_ok.
#[local] Instance ex_run : RunConsts := {|
  AXIOM_RAW_PAYLOAD_MAX_SIZE := 128; SIZE_BITS := 8; AXIOM_CMD_ALLOC_REPLY := 32 |}.
#[local] Instance ex_run_ok : RunConstsOk.
Proof. split; vm_compute; done. Qed.
#[local] Instance ex_stdio : Stdio := {| BUFSIZ := 8192 |}.
#[local] Instance ex_alloc : Allocator rawsim := {|
  axiom_al2_init _ := mret 0;
  axiom_al2_release := mret tt;
  axiom_al2_alloc _ _ raw := mret (0, raw);
  axiom_al2_get_regions _ _ raw := mret (1, raw);
  axiom_al2_alloc_shblock _ _ raw := mret (1, raw);
  axiom_al2_alloc_reply _ _ := mret (1, [])
|}.

Definition ex_master : minfo := mk_minfo 6 2 0 0 6 5.
Definition ex_slave : sinfo := mk_sinfo 0x2f 101 15 0 5.
(** Another thread of the slave's process waits at barrier 3. *)
Definition ex_app : appworld :=
  mk_appworld [SLAVE_TEMPLATE_NAME 41; BARRIER_CHILD_TEMPLATE_NAME 41 3] None []
    (receiver0 ex_master (replicate 128 0) 0x2f (mk_rpc_reply 0 0 [])) (replicate 128 0) (replicate 128 0).

(** A buffer of four bytes takes four of the five that come back. *)
Lemma rpc_ping_returns_witness :
  ∃ w', @axrun_rpc appworld (appworld_dev ex_master ex_slave 1 41)
      AXRUN_RPC_PING 77 (replicate 20 0) [10; 11; 12; 13; 14] 4 (Some [0; 0; 0; 0]) ex_app =
    Ret (0, 4, Some [10; 11; 12; 13]) w' ∧ aw_names w' = aw_names ex_app.
Proof.
  assert (Hsize : 0 < 4 < 2 ^ 64) by lia. assert (Htid : 0 <= 77 < 2 ^ 64) by lia.
  assert (Hbuf : 4 <= alen [0; 0; 0; 0]) by (vm_compute; discriminate).
  assert (Hname : RPC_CHILD_TEMPLATE_NAME 41 77 ∉ aw_names ex_app) by (apply (bool_decide_unpack _); vm_compute; done).
  destruct (rpc_ping_returns ex_master ex_slave 1 41 eq_refl eq_refl eq_refl 77 (replicate 20 0) [10; 11; 12; 13; 14] 4 [0; 0; 0; 0]
    ex_app eq_refl Htid Hsize Hbuf eq_refl Hname eq_refl) as (w' & Hr & Hn & _).
  exists w'. split; [exact Hr|exact Hn].
Defined.

(** With the service for remote calls alone the caller waits for ever. *)
Example rpc_alone :
  ∃ w', @axrun_rpc appworld (appworld_dev ex_master (mk_sinfo RPC_SERVICE 101 15 0 5) 1 41)
      AXRUN_RPC_PING 77 (replicate 20 0) [10; 11; 12; 13; 14] 4 (Some [0; 0; 0; 0]) ex_app = Stuck Blocked w'.
Proof. eexists. vm_compute. reflexivity. Qed.

(** A buffer of 128 bytes carries 108 of the 110 bytes of a call. *)
Example rpc_cut :
  ∃ w', @axrun_rpc appworld (appworld_dev ex_master ex_slave 1 41)
      AXRUN_RPC_PING 77 (replicate 20 0) (replicate 110 7) 110 (Some (replicate 110 0)) ex_app =
    Ret (0, 108, Some (replicate 108 7 ++ [0; 0])) w'.
Proof. eexists. vm_compute. reflexivity. Qed.

Lemma sync_conflict_witness :
  ∃ w', @axrun_sync appworld (appworld_dev ex_master ex_slave 1 41) 3 (replicate 20 0) ex_app = Ret (-1) w' ∧
    (BARRIER_CHILD_TEMPLATE_NAME 41 3 ∉ aw_names w').
Proof.
  assert (Hid : 0 <= 3 <= AXRUN_MAX_BARRIER_ID) by (vm_compute; split; discriminate).
  assert (Hin : BARRIER_CHILD_TEMPLATE_NAME 41 3 ∈ aw_names ex_app) by (apply (bool_decide_unpack _); vm_compute; done).
  exact (sync_conflict ex_master ex_slave 1 41 3 (replicate 20 0) ex_app Hid Hin).
Defined.

Lemma app_sees_nodes_witness :
  let env := prepare_env (fun name => Some (0, alen name)) [str "PATH=/bin"; str "AXIOM_HOME=/"] true 6 in
  axrun_get_nodes env = 6 ∧ axrun_get_num_nodes env = 2.
Proof.
  assert (Hn : 0 <= 6 < 2 ^ 64) by lia.
  exact (app_sees_nodes (fun name => Some (0, alen name)) [str "PATH=/bin"; str "AXIOM_HOME=/"] 6 Hn eq_refl).
Defined.

Lemma session_env_spec_witness : ∃ env,
  session_env (fun name => Some (0, alen name)) [] [] [str "PATH=/bin"] true 6 0x29 41 None = Some env ∧
  axrun_get_nodes env = 6 ∧ axrun_usock env = Some 41.
Proof.
  assert (Hn : 0 <= 6 < 2 ^ 64) by lia. assert (Hpid : - 2 ^ 31 <= 41 < 2 ^ 31) by lia.
  assert (Hno : no_variable (str "AXIOM_USOCK") [str "PATH=/bin"]) by (apply (bool_decide_unpack _); vm_compute; reflexivity).
  destruct (session_env_spec (fun name => Some (0, alen name)) [] [] [str "PATH=/bin"] 6 0x29 41 None Hn Hpid eq_refl eq_refl Hno)
    as (env & He & Hnodes & _ & Hu).
  exists env. split; [exact He|]. split; [exact Hnodes|exact Hu].
Defined.

(** Inside another session the application talks to the slave of that session: the
    new variable comes after the copied one. *)
Example nested_usock :
  match session_env (fun name => Some (0, alen name)) [] [] [str "AXIOM_USOCK=7"] true 6 0x29 41 None with
  | Some env => axrun_usock env = Some 7
  | None => False end.
Proof. vm_compute. done. Qed.

(** The shift of an [int] cannot name the nodes from 32 on, and with node 31 it
    names all those above, too. *)
Example gdb_high_nodes :
  slave_exec (bit 40) 5000 40 [str "prog"] = (str "prog", [str "prog"]) ∧
  slave_exec (bit 40) 5000 31 [str "prog"] = (str "gdbserver", [str "gdbserver"; str "0.0.0.0:5000"; str "prog"]).
Proof. vm_compute. done. Qed.
End Examples.
