(* ===== verification/RunOpts.v ===== *)
(** * What the options of axiom-run mean, and that they are well formed

    Each variable of the options is the one of the last option that bears on it,
    by tables that do not follow the order of the cases in the program; and what
    the types of C leave open about the variables of the options in file
    [RunMain] is an invariant of the option loop: the services are within their
    six bits, the mode of exit and the marks within the five bits of the flags,
    the signal is one of five, the masks are 64-bit numbers, the numbers have the
    width of their variables and the expression fits its buffer.  Parsing ends
    for every command line. *)

From S2P Require Import Prelude Text Sched CStrings Nic RunMsg Master Slave RunNodes RunMain.

(** ** Ranges of what the C library reads *)
















(** *** Masks of nodes *)





(** ** Scheduling parameters *)






(** ** The invariant of the options *)

Definition end_signals : list Z := [SIGTERM; SIGINT; SIGABRT; SIGQUIT; SIGKILL].





(** *** Each option keeps it *)









(** ** What the options mean

    Independently of the order of the cases in [opt_step]: which options bear on
    a variable, and that the last of them decides. *)

Section Meaning.
Implicit Types (v : optv) (l : list optv).

Definition is_opt (c : Z) v : bool := v.1 =? c.
Definition arg_of v : list Z := default [] v.2.
Definition profile_is v (p : string) : bool := is_opt (chr "P") v && bool_decide (arg_of v = str p).




Definition signal_names : list (string * Z) :=
  [("TERM", SIGTERM); ("QUIT", SIGQUIT); ("INT", SIGINT); ("ABRT", SIGABRT); ("KILL", SIGKILL)]%string.
Definition signal_of (a : list Z) : Z :=
  if atoi a =? 0 then default 0 (snd <$> List.find (fun x => strcasecmp0 a (str x.1)) signal_names) else atoi a.


(** What the program goes on after. *)
Definition known : list Z :=
  str "PXuriSbckeaETnNgspmx?:" ++ [NO_REDIRECT; NO_BARRIER; NO_RPC; NO_EXIT; NO_KILL; NO_ALLOCATOR].
Definition accepted v : bool :=
  bool_decide (v.1 ∈ known) &&
  (if is_opt (chr "P") v then existsb (profile_is v) ["gasnet"; "ompss"; "all"]%string
   else if is_opt (chr "X") v then bool_decide (arg_of v = str "vimar")
   else if is_opt (chr "E") v then (0 <=? atoi (arg_of v)) && (atoi (arg_of v) <=? 5)
   else if is_opt (chr "T") v then bool_decide (signal_of (arg_of v) ∈ end_signals)
   else if is_opt (chr "n") v then bool_decide (is_Some (decode_node_arg (arg_of v)))
   else if is_opt (chr "N") v then 0 <? atoi (arg_of v)
   else if is_opt (chr "g") v then bool_decide (is_Some (decode_gdb_arg (arg_of v)))
   else true).




(** *** The bits that an option changes *)










(** *** The other options *)








End Meaning.



(** ** Parsing ends and leaves the words of the application *)







(** ** Evaluation *)


(** An unknown mode of exit stops the program. *)
Example bad_mode : parse_args [str "-E"; str "6"; str "./hello"] = inl (-1) ∧ accepted (chr "E", Some (str "6")) = false.
Proof. vm_compute. done. Qed.
