(* ===== verification/SlaveStart.v ===== *)
(** * The threads of a slave of axiom-run (axiom-run/slave.c, daemonize.c)

    [manage_slave_services] starts the service threads, waits until each has
    counted itself, wakes the forked process, waits for its end and joins the
    threads.  The main thread, the service threads and the forked process share
    two counters, a number in shared memory and the events that end the threads:
    here they are the actors of a system whose runs are arbitrary sequences of
    their steps, with signals that stop or continue the process and failures of
    [waitpid] between them.  What the threads do in their loops is in file [Slave], the
    calls on the shared number in file [Daemonize]. *)

From stdpp Require Import gmap.
From S2P Require Import Prelude Nic RunMsg Output Master Slave Daemonize.

(** ** The system *)

(** A service thread: before [pthread_create], before it has counted itself,
    before its descriptors are set up, in its loop, ended. *)
Inductive tstate := NotCreated | Created | Counted | Looping | Ended.

(** Where the main thread is: it creates the threads of a list, installs the
    handler of the quit signals, waits for the counter, wakes the forked process,
    unmaps the number, waits for the end of the process, asks the first thread of
    a list to end, joins it; it has finished, or the process has called [exit]. *)
Inductive mpc :=
  | MCreate (todo : list sthread) | MHandler | MCount | MWakeup | MClose | MWait
  | MTerminate (todo : list sthread) | MJoin (k : sthread) (todo : list sthread)
  | MDone | MExit.

(** The forked process: in [sync_wait], in [sync_close], before [execvpe], in the
    program with so many steps to go, ended. *)
Inductive cpc := CWait | CClose | CExec | CRun (n : nat) | CDead.

(** Why [waitpid] with WUNTRACED and WCONTINUED has returned: the process has
    ended, has been stopped, has been continued, or the call failed with another
    error than EINTR. *)
Inductive wait_end := ByExit | ByStop | ByContinue | ByError.

(** What the kernel keeps of the forked process: it is stopped; a change that no
    call has been told yet, a stop or (false) a continuation; and the end of the
    wait of the main thread. *)
Record wstate := mk_wstate { w_stopped : bool; w_change : option bool; w_end : option wait_end }.

Record slavesys := mk_slavesys {
  y_main : mpc;
  y_threads : sthread → tstate;
  y_events : sthread → bool;        (** the event descriptors that have been written *)
  y_tostart : Z;                    (** [tostart_threads] *)
  y_started : Z;                    (** [started_threads] *)
  y_shared : Z;                     (** the number in shared memory *)
  y_handler : bool;
  y_child : cpc;
  y_seen : list Z;                  (** what the looks of the forked process have found *)
  y_wait : wstate
}.

(** The set-up of a thread before its loop: it succeeds, the thread returns, or
    the process exits. *)
Inductive setup := SetUp | Returns | Fatal.

(** Who takes a step; a service thread may leave its loop by itself, at the end of
    a file or after an error.  Somebody stops or (false) continues the forked
    process; [waitpid] fails, by a signal handler or with another error. *)
Inductive actor :=
  | AMain | AChild | AThread (k : sthread) (leaves : bool)
  | ASignal (stop : bool) | AWaitFails (eintr : bool).

Section Code.
(** The services and the process; the results of [eventfd] and [pthread_create] for
    the threads, of [socket] and [axiom_get_fds] in [recv_thread], of [socket] and
    [bind] in [sock_thread]; the steps of the program. *)
Variables (services pid : Z) (creates : sthread → bool) (in_socket in_fds own_socket own_bind : bool) (life : nat).

Definition fupd {A} (k : sthread) (v : A) (f : sthread → A) : sthread → A :=
  fun k' => if decide (k' = k) then v else f k'.

Definition at_main (m : mpc) (s : slavesys) : slavesys :=
  mk_slavesys m (y_threads s) (y_events s) (y_tostart s) (y_started s) (y_shared s) (y_handler s) (y_child s) (y_seen s) (y_wait s).
Definition at_child (c : cpc) (s : slavesys) : slavesys :=
  mk_slavesys (y_main s) (y_threads s) (y_events s) (y_tostart s) (y_started s) (y_shared s) (y_handler s) c (y_seen s) (y_wait s).
Definition at_thread (k : sthread) (t : tstate) (s : slavesys) : slavesys :=
  mk_slavesys (y_main s) (fupd k t (y_threads s)) (y_events s) (y_tostart s) (y_started s) (y_shared s) (y_handler s) (y_child s) (y_seen s) (y_wait s).
Definition with_seen (l : list Z) (s : slavesys) : slavesys :=
  mk_slavesys (y_main s) (y_threads s) (y_events s) (y_tostart s) (y_started s) (y_shared s) (y_handler s) (y_child s) l (y_wait s).

Definition with_wait (w : wstate) (s : slavesys) : slavesys :=
  mk_slavesys (y_main s) (y_threads s) (y_events s) (y_tostart s) (y_started s) (y_shared s) (y_handler s) (y_child s) (y_seen s) w.

(** [waitpid] tells the end of the process first; a change is told once. *)
Definition waitpid_result (s : slavesys) : option wait_end :=
  match y_child s with
  | CDead => Some ByExit
  | _ => match w_change (y_wait s) with Some true => Some ByStop | Some false => Some ByContinue | None => None end
  end.

(** The loop of the wait is left. *)
Definition wait_left (e : wait_end) (s : slavesys) : slavesys :=
  at_main (MTerminate (slave_threads services pid))
    (with_wait (mk_wstate (w_stopped (y_wait s)) (match e with ByError => w_change (y_wait s) | _ => None end) (Some e)) s).

(** [resp == -1]: the call is made again after EINTR only. *)
Definition wait_fails (eintr : bool) (s : slavesys) : slavesys :=
  match y_main s with MWait => if eintr then s else wait_left ByError s | _ => s end.

(** Signals that stop or continue the forked process. *)
Definition signal_step (stop : bool) (s : slavesys) : slavesys :=
  match y_child s with
  | CDead => s
  | _ => if Bool.eqb stop (w_stopped (y_wait s)) then s
         else with_wait (mk_wstate stop (Some stop) (w_end (y_wait s))) s
  end.

(** The main thread; [_pid > 0]. *)
Definition main_step (s : slavesys) : slavesys :=
  match y_main s with
  | MCreate (k :: todo) =>
      if creates k then
        mk_slavesys (MCreate todo) (fupd k Created (y_threads s)) (y_events s) (y_tostart s + 1) (y_started s)
          (y_shared s) (y_handler s) (y_child s) (y_seen s) (y_wait s)
      else at_main MExit s
  | MCreate [] => at_main (if services =? 0 then MCount else MHandler) s
  | MHandler => mk_slavesys MCount (y_threads s) (y_events s) (y_tostart s) (y_started s) (y_shared s) true (y_child s) (y_seen s) (y_wait s)
  | MCount => if negb (y_started s =? y_tostart s) then s else at_main MWakeup s
  | MWakeup => mk_slavesys MClose (y_threads s) (y_events s) (y_tostart s) (y_started s) (y_shared s + 1) (y_handler s) (y_child s) (y_seen s) (y_wait s)
  | MClose => at_main MWait s
  | MWait => match waitpid_result s with Some e => wait_left e s | None => s end
  | MTerminate (k :: todo) =>
      mk_slavesys (MJoin k todo) (y_threads s) (fupd k true (y_events s)) (y_tostart s) (y_started s)
        (y_shared s) (y_handler s) (y_child s) (y_seen s) (y_wait s)
  | MTerminate [] => at_main MDone s
  | MJoin k todo => match y_threads s k with Ended => at_main (MTerminate todo) s | _ => s end
  | MDone | MExit => s
  end.

(** Between the counting and the loop of a thread. *)
Definition thread_setup (k : sthread) : setup :=
  match k with
  | ThOut | ThErr => SetUp
  | ThIn =>
      if has services (Z.lor BARRIER_SERVICE RPC_SERVICE) && negb in_socket then Fatal
      else if in_fds then SetUp else Returns
  | ThSock => if own_socket && own_bind then SetUp else Fatal
  end.

Definition thread_step (k : sthread) (leaves : bool) (s : slavesys) : slavesys :=
  match y_main s with MExit => s | _ =>
    match y_threads s k with
    | NotCreated | Ended => s
    | Created =>
        mk_slavesys (y_main s) (fupd k Counted (y_threads s)) (y_events s) (y_tostart s) (y_started s + 1)
          (y_shared s) (y_handler s) (y_child s) (y_seen s) (y_wait s)
    | Counted =>
        match thread_setup k with
        | SetUp => at_thread k Looping s
        | Returns => at_thread k Ended s
        | Fatal => at_main MExit s
        end
    | Looping => if y_events s k || leaves then at_thread k Ended s else s
    end
  end.

(** The forked process, unless it is stopped. *)
Definition child_step (s : slavesys) : slavesys :=
  if w_stopped (y_wait s) then s else
  match y_child s with
  | CWait =>
      let s' := with_seen (y_seen s ++ [y_shared s]) s in
      if y_shared s =? 0 then s' else at_child CClose s'
  | CClose => at_child CExec s
  | CExec => at_child (CRun life) s
  | CRun (S n) => at_child (CRun n) s
  | CRun O => at_child CDead s
  | CDead => s
  end.

Definition actor_step (a : actor) (s : slavesys) : slavesys :=
  match a with
  | AMain => main_step s
  | AChild => child_step s
  | AThread k leaves => thread_step k leaves s
  | ASignal stop => signal_step stop s
  | AWaitFails eintr => wait_fails eintr s
  end.

(** A run: the steps of a schedule. *)
Definition run_actors (l : list actor) (s : slavesys) : slavesys := foldl (fun s a => actor_step a s) s l.

(** [manage_slave_services] after [daemonize]. *)
Definition slavesys0 : slavesys :=
  mk_slavesys (MCreate (slave_threads services pid)) (fun _ => NotCreated) (fun _ => false) 0 0 0 false CWait [] (mk_wstate false None None).
End Code.

(** ** What holds in every run *)

Section Runs.
Variables (services pid : Z) (creates : sthread → bool) (in_socket in_fds own_socket own_bind : bool) (life : nat).
Abbreviation all := (slave_threads services pid).
Abbreviation step := (actor_step services pid creates in_socket in_fds own_socket own_bind life).
Abbreviation run := (run_actors services pid creates in_socket in_fds own_socket own_bind life).
Abbreviation s0 := (slavesys0 services pid).

Definition kinds : list sthread := [ThOut; ThErr; ThIn; ThSock].
Definition created (t : tstate) : Z := match t with NotCreated => 0 | _ => 1 end.
Definition counted (t : tstate) : Z := match t with NotCreated | Created => 0 | _ => 1 end.

Lemma sum_fupd (f : tstate → Z) k t (th : sthread → tstate) :
  sum_over (fun j => f (fupd k t th j)) kinds = sum_over (fun j => f (th j)) kinds - f (th k) + f t.
Proof. unfold fupd. destruct k; cbn [sum_over kinds foldr]; repeat (case_decide; [try done|try done]); lia. Qed.

(** The process before it is woken, and after. *)
Definition asleep (s : slavesys) : Prop :=
  y_shared s = 0 ∧ y_child s = CWait ∧ Forall (fun v => v = 0) (y_seen s).
Definition awake (s : slavesys) : Prop :=
  y_shared s = 1 ∧ (∀ k, k ∈ all → counted (y_threads s k) = 1) ∧ y_handler s = negb (services =? 0) ∧
  (y_child s = CWait → Forall (fun v => v = 0) (y_seen s)) ∧
  (y_child s ≠ CWait → ∃ n, y_seen s = replicate n 0 ++ [1]).

(** The wait is over, and the process has ended if that was the reason. *)
Definition waited (s : slavesys) : Prop :=
  match w_end (y_wait s) with Some ByExit => y_child s = CDead | Some _ => True | None => False end.

Record sys_ok (s : slavesys) : Prop := {
  so_tostart : y_tostart s = sum_over (fun k => created (y_threads s k)) kinds;
  so_started : y_started s = sum_over (fun k => counted (y_threads s k)) kinds;
  so_created : match y_main s with
    | MExit => ∀ k, y_threads s k ≠ NotCreated → k ∈ all
    | MCreate todo => ∃ made, all = made ++ todo ∧ ∀ k, y_threads s k ≠ NotCreated ↔ k ∈ made
    | _ => ∀ k, y_threads s k ≠ NotCreated ↔ k ∈ all
    end;
  so_phase : match y_main s with
    | MCreate _ | MHandler | MCount => asleep s
    | MWakeup => asleep s ∧ ∀ k, k ∈ all → counted (y_threads s k) = 1
    | MClose | MWait | MTerminate _ | MJoin _ _ | MDone => awake s
    | MExit => asleep s ∨ awake s
    end;
  so_handler : match y_main s with
    | MCreate _ => y_handler s = false
    | MHandler => services ≠ 0
    | MExit => True
    | _ => y_handler s = negb (services =? 0)
    end;
  so_joined : match y_main s with
    | MTerminate todo => ∃ ended, all = ended ++ todo ∧ ∀ k, k ∈ ended → y_threads s k = Ended
    | MJoin k todo => y_events s k = true ∧
        ∃ ended, all = ended ++ k :: todo ∧ ∀ k, k ∈ ended → y_threads s k = Ended
    | MDone => ∀ k, k ∈ all → y_threads s k = Ended
    | _ => True
    end;
  so_waited : match y_main s with
    | MTerminate _ | MJoin _ _ | MDone => waited s
    | MExit => True
    | _ => w_end (y_wait s) = None ∧ (w_stopped (y_wait s) = true → w_change (y_wait s) = Some true)
    end
}.

Lemma all_NoDup : NoDup all.
Proof.
  unfold slave_threads. destruct (_ && _); [|constructor].
  destruct (has services REDIRECT_SERVICE), (has services (Z.lor REDIRECT_SERVICE _)), (has services (Z.lor BARRIER_SERVICE _));
    apply (bool_decide_unpack _); reflexivity.
Qed.

Lemma sys0_ok : sys_ok s0.
Proof.
  constructor; cbn; try done. exists []. split; [done|]. set_solver.
Qed.

(** The counters agree only when every thread that was created has counted. *)
Lemma counters_agree (th : sthread → tstate) :
  sum_over (fun k => counted (th k)) kinds = sum_over (fun k => created (th k)) kinds →
  ∀ k, th k ≠ NotCreated → counted (th k) = 1.
Proof.
  assert (H : ∀ k, counted (th k) <= created (th k)) by (intros k; by destruct (th k)).
  pose proof (H ThOut). pose proof (H ThErr). pose proof (H ThIn). pose proof (H ThSock). cbn. intros E k Hk.
  assert (counted (th k) = created (th k)) as -> by (destruct k; lia). by destruct (th k).
Qed.

Lemma fupd_eq {A} k (v : A) f : fupd k v f k = v.
Proof. unfold fupd. by rewrite decide_True. Qed.
Lemma fupd_ne {A} k k' (v : A) f : k' ≠ k → fupd k v f k' = f k'.
Proof. intros H. unfold fupd. by rewrite decide_False. Qed.

(** A step of a thread from [t] to [t'], both after its creation. *)
Lemma thread_ok k t s s' : sys_ok s → y_threads s k ≠ NotCreated → y_threads s k ≠ Ended → t ≠ NotCreated →
  counted (y_threads s k) <= counted t →
  s' = mk_slavesys (y_main s) (fupd k t (y_threads s)) (y_events s) (y_tostart s)
    (y_started s + counted t - counted (y_threads s k)) (y_shared s) (y_handler s) (y_child s) (y_seen s) (y_wait s) →
  sys_ok s'.
Proof.
  intros [H1 H2 H3 H4 H5 H6 H7] Hk He Ht Hc ->.
  assert (Hn : ∀ j, fupd k t (y_threads s) j ≠ NotCreated ↔ y_threads s j ≠ NotCreated).
  { intros j. destruct (decide (j = k)) as [->|]; [by rewrite fupd_eq|by rewrite fupd_ne]. }
  assert (Hcount : ∀ l : list sthread, (∀ j, j ∈ l → counted (y_threads s j) = 1) → ∀ j, j ∈ l → counted (fupd k t (y_threads s) j) = 1).
  { intros l Hl j Hj. destruct (decide (j = k)) as [->|]; [|rewrite fupd_ne by done; by apply Hl].
    rewrite fupd_eq. rewrite (Hl k Hj) in Hc. destruct t; cbn in *; lia. }
  assert (Hend : ∀ l : list sthread, (∀ j, j ∈ l → y_threads s j = Ended) → ∀ j, j ∈ l → fupd k t (y_threads s) j = Ended).
  { intros l Hl j Hj. destruct (decide (j = k)) as [->|]; [by rewrite (Hl k Hj) in He|rewrite fupd_ne by done; by apply Hl]. }
  constructor; cbn [y_main y_threads y_tostart y_started y_shared y_handler y_child y_seen y_events y_wait].
  - rewrite sum_fupd, H1. destruct t, (y_threads s k); cbn; done || lia.
  - rewrite sum_fupd, H2. lia.
  - destruct (y_main s); try (intros j; rewrite Hn; by apply H3). destruct H3 as (made & Hm & Hj). exists made. split; [done|].
    intros j. by rewrite Hn.
  - assert (Haw : awake s → awake (mk_slavesys (y_main s) (fupd k t (y_threads s)) (y_events s) (y_tostart s)
      (y_started s + counted t - counted (y_threads s k)) (y_shared s) (y_handler s) (y_child s) (y_seen s) (y_wait s))).
    { intros (A1 & A2 & A3). split; [done|]. split; [by apply Hcount|done]. }
    destruct (y_main s); try done; try by apply Haw.
    + destruct H4 as [Ha Hall]. split; [done|by apply Hcount].
    + destruct H4; [by left|right; by apply Haw].
  - done.
  - destruct (y_main s); try done.
    + destruct H6 as (ended & Ha & Hj). exists ended. split; [done|by apply Hend].
    + destruct H6 as (Hev & ended & Ha & Hj). split; [done|]. exists ended. split; [done|by apply Hend].
    + by apply Hend.
  - done.
Qed.

Lemma exit_ok s : sys_ok s → sys_ok (at_main MExit s).
Proof.
  intros [H1 H2 H3 H4 H5 H6 H7]. constructor; cbn; try done.
  - destruct (y_main s); try (intros j Hj; by apply H3).
    destruct H3 as (made & -> & H3). intros k Hk. apply elem_of_app. left. by apply H3.
  - destruct (y_main s); try done; try (by left); try (by right). left. apply H4.
Qed.

Lemma thread_step_ok k leaves s : sys_ok s → sys_ok (thread_step services in_socket in_fds own_socket own_bind k leaves s).
Proof.
  intros Hok. unfold thread_step.
  assert (Hat : ∀ t, y_threads s k ≠ NotCreated → y_threads s k ≠ Ended → t ≠ NotCreated → counted (y_threads s k) = counted t →
    sys_ok (at_thread k t s)).
  { intros t Hn He Ht Hc. apply (thread_ok k t s); try done; [lia|]. unfold at_thread. f_equal. lia. }
  assert (Hsame : ∀ x : slavesys, sys_ok x → sys_ok (match y_main s with MExit => s | _ => x end)) by (intros x Hx; by destruct (y_main s)).
  apply Hsame. destruct (y_threads s k) eqn:Et; try done.
  - apply (thread_ok k Counted s); rewrite ?Et; try done. cbn. f_equal. lia.
  - destruct (thread_setup services in_socket in_fds own_socket own_bind k); [by apply Hat..|by apply exit_ok].
  - destruct (y_events s k || leaves); [by apply Hat|done].
Qed.

(** A new thread. *)
Lemma todo_uncreated made k todo s : all = made ++ k :: todo → (∀ j, y_threads s j ≠ NotCreated ↔ j ∈ made) →
  y_threads s k = NotCreated.
Proof.
  intros Hall H. destruct (y_threads s k) eqn:E; try done; exfalso; (assert (Hin : k ∈ made) by (apply H; by rewrite E));
    pose proof all_NoDup as Hnd; rewrite Hall in Hnd; apply NoDup_app in Hnd as (_ & Hnd & _); apply (Hnd k Hin); by left.
Qed.

Lemma create_ok k todo s : sys_ok s → y_main s = MCreate (k :: todo) →
  sys_ok (mk_slavesys (MCreate todo) (fupd k Created (y_threads s)) (y_events s) (y_tostart s + 1) (y_started s)
    (y_shared s) (y_handler s) (y_child s) (y_seen s) (y_wait s)).
Proof.
  intros [H1 H2 H3 H4 H5 H6 H7] Em. rewrite Em in *. destruct H3 as (made & Hall & H3).
  pose proof (todo_uncreated made k todo s Hall H3) as Hk.
  constructor; cbn; try done.
  - change (created (?f ?x)) with (created (f x)). pose proof (sum_fupd created k Created (y_threads s)) as E. cbn in E. rewrite E, Hk, H1. cbn. lia.
  - pose proof (sum_fupd counted k Created (y_threads s)) as E. cbn in E. rewrite E, Hk, H2. cbn. lia.
  - exists (made ++ [k]). split; [by rewrite <- app_assoc|]. intros j. rewrite elem_of_app, list_elem_of_singleton.
    destruct (decide (j = k)) as [->|]; [rewrite fupd_eq; naive_solver|rewrite fupd_ne by done; rewrite H3; naive_solver].
Qed.

(** The end of the wait. *)
Lemma wait_left_ok e s : sys_ok s → y_main s = MWait → (e = ByExit → y_child s = CDead) → sys_ok (wait_left services pid e s).
Proof.
  intros [H1 H2 H3 H4 H5 H6 H7] Em He. rewrite Em in *. constructor; cbn; try done.
  - exists []. split; [done|]. set_solver.
  - unfold waited. cbn. destruct e; try done. by apply He.
Qed.

Lemma main_step_ok s : sys_ok s → sys_ok (main_step services pid creates s).
Proof.
  intros Hok. unfold main_step. pose proof Hok as [H1 H2 H3 H4 H5 H6 H7].
  destruct (y_main s) as [[|k todo]| | | | | |[|k todo]|k todo| |] eqn:Em; try done.
  - destruct H3 as (made & Hm & H3). rewrite app_nil_r in Hm. subst made.
    destruct (Z.eqb_spec services 0) as [E|E]; constructor; cbn; try done. by rewrite H5, E.
  - destruct (creates k); [by apply create_ok|by apply exit_ok].
  - constructor; cbn; try done. by rewrite (proj2 (Z.eqb_neq _ _) H5).
  - destruct (Z.eqb_spec (y_started s) (y_tostart s)) as [E|E]; [|done]. cbn [negb].
    constructor; cbn; try done. split; [done|]. intros k Hk. apply counters_agree; [by rewrite <- H1, <- H2|]. by apply H3.
  - constructor; cbn; try done. destruct H4 as ((Hs & Hc & Hl) & Hall). split; [cbn; lia|]. split; [done|]. split; [done|].
    split; [done|]. cbn. by rewrite Hc.
  - destruct (waitpid_result s) as [e|] eqn:Ew; [|done]. apply wait_left_ok; [done|done|]. intros ->.
    unfold waitpid_result in Ew. destruct (y_child s); try done; by repeat case_match.
  - constructor; cbn; try done. destruct H6 as (ended & Ha & Hj). rewrite app_nil_r in Ha. by subst ended.
  - destruct H6 as (ended & Ha & Hj). constructor; cbn; try done. split; [by rewrite fupd_eq|]. by exists ended.
  - destruct (y_threads s k) eqn:Et; try done. destruct H6 as (He & ended & Ha & Hj). constructor; cbn; try done.
    exists (ended ++ [k]). split; [by rewrite <- app_assoc|]. intros j [Hin|Hin]%elem_of_app; [by apply Hj|].
    apply list_elem_of_singleton in Hin. by subst.
Qed.

Lemma child_step_ok s : sys_ok s → sys_ok (child_step life s).
Proof.
  intros Hok. pose proof Hok as [H1 H2 H3 H4 H5 H6 H7]. unfold child_step. destruct (w_stopped (y_wait s)) eqn:Est; [done|].
  (* Only the process and what it has seen change. *)
  assert (Hch : ∀ c l, (asleep s → asleep (at_child c (with_seen l s))) → (awake s → awake (at_child c (with_seen l s))) →
    (y_child s = CDead → c = CDead) → sys_ok (at_child c (with_seen l s))).
  { intros c l Hs Hw Hd. constructor; cbn; try done.
    - destruct (y_main s); try (by apply Hs); try (by apply Hw).
      + destruct H4. split; [by apply Hs|done].
      + destruct H4; [left; by apply Hs|right; by apply Hw].
    - assert (Hwt : waited s → waited (at_child c (with_seen l s))).
      { unfold waited. cbn. destruct (w_end (y_wait s)) as [[]|]; done || apply Hd. }
      rewrite Est. destruct (y_main s); try done; by apply Hwt. }
  assert (Hrest : ∀ c, y_child s ≠ CWait → y_child s ≠ CDead → c ≠ CWait → sys_ok (at_child c s)).
  { intros c Hw Hd Hc. replace (at_child c s) with (at_child c (with_seen (y_seen s) s)) by (by destruct s).
    apply Hch; [intros (? & ? & ?); done| |done]. intros (A1 & A2 & A3 & A4 & A5). split_and!; try done. intros _. by apply A5. }
  destruct (y_child s) as [| | |[|n]|] eqn:Ec; try done; try by apply Hrest.
  destruct (Z.eqb_spec (y_shared s) 0) as [E|E].
  - replace (with_seen (y_seen s ++ [y_shared s]) s) with (at_child CWait (with_seen (y_seen s ++ [y_shared s]) s)) by (by destruct s; cbn in *; subst).
    apply Hch; [|intros (A1 & _); lia|done]. intros (A1 & A2 & A3). split_and!; try done. cbn. rewrite E. apply Forall_app_2; [done|by constructor].
  - apply Hch; [intros (A1 & _); done| |done]. intros (A1 & A2 & A3 & A4 & A5). split_and!; try done. intros _. cbn. rewrite A1.
    exists (length (y_seen s)). f_equal. specialize (A4 Ec). clear -A4. induction A4 as [|x l -> _ IH]; cbn; [done|by rewrite <- IH].
Qed.

Lemma signal_step_ok stop s : sys_ok s → sys_ok (signal_step stop s).
Proof.
  intros Hok. pose proof Hok as [H1 H2 H3 H4 H5 H6 H7]. unfold signal_step.
  assert (Hw : Bool.eqb stop (w_stopped (y_wait s)) = false → y_child s ≠ CDead →
    sys_ok (with_wait (mk_wstate stop (Some stop) (w_end (y_wait s))) s)).
  { intros _ Hc. constructor; cbn; try done. unfold waited in *. cbn. destruct (y_main s); try done; destruct H7 as [H7 _]; (split; [done|]); by intros ->. }
  destruct (y_child s); try done; (destruct (Bool.eqb _ _) eqn:E; [done|by apply Hw]).
Qed.

Lemma wait_fails_ok eintr s : sys_ok s → sys_ok (wait_fails services pid eintr s).
Proof.
  intros Hok. unfold wait_fails. destruct (y_main s) eqn:Em; try done. destruct eintr; [done|]. by apply wait_left_ok.
Qed.

Lemma step_ok a s : sys_ok s → sys_ok (step a s).
Proof.
  intros H. destruct a as [| |k leaves|stop|eintr]; cbn [actor_step];
    [by apply main_step_ok|by apply child_step_ok|by apply thread_step_ok|by apply signal_step_ok|by apply wait_fails_ok].
Qed.

Lemma actors_ok l s : sys_ok s → sys_ok (run l s).
Proof. revert s. induction l as [|a l IH]; intros s Hs; [done|]. cbn. apply IH. by apply step_ok. Qed.

(** ** Safety *)

(** A process that has seen another number than 0 goes on, after as many looks. *)
Lemma seen_wakes n p : pr_shared p = Some 0 → pr_others p = replicate n 0 ++ [1] →
  ∃ p', sync_wait (S n) p = Ret 0 p'.
Proof. intros Hs Ho. rewrite (sync_wait_woken (S n) n 1 [] p Hs Ho); [by eexists|done|lia]. Qed.

(** ** Liveness *)

Section Liveness.
(** Nothing fails. *)
Hypothesis creates_all : ∀ k, k ∈ all → creates k = true.
Hypothesis set_up_all : ∀ k, k ∈ all → thread_setup services in_socket in_fds own_socket own_bind k ≠ Fatal.

(** What is left to do; the looks of the process do not count, nor do signals when
    there already is a change to tell. *)
Definition main_left (m : mpc) : Z :=
  match m with
  | MCreate todo => 8 + 2 * alen all + 4 * alen todo
  | MHandler => 7 + 2 * alen all
  | MCount => 6 + 2 * alen all
  | MWakeup => 5 + 2 * alen all
  | MClose => 4 + 2 * alen all
  | MWait => 3 + 2 * alen all
  | MTerminate todo => 1 + 2 * alen todo
  | MJoin _ todo => 2 + 2 * alen todo
  | MDone | MExit => 0
  end.
Definition thread_left (t : tstate) : Z :=
  match t with Created => 3 | Counted => 2 | Looping => 1 | NotCreated | Ended => 0 end.
Definition child_left (c : cpc) : Z :=
  match c with CWait => 4 + Z.of_nat life | CClose => 3 + Z.of_nat life | CExec => 2 + Z.of_nat life
  | CRun n => 1 + Z.of_nat n | CDead => 0 end.
Definition wait_left_bit (w : wstate) : Z := match w_change w with None => 1 | Some _ => 0 end.
Definition sys_left (s : slavesys) : Z :=
  main_left (y_main s) + sum_over (fun k => thread_left (y_threads s k)) kinds + child_left (y_child s) +
  wait_left_bit (y_wait s).

Lemma sys_left_nonneg s : 0 <= sys_left s.
Proof.
  unfold sys_left. assert (H : ∀ t, 0 <= thread_left t) by (intros []; cbn; lia).
  pose proof (sum_nonneg (fun k => thread_left (y_threads s k)) kinds (fun k _ => H _)).
  assert (0 <= wait_left_bit (y_wait s)) by (unfold wait_left_bit; destruct (w_change _); lia).
  destruct (y_main s), (y_child s); cbn [main_left child_left]; unfold alen; lia.
Qed.

#[local] Ltac left_lia :=
  unfold sys_left; cbn [y_main y_threads y_child y_wait at_main at_child at_thread with_seen with_wait];
  repeat match goal with E : y_main _ = _ |- _ => rewrite E; clear E | E : y_child _ = _ |- _ => rewrite E; clear E end;
  rewrite ?sum_fupd; repeat match goal with E : y_threads _ _ = _ |- _ => rewrite E; clear E end;
  cbn [main_left thread_left child_left]; unfold alen; cbn [length]; lia.

(** Every step leaves the system as it is, but for the looks and for signals when
    there is a change to tell, or brings it on. *)
Definition idle (s s' : slavesys) : Prop :=
  ∃ l st ch, s' = with_wait (mk_wstate st ch (w_end (y_wait s))) (with_seen l s) ∧
    match w_change (y_wait s) with
    | None => st = w_stopped (y_wait s) ∧ ch = None
    | Some _ => ch ≠ None
    end.

Lemma idle_refl s : idle s s.
Proof.
  exists (y_seen s), (w_stopped (y_wait s)), (w_change (y_wait s)). split; [by destruct s as [????????? []]|].
  by destruct (w_change (y_wait s)).
Qed.

Lemma idle_seen s l : idle s (with_seen l s).
Proof.
  exists l, (w_stopped (y_wait s)), (w_change (y_wait s)). split; [by destruct s as [????????? []]|].
  by destruct (w_change (y_wait s)).
Qed.

Lemma idle_trans s1 s2 s3 : idle s1 s2 → idle s2 s3 → idle s1 s3.
Proof.
  intros (l & st & ch & -> & H) (l' & st' & ch' & -> & H'). cbn in H'. exists l', st', ch'. split; [done|].
  destruct (w_change (y_wait s1)); [|destruct H as [-> ->]; exact H']. destruct ch; [exact H'|done].
Qed.

Lemma idle_left s s' : idle s s' → sys_left s' = sys_left s ∧ y_main s' = y_main s.
Proof.
  intros (l & st & ch & -> & H). split; [|done]. unfold sys_left, wait_left_bit. cbn.
  destruct (w_change (y_wait s)), ch; try done; by destruct H.
Qed.

Lemma thread_progress k leaves s : sys_ok s → y_main s ≠ MExit →
  let s' := thread_step services in_socket in_fds own_socket own_bind k leaves s in
  s' = s ∨ (sys_left s' < sys_left s ∧ y_main s' = y_main s).
Proof using set_up_all.
  intros Hok Hm s'. unfold s', thread_step.
  assert (Hk : y_threads s k ≠ NotCreated → k ∈ all).
  { intros H. pose proof (so_created s Hok) as Hc. destruct (y_main s); try (by apply Hc). destruct Hc as (made & -> & Hc).
    apply elem_of_app. left. by apply Hc. }
  assert (Hskip : ∀ x, (x = s ∨ (sys_left x < sys_left s ∧ y_main x = y_main s)) →
    (match y_main s with MExit => s | _ => x end) = s ∨
    (sys_left (match y_main s with MExit => s | _ => x end) < sys_left s ∧ y_main (match y_main s with MExit => s | _ => x end) = y_main s)).
  { intros x Hx. destruct (y_main s); done. }
  apply Hskip. clear Hskip. destruct (y_threads s k) eqn:Et; try by left.
  - right. split; [left_lia|done].
  - destruct (thread_setup _ _ _ _ _ k) eqn:Es; [right|right|by destruct (set_up_all k (Hk ltac:(done)))];
      (split; [left_lia|done]).
  - destruct (y_events s k || leaves); [right|by left]. split; [left_lia|done].
Qed.

Lemma wait_left_less e s : y_main s = MWait → sys_left (wait_left services pid e s) < sys_left s.
Proof.
  intros Em. unfold sys_left, wait_left_bit. cbn. rewrite Em. unfold main_left.
  destruct (w_change (y_wait s)), e; lia.
Qed.

Lemma main_progress s : sys_ok s → y_main s ≠ MExit →
  main_step services pid creates s = s ∨
  (sys_left (main_step services pid creates s) < sys_left s ∧ y_main (main_step services pid creates s) ≠ MExit).
Proof using creates_all set_up_all.
  intros Hok Hm. unfold main_step. pose proof (so_created s Hok) as Hc.
  destruct (y_main s) as [[|k todo]| | | | | |[|k todo]|k todo| |] eqn:Em; try done.
  - right. destruct (services =? 0); (split; [left_lia|done]).
  - destruct Hc as (made & Hall & Hc). rewrite (creates_all k) by (rewrite Hall; set_solver). right. split; [|done].
    pose proof (todo_uncreated made k todo s Hall Hc). left_lia.
  - right. split; [left_lia|done].
  - destruct (y_started s =? y_tostart s); cbn [negb]; [right|by left]. split; [left_lia|done].
  - right. split; [left_lia|done].
  - right. split; [left_lia|done].
  - destruct (waitpid_result s) as [e|] eqn:Ew; [right|by left]. split; [|done]. by apply wait_left_less.
  - right. split; [left_lia|done].
  - right. split; [left_lia|done].
  - destruct (y_threads s k); try by left. right. split; [left_lia|done].
  - by left.
Qed.

Lemma child_progress s : idle s (child_step life s) ∨
  (sys_left (child_step life s) < sys_left s ∧ y_main (child_step life s) = y_main s).
Proof.
  unfold child_step. destruct (w_stopped (y_wait s)); [left; apply idle_refl|].
  destruct (y_child s) as [| | |[|n]|] eqn:Ec; try (right; split; [left_lia|done]).
  - destruct (y_shared s =? 0); [left; apply idle_seen|right]. split; [left_lia|done].
  - left. apply idle_refl.
Qed.

Lemma signal_progress stop s : idle s (signal_step stop s) ∨
  (sys_left (signal_step stop s) < sys_left s ∧ y_main (signal_step stop s) = y_main s).
Proof.
  assert (H : let s' := with_wait (mk_wstate stop (Some stop) (w_end (y_wait s))) s in
    idle s s' ∨ (sys_left s' < sys_left s ∧ y_main s' = y_main s)).
  { cbn zeta. destruct (w_change (y_wait s)) eqn:Ew.
    - left. exists (y_seen s), stop, (Some stop). split; [by destruct s|]. by rewrite Ew.
    - right. split; [|done]. unfold sys_left, wait_left_bit. cbn. rewrite Ew. lia. }
  unfold signal_step. destruct (y_child s); try (left; apply idle_refl);
    (destruct (Bool.eqb _ _); [left; apply idle_refl|exact H]).
Qed.

Lemma step_progress a s : sys_ok s → y_main s ≠ MExit →
  (idle s (step a s) ∨ sys_left (step a s) < sys_left s) ∧ y_main (step a s) ≠ MExit.
Proof using creates_all set_up_all.
  intros Hok Hm. destruct a as [| |k leaves|stop|eintr]; cbn [actor_step].
  - destruct (main_progress s Hok Hm) as [->|[H1 H2]]; [by split; [left; apply idle_refl|]|by split; [right|]].
  - destruct (child_progress s) as [H|[H1 H2]]; [|rewrite H2; by split; [right|]]. destruct (idle_left _ _ H) as [_ ->]. by split; [left|].
  - destruct (thread_progress k leaves s Hok Hm) as [->|[H1 H2]]; [by split; [left; apply idle_refl|]|rewrite H2; by split; [right|]].
  - destruct (signal_progress stop s) as [H|[H1 H2]]; [|rewrite H2; by split; [right|]]. destruct (idle_left _ _ H) as [_ ->]. by split; [left|].
  - unfold wait_fails. destruct (y_main s) eqn:Em; rewrite ?Em; try by split; [left; apply idle_refl|].
    destruct eintr; [rewrite Em; by split; [left; apply idle_refl|]|]. split; [right; by apply wait_left_less|done].
Qed.

(** An actor that brings the system on, whatever it chooses, until that has
    happened. *)
Definition same_actor (a b : actor) : Prop :=
  match a, b with
  | AMain, AMain | AChild, AChild => True
  | AThread k _, AThread k' _ => k = k'
  | _, _ => False
  end.

Definition is_created (t : tstate) : bool := match t with Created => true | _ => false end.
Definition pick (s : slavesys) : actor :=
  match y_main s with
  | MCount => if y_started s =? y_tostart s then AMain
              else match List.find (fun k => is_created (y_threads s k)) kinds with Some k => AThread k false | None => AMain end
  | MWait => match y_child s, w_change (y_wait s) with CDead, _ | _, Some _ => AMain | _, None => AChild end
  | MJoin k _ => match y_threads s k with Ended => AMain | _ => AThread k false end
  | _ => AMain
  end.

Lemma pick_idle s s' : idle s s' → pick s' = pick s.
Proof using.
  intros (l & st & ch & -> & H). unfold pick. cbn. destruct (y_main s), (y_child s), (w_change (y_wait s)), ch; try done; by destruct H.
Qed.

Lemma some_created (th : sthread → tstate) :
  sum_over (fun k => counted (th k)) kinds ≠ sum_over (fun k => created (th k)) kinds →
  ∃ k, List.find (fun k => is_created (th k)) kinds = Some k ∧ th k = Created.
Proof using.
  cbn. intros H.
  destruct (th ThOut) eqn:E1; cbn; try (by exists ThOut);
    (destruct (th ThErr) eqn:E2; cbn; try (by exists ThErr));
    (destruct (th ThIn) eqn:E3; cbn; try (by exists ThIn));
    (destruct (th ThSock) eqn:E4; cbn; try (by exists ThSock)); by destruct H.
Qed.

(** There is one until the main thread has finished. *)
Lemma someone s b : sys_ok s → y_main s ≠ MExit → y_main s ≠ MDone → same_actor (pick s) b → sys_left (step b s) < sys_left s.
Proof using creates_all set_up_all.
  intros Hok Hx Hd. pose proof Hok as [H1 H2 H3 H4 H5 H6 H7].
  assert (Hne : main_step services pid creates s ≠ s → same_actor AMain b → sys_left (step b s) < sys_left s).
  { intros H. destruct b; try done. intros _. by destruct (main_progress s Hok Hx) as [?|[]]. }
  assert (Hmain : y_main (main_step services pid creates s) ≠ y_main s → same_actor AMain b → sys_left (step b s) < sys_left s).
  { intros H. apply Hne. intros E. apply H. by rewrite E. }
  assert (Hthr : ∀ k, y_threads s k ≠ NotCreated → y_threads s k ≠ Ended → (y_threads s k = Looping → y_events s k = true) →
    same_actor (AThread k false) b → sys_left (step b s) < sys_left s).
  { intros k Hn He Hl Hb. destruct b as [| |k' leaves| |]; try done. cbn in Hb. subst k'. cbn [actor_step].
    destruct (thread_progress k leaves s Hok Hx) as [E|[E _]]; [exfalso|done]. revert E. unfold thread_step.
    assert (Hexit : ∀ x, (match y_main s with MExit => s | _ => x end) = x) by (intros x; by destruct (y_main s)). rewrite Hexit.
    assert (Hty : ∀ t, s = at_thread k t s → y_threads s k = t).
    { intros t E. rewrite E. cbn. apply fupd_eq. }
    destruct (y_threads s k) eqn:Et; try done.
    - intros E. apply (f_equal (fun x => y_started x)) in E. cbn in E. lia.
    - destruct (thread_setup services in_socket in_fds own_socket own_bind k); intros E.
      + symmetry in E. by apply Hty in E.
      + symmetry in E. by apply Hty in E.
      + apply (f_equal y_main) in E. by cbn in E.
    - rewrite Hl by done. cbn [orb]. intros E. symmetry in E. by apply Hty in E. }
  unfold pick. unfold main_step in *. destruct (y_main s) as [[|k todo]| | | | | |[|k todo]|k todo| |] eqn:Em; try done;
    try (apply Hmain; cbn; try rewrite Em; done).
  - apply Hmain. by destruct (services =? 0).
  - apply Hmain. destruct H3 as (made & Hall & _). rewrite (creates_all k) by (rewrite Hall; set_solver).
    cbn. intros [= E]. apply (f_equal length) in E. cbn in E. lia.
  - destruct (Z.eqb_spec (y_started s) (y_tostart s)) as [E|E]; cbn [negb] in Hmain.
    + apply Hmain. done.
    + destruct (some_created (y_threads s)) as (k & -> & Hk); [by rewrite <- H1, <- H2|]. by apply (Hthr k); rewrite Hk.
  - unfold waitpid_result in Hmain. destruct H4 as (A1 & _). destruct (y_child s) eqn:Ec.
    5:{ by apply Hmain. }
    all: destruct (w_change (y_wait s)) as [[]|] eqn:Ew; [by apply Hmain..|].
    all: intros Hb; destruct b; try done; cbn [actor_step]; unfold child_step; rewrite Ec, ?A1.
    all: destruct (w_stopped (y_wait s)); [by destruct H7 as [_ H7]; specialize (H7 eq_refl)|].
    all: cbn [Z.eqb]; try left_lia. destruct n; left_lia.
  - destruct H4 as (_ & A2 & _). destruct H6 as (Hev & ended & Hall & _).
    assert (Hc : counted (y_threads s k) = 1) by (apply A2; rewrite Hall; set_solver).
    destruct (y_threads s k) eqn:Et; try done; try (apply (Hthr k); by rewrite Et).
    apply Hmain. done.
Qed.

(** *** Rounds *)

Lemma done_or_not (m : mpc) : m = MDone ∨ m ≠ MDone.
Proof using. destruct m; (by left) || by right. Qed.

(** The main thread, the forked process and every thread take a step; signals come
    as they come. *)
Definition works (a : actor) : Prop := match a with ASignal _ | AWaitFails _ => False | _ => True end.
Definition round (l : list actor) : Prop := ∀ a, works a → ∃ b, b ∈ l ∧ same_actor a b.

Lemma pick_works s : works (pick s).
Proof using. unfold pick. by repeat case_match. Qed.

Lemma run_cons a l s : run (a :: l) s = run l (step a s).
Proof using. done. Qed.

Lemma run_bound l s : sys_ok s → y_main s ≠ MExit → sys_left (run l s) <= sys_left s ∧ y_main (run l s) ≠ MExit.
Proof using creates_all set_up_all.
  revert s. induction l as [|a l IH]; intros s Hok Hm; [done|]. rewrite run_cons. destruct (step_progress a s Hok Hm) as [Hp Hm'].
  destruct (IH (step a s)) as [H1 H2]; [by apply step_ok|done|]. split; [|done].
  assert (sys_left (step a s) <= sys_left s); [|lia]. destruct Hp as [Hi|]; [destruct (idle_left _ _ Hi) as [-> _]; lia|lia].
Qed.

Lemma run_brings_on l s : sys_ok s → y_main s ≠ MExit → y_main s ≠ MDone → (∃ b, b ∈ l ∧ same_actor (pick s) b) →
  sys_left (run l s) < sys_left s.
Proof using creates_all set_up_all.
  revert s. induction l as [|c l IH]; intros s Hok Hm Hd (b & Hb & Hs); [by apply not_elem_of_nil in Hb|]. rewrite run_cons.
  destruct (step_progress c s Hok Hm) as [Hp Hm']. pose proof (step_ok c s Hok) as Hok'.
  destruct (Z.lt_ge_cases (sys_left (step c s)) (sys_left s)) as [Hlt|Hge].
  - pose proof (proj1 (run_bound l (step c s) Hok' Hm')). lia.
  - destruct Hp as [Hi|]; [|lia]. destruct (idle_left _ _ Hi) as [El Em]. apply elem_of_cons in Hb as [->|Hb].
    + pose proof (someone s c Hok Hm Hd Hs). lia.
    + rewrite <- El. apply IH; try done; [by rewrite Em|]. exists b. by rewrite (pick_idle _ _ Hi).
Qed.

Lemma done_stays l s : sys_ok s → y_main s = MDone → y_main (run l s) = MDone.
Proof using creates_all set_up_all.
  revert s. induction l as [|a l IH]; intros s Hok Hm; [done|]. rewrite run_cons. apply IH; [by apply step_ok|].
  assert (Hx : y_main s ≠ MExit) by by rewrite Hm. destruct a as [| |k leaves|stop|eintr]; cbn [actor_step].
  - unfold main_step. by rewrite Hm.
  - destruct (child_progress s) as [H|[_ ->]]; [by destruct (idle_left _ _ H) as [_ ->]|done].
  - by destruct (thread_progress k leaves s Hok Hx) as [->|[_ ->]].
  - destruct (signal_progress stop s) as [H|[_ ->]]; [by destruct (idle_left _ _ H) as [_ ->]|done].
  - unfold wait_fails. by rewrite Hm.
Qed.

Lemma rounds_finish rounds s : sys_ok s → y_main s ≠ MExit → Forall round rounds → sys_left s <= alen rounds →
  y_main (run (concat rounds) s) = MDone.
Proof using creates_all set_up_all.
  intros Hok Hm Hr. revert s Hok Hm. induction Hr as [|l rounds Hl _ IH]; intros s Hok Hm Hlen.
  - cbn. destruct (decide (sys_left s = 0)) as [E|]; [|pose proof (sys_left_nonneg s); unfold alen in Hlen; cbn in Hlen; lia].
    destruct (done_or_not (y_main s)) as [|Hd]; [done|].
    assert (Hself : same_actor (pick s) (pick s)) by (pose proof (pick_works s); by destruct (pick s)).
    pose proof (someone s (pick s) Hok Hm Hd Hself). pose proof (sys_left_nonneg (step (pick s) s)). lia.
  - cbn [concat]. unfold run_actors. rewrite foldl_app. change (foldl _ s l) with (run l s).
    change (foldl _ (run l s) (concat rounds)) with (run (concat rounds) (run l s)).
    destruct (done_or_not (y_main s)) as [Hd|Hd].
    { apply done_stays; [by apply actors_ok|]. by apply done_stays. }
    destruct (run_bound l s Hok Hm) as [Hb Hm']. apply IH; [by apply actors_ok|done|].
    pose proof (run_brings_on l s Hok Hm Hd (Hl (pick s) (pick_works s))).
    unfold alen in *. cbn [length] in Hlen. lia.
Qed.
End Liveness.

(** *** A thread that cannot be created *)

Lemma asleep_step k s : (∃ todo, y_main s = MCreate todo ∧ k ∈ todo) ∨ y_main s = MExit → asleep s → creates k = false →
  ∀ a, ((∃ todo, y_main (step a s) = MCreate todo ∧ k ∈ todo) ∨ y_main (step a s) = MExit) ∧ asleep (step a s).
Proof.
  intros Hm Ha Hk a. pose proof Ha as (A1 & A2 & A3). destruct a as [| |j leaves|stop|eintr]; cbn [actor_step].
  - unfold main_step. destruct Hm as [(todo & Em & Hin)|Em]; rewrite Em; [|split; [right; exact Em|exact Ha]].
    destruct todo as [|j todo]; [by apply not_elem_of_nil in Hin|]. destruct (creates j) eqn:Ej; [|by split; [right|]].
    split; [|done]. left. exists todo. split; [done|]. apply elem_of_cons in Hin as [->|Hin]; [by rewrite Hk in Ej|done].
  - unfold child_step. destruct (w_stopped (y_wait s)); [by split|]. rewrite A1, A2. cbn [Z.eqb]. split; [done|]. split; [done|]. split; [done|].
    apply Forall_app_2; [done|by constructor].
  - unfold thread_step. destruct Hm as [(todo & Em & Hin)|Em]; [|rewrite Em; split; [right; exact Em|exact Ha]].
    assert (Hl : (∃ todo, y_main s = MCreate todo ∧ k ∈ todo) ∨ y_main s = MExit) by (left; by exists todo).
    rewrite Em. destruct (y_threads s j); try (split; [exact Hl|exact Ha]).
    + split; [left; by exists todo|done].
    + destruct (thread_setup services in_socket in_fds own_socket own_bind j); [split; [exact Hl|exact Ha]..|by split; [right|]].
    + destruct (_ || _); (split; [exact Hl|exact Ha]).
  - unfold signal_step. rewrite A2. by destruct (Bool.eqb _ _).
  - unfold wait_fails. destruct Hm as [(todo & Em & Hin)|Em]; rewrite Em; (split; [|exact Ha]); [left; by exists todo|by right].
Qed.

Lemma run_asleep k l : k ∈ all → creates k = false → asleep (run l s0).
Proof.
  intros Hin Hk. assert (H : ∀ s, (∃ todo, y_main s = MCreate todo ∧ k ∈ todo) ∨ y_main s = MExit → asleep s → asleep (run l s)).
  { induction l as [|a l IH]; intros s Hm Ha; [done|]. rewrite run_cons. destruct (asleep_step k s Hm Ha Hk a). by apply IH. }
  apply H; [left; by eexists|]. by split_and!.
Qed.

Lemma count_all (th : sthread → tstate) : (∀ k, th k ≠ NotCreated ↔ k ∈ all) → sum_over (fun k => created (th k)) kinds = alen all.
Proof.
  intros H. assert (E : ∀ k, created (th k) = if bool_decide (k ∈ all) then 1 else 0).
  { intros k. pose proof (H k) as Hk. case_bool_decide; destruct (th k); cbn; naive_solver. }
  rewrite (sum_ext _ _ kinds (fun k _ => E k)). unfold slave_threads. destruct (_ && _); [|done].
  destruct (has services REDIRECT_SERVICE), (has services (Z.lor REDIRECT_SERVICE _)), (has services (Z.lor BARRIER_SERVICE _)); reflexivity.
Qed.

(** Why the wait has ended. *)
Lemma wait_because l : let w := y_wait (run l s0) in
  (w_stopped w = true ∨ w_change w ≠ None → ASignal true ∈ l) ∧
  match w_end w with
  | Some ByStop | Some ByContinue => ASignal true ∈ l
  | Some ByError => AWaitFails false ∈ l
  | _ => True
  end.
Proof.
  induction l as [|a l IH] using rev_ind; [by split; [intros [|]|]|]. cbn zeta in *. unfold run_actors in *. rewrite foldl_snoc.
  set (s := foldl _ _ l) in *. clearbody s. destruct IH as [I1 I2].
  assert (J1 : w_stopped (y_wait s) = true ∨ w_change (y_wait s) ≠ None → ASignal true ∈ l ++ [a]) by set_solver.
  assert (J2 : match w_end (y_wait s) with Some ByStop | Some ByContinue => ASignal true ∈ l ++ [a]
    | Some ByError => AWaitFails false ∈ l ++ [a] | _ => True end) by (destruct (w_end (y_wait s)) as [[]|]; set_solver).
  assert (Hsame : ∀ s', y_wait s' = y_wait s → (w_stopped (y_wait s') = true ∨ w_change (y_wait s') ≠ None → ASignal true ∈ l ++ [a]) ∧
    match w_end (y_wait s') with Some ByStop | Some ByContinue => ASignal true ∈ l ++ [a]
    | Some ByError => AWaitFails false ∈ l ++ [a] | _ => True end) by (by intros s' ->).
  destruct a as [| |k leaves|stop|eintr]; cbn [actor_step].
  - assert (Hm : y_wait (main_step services pid creates s) = y_wait s ∨ y_main s = MWait).
    { unfold main_step. destruct (y_main s) as [[|k todo]| | | | | |[|k todo]|k todo| |]; try (by left); try (by right);
        left; by repeat case_match. }
    destruct Hm as [Hm|Em]; [by apply Hsame|]. unfold main_step. rewrite Em.
    destruct (waitpid_result s) as [e|] eqn:Ew; [|by apply Hsame]. unfold waitpid_result in Ew.
    assert (He : e ≠ ByError ∧ (e ≠ ByExit → w_change (y_wait s) ≠ None)) by (destruct (y_child s); repeat case_match; by simplify_eq).
    destruct He as [He1 He2]. cbn. split.
    + intros [H|H]; [apply J1; by left|by destruct e].
    + destruct e; try done; apply J1; right; by apply He2.
  - apply Hsame. unfold child_step. by repeat case_match.
  - apply Hsame. unfold thread_step. by repeat case_match.
  - unfold signal_step. destruct (y_child s); try (by apply Hsame);
      (destruct (Bool.eqb stop (w_stopped (y_wait s))) eqn:E; [by apply Hsame|]); cbn; (split; [intros _|exact J2]);
      (destruct stop; [set_solver|]); apply J1; left; by destruct (w_stopped (y_wait s)).
  - unfold wait_fails. destruct (y_main s); try (by apply Hsame). destruct eintr; [by apply Hsame|]. cbn. split; [exact J1|set_solver].
Qed.

(** C27. The life of a slave, for every order in which the main thread, the service
    threads and the forked process take their steps, and for every signal that
    stops or continues the process and every failure of [waitpid].  The program does not run
    before all threads of the services have been created and have counted
    themselves, as many as were to start, and the handler of the quit signals is
    installed; the process has then seen the change of the shared number, so that
    [sync_wait] has returned.  When the main thread has finished, all threads have
    ended; its wait has ended because the program has ended, or else because
    somebody has stopped the program or because [waitpid] has failed with another
    error than EINTR, and then the program may still run.  When a thread cannot be
    created the program never runs.  When nothing fails at the start, the main
    thread has finished after so many rounds in which everybody takes a step: no
    wait of the start or of the end is for ever, whatever signals come. *)
Theorem slave_lifecycle l : let s := run l s0 in
  (y_child s ≠ CWait →
     (∀ k, k ∈ all → y_threads s k ≠ NotCreated ∧ y_threads s k ≠ Created) ∧ y_handler s = negb (services =? 0) ∧
     (y_main s ≠ MExit → y_tostart s = alen all ∧ y_started s = alen all) ∧
     ∀ p, pr_shared p = Some 0 → pr_others p = y_seen s → ∃ p', sync_wait (length (y_seen s)) p = Ret 0 p') ∧
  (y_main s = MDone → (∀ k, k ∈ all → y_threads s k = Ended) ∧
     ∃ e, w_end (y_wait s) = Some e ∧
       match e with
       | ByExit => y_child s = CDead
       | ByStop | ByContinue => ASignal true ∈ l
       | ByError => AWaitFails false ∈ l
       end) ∧
  (∀ k, k ∈ all → creates k = false → y_child s = CWait) ∧
  ((∀ k, k ∈ all → creates k = true) →
   (∀ k, k ∈ all → thread_setup services in_socket in_fds own_socket own_bind k ≠ Fatal) →
   ∀ rounds, l = concat rounds → Forall round rounds → 37 + Z.of_nat life <= alen rounds → y_main s = MDone).
Proof.
  intros s. assert (Hok : sys_ok s) by (apply actors_ok, sys0_ok). pose proof Hok as [H1 H2 H3 H4 H5 H6 H7]. split_and!.
  - intros Hc. assert (Ha : awake s).
    { assert (Hs : ¬ asleep s) by (intros (_ & A & _); by apply Hc). destruct (y_main s); try done; [by destruct H4|].
      by destruct H4. }
    pose proof Ha as (_ & A2 & A3 & _ & A5). split_and!; try done.
    + intros k Hk. specialize (A2 k Hk). by destruct (y_threads s k).
    + intros Hx. assert (Hall : ∀ k, y_threads s k ≠ NotCreated ↔ k ∈ all).
      { destruct (y_main s); try done. by destruct H4 as (_ & ? & _). }
      rewrite H1, H2, (count_all _ Hall). split; [done|]. rewrite <- (count_all _ Hall). apply sum_ext. intros k _.
      pose proof (Hall k) as Hk. destruct (decide (k ∈ all)) as [Hin|Hin].
      * specialize (A2 k Hin). destruct (y_threads s k); done.
      * destruct (y_threads s k) eqn:E; try done; exfalso; by apply Hin, Hk.
    + intros p Hp Ho. destruct (A5 Hc) as [n Hn]. rewrite Hn in *. rewrite length_app, length_replicate.
      cbn [length]. rewrite Nat.add_1_r. by apply seen_wakes.
  - intros Hd. rewrite Hd in H6, H7. split; [done|]. unfold waited in H7. destruct (wait_because l) as [_ Hw]. cbn zeta in Hw. fold s in Hw.
    destruct (w_end (y_wait s)) as [e|]; [|done]. exists e. split; [done|]. by destruct e.
  - intros k Hin Hk. by destruct (run_asleep k l Hin Hk) as (_ & ? & _).
  - intros Hcr Hsu rounds -> Hr Hlen. apply rounds_finish; try done; [by apply sys0_ok|].
    unfold sys_left. cbn [slavesys0 y_main y_threads y_child y_wait wait_left_bit w_change main_left child_left thread_left sum_over kinds foldr].
    assert (alen all <= 4); [|lia]. unfold slave_threads, alen. repeat case_match; cbn; lia.
Qed.
End Runs.

(** ** Evaluation *)

Section Examples.

(** All services; the program takes two steps. *)
Definition ex_run : list actor → slavesys :=
  fun l => run_actors 0x2f 40 (fun _ => true) true true true true 2 l (slavesys0 0x2f 40).
Definition ex_round : list actor :=
  [AChild; AThread ThSock false; AThread ThIn false; AThread ThErr true; AThread ThOut false; AMain].

Lemma ex_round_ok : round ex_round.
Proof.
  unfold round, ex_round. intros [| |[] leaves|stop|eintr] Hw; try done.
  - exists AMain. set_solver.
  - exists AChild. set_solver.
  - exists (AThread ThOut false). set_solver.
  - exists (AThread ThErr true). set_solver.
  - exists (AThread ThIn false). set_solver.
  - exists (AThread ThSock false). set_solver.
Qed.

Lemma ex_round_calm n a : a ∈ concat (replicate n ex_round) → works a.
Proof. induction n as [|n IH]; cbn; [set_solver|]. set_solver. Qed.

Lemma slave_lifecycle_witness : y_main (ex_run (concat (replicate 40 ex_round))) = MDone ∧
  y_child (ex_run (concat (replicate 40 ex_round))) = CDead.
Proof.
  assert (Hcalm : ∀ a, a ∈ concat (replicate 40 ex_round) → works a) by apply ex_round_calm.
  assert (Hset : ∀ k, k ∈ slave_threads 0x2f 40 → thread_setup 0x2f true true true true k ≠ Fatal) by (intros [] _; vm_compute; discriminate).
  assert (Hr : Forall round (replicate 40 ex_round)) by apply Forall_replicate, ex_round_ok.
  assert (Hlen : 37 + Z.of_nat 2 <= alen (replicate 40 ex_round)) by (vm_compute; discriminate).
  unfold ex_run. revert Hcalm Hr Hlen. generalize (replicate 40 ex_round) as rounds. intros rounds Hcalm Hr Hlen.
  destruct (slave_lifecycle 0x2f 40 (fun _ => true) true true true true 2 (concat rounds)) as (_ & Hd & _ & Hl).
  specialize (Hl (fun k _ => eq_refl) Hset rounds eq_refl Hr Hlen). split; [exact Hl|].
  destruct (Hd Hl) as (_ & [] & _ & He); [exact He|destruct (Hcalm _ He)..].
Defined.

(** The main thread and the process run when all threads have counted themselves,
    before [sock_thread] goes on: the program runs and the name of the socket of
    the slave, to which [axrun_sync] sends, does not exist yet. *)
Definition ex_early : list actor :=
  replicate 6 AMain ++ (flip AThread false <$> kinds) ++ replicate 3 AMain ++ replicate 4 AChild.

Example app_before_socket : y_child (ex_run ex_early) = CRun 1 ∧ y_threads (ex_run ex_early) ThSock = Counted.
Proof. vm_compute. done. Qed.

(** A program that is stopped is taken for ended: the threads are told to end and
    the main thread finishes, although the program still has a step to take when it
    is continued. *)
Example stop_ends_slave :
  let s := ex_run (ex_early ++ [ASignal true] ++ concat (replicate 12 ex_round) ++ [ASignal false]) in
  y_main s = MDone ∧ w_end (y_wait s) = Some ByStop ∧ y_child s = CRun 1 ∧ w_stopped (y_wait s) = false.
Proof. vm_compute. done. Qed.

(** A continuation ends the wait too, even if the stop came before the wait. *)
Example continue_ends_slave :
  let s := ex_run ([ASignal true; ASignal false] ++ replicate 4 AMain ++ (flip AThread false <$> kinds) ++ replicate 20 AMain) in
  w_end (y_wait s) = Some ByContinue ∧ y_child s = CWait.
Proof. vm_compute. done. Qed.

(** When the name cannot be bound then, the slave exits, the program runs on and
    the master is not told. *)
Example exit_after_start :
  let s := run_actors 0x2f 40 (fun _ => true) true true true false 2 (ex_early ++ [AThread ThSock false] ++ ex_round ++ ex_round) (slavesys0 0x2f 40) in
  y_main s = MExit ∧ y_child s = CDead.
Proof. vm_compute. done. Qed.

(** When the last thread cannot be created, the process looks for ever. *)
Example never_woken :
  let s := run_actors 0x2f 40 (fun k => negb (bool_decide (k = ThSock))) true true true true 2 (concat (replicate 9 ex_round)) (slavesys0 0x2f 40) in
  y_main s = MExit ∧ y_child s = CWait ∧ y_seen s = replicate 9 0.
Proof. vm_compute. done. Qed.
End Examples.
