(* ===== verification/Parts.v ===== *)
(** * Code on a part of the state

    The components of axiom-run are proved on devices of their own: messages,
    descriptors, the processes.  Code that uses only a part of a larger state acts
    on this part as on its own device; this file has the parts of a state and the
    components for which it is proved. *)

From stdpp Require Import gmap.
From S2P Require Import Prelude Nic RunMsg Output Master Slave RunStart Daemonize.

(** ** Code on a part of the state *)

(** A part [E] of a state [S]. *)
Class Part (S E : Type) := {
  get_part : S → E;
  put_part : E → S → S;
  get_put e s : get_part (put_part e s) = e;
  put_put e e' s : put_part e' (put_part e s) = put_part e' s;
  put_get s : put_part (get_part s) s = s
}.

Definition on_part {S E A} `{Part S E} (c : M E A) : M S A := fun s =>
  match c (get_part s) with Ret a e => Ret a (put_part e s) | Stuck w e => Stuck w (put_part e s) end.

(** Code that runs on its part only. *)
Definition lifts {S E A} `{Part S E} (c' : M S A) (c : M E A) : Prop := ∀ s, c' s = on_part c s.

Section Lifts.
Context {S E : Type} `{P : Part S E}.

Lemma lifts_on {A} (c : M E A) : lifts (on_part c) c.
Proof. by intros s. Qed.

Lemma lifts_ret {A} (a : A) : lifts (mret a) (mret a).
Proof. intros s. unfold on_part. cbn. by rewrite put_get. Qed.

Lemma lifts_stop {A} w : lifts (stop w : M S A) (stop w).
Proof. intros s. unfold on_part, stop. by rewrite put_get. Qed.

Lemma lifts_bind {A B} (c' : M S A) (c : M E A) (f' : A → M S B) (f : A → M E B) :
  lifts c' c → (∀ a, lifts (f' a) (f a)) → lifts (c' ≫= f') (c ≫= f).
Proof.
  intros Hc Hf s. unfold mbind, M_bind, on_part in *. rewrite Hc. unfold on_part.
  destruct (c (get_part s)) as [a e|w e]; [|done]. rewrite Hf. unfold on_part. rewrite get_put.
  destruct (f a e); by rewrite put_put.
Qed.

Lemma lifts_loop {X R} fuel (body' : X → M S (X + R)) (body : X → M E (X + R)) x :
  (∀ x, lifts (body' x) (body x)) → lifts (loop fuel body' x) (loop fuel body x).
Proof.
  intros Hb. revert x. induction fuel as [|fuel IH]; intros x; cbn [loop]; [apply lifts_stop|].
  apply lifts_bind; [apply Hb|]. intros [y|r]; [apply IH|apply lifts_ret].
Qed.

Lemma lifts_rd1 l i : lifts (rd1 l i) (rd1 l i).
Proof. unfold rd1. destruct (_ && _); [apply lifts_ret|apply lifts_stop]. Qed.

Lemma lifts_wr1 l i v : lifts (wr1 l i v) (wr1 l i v).
Proof. unfold wr1. destruct (_ && _); [apply lifts_ret|apply lifts_stop]. Qed.

Lemma lifts_run {A} (c' : M S A) (c : M E A) s a e : lifts c' c → c (get_part s) = Ret a e → c' s = Ret a (put_part e s).
Proof. intros H Hc. rewrite H. unfold on_part. by rewrite Hc. Qed.

Lemma lifts_stuck {A} (c' : M S A) (c : M E A) s w e : lifts c' c → c (get_part s) = Stuck w e → c' s = Stuck w (put_part e s).
Proof. intros H Hc. rewrite H. unfold on_part. by rewrite Hc. Qed.
End Lifts.

Create HintDb lifts.
#[export] Hint Resolve lifts_on lifts_ret lifts_stop lifts_rd1 lifts_wr1 : lifts.

(** Goes through a definition; what is left are the calls of other definitions. *)
Ltac lift_step :=
  first [ assumption | solve [eauto with lifts nocore] | exact (lifts_on _)
        | apply lifts_bind; [|intros ?] | apply lifts_loop; intros ?
        | match goal with
          | |- lifts (match ?x with _ => _ end) _ => destruct x
          | |- lifts (let '(_, _) := ?x in _) _ => destruct x
          end ].
Ltac lift := repeat lift_step.

Section OnPart.
Context `{CN : NicConsts} {S E : Type} `{P : Part S E}.

Definition raw_on_part `{RawDev E} : RawDev S := {|
  axiom_send_raw node port payload := on_part (axiom_send_raw node port payload);
  axiom_recv_raw := on_part axiom_recv_raw;
  axiom_send_iov_raw node port parts := on_part (axiom_send_iov_raw node port parts)
|}.

Definition slave_on_part `{SlaveDev E} : SlaveDev S := {|
  s_getpid := on_part s_getpid;
  s_select_raw := on_part s_select_raw;
  s_write bytes := on_part (s_write bytes);
  s_kill pid sig := on_part (s_kill pid sig);
  s_sendto a bytes := on_part (s_sendto a bytes);
  s_recv := on_part s_recv;
  s_unlink a := on_part (s_unlink a);
  s_waitpid := on_part s_waitpid;
  s_select_late out err := on_part (s_select_late out err)
|}.

Definition proc_on_part `{ProcDev E} : ProcDev S := {|
  d_pipe := on_part d_pipe;
  d_close fd := on_part (d_close fd);
  d_getcwd := on_part d_getcwd;
  d_chdir dir := on_part (d_chdir dir);
  d_mmap := on_part d_mmap;
  d_store v := on_part (d_store v);
  d_poll n := on_part (d_poll n);
  d_munmap := on_part d_munmap;
  d_fork := on_part d_fork;
  d_setsid := on_part d_setsid;
  d_open_null w := on_part (d_open_null w);
  d_dup2 fd fd2 := on_part (d_dup2 fd fd2);
  d_getdtablesize := on_part d_getdtablesize;
  d_execvpe exec args env := on_part (d_execvpe exec args env)
|}.

(** The start message. *)
Lemma wait_on_barrier_lifts `{RawDev E} fuel magic buffer :
  lifts (@wait_on_barrier _ S raw_on_part fuel magic buffer) (wait_on_barrier fuel magic buffer).
Proof. unfold wait_on_barrier, barrier_turn. lift. Qed.

(** A slave. *)
Lemma manage_slave_services_lifts `{RawDev E} `{SlaveDev E} fuel info sig st b lb :
  lifts (manage_slave_services (D := S) (RD := raw_on_part) (SD := slave_on_part) fuel info sig st b lb)
    (manage_slave_services fuel info sig st b lb).
Proof. unfold manage_slave_services, wait_turn, late_turn, late_out. lift. Qed.

(** The processes. *)
Lemma close_fd_lifts `{ProcDev E} fd : lifts (@close_fd S proc_on_part fd) (close_fd fd).
Proof. unfold close_fd. lift. Qed.
#[local] Hint Resolve close_fd_lifts : lifts.
Lemma CLEAN_lifts `{ProcDev E} a b c p : lifts (@CLEAN S proc_on_part a b c p) (CLEAN a b c p).
Proof. unfold CLEAN. lift. Qed.
#[local] Hint Resolve CLEAN_lifts : lifts.
Lemma close_others_lifts `{ProcDev E} n : lifts (@close_others S proc_on_part n) (close_others n).
Proof. induction n as [|n IH]; cbn [close_others]; lift. Qed.
#[local] Hint Resolve close_others_lifts : lifts.
Lemma daemonize_lifts `{ProcDev E} fuel cwd exec args env pipefd newsession sync :
  lifts (@daemonize S proc_on_part fuel cwd exec args env pipefd newsession sync)
    (daemonize fuel cwd exec args env pipefd newsession sync).
Proof. unfold daemonize, make_pipes, new_process, sync_open, sync_wait, sync_turn, sync_close. lift. Qed.
Lemma sync_wakeup_lifts `{ProcDev E} : lifts (@sync_wakeup S proc_on_part) sync_wakeup.
Proof. unfold sync_wakeup. lift. Qed.
Lemma sync_close_lifts `{ProcDev E} : lifts (@sync_close S proc_on_part) sync_close.
Proof. unfold sync_close. lift. Qed.

(** A master. *)
Definition alloc_on_part `{Allocator E} : Allocator S := {|
  axiom_al2_init id := on_part (axiom_al2_init id);
  axiom_al2_release := on_part axiom_al2_release;
  axiom_al2_alloc n s b := on_part (axiom_al2_alloc n s b);
  axiom_al2_get_regions n s b := on_part (axiom_al2_get_regions n s b);
  axiom_al2_alloc_shblock n s b := on_part (axiom_al2_alloc_shblock n s b);
  axiom_al2_alloc_reply n b := on_part (axiom_al2_alloc_reply n b)
|}.

Lemma send_nodes_lifts `{RawDev E} n nodes port node err payload :
  lifts (send_nodes (D := S) (RD := raw_on_part) n nodes port node err payload) (send_nodes n nodes port node err payload).
Proof. induction n as [|n IH] in nodes, node, err |- *; cbn [send_nodes]; lift. Qed.
#[local] Hint Resolve send_nodes_lifts : lifts.

Lemma rpc_answer_lifts `{RC : RunConsts} `{RawDev E} info reply src size inmsg :
  lifts (rpc_answer (D := S) (RD := raw_on_part) info reply src size inmsg) (rpc_answer info reply src size inmsg).
Proof. unfold rpc_answer. lift. Qed.
#[local] Hint Resolve rpc_answer_lifts : lifts.

Lemma rpc_service_lifts `{RC : RunConsts} `{RawDev E} `{Allocator E} info src size inmsg pending :
  lifts (rpc_service (D := S) (RD := raw_on_part) (AL := alloc_on_part) info src size inmsg pending)
    (rpc_service info src size inmsg pending).
Proof. unfold rpc_service, rpc_send_reply. lift. Qed.
#[local] Hint Resolve rpc_service_lifts : lifts.

Lemma master_turn_lifts `{RC : RunConsts} `{IO : Stdio} `{RawDev E} `{Allocator E} info r :
  lifts (master_turn (D := S) (RD := raw_on_part) (AL := alloc_on_part) info r) (master_turn info r).
Proof. unfold master_turn, on_stdout, on_stderr, emit_raw, on_exit, on_barrier, on_rpc, s_my_axiom_send_raw, my_axiom_send_raw. lift. Qed.
#[local] Hint Resolve master_turn_lifts : lifts.

Lemma manage_master_services_lifts `{RC : RunConsts} `{IO : Stdio} `{RawDev E} `{Allocator E} fuel services nodes flags app_id sport mport b reply :
  lifts (manage_master_services (D := S) (RD := raw_on_part) (AL := alloc_on_part) fuel services nodes flags app_id sport mport b reply)
    (manage_master_services fuel services nodes flags app_id sport mport b reply).
Proof. unfold manage_master_services, master_receiver, rpc_init. lift. Qed.

(** The start of a session, for launchers and messages that agree on the part. *)
Lemma start_exec_lifts (LS : Launcher S) (LE : Launcher E) n mport nodes gdb gport node err filename argv envp :
  (∀ port n f a e, lifts (launch (D := S) port n f a e) (launch (D := E) port n f a e)) →
  lifts (start_exec (LA := LS) n mport nodes gdb gport node err filename argv envp)
    (start_exec (LA := LE) n mport nodes gdb gport node err filename argv envp).
Proof. intros Hl. induction n as [|n IH] in nodes, gdb, node, err |- *; cbn [start_exec]; lift; apply Hl. Qed.

Lemma start_notify_lifts (RS : RawDev S) (RE : RawDev E) n junk port nodes node magic :
  (∀ n port b, lifts (axiom_send_raw (D := S) n port b) (axiom_send_raw (D := E) n port b)) →
  lifts (start_notify (RD := RS) n junk port nodes node magic) (start_notify (RD := RE) n junk port nodes node magic).
Proof. intros Hs. induction n as [|n IH] in nodes, node |- *; cbn [start_notify]; unfold notify_barrier; lift; apply Hs. Qed.

Lemma start_lifts (LS : Launcher S) (LE : Launcher E) (RS : RawDev S) (RE : RawDev E) junk mport sport nodes filename argv envp gdb gport magic :
  (∀ port n f a e, lifts (launch (D := S) port n f a e) (launch (D := E) port n f a e)) →
  (∀ n port b, lifts (axiom_send_raw (D := S) n port b) (axiom_send_raw (D := E) n port b)) →
  lifts (start (LA := LS) (RD := RS) junk mport sport nodes filename argv envp gdb gport magic)
    (start (LA := LE) (RD := RE) junk mport sport nodes filename argv envp gdb gport magic).
Proof.
  intros Hl Hs. unfold start. apply lifts_bind; [by apply start_exec_lifts|]. intros e.
  apply lifts_bind; [by apply start_notify_lifts|]. intros _. apply lifts_ret.
Qed.
End OnPart.
