(* ===== verification/RunTop.v ===== *)
(** * The program axiom-run (axiom-run/axiom-run.c, main)

    [main] from its command line to its exit code, composed of the parts in files
    [RunMain] (options), [RunNodes] (nodes), [RunLib] (environment, program of a
    slave), [RunStart] (start of a session), [Daemonize] (the process of the
    application), [SlaveStart] and [Slave] (a slave) and [Master] (the master). *)

From stdpp Require Import gmap.
From S2P Require Import Prelude Text Sched CStrings Nic RunMsg Output Master Slave.
From S2P Require Import RunNodes Session Spawn Execvpe RunStart RunMain RunLib Daemonize Parts.

(** What [main] itself calls: the device, the number for the application from the
    level-2 allocator, the clock. *)
Class RunDev (D : Type) := {
  r_open : M D bool;
  r_close : M D unit;
  r_node_id : M D Z;
  r_num_nodes : M D Z;
  r_set_flags : Z → M D Z;
  r_bind : Z → M D Z;
  r_alloc_appid : Z → M D (Z * Z);      (** the port; the result and the number *)
  r_time : M D Z
}.

(** The end of a call of [main]: the exit code (of the caller, when there are two
    processes), or what becomes of the new process; a failed assertion. *)
Inductive mresult := ExitCode (code : Z) | ChildRuns | ChildExits | Aborts.

(** *** The command line in the log *)

(** [logmsg] of the words: a buffer of [sz] bytes gets the words before the
    application, then those of the application, a space after each.  [strncat]
    bounds what it appends by [sz]; [None]: a byte beyond the buffer is written. *)
Definition log_size (argv : list (list Z)) : Z :=
  Z.of_nat (sum_list_with length argv) + Z.of_nat (length argv) + 3.

Fixpoint log_words (sz : Z) (words : list (list Z)) (s : list Z) : option (list Z) :=
  match words with
  | [] => Some s
  | w :: words =>
      let s := s ++ take (Z.to_nat sz) w in
      if sz <=? alen s then None else
      let s := s ++ take (Z.to_nat sz) (str " ") in
      if sz <=? alen s then None else log_words sz words s
  end.

Definition log_command_line (argv : list (list Z)) (optind : nat) : option (list Z * list Z) :=
  let sz := log_size argv in
  line ← log_words sz (take optind argv) [];
  app ← log_words sz (drop optind argv) [];
  Some (line, app).

Section Code.
Context `{CN : NicConsts} `{RC : RunConsts} `{IO : Stdio}.
Context {D : Type} `{TD : RunDev D} `{RD : RawDev D} `{LA : Launcher D} `{PD : ProcDev D} `{SD : SlaveDev D} `{AL : Allocator D}.
(** [regcomp] and [regexec]: whether an expression is one, and a match of it. *)
Context (regcomp : list Z → bool) (regexec : list Z → list Z → option (Z * Z)).
(** Constants of the headers of the NIC and of the allocator. *)
Context (AXIOM_FLAG_NOFLUSH AXIOM_NULL_APP_ID : Z) (AXIOM_ENV_ALLOC_APPID AXIOM_ENV_ALLOC_APPMASTER : list Z).
(** The bound on the loops that wait, the environment, the name of the program and
    the uninitialised variables. *)
Context (fuel : nat) (environ : list (list Z)) (argv0 junk : list Z) (smfd status0 : Z) (reply0 : rpc_reply_t) (my_sigterm : bool).

(** [exit] and the return from [main]: a master that has opened the device has
    registered [axiom_memory_cleanup]. *)
Definition finish (opened slave : bool) (code : Z) : M D mresult :=
  (if opened && negb slave then axiom_al2_release ;; r_close else mret tt) ;;
  mret (ExitCode code).

(** The rest of a slave after the environment; without a device the wait has no
    device to read from. *)
Definition slave_mode (opened : bool) (o : run_opts) (mnode mport : Z) (env app : list (list Z)) : M D mresult :=
  my ← (if (o_gdb o).1 =? 0 then mret 0 else r_node_id);
  let '(exec, argv) := slave_exec (o_gdb o).1 (o_gdb o).2 my app in
  if negb opened then stop OutOfBounds else
  wait_on_barrier fuel (o_magic o) junk ;;
  '(r, _) ← daemonize fuel None (Some exec) (Some argv) (Some env) (has (o_services o) REDIRECT_SERVICE) false (Some smfd);
  match r with
  | Executed => mret ChildRuns
  | Exited => mret ChildExits
  | Returned pid =>
      if o_services o =? 0 then finish opened true (exit_code 0) else
      (if 0 <? pid then _ ← sync_wakeup; _ ← sync_close; mret tt else mret tt) ;;
      status ← manage_slave_services fuel (mk_sinfo (o_services o) pid (o_termmode o) mnode mport) my_sigterm status0 junk junk;
      finish opened true (exit_code status)
  end.

(** The rest of a master. *)
Definition master_mode (o : run_opts) (nodes sport mport mnode app_id : Z) (env app : list (list Z)) : M D mresult :=
  magic ← (if negb (o_services o =? 0) && (o_magic o =? 0) then r_time else mret (o_magic o));
  let '(filename, args, gdb) :=
    if o_services o =? 0 then (hd [] app, app, (o_gdb o).1)
    else (argv0, slave_args argv0 o nodes sport mnode mport magic app, 0) in
  err ← start junk mport sport nodes filename args env gdb (o_gdb o).2 magic;
  if negb (AXIOM_RET_IS_OK err) then finish true false EXIT_FAILURE else
  exitval ← (if o_services o =? 0 then mret (Some 0)
             else manage_master_services fuel (o_services o) nodes (o_flags o) app_id sport mport junk reply0);
  match exitval with
  | None => finish true false EXIT_FAILURE
  | Some exitval => finish true false (exit_code exitval)
  end.

(** The nodes of the session and the environment. *)
Definition run_session (opened : bool) (o : run_opts) (sport mport mnode : Z) (app : list (list Z)) : M D mresult :=
  mnode ← (if mnode =? -1 then if o_slave o then mret MY_DEFAULT_MASTER_NODE else r_node_id else mret mnode);
  nodes ← (if o_slave o then mret (o_nodes o) else n ← r_num_nodes; mret (used_nodes (o_nodes o) n));
  if negb (o_slave o) && (nodes =? 0) then mret Aborts else
  pid ← s_getpid;
  '(err, app_id) ← (if negb (o_slave o) && has (o_services o) ALLOCATOR_SERVICE then r_alloc_appid mport
                    else mret (AXIOM_RET_OK, AXIOM_NULL_APP_ID));
  let got := if negb (o_slave o) && has (o_services o) ALLOCATOR_SERVICE
             then if AXIOM_RET_IS_OK err then Some app_id else None else Some app_id in
  match session_env (regexec (o_envstr o)) AXIOM_ENV_ALLOC_APPID AXIOM_ENV_ALLOC_APPMASTER environ
          (o_slave o) nodes (o_services o) pid got with
  | None => finish opened (o_slave o) EXIT_FAILURE
  | Some env =>
      if o_slave o then slave_mode opened o mnode mport env app
      else master_mode o nodes sport mport mnode app_id env app
  end.

(** [main]: the options, the device and its port. *)
Definition main (args : list (list Z)) : M D mresult :=
  match parse_args args with
  | inl code => mret (ExitCode code)
  | inr (o, app) =>
      if negb (regcomp (o_envstr o)) then mret (ExitCode EXIT_FAILURE) else
      let '(sport, mport) := final_ports o in
      if negb (o_services o =? 0) || negb (o_slave o) || (0 <? (o_gdb o).1) then
        ok ← r_open;
        if negb ok then mret (ExitCode EXIT_FAILURE) else
        mnode ← (if o_slave o then mret (o_master_node o) else
                 node ← r_node_id; mret (if o_master_node o =? -1 then node else o_master_node o));
        (if o_slave o then _ ← r_set_flags AXIOM_FLAG_NOFLUSH; mret tt else mret tt) ;;
        err ← r_bind (if o_slave o then sport else mport);
        if negb (AXIOM_RET_IS_OK err) then finish true (o_slave o) EXIT_FAILURE
        else run_session true o sport mport mnode app
      else run_session false o sport mport (o_master_node o) app
  end.
End Code.

(** ** A node *)

(** What [main] has done with the device. *)
Inductive setting := SOpen | SClose | SFlags (f : Z) | SBind (port : Z).

(** The process with its messages and its child, the descriptors and [fork], the
    messages to the daemons; the number of the node, the number of nodes, the
    results of [axiom_open], [axiom_bind] and [axiom_al2_alloc_appid], the clock. *)
Record node := mk_node {
  t_slave : slavesim; t_proc : proc; t_exec : execdev;
  t_id : Z; t_num : Z; t_opens : bool; t_binds : Z; t_appid : Z * Z; t_time : Z;
  t_log : list setting
}.

Definition with_slave (s : slavesim) (w : node) : node :=
  mk_node s (t_proc w) (t_exec w) (t_id w) (t_num w) (t_opens w) (t_binds w) (t_appid w) (t_time w) (t_log w).
Definition with_proc (p : proc) (w : node) : node :=
  mk_node (t_slave w) p (t_exec w) (t_id w) (t_num w) (t_opens w) (t_binds w) (t_appid w) (t_time w) (t_log w).
Definition with_exec (x : execdev) (w : node) : node :=
  mk_node (t_slave w) (t_proc w) x (t_id w) (t_num w) (t_opens w) (t_binds w) (t_appid w) (t_time w) (t_log w).
Definition logs (l : list setting) (w : node) : node :=
  mk_node (t_slave w) (t_proc w) (t_exec w) (t_id w) (t_num w) (t_opens w) (t_binds w) (t_appid w) (t_time w) (t_log w ++ l).

Lemma logs_logs a b w : logs b (logs a w) = logs (a ++ b) w.
Proof. unfold logs. cbn. by rewrite <- app_assoc. Qed.

#[export] Instance node_slave : Part node slavesim.
Proof. refine {| get_part := t_slave; put_part := with_slave |}; try done. by intros []. Defined.
#[export] Instance node_proc : Part node proc.
Proof. refine {| get_part := t_proc; put_part := with_proc |}; try done. by intros []. Defined.
#[export] Instance node_exec : Part node execdev.
Proof. refine {| get_part := t_exec; put_part := with_exec |}; try done. by intros []. Defined.
#[export] Instance slave_raw : Part slavesim rawsim.
Proof. refine {| get_part := ss_raw; put_part := with_raw |}; try done. by intros []. Defined.

Section Node.
Context `{CN : NicConsts} {CNOK : NicConstsOk} `{RC : RunConsts} `{IO : Stdio}.
Context `{CS : SessionConsts} `{CP : SpawnConsts} `{LY : SpawnLayout} `{AL : Allocator slavesim}.

#[export] Instance node_run : RunDev node := {|
  r_open w := Ret (t_opens w) (logs [SOpen] w);
  r_close w := Ret tt (logs [SClose] w);
  r_node_id w := Ret (t_id w) w;
  r_num_nodes w := Ret (t_num w) w;
  r_set_flags f w := Ret AXIOM_RET_OK (logs [SFlags f] w);
  r_bind port w := Ret (t_binds w) (logs [SBind port] w);
  r_alloc_appid _ w := Ret (t_appid w) w;
  r_time w := Ret (t_time w) w
|}.
#[export] Instance node_rawdev : RawDev node := raw_on_part (E := slavesim).
#[export] Instance node_slavedev : SlaveDev node := slave_on_part (E := slavesim).
#[export] Instance node_procdev : ProcDev node := proc_on_part (E := proc).
#[export] Instance node_launcher : Launcher node := {|
  launch port n filename argv envp := on_part (E := execdev) (launch port n filename argv envp)
|}.
#[export] Instance node_alloc : Allocator node := alloc_on_part (E := slavesim).

(** ** A slave, from the command line of its master to its exit code *)

Context (regcomp : list Z → bool) (regexec : list Z → list Z → option (Z * Z)).
Context (AXIOM_FLAG_NOFLUSH AXIOM_NULL_APP_ID : Z) (AXIOM_ENV_ALLOC_APPID AXIOM_ENV_ALLOC_APPMASTER : list Z).
Context (fuel : nat) (environ : list (list Z)) (argv0 junk : list Z) (smfd status0 : Z) (reply0 : rpc_reply_t) (my_sigterm : bool).

Abbreviation run_main := (main (D := node) regcomp regexec AXIOM_FLAG_NOFLUSH AXIOM_NULL_APP_ID
  AXIOM_ENV_ALLOC_APPID AXIOM_ENV_ALLOC_APPMASTER fuel environ argv0 junk smfd status0 reply0 my_sigterm).
Abbreviation run_slave := (slave_mode (D := node) fuel junk smfd status0 my_sigterm).

(** Up to the modes: the slave opens the device, keeps what has arrived, binds its
    own port and takes the nodes and the master of its options. *)
Lemma slave_options a0 o nodes sport mnode mport magic app w :
  run_ok o nodes sport mnode mport magic → app_word app = true → mnode ≠ -1 →
  Z.land (o_services o) (Z.lnot ALLOCATOR_SERVICE) ≠ 0 →
  regcomp (str ".*") = true → t_opens w = true → AXIOM_RET_IS_OK (t_binds w) = true →
  ∃ o' env, o_slave o' = true ∧ o_services o' = Z.land (o_services o) (Z.lnot ALLOCATOR_SERVICE) ∧ o_magic o' = magic ∧
    o_termmode o' = o_termmode o ∧ o_gdb o' = (if (o_gdb o).1 =? 0 then (0, 0) else o_gdb o) ∧
    session_env (regexec (str ".*")) AXIOM_ENV_ALLOC_APPID AXIOM_ENV_ALLOC_APPMASTER environ true nodes (o_services o')
      (ss_pid (t_slave w)) None = Some env ∧
    run_main (tail (slave_args a0 o nodes sport mnode mport magic app)) w =
    run_slave true o' mnode mport env app (logs [SOpen; SFlags AXIOM_FLAG_NOFLUSH; SBind sport] w).
Proof.
  intros Hok Happ Hmn Hserv Hreg Hopen Hbind.
  destruct (slave_args_parse a0 o nodes sport mnode mport magic app Hok Happ) as (s & Hp & Hs & Hports).
  set (o' := slave_values o nodes sport mnode mport magic s) in *.
  destruct (session_env (regexec (str ".*")) AXIOM_ENV_ALLOC_APPID AXIOM_ENV_ALLOC_APPMASTER environ true nodes (o_services o')
    (ss_pid (t_slave w)) None) as [env|] eqn:Eenv.
  2:{ exfalso. revert Eenv. unfold session_env. cbn [negb andb]. done. }
  exists o', env. split_and!; try done. unfold main. rewrite Hp. change (o_envstr o') with (str ".*"). rewrite Hreg. cbn [negb].
  rewrite Hports. change (o_slave o') with true. cbn iota. cbn [negb]. rewrite orb_false_r.
  change (o_services o') with (Z.land (o_services o) (Z.lnot ALLOCATOR_SERVICE)).
  rewrite (proj2 (Z.eqb_neq _ _) Hserv). cbn [negb orb].
  rewrite (bind_ret r_open _ _ true (logs [SOpen] w)) by (cbn; by rewrite Hopen). cbn [negb].
  rewrite (bind_ret (mret _) _ _ mnode (logs [SOpen] w)) by done.
  rewrite (bind_ret _ _ _ tt (logs [SOpen; SFlags AXIOM_FLAG_NOFLUSH] w)) by exact (f_equal (Ret tt) (logs_logs _ _ w)).
  rewrite (bind_ret (r_bind sport) _ _ (t_binds w) (logs [SOpen; SFlags AXIOM_FLAG_NOFLUSH; SBind sport] w))
    by exact (f_equal (Ret _) (logs_logs _ _ w)).
  rewrite Hbind. cbn [negb]. unfold run_session. set (w1 := logs _ w).
  rewrite (bind_ret _ _ _ mnode w1) by (by rewrite (proj2 (Z.eqb_neq _ _) Hmn)).
  change (o_slave o') with true. cbn iota. cbn [negb andb].
  rewrite (bind_ret _ _ _ nodes w1) by done.
  rewrite (bind_ret s_getpid _ _ (ss_pid (t_slave w)) w1) by (by destruct w).
  rewrite (bind_ret _ _ _ (AXIOM_RET_OK, AXIOM_NULL_APP_ID) w1) by done.
  change (o_envstr o') with (str ".*").
  assert (E : session_env (regexec (str ".*")) AXIOM_ENV_ALLOC_APPID AXIOM_ENV_ALLOC_APPMASTER environ true nodes
    (o_services o') (ss_pid (t_slave w)) (Some AXIOM_NULL_APP_ID) = Some env) by exact Eenv.
  rewrite E. done.
Qed.
(** The program that a slave of these options runs on this node. *)
Definition program (o : run_opts) (id : Z) (app : list (list Z)) : list Z * list (list Z) :=
  slave_exec (o_gdb o).1 (o_gdb o).2 id app.

Lemma program_args o id app : app ≠ [] → (program o id app).2 ≠ [].
Proof using. intros Ha. unfold program, slave_exec. destruct (_ && _); done. Qed.

Lemma slave_exec_off port my my' app : slave_exec 0 port my app = slave_exec 0 port my' app.
Proof using. done. Qed.

(** The start message, and what follows it. *)
Lemma slave_waits o mnode mport env app j pre ret n rest w :
  rs_in (ss_raw (t_slave w)) = pre ++ (ret, n, start_message j (o_magic o)) :: rest →
  Forall (other_message (o_magic o)) pre → AXIOM_RET_IS_OK ret = true → (sizeof_header <= length j)%nat → (length pre < fuel)%nat →
  let w1 := with_slave (with_raw (mk_rawsim rest (rs_send (ss_raw (t_slave w))) (rs_log (ss_raw (t_slave w)))) (t_slave w)) w in
  ∀ r ends p, daemonize fuel None (Some (program o (t_id w) app).1) (Some (program o (t_id w) app).2) (Some env)
      (has (o_services o) REDIRECT_SERVICE) false (Some smfd) (t_proc w) = Ret (r, ends) p →
  run_slave true o mnode mport env app w =
  (match r with
   | Executed => mret ChildRuns
   | Exited => mret ChildExits
   | Returned pid =>
       if o_services o =? 0 then finish true true (exit_code 0) else
       (if 0 <? pid then _ ← sync_wakeup; _ ← sync_close; mret tt else mret tt) ;;
       status ← manage_slave_services fuel (mk_sinfo (o_services o) pid (o_termmode o) mnode mport) my_sigterm status0 junk junk;
       finish true true (exit_code status)
   end : M node mresult) (with_proc p w1).
Proof using.
  intros Hin Hpre Hret Hj Hf w1 r ends p Hd. unfold slave_mode. cbn [negb].
  assert (Hexec : ∃ my, (if (o_gdb o).1 =? 0 then mret 0 else r_node_id) w = Ret my w ∧
    slave_exec (o_gdb o).1 (o_gdb o).2 my app = program o (t_id w) app).
  { unfold program. destruct (Z.eqb_spec (o_gdb o).1 0) as [->|]; by eexists. }
  destruct Hexec as (my & Hmy & Hx). rewrite (bind_ret _ _ _ _ _ Hmy), Hx.
  destruct (program o (t_id w) app) as [exec argv] eqn:Ep. cbn [fst snd] in Hd.
  assert (Hw : wait_on_barrier fuel (o_magic o) junk w = Ret tt w1).
  { assert (H := wait_on_barrier_lifts (S := node) (E := slavesim) fuel (o_magic o) junk).
    assert (H2 := wait_on_barrier_lifts (S := slavesim) (E := rawsim) fuel (o_magic o) junk).
    pose proof (barrier_starts j (o_magic o) pre ret n rest fuel junk _ Hpre Hret Hj Hf Hin) as Hb.
    exact (lifts_run _ _ w _ _ H (lifts_run _ _ _ _ _ H2 Hb)). }
  rewrite (bind_ret _ _ _ _ _ Hw).
  assert (Hdl := daemonize_lifts (S := node) (E := proc) fuel None (Some exec) (Some argv) (Some env)
    (has (o_services o) REDIRECT_SERVICE) false (Some smfd)).
  rewrite (bind_ret _ _ w1 _ _ (lifts_run _ _ w1 _ _ Hdl Hd)). by destruct r.
Qed.

(** The caller of [daemonize]: it wakes the new process, reports and returns. *)
Lemma slave_serves o mnode mport child w k status wrest l lrest :
  0 < child → has (o_services o) REDIRECT_SERVICE = true → (sizeof_header <= length junk)%nat →
  pr_shared (t_proc w) = Some 0 →
  ss_wait (t_slave w) = replicate k (WaitFail true) ++ WaitChild status :: wrest →
  ss_late (t_slave w) = l ++ lrest → late_ends false false l = true → (k < fuel)%nat → (length l <= fuel)%nat →
  let info := mk_sinfo (o_services o) child (o_termmode o) mnode mport in
  let result := child_status my_sigterm (o_termmode o) status in
  ∃ w', (_ ← (if 0 <? child then _ ← sync_wakeup; _ ← sync_close; mret tt else mret tt);
      status ← manage_slave_services fuel info my_sigterm status0 junk junk;
      finish true true (exit_code status)) w = Ret (ExitCode (exit_code result)) w' ∧
    t_log w' = t_log w ∧ pr_shared (t_proc w') = None ∧ pr_fds (t_proc w') = pr_fds (t_proc w) ∧
    rs_log (ss_raw (t_slave w')) = rs_log (ss_raw (t_slave w)) ++ late_sends info junk (late_pieces l) ++
      [(mnode, mport, exit_message result junk)].
Proof using.
  intros Hch Hred Hj Hsh Hwait Hlate Hends Hk Hl info result. rewrite (proj2 (Z.ltb_lt _ _) Hch).
  set (p1 := with_shared (Some (0 + hd 0 (pr_others (t_proc w)) + 1)) (tail (pr_others (t_proc w))) (t_proc w)).
  set (w1 := with_proc (with_shared None (pr_others p1) p1) w).
  rewrite (bind_ret _ _ _ tt w1).
  2:{ rewrite (bind_ret _ _ _ 0 (with_proc p1 w)).
      - by rewrite (bind_ret _ _ _ 0 w1).
      - assert (Hsw := sync_wakeup_lifts (S := node) (E := proc)).
        assert (E : sync_wakeup (t_proc w) = Ret 0 p1) by (unfold sync_wakeup, mbind, M_bind; cbn; by rewrite Hsh).
        exact (lifts_run _ _ w _ _ Hsw E). }
  assert (Hm := manage_slave_services_lifts (S := node) (E := slavesim) fuel info my_sigterm status0 junk junk).
  pose proof (slave_reports info my_sigterm status0 junk junk k status wrest l lrest (t_slave w1) fuel Hch Hred Hj Hwait Hlate
    Hends Hk Hl) as Hrep. cbn zeta in Hrep.
  rewrite (bind_ret _ _ _ _ _ (lifts_run _ _ w1 _ _ Hm Hrep)). eexists. split; [reflexivity|]. done.
Qed.
Lemma session_nodes nodes services pid env : 0 <= nodes < 2 ^ 64 →
  session_env (regexec (str ".*")) AXIOM_ENV_ALLOC_APPID AXIOM_ENV_ALLOC_APPMASTER environ true nodes services pid None = Some env →
  existsb (preset (regexec (str ".*"))) environ = false →
  axrun_get_nodes env = nodes ∧ axrun_get_num_nodes env = alen (members nodes).
Proof using.
  intros Hn He Hpre. destruct (app_sees_nodes_env (regexec (str ".*")) environ nodes Hn Hpre) as [H1 H2].
  destruct (prepare_env_strings (regexec (str ".*")) environ true nodes Hn) as [_ Hm].
  assert (Henv : ∃ more, env = prepare_env (regexec (str ".*")) environ true nodes ++ more).
  { unfold session_env in He. cbn [negb andb] in He. injection He as <-.
    destruct (has services _); [by eexists|exists []; by rewrite app_nil_r]. }
  destruct Henv as [more ->]. unfold axrun_get_nodes, axrun_get_num_nodes.
  rewrite (getenv_snoc _ _ _ _ H1), (getenv_snoc _ _ _ _ H2). split; [by apply strtoull_hex|].
  rewrite strtoull_small by done. apply s32_small. lia.
Qed.

(** The node whose process is the caller, or the new process, of [fork]. *)
Definition forked (pid : Z) (w : node) : node := with_proc (with_fork pid (t_proc w)) w.

(** What [main] needs to get to its end: descriptors, the start message, the end of
    the process with its late output. *)
Record slave_world (j : list Z) (magic : Z) (pre : list (Z * Z * list Z)) (w : node) : Prop := {
  sw_opens : t_opens w = true;
  sw_binds : AXIOM_RET_IS_OK (t_binds w) = true;
  sw_fds : fds_ok (t_proc w);
  sw_nofail : pr_fails (t_proc w) = [];
  sw_room : Z.of_nat (size (pr_fds (t_proc w))) + 6 <= pr_limit (t_proc w);
  sw_junk : (sizeof_header <= length junk)%nat ∧ (sizeof_header <= length j)%nat;
  sw_other : Forall (other_message magic) pre;
  sw_fuel : (length pre < fuel)%nat
}.

Section SlaveRun.
Variables (a0 : list Z) (o : run_opts) (nodes sport mnode mport magic : Z) (app : list (list Z)) (j : list Z) (pre : list (Z * Z * list Z)).
Abbreviation args := (tail (slave_args a0 o nodes sport mnode mport magic app)).
Abbreviation services := (Z.land (o_services o) (Z.lnot ALLOCATOR_SERVICE)).
Hypotheses (Hok : run_ok o nodes sport mnode mport magic) (Happ : app_word app = true) (Hmn : mnode ≠ -1)
  (Hred : has (o_services o) REDIRECT_SERVICE = true) (Hreg : regcomp (str ".*") = true).

Lemma slave_redirects : has services REDIRECT_SERVICE = true ∧ services ≠ 0.
Proof using Hred.
  assert (H : has services REDIRECT_SERVICE = true).
  { change ALLOCATOR_SERVICE with (2 ^ 4). change REDIRECT_SERVICE with (2 ^ 2) in *. rewrite has_clear by lia. by rewrite Hred. }
  split; [done|]. intros E. by rewrite E in H.
Qed.

(** [main] up to the wait. *)
Lemma slave_started w : slave_world j magic pre w →
  ∃ o' env, o_services o' = services ∧ o_magic o' = magic ∧ o_termmode o' = o_termmode o ∧
  program o' (t_id w) app = program o (t_id w) app ∧
  session_env (regexec (str ".*")) AXIOM_ENV_ALLOC_APPID AXIOM_ENV_ALLOC_APPMASTER environ true nodes services
    (ss_pid (t_slave w)) None = Some env ∧
  run_main args w = run_slave true o' mnode mport env app (logs [SOpen; SFlags AXIOM_FLAG_NOFLUSH; SBind sport] w).
Proof using Hok Happ Hmn Hred Hreg.
  intros Hw. destruct slave_redirects as [_ Hserv].
  destruct (slave_options a0 o nodes sport mnode mport magic app w Hok Happ Hmn Hserv Hreg (sw_opens _ _ _ _ Hw) (sw_binds _ _ _ _ Hw))
    as (o' & env & _ & E1 & E2 & E3 & E4 & E5 & E6).
  exists o', env. rewrite E1 in E5. split_and!; try done. unfold program. rewrite E4. by destruct (Z.eqb_spec (o_gdb o).1 0) as [->|].
Qed.

(** Nothing has started. *)
Lemma slave_blocked w (ret n : Z) : slave_world j magic pre w → AXIOM_RET_IS_OK ret = true → rs_in (ss_raw (t_slave w)) = pre →
  ∃ w', run_main args w = Stuck Blocked w' ∧ t_log w' = t_log w ++ [SOpen; SFlags AXIOM_FLAG_NOFLUSH; SBind sport] ∧
    t_proc w' = t_proc w ∧ rs_log (ss_raw (t_slave w')) = rs_log (ss_raw (t_slave w)).
Proof using Hok Happ Hmn Hred Hreg.
  intros Hw Hret Hin. destruct (slave_started w Hw) as (o' & env & E1 & E2 & E3 & E4 & E5 & ->).
  set (w1 := logs _ w). unfold slave_mode.
  assert (Hmy : ∃ my, (if (o_gdb o').1 =? 0 then mret 0 else r_node_id) w1 = Ret my w1) by (destruct (_ =? 0); by eexists).
  destruct Hmy as [my Hmy]. rewrite (bind_ret _ _ _ _ _ Hmy). destruct (slave_exec _ _ _ _) as [exec argv]. cbn [negb].
  assert (H := wait_on_barrier_lifts (S := node) (E := slavesim) fuel (o_magic o') junk).
  assert (H2 := wait_on_barrier_lifts (S := slavesim) (E := rawsim) fuel (o_magic o') junk).
  rewrite E2 in H, H2 |- *. destruct Hw as [_ _ _ _ _ [_ Hj] Hoth Hfu].
  pose proof (proj2 (wait_on_barrier_spec j magic pre ret n [] fuel junk (ss_raw (t_slave w)) Hoth Hret Hj Hfu) Hin) as Hb.
  rewrite (bind_stuck _ _ _ _ _ (lifts_stuck _ _ w1 _ _ H (lifts_stuck _ _ (t_slave w1) _ _ H2 Hb))).
  eexists. split; [reflexivity|]. done.
Qed.

(** The processes after [fork]: [pid] is what it returns. *)
Lemma slave_forks w pid ret n rest : slave_world j magic pre w → AXIOM_RET_IS_OK ret = true →
  rs_in (ss_raw (t_slave w)) = pre ++ (ret, n, start_message j magic) :: rest →
  ∃ o' env, o_services o' = services ∧ o_termmode o' = o_termmode o ∧
  session_env (regexec (str ".*")) AXIOM_ENV_ALLOC_APPID AXIOM_ENV_ALLOC_APPMASTER environ true nodes services
    (ss_pid (t_slave w)) None = Some env ∧
  ∀ r ends p, daemonize fuel None (Some (program o (t_id w) app).1) (Some (program o (t_id w) app).2) (Some env)
      true false (Some smfd) (with_fork pid (t_proc w)) = Ret (r, ends) p →
  run_main args (forked pid w) =
  (match r with
   | Executed => mret ChildRuns
   | Exited => mret ChildExits
   | Returned pid =>
       (if 0 <? pid then _ ← sync_wakeup; _ ← sync_close; mret tt else mret tt) ;;
       status ← manage_slave_services fuel (mk_sinfo services pid (o_termmode o) mnode mport) my_sigterm status0 junk junk;
       finish true true (exit_code status)
   end : M node mresult)
  (with_proc p (with_slave (with_raw (mk_rawsim rest (rs_send (ss_raw (t_slave w))) (rs_log (ss_raw (t_slave w)))) (t_slave w))
     (logs [SOpen; SFlags AXIOM_FLAG_NOFLUSH; SBind sport] w))).
Proof using Hok Happ Hmn Hred Hreg.
  intros Hw Hret Hin. assert (Hw1 : slave_world j magic pre (forked pid w)) by (by destruct Hw).
  destruct (slave_started (forked pid w) Hw1) as (o' & env & E1 & E2 & E3 & E4 & E5 & Hrun).
  exists o', env. split; [done|]. split; [done|]. split; [done|]. intros r ends p Hd. rewrite Hrun. destruct slave_redirects as [Hr Hs].
  destruct Hw as [_ _ _ _ _ [_ Hj] Hoth Hfu]. rewrite <- E2 in Hin, Hoth.
  set (w1 := logs _ (forked pid w)).
  assert (Hd1 : daemonize fuel None (Some (program o' (t_id w1) app).1) (Some (program o' (t_id w1) app).2) (Some env)
      (has (o_services o') REDIRECT_SERVICE) false (Some smfd) (t_proc w1) = Ret (r, ends) p) by (rewrite E1, Hr; cbn [w1 logs t_id]; by rewrite E4).
  rewrite (slave_waits o' mnode mport env app j pre ret n rest w1 Hin Hoth Hret Hj Hfu r ends p Hd1).
  rewrite E1, E3. destruct r; try done. by rewrite (proj2 (Z.eqb_neq _ _) Hs).
Qed.
End SlaveRun.

(** C37. A slave from end to end: [main] on the command line that its master has
    built, with the redirect service and otherwise any services, from options
    that can be read back ([run_ok]: values within their types, scheduling
    parameters of a known policy without a negative nice value).  It opens the device without discarding what has arrived and binds the
    port of the slaves.  As long as the start message of its session has not come,
    whatever else comes, it waits and has started nothing.  When it has come, the
    new process runs the program of the options with exactly three descriptors:
    the application with its arguments, or, where the debugger was asked for on
    this node, the debugger with its port and the application behind it; that is so
    without a debugger and on the nodes below 31, while on the higher ones the mask
    of the node overflows ([gdb_high_nodes]).  It has an environment in which the
    library of the application finds the nodes of the session; the caller wakes it,
    sends the late output and one exit message with the status of the process to
    the master, and exits with the code of that status. *)
Theorem slave_session a0 o nodes sport mnode mport magic app j pre ret n rest child k status wrest l lrest w :
  run_ok o nodes sport mnode mport magic → app_word app = true → mnode ≠ -1 →
  has (o_services o) REDIRECT_SERVICE = true → regcomp (str ".*") = true → slave_world j magic pre w →
  AXIOM_RET_IS_OK ret = true → 0 < child → woken fuel (Some smfd) (pr_others (t_proc w)) →
  ss_wait (t_slave w) = replicate k (WaitFail true) ++ WaitChild status :: wrest →
  ss_late (t_slave w) = l ++ lrest → late_ends false false l = true → (k < fuel)%nat → (length l <= fuel)%nat →
  let args := tail (slave_args a0 o nodes sport mnode mport magic app) in
  let services := Z.land (o_services o) (Z.lnot ALLOCATOR_SERVICE) in
  let info := mk_sinfo services child (o_termmode o) mnode mport in
  let result := child_status my_sigterm (o_termmode o) status in
  let settings := t_log w ++ [SOpen; SFlags AXIOM_FLAG_NOFLUSH; SBind sport] in
  (rs_in (ss_raw (t_slave w)) = pre → ∃ w', run_main args w = Stuck Blocked w' ∧ t_log w' = settings ∧
     t_proc w' = t_proc w ∧ rs_log (ss_raw (t_slave w')) = rs_log (ss_raw (t_slave w))) ∧
  (rs_in (ss_raw (t_slave w)) = pre ++ (ret, n, start_message j magic) :: rest →
   ∃ env caller new,
     run_main args (forked 0 w) = Ret ChildRuns new ∧
     pr_program (t_proc new) = Some (program o (t_id w) app, Some env) ∧
     pr_fds (t_proc new) = standard (PipeR (pr_pipes (t_proc w) + 1)) (PipeW (pr_pipes (t_proc w))) (PipeW (pr_pipes (t_proc w) + 2)) ∧
     ((o_gdb o).1 = 0 ∨ 0 <= t_id w < 31 → program o (t_id w) app =
        if Z.testbit (o_gdb o).1 (t_id w)
        then (str "gdbserver", [str "gdbserver"; snprintf 16 (str "0.0.0.0:" ++ fmt_d (o_gdb o).2); hd [] app] ++ tail app)
        else (hd [] app, app)) ∧
     (existsb (preset (regexec (str ".*"))) environ = false →
        axrun_get_nodes env = nodes ∧ axrun_get_num_nodes env = alen (members nodes)) ∧
     run_main args (forked child w) = Ret (ExitCode (exit_code result)) caller ∧
     t_log caller = settings ∧ pr_shared (t_proc caller) = None ∧
     rs_log (ss_raw (t_slave caller)) = rs_log (ss_raw (t_slave w)) ++ late_sends info junk (late_pieces l) ++
       [(mnode, mport, exit_message result junk)]).
Proof using.
  intros Hok Happ Hmn Hred Hreg Hw Hret Hch Hwok Hwait Hlate Hends Hk Hl args services info result settings.
  split; intros Hin; [by eapply slave_blocked|]. destruct (slave_redirects o Hred) as [Hr _].
  destruct (slave_forks a0 o nodes sport mnode mport magic app j pre Hok Happ Hmn Hred Hreg w 0 ret n rest Hw Hret Hin)
    as (o0 & env & E1 & E3 & He & Hnew).
  destruct (slave_forks a0 o nodes sport mnode mport magic app j pre Hok Happ Hmn Hred Hreg w child ret n rest Hw Hret Hin)
    as (o1 & env1 & _ & _ & He1 & Hcaller). rewrite He in He1. injection He1 as <-.
  set (x := program o (t_id w) app) in *. destruct Hw as [_ _ Hfds Hnf Hroom [Hj _] _ _].
  destruct (daemonize_both fuel None x.1 (Some x.2) (Some env) false (Some smfd) (t_proc w) child Hfds Hnf Hroom Hch Hwok)
    as (p0 & p1 & p2 & caller & new & Hcall & _ & _ & _ & _ & _ & _ & Hsh & _ & Hn & Hnfds & _ & _ & Hprog).
  unfold args. rewrite (Hcaller _ _ _ Hcall), (Hnew _ _ _ Hn). set (w1 := with_slave _ (logs _ w)).
  destruct (slave_serves o0 mnode mport child (with_proc caller w1) k status wrest l lrest) as (w' & Hrun & Hl1 & Hl2 & _ & Hl3); try done.
  { by rewrite E1. }
  rewrite E1, E3 in Hrun, Hl3. exists env, w'. eexists. split; [reflexivity|]. split_and!; try done.
  - cbn. rewrite Hprog. assert (Hx : x.2 ≠ []) by (apply program_args; by destruct app). by destruct x as [exec [|]].
  - intros Hid. by apply slave_exec_low.
  - intros Hpre. by apply (session_nodes nodes services (ss_pid (t_slave w)) env (ro_nodes _ _ _ _ _ _ Hok)).
Qed.
End Node.

(** ** The log of the command line *)

Lemma log_words_fits sz words s : alen s + Z.of_nat (sum_list_with (fun w => S (length w)) words) < sz →
  log_words sz words s = Some (s ++ concat ((fun w => w ++ str " ") <$> words)).
Proof.
  induction words as [|w words IH] in s |- *; cbn [log_words sum_list_with fmap list_fmap concat]; intros H; [by rewrite app_nil_r|].
  unfold alen in H. rewrite (take_ge w) by lia. rewrite (take_ge (str " ")) by (cbn; lia).
  destruct (Z.leb_spec sz (alen (s ++ w))) as [Hs|_]; [unfold alen in Hs; rewrite length_app in Hs; lia|].
  destruct (Z.leb_spec sz (alen ((s ++ w) ++ str " "))) as [Hs|_]; [unfold alen in Hs; rewrite !length_app in Hs; cbn in Hs; lia|].
  rewrite IH; [by rewrite <- !app_assoc|]. unfold alen. rewrite !length_app. cbn. lia.
Qed.

(** The log of the command line stays in its buffer, whatever the words are, and
    has all of them. *)
Theorem log_command_line_fits argv n :
  log_command_line argv n = Some (concat ((fun w => w ++ str " ") <$> take n argv), concat ((fun w => w ++ str " ") <$> drop n argv)).
Proof.
  assert (Hsize : ∀ l : list (list Z), sum_list_with (fun w => S (length w)) l = (sum_list_with length l + length l)%nat).
  { induction l as [|w l IH]; cbn; [done|]. rewrite IH. lia. }
  assert (Hsum : ∀ l1 l2 : list (list Z), sum_list_with length (l1 ++ l2) = (sum_list_with length l1 + sum_list_with length l2)%nat).
  { induction l1 as [|w l1 IH]; intros l2; cbn; [done|]. rewrite IH. lia. }
  pose proof (Hsum (take n argv) (drop n argv)) as Ha. pose proof (length_app (take n argv) (drop n argv)) as Hb. rewrite take_drop in Ha, Hb.
  unfold log_command_line. rewrite !log_words_fits; [done|..]; rewrite Hsize; unfold log_size, alen; cbn; lia.
Qed.

(** ** Evaluation *)

Section Examples.
#[local] Existing Instance nic8.
#[local] Existing Instance nic8_ok.
#[local] Existing Instance x_session.
#[local] Existing Instance x_spawn.
#[local] Existing Instance x_layout.
#[local] Instance ex_run : RunConsts := {|
  AXIOM_RAW_PAYLOAD_MAX_SIZE := 128; SIZE_BITS := 8; AXIOM_CMD_ALLOC_REPLY := 32 |}.
#[local] Instance ex_stdio : Stdio := {| BUFSIZ := 8192 |}.
#[local] Instance ex_alloc : Allocator slavesim := {|
  axiom_al2_init _ := mret 0;
  axiom_al2_release := mret tt;
  axiom_al2_alloc _ _ raw := mret (0, raw);
  axiom_al2_get_regions _ _ raw := mret (1, raw);
  axiom_al2_alloc_shblock _ _ raw := mret (1, raw);
  axiom_al2_alloc_reply _ _ := mret (1, [])
|}.

(** The slave on node 2, where the debugger runs; the start of another session
    comes first; the process ends with the code 3 after late output. *)
Definition ex_pre : list (Z * Z * list Z) := [(-1, 0, []); (0, 1, start_message ex_junk 76)].
Definition ex_slave (msgs : list (Z * Z * list Z)) : slavesim :=
  mk_slavesim (mk_rawsim msgs [] []) [] [] [] [] [] [] [] [WaitFail true; WaitChild 768]
    [LateReady (Some (LateData [65])) None; LateTimeout] 40.
Definition ex_node : node :=
  mk_node (ex_slave (ex_pre ++ [(0, 1, start_message ex_junk 1500000000)])) (ex_proc []) (x_dev 1 3 []) 2 3 true 0 (0, 0) 0 [].
Definition ex_regexec (_ name : list Z) : option (Z * Z) := Some (0, alen name).

Lemma slave_session_witness :
  let run := main (D := node) (fun _ => true) ex_regexec 1 255 [] [] 9 [str "PATH=/bin"] [] ex_junk 3 0 (mk_rpc_reply 0 0 []) false
    (tail (slave_args (str "axiom-run") ex_opts 6 6 1 5 1500000000 ex_appl)) in
  ∃ env caller new, run (forked 0 ex_node) = Ret ChildRuns new ∧
    pr_program (t_proc new) = Some ((str "gdbserver", str "gdbserver" :: str "0.0.0.0:9000" :: ex_appl), Some env) ∧
    axrun_get_nodes env = 6 ∧ run (forked 77 ex_node) = Ret (ExitCode 3) caller ∧
    t_log caller = [SOpen; SFlags 1; SBind 6].
Proof.
  intros run. assert (Hok : run_ok ex_opts 6 6 1 5 1500000000).
  { constructor; cbn; try lia.
    - vm_compute. right. right. right. left.
    - split; [|exists (str "0,0"); split; [reflexivity|vm_compute; reflexivity]]. split; [vm_compute; left|]. cbn. lia. }
  assert (Hw : slave_world 9 ex_junk ex_junk 1500000000 ex_pre ex_node).
  { split; [reflexivity|reflexivity|exact (ex_proc_ok [])|reflexivity|vm_compute; discriminate|vm_compute; lia| |vm_compute; lia].
    constructor; [by left|]. constructor; [|constructor]. right. split; [vm_compute; lia|right; vm_compute; done]. }
  assert (Hwok : woken 9 (Some 3) (pr_others (t_proc ex_node))).
  { exists 2%nat, 1, []. split; [reflexivity|]. split; [discriminate|lia]. }
  assert (Hm : 1 ≠ -1) by lia. assert (Hc : 0 < 77) by lia. assert (Hk : (1 < 9)%nat) by lia.
  assert (Hl : (length (ss_late (t_slave ex_node)) <= 9)%nat) by (cbn; lia).
  destruct (slave_session (fun _ => true) ex_regexec 1 255 [] [] 9 [str "PATH=/bin"] [] ex_junk 3 0 (mk_rpc_reply 0 0 []) false
    (str "axiom-run") ex_opts 6 6 1 5 1500000000 ex_appl ex_junk ex_pre 0 1 [] 77 1 768 [] [LateReady (Some (LateData [65])) None; LateTimeout] []
    ex_node Hok eq_refl Hm eq_refl eq_refl Hw eq_refl Hc Hwok eq_refl eq_refl eq_refl Hk Hl) as [_ H].
  destruct (H eq_refl) as (env & caller & new & Hnew & Hprog & _ & _ & Henv & Hcall & Hlog & _).
  exists env, caller, new. split; [exact Hnew|]. split; [exact Hprog|]. split; [exact (proj1 (Henv eq_refl))|].
  split; [exact Hcall|exact Hlog].
Defined.
End Examples.
