(* ===== verification/RunMaster.v ===== *)
(** * A session of axiom-run from its master (axiom-run/axiom-run.c, main)

    [main] of file [RunTop] in the mode of the master, composed with the start of
    the session (file [RunStart]) and with the receiver (file [Master]): from the
    command line to the exit code. *)

From stdpp Require Import gmap.
From S2P Require Import Prelude Text Sched CStrings Nic RunMsg Output Master Slave.
From S2P Require Import RunNodes Session Spawn Execvpe RunStart RunMain RunLib Daemonize Parts RunTop.

Section Master.
Context `{CN : NicConsts} {CNOK : NicConstsOk} `{RC : RunConsts} {RCOK : RunConstsOk} `{IO : Stdio}.
Context `{CS : SessionConsts} `{CP : SpawnConsts} {CPOK : SpawnConstsOk} `{LY : SpawnLayout} `{AR : Allocator rawsim}.
Context (regcomp : list Z → bool) (regexec : list Z → list Z → option (Z * Z)).
Context (AXIOM_FLAG_NOFLUSH AXIOM_NULL_APP_ID : Z) (AXIOM_ENV_ALLOC_APPID AXIOM_ENV_ALLOC_APPMASTER : list Z).
Context (fuel : nat) (environ : list (list Z)) (argv0 junk : list Z) (smfd status0 : Z) (reply0 : rpc_reply_t) (my_sigterm : bool).

#[local] Instance slave_alloc : Allocator slavesim := alloc_on_part (E := rawsim).
#[local] Instance pair_launcher : Launcher (execdev * rawsim) := sim_launcher.

Abbreviation run_main := (main (D := node) regcomp regexec AXIOM_FLAG_NOFLUSH AXIOM_NULL_APP_ID
  AXIOM_ENV_ALLOC_APPID AXIOM_ENV_ALLOC_APPMASTER fuel environ argv0 junk smfd status0 reply0 my_sigterm).

(** The daemons and the messages of a node. *)
Definition with_pair (x : execdev * rawsim) (w : node) : node :=
  with_exec x.1 (with_slave (with_raw x.2 (t_slave w)) w).
#[local] Instance node_pair : Part node (execdev * rawsim).
Proof.
  refine {| get_part w := (t_exec w, ss_raw (t_slave w)); put_part := with_pair |}; try done.
  - by intros [].
  - intros [s p x i n o b a t l]. unfold with_pair, with_exec, with_slave. cbn. f_equal. by destruct s.
Defined.

Lemma start_node mport sport nodes filename argv envp gdb gport magic :
  lifts (start (D := node) junk mport sport nodes filename argv envp gdb gport magic)
    (start (D := execdev * rawsim) junk mport sport nodes filename argv envp gdb gport magic).
Proof.
  apply start_lifts.
  - intros port n f a e w. unfold on_part. cbn [launch node_launcher pair_launcher sim_launcher launcher_fst execvpe_launcher].
    unfold on_part, lift_fst. cbn [get_part put_part node_exec node_pair fst snd].
    destruct (axinit_execvpe 1 port n 0 f (Some a) (Some e) (t_exec w)) as [r x|st x];
      unfold with_pair, with_exec, with_slave; cbn; do 2 f_equal; by destruct (t_slave w).
  - intros n port b w. unfold on_part. cbn. unfold on_part, lift_raw, rs_push. cbn.
    destruct w as [[[? [|] ?] ? ? ? ? ? ? ? ? ? ?] ? ? ? ? ? ? ? ? ?]; done.
Qed.

Lemma receiver_node services nodes flags app_id sport mport b reply w r d :
  manage_master_services fuel services nodes flags app_id sport mport b reply (ss_raw (t_slave w)) = Ret r d →
  manage_master_services (D := node) fuel services nodes flags app_id sport mport b reply w =
  Ret r (with_slave (with_raw d (t_slave w)) w).
Proof.
  intros H. assert (H1 := manage_master_services_lifts (S := node) (E := slavesim) fuel services nodes flags app_id sport mport b reply).
  assert (H2 := manage_master_services_lifts (S := slavesim) (E := rawsim) fuel services nodes flags app_id sport mport b reply).
  exact (lifts_run _ _ w _ _ H1 (lifts_run _ _ (t_slave w) _ _ H2 H)).
Qed.
(** ** A master, from its command line to its exit code *)

(** The values that the master takes from its options, its device and the clock. *)
Definition session_node (o : run_opts) (w : node) : Z := if o_master_node o =? -1 then t_id w else o_master_node o.
Definition session_nodes (o : run_opts) (w : node) : Z := used_nodes (o_nodes o) (t_num w).
Definition session_magic (o : run_opts) (w : node) : Z := if o_magic o =? 0 then t_time w else o_magic o.
Definition session_app_id (o : run_opts) (w : node) : Z :=
  if has (o_services o) ALLOCATOR_SERVICE then (t_appid w).2 else AXIOM_NULL_APP_ID.
(** The command line of the slaves. *)
Definition session_args (o : run_opts) (app : list (list Z)) (w : node) : list (list Z) :=
  slave_args argv0 o (session_nodes o w) (final_ports o).1 (session_node o w) (final_ports o).2 (session_magic o w) app.
Definition session_environ (o : run_opts) (w : node) : option (list (list Z)) :=
  session_env (regexec (o_envstr o)) AXIOM_ENV_ALLOC_APPID AXIOM_ENV_ALLOC_APPMASTER environ false (session_nodes o w)
    (o_services o) (ss_pid (t_slave w)) (Some (session_app_id o w)).

(** The device is there. *)
Record master_world (o : run_opts) (w : node) : Prop := {
  mw_opens : t_opens w = true;
  mw_binds : AXIOM_RET_IS_OK (t_binds w) = true;
  mw_nodes : session_nodes o w ≠ 0;
  mw_appid : has (o_services o) ALLOCATOR_SERVICE = true → AXIOM_RET_IS_OK (t_appid w).1 = true
}.

(** Up to the start of the session. *)
Lemma master_options args o app w env : parse_args args = inr (o, app) → o_slave o = false → o_services o ≠ 0 →
  regcomp (o_envstr o) = true → master_world o w → session_environ o w = Some env →
  run_main args w =
  (err ← start junk (final_ports o).2 (final_ports o).1 (session_nodes o w) argv0 (session_args o app w) env 0 (o_gdb o).2 (session_magic o w);
   if negb (AXIOM_RET_IS_OK err) then finish true false EXIT_FAILURE else
   exitval ← manage_master_services fuel (o_services o) (session_nodes o w) (o_flags o) (session_app_id o w)
     (final_ports o).1 (final_ports o).2 junk reply0;
   match exitval with
   | None => finish true false EXIT_FAILURE
   | Some exitval => finish true false (exit_code exitval)
   end) (logs [SOpen; SBind (final_ports o).2] w).
Proof using CNOK.
  intros Hp Hs Hserv Hreg [Hop Hbi Hn Happ] Henv. unfold main. rewrite Hp, Hreg. cbn [negb].
  destruct (final_ports o) as [sport mport] eqn:Eports. rewrite Hs, (proj2 (Z.eqb_neq _ _) Hserv). cbn [negb orb fst snd].
  rewrite (bind_ret r_open _ _ true (logs [SOpen] w)) by (cbn; by rewrite Hop). cbn [negb].
  rewrite (bind_ret _ _ _ (session_node o w) (logs [SOpen] w)) by done.
  rewrite (bind_ret (mret tt) _ _ tt (logs [SOpen] w)) by done.
  rewrite (bind_ret (r_bind mport) _ _ (t_binds w) (logs [SOpen; SBind mport] w)) by exact (f_equal (Ret _) (logs_logs _ _ w)).
  rewrite Hbi. cbn [negb]. unfold run_session. set (w1 := logs _ w). rewrite Hs.
  rewrite (bind_ret _ _ _ (session_node o w) w1).
  2:{ unfold session_node. destruct (Z.eqb_spec (o_master_node o) (-1)) as [E|E]; [|by rewrite (proj2 (Z.eqb_neq _ _) E)].
      by destruct (t_id w =? -1). }
  rewrite (bind_ret _ _ _ (session_nodes o w) w1) by done. rewrite (proj2 (Z.eqb_neq _ _) Hn). cbn [negb andb].
  rewrite (bind_ret s_getpid _ _ (ss_pid (t_slave w)) w1) by (by destruct w).
  assert (Hgot : ∃ err, (if has (o_services o) ALLOCATOR_SERVICE then r_alloc_appid mport else mret (AXIOM_RET_OK, AXIOM_NULL_APP_ID) : M node (Z * Z)) w1 =
    Ret (err, session_app_id o w) w1 ∧ AXIOM_RET_IS_OK err = true).
  { unfold session_app_id. destruct (has _ _); [|by exists AXIOM_RET_OK; rewrite ret_ok_ok].
    exists (t_appid w).1. split; [cbn; by destruct (t_appid w)|by apply Happ]. }
  destruct Hgot as (err & Hgot & Herr). rewrite (bind_ret _ _ _ _ _ Hgot), Herr.
  replace (if has (o_services o) ALLOCATOR_SERVICE then Some (session_app_id o w) else Some (session_app_id o w))
    with (Some (session_app_id o w)) by by destruct (has _ _).
  unfold session_environ in Henv. rewrite Henv. unfold master_mode. rewrite (proj2 (Z.eqb_neq _ _) Hserv). cbn [negb andb].
  rewrite (bind_ret _ _ _ (session_magic o w) w1) by (unfold session_magic; by destruct (o_magic o =? 0)).
  unfold session_args. rewrite Eports. done.
Qed.
Hypothesis started_ok : AXIOM_RET_IS_OK 1 = true.
Hypothesis payload_fits : AXIOM_RAW_PAYLOAD_MAX_SIZE <= BUFSIZ.

(** C35. A session from its master: [main] of a master with services.  It opens the
    device and binds its own port, asks every node of the session, in order, for a
    session and sends each the same complete description: axiom-run itself with
    the command line that carries the configuration, and the environment; then the
    start message with the number of the session goes to the port of the slaves on
    every node.  It then reads messages up to the exit report of the last node,
    reacts to them as the receiver promises, releases the memory and closes the
    device, and its exit code is the one of the statuses that the nodes reported,
    taken together by the mode of exit.  The messages are those of C22: no call for
    the allocator while the service for remote calls is on. *)
Theorem master_session args o app env cwd reps xrest msgs last s rest w :
  parse_args args = inr (o, app) → o_slave o = false → o_services o ≠ 0 → regcomp (o_envstr o) = true →
  master_world o w → session_environ o w = Some env →
  0 <= session_nodes o w < 2 ^ 64 → - 2 ^ 31 <= (o_gdb o).2 < 2 ^ 31 →
  strings_ok argv0 (Some (session_args o app w)) (Some env) cwd →
  xd_fail (t_exec w) = [] → xd_cwd (t_exec w) = Some cwd → xd_replies (t_exec w) = reps ++ xrest → Forall reply_ok reps →
  length reps = length (members (session_nodes o w)) → alen junk = AXIOM_RAW_PAYLOAD_MAX_SIZE →
  (∀ id (d : rawsim), axiom_al2_init id d = Ret 0 d) → (∀ d : rawsim, axiom_al2_release d = Ret tt d) →
  Forall message_ok (msgs ++ [last]) →
  Forall (no_allocator (o_services o)) (msgs ++ [last]) →
  kind last = KExit s → statuses (msgs ++ [last]) ≠ [] → alen (statuses (msgs ++ [last])) = alen (members (session_nodes o w)) →
  rs_in (ss_raw (t_slave w)) = msgs ++ last :: rest → (length msgs < fuel)%nat →
  let nodes := session_nodes o w in
  let sport := (final_ports o).1 in
  let mport := (final_ports o).2 in
  let info := master_info nodes (o_flags o) (session_app_id o w) sport mport in
  ∃ evss w',
    run_main args w =
      Ret (ExitCode (exit_code (exit_after (o_flags o) (has (o_services o) EXIT_SERVICE) (statuses (msgs ++ [last]))))) w' ∧
    t_log w' = t_log w ++ [SOpen; SBind mport; SClose] ∧
    xd_log (t_exec w') = xd_log (t_exec w) ++ concat evss ∧
    Forall3 (fun n => launched mport (fun _ => (argv0, session_args o app w)) env cwd n) (members nodes) reps evss ∧
    rs_log (ss_raw (t_slave w')) = rs_log (ss_raw (t_slave w)) ++
      ((fun n => (n, sport, start_message junk (session_magic o w))) <$> members nodes) ++
      reactions info (o_services o) [] (msgs ++ [last]).
Proof using CNOK CPOK RCOK started_ok payload_fits.
  intros Hp Hs Hserv Hreg Hw Henv Hn Hg Hstr Hf Hcwd Hrep Hrok Hlen Hj Hinit Hrel Hok Hrpc Hlast Hne Hcnt Hin Hfuel nodes sport mport info.
  rewrite (master_options args o app w env Hp Hs Hserv Hreg Hw Henv). set (w1 := logs _ w).
  destruct (start_spec started_ok junk mport sport nodes argv0 (session_args o app w) env 0 (o_gdb o).2 (session_magic o w)
    cwd reps xrest (t_exec w, ss_raw (t_slave w)) Hn Hg Hstr Hf Hcwd Hrep Hrok Hlen) as (err & evss & d & Hst & Herr & Hxl & _ & Hall & Hrl & Hri).
  assert (Hl := start_node mport sport nodes argv0 (session_args o app w) env 0 (o_gdb o).2 (session_magic o w)).
  rewrite (bind_ret _ _ w1 _ _ (lifts_run _ _ w1 _ _ Hl Hst)), Herr. cbn [negb]. set (w2 := put_part d w1).
  change (session_nodes o w) with nodes in Hcnt.
  assert (Hnn : i_nnodes info = alen (members nodes)) by (unfold info, master_info; cbn [i_nnodes]; by apply count_nodes_members).
  assert (Hpos : 0 < i_nnodes info) by (rewrite Hnn, <- Hcnt; destruct (statuses (msgs ++ [last])); [done|unfold alen; cbn; lia]).
  assert (Hin2 : rs_in (ss_raw (t_slave w2)) = msgs ++ last :: rest) by (rewrite <- Hin; exact Hri).
  rewrite <- Hnn in Hcnt.
  destruct (receiver_run payload_fits info (o_services o) junk reply0 msgs last s rest (ss_raw (t_slave w2)) fuel Hn Hnn Hpos Hj (Hinit _ _)
    Hok Hrpc Hlast Hcnt Hin2 Hfuel) as (r & Hrec & Hst2 & _ & _).
  assert (Hm : ∃ d2, manage_master_services fuel (o_services o) nodes (o_flags o) (session_app_id o w) sport mport junk reply0 (ss_raw (t_slave w2)) =
    Ret (Some (m_exit_status r)) d2 ∧ rs_log d2 = rs_log (ss_raw (t_slave w2)) ++ reactions info (o_services o) [] (msgs ++ [last]))
    by (unfold manage_master_services; rewrite (bind_ret _ _ _ _ _ Hrec); by eexists).
  destruct Hm as (d2 & Hm & Hlog).
  rewrite (bind_ret _ _ _ _ _ (receiver_node (o_services o) nodes (o_flags o) (session_app_id o w) sport mport junk reply0 w2 _ _ Hm)).
  set (w3 := with_slave _ w2). unfold finish. cbn [negb andb].
  assert (Hrel3 : (axiom_al2_release : M node unit) w3 = Ret tt w3) by (cbn; unfold on_part; cbn; unfold on_part; cbn; rewrite Hrel; by destruct w).
  exists evss, (logs [SClose] w3). rewrite Hst2. split; [|split; [|split; [exact Hxl|split]]].
  - by rewrite (bind_ret _ _ _ tt (logs [SClose] w3)) by (by rewrite (bind_ret _ _ _ _ _ Hrel3)).
  - cbn. by rewrite <- app_assoc.
  - eapply Forall3_impl; [exact Hall|]. intros n rep evs H. unfold launched, program_of in *. by rewrite Z.testbit_0_l in H.
  - cbn. rewrite Hlog. cbn. rewrite Hrl. by rewrite <- app_assoc.
Qed.
End Master.

(** ** Evaluation *)

Section Examples.
#[local] Existing Instance nic8.
#[local] Existing Instance nic8_ok.
#[local] Existing Instance x_session.
#[local] Existing Instance x_spawn.
#[local] Existing Instance x_spawn_ok.
#[local] Existing Instance x_layout.
#[local] Instance ex_run : RunConsts := {|
  AXIOM_RAW_PAYLOAD_MAX_SIZE := 128; SIZE_BITS := 8; AXIOM_CMD_ALLOC_REPLY := 32 |}.
#[local] Instance ex_run_ok : RunConstsOk.
Proof. split; vm_compute; done. Qed.
#[local] Instance ex_stdio : Stdio := {| BUFSIZ := 8192 |}.
#[local] Instance ex_alloc : Allocator rawsim := {|
  axiom_al2_init _ := mret 0;
  axiom_al2_release := mret tt;
  axiom_al2_alloc _ _ raw := mret (0, raw);
  axiom_al2_get_regions _ _ raw := mret (1, raw);
  axiom_al2_alloc_shblock _ _ raw := mret (1, raw);
  axiom_al2_alloc_reply _ _ := mret (1, [])
|}.

#[local] Instance ex_slave_alloc : Allocator slavesim := alloc_on_part (E := rawsim).

(** Barriers, output and the exit code on the nodes 1 and 2 of a network of three:
    a barrier, a line of node 2, a failed reception and the reports of the exit;
    the application of node 2 ends with the code 1. *)
Definition ex_args : list (list Z) := [str "-b"; str "-e"; str "-r"; str "-n"; str "1,2"; str "./hello"].
Definition ex_o : run_opts := set_nodes 6 (set_services 7 opts0).
Definition ex_header (c v : Z) : list Z := [c; 0; 0; 0] ++ le_put 4 v ++ replicate 12 0.
Definition ex_msgs : list (Z * Z * list Z) := [
  (0, 1, ex_header CMD_BARRIER 3);
  (0, 2, ex_header CMD_SEND_TO_STDOUT 0 ++ [104; 105; 10]);
  (-1, 0, ex_header 0 0);
  (0, 2, ex_header CMD_BARRIER 3);
  (0, 1, ex_header CMD_EXIT 0)].
Definition ex_last : Z * Z * list Z := (0, 2, ex_header CMD_EXIT 256).
Definition ex_master : node :=
  mk_node (mk_slavesim (mk_rawsim (ex_msgs ++ [ex_last]) [] []) [] [] [] [] [] [] [] [] [] 40)
    (mk_proc ∅ 64 [47] 10 [] 0 None [] false None) (x_dev 1 3 [x_rep 4; x_rep 5]) 1 3 true 0 (0, 77) 1500000000 [].
Definition ex_regexec (_ name : list Z) : option (Z * Z) := Some (0, alen name).

Lemma ex_messages : Forall message_ok (ex_msgs ++ [ex_last]).
Proof.
  repeat (apply Forall_cons; split; [split_and!; try (vm_compute; done); by apply (bool_decide_unpack _)|]).
  constructor.
Qed.

Example ex_args_parse : parse_args ex_args = inr (ex_o, [str "./hello"]).
Proof. vm_compute. reflexivity. Qed.
Definition ex_env : list (list Z) := [str "PATH=/bin"].

Lemma ex_strings : strings_ok (str "axiom-run") (Some (session_args (str "axiom-run") ex_o [str "./hello"] ex_master)) (Some ex_env) [47].
Proof.
  assert (H : forallb (forallb (fun c => negb (c =? 0))) (session_args (str "axiom-run") ex_o [str "./hello"] ex_master) = true)
    by (vm_compute; reflexivity).
  split_and!; [by apply (bool_decide_unpack _)| |repeat (constructor; [by apply (bool_decide_unpack _)|]); constructor|by apply (bool_decide_unpack _)].
  apply Forall_forall. intros l Hl H0. apply list_elem_of_In in Hl, H0.
  apply (proj1 (forallb_forall _ _) H) in Hl. apply (proj1 (forallb_forall _ _) Hl) in H0. discriminate.
Qed.

Lemma master_session_witness : ∃ w',
  main (D := node) (fun _ => true) ex_regexec 1 255 [65] [66] 9 [str "PATH=/bin"] (str "axiom-run") (replicate 128 0) 3 0
    (mk_rpc_reply 0 0 []) false ex_args ex_master = Ret (ExitCode 1) w' ∧
  t_log w' = [SOpen; SBind 5; SClose] ∧
  rs_log (ss_raw (t_slave w')) =
    [(1, 6, start_message (replicate 128 0) 1500000000); (2, 6, start_message (replicate 128 0) 1500000000);
     (1, 6, ex_header CMD_BARRIER 3); (2, 6, ex_header CMD_BARRIER 3);
     (1, 6, ex_header CMD_KILL 0); (2, 6, ex_header CMD_KILL 0)].
Proof.
  assert (Hw : master_world ex_o ex_master) by (split; [reflexivity|reflexivity|vm_compute; discriminate|vm_compute; discriminate]).
  assert (Hn : 0 <= session_nodes ex_o ex_master < 2 ^ 64) by (vm_compute; split; [discriminate|reflexivity]).
  assert (Hg : - 2 ^ 31 <= (o_gdb ex_o).2 < 2 ^ 31) by (cbn; lia).
  assert (Hr : Forall reply_ok [x_rep 4; x_rep 5]) by (repeat (apply Forall_cons; split; [by split_and!|]); constructor).
  assert (Hfits : AXIOM_RAW_PAYLOAD_MAX_SIZE <= BUFSIZ) by (vm_compute; discriminate).
  assert (Hs : o_services ex_o ≠ 0) by done.
  assert (Hrpc : Forall (no_allocator (o_services ex_o)) (ex_msgs ++ [ex_last]))
    by (repeat constructor).
  assert (Hne : statuses (ex_msgs ++ [ex_last]) ≠ []) by done.
  assert (Hk : (length ex_msgs < 9)%nat) by (cbn; lia).
  destruct (master_session (CN := nic8) (CS := x_session) (AR := ex_alloc) (fun _ => true) ex_regexec 1 255 [65] [66] 9 [str "PATH=/bin"] (str "axiom-run") (replicate 128 0) 3 0
    (mk_rpc_reply 0 0 []) false eq_refl Hfits ex_args ex_o [str "./hello"] ex_env [47] [x_rep 4; x_rep 5] [] ex_msgs ex_last 256 []
    ex_master ex_args_parse eq_refl Hs eq_refl Hw eq_refl Hn Hg ex_strings eq_refl eq_refl eq_refl Hr eq_refl eq_refl
    (fun _ _ => eq_refl) (fun _ => eq_refl) ex_messages Hrpc eq_refl Hne eq_refl eq_refl Hk) as (evss & w' & Hrun & Hlog & _ & _ & Hsent).
  exists w'. split; [exact Hrun|]. split; [exact Hlog|exact Hsent].
Defined.
End Examples.
