(* ===== verification/MasterThreads.v ===== *)
(** * The threads of the master of axiom-run (axiom-run/master.c)

    [manage_master_services] starts the receiver and, with the redirect service,
    the sender of the standard input, waits for the end of the receiver, asks the
    sender to end and joins it.  Both threads send to the same device.  Here the
    three threads are the actors of a system whose runs are arbitrary sequences of
    their steps; a step of a thread is one reception, or one message that is given
    to the device.  The turns of the threads are those of file [Master]. *)

From S2P Require Import Prelude Nic RunMsg Output Master.

(** ** The system *)

(** The receiver: before [pthread_create], before [rpc_init], waiting for a message,
    sending what its turn has to send, ended. *)
Inductive rstate :=
  | RNot | RCreated | RIdle (r : receiver)
  | RSending (res : receiver + receiver) (todo : list (Z * Z * list Z)) | REnded (r : receiver).

(** The sender: the same with its buffer. *)
Inductive sstate :=
  | SNot | SCreated | SIdle (b : list Z) | SSending (b : list Z) (todo : list (Z * Z * list Z)) | SEnded.

(** The main thread: it creates the threads, installs the handler, waits for the
    receiver, asks the sender to end, waits for it; it has finished, or the process
    has called [exit]. *)
Inductive mstate := JCreateRecv | JCreateSend | JHandler | JRecv | JTerminate | JSend | JDone | JExit.

#[export] Instance mstate_eq_dec : EqDecision mstate.
Proof. solve_decision. Defined.

Record mastersys := mk_mastersys {
  u_main : mstate;
  u_recv : rstate;
  u_send : sstate;
  u_event : bool;                        (** the event descriptor has been written *)
  u_in : list (Z * Z * list Z);          (** messages for the receiver *)
  u_stdin : list sel_result;             (** results of [select] and [read] *)
  u_log : list (bool * (Z * Z * list Z)) (** what the device got; [true]: from the receiver *)
}.

Inductive mactor := ActMain | ActRecv | ActSend.

Section Code.
Context `{CN : NicConsts} `{RC : RunConsts} `{IO : Stdio} `{AL : Allocator rawsim}.
(** The arguments, the results of [pthread_create], the uninitialised variables. *)
Variables (info : minfo) (services : Z) (makes_recv makes_send : bool) (buffer sbuffer : list Z) (reply : rpc_reply_t).

Definition with_main (m : mstate) (s : mastersys) : mastersys :=
  mk_mastersys m (u_recv s) (u_send s) (u_event s) (u_in s) (u_stdin s) (u_log s).
Definition with_recv (r : rstate) (s : mastersys) : mastersys :=
  mk_mastersys (u_main s) r (u_send s) (u_event s) (u_in s) (u_stdin s) (u_log s).
Definition with_send (t : sstate) (s : mastersys) : mastersys :=
  mk_mastersys (u_main s) (u_recv s) t (u_event s) (u_in s) (u_stdin s) (u_log s).
Definition with_in (l : list (Z * Z * list Z)) (s : mastersys) : mastersys :=
  mk_mastersys (u_main s) (u_recv s) (u_send s) (u_event s) l (u_stdin s) (u_log s).
Definition with_stdin (l : list sel_result) (s : mastersys) : mastersys :=
  mk_mastersys (u_main s) (u_recv s) (u_send s) (u_event s) (u_in s) l (u_log s).
Definition gives (who : bool) (m : Z * Z * list Z) (s : mastersys) : mastersys :=
  mk_mastersys (u_main s) (u_recv s) (u_send s) (u_event s) (u_in s) (u_stdin s) (u_log s ++ [(who, m)]).

(** The end of [master_receiver]. *)
Definition flushed (r : receiver) : receiver :=
  let '(out, items) := flush (m_infoout r) MAX_NUM_NODES (i_flags info) in
  let r := set_m_stdout out (m_out r ++ items) r in
  let '(err, items) := flush (m_infoerr r) MAX_NUM_NODES (i_flags info) in
  set_m_stderr err (m_err r ++ items) r.

(** The receiver.  The results of the sends matter to the log only, so that what a
    turn sends does not depend on them. *)
Definition recv_step (s : mastersys) : mastersys :=
  match u_recv s with
  | RNot | REnded _ => s
  | RCreated =>
      match rpc_init (i_app_id info) (mk_rawsim (u_in s) [] []) with
      | Ret err _ => if negb (err =? 0) then with_main JExit s else with_recv (RIdle (receiver0 info buffer services reply)) s
      | Stuck _ _ => s
      end
  | RIdle r =>
      match master_turn info r (mk_rawsim (u_in s) [] []) with
      | Ret res d => with_recv (RSending res (rs_log d)) (with_in (rs_in d) s)
      | Stuck _ _ => s
      end
  | RSending res (m :: todo) => with_recv (RSending res todo) (gives true m s)
  | RSending (inl r) [] => with_recv (RIdle r) s
  | RSending (inr r) [] => with_recv (REnded (flushed r)) s
  end.

(** The sender; the request to end comes before the input. *)
Definition send_step (s : mastersys) : mastersys :=
  match u_send s with
  | SNot | SEnded => s
  | SCreated => with_send (SIdle (set_command CMD_RECV_FROM_STDIN sbuffer)) s
  | SIdle b =>
      if u_event s then with_send SEnded s else
      match master_sender_turn info b (u_stdin s, mk_rawsim [] [] []) with
      | Ret (inl b) (rest, d) => with_send (SSending b (rs_log d)) (with_stdin rest s)
      | Ret (inr _) (rest, d) => with_send SEnded (with_stdin rest s)
      | Stuck _ _ => s
      end
  | SSending b (m :: todo) => with_send (SSending b todo) (gives false m s)
  | SSending b [] => with_send (SIdle b) s
  end.

Definition join_step (s : mastersys) : mastersys :=
  match u_main s with
  | JCreateRecv => if makes_recv then with_main JCreateSend (with_recv RCreated s) else with_main JExit s
  | JCreateSend =>
      if has services REDIRECT_SERVICE then
        if makes_send then with_main JHandler (with_send SCreated s) else with_main JExit s
      else with_main JHandler s
  | JHandler => with_main JRecv s
  | JRecv =>
      match u_recv s with
      | REnded _ => with_main (if has services REDIRECT_SERVICE then JTerminate else JDone) s
      | _ => s
      end
  | JTerminate => mk_mastersys JSend (u_recv s) (u_send s) true (u_in s) (u_stdin s) (u_log s)
  | JSend => match u_send s with SEnded => with_main JDone s | _ => s end
  | JDone | JExit => s
  end.

Definition mactor_step (a : mactor) (s : mastersys) : mastersys :=
  match u_main s with
  | JExit => s
  | _ => match a with ActMain => join_step s | ActRecv => recv_step s | ActSend => send_step s end
  end.

Definition run_master (l : list mactor) (s : mastersys) : mastersys := foldl (fun s a => mactor_step a s) s l.

Definition mastersys0 (msgs : list (Z * Z * list Z)) (stdin : list sel_result) : mastersys :=
  mk_mastersys JCreateRecv RNot SNot false msgs stdin [].

(** What [manage_master_services] returns. *)
Definition master_result (s : mastersys) : option Z :=
  match u_main s, u_recv s with JDone, REnded r => Some (m_exit_status r) | _, _ => None end.
End Code.

(** ** One turn of each thread *)

Section Turns.
Context `{CN : NicConsts} {CNOK : NicConstsOk} `{RC : RunConsts} {RCOK : RunConstsOk} `{IO : Stdio} `{AL : Allocator rawsim}.

(** What the sender makes of a result of [select] and [read]; [hdr]: the bytes
    before the data. *)
Definition forward (info : minfo) (hdr : list Z) (x : sel_result) : list (Z * Z * list Z) :=
  match data_of x with [] => [] | bytes => bcast (i_nodes info) (slave_port info) (hdr ++ bytes) end.
Definition forwards (info : minfo) (hdr : list Z) (l : list sel_result) : list (Z * Z * list Z) :=
  concat (forward info hdr <$> l).

Lemma forwards_snoc info hdr l x : forwards info hdr (l ++ [x]) = forwards info hdr l ++ forward info hdr x.
Proof. unfold forwards. rewrite fmap_app, concat_app. cbn. by rewrite app_nil_r. Qed.

Lemma after_fresh evs l : rs_after evs (mk_rawsim l [] []) = mk_rawsim l [] evs.
Proof. unfold rs_after. cbn. by rewrite drop_nil. Qed.

Lemma sender_turn_run info b hdr x rest : 0 <= i_nodes info < 2 ^ 64 → (sizeof_header <= length b)%nat → take sizeof_header b = hdr →
  ∃ res, master_sender_turn info b (x :: rest, mk_rawsim [] [] []) = Ret res (rest, mk_rawsim [] [] (forward info hdr x)) ∧
    match res with
    | inl b' => (sizeof_header <= length b')%nat ∧ take sizeof_header b' = hdr
    | inr _ => forward info hdr x = []
    end.
Proof.
  intros Hn Hb Hh. unfold master_sender_turn, forward. cbn [select_read input_dev fst snd]. unfold mbind, M_bind. cbn [fst snd].
  destruct x as [[]| |[]|bytes]; cbn [data_of]; try (eexists; split; [reflexivity|]; by cbn).
  destruct (take_set_raw bytes b Hb) as [H1 H2].
  assert (Hlen : (sizeof_header <= length (set_raw bytes b))%nat) by (apply (f_equal length) in H1; rewrite !length_take in H1; lia).
  destruct bytes as [|c bytes].
  { change (0 <? alen []) with false. eexists. split; [reflexivity|]. cbn iota. by rewrite H1. }
  rewrite (proj2 (Z.ltb_lt 0 _)) by (unfold alen; cbn; lia).
  unfold my_axiom_send_raw. rewrite send_nodes_snd. unfold lift_snd. cbn [snd fst].
  rewrite (send_nodes_run 64) by lia. rewrite members_from_0. exists (inl (set_raw (c :: bytes) b)).
  split; [|by rewrite H1]. cbn [mret M_ret fst]. by rewrite H2, Hh, after_fresh.
Qed.

Lemma reactions_app info services h a b :
  reactions info services h (a ++ b) = reactions info services h a ++ reactions info services (h ++ a) b.
Proof.
  induction a as [|x a IH] in h |- *; cbn; [by rewrite app_nil_r|]. by rewrite IH, <- !app_assoc.
Qed.
End Turns.

(** ** What holds in every run *)

Section Runs.
Context `{CN : NicConsts} {CNOK : NicConstsOk} `{RC : RunConsts} {RCOK : RunConstsOk} `{IO : Stdio} `{AL : Allocator rawsim}.
Hypothesis payload_fits : AXIOM_RAW_PAYLOAD_MAX_SIZE <= BUFSIZ.
Variables (info : minfo) (services : Z) (makes_recv makes_send : bool) (buffer sbuffer : list Z) (reply : rpc_reply_t).
Variables (msgs : list (Z * Z * list Z)) (last : Z * Z * list Z) (status : Z) (rest : list (Z * Z * list Z)) (stdin : list sel_result).
Abbreviation all := (msgs ++ [last]).
Abbreviation hdr := (take sizeof_header (set_command CMD_RECV_FROM_STDIN sbuffer)).
Abbreviation step := (mactor_step info services makes_recv makes_send buffer sbuffer reply).
Abbreviation run := (run_master info services makes_recv makes_send buffer sbuffer reply).
Abbreviation s0 := (mastersys0 (all ++ rest) stdin).
Hypotheses (Hnodes : 0 <= i_nodes info < 2 ^ 64) (Hnn : 0 < i_nnodes info)
  (Hbuf : alen buffer = AXIOM_RAW_PAYLOAD_MAX_SIZE) (Hsbuf : (sizeof_header <= length sbuffer)%nat)
  (Hinit : ∀ d : rawsim, axiom_al2_init (i_app_id info) d = Ret 0 d)
  (Hok : Forall message_ok all) (Hrpc : Forall (no_allocator services) all)
  (Hlast : kind last = KExit status) (Hcnt : alen (statuses all) = i_nnodes info).

(** What a thread has given to the device. *)
Definition sent_by (who : bool) (s : mastersys) : list (Z * Z * list Z) :=
  omap (fun x => if Bool.eqb x.1 who then Some x.2 else None) (u_log s).

Lemma sent_gives who who' m s : sent_by who (gives who' m s) = sent_by who s ++ (if Bool.eqb who' who then [m] else []).
Proof. unfold sent_by, gives. cbn [u_log]. rewrite omap_app. cbn. by destruct (Bool.eqb who' who). Qed.

(** The receiver has taken the messages [hist]. *)
Inductive recv_at (s : mastersys) : Prop :=
  | at_start : u_recv s = RNot ∨ u_recv s = RCreated → u_in s = all ++ rest → sent_by true s = [] → recv_at s
  | at_idle r hist x todo : u_recv s = RIdle r → all = hist ++ x :: todo → u_in s = x :: todo ++ rest →
      recv_inv info services hist r → sent_by true s = reactions info services [] hist → recv_at s
  | at_sending r hist x todo pend : u_recv s = RSending (inl r) pend → all = hist ++ x :: todo → u_in s = x :: todo ++ rest →
      recv_inv info services hist r → sent_by true s ++ pend = reactions info services [] hist → recv_at s
  | at_ending r pend : u_recv s = RSending (inr r) pend → u_in s = rest →
      recv_inv info services all r → sent_by true s ++ pend = reactions info services [] all → recv_at s
  | at_end r : u_recv s = REnded (flushed info r) → u_in s = rest →
      recv_inv info services all r → sent_by true s = reactions info services [] all → recv_at s.

(** The sender has taken the results [taken]. *)
Inductive send_at (s : mastersys) : Prop :=
  | st_start : u_send s = SNot ∨ u_send s = SCreated → u_stdin s = stdin → sent_by false s = [] → send_at s
  | st_idle b taken : u_send s = SIdle b → stdin = taken ++ u_stdin s → (sizeof_header <= length b)%nat → take sizeof_header b = hdr →
      sent_by false s = forwards info hdr taken → send_at s
  | st_sending b taken pend : u_send s = SSending b pend → stdin = taken ++ u_stdin s → (sizeof_header <= length b)%nat →
      take sizeof_header b = hdr → sent_by false s ++ pend = forwards info hdr taken → send_at s
  | st_end taken : u_send s = SEnded → stdin = taken ++ u_stdin s → sent_by false s = forwards info hdr taken → send_at s.

(** Only the last message brings the counter of the exit reports to 0. *)
Lemma before_last hist x y todo : all = hist ++ x :: y :: todo → alen (statuses (hist ++ [x])) < i_nnodes info.
Proof.
  intros H. destruct (exists_last (l := y :: todo) ltac:(done)) as (m & z & Hz).
  assert (z = last ∧ all = hist ++ [x] ++ m ++ [last]) as [-> Hall].
  { rewrite Hz in H. rewrite (app_comm_cons m), app_assoc in H. pose proof H as H2. apply app_inj_tail in H as [_ <-]. split; [done|].
    by rewrite H2, <- app_assoc. }
  rewrite <- Hcnt, Hall, app_assoc, app_assoc, (statuses_snoc ((hist ++ [x]) ++ m)), Hlast. unfold statuses. rewrite !omap_app, !alen_app.
  change (alen [status]) with 1. unfold alen. lia.
Qed.

(** *** The steps of the receiver *)

(** A step of another thread. *)
Lemma recv_same s s' : u_recv s' = u_recv s → u_in s' = u_in s → sent_by true s' = sent_by true s → recv_at s → recv_at s'.
Proof.
  intros H1 H2 H3 []; [eapply at_start|eapply at_idle|eapply at_sending|eapply at_ending|eapply at_end];
    rewrite ?H1, ?H2, ?H3; eassumption.
Qed.

Lemma send_same s s' : u_send s' = u_send s → u_stdin s' = u_stdin s → sent_by false s' = sent_by false s → send_at s → send_at s'.
Proof.
  intros H1 H2 H3 []; [eapply st_start|eapply st_idle|eapply st_sending|eapply st_end];
    rewrite ?H1, ?H2, ?H3; eassumption.
Qed.

Lemma recv_at_step s : recv_at s → recv_at (recv_step info services buffer reply s).
Proof.
  intros H. pose proof H as H0. unfold recv_step.
  destruct H as [[E|E] Hin Hlog|r hist x todo E Hall Hin Hinv Hlog|r hist x todo pend E Hall Hin Hinv Hlog|r pend E Hin Hinv Hlog|r E Hin Hinv Hlog];
    rewrite E; try done.
  - unfold rpc_init. rewrite Hinit. cbn [negb Z.eqb].
    assert (Hne : ∃ x l, all = x :: l) by (generalize msgs; intros [|x l]; by eexists _, _). destruct Hne as (x & l & Hne).
    eapply (at_idle _ _ [] x l); [reflexivity|exact Hne|by cbn; rewrite Hin, Hne|by apply recv_inv_init|exact Hlog].
  - assert (Hx : message_ok x ∧ no_allocator services x).
    { rewrite Forall_forall in Hok, Hrpc. assert (x ∈ all) by (rewrite Hall; set_solver). by split; [apply Hok|apply Hrpc]. }
    destruct (recv_turn payload_fits info services hist x (todo ++ rest) r (mk_rawsim (u_in s) [] []) Hnodes Hnn Hinv (proj1 Hx) (proj2 Hx) Hin)
      as (r' & Hturn & Hinv'). rewrite Hturn, after_fresh. cbn [rs_log rs_in].
    assert (Hre : reactions info services [] (hist ++ [x]) = reactions info services [] hist ++ reaction info services hist x).
    { rewrite reactions_app. cbn. by rewrite app_nil_r. }
    destruct todo as [|y todo].
    + assert (E2 : kind x = KExit status ∧ (i_nnodes info =? alen (statuses (hist ++ [x]))) = true).
      { apply app_inj_tail in Hall as H2. destruct H2 as [_ ->]. split; [done|]. rewrite <- Hall, Hcnt. apply Z.eqb_refl. }
      destruct E2 as [-> ->]. eapply at_ending; [reflexivity|done|by rewrite Hall|].
      cbn. unfold sent_by in Hlog |- *. cbn [u_log with_recv with_in]. by rewrite Hlog, Hall, Hre.
    + pose proof (before_last hist x y todo Hall) as Hlt.
      assert (E2 : (match kind x with KExit _ => if i_nnodes info =? alen (statuses (hist ++ [x])) then inr r' else inl r' | _ => inl r' end) = inl r').
      { destruct (kind x); try done. destruct (Z.eqb_spec (i_nnodes info) (alen (statuses (hist ++ [x])))); [lia|done]. }
      rewrite E2. eapply (at_sending _ r' (hist ++ [x]) y todo); [reflexivity|by rewrite Hall, <- app_assoc|done|done|].
      unfold sent_by in Hlog |- *. cbn [u_log with_recv with_in]. by rewrite Hlog, Hre.
  - destruct pend as [|m pend].
    + eapply at_idle; [reflexivity|done|done|done|]. by rewrite app_nil_r in Hlog.
    + eapply at_sending; [reflexivity|done|done|done|]. unfold sent_by in Hlog |- *. cbn [u_log with_recv gives].
      rewrite omap_app, <- app_assoc. cbn. done.
  - destruct pend as [|m pend].
    + eapply at_end; [reflexivity|done|done|]. by rewrite app_nil_r in Hlog.
    + eapply at_ending; [reflexivity|done|done|]. unfold sent_by in Hlog |- *. cbn [u_log with_recv gives].
      rewrite omap_app, <- app_assoc. cbn. done.
Qed.

(** *** The steps of the sender *)

Lemma send_at_step s : send_at s → send_at (send_step info sbuffer s).
Proof.
  intros H. pose proof H as H0. unfold send_step.
  destruct H as [[E|E] Hin Hlog|b taken E Hin Hb Hh Hlog|b taken pend E Hin Hb Hh Hlog|taken E Hin Hlog]; rewrite E; try done.
  - destruct (take_set_command CMD_RECV_FROM_STDIN sbuffer Hsbuf) as [Hlen _].
    apply (st_idle _ (set_command CMD_RECV_FROM_STDIN sbuffer) []); [reflexivity|by rewrite <- Hin|by rewrite Hlen|done|exact Hlog].
  - destruct (u_event s); [by apply (st_end _ taken)|].
    destruct (u_stdin s) as [|x l] eqn:Ein; [done|].
    destruct (sender_turn_run info b hdr x l Hnodes Hb Hh) as (res & Hturn & Hres). rewrite Hturn. cbn [rs_log].
    assert (Hsplit : stdin = (taken ++ [x]) ++ l) by (by rewrite Hin, <- app_assoc).
    destruct res as [b'|[]].
    + destruct Hres as [Hb' Hh']. apply (st_sending _ b' (taken ++ [x]) (forward info hdr x)); try done.
      unfold sent_by in Hlog |- *. cbn [u_log with_send with_stdin]. by rewrite Hlog, forwards_snoc.
    + apply (st_end _ (taken ++ [x])); try done. rewrite forwards_snoc, Hres, app_nil_r. exact Hlog.
  - destruct pend as [|m pend].
    + apply (st_idle _ b taken); try done. by rewrite app_nil_r in Hlog.
    + apply (st_sending _ b taken pend); try done. unfold sent_by in Hlog |- *. cbn [u_log with_send gives].
      rewrite omap_app, <- app_assoc. cbn. done.
Qed.

(** *** The main thread *)

Definition recv_ended (s : mastersys) : Prop := match u_recv s with REnded _ => True | _ => False end.
Definition redirects : bool := has services REDIRECT_SERVICE.

(** What the place of the main thread says about the other two. *)
Definition main_at (s : mastersys) : Prop :=
  match u_main s with
  | JCreateRecv => u_recv s = RNot ∧ u_send s = SNot
  | JCreateSend => u_recv s ≠ RNot ∧ u_send s = SNot
  | JHandler | JRecv => u_recv s ≠ RNot ∧ (redirects = true ↔ u_send s ≠ SNot)
  | JTerminate => recv_ended s ∧ redirects = true ∧ u_send s ≠ SNot
  | JSend => recv_ended s ∧ redirects = true ∧ u_send s ≠ SNot ∧ u_event s = true
  | JDone => recv_ended s ∧ u_send s = if redirects then SEnded else SNot
  | JExit => True
  end.

Record run_at (s : mastersys) : Prop := {
  ra_recv : recv_at s;
  ra_send : send_at s;
  ra_main : main_at s
}.

Lemma recv_step_keeps s :
  let s' := recv_step info services buffer reply s in
  u_main s' = u_main s ∧ u_send s' = u_send s ∧ u_event s' = u_event s ∧ u_stdin s' = u_stdin s ∧
  sent_by false s' = sent_by false s ∧ (u_recv s ≠ RNot → u_recv s' ≠ RNot) ∧ (u_recv s = RNot → u_recv s' = RNot) ∧
  (recv_ended s → recv_ended s').
Proof.
  unfold recv_step, recv_ended. destruct (u_recv s) as [| |r|res pend|r] eqn:E.
  - by split_and!.
  - unfold rpc_init. rewrite Hinit. by split_and!.
  - generalize (master_turn info r (mk_rawsim (u_in s) [] [])). intros [res d|w d]; split_and!; try done; by rewrite E.
  - destruct pend as [|m pend]; [by destruct res; split_and!|]. assert (Hsent : ∀ x, sent_by false (with_recv x (gives true m s)) = sent_by false s)
      by (intros x; unfold sent_by, gives; cbn; rewrite omap_app; cbn; by rewrite app_nil_r).
    destruct res; split_and!; done.
  - split_and!; try done; by rewrite E.
Qed.

Lemma send_step_keeps s : let s' := send_step info sbuffer s in
  u_main s' = u_main s ∧ u_recv s' = u_recv s ∧ u_event s' = u_event s ∧ u_in s' = u_in s ∧
  sent_by true s' = sent_by true s ∧ (u_send s ≠ SNot → u_send s' ≠ SNot) ∧ (u_send s = SNot → u_send s' = SNot) ∧
  (u_send s = SEnded → u_send s' = SEnded).
Proof.
  unfold send_step. destruct (u_send s) as [| |b|b [|m todo]|] eqn:E; try (split_and!; (done || by rewrite E)).
  - destruct (u_event s) eqn:Ee; [by split_and!|].
    generalize (master_sender_turn info b (u_stdin s, mk_rawsim [] [] [])). intros [[b'|u] [l d]|w d]; split_and!; try done; by rewrite E.
  - split_and!; try done. unfold sent_by, gives. cbn. rewrite omap_app. cbn. by rewrite app_nil_r.
Qed.

Lemma ended_not_new s : recv_ended s → u_recv s ≠ RNot.
Proof. unfold recv_ended. by destruct (u_recv s). Qed.

Lemma recv_run_at s : run_at s → u_main s ≠ JExit → run_at (recv_step info services buffer reply s).
Proof.
  intros [Hr Ht Hm] _. destruct (recv_step_keeps s) as (K1 & K2 & K3 & K4 & K5 & K6 & K7 & K8).
  constructor; [by apply recv_at_step|by apply (send_same s)|].
  unfold main_at in *. rewrite K1, ?K2, ?K3. destruct (u_main s); intuition.
Qed.

Lemma send_run_at s : run_at s → u_main s ≠ JExit → run_at (send_step info sbuffer s).
Proof.
  intros [Hr Ht Hm] _. destruct (send_step_keeps s) as (K1 & K2 & K3 & K4 & K5 & K6 & K7 & K8).
  assert (K9 : recv_ended s → recv_ended (send_step info sbuffer s)) by (unfold recv_ended; by rewrite K2).
  constructor; [by apply (recv_same s)|by apply send_at_step|].
  unfold main_at in *. rewrite K1, ?K2, ?K3. destruct (u_main s), redirects; intuition.
Qed.

Lemma join_run_at s : run_at s → run_at (join_step services makes_recv makes_send s).
Proof.
  intros Hs. pose proof Hs as [Hr Ht Hm]. unfold join_step, main_at in *.
  (* Only the place of the main thread changes. *)
  assert (Hmain : ∀ m, main_at (with_main m s) → run_at (with_main m s)).
  { intros m H. constructor; [by apply (recv_same s)|by apply (send_same s)|exact H]. }
  assert (Hred : has services REDIRECT_SERVICE = redirects) by done.
  destruct (u_main s) eqn:Em; try done.
  - destruct Hm as [H1 H2]. destruct makes_recv; [|by apply Hmain]. constructor; [|by apply (send_same s)|by cbn].
    destruct Hr as [_ Hin Hlog|r ? ? ? E|r ? ? ? ? E|r ? E|r E]; try congruence. eapply at_start; [by right|done|done].
  - destruct Hm as [H1 H2]. rewrite Hred. destruct redirects eqn:Er.
    + destruct makes_send; [|by apply Hmain]. constructor; [by apply (recv_same s)| |unfold main_at; cbn; by rewrite Er].
      destruct Ht as [_ Hin Hlog|b ? E|b ? ? E|? E]; try congruence. eapply st_start; [by right|done|done].
    + apply Hmain. unfold main_at. cbn. rewrite Er. intuition congruence.
  - by apply Hmain.
  - destruct (u_recv s) eqn:Eu; try done. rewrite Hred. apply Hmain. unfold main_at, recv_ended.
    destruct redirects eqn:Er; cbn; rewrite Eu; intuition.
    destruct (u_send s); try done; exfalso; intuition congruence.
  - destruct Hm as (H1 & H2 & H3). constructor; [by apply (recv_same s)|by apply (send_same s)|by cbn].
  - destruct (u_send s) eqn:Eu; try done. apply Hmain. unfold main_at. cbn. destruct Hm as (H1 & H2 & _). by rewrite H2.
Qed.

Lemma run_at_step a s : run_at s → run_at (step a s).
Proof.
  intros H. unfold mactor_step. destruct (u_main s) eqn:E; try done; destruct a;
    solve [by apply join_run_at|apply recv_run_at; by rewrite ?E|apply send_run_at; by rewrite ?E].
Qed.

Lemma run_at_run l s : run_at s → run_at (run l s).
Proof. revert s. induction l as [|a l IH]; intros s H; [done|]. cbn. apply IH. by apply run_at_step. Qed.

Lemma run_at_start : run_at s0.
Proof. constructor; [by apply at_start; [left|..]|by apply st_start; [left|..]|done]. Qed.

(** *** What is left to do *)

Definition main_todo (m : mstate) : Z :=
  match m with JCreateRecv => 6 | JCreateSend => 5 | JHandler => 4 | JRecv => 3 | JTerminate => 2 | JSend => 1 | JDone | JExit => 0 end.
Definition recv_todo (s : mastersys) : Z :=
  let n := 2 * (alen (u_in s) - alen rest) + (alen (reactions info services [] all) - alen (sent_by true s)) in
  match u_recv s with RNot => n + 3 | RCreated => n + 2 | RIdle _ => n + 1 | RSending _ _ => n + 2 | REnded _ => 0 end.
Definition send_todo (s : mastersys) : Z :=
  let n := 2 * alen (u_stdin s) + (alen (forwards info hdr stdin) - alen (sent_by false s)) in
  match u_send s with SNot => n + 3 | SCreated => n + 2 | SIdle _ => n + 1 | SSending _ _ => n + 2 | SEnded => 0 end.
Definition sys_todo (s : mastersys) : Z := main_todo (u_main s) + recv_todo s + send_todo s.

(** What has been sent is part of what is to be sent. *)
Lemma recv_bounds s : recv_at s → 0 <= alen (u_in s) - alen rest ∧ 0 <= alen (reactions info services [] all) - alen (sent_by true s).
Proof.
  assert (Hpre : ∀ hist l, all = hist ++ l → alen (reactions info services [] hist) <= alen (reactions info services [] all)).
  { intros hist l ->. rewrite reactions_app, alen_app. unfold alen. lia. }
  assert (Happ : ∀ a b c : list (Z * Z * list Z), a ++ b = c → alen a <= alen c) by (intros a b c <-; rewrite alen_app; unfold alen; lia).
  intros [_ -> ->|r hist x todo _ Hall -> _ ->|r hist x todo pend _ Hall -> _ Hlog|r pend _ -> _ Hlog|r _ -> _ ->].
  - rewrite !alen_app. unfold alen. cbn. lia.
  - specialize (Hpre _ _ Hall). change (x :: todo ++ rest) with ((x :: todo) ++ rest). rewrite alen_app. unfold alen in *. lia.
  - specialize (Hpre _ _ Hall). apply Happ in Hlog. change (x :: todo ++ rest) with ((x :: todo) ++ rest). rewrite alen_app. unfold alen in *. lia.
  - apply Happ in Hlog. lia.
  - lia.
Qed.

Lemma send_bounds s : send_at s → 0 <= alen (forwards info hdr stdin) - alen (sent_by false s).
Proof.
  assert (Hpre : ∀ taken l, stdin = taken ++ l → alen (forwards info hdr taken) <= alen (forwards info hdr stdin)).
  { intros taken l ->. unfold forwards. rewrite fmap_app, concat_app, alen_app. unfold alen. lia. }
  assert (Happ : ∀ a b c : list (Z * Z * list Z), a ++ b = c → alen a <= alen c) by (intros a b c <-; rewrite alen_app; unfold alen; lia).
  intros [_ _ ->|b taken _ Hin _ _ ->|b taken pend _ Hin _ _ Hlog|taken _ Hin ->]; try (apply Hpre in Hin); try apply Happ in Hlog; unfold alen in *; cbn [length]; lia.
Qed.

Lemma todo_nonneg s : run_at s → 0 <= sys_todo s.
Proof.
  intros [Hr Ht _]. pose proof (recv_bounds s Hr). pose proof (send_bounds s Ht). unfold sys_todo, recv_todo, send_todo.
  assert (0 <= main_todo (u_main s)) by (destruct (u_main s); cbn; lia). pose proof (Nat2Z.is_nonneg (length (u_stdin s))).
  unfold alen in *. destruct (u_recv s), (u_send s); lia.
Qed.

Lemma sent_same who s s' : u_log s' = u_log s → sent_by who s' = sent_by who s.
Proof. unfold sent_by. by intros ->. Qed.

#[local] Ltac todo_lia :=
  unfold sys_todo, recv_todo, send_todo;
  repeat (rewrite sent_gives || match goal with |- context [sent_by ?w (?f ?x ?s)] => change (sent_by w (f x s)) with (sent_by w s) end);
  cbn [u_main u_recv u_send u_in u_stdin with_main with_recv with_send with_in with_stdin gives Bool.eqb];
  rewrite ?alen_app; change (alen [?m]) with 1; change (alen []) with 0; unfold alen in *; cbn [length main_todo]; rewrite ?length_app, ?Z.add_0_r;
  repeat match goal with E : u_recv _ = _ |- _ => rewrite E; clear E | E : u_send _ = _ |- _ => rewrite E; clear E | E : u_main _ = _ |- _ => rewrite E; clear E end;
  cbn [main_todo]; lia.

Lemma recv_moves s : run_at s → u_recv s ≠ RNot → ¬ recv_ended s →
  sys_todo (recv_step info services buffer reply s) < sys_todo s.
Proof.
  intros [Hr Ht _] Hnot Hend. pose proof (recv_bounds s Hr) as [B1 B2]. unfold recv_ended in Hend. unfold recv_step.
  destruct Hr as [[E|E] Hin Hlog|r hist x todo E Hall Hin Hinv Hlog|r hist x todo pend E Hall Hin Hinv Hlog|r pend E Hin Hinv Hlog|r E Hin Hinv Hlog];
    rewrite E in *; try done.
  - unfold rpc_init. rewrite Hinit. cbn [negb Z.eqb]. todo_lia.
  - assert (Hx : message_ok x ∧ no_allocator services x).
    { rewrite Forall_forall in Hok, Hrpc. assert (x ∈ all) by (rewrite Hall; set_solver). by split; [apply Hok|apply Hrpc]. }
    destruct (recv_turn payload_fits info services hist x (todo ++ rest) r (mk_rawsim (u_in s) [] []) Hnodes Hnn Hinv (proj1 Hx) (proj2 Hx) Hin)
      as (r' & Hturn & _). rewrite Hturn, after_fresh. cbn [rs_log rs_in].
    apply (f_equal length) in Hin. cbn [length] in Hin. rewrite length_app in Hin. todo_lia.
  - destruct pend; todo_lia.
  - destruct pend; todo_lia.
Qed.

Lemma send_moves s : run_at s → u_send s ≠ SNot → u_send s ≠ SEnded →
  send_step info sbuffer s = s ∧ u_event s = false ∨ sys_todo (send_step info sbuffer s) < sys_todo s.
Proof.
  intros [Hr Ht _] Hnot Hend. pose proof (send_bounds s Ht) as B. unfold send_step.
  destruct Ht as [[E|E] Hin Hlog|b taken E Hin Hb Hh Hlog|b taken pend E Hin Hb Hh Hlog|taken E Hin Hlog]; rewrite E in *; try done.
  - right. todo_lia.
  - destruct (u_event s) eqn:Ee; [right; todo_lia|]. destruct (u_stdin s) as [|x l] eqn:Ein; [by left|]. right.
    destruct (sender_turn_run info b hdr x l Hnodes Hb Hh) as (res & Hturn & Hres). rewrite Hturn. cbn [rs_log].
    apply (f_equal length) in Ein. cbn [length] in Ein. destruct res; todo_lia.
  - right. destruct pend; todo_lia.
Qed.

(** *** Every run ends *)

Lemma join_progress s : run_at s → u_main s ≠ JExit →
  let s' := join_step services makes_recv makes_send s in
  s' = s ∧ (u_main s = JDone ∨ u_main s = JRecv ∧ ¬ recv_ended s ∨ u_main s = JSend ∧ u_send s ≠ SEnded) ∨ sys_todo s' < sys_todo s.
Proof.
  intros [Hr Ht Hm] Hx. pose proof (recv_bounds s Hr) as [B1 B2]. pose proof (send_bounds s Ht) as B3. unfold join_step, recv_ended, main_at in *.
  destruct (u_main s) eqn:Em; try done; try (right; todo_lia).
  - right. destruct Hm as [Er Es]. destruct makes_recv; todo_lia.
  - right. destruct Hm as [Er Es]. destruct (has services REDIRECT_SERVICE); [destruct makes_send|]; todo_lia.
  - destruct (u_recv s) eqn:Er; try (left; split; [done|tauto]). right. destruct (has services REDIRECT_SERVICE); todo_lia.
  - right. unfold sys_todo, recv_todo, send_todo. change (sent_by ?w (mk_mastersys _ _ _ _ _ _ (u_log s))) with (sent_by w s).
    rewrite Em. cbn [u_main u_recv u_send u_in u_stdin main_todo]. lia.
  - destruct (u_send s) eqn:Es; try (left; split; [done|right; right; by split]). right. todo_lia.
  - by left; split; [|left].
Qed.

Lemma mstep_progress a s : run_at s → step a s = s ∨ sys_todo (step a s) < sys_todo s.
Proof.
  intros H. unfold mactor_step. destruct (decide (u_main s = JExit)) as [E|E]; [left; by rewrite E|].
  assert (Hmain : ∀ x y : mastersys, match u_main s with JExit => x | _ => y end = y) by (by destruct (u_main s)). rewrite Hmain.
  destruct a.
  - destruct (join_progress s H E) as [[Hs _]|]; [by left|by right].
  - destruct (u_recv s) eqn:Er; [left; unfold recv_step; by rewrite Er|..|left; unfold recv_step; by rewrite Er];
      right; apply recv_moves; unfold recv_ended; rewrite ?Er; try done; tauto.
  - destruct (u_send s) eqn:Es; [left; unfold send_step; by rewrite Es|..|left; unfold send_step; by rewrite Es];
      (destruct (send_moves s H) as [[Hs _]|]; [by rewrite Es..|by left|by right]).
Qed.

(** As long as the main thread has not finished, somebody can go on. *)
Lemma someone_moves s : run_at s → u_main s ≠ JDone → u_main s ≠ JExit → ∃ a, sys_todo (step a s) < sys_todo s.
Proof.
  intros H Hd Hx. pose proof H as [_ _ Hm].
  assert (Hmain : ∀ x y : mastersys, match u_main s with JExit => x | _ => y end = y) by (by destruct (u_main s)).
  destruct (join_progress s H Hx) as [[_ [Hj|[[Hj Hj2]|[Hj Hj2]]]]|Hj]; [done|..].
  - exists ActRecv. unfold mactor_step. rewrite Hmain. apply recv_moves; try done. unfold main_at in Hm. rewrite Hj in Hm. apply Hm.
  - exists ActSend. unfold mactor_step. rewrite Hmain. unfold main_at in Hm. rewrite Hj in Hm. destruct Hm as (_ & _ & Hn & He).
    destruct (send_moves s H Hn Hj2) as [[_ Hs]|]; [congruence|done].
  - exists ActMain. unfold mactor_step. by rewrite Hmain.
Qed.

Lemma run_less l s : run_at s → sys_todo (run l s) <= sys_todo s.
Proof.
  revert s. induction l as [|a l IH]; intros s H; [done|]. cbn. etransitivity; [apply IH; by apply run_at_step|].
  destruct (mstep_progress a s H) as [->|]; lia.
Qed.

Lemma run_moves a l s : run_at s → a ∈ l → sys_todo (step a s) < sys_todo s → sys_todo (run l s) < sys_todo s.
Proof.
  induction l as [|b l IH] in s |- *; intros H Hin Ha; [by apply not_elem_of_nil in Hin|]. cbn.
  assert (Hl : sys_todo (run l (step b s)) <= sys_todo (step b s)) by (apply run_less; by apply run_at_step).
  destruct (mstep_progress b s H) as [E|E]; [|change (foldl _ _ l) with (run l (step b s)); lia]. rewrite E. apply IH; try done.
  apply elem_of_cons in Hin as [->|]; [rewrite E in Ha; lia|done].
Qed.

(** The main thread has finished, or the process has exited. *)
Definition over (s : mastersys) : Prop := u_main s = JDone ∨ u_main s = JExit.
#[local] Instance over_dec s : Decision (over s).
Proof. unfold over. apply _. Defined.

Lemma over_stays a s : over s → over (step a s).
Proof.
  intros [E|E]; unfold over, mactor_step; rewrite E; [|by right]. left. destruct a.
  - unfold join_step. by rewrite E.
  - by rewrite (proj1 (recv_step_keeps s)).
  - by rewrite (proj1 (send_step_keeps s)).
Qed.

Lemma over_run l s : over s → over (run l s).
Proof. revert s. induction l as [|a l IH]; intros s H; [done|]. cbn. apply IH. by apply over_stays. Qed.

Lemma rounds_over rounds s : run_at s → Forall (fun l => ∀ a, a ∈ l) rounds → sys_todo s <= alen rounds → over (run (concat rounds) s).
Proof.
  induction rounds as [|l rounds IH] in s |- *; intros H Hr Hlen.
  - cbn. destruct (decide (over s)) as [|Hn]; [done|]. destruct (someone_moves s H) as [a Ha]; [intros E; apply Hn; by left|intros E; apply Hn; by right|].
    pose proof (todo_nonneg _ (run_at_step a s H)). unfold alen in Hlen. cbn in Hlen. lia.
  - apply Forall_cons in Hr as [Hl Hr]. cbn [concat]. unfold run_master. rewrite foldl_app. change (over (run (concat rounds) (run l s))).
    destruct (decide (over s)) as [Ho|Hn]; [by apply over_run, over_run|].
    destruct (someone_moves s H) as [a Ha]; [intros E; apply Hn; by left|intros E; apply Hn; by right|].
    apply IH; [by apply run_at_run|done|]. pose proof (run_moves a l s H (Hl a) Ha). unfold alen in *. cbn [length] in Hlen. lia.
Qed.

Lemma no_exit l s : makes_recv = true → makes_send = true → u_main s ≠ JExit → u_main (run l s) ≠ JExit.
Proof.
  intros Hr Hs. revert s. induction l as [|a l IH]; intros s H; [done|]. cbn. apply IH.
  unfold mactor_step. destruct a, (u_main s) eqn:E; try done; try (by rewrite (proj1 (recv_step_keeps s)), E); try (by rewrite (proj1 (send_step_keeps s)), E);
    unfold join_step; rewrite E, ?Hr, ?Hs; (repeat case_match; cbn; congruence).
Qed.

Lemma recv_prefix s : recv_at s → ∃ more, reactions info services [] all = sent_by true s ++ more.
Proof.
  intros [_ _ ->|r hist x todo _ Hall _ _ ->|r hist x todo pend _ Hall _ _ Hlog|r pend _ _ _ Hlog|r _ _ _ ->].
  - by eexists.
  - rewrite Hall, reactions_app. by eexists.
  - rewrite Hall, reactions_app, <- Hlog, <- app_assoc. by eexists.
  - rewrite <- Hlog. by eexists.
  - exists []. by rewrite app_nil_r.
Qed.

Lemma send_prefix s : send_at s → ∃ more, forwards info hdr stdin = sent_by false s ++ more.
Proof.
  assert (Happ : ∀ a b, stdin = a ++ b → forwards info hdr stdin = forwards info hdr a ++ forwards info hdr b).
  { intros a b ->. unfold forwards. by rewrite fmap_app, concat_app. }
  intros [_ _ ->|b taken _ Hin _ _ ->|b taken pend _ Hin _ _ Hlog|taken _ Hin ->]; [by eexists|..]; rewrite (Happ _ _ Hin); [by eexists| |by eexists].
  rewrite <- Hlog, <- app_assoc. by eexists.
Qed.

(** What an ended receiver has left. *)
Lemma flushed_end r : recv_inv info services all r →
  m_exit_status (flushed info r) = exit_after (i_flags info) (has services EXIT_SERVICE) (statuses all) ∧
  written (i_flags info) (outputs services false all) = Some (m_out (flushed info r)) ∧
  written (i_flags info) (outputs services true all) = Some (m_err (flushed info r)).
Proof.
  intros [_ _ _ Hst _ Ho He _]. unfold written. rewrite Ho, He. cbn [mbind option_bind]. unfold flushed.
  destruct (flush (m_infoout r) _ _) as [o oi]. cbn [m_infoerr set_m_stdout]. by destruct (flush (m_infoerr r) _ _) as [e ei].
Qed.

(** C6. The threads of the master, for every order in which the main thread, the
    receiver and the sender of the standard input take their steps.  Whatever the
    order is, the device gets from the receiver nothing but the reactions to the
    messages and from the sender nothing but the pieces of the standard input, each
    in their order.  The messages are those of C22: no call for the allocator while
    the service for remote calls is on, pings are answered.  When [manage_master_services] returns, its result is the exit
    status of the reports, all reactions have been given to the device, all output
    has been written, and the sender has ended after whole pieces of the input.
    When the threads can be created it returns, after so many rounds in which every
    thread takes a step, also when the input never ends. *)
Theorem master_threads l : let s := run l s0 in
  (∃ more, reactions info services [] all = sent_by true s ++ more) ∧
  (∃ more, forwards info hdr stdin = sent_by false s ++ more) ∧
  (∀ st, master_result s = Some st →
     st = exit_after (i_flags info) (has services EXIT_SERVICE) (statuses all) ∧
     sent_by true s = reactions info services [] all ∧ u_in s = rest ∧
     (∃ r, u_recv s = REnded r ∧ written (i_flags info) (outputs services false all) = Some (m_out r) ∧
        written (i_flags info) (outputs services true all) = Some (m_err r)) ∧
     ∃ taken, stdin = taken ++ u_stdin s ∧ sent_by false s = forwards info hdr taken ∧
        (has services REDIRECT_SERVICE = false → taken = [])) ∧
  (makes_recv = true → makes_send = true → ∀ rounds, l = concat rounds → Forall (fun acts => ∀ a, a ∈ acts) rounds →
     12 + 2 * alen all + alen (reactions info services [] all) + 2 * alen stdin + alen (forwards info hdr stdin) <= alen rounds →
     ∃ st, master_result s = Some st).
Proof.
  intros s. assert (H : run_at s) by apply run_at_run, run_at_start. pose proof H as [Hr Ht Hm].
  split; [by apply recv_prefix|]. split; [by apply send_prefix|]. split.
  - intros st Hres. unfold master_result in Hres. unfold main_at, recv_ended in Hm. destruct (u_main s) eqn:Em; try done.
    destruct (u_recv s) as [| | | |r'] eqn:Er; try done. injection Hres as <-. destruct Hm as [_ Hs].
    destruct Hr as [[E|E]|? ? ? ? E|? ? ? ? ? E|? ? E|r E Hin Hinv Hlog]; try congruence.
    assert (r' = flushed info r) as -> by congruence. destruct (flushed_end r Hinv) as (H1 & H2 & H3).
    split; [done|]. split; [done|]. split; [done|]. split; [by exists (flushed info r)|].
    destruct Ht as [_ Hi Hl|b ? E2|b ? ? E2|taken E2 Hi Hl]; try (destruct redirects; congruence).
    + exists []. by rewrite Hi.
    + exists taken. split; [done|]. split; [done|]. intros Hno. unfold redirects in Hs. rewrite Hno in Hs. congruence.
  - intros Hmr Hms rounds -> Hrounds Hlen.
    assert (Hover : over s).
    { apply rounds_over; [by apply run_at_start|done|]. unfold sys_todo, recv_todo, send_todo, sent_by. cbn [mastersys0 u_main u_recv u_send u_in u_stdin u_log main_todo omap list_omap].
      rewrite alen_app. change (alen []) with 0. lia. }
    destruct Hover as [Ho|Ho]; [|exfalso; revert Ho; by apply no_exit]. unfold master_result, main_at, recv_ended in *. rewrite Ho in *.
    destruct (u_recv s); try (by destruct Hm). by eexists.
Qed.
End Runs.

(** ** Evaluation *)

Section Examples.
#[local] Instance ex_nic : NicConsts := nic8.
#[local] Existing Instance nic8_ok.
#[local] Instance ex_run : RunConsts := {|
  AXIOM_RAW_PAYLOAD_MAX_SIZE := 128; SIZE_BITS := 8; AXIOM_CMD_ALLOC_REPLY := 32 |}.
#[local] Instance ex_run_ok : RunConstsOk.
Proof. split; vm_compute; done. Qed.
#[local] Instance ex_stdio : Stdio := {| BUFSIZ := 8192 |}.
#[local] Instance ex_alloc : Allocator rawsim := {|
  axiom_al2_init _ := mret 0;
  axiom_al2_release := mret tt;
  axiom_al2_alloc _ _ raw := mret (0, raw);
  axiom_al2_get_regions _ _ raw := mret (1, raw);
  axiom_al2_alloc_shblock _ _ raw := mret (1, raw);
  axiom_al2_alloc_reply _ _ := mret (1, [])
|}.

(** The messages of two nodes, and a standard input that is at its end after one
    piece: [read] returns 0 again and again. *)
Definition ex_header (c v : Z) : list Z := [c; 0; 0; 0] ++ le_put 4 v ++ replicate 12 0.
Definition ex_info : minfo := mk_minfo 6 2 0 0 6 5.
Definition ex_msgs : list (Z * Z * list Z) := [
  (0, 1, ex_header CMD_BARRIER 3);
  (0, 2, ex_header CMD_SEND_TO_STDOUT 0 ++ [104; 105; 10]);
  (-1, 0, ex_header 0 0);
  (0, 2, ex_header CMD_BARRIER 3);
  (0, 1, ex_header CMD_EXIT 0)].
Definition ex_last : Z * Z * list Z := (0, 2, ex_header CMD_EXIT 256).
Definition ex_stdin : list sel_result := ReadData [104; 105] :: replicate 9 (ReadData []).
Definition ex_rounds (n : nat) : list (list mactor) := replicate n [ActSend; ActMain; ActRecv].
Definition ex_master_run (l : list mactor) : mastersys :=
  run_master ex_info 0x07 true true (replicate 128 0) (replicate 128 0) (mk_rpc_reply 0 0 []) l
    (mastersys0 ((ex_msgs ++ [ex_last]) ++ []) ex_stdin).

Lemma ex_messages_ok : Forall message_ok (ex_msgs ++ [ex_last]).
Proof.
  repeat (apply Forall_cons; split; [split_and!; try (vm_compute; done); by apply (bool_decide_unpack _)|]).
  constructor.
Qed.

Lemma master_threads_witness :
  master_result (ex_master_run (concat (ex_rounds 60))) = Some 256 ∧
  sent_by true (ex_master_run (concat (ex_rounds 60))) =
    [(1, 6, ex_header CMD_BARRIER 3); (2, 6, ex_header CMD_BARRIER 3); (1, 6, ex_header CMD_KILL 0); (2, 6, ex_header CMD_KILL 0)].
Proof.
  assert (Hfits : AXIOM_RAW_PAYLOAD_MAX_SIZE <= BUFSIZ) by (vm_compute; discriminate).
  assert (Hnodes : 0 <= i_nodes ex_info < 2 ^ 64) by (vm_compute; split; [discriminate|reflexivity]).
  assert (Hnn : 0 < i_nnodes ex_info) by (vm_compute; reflexivity).
  assert (Hsb : (sizeof_header <= length (replicate 128 0))%nat) by (vm_compute; lia).
  assert (Hrpc : Forall (no_allocator 0x07) (ex_msgs ++ [ex_last])) by (repeat constructor).
  assert (Hr : Forall (fun acts => ∀ a, a ∈ acts) (ex_rounds 60)) by (apply Forall_replicate; intros []; set_solver).
  assert (Hlen : 12 + 2 * alen (ex_msgs ++ [ex_last]) + alen (reactions ex_info 0x07 [] (ex_msgs ++ [ex_last])) + 2 * alen ex_stdin +
    alen (forwards ex_info (take sizeof_header (set_command CMD_RECV_FROM_STDIN (replicate 128 0))) ex_stdin) <= alen (ex_rounds 60))
    by (vm_compute; discriminate).
  assert (Hcnt : alen (statuses (ex_msgs ++ [ex_last])) = i_nnodes ex_info) by (vm_compute; reflexivity).
  unfold ex_master_run. revert Hr Hlen. generalize (ex_rounds 60) as rounds. intros rounds Hr Hlen.
  destruct (master_threads (CN := nic8) (AL := ex_alloc) Hfits ex_info 0x07 true true (replicate 128 0) (replicate 128 0) (mk_rpc_reply 0 0 []) ex_msgs ex_last 256 [] ex_stdin
    Hnodes Hnn eq_refl Hsb (fun _ => eq_refl) ex_messages_ok Hrpc eq_refl Hcnt (concat rounds)) as (_ & _ & Hres & Hlive).
  destruct (Hlive eq_refl eq_refl rounds eq_refl Hr Hlen) as [st Hst].
  destruct (Hres st Hst) as (H1 & H2 & _). split; [|exact H2]. refine (eq_trans Hst _). rewrite H1. vm_compute. reflexivity.
Defined.
End Examples.
