(* ===== verification/Log.v ===== *)
(** * Logging (axiom_common_library/logmsg.c and the macros of axiom_common.h)

    Which messages are emitted and where, from the three variables of the
    environment; and the output of a message in a signal handler, which takes the
    writes of the system as they come. *)

From S2P Require Import Prelude Nic Output RunMsg Master Slave Barrier Text Sched RunNodes RunMain RunStart RunLib.

Definition LOG_NOLOG : Z := -1.
Definition LOG_FATAL : Z := 0.
Definition LOG_ERROR : Z := 1.
Definition LOG_WARN : Z := 2.
Definition LOG_INFO : Z := 3.
Definition LOG_DEBUG : Z := 4.
Definition LOG_TRACE : Z := 5.

Definition logmsg_name : list (list Z) :=
  [str "FATAL"; str "ERROR"; str "WARN"; str "INFO"; str "DEBUG"; str "TRACE"].

(** The variables of the module; the file is [None] for the standard error. *)
Record logstate := mk_log { logmsg_level : Z; logmsg_zones : Z; logmsg_fout : option (list Z) }.
(** All zones: 0xffffffff as an [int]. *)
Definition log0 : logstate := mk_log LOG_NOLOG (-1) None.

Definition logmsg_is_enabled (lvl : Z) (s : logstate) : bool := lvl <=? logmsg_level s.
Definition logmsg_is_zenabled (lvl zone : Z) (s : logstate) : bool :=
  negb (Z.land (u32 (logmsg_zones s)) zone =? 0) && logmsg_is_enabled lvl s.

(** The index of a name in the table, from [i] on. *)
Fixpoint find_level (value : list Z) (names : list (list Z)) (i : Z) : option Z :=
  match names with
  | [] => None
  | n :: names => if strcasecmp0 n value then Some i else find_level value names (i + 1)
  end.

(** [strstr] with what is before and after the first occurrence. *)
Fixpoint split_at (p s before : list Z) : option (list Z * list Z) :=
  if has_prefix p s then Some (before, drop (length p) s) else
  match s with [] => None | c :: s => split_at p s (before ++ [c]) end.

(** [logmsg_to]: [fopen] tells whether the file can be had. *)
Definition logmsg_to (fopen : list Z → bool) (file : list Z) (s : logstate) : logstate :=
  if fopen file then mk_log (logmsg_level s) (logmsg_zones s) (Some file) else s.

(** The name of the file is a format when it contains %ld; [None] when it has other
    directives, too, which have no arguments. *)
Definition log_file_name (pid : Z) (value : list Z) : option (list Z) :=
  match split_at (str "%ld") value [] with
  | None => Some value
  | Some (a, b) => if strchr 37 a || strchr 37 b then None else Some (snprintf 4096 (a ++ fmt_d pid ++ b))
  end.

Definition logmsg_init (environ : list (list Z)) (fopen : list Z → bool) (pid : Z) (s : logstate) : option logstate :=
  let s := match getenv (str "AXIOM_LOG_LEVEL") environ with
    | None => s
    | Some value => match find_level value logmsg_name 0 with
        | Some i => mk_log i (logmsg_zones s) (logmsg_fout s)
        | None => s end
    end in
  let s := match getenv (str "AXIOM_LOG_ZONES") environ with
    | None => s
    | Some value => match scan_int value with
        | Some (n, _) => mk_log (logmsg_level s) n (logmsg_fout s)
        | None => s end
    end in
  let s := mk_log (logmsg_level s) (logmsg_zones s) None in
  match getenv (str "AXIOM_LOG_FILE") environ with
  | None => Some s
  | Some value => file ← log_file_name pid value; Some (logmsg_to fopen file s)
  end.

(** [_slogmsg] after the text is made: [writes] are the results of [write], which
    takes everything when they are used up; the bytes that are written. *)
Fixpoint slog_loop (fuel : nat) (writes : list Z) (p : list Z) : option (list Z) :=
  match fuel with
  | O => None
  | S fuel =>
      if alen p <=? 0 then Some [] else
      let r := match writes with [] => alen p | r :: _ => Z.min r (alen p) end in
      if r <=? 0 then Some [] else
      out ← slog_loop fuel (tail writes) (drop (Z.to_nat r) p);
      Some (take (Z.to_nat r) p ++ out)
  end.
(** A buffer of 256 bytes: at most 256 turns. *)
Definition _slogmsg (writes text : list Z) : option (list Z) := slog_loop 256 writes (snprintf 256 text).

(** ** Which messages are emitted *)

Section Levels.

(** The level of the environment lets pass exactly the messages up to the one it
    names, in upper or lower case; without the variable, or with a name that is
    none, nothing is emitted; and no other variable matters for a message without a
    zone unless it sets the zones. *)
Theorem log_level_spec environ fopen pid s lvl :
  getenv (str "AXIOM_LOG_ZONES") environ = None → LOG_FATAL <= lvl <= LOG_TRACE →
  logmsg_init environ fopen pid log0 = Some s →
  logmsg_is_zenabled lvl 0xffffffff s =
    match getenv (str "AXIOM_LOG_LEVEL") environ with
    | None => false
    | Some value => match find_level value logmsg_name 0 with Some i => lvl <=? i | None => false end
    end.
Proof.
  intros Hz Hlvl. unfold logmsg_init. rewrite Hz.
  set (s1 := match getenv (str "AXIOM_LOG_LEVEL") environ with None => _ | Some _ => _ end).
  assert (Hzones : logmsg_zones s1 = -1) by (unfold s1; repeat case_match; done).
  intros Hs. assert (Hsame : logmsg_level s = logmsg_level s1 ∧ logmsg_zones s = -1).
  { destruct (getenv (str "AXIOM_LOG_FILE") environ) as [value|]; [|by injection Hs as <-].
    destruct (log_file_name pid value) as [file|]; [|done]. cbn in Hs. injection Hs as <-. unfold logmsg_to. by case_match. }
  destruct Hsame as [Hl Hzs]. unfold logmsg_is_zenabled, logmsg_is_enabled. rewrite Hl, Hzs.
  change (negb (Z.land (u32 (-1)) 0xffffffff =? 0)) with true. cbn [andb]. unfold s1.
  assert (Hno : (lvl <=? LOG_NOLOG) = false).
  { apply Z.leb_gt. destruct Hlvl as [Hlvl _]. change (0 <= lvl) in Hlvl. change (-1 < lvl). lia. }
  destruct (getenv (str "AXIOM_LOG_LEVEL") environ) as [value|]; [|done]. by destruct (find_level value logmsg_name 0).
Qed.

(** What is written in a handler: a prefix of the text, and all of it when no write
    fails, in whatever pieces it is taken; the loop ends within the fuel. *)
Lemma slog_loop_spec fuel writes p : (length p < fuel)%nat →
  ∃ out, slog_loop fuel writes p = Some out ∧ (∃ rest, p = out ++ rest) ∧ (Forall (fun r => 0 < r) writes → out = p).
Proof.
  induction fuel as [|fuel IH] in writes, p |- *; intros Hf; [lia|]. cbn [slog_loop].
  destruct (Z.leb_spec (alen p) 0) as [H0|H0].
  { exists []. split; [done|]. split; [by exists p|]. intros _. destruct p; [done|]. unfold alen in H0. cbn in H0. lia. }
  set (r := match writes with [] => alen p | r :: _ => Z.min r (alen p) end).
  assert (Hr : r <= alen p) by (unfold r; destruct writes; lia).
  destruct (Z.leb_spec r 0) as [Hn|Hp].
  { exists []. split; [done|]. split; [by exists p|]. intros Hw. unfold r in Hn. destruct Hw; lia. }
  destruct (IH (tail writes) (drop (Z.to_nat r) p)) as (out & Ho & (rest & Hrest) & Hall); [rewrite length_drop; unfold alen in H0; lia|].
  exists (take (Z.to_nat r) p ++ out). rewrite Ho. split; [done|]. split.
  - exists rest. rewrite <- app_assoc, <- Hrest. by rewrite take_drop.
  - intros Hw. rewrite Hall; [by rewrite take_drop|]. by destruct Hw.
Qed.

Theorem slogmsg_spec writes text :
  ∃ out, _slogmsg writes text = Some out ∧ (∃ rest, text = out ++ rest) ∧
    (Forall (fun r => 0 < r) writes → (length text <= 255)%nat → out = text).
Proof.
  unfold _slogmsg. assert (Hl : (length (snprintf 256 text) <= 255)%nat) by (unfold snprintf; rewrite length_take; lia).
  destruct (slog_loop_spec 256 writes (snprintf 256 text) ltac:(lia)) as (out & Ho & (rest & Hr) & Hall).
  exists out. split; [done|]. split.
  - exists (rest ++ drop 255 text). rewrite app_assoc, <- Hr. unfold snprintf. change (Z.to_nat (256 - 1)) with 255%nat.
    by rewrite take_drop.
  - intros Hw Hlen. rewrite Hall by done. apply snprintf_fits. lia.
Qed.
End Levels.

(** ** Evaluation *)

Section Examples.

Definition ex_environ : list (list Z) := [str "AXIOM_LOG_LEVEL=warn"; str "AXIOM_LOG_FILE=/tmp/log.%ld"].

Lemma log_level_spec_witness : ∃ s, logmsg_init ex_environ (fun _ => true) 41 log0 = Some s ∧
  logmsg_is_zenabled LOG_WARN 0xffffffff s = true ∧ logmsg_is_zenabled LOG_INFO 0xffffffff s = false ∧
  logmsg_fout s = Some (str "/tmp/log.41").
Proof.
  assert (H1 : LOG_FATAL <= LOG_WARN <= LOG_TRACE) by (vm_compute; split; discriminate).
  assert (H2 : LOG_FATAL <= LOG_INFO <= LOG_TRACE) by (vm_compute; split; discriminate).
  eexists. split; [vm_compute; reflexivity|]. split; [|split; [|vm_compute; reflexivity]].
  - rewrite (log_level_spec ex_environ (fun _ => true) 41 _ LOG_WARN eq_refl H1 ltac:(vm_compute; reflexivity)). vm_compute. reflexivity.
  - rewrite (log_level_spec ex_environ (fun _ => true) 41 _ LOG_INFO eq_refl H2 ltac:(vm_compute; reflexivity)). vm_compute. reflexivity.
Defined.

(** The zones are read as a decimal number: the hexadecimal masks of the sources
    (LOGZ_MAIN and others) switch all zones off. *)
Example zones_hex : match logmsg_init [str "AXIOM_LOG_LEVEL=TRACE"; str "AXIOM_LOG_ZONES=0x2"] (fun _ => true) 41 log0 with
  | Some s => logmsg_zones s = 0 ∧ logmsg_is_zenabled LOG_ERROR 0xffffffff s = false
  | None => False end.
Proof. vm_compute. done. Qed.
End Examples.
