(* ===== verification/LogLines.v ===== *)
(** * Lines of the log (axiom_common_library/logmsg.c, axiom_common.h)

    The text that the macros zlogmsg and szlogmsg make of a message, and the output
    of several threads through [_logmsg], which holds a mutex while it writes. *)

From stdpp Require Import gmap relations.
From S2P Require Import Prelude Text Log.

(** ** The text of a line *)

(** The widths of printf: at least [w] characters, filled with [c] on the left. *)
Definition pad (w : nat) (c : Z) (s : list Z) : list Z := replicate (w - length s) c ++ s.

(** "[%5d.%06d] %5s{%d}: " of the clock, the name of the level and the process; the
    two macros keep a different part of the seconds. *)
Definition log_prefix (wrap lvl pid sec nsec : Z) : list Z :=
  str "[" ++ pad 5 32 (fmt_d (sec mod wrap)) ++ str "." ++ pad 6 48 (fmt_d (nsec / 1000)) ++ str "] " ++
  pad 5 32 (logmsg_name !!! Z.to_nat lvl) ++ str "{" ++ fmt_d pid ++ str "}: ".

(** What [zlogmsg] gives to [_logmsg]. *)
Definition zlogmsg (s : logstate) (pid lvl zone sec nsec : Z) (msg : list Z) : option (list Z) :=
  if logmsg_is_zenabled lvl zone s then Some (log_prefix 10000 lvl pid sec nsec ++ msg ++ [10]) else None.

(** What [szlogmsg] writes, with the results [writes] of its calls. *)
Definition szlogmsg (s : logstate) (writes : list Z) (pid lvl zone sec nsec : Z) (msg : list Z) : option (list Z) :=
  if logmsg_is_zenabled lvl zone s
  then _slogmsg writes (log_prefix 1000 lvl pid sec nsec ++ msg ++ [10]) else None.

(** ** Several threads *)

(** A message in the pieces that vfprintf writes. *)
Definition message := list (list Z).

(** A thread outside of [_logmsg] with the messages it has still to emit, or within
    it with what is left of its message. *)
Inductive lthread := LOut (todo : list message) | LIn (left : message) (todo : list message).

(** The owner of the mutex, the bytes in the file, the threads. *)
Record logsys := mk_logsys { lg_owner : option nat; lg_file : list Z; lg_threads : nat → lthread }.

Definition lupd (t : nat) (x : lthread) (f : nat → lthread) : nat → lthread := fun t' => if decide (t' = t) then x else f t'.

(** One step of [_logmsg] in the thread [t]. *)
Inductive log_step : logsys → logsys → Prop :=
  | log_lock t m todo f th : th t = LOut (m :: todo) →
      log_step (mk_logsys None f th) (mk_logsys (Some t) f (lupd t (LIn m todo) th))
  | log_write t p m todo o f th : th t = LIn (p :: m) todo →
      log_step (mk_logsys o f th) (mk_logsys o (f ++ p) (lupd t (LIn m todo) th))
  | log_unlock t todo o f th : th t = LIn [] todo →
      log_step (mk_logsys o f th) (mk_logsys None f (lupd t (LOut todo) th)).

Definition logsys0 (msgs : nat → list message) : logsys := mk_logsys None [] (fun t => LOut (msgs t)).

(** The messages of the thread [t]. *)
Definition msgs_of (t : nat) (l : list (nat * message)) : list message := omap (fun x => if decide (x.1 = t) then Some x.2 else None) l.
Definition left_of (x : lthread) : list message := match x with LOut todo | LIn _ todo => todo end.
Definition bytes (l : list (nat * message)) : list Z := concat ((fun x => concat x.2) <$> l).

Section Proofs.
Variable msgs : nat → list message.

Lemma lupd_eq t x f : lupd t x f t = x.
Proof. unfold lupd. by rewrite decide_True. Qed.
Lemma lupd_ne t t' x f : t' ≠ t → lupd t x f t' = f t'.
Proof. intros H. unfold lupd. by rewrite decide_False. Qed.

Lemma msgs_of_app t a b : msgs_of t (a ++ b) = msgs_of t a ++ msgs_of t b.
Proof. apply omap_app. Qed.
Lemma bytes_app a b : bytes (a ++ b) = bytes a ++ bytes b.
Proof. unfold bytes. by rewrite fmap_app, concat_app. Qed.

(** The messages [order] have been begun; the last one may be in the making, by the
    owner of the mutex. *)
Definition log_inv (s : logsys) : Prop := ∃ order : list (nat * message),
  (∀ t, msgs t = msgs_of t order ++ left_of (lg_threads s t)) ∧
  match lg_owner s with
  | None => lg_file s = bytes order ∧ ∀ t, ∃ todo, lg_threads s t = LOut todo
  | Some t => ∃ left todo, lg_threads s t = LIn left todo ∧ lg_file s ++ concat left = bytes order ∧
      ∀ t', t' ≠ t → ∃ todo, lg_threads s t' = LOut todo
  end.

Lemma log_inv_start : log_inv (logsys0 msgs).
Proof. exists []. split; [done|]. split; [done|]. intros t. by eexists. Qed.

(** The thread in [_logmsg] is the owner. *)
Lemma in_owner s t left todo : log_inv s → lg_threads s t = LIn left todo → lg_owner s = Some t.
Proof.
  intros (order & _ & H) E. destruct (lg_owner s) as [t'|].
  - destruct H as (l & td & _ & _ & H). destruct (decide (t = t')) as [->|Hn]; [done|]. destruct (H t Hn); congruence.
  - destruct H as [_ H]. destruct (H t); congruence.
Qed.

Lemma log_inv_step s s' : log_inv s → log_step s s' → log_inv s'.
Proof.
  intros Hs Hstep. pose proof (in_owner s) as Hown. pose proof Hs as (order & Hall & H).
  destruct Hstep as [t m todo f th E|t p m todo o f th E|t todo o f th E]; cbn [lg_owner lg_file lg_threads] in *.
  - destruct H as [-> H]. exists (order ++ [(t, m)]). cbn [lg_owner lg_file lg_threads]. split.
    + intros t'. rewrite Hall, msgs_of_app, <- app_assoc. f_equal. cbn. destruct (decide (t = t')) as [->|Hn].
      * by rewrite lupd_eq, E.
      * by rewrite lupd_ne by done.
    + exists m, todo. rewrite lupd_eq. split; [done|]. split; [rewrite bytes_app; unfold bytes at 3; cbn; by rewrite app_nil_r|].
      intros t' Hn. by rewrite lupd_ne.
  - rewrite (Hown t _ _ Hs E) in *. destruct H as (l & td & E2 & Hf & H). assert (l = p :: m ∧ td = todo) as [-> ->] by (split; congruence).
    exists order. cbn [lg_owner lg_file lg_threads]. split.
    + intros t'. rewrite Hall. destruct (decide (t' = t)) as [->|Hn]; [by rewrite lupd_eq, E|by rewrite lupd_ne].
    + exists m, todo. rewrite lupd_eq. split; [done|]. split; [by rewrite <- app_assoc|]. intros t' Hn. rewrite lupd_ne by done. by apply H.
  - rewrite (Hown t _ _ Hs E) in *. destruct H as (l & td & E2 & Hf & H). assert (l = [] ∧ td = todo) as [-> ->] by (split; congruence).
    exists order. cbn [lg_owner lg_file lg_threads]. split.
    + intros t'. rewrite Hall. destruct (decide (t' = t)) as [->|Hn]; [by rewrite lupd_eq, E|by rewrite lupd_ne].
    + cbn in Hf. rewrite app_nil_r in Hf. split; [done|]. intros t'.
      destruct (decide (t' = t)) as [->|Hn]; [rewrite lupd_eq; by eexists|rewrite lupd_ne by done; by apply H].
Qed.

(** Lines of several threads are never mixed: for every interleaving, when nobody
    is in [_logmsg] the file is the messages that have been emitted, whole, one
    after the other, those of each thread in its order, and nothing is lost. *)
Theorem log_lines_whole s : rtc log_step (logsys0 msgs) s → (∀ t, ∃ todo, lg_threads s t = LOut todo) →
  ∃ order, lg_file s = bytes order ∧ ∀ t, msgs t = msgs_of t order ++ left_of (lg_threads s t).
Proof.
  intros Hrun Hout. assert (Hinv : log_inv s).
  { revert Hrun. apply (rtc_ind_r (fun s => log_inv s)); [apply log_inv_start|]. intros y z _ Hyz Hy. by eapply log_inv_step. }
  destruct Hinv as (order & Hall & H). exists order. split; [|done].
  destruct (lg_owner s) as [t|]; [|by destruct H]. destruct H as (l & td & E & _). destruct (Hout t). congruence.
Qed.

(** No thread waits for the mutex for ever: as long as something is to be emitted,
    some thread can go on. *)
Lemma log_no_deadlock s t : rtc log_step (logsys0 msgs) s → left_of (lg_threads s t) ≠ [] ∨ lg_owner s = Some t → ∃ s', log_step s s'.
Proof.
  intros Hrun Ht. assert (Hinv : log_inv s).
  { revert Hrun. apply (rtc_ind_r (fun s => log_inv s)); [apply log_inv_start|]. intros y z _ Hyz Hy. by eapply log_inv_step. }
  destruct Hinv as (order & _ & H). destruct s as [[o|] f th]; cbn in *.
  - destruct H as ([|p m] & todo & E & _); eexists; [by eapply log_unlock|by eapply log_write].
  - destruct H as [_ H]. destruct Ht as [Ht|]; [|done]. destruct (H t) as [[|m todo] E]; rewrite E in Ht; [done|].
    eexists. by eapply log_lock.
Qed.
End Proofs.

(** ** The prefix *)

Lemma length_pad w c s : (length s <= w)%nat → length (pad w c s) = w.
Proof. intros H. unfold pad. rewrite length_app, length_replicate. lia. Qed.

Lemma length_fmt_small (k : nat) n : 0 <= n < 10 ^ Z.of_nat k → (0 < k <= 64)%nat → (length (fmt_d n) <= k)%nat.
Proof. intros Hn Hk. unfold fmt_d. rewrite (proj2 (Z.ltb_ge _ _)) by lia. apply length_digits; lia. Qed.

(** The columns of the log are aligned: whatever the time and the level are, the
    message begins at the same place in every line of a process. *)
Lemma log_prefix_width wrap lvl pid sec nsec : 0 < wrap <= 10 ^ 5 → 0 <= nsec < 10 ^ 9 → LOG_FATAL <= lvl <= LOG_TRACE →
  length (log_prefix wrap lvl pid sec nsec) = (24 + length (fmt_d pid))%nat.
Proof.
  intros Hw Hn Hl. unfold log_prefix. rewrite !length_app.
  assert (H1 : (length (fmt_d (sec mod wrap)) <= 5)%nat) by (pose proof (Z.mod_pos_bound sec wrap); apply length_fmt_small; lia).
  assert (H2 : (length (fmt_d (nsec / 1000)) <= 6)%nat).
  { apply length_fmt_small; [|lia]. split; [apply Z.div_pos; lia|apply Z.div_lt_upper_bound; lia]. }
  assert (H3 : (length (logmsg_name !!! Z.to_nat lvl) <= 5)%nat).
  { unfold LOG_FATAL, LOG_TRACE in Hl. assert (Hc : lvl = 0 ∨ lvl = 1 ∨ lvl = 2 ∨ lvl = 3 ∨ lvl = 4 ∨ lvl = 5) by lia.
    destruct Hc as [->|[->|[->|[->|[->| ->]]]]]; vm_compute; lia. }
  rewrite !length_pad by done. cbn. lia.
Qed.

(** ** Evaluation *)

Section Examples.

Definition ex_log : logstate := mk_log LOG_INFO (-1) None.

(** The same time in the two macros: the seconds are kept modulo 10000 and 1000. *)
Example two_clocks :
  zlogmsg ex_log 41 LOG_INFO 1 12345 6789000 (str "x") = Some (str "[ 2345.006789]  INFO{41}: x" ++ [10]) ∧
  szlogmsg ex_log [] 41 LOG_INFO 1 12345 6789000 (str "x") = Some (str "[  345.006789]  INFO{41}: x" ++ [10]).
Proof. split; vm_compute; reflexivity. Qed.

(** A message of a signal handler that is too long loses its end, and with it the
    end of the line. *)
Example long_line : match szlogmsg ex_log [] 41 LOG_INFO 1 12345 0 (replicate 300 65) with
  | Some out => length out = 255%nat ∧ last out = Some 65 | None => False end.
Proof. vm_compute. done. Qed.

(** Two threads with one and two messages. *)
Definition ex_texts (t : nat) : list message :=
  match t with O => [[[65]; [10]]] | S O => [[[66]; [10]]; [[67; 10]]] | _ => [] end.

Lemma log_lines_whole_witness : ∃ s, rtc log_step (logsys0 ex_texts) s ∧ lg_file s = [66; 10; 65; 10] ∧
  ∃ order, lg_file s = bytes order ∧ ∀ t, ex_texts t = msgs_of t order ++ left_of (lg_threads s t).
Proof.
  assert (H : ∃ s, rtc log_step (logsys0 ex_texts) s ∧ lg_file s = [66; 10; 65; 10] ∧ ∀ t, ∃ todo, lg_threads s t = LOut todo).
  { eexists. split; [|split].
    - eapply rtc_l; [by apply (log_lock 1)|]. eapply rtc_l; [by eapply (log_write 1)|]. eapply rtc_l; [by eapply (log_write 1)|].
      eapply rtc_l; [by eapply (log_unlock 1)|]. eapply rtc_l; [by eapply (log_lock 0)|]. eapply rtc_l; [by eapply (log_write 0)|].
      eapply rtc_l; [by eapply (log_write 0)|]. eapply rtc_l; [by eapply (log_unlock 0)|]. apply rtc_refl.
    - reflexivity.
    - intros [|[|t]]; by eexists. }
  destruct H as (s & Hrun & Hf & Hout). exists s. split; [exact Hrun|]. split; [exact Hf|].
  exact (log_lines_whole ex_texts s Hrun Hout).
Defined.
End Examples.
