(* ===== verification/RtFile.v ===== *)
(** * Routing tables in files (axiom-init/axiom-init.c)

    The options --save and --routing of the daemon: the routing registers are
    written to a file as one interface number per node, and set from such a file. *)

From S2P Require Import Prelude Text Nic Delivery.

(** ** The code *)

(** [getline]: the lines of a file; the last one may lack its newline. *)
Definition getlines (s : list Z) : list (list Z) :=
  let l := split_on 10 s in
  if bool_decide (last l = Some []) then removelast l else l.

(** [__builtin_ctzl] of a mask of interfaces; undefined for 0. *)
Definition ctzl (m : Z) : option Z := head (filter (fun i => Z.testbit m i = true) (seqZ 0 8)).

(** What becomes of a file: [..Fault] is undefined behaviour of the code. *)
Inductive load_result := LoadOk | LoadError | LoadFault.
Inductive save_result := SaveText (s : list Z) | SaveError | SaveFault.

Section Code.
Context `{CN : NicConsts}.

(** The loop over the lines.  The shift [1 << val] of an [int] is undefined for
    negative and large numbers; the test that should exclude them holds always. *)
Fixpoint rt_lines (lines : list (list Z)) (line_count : Z) (routing_table : list Z) : load_result * list Z :=
  match lines with
  | [] => (LoadOk, routing_table)
  | line :: lines =>
      let line_count := line_count + 1 in
      if AXIOM_NODES_NUM <? line_count then (LoadError, routing_table) else
      let val := atol line in
      if (0 <=? val) || (val <=? AXIOM_INTERFACES_MAX) then
        if (0 <=? val) && (val <? 31) then
          rt_lines lines line_count (aset routing_table (line_count - 1) (u8 (bit val)))
        else (LoadFault, routing_table)
      else rt_lines lines line_count routing_table
  end.

Fixpoint rt_text (routing_table l : list Z) : option (list Z) :=
  match l with
  | [] => Some []
  | nid :: l =>
      val ← ctzl (aget routing_table nid);
      rest ← rt_text routing_table l;
      Some (fmt_d val ++ 10 :: rest)
  end.

Section Dev.
Context {D : Type} `{ND : NicDev D}.

Definition empty_table : list Z := replicate (Z.to_nat AXIOM_NODES_NUM) 0.

(** [content]: the contents of the file, if it can be opened. *)
Definition axiom_rt_from_file (content : option (list Z)) : M D load_result :=
  match content with
  | None => mret LoadError
  | Some s =>
      match rt_lines (getlines s) 0 empty_table with
      | (LoadOk, routing_table) =>
          for_each (seqZ 0 AXIOM_NODES_NUM) (fun nid => axiom_set_routing nid (aget routing_table nid)) ;;
          mret LoadOk
      | (r, _) => mret r
      end
  end.

Fixpoint get_each (l : list Z) (routing_table : list Z) : M D (list Z) :=
  match l with
  | [] => mret routing_table
  | nid :: l => v ← axiom_get_routing nid; get_each l (aset routing_table nid v)
  end.

(** [opened]: whether the file can be written. *)
Definition axiom_rt_to_file (opened : bool) : M D save_result :=
  routing_table ← get_each (seqZ 0 AXIOM_NODES_NUM) empty_table;
  if negb opened then mret SaveError else
  mret (match rt_text routing_table (seqZ 0 AXIOM_NODES_NUM) with Some s => SaveText s | None => SaveFault end).
End Dev.
End Code.

(** ** A saved table can be loaded *)

Section RoundTrip.
Context `{CN : NicConsts} {CNOK : NicConstsOk}.
Implicit Types (d : simdev).

(** The registers send every node [n] through the one interface [f n]. *)
Definition one_interface (f : Z → Z) d : Prop :=
  mdim AXIOM_NODES_NUM AXIOM_INTERFACES_NUM (sd_routing d) ∧
  (∀ n, 0 <= f n < AXIOM_INTERFACES_NUM) ∧
  ∀ n i, 0 <= n < AXIOM_NODES_NUM → 0 <= i < AXIOM_INTERFACES_NUM →
    mget (sd_routing d) n i = if decide (i = f n) then 1 else 0.

Lemma bit_small k : 0 <= k < 8 → u8 (bit k) = 2 ^ k.
Proof. intros H. unfold bit. rewrite Z.shiftl_1_l. enum k; done. Qed.

Lemma get_routing_one f d n : one_interface f d → 0 <= n < AXIOM_NODES_NUM →
  axiom_get_routing n d = Ret (2 ^ f n) d.
Proof using CNOK.
  intros (_ & Hf & Hm) Hn. cbn [axiom_get_routing simdev_nic]. unfold sim_get_routing. f_equal.
  pose proof interfaces_num_range. pose proof interfaces_max_num. specialize (Hf n).
  set (body := fun i m => _).
  assert (HP : (fun (j : Z) (m : Z) => m = if f n <? j then 2 ^ f n else 0) (AXIOM_INTERFACES_MAX + 1)
    (for_z 0 (AXIOM_INTERFACES_MAX + 1) body 0)).
  { apply for_z_ind; [lia|by destruct (Z.ltb_spec (f n) 0); [lia|]|]. intros j m Hj ->. unfold body.
    rewrite Hm by lia. destruct (decide (j = f n)) as [->|Hne]; cbn [Z.eqb].
    - destruct (Z.ltb_spec (f n) (f n)); [lia|]. destruct (Z.ltb_spec (f n) (f n + 1)); [|lia].
      change (1 =? 1) with true. cbn iota. rewrite Z.lor_0_l, bit_small by lia. apply u8_small.
      pose proof (Z.pow_lt_mono_r 2 (f n) 8). lia.
    - destruct (Z.ltb_spec (f n) j), (Z.ltb_spec (f n) (j + 1)); try lia; done. }
  cbn beta in HP. rewrite HP. destruct (Z.ltb_spec (f n) (AXIOM_INTERFACES_MAX + 1)); [done|lia].
Qed.

Lemma get_each_one f d l t : one_interface f d → (∀ n, n ∈ l → 0 <= n < AXIOM_NODES_NUM) → alen t = AXIOM_NODES_NUM →
  ∃ t', get_each l t d = Ret t' d ∧ alen t' = AXIOM_NODES_NUM ∧
    ∀ n, 0 <= n < AXIOM_NODES_NUM → aget t' n = if decide (n ∈ l) then 2 ^ f n else aget t n.
Proof using CNOK.
  intros Hd. induction l as [|x l IH] in t |- *; intros Hl Ht.
  { exists t. split; [done|]. split; [done|]. intros n _. by rewrite decide_False by set_solver. }
  cbn [get_each]. rewrite (bind_ret _ _ _ _ _ (get_routing_one f d x Hd ltac:(apply Hl; set_solver))).
  destruct (IH (aset t x (2 ^ f x)) ltac:(set_solver) ltac:(by rewrite alen_aset)) as (t' & -> & Ha & Hg).
  exists t'. split; [done|]. split; [done|]. intros n Hn. rewrite Hg by done.
  assert (Hx : 0 <= x < AXIOM_NODES_NUM) by (apply Hl; set_solver).
  destruct (decide (n ∈ l)); [by rewrite decide_True by set_solver|].
  destruct (decide (n = x)) as [->|Hne].
  - rewrite decide_True by set_solver. apply aget_aset_eq. lia.
  - rewrite decide_False by set_solver. by apply aget_aset_ne; lia.
Qed.

Lemma ctzl_pow2 k : 0 <= k < 8 → ctzl (2 ^ k) = Some k.
Proof. intros H. enum k; reflexivity. Qed.

(** The text of a table. *)
Lemma rt_text_one f t l : (∀ n, 0 <= f n < 8) → (∀ n, n ∈ l → aget t n = 2 ^ f n) →
  rt_text t l = Some (concat ((fun n => fmt_d (f n) ++ [10]) <$> l)).
Proof.
  intros Hf. induction l as [|n l IH]; intros Hl; [done|]. cbn [rt_text].
  rewrite Hl, ctzl_pow2, IH by (set_solver || done). cbn [mbind option_bind fmap list_fmap concat]. by rewrite <- app_assoc.
Qed.

Lemma getlines_text (l : list (list Z)) : Forall (fun w => 10 ∉ w) l →
  getlines (concat ((fun w => w ++ [10]) <$> l)) = l.
Proof.
  intros H. unfold getlines.
  assert (E : split_on 10 (concat ((fun w => w ++ [10]) <$> l)) = l ++ [[]]).
  { induction H as [|w l Hw _ IH]; [done|]. cbn [fmap list_fmap concat]. rewrite <- app_assoc. cbn [app].
    rewrite split_on_app by done. by rewrite IH. }
  rewrite E, last_snoc, bool_decide_true by done. apply removelast_last.
Qed.

(** Loading the lines from the position [c] on. *)
Lemma rt_lines_one f (l : list Z) c t : (∀ n, 0 <= f n < 8) → 0 <= c → c + alen l <= AXIOM_NODES_NUM → alen t = AXIOM_NODES_NUM →
  l = seqZ c (alen l) →
  ∃ t', rt_lines ((fun n => fmt_d (f n)) <$> l) c t = (LoadOk, t') ∧
    ∀ n, 0 <= n < AXIOM_NODES_NUM → aget t' n = if decide (n ∈ l) then 2 ^ f n else aget t n.
Proof.
  intros Hf. induction l as [|x l IH] in c, t |- *; intros Hc Hlen Ht Hl.
  { exists t. split; [done|]. intros n _. by rewrite decide_False by set_solver. }
  assert (Ec : alen (x :: l) = 1 + alen l) by (unfold alen; cbn [length]; lia). assert (0 <= alen l) by (unfold alen; lia).
  rewrite Ec in *. rewrite seqZ_cons in Hl by lia. injection Hl as -> Hl.
  cbn [fmap list_fmap rt_lines]. destruct (Z.ltb_spec AXIOM_NODES_NUM (c + 1)); [lia|].
  pose proof (Hf c). rewrite atol_fmt by lia. destruct (Z.leb_spec 0 (f c)), (Z.ltb_spec (f c) 31); try lia. cbn [orb andb].
  replace (c + 1 - 1) with c by lia. rewrite bit_small by done.
  destruct (IH (c + 1) (aset t c (2 ^ f c))) as (t' & Hr & Hg); [lia|lia|by rewrite alen_aset|by rewrite Hl at 1; f_equal; lia|].
  exists t'. split; [exact Hr|]. intros n Hn. rewrite Hg by done.
  destruct (decide (n ∈ l)) as [|Hni]; [by rewrite decide_True by set_solver|].
  destruct (decide (n = c)) as [->|Hne].
  - rewrite decide_True by set_solver. apply aget_aset_eq. lia.
  - rewrite decide_False by set_solver. by apply aget_aset_ne; lia.
Qed.

(** A saved routing table can be loaded again: on a node that reaches every
    node through one interface, --save writes a file without error and changes
    no register, and --routing with this file, on any node, sets exactly the
    registers that were saved. *)
Theorem rt_file_roundtrip f d d2 : one_interface f d →
  mdim AXIOM_NODES_NUM AXIOM_INTERFACES_NUM (sd_routing d2) →
  ∃ s d2', axiom_rt_to_file true d = Ret (SaveText s) d ∧
    axiom_rt_from_file (Some s) d2 = Ret LoadOk d2' ∧
    ∀ n i, 0 <= n < AXIOM_NODES_NUM → 0 <= i < AXIOM_INTERFACES_NUM →
      mget (sd_routing d2') n i = mget (sd_routing d) n i.
Proof using CNOK.
  intros Hd Hd2. pose proof nodes_num_range as HN. pose proof interfaces_num_range as HI.
  assert (Hf : ∀ n, 0 <= f n < 8) by (intros n; destruct Hd as (_ & H & _); specialize (H n); lia).
  assert (He : alen empty_table = AXIOM_NODES_NUM) by (unfold alen, empty_table; rewrite length_replicate; lia).
  set (l := seqZ 0 AXIOM_NODES_NUM).
  assert (Hl : ∀ n, n ∈ l ↔ 0 <= n < AXIOM_NODES_NUM) by (intros n; unfold l; rewrite elem_of_seqZ; lia).
  destruct (get_each_one f d l empty_table Hd ltac:(intros n; apply Hl) He) as (t & Hget & _ & Ht).
  assert (Htext : rt_text t l = Some (concat ((fun w => w ++ [10]) <$> ((fun n => fmt_d (f n)) <$> l)))).
  { rewrite (rt_text_one f) by (done || (intros n Hn; rewrite Ht, decide_True by (done || by apply Hl); done)).
    by rewrite <- list_fmap_compose. }
  assert (Hlen : alen l = AXIOM_NODES_NUM) by (unfold alen, l; rewrite length_seqZ; lia).
  destruct (rt_lines_one f l 0 empty_table Hf ltac:(lia) ltac:(lia) He ltac:(by rewrite Hlen)) as (t2 & Hlines & Ht2).
  destruct (set_routing_each (aget t2) l d2 ltac:(intros n; apply Hl) Hd2) as (rt & Hset & _ & Hg).
  eexists _, (set_sd_routing rt d2). split; [|split].
  - unfold axiom_rt_to_file. rewrite (bind_ret _ _ _ _ _ Hget). fold l. rewrite Htext. reflexivity.
  - unfold axiom_rt_from_file. rewrite getlines_text.
    + rewrite Hlines. fold l. rewrite (bind_ret _ _ _ _ _ Hset). done.
    + apply Forall_fmap, Forall_true. intros n. cbn. specialize (Hf n). unfold fmt_d. destruct (Z.ltb_spec (f n) 0); [lia|].
      apply fmt_unsigned_not; lia || done.
  - intros n i Hn Hi. cbn [sd_routing set_sd_routing]. rewrite Hg by done. rewrite decide_True by (by apply Hl).
    rewrite Ht2, decide_True by (done || by apply Hl). destruct Hd as (_ & _ & Hm). rewrite Hm by done.
    rewrite Z.pow2_bits_eqb by (specialize (Hf n); lia). destruct (Z.eqb_spec (f n) i), (decide (i = f n)); try done; lia.
Qed.
End RoundTrip.

(** ** Evaluation *)

Section Examples.
#[local] Existing Instance nic8.
#[local] Existing Instance nic8_ok.

Definition ex_regs (f : Z → Z) : list (list Z) :=
  (fun n => (fun i => if i =? f n then 1 else 0) <$> seqZ 0 4) <$> seqZ 0 8.
Definition ex_dev (rt : list (list Z)) : simdev := mk_simdev 0 4 [] rt [] [] [] [] [].

Lemma ex_one : one_interface (fun n => n mod 4) (ex_dev (ex_regs (fun n => n mod 4))).
Proof.
  split; [|split].
  - split; [reflexivity|]. intros i Hi. enum i; reflexivity.
  - intros n. cbn. apply Z.mod_pos_bound. lia.
  - cbn [AXIOM_NODES_NUM AXIOM_INTERFACES_NUM nic8 sd_routing ex_dev]. intros n i Hn Hi. enum n; enum i; reflexivity.
Qed.

Lemma rt_file_roundtrip_witness :
  ∃ s d2', axiom_rt_to_file true (ex_dev (ex_regs (fun n => n mod 4))) =
      Ret (SaveText s) (ex_dev (ex_regs (fun n => n mod 4))) ∧
    axiom_rt_from_file (Some s) (ex_dev (ex_regs (fun _ => 2))) = Ret LoadOk d2' ∧
    ∀ n i, 0 <= n < 8 → 0 <= i < 4 → mget (sd_routing d2') n i = mget (ex_regs (fun n => n mod 4)) n i.
Proof.
  apply (rt_file_roundtrip (CN := nic8) (fun n => n mod 4) (ex_dev (ex_regs (fun n => n mod 4)))
    (ex_dev (ex_regs (fun _ => 2))) ex_one).
  split; [reflexivity|]. intros i Hi. cbn in Hi. enum i; reflexivity.
Defined.

Example ex_file : axiom_rt_to_file true (ex_dev (ex_regs (fun n => n mod 4))) =
  Ret (SaveText [48; 10; 49; 10; 50; 10; 51; 10; 48; 10; 49; 10; 50; 10; 51; 10]) (ex_dev (ex_regs (fun n => n mod 4))).
Proof. vm_compute. reflexivity. Qed.

(** A node without an interface makes the number undefined; so does a number
    out of range in a file, which the code means to ignore. *)
Example ex_unreachable : axiom_rt_to_file true (ex_dev (ex_regs (fun n => n))) = Ret SaveFault (ex_dev (ex_regs (fun n => n))).
Proof. vm_compute. reflexivity. Qed.
Example ex_range : axiom_rt_from_file (Some (str "99")) (ex_dev (ex_regs (fun n => n))) = Ret LoadFault (ex_dev (ex_regs (fun n => n))).
Proof. vm_compute. reflexivity. Qed.
(** Nine lines are one too many. *)
Example ex_long : axiom_rt_from_file (Some (concat (replicate 9 [49; 10]))) (ex_dev (ex_regs (fun n => n))) =
  Ret LoadError (ex_dev (ex_regs (fun n => n))).
Proof. vm_compute. reflexivity. Qed.
End Examples.
