(* ===== verification/Traceroute.v ===== *)
(** * Traceroute and ping (axiom-init's replies, axiom-traceroute.c)

    A traceroute message goes from neighbour to neighbour; the daemon of each
    node answers the node that started it and passes the message on.  The client
    collects the answers in any order.  The answer to a ping is the same message
    with another command. *)

From stdpp Require Import list.
From S2P Require Import Prelude Nic Text.

(** What the driver's headers fix; [STEP_BITS] is the width of [step]. *)
Class TraceConsts := {
  AXIOM_CMD_TRACEROUTE : Z;
  AXIOM_CMD_TRACEROUTE_REPLY : Z;
  AXIOM_CMD_PING : Z;
  AXIOM_CMD_PONG : Z;
  AXIOM_NODES_MAX : Z;
  STEP_BITS : Z
}.

(** Steps count the nodes of a route, in the width of [step] and in the bytes of
    the client's counters. *)
Class TraceConstsOk `{TraceConsts} := {
  nodes_max_range : 0 < AXIOM_NODES_MAX < 256;
  nodes_max_step : AXIOM_NODES_MAX < 2 ^ STEP_BITS
}.

Record trmsg := mk_trmsg { tr_command : Z; tr_src_id : Z; tr_dst_id : Z; tr_step : Z }.
Record ping := mk_ping { pi_command : Z; pi_unique_id : Z; pi_seq_num : Z; pi_timestamp : Z }.

(** The calls of the daemon and of the client: the own number, the interface
    towards a node, a message to the port of the network tools of a node, one to
    the daemon of the neighbour at an interface, and the reception of an answer
    with its sender. *)
Class TraceDev (D : Type) := {
  tr_node_id : M D Z;
  axiom_next_hop : Z → M D (Z * Z);
  tr_send_node : Z → trmsg → M D Z;
  tr_send_neighbour : Z → trmsg → M D Z;
  tr_send_pong : Z → ping → M D Z;
  tr_recv : M D (Z * Z * trmsg)
}.

Section Code.
Context `{CN : NicConsts} `{TC : TraceConsts}.
Context {D : Type} `{TD : TraceDev D}.

Definition axiom_pong (first_src : Z) (payload : ping) : M D unit :=
  if negb (pi_command payload =? AXIOM_CMD_PING) then mret tt else
  _ ← tr_send_pong first_src (mk_ping AXIOM_CMD_PONG (pi_unique_id payload) (pi_seq_num payload) (pi_timestamp payload));
  mret tt.

Definition axiom_traceroute_reply (payload : trmsg) : M D unit :=
  if negb (tr_command payload =? AXIOM_CMD_TRACEROUTE) then mret tt else
  let recv := mk_trmsg (tr_command payload) (tr_src_id payload) (tr_dst_id payload) ((tr_step payload + 1) mod 2 ^ STEP_BITS) in
  let send_payload := recv in
  let recv := mk_trmsg AXIOM_CMD_TRACEROUTE_REPLY (tr_src_id recv) (tr_dst_id recv) (tr_step recv) in
  ret ← tr_send_node (tr_src_id recv) recv;
  if negb (AXIOM_RET_IS_OK ret) then mret tt else
  node_id ← tr_node_id;
  if node_id =? tr_dst_id recv then mret tt else
  '(ret, if_id) ← axiom_next_hop (tr_dst_id recv);
  if negb (AXIOM_RET_IS_OK ret) then mret tt else
  _ ← tr_send_neighbour if_id send_payload;
  mret tt.

(** The result of the client: the lines printed (step and node), and the number
    of hops when all answers came. *)
Inductive trace_result := Unreachable | SendError | RecvError (lines : list (Z * Z)) | Traced (hops : Z) (lines : list (Z * Z)).

(** One answer: [None] on an error. *)
Definition recv_tracereoute_reply : M D (option (Z * trmsg)) :=
  '(msg_err, recv_node, recv_payload) ← tr_recv;
  if negb (AXIOM_RET_IS_OK msg_err) then mret None
  else if negb (tr_command recv_payload =? AXIOM_CMD_TRACEROUTE_REPLY) then mret None
  else mret (Some (recv_node, recv_payload)).

(** The turn of the [do] loop; the counters are bytes. *)
Definition trace_turn (dest_node : Z) '(received_reply, expected_reply, lines)
    : M D (Z * Z * list (Z * Z) + trace_result) :=
  r ← recv_tracereoute_reply;
  match r with
  | None => mret (inr (RecvError lines))
  | Some (recv_node, p) =>
      let received_reply := u8 (received_reply + 1) in
      let lines := lines ++ [(tr_step p, recv_node)] in
      let expected_reply := if recv_node =? dest_node then u8 (tr_step p) else expected_reply in
      mret (if received_reply <? expected_reply then inl (received_reply, expected_reply, lines)
            else inr (Traced received_reply lines))
  end.

Definition traceroute (fuel : nat) (dest_node : Z) : M D trace_result :=
  node_id ← tr_node_id;
  '(err, if_id) ← axiom_next_hop dest_node;
  if negb (AXIOM_RET_IS_OK err) then mret Unreachable else
  msg_err ← tr_send_neighbour if_id (mk_trmsg AXIOM_CMD_TRACEROUTE node_id dest_node 0);
  if negb (AXIOM_RET_IS_OK msg_err) then mret SendError else
  loop fuel (trace_turn dest_node) (0, u8 AXIOM_NODES_MAX, []).

(** The options, as the letters [getopt_long] gives with their arguments; [inr] is
    an exit code. *)
Fixpoint trace_options (l : list (Z * list Z)) (dest : option Z) : option Z + Z :=
  match l with
  | [] => inl dest
  | (c, arg) :: l =>
      if c =? 100 then match scan_u8 arg with Some (n, _) => trace_options l (Some n) | None => inr (-1) end
      else if c =? 118 then trace_options l dest
      else if c =? 86 then inr 0
      else inr (-1)
  end.

(** The whole program: its exit code, with what the client saw; [opened] and [bound]
    tell whether the device and the port of the network tools can be had.  The code
    is 0 also when the sending or an answer fails. *)
Definition trace_main (fuel : nat) (args : list (Z * list Z)) (opened bound : bool) : M D (Z * option trace_result) :=
  match trace_options args None with
  | inr code => mret (code, None)
  | inl None => mret (-1, None)
  | inl (Some dest_node) =>
      if negb opened then mret (-1, None) else
      if negb bound then mret (-1, None) else
      r ← traceroute fuel dest_node;
      mret (match r with Unreachable => -1 | _ => 0 end, Some r)
  end.
End Code.

(** ** A network *)

(** What a node sends. *)
Inductive trevent :=
  | EvNode (node : Z) (m : trmsg)
  | EvNeighbour (ifc : Z) (m : trmsg)
  | EvPong (node : Z) (p : ping).

(** A node: its number, its routes, the answers it receives and what it sent. *)
Record trnode := mk_trnode {
  tn_id : Z; tn_hop : Z → option Z; tn_in : list (Z * Z * trmsg); tn_log : list trevent
}.

Section Sim.
Context `{CN : NicConsts}.

Definition tn_push (e : trevent) : M trnode Z := fun d =>
  Ret AXIOM_RET_OK (mk_trnode (tn_id d) (tn_hop d) (tn_in d) (tn_log d ++ [e])).

#[export] Instance trnode_dev : TraceDev trnode := {|
  tr_node_id d := Ret (tn_id d) d;
  axiom_next_hop n d := Ret (match tn_hop d n with Some i => (AXIOM_RET_OK, i) | None => (AXIOM_RET_ERROR, 0) end) d;
  tr_send_node n m := tn_push (EvNode n m);
  tr_send_neighbour i m := tn_push (EvNeighbour i m);
  tr_send_pong n p := tn_push (EvPong n p);
  tr_recv d := match tn_in d with
    | [] => Stuck Blocked d
    | x :: xs => Ret x (mk_trnode (tn_id d) (tn_hop d) xs (tn_log d))
    end
|}.
End Sim.

Section Network.
Context `{CN : NicConsts} {CNOK : NicConstsOk} `{TC : TraceConsts} {TCOK : TraceConstsOk}.

(** The interface of a node towards another, and the neighbour at an interface. *)
Context (hop : Z → Z → option Z) (neighbour : Z → Z → Z).

Definition node (n : Z) (answers : list (Z * Z * trmsg)) : trnode := mk_trnode n (hop n) answers [].

(** What the daemon of [n] sends when it gets the message [m]. *)
Definition answer (n : Z) (m : trmsg) : list trevent :=
  match axiom_traceroute_reply m (node n []) with Ret _ d | Stuck _ d => tn_log d end.

(** The answers that a message causes, with their senders, as it travels: the
    message to the neighbour is the next one in flight. *)
Fixpoint travel (fuel : nat) (n : Z) (m : trmsg) : list (Z * trmsg) :=
  match fuel with
  | O => []
  | S fuel =>
      concat ((fun e => match e with
        | EvNode _ r => [(n, r)]
        | EvNeighbour i m' => travel fuel (neighbour n i) m'
        | EvPong _ _ => []
        end) <$> answer n m)
  end.

(** The nodes of the route from [src] to [dst], the last one included. *)
Fixpoint route (src dst : Z) (l : list Z) : Prop :=
  match l with
  | [] => False
  | n :: l => (∃ i, hop src dst = Some i ∧ neighbour src i = n) ∧
      (if decide (n = dst) then l = [] else route n dst l)
  end.

Lemma answer_last src dst s :
  answer dst (mk_trmsg AXIOM_CMD_TRACEROUTE src dst s) =
  [EvNode src (mk_trmsg AXIOM_CMD_TRACEROUTE_REPLY src dst ((s + 1) mod 2 ^ STEP_BITS))].
Proof using CNOK.
  unfold answer, axiom_traceroute_reply. cbn [tr_command]. rewrite Z.eqb_refl. cbn [negb].
  unfold mbind, M_bind. cbn [tr_send_node trnode_dev]. unfold tn_push at 1. rewrite ret_ok_ok. cbn [negb].
  cbn [tr_node_id trnode_dev tn_id node tr_dst_id]. rewrite Z.eqb_refl. done.
Qed.

Lemma answer_pass n src dst s i : n ≠ dst → hop n dst = Some i →
  answer n (mk_trmsg AXIOM_CMD_TRACEROUTE src dst s) =
  [EvNode src (mk_trmsg AXIOM_CMD_TRACEROUTE_REPLY src dst ((s + 1) mod 2 ^ STEP_BITS));
   EvNeighbour i (mk_trmsg AXIOM_CMD_TRACEROUTE src dst ((s + 1) mod 2 ^ STEP_BITS))].
Proof using CNOK.
  intros Hne Hi. unfold answer, axiom_traceroute_reply. cbn [tr_command]. rewrite Z.eqb_refl. cbn [negb].
  unfold mbind, M_bind. cbn [tr_send_node trnode_dev]. unfold tn_push at 1. rewrite ret_ok_ok. cbn [negb].
  cbn [tr_node_id trnode_dev tn_id node tr_dst_id]. rewrite (proj2 (Z.eqb_neq _ _) Hne).
  cbn [axiom_next_hop trnode_dev tn_hop node]. rewrite Hi, ret_ok_ok. done.
Qed.

(** The answers along a route: the [i]-th node answers with the step [i]. *)
Definition answers_from (src dst s : Z) (l : list Z) : list (Z * trmsg) :=
  imap (fun i n => (n, mk_trmsg AXIOM_CMD_TRACEROUTE_REPLY src dst (s + Z.of_nat i + 1))) l.

Lemma answers_from_cons src dst s n l :
  answers_from src dst s (n :: l) =
  (n, mk_trmsg AXIOM_CMD_TRACEROUTE_REPLY src dst (s + 1)) :: answers_from src dst (s + 1) l.
Proof.
  unfold answers_from. cbn [imap]. f_equal; [do 2 f_equal; lia|]. apply imap_ext. intros i x _. cbn. do 2 f_equal. lia.
Qed.

Lemma travel_route src0 src dst l s fuel n : route src dst (n :: l) → 0 <= s → s + alen (n :: l) <= AXIOM_NODES_MAX →
  (length (n :: l) <= fuel)%nat →
  travel fuel n (mk_trmsg AXIOM_CMD_TRACEROUTE src0 dst s) = answers_from src0 dst s (n :: l).
Proof using CNOK TCOK.
  pose proof nodes_max_step as HB.
  induction l as [|n2 l IH] in src, n, s, fuel |- *; intros [_ Hr] Hs Hmax Hf; (destruct fuel as [|fuel]; [cbn in Hf; lia|]);
    rewrite answers_from_cons; cbn [travel]; unfold alen in Hmax; cbn [length] in *.
  - destruct (decide (n = dst)) as [->|]; [|done]. rewrite answer_last. cbn. by rewrite Z.mod_small by lia.
  - destruct (decide (n = dst)) as [->|Hne]; [done|]. pose proof Hr as ((i & Hi & Hn) & _).
    rewrite (answer_pass n src0 dst s i) by done. cbn [fmap list_fmap concat app]. rewrite app_nil_r.
    rewrite Z.mod_small by lia. f_equal. rewrite Hn. apply (IH n); [done|lia|unfold alen; cbn [length]; lia|cbn in *; lia].
Qed.

(** Which answer comes from the destination, and that it does. *)
Lemma answers_dst src0 src dst l s : route src dst l →
  (∀ x, x ∈ answers_from src0 dst s l → tr_command x.2 = AXIOM_CMD_TRACEROUTE_REPLY ∧
     (x.1 = dst → tr_step x.2 = s + alen l)) ∧
  ∃ m, (dst, m) ∈ answers_from src0 dst s l.
Proof.
  induction l as [|n l IH] in src, s |- *; [done|]. intros [_ Hr]. rewrite answers_from_cons.
  assert (E : alen (n :: l) = alen l + 1) by (unfold alen; cbn [length]; lia). rewrite E.
  destruct (decide (n = dst)) as [->|Hne].
  - subst l. split; [|eexists; by left].
    intros x Hx. apply elem_of_cons in Hx as [->|Hx]; [split; [done|intros _; unfold alen; cbn; lia]|by apply not_elem_of_nil in Hx].
  - destruct (IH n (s + 1) Hr) as (Hall & m & Hm). split; [|exists m; by right].
    intros x Hx. apply elem_of_cons in Hx as [->|Hx]; [by split|]. destruct (Hall x Hx) as [Hc Hs]. split; [done|].
    intros Hd. rewrite (Hs Hd). lia.
Qed.

Lemma length_answers src dst s l : length (answers_from src dst s l) = length l.
Proof. apply length_imap. Qed.

(** An answer as it is received, and the line that the client prints. *)
Definition received (x : Z * trmsg) : Z * Z * trmsg := (AXIOM_RET_OK, x.1, x.2).
Definition line_of (x : Z * trmsg) : Z * Z := (tr_step x.2, x.1).

(** What the client expects after the answers [pre] of a route of [k] nodes. *)
Definition expected (dst k : Z) (pre : list (Z * trmsg)) : Z :=
  if existsb (fun x => x.1 =? dst) pre then k else AXIOM_NODES_MAX.

Lemma client_loop dst k all todo pre rest fuel d :
  (∀ x, x ∈ all → tr_command x.2 = AXIOM_CMD_TRACEROUTE_REPLY ∧ (x.1 = dst → tr_step x.2 = k)) →
  (∃ m, (dst, m) ∈ all) → alen all = k → k <= AXIOM_NODES_MAX →
  pre ++ todo ≡ₚ all → todo ≠ [] → (length todo <= fuel)%nat → tn_in d = (received <$> todo) ++ rest →
  loop fuel (trace_turn dst) (alen pre, expected dst k pre, line_of <$> pre) d =
  Ret (Traced k (line_of <$> pre ++ todo)) (mk_trnode (tn_id d) (tn_hop d) rest (tn_log d)).
Proof using CNOK TCOK.
  clear hop neighbour. intros Hall (m0 & Hm0) Hk Hmax. pose proof nodes_max_range as HM.
  induction todo as [|x todo IH] in pre, fuel, d |- *; intros Hp Hne Hf Hin; [done|].
  destruct fuel as [|fuel]; [cbn in Hf; lia|]. cbn [loop].
  assert (Hx : x ∈ all) by (rewrite <- Hp; set_solver). destruct (Hall x Hx) as [Hcmd Hstep].
  assert (Hlen : alen pre + 1 + alen todo = k).
  { rewrite <- Hk. unfold alen. rewrite <- (Permutation_length Hp), length_app. cbn [length]. lia. }
  assert (0 <= alen pre ∧ 0 <= alen todo) as [Hpre Htodo] by (unfold alen; lia).
  set (d1 := mk_trnode (tn_id d) (tn_hop d) ((received <$> todo) ++ rest) (tn_log d)).
  assert (Hexp : (if x.1 =? dst then u8 (tr_step x.2) else expected dst k pre) = expected dst k (pre ++ [x])).
  { unfold expected. rewrite existsb_app. cbn [existsb]. rewrite orb_false_r. destruct (Z.eqb_spec x.1 dst) as [E|E].
    - rewrite orb_true_r, Hstep by done. apply u8_small. lia.
    - by rewrite orb_false_r. }
  assert (Ht : trace_turn dst (alen pre, expected dst k pre, line_of <$> pre) d =
    Ret (if alen (pre ++ [x]) <? expected dst k (pre ++ [x])
         then inl (alen (pre ++ [x]), expected dst k (pre ++ [x]), line_of <$> pre ++ [x])
         else inr (Traced (alen (pre ++ [x])) (line_of <$> pre ++ [x]))) d1).
  { unfold trace_turn, recv_tracereoute_reply, mbind, M_bind. cbn [tr_recv trnode_dev]. rewrite Hin.
    cbn [fmap list_fmap app received fst snd]. unfold received at 1. rewrite ret_ok_ok, Hcmd, Z.eqb_refl. cbn [negb mret M_ret].
    rewrite Hexp, fmap_app, alen_app. change (alen [x]) with 1. rewrite u8_small by lia. done. }
  rewrite (bind_ret _ _ _ _ _ Ht). rewrite alen_app in *. change (alen [x]) with 1 in *.
  destruct todo as [|y todo].
  - assert (Hin_dst : expected dst k (pre ++ [x]) = k).
    { unfold expected. replace (existsb _ _) with true; [done|]. symmetry. apply existsb_exists.
      exists (dst, m0). split; [|cbn; lia]. apply list_elem_of_In. by rewrite Hp. }
    rewrite Hin_dst. change (alen (@nil (Z * trmsg))) with 0 in Hlen. destruct (Z.ltb_spec (alen pre + 1) k); [lia|].
    cbn. do 2 f_equal. lia.
  - assert (Hlt : alen pre + 1 < expected dst k (pre ++ [x])).
    { assert (1 <= alen (y :: todo)) by (unfold alen; cbn [length]; lia). unfold expected. destruct (existsb _ (pre ++ [x])); lia. }
    rewrite (proj2 (Z.ltb_lt _ _) Hlt).
    pose proof (IH (pre ++ [x]) fuel d1) as IH'. rewrite alen_app, <- app_assoc in IH'. change (alen [x]) with 1 in IH'.
    apply IH'; try done. cbn in *. lia.
Qed.

(** C40. A traceroute lists the route, in whatever order the answers come: when
    the tables lead from [src] over the nodes [l] to [dst], every node of the
    route answers once with its position; and for any order in which these
    answers reach the client it stops exactly after the last of them, prints
    each of them and reports the length of the route, leaving later messages
    unread. *)
Theorem traceroute_complete src dst l order rest fuel :
  route src dst l → alen l <= AXIOM_NODES_MAX → order ≡ₚ answers_from src dst 0 l → (length l <= fuel)%nat →
  (∃ n l', l = n :: l' ∧ travel fuel n (mk_trmsg AXIOM_CMD_TRACEROUTE src dst 0) = answers_from src dst 0 l) ∧
  ∃ d', traceroute fuel dst (node src ((received <$> order) ++ rest)) = Ret (Traced (alen l) (line_of <$> order)) d' ∧
    tn_in d' = rest ∧
    ∃ i, hop src dst = Some i ∧ tn_log d' = [EvNeighbour i (mk_trmsg AXIOM_CMD_TRACEROUTE src dst 0)] ∧
         neighbour src i = default 0 (head l).
Proof using CNOK TCOK.
  intros Hr Hmax Hperm Hf. split.
  { destruct l as [|n l]; [done|]. exists n, l. split; [done|]. by apply (travel_route src src); [|lia|lia|]. }
  destruct (answers_dst src src dst l 0 Hr) as (Hall & Hex). rewrite Z.add_0_l in Hall. pose proof nodes_max_range as HM.
  assert (Hlo : length order = length l) by (rewrite (Permutation_length Hperm); apply length_answers).
  destruct l as [|n l]; [done|]. destruct Hr as [(i & Hi & Hn) _].
  eexists. split; [|split; [|exists i; split; [done|split; [|done]]]].
  - unfold traceroute, mbind, M_bind. cbn [tr_node_id trnode_dev axiom_next_hop tn_hop node tn_id]. rewrite Hi, ret_ok_ok. cbn [negb].
    cbn [tr_send_neighbour trnode_dev]. unfold tn_push. rewrite ret_ok_ok. cbn [negb]. rewrite u8_small by lia.
    apply (client_loop dst (alen (n :: l)) (answers_from src dst 0 (n :: l)) order [] rest); try done.
    + unfold alen. by rewrite length_answers.
    + by destruct order.
    + lia.
  - done.
  - done.
Qed.
End Network.

(** ** Evaluation *)

Section Examples.
#[local] Existing Instance nic8.
#[local] Existing Instance nic8_ok.
#[local] Instance ex_trace : TraceConsts := {|
  AXIOM_CMD_TRACEROUTE := 3; AXIOM_CMD_TRACEROUTE_REPLY := 4; AXIOM_CMD_PING := 1; AXIOM_CMD_PONG := 2;
  AXIOM_NODES_MAX := 254; STEP_BITS := 8 |}.
#[local] Instance ex_trace_ok : TraceConstsOk.
Proof. split; cbn; lia. Qed.

(** A ring of four nodes that sends everything through the interface 1. *)
Definition ring_hop (n dst : Z) : option Z := if n =? dst then None else Some 1.
Definition ring_neighbour (n i : Z) : Z := (n + i) mod 4.

Lemma traceroute_complete_witness :
  travel ring_hop ring_neighbour 5 1 (mk_trmsg 3 0 3 0) = [(1, mk_trmsg 4 0 3 1); (2, mk_trmsg 4 0 3 2); (3, mk_trmsg 4 0 3 3)] ∧
  ∃ d', traceroute 5 3 (node ring_hop 0 [(0, 3, mk_trmsg 4 0 3 3); (0, 1, mk_trmsg 4 0 3 1); (0, 2, mk_trmsg 4 0 3 2)]) =
    Ret (Traced 3 [(3, 3); (1, 1); (2, 2)]) d'.
Proof.
  assert (Hr : route ring_hop ring_neighbour 0 3 [1; 2; 3]) by (cbn; repeat (split; [by exists 1|]); done).
  assert (Hm : alen [1; 2; 3] <= AXIOM_NODES_MAX) by (vm_compute; discriminate).
  assert (Hp : [(3, mk_trmsg 4 0 3 3); (1, mk_trmsg 4 0 3 1); (2, mk_trmsg 4 0 3 2)] ≡ₚ answers_from 0 3 0 [1; 2; 3]).
  { cbn. rewrite (Permutation_swap (1, _) (3, _)). apply perm_skip, perm_swap. }
  assert (Hf : (length [1; 2; 3] <= 5)%nat) by (cbn; lia).
  destruct (traceroute_complete (CN := nic8) (TC := ex_trace) ring_hop ring_neighbour 0 3 [1; 2; 3] _ [] 5 Hr Hm Hp Hf)
    as [(n & l' & Hl & Ht) (d' & Hd & _)].
  injection Hl as <- _. split; [exact Ht|]. exists d'. exact Hd.
Defined.

(** An answer that is none ends the program, which reports success. *)
Example ex_main : match trace_main 5 [(118, []); (100, [51])] true true (node ring_hop 0 [(0, 1, mk_trmsg 9 0 3 1)]) with
  | Ret r _ => r = (0, Some (RecvError []))
  | Stuck _ _ => False end.
Proof. vm_compute. reflexivity. Qed.

(** The answer to a ping. *)
Example ex_pong : axiom_pong 2 (mk_ping 1 77 5 9) (node ring_hop 0 []) =
  Ret tt (mk_trnode 0 (ring_hop 0) [] [EvPong 2 (mk_ping 2 77 5 9)]).
Proof. reflexivity. Qed.
End Examples.
