(* ===== verification/Ping.v ===== *)
(** * axiom-ping (axiom-ping/axiom-ping.c)

    A thread sends the pings, the main thread receives the answers of the daemon
    ([axiom_pong] of Traceroute.v) and keeps the statistics.  One turn of each loop
    is a function; the two threads, the daemon and the messages between them form a
    transition system. *)

From S2P Require Import Prelude Nic Text Traceroute.

(** Codes of the driver, and the width of [seq_num] in the message. *)
Class PingConsts := {
  AXIOM_RET_NOTREACH : Z;
  AXIOM_RET_INTR : Z;
  SEQ_BITS : Z
}.

(** ** Options *)

Record ping_opts := mk_popts { po_dst : option Z; po_num : Z; po_set : bool }.
Definition ping0 : ping_opts := mk_popts None 1 false.

Section Code.
Context `{CN : NicConsts} `{TC : TraceConsts} `{PC : PingConsts}.

(** [scan_double] tells whether [sscanf] with %lf succeeds. *)
Fixpoint ping_options (scan_double : list Z → bool) (l : list (Z * list Z)) (o : ping_opts) : ping_opts + Z :=
  match l with
  | [] => inl o
  | (c, arg) :: l =>
      if c =? 100 then
        match scan_u8 arg with Some (v, _) => ping_options scan_double l (mk_popts (Some v) (po_num o) (po_set o)) | None => inr (-1) end
      else if c =? 105 then (if scan_double arg then ping_options scan_double l o else inr (-1))
      else if c =? 99 then
        match scan_u32 arg with Some (v, _) => ping_options scan_double l (mk_popts (po_dst o) v true) | None => inr (-1) end
      else if c =? 118 then ping_options scan_double l o
      else if c =? 86 then inr 0
      else inr (-1)
  end.

(** [main] up to the start of the sender: the destination and the options, or the
    result of the program.  [bind] is the result of [axiom_bind] for the port of the
    network tools, [create] whether the thread was created. *)
Definition ping_start (scan_double : list Z → bool) (args : list (Z * list Z)) (dev : bool) (port bind : Z) (create : bool) :
    (Z * ping_opts) + Z :=
  match ping_options scan_double args ping0 with
  | inr code => inr code
  | inl o =>
      match po_dst o with
      | None => inr (-1)
      | Some dst =>
          if (dst <? 0) || (254 <? dst) then inr (-1)
          else if negb dev then inr (-1)
          else if negb (bind =? port) then inr 0
          else if negb create then inr 0
          else inl (dst, o)
      end
  end.

(** ** The sender *)

(** [payload.seq_num], [p->num_ping] and [sent_packets]; or the thread has ended. *)
Inductive sphase := SRun (seq num sent : Z) | SEnd (sent : Z).

(** The condition of the loop, with the read of [sigint_received]. *)
Definition sender_test (sigint : bool) (seq num sent : Z) : sphase :=
  if negb sigint && (0 <? num) then SRun seq num sent else SEnd sent.

(** One turn: [clock] is the time in nanoseconds, [None] when [clock_gettime] fails,
    [ret] the result of the send.  An unreachable node is counted as a packet. *)
Definition sender_turn (set : bool) (uid : Z) (sigint : bool) (clock : option Z) (ret seq num sent : Z) : sphase * list ping :=
  match clock with
  | None => (SEnd sent, [])
  | Some now =>
      let seq := (seq + 1) mod 2 ^ SEQ_BITS in
      let payload := mk_ping AXIOM_CMD_PING uid seq (u64 now) in
      if negb (AXIOM_RET_IS_OK ret) && negb (ret =? AXIOM_RET_NOTREACH) then (SEnd sent, [])
      else (sender_test sigint seq (if set then num - 1 else num) (sent + 1), if AXIOM_RET_IS_OK ret then [payload] else [])
  end.

(** ** The receiver *)

(** [num_ping], [recv_packets] and the times. *)
Record pstat := mk_pstat { p_num : Z; p_recv : Z; p_sum : Z; p_max : Z; p_min : Z }.
Definition pstat0 (num : Z) : pstat := mk_pstat num 0 0 0 (u64 (-1)).

(** In [axiom_recv_raw]; at [exit:]; at [err:]. *)
Inductive rphase := RWait (st : pstat) | RExit (st : pstat) | RErr (st : pstat).

Definition recv_test (sigint : bool) (st : pstat) : rphase :=
  if negb sigint && (0 <? p_num st) then RWait st else RExit st.

Definition record_time (diff : Z) (st : pstat) : pstat :=
  mk_pstat (p_num st) (p_recv st + 1) (u64 (p_sum st + diff)) (if p_max st <? diff then diff else p_max st)
    (if diff <? p_min st then diff else p_min st).

(** What happens with one received message, up to the next reception: the next place
    and the line that is printed (the number of the ping and its time).  [sig k] is
    the [k]-th read of [sigint_received]. *)
Definition recv_turn (set : bool) (uid : Z) (sig : nat → bool) (clock : option Z) (ret : Z) (p : ping) (st : pstat) :
    rphase * list (Z * Z) :=
  match clock with
  | None => (RErr st, [])
  | Some now =>
      if negb (AXIOM_RET_IS_OK ret) then ((if ret =? AXIOM_RET_INTR then RExit st else RErr st), [])
      else if negb (pi_command p =? AXIOM_CMD_PONG) || negb (pi_unique_id p =? uid) then
        ((if negb (sig 0%nat) then RWait st else RExit st), [])
      else if sig 1%nat then (RExit st, [])
      else
        let diff := u64 (u64 now - pi_timestamp p) in
        let st := record_time diff st in
        (if sig 2%nat then RExit st
         else recv_test (sig 3%nat) (if set then mk_pstat (u32 (p_num st - 1)) (p_recv st) (p_sum st) (p_max st) (p_min st) else st),
         [(pi_seq_num p, diff)])
  end.

(** ** Both threads and the daemon of the destination *)

(** The sender, the pings on their way, the answers at the port of the client, the
    receiver, the messages of others that will arrive there, and the lines printed. *)
Record psys := mk_psys {
  ps_snd : sphase; ps_out : list ping; ps_back : list ping; ps_rcv : rphase; ps_others : list ping; ps_shown : list (Z * Z)
}.

(** What the daemon answers to node [me]. *)
Definition pong (me : Z) (p : ping) : list ping :=
  match axiom_pong me p (mk_trnode 0 (fun _ => None) [] []) with
  | Ret _ d => omap (fun e => match e with EvPong n q => if n =? me then Some q else None | _ => None end) (tn_log d)
  | Stuck _ _ => []
  end.

(** The beginning: the count is an [int] in the parameters of the sender. *)
Definition psys0 (num : Z) (others : list ping) : psys :=
  mk_psys (sender_test false 0 (s32 num) 0) [] [] (recv_test false (pstat0 num)) others [].

(** Steps without a signal and without failures; messages overtake each other. *)
Inductive pstep (me : Z) (set : bool) (uid : Z) : psys → psys → Prop :=
  | ps_send seq num sent out back rcv others shown now :
      pstep me set uid (mk_psys (SRun seq num sent) out back rcv others shown)
        (let r := sender_turn set uid false (Some now) AXIOM_RET_OK seq num sent in mk_psys r.1 (out ++ r.2) back rcv others shown)
  | ps_pong snd l1 p l2 back rcv others shown :
      pstep me set uid (mk_psys snd (l1 ++ p :: l2) back rcv others shown)
        (mk_psys snd (l1 ++ l2) (back ++ pong me p) rcv others shown)
  | ps_other snd out back rcv l1 p l2 shown :
      pstep me set uid (mk_psys snd out back rcv (l1 ++ p :: l2) shown) (mk_psys snd out (back ++ [p]) rcv (l1 ++ l2) shown)
  | ps_recv snd out l1 p l2 st others shown now :
      pstep me set uid (mk_psys snd out (l1 ++ p :: l2) (RWait st) others shown)
        (let r := recv_turn set uid (fun _ => false) (Some now) AXIOM_RET_OK p st in
         mk_psys snd out (l1 ++ l2) r.1 others (shown ++ r.2)).

Inductive prun (me : Z) (set : bool) (uid : Z) : nat → psys → psys → Prop :=
  | prun_nil s : prun me set uid 0 s s
  | prun_snoc k s s' s'' : prun me set uid k s s' → pstep me set uid s' s'' → prun me set uid (S k) s s''.
End Code.

(** ** Every ping is answered and counted *)

Section Proof.
Context `{CN : NicConsts} {CNOK : NicConstsOk} `{TC : TraceConsts} `{PC : PingConsts}.
Variables (me uid n : Z).

(** An answer to one of our pings, and its number. *)
Definition ours (p : ping) : Prop := pi_command p = AXIOM_CMD_PONG ∧ pi_unique_id p = uid.
#[local] Instance ours_dec p : Decision (ours p).
Proof. unfold ours. apply _. Defined.
Definition answers (l : list ping) : list Z := pi_seq_num <$> filter ours l.
#[local] Arguments answers : simpl never.

(** The numbers of the first [k] pings. *)
Definition numbers (k : Z) : list Z := (fun i => i mod 2 ^ SEQ_BITS) <$> seqZ 1 k.

(** The statistics of the lines printed. *)
Record stats_ok (shown : list (Z * Z)) (st : pstat) : Prop := {
  so_sum : p_sum st = u64 (sum_over snd shown);
  so_bounds : ∀ x, x ∈ shown → p_min st <= x.2 <= p_max st;
  so_reached : shown ≠ [] → p_min st ∈ snd <$> shown ∧ p_max st ∈ snd <$> shown;
  so_empty : shown = [] → p_max st = 0 ∧ p_min st = 2 ^ 64 - 1
}.

Definition sent_of (x : sphase) : Z := match x with SRun _ _ k => k | SEnd k => k end.
Definition stat_of (x : rphase) : pstat := match x with RWait st | RExit st | RErr st => st end.

Record pinv (s : psys) : Prop := {
  pi_snd : match ps_snd s with
    | SRun seq num sent => seq = sent mod 2 ^ SEQ_BITS ∧ num = n - sent ∧ 0 <= sent < n
    | SEnd sent => sent = n
    end;
  pi_out : Forall (fun p => pi_command p = AXIOM_CMD_PING ∧ pi_unique_id p = uid) (ps_out s);
  pi_others : Forall (fun p => ¬ ours p) (ps_others s);
  pi_rcv : match ps_rcv s with
    | RWait st => p_num st = n - p_recv st ∧ p_recv st < n
    | RExit st => p_recv st = n
    | RErr _ => False
    end;
  pi_count : p_recv (stat_of (ps_rcv s)) = alen (ps_shown s);
  pi_seqs : (pi_seq_num <$> ps_out s) ++ answers (ps_back s) ++ (fst <$> ps_shown s) ≡ₚ numbers (sent_of (ps_snd s));
  pi_stats : stats_ok (ps_shown s) (stat_of (ps_rcv s))
}.

Lemma stats_record diff seq shown st : 0 <= diff < 2 ^ 64 → stats_ok shown st → stats_ok (shown ++ [(seq, diff)]) (record_time diff st).
Proof.
  intros Hd [Hsum Hb Hr He]. split; cbn.
  - rewrite Hsum, sum_app, sum_cons. change (sum_over snd []) with 0. cbn [snd]. unfold u64. rewrite Zplus_mod_idemp_l. f_equal. lia.
  - intros x [Hx| ->%list_elem_of_singleton]%elem_of_app; cbn.
    + apply Hb in Hx. destruct (Z.ltb_spec (p_max st) diff), (Z.ltb_spec diff (p_min st)); lia.
    + destruct (Z.ltb_spec (p_max st) diff), (Z.ltb_spec diff (p_min st)); lia.
  - intros _. rewrite fmap_app. cbn. destruct shown as [|x0 l].
    + destruct (He eq_refl) as [-> ->]. cbn. destruct (Z.ltb_spec 0 diff), (Z.ltb_spec diff (2 ^ 64 - 1)); split; apply list_elem_of_singleton; lia.
    + destruct (Hr ltac:(done)) as [H1 H2]. split; apply elem_of_app.
      * destruct (diff <? p_min st); [right; by apply list_elem_of_singleton|by left].
      * destruct (p_max st <? diff); [right; by apply list_elem_of_singleton|by left].
  - intros H. by destruct shown.
Qed.

Lemma pong_ping p : pi_command p = AXIOM_CMD_PING → pi_unique_id p = uid →
  pong me p = [mk_ping AXIOM_CMD_PONG uid (pi_seq_num p) (pi_timestamp p)].
Proof. intros Hc Hu. unfold pong, axiom_pong. rewrite Hc, Hu, Z.eqb_refl. cbn. unfold mbind, M_bind, tn_push. cbn. by rewrite Z.eqb_refl. Qed.

Lemma answers_app l1 l2 : answers (l1 ++ l2) = answers l1 ++ answers l2.
Proof. unfold answers. by rewrite filter_app, fmap_app. Qed.
Lemma answers_ours p : ours p → answers [p] = [pi_seq_num p].
Proof. intros H. unfold answers. by rewrite filter_cons_True. Qed.
Lemma answers_other p : ¬ ours p → answers [p] = [].
Proof. intros H. unfold answers. by rewrite filter_cons_False. Qed.

Lemma numbers_succ k : 0 <= k → numbers (k + 1) = numbers k ++ [(k + 1) mod 2 ^ SEQ_BITS].
Proof.
  intros Hk. unfold numbers. rewrite seqZ_app by lia. rewrite fmap_app.
  replace (seqZ (1 + k) 1) with [k + 1]; [done|]. rewrite (seqZ_cons (1 + k) 1) by lia.
  change (Z.pred 1) with 0. rewrite Z.add_comm. done.
Qed.

Lemma recv_ours now p st : ours p → recv_turn true uid (fun _ => false) (Some now) AXIOM_RET_OK p st =
  let diff := u64 (u64 now - pi_timestamp p) in
  let st := record_time diff st in
  (recv_test false (mk_pstat (u32 (p_num st - 1)) (p_recv st) (p_sum st) (p_max st) (p_min st)), [(pi_seq_num p, diff)]).
Proof using CNOK. intros [Hc Hu]. unfold recv_turn. by rewrite ret_ok_ok, Hc, Hu, !Z.eqb_refl. Qed.

Lemma recv_other now p st : ¬ ours p → recv_turn true uid (fun _ => false) (Some now) AXIOM_RET_OK p st = (RWait st, []).
Proof using CNOK.
  intros H. unfold recv_turn. rewrite ret_ok_ok. cbn [negb].
  destruct (Z.eqb_spec (pi_command p) AXIOM_CMD_PONG), (Z.eqb_spec (pi_unique_id p) uid); try done. by destruct H.
Qed.

Lemma pinv_send seq num sent out back rcv others shown now :
  pinv (mk_psys (SRun seq num sent) out back rcv others shown) →
  pinv (let r := sender_turn true uid false (Some now) AXIOM_RET_OK seq num sent in mk_psys r.1 (out ++ r.2) back rcv others shown).
Proof using CNOK.
  intros [Hs Ho Hot Hr Hc Hq Hst]. cbn in *. destruct Hs as (-> & -> & Hs). unfold sender_turn. rewrite ret_ok_ok. cbn [negb andb fst snd].
  assert (Hseq : (sent mod 2 ^ SEQ_BITS + 1) mod 2 ^ SEQ_BITS = (sent + 1) mod 2 ^ SEQ_BITS).
  { by rewrite Zplus_mod_idemp_l. }
  rewrite Hseq. unfold sender_test. cbn [negb andb].
  assert (Hx : sent_of (if 0 <? n - sent - 1 then SRun ((sent + 1) mod 2 ^ SEQ_BITS) (n - sent - 1) (sent + 1) else SEnd (sent + 1)) = sent + 1)
    by (by destruct (0 <? n - sent - 1)).
  split; cbn; try done.
  - destruct (Z.ltb_spec 0 (n - sent - 1)); lia.
  - apply Forall_app. split; [done|]. by apply Forall_singleton.
  - rewrite Hx, numbers_succ by lia. rewrite <- Hq, fmap_app. cbn. solve_Permutation.
Qed.

Lemma pinv_recv sn out l1 p l2 st others shown now : n < 2 ^ 32 →
  pinv (mk_psys sn out (l1 ++ p :: l2) (RWait st) others shown) →
  pinv (let r := recv_turn true uid (fun _ => false) (Some now) AXIOM_RET_OK p st in mk_psys sn out (l1 ++ l2) r.1 others (shown ++ r.2)).
Proof using CNOK.
  intros Hn [Hs Ho Hot Hr Hc Hq Hst]. cbn in Hs, Ho, Hot, Hr, Hc, Hq, Hst. replace (l1 ++ p :: l2) with (l1 ++ [p] ++ l2) in Hq by done. rewrite !answers_app in Hq.
  destruct (decide (ours p)) as [Hp|Hp].
  - rewrite recv_ours by done. rewrite (answers_ours p Hp) in Hq. cbn [fst snd]. cbv zeta. destruct Hr as [Hnum Hlt].
    assert (Hlen : 0 <= alen shown) by (unfold alen; lia).
    set (diff := u64 (u64 now - pi_timestamp p)). set (st' := mk_pstat _ _ _ _ _).
    assert (Hnum' : p_num st' = n - p_recv st - 1) by (cbn; rewrite Hnum, u32_small by lia; lia).
    assert (Hrec : p_recv st' = p_recv st + 1) by done.
    assert (Hstat : stat_of (recv_test false st') = st') by (unfold recv_test; by destruct (_ && _)).
    split; cbn [ps_snd ps_out ps_back ps_rcv ps_others ps_shown]; try done.
    + unfold recv_test. rewrite Hnum'. cbn [negb andb]. destruct (Z.ltb_spec 0 (n - p_recv st - 1)); rewrite ?Hnum', ?Hrec; lia.
    + rewrite Hstat, Hrec, alen_app, Hc. done.
    + rewrite answers_app, <- Hq, fmap_app. cbn. solve_Permutation.
    + rewrite Hstat. assert (Hd : 0 <= diff < 2 ^ 64) by (unfold diff, u64; apply Z.mod_pos_bound; lia).
      destruct (stats_record diff (pi_seq_num p) shown st Hd Hst) as [A1 A2 A3 A4]. by split.
  - rewrite recv_other by done. rewrite (answers_other p Hp) in Hq. cbn. rewrite app_nil_r. split; try done. cbn. by rewrite answers_app, <- Hq.
Qed.

Lemma pinv_step s s' : n < 2 ^ 32 → AXIOM_CMD_PING ≠ AXIOM_CMD_PONG → pinv s → pstep me true uid s s' → pinv s'.
Proof using CNOK.
  intros Hn Hd Hinv H. destruct H as [seq num sent out back rcv others shown now|snd l1 p l2 back rcv others shown|snd out back rcv l1 p l2 shown|snd out l1 p l2 st others shown now].
  - by apply pinv_send.
  - destruct Hinv as [Hs Ho Hot Hr Hc Hq Hst]. cbn in *. apply Forall_app in Ho as [Ho1 [[Hp1 Hp2] Ho2]%Forall_cons].
    rewrite (pong_ping p Hp1 Hp2). split; cbn; try done; [by apply Forall_app|]. rewrite answers_app, answers_ours by done. cbn.
    rewrite <- Hq, !fmap_app. cbn. solve_Permutation.
  - destruct Hinv as [Hs Ho Hot Hr Hc Hq Hst]. cbn in *. apply Forall_app in Hot as [Ho1 [Hp Ho2]%Forall_cons]. split; cbn; try done.
    + by apply Forall_app.
    + by rewrite answers_app, (answers_other p Hp), app_nil_r.
  - by apply pinv_recv.
Qed.

Lemma pinv_start others : 0 < n < 2 ^ 31 → Forall (fun p => ¬ ours p) others → pinv (psys0 n others).
Proof.
  intros Hn Ho. unfold psys0, sender_test, recv_test. cbn. rewrite s32_small by lia. destruct (Z.ltb_spec 0 n); [|lia]. split; cbn; try done.
  - rewrite Zmod_0_l. lia.
  - lia.
  - split; cbn; [done|set_solver|done|done].
Qed.

(** Each ping takes three steps, each message of others two. *)
Definition pmeasure (s : psys) : Z := 3 * (n - sent_of (ps_snd s)) + 2 * alen (ps_out s) + 2 * alen (ps_others s) + alen (ps_back s).

Lemma pmeasure_step s s' : AXIOM_CMD_PING ≠ AXIOM_CMD_PONG → pinv s → pstep me true uid s s' → pmeasure s' < pmeasure s.
Proof using CNOK.
  intros Hd Hinv H. destruct H as [seq num sent out back rcv others shown now|snd l1 p l2 back rcv others shown|snd out back rcv l1 p l2 shown|snd out l1 p l2 st others shown now];
    unfold pmeasure; cbn.
  - rewrite ret_ok_ok. cbn. unfold sender_test. rewrite alen_app. cbn [negb andb]. destruct (0 <? _); cbn; unfold alen; cbn; lia.
  - pose proof (pi_out _ Hinv) as Ho. cbn in Ho. apply Forall_app in Ho as [_ [[Hp1 Hp2] _]%Forall_cons]. rewrite (pong_ping p Hp1 Hp2), !alen_app.
    unfold alen. cbn [length]. lia.
  - rewrite !alen_app. unfold alen. cbn [length]. lia.
  - rewrite !alen_app. unfold alen. cbn [length]. lia.
Qed.

Lemma pmeasure_nonneg s : pinv s → 0 <= pmeasure s.
Proof. intros H. pose proof (pi_snd _ H) as Hs. unfold pmeasure, alen. destruct (ps_snd s); cbn in *; lia. Qed.

Lemma prun_inv m s0 s : n < 2 ^ 32 → AXIOM_CMD_PING ≠ AXIOM_CMD_PONG → pinv s0 → prun me true uid m s0 s →
  pinv s ∧ Z.of_nat m + pmeasure s <= pmeasure s0.
Proof using CNOK.
  intros Hn Hd H0. induction 1 as [s|k s s' s'' _ IH Hst]; [split; [done|lia]|]. destruct (IH H0) as [Hi Hm].
  split; [by eapply pinv_step|]. pose proof (pmeasure_step s' s'' Hd Hi Hst). lia.
Qed.

Lemma pprogress s : pinv s → (∃ s', pstep me true uid s s') ∨ (ps_snd s = SEnd n ∧ ∃ st, ps_rcv s = RExit st ∧ p_recv st = n ∧ ps_out s = [] ∧ ps_others s = []).
Proof.
  intros Hinv. destruct s as [snd out back rcv others shown]. destruct snd as [seq num sent|sent]; [left; eexists; by apply (ps_send _ _ _ seq num sent _ _ _ _ _ 0)|].
  destruct out as [|p out]; [|left; eexists; apply (ps_pong _ _ _ _ [])]. destruct others as [|p others]; [|left; eexists; apply (ps_other _ _ _ _ _ _ _ [])].
  pose proof (pi_snd _ Hinv) as Hs. pose proof (pi_rcv _ Hinv) as Hr. cbn in Hs, Hr. subst sent. destruct rcv as [st|st|st]; [|right; split; [done|by exists st]|done].
  left. destruct back as [|p back]; [|eexists; by apply (ps_recv _ _ _ _ _ [] _ _ _ _ _ 0)]. exfalso.
  pose proof (pi_seqs _ Hinv) as Hq. pose proof (pi_count _ Hinv) as Hc. cbn in Hc. cbn [ps_out ps_back ps_snd ps_shown sent_of] in Hq.
  apply Permutation_length in Hq. unfold numbers in Hq. rewrite !length_app, !length_fmap, length_seqZ in Hq. unfold alen in Hc. change (answers []) with (@nil Z) in Hq.
  cbn in Hq. lia.
Qed.
End Proof.

(** C25. [axiom-ping -c n] with a destination whose daemon answers: whatever the order of
    sends, answers and foreign messages (which may overtake each other), a run has at
    most 3 steps for each ping and 2 for each foreign message; when no step is left,
    [n] packets were transmitted and received, each ping was answered once, and the
    printed times have the reported sum, least and greatest element. *)
Theorem ping_completes `{CN : NicConsts} {CNOK : NicConstsOk} `{TC : TraceConsts} `{PC : PingConsts} me uid n others m s :
  0 < n < 2 ^ 31 → AXIOM_CMD_PING ≠ AXIOM_CMD_PONG → Forall (fun p => ¬ ours uid p) others →
  prun me true uid m (psys0 n others) s →
  Z.of_nat m <= 3 * n + 2 * alen others ∧
  ((∃ s', pstep me true uid s s') ∨
   (ps_snd s = SEnd n ∧ ∃ st, ps_rcv s = RExit st ∧ p_recv st = n ∧ fst <$> ps_shown s ≡ₚ numbers n ∧ stats_ok (ps_shown s) st)).
Proof.
  intros Hn Hd Ho Hrun. pose proof (pinv_start uid n others Hn Ho) as H0. assert (Hn' : n < 2 ^ 32) by lia.
  destruct (prun_inv me uid n m _ s Hn' Hd H0 Hrun) as [Hi Hm]. pose proof (pmeasure_nonneg uid n s Hi) as Hp. split.
  - assert (Hm0 : pmeasure n (psys0 n others) = 3 * n + 2 * alen others); [|lia].
    unfold pmeasure, psys0, sender_test. rewrite s32_small by lia. cbn [negb andb]. destruct (Z.ltb_spec 0 n); [|lia].
    cbn [ps_snd ps_out ps_back ps_others sent_of]. change (alen (@nil ping)) with 0. lia.
  - destruct (pprogress me uid n s Hi) as [H|(Hs & st & Hr & Hrec & Hout & _)]; [by left|right]. split; [done|]. exists st. split; [done|]. split; [done|].
    pose proof (pi_seqs _ _ _ Hi) as Hq. pose proof (pi_count _ _ _ Hi) as Hc. pose proof (pi_stats _ _ _ Hi) as Hst.
    rewrite Hs, Hout in Hq. rewrite Hr in Hc, Hst. cbn in Hq, Hc, Hst. split; [|done].
    assert (Hb : answers uid (ps_back s) = []).
    { apply length_zero_iff_nil. pose proof (Permutation_length Hq) as Hl. rewrite length_app, length_fmap in Hl. unfold numbers in Hl.
      rewrite length_fmap, length_seqZ in Hl. unfold alen in Hc. lia. }
    by rewrite Hb in Hq.
Qed.

(** A count that does not fit into an [int] is negative for the sender: nothing is
    sent, and the receiver waits for ever. *)
Theorem ping_count_overflow `{CN : NicConsts} `{TC : TraceConsts} `{PC : PingConsts} me uid n :
  2 ^ 31 <= n < 2 ^ 32 →
  ps_rcv (psys0 n []) = RWait (pstat0 n) ∧ ps_snd (psys0 n []) = SEnd 0 ∧ ∀ s', ¬ pstep me true uid (psys0 n []) s'.
Proof.
  intros Hn. assert (Hs : s32 n < 0).
  { unfold s32. cbv zeta. destruct (Z.ltb_spec (n mod 2 ^ 32) (2 ^ 31)) as [H|H]; rewrite Z.mod_small in * by lia; lia. }
  unfold psys0, sender_test, recv_test. cbn [negb andb p_num pstat0]. destruct (Z.ltb_spec 0 (s32 n)); [lia|]. destruct (Z.ltb_spec 0 n); [|lia].
  split; [done|]. split; [done|]. intros s' H1. inversion H1; by destruct l1.
Qed.

Section Examples.
#[local] Existing Instances nic8 nic8_ok ex_trace.
#[local] Instance ping8 : PingConsts := {| AXIOM_RET_NOTREACH := -7; AXIOM_RET_INTR := -4; SEQ_BITS := 8 |}.

(** Two pings, answered in the other order, and a message of another program. *)
Definition ex_stray : ping := mk_ping 2 99 0 0.
Definition ex_done : psys := mk_psys (SEnd 2) [] [] (RExit (mk_pstat 0 2 30 25 5)) [] [(2, 5); (1, 25)].

Lemma ex_ping_run : prun 1 true 7 8 (psys0 2 [ex_stray]) ex_done.
Proof.
  refine (prun_snoc _ _ _ _ _ _ _ _ (ps_recv 1 true 7 (SEnd 2) [] [] (mk_ping 2 7 1 10) [] (mk_pstat 1 1 5 5 5) [] [(2, 5)] 35)).
  refine (prun_snoc _ _ _ _ _ _ _ _ (ps_recv 1 true 7 (SEnd 2) [] [] (mk_ping 2 7 2 20) [mk_ping 2 7 1 10] (pstat0 2) [] [] 25)).
  refine (prun_snoc _ _ _ _ _ _ _ _ (ps_recv 1 true 7 (SEnd 2) [] [mk_ping 2 7 2 20] ex_stray [mk_ping 2 7 1 10] (pstat0 2) [] [] 24)).
  refine (prun_snoc _ _ _ _ _ _ _ _ (ps_pong 1 true 7 (SEnd 2) [] (mk_ping 1 7 1 10) [] [mk_ping 2 7 2 20; ex_stray] (RWait (pstat0 2)) [] [])).
  refine (prun_snoc _ _ _ _ _ _ _ _ (ps_other 1 true 7 (SEnd 2) [mk_ping 1 7 1 10] [mk_ping 2 7 2 20] (RWait (pstat0 2)) [] ex_stray [] [])).
  refine (prun_snoc _ _ _ _ _ _ _ _ (ps_pong 1 true 7 (SEnd 2) [mk_ping 1 7 1 10] (mk_ping 1 7 2 20) [] [] (RWait (pstat0 2)) [ex_stray] [])).
  refine (prun_snoc _ _ _ _ _ _ _ _ (ps_send 1 true 7 1 1 1 [mk_ping 1 7 1 10] [] (RWait (pstat0 2)) [ex_stray] [] 20)).
  refine (prun_snoc _ _ _ _ _ _ _ _ (ps_send 1 true 7 0 2 0 [] [] (RWait (pstat0 2)) [ex_stray] [] 10)).
  apply prun_nil.
Qed.

Lemma ping_completes_witness : fst <$> ps_shown ex_done ≡ₚ numbers 2 ∧ stats_ok (ps_shown ex_done) (mk_pstat 0 2 30 25 5).
Proof.
  destruct (ping_completes 1 7 2 [ex_stray] 8 ex_done) as [_ [[s' H]|(_ & st & Hr & _ & Hs & Hst)]].
  - lia.
  - vm_compute. congruence.
  - apply Forall_singleton. vm_compute. intros [_ H]. congruence.
  - exact ex_ping_run.
  - exfalso. inversion H; by destruct l1.
  - injection Hr as <-. split; [exact Hs|exact Hst].
Defined.

Lemma ping_count_overflow_witness : ps_snd (psys0 3000000000 []) = SEnd 0 ∧ ¬ pstep 1 true 7 (psys0 3000000000 []) (psys0 1 []).
Proof.
  destruct (ping_count_overflow 1 7 3000000000) as (_ & H1 & H2); [lia|]. split; [exact H1|exact (H2 (psys0 1 []))].
Defined.
End Examples.
