(* ===== verification/Netperf.v ===== *)
(** * The bandwidth test (axiom-netperf/axiom-netperf-client.c, -server.c and
    axiom-init/axiom-netperf-reply/axiom_netperf_reply.c)

    The threads of the client share one [axnetperf_status_t] behind a mutex.
    Each piece of the client's code between two points where another thread can
    run (a critical section, or one call outside of the mutex) is a function from
    the shared state and the place of the thread to the new state, the next place
    and the calls it makes.  The server handles one message at a time, under its
    mutex.  The transition system of the two programs is in NetperfSys.v. *)

From S2P Require Import Prelude Nic RunMsg.

(** ** Headers that are not in this repository *)

(** Commands and types of the test, sizes of the NIC, and the time: a clock value
    and [timespec2nsec (timespec_sub end start)]. *)
Class PerfConsts := {
  AXIOM_CMD_NETPERF_START : Z;
  AXIOM_CMD_NETPERF : Z;
  AXIOM_CMD_NETPERF_END : Z;
  AXNP_RAW : Z;
  AXNP_LONG : Z;
  AXNP_RDMA : Z;
  AXIOM_LONG_PAYLOAD_MAX_SIZE : Z;
  AXIOM_RDMA_PAYLOAD_MAX_SIZE : Z;
  AXIOM_RDMA_ADDRESS_ALIGNMENT : Z;
  AXIOM_RAW_PORT_NETUTILS : Z;
  sizeof_raw_hdr : Z;
  sizeof_rdma_hdr : Z;
  timespec : Type;
  elapsed_nsec : timespec → timespec → Z
}.

(** What the programs rely on: the values are told apart, and no type is the 0
    that stands for the server mode. *)
Class PerfConstsOk `{PerfConsts} := {
  cmds_differ : AXIOM_CMD_NETPERF_START ≠ AXIOM_CMD_NETPERF ∧
    AXIOM_CMD_NETPERF_START ≠ AXIOM_CMD_NETPERF_END ∧ AXIOM_CMD_NETPERF ≠ AXIOM_CMD_NETPERF_END;
  types_differ : AXNP_RAW ≠ AXNP_LONG ∧ AXNP_RAW ≠ AXNP_RDMA ∧ AXNP_LONG ≠ AXNP_RDMA;
  type_rdma_byte : 0 <= AXNP_RDMA < 256;
  types_nonzero : AXNP_RAW ≠ 0 ∧ AXNP_LONG ≠ 0 ∧ AXNP_RDMA ≠ 0;
  long_max : 1 <= AXIOM_LONG_PAYLOAD_MAX_SIZE < 2 ^ 32
}.

(** ** Data *)

Inductive axnetperf_state :=
  | AXN_STATE_NULL
  | AXN_STATE_INIT
  | AXN_STATE_START
  | AXN_STATE_END
  | AXN_STATE_STOP
  | AXN_STATE_ERROR.

#[export] Instance axnetperf_state_eq_dec : EqDecision axnetperf_state.
Proof. solve_decision. Defined.

(** [axiom_netperf_payload_t] without its padding: with the alignment of its 64-bit
    fields it has 136 bytes, the command in the first one. *)
Record netperf_payload := mk_payload {
  pl_command : Z;
  pl_total_bytes : Z;
  pl_elapsed_time : Z;
  pl_type : Z;
  pl_magic : Z;
  pl_error : Z;
  pl_reply_port : Z
}.

Definition sizeof_payload : Z := 136.

(** A message on its way: the destination, the port, the size and the structure at
    the beginning of the data.  A message shorter than the structure carries its
    first bytes only, of which the command is always one. *)
Record packet := mk_packet { pk_node : Z; pk_port : Z; pk_size : Z; pk_payload : netperf_payload }.

(** [axnetperf_client_t] without the timestamps that are only printed; the RDMA
    zone is its contents. *)
Record axnetperf_client_t := mk_client {
  payload_size : Z;
  total_packets : Z;
  total_bytes : Z;
  sent_bytes : Z;
  sent_raw_bytes : Z;
  rdma_zone : list Z;
  magic : Z;
  rdma_sync : bool
}.

(** [axnetperf_status_t] of a client. *)
Record axnetperf_status_t := mk_status {
  state : axnetperf_state;
  np_type : Z;
  server_id : Z;
  client_port : Z;
  server_port : Z;
  client : axnetperf_client_t
}.

Definition set_state (x : axnetperf_state) (s : axnetperf_status_t) : axnetperf_status_t :=
  mk_status x (np_type s) (server_id s) (client_port s) (server_port s) (client s).
Definition set_client (c : axnetperf_client_t) (s : axnetperf_status_t) : axnetperf_status_t :=
  mk_status (state s) (np_type s) (server_id s) (client_port s) (server_port s) c.
Definition set_payload_size (v : Z) (c : axnetperf_client_t) : axnetperf_client_t :=
  mk_client v (total_packets c) (total_bytes c) (sent_bytes c) (sent_raw_bytes c) (rdma_zone c) (magic c) (rdma_sync c).
Definition set_counts (packets sent : Z) (c : axnetperf_client_t) : axnetperf_client_t :=
  mk_client (payload_size c) packets (total_bytes c) sent (sent_raw_bytes c) (rdma_zone c) (magic c) (rdma_sync c).
Definition set_raw_bytes (v : Z) (c : axnetperf_client_t) : axnetperf_client_t :=
  mk_client (payload_size c) (total_packets c) (total_bytes c) (sent_bytes c) v (rdma_zone c) (magic c) (rdma_sync c).
Definition set_zone (v : list Z) (c : axnetperf_client_t) : axnetperf_client_t :=
  mk_client (payload_size c) (total_packets c) (total_bytes c) (sent_bytes c) (sent_raw_bytes c) v (magic c) (rdma_sync c).
Definition set_magic_number (v : Z) (c : axnetperf_client_t) : axnetperf_client_t :=
  mk_client (payload_size c) (total_packets c) (total_bytes c) (sent_bytes c) (sent_raw_bytes c) (rdma_zone c) v (rdma_sync c).

(** Local variables of the sending functions: the size of a piece, and what the
    thread has sent. *)
Record locals := mk_locals { l_psize : Z; l_packets : Z; l_bytes : Z }.

(** Where a thread of the client is. *)
Inductive pc :=
  | PcStart                          (** before the first critical section *)
  | PcCheck                          (** at the test for AXN_STATE_ERROR *)
  | PcRawEnter (l : locals)          (** at the first lock of [axnetperf_raw_long] *)
  | PcSend (l : locals)              (** a piece is claimed, to be sent *)
  | PcRawLoop (l : locals)           (** at the lock at the end of the loop *)
  | PcSendErr (l : locals) (err : Z) (** at the lock of the error path *)
  | PcRdmaEnter                      (** at the first lock of [axnetperf_rdma] *)
  | PcRdmaLoop (l : locals) (i : Z)  (** at the lock before the loop or at its end *)
  | PcWrite (l : locals) (i addr : Z) (** a piece is claimed, to be written *)
  | PcWriteErr (l : locals) (err : Z)
  | PcToken (l : locals)             (** in [axiom_rdma_wait] as the tokens are used up *)
  | PcWait                           (** in the last [axiom_rdma_wait] *)
  | PcFinish (err : Z)               (** the writing function has returned *)
  | PcEnd                            (** at the last lock of [axnetperf_client] *)
  | PcStop                           (** in [axnetperf_stop], with the mutex *)
  | PcLocked                         (** has returned with the mutex and waits for it *)
  | PcRet (ret : Z).

#[export] Instance locals_eq_dec : EqDecision locals.
Proof. solve_decision. Defined.
#[export] Instance pc_eq_dec : EqDecision pc.
Proof. solve_decision. Defined.

(** Calls that leave the program: a message, and the RDMA writes, which are done
    when the call returns or before a later [axiom_rdma_wait] does. *)
Inductive act :=
  | ASend (p : packet)
  | AWriteSync (addr size : Z)
  | AWrite (addr size : Z).

(** Results of the calls of one piece of code: of [rand], of [axiom_rdma_mmap] (the
    contents of the zone) and of the sending or waiting call; and the bytes that
    the local payload has before it is filled. *)
Record env := mk_env {
  e_rand : Z;
  e_mmap : option (list Z);
  e_err : Z;
  e_junk : netperf_payload
}.

Definition TOKEN_LEN : Z := 2048.

Section Code.
Context `{CN : NicConsts} `{RC : RunConsts} `{PC : PerfConsts}.

Definition AXIOM_NETPERF_DEF_RDMA_PSIZE : Z :=
  Z.land AXIOM_RDMA_PAYLOAD_MAX_SIZE (Z.lnot (AXIOM_RDMA_ADDRESS_ALIGNMENT - 1)).
Definition AXIOM_NETPERF_DEF_RAW_PSIZE : Z := AXIOM_RAW_PAYLOAD_MAX_SIZE.
Definition AXIOM_NETPERF_DEF_LONG_PSIZE : Z := AXIOM_LONG_PAYLOAD_MAX_SIZE.

(** *** Client *)

(** The default size of a piece when none was given, and its check. *)
Definition init_psize (def max : Z) (s : axnetperf_status_t) : axnetperf_status_t * Z :=
  let s := if payload_size (client s) =? 0 then set_client (set_payload_size def (client s)) s else s in
  if (payload_size (client s) <? 1) || (max <? payload_size (client s)) then (s, -1) else (s, 0).

Definition axnetperf_raw_init : axnetperf_status_t → axnetperf_status_t * Z :=
  init_psize AXIOM_NETPERF_DEF_RAW_PSIZE AXIOM_RAW_PAYLOAD_MAX_SIZE.
Definition axnetperf_long_init : axnetperf_status_t → axnetperf_status_t * Z :=
  init_psize AXIOM_NETPERF_DEF_LONG_PSIZE AXIOM_LONG_PAYLOAD_MAX_SIZE.

(** An access of eight bytes at [i] of the zone, followed by [i += step], is defined
    when the zone has them and the [int] [i] does not overflow. *)
Definition word_ok (step i : Z) (zone : list Z) : bool := (i + 8 <=? alen zone) && (i + step <? 2 ^ 31).

(** [for (int i = 0; i < total; i += 8) *(uint64_t * )(zone + i) = magic]; [None] is
    undefined behaviour. *)
Fixpoint rdma_fill (fuel : nat) (i total magic : Z) (zone : list Z) : option (list Z) :=
  match fuel with
  | O => None
  | S fuel =>
      if i <? total then
        if word_ok 8 i zone then rdma_fill fuel (i + 8) total magic (set_field (Z.to_nat i) (le_put 8 magic) zone)
        else None
      else Some zone
  end.

Definition fill_fuel (total : Z) : nat := S (Z.to_nat ((total + 7) / 8)).

Definition axnetperf_rdma_init (e : env) (s : axnetperf_status_t) : option (axnetperf_status_t * Z) :=
  let '(s, ret) := init_psize AXIOM_NETPERF_DEF_RDMA_PSIZE AXIOM_RDMA_PAYLOAD_MAX_SIZE s in
  if negb (ret =? 0) then Some (s, -1) else
  match e_mmap e with
  | None => Some (s, -1)
  | Some zone =>
      if alen zone <? total_bytes (client s) then Some (s, -1) else
      zone ← rdma_fill (fill_fuel (total_bytes (client s))) 0 (total_bytes (client s)) (magic (client s)) zone;
      Some (set_client (set_zone zone (client s)) s, 0)
  end.

(** [axnetperf_start]: the first message. *)
Definition start_packet (s : axnetperf_status_t) (junk : netperf_payload) : packet :=
  mk_packet (server_id s) (server_port s) sizeof_payload
    (mk_payload AXIOM_CMD_NETPERF_START (total_bytes (client s)) (pl_elapsed_time junk) (u8 (np_type s))
       (magic (client s)) (pl_error junk) (client_port s)).

Definition axnetperf_start (e : env) (s : axnetperf_status_t) : Z * list act :=
  if AXIOM_RET_IS_OK (e_err e) then (0, [ASend (start_packet s (e_junk e))]) else (e_err e, []).

(** The first critical section of [axnetperf_client]. *)
Definition client_init (e : env) (s : axnetperf_status_t) : option (axnetperf_status_t * Z) :=
  if np_type s =? AXNP_RDMA then axnetperf_rdma_init e s
  else if np_type s =? AXNP_RAW then Some (axnetperf_raw_init s)
  else if np_type s =? AXNP_LONG then Some (axnetperf_long_init s)
  else Some (s, -1).

Definition client_enter (e : env) (s : axnetperf_status_t) : option (axnetperf_status_t * pc * list act) :=
  match state s with
  | AXN_STATE_NULL =>
      let s := set_client (set_magic_number (e_rand e) (client s)) s in
      '(s, ret) ← client_init e s;
      if negb (ret =? 0) then Some (set_state AXN_STATE_ERROR s, PcRet AXIOM_RET_ERROR, []) else
      let '(ret, acts) := axnetperf_start e s in
      if negb (ret =? 0) then Some (set_state AXN_STATE_ERROR s, PcRet AXIOM_RET_ERROR, acts)
      else Some (set_state AXN_STATE_INIT s, PcCheck, acts)
  | _ => Some (s, PcCheck, [])
  end.

(** The test outside of the mutex and the call of the sending function. *)
Definition client_check (s : axnetperf_status_t) : pc :=
  if bool_decide (state s = AXN_STATE_ERROR) then PcRet AXIOM_RET_ERROR
  else if np_type s =? AXNP_RDMA then PcRdmaEnter
  else if (np_type s =? AXNP_RAW) || (np_type s =? AXNP_LONG) then PcRawEnter (mk_locals (payload_size (client s)) 0 0)
  else PcRet AXIOM_RET_ERROR.

(** The first thread that gets here starts the transfer. *)
Definition transfer_start (s : axnetperf_status_t) : axnetperf_status_t :=
  if bool_decide (state s = AXN_STATE_INIT)
  then set_client (set_counts (total_packets (client s)) 0 (client s)) (set_state AXN_STATE_START s) else s.

(** The body of the loop up to the unlock: a piece is claimed, shorter at the end. *)
Definition claim_size (c : axnetperf_client_t) (psize : Z) : Z :=
  if u64 (total_bytes c - sent_bytes c) <? psize then u64 (total_bytes c - sent_bytes c) else psize.
Definition claim (psize : Z) (s : axnetperf_status_t) : axnetperf_status_t :=
  let c := client s in
  set_client (set_counts (u64 (total_packets c + 1)) (u64 (sent_bytes c + claim_size c psize)) c) s.

(** After the loop of [axnetperf_raw_long]. *)
Definition raw_long_end (s : axnetperf_status_t) : axnetperf_status_t :=
  if bool_decide (state s = AXN_STATE_START)
  then set_state AXN_STATE_END
         (set_client (set_raw_bytes (u64 (sent_bytes (client s) + total_packets (client s) * sizeof_raw_hdr)) (client s)) s)
  else s.

Definition raw_long_loop (s : axnetperf_status_t) (l : locals) : axnetperf_status_t * pc :=
  if sent_bytes (client s) <? total_bytes (client s)
  then (claim (l_psize l) s, PcSend (mk_locals (claim_size (client s) (l_psize l)) (l_packets l) (l_bytes l)))
  else (raw_long_end s, PcEnd).

(** A piece: the command, then whatever the local payload holds. *)
Definition data_packet (s : axnetperf_status_t) (size : Z) (junk : netperf_payload) : packet :=
  mk_packet (server_id s) (server_port s) size
    (mk_payload AXIOM_CMD_NETPERF (pl_total_bytes junk) (pl_elapsed_time junk) (pl_type junk) (pl_magic junk)
       (pl_error junk) (pl_reply_port junk)).

Definition sent (l : locals) : locals :=
  mk_locals (l_psize l) (u64 (l_packets l + 1)) (u64 (l_bytes l + l_psize l)).

Definition raw_long_send (e : env) (s : axnetperf_status_t) (l : locals) : pc * list act :=
  if AXIOM_RET_IS_OK (e_err e) then (PcRawLoop (sent l), [ASend (data_packet s (l_psize l) (e_junk e))])
  else (PcSendErr l (e_err e), []).

(** The error path adds the piece to the counters once more. *)
Definition raw_long_error (s : axnetperf_status_t) (l : locals) : axnetperf_status_t :=
  let c := client s in
  set_client (set_counts (u64 (total_packets c + 1)) (u64 (sent_bytes c + l_psize l)) c) s.

(** The loops of [axnetperf_rdma_async] and [axnetperf_rdma_sync] up to the unlock,
    and the code after them, which writes what would be left with the mutex held; the
    asynchronous one does not release it on an error. *)
Definition rdma_tail (e : env) (s : axnetperf_status_t) (i : Z) : axnetperf_status_t * pc * list act :=
  let c := client s in
  let rest := u64 (total_bytes c - sent_bytes c) in
  let next := if rdma_sync c then PcFinish (e_err e) else PcWait in
  if 0 <? rest then
    if AXIOM_RET_IS_OK (e_err e)
    then (set_client (set_counts (u64 (total_packets c + 1)) (u64 (sent_bytes c + rest)) c) s, next,
          [if rdma_sync c then AWriteSync (sent_bytes c) rest else AWrite (sent_bytes c) rest])
    else (s, if rdma_sync c then PcFinish (e_err e) else PcLocked, [])
  else (s, if rdma_sync c then PcFinish AXIOM_RET_OK else PcWait, []).

Definition rdma_loop (e : env) (s : axnetperf_status_t) (l : locals) (i : Z) : axnetperf_status_t * pc * list act :=
  if sent_bytes (client s) <? total_bytes (client s)
  then (claim (l_psize l) s,
        PcWrite (mk_locals (claim_size (client s) (l_psize l)) (l_packets l) (l_bytes l)) i (sent_bytes (client s)), [])
  else rdma_tail e s i.

(** [axiom_rdma_write] or [axiom_rdma_write_sync] of the piece; the tokens of the
    asynchronous writes are waited for when their array is full. *)
Definition rdma_write (e : env) (s : axnetperf_status_t) (l : locals) (i addr : Z) : pc * list act :=
  if AXIOM_RET_IS_OK (e_err e) then
    if rdma_sync (client s) then (PcRdmaLoop (sent l) 0, [AWriteSync addr (l_psize l)])
    else (if i + 1 =? TOKEN_LEN then PcToken (sent l) else PcRdmaLoop (sent l) (i + 1), [AWrite addr (l_psize l)])
  else (PcWriteErr l (e_err e), []).

Definition rdma_error (s : axnetperf_status_t) (l : locals) : axnetperf_status_t :=
  let c := client s in
  set_client (set_counts (u64 (total_packets c - 1)) (u64 (sent_bytes c - l_psize l)) c) s.

Definition end_packet (s : axnetperf_status_t) (junk : netperf_payload) : packet :=
  mk_packet (server_id s) (server_port s) sizeof_payload
    (mk_payload AXIOM_CMD_NETPERF_END (sent_bytes (client s)) (pl_elapsed_time junk) (u8 (np_type s))
       (magic (client s)) (pl_error junk) (pl_reply_port junk)).

(** The last critical section of [axnetperf_rdma]: the first thread to finish tells
    the server. *)
Definition rdma_finish (e : env) (s : axnetperf_status_t) : axnetperf_status_t * list act :=
  if bool_decide (state s = AXN_STATE_START) then
    let s := set_state AXN_STATE_END
      (set_client (set_raw_bytes (u64 (sent_bytes (client s) + total_packets (client s) * sizeof_rdma_hdr)) (client s)) s) in
    (s, if AXIOM_RET_IS_OK (e_err e) then [ASend (end_packet s (e_junk e))] else [])
  else (s, []).

(** The last critical section of [axnetperf_client]: the first thread that finds the
    transfer ended waits for the reply, with the mutex. *)
Definition client_end (s : axnetperf_status_t) : axnetperf_status_t * pc :=
  if bool_decide (state s = AXN_STATE_END) then (set_state AXN_STATE_STOP s, PcStop) else (s, PcRet AXIOM_RET_OK).

(** [axnetperf_stop]: what was received, with the sender. *)
Definition axnetperf_stop (s : axnetperf_status_t) (err src : Z) (p : netperf_payload) : Z :=
  if negb (AXIOM_RET_IS_OK err) || negb (src =? server_id s) || negb (pl_command p =? AXIOM_CMD_NETPERF_END)
  then -1 else 0.
Definition client_stop (s : axnetperf_status_t) (err src : Z) (p : netperf_payload) : pc :=
  PcRet (if negb (axnetperf_stop s err src p =? 0) then AXIOM_RET_ERROR else AXIOM_RET_OK).

(** One piece of code of a thread; [None] in [axnetperf_stop], which waits for a
    message, after the return, in the deadlock and for undefined behaviour. *)
Definition thread_step (e : env) (s : axnetperf_status_t) (p : pc) : option (axnetperf_status_t * pc * list act) :=
  match p with
  | PcStart => client_enter e s
  | PcCheck => Some (s, client_check s, [])
  | PcRawEnter l => Some (raw_long_loop (transfer_start s) l, [])
  | PcSend l => let '(p', acts) := raw_long_send e s l in Some (s, p', acts)
  | PcRawLoop l => Some (raw_long_loop s l, [])
  | PcSendErr l err => Some (raw_long_error s l, PcEnd, [])
  | PcRdmaEnter => Some (transfer_start s, PcRdmaLoop (mk_locals (payload_size (client s)) 0 0) 0, [])
  | PcRdmaLoop l i => Some (rdma_loop e s l i)
  | PcWrite l i addr => let '(p', acts) := rdma_write e s l i addr in Some (s, p', acts)
  | PcWriteErr l err => Some (rdma_error s l, PcFinish err, [])
  | PcToken l => Some (s, PcRdmaLoop l 0, [])
  | PcWait => Some (s, PcFinish (e_err e), [])
  | PcFinish err =>
      if AXIOM_RET_IS_OK err then let '(s', acts) := rdma_finish e s in Some (s', PcEnd, acts)
      else Some (s, PcEnd, [])
  | PcEnd => Some (client_end s, [])
  | PcStop | PcLocked | PcRet _ => None
  end.

(** The pieces that run with the mutex. *)
Definition needs_mutex (p : pc) : bool :=
  match p with PcCheck | PcSend _ | PcWrite _ _ _ | PcToken _ | PcWait => false | PcFinish err => AXIOM_RET_IS_OK err | _ => true end.
End Code.

(** ** Server *)

Section Server.
Context `{CN : NicConsts} `{PC : PerfConsts}.

(** [axnetperf_server_t], one for each node that may send. *)
Record axnetperf_server_t := mk_server {
  start_ts : timespec;
  cur_ts : timespec;
  expected_bytes : Z;
  received_bytes : Z;
  reply_port : Z
}.

(** Results of the calls of the handler: the clock, the zone, the sending of the
    reply; and the old bytes of the local payload. *)
Record senv := mk_senv {
  v_clock : option timespec;
  v_mmap : option (list Z);
  v_err : Z;
  v_junk : netperf_payload
}.

Definition reply_payload (sv : axnetperf_server_t) (error : Z) (junk : netperf_payload) : netperf_payload :=
  mk_payload AXIOM_CMD_NETPERF_END (received_bytes sv) (u64 (elapsed_nsec (cur_ts sv) (start_ts sv)))
    (pl_type junk) (pl_magic junk) error (pl_reply_port junk).

Definition axiom_netperf_send_reply (e : senv) (sv : axnetperf_server_t) (src error : Z) : list packet :=
  if AXIOM_RET_IS_OK (v_err e)
  then [mk_packet src (reply_port sv) sizeof_payload (reply_payload sv error (v_junk e))] else [].

(** The check of the zone, [step] bytes from one comparison to the next: [Some] of
    the flag [failed], or [None] when it reads outside of the zone. *)
Fixpoint rdma_check (fuel : nat) (step i total magic : Z) (zone : list Z) : option bool :=
  match fuel with
  | O => None
  | S fuel =>
      if i <? total then
        if word_ok step i zone then
          if negb (le_get (field (Z.to_nat i) 8 zone) =? magic) then Some true
          else rdma_check fuel step (i + step) total magic zone
        else None
      else Some false
  end.

Definition set_cur_ts (t : timespec) (sv : axnetperf_server_t) : axnetperf_server_t :=
  mk_server (start_ts sv) t (expected_bytes sv) (received_bytes sv) (reply_port sv).
Definition set_received (v : Z) (sv : axnetperf_server_t) : axnetperf_server_t :=
  mk_server (start_ts sv) (cur_ts sv) (expected_bytes sv) v (reply_port sv).

(** The handler for the entry of the sender: the new entry and the replies. *)
Definition reply_entry (e : senv) (sv : axnetperf_server_t) (src size : Z) (p : netperf_payload) :
    option (axnetperf_server_t * list packet) :=
  match v_clock e with
  | None => Some (sv, [])
  | Some now =>
      let sv := set_cur_ts now sv in
      if pl_command p =? AXIOM_CMD_NETPERF_START then
        Some (mk_server now now (pl_total_bytes p) 0 (pl_reply_port p), [])
      else if pl_command p =? AXIOM_CMD_NETPERF_END then
        if negb (pl_type p =? AXNP_RDMA) then Some (sv, []) else
        let sv := set_received (pl_total_bytes p) sv in
        match v_mmap e with
        | None => Some (sv, axiom_netperf_send_reply e sv src 1)
        | Some zone =>
            failed ← rdma_check (fill_fuel (received_bytes sv)) 8 0 (received_bytes sv) (pl_magic p) zone;
            Some (sv, axiom_netperf_send_reply e sv src (if failed : bool then 1 else 0))
        end
      else if pl_command p =? AXIOM_CMD_NETPERF then
        let sv := set_received (u64 (received_bytes sv + size)) sv in
        Some (sv, if expected_bytes sv <=? received_bytes sv then axiom_netperf_send_reply e sv src 0 else [])
      else Some (sv, [])
  end.

(** [s->server[src]]: [None] outside of the array. *)
Definition axiom_netperf_reply (e : senv) (servers : list axnetperf_server_t) (src size : Z) (p : netperf_payload) :
    option (list axnetperf_server_t * list packet) :=
  sv ← servers !! Z.to_nat src;
  '(sv, out) ← reply_entry e sv src size p;
  Some (<[Z.to_nat src := sv]> servers, out).
End Server.
