(* ===== verification/NetperfSys.v ===== *)
(** * The threads of axiom-netperf and its server

    A transition system of the client's threads, the messages between the two
    nodes, the RDMA writes on their way and the threads of the server.  Each step
    is one piece of the code of Netperf.v; the order of the steps is arbitrary,
    except that a critical section needs the mutex.  For RAW and LONG messages and
    any number of client threads, every run is finite and ends with all threads
    returned and one reply; runs that show where the program does not work follow. *)

From S2P Require Import Prelude Nic RunMsg Netperf.

(** A thread of the server: in [axiom_recv], or with a message and before the lock. *)
Inductive spc := SRecv | SGot (p : packet) | SDone.

Section System.
Context `{CN : NicConsts} `{RC : RunConsts} `{PC : PerfConsts}.

(** The node of the client, and whether calls may fail. *)
Variables (me : Z) (faulty : bool).

(** The client, who has its mutex, its threads; the messages on their way to the
    server, the server's zone, the RDMA writes not yet done (with their thread);
    the server's table and threads; the replies on their way; all messages and
    all replies there have been. *)
Record sys := mk_sys {
  cl : axnetperf_status_t;
  mtx : option nat;
  thr : list pc;
  net : list packet;
  zone : list Z;
  dma : list (nat * (Z * Z));
  servers : list axnetperf_server_t;
  sthr : list spc;
  back : list packet;
  log : list packet;
  replies : list packet
}.

(** A write copies a piece of the client's zone to the same place of the server's. *)
Definition rdma_copy (addr size : Z) (src dst : list Z) : list Z :=
  set_field (Z.to_nat addr) (field (Z.to_nat addr) (Z.to_nat size) src) dst.

(** The calls of a piece of code of thread [i]. *)
Definition perform (i : nat) (a : act) (s : sys) : sys :=
  match a with
  | ASend p => mk_sys (cl s) (mtx s) (thr s) (net s ++ [p]) (zone s) (dma s) (servers s) (sthr s) (back s)
      (log s ++ [p]) (replies s)
  | AWriteSync addr size => mk_sys (cl s) (mtx s) (thr s) (net s)
      (rdma_copy addr size (rdma_zone (client (cl s))) (zone s)) (dma s) (servers s) (sthr s) (back s) (log s) (replies s)
  | AWrite addr size => mk_sys (cl s) (mtx s) (thr s) (net s) (zone s) (dma s ++ [(i, (addr, size))]) (servers s)
      (sthr s) (back s) (log s) (replies s)
  end.

(** Places where the thread keeps the mutex, and where it waits for its writes. *)
Definition holds (p : pc) : bool := match p with PcStop | PcLocked => true | _ => false end.
Definition waits (p : pc) : bool := match p with PcToken _ | PcWait => true | _ => false end.
Definition no_dma (i : nat) (s : sys) : bool := forallb (fun w => negb (Nat.eqb w.1 i)) (dma s).

(** Without faults the calls succeed, and the zone of the client is as long as an RDMA
    test needs; the mapped zone of the server is the one of its node. *)
Definition env_ok (c : axnetperf_status_t) (e : env) : Prop :=
  0 <= e_rand e < 2 ^ 31 ∧ (faulty = false → AXIOM_RET_IS_OK (e_err e) = true ∧
    ∃ z, e_mmap e = Some z ∧ (np_type c = AXNP_RDMA → total_bytes (client c) <= alen z)).
Definition senv_ok (v : senv) (s : sys) : Prop :=
  (v_mmap v = Some (zone s) ∨ v_mmap v = None) ∧
  (faulty = false → AXIOM_RET_IS_OK (v_err v) = true ∧ v_mmap v = Some (zone s) ∧ is_Some (v_clock v)).

Definition with_thread (i : nat) (p : pc) (c : axnetperf_status_t) (s : sys) : sys :=
  mk_sys c (if holds p then Some i else mtx s) (<[i := p]> (thr s)) (net s) (zone s) (dma s) (servers s) (sthr s)
    (back s) (log s) (replies s).

Inductive step : sys → sys → Prop :=
  | step_thread s i p e c p' acts :
      thr s !! i = Some p → (needs_mutex p = true → mtx s = None) → (waits p = true → no_dma i s = true) →
      env_ok (cl s) e → thread_step e (cl s) p = Some (c, p', acts) →
      step s (foldr (perform i) (with_thread i p' c s) acts)
  | step_stop s i pk rest :
      thr s !! i = Some PcStop → back s = pk :: rest → pk_node pk = me → pk_port pk = client_port (cl s) →
      step s (mk_sys (cl s) None (<[i := client_stop (cl s) AXIOM_RET_OK (server_id (cl s)) (pk_payload pk)]> (thr s))
        (net s) (zone s) (dma s) (servers s) (sthr s) rest (log s) (replies s))
  | step_stop_fail s i err src p :
      thr s !! i = Some PcStop → faulty = true → AXIOM_RET_IS_OK err = false →
      step s (mk_sys (cl s) None (<[i := client_stop (cl s) err src p]> (thr s))
        (net s) (zone s) (dma s) (servers s) (sthr s) (back s) (log s) (replies s))
  | step_dma s i addr size l1 l2 :
      dma s = l1 ++ (i, (addr, size)) :: l2 →
      step s (mk_sys (cl s) (mtx s) (thr s) (net s) (rdma_copy addr size (rdma_zone (client (cl s))) (zone s)) (l1 ++ l2)
        (servers s) (sthr s) (back s) (log s) (replies s))
  | step_recv s j pk rest :
      sthr s !! j = Some SRecv → net s = pk :: rest →
      step s (mk_sys (cl s) (mtx s) (thr s) rest (zone s) (dma s) (servers s) (<[j := SGot pk]> (sthr s))
        (back s) (log s) (replies s))
  | step_recv_fail s j :
      sthr s !! j = Some SRecv → faulty = true →
      step s (mk_sys (cl s) (mtx s) (thr s) (net s) (zone s) (dma s) (servers s) (<[j := SDone]> (sthr s))
        (back s) (log s) (replies s))
  | step_handle s j pk v servers' out :
      sthr s !! j = Some (SGot pk) → senv_ok v s →
      axiom_netperf_reply v (servers s) me (pk_size pk) (pk_payload pk) = Some (servers', out) →
      step s (mk_sys (cl s) (mtx s) (thr s) (net s) (zone s) (dma s) servers' (<[j := SRecv]> (sthr s))
        (back s ++ out) (log s) (replies s ++ out)).

Inductive run : nat → sys → sys → Prop :=
  | run_nil s : run 0 s s
  | run_snoc k s s' s'' : run k s s' → step s' s'' → run (S k) s s''.

(** The beginning: [n] threads of a client, [k] threads of a server. *)
Definition sys0 (c : axnetperf_status_t) (n : nat) (zone : list Z) (table : list axnetperf_server_t) (k : nat) : sys :=
  mk_sys c None (replicate n PcStart) [] zone [] table (replicate k SRecv) [] [] [].
End System.

Arguments mk_sys {_}.

(** ** RAW and LONG messages, without faults, one server thread *)

Section Raw.
Context `{CN : NicConsts} {CNOK : NicConstsOk} `{RC : RunConsts} {RCOK : RunConstsOk} `{PC : PerfConsts} {PCOK : PerfConstsOk}.
Variables (me T : Z) (n : nat) (c0 : axnetperf_status_t).

(** The largest piece of the type. *)
Definition max_psize (c : axnetperf_status_t) : Z :=
  if np_type c =? AXNP_RAW then AXIOM_RAW_PAYLOAD_MAX_SIZE else AXIOM_LONG_PAYLOAD_MAX_SIZE.

(** The client as [main] starts it. *)
Record raw_start (c : axnetperf_status_t) : Prop := {
  rs_state : state c = AXN_STATE_NULL;
  rs_type : np_type c = AXNP_RAW ∨ np_type c = AXNP_LONG;
  rs_total : total_bytes (client c) = T ∧ 0 < T < 2 ^ 64;
  rs_sent : sent_bytes (client c) = 0;
  rs_psize : 0 <= payload_size (client c) <= max_psize c
}.

Definition rank (x : axnetperf_state) : Z :=
  match x with
  | AXN_STATE_NULL => 0 | AXN_STATE_INIT => 1 | AXN_STATE_START => 2 | AXN_STATE_END => 3 | AXN_STATE_STOP => 4
  | AXN_STATE_ERROR => 5
  end.

(** The state that a place of a thread needs. *)
Definition need (p : pc) : Z :=
  match p with
  | PcStart => 0 | PcCheck | PcRawEnter _ => 1 | PcSend _ | PcRawLoop _ => 2 | PcEnd => 3 | _ => 4
  end.

Definition psize_ok (x : Z) : Prop := 1 <= x <= max_psize c0.
Definition good (p : pc) : Prop :=
  match p with
  | PcStart | PcCheck | PcEnd | PcStop => True
  | PcRawEnter l | PcSend l | PcRawLoop l => psize_ok (l_psize l)
  | PcRet r => r = AXIOM_RET_OK
  | _ => False
  end.

(** Bytes that a thread has claimed and not sent; bytes of a message. *)
Definition claimed (p : pc) : Z := match p with PcSend l => l_psize l | _ => 0 end.
Definition data_size (p : packet) : Z := if pl_command (pk_payload p) =? AXIOM_CMD_NETPERF then pk_size p else 0.

Definition is_start (p : packet) : Prop :=
  pl_command (pk_payload p) = AXIOM_CMD_NETPERF_START ∧ pl_total_bytes (pk_payload p) = T ∧
  pl_reply_port (pk_payload p) = client_port c0.
Definition is_data (p : packet) : Prop :=
  pl_command (pk_payload p) = AXIOM_CMD_NETPERF ∧ psize_ok (pk_size p).
Definition is_reply (p : packet) : Prop :=
  pk_node p = me ∧ pk_port p = client_port c0 ∧ pl_command (pk_payload p) = AXIOM_CMD_NETPERF_END ∧
  pl_total_bytes (pk_payload p) = T ∧ pl_error (pk_payload p) = 0.

(** The first message is the START, the others are pieces. *)
Definition log_ok (k : Z) (l : list packet) : Prop :=
  match l with [] => k = 0 | p :: ds => 1 <= k ∧ is_start p ∧ Forall is_data ds end.

(** The shared state of the client. *)
Record shared_ok (c : axnetperf_status_t) : Prop := {
  so_config : np_type c = np_type c0 ∧ server_id c = server_id c0 ∧ client_port c = client_port c0 ∧
    server_port c = server_port c0 ∧ total_bytes (client c) = T;
  so_state : rank (state c) <= 4;
  so_psize : if bool_decide (state c = AXN_STATE_NULL) then payload_size (client c) = payload_size (client c0)
    else psize_ok (payload_size (client c));
  so_sent : 0 <= sent_bytes (client c) <= T;
  so_early : rank (state c) <= 1 → sent_bytes (client c) = 0;
  so_late : 3 <= rank (state c) → sent_bytes (client c) = T
}.

Record client_inv (s : sys) : Prop := {
  ci_shared : shared_ok (cl s);
  ci_threads : length (thr s) = n;
  ci_good : Forall (fun p => good p ∧ need p <= rank (state (cl s))) (thr s);
  ci_sent : sent_bytes (client (cl s)) = sum_over claimed (thr s) + sum_over data_size (log s);
  ci_log : log_ok (rank (state (cl s))) (log s);
  ci_mutex : match mtx s with
    | None => Forall (fun p => p ≠ PcStop) (thr s)
    | Some i => thr s !! i = Some PcStop ∧ ∀ j, thr s !! j = Some PcStop → j = i
    end
}.

Definition in_hand (l : list spc) : list packet := concat ((fun x => match x with SGot p => [p] | _ => [] end) <$> l).

(** What the server has seen and answered. *)
Definition served (handled : list packet) (sv : axnetperf_server_t) (out : list packet) : Prop :=
  match handled with
  | [] => out = []
  | _ => expected_bytes sv = T ∧ received_bytes sv = sum_over data_size handled ∧ reply_port sv = client_port c0 ∧
      if sum_over data_size handled =? T then ∃ p, out = [p] ∧ is_reply p else out = []
  end.

Record server_inv (s : sys) (handled : list packet) (sv : axnetperf_server_t) : Prop := {
  vi_thread : ∃ x, sthr s = [x] ∧ x ≠ SDone;
  vi_order : handled ++ in_hand (sthr s) ++ net s = log s;
  vi_entry : servers s !! Z.to_nat me = Some sv;
  vi_served : served handled sv (replies s);
  vi_back : if bool_decide (state (cl s) = AXN_STATE_STOP ∧ mtx s = None)
    then back s = [] ∧ length (replies s) = 1%nat else back s = replies s
}.

Definition inv (s : sys) : Prop := client_inv s ∧ ∃ handled sv, server_inv s handled sv.

(** *** Preservation *)

Lemma rank_stop x : rank x <= 4 → 4 <= rank x → x = AXN_STATE_STOP.
Proof. destruct x; cbn; lia || done. Qed.

Lemma claimed_nonneg p : good p → 0 <= claimed p.
Proof. destruct p; cbn; unfold psize_ok; lia. Qed.

Lemma claimed_sum_nonneg s : client_inv s → 0 <= sum_over claimed (thr s).
Proof.
  intros H. apply sum_nonneg. intros p Hp. apply claimed_nonneg.
  by apply (proj1 (Forall_forall _ _) (ci_good _ H) p Hp).
Qed.

Lemma data_size_nonneg p : is_start p ∨ is_data p → 0 <= data_size p.
Proof.
  unfold is_start, is_data, psize_ok, data_size. intros [(H & _)|[_ H]].
  - destruct (Z.eqb_spec (pl_command (pk_payload p)) AXIOM_CMD_NETPERF) as [E|_]; [|lia].
    destruct cmds_differ. congruence.
  - destruct (_ =? _); lia.
Qed.

Lemma log_nonneg k l : log_ok k l → ∀ p, p ∈ l → 0 <= data_size p.
Proof.
  destruct l as [|q l]; intros Hl p Hp; [by inversion Hp|]. destruct Hl as (_ & Hq & Hl). apply data_size_nonneg.
  apply elem_of_cons in Hp as [->|Hp]; [by left|right]. by apply (proj1 (Forall_forall _ _) Hl).
Qed.

(** A step of thread [i] that sends [pkts]. *)
Lemma client_inv_step s s' i p p' c pkts :
  client_inv s → thr s !! i = Some p → p ≠ PcStop →
  shared_ok c → rank (state (cl s)) <= rank (state c) → good p' → need p' <= rank (state c) →
  sent_bytes (client c) = sent_bytes (client (cl s)) - claimed p + claimed p' + sum_over data_size pkts →
  log_ok (rank (state c)) (log s ++ pkts) → (p' = PcStop → mtx s = None) →
  cl s' = c → thr s' = <[i := p']> (thr s) → mtx s' = (if holds p' then Some i else mtx s) → log s' = log s ++ pkts →
  client_inv s'.
Proof.
  intros [Hsh Hn Hg Hs Hlog Hm] Hi Hp Hsh' Hr Hg' Hn' Hsent Hlog' Hstop Ec Et Em El.
  split; rewrite ?Ec, ?Et, ?El; try done.
  - by rewrite length_insert.
  - apply Forall_insert; [|done]. eapply Forall_impl; [exact Hg|]. cbn. intros q [? ?]. split; [done|lia].
  - rewrite (sum_insert _ _ _ _ _ Hi), sum_app. lia.
  - rewrite Em. assert (Hcase : p' = PcStop ∨ (p' ≠ PcStop ∧ holds p' = false)).
    { destruct p'; cbn in Hg' |- *; try done; by (left + right; split). }
    destruct Hcase as [->|[Hne ->]]; cbn [holds].
    + rewrite (Hstop eq_refl) in Hm. apply lookup_lt_Some in Hi. rewrite list_lookup_insert_eq by done. split; [done|].
      intros j Hj. destruct (decide (i = j)) as [->|Hij]; [done|]. rewrite list_lookup_insert_ne in Hj by done.
      exfalso. by apply (proj1 (Forall_lookup _ _) Hm j _ Hj).
    + destruct (mtx s) as [k|]; [|by apply Forall_insert]. destruct Hm as [Hk Huniq].
      assert (i ≠ k) by congruence. split; [by rewrite list_lookup_insert_ne|]. intros j Hj. apply Huniq.
      destruct (decide (i = j)) as [->|Hij]; [|by rewrite list_lookup_insert_ne in Hj].
      apply lookup_lt_Some in Hi. rewrite list_lookup_insert_eq in Hj by done. congruence.
Qed.

Lemma server_inv_step s s' handled sv pkts :
  server_inv s handled sv → sthr s' = sthr s → net s' = net s ++ pkts → log s' = log s ++ pkts →
  servers s' = servers s → replies s' = replies s → back s' = back s →
  (state (cl s') = AXN_STATE_STOP ∧ mtx s' = None ↔ state (cl s) = AXN_STATE_STOP ∧ mtx s = None) →
  server_inv s' handled sv.
Proof.
  intros [Ht Ho He Hv Hb] E1 E2 E3 E4 E5 E6 Hiff. split; rewrite ?E1, ?E2, ?E3, ?E4, ?E5, ?E6; try done.
  - by rewrite <- Ho, !(assoc_L (++)).
  - erewrite bool_decide_ext; [exact Hb|done].
Qed.

Definition sends (acts : list act) : list packet := omap (fun a => match a with ASend p => Some p | _ => None end) acts.

(** How many steps are left: a byte that is not yet claimed stands for sixteen. *)
Definition weight (p : pc) : Z :=
  match p with
  | PcStart => 10 | PcCheck => 7 | PcRawEnter _ | PcRawLoop _ => 6 | PcSend _ => 9 | PcEnd => 3 | PcStop => 2 | _ => 0
  end.
Definition sweight (x : spc) : Z := match x with SGot _ => 1 | _ => 0 end.
Definition measure (s : sys) : Z :=
  16 * (T - sent_bytes (client (cl s))) + sum_over weight (thr s) + 2 * alen (net s) + sum_over sweight (sthr s) + alen (dma s).

(** What the piece of code of a thread has to establish. *)
Record good_step (c c' : axnetperf_status_t) (p p' : pc) (acts : list act) : Prop := {
  gs_shared : shared_ok c';
  gs_rank : rank (state c) <= rank (state c');
  gs_good : good p' ∧ need p' <= rank (state c');
  gs_sent : sent_bytes (client c') = sent_bytes (client c) - claimed p + claimed p' + sum_over data_size (sends acts);
  gs_acts : acts = [] ∨ ∃ pk, acts = [ASend pk];
  gs_log : ∀ l, log_ok (rank (state c)) l → log_ok (rank (state c')) (l ++ sends acts);
  gs_weight : weight p' + 2 * alen (sends acts) < weight p + 16 * (sent_bytes (client c') - sent_bytes (client c));
  gs_stop : (p' = PcStop ∧ needs_mutex p = true ∧ state c = AXN_STATE_END) ∨
    (p' ≠ PcStop ∧ (state c' = AXN_STATE_STOP ↔ state c = AXN_STATE_STOP))
}.

Lemma inv_good_step s i p c p' acts :
  inv s → thr s !! i = Some p → (needs_mutex p = true → mtx s = None) → p ≠ PcStop →
  good_step (cl s) c p p' acts → inv (foldr (perform i) (with_thread i p' c s) acts).
Proof.
  intros [Hc (handled & sv & Hv)] Hi Hmtx Hp [Hsh Hr [Hg Hn] Hs Ha Hl _ Hstop].
  set (s' := foldr (perform i) (with_thread i p' c s) acts).
  assert (cl s' = c ∧ thr s' = <[i := p']> (thr s) ∧ mtx s' = (if holds p' then Some i else mtx s) ∧
    log s' = log s ++ sends acts ∧ net s' = net s ++ sends acts ∧ sthr s' = sthr s ∧ servers s' = servers s ∧
    replies s' = replies s ∧ back s' = back s) as (E1 & E2 & E3 & E4 & E5 & E6 & E7 & E8 & E9).
  { destruct Ha as [->|[pk ->]]; unfold s'; cbn; rewrite ?app_nil_r; done. }
  clearbody s'. split.
  - eapply (client_inv_step s s' i p p' c); eauto.
    + by apply Hl, ci_log.
    + intros ->. destruct Hstop as [(_ & H & _)|[? _]]; [by apply Hmtx|done].
  - exists handled, sv. eapply server_inv_step; eauto. rewrite E1, E3.
    destruct Hstop as [(-> & _ & Hst)|[Hne Hst]]; [cbn; rewrite Hst; naive_solver|].
    assert (holds p' = false) as -> by (destruct p'; done). by rewrite Hst.
Qed.

Hypothesis start : raw_start c0.

Lemma init_psize_ok def c : payload_size (client c) = payload_size (client c0) → def = max_psize c0 →
  ∃ v, psize_ok v ∧ ∀ c', client c' = client c →
    init_psize def (max_psize c0) c' = (if payload_size (client c) =? 0 then set_client (set_payload_size v (client c')) c' else c', 0) ∧
    (payload_size (client c) ≠ 0 → payload_size (client c) = v).
Proof using start RCOK PCOK.
  intros Hc Hd. pose proof (rs_psize _ start) as Hp. rewrite Hc.
  assert (Hm : 1 <= max_psize c0).
  { unfold max_psize. pose proof payload_max. pose proof long_max. unfold sizeof_header in *. destruct (_ =? _); lia. }
  destruct (Z.eqb_spec (payload_size (client c0)) 0) as [E|E].
  - exists (max_psize c0). split; [unfold psize_ok; lia|]. intros c' Ec. split; [|lia]. unfold init_psize. rewrite Ec, Hc, E, Hd.
    cbn. rewrite (proj2 (Z.ltb_ge (max_psize c0) 1)), (proj2 (Z.ltb_ge (max_psize c0) (max_psize c0))) by lia. done.
  - exists (payload_size (client c0)). split; [unfold psize_ok; lia|]. intros c' Ec. split; [|done]. unfold init_psize.
    rewrite Ec, Hc. destruct (Z.eqb_spec (payload_size (client c0)) 0); [done|]. rewrite Ec, Hc.
    rewrite (proj2 (Z.ltb_ge _ 1)), (proj2 (Z.ltb_ge (max_psize c0) _)) by lia. done.
Qed.

Lemma raw_init_eq e c : shared_ok c → state c = AXN_STATE_NULL →
  ∃ c', client_init e (set_client (set_magic_number (e_rand e) (client c)) c) = Some (c', 0) ∧
    state c' = state c ∧ np_type c' = np_type c ∧ server_id c' = server_id c ∧ client_port c' = client_port c ∧
    server_port c' = server_port c ∧ total_bytes (client c') = total_bytes (client c) ∧
    sent_bytes (client c') = sent_bytes (client c) ∧ psize_ok (payload_size (client c')).
Proof using start RCOK PCOK.
  intros Hsh Hst. pose proof (so_psize _ Hsh) as Hp. rewrite bool_decide_true in Hp by done.
  destruct (so_config _ Hsh) as (Et & _). destruct types_differ as (T1 & T2 & T3).
  set (c1 := set_client (set_magic_number (e_rand e) (client c)) c).
  destruct (init_psize_ok (max_psize c0) c1 Hp eq_refl) as (v & Hv & Heq). destruct (Heq c1 eq_refl) as [Hi Hne].
  eexists. split.
  - unfold client_init. change (np_type c1) with (np_type c). rewrite Et. clear Heq.
    assert (E : (if np_type c0 =? AXNP_RAW then axnetperf_raw_init c1 else axnetperf_long_init c1) = init_psize (max_psize c0) (max_psize c0) c1).
    { unfold max_psize. by destruct (np_type c0 =? AXNP_RAW). }
    destruct (rs_type _ start) as [E0|E0]; rewrite E0 in *.
    + rewrite (proj2 (Z.eqb_neq AXNP_RAW AXNP_RDMA)), Z.eqb_refl in * by done. rewrite E. by rewrite Hi.
    + rewrite (proj2 (Z.eqb_neq AXNP_LONG AXNP_RDMA)), (proj2 (Z.eqb_neq AXNP_LONG AXNP_RAW)), Z.eqb_refl in * by done.
      rewrite E. by rewrite Hi.
  - destruct (Z.eqb_spec (payload_size (client c1)) 0) as [E|E]; cbn; split_and!; try done.
    by rewrite <- (Hne E) in Hv.
Qed.

(** A piece of code that changes and sends nothing. *)
Lemma idle_step c p p' : shared_ok c → good p' → need p' <= rank (state c) → claimed p = claimed p' → p' ≠ PcStop →
  weight p' < weight p → good_step c c p p' [].
Proof.
  intros. split; try done; try lia; [cbn; lia|by left| |unfold alen; cbn; lia|by right]. intros l. by rewrite app_nil_r.
Qed.

Lemma enter_step e c r : shared_ok c → env_ok false c e → client_enter e c = Some r → good_step c r.1.1 PcStart r.1.2 r.2.
Proof using start RCOK PCOK CNOK.
  intros Hsh [_ He]. destruct (He eq_refl) as [Herr _]. unfold client_enter.
  destruct (decide (state c = AXN_STATE_NULL)) as [Hst|Hne].
  2: { intros H. assert (r = (c, PcCheck, [])) as -> by (destruct (state c); congruence).
    cbn [fst snd]. apply idle_step; try done. clear H. destruct (state c); done || (cbn; lia). }
  rewrite Hst.
  destruct (raw_init_eq e c Hsh Hst) as (c' & Hi & E1 & E2 & E3 & E4 & E5 & E6 & E7 & Hp). rewrite Hi. cbn.
  unfold axnetperf_start. rewrite Herr. cbn. intros [= <-]. destruct (so_config _ Hsh) as (C1 & C2 & C3 & C4 & C5).
  pose proof (so_sent _ Hsh) as Hs. pose proof (so_early _ Hsh) as Hz. rewrite Hst in Hz. specialize (Hz ltac:(cbn; lia)).
  split; cbn.
  - split; cbn; try lia; try done.
  - rewrite Hst. cbn. lia.
  - split; [done|lia].
  - rewrite E7. unfold sends, data_size. cbn. rewrite (proj2 (Z.eqb_neq _ _)); [lia|]. apply cmds_differ.
  - right. eauto.
  - rewrite Hst. intros [|q l]; cbn; [|lia]. intros _. split; [lia|]. split; [|done]. unfold is_start. cbn.
    rewrite E6, C5, E4, C3. done.
  - unfold alen. cbn. lia.
  - right. rewrite Hst. done.
Qed.

Lemma check_step c : shared_ok c → need PcCheck <= rank (state c) → good_step c c PcCheck (client_check c) [].
Proof using start PCOK.
  intros Hsh Hn. cbn in Hn. pose proof (so_state _ Hsh) as Hr. pose proof (so_psize _ Hsh) as Hp.
  destruct (so_config _ Hsh) as (Et & _). destruct types_differ as (T1 & T2 & T3).
  assert (E : client_check c = PcRawEnter (mk_locals (payload_size (client c)) 0 0)).
  { unfold client_check. rewrite bool_decide_false by (intros E; rewrite E in Hr; cbn in Hr; lia). rewrite Et.
    destruct (rs_type _ start) as [->| ->].
    - by rewrite (proj2 (Z.eqb_neq AXNP_RAW AXNP_RDMA)), Z.eqb_refl by done.
    - by rewrite (proj2 (Z.eqb_neq AXNP_LONG AXNP_RDMA)), Z.eqb_refl, orb_true_r by done. }
  rewrite bool_decide_false in Hp by (intros E0; rewrite E0 in Hn; cbn in Hn; lia).
  rewrite E. by apply idle_step.
Qed.

Lemma transfer_start_ok c : shared_ok c → 1 <= rank (state c) →
  shared_ok (transfer_start c) ∧ 2 <= rank (state (transfer_start c)) ∧ rank (state c) <= rank (state (transfer_start c)) ∧
  sent_bytes (client (transfer_start c)) = sent_bytes (client c) ∧
  (state (transfer_start c) = AXN_STATE_STOP ↔ state c = AXN_STATE_STOP).
Proof.
  intros Hsh Hr. pose proof (so_early _ Hsh) as H5. unfold transfer_start. case_bool_decide as E.
  - destruct Hsh as [H1 H2 H3 H4 _ H6]. rewrite E in *. cbn in H5. specialize (H5 ltac:(lia)).
    split; [|cbn; rewrite H5; split_and!; done || lia]. split; cbn; try done; lia.
  - split; [exact Hsh|]. split; [|split; [lia|done]]. destruct (state c); cbn in *; lia || done.
Qed.

Lemma claim_size_ok c psize : shared_ok c → sent_bytes (client c) < T → psize_ok psize →
  psize_ok (claim_size (client c) psize) ∧ sent_bytes (client c) + claim_size (client c) psize <= T.
Proof using start.
  intros Hsh Hlt Hp. destruct (so_config _ Hsh) as (_ & _ & _ & _ & Et). pose proof (so_sent _ Hsh). destruct (rs_total _ start) as [_ HT].
  unfold claim_size, psize_ok in *. rewrite Et, u64_small by lia. destruct (Z.ltb_spec (T - sent_bytes (client c)) psize); lia.
Qed.

(** One turn of the loop of [axnetperf_raw_long]. *)
Lemma raw_loop_ok c l : shared_ok c → 2 <= rank (state c) → psize_ok (l_psize l) →
  let r := raw_long_loop c l in
  shared_ok r.1 ∧ rank (state c) <= rank (state r.1) ∧ good r.2 ∧ need r.2 <= rank (state r.1) ∧
  sent_bytes (client r.1) = sent_bytes (client c) + claimed r.2 ∧ r.2 ≠ PcStop ∧
  weight r.2 < 6 + 16 * claimed r.2 ∧
  (state r.1 = AXN_STATE_STOP ↔ state c = AXN_STATE_STOP).
Proof using start.
  intros Hsh Hr Hp. unfold raw_long_loop. destruct (so_config _ Hsh) as (C1 & C2 & C3 & C4 & C5). rewrite C5.
  pose proof (so_sent _ Hsh) as Hs. destruct (rs_total _ start) as [_ HT]. destruct (Z.ltb_spec (sent_bytes (client c)) T) as [Hlt|Hge].
  - destruct (claim_size_ok c _ Hsh Hlt Hp) as [Hc1 Hc2]. assert (1 <= claim_size (client c) (l_psize l)) by apply Hc1.
    assert (rank (state c) < 3) by (destruct (Z.lt_ge_cases (rank (state c)) 3); [done|pose proof (so_late _ Hsh); lia]).
    destruct Hsh. cbn. rewrite u64_small by lia. split_and!; try done; try lia. split; cbn; try done; try lia.
    rewrite u64_small by lia. lia.
  - cbn. unfold raw_long_end. case_bool_decide as E.
    + destruct Hsh. rewrite E in *. cbn. split_and!; try done; try lia. split; cbn; done || lia.
    + split_and!; try done; try lia. assert (state c ≠ AXN_STATE_ERROR) by (intros E1; pose proof (so_state _ Hsh) as H; rewrite E1 in H; cbn in H; lia).
      destruct (state c); cbn in *; lia || done.
Qed.

Lemma raw_loop_step c c1 p l : shared_ok c1 → 2 <= rank (state c1) → rank (state c) <= rank (state c1) → psize_ok (l_psize l) →
  1 <= rank (state c) → claimed p = 0 → weight p = 6 → sent_bytes (client c1) = sent_bytes (client c) →
  (state c1 = AXN_STATE_STOP ↔ state c = AXN_STATE_STOP) →
  good_step c (raw_long_loop c1 l).1 p (raw_long_loop c1 l).2 [].
Proof using start.
  intros Hsh H2 Hr Hp Hr1 Hcl Hw Hs Hiff. destruct (raw_loop_ok c1 l Hsh H2 Hp) as (A1 & A2 & A3 & A4 & A5 & A6 & A8 & A7).
  set (r := raw_long_loop c1 l) in *. clearbody r. split; try done; try lia.
  - rewrite A5. cbn. lia.
  - by left.
  - intros lg. cbn. rewrite app_nil_r. destruct lg; cbn; [lia|]. intros (? & ? & ?). split_and!; done || lia.
  - change (alen (sends [])) with 0. lia.
  - right. split; [done|]. by rewrite A7.
Qed.

Lemma send_step e c l : shared_ok c → env_ok false c e → psize_ok (l_psize l) → 2 <= rank (state c) →
  good_step c c (PcSend l) (raw_long_send e c l).1 (raw_long_send e c l).2.
Proof.
  intros Hsh [_ He] Hp Hr. destruct (He eq_refl) as [Herr _]. unfold raw_long_send. rewrite Herr. cbn.
  split; cbn; try done; try lia.
  - unfold data_size. cbn. rewrite Z.eqb_refl. lia.
  - right. eauto.
  - intros [|q lg]; cbn; [lia|]. intros (? & ? & ?). split_and!; [done|done|]. apply Forall_app. split; [done|].
    apply Forall_singleton. done.
  - unfold alen. cbn. lia.
  - by right.
Qed.

Lemma end_step c : shared_ok c → 3 <= rank (state c) → good_step c (client_end c).1 PcEnd (client_end c).2 [].
Proof.
  intros Hsh Hr. unfold client_end. case_bool_decide as E.
  - destruct Hsh. rewrite E in *. cbn in *. split; cbn; rewrite ?E; try done; try lia.
    + split; cbn; try done; lia.
    + by left.
    + intros [|q lg]; cbn; [lia|]. rewrite app_nil_r. intros (? & ? & ?). split_and!; done || lia.
    + unfold alen. cbn. lia.
    + left. done.
  - assert (Hst : state c = AXN_STATE_STOP) by (pose proof (so_state _ Hsh); destruct (state c); cbn in *; lia || done).
    cbn [fst snd]. apply idle_step; try done. rewrite Hst. done.
Qed.

Lemma thread_good_step s i p e c p' acts :
  inv s → thr s !! i = Some p → env_ok false (cl s) e →
  thread_step e (cl s) p = Some (c, p', acts) → good_step (cl s) c p p' acts.
Proof using start CNOK RCOK PCOK.
  intros Hinv Hi He Hstep. pose proof Hinv as [Hc _]. pose proof (ci_shared _ Hc) as Hsh.
  destruct (proj1 (Forall_lookup _ _) (ci_good _ Hc) i p Hi) as [Hg Hn].
  destruct p; cbn in Hg, Hn; try done; cbn in Hstep.
  - exact (enter_step e (cl s) (c, p', acts) Hsh He Hstep).
  - injection Hstep as <- <- <-. by apply check_step.
  - destruct (transfer_start_ok (cl s) Hsh Hn) as (A1 & A2 & A3 & A4 & A5).
    pose proof (raw_loop_step (cl s) (transfer_start (cl s)) (PcRawEnter l) l A1 A2 A3 Hg Hn eq_refl eq_refl A4 A5) as H.
    destruct (raw_long_loop (transfer_start (cl s)) l). injection Hstep as <- <- <-. exact H.
  - pose proof (send_step e (cl s) l Hsh He Hg Hn) as H.
    destruct (raw_long_send e (cl s) l). injection Hstep as <- <- <-. exact H.
  - pose proof (raw_loop_step (cl s) (cl s) (PcRawLoop l) l Hsh Hn ltac:(lia) Hg ltac:(lia) eq_refl eq_refl eq_refl ltac:(done)) as H.
    destruct (raw_long_loop (cl s) l). injection Hstep as <- <- <-. exact H.
  - pose proof (end_step (cl s) Hsh Hn) as H. destruct (client_end (cl s)). injection Hstep as <- <- <-. exact H.
Qed.

Lemma inv_thread s i p e c p' acts :
  inv s → thr s !! i = Some p → (needs_mutex p = true → mtx s = None) → env_ok false (cl s) e →
  thread_step e (cl s) p = Some (c, p', acts) → inv (foldr (perform i) (with_thread i p' c s) acts).
Proof using start CNOK RCOK PCOK.
  intros Hinv Hi Hm He Hstep. apply (inv_good_step s i p); try done; [by intros ->|]. by eapply thread_good_step.
Qed.

(** *** The server *)

(** The handler on the messages of a session. *)
Lemma reply_start v sv pk : is_start pk → is_Some (v_clock v) →
  ∃ now, reply_entry v sv me (pk_size pk) (pk_payload pk) = Some (mk_server now now T 0 (client_port c0), []).
Proof.
  intros (Hc & Ht & Hp) [now Hclock]. exists now. unfold reply_entry. rewrite Hclock, Hc, Ht, Hp, Z.eqb_refl. done.
Qed.

Lemma reply_data v sv pk : is_data pk → is_Some (v_clock v) → AXIOM_RET_IS_OK (v_err v) = true →
  ∃ sv', expected_bytes sv' = expected_bytes sv ∧ reply_port sv' = reply_port sv ∧
    received_bytes sv' = u64 (received_bytes sv + pk_size pk) ∧
    reply_entry v sv me (pk_size pk) (pk_payload pk) = Some (sv', if expected_bytes sv' <=? received_bytes sv'
      then [mk_packet me (reply_port sv') sizeof_payload (reply_payload sv' 0 (v_junk v))] else []).
Proof using PCOK.
  intros (Hc & _) [now Hclock] Herr. destruct cmds_differ as (D1 & D2 & D3).
  eexists (set_received (u64 (received_bytes sv + pk_size pk)) (set_cur_ts now sv)). split_and!; try done.
  unfold reply_entry, axiom_netperf_send_reply. rewrite Hclock, Hc, Herr.
  rewrite (proj2 (Z.eqb_neq AXIOM_CMD_NETPERF AXIOM_CMD_NETPERF_START)), (proj2 (Z.eqb_neq AXIOM_CMD_NETPERF AXIOM_CMD_NETPERF_END)), Z.eqb_refl by done.
  done.
Qed.

(** Handling the next message. *)
Lemma served_next k handled pk rest sv sv' out v replies :
  log_ok k (handled ++ pk :: rest) → sum_over data_size (handled ++ pk :: rest) <= T → 0 < T < 2 ^ 64 →
  served handled sv replies → is_Some (v_clock v) → AXIOM_RET_IS_OK (v_err v) = true →
  reply_entry v sv me (pk_size pk) (pk_payload pk) = Some (sv', out) →
  served (handled ++ [pk]) sv' (replies ++ out).
Proof using start CNOK RCOK PCOK.
  intros Hlog Hsum HT Hs Hclk Herr Hr. pose proof (log_nonneg _ _ Hlog) as Hpos.
  assert (Hrest : 0 <= sum_over data_size rest) by (apply sum_nonneg; intros x Hx; apply Hpos; set_solver).
  assert (Hhand : 0 <= sum_over data_size handled) by (apply sum_nonneg; intros x Hx; apply Hpos; set_solver).
  destruct handled as [|h hs].
  - cbn in Hlog, Hs. destruct Hlog as (_ & Hst & _). destruct (reply_start v sv pk Hst Hclk) as [now E].
    rewrite E in Hr. injection Hr as <- <-. subst replies.
    assert (Hsz : data_size pk = 0).
    { unfold data_size. destruct Hst as [-> _]. by rewrite (proj2 (Z.eqb_neq AXIOM_CMD_NETPERF_START AXIOM_CMD_NETPERF)) by apply cmds_differ. }
    cbn. rewrite Hsz. destruct (Z.eqb_spec (0 + 0) T); [lia|done].
  - cbn in Hlog. destruct Hlog as (_ & _ & Hds). apply Forall_app in Hds as [_ Hds]. apply Forall_cons in Hds as [Hd _].
    destruct (reply_data v sv pk Hd Hclk Herr) as (sv1 & E1 & E2 & E3 & E). rewrite E in Hr. injection Hr as <- <-.
    destruct Hs as (Hex & Hrc & Hport & Hout).
    assert (Hsz : data_size pk = pk_size pk) by (unfold data_size; destruct Hd as [-> _]; by rewrite Z.eqb_refl).
    assert (Hpk : 1 <= pk_size pk) by apply Hd. rewrite sum_app, (sum_cons _ pk) in Hsum.
    change (served ((h :: hs) ++ [pk]) sv1 ?o) with (served (h :: (hs ++ [pk])) sv1 o). unfold served.
    rewrite app_comm_cons, (sum_app _ (h :: hs)), (sum_cons _ pk []). change (sum_over data_size []) with 0.
    rewrite Hsz in Hsum |- *. rewrite Hrc, u64_small in E3 by lia. rewrite E1, E2, E3, Hex, Hport.
    split_and!; [done|lia|done|]. destruct (Z.eqb_spec (sum_over data_size (h :: hs)) T); [lia|]. rewrite Hout.
    destruct (Z.eqb_spec (sum_over data_size (h :: hs) + (pk_size pk + 0)) T), (Z.leb_spec T (sum_over data_size (h :: hs) + pk_size pk)); try lia.
    + eexists. split; [done|]. unfold is_reply. cbn. rewrite E3. split_and!; done || lia.
    + done.
Qed.


Lemma total_range : 0 < T < 2 ^ 64.
Proof using start. apply (rs_total _ start). Qed.

Lemma log_bound s : client_inv s → sum_over data_size (log s) <= T.
Proof.
  intros Hc. pose proof (claimed_sum_nonneg s Hc). pose proof (ci_sent _ Hc). pose proof (so_sent _ (ci_shared _ Hc)). lia.
Qed.

Lemma inv_recv s j pk rest : inv s → sthr s !! j = Some SRecv → net s = pk :: rest →
  inv (mk_sys (cl s) (mtx s) (thr s) rest (zone s) (dma s) (servers s) (<[j := SGot pk]> (sthr s)) (back s) (log s) (replies s)).
Proof.
  intros [[] (handled & sv & [[x [Hx Hd]] Ho He Hs Hb])] Hj Hnet. split; [done|]. exists handled, sv.
  rewrite Hx in Hj, Ho. destruct j; [|done]. injection Hj as ->. rewrite Hnet in Ho. split; cbn; try done.
  - rewrite Hx. cbn. eauto.
  - by rewrite Hx.
Qed.

Lemma back_replies_out (b : bool) (bk rp out : list packet) :
  (if b then bk = [] ∧ length rp = 1%nat else bk = rp) → (b = true → out = []) →
  if b then bk ++ out = [] ∧ length (rp ++ out) = 1%nat else bk ++ out = rp ++ out.
Proof. destruct b; [intros [-> ?] ->; by rewrite ?app_nil_r|by intros -> _]. Qed.

(** Once a reply has been sent there is nothing left to handle. *)
Lemma reply_last k handled pk rest sv sv' out v rp :
  log_ok k (handled ++ pk :: rest) → sum_over data_size (handled ++ pk :: rest) <= T →
  served handled sv rp → length rp = 1%nat → reply_entry v sv me (pk_size pk) (pk_payload pk) = Some (sv', out) → False.
Proof using start CNOK RCOK PCOK.
  intros Hlog Hsum Hs Hlen _. pose proof (log_nonneg _ _ Hlog) as Hpos.
  assert (Hrest : 0 <= sum_over data_size rest) by (apply sum_nonneg; intros x Hx; apply Hpos; set_solver).
  destruct handled as [|h hs]; [by rewrite Hs in Hlen|]. destruct Hs as (_ & _ & _ & Hout).
  destruct (Z.eqb_spec (sum_over data_size (h :: hs)) T) as [E|]; [|by rewrite Hout in Hlen].
  cbn in Hlog. destruct Hlog as (_ & _ & Hds). apply Forall_app in Hds as [_ Hds]. apply Forall_cons in Hds as [[Hc Hp] _].
  rewrite sum_app, (sum_cons _ pk), E in Hsum. unfold data_size at 1 in Hsum. rewrite Hc, Z.eqb_refl in Hsum. unfold psize_ok in Hp. lia.
Qed.

Lemma inv_handle s j pk v table out : inv s → sthr s !! j = Some (SGot pk) → senv_ok false v s →
  axiom_netperf_reply v (servers s) me (pk_size pk) (pk_payload pk) = Some (table, out) →
  inv (mk_sys (cl s) (mtx s) (thr s) (net s) (zone s) (dma s) table (<[j := SRecv]> (sthr s)) (back s ++ out) (log s) (replies s ++ out)).
Proof using start CNOK RCOK PCOK.
  intros [Hc (handled & sv & [[x [Hx Hd]] Ho He Hs Hb])] Hj [_ Hv] Hr. destruct (Hv eq_refl) as (Herr & _ & Hclk).
  rewrite Hx in Hj, Ho. destruct j; [|done]. injection Hj as ->. cbn in Ho.
  unfold axiom_netperf_reply in Hr. rewrite He in Hr. cbn in Hr.
  destruct (reply_entry v sv me (pk_size pk) (pk_payload pk)) as [[sv' o]|] eqn:Er; [|done]. injection Hr as <- <-.
  pose proof (log_bound s Hc) as Hsum. pose proof (ci_log _ Hc) as Hlog. rewrite <- Ho in Hsum, Hlog. pose proof total_range.
  split; [by destruct Hc|]. exists (handled ++ [pk]), sv'. split; cbn.
  - rewrite Hx. cbn. eauto.
  - rewrite Hx. cbn. by rewrite <- Ho, <- (assoc_L (++)).
  - apply list_lookup_insert_eq. by eapply lookup_lt_Some.
  - eapply served_next; eauto.
  - apply (back_replies_out (bool_decide _)); [exact Hb|]. intros E. rewrite E in Hb. destruct Hb as [_ Hlen].
    exfalso. eapply reply_last; eauto.
Qed.

#[local] Arguments sum_over : simpl never.

Lemma inv_stop s i pk rest : inv s → thr s !! i = Some PcStop → back s = pk :: rest →
  inv (mk_sys (cl s) None (<[i := client_stop (cl s) AXIOM_RET_OK (server_id (cl s)) (pk_payload pk)]> (thr s))
        (net s) (zone s) (dma s) (servers s) (sthr s) rest (log s) (replies s)).
Proof using start CNOK RCOK PCOK.
  intros [Hc (handled & sv & [Hx Ho He Hs Hb])] Hi Hbk.
  destruct (proj1 (Forall_lookup _ _) (ci_good _ Hc) i _ Hi) as [_ Hn]. cbn in Hn.
  pose proof (rank_stop _ (so_state _ (ci_shared _ Hc)) Hn) as Hst.
  destruct Hc as [Hsh Hl Hg Hsent Hlog Hm]. destruct (mtx s) as [k|] eqn:Em; [|exfalso; by apply (proj1 (Forall_lookup _ _) Hm i _ Hi)].
  destruct Hm as [Hk Huniq]. rewrite bool_decide_false in Hb by naive_solver. rewrite Hbk in Hb.
  assert (Hone : replies s = [pk] ∧ rest = [] ∧ is_reply pk).
  { rewrite <- Hb in *. unfold served in Hs. destruct handled; [done|]. destruct Hs as (_ & _ & _ & Hs). destruct (_ =? T); [|done].
    destruct Hs as (q & [= -> ->] & Hp). done. }
  destruct Hone as (Hrep & -> & Hpk).
  assert (Hret : client_stop (cl s) AXIOM_RET_OK (server_id (cl s)) (pk_payload pk) = PcRet AXIOM_RET_OK).
  { unfold client_stop, axnetperf_stop. destruct Hpk as (_ & _ & -> & _). by rewrite ret_ok_ok, !Z.eqb_refl. }
  rewrite Hret. split; [split|exists handled, sv; split]; cbn; try done.
  - by rewrite length_insert.
  - apply Forall_insert; [done|]. split; [done|]. cbn. lia.
  - rewrite (sum_insert _ _ _ _ _ Hi). cbn. lia.
  - apply Forall_lookup. intros j p Hj ->. destruct (decide (i = j)) as [->|Hij].
    + apply lookup_lt_Some in Hi. by rewrite list_lookup_insert_eq in Hj.
    + rewrite list_lookup_insert_ne in Hj by done. apply Huniq in Hj. apply Huniq in Hi. congruence.
  - rewrite bool_decide_true by done. by rewrite Hrep.
Qed.

Lemma perf_inv_step s s' : inv s → step me false s s' → inv s'.
Proof using start CNOK RCOK PCOK.
  intros H Hs. destruct Hs; try done.
  - by eapply inv_thread.
  - by apply inv_stop.
  - destruct H as [[] (handled & sv & [])]. split; [done|]. by exists handled, sv.
  - by apply inv_recv.
  - by eapply inv_handle.
Qed.

Lemma inv_start k zone table : is_Some (table !! Z.to_nat me) → (k = 1)%nat → inv (sys0 c0 n zone table k).
Proof using start.
  intros [sv Hsv] ->. destruct start as [S1 S2 [S3 S4] S5 S6]. split.
  - split; cbn; rewrite ?S1, ?S3; try done.
    + split; rewrite ?S1; cbn; try done; try lia.
    + apply length_replicate.
    + apply Forall_replicate. done.
    + rewrite S5. clear. induction n as [|m IH]; [done|]. cbn. rewrite sum_cons. cbn in *. lia.
    + by apply Forall_replicate.
  - exists [], sv. split; cbn; try done; [eauto|]. by rewrite bool_decide_false by (rewrite S1; naive_solver).
Qed.

Lemma inv_run k zone table m s : is_Some (table !! Z.to_nat me) → (k = 1)%nat → run me false m (sys0 c0 n zone table k) s → inv s.
Proof using start CNOK RCOK PCOK.
  intros Ht Hk Hrun. remember (sys0 c0 n zone table k) as s0 eqn:E. induction Hrun as [|m s0 s1 s2 _ IH Hs]; subst.
  - by apply inv_start.
  - eapply perf_inv_step; [|exact Hs]. by apply IH.
Qed.

(** *** Every run is finite *)

Lemma measure_nonneg s : inv s → 0 <= measure s.
Proof.
  intros [Hc _]. pose proof (so_sent _ (ci_shared _ Hc)). unfold measure, alen.
  pose proof (sum_nonneg weight (thr s)) as H1. pose proof (sum_nonneg sweight (sthr s)) as H2.
  specialize (H1 ltac:(intros [] _; cbn; lia)). specialize (H2 ltac:(intros [] _; cbn; lia)). lia.
Qed.

Lemma measure_step s s' : inv s → step me false s s' → measure s' < measure s.
Proof using start CNOK RCOK PCOK.
  intros Hinv Hs. destruct Hs as [s i p e c p' acts Hi Hm Hw He Hst|s i pk rest Hi Hb _ _| |s i a z l1 l2 Hd|s j pk rest Hj Hnet| |s j pk v table out Hj _ _];
    try done; unfold measure.
  - pose proof (thread_good_step s i p e c p' acts Hinv Hi He Hst) as [_ _ _ _ Ha _ Hweight _].
    destruct Ha as [->|[pk ->]]; cbn in Hweight |- *; rewrite ?(sum_insert _ _ _ _ _ Hi), ?alen_app; unfold alen in *; cbn in *; lia.
  - cbn. rewrite (sum_insert _ _ _ _ _ Hi). cbn. lia.
  - cbn. rewrite Hd, !alen_app. unfold alen. cbn. lia.
  - cbn. rewrite (sum_insert _ _ _ _ _ Hj), Hnet. unfold alen. cbn. lia.
  - cbn. rewrite (sum_insert _ _ _ _ _ Hj). cbn. lia.
Qed.

Lemma run_measure m s0 s : inv s0 → run me false m s0 s → inv s ∧ Z.of_nat m + measure s <= measure s0.
Proof using start CNOK RCOK PCOK.
  intros H0 Hrun. induction Hrun as [|m s0 s1 s2 _ IH Hs]; [split; [done|lia]|].
  destruct (IH H0) as [H1 Hle]. split; [by eapply perf_inv_step|]. pose proof (measure_step _ _ H1 Hs). lia.
Qed.

(** *** Every run that stops has succeeded *)

Lemma thread_can_step s i p : inv s → thr s !! i = Some p → (needs_mutex p = true → mtx s = None) → p ≠ PcStop →
  (∀ r, p ≠ PcRet r) → ∃ s', step me false s s'.
Proof using start CNOK RCOK PCOK.
  intros [Hc _] Hi Hm Hp Hr. destruct (proj1 (Forall_lookup _ _) (ci_good _ Hc) i p Hi) as [Hg _].
  set (e := mk_env 0 (Some (replicate (Z.to_nat (total_bytes (client (cl s)))) 0)) AXIOM_RET_OK (mk_payload 0 0 0 0 0 0 0)).
  assert (He : env_ok false (cl s) e).
  { split; cbn; [lia|]. intros _. split; [apply ret_ok_ok|]. eexists. split; [done|]. unfold alen. rewrite length_replicate. lia. }
  assert (Hex : ∃ c p' acts, thread_step e (cl s) p = Some (c, p', acts)).
  { destruct p; cbn in Hg; try done; cbn; try naive_solver eauto.
    - unfold client_enter. destruct (state (cl s)) eqn:Hst; eauto.
      destruct (raw_init_eq e (cl s) (ci_shared _ Hc) Hst) as (c' & E & _). rewrite E. cbn.
      destruct (axnetperf_start e c') as [ret acts]. destruct (ret =? 0); cbn; eauto.
    - destruct (raw_long_loop _ _). eauto.
    - destruct (raw_long_send _ _ _). eauto.
    - destruct (raw_long_loop _ _). eauto.
    - destruct (client_end _). eauto. }
  destruct Hex as (c & p' & acts & Hst). eexists. eapply (step_thread _ _ s i p e); eauto.
  destruct p; cbn in Hg |- *; done.
Qed.

Lemma server_can_step s : inv s → net s ≠ [] ∨ in_hand (sthr s) ≠ [] → ∃ s', step me false s s'.
Proof using start CNOK RCOK PCOK.
  intros [Hc (handled & sv & [[x [Hx Hd]] Ho He Hs Hb])] H. rewrite Hx in H, Ho. destruct x as [|pk|]; [| |done].
  - cbn in H. destruct (net s) as [|pk rest] eqn:Hnet; [naive_solver|]. eexists. eapply (step_recv _ _ s 0); [by rewrite Hx|exact Hnet].
  - pose proof (ci_log _ Hc) as Hlog. rewrite <- Ho in Hlog. cbn in Hlog.
    assert (Hclk : ∃ t : timespec, True) by (exists (cur_ts sv); done). destruct Hclk as [t _].
    set (v := mk_senv (Some t) (Some (zone s)) AXIOM_RET_OK (mk_payload 0 0 0 0 0 0 0)).
    assert (Hr : ∃ sv' out, reply_entry v sv me (pk_size pk) (pk_payload pk) = Some (sv', out)).
    { destruct handled as [|h hs]; cbn in Hlog.
      - destruct Hlog as (_ & Hst & _). destruct (reply_start v sv pk Hst ltac:(cbn; eauto)) as [now E]. eauto.
      - destruct Hlog as (_ & _ & Hds). apply Forall_app in Hds as [_ Hds]. apply Forall_cons in Hds as [Hdat _].
        destruct (reply_data v sv pk Hdat ltac:(cbn; eauto) ret_ok_ok) as (sv1 & _ & _ & _ & E). eauto. }
    destruct Hr as (sv' & out & Hr). eexists. eapply (step_handle _ _ s 0 pk v); [by rewrite Hx| |].
    + split; [by left|]. intros _. cbn. split; [apply ret_ok_ok|]. eauto.
    + unfold axiom_netperf_reply. rewrite He. cbn [mbind option_bind]. rewrite Hr. done.
Qed.

Lemma claimed_pos_thread s : client_inv s → sum_over claimed (thr s) ≠ 0 → ∃ i l, thr s !! i = Some (PcSend l).
Proof.
  intros _. induction (thr s) as [|p ps IH]; [done|]. rewrite sum_cons. intros H.
  assert (Hcase : (∃ l, p = PcSend l) ∨ claimed p = 0) by (destruct p; eauto).
  destruct Hcase as [[l ->]|E]; [by exists 0%nat, l|]. destruct (IH ltac:(lia)) as (i & l & Hi). by exists (S i), l.
Qed.

(** All messages handled: the reply is there. *)
Lemma reply_there s : inv s → net s = [] → in_hand (sthr s) = [] → sum_over claimed (thr s) = 0 →
  state (cl s) = AXN_STATE_STOP → sum_over data_size (log s) = T ∧ ∃ p, replies s = [p] ∧ is_reply p.
Proof using start.
  intros [Hc (handled & sv & [_ Ho _ Hs _])] Hnet Hhand Hcl Hst. rewrite Hnet, Hhand, !app_nil_r in Ho. subst handled.
  pose proof (so_late _ (ci_shared _ Hc)) as Hl. rewrite Hst in Hl. specialize (Hl ltac:(cbn; lia)).
  pose proof (ci_sent _ Hc) as Hsent. rewrite Hl, Hcl in Hsent. split; [lia|]. pose proof total_range.
  unfold served in Hs. destruct (log s); [change (sum_over data_size []) with 0 in Hsent; lia|]. destruct Hs as (_ & _ & _ & Hs).
  by rewrite (proj2 (Z.eqb_eq _ T)) in Hs by lia.
Qed.

Definition returned (s : sys) : Prop := Forall (fun p => p = PcRet AXIOM_RET_OK) (thr s).

Lemma progress s : inv s → (∃ s', step me false s s') ∨ returned s.
Proof using start CNOK RCOK PCOK.
  intros Hinv. pose proof Hinv as [Hc (handled & sv & Hv)].
  destruct (decide (Forall (fun p => p = PcRet AXIOM_RET_OK) (thr s))) as [|Hnot]; [by right|left].
  apply not_Forall_Exists in Hnot; [|apply _]. apply Exists_exists in Hnot as (p & Hp & Hne). apply list_elem_of_lookup in Hp as [i Hi].
  destruct (proj1 (Forall_lookup _ _) (ci_good _ Hc) i p Hi) as [Hg _].
  assert (Hr : ∀ r, p ≠ PcRet r) by (intros r ->; cbn in Hg; congruence).
  destruct (mtx s) as [k|] eqn:Em.
  2: { eapply thread_can_step; eauto. intros ->. pose proof (ci_mutex _ Hc) as Hm. rewrite Em in Hm.
    by apply (proj1 (Forall_lookup _ _) Hm i _ Hi). }
  pose proof (ci_mutex _ Hc) as Hm. rewrite Em in Hm. destruct Hm as [Hk _].
  destruct (decide (net s = [])) as [Hnet|]; [|by apply server_can_step; [|left]].
  destruct (decide (in_hand (sthr s) = [])) as [Hh|]; [|by apply server_can_step; [|right]].
  destruct (decide (sum_over claimed (thr s) = 0)) as [Hcl|Hcl].
  2: { destruct (claimed_pos_thread s Hc Hcl) as (j & l & Hj). by eapply thread_can_step. }
  destruct (proj1 (Forall_lookup _ _) (ci_good _ Hc) k _ Hk) as [_ Hn].
  pose proof (rank_stop _ (so_state _ (ci_shared _ Hc)) Hn) as Hst.
  destruct (reply_there s Hinv Hnet Hh Hcl Hst) as (_ & q & Hq & Hrep).
  pose proof (vi_back _ _ _ Hv) as Hb. rewrite bool_decide_false in Hb by naive_solver. rewrite Hq in Hb.
  destruct (so_config _ (ci_shared _ Hc)) as (_ & _ & Hport & _). destruct Hrep as (R1 & R2 & _).
  eexists. eapply (step_stop _ _ s k q []); try done. by rewrite Hport.
Qed.

Lemma returned_done s : inv s → returned s → (0 < n)%nat →
  state (cl s) = AXN_STATE_STOP ∧ ∃ p, replies s = [p] ∧ is_reply p ∧ back s = [].
Proof using start.
  intros [Hc (handled & sv & Hv)] Hret Hn. pose proof (ci_threads _ Hc) as Hl.
  destruct (thr s) as [|p ps] eqn:Et; [cbn in Hl; lia|].
  assert (Hp : p = PcRet AXIOM_RET_OK) by (unfold returned in Hret; rewrite Et in Hret; by apply Forall_cons in Hret as [? _]).
  pose proof (ci_good _ Hc) as Hg. rewrite Et in Hg. apply Forall_cons in Hg as [[_ Hrank] _]. subst p. cbn in Hrank.
  pose proof (rank_stop _ (so_state _ (ci_shared _ Hc)) Hrank) as Hst. split; [done|].
  assert (Hm : mtx s = None).
  { pose proof (ci_mutex _ Hc) as Hm. destruct (mtx s) as [k|]; [|done]. destruct Hm as [Hk _].
    unfold returned in Hret. pose proof (proj1 (Forall_lookup _ _) Hret k _ Hk) as E. done. }
  pose proof (vi_back _ _ _ Hv) as Hb. rewrite bool_decide_true in Hb by done. destruct Hb as [Hb Hlen].
  pose proof (vi_served _ _ _ Hv) as Hs. unfold served in Hs. destruct handled; [by rewrite Hs in Hlen|].
  destruct Hs as (_ & _ & _ & Hs). destruct (_ =? T); [|by rewrite Hs in Hlen]. destruct Hs as (q & Hq & Hrq). eauto.
Qed.
End Raw.

(** ** Executable runs *)

Inductive label `{PerfConsts} :=
  | LThread (i : nat) (e : env)
  | LStop (i : nat)
  | LDma
  | LRecv (j : nat)
  | LHandle (j : nat) (v : senv).

Section Exec.
Context `{CN : NicConsts} `{RC : RunConsts} `{PC : PerfConsts}.
Variables (me : Z) (faulty : bool).

Definition env_okb (c : axnetperf_status_t) (e : env) : bool :=
  (0 <=? e_rand e) && (e_rand e <? 2 ^ 31) &&
  (faulty || (AXIOM_RET_IS_OK (e_err e) && match e_mmap e with Some z => total_bytes (client c) <=? alen z | None => false end)).

Definition exec1 (s : sys) (l : label) : option sys :=
  match l with
  | LThread i e =>
      p ← thr s !! i;
      if negb (implb (needs_mutex p) (bool_decide (mtx s = None)) && implb (waits p) (no_dma i s) && env_okb (cl s) e) then None else
      '(c, p', acts) ← thread_step e (cl s) p; Some (foldr (perform i) (with_thread i p' c s) acts)
  | LStop i =>
      match thr s !! i, back s with
      | Some PcStop, pk :: rest =>
          if negb ((pk_node pk =? me) && (pk_port pk =? client_port (cl s))) then None else
          Some (mk_sys (cl s) None (<[i := client_stop (cl s) AXIOM_RET_OK (server_id (cl s)) (pk_payload pk)]> (thr s))
            (net s) (zone s) (dma s) (servers s) (sthr s) rest (log s) (replies s))
      | _, _ => None
      end
  | LDma =>
      match dma s with
      | (i, (addr, size)) :: l2 =>
          Some (mk_sys (cl s) (mtx s) (thr s) (net s) (rdma_copy addr size (rdma_zone (client (cl s))) (zone s)) l2
            (servers s) (sthr s) (back s) (log s) (replies s))
      | [] => None
      end
  | LRecv j =>
      match sthr s !! j, net s with
      | Some SRecv, pk :: rest => Some (mk_sys (cl s) (mtx s) (thr s) rest (zone s) (dma s) (servers s)
          (<[j := SGot pk]> (sthr s)) (back s) (log s) (replies s))
      | _, _ => None
      end
  | LHandle j v =>
      match sthr s !! j with
      | Some (SGot pk) =>
          if negb (AXIOM_RET_IS_OK (v_err v) && bool_decide (v_mmap v = Some (zone s)) &&
            match v_clock v with Some _ => true | None => false end) then None else
          '(table, out) ← axiom_netperf_reply v (servers s) me (pk_size pk) (pk_payload pk);
          Some (mk_sys (cl s) (mtx s) (thr s) (net s) (zone s) (dma s) table (<[j := SRecv]> (sthr s))
            (back s ++ out) (log s) (replies s ++ out))
      | _ => None
      end
  end.

Definition exec (ls : list label) (s : sys) : option sys := foldl (fun o l => s ← o; exec1 s l) (Some s) ls.

Lemma exec1_sound s l s' : exec1 s l = Some s' → step me faulty s s'.
Proof.
  destruct l as [i e|i| |j|j v]; cbn; intros H.
  - destruct (thr s !! i) as [p|] eqn:Hi; [|done]. cbn in H. destruct (negb _) eqn:Hg; [done|].
    apply negb_false_iff in Hg. rewrite !andb_true_iff in Hg. destruct Hg as [[Hg1 Hg2] Hg3].
    destruct (thread_step e (cl s) p) as [[[c p'] acts]|] eqn:Hst; [|done]. injection H as <-. eapply step_thread; eauto.
    + intros E. rewrite E in Hg1. by apply bool_decide_eq_true in Hg1.
    + intros E. by rewrite E in Hg2.
    + unfold env_okb in Hg3. rewrite !andb_true_iff, Z.leb_le, Z.ltb_lt in Hg3. destruct Hg3 as [[? ?] Hf]. split; [lia|].
      intros ->. cbn in Hf. destruct (e_mmap e) as [z|] eqn:Ez; [|by rewrite andb_false_r in Hf]. rewrite andb_true_iff, Z.leb_le in Hf.
      split; [apply Hf|]. exists z. split; [done|]. intros _. apply Hf.
  - destruct (thr s !! i) as [[]|] eqn:Hi; try done. destruct (back s) as [|pk rest] eqn:Hb; [done|].
    destruct (negb _) eqn:Hg; [done|]. apply negb_false_iff in Hg. rewrite andb_true_iff, !Z.eqb_eq in Hg. destruct Hg.
    injection H as <-. by apply step_stop.
  - destruct (dma s) as [|[i [addr size]] l2] eqn:Hd; [done|]. injection H as <-. by apply (step_dma _ _ s i addr size []).
  - destruct (sthr s !! j) as [[]|] eqn:Hj; try done. destruct (net s) eqn:Hn; [done|]. injection H as <-. by apply step_recv.
  - destruct (sthr s !! j) as [[]|] eqn:Hj; try done. destruct (negb _) eqn:Hg; [done|].
    apply negb_false_iff in Hg. rewrite !andb_true_iff, bool_decide_eq_true in Hg. destruct Hg as [[Hg1 Hg2] Hg3].
    destruct (axiom_netperf_reply _ _ _ _ _) as [[table out]|] eqn:Hr; [|done]. injection H as <-.
    eapply step_handle; eauto. split; [by left|]. intros _. split_and!; try done. by destruct (v_clock v).
Qed.

Lemma exec_sound ls s s' : exec ls s = Some s' → run me faulty (length ls) s s'.
Proof.
  revert s'. induction ls as [|l ls IH] using rev_ind; intros s' H.
  - injection H as <-. constructor.
  - unfold exec in H. rewrite foldl_snoc in H. destruct (foldl _ (Some s) ls) as [s1|] eqn:E; [|done].
    rewrite length_app, Nat.add_comm. eapply run_snoc; [by apply IH|]. exact (exec1_sound _ _ _ H).
Qed.

(** An idle server and nothing on its way: the end of a run, where the client has
    returned or hangs. *)
Definition is_stop (p : pc) : bool := match p with PcStop => true | _ => false end.
Definition is_ret (p : pc) : bool := match p with PcRet _ => true | _ => false end.
Definition is_recv (x : spc) : bool := match x with SRecv => true | _ => false end.
Definition for_client (s : sys) (pk : packet) : bool := (pk_node pk =? me) && (pk_port pk =? client_port (cl s)).
Definition over (s : sys) : bool :=
  forallb (fun p => is_stop p || is_ret p) (thr s) && forallb is_recv (sthr s) &&
  bool_decide (length (net s) = 0%nat) && forallb (fun pk => negb (for_client s pk)) (back s) && bool_decide (length (dma s) = 0%nat).
Definition hangs (s : sys) : bool := over s && existsb is_stop (thr s).
End Exec.

Lemma over_stuck `{CN : NicConsts} `{RC : RunConsts} `{PC : PerfConsts} me s s' : over me s = true → ¬ step me false s s'.
Proof.
  unfold over. rewrite !andb_true_iff, !bool_decide_eq_true, !forallb_forall. intros ((((Ht & Hs) & Hn) & Hb) & Hd) H.
  destruct H as [s i p e c p' acts Hi _ _ _ Hst|s i pk rest _ Hb' H1 H2| |s i a z l1 l2 Hd'|s j pk rest _ Hnet| |s j pk v table out Hj _ _]; try done.
  - apply list_elem_of_lookup_2 in Hi. apply list_elem_of_In in Hi. specialize (Ht _ Hi). by destruct p.
  - specialize (Hb pk). rewrite Hb' in Hb. specialize (Hb (or_introl eq_refl)). unfold for_client in Hb.
    by rewrite H1, H2, !Z.eqb_refl in Hb.
  - rewrite Hd', length_app in Hd. cbn in Hd. lia.
  - by rewrite Hnet in Hn.
  - apply list_elem_of_lookup_2 in Hj. apply list_elem_of_In in Hj. by specialize (Hs _ Hj).
Qed.

(** ** The properties *)

(** C13. The pieces of RAW and LONG transfers of at least one byte, for any number of
    client threads and one server thread in any order, as long as no call fails: the
    first message is the START; each further one has the command and between 1
    and the maximal payload bytes; the bytes sent and those claimed by a thread that
    is about to send them add up to [sent_bytes], never more than the length of the
    test and all of it once the transfer has ended. *)
Theorem netperf_pieces `{CN : NicConsts} {CNOK : NicConstsOk} `{RC : RunConsts} {RCOK : RunConstsOk} `{PC : PerfConsts} {PCOK : PerfConstsOk}
    me T n c0 zone table m s :
  raw_start T c0 → is_Some (table !! Z.to_nat me) → run me false m (sys0 c0 n zone table 1) s →
  sum_over data_size (log s) + sum_over claimed (thr s) = sent_bytes (client (cl s)) ∧
  sent_bytes (client (cl s)) <= T ∧ (state (cl s) = AXN_STATE_END → sent_bytes (client (cl s)) = T) ∧
  match log s with [] => True | p :: ds => is_start T c0 p ∧ Forall (is_data c0) ds end.
Proof.
  intros Hst Ht Hrun. destruct (inv_run me T n c0 Hst 1 zone table m s Ht eq_refl Hrun) as [Hc _].
  pose proof (ci_sent _ _ _ _ Hc). pose proof (ci_shared _ _ _ _ Hc) as Hsh. split; [lia|]. split; [apply (so_sent _ _ _ Hsh)|].
  split; [intros E; apply (so_late _ _ _ Hsh); by rewrite E|].
  pose proof (ci_log _ _ _ _ Hc) as Hl. destruct (log s); [done|]. by destruct Hl as (_ & ? & ?).
Qed.

(** C7. A RAW or LONG test of at least one byte, with any number of client threads and
    one server thread, ends when no call fails: a run has at most [16 * T + 10 * n] steps, whatever
    the order, and when no step is left all threads have returned AXIOM_RET_OK, the
    pieces sent add up to the length of the test, and the server has replied once,
    without error, to the port of the client. *)
Theorem netperf_completes `{CN : NicConsts} {CNOK : NicConstsOk} `{RC : RunConsts} {RCOK : RunConstsOk} `{PC : PerfConsts} {PCOK : PerfConstsOk}
    me T n c0 zone table m s :
  raw_start T c0 → is_Some (table !! Z.to_nat me) → (0 < n)%nat → run me false m (sys0 c0 n zone table 1) s →
  Z.of_nat m <= 16 * T + 10 * Z.of_nat n ∧
  ((∃ s', step me false s s') ∨
   (Forall (fun p => p = PcRet AXIOM_RET_OK) (thr s) ∧ state (cl s) = AXN_STATE_STOP ∧
    sum_over data_size (log s) = T ∧ ∃ p, replies s = [p] ∧ is_reply me T c0 p ∧ back s = [])).
Proof.
  intros Hst Ht Hn Hrun. pose proof (inv_start me T n c0 Hst 1 zone table Ht eq_refl) as H0.
  destruct (run_measure me T n c0 Hst m _ s H0 Hrun) as [Hinv Hm]. split.
  - pose proof (measure_nonneg me T n c0 s Hinv) as Hpos. cbn in Hm. unfold measure in Hm. cbn in Hm. rewrite (rs_sent _ _ Hst) in Hm.
    assert (Hw : sum_over weight (replicate n PcStart) = 10 * Z.of_nat n).
    { clear. induction n as [|k IH]; [done|]. cbn [replicate]. rewrite sum_cons, IH. cbn. lia. }
    unfold sum_over in *. cbn in Hm. rewrite Hw in Hm. unfold measure in Hpos. unfold sum_over in Hpos. change (alen []) with 0 in Hm. lia.
  - destruct (progress me T n c0 Hst s Hinv) as [Hs|Hret]; [by left|right]. split; [exact Hret|].
    destruct (returned_done me T n c0 Hst s Hinv Hret Hn) as [Hstop Hrep]. split; [done|]. split; [|exact Hrep].
    destruct Hinv as [Hc _]. pose proof (so_late _ _ _ (ci_shared _ _ _ _ Hc)) as Hl. rewrite Hstop in Hl.
    pose proof (ci_sent _ _ _ _ Hc) as Hsent. rewrite Hl in Hsent by (cbn; lia).
    assert (Hz : sum_over claimed (thr s) = 0); [|lia]. clear -Hret. unfold returned in Hret.
    induction Hret as [|p l -> _ IH]; [done|]. rewrite sum_cons, IH. done.
Qed.

(** ** Runs *)

Definition run8 : RunConsts := {| AXIOM_RAW_PAYLOAD_MAX_SIZE := 256; SIZE_BITS := 64; AXIOM_CMD_ALLOC_REPLY := 1 |}.
Lemma run8_ok : @RunConstsOk run8.
Proof. split; cbn; unfold sizeof_header, CMD_EXIT; lia. Qed.

Definition perf8 : PerfConsts := {|
  AXIOM_CMD_NETPERF_START := 1; AXIOM_CMD_NETPERF := 2; AXIOM_CMD_NETPERF_END := 3;
  AXNP_RAW := 1; AXNP_LONG := 2; AXNP_RDMA := 4;
  AXIOM_LONG_PAYLOAD_MAX_SIZE := 4080; AXIOM_RDMA_PAYLOAD_MAX_SIZE := 4096; AXIOM_RDMA_ADDRESS_ALIGNMENT := 8;
  AXIOM_RAW_PORT_NETUTILS := 2; sizeof_raw_hdr := 8; sizeof_rdma_hdr := 16;
  timespec := Z; elapsed_nsec a b := a - b |}.
Lemma perf8_ok : @PerfConstsOk perf8.
Proof. split; cbn; lia. Qed.

Section Examples.
#[local] Existing Instances nic8 nic8_ok run8 run8_ok perf8 perf8_ok.

Definition ex_status (type total psize : Z) : axnetperf_status_t :=
  mk_status AXN_STATE_NULL type 2 3 3 (mk_client psize 0 total 0 0 [] 0 true).
Definition ex_table : list axnetperf_server_t := replicate 8 (mk_server (0 : @timespec perf8) (0 : @timespec perf8) 0 0 0).
Definition ex_junk : netperf_payload := mk_payload 0 0 0 0 0 0 0.
Definition ex_env : env := mk_env 7 (Some (replicate 24 0)) 0 ex_junk.
Definition ex_fail : env := mk_env 7 (Some (replicate 24 0)) (-1) ex_junk.
Definition ex_senv (z : list Z) : senv := mk_senv (Some (5 : @timespec perf8)) (Some z) 0 ex_junk.
Definition ex_sys (type total psize : Z) (threads server_threads : nat) : sys :=
  sys0 (ex_status type total psize) threads (replicate 24 0) ex_table server_threads.

(** Two threads send 4 and 1 bytes; the one with the last piece waits for the reply. *)
Definition ex_run : list label :=
  let th i := LThread i ex_env in let handle := LHandle 0 (ex_senv (replicate 24 0)) in
  [th 0%nat; th 1%nat; th 0%nat; th 1%nat; th 0%nat; th 1%nat; th 1%nat; th 0%nat; th 1%nat; LRecv 0; handle; th 1%nat;
   LRecv 0; handle; LRecv 0; handle; LStop 1; th 0%nat; th 0%nat].

Definition ex_end : sys := default (ex_sys 1 5 4 2 1) (exec 1 false ex_run (ex_sys 1 5 4 2 1)).

Lemma ex_raw_start : raw_start 5 (ex_status 1 5 4).
Proof. split; cbn; unfold max_psize; cbn; lia || (by left) || done. Qed.

Lemma ex_run_ok : run 1 false 19 (ex_sys 1 5 4 2 1) ex_end.
Proof. apply (exec_sound 1 false ex_run). unfold ex_end. vm_compute. reflexivity. Qed.

Lemma netperf_pieces_witness : sum_over data_size (log ex_end) + sum_over claimed (thr ex_end) = 5.
Proof.
  destruct (netperf_pieces 1 5 2 (ex_status 1 5 4) (replicate 24 0) ex_table 19 ex_end ex_raw_start) as [H _].
  - vm_compute. eauto.
  - exact ex_run_ok.
  - rewrite H. vm_compute. reflexivity.
Defined.

Lemma netperf_completes_witness : Forall (fun p => p = PcRet AXIOM_RET_OK) (thr ex_end).
Proof.
  destruct (netperf_completes 1 5 2 (ex_status 1 5 4) (replicate 24 0) ex_table 19 ex_end ex_raw_start) as [_ [[s' H]|[H _]]].
  - vm_compute. eauto.
  - lia.
  - exact ex_run_ok.
  - exfalso. revert H. apply over_stuck. vm_compute. reflexivity.
  - exact H.
Defined.

(** With two server threads the START may be handled after the piece that follows
    it: the count starts again at 0, and the client waits for ever. *)
Definition ex_two_servers : list label :=
  let th i := LThread i ex_env in let handle j := LHandle j (ex_senv (replicate 24 0)) in
  [th 0%nat; th 0%nat; th 0%nat; th 0%nat; th 0%nat; th 0%nat; LRecv 0; LRecv 1; handle 1%nat; handle 0%nat].

Example two_servers_hang : ∃ s, run 1 false 10 (ex_sys 1 4 4 1 2) s ∧ thr s = [PcStop] ∧ ∀ s', ¬ step 1 false s s'.
Proof.
  destruct (exec 1 false ex_two_servers (ex_sys 1 4 4 1 2)) as [s|] eqn:E; [|vm_compute in E; done].
  exists s. split; [exact (exec_sound 1 false _ _ _ E)|]. vm_compute in E. injection E as <-. split; [done|].
  intros s'. apply over_stuck. vm_compute. reflexivity.
Qed.

(** When a send fails, the error path adds the piece a second time instead of giving
    it back: the other thread ends the transfer although a piece is missing. *)
Definition ex_send_error : list label :=
  let th i := LThread i ex_env in let handle := LHandle 0 (ex_senv (replicate 24 0)) in
  [th 0%nat; th 1%nat; th 0%nat; th 1%nat; th 0%nat; th 1%nat; LThread 0 ex_fail; th 0%nat; th 0%nat; th 1%nat; th 1%nat; th 1%nat;
   LRecv 0; handle; LRecv 0; handle].

Example send_error_hang : ∃ s, run 1 true 16 (ex_sys 1 8 4 2 1) s ∧ thr s = [PcRet AXIOM_RET_OK; PcStop] ∧
  sent_bytes (client (cl s)) = 12 ∧ sum_over data_size (log s) = 4 ∧ ∀ s', ¬ step 1 false s s'.
Proof.
  destruct (exec 1 true ex_send_error (ex_sys 1 8 4 2 1)) as [s|] eqn:E; [|vm_compute in E; done].
  exists s. split; [exact (exec_sound 1 true _ _ _ E)|]. vm_compute in E. injection E as <-. split_and!; [done..|].
  intros s'. apply over_stuck. vm_compute. reflexivity.
Qed.

(** A test of no bytes has no piece that the server could answer. *)
Definition ex_empty : list label :=
  let th i := LThread i ex_env in
  [th 0%nat; th 0%nat; th 0%nat; th 0%nat; LRecv 0; LHandle 0 (ex_senv (replicate 24 0))].

Example empty_test_hangs : ∃ s, run 1 false 6 (ex_sys 1 0 4 1 1) s ∧ thr s = [PcStop] ∧ ∀ s', ¬ step 1 false s s'.
Proof.
  destruct (exec 1 false ex_empty (ex_sys 1 0 4 1 1)) as [s|] eqn:E; [|vm_compute in E; done].
  exists s. split; [exact (exec_sound 1 false _ _ _ E)|]. vm_compute in E. injection E as <-. split; [done|].
  intros s'. apply over_stuck. vm_compute. reflexivity.
Qed.

(** RDMA with two threads: the first one to run out of pieces sends the END although
    the other has not written its piece, and the server reports an error. *)
Definition ex_rdma_race : list label :=
  let th i := LThread i ex_env in
  let z := rdma_copy 0 8 (concat (replicate 3 (le_put 8 7))) (replicate 24 0) in
  [th 0%nat; th 1%nat; th 0%nat; th 1%nat; th 0%nat; th 1%nat; th 0%nat; th 1%nat; th 0%nat; th 0%nat; th 0%nat;
   LRecv 0; LHandle 0 (ex_senv z); LRecv 0; LHandle 0 (ex_senv z)].

Example rdma_race : ∃ s p, run 1 false 15 (ex_sys 4 16 8 2 1) s ∧ replies s = [p] ∧ pl_error (pk_payload p) = 1 ∧
  thr s = [PcEnd; PcWrite (mk_locals 8 0 0) 0 8].
Proof.
  destruct (exec 1 false ex_rdma_race (ex_sys 4 16 8 2 1)) as [s|] eqn:E; [|vm_compute in E; done].
  eexists s, _. split; [exact (exec_sound 1 false _ _ _ E)|]. vm_compute in E. injection E as <-. split; [reflexivity|done].
Qed.
End Examples.
