(* ===== verification/NetperfRdma.v ===== *)
(** * RDMA transfers of axiom-netperf with one thread

    The zone of the client is filled with a magic number, written to the server
    piece by piece, and compared there.  For one client thread and a length that
    is a multiple of the eight bytes of the magic number, every run without a
    failing call is finite and ends with the one reply, which reports no error. *)

From S2P Require Import Prelude Nic RunMsg Netperf NetperfSys.

(** ** Zones *)

Section Zones.

Lemma lookup_field off n b k : field off n b !! k = if decide (k < n)%nat then b !! (off + k)%nat else None.
Proof.
  unfold field. case_decide; [rewrite lookup_take_lt by done; by rewrite lookup_drop|]. by rewrite lookup_take_ge by lia.
Qed.

Lemma length_field off n b : (off + n <= length b)%nat → length (field off n b) = n.
Proof. intros. unfold field. rewrite length_take, length_drop. lia. Qed.

Lemma lookup_set_field off v b k : (off + length v <= length b)%nat →
  set_field off v b !! k = if decide (off <= k < off + length v)%nat then v !! (k - off)%nat else b !! k.
Proof.
  intros H. unfold set_field. assert (Ht : length (take off b) = off) by (rewrite length_take; lia).
  destruct (decide (k < off)%nat) as [Hk|Hk].
  - rewrite lookup_app_l by lia. rewrite lookup_take_lt by done. by rewrite decide_False by lia.
  - rewrite lookup_app_r, Ht by lia. destruct (decide (k < off + length v)%nat).
    + rewrite lookup_app_l by lia. by rewrite decide_True by lia.
    + rewrite lookup_app_r by lia. rewrite lookup_drop, decide_False by lia. f_equal. lia.
Qed.

Lemma length_set_field_le off v b : (off + length v <= length b)%nat → length (set_field off v b) = length b.
Proof. intros. unfold set_field. rewrite !length_app, length_take, length_drop. lia. Qed.

(** The byte of the magic number at a place of the zone. *)
Definition pat (m : Z) (z : list Z) (k : nat) : Prop := z !! k = le_put 8 m !! (k mod 8)%nat.
Definition filled (m : Z) (z : list Z) (n : nat) : Prop := ∀ k, (k < n)%nat → pat m z k.

Lemma mod8_shift i k : (i mod 8 = 0)%nat → (i <= k < i + 8)%nat → (k mod 8 = k - i)%nat.
Proof.
  intros Hi Hk. replace k with (k - i + (i / 8) * 8)%nat at 1.
  - rewrite Nat.Div0.mod_add. apply Nat.mod_small. lia.
  - pose proof (Nat.div_mod_eq i 8). lia.
Qed.

(** Filling a zone. *)
Lemma rdma_fill_spec fuel i T m z : (Z.to_nat T <= length z)%nat → T < 2 ^ 31 → T mod 8 = 0 → 0 <= i <= T → i mod 8 = 0 →
  T - i < 8 * Z.of_nat fuel → filled m z (Z.to_nat i) →
  ∃ z', rdma_fill fuel i T m z = Some z' ∧ length z' = length z ∧ filled m z' (Z.to_nat T).
Proof.
  revert i z. induction fuel as [|fuel IH]; intros i z Hlen HT H8 Hi Hi8 Hf Hz; [lia|]. cbn [rdma_fill].
  destruct (Z.ltb_spec i T) as [Hlt|Hge].
  - assert (Hnext : i + 8 <= T).
    { pose proof (Z.div_mod i 8). pose proof (Z.div_mod T 8). lia. }
    assert (Hok : word_ok 8 i z = true).
    { unfold word_ok, alen. apply andb_true_iff. rewrite Z.leb_le, Z.ltb_lt. change (2 ^ 31) with 2147483648 in *. split; [lia|].
      destruct (Z.eq_dec (i + 8) T); lia. }
    rewrite Hok. set (z1 := set_field (Z.to_nat i) (le_put 8 m) z).
    assert (Hfit : (Z.to_nat i + length (le_put 8 m) <= length z)%nat) by (rewrite length_le_put; lia).
    assert (Hl1 : length z1 = length z) by (by apply length_set_field_le).
    destruct (IH (i + 8) z1) as (z' & E & Hl' & Hz'); try lia.
    + rewrite <- Z.add_mod_idemp_l, Hi8 by lia. done.
    + intros k Hk. unfold pat, z1. rewrite lookup_set_field by done. rewrite length_le_put.
      assert (Hi8n : (Z.to_nat i mod 8 = 0)%nat).
      { apply Nat2Z.inj. rewrite Nat2Z.inj_mod, Z2Nat.id by lia. exact Hi8. }
      case_decide as Hc; [by rewrite (mod8_shift (Z.to_nat i) k Hi8n Hc)|]. apply Hz. lia.
    + exists z'. split; [done|]. split; [lia|done].
  - exists z. assert (i = T) as -> by lia. done.
Qed.

(** Checking it. *)
Lemma rdma_check_spec fuel i T m z : (Z.to_nat T <= length z)%nat → T < 2 ^ 31 → T mod 8 = 0 → 0 <= i <= T → i mod 8 = 0 →
  T - i < 8 * Z.of_nat fuel → 0 <= m < 2 ^ 64 → filled m z (Z.to_nat T) → rdma_check fuel 8 i T m z = Some false.
Proof.
  revert i. induction fuel as [|fuel IH]; intros i Hlen HT H8 Hi Hi8 Hf Hm Hz; [lia|]. cbn [rdma_check].
  destruct (Z.ltb_spec i T) as [Hlt|Hge]; [|done].
  assert (Hnext : i + 8 <= T) by (pose proof (Z.div_mod i 8); pose proof (Z.div_mod T 8); lia).
  assert (Hok : word_ok 8 i z = true).
  { unfold word_ok, alen. apply andb_true_iff. rewrite Z.leb_le, Z.ltb_lt. lia. }
  assert (Hi8n : (Z.to_nat i mod 8 = 0)%nat).
  { apply Nat2Z.inj. rewrite Nat2Z.inj_mod, Z2Nat.id by lia. exact Hi8. }
  assert (Hw : field (Z.to_nat i) 8 z = le_put 8 m).
  { apply list_eq. intros k. rewrite lookup_field. case_decide as Hk.
    - rewrite Hz by lia. by rewrite (mod8_shift (Z.to_nat i)), Nat.add_comm, Nat.add_sub by lia.
    - symmetry. apply lookup_ge_None_2. rewrite length_le_put. lia. }
  rewrite Hok, Hw, le_get_put. change (256 ^ Z.of_nat 8) with (2 ^ 64). rewrite Z.mod_small, Z.eqb_refl by done. cbn [negb].
  apply IH; try done; [lia| |lia]. rewrite <- Z.add_mod_idemp_l, Hi8 by lia. done.
Qed.

Lemma fill_fuel_enough T : 0 <= T → T - 0 < 8 * Z.of_nat (fill_fuel T).
Proof. intros. unfold fill_fuel. rewrite Nat2Z.inj_succ, Z2Nat.id by (apply Z.div_pos; lia). pose proof (Z.div_mod (T + 7) 8). pose proof (Z.mod_pos_bound (T + 7) 8). lia. Qed.

(** A copied piece. *)
Lemma lookup_rdma_copy addr size src dst k : 0 <= addr → 0 <= size →
  addr + size <= alen src → addr + size <= alen dst →
  rdma_copy addr size src dst !! k =
    if decide (Z.to_nat addr <= k < Z.to_nat (addr + size))%nat then src !! k else dst !! k.
Proof.
  intros Ha Hs H1 H2. unfold rdma_copy, alen in *.
  assert (Hl : length (field (Z.to_nat addr) (Z.to_nat size) src) = Z.to_nat size) by (apply length_field; lia).
  rewrite lookup_set_field by lia. rewrite Hl. replace (Z.to_nat (addr + size)) with (Z.to_nat addr + Z.to_nat size)%nat by lia.
  case_decide as Hc; [|done]. rewrite lookup_field, decide_True by lia. f_equal. lia.
Qed.

Lemma length_rdma_copy addr size src dst : 0 <= addr → 0 <= size → addr + size <= alen src → addr + size <= alen dst →
  length (rdma_copy addr size src dst) = length dst.
Proof.
  intros Ha Hs H1 H2. unfold rdma_copy, alen in *. apply length_set_field_le. rewrite length_field by lia. lia.
Qed.
End Zones.

(** ** One thread *)

Section Rdma.
Context `{CN : NicConsts} {CNOK : NicConstsOk} `{RC : RunConsts} `{PC : PerfConsts} {PCOK : PerfConstsOk}.
Variables (me T : Z) (c0 : axnetperf_status_t) (size : nat).

(** The size of a piece: the default when the options name none. *)
Definition chosen_psize (c : axnetperf_status_t) : Z :=
  if payload_size (client c) =? 0 then AXIOM_NETPERF_DEF_RDMA_PSIZE else payload_size (client c).

(** The client as [main] starts it; [size] is the length of the server's zone. *)
Record rdma_start : Prop := {
  ds_state : state c0 = AXN_STATE_NULL;
  ds_type : np_type c0 = AXNP_RDMA;
  ds_total : total_bytes (client c0) = T ∧ 0 <= T < 2 ^ 31 ∧ T mod 8 = 0;
  ds_sent : sent_bytes (client c0) = 0;
  ds_size : T <= Z.of_nat size;
  ds_psize : 1 <= chosen_psize c0 <= AXIOM_RDMA_PAYLOAD_MAX_SIZE
}.

Definition rdma_begin (c : axnetperf_status_t) (p : packet) : Prop :=
  pl_command (pk_payload p) = AXIOM_CMD_NETPERF_START ∧ pl_total_bytes (pk_payload p) = T ∧
  pl_reply_port (pk_payload p) = client_port c0 ∧ 0 <= magic (client c) < 2 ^ 64.
Definition rdma_over (c : axnetperf_status_t) (p : packet) : Prop :=
  pl_command (pk_payload p) = AXIOM_CMD_NETPERF_END ∧ pl_total_bytes (pk_payload p) = T ∧
  pl_type (pk_payload p) = AXNP_RDMA ∧ pl_magic (pk_payload p) = magic (client c).

(** The zone of the client is filled, the START is sent. *)
Definition begun (s : sys) : Prop :=
  T <= alen (rdma_zone (client (cl s))) ∧ filled (magic (client (cl s))) (rdma_zone (client (cl s))) (Z.to_nat T) ∧
  1 <= payload_size (client (cl s)).
Definition sending (s : sys) : Prop := begun s ∧ ∃ p, log s = [p] ∧ rdma_begin (cl s) p.
Definition finished (s : sys) : Prop := dma s = [] ∧ filled (magic (client (cl s))) (zone s) (Z.to_nat T) ∧
  ∃ p q, log s = [p; q] ∧ rdma_begin (cl s) p ∧ rdma_over (cl s) q.

(** The state of the client and the place of its thread. *)
Definition phase (s : sys) (p : pc) : Prop :=
  match state (cl s), p with
  | AXN_STATE_NULL, PcStart => log s = [] ∧ dma s = [] ∧ sent_bytes (client (cl s)) = 0 ∧
      payload_size (client (cl s)) = payload_size (client c0)
  | AXN_STATE_INIT, (PcCheck | PcRdmaEnter) => sending s ∧ dma s = [] ∧ sent_bytes (client (cl s)) = 0
  | AXN_STATE_START, (PcRdmaLoop l _ | PcToken l) => sending s ∧ 1 <= l_psize l
  | AXN_STATE_START, PcWrite l _ addr => sending s ∧ 1 <= l_psize l ∧ 0 <= addr ∧ addr + l_psize l = sent_bytes (client (cl s))
  | AXN_STATE_START, PcWait => sending s ∧ sent_bytes (client (cl s)) = T
  | AXN_STATE_START, PcFinish err => sending s ∧ sent_bytes (client (cl s)) = T ∧ dma s = [] ∧ AXIOM_RET_IS_OK err = true
  | AXN_STATE_END, PcEnd => finished s
  | AXN_STATE_STOP, PcStop => finished s
  | AXN_STATE_STOP, PcRet r => finished s ∧ r = AXIOM_RET_OK
  | _, _ => False
  end.

(** Bytes that are still to be written. *)
Definition unwritten (s : sys) (p : pc) (k : nat) : Prop :=
  match p with PcWrite l _ addr => (Z.to_nat addr <= k < Z.to_nat (addr + l_psize l))%nat | _ => False end ∨
  ∃ w, w ∈ dma s ∧ (Z.to_nat w.2.1 <= k < Z.to_nat (w.2.1 + w.2.2))%nat.

Record rdma_inv (s : sys) (p : pc) : Prop := {
  di_thr : thr s = [p];
  di_config : np_type (cl s) = AXNP_RDMA ∧ server_id (cl s) = server_id c0 ∧ client_port (cl s) = client_port c0 ∧
    total_bytes (client (cl s)) = T ∧ 0 <= sent_bytes (client (cl s)) <= T;
  di_mutex : mtx s = if holds p then Some 0%nat else None;
  di_phase : phase s p;
  di_zone : length (zone s) = size;
  di_dma : Forall (fun w => w.1 = 0%nat ∧ 0 <= w.2.1 ∧ 1 <= w.2.2 ∧ w.2.1 + w.2.2 <= T) (dma s);
  di_sync : rdma_sync (client (cl s)) = true → dma s = [];
  di_written : ∀ k, (k < Z.to_nat (sent_bytes (client (cl s))))%nat →
    pat (magic (client (cl s))) (zone s) k ∨ unwritten s p k
}.

(** What the server has seen and answered. *)
Definition rdma_reply (p : packet) : Prop :=
  pk_node p = me ∧ pk_port p = client_port c0 ∧ pl_command (pk_payload p) = AXIOM_CMD_NETPERF_END ∧
  pl_total_bytes (pk_payload p) = T ∧ pl_error (pk_payload p) = 0.
Definition rdma_served (handled : list packet) (sv : axnetperf_server_t) (out : list packet) : Prop :=
  match handled with
  | [] => out = []
  | [_] => reply_port sv = client_port c0 ∧ out = []
  | _ => ∃ p, out = [p] ∧ rdma_reply p
  end.

Record rdma_server (s : sys) (p : pc) (handled : list packet) (sv : axnetperf_server_t) : Prop := {
  dv_thread : ∃ x, sthr s = [x] ∧ x ≠ SDone;
  dv_order : handled ++ in_hand (sthr s) ++ net s = log s;
  dv_entry : servers s !! Z.to_nat me = Some sv;
  dv_served : rdma_served handled sv (replies s);
  dv_back : if bool_decide (p = PcRet AXIOM_RET_OK) then back s = [] ∧ length (replies s) = 1%nat else back s = replies s
}.

Definition rinv (s : sys) : Prop := ∃ p, rdma_inv s p ∧ ∃ handled sv, rdma_server s p handled sv.

Hypothesis start : rdma_start.

Lemma rdma_total : 0 <= T < 2 ^ 31 ∧ T mod 8 = 0 ∧ T <= Z.of_nat size.
Proof using start. destruct start as [_ _ (_ & ? & ?) _ ?]. lia. Qed.

(** *** Steps of the thread *)

Definition after (s : sys) (c : axnetperf_status_t) (p' : pc) (acts : list act) : sys :=
  foldr (perform 0) (with_thread 0 p' c s) acts.

Definition dweight (p : pc) : Z :=
  match p with
  | PcStart => 14 | PcCheck => 11 | PcRdmaEnter => 10 | PcRdmaLoop _ _ => 9 | PcToken _ => 10 | PcWrite _ _ _ => 12
  | PcWait => 8 | PcFinish _ => 7 | PcEnd => 3 | PcStop => 2 | _ => 0
  end.
Definition dmeasure (s : sys) : Z :=
  16 * (T - sent_bytes (client (cl s))) + sum_over dweight (thr s) + 2 * alen (net s) + sum_over sweight (sthr s) + alen (dma s).

Lemma dmeasure_before s p : thr s = [p] →
  dmeasure s = 16 * (T - sent_bytes (client (cl s))) + dweight p + 2 * alen (net s) + sum_over sweight (sthr s) + alen (dma s).
Proof. intros H. unfold dmeasure. rewrite H. unfold sum_over at 1. cbn [foldr]. lia. Qed.

Definition act_weight (a : act) : Z := match a with ASend _ => 2 | AWriteSync _ _ => 0 | AWrite _ _ => 1 end.
Lemma dmeasure_after s p c p' acts : thr s = [p] → acts = [] ∨ (∃ a, acts = [a]) →
  dmeasure (after s c p' acts) = 16 * (T - sent_bytes (client c)) + dweight p' + 2 * alen (net s) + sum_over sweight (sthr s) +
    alen (dma s) + sum_over act_weight acts.
Proof.
  intros H Ha. assert (Ht : thr (after s c p' acts) = [p']).
  { destruct Ha as [->|[[] ->]]; cbn; by rewrite H. }
  rewrite (dmeasure_before _ p' Ht).
  destruct Ha as [->|[[] ->]]; cbn [after foldr perform with_thread cl net sthr dma sum_over act_weight]; rewrite ?alen_app; unfold alen, sum_over; cbn [foldr length act_weight]; lia.
Qed.

Record rdma_good (s : sys) (c : axnetperf_status_t) (p' : pc) (acts : list act) : Prop := {
  dg_inv : rdma_inv (after s c p' acts) p';
  dg_acts : acts = [] ∨ (∃ pk, acts = [ASend pk]) ∨ (∃ a z, acts = [AWriteSync a z] ∨ acts = [AWrite a z]);
  dg_ret : p' ≠ PcRet AXIOM_RET_OK;
  dg_less : dmeasure (after s c p' acts) < dmeasure s
}.

Lemma ret_codes_differ : AXIOM_RET_ERROR ≠ AXIOM_RET_OK.
Proof using CNOK. intros E. pose proof ret_error_not_ok as H. rewrite E, ret_ok_ok in H. done. Qed.

Lemma rdma_init_ok e c z : np_type c = AXNP_RDMA → total_bytes (client c) = T → 0 <= magic (client c) < 2 ^ 64 →
  payload_size (client c) = payload_size (client c0) → e_mmap e = Some z → T <= alen z → ∃ c', client_init e c = Some (c', 0) ∧
  np_type c' = np_type c ∧ server_id c' = server_id c ∧ client_port c' = client_port c ∧ total_bytes (client c') = T ∧
  sent_bytes (client c') = sent_bytes (client c) ∧ magic (client c') = magic (client c) ∧ state c' = state c ∧
  T <= alen (rdma_zone (client c')) ∧ filled (magic (client c')) (rdma_zone (client c')) (Z.to_nat T) ∧
  1 <= payload_size (client c').
Proof using start CNOK PCOK.
  intros Ht HT Hm Hps Hz Hlen. unfold client_init. rewrite Ht, Z.eqb_refl. unfold axnetperf_rdma_init.
  pose proof (ds_psize start) as Hc. unfold chosen_psize in Hc. rewrite <- Hps in Hc.
  assert (E : ∃ c1, init_psize AXIOM_NETPERF_DEF_RDMA_PSIZE AXIOM_RDMA_PAYLOAD_MAX_SIZE c = (c1, 0) ∧
    state c1 = state c ∧ np_type c1 = np_type c ∧ server_id c1 = server_id c ∧ client_port c1 = client_port c ∧
    total_bytes (client c1) = T ∧ sent_bytes (client c1) = sent_bytes (client c) ∧ magic (client c1) = magic (client c) ∧
    1 <= payload_size (client c1)).
  { unfold init_psize. destruct (payload_size (client c) =? 0); cbn;
      rewrite (proj2 (Z.ltb_ge _ 1)), (proj2 (Z.ltb_ge AXIOM_RDMA_PAYLOAD_MAX_SIZE _)) by lia; (eexists; split; [reflexivity|]);
      cbn; split_and!; done || lia. }
  clear Hc. destruct E as (c1 & Ei & E1 & E2 & E3 & E4 & E5 & E6 & E7 & E8). rewrite Ei, Z.eqb_refl, Hz, E5. cbn [negb].
  rewrite (proj2 (Z.ltb_ge (alen z) T)) by done. destruct rdma_total as (HT1 & HT2 & _). rewrite E7.
  destruct (rdma_fill_spec (fill_fuel T) 0 T (magic (client c)) z) as (z' & Ef & Hl & Hfill); try done; try lia.
  { unfold alen in Hlen. lia. }
  { apply fill_fuel_enough. lia. }
  { intros k Hk. lia. }
  rewrite Ef. eexists. split; [reflexivity|]. cbn. rewrite E7. split_and!; try done; [congruence|].
  unfold alen in *. by rewrite Hl.
Qed.

Lemma rdma_enter s e c p' acts : rdma_inv s PcStart → env_ok false (cl s) e → thread_step e (cl s) PcStart = Some (c, p', acts) →
  rdma_good s c p' acts.
Proof using start CNOK PCOK.
  intros [Hthr (C1 & C2 & C3 & C4 & C5) Hm Hp Hz Hd Hsync Hw] [Hr He] H. destruct (He eq_refl) as (Herr & z & Ez & Hlen).
  specialize (Hlen C1). rewrite C4 in Hlen.
  unfold phase in Hp. destruct (state (cl s)) eqn:Hst; try done. destruct Hp as (Hlog & Hdma & Hsent & Hps).
  cbn in H. unfold client_enter in H. rewrite Hst in H. set (c1 := set_client (set_magic_number (e_rand e) (client (cl s))) (cl s)) in H.
  assert (Hmag : 0 <= magic (client c1) < 2 ^ 64) by (cbn; lia).
  destruct (rdma_init_ok e c1 z C1 C4 Hmag Hps Ez Hlen) as (c2 & Ei & E1 & E2 & E3 & E4 & E5 & E6 & E7 & E8). cbn in E1, E2, E3, E5, E6, E7.
  rewrite Ei in H. cbn in H. unfold axnetperf_start in H. rewrite Herr in H. cbn in H. injection H as <- <- <-.
  split; [split; cbn; rewrite ?Hthr, ?Hdma; try done|by eauto|done|rewrite (dmeasure_before _ _ Hthr), (dmeasure_after _ _ _ _ _ Hthr) by eauto; cbn; rewrite E5; lia].
  - split_and!; try congruence. all: rewrite E5; lia.
  - unfold phase. cbn. unfold sending, begun. cbn. rewrite Hlog. split_and!; try tauto; try congruence.
    eexists. split; [done|]. unfold rdma_begin. cbn. rewrite E3, C3, E4, E6. split_and!; try done; lia.
  - rewrite E5, Hsent. intros k Hk. cbn in Hk. lia.
Qed.

(** Steps that leave memory and messages alone. *)
Lemma rdma_quiet s p c p' : rdma_inv s p →
  np_type c = np_type (cl s) → server_id c = server_id (cl s) → client_port c = client_port (cl s) →
  total_bytes (client c) = total_bytes (client (cl s)) → sent_bytes (client c) = sent_bytes (client (cl s)) →
  magic (client c) = magic (client (cl s)) → rdma_sync (client c) = rdma_sync (client (cl s)) →
  mtx s = None → phase (after s c p' []) p' → (∀ k, unwritten s p k → unwritten s p' k) →
  p' ≠ PcRet AXIOM_RET_OK → dweight p' < dweight p → rdma_good s c p' [].
Proof.
  intros [Hthr (C1 & C2 & C3 & C4 & C5) _ Hp Hz Hd Hsync Hw] E1 E2 E3 E4 E5 E6 E7 Hm Hph Hu Hne Hlt.
  split; [split; cbn; rewrite ?Hthr, ?E1, ?E2, ?E3, ?E4, ?E5, ?E6, ?E7; try done|by left|done|rewrite (dmeasure_before _ _ Hthr), (dmeasure_after _ _ _ _ _ Hthr) by eauto; cbn; rewrite E5; lia].
  - by rewrite Hm.
  - intros k Hk. destruct (Hw k Hk) as [|H]; [by left|right]. by apply Hu in H.
Qed.

Lemma rdma_claim s l i e c p' acts : rdma_inv s (PcRdmaLoop l i) → env_ok false (cl s) e →
  thread_step e (cl s) (PcRdmaLoop l i) = Some (c, p', acts) → rdma_good s c p' acts.
Proof using start CNOK PCOK.
  intros Hinv _ H. pose proof Hinv as [Hthr (C1 & C2 & C3 & C4 & C5) Hm Hp Hz Hd Hsync Hw].
  unfold phase in Hp. destruct (state (cl s)) eqn:Hst; try done. destruct Hp as [Hsend Hl]. destruct rdma_total as (HT & _).
  cbn in H. unfold rdma_loop in H. rewrite C4 in H. destruct (Z.ltb_spec (sent_bytes (client (cl s))) T) as [Hlt|Hge].
  - injection H as <- <- <-. set (z := claim_size (client (cl s)) (l_psize l)).
    assert (Hc : 1 <= z ∧ sent_bytes (client (cl s)) + z <= T).
    { unfold z, claim_size. rewrite C4, u64_small by lia. destruct (Z.ltb_spec (T - sent_bytes (client (cl s))) (l_psize l)); lia. }
    assert (E : sent_bytes (client (claim (l_psize l) (cl s))) = sent_bytes (client (cl s)) + z) by (cbn; apply u64_small; lia).
    split; [|by left|done|].
    + split; cbn [after foldr with_thread thr cl mtx dma zone holds]; rewrite ?Hthr, ?E; try done.
      * split_and!; try done; lia.
      * unfold phase. cbn [cl after foldr with_thread]. rewrite E. change (state (claim (l_psize l) (cl s))) with (state (cl s)). rewrite Hst.
        split; [exact Hsend|]. cbn [l_psize]. fold z. lia.
      * intros k Hk. destruct (decide (k < Z.to_nat (sent_bytes (client (cl s))))%nat) as [Hk'|Hk'].
        -- destruct (Hw k Hk') as [|[[]|H]]; [by left|right; by right].
        -- right. left. cbn [l_psize]. fold z. lia.
    + rewrite (dmeasure_before _ _ Hthr), (dmeasure_after _ _ _ _ _ Hthr), E by eauto. cbn. lia.
  - assert (HsT : sent_bytes (client (cl s)) = T) by lia. unfold rdma_tail in H. rewrite C4, HsT, Z.sub_diag in H. cbn in H.
    destruct (rdma_sync (client (cl s))) eqn:Es; injection H as <- <- <-; (eapply rdma_quiet; [exact Hinv| | | | | | | | |..]; try done).
    + unfold phase. cbn. rewrite Hst. split_and!; try done; [by apply Hsync|apply ret_ok_ok].
    + unfold phase. cbn. by rewrite Hst.
Qed.

Lemma rdma_write_step s l i addr e c p' acts : rdma_inv s (PcWrite l i addr) → env_ok false (cl s) e →
  thread_step e (cl s) (PcWrite l i addr) = Some (c, p', acts) → rdma_good s c p' acts.
Proof using start CNOK PCOK.
  intros Hinv [_ He] H. destruct (He eq_refl) as [Herr _]. pose proof Hinv as [Hthr (C1 & C2 & C3 & C4 & C5) Hm Hp Hz Hd Hsync Hw].
  unfold phase in Hp. destruct (state (cl s)) eqn:Hst; try done. destruct Hp as (Hsend & Hl & Ha & Hsum). destruct rdma_total as (HT & _ & Hsz).
  pose proof Hsend as [(Hzone & Hfill & _) _]. cbn in H. unfold rdma_write in H. rewrite Herr in H.
  destruct (rdma_sync (client (cl s))) eqn:Es; injection H as <- <- <-.
  - assert (Hcopy : addr + l_psize l <= alen (rdma_zone (client (cl s))) ∧ addr + l_psize l <= alen (zone s)) by (unfold alen in *; lia).
    destruct Hcopy as [Hc1 Hc2]. split; [|eauto 10|done|].
    + split; cbn [after foldr perform with_thread thr cl mtx dma zone holds]; rewrite ?Hthr; try done.
      * unfold phase. cbn. by rewrite Hst.
      * by rewrite length_rdma_copy by lia.
      * intros _. by apply Hsync.
      * intros k Hk. left. unfold pat. rewrite lookup_rdma_copy by lia. case_decide as Hcase; [apply Hfill; lia|].
        destruct (Hw k Hk) as [|[Hu|(w & Hw' & _)]]; [done|lia|]. rewrite (Hsync eq_refl) in Hw'. by apply not_elem_of_nil in Hw'.
    + rewrite (dmeasure_before _ _ Hthr), (dmeasure_after _ _ _ _ _ Hthr) by eauto. cbn. lia.
  - set (p1 := if i + 1 =? TOKEN_LEN then PcToken (sent l) else PcRdmaLoop (sent l) (i + 1)).
    assert (Hp1 : holds p1 = false ∧ dweight p1 <= 10 ∧ p1 ≠ PcRet AXIOM_RET_OK) by (unfold p1; destruct (_ =? _); cbn; split_and!; done || lia).
    destruct Hp1 as (Hh & Hd1 & Hn1).
    split; [|eauto 10|done|].
    + split; cbn [after foldr perform with_thread thr cl mtx dma zone]; rewrite ?Hthr, ?Hh; try done.
      * unfold phase, p1. cbn [after foldr perform with_thread cl]. rewrite Hst. by destruct (_ =? _).
      * apply Forall_app. split; [done|]. apply Forall_singleton. cbn. lia.
      * by rewrite Es.
      * intros k Hk. destruct (Hw k Hk) as [|[Hu|(w & Hw' & Hk')]]; [by left| |].
        -- right. right. exists (0%nat, (addr, l_psize l)). cbn [after foldr perform with_thread dma fst snd]. split; [set_solver|lia].
        -- right. right. exists w. cbn [after foldr perform with_thread dma]. split; [set_solver|done].
    + rewrite (dmeasure_before _ _ Hthr), (dmeasure_after _ _ _ _ _ Hthr) by eauto. cbn [sum_over foldr act_weight dweight]. lia.
Qed.

Lemma no_dma_nil s p : rdma_inv s p → no_dma 0 s = true → dma s = [].
Proof.
  intros Hinv H. pose proof (di_dma _ _ Hinv) as Hd. unfold no_dma in H. destruct (dma s) as [|w l]; [done|].
  apply Forall_cons in Hd as [[E _] _]. cbn in H. rewrite E in H. done.
Qed.

Lemma rdma_finish_step s err e c p' acts : rdma_inv s (PcFinish err) → env_ok false (cl s) e →
  thread_step e (cl s) (PcFinish err) = Some (c, p', acts) → rdma_good s c p' acts.
Proof using start CNOK PCOK.
  intros Hinv [_ He] H. destruct (He eq_refl) as [Herr _]. pose proof Hinv as [Hthr (C1 & C2 & C3 & C4 & C5) Hm Hp Hz Hd Hsync Hw].
  unfold phase in Hp. destruct (state (cl s)) eqn:Hst; try done. destruct Hp as (Hsend & HsT & Hdma & Hok).
  cbn in H. rewrite Hok in H. unfold rdma_finish in H. rewrite Hst, bool_decide_true, Herr in H by done. injection H as <- <- <-.
  split; [|eauto|done|].
  - split; cbn [after foldr perform with_thread thr cl mtx dma zone holds]; rewrite ?Hthr; try done.
    + unfold phase. cbn [after foldr perform with_thread cl state set_state]. unfold finished. cbn. split; [done|]. split.
      * intros k Hk. destruct (Hw k) as [|[[]|(w & Hw' & _)]]; [lia|done|]. rewrite Hdma in Hw'. by apply not_elem_of_nil in Hw'.
      * destruct Hsend as [_ (q & Hq & Hb)]. rewrite Hq. eexists q, _. split; [done|]. split; [exact Hb|].
        unfold rdma_over. cbn. split_and!; try done. rewrite C1. apply u8_small, type_rdma_byte.
  - rewrite (dmeasure_before _ _ Hthr), (dmeasure_after _ _ _ _ _ Hthr) by eauto. cbn. lia.
Qed.

Lemma rdma_thread s p e c p' acts : rdma_inv s p → (waits p = true → no_dma 0 s = true) → env_ok false (cl s) e →
  thread_step e (cl s) p = Some (c, p', acts) → rdma_good s c p' acts.
Proof using start CNOK PCOK.
  intros Hinv Hwait He H. pose proof Hinv as [Hthr (C1 & C2 & C3 & C4 & C5) Hm Hp Hz Hd Hsync Hw].
  destruct p; try done; cbn in Hm;
    try (exfalso; unfold phase in Hp; by destruct (state (cl s))).
  - by eapply rdma_enter.
  - unfold phase in Hp. destruct (state (cl s)) eqn:Hst; try done. cbn in H. injection H as <- <- <-.
    assert (E : client_check (cl s) = PcRdmaEnter).
    { unfold client_check. by rewrite bool_decide_false, C1, Z.eqb_refl by (by rewrite Hst). }
    rewrite E. eapply rdma_quiet; [exact Hinv|..]; try done. unfold phase. cbn. by rewrite Hst.
  - unfold phase in Hp. destruct (state (cl s)) eqn:Hst; try done. cbn in H. injection H as <- <- <-.
    unfold transfer_start. rewrite bool_decide_true by done. destruct Hp as (Hsend & Hdma & Hsent).
    eapply rdma_quiet; [exact Hinv|..]; try done. unfold phase. cbn. split; [exact Hsend|]. destruct Hsend as [(_ & _ & Hps) _]. exact Hps.
  - by eapply rdma_claim.
  - by eapply rdma_write_step.
  - unfold phase in Hp. destruct (state (cl s)) eqn:Hst; try done. cbn in H. injection H as <- <- <-.
    eapply rdma_quiet; [exact Hinv|..]; try done. unfold phase. cbn. by rewrite Hst.
  - unfold phase in Hp. destruct (state (cl s)) eqn:Hst; try done. cbn in H. injection H as <- <- <-. destruct (He) as [_ He']. 
    eapply rdma_quiet; [exact Hinv|..]; try done. unfold phase. cbn. rewrite Hst. destruct Hp. split_and!; try done.
    + by apply (no_dma_nil s PcWait), Hwait.
    + by apply He'.
  - by eapply rdma_finish_step.
  - unfold phase in Hp. destruct (state (cl s)) eqn:Hst; try done. cbn in H. unfold client_end in H. rewrite Hst, bool_decide_true in H by done.
    injection H as <- <- <-. eapply rdma_quiet; [exact Hinv|..]; try done.
Qed.

(** *** Steps of the system *)

Lemma log_shape s p : rdma_inv s p →
  log s = [] ∨ (∃ a, log s = [a] ∧ rdma_begin (cl s) a) ∨ finished s.
Proof.
  intros Hinv. pose proof (di_phase _ _ Hinv) as Hp. unfold phase in Hp.
  destruct (state (cl s)), p; try done; try (left; tauto); try (right; right; tauto); right; left; destruct Hp as [[_ H] _]; exact H.
Qed.

(** A step that leaves the client alone. *)
Lemma rdma_inv_other s s' p : rdma_inv s p → cl s' = cl s → mtx s' = mtx s → thr s' = thr s → zone s' = zone s → dma s' = dma s → log s' = log s →
  rdma_inv s' p.
Proof.
  intros [H1 H2 H3 H4 H5 H6 H7 H8] E1 E2 E3 E4 E5 E6.
  split; rewrite ?E1, ?E2, ?E3, ?E4, ?E5; try done.
  - unfold phase, sending, finished, begun in *. by rewrite E1, E4, E5, E6.
  - unfold unwritten in *. rewrite E5. done.
Qed.

Lemma rdma_dma_step s p i addr z l1 l2 : rdma_inv s p → dma s = l1 ++ (i, (addr, z)) :: l2 →
  rdma_inv (mk_sys (cl s) (mtx s) (thr s) (net s) (rdma_copy addr z (rdma_zone (client (cl s))) (zone s)) (l1 ++ l2)
        (servers s) (sthr s) (back s) (log s) (replies s)) p.
Proof using start CNOK PCOK.
  intros [Hthr Hcfg Hm Hp Hz Hd Hsync Hw] Hdma. rewrite Hdma in *. destruct rdma_total as (HT & _ & Hsz).
  assert (Hst : state (cl s) = AXN_STATE_START ∧ sending s).
  { unfold phase, finished in Hp. rewrite Hdma in Hp. assert (Hne : l1 ++ (i, (addr, z)) :: l2 ≠ []) by (by destruct l1).
    destruct (state (cl s)), p; try done; tauto. }
  destruct Hst as [Hst Hsend]. pose proof Hsend as [(Hzl & Hfill & _) _].
  pose proof Hd as Hd'. rewrite Forall_app, Forall_cons in Hd'. destruct Hd' as (Hd1 & (_ & Ha & Hz1 & Hz2) & Hd2). cbn in Ha, Hz1, Hz2.
  split; cbn [cl mtx thr zone dma log]; try done.
  - unfold phase in *. cbn [cl log dma]. rewrite Hst in *. rewrite Hdma in Hp. destruct p; try done.
    destruct Hp as (_ & _ & Hn & _). by destruct l1.
  - rewrite length_rdma_copy; unfold alen in *; lia.
  - by apply Forall_app.
  - intros E. apply Hsync in E. by destruct l1.
  - intros k Hk. destruct (decide (Z.to_nat addr <= k < Z.to_nat (addr + z))%nat) as [Hin|Hout].
    + left. unfold pat. rewrite lookup_rdma_copy, decide_True by (unfold alen in *; lia || done). apply Hfill. lia.
    + destruct (Hw k Hk) as [Hpat|[Hu|(w & Hwin & Hk')]].
      * left. unfold pat. rewrite lookup_rdma_copy, decide_False by (unfold alen in *; lia || done). done.
      * right. by left.
      * right. right. exists w. split; [|done]. rewrite Hdma in Hwin. cbn [dma]. apply elem_of_app in Hwin as [Hwin|Hwin]; [set_solver|].
        apply elem_of_cons in Hwin as [->|Hwin]; [cbn in Hk'; lia|set_solver].
Qed.

(** The handler on the two messages. *)
Lemma rdma_reply_start v sv a c : rdma_begin c a → is_Some (v_clock v) →
  ∃ now, reply_entry v sv me (pk_size a) (pk_payload a) = Some (mk_server now now T 0 (client_port c0), []).
Proof. intros (H1 & H2 & H3 & _) [now Hn]. exists now. unfold reply_entry. rewrite Hn, H1, H2, H3, Z.eqb_refl. done. Qed.

Lemma rdma_reply_end v sv b c z : rdma_over c b → is_Some (v_clock v) → AXIOM_RET_IS_OK (v_err v) = true → v_mmap v = Some z →
  reply_port sv = client_port c0 → 0 <= magic (client c) < 2 ^ 64 → length z = size → filled (magic (client c)) z (Z.to_nat T) →
  ∃ sv' q, reply_entry v sv me (pk_size b) (pk_payload b) = Some (sv', [q]) ∧ rdma_reply q.
Proof using start CNOK PCOK.
  intros (H1 & H2 & H3 & H4) [now Hn] Herr Hmap Hport Hmag Hlen Hfill. destruct cmds_differ as (_ & D2 & _). destruct rdma_total as (HT & H8 & Hs).
  unfold reply_entry. rewrite Hn, H1, H2, H3, H4, Hmap.
  rewrite (proj2 (Z.eqb_neq AXIOM_CMD_NETPERF_END AXIOM_CMD_NETPERF_START)), !Z.eqb_refl by done. cbn [negb received_bytes set_received].
  rewrite (rdma_check_spec (fill_fuel T) 0 T) by (try done; try lia; apply fill_fuel_enough; lia). cbn.
  unfold axiom_netperf_send_reply. rewrite Herr. eexists _, _. split; [reflexivity|]. unfold rdma_reply. cbn. by rewrite Hport.
Qed.

Lemma rdma_served_next s p handled pk rest sv v sv' out :
  rdma_inv s p → handled ++ pk :: rest = log s → rdma_served handled sv (replies s) → senv_ok false v s →
  reply_entry v sv me (pk_size pk) (pk_payload pk) = Some (sv', out) →
  rdma_served (handled ++ [pk]) sv' (replies s ++ out).
Proof using start CNOK PCOK.
  intros Hinv Ho Hs [_ Hv] Hr. destruct (Hv eq_refl) as (Herr & Hmap & Hclk).
  destruct (log_shape s p Hinv) as [E|[(a & E & Ha)|(_ & Hfill & a & b & E & Ha & Hb)]]; rewrite E in Ho.
  - by destruct handled.
  - destruct handled as [|h [|]]; cbn in Ho; simplify_eq. destruct (rdma_reply_start v sv a _ Ha Hclk) as [now Er].
    rewrite Er in Hr. injection Hr as <- <-. cbn in Hs |- *. by rewrite Hs.
  - destruct handled as [|h [|h2 [|]]]; cbn in Ho; simplify_eq.
    + destruct (rdma_reply_start v sv a _ Ha Hclk) as [now Er]. rewrite Er in Hr. injection Hr as <- <-. cbn in Hs |- *. by rewrite Hs.
    + cbn in Hs. destruct Hs as [Hport Hrep].
      destruct (rdma_reply_end v sv b (cl s) (zone s) Hb Hclk Herr Hmap Hport) as (sv1 & q & Er & Hq);
        [apply Ha|apply (di_zone _ _ Hinv)|done|]. rewrite Er in Hr. injection Hr as <- <-. rewrite Hrep. cbn. eauto.
Qed.

Lemma rinv_step s s' : rinv s → step me false s s' → rinv s' ∧ dmeasure s' < dmeasure s.
Proof using start CNOK PCOK.
  intros (p & Hinv & handled & sv & [[x [Hx Hxd]] Ho He Hs Hb]) Hstep.
  destruct Hstep as [s i q e c p' acts Hi Hm Hw Henv Hst|s i pk rest Hi Hbk _ _| |s i a z l1 l2 Hd|s j pk rest Hj Hnet| |s j pk v table out Hj Hv Hr];
    try done.
  - rewrite (di_thr _ _ Hinv) in Hi. destruct i; [|done]. injection Hi as ->.
    destruct (rdma_thread s q e c p' acts Hinv Hw Henv Hst) as [Hinv' Ha Hret Hless]. split; [|done].
    exists p'. split; [done|]. exists handled, sv.
    assert (Hq : q ≠ PcRet AXIOM_RET_OK) by (by intros ->). rewrite bool_decide_false in Hb by done.
    destruct Ha as [->|[[pk ->]|(a & z & [-> | ->])]]; split; cbn; rewrite ?(bool_decide_false _ Hret); eauto.
    by rewrite !(assoc_L (++)), <- Ho, !(assoc_L (++)).
  - rewrite (di_thr _ _ Hinv) in Hi. destruct i; [|done]. injection Hi as ->.
    rewrite bool_decide_false in Hb by done. rewrite Hbk in Hb.
    assert (Hone : replies s = [pk] ∧ rest = [] ∧ rdma_reply pk).
    { rewrite <- Hb in *. destruct handled as [|? [|]]; cbn in Hs; [done|by destruct Hs|]. destruct Hs as (q & [= -> ->] & Hq). done. }
    destruct Hone as (Hrep & -> & Hpk).
    assert (Hret : client_stop (cl s) AXIOM_RET_OK (server_id (cl s)) (pk_payload pk) = PcRet AXIOM_RET_OK).
    { unfold client_stop, axnetperf_stop. destruct Hpk as (_ & _ & -> & _). by rewrite ret_ok_ok, !Z.eqb_refl. }
    rewrite Hret. pose proof Hinv as [Hthr Hcfg Hm Hp Hz Hd Hsync Hw]. split.
    + exists (PcRet AXIOM_RET_OK). split; [|exists handled, sv; split; cbn; try done; [eauto|]].
      * split; cbn; rewrite ?Hthr; try done. unfold phase in *. cbn. by destruct (state (cl s)).
      * rewrite bool_decide_true by done. by rewrite Hrep.
    + unfold dmeasure. cbn [cl thr net sthr dma]. rewrite Hthr. cbn. lia.
  - split; [|unfold dmeasure; cbn [cl thr net sthr dma]; rewrite Hd, !alen_app; unfold alen; cbn [length]; lia].
    exists p. split; [by eapply rdma_dma_step|]. exists handled, sv. split; cbn; eauto.
  - rewrite Hx in Hj, Ho. destruct j; [|done]. injection Hj as ->. rewrite Hnet in Ho. split.
    + exists p. split; [by eapply rdma_inv_other|]. exists handled, sv. split; cbn; rewrite ?Hx; cbn; eauto.
    + unfold dmeasure. cbn [cl thr net sthr dma]. rewrite Hx, Hnet. unfold alen. cbn. lia.
  - rewrite Hx in Hj, Ho. destruct j; [|done]. injection Hj as ->. cbn in Ho.
    unfold axiom_netperf_reply in Hr. rewrite He in Hr. cbn in Hr.
    destruct (reply_entry v sv me (pk_size pk) (pk_payload pk)) as [[sv' o]|] eqn:Er; [|done]. injection Hr as <- <-. split.
    + exists p. split; [by eapply rdma_inv_other|]. exists (handled ++ [pk]), sv'. split; cbn; rewrite ?Hx; cbn; eauto.
      * by rewrite <- Ho, <- (assoc_L (++)).
      * apply list_lookup_insert_eq. by eapply lookup_lt_Some.
      * by eapply rdma_served_next.
      * assert (Hnret : p ≠ PcRet AXIOM_RET_OK).
        { intros ->. rewrite bool_decide_true in Hb by done. destruct Hb as [_ Hlen].
          destruct handled as [|h [|h2 hs]]; cbn in Hs; [by rewrite Hs in Hlen|destruct Hs as [_ Hs]; by rewrite Hs in Hlen|].
          destruct (log_shape s _ Hinv) as [E|[(a & E & _)|(_ & _ & a & b & E & _)]]; rewrite E in Ho; by destruct hs. }
        rewrite bool_decide_false in Hb |- * by done. by rewrite Hb.
    + unfold dmeasure. cbn [cl thr net sthr dma]. rewrite Hx. unfold sum_over. cbn. lia.
Qed.

Lemma rinv_start z table : is_Some (table !! Z.to_nat me) → length z = size → rinv (sys0 c0 1 z table 1).
Proof using start CNOK PCOK.
  intros [sv Hsv] Hz. destruct start as [S1 S2 (S3 & S4 & _) S5 S6]. exists PcStart. split.
  - split; cbn; try done.
    + rewrite S5. split_and!; done || lia.
    + unfold phase. cbn. by rewrite S1.
    + rewrite S5. intros k Hk. cbn in Hk. lia.
  - exists [], sv. split; cbn; try done. eauto.
Qed.

Lemma rdma_thread_can_step s p : rdma_inv s p → p ≠ PcStop → (∀ r, p ≠ PcRet r) → (waits p = true → dma s = []) →
  ∃ s', step me false s s'.
Proof using start CNOK PCOK.
  intros Hinv Hns Hnr Hw. pose proof Hinv as [Hthr (C1 & C2 & C3 & C4 & C5) Hm Hp _ _ _ _].
  set (zn := replicate (Z.to_nat T) 0). set (e := mk_env 0 (Some zn) AXIOM_RET_OK (mk_payload 0 0 0 0 0 0 0)).
  assert (Hzn : T <= alen zn) by (unfold alen, zn; rewrite length_replicate; lia).
  assert (He : env_ok false (cl s) e) by (split; cbn; [lia|intros _; split; [apply ret_ok_ok|exists zn; by rewrite C4]]).
  assert (Hh : p ≠ PcLocked) by (intros ->; unfold phase in Hp; by destruct (state (cl s))).
  assert (Hm' : mtx s = None) by (rewrite Hm; by destruct p).
  assert (Hex : ∃ r, thread_step e (cl s) p = Some r).
  { destruct p; try done; try (exfalso; unfold phase in Hp; by destruct (state (cl s))); cbn; try (by eexists); try (destruct (rdma_write _ _ _ _ _); by eexists).
    - unfold client_enter. destruct (state (cl s)) eqn:Hst; eauto. unfold phase in Hp. rewrite Hst in Hp. destruct Hp as (_ & _ & _ & Hps).
      destruct (rdma_init_ok e (set_client (set_magic_number (e_rand e) (client (cl s))) (cl s)) zn C1 C4 ltac:(cbn; lia) Hps eq_refl Hzn)
        as (c1 & Hi & _). rewrite Hi. cbn. destruct (axnetperf_start e c1) as [r2 acts]. destruct (r2 =? 0); cbn; eauto.
    - destruct (AXIOM_RET_IS_OK err); [|eauto]. destruct (rdma_finish e (cl s)). eauto.
    - by destruct (Hnr ret). }
  destruct Hex as ([[c p'] acts] & Hst). eexists. eapply (step_thread _ _ s 0 p e); eauto; [by rewrite Hthr|].
  intros E. unfold no_dma. by rewrite (Hw E).
Qed.

Lemma rdma_server_can_step s p handled sv : rdma_inv s p → rdma_server s p handled sv →
  net s ≠ [] ∨ in_hand (sthr s) ≠ [] → ∃ s', step me false s s'.
Proof using start CNOK PCOK.
  intros Hinv [[x [Hx Hd]] Ho He Hs Hb] H. rewrite Hx in H, Ho. destruct x as [|pk|]; [| |done].
  - cbn in H. destruct (net s) as [|pk rest] eqn:Hnet; [naive_solver|]. eexists. eapply (step_recv _ _ s 0); [by rewrite Hx|exact Hnet].
  - set (v := mk_senv (Some (cur_ts sv)) (Some (zone s)) AXIOM_RET_OK (mk_payload 0 0 0 0 0 0 0)).
    assert (Hr : ∃ sv' out, reply_entry v sv me (pk_size pk) (pk_payload pk) = Some (sv', out)).
    { cbn in Ho. destruct (log_shape s p Hinv) as [E|[(a & E & Ha)|(_ & Hfill & a & b & E & Ha & Hbb)]]; rewrite E in Ho.
      - by destruct handled.
      - destruct handled as [|h [|]]; cbn in Ho; simplify_eq. destruct (rdma_reply_start v sv a _ Ha ltac:(cbn; eauto)) as [now Er]. eauto.
      - destruct handled as [|h [|h2 [|]]]; cbn in Ho; simplify_eq.
        + destruct (rdma_reply_start v sv a _ Ha ltac:(cbn; eauto)) as [now Er]. eauto.
        + cbn in Hs. destruct Hs as [Hport _].
          destruct (rdma_reply_end v sv b (cl s) (zone s) Hbb ltac:(cbn; eauto) ret_ok_ok eq_refl Hport) as (sv1 & q & Er & _);
            [apply Ha|apply (di_zone _ _ Hinv)|done|]. eauto. }
    destruct Hr as (sv' & out & Hr). eexists. eapply (step_handle _ _ s 0 pk v); [by rewrite Hx| |].
    + split; [by left|]. intros _. cbn. split; [apply ret_ok_ok|]. eauto.
    + unfold axiom_netperf_reply. rewrite He. cbn [mbind option_bind]. rewrite Hr. done.
Qed.

Lemma rdma_progress s : rinv s → (∃ s', step me false s s') ∨
  (thr s = [PcRet AXIOM_RET_OK] ∧ filled (magic (client (cl s))) (zone s) (Z.to_nat T) ∧ ∃ q, replies s = [q] ∧ rdma_reply q).
Proof using start CNOK PCOK.
  intros (p & Hinv & handled & sv & Hv). pose proof (di_thr _ _ Hinv) as Hthr.
  destruct (decide (net s = [])) as [Hnet|]; [|left; eapply rdma_server_can_step; eauto].
  destruct (decide (in_hand (sthr s) = [])) as [Hh|]; [|left; eapply rdma_server_can_step; eauto].
  pose proof (dv_order _ _ _ _ Hv) as Ho. rewrite Hnet, Hh, !app_nil_r in Ho. pose proof (dv_served _ _ _ _ Hv) as Hs.
  destruct (decide (dma s = [])) as [Hd|Hd].
  2: { left. destruct (dma s) as [|[i [a z]] l] eqn:E; [done|]. eexists. by apply (step_dma _ _ s i a z []). }
  assert (Hfin : finished s → ∃ q, replies s = [q] ∧ rdma_reply q).
  { intros (_ & _ & a & b & E & _). rewrite E in Ho. subst handled. exact Hs. }
  pose proof (di_phase _ _ Hinv) as Hp.
  assert (Hcase : p = PcStop ∨ (∃ r, p = PcRet r) ∨ (p ≠ PcStop ∧ ∀ r, p ≠ PcRet r)) by (destruct p; naive_solver).
  destruct Hcase as [->|[[r ->]|[H1 H2]]]; [| |left; by eapply rdma_thread_can_step].
  - unfold phase in Hp. destruct (state (cl s)) eqn:Hst; try done. destruct (Hfin Hp) as (q & Hq & Hrep).
    pose proof (dv_back _ _ _ _ Hv) as Hb. rewrite bool_decide_false, Hq in Hb by done. destruct Hrep as (R1 & R2 & _).
    destruct (di_config _ _ Hinv) as (_ & _ & C3 & _). left. eexists. eapply (step_stop _ _ s 0 q []); try done; [by rewrite Hthr|by rewrite C3].
  - right. unfold phase in Hp. destruct (state (cl s)) eqn:Hst; try done.
    destruct Hp as [Hf ->]. split; [done|]. split; [apply Hf|by apply Hfin].
Qed.
End Rdma.

(** C20. An RDMA test with one client thread and one server thread, of a length that is a
    multiple of 8 below 2^31 and fits into the zones of both nodes, with an allowed
    size of the pieces, ends when no call fails, after at most [16 * T + 14] steps and
    for every order of them: the thread has returned AXIOM_RET_OK, the first [T] bytes
    of the server's zone repeat the magic number, and the server has sent one reply,
    to the port of the client and without an error. *)
Theorem netperf_rdma_completes `{CN : NicConsts} {CNOK : NicConstsOk} `{RC : RunConsts} `{PC : PerfConsts} {PCOK : PerfConstsOk}
    me T c0 z table m s :
  rdma_start T c0 (length z) → is_Some (table !! Z.to_nat me) → run me false m (sys0 c0 1 z table 1) s →
  Z.of_nat m <= 16 * T + 14 ∧
  ((∃ s', step me false s s') ∨
   (thr s = [PcRet AXIOM_RET_OK] ∧ filled (magic (client (cl s))) (zone s) (Z.to_nat T) ∧
    ∃ q, replies s = [q] ∧ rdma_reply me T c0 q)).
Proof.
  intros Hst Ht Hrun.
  assert (H0 : rinv me T c0 (length z) (sys0 c0 1 z table 1)) by (by apply rinv_start).
  assert (Hr : rinv me T c0 (length z) s ∧ Z.of_nat m + dmeasure T s <= 16 * T + 14).
  { remember (sys0 c0 1 z table 1) as s0 eqn:E0. induction Hrun as [|m s0 s1 s2 _ IH Hs].
    - split; [done|]. subst. unfold dmeasure. cbn. rewrite (ds_sent _ _ _ Hst). unfold alen. cbn. lia.
    - destruct (IH E0 H0) as [H1 Hle]. destruct (rinv_step me T c0 (length z) Hst s1 s2 H1 Hs). split; [done|]. lia. }
  destruct Hr as [Hr Hle]. split; [|by apply (rdma_progress me T c0 (length z) Hst)].
  destruct Hr as (p & Hinv & _). destruct (di_config _ _ _ _ _ Hinv) as (_ & _ & _ & _ & Hs). unfold dmeasure, alen in Hle.
  pose proof (sum_nonneg dweight (thr s) ltac:(intros [] _; cbn; lia)). pose proof (sum_nonneg sweight (sthr s) ltac:(intros [] _; cbn; lia)). lia.
Qed.

Section Examples.
#[local] Existing Instances nic8 nic8_ok run8 perf8 perf8_ok.

(** Two pieces of 8 bytes; the sending function is the synchronous one. *)
Definition ex_rdma_run : list label :=
  let th := LThread 0 ex_env in
  let z := concat (replicate 2 (le_put 8 7)) ++ replicate 8 0 in
  [th; th; th; th; th; th; th; th; th; th; LRecv 0; LHandle 0 (ex_senv z); LRecv 0; LHandle 0 (ex_senv z); LStop 0].
Definition ex_rdma_end : sys := default (ex_sys 4 16 8 1 1) (exec 1 false ex_rdma_run (ex_sys 4 16 8 1 1)).

Lemma netperf_rdma_completes_witness : thr ex_rdma_end = [PcRet AXIOM_RET_OK] ∧ run 1 false 15 (ex_sys 4 16 8 1 1) ex_rdma_end.
Proof.
  assert (Hrun : run 1 false 15 (ex_sys 4 16 8 1 1) ex_rdma_end).
  { apply (exec_sound 1 false ex_rdma_run). unfold ex_rdma_end. vm_compute. reflexivity. }
  split; [|exact Hrun].
  destruct (netperf_rdma_completes 1 16 (ex_status 4 16 8) (replicate 24 0) ex_table 15 ex_rdma_end) as [_ [[s' H]|[H _]]].
  - split; cbn; try done; lia.
  - vm_compute. eauto.
  - exact Hrun.
  - exfalso. revert H. apply over_stuck. vm_compute. reflexivity.
  - exact H.
Defined.
End Examples.
