(* ===== verification/NetperfMain.v ===== *)
(** * The command line of axiom-netperf and the older server in axiom-init
    (axiom-netperf/axiom-netperf.c, axiom-init/axiom-netperf-reply) *)

From S2P Require Import Prelude Nic RunMsg Text Netperf NetperfSys.

(** ** Options *)

(** An option as [getopt_long] gives it: the letter and the argument. *)
Definition option_arg : Type := Z * list Z.

Definition chr (c : string) : Z := default 0 (head (str c)).

Definition get_scale (c : Z) : Z :=
  if (c =? chr "b") || (c =? chr "B") then 0
  else if (c =? chr "k") || (c =? chr "K") then 10
  else if (c =? chr "m") || (c =? chr "M") then 20
  else if (c =? chr "G") || (c =? chr "g") then 30
  else 0.

Section Main.
Context `{CN : NicConsts} `{PC : PerfConsts}.

(** The variables of [main] that the options set. *)
Record perf_opts := mk_perf {
  o_length : Z;
  o_scale : Z;
  o_server : Z;
  o_sport : Z;
  o_cport : Z;
  o_type : Z;
  o_sync : bool;
  o_psize : Z;
  o_threads : Z
}.

Definition AXNP_MAX_THREADS : Z := 64.

Definition perf0 : perf_opts := mk_perf 1024 10 AXIOM_NULL_NODE 3 3 AXNP_LONG false 0 1.

Inductive opt_res := OptGo (o : perf_opts) | OptExit (code : Z).

(** [sscanf] with one conversion. *)
Definition with_scan (r : option (Z * list Z)) (f : Z → perf_opts) : opt_res :=
  match r with Some (v, _) => OptGo (f v) | None => OptExit (-1) end.

(** The word that [%ms] reads. *)
Fixpoint word (s : list Z) : list Z :=
  match s with [] => [] | c :: s => if is_space c then [] else c :: word s end.

Definition set_type (t : Z) (sync : bool) (o : perf_opts) : perf_opts :=
  mk_perf (o_length o) (o_scale o) (o_server o) (o_sport o) (o_cport o) t sync (o_psize o) (o_threads o).

Definition type_option (arg : list Z) (o : perf_opts) : opt_res :=
  match word (skip_spaces arg) with
  | [] => OptExit (-1)
  | w =>
      if has_prefix (str "rdma") w then OptGo (set_type AXNP_RDMA false o)
      else if has_prefix (str "srdm") w then OptGo (set_type AXNP_RDMA true o)
      else if has_prefix (str "long") w then OptGo (set_type AXNP_LONG (o_sync o) o)
      else if has_prefix (str "raw") w then OptGo (set_type AXNP_RAW (o_sync o) o)
      else OptExit (-1)
  end.

(** [sscanf(optarg, "%u%c", &data_length, &char_scale) == 0]: only a character that
    is no number is refused; at the end of the argument the result is EOF, which is
    not 0, and the length stays. *)
Definition length_option (arg : list Z) (o : perf_opts) : opt_res :=
  let go len scale := OptGo (mk_perf len scale (o_server o) (o_sport o) (o_cport o) (o_type o) (o_sync o) (o_psize o) (o_threads o)) in
  match scan_u32 arg with
  | Some (len, rest) => go len (get_scale (default (chr "B") (head rest)))
  | None => if bool_decide (skip_spaces arg = []) then go (o_length o) (get_scale (chr "B")) else OptExit (-1)
  end.

Definition netperf_option (a : option_arg) (o : perf_opts) : opt_res :=
  let '(c, arg) := a in
  if c =? chr "d" then with_scan (scan_u8 arg) (fun v =>
    mk_perf (o_length o) (o_scale o) v (o_sport o) (o_cport o) (o_type o) (o_sync o) (o_psize o) (o_threads o))
  else if c =? chr "p" then with_scan (scan_u8 arg) (fun v =>
    mk_perf (o_length o) (o_scale o) (o_server o) v (o_cport o) (o_type o) (o_sync o) (o_psize o) (o_threads o))
  else if c =? chr "P" then with_scan (scan_u8 arg) (fun v =>
    mk_perf (o_length o) (o_scale o) (o_server o) (o_sport o) v (o_type o) (o_sync o) (o_psize o) (o_threads o))
  else if c =? chr "t" then type_option arg o
  else if c =? chr "l" then length_option arg o
  else if c =? chr "L" then with_scan (scan_ulong arg) (fun v =>
    mk_perf (o_length o) (o_scale o) (o_server o) (o_sport o) (o_cport o) (o_type o) (o_sync o) v (o_threads o))
  else if c =? chr "n" then with_scan (scan_u32 arg) (fun v =>
    mk_perf (o_length o) (o_scale o) (o_server o) (o_sport o) (o_cport o) (o_type o) (o_sync o) (o_psize o) v)
  else if c =? chr "s" then OptGo (set_type 0 (o_sync o) o)
  else if c =? chr "v" then OptGo o
  else if c =? chr "V" then OptExit 0
  else OptExit (-1).

Fixpoint netperf_options (l : list option_arg) (o : perf_opts) : opt_res :=
  match l with
  | [] => OptGo o
  | a :: l => match netperf_option a o with OptGo o => netperf_options l o | r => r end
  end.

(** What [main] does after the options: it exits, gives up, or starts threads of the
    server or of the client.  [dev] tells whether [axiom_open] succeeds, [bind] is
    the result of [axiom_bind]. *)
Inductive outcome_main :=
  | MExit (code : Z)
  | MReturn
  | MServer (port threads : Z)
  | MClient (s : axnetperf_status_t) (threads : Z).

(** [data_length << data_scale] on [uint32_t]. *)
Definition test_length (o : perf_opts) : Z := u32 (Z.shiftl (o_length o) (o_scale o)).

Definition main_status (o : perf_opts) : axnetperf_status_t :=
  mk_status AXN_STATE_NULL (o_type o) (o_server o) (o_cport o) (o_sport o)
    (mk_client (o_psize o) 0 (test_length o) 0 0 [] 0 (o_sync o)).

Definition netperf_main (args : list option_arg) (dev : bool) (bind : Z → Z) : outcome_main :=
  match netperf_options args perf0 with
  | OptExit code => MExit code
  | OptGo o =>
      if negb dev then MExit (-1)
      else if AXNP_MAX_THREADS <? o_threads o then MExit (-1)
      else if o_type o =? 0 then
        if negb (bind (o_sport o) =? o_sport o) then MReturn else MServer (o_sport o) (o_threads o)
      else if negb (bind (o_cport o) =? o_cport o) then MReturn
      else if o_server o =? AXIOM_NULL_NODE then MReturn
      else MClient (main_status o) (o_threads o)
  end.
End Main.

(** ** The server of axiom-init *)

Section InitServer.
Context `{CN : NicConsts} `{PC : PerfConsts}.

(** [axiom_netperf_status_t]: no port, replies go to a fixed one. *)
Record init_status := mk_init_status { is_start_ts : timespec; is_cur_ts : timespec; is_expected : Z; is_received : Z }.

Definition init_send_reply (e : senv) (st : init_status) (src error : Z) : list packet :=
  if AXIOM_RET_IS_OK (v_err e) then
    [mk_packet src AXIOM_RAW_PORT_NETUTILS sizeof_payload
       (mk_payload AXIOM_CMD_NETPERF_END (is_received st) (u64 (elapsed_nsec (is_cur_ts st) (is_start_ts st)))
          (pl_type (v_junk e)) (pl_magic (v_junk e)) error (pl_reply_port (v_junk e)))]
  else [].

(** [memcmp(rdma_zone + i, &magic, 8)] for every [i]. *)
Definition init_reply_entry (e : senv) (st : init_status) (src size : Z) (p : netperf_payload) :
    option (init_status * list packet) :=
  match v_clock e with
  | None => Some (st, [])
  | Some now =>
      let st := mk_init_status (is_start_ts st) now (is_expected st) (is_received st) in
      if pl_command p =? AXIOM_CMD_NETPERF_START then Some (mk_init_status now now (pl_total_bytes p) 0, [])
      else if pl_command p =? AXIOM_CMD_NETPERF_END then
        if negb (pl_type p =? AXNP_RDMA) then Some (st, []) else
        let st := mk_init_status (is_start_ts st) now (is_expected st) (pl_total_bytes p) in
        match v_mmap e with
        | None => Some (st, init_send_reply e st src 1)
        | Some zone =>
            failed ← rdma_check (S (Z.to_nat (is_received st))) 1 0 (is_received st) (pl_magic p) zone;
            Some (st, init_send_reply e st src (if failed : bool then 1 else 0))
        end
      else if pl_command p =? AXIOM_CMD_NETPERF then
        let st := mk_init_status (is_start_ts st) now (is_expected st) (u64 (is_received st + size)) in
        Some (st, if is_expected st <=? is_received st then init_send_reply e st src 0 else [])
      else Some (st, [])
  end.

Definition init_netperf_reply (e : senv) (table : list init_status) (src size : Z) (p : netperf_payload) :
    option (list init_status * list packet) :=
  st ← table !! Z.to_nat src;
  '(st, out) ← init_reply_entry e st src size p;
  Some (<[Z.to_nat src := st]> table, out).
End InitServer.

(** ** The test that the options describe *)

Section MainTheory.
Context `{CN : NicConsts} {CNOK : NicConstsOk} `{RC : RunConsts} {RCOK : RunConstsOk} `{PC : PerfConsts} {PCOK : PerfConstsOk}.

Definition opts_ok (o : perf_opts) : Prop :=
  (o_type o = 0 ∨ o_type o = AXNP_RAW ∨ o_type o = AXNP_LONG ∨ o_type o = AXNP_RDMA) ∧ 0 <= o_psize o < 2 ^ 64 ∧ 0 <= o_threads o.

Lemma scan_digits_nonneg s acc : 0 <= acc → 0 <= (scan_digits 10 s acc).1.
Proof.
  revert acc. induction s as [|c s IH]; intros acc H; [done|]. cbn [scan_digits].
  destruct (is_digit 10 c); [|done]. apply IH. assert (Hd : 0 <= default 0 (digit_value c)); [|lia]. unfold digit_value.
  destruct ((48 <=? c) && (c <=? 57)) eqn:E1; [|destruct ((97 <=? c) && (c <=? 122)) eqn:E2; [|destruct ((65 <=? c) && (c <=? 90)) eqn:E3]];
    rewrite ?andb_true_iff, ?Z.leb_le in *; cbn; lia.
Qed.

Lemma scan_ulong_range s v rest : scan_ulong s = Some (v, rest) → 0 <= v < 2 ^ 64.
Proof.
  unfold scan_ulong. destruct (scan_sign _) as [neg s1]. destruct (starts_digit 10 s1); [|done].
  pose proof (scan_digits_nonneg s1 0 ltac:(lia)) as H. destruct (scan_digits 10 s1 0) as [n r]. cbn in H.
  intros [= <- <-]. destruct neg; [apply Z.mod_pos_bound; lia|lia].
Qed.

Lemma with_scan_ok r f o' : with_scan r f = OptGo o' → ∃ v rest, r = Some (v, rest) ∧ o' = f v.
Proof. unfold with_scan. destruct r as [[v rest]|]; [|done]. intros [= <-]. eauto. Qed.

Lemma type_option_ok arg o o' : opts_ok o → type_option arg o = OptGo o' → opts_ok o'.
Proof.
  intros (Ht & Hp & Hn) H. unfold type_option in H. destruct (word _); [done|]. unfold opts_ok.
  destruct (has_prefix (str "rdma") _); [injection H as <-; cbn; tauto|].
  destruct (has_prefix (str "srdm") _); [injection H as <-; cbn; tauto|].
  destruct (has_prefix (str "long") _); [injection H as <-; cbn; tauto|].
  destruct (has_prefix (str "raw") _); [injection H as <-; cbn; tauto|done].
Qed.

Lemma length_option_ok arg o o' : opts_ok o → length_option arg o = OptGo o' → opts_ok o'.
Proof.
  intros (Ht & Hp & Hn) H. unfold length_option in H. destruct (scan_u32 arg) as [[v rest]|]; [by injection H as <-|].
  destruct (bool_decide _); [|done]. by injection H as <-.
Qed.

Lemma option_ok a o o' : opts_ok o → netperf_option a o = OptGo o' → opts_ok o'.
Proof.
  destruct a as [c arg]. intros Ho H. pose proof Ho as (Ht & Hp & Hn). unfold netperf_option in H.
  destruct (c =? chr "d"); [apply with_scan_ok in H as (v & rest & _ & ->); done|].
  destruct (c =? chr "p"); [apply with_scan_ok in H as (v & rest & _ & ->); done|].
  destruct (c =? chr "P"); [apply with_scan_ok in H as (v & rest & _ & ->); done|].
  destruct (c =? chr "t"); [by eapply type_option_ok|].
  destruct (c =? chr "l"); [by eapply length_option_ok|].
  destruct (c =? chr "L").
  { apply with_scan_ok in H as (v & rest & E & ->). apply scan_ulong_range in E. by split. }
  destruct (c =? chr "n").
  { apply with_scan_ok in H as (v & rest & E & ->). split; [done|]. split; [done|]. unfold scan_u32 in E.
    destruct (scan_ulong arg) as [[n r]|]; [|done]. injection E as <- <-. apply Z.mod_pos_bound. lia. }
  destruct (c =? chr "s"); [injection H as <-; split; [by left|done]|].
  destruct (c =? chr "v"); [by injection H as <-|]. by destruct (c =? chr "V").
Qed.

Lemma options_ok l o o' : opts_ok o → netperf_options l o = OptGo o' → opts_ok o'.
Proof.
  revert o. induction l as [|a l IH]; intros o Ho H; [by injection H as <-|]. cbn in H.
  destruct (netperf_option a o) as [o1|] eqn:E; [|done]. eapply IH; [by eapply option_ok|done].
Qed.

Lemma perf0_ok : opts_ok perf0.
Proof. unfold opts_ok. cbn. lia. Qed.

(** The length of the test: [-l] with a number and a letter. *)
Lemma length_option_fmt n c o : 0 <= n < 2 ^ 32 → is_digit 10 c = false →
  ∃ o', length_option (fmt_unsigned 10 n ++ [c]) o = OptGo o' ∧ test_length o' = (n * 2 ^ get_scale c) mod 2 ^ 32.
Proof.
  intros Hn Hc. unfold length_option, scan_u32. rewrite scan_ulong_fmt by (lia || done). cbn. rewrite u32_small by done.
  eexists. split; [done|]. unfold test_length, u32. cbn. rewrite Z.shiftl_mul_pow2; [done|].
  unfold get_scale. repeat case_match; lia.
Qed.
End MainTheory.

(** A client that [main] starts is one for which the transfer is proved: for RAW and
    LONG messages, a piece size within the limit and a length that is not 0, the
    state is that of [raw_start], with at most 64 threads and less than 2^32 bytes. *)
Theorem netperf_main_starts `{CN : NicConsts} {CNOK : NicConstsOk} `{RC : RunConsts} {RCOK : RunConstsOk} `{PC : PerfConsts} {PCOK : PerfConstsOk}
    args dev bind c n :
  netperf_main args dev bind = MClient c n → np_type c ≠ AXNP_RDMA → payload_size (client c) <= max_psize c →
  total_bytes (client c) ≠ 0 →
  raw_start (total_bytes (client c)) c ∧ total_bytes (client c) < 2 ^ 32 ∧ 0 <= n <= AXNP_MAX_THREADS ∧
  server_id c ≠ AXIOM_NULL_NODE ∧ bind (client_port c) = client_port c.
Proof.
  intros H Ht Hp HT. unfold netperf_main in H. destruct (netperf_options args perf0) as [o|] eqn:Eo; [|done].
  destruct (options_ok _ _ _ perf0_ok Eo) as (Hty & Hps & Hn). destruct dev; [|done]. cbn in H.
  destruct (Z.ltb_spec AXNP_MAX_THREADS (o_threads o)); [done|]. destruct (Z.eqb_spec (o_type o) 0) as [|Hz]; [by destruct (negb _)|].
  destruct (Z.eqb_spec (bind (o_cport o)) (o_cport o)); [|done]. cbn in H. destruct (Z.eqb_spec (o_server o) AXIOM_NULL_NODE); [done|].
  injection H as <- <-. cbn in Ht, HT |- *.
  assert (HR : 0 <= test_length o < 2 ^ 32) by (apply Z.mod_pos_bound; lia).
  split; [|split_and!; try done; lia]. split; cbn; try done.
  - naive_solver.
  - split; [done|]. change (2 ^ 32) with 4294967296 in HR. change (2 ^ 64) with 18446744073709551616. lia.
  - split; [apply Hps|exact Hp].
Qed.

(** [-l] with a number and a unit: the length is the product modulo 2^32 (so that 4G
    is a test of no bytes). *)
Theorem netperf_length `{CN : NicConsts} `{PC : PerfConsts} n c : 0 <= n < 2 ^ 32 → is_digit 10 c = false →
  ∃ o, netperf_options [(chr "l", fmt_unsigned 10 n ++ [c])] perf0 = OptGo o ∧
    test_length o = (n * 2 ^ get_scale c) mod 2 ^ 32 ∧
    (test_length o = n * 2 ^ get_scale c ↔ n * 2 ^ get_scale c < 2 ^ 32).
Proof.
  intros Hn Hc. destruct (length_option_fmt n c perf0 Hn Hc) as (o & E & Ho).
  exists o. split; [|split; [exact Ho|]].
  - cbn [netperf_options]. unfold netperf_option. change (chr "l" =? chr "d") with false. change (chr "l" =? chr "p") with false.
    change (chr "l" =? chr "P") with false. change (chr "l" =? chr "t") with false. change (chr "l" =? chr "l") with true. cbn iota.
    by rewrite E.
  - rewrite Ho. assert (0 <= n * 2 ^ get_scale c) by (apply Z.mul_nonneg_nonneg; [lia|apply Z.pow_nonneg; lia]). split.
    + intros <-. apply Z.mod_pos_bound. lia.
    + intros. apply Z.mod_small. lia.
Qed.

(** ** The two servers *)

Section Servers.
Context `{CN : NicConsts} `{PC : PerfConsts}.

(** A sequence of messages: the results of the calls, the sender, the size and the
    payload of each. *)
Definition message : Type := senv * Z * Z * netperf_payload.

Fixpoint serve {A} (handle : senv → A → Z → Z → netperf_payload → option (A * list packet))
    (l : list message) (t : A) : option (A * list packet) :=
  match l with
  | [] => Some (t, [])
  | (e, src, size, p) :: l =>
      '(t, out) ← handle e t src size p; '(t, outs) ← serve handle l t; Some (t, out ++ outs)
  end.

(** Entries that hold the same, and replies that differ in the port only. *)
Definition same_entry (sv : axnetperf_server_t) (st : init_status) : Prop :=
  start_ts sv = is_start_ts st ∧ cur_ts sv = is_cur_ts st ∧ expected_bytes sv = is_expected st ∧ received_bytes sv = is_received st.
Definition same_reply (p q : packet) : Prop :=
  pk_node p = pk_node q ∧ pk_size p = pk_size q ∧ pk_payload p = pk_payload q ∧ pk_port q = AXIOM_RAW_PORT_NETUTILS.

Definition not_rdma_end (m : message) : Prop := pl_command m.2 ≠ AXIOM_CMD_NETPERF_END ∨ pl_type m.2 ≠ AXNP_RDMA.

Lemma same_send_reply e sv st src err : same_entry sv st →
  Forall2 same_reply (axiom_netperf_send_reply e sv src err) (init_send_reply e st src err).
Proof.
  intros (H1 & H2 & H3 & H4). unfold axiom_netperf_send_reply, init_send_reply. destruct (AXIOM_RET_IS_OK _); [|done].
  apply Forall2_cons. split; [|done]. unfold same_reply, reply_payload. cbn. by rewrite H1, H2, H4.
Qed.

Lemma same_step e sv st src size p : same_entry sv st → not_rdma_end (e, src, size, p) →
  ∃ sv' st' o1 o2, reply_entry e sv src size p = Some (sv', o1) ∧ init_reply_entry e st src size p = Some (st', o2) ∧
    same_entry sv' st' ∧ Forall2 same_reply o1 o2.
Proof.
  intros Hs Hn. pose proof Hs as (H1 & H2 & H3 & H4). unfold not_rdma_end in Hn. cbn in Hn. unfold reply_entry, init_reply_entry.
  destruct (v_clock e) as [now|]; [|by eexists _, _, _, _].
  destruct (Z.eqb_spec (pl_command p) AXIOM_CMD_NETPERF_START); [by eexists _, _, _, _|].
  destruct (Z.eqb_spec (pl_command p) AXIOM_CMD_NETPERF_END).
  { destruct (Z.eqb_spec (pl_type p) AXNP_RDMA); [naive_solver|]. eexists _, _, _, _. split; [done|]. split; [done|]. done. }
  destruct (pl_command p =? AXIOM_CMD_NETPERF); [|eexists _, _, _, _; split; [done|]; split; [done|]; done].
  eexists _, _, _, _. split; [done|]. split; [done|]. cbn. rewrite H3, H4.
  assert (Hs' : same_entry (set_received (u64 (is_received st + size)) (set_cur_ts now sv))
    (mk_init_status (is_start_ts st) now (is_expected st) (u64 (is_received st + size)))) by done.
  split; [exact Hs'|]. destruct (_ <=? _); [by apply same_send_reply|done].
Qed.
End Servers.

(** C24. The server of axiom-netperf and the older one in axiom-init do the same on every
    sequence of messages of any nodes, up to the port of the replies, as long as no
    RDMA test ends: they fail on the same messages, keep the same counts and send
    the same replies to the same nodes. *)
Theorem servers_agree `{CN : NicConsts} `{PC : PerfConsts} (l : list message) servers table :
  Forall2 same_entry servers table → Forall not_rdma_end l →
  match serve axiom_netperf_reply l servers, serve init_netperf_reply l table with
  | Some (servers', o1), Some (table', o2) => Forall2 same_entry servers' table' ∧ Forall2 same_reply o1 o2
  | None, None => True
  | _, _ => False
  end.
Proof.
  revert servers table. induction l as [|[[[e src] size] p] l IH]; intros servers table Ht Hl; [done|].
  apply Forall_cons in Hl as [Hm Hl]. cbn [serve]. pose proof (Forall2_length _ _ _ Ht) as Hlen.
  destruct (servers !! Z.to_nat src) as [sv|] eqn:E1.
  - destruct (Forall2_lookup_l _ _ _ _ _ Ht E1) as (st & E2 & Hs).
    destruct (same_step e sv st src size p Hs Hm) as (sv' & st' & o1 & o2 & R1 & R2 & Hs' & Ho).
    assert (A1 : axiom_netperf_reply e servers src size p = Some (<[Z.to_nat src := sv']> servers, o1))
      by (unfold axiom_netperf_reply; rewrite E1; cbn; by rewrite R1).
    assert (A2 : init_netperf_reply e table src size p = Some (<[Z.to_nat src := st']> table, o2))
      by (unfold init_netperf_reply; rewrite E2; cbn; by rewrite R2).
    rewrite A1, A2. cbn.
    specialize (IH (<[Z.to_nat src := sv']> servers) (<[Z.to_nat src := st']> table) ltac:(by apply Forall2_insert) Hl).
    destruct (serve axiom_netperf_reply l _) as [[s1 out1]|], (serve init_netperf_reply l _) as [[t1 out2]|]; try done.
    cbn. destruct IH. split; [done|]. by apply Forall2_app.
  - assert (E2 : table !! Z.to_nat src = None) by (apply lookup_ge_None; rewrite <- Hlen; by apply lookup_ge_None).
    assert (A1 : axiom_netperf_reply e servers src size p = None) by (unfold axiom_netperf_reply; by rewrite E1).
    assert (A2 : init_netperf_reply e table src size p = None) by (unfold init_netperf_reply; by rewrite E2).
    by rewrite A1, A2.
Qed.

(** With RDMA the older server compares the magic number at every byte instead of at
    every eighth, and reports an error for a zone that is right. *)
Example init_check_false_alarm :
  let zone := concat (replicate 3 (le_put 8 7)) in
  rdma_check (fill_fuel 16) 8 0 16 7 zone = Some false ∧ rdma_check 17 1 0 16 7 zone = Some true.
Proof. vm_compute. done. Qed.

Section Examples.
#[local] Existing Instances nic8 nic8_ok run8 run8_ok perf8 perf8_ok.

Definition ex_args : list option_arg :=
  [(chr "d", str "2"); (chr "t", str "raw"); (chr "l", str "3k"); (chr "n", str "4")].

Definition ex_client : axnetperf_status_t := mk_status AXN_STATE_NULL 1 2 3 3 (mk_client 0 0 3072 0 0 [] 0 false).

Lemma netperf_main_starts_witness :
  netperf_main ex_args true id = MClient ex_client 4 ∧ raw_start (total_bytes (client ex_client)) ex_client.
Proof.
  split; [vm_compute; reflexivity|].
  refine (proj1 (netperf_main_starts ex_args true id ex_client 4 _ _ _ _)).
  - vm_compute. reflexivity.
  - vm_compute. discriminate.
  - vm_compute. discriminate.
  - vm_compute. discriminate.
Defined.

(** 4G is no byte. *)
Lemma netperf_length_witness : ∃ o, netperf_options [(chr "l", str "4G")] perf0 = OptGo o ∧ test_length o = 0.
Proof.
  destruct (netperf_length 4 (chr "G")) as (o & E & Ho & _); [lia|reflexivity|].
  exists o. split; [exact E|]. rewrite Ho. vm_compute. reflexivity.
Defined.

Definition ex_messages : list message :=
  let start := mk_payload 1 4 0 0 0 0 3 in let data := mk_payload 2 0 0 0 0 0 0 in
  [(ex_senv [], 1, 136, start); (ex_senv [], 5, 136, start); (ex_senv [], 1, 3, data); (ex_senv [], 5, 4, data); (ex_senv [], 1, 1, data)].
Definition ex_init_table : list init_status := replicate 8 (mk_init_status (0 : @timespec perf8) (0 : @timespec perf8) 0 0).

Lemma servers_agree_witness :
  match serve axiom_netperf_reply ex_messages ex_table, serve init_netperf_reply ex_messages ex_init_table with
  | Some (_, o1), Some (_, o2) => (pk_node <$> o1) = [5; 1] ∧ Forall2 same_reply o1 o2
  | _, _ => False
  end.
Proof.
  pose proof (servers_agree ex_messages ex_table ex_init_table) as H.
  assert (H1 : Forall2 same_entry ex_table ex_init_table) by (apply Forall2_replicate; done).
  assert (H2 : Forall not_rdma_end ex_messages) by (repeat (apply Forall_cons; split; [left; vm_compute; discriminate|]); apply Forall_nil_2).
  specialize (H H1 H2). revert H. vm_compute. intros [_ H]. split; [done|exact H].
Defined.
End Examples.
