(* ===== verification/Ethtap.v ===== *)
(** * The virtual Ethernet (axiom-ethtap/axiom-ethtap.c)

    On each node a TAP interface whose address ends in the node id.  The sender
    moves frames from the interface to the node that the destination address
    names, or to all other nodes; the receiver writes frames for this node to the
    interface.  The second part joins the nodes to a network. *)

From S2P Require Import Prelude Nic RunMsg Text Sched.

Definition ETH_ALEN : nat := 6.
Definition MAC : list Z := [66; 217; 175; 134; 11; 52].
Definition BROADCAST : list Z := [255; 255; 255; 255; 255; 255].
Definition PORT : Z := 2.
Definition MAX_THREADS : Z := 64.
Definition IFNAMSIZ : Z := 16.

(** [memcmp(buf, x, n) == 0] *)
Definition memeq (n : nat) (buf x : list Z) : bool := bool_decide (take n buf = take n x).

(** The size of the buffers of both threads. *)
Class TapConsts := { AXIOM_LONG_PAYLOAD_MAX_SIZE : Z }.
Definition fits_buffer `{TapConsts} (bytes : list Z) : list Z := take (Z.to_nat AXIOM_LONG_PAYLOAD_MAX_SIZE) bytes.

(** ** Sender and receiver *)

(** The global variables, set once at the start. *)
Record tap := mk_tap { num_nodes : Z; my_node : Z; mymac : list Z; port : Z }.

(** What [axiom_send] is given: node, port and payload. *)
Definition message : Type := Z * Z * list Z.

(** One turn of [sender]: [read] gives as much of the next frame of the interface as
    the buffer takes, or fails ([None]).  The buffer, which keeps its old
    bytes behind those that were read, and the sends.  Failures are only logged. *)
Definition sender_turn `{TapConsts} (t : tap) (buf : list Z) (frame : option (list Z)) : list Z * list message :=
  let bytes := fits_buffer (default [] frame) in
  let sz := match frame with Some _ => alen bytes | None => -1 end in
  if 0 <? sz then
    let buf := overwrite bytes buf in
    (buf,
     if memeq (ETH_ALEN - 1) buf MAC then [(aget buf (Z.of_nat ETH_ALEN - 1), PORT, take (Z.to_nat sz) buf)]
     else if memeq ETH_ALEN buf BROADCAST then
       (fun no => (u8 no, PORT, take (Z.to_nat sz) buf)) <$> filter (fun no => no ≠ my_node t) (seqZ 1 (num_nodes t))
     else [])
  else (buf, []).

(** One turn of [receiver]: [axiom_recv] gives at most as many bytes as the buffer
    takes.  The buffer and the frames written to the interface. *)
Definition receiver_turn `{NicConsts} `{TapConsts} (t : tap) (buf : list Z) (ret : Z) (bytes : list Z) : list Z * list (list Z) :=
  if negb (AXIOM_RET_IS_OK ret) then (buf, []) else
  let bytes := fits_buffer bytes in
  let sz := alen bytes in
  let buf := overwrite bytes buf in
  if sz <? 12 then (buf, []) else
  (buf, if memeq ETH_ALEN buf (mymac t) || memeq ETH_ALEN buf BROADCAST then [take (Z.to_nat sz) buf] else []).

(** ** Start *)

(** The calls of the start; [t_open] and the [ioctl]s give negative numbers when they
    fail. *)
Class TapDev (D : Type) := {
  t_open : M D Z;
  t_set_if : Z → list Z → M D Z;
  t_set_hwaddr : Z → list Z → M D Z;
  t_close : Z → M D unit;
  t_axiom_open : M D bool;
  t_num_nodes : M D Z;
  t_node_id : M D Z;
  t_bind : Z → M D Z;
  t_create : bool → Z → M D Z;
  t_join : bool → Z → M D Z;
  t_daemonize : M D Z
}.

Section Start.
Context `{CN : NicConsts} {D : Type} `{TD : TapDev D}.

(** The descriptor, or -1, and the address that is left in [mymac]. *)
Definition ethtap_alloc (idx mac : Z) (old : list Z) : M D (Z * list Z) :=
  fd ← t_open;
  if fd <? 0 then mret (-1, old) else
  err ← t_set_if fd (snprintf IFNAMSIZ (str "ax" ++ fmt_d idx));
  if err <? 0 then t_close fd ;; mret (-1, old) else
  let mymac := take (ETH_ALEN - 1) MAC ++ [u8 mac] in
  err ← t_set_hwaddr fd mymac;
  if err <? 0 then t_close fd ;; mret (-1, mymac) else mret (fd, mymac).

(** [None]: exit with EXIT_FAILURE. *)
Definition ethtap_prepare (axiom_port : Z) : M D (option tap) :=
  dev ← t_axiom_open;
  if negb dev then mret None else
  n ← t_num_nodes;
  me ← t_node_id;
  err ← t_bind axiom_port;
  if negb (AXIOM_RET_IS_OK err) then mret None else
  id ← t_node_id;
  r ← ethtap_alloc 0 id [0; 0; 0; 0; 0; 0];
  if r.1 <=? 0 then mret None else mret (Some (mk_tap n me r.2 axiom_port)).

(** The options [-p] and [-n], as the letters [getopt_long] gives. *)
Inductive tap_opts := TapGo (foreground : bool) (port threads : Z) | TapExit (code : Z).

Fixpoint tap_options (l : list (Z * list Z)) (fg : bool) (port threads : Z) : tap_opts :=
  match l with
  | [] => TapGo fg port threads
  | (c, arg) :: l =>
      if c =? 102 then tap_options l true port threads
      else if c =? 112 then tap_options l fg (atoi arg) threads
      else if c =? 110 then tap_options l fg port (atoi arg)
      else if c =? 100 then tap_options l fg port threads
      else if c =? 86 then TapExit 0
      else if c =? 104 then TapExit 0
      else TapExit 1
  end.

(** The loop that starts the threads: the handles are stored in arrays of
    MAX_THREADS elements.  The result tells whether both arrays are filled. *)
Definition start_threads (num_threads : Z) : M D bool :=
  r ← for_m 0 num_threads (fun i (_ : unit) =>
    if MAX_THREADS <=? i then stop OutOfBounds else
    e ← t_create true i;
    if negb (e =? 0) then mret (inr tt) else
    e ← t_create false i;
    if negb (e =? 0) then mret (inr tt) else mret (inl tt)) tt;
  match r with inl _ => mret true | inr _ => mret false end.

Definition join_threads (num_threads : Z) : M D bool :=
  r ← for_m 0 num_threads (fun i (_ : unit) =>
    e ← t_join false i;
    if negb (e =? 0) then mret (inr tt) else
    e ← t_join true i;
    if negb (e =? 0) then mret (inr tt) else mret (inl tt)) tt;
  match r with inl _ => mret true | inr _ => mret false end.

(** The exit code of [main]; the parent leaves after [daemonize]. *)
Definition ethtap_main (args : list (Z * list Z)) : M D Z :=
  match tap_options args false PORT 1 with
  | TapExit code => mret code
  | TapGo foreground port num_threads =>
      pid ← (if foreground then mret 0 else t_daemonize);
      if negb (pid =? 0) then mret 0 else
      t ← ethtap_prepare port;
      match t with
      | None => mret 1
      | Some _ =>
          ok ← start_threads num_threads;
          if negb ok then mret 1 else
          ok ← join_threads num_threads;
          mret (if negb ok then 1 else 0)
      end
  end.
End Start.

(** ** The network *)

Section Network.
Context `{CN : NicConsts} {CNOK : NicConstsOk} `{TC : TapConsts}.

(** Node [n] of [nodes] after [ethtap_prepare], listening on port [p]. *)
Definition node_tap (nodes p n : Z) : tap := mk_tap nodes n (take (ETH_ALEN - 1) MAC ++ [u8 n]) p.

(** A message arrives at the node if there is one and the port is the one it listens
    on; the buffer there holds anything. *)
Definition deliver (nodes p : Z) (buf : Z → list Z) (m : message) : list (Z * list Z) :=
  let '(dst, prt, bytes) := m in
  if (1 <=? dst) && (dst <=? nodes) && (prt =? p)
  then (fun f => (dst, f)) <$> (receiver_turn (node_tap nodes p dst) (buf dst) AXIOM_RET_OK bytes).2 else [].

(** The interfaces, with the frame each gets, when a frame comes from that of [a]. *)
Definition network (nodes p a : Z) (sbuf : list Z) (buf : Z → list Z) (frame : list Z) : list (Z * list Z) :=
  concat (deliver nodes p buf <$> (sender_turn (node_tap nodes p a) sbuf (Some frame)).2).

(** An Ethernet of the nodes: the destination address selects the interface. *)
Definition ethernet (nodes a : Z) (frame : list Z) : list (Z * list Z) :=
  if alen frame <? 12 then []
  else if bool_decide (take 5 frame = take 5 MAC) then
    if (1 <=? aget frame 5) && (aget frame 5 <=? nodes) then [(aget frame 5, frame)] else []
  else if bool_decide (take 6 frame = BROADCAST) then (fun n => (n, frame)) <$> filter (fun n => n ≠ a) (seqZ 1 nodes)
  else [].

Lemma memeq_overwrite n bytes buf x : (n <= length bytes)%nat → memeq n (overwrite bytes buf) x = bool_decide (take n bytes = take n x).
Proof. intros H. unfold memeq, overwrite. by rewrite take_app_le. Qed.

Lemma take_overwrite_all bytes buf : take (Z.to_nat (alen bytes)) (overwrite bytes buf) = bytes.
Proof. unfold alen. rewrite Nat2Z.id. apply take_overwrite. Qed.

Lemma aget_overwrite bytes buf i : 0 <= i < alen bytes → aget (overwrite bytes buf) i = aget bytes i.
Proof.
  intros Hi. unfold aget, overwrite, alen in *. destruct (Z.ltb_spec i 0); [lia|]. by rewrite lookup_total_app_l by lia.
Qed.

Lemma take6 (frame : list Z) : 12 <= alen frame → take 6 frame = take 5 frame ++ [aget frame 5].
Proof.
  intros H. unfold alen in H. destruct (lookup_lt_is_Some_2 frame 5 ltac:(lia)) as [x Hx].
  rewrite (take_S_r frame 5 x Hx). f_equal. f_equal. unfold aget. cbn. by rewrite (list_lookup_total_correct _ _ _ Hx).
Qed.

Lemma fits_buffer_idemp bytes : fits_buffer (fits_buffer bytes) = fits_buffer bytes.
Proof. unfold fits_buffer. by rewrite take_take, Nat.min_id. Qed.

(** A frame that reaches node [n]. *)
Lemma deliver_spec nodes buf n frame : 1 <= n <= nodes → nodes < 256 → 12 <= alen frame → fits_buffer frame = frame →
  deliver nodes PORT buf (n, PORT, frame) =
    if bool_decide (take 6 frame = take 5 MAC ++ [n]) || bool_decide (take 6 frame = BROADCAST) then [(n, frame)] else [].
Proof using CNOK.
  intros Hn Hnodes Hlen Hfit. unfold deliver, receiver_turn. rewrite ret_ok_ok, Hfit. cbn [negb].
  rewrite (proj2 (Z.leb_le 1 n)), (proj2 (Z.leb_le n nodes)) by lia. change (PORT =? PORT) with true. cbn [andb].
  destruct (Z.ltb_spec (alen frame) 12); [lia|]. cbn [snd]. unfold alen in Hlen.
  rewrite !memeq_overwrite by (unfold ETH_ALEN; lia). rewrite take_overwrite_all. cbn [mymac node_tap].
  rewrite u8_small by lia. change (take ETH_ALEN (take (ETH_ALEN - 1) MAC ++ [n])) with (take 5 MAC ++ [n]).
  change (take ETH_ALEN BROADCAST) with BROADCAST. change (take ETH_ALEN frame) with (take 6 frame). by destruct (_ || _).
Qed.

Lemma deliver_short nodes p buf dst prt bytes : alen bytes < 12 → deliver nodes p buf (dst, prt, bytes) = [].
Proof using CNOK.
  intros H. unfold deliver, receiver_turn. rewrite ret_ok_ok. cbn [negb].
  assert (Hs : alen (fits_buffer bytes) < 12) by (unfold fits_buffer, alen in *; rewrite length_take; lia).
  rewrite (proj2 (Z.ltb_lt _ _) Hs). by destruct (_ && _).
Qed.

Lemma concat_all_nil {A B} (f : A → list B) l : (∀ x, x ∈ l → f x = []) → concat (f <$> l) = [].
Proof. induction l as [|x l IH]; intros H; [done|]. cbn. rewrite H by set_solver. apply IH. set_solver. Qed.

Lemma sender_sizes t buf frame m : m ∈ (sender_turn t buf (Some frame)).2 → m.1.2 = PORT ∧ m.2 = fits_buffer frame.
Proof.
  unfold sender_turn. cbn [default from_option id]. destruct (_ <? _); [|set_solver]. cbn [snd]. destruct (memeq _ _ MAC).
  - intros ->%list_elem_of_singleton. cbn. by rewrite take_overwrite_all.
  - destruct (memeq _ _ BROADCAST); [|set_solver]. intros (no & -> & _)%list_elem_of_fmap. cbn. by rewrite take_overwrite_all.
Qed.
End Network.


(** C33. When all nodes listen on the default port the nodes are an Ethernet: a frame
    to the address of node [n] appears, as much of it as a buffer of the threads
    takes and otherwise unchanged,
    on the interface of node [n] only; a broadcast appears once on every other
    interface; frames to other addresses, to nodes that do not exist and frames
    shorter than two addresses appear nowhere.  This holds whatever the buffers of
    the threads hold from earlier frames, and when no call fails.  With another
    port given by [-p] nothing ever arrives, since the sender always uses PORT. *)
Theorem ethtap_network `{CN : NicConsts} {CNOK : NicConstsOk} `{TC : TapConsts} nodes p a sbuf buf frame :
  1 <= a <= nodes → nodes < 256 →
  network nodes p a sbuf buf frame = if p =? PORT then ethernet nodes a (fits_buffer frame) else [].
Proof.
  intros Ha Hn. destruct (Z.eqb_spec p PORT) as [->|Hp].
  2:{ apply concat_all_nil. intros [[dst prt] bytes] Hm. apply sender_sizes in Hm as [E _]. cbn in E. subst prt.
      unfold deliver. by rewrite (proj2 (Z.eqb_neq PORT p)), andb_false_r by done. }
  pose proof (fits_buffer_idemp frame) as Hfit. unfold ethernet. destruct (Z.ltb_spec (alen (fits_buffer frame)) 12) as [Hs|Hl].
  - apply concat_all_nil. intros [[dst prt] bytes] Hm. apply sender_sizes in Hm as [_ E]. cbn in E. subst bytes. by apply deliver_short.
  - unfold network, sender_turn. cbn [default from_option id]. revert Hfit Hl. generalize (fits_buffer frame). clear frame. intros frame Hfit Hl.
    destruct (Z.ltb_spec 0 (alen frame)); [|lia]. cbn [snd]. unfold alen in Hl.
    rewrite !memeq_overwrite by (unfold ETH_ALEN; lia). rewrite take_overwrite_all.
    change (ETH_ALEN - 1)%nat with 5%nat. change (take ETH_ALEN frame) with (take 6 frame). change (take ETH_ALEN BROADCAST) with BROADCAST.
    destruct (decide (take 5 frame = take 5 MAC)) as [E|E].
    + rewrite !bool_decide_true by done. rewrite aget_overwrite by (unfold alen, ETH_ALEN; lia). change (Z.of_nat ETH_ALEN - 1) with 5.
      cbn [fmap list_fmap concat]. rewrite app_nil_r. destruct ((1 <=? aget frame 5) && (aget frame 5 <=? nodes)) eqn:Eb.
      * rewrite andb_true_iff, !Z.leb_le in Eb. rewrite deliver_spec by (done || (unfold alen; lia)).
        rewrite bool_decide_true; [done|]. rewrite take6, E by (unfold alen; lia). done.
      * unfold deliver. by rewrite Eb.
    + rewrite !(bool_decide_false (take 5 frame = take 5 MAC)) by done. destruct (decide (take 6 frame = BROADCAST)) as [B|B].
      * rewrite !(bool_decide_true (take 6 frame = BROADCAST)) by done. rewrite <- list_fmap_compose.
        rewrite <- (concat_singletons (fun n => (n, frame))). f_equal. apply list_fmap_ext. intros i no Hno.
        apply list_elem_of_lookup_2, list_elem_of_filter in Hno as [_ Hno]. apply elem_of_seqZ in Hno. cbn [compose].
        rewrite u8_small, deliver_spec by (done || (unfold alen; lia)). rewrite (bool_decide_true (take 6 frame = BROADCAST)) by done. by rewrite orb_true_r.
      * by rewrite !(bool_decide_false (take 6 frame = BROADCAST)).
Qed.

(** The start sets up the node as the network expects it. *)
Lemma prepare_node `{CN : NicConsts} {D} `{TD : TapDev D} p d t d' :
  (∀ d1 d2, match t_node_id (D := D) d1, t_node_id d2 with Ret a _, Ret b _ => a = b | _, _ => True end) →
  ethtap_prepare p d = Ret (Some t) d' → t = node_tap (num_nodes t) p (my_node t).
Proof.
  intros Hid H. unfold ethtap_prepare, mbind, M_bind, mret, M_ret in H.
  destruct (t_axiom_open d) as [[] d1|]; cbn in H; try done. destruct (t_num_nodes d1) as [n d2|]; [|done].
  destruct (t_node_id d2) as [me d3|] eqn:E1; [|done]. destruct (t_bind p d3) as [err d4|]; [|done]. cbn in H.
  destruct (AXIOM_RET_IS_OK err); cbn in H; [|done]. destruct (t_node_id d4) as [id d5|] eqn:E2; [|done].
  specialize (Hid d2 d4). rewrite E1, E2 in Hid. subst id. unfold ethtap_alloc, mbind, M_bind, mret, M_ret in H.
  destruct (t_open d5) as [fd d6|]; [|done]. destruct (fd <? 0); [done|]. destruct (t_set_if fd _ d6) as [e1 d7|]; [|done].
  destruct (e1 <? 0); [by destruct (t_close fd d7)|]. destruct (t_set_hwaddr fd _ d7) as [e2 d8|]; [|done].
  destruct (e2 <? 0); [by destruct (t_close fd d8)|]. cbn in H. destruct (fd <=? 0); [done|]. by injection H as <- <-.
Qed.

(** More than MAX_THREADS threads are stored outside of the arrays. *)
Lemma start_threads_overflow `{CN : NicConsts} n : MAX_THREADS < n →
  let dev : TapDev unit := {| t_open d := Ret 3 d; t_set_if _ _ d := Ret 0 d; t_set_hwaddr _ _ d := Ret 0 d; t_close _ d := Ret tt d;
    t_axiom_open d := Ret true d; t_num_nodes d := Ret 2 d; t_node_id d := Ret 1 d; t_bind p d := Ret p d; t_create _ _ d := Ret 0 d;
    t_join _ _ d := Ret 0 d; t_daemonize d := Ret 0 d |} in
  start_threads n tt = Stuck OutOfBounds tt.
Proof.
  intros Hn dev. unfold start_threads, for_m, mbind, M_bind. replace (n - 0) with (64 + (n - 64)) by lia.
  rewrite seqZ_app by (unfold MAX_THREADS in Hn; lia). change (seqZ 0 64) with (seqZ 0 64).
  rewrite (seqZ_cons (0 + 64)) by (unfold MAX_THREADS in Hn; lia). generalize (seqZ (Z.succ (0 + 64)) (Z.pred (n - 64))). intros l.
  vm_compute. reflexivity.
Qed.

Section Examples.
#[local] Existing Instances nic8 nic8_ok.
#[local] Instance ex_tap : TapConsts := {| AXIOM_LONG_PAYLOAD_MAX_SIZE := 64 |}.

Definition ex_frame (dst : list Z) : list Z := dst ++ replicate 10 1.

(** Of four nodes, node 2 sends to node 3 and to all. *)
Lemma ethtap_network_witness :
  network 4 PORT 2 (replicate 64 0) (fun _ => replicate 64 9) (ex_frame [66; 217; 175; 134; 11; 3]) = [(3, ex_frame [66; 217; 175; 134; 11; 3])] ∧
  fst <$> network 4 PORT 2 (replicate 64 0) (fun _ => []) (ex_frame BROADCAST) = [1; 3; 4].
Proof.
  split.
  - rewrite (ethtap_network 4 PORT 2 (replicate 64 0) (fun _ => replicate 64 9) (ex_frame [66; 217; 175; 134; 11; 3])) by lia. vm_compute. reflexivity.
  - rewrite (ethtap_network 4 PORT 2 (replicate 64 0) (fun _ => []) (ex_frame BROADCAST)) by lia. vm_compute. reflexivity.
Defined.

(** With [-p 7] nothing arrives; a long frame is cut. *)
Example ethtap_other_port : network 4 7 2 [] (fun _ => []) (ex_frame BROADCAST) = [].
Proof. reflexivity. Qed.

Example ethtap_long_frame :
  network 4 PORT 2 [] (fun _ => []) ([66; 217; 175; 134; 11; 3] ++ replicate 70 1) = [(3, [66; 217; 175; 134; 11; 3] ++ replicate 58 1)].
Proof. vm_compute. reflexivity. Qed.
End Examples.
