(* ===== verification/SendRecv.v ===== *)
(** * axiom-send and axiom-recv

    The payload of axiom-send comes from the command line, may be repeated and cut,
    and goes out as one buffer or as up to sixteen pieces; axiom-recv receives into
    one buffer or into pieces of it.  The pieces are a partition of the payload, so
    that the options for them change nothing in what is sent and received.

    The calls of the driver are the classes [SendDev] and [RecvDev].  They are joined by
    a network of packets with their node, port and type, which keeps them until the
    node receives at the port with a call for that type; [axiom_bind] drops what waits
    at its port when the device was opened without [AXIOM_FLAG_NOFLUSH]. *)

From S2P Require Import Prelude Nic RunMsg Text Netperf NetperfSys.

Definition MAX_IOVEC : Z := 16.

(** Limits and codes of the driver's headers. *)
Class MsgConsts := {
  sizeof_long_payload : Z;
  AXIOM_PORT_MAX : Z;
  AXIOM_NODES_MAX : Z;
  AXIOM_RET_NOTREACH : Z;
  AXIOM_RET_NOTAVAIL : Z;
  AXIOM_TYPE_RAW_DATA : Z;
  AXIOM_TYPE_RAW_NEIGHBOUR : Z;
  AXIOM_TYPE_LONG_DATA : Z;
  AXIOM_FLAG_NOFLUSH : Z;
  AXIOM_FLAG_NOBLOCK : Z
}.

(** ** Pieces of a buffer *)

(** [struct iovec]: offset in the payload and length. *)
Abbreviation iovec := (Z * Z)%type.

(** The loop that divides [size] bytes, and the correction of the last piece; both
    programs have it.  [iov] is the array on the stack. *)
Fixpoint iov_loop (fuel : nat) (i offset new_size cnt size : Z) (iov : list iovec) : list iovec :=
  match fuel with
  | O => iov
  | S fuel =>
      if (i <? cnt) && (offset <? size)
      then iov_loop fuel (i + 1) (offset + new_size) new_size cnt size (aset iov i (offset, new_size))
      else iov
  end.

Definition iov_split (cnt size : Z) (iov : list iovec) : list iovec :=
  let new_size := size / cnt in
  let iov := iov_loop (Z.to_nat cnt) 0 0 new_size cnt size iov in
  aset iov (cnt - 1) ((aget iov (cnt - 1)).1, size - new_size * (cnt - 1)).

(** What a call with pieces sends, and where one with pieces puts what it receives. *)
Definition gather (iov : list iovec) (payload : list Z) : list Z :=
  concat ((fun v => field (Z.to_nat v.1) (Z.to_nat v.2) payload) <$> iov).
Fixpoint scatter (iov : list iovec) (msg buf : list Z) : list Z :=
  match iov with
  | [] => buf
  | (off, len) :: iov =>
      scatter iov (drop (Z.to_nat len) msg) (set_field (Z.to_nat off) (take (Z.to_nat len) msg) buf)
  end.

(** ** axiom-send *)

Section Send.
Context `{CN : NicConsts} `{RC : RunConsts} `{PC : PerfConsts} `{MC : MsgConsts}.

Definition AXNP_ANY : Z := Z.lor AXNP_RAW AXNP_LONG.

(** The calls of the driver: any, raw or long message to a node and a port, of a size
    and with a payload, in one buffer or in pieces. *)
Inductive send_kind := KAny | KRaw (type : Z) | KLong.
Class SendDev (D : Type) := {
  x_send : send_kind → Z → Z → Z → list Z → M D Z;
  x_send_iov : send_kind → Z → Z → Z → list (list Z) → M D Z
}.

Section Calls.
Context {D : Type} `{SD : SendDev D}.

Definition axsnd_send (np_type dst port type size : Z) (payload : list Z) : M D Z :=
  if np_type =? AXNP_ANY then x_send KAny dst port size (take (Z.to_nat size) payload)
  else if np_type =? AXNP_RAW then x_send (KRaw type) dst port size (take (Z.to_nat size) payload)
  else if np_type =? AXNP_LONG then x_send KLong dst port size (take (Z.to_nat size) payload)
  else mret AXIOM_RET_ERROR.

Definition pieces (iov : list iovec) (payload : list Z) : list (list Z) :=
  (fun v => field (Z.to_nat v.1) (Z.to_nat v.2) payload) <$> iov.

Definition axsnd_send_iov (np_type dst port type size : Z) (iov : list iovec) (payload : list Z) : M D Z :=
  if np_type =? AXNP_ANY then x_send_iov KAny dst port size (pieces iov payload)
  else if np_type =? AXNP_RAW then x_send_iov (KRaw type) dst port size (pieces iov payload)
  else if np_type =? AXNP_LONG then x_send_iov KLong dst port size (pieces iov payload)
  else mret AXIOM_RET_ERROR.
End Calls.

(** The variables that the options set. *)
Record send_opts := mk_send {
  so_type : Z; so_port : Z; so_dst : option Z; so_neighbour : bool; so_repeat : Z; so_count : Z; so_iovcnt : Z
}.
Definition send0 : send_opts := mk_send AXNP_ANY 1 None false 0 1 0.

Fixpoint word (s : list Z) : list Z :=
  match s with [] => [] | c :: s => if is_space c then [] else c :: word s end.

(** [-t] of both programs. *)
Definition msg_type (arg : list Z) : option Z :=
  match word (skip_spaces arg) with
  | [] => None
  | w => if has_prefix (str "long") w then Some AXNP_LONG
         else if has_prefix (str "raw") w then Some AXNP_RAW
         else if has_prefix (str "any") w then Some AXNP_ANY
         else None
  end.

(** The options as [getopt_long] gives them; [inr] is an exit code.  [scan_float]
    tells whether [sscanf] with %f succeeds. *)
Context (scan_float : list Z → bool).

Definition send_option (c : Z) (arg : list Z) (o : send_opts) : send_opts + Z :=
  if c =? 112 then
    match scan_u8 arg with Some (v, _) => inl (mk_send (so_type o) v (so_dst o) (so_neighbour o) (so_repeat o) (so_count o) (so_iovcnt o)) | None => inr (-1) end
  else if c =? 116 then
    match msg_type arg with Some v => inl (mk_send v (so_port o) (so_dst o) (so_neighbour o) (so_repeat o) (so_count o) (so_iovcnt o)) | None => inr (-1) end
  else if c =? 100 then
    match scan_u8 arg with Some (v, _) => inl (mk_send (so_type o) (so_port o) (Some v) (so_neighbour o) (so_repeat o) (so_count o) (so_iovcnt o)) | None => inr (-1) end
  else if c =? 110 then inl (mk_send (so_type o) (so_port o) (so_dst o) true (so_repeat o) (so_count o) (so_iovcnt o))
  else if c =? 114 then
    match scan_int arg with Some (v, _) => inl (mk_send (so_type o) (so_port o) (so_dst o) (so_neighbour o) v (so_count o) (so_iovcnt o)) | None => inr (-1) end
  else if c =? 99 then
    match scan_int arg with Some (v, _) => inl (mk_send (so_type o) (so_port o) (so_dst o) (so_neighbour o) (so_repeat o) v (so_iovcnt o)) | None => inr (-1) end
  else if c =? 115 then (if scan_float arg then inl o else inr (-1))
  else if c =? 105 then
    match scan_int arg with Some (v, _) => inl (mk_send (so_type o) (so_port o) (so_dst o) (so_neighbour o) (so_repeat o) (so_count o) v) | None => inr (-1) end
  else if c =? 118 then inl o
  else if c =? 86 then inr 0
  else inr (-1).

Fixpoint send_options (l : list (Z * list Z)) (o : send_opts) : send_opts + Z :=
  match l with
  | [] => inl o
  | (c, arg) :: l => match send_option c arg o with inl o => send_options l o | inr e => inr e end
  end.

(** The checks; the port is checked when it was given, and its default passes. *)
Definition send_check (port_given : bool) (o : send_opts) : option Z :=
  if port_given && ((so_port o <? 0) || (AXIOM_PORT_MAX <? so_port o)) then None
  else if so_neighbour o && negb (so_type o =? AXNP_RAW) then None
  else match so_dst o with
  | None => None
  | Some dst =>
      if (dst <? 0) || (AXIOM_NODES_MAX <? dst) then None
      else if (so_iovcnt o <? 0) || (MAX_IOVEC <? so_iovcnt o) then None
      else Some dst
  end.

(** The bytes of the command line, at most as many as the buffer has. *)
Fixpoint read_bytes (args : list (list Z)) : option (list Z) :=
  match args with
  | [] => Some []
  | a :: args => '(v, _) ← scan_u8 a; l ← read_bytes args; Some (v :: l)
  end.
Definition read_payload (args : list (list Z)) : option (list Z) := read_bytes (take (Z.to_nat sizeof_long_payload) args).

(** [-r]: whole copies as long as they fit.  [fuel] bounds the loop. *)
Fixpoint repeat_loop (fuel : nat) (i repeat : Z) (orig payload : list Z) : list Z :=
  match fuel with
  | O => payload
  | S fuel =>
      if (i <? repeat) && (alen payload + alen orig <=? sizeof_long_payload)
      then repeat_loop fuel (i + 1) repeat orig (payload ++ orig) else payload
  end.
Definition repeat_payload (repeat : Z) (payload : list Z) : list Z :=
  if repeat =? 0 then payload else repeat_loop (Z.to_nat sizeof_long_payload) 1 repeat payload payload.

(** The type that is sent and the size limit. *)
Definition clamp_size (np_type size : Z) : Z :=
  if np_type =? AXNP_ANY then (if AXIOM_LONG_PAYLOAD_MAX_SIZE <? size then AXIOM_LONG_PAYLOAD_MAX_SIZE else size)
  else if np_type =? AXNP_RAW then (if AXIOM_RAW_PAYLOAD_MAX_SIZE <? size then AXIOM_RAW_PAYLOAD_MAX_SIZE else size)
  else if np_type =? AXNP_LONG then (if AXIOM_LONG_PAYLOAD_MAX_SIZE <? size then AXIOM_LONG_PAYLOAD_MAX_SIZE else size)
  else size.
Definition wire_type (o : send_opts) : Z :=
  if so_type o =? AXNP_ANY then -1
  else if so_type o =? AXNP_RAW then (if so_neighbour o then AXIOM_TYPE_RAW_NEIGHBOUR else AXIOM_TYPE_RAW_DATA)
  else if so_type o =? AXNP_LONG then AXIOM_TYPE_LONG_DATA
  else AXIOM_TYPE_RAW_DATA.

(** The loop over the messages; [true] when all are counted as sent. *)
Definition send_loop {D} `{SD : SendDev D} (o : send_opts) (dst size : Z) (payload : list Z) (iov0 : list iovec) : M D bool :=
  let cnt := if size <? so_iovcnt o then 0 else so_iovcnt o in
  let iov := if 0 <? cnt then iov_split cnt size iov0 else iov0 in
  r ← for_m 0 (so_count o) (fun seq (_ : unit) =>
    ret ← (if 0 <? cnt then axsnd_send_iov (so_type o) dst (so_port o) (wire_type o) size (take (Z.to_nat cnt) iov) payload
           else axsnd_send (so_type o) dst (so_port o) (wire_type o) size payload);
    if negb (AXIOM_RET_IS_OK ret) && negb (ret =? AXIOM_RET_NOTREACH) then mret (inr tt) else mret (inl tt)) tt;
  mret (match r with inl _ => true | inr _ => false end).

(** [main]: an exit code before anything is sent, or the loop. *)
Definition send_main {D} `{SD : SendDev D} (opts : list (Z * list Z)) (args : list (list Z)) (dev : bool) (iov0 : list iovec) : M D Z :=
  match send_options opts send0 with
  | inr code => mret code
  | inl o =>
      match send_check (existsb (fun a => a.1 =? 112) opts) o with
      | None => mret (-1)
      | Some dst =>
          match read_payload args with
          | None | Some [] => mret (-1)
          | Some payload =>
              let payload := repeat_payload (so_repeat o) payload in
              if negb dev then mret (-1) else
              let size := clamp_size (so_type o) (alen payload) in
              send_loop o dst size payload iov0 ;; mret 0
          end
      end
  end.
End Send.

(** ** axiom-recv *)

Section Recv.
Context `{CN : NicConsts} `{RC : RunConsts} `{PC : PerfConsts} `{MC : MsgConsts}.

(** The calls: [r_open] takes the flags and tells whether the device opens, [r_bind] is
    [axiom_bind]; [r_recv] with the size of the buffer gives the result, the type and
    the bytes; [r_show] is the output of a message. *)
Inductive recv_kind := RAny | RRaw | RLong.
Class RecvDev (D : Type) := {
  r_open : Z → M D bool;
  r_bind : Z → M D Z;
  r_recv : recv_kind → Z → M D (Z * Z * list Z);
  r_sleep : M D unit;
  r_show : Z → Z → list Z → M D unit
}.

Context {D : Type} `{RD : RecvDev D}.

(** Result, type and size, and the buffer, into which [put] stores the bytes. *)
Definition recv_with (np_type size type : Z) (buf : list Z) (put : list Z → list Z → list Z) : M D (Z * Z * Z * list Z) :=
  if np_type =? AXNP_ANY then
    r ← r_recv RAny size;
    let '(ret, t, bytes) := r in mret (ret, t, alen bytes, put bytes buf)
  else if np_type =? AXNP_RAW then
    r ← r_recv RRaw (if AXIOM_RAW_PAYLOAD_MAX_SIZE <? size then AXIOM_RAW_PAYLOAD_MAX_SIZE else size);
    let '(ret, t, bytes) := r in mret (ret, t, alen bytes, put bytes buf)
  else if np_type =? AXNP_LONG then
    r ← r_recv RLong size;
    let '(ret, t, bytes) := r in mret (ret, AXIOM_TYPE_LONG_DATA, alen bytes, put bytes buf)
  else mret (AXIOM_RET_ERROR, type, size, buf).

Definition axrcv_recv (np_type size type : Z) (buf : list Z) : M D (Z * Z * Z * list Z) :=
  recv_with np_type size type buf overwrite.
Definition axrcv_recv_iov (np_type size type : Z) (iov : list iovec) (buf : list Z) : M D (Z * Z * Z * list Z) :=
  recv_with np_type size type buf (scatter iov).

Record recv_opts := mk_recv {
  ro_type : Z; ro_port : Z; ro_once : bool; ro_noblock : bool; ro_flush : bool; ro_iovcnt : Z; ro_max : Z
}.
Definition recv0 : recv_opts := mk_recv AXNP_ANY 1 false false false 0 sizeof_long_payload.

Definition recv_option (scan_float : list Z → bool) (c : Z) (arg : list Z) (o : recv_opts) : recv_opts + Z :=
  if c =? 111 then inl (mk_recv (ro_type o) (ro_port o) true (ro_noblock o) (ro_flush o) (ro_iovcnt o) (ro_max o))
  else if c =? 116 then
    match msg_type arg with Some v => inl (mk_recv v (ro_port o) (ro_once o) (ro_noblock o) (ro_flush o) (ro_iovcnt o) (ro_max o)) | None => inr (-1) end
  else if c =? 112 then
    match scan_u8 arg with Some (v, _) => inl (mk_recv (ro_type o) v (ro_once o) (ro_noblock o) (ro_flush o) (ro_iovcnt o) (ro_max o)) | None => inr (-1) end
  else if c =? 110 then inl (mk_recv (ro_type o) (ro_port o) (ro_once o) true (ro_flush o) (ro_iovcnt o) (ro_max o))
  else if c =? 102 then inl (mk_recv (ro_type o) (ro_port o) (ro_once o) (ro_noblock o) true (ro_iovcnt o) (ro_max o))
  else if c =? 115 then (if scan_float arg then inl o else inr (-1))
  else if c =? 105 then
    match scan_int arg with Some (v, _) => inl (mk_recv (ro_type o) (ro_port o) (ro_once o) (ro_noblock o) (ro_flush o) v (ro_max o)) | None => inr (-1) end
  else if c =? 109 then
    match scan_int arg with Some (v, _) => inl (mk_recv (ro_type o) (ro_port o) (ro_once o) (ro_noblock o) (ro_flush o) (ro_iovcnt o) v) | None => inr (-1) end
  else if c =? 118 then inl o
  else if c =? 86 then inr 0
  else inr (-1).

Fixpoint recv_options (scan_float : list Z → bool) (l : list (Z * list Z)) (o : recv_opts) : recv_opts + Z :=
  match l with
  | [] => inl o
  | (c, arg) :: l => match recv_option scan_float c arg o with inl o => recv_options scan_float l o | inr e => inr e end
  end.

(** The flags the device is opened with. *)
Definition recv_flags (o : recv_opts) : Z :=
  let flags := if negb (ro_flush o) then Z.lor 0 AXIOM_FLAG_NOFLUSH else 0 in
  if ro_noblock o then Z.lor flags AXIOM_FLAG_NOBLOCK else flags.

(** The number of pieces that is used. *)
Definition recv_pieces (o : recv_opts) : Z := if ro_max o <? ro_iovcnt o then 0 else ro_iovcnt o.

(** One turn of the loop: type, buffer and number of messages; a [continue] also goes
    to the condition [!once]. *)
Definition recv_turn (o : recv_opts) (iov : list iovec) (st : Z * list Z * Z) : M D ((Z * list Z * Z) + unit) :=
  let '(type, buf, seq) := st in
  let cnt := recv_pieces o in
  r ← (if 0 <? cnt then axrcv_recv_iov (ro_type o) (u64 (ro_max o)) type (take (Z.to_nat cnt) iov) buf
       else axrcv_recv (ro_type o) (u64 (ro_max o)) type buf);
  let '(ret, type, size, buf) := r in
  if negb (AXIOM_RET_IS_OK ret) then
    if ret =? AXIOM_RET_NOTAVAIL then
      r_sleep ;; mret (if ro_once o then inr tt else inl (type, buf, seq))
    else mret (inr tt)
  else
    r_show (seq + 1) type (take (Z.to_nat size) buf) ;;
    mret (if ro_once o then inr tt else inl (type, buf, seq + 1)).

Definition recv_loop (fuel : nat) (o : recv_opts) (iov0 : list iovec) (st : Z * list Z * Z) : M D unit :=
  let cnt := recv_pieces o in
  let iov := if 0 <? cnt then iov_split cnt (ro_max o) iov0 else iov0 in
  loop fuel (recv_turn o iov) st.

(** [main]; [type] and [buf] are what the stack holds. *)
Definition recv_main (fuel : nat) (scan_float : list Z → bool) (opts : list (Z * list Z))
    (iov0 : list iovec) (type : Z) (buf : list Z) : M D Z :=
  match recv_options scan_float opts recv0 with
  | inr code => mret code
  | inl o =>
      if existsb (fun a => a.1 =? 112) opts && ((ro_port o <? 0) || (255 <? ro_port o)) then mret (-1)
      else
        opened ← r_open (recv_flags o);
        if negb opened then mret (-1)
        else if (ro_iovcnt o <? 0) || (MAX_IOVEC <? ro_iovcnt o) then mret (-1)
        else
          err ← r_bind (ro_port o);
          if negb (err =? ro_port o) then mret (-1)
          else recv_loop fuel o iov0 (type, buf, 0) ;; mret 0
  end.
End Recv.

(** ** The pieces are a partition *)

Section Pieces.

(** Pieces that follow each other from [off] to [stop]. *)
Fixpoint chain (off : Z) (iov : list iovec) (last : Z) : Prop :=
  match iov with
  | [] => off = last
  | (o, l) :: iov => o = off ∧ 1 <= l ∧ chain (off + l) iov last
  end.

Lemma chain_le off iov last : chain off iov last → off <= last.
Proof. revert off. induction iov as [|[o l] iov IH]; intros off H; cbn in H; [lia|]. destruct H as (_ & Hl & H). apply IH in H. lia. Qed.

Lemma chain_app off iov1 mid iov2 last : chain off iov1 mid → chain mid iov2 last → chain off (iov1 ++ iov2) last.
Proof. revert off. induction iov1 as [|[o l] iov1 IH]; intros off H1 H2; cbn in *; [by subst|]. naive_solver. Qed.

Lemma gather_chain off iov last payload : 0 <= off → chain off iov last →
  gather iov payload = field (Z.to_nat off) (Z.to_nat (last - off)) payload.
Proof.
  revert off. induction iov as [|[o l] iov IH]; intros off Ho H; cbn in H.
  - subst. rewrite Z.sub_diag. unfold gather, field. cbn. done.
  - destruct H as (-> & Hl & H). pose proof (chain_le _ _ _ H) as Hle. unfold gather in *. cbn [fmap list_fmap concat fst snd].
    rewrite (IH (off + l)) by (lia || done). unfold field.
    replace (Z.to_nat (last - off)) with (Z.to_nat l + Z.to_nat (last - (off + l)))%nat by lia.
    rewrite <- take_take_drop. f_equal. rewrite drop_drop. do 2 f_equal. lia.
Qed.

Lemma set_field_nil off b : set_field off [] b = b.
Proof. unfold set_field. cbn. rewrite Nat.add_0_r. apply take_drop. Qed.

(** A second piece behind the first. *)
Lemma set_field_app off v w b : (off + length v + length w <= length b)%nat →
  set_field (off + length v) w (set_field off v b) = set_field off (v ++ w) b.
Proof.
  intros H. unfold set_field. assert (Ht : length (take off b) = off) by (rewrite length_take; lia).
  rewrite !(assoc_L (++)). rewrite take_app_length' by (rewrite length_app; lia). f_equal.
  rewrite length_app, drop_app_ge by (rewrite length_app, Ht; lia). rewrite length_app, Ht, drop_drop. f_equal. lia.
Qed.

Lemma scatter_chain off iov last msg buf : 0 <= off → chain off iov last → alen msg <= last - off → last <= alen buf →
  scatter iov msg buf = set_field (Z.to_nat off) msg buf.
Proof.
  unfold alen. revert off msg buf. induction iov as [|[o l] iov IH]; intros off msg buf Ho H Hm Hb; cbn in H.
  - destruct msg; [|cbn in Hm; lia]. cbn. by rewrite set_field_nil.
  - destruct H as (-> & Hl & H). pose proof (chain_le _ _ _ H) as Hle. cbn [scatter].
    set (v := take (Z.to_nat l) msg). set (w := drop (Z.to_nat l) msg).
    assert (Hv : length v = Nat.min (Z.to_nat l) (length msg)) by apply length_take.
    assert (Hw : length w = (length msg - Z.to_nat l)%nat) by apply length_drop.
    assert (Hvw : v ++ w = msg) by apply take_drop.
    assert (Hlen : length (set_field (Z.to_nat off) v buf) = length buf).
    { unfold set_field. rewrite !length_app, length_take, length_drop. lia. }
    rewrite (IH (off + l)) by (rewrite ?Hlen; lia || done). rewrite <- Hvw. destruct (decide (length msg <= Z.to_nat l)%nat).
    + assert (w = []) as -> by (apply length_zero_iff_nil; lia). by rewrite set_field_nil, app_nil_r.
    + rewrite <- set_field_app by lia. f_equal. lia.
Qed.

Lemma chain_snoc off iov o l last : chain off (iov ++ [(o, l)]) last → chain off iov o ∧ o + l = last.
Proof.
  revert off. induction iov as [|[o1 l1] iov IH]; intros off H; cbn in *; [by destruct H as (-> & _ & ->)|].
  destruct H as (-> & ? & H). apply IH in H as [? ?]. done.
Qed.

(** The loop writes the pieces one after the other. *)
Lemma iov_loop_spec fuel i q cnt size iov : 0 <= i <= cnt → cnt <= alen iov → 1 <= q → cnt * q <= size → cnt <= i + Z.of_nat fuel →
  chain 0 (take (Z.to_nat i) iov) (i * q) → Forall (fun v => v.2 = q) (take (Z.to_nat i) iov) →
  let r := iov_loop fuel i (i * q) q cnt size iov in
  chain 0 (take (Z.to_nat cnt) r) (cnt * q) ∧ Forall (fun v => v.2 = q) (take (Z.to_nat cnt) r) ∧ length r = length iov.
Proof.
  unfold alen. revert i iov. induction fuel as [|fuel IH]; intros i iov Hi Hc Hq Hs Hf Hch Hall; cbn [iov_loop].
  - assert (i = cnt) as -> by lia. done.
  - destruct (Z.ltb_spec i cnt); [|assert (i = cnt) as -> by lia; done]. pose proof (Z.mul_le_mono_nonneg_r (i + 1) cnt q ltac:(lia) ltac:(lia)).
    destruct (Z.ltb_spec (i * q) size); [|lia]. cbn [andb].
    replace (i * q + q) with ((i + 1) * q) by lia. rewrite <- (length_aset iov i (i * q, q)).
    assert (Hlk : aset iov i (i * q, q) !! Z.to_nat i = Some (i * q, q)).
    { unfold aset. destruct (Z.ltb_spec i 0); [lia|]. apply list_lookup_insert_eq. lia. }
    assert (Hpre : take (Z.to_nat (i + 1)) (aset iov i (i * q, q)) = take (Z.to_nat i) iov ++ [(i * q, q)]).
    { replace (Z.to_nat (i + 1)) with (S (Z.to_nat i)) by lia. rewrite (take_S_r _ _ _ Hlk). f_equal.
      unfold aset. destruct (Z.ltb_spec i 0); [lia|]. by rewrite take_insert_ge by lia. }
    apply IH; try lia; rewrite ?length_aset, ?Hpre; try lia.
    + apply chain_app with (i * q); [done|]. cbn. lia.
    + apply Forall_app. split; [done|]. by apply Forall_singleton.
Qed.

Lemma iov_split_chain cnt size iov : 1 <= cnt <= alen iov → cnt <= size → chain 0 (take (Z.to_nat cnt) (iov_split cnt size iov)) size.
Proof.
  intros Hc Hs. unfold iov_split. set (q := size / cnt).
  assert (Hq : 1 <= q ∧ cnt * q <= size).
  { unfold q. pose proof (Z.mul_div_le size cnt). split; [|lia]. apply Z.div_le_lower_bound; lia. }
  destruct Hq as [Hq Hqs].
  destruct (iov_loop_spec (Z.to_nat cnt) 0 q cnt size iov ltac:(lia) ltac:(lia) Hq Hqs ltac:(lia) eq_refl (Forall_nil_2 _)) as (Hch & Hall & Hlen).
  change (0 * q) with 0 in Hch, Hall, Hlen. set (r := iov_loop (Z.to_nat cnt) 0 0 q cnt size iov) in *. clearbody r.
  unfold alen in Hc. destruct (lookup_lt_is_Some_2 r (Z.to_nat (cnt - 1)) ltac:(lia)) as [[o l] Hlast].
  assert (Hget : aget r (cnt - 1) = (o, l)).
  { unfold aget. destruct (Z.ltb_spec (cnt - 1) 0); [lia|]. by apply list_lookup_total_correct. }
  rewrite Hget. cbn [fst]. replace (Z.to_nat cnt) with (S (Z.to_nat (cnt - 1))) in * by lia.
  rewrite (take_S_r _ _ _ Hlast) in Hch, Hall. apply chain_snoc in Hch as [Hch He].
  apply Forall_app in Hall as [_ Hl]. rewrite Forall_singleton in Hl. cbn in Hl. subst l.
  assert (Hset : aset r (cnt - 1) (o, size - q * (cnt - 1)) !! Z.to_nat (cnt - 1) = Some (o, size - q * (cnt - 1))).
  { unfold aset. destruct (Z.ltb_spec (cnt - 1) 0); [lia|]. apply list_lookup_insert_eq. lia. }
  rewrite (take_S_r _ _ _ Hset). unfold aset at 1. destruct (Z.ltb_spec (cnt - 1) 0); [lia|]. rewrite take_insert_ge by lia.
  eapply chain_app; [exact Hch|]. cbn. nia.
Qed.

(** So sending pieces sends the buffer, and receiving into pieces fills it. *)
Lemma gather_split cnt size iov payload : 1 <= cnt <= alen iov → cnt <= size →
  gather (take (Z.to_nat cnt) (iov_split cnt size iov)) payload = take (Z.to_nat size) payload.
Proof.
  intros Hc Hs. rewrite (gather_chain 0 _ size) by (lia || by apply iov_split_chain). rewrite Z.sub_0_r. unfold field. by rewrite drop_0.
Qed.
Lemma scatter_split cnt size iov msg buf : 1 <= cnt <= alen iov → cnt <= size → alen msg <= size → size <= alen buf →
  scatter (take (Z.to_nat cnt) (iov_split cnt size iov)) msg buf = overwrite msg buf.
Proof.
  intros Hc Hs Hm Hb. rewrite (scatter_chain 0 _ size) by (lia || by apply iov_split_chain). unfold set_field, overwrite. done.
Qed.
End Pieces.

(** ** With and without pieces *)

(** The documented behaviour of the calls with pieces: they send the concatenation,
    and no reception is longer than the buffer it was given. *)
Class SendDevOk (D : Type) `{SendDev D} := {
  send_iov_concat : ∀ k dst port size ps d, x_send_iov k dst port size ps d = x_send k dst port size (concat ps) d
}.
Class RecvDevOk (D : Type) `{RecvDev D} := {
  recv_fits : ∀ k n d ret t bytes d', r_recv k n d = Ret (ret, t, bytes) d' → alen bytes <= Z.max 0 n
}.

Definition no_send_pieces (o : send_opts) : send_opts :=
  mk_send (so_type o) (so_port o) (so_dst o) (so_neighbour o) (so_repeat o) (so_count o) 0.
Definition no_recv_pieces (o : recv_opts) : recv_opts :=
  mk_recv (ro_type o) (ro_port o) (ro_once o) (ro_noblock o) (ro_flush o) 0 (ro_max o).

Lemma for_list_ext {D S R} l (f g : Z → S → M D (S + R)) s d : (∀ i s d, f i s d = g i s d) → for_list l f s d = for_list l g s d.
Proof.
  intros H. revert s d. induction l as [|i l IH]; intros s d; [done|]. cbn. unfold mbind, M_bind. rewrite H.
  destruct (g i s d) as [[s'|x] d'|]; [apply IH|done|done].
Qed.

Section Equivalence.
Context `{CN : NicConsts} `{RC : RunConsts} `{PC : PerfConsts} `{MC : MsgConsts}.

Lemma send_iov_eq {D} `{SD : SendDev D} {SDOK : SendDevOk D} np_type dst port type size cnt iov payload (d : D) :
  1 <= cnt <= alen iov → cnt <= size →
  axsnd_send_iov np_type dst port type size (take (Z.to_nat cnt) (iov_split cnt size iov)) payload d =
  axsnd_send np_type dst port type size payload d.
Proof.
  intros Hc Hs. unfold axsnd_send_iov, axsnd_send. pose proof (gather_split cnt size iov payload Hc Hs) as Hg. unfold gather in Hg.
  unfold pieces. by repeat (case_match; [rewrite send_iov_concat, Hg; done|]).
Qed.

Lemma recv_iov_eq {D} `{RD : RecvDev D} {RDOK : RecvDevOk D} np_type size type cnt iov buf (d : D) :
  1 <= cnt <= alen iov → cnt <= size → size <= alen buf →
  axrcv_recv_iov np_type size type (take (Z.to_nat cnt) (iov_split cnt size iov)) buf d = axrcv_recv np_type size type buf d.
Proof.
  intros Hc Hs Hb. unfold axrcv_recv_iov, axrcv_recv, recv_with, mbind, M_bind.
  assert (H : ∀ k n, n <= size → ∀ ret t bytes d', r_recv k n d = Ret (ret, t, bytes) d' →
    scatter (take (Z.to_nat cnt) (iov_split cnt size iov)) bytes buf = overwrite bytes buf).
  { intros k n Hn ret t bytes d' E. apply recv_fits in E. apply scatter_split; lia. }
  assert (Hraw : (if AXIOM_RAW_PAYLOAD_MAX_SIZE <? size then AXIOM_RAW_PAYLOAD_MAX_SIZE else size) <= size).
  { destruct (Z.ltb_spec AXIOM_RAW_PAYLOAD_MAX_SIZE size); lia. }
  destruct (np_type =? AXNP_ANY); [|destruct (np_type =? AXNP_RAW); [|destruct (np_type =? AXNP_LONG); [|done]]].
  - destruct (r_recv RAny size d) as [[[ret t] bytes] d'|] eqn:E; [|done]. by rewrite (H _ _ (Z.le_refl size) _ _ _ _ E).
  - destruct (r_recv RRaw _ d) as [[[ret t] bytes] d'|] eqn:E; [|done]. by rewrite (H _ _ Hraw _ _ _ _ E).
  - destruct (r_recv RLong size d) as [[[ret t] bytes] d'|] eqn:E; [|done]. by rewrite (H _ _ (Z.le_refl size) _ _ _ _ E).
Qed.

Lemma send_loop_eq {D} `{SD : SendDev D} {SDOK : SendDevOk D} o dst size payload iov0 (d : D) :
  so_iovcnt o <= alen iov0 → send_loop o dst size payload iov0 d = send_loop (no_send_pieces o) dst size payload iov0 d.
Proof.
  intros Hc. unfold send_loop, for_m, mbind, M_bind. cbn [so_iovcnt no_send_pieces so_type so_port so_count].
  assert (Hz : (0 <? (if size <? 0 then 0 else 0)) = false) by (by destruct (size <? 0)). rewrite Hz.
  destruct (Z.ltb_spec size (so_iovcnt o)); [done|]. destruct (Z.ltb_spec 0 (so_iovcnt o)); [|done].
  erewrite for_list_ext; [done|]. intros i s d1. cbn. rewrite send_iov_eq by lia. done.
Qed.

Lemma recv_turn_eq {D} `{RD : RecvDev D} {RDOK : RecvDevOk D} o iov0 type buf seq (d : D) :
  0 <= ro_max o < 2 ^ 64 → ro_max o <= alen buf → ro_iovcnt o <= alen iov0 →
  recv_turn o (if 0 <? recv_pieces o then iov_split (recv_pieces o) (ro_max o) iov0 else iov0) (type, buf, seq) d =
  recv_turn (no_recv_pieces o) iov0 (type, buf, seq) d.
Proof.
  intros Hm Hb Hc. unfold recv_turn, mbind, M_bind, recv_pieces. cbn [ro_iovcnt no_recv_pieces ro_type ro_max ro_once].
  rewrite u64_small by done. assert (Hz : (0 <? (if ro_max o <? 0 then 0 else 0)) = false) by (by destruct (ro_max o <? 0)). rewrite Hz.
  destruct (Z.ltb_spec (ro_max o) (ro_iovcnt o)); [done|]. destruct (Z.ltb_spec 0 (ro_iovcnt o)); [|done]. by rewrite recv_iov_eq by lia.
Qed.

(** The buffer keeps its length. *)
Lemma recv_turn_buf {D} `{RD : RecvDev D} {RDOK : RecvDevOk D} o iov type buf seq (d : D) type' buf' seq' d' :
  0 <= ro_max o < 2 ^ 64 → ro_max o <= alen buf → recv_pieces o = 0 →
  recv_turn o iov (type, buf, seq) d = Ret (inl (type', buf', seq')) d' → alen buf' = alen buf.
Proof.
  intros Hm Hb Hp. unfold recv_turn, mbind, M_bind. rewrite Hp, u64_small by done. cbn [Z.ltb Z.compare].
  unfold axrcv_recv, recv_with, mbind, M_bind, mret, M_ret.
  assert (Hlen : ∀ k n ret t bytes d1, n <= ro_max o → r_recv k n d = Ret (ret, t, bytes) d1 → alen (overwrite bytes buf) = alen buf).
  { intros k n ret t bytes d1 Hn E. apply recv_fits in E. unfold alen in *. rewrite length_overwrite; lia. }
  assert (Hraw : (if AXIOM_RAW_PAYLOAD_MAX_SIZE <? ro_max o then AXIOM_RAW_PAYLOAD_MAX_SIZE else ro_max o) <= ro_max o).
  { destruct (Z.ltb_spec AXIOM_RAW_PAYLOAD_MAX_SIZE (ro_max o)); lia. }
  assert (Hrest : ∀ ret t n b (dd : D), (let '(ret, type, size, buf) := (ret, t, n, b) in
      if negb (AXIOM_RET_IS_OK ret) then
        if ret =? AXIOM_RET_NOTAVAIL then r_sleep ;; mret (if ro_once o then inr tt else inl (type, buf, seq)) else mret (inr tt)
      else r_show (seq + 1) type (take (Z.to_nat size) buf) ;; mret (if ro_once o then inr tt else inl (type, buf, seq + 1))) dd =
      Ret (inl (type', buf', seq')) d' → buf' = b).
  { intros ret t n b dd. unfold mbind, M_bind, mret, M_ret. cbn. destruct (AXIOM_RET_IS_OK ret); cbn.
    - destruct (r_show _ _ _ dd); [|done]. destruct (ro_once o); [done|]. by intros [= _ -> _ _].
    - destruct (ret =? _); [|done]. destruct (r_sleep dd); [|done]. destruct (ro_once o); [done|]. by intros [= _ -> _ _]. }
  destruct (ro_type o =? AXNP_ANY); [|destruct (ro_type o =? AXNP_RAW); [|destruct (ro_type o =? AXNP_LONG)]].
  - destruct (r_recv RAny _ d) as [[[ret t] bytes] d1|] eqn:E; [|done]. intros H. rewrite (Hrest _ _ _ _ _ H). eapply Hlen; [|exact E]. lia.
  - destruct (r_recv RRaw _ d) as [[[ret t] bytes] d1|] eqn:E; [|done]. intros H. rewrite (Hrest _ _ _ _ _ H). eapply Hlen; [|exact E]. exact Hraw.
  - destruct (r_recv RLong _ d) as [[[ret t] bytes] d1|] eqn:E; [|done]. intros H. rewrite (Hrest _ _ _ _ _ H). eapply Hlen; [|exact E]. lia.
  - intros H. by rewrite (Hrest _ _ _ _ _ H).
Qed.

Lemma recv_loop_eq {D} `{RD : RecvDev D} {RDOK : RecvDevOk D} fuel o iov0 type buf seq (d : D) :
  0 <= ro_max o < 2 ^ 64 → ro_max o <= alen buf → ro_iovcnt o <= alen iov0 →
  recv_loop fuel o iov0 (type, buf, seq) d = recv_loop fuel (no_recv_pieces o) iov0 (type, buf, seq) d.
Proof.
  intros Hm Hb Hc. unfold recv_loop.
  assert (Hz : recv_pieces (no_recv_pieces o) = 0) by (unfold recv_pieces; cbn; by destruct (ro_max o <? 0)).
  rewrite Hz. change (0 <? 0) with false. cbn iota.
  revert type buf seq d Hb. induction fuel as [|fuel IH]; intros type buf seq d Hb; [done|]. cbn [loop]. unfold mbind, M_bind.
  rewrite recv_turn_eq by done. destruct (recv_turn (no_recv_pieces o) iov0 (type, buf, seq) d) as [[[[type' buf'] seq']|x] d'|] eqn:E; [|done|done].
  apply IH. apply recv_turn_buf in E; [|done|done|done]. lia.
Qed.
End Equivalence.

(** The option [-i] of axiom-send: dividing the payload into pieces, up to sixteen,
    changes nothing in the messages that are sent nor in the results. *)
Theorem send_pieces_same `{CN : NicConsts} `{RC : RunConsts} `{PC : PerfConsts} `{MC : MsgConsts} {D} `{SD : SendDev D} {SDOK : SendDevOk D}
    port_given o dst size payload iov0 (d : D) :
  send_check port_given o = Some dst → alen iov0 = MAX_IOVEC →
  send_loop o dst size payload iov0 d = send_loop (no_send_pieces o) dst size payload iov0 d.
Proof.
  intros H Hl. apply send_loop_eq. unfold send_check in H. destruct (_ && _); [done|]. destruct (_ && negb _); [done|].
  destruct (so_dst o); [|done]. destruct (_ || _); [done|]. destruct ((so_iovcnt o <? 0) || (MAX_IOVEC <? so_iovcnt o)) eqn:E; [done|].
  apply orb_false_iff in E as [_ E]. apply Z.ltb_ge in E. lia.
Qed.

(** The same for axiom-recv and its whole loop, when the maximal payload is not larger
    than the buffer. *)
Theorem recv_pieces_same `{CN : NicConsts} `{RC : RunConsts} `{PC : PerfConsts} `{MC : MsgConsts} {D} `{RD : RecvDev D} {RDOK : RecvDevOk D}
    fuel o iov0 type buf seq (d : D) :
  alen buf = sizeof_long_payload → sizeof_long_payload < 2 ^ 64 → 0 <= ro_max o <= sizeof_long_payload →
  0 <= ro_iovcnt o <= MAX_IOVEC → alen iov0 = MAX_IOVEC →
  recv_loop fuel o iov0 (type, buf, seq) d = recv_loop fuel (no_recv_pieces o) iov0 (type, buf, seq) d.
Proof. intros. apply recv_loop_eq; lia. Qed.

(** ** From one program to the other *)

Section Payload.
Context `{CN : NicConsts} `{RC : RunConsts} `{PC : PerfConsts} `{MC : MsgConsts}.

(** How many copies [-r] makes. *)
Definition copies (repeat len : Z) : Z := Z.max 1 (Z.min repeat (sizeof_long_payload / len)).

Lemma repeat_loop_spec fuel i r orig k : 0 < alen orig → 1 <= i → i = Z.of_nat k → i * alen orig <= sizeof_long_payload →
  sizeof_long_payload - i * alen orig < Z.of_nat fuel * alen orig →
  repeat_loop fuel i r orig (concat (replicate k orig)) = concat (replicate (Z.to_nat (Z.max i (Z.min r (sizeof_long_payload / alen orig)))) orig).
Proof.
  revert i k. induction fuel as [|fuel IH]; intros i k Ho Hi Hk Hfit Hf; [lia|]. cbn [repeat_loop].
  assert (Hlen : alen (concat (replicate k orig)) = i * alen orig).
  { subst i. clear. unfold alen. induction k as [|k IH]; [done|]. cbn [replicate concat]. rewrite length_app. lia. }
  rewrite Hlen. set (q := sizeof_long_payload / alen orig).
  pose proof (Z.mul_div_le sizeof_long_payload (alen orig) Ho) as Hq1. pose proof (Z.mul_succ_div_gt sizeof_long_payload (alen orig) Ho) as Hq2. fold q in Hq1, Hq2.
  destruct (Z.ltb_spec i r) as [Hr|Hr]; cbn [andb].
  - destruct (Z.leb_spec (i * alen orig + alen orig) sizeof_long_payload) as [Hs|Hs].
    + replace (concat (replicate k orig) ++ orig) with (concat (replicate (S k) orig)).
      2: { rewrite replicate_S_end, concat_app. cbn. by rewrite app_nil_r. }
      rewrite (IH (i + 1) (S k)) by lia. do 2 f_equal. fold q.
      assert (i + 1 <= q) by (apply Z.div_le_lower_bound; lia). lia.
    + assert (i <= q) by (apply Z.div_le_lower_bound; lia). assert (q < i + 1) by (apply Z.div_lt_upper_bound; lia).
      replace (Z.to_nat (Z.max i (Z.min r q))) with k by lia. done.
  - replace (Z.to_nat (Z.max i (Z.min r q))) with k by lia. done.
Qed.

Lemma repeat_payload_spec r p : 0 < alen p <= sizeof_long_payload →
  repeat_payload r p = concat (replicate (Z.to_nat (copies r (alen p))) p).
Proof.
  intros Hp. unfold repeat_payload, copies. destruct (Z.eqb_spec r 0) as [->|].
  - assert (0 <= sizeof_long_payload / alen p) by (apply Z.div_pos; lia).
    replace (Z.to_nat (Z.max 1 (Z.min 0 (sizeof_long_payload / alen p)))) with 1%nat by lia. cbn. by rewrite app_nil_r.
  - rewrite <- (repeat_loop_spec (Z.to_nat sizeof_long_payload) 1 r p 1) by (lia || nia). cbn. by rewrite app_nil_r.
Qed.
End Payload.

(** ** What the options say *)

Section Said.
Context `{CN : NicConsts} `{RC : RunConsts} `{PC : PerfConsts} `{MC : MsgConsts}.

(** The value of the last option [c], read by [f]. *)
Definition said {A} (c : Z) (f : list Z → option A) (d : A) (l : list (Z * list Z)) : A :=
  foldl (fun a v => if v.1 =? c then default a (f v.2) else a) d l.
Definition given (c : Z) (l : list (Z * list Z)) : bool := existsb (fun v => v.1 =? c) l.
Definition num {A} (f : list Z → option (Z * A)) (arg : list Z) : option Z := fst <$> f arg.

Record send_says (o0 : send_opts) (l : list (Z * list Z)) (o : send_opts) : Prop := {
  ss_type : so_type o = said 116 msg_type (so_type o0) l;
  ss_port : so_port o = said 112 (num scan_u8) (so_port o0) l;
  ss_dst : so_dst o = said 100 (fun arg => Some <$> num scan_u8 arg) (so_dst o0) l;
  ss_neighbour : so_neighbour o = so_neighbour o0 || given 110 l;
  ss_repeat : so_repeat o = said 114 (num scan_int) (so_repeat o0) l;
  ss_count : so_count o = said 99 (num scan_int) (so_count o0) l
}.

Record recv_says (o0 : recv_opts) (l : list (Z * list Z)) (o : recv_opts) : Prop := {
  rs_type : ro_type o = said 116 msg_type (ro_type o0) l;
  rs_port : ro_port o = said 112 (num scan_u8) (ro_port o0) l;
  rs_once : ro_once o = ro_once o0 || given 111 l;
  rs_noblock : ro_noblock o = ro_noblock o0 || given 110 l;
  rs_flush : ro_flush o = ro_flush o0 || given 102 l;
  rs_max : ro_max o = said 109 (num scan_int) (ro_max o0) l
}.

(** One option of the [getopt] loops: the code is known in each branch. *)
Ltac option_case E :=
  repeat match type of E with (if ?c =? ?k then _ else _) = _ => destruct (Z.eqb_spec c k) as [->|] end;
  repeat match type of E with
  | match ?x with _ => _ end = _ => let H := fresh "Hx" in destruct x eqn:H
  | (let '(_, _) := ?x in _) = _ => destruct x
  end; try done; injection E as <-.

Ltac option_says IH :=
  destruct IH; constructor; unfold said, given, num in *; cbn in *;
  repeat match goal with H : ?x = Some _ |- context [?x] => rewrite H; cbn end;
  rewrite ?orb_true_r, ?orb_false_r in *; done.

Lemma send_options_say sf l o0 o : send_options sf l o0 = inl o → send_says o0 l o.
Proof.
  revert o0. induction l as [|[c arg] l IH]; intros o0 H.
  { injection H as <-. by constructor; unfold given; cbn; rewrite ?orb_false_r. }
  cbn in H. destruct (send_option sf c arg o0) as [o1|] eqn:E; [|done]. apply IH in H. unfold send_option in E.
  option_case E; option_says H.
Qed.

Lemma recv_options_say sf l o0 o : recv_options sf l o0 = inl o → recv_says o0 l o.
Proof.
  revert o0. induction l as [|[c arg] l IH]; intros o0 H.
  { injection H as <-. by constructor; unfold given; cbn; rewrite ?orb_false_r. }
  cbn in H. destruct (recv_option sf c arg o0) as [o1|] eqn:E; [|done]. apply IH in H. unfold recv_option in E.
  option_case E; option_says H.
Qed.

Definition type_ok (t : Z) : Prop := t = AXNP_ANY ∨ t = AXNP_RAW ∨ t = AXNP_LONG.

Lemma said_type l d : type_ok d → type_ok (said 116 msg_type d l).
Proof.
  unfold said. revert d. induction l as [|[c arg] l IH]; intros d Hd; cbn; [done|]. apply IH. destruct (c =? 116); [|done].
  unfold msg_type, type_ok in *. destruct (word _); [done|]. repeat (case_match; [cbn; tauto|]). done.
Qed.

Lemma said_byte l d : 0 <= d <= 255 → 0 <= said 112 (num scan_u8) d l <= 255.
Proof.
  unfold said. revert d. induction l as [|[c arg] l IH]; intros d Hd; cbn; [done|]. apply IH. destruct (c =? 112); [|done].
  unfold num, scan_u8. destruct (scan_ulong arg) as [[n r]|]; cbn; [|done]. pose proof (u8_range n). lia.
Qed.
End Said.

(** ** A network between the two programs *)

(** A message on its way: the node it goes to, port, type, declared size and bytes. *)
Record packet := mk_packet { p_node : Z; p_port : Z; p_type : Z; p_size : Z; p_bytes : list Z }.

(** The packets not yet received, the flags and the port of the receiver, and what it
    has shown. *)
Record chan := mk_chan { ch_net : list packet; ch_flags : Z; ch_port : option Z; ch_shown : list (Z * Z * list Z) }.

(** The network and its drivers: the node of the receiver; for the sender, the nodes it
    has a route to, the node behind each interface, and the type that [axiom_send]
    chooses for a size. *)
Class Network := {
  nt_me : Z;
  nt_reachable : Z → bool;
  nt_neighbour : Z → option Z;
  nt_any_type : Z → Z
}.

(** Codes and flags of the driver are told apart. *)
Class MsgConstsOk `{NicConsts} `{MsgConsts} := {
  notavail_not_ok : AXIOM_RET_IS_OK AXIOM_RET_NOTAVAIL = false;
  flags_apart : Z.land AXIOM_FLAG_NOFLUSH AXIOM_FLAG_NOBLOCK = 0;
  noflush_pos : AXIOM_FLAG_NOFLUSH ≠ 0;
  noblock_pos : AXIOM_FLAG_NOBLOCK ≠ 0
}.

Fixpoint take_first {A} (f : A → bool) (l : list A) : option (A * list A) :=
  match l with
  | [] => None
  | a :: l => if f a then Some (a, l) else '(b, rest) ← take_first f l; Some (b, a :: rest)
  end.

Section Channel.
Context `{CN : NicConsts} `{RC : RunConsts} `{PC : PerfConsts} `{MC : MsgConsts} `{NT : Network}.

(** The node a message goes to, none when there is no way. *)
Definition address (k : send_kind) (dst : Z) : option Z :=
  match k with
  | KRaw t => if t =? AXIOM_TYPE_RAW_NEIGHBOUR then nt_neighbour dst else if nt_reachable dst then Some dst else None
  | _ => if nt_reachable dst then Some dst else None
  end.
Definition sent_type (k : send_kind) (size : Z) : Z :=
  match k with KAny => nt_any_type size | KRaw t => t | KLong => AXIOM_TYPE_LONG_DATA end.
Definition size_limit (k : send_kind) : Z :=
  match k with KRaw _ => AXIOM_RAW_PAYLOAD_MAX_SIZE | _ => AXIOM_LONG_PAYLOAD_MAX_SIZE end.

Definition transmit (k : send_kind) (dst port size : Z) (bytes : list Z) (c : chan) : outcome chan Z :=
  if size_limit k <? size then Ret AXIOM_RET_ERROR c
  else match address k dst with
  | None => Ret AXIOM_RET_NOTREACH c
  | Some n => Ret AXIOM_RET_OK (mk_chan (ch_net c ++ [mk_packet n port (sent_type k size) size bytes]) (ch_flags c) (ch_port c) (ch_shown c))
  end.

#[export] Instance chan_send : SendDev chan := {|
  x_send := transmit; x_send_iov k dst port size ps := transmit k dst port size (concat ps) |}.

(** A packet for a port of this node, of a type that the call receives. *)
Definition to_port (port : Z) (p : packet) : bool := (p_node p =? nt_me) && (p_port p =? port).
Definition fits (k : recv_kind) (t : Z) : bool :=
  match k with RAny => true | RRaw => negb (t =? AXIOM_TYPE_LONG_DATA) | RLong => t =? AXIOM_TYPE_LONG_DATA end.
Definition wanted (k : recv_kind) (port : Z) (p : packet) : bool := to_port port p && fits k (p_type p).

(** The first packet that is wanted; with none the call waits, or says so when the
    device was opened with [AXIOM_FLAG_NOBLOCK].  [axiom_bind] drops the packets that
    wait for the port, unless the device was opened with [AXIOM_FLAG_NOFLUSH]. *)
#[export] Instance chan_recv : RecvDev chan := {|
  r_open flags c := Ret true (mk_chan (ch_net c) flags (ch_port c) (ch_shown c));
  r_bind port c := Ret port (mk_chan
    (if Z.land (ch_flags c) AXIOM_FLAG_NOFLUSH =? 0 then List.filter (fun p => negb (to_port port p)) (ch_net c) else ch_net c)
    (ch_flags c) (Some port) (ch_shown c));
  r_recv k n c := match ch_port c with
    | None => Ret (AXIOM_RET_ERROR, 0, []) c
    | Some port => match take_first (wanted k port) (ch_net c) with
      | None => if Z.land (ch_flags c) AXIOM_FLAG_NOBLOCK =? 0 then Stuck Blocked c else Ret (AXIOM_RET_NOTAVAIL, 0, []) c
      | Some (p, rest) => Ret (AXIOM_RET_OK, p_type p, take (Z.to_nat n) (p_bytes p)) (mk_chan rest (ch_flags c) (ch_port c) (ch_shown c))
      end
    end;
  r_sleep c := Ret tt c;
  r_show seq t bytes c := Ret tt (mk_chan (ch_net c) (ch_flags c) (ch_port c) (ch_shown c ++ [(seq, t, bytes)])) |}.

#[export] Instance chan_send_ok : SendDevOk chan.
Proof. by split. Qed.
#[export] Instance chan_recv_ok : RecvDevOk chan.
Proof.
  split. intros k n d ret t bytes d' H. cbn in H. unfold alen. destruct (ch_port d); [|injection H as _ _ <- _; cbn; lia].
  destruct (take_first _ _) as [[p rest]|].
  - injection H as _ _ <- _. rewrite length_take. lia.
  - destruct (_ =? 0); [done|]. injection H as _ _ <- _. cbn. lia.
Qed.

(** What is sent and what is received, by the option [-t]. *)
Definition sent_as (o : send_opts) : send_kind :=
  if so_type o =? AXNP_ANY then KAny
  else if so_type o =? AXNP_RAW then KRaw (if so_neighbour o then AXIOM_TYPE_RAW_NEIGHBOUR else AXIOM_TYPE_RAW_DATA)
  else KLong.
Definition received_as (o : recv_opts) : recv_kind :=
  if ro_type o =? AXNP_ANY then RAny else if ro_type o =? AXNP_RAW then RRaw else RLong.
Definition room (o : recv_opts) : Z :=
  match received_as o with RRaw => Z.min (ro_max o) AXIOM_RAW_PAYLOAD_MAX_SIZE | _ => ro_max o end.

(** What the sender puts on the network. *)
Definition sent (o : send_opts) (dst size : Z) (bytes : list Z) : list packet :=
  match address (sent_as o) dst with
  | None => []
  | Some n => replicate (Z.to_nat (so_count o)) (mk_packet n (so_port o) (sent_type (sent_as o) size) size bytes)
  end.

(** What the receiver shows of the packets it gets, counted from [seq]. *)
Fixpoint shows (seq : Z) (l : list packet) : list (Z * Z * list Z) :=
  match l with [] => [] | p :: l => (seq + 1, p_type p, p_bytes p) :: shows (seq + 1) l end.

Lemma take_first_none {A} (f : A → bool) l : List.filter f l = [] → take_first f l = None.
Proof.
  induction l as [|a l IH]; [done|]. cbn. destruct (f a); [done|]. intros H. by rewrite IH.
Qed.

Lemma take_first_some {A} (f : A → bool) l a seen : List.filter f l = a :: seen →
  ∃ rest, take_first f l = Some (a, rest) ∧ List.filter f rest = seen ∧ f a = true ∧
    ∀ g : A → bool, g a = false → List.filter g rest = List.filter g l.
Proof.
  induction l as [|b l IH]; [done|]. cbn. destruct (f b) eqn:E.
  - intros [= <- <-]. exists l. repeat split; [done|]. intros g Hg. by rewrite Hg.
  - intros H. destruct (IH H) as (rest & -> & Hr & Ha & Hg). exists (b :: rest). cbn. rewrite E. repeat split; try done.
    intros g Hb. by rewrite (Hg g Hb).
Qed.

Lemma send_one o dst size payload c : type_ok (so_type o) →
  axsnd_send (so_type o) dst (so_port o) (wire_type o) size payload c =
    transmit (sent_as o) dst (so_port o) size (take (Z.to_nat size) payload) c.
Proof.
  intros H. unfold axsnd_send, sent_as, wire_type. destruct (Z.eqb_spec (so_type o) AXNP_ANY); [done|].
  destruct (Z.eqb_spec (so_type o) AXNP_RAW); [done|]. destruct (Z.eqb_spec (so_type o) AXNP_LONG); [done|]. unfold type_ok in H. tauto.
Qed.

Lemma clamp_limit o n : type_ok (so_type o) → clamp_size (so_type o) n <= size_limit (sent_as o).
Proof.
  intros H. unfold clamp_size, sent_as, size_limit. destruct (Z.eqb_spec (so_type o) AXNP_ANY) as [_|].
  { destruct (Z.ltb_spec AXIOM_LONG_PAYLOAD_MAX_SIZE n); lia. }
  destruct (Z.eqb_spec (so_type o) AXNP_RAW) as [_|]. { destruct (Z.ltb_spec AXIOM_RAW_PAYLOAD_MAX_SIZE n); lia. }
  destruct (Z.eqb_spec (so_type o) AXNP_LONG) as [_|]. { destruct (Z.ltb_spec AXIOM_LONG_PAYLOAD_MAX_SIZE n); lia. }
  unfold type_ok in H. tauto.
Qed.

Lemma send_loop_chan `{CNOK : !NicConstsOk} o dst size payload iov0 c :
  type_ok (so_type o) → so_iovcnt o <= alen iov0 → size <= size_limit (sent_as o) →
  send_loop o dst size payload iov0 c =
    Ret true (mk_chan (ch_net c ++ sent o dst size (take (Z.to_nat size) payload)) (ch_flags c) (ch_port c) (ch_shown c)).
Proof.
  intros Ht Hc Hs. rewrite send_loop_eq by done. unfold send_loop, for_m, mbind, M_bind. cbn [so_iovcnt no_send_pieces so_type so_port so_count].
  assert (Hz : (0 <? (if size <? 0 then 0 else 0)) = false) by (by destruct (size <? 0)). rewrite Hz.
  rewrite Z.sub_0_r. change (wire_type (no_send_pieces o)) with (wire_type o).
  assert (H : ∀ l c, for_list l (fun (_ : Z) (_ : unit) d =>
      match axsnd_send (so_type o) dst (so_port o) (wire_type o) size payload d with
      | Ret ret d' => (if negb (AXIOM_RET_IS_OK ret) && negb (ret =? AXIOM_RET_NOTREACH) then mret (M := M chan) (inr tt : unit + unit) else mret (M := M chan) (inl tt)) d'
      | Stuck w d' => Stuck w d' end) tt c =
    Ret (inl tt) (mk_chan (ch_net c ++ match address (sent_as o) dst with None => []
      | Some n => replicate (length l) (mk_packet n (so_port o) (sent_type (sent_as o) size) size (take (Z.to_nat size) payload)) end)
      (ch_flags c) (ch_port c) (ch_shown c))).
  { induction l as [|x l IH]; intros c0; cbn [for_list]; [cbn; destruct (address _ _); rewrite app_nil_r; by destruct c0|].
    unfold mbind, M_bind at 1. rewrite send_one by done. unfold transmit. rewrite (proj2 (Z.ltb_ge _ _)) by done.
    destruct (address (sent_as o) dst) as [n|].
    - rewrite ret_ok_ok. cbn [negb andb mret M_ret]. rewrite IH. cbn. by rewrite <- (assoc_L (++)).
    - rewrite Z.eqb_refl, andb_false_r. cbn [mret M_ret]. by rewrite IH. }
  rewrite H. unfold sent. destruct (address _ _); [|done]. by rewrite length_seqZ.
Qed.

(** The flags on the open device. *)
Lemma flags_noblock `{MCOK : !MsgConstsOk} o : (Z.land (recv_flags o) AXIOM_FLAG_NOBLOCK =? 0) = negb (ro_noblock o).
Proof.
  unfold recv_flags. pose proof flags_apart. pose proof noblock_pos. destruct (ro_flush o), (ro_noblock o); cbn [negb];
    rewrite ?Z.lor_0_l, ?Z.land_lor_distr_l, ?flags_apart, ?Z.land_diag, ?Z.lor_0_l, ?Z.land_0_l; by apply Z.eqb_eq || by apply Z.eqb_neq.
Qed.
Lemma flags_noflush `{MCOK : !MsgConstsOk} o : (Z.land (recv_flags o) AXIOM_FLAG_NOFLUSH =? 0) = ro_flush o.
Proof.
  unfold recv_flags. assert (Ha : Z.land AXIOM_FLAG_NOBLOCK AXIOM_FLAG_NOFLUSH = 0) by (rewrite Z.land_comm; apply flags_apart).
  pose proof noflush_pos. destruct (ro_flush o), (ro_noblock o); cbn [negb];
    rewrite ?Z.lor_0_l, ?Z.land_lor_distr_l, ?Ha, ?Z.land_diag, ?Z.lor_0_r, ?Z.land_0_l; by apply Z.eqb_eq || by apply Z.eqb_neq.
Qed.

(** One reception without pieces, by the kind of the call. *)
Lemma recv_turn_kind ro iov t buf seq (c : chan) : type_ok (ro_type ro) → recv_pieces ro = 0 → 0 <= ro_max ro < 2 ^ 64 →
  recv_turn ro iov (t, buf, seq) c =
  match r_recv (received_as ro) (room ro) c with
  | Ret (ret, t', bytes) d =>
      let t'' := match received_as ro with RLong => AXIOM_TYPE_LONG_DATA | _ => t' end in
      if AXIOM_RET_IS_OK ret then
        Ret (if ro_once ro then inr tt else inl (t'', overwrite bytes buf, seq + 1))
          (mk_chan (ch_net d) (ch_flags d) (ch_port d) (ch_shown d ++ [(seq + 1, t'', bytes)]))
      else if ret =? AXIOM_RET_NOTAVAIL then Ret (if ro_once ro then inr tt else inl (t'', overwrite bytes buf, seq)) d
      else Ret (inr tt) d
  | Stuck w d => Stuck w d
  end.
Proof.
  intros Ht Hp Hm. unfold recv_turn, mbind, M_bind. rewrite Hp, u64_small by done. change (0 <? 0) with false. cbn iota.
  unfold axrcv_recv, recv_with, mbind, M_bind, mret, M_ret, room, received_as.
  assert (Hraw : (if AXIOM_RAW_PAYLOAD_MAX_SIZE <? ro_max ro then AXIOM_RAW_PAYLOAD_MAX_SIZE else ro_max ro) = Z.min (ro_max ro) AXIOM_RAW_PAYLOAD_MAX_SIZE).
  { destruct (Z.ltb_spec AXIOM_RAW_PAYLOAD_MAX_SIZE (ro_max ro)); lia. }
  assert (Htk : ∀ bytes : list Z, take (Z.to_nat (alen bytes)) (overwrite bytes buf) = bytes).
  { intros b. unfold alen. rewrite Nat2Z.id. apply take_overwrite. }
  rewrite Hraw. destruct (ro_type ro =? AXNP_ANY) eqn:E1; [|destruct (ro_type ro =? AXNP_RAW) eqn:E2; [|destruct (Z.eqb_spec (ro_type ro) AXNP_LONG)]].
  4: { apply Z.eqb_neq in E1, E2. unfold type_ok in Ht. tauto. }
  all: match goal with |- context [r_recv ?k ?n ?cc] => destruct (r_recv k n cc) as [[[ret t1] bytes] d|w d]; [|done] end.
  all: destruct (AXIOM_RET_IS_OK ret); cbn [negb]; [rewrite Htk; by destruct (ro_once ro)|].
  all: destruct (ret =? AXIOM_RET_NOTAVAIL); by destruct (ro_once ro).
Qed.

Section Receiver.
Context `{CNOK : !NicConstsOk} `{MCOK : !MsgConstsOk} (ro : recv_opts) (port : Z).
Hypothesis Htype : type_ok (ro_type ro).
Hypothesis Hpieces : recv_pieces ro = 0.
Hypothesis Hmax : 0 <= ro_max ro < 2 ^ 64.

Definition listening (net : list packet) (shown : list (Z * Z * list Z)) : chan := mk_chan net (recv_flags ro) (Some port) shown.

Lemma recv_got iov t buf seq net shown p seen :
  List.filter (wanted (received_as ro) port) net = p :: seen → alen (p_bytes p) <= room ro →
  ∃ t' rest, recv_turn ro iov (t, buf, seq) (listening net shown) =
    Ret (if ro_once ro then inr tt else inl (t', overwrite (p_bytes p) buf, seq + 1)) (listening rest (shown ++ [(seq + 1, p_type p, p_bytes p)])) ∧
    List.filter (wanted (received_as ro) port) rest = seen ∧
    ∀ g : packet → bool, (∀ q, wanted (received_as ro) port q = true → g q = false) → List.filter g rest = List.filter g net.
Proof using CNOK Htype Hpieces Hmax.
  intros Hf Hl. apply take_first_some in Hf as (rest & Hr & Hseen & Hw & Hg). rewrite recv_turn_kind by done. cbn [r_recv chan_recv listening ch_port ch_net].
  rewrite Hr. rewrite take_ge by (unfold alen in Hl; lia). rewrite ret_ok_ok. cbn [ch_flags ch_port ch_shown ch_net].
  assert (Hty : match received_as ro with RLong => AXIOM_TYPE_LONG_DATA | _ => p_type p end = p_type p).
  { unfold wanted in Hw. apply andb_true_iff in Hw as [_ Hw]. destruct (received_as ro); [done|done|]. cbn in Hw. by apply Z.eqb_eq in Hw. }
  rewrite Hty. exists (p_type p), rest. repeat split; [done|]. intros g Hq. apply Hg. by apply Hq.
Qed.

Lemma recv_none iov t buf seq net shown : List.filter (wanted (received_as ro) port) net = [] →
  ∃ t', recv_turn ro iov (t, buf, seq) (listening net shown) =
    if ro_noblock ro then Ret (if ro_once ro then inr tt else inl (t', buf, seq)) (listening net shown) else Stuck Blocked (listening net shown).
Proof using CNOK MCOK Htype Hpieces Hmax.
  intros Hf. rewrite recv_turn_kind by done. cbn [r_recv chan_recv listening ch_port ch_net ch_flags]. rewrite take_first_none by done.
  rewrite flags_noblock. destruct (ro_noblock ro); cbn [negb]; [|by exists 0]. rewrite notavail_not_ok, Z.eqb_refl. by eexists.
Qed.

(** The loop shows all the wanted packets, or the first with [-o]. *)
Definition shown_of (seen : list packet) : list packet := if ro_once ro then take 1 seen else seen.
Definition recv_ends (seen : list packet) (c : chan) : outcome chan unit :=
  if ro_once ro && (ro_noblock ro || negb (bool_decide (seen = []))) then Ret tt c
  else Stuck (if ro_noblock ro then Diverges else Blocked) c.

Lemma recv_loop_chan fuel iov t buf seq net shown seen :
  List.filter (wanted (received_as ro) port) net = seen → Forall (fun p => alen (p_bytes p) <= room ro) seen → (length seen < fuel)%nat →
  ∃ rest, loop fuel (recv_turn ro iov) (t, buf, seq) (listening net shown) =
      recv_ends seen (listening rest (shown ++ shows seq (shown_of seen))) ∧
    ∀ g : packet → bool, (∀ q, wanted (received_as ro) port q = true → g q = false) → List.filter g rest = List.filter g net.
Proof using CNOK MCOK Htype Hpieces Hmax.
  intros Hf Hl Hfuel. revert t buf seq net shown seen Hf Hl Hfuel.
  induction fuel as [|fuel IH]; intros t buf seq net shown seen Hf Hl Hfuel; [lia|]. cbn [loop]. unfold mbind, M_bind. destruct seen as [|p seen].
  - exists net. split; [|done]. destruct (recv_none iov t buf seq net shown Hf) as [t' E]. rewrite E. clear E.
    assert (Hsh : shown ++ shows seq (shown_of []) = shown) by (unfold shown_of; destruct (ro_once ro); apply app_nil_r). rewrite Hsh.
    unfold recv_ends. rewrite bool_decide_eq_true_2 by done. rewrite orb_false_r.
    destruct (ro_noblock ro) eqn:En; [|by rewrite andb_false_r]. destruct (ro_once ro) eqn:Eo; [done|]. cbn [andb].
    assert (Hsp : ∀ f t b s, loop f (recv_turn ro iov) (t, b, s) (listening net shown) = Stuck Diverges (listening net shown)).
    { clear -Hf Htype Hpieces Hmax Eo En CNOK MCOK. induction f as [|f IHf]; intros t b s; [done|]. cbn [loop]. unfold mbind, M_bind.
      destruct (recv_none iov t b s net shown Hf) as [t' E]. rewrite En, Eo in E. by rewrite E. }
    apply Hsp.
  - inversion Hl as [|? ? Hp Hl']; subst. destruct (recv_got iov t buf seq net shown p seen Hf Hp) as (t' & rest & E & Hs & Hg). rewrite E.
    unfold recv_ends, shown_of. destruct (ro_once ro) eqn:Eo.
    + exists rest. split; [|done]. cbn [andb]. rewrite bool_decide_eq_false_2 by done. by rewrite orb_true_r.
    + destruct (IH t' (overwrite (p_bytes p) buf) (seq + 1) rest (shown ++ [(seq + 1, p_type p, p_bytes p)]) seen Hs Hl' ltac:(cbn in Hfuel; lia)) as (rest' & E' & Hg').
      exists rest'. split.
      * rewrite E'. unfold recv_ends, shown_of. rewrite Eo. cbn [andb shows]. by rewrite <- (assoc_L (++)).
      * intros g Hq. by rewrite Hg', Hg.
Qed.
End Receiver.

(** What the receiver gets of a network: with [-f] nothing that is already there. *)
Definition got (o : recv_opts) (net : list packet) : list packet :=
  if ro_flush o then [] else List.filter (wanted (received_as o) (ro_port o)) net.

Lemma filter_flushed k port net : List.filter (wanted k port) (List.filter (fun p => negb (to_port port p)) net) = [].
Proof.
  induction net as [|p net IH]; [done|]. cbn. destruct (to_port port p) eqn:E; [done|]. cbn. unfold wanted at 1. by rewrite E.
Qed.
Lemma filter_twice {A} (f : A → bool) l : List.filter f (List.filter f l) = List.filter f l.
Proof. induction l as [|a l IH]; [done|]. cbn. destruct (f a) eqn:E; [cbn; by rewrite E, IH|done]. Qed.

Lemma recv_main_chan `{CNOK : !NicConstsOk} `{MCOK : !MsgConstsOk} fuel sf ropts ro iov1 t buf net flags0 port0 :
  recv_options sf ropts recv0 = inl ro → alen iov1 = MAX_IOVEC → 0 <= ro_iovcnt ro <= MAX_IOVEC → 0 <= ro_max ro <= alen buf → alen buf < 2 ^ 64 →
  Forall (fun p => alen (p_bytes p) <= room ro) (got ro net) → (length (got ro net) < fuel)%nat →
  ∃ rest, recv_main fuel sf ropts iov1 t buf (mk_chan net flags0 port0 []) =
      match recv_ends ro (got ro net) (listening ro (ro_port ro) rest (shows 0 (shown_of ro (got ro net)))) with
      | Ret _ c => Ret 0 c | Stuck w c => Stuck w c end ∧
    List.filter (fun p => negb (to_port (ro_port ro) p)) rest = List.filter (fun p => negb (to_port (ro_port ro) p)) net.
Proof.
  intros Ho Hi Hc Hm Hb Hl Hf. pose proof (recv_options_say _ _ _ _ Ho) as [Sty Spo _ _ _ _].
  assert (Hport : 0 <= ro_port ro <= 255) by (rewrite Spo; apply said_byte; cbn; lia).
  assert (Hty : type_ok (ro_type ro)) by (rewrite Sty; apply said_type; by left).
  unfold recv_main. rewrite Ho. rewrite !(proj2 (Z.ltb_ge _ _)) by lia. cbn [orb]. rewrite andb_false_r.
  unfold mbind, M_bind. cbn [r_open r_bind chan_recv negb ch_net ch_flags ch_port ch_shown]. rewrite Z.eqb_refl. cbn [negb].
  rewrite flags_noflush. set (net1 := if ro_flush ro then _ else net).
  assert (Hgot : List.filter (wanted (received_as ro) (ro_port ro)) net1 = got ro net).
  { unfold net1, got. destruct (ro_flush ro); [apply filter_flushed|done]. }
  rewrite recv_loop_eq by lia. unfold recv_loop.
  assert (Hz : recv_pieces (no_recv_pieces ro) = 0) by (unfold recv_pieces; cbn; by destruct (ro_max ro <? 0)).
  rewrite Hz. change (0 <? 0) with false. cbn iota.
  destruct (recv_loop_chan (no_recv_pieces ro) (ro_port ro) Hty Hz ltac:(cbn; lia) fuel iov1 t buf 0 net1 [] (got ro net) Hgot Hl Hf) as (rest & E & Hg).
  change (listening (no_recv_pieces ro)) with (listening ro) in E. change (received_as (no_recv_pieces ro)) with (received_as ro) in Hg.
  exists rest. split.
  - unfold listening in *. cbn in E |- *. rewrite E. unfold recv_ends. cbn. by destruct (_ && _).
  - rewrite Hg.
    + unfold net1. destruct (ro_flush ro); [apply filter_twice|done].
    + intros q Hq. unfold wanted in Hq. apply andb_true_iff in Hq as [Hq _]. by rewrite Hq.
Qed.
End Channel.

(** C38. What axiom-send is told on its command line is what axiom-recv shows.  Accepted
    options set what they say, the last one counting.  The program appends to what is
    on the network [-c] messages for the node [-d] (with [-n] the node behind that
    interface) and the port [-p], of the type of [-t]; each holds the bytes of the
    command line, with as many whole copies as [-r] asks for and the buffer holds, cut
    to the limit of the type; when there is no way to the node it sends nothing and
    still ends.  axiom-recv, started afterwards on the network, shows, in order and
    numbered from one, exactly the messages for its node, its port and a type of its
    [-t]: nothing of what is already there with [-f], only the first with [-o].  Then it
    waits, ends ([-o]) or polls for ever ([-n]); with [-o] and [-n] it ends even without
    a message.  Messages for others stay.  All this with any division into pieces on
    either side.  Conditions: at least one byte is given, at most as many as the buffer
    holds, the device opens, and what is received fits the maximal payload [-m]. *)
Theorem send_recv_roundtrip `{CN : NicConsts} {CNOK : NicConstsOk} `{RC : RunConsts} `{PC : PerfConsts} `{MC : MsgConsts} {MCOK : MsgConstsOk} {NT : Network}
    fuel sf opts args o dst bytes ropts ro iov0 iov1 t buf before flags0 port0 :
  send_options sf opts send0 = inl o → send_check (given 112 opts) o = Some dst →
  read_payload args = Some bytes → 0 < alen bytes <= sizeof_long_payload → alen iov0 = MAX_IOVEC → alen iov1 = MAX_IOVEC →
  recv_options sf ropts recv0 = inl ro → 0 <= ro_iovcnt ro <= MAX_IOVEC → 0 <= ro_max ro <= alen buf → alen buf < 2 ^ 64 →
  let payload := concat (replicate (Z.to_nat (copies (so_repeat o) (alen bytes))) bytes) in
  let size := clamp_size (so_type o) (alen payload) in
  let net := before ++ sent o dst size (take (Z.to_nat size) payload) in
  let seen := got ro net in
  Forall (fun p => alen (p_bytes p) <= room ro) seen → (length seen < fuel)%nat →
  send_says send0 opts o ∧ so_dst o = Some dst ∧ recv_says recv0 ropts ro ∧
  send_main sf opts args true iov0 (mk_chan before flags0 port0 []) = Ret 0 (mk_chan net flags0 port0 []) ∧
  ∃ rest, recv_main fuel sf ropts iov1 t buf (mk_chan net flags0 port0 []) =
      (let c := mk_chan rest (recv_flags ro) (Some (ro_port ro)) (shows 0 (if ro_once ro then take 1 seen else seen)) in
       if ro_once ro && (ro_noblock ro || negb (bool_decide (seen = []))) then Ret 0 c
       else Stuck (if ro_noblock ro then Diverges else Blocked) c) ∧
    List.filter (fun p => negb (to_port (ro_port ro) p)) rest = List.filter (fun p => negb (to_port (ro_port ro) p)) net.
Proof.
  intros Ho Hd Hb Hlen Hi0 Hi1 Hro Hcnt Hmax Hbuf payload size net seen Hfit Hfuel. pose proof (send_options_say _ _ _ _ Ho) as Hsay.
  assert (Hck : so_dst o = Some dst ∧ so_iovcnt o <= MAX_IOVEC).
  { unfold send_check in Hd. destruct (_ && _); [done|]. destruct (_ && negb _); [done|]. destruct (so_dst o); [|done].
    destruct (_ || _); [done|]. destruct ((so_iovcnt o <? 0) || (MAX_IOVEC <? so_iovcnt o)) eqn:E; [done|].
    apply orb_false_iff in E as [_ E]. apply Z.ltb_ge in E. by injection Hd as <-. }
  assert (Hty : type_ok (so_type o)) by (rewrite (ss_type _ _ _ Hsay); apply said_type; by left).
  split; [done|]. split; [apply Hck|]. split; [by eapply recv_options_say|]. split.
  - unfold send_main. rewrite Ho. unfold given in Hd. rewrite Hd, Hb. destruct bytes as [|b0 bs]; [unfold alen in Hlen; cbn in Hlen; lia|].
    cbn [negb]. rewrite repeat_payload_spec by done. fold payload. fold size. unfold mbind, M_bind.
    rewrite send_loop_chan; [done|done|lia|]. by apply clamp_limit.
  - destruct (recv_main_chan fuel sf ropts ro iov1 t buf net flags0 port0 Hro Hi1 Hcnt Hmax Hbuf Hfit Hfuel) as (rest & E & Hrest).
    exists rest. split; [|done]. rewrite E. unfold recv_ends, listening, shown_of, seen. by destruct (_ && _).
Qed.

(** With [-n] and [-o] axiom-recv leaves when there is no message yet: the [continue]
    of the loop goes to its condition. *)
Lemma recv_once_gives_up `{CN : NicConsts} `{RC : RunConsts} `{PC : PerfConsts} `{MC : MsgConsts} {D} `{RD : RecvDev D}
    o iov t buf seq (d d1 d2 : D) :
  ro_type o = AXNP_ANY → ro_once o = true → recv_pieces o = 0 → AXIOM_RET_IS_OK AXIOM_RET_NOTAVAIL = false →
  r_recv RAny (u64 (ro_max o)) d = Ret (AXIOM_RET_NOTAVAIL, t, []) d1 → r_sleep d1 = Ret tt d2 →
  recv_turn o iov (t, buf, seq) d = Ret (inr tt) d2.
Proof.
  intros Ht Ho Hp Hn Hr Hs. unfold recv_turn, mbind, M_bind. rewrite Hp. cbn [Z.ltb Z.compare].
  unfold axrcv_recv, recv_with, mbind, M_bind. rewrite Ht, Z.eqb_refl, Hr. cbn. rewrite Hn, Z.eqb_refl. cbn. rewrite Hs, Ho. done.
Qed.

Section Examples.
#[local] Existing Instances nic8 nic8_ok run8 run8_ok perf8 perf8_ok.
#[local] Instance msg8 : MsgConsts := {|
  sizeof_long_payload := 32; AXIOM_PORT_MAX := 7; AXIOM_NODES_MAX := 254; AXIOM_RET_NOTREACH := -7; AXIOM_RET_NOTAVAIL := -9;
  AXIOM_TYPE_RAW_DATA := 0; AXIOM_TYPE_RAW_NEIGHBOUR := 1; AXIOM_TYPE_LONG_DATA := 2;
  AXIOM_FLAG_NOFLUSH := 1; AXIOM_FLAG_NOBLOCK := 2 |}.

(** [axiom-send -d 1 -r 3 -c 2 -i 4 1 2 3] and [axiom-recv -i 5]. *)
Definition ex_opts : list (Z * list Z) := [(100, str "1"); (114, str "3"); (99, str "2"); (105, str "4")].
Definition ex_send : send_opts := mk_send AXNP_ANY 1 (Some 1) false 3 2 4.
Definition ex_recv : recv_opts := mk_recv AXNP_ANY 1 false false false 5 32.
Definition ex_iov : list iovec := replicate 16 (0, 0).

Definition ex_ropts : list (Z * list Z) := [(105, str "5")].

(** The network of the example: node 1 receives, a message of another program for its
    port 3 and one for node 2 are on the way. *)
#[local] Instance msg8_ok : MsgConstsOk.
Proof. by split. Qed.
#[local] Instance net8 : Network := {| nt_me := 1; nt_reachable n := n <? 4; nt_neighbour i := if i =? 0 then Some 1 else None;
  nt_any_type size := if size <=? 8 then 0 else 2 |}.
Definition ex_before : list packet := [mk_packet 1 3 0 2 [7; 7]; mk_packet 2 1 0 1 [9]].
Definition ex_after : list packet := ex_before ++ replicate 2 (mk_packet 1 1 2 9 [1; 2; 3; 1; 2; 3; 1; 2; 3]).

(** Of the network, port 1 shows the two messages sent; port 3 and a raw receiver the
    other one; with [-f] nothing. *)
Example recv_other_port : recv_main 3 (fun _ => true) [(112, str "3"); (116, str "raw"); (111, [])] ex_iov 0 (replicate 32 0) (mk_chan ex_after 0 None []) =
  Ret 0 (mk_chan (drop 1 ex_after) 1 (Some 3) [(1, 0, [7; 7])]).
Proof. vm_compute. reflexivity. Qed.
Example recv_flush : recv_main 3 (fun _ => true) [(102, [])] ex_iov 0 (replicate 32 0) (mk_chan ex_after 0 None []) =
  Stuck Blocked (mk_chan ex_before 0 (Some 1) []).
Proof. vm_compute. reflexivity. Qed.

(** [axiom-send -t raw -n -d 0 5]: the node behind the interface 0. *)
Example send_to_neighbour :
  send_main (fun _ => true) [(116, str "raw"); (110, []); (100, str "0")] [str "5"] true ex_iov (mk_chan [] 0 None []) =
  Ret 0 (mk_chan [mk_packet 1 1 1 1 [5]] 0 None []).
Proof. vm_compute. reflexivity. Qed.

Lemma send_recv_roundtrip_witness :
  send_main (fun _ => true) ex_opts [str "1"; str "2"; str "3"] true ex_iov (mk_chan ex_before 0 None []) = Ret 0 (mk_chan ex_after 0 None []) ∧
  ∃ rest, recv_main 3 (fun _ => true) ex_ropts ex_iov 0 (replicate 32 0) (mk_chan ex_after 0 None []) =
    Stuck Blocked (mk_chan rest 1 (Some 1) [(1, 2, [1; 2; 3; 1; 2; 3; 1; 2; 3]); (2, 2, [1; 2; 3; 1; 2; 3; 1; 2; 3])]) ∧
    List.filter (fun p => negb (to_port 1 p)) rest = ex_before.
Proof.
  destruct (send_recv_roundtrip 3 (fun _ => true) ex_opts [str "1"; str "2"; str "3"] ex_send 1 [1; 2; 3] ex_ropts ex_recv
    ex_iov ex_iov 0 (replicate 32 0) ex_before 0 None) as (_ & _ & _ & Hs & rest & Hr & Hg);
    try (vm_compute; reflexivity); try (vm_compute; split; congruence); try (vm_compute; congruence).
  - vm_compute. repeat constructor; congruence.
  - split; [exact Hs|]. exists rest. split; [exact Hr|exact Hg].
Defined.

Lemma send_pieces_same_witness :
  send_loop ex_send 1 9 [1; 2; 3; 1; 2; 3; 1; 2; 3] ex_iov (mk_chan [] 0 None []) = send_loop (no_send_pieces ex_send) 1 9 [1; 2; 3; 1; 2; 3; 1; 2; 3] ex_iov (mk_chan [] 0 None []).
Proof. apply (send_pieces_same false ex_send 1 9 [1; 2; 3; 1; 2; 3; 1; 2; 3] ex_iov (mk_chan [] 0 None [])); vm_compute; reflexivity. Defined.
End Examples.
