(* ===== verification/Rdma.v ===== *)
(** * axiom-rdma (axiom-rdma/axiom-rdma.c)

    The same program runs on the two nodes of an axiom-run application, master and
    slave; it fills a payload from the command line, and stores it locally, reads it
    from the slave or writes it to the slave, with a barrier between the steps. *)

From S2P Require Import Prelude Nic RunMsg Text.

Definition RDMA_READ : Z := 114.
Definition RDMA_WRITE : Z := 119.
Definition LOCAL_DUMP : Z := 100.
Definition LOCAL_STORE : Z := 115.

Definition get_scale (c : Z) : Z :=
  if (c =? 98) || (c =? 66) then 0
  else if (c =? 107) || (c =? 75) then 10
  else if (c =? 109) || (c =? 77) then 20
  else if (c =? 71) || (c =? 103) then 30
  else 0.

(** [axrdma_status_t] without the device: the payload is its contents. *)
Record axrdma_status_t := mk_rdma {
  mode : Z;
  port : Z;
  local_id : Z;
  master_id : Z;
  slave_id : Z;
  payload_size : Z;
  master_offset : Z;
  slave_offset : Z;
  payload : list Z
}.

(** The address at which the zone of a node starts: what [axiom_private_malloc] returns
    there. *)
Class Regions := zone_start : Z → Z.

Section Code.
Context `{CN : NicConsts}.
(** The size of the array [payload]. *)
Context (AXIOM_RDMA_PAYLOAD_MAX_SIZE : Z).

Definition set_nodes (m sl : Z) (s : axrdma_status_t) : axrdma_status_t :=
  mk_rdma (mode s) (port s) (local_id s) m sl (payload_size s) (master_offset s) (slave_offset s) (payload s).

(** *** Options *)

Definition rdma0 (buffer : list Z) : axrdma_status_t := mk_rdma (-1) 1 0 AXIOM_NULL_NODE AXIOM_NULL_NODE 0 0 0 buffer.

(** [sscanf(optarg, "%u%c", &x, &c) == 0], then [x << scale] on 32 bits; an argument
    without anything to read is EOF, and shifts the old value by 0. *)
Definition scan_scaled (arg : list Z) (old : Z) : option Z :=
  match scan_u32 arg with
  | Some (v, rest) => Some (u32 (Z.shiftl v (get_scale (default 98 (head rest)))))
  | None => if bool_decide (skip_spaces arg = []) then Some old else None
  end.

Definition rdma_option (c : Z) (arg : list Z) (s : axrdma_status_t) : axrdma_status_t + Z :=
  if c =? 109 then
    match head arg with
    | Some m => inl (mk_rdma m (port s) (local_id s) (master_id s) (slave_id s) (payload_size s) (master_offset s) (slave_offset s) (payload s))
    | None => inr (-1) end
  else if c =? 110 then
    match scan_u8 arg with Some (v, _) => inl (set_nodes (master_id s) v s) | None => inr (-1) end
  else if c =? 78 then
    match scan_u8 arg with Some (v, _) => inl (set_nodes v (slave_id s) s) | None => inr (-1) end
  else if c =? 111 then
    match scan_scaled arg (slave_offset s) with
    | Some v => inl (mk_rdma (mode s) (port s) (local_id s) (master_id s) (slave_id s) (payload_size s) (master_offset s) v (payload s))
    | None => inr (-1) end
  else if c =? 79 then
    match scan_scaled arg (master_offset s) with
    | Some v => inl (mk_rdma (mode s) (port s) (local_id s) (master_id s) (slave_id s) (payload_size s) v (slave_offset s) (payload s))
    | None => inr (-1) end
  else if c =? 115 then
    match scan_scaled arg (payload_size s) with
    | Some v => inl (mk_rdma (mode s) (port s) (local_id s) (master_id s) (slave_id s) v (master_offset s) (slave_offset s) (payload s))
    | None => inr (-1) end
  else if c =? 112 then
    match scan_u8 arg with
    | Some (v, _) => if (v <? 0) || (7 <? v) then inr (-1)
        else inl (mk_rdma (mode s) v (local_id s) (master_id s) (slave_id s) (payload_size s) (master_offset s) (slave_offset s) (payload s))
    | None => inr (-1) end
  else if c =? 118 then inl s
  else if c =? 86 then inr 0
  else inr (-1).

Fixpoint rdma_options (l : list (Z * list Z)) (s : axrdma_status_t) : axrdma_status_t + Z :=
  match l with
  | [] => inl s
  | (c, arg) :: l => match rdma_option c arg s with inl s => rdma_options l s | inr e => inr e end
  end.

(** *** The payload *)

Definition uses_payload (m : Z) : bool := (m =? LOCAL_STORE) || (m =? RDMA_READ) || (m =? RDMA_WRITE).

(** The bytes of the command line are stored one by one; [inr] is an exit. *)
Fixpoint read_bytes (i : Z) (args : list (list Z)) (buf : list Z) : list Z + Z :=
  match args with
  | [] => inl buf
  | a :: args => match scan_u8 a with Some (v, _) => read_bytes (i + 1) args (aset buf i v) | None => inr (-1) end
  end.

(** [memcpy(&payload[at], &payload[0], n)]: [None] outside of the array. *)
Definition copy_front (at_ n : Z) (buf : list Z) : option (list Z) :=
  if at_ + n <=? alen buf then Some (set_field (Z.to_nat at_) (take (Z.to_nat n) buf) buf) else None.

(** [while (payload_read + orig_psize <= payload_size)], on 32 bits. *)
Fixpoint fill_loop (fuel : nat) (size orig nread : Z) (buf : list Z) : option (Z * list Z) :=
  match fuel with
  | O => None
  | S fuel =>
      if u32 (nread + orig) <=? size then
        buf ← copy_front nread orig buf; fill_loop fuel size orig (u32 (nread + orig)) buf
      else Some (nread, buf)
  end.

(** The block that reads the payload; axiom-rdma-dbg has it too.  [Some (inr code)] is
    an exit, [None] undefined behaviour. *)
Definition fill_bytes (size : Z) (args : list (list Z)) (buf : list Z) : option (list Z + Z) :=
  if (size =? 0) || (AXIOM_RDMA_PAYLOAD_MAX_SIZE <? size) then Some (inr (-1)) else
  let args := take (Z.to_nat AXIOM_RDMA_PAYLOAD_MAX_SIZE) args in
  match read_bytes 0 args buf with
  | inr e => Some (inr e)
  | inl buf =>
      let orig := alen args in
      if orig =? 0 then Some (inr (-1)) else
      '(nread, buf) ← fill_loop (S (Z.to_nat size)) size orig orig buf;
      buf ← (if 0 <? u32 (size - nread) then copy_front nread (u32 (size - nread)) buf else Some buf);
      Some (inl buf)
  end.

Definition fill_payload (args : list (list Z)) (s : axrdma_status_t) : option (axrdma_status_t + Z) :=
  if negb (uses_payload (mode s)) then Some (inl s) else
  r ← fill_bytes (payload_size s) args (payload s);
  Some (match r with
    | inr e => inr e
    | inl buf => inl (mk_rdma (mode s) (port s) (local_id s) (master_id s) (slave_id s) (payload_size s) (master_offset s) (slave_offset s) buf)
    end).

(** *** The nodes *)

Fixpoint ctz (fuel : nat) (i m : Z) : Z :=
  match fuel with O => i | S fuel => if Z.testbit m i then i else ctz fuel (i + 1) m end.
Definition clz (m : Z) : Z := 63 - Z.log2 m.

(** Master and slave; [inr] when the application does not run on these two nodes.  The
    shift of an id of 64 or more is undefined ([None]). *)
Definition choose_nodes (num_nodes mask : Z) (s : axrdma_status_t) : option (axrdma_status_t + Z) :=
  if negb (num_nodes =? 2) then Some (inr (-1)) else
  let node_t := ctz 64 0 mask in
  let node_l := 64 - 1 - clz mask in
  let master := if master_id s =? AXIOM_NULL_NODE then (if slave_id s =? node_t then node_l else node_t) else master_id s in
  let slave := if slave_id s =? AXIOM_NULL_NODE then (if master =? node_l then node_t else node_l) else slave_id s in
  if (64 <=? master) || (64 <=? slave) then None
  else if negb (mask =? Z.lor (Z.shiftl 1 master) (Z.shiftl 1 slave)) then Some (inr (-1))
  else Some (inl (set_nodes master slave s)).

(** *** Memory *)

(** The size of the region that is allocated for remote reads and writes: a sum of
    32-bit numbers. *)
Definition region_size (s : axrdma_status_t) : Z := u32 (payload_size s + Z.max (master_offset s) (slave_offset s)).

(** The check of the local modes. *)
Definition local_check (s : axrdma_status_t) (rdma_size : Z) : bool := u32 (payload_size s + master_offset s) <=? rdma_size.

Definition my_offset (s : axrdma_status_t) : Z := if local_id s =? master_id s then master_offset s else slave_offset s.

(** [memcpy(start, &payload, payload_size)] into the zone of this node. *)
Definition axrdma_store (s : axrdma_status_t) (zone : list Z) : option (list Z) :=
  if my_offset s + payload_size s <=? alen zone
  then Some (set_field (Z.to_nat (my_offset s)) (take (Z.to_nat (payload_size s)) (payload s)) zone) else None.

(** The bytes that are printed; -1 without a size. *)
Definition axrdma_dump (s : axrdma_status_t) (zone : list Z) : option (Z * list Z) :=
  if payload_size s =? 0 then Some (-1, [])
  else if my_offset s + payload_size s <=? alen zone
  then Some (0, field (Z.to_nat (my_offset s)) (Z.to_nat (payload_size s)) zone) else None.

(** Zones of all nodes. *)
Definition zones : Type := Z → list Z.
Definition set_zone (n : Z) (z : list Z) (zs : zones) : zones := fun k => if k =? n then z else zs k.

Context {RG : Regions}.

Definition remote_args_ok (s : axrdma_status_t) : bool :=
  negb (slave_id s =? AXIOM_NULL_NODE) && negb (payload_size s =? 0) && negb (AXIOM_RDMA_PAYLOAD_MAX_SIZE <? payload_size s).

(** The bytes of a node at an address are in its zone. *)
Definition in_zone (n addr size : Z) (zs : zones) : bool :=
  (zone_start n <=? addr) && (addr + size <=? zone_start n + alen (zs n)).

(** [axiom_rdma_read_sync] and [axiom_rdma_write_sync] with the result of the call: both
    addresses are computed from the start of this node's zone.  [None] when the driver
    accepts an access outside of a zone. *)
Definition axrdma_read (s : axrdma_status_t) (ret : Z) (zs : zones) : option (Z * zones) :=
  let src := zone_start (local_id s) + slave_offset s in
  let dst := zone_start (local_id s) + master_offset s in
  if negb (remote_args_ok s) then Some (-1, zs)
  else if negb (AXIOM_RET_IS_OK ret) then Some (-1, zs)
  else if in_zone (slave_id s) src (payload_size s) zs && in_zone (local_id s) dst (payload_size s) zs then
    Some (0, set_zone (local_id s)
      (set_field (Z.to_nat (dst - zone_start (local_id s)))
        (field (Z.to_nat (src - zone_start (slave_id s))) (Z.to_nat (payload_size s)) (zs (slave_id s))) (zs (local_id s))) zs)
  else None.
Definition axrdma_write (s : axrdma_status_t) (ret : Z) (zs : zones) : option (Z * zones) :=
  let src := zone_start (local_id s) + master_offset s in
  let dst := zone_start (local_id s) + slave_offset s in
  if negb (remote_args_ok s) then Some (-1, zs)
  else if negb (AXIOM_RET_IS_OK ret) then Some (-1, zs)
  else if in_zone (local_id s) src (payload_size s) zs && in_zone (slave_id s) dst (payload_size s) zs then
    Some (0, set_zone (slave_id s)
      (set_field (Z.to_nat (dst - zone_start (slave_id s)))
        (field (Z.to_nat (src - zone_start (local_id s))) (Z.to_nat (payload_size s)) (zs (local_id s))) (zs (slave_id s))) zs)
  else None.

(** *** The remote modes: before and after the barrier *)

(** What a node does before [axrun_sync], with the result [ret] of its remote call. *)
Definition before_sync (s : axrdma_status_t) (ret : Z) (zs : zones) : option (Z * zones) :=
  if mode s =? RDMA_READ then
    if local_id s =? slave_id s then z ← axrdma_store s (zs (local_id s)); Some (0, set_zone (local_id s) z zs) else Some (0, zs)
  else if mode s =? RDMA_WRITE then
    if local_id s =? master_id s then
      z ← axrdma_store s (zs (local_id s)); axrdma_write s ret (set_zone (local_id s) z zs)
    else Some (0, zs)
  else Some (0, zs).

(** And after it: the zones and what the node dumps when it is verbose.  [sync] is the
    result of the barrier, [wret] that of the part before. *)
Definition after_sync (s : axrdma_status_t) (sync wret ret : Z) (verbose : bool) (zs : zones) : option (zones * list Z) :=
  let dump zs := if verbose then d ← axrdma_dump s (zs (local_id s)); Some (zs, d.2) else Some (zs, []) in
  if sync <? 0 then Some (zs, [])
  else if mode s =? RDMA_READ then
    if local_id s =? master_id s then
      '(r, zs) ← axrdma_read s ret zs; if negb (r =? 0) then Some (zs, []) else dump zs
    else dump zs
  else if mode s =? RDMA_WRITE then if negb (wret =? 0) then Some (zs, []) else dump zs
  else Some (zs, []).

(** *** Up to the start of a mode, and the local modes *)

(** Options, payload and nodes: the status, or an exit code. *)
Definition rdma_prepare (opts : list (Z * list Z)) (args : list (list Z)) (dev : bool) (node num_nodes mask : Z) (buffer : list Z) :
    option (axrdma_status_t + Z) :=
  match rdma_options opts (rdma0 buffer) with
  | inr e => Some (inr e)
  | inl s =>
      r ← fill_payload args s;
      match r with
      | inr e => Some (inr e)
      | inl s =>
          if negb dev then Some (inr (-1)) else
          choose_nodes num_nodes mask (mk_rdma (mode s) (port s) node (master_id s) (slave_id s) (payload_size s) (master_offset s) (slave_offset s) (payload s))
      end
  end.

(** The local modes work on the mapped zone: the zone and what is dumped. *)
Definition local_mode (s : axrdma_status_t) (verbose : bool) (zone : list Z) : option (list Z * list Z) :=
  if negb (local_check s (alen zone)) then Some (zone, []) else
  let s := set_nodes (master_id s) 255 s in
  if mode s =? LOCAL_DUMP then d ← axrdma_dump s zone; Some (zone, d.2)
  else if mode s =? LOCAL_STORE then
    zone ← axrdma_store s zone;
    if verbose then d ← axrdma_dump s zone; Some (zone, d.2) else Some (zone, [])
  else Some (zone, []).
End Code.

(** ** The payload is a repetition *)

Section Payload.
Context `{CN : NicConsts} (AXIOM_RDMA_PAYLOAD_MAX_SIZE : Z).

(** The first [k] bytes of the array repeat [bytes]. *)
Definition cyclic (bytes buf : list Z) (k : Z) : Prop :=
  ∀ i, 0 <= i < k → aget buf i = aget bytes (i mod alen bytes).

Lemma copy_front_spec at_ n buf : 0 <= at_ → 0 <= n <= at_ → at_ + n <= alen buf →
  ∃ buf', copy_front at_ n buf = Some buf' ∧ alen buf' = alen buf ∧
    (∀ i, 0 <= i < at_ → aget buf' i = aget buf i) ∧ (∀ i, 0 <= i < n → aget buf' (at_ + i) = aget buf i).
Proof.
  intros Ha Hn Hfit. unfold copy_front. rewrite (proj2 (Z.leb_le _ _) Hfit). unfold alen in *. set (v := take (Z.to_nat n) buf).
  assert (Hv : length v = Z.to_nat n) by (unfold v; rewrite length_take; lia).
  assert (Ht : length (take (Z.to_nat at_) buf) = Z.to_nat at_) by (rewrite length_take; lia).
  eexists. split; [done|]. unfold set_field. rewrite Hv. split; [rewrite !length_app, length_drop, Ht, Hv; lia|]. split; intros i Hi.
  - unfold aget. destruct (Z.ltb_spec i 0); [lia|]. rewrite lookup_total_app_l by lia. rewrite !list_lookup_total_alt, lookup_take_lt by lia. done.
  - unfold aget. destruct (Z.ltb_spec (at_ + i) 0); [lia|]. destruct (Z.ltb_spec i 0); [lia|]. rewrite lookup_total_app_r by lia.
    rewrite Ht, lookup_total_app_l by lia. unfold v. rewrite !list_lookup_total_alt, lookup_take_lt by lia. do 2 f_equal. lia.
Qed.

(** A copy of the beginning behind a whole number of repetitions. *)
Lemma cyclic_copy bytes buf buf' q n : 0 < alen bytes → 0 <= q → 0 <= n <= alen bytes →
  cyclic bytes buf (q * alen bytes) → 1 <= q →
  (∀ i, 0 <= i < q * alen bytes → aget buf' i = aget buf i) → (∀ i, 0 <= i < n → aget buf' (q * alen bytes + i) = aget buf i) →
  cyclic bytes buf' (q * alen bytes + n).
Proof.
  intros Hb Hq Hn Hc Hq1 Hlow Hhigh i Hi. destruct (Z.lt_ge_cases i (q * alen bytes)) as [Hlt|Hge].
  - rewrite Hlow by lia. apply Hc. lia.
  - replace i with (q * alen bytes + (i - q * alen bytes)) at 1 by lia. rewrite Hhigh by lia.
    assert (Hr : 0 <= i - q * alen bytes < alen bytes) by lia. rewrite Hc by nia.
    f_equal. replace i with (i - q * alen bytes + q * alen bytes) at 2 by lia. rewrite Z.mod_add by lia. done.
Qed.

Lemma fill_loop_spec fuel size bytes q buf : 0 < alen bytes → 1 <= q → q * alen bytes <= size → size <= alen buf → alen buf < 2 ^ 31 →
  size - q * alen bytes < Z.of_nat fuel → cyclic bytes buf (q * alen bytes) →
  ∃ q' buf', fill_loop fuel size (alen bytes) (q * alen bytes) buf = Some (q' * alen bytes, buf') ∧ alen buf' = alen buf ∧
    1 <= q' ∧ q' * alen bytes <= size < q' * alen bytes + alen bytes ∧ cyclic bytes buf' (q' * alen bytes).
Proof.
  revert q buf. induction fuel as [|fuel IH]; intros q buf Hb Hq Hs Hl Hmax Hf Hc; [lia|]. cbn [fill_loop].
  assert (Hq1 : alen bytes <= q * alen bytes) by nia. rewrite u32_small by lia.
  destruct (Z.leb_spec (q * alen bytes + alen bytes) size) as [Hle|Hgt].
  - destruct (copy_front_spec (q * alen bytes) (alen bytes) buf) as (buf' & E & Hl' & Hlow & Hhigh); [nia|nia|lia|].
    rewrite E. cbn. replace (q * alen bytes + alen bytes) with ((q + 1) * alen bytes) by lia.
    rewrite <- Hl'. apply IH; try lia. replace ((q + 1) * alen bytes) with (q * alen bytes + alen bytes) by lia.
    eapply cyclic_copy; eauto; lia.
  - exists q, buf. split; [done|]. split_and!; try done; lia.
Qed.

(** The bytes that the arguments name. *)
Definition parse_bytes (args : list (list Z)) : option (list Z) := mapM (fun a => fst <$> scan_u8 a) args.

Lemma read_bytes_spec args bytes i buf : parse_bytes args = Some bytes → 0 <= i → i + alen args <= alen buf →
  ∃ buf', read_bytes i args buf = inl buf' ∧ alen buf' = alen buf ∧ alen bytes = alen args ∧
    (∀ k, 0 <= k < i → aget buf' k = aget buf k) ∧ (∀ k, 0 <= k < alen args → aget buf' (i + k) = aget bytes k).
Proof.
  revert bytes i buf. induction args as [|a args IH]; intros bytes i buf Hp Hi Hl; unfold parse_bytes in Hp; cbn in Hp.
  - injection Hp as <-. exists buf. split_and!; try done. unfold alen. cbn. lia.
  - destruct (scan_u8 a) as [[v rest]|] eqn:Ea; [|done]. cbn in Hp. destruct (mapM _ args) as [bs|] eqn:Em; [|done]. injection Hp as <-.
    assert (Hc : alen (a :: args) = alen args + 1) by (unfold alen; cbn; lia). rewrite Hc in Hl.
    destruct (IH bs (i + 1) (aset buf i v) Em ltac:(lia)) as (buf' & E & H1 & H2 & H3 & H4); [rewrite alen_aset; lia|].
    exists buf'. cbn [read_bytes]. rewrite Ea, E, H1, alen_aset. split_and!; [done|done|unfold alen in *; cbn in *; lia| |].
    + intros k Hk. rewrite H3 by lia. by rewrite aget_aset_ne by lia.
    + intros k Hk. rewrite Hc in Hk. destruct (Z.eq_dec k 0) as [->|Hne].
      * rewrite Z.add_0_r, H3 by lia. rewrite aget_aset_eq by (unfold alen in *; lia). done.
      * replace (i + k) with (i + 1 + (k - 1)) by lia. rewrite H4 by lia. unfold aget.
        destruct (Z.ltb_spec (k - 1) 0); [lia|]. destruct (Z.ltb_spec k 0); [lia|]. replace (Z.to_nat k) with (S (Z.to_nat (k - 1))) by lia. done.
Qed.

Lemma fill_bytes_cyclic max size args bytes buf : parse_bytes args = Some bytes → alen buf = max → max < 2 ^ 31 →
  1 <= alen args <= size → size <= max →
  ∃ buf', fill_bytes max size args buf = Some (inl buf') ∧ alen buf' = max ∧ cyclic bytes buf' size.
Proof.
  intros Hp Hmax H31 Hn Hs. unfold fill_bytes.
  rewrite (proj2 (Z.eqb_neq size 0)), (proj2 (Z.ltb_ge max size)) by lia. cbn [orb].
  rewrite take_ge by (unfold alen in *; lia).
  destruct (read_bytes_spec args bytes 0 buf Hp ltac:(lia) ltac:(lia)) as (b1 & E1 & L1 & Lb & _ & H1). rewrite E1.
  rewrite (proj2 (Z.eqb_neq (alen args) 0)) by lia. rewrite <- Lb.
  assert (Hc1 : cyclic bytes b1 (1 * alen bytes)).
  { intros i Hi. rewrite <- (Z.add_0_l i) at 1. rewrite H1 by lia. by rewrite Z.mod_small by lia. }
  destruct (fill_loop_spec (S (Z.to_nat size)) size bytes 1 b1) as (q & b2 & E2 & L2 & Hq & Hfit & Hc2); try done; try lia.
  rewrite Z.mul_1_l in E2. rewrite E2. cbn. rewrite u32_small by lia.
  destruct (Z.ltb_spec 0 (size - q * alen bytes)) as [Hpos|Hz].
  - destruct (copy_front_spec (q * alen bytes) (size - q * alen bytes) b2) as (b3 & E3 & L3 & Hlow & Hhigh); [nia|nia|lia|].
    rewrite E3. cbn. exists b3. split; [done|]. split; [lia|].
    replace size with (q * alen bytes + (size - q * alen bytes)) by lia. eapply cyclic_copy; eauto; lia.
  - cbn. exists b2. split; [done|]. split; [lia|]. by replace size with (q * alen bytes) by lia.
Qed.

Lemma fill_bytes_overflow max size args bytes buf : parse_bytes args = Some bytes → alen buf = max → max < 2 ^ 31 →
  0 < size < alen args → alen args <= max → fill_bytes max size args buf = None.
Proof.
  intros Hp Hmax H31 Hn Ha. unfold fill_bytes.
  rewrite (proj2 (Z.eqb_neq size 0)), (proj2 (Z.ltb_ge max size)) by lia. cbn [orb].
  rewrite take_ge by (unfold alen in *; lia).
  destruct (read_bytes_spec args bytes 0 buf Hp ltac:(lia) ltac:(lia)) as (b1 & E1 & L1 & Lb & _ & H1). rewrite E1.
  rewrite (proj2 (Z.eqb_neq (alen args) 0)) by lia. cbn [fill_loop]. rewrite u32_small by lia.
  destruct (Z.leb_spec (alen args + alen args) size); [lia|]. cbn.
  assert (E : u32 (size - alen args) = size - alen args + 2 ^ 32).
  { unfold u32. rewrite <- (Z.mod_add _ 1) by lia. apply Z.mod_small. lia. }
  rewrite E. destruct (Z.ltb_spec 0 (size - alen args + 2 ^ 32)); [|lia]. unfold copy_front.
  destruct (Z.leb_spec (alen args + (size - alen args + 2 ^ 32)) (alen b1)); [lia|]. done.
Qed.
End Payload.

(** The payload: the bytes of the command line, in order and as often as needed, in
    the first [payload_size] bytes of the array. *)
Theorem rdma_payload_cyclic `{CN : NicConsts} max args bytes s :
  uses_payload (mode s) = true → parse_bytes args = Some bytes → alen (payload s) = max → max < 2 ^ 31 →
  1 <= alen args <= payload_size s → payload_size s <= max →
  ∃ buf, fill_payload max args s = Some (inl (mk_rdma (mode s) (port s) (local_id s) (master_id s) (slave_id s) (payload_size s)
      (master_offset s) (slave_offset s) buf)) ∧ alen buf = max ∧ cyclic bytes buf (payload_size s).
Proof.
  intros Hu Hp Hmax H31 Hn Hs. destruct (fill_bytes_cyclic max (payload_size s) args bytes (payload s)) as (buf & E & Hl & Hc); try done.
  exists buf. unfold fill_payload. rewrite Hu, E. done.
Qed.

(** More bytes than [payload_size]: the unsigned difference wraps, and the last copy
    runs out of the array. *)
Theorem rdma_payload_overflow `{CN : NicConsts} max args bytes s :
  uses_payload (mode s) = true → parse_bytes args = Some bytes → alen (payload s) = max → max < 2 ^ 31 →
  0 < payload_size s < alen args → alen args <= max → fill_payload max args s = None.
Proof.
  intros Hu Hp Hmax H31 Hn Ha. unfold fill_payload. rewrite Hu. cbn [negb]. by rewrite (fill_bytes_overflow max _ args bytes).
Qed.

(** ** Master and slave *)

Section Nodes.
Context `{CN : NicConsts}.

Definition pair_mask (a b : Z) : Z := Z.lor (Z.shiftl 1 a) (Z.shiftl 1 b).

Lemma testbit_pair a b i : 0 <= a → 0 <= b → 0 <= i → Z.testbit (pair_mask a b) i = bool_decide (i = a) || bool_decide (i = b).
Proof.
  intros Ha Hb Hi. unfold pair_mask. rewrite Z.lor_spec. pose proof (testbit_bit a i Ha Hi) as E1. pose proof (testbit_bit b i Hb Hi) as E2.
  unfold bit in E1, E2. rewrite E1, E2. f_equal; apply bool_decide_ext; naive_solver.
Qed.

Lemma ctz_pair a b fuel i : 0 <= i <= a → a < b → a < i + Z.of_nat fuel → ctz fuel i (pair_mask a b) = a.
Proof.
  revert i. induction fuel as [|fuel IH]; intros i Hi Hab Hf; [lia|]. cbn [ctz]. rewrite testbit_pair by lia.
  destruct (Z.eq_dec i a) as [->|Hne]; [by rewrite bool_decide_true|]. rewrite !bool_decide_false by lia. apply IH; lia.
Qed.

Lemma log2_pair a b : 0 <= a < b → Z.log2 (pair_mask a b) = b.
Proof.
  intros H. unfold pair_mask. rewrite Z.log2_lor by (apply Z.shiftl_nonneg; lia).
  rewrite !Z.shiftl_1_l, !Z.log2_pow2 by lia. lia.
Qed.

Lemma pair_mask_inj a b c d : 0 <= a < b → 0 <= c → 0 <= d → pair_mask a b = pair_mask c d → (c = a ∧ d = b) ∨ (c = b ∧ d = a).
Proof.
  intros Ha Hc Hd E.
  assert (H : ∀ i, 0 <= i → bool_decide (i = a) || bool_decide (i = b) = bool_decide (i = c) || bool_decide (i = d)).
  { intros i Hi. by rewrite <- !testbit_pair, E by lia. }
  pose proof (H a ltac:(lia)) as H1. pose proof (H b ltac:(lia)) as H2. rewrite (bool_decide_true (a = a)) in H1 by done.
  rewrite (bool_decide_true (b = b)) in H2 by done.
  rewrite orb_true_l in H1. rewrite orb_true_r in H2. symmetry in H1, H2. apply orb_true_iff in H1, H2. rewrite !bool_decide_eq_true in H1, H2. lia.
Qed.
Lemma pair_mask_comm a b : pair_mask a b = pair_mask b a.
Proof. apply Z.lor_comm. Qed.
End Nodes.

(** The roles on an application of the nodes [a < b]: what the options leave open is
    filled with the other node ([a] is master if both are open); options that name
    another node, or the same one twice, are refused. *)
Theorem choose_nodes_spec `{CN : NicConsts} a b s : 0 <= a < b → b < 64 → 64 <= AXIOM_NULL_NODE →
  (master_id s = AXIOM_NULL_NODE ∨ 0 <= master_id s < 64) → (slave_id s = AXIOM_NULL_NODE ∨ 0 <= slave_id s < 64) →
  choose_nodes 2 (pair_mask a b) s =
    Some (if (master_id s =? AXIOM_NULL_NODE) && (slave_id s =? AXIOM_NULL_NODE) then inl (set_nodes a b s)
          else if (slave_id s =? AXIOM_NULL_NODE) then
            (if master_id s =? a then inl (set_nodes a b s) else if master_id s =? b then inl (set_nodes b a s) else inr (-1))
          else if (master_id s =? AXIOM_NULL_NODE) then
            (if slave_id s =? a then inl (set_nodes b a s) else if slave_id s =? b then inl (set_nodes a b s) else inr (-1))
          else if ((master_id s =? a) && (slave_id s =? b)) || ((master_id s =? b) && (slave_id s =? a))
            then inl (set_nodes (master_id s) (slave_id s) s) else inr (-1)).
Proof.
  intros Hab Hb Hnull Hm Hs. unfold choose_nodes. change (negb (2 =? 2)) with false. cbn iota.
  rewrite ctz_pair by lia. unfold clz. rewrite log2_pair by lia. replace (64 - 1 - (63 - b)) with b by lia.
  assert (Hfin : ∀ m sl, 0 <= m < 64 → 0 <= sl < 64 →
    (if (64 <=? m) || (64 <=? sl) then None
     else if negb (pair_mask a b =? Z.lor (Z.shiftl 1 m) (Z.shiftl 1 sl)) then Some (inr (-1)) else Some (inl (set_nodes m sl s))) =
    Some (if ((m =? a) && (sl =? b)) || ((m =? b) && (sl =? a)) then inl (set_nodes m sl s) else inr (-1))).
  { intros m sl Hm1 Hs1. rewrite (proj2 (Z.leb_gt 64 m)), (proj2 (Z.leb_gt 64 sl)) by lia. cbn [orb]. fold (pair_mask m sl).
    destruct (Z.eqb_spec (pair_mask a b) (pair_mask m sl)) as [E|E]; cbn [negb].
    - apply pair_mask_inj in E as [[-> ->]|[-> ->]]; [| |lia..]; rewrite !Z.eqb_refl; cbn; by rewrite ?orb_true_r.
    - destruct (((m =? a) && (sl =? b)) || ((m =? b) && (sl =? a))) eqn:Ec; [|done]. exfalso. apply E.
      rewrite orb_true_iff, !andb_true_iff, !Z.eqb_eq in Ec. destruct Ec as [[-> ->]|[-> ->]]; [done|apply pair_mask_comm]. }
  destruct (Z.eqb_spec (master_id s) AXIOM_NULL_NODE) as [Em|Em], (Z.eqb_spec (slave_id s) AXIOM_NULL_NODE) as [Es|Es]; cbn [andb].
  - rewrite (proj2 (Z.eqb_neq (slave_id s) a)), (proj2 (Z.eqb_neq a b)) by lia. rewrite Hfin by lia. by rewrite !Z.eqb_refl.
  - destruct (Z.eqb_spec (slave_id s) a) as [E|E].
    + rewrite Hfin, E by lia. rewrite (proj2 (Z.eqb_neq b a)), !Z.eqb_refl by lia. done.
    + rewrite Hfin by lia. rewrite Z.eqb_refl, (proj2 (Z.eqb_neq a b)) by lia. cbn [andb]. rewrite orb_false_r.
      destruct (Z.eqb_spec (slave_id s) b) as [->|]; done.
  - destruct (Z.eqb_spec (master_id s) b) as [E|E].
    + rewrite Hfin, E by lia. rewrite (proj2 (Z.eqb_neq b a)), !Z.eqb_refl by lia. done.
    + rewrite Hfin by lia. rewrite Z.eqb_refl, (proj2 (Z.eqb_neq b a)) by lia. rewrite !andb_true_r, andb_false_r, orb_false_r.
      destruct (Z.eqb_spec (master_id s) a) as [->|]; done.
  - rewrite Hfin by lia. done.
Qed.

(** ** A remote read and a remote write *)

Section Application.
Context `{CN : NicConsts} {CNOK : NicConstsOk} {RG : Regions} (max : Z).

Definition at_node (n : Z) (s : axrdma_status_t) : axrdma_status_t :=
  mk_rdma (mode s) (port s) n (master_id s) (slave_id s) (payload_size s) (master_offset s) (slave_offset s) (payload s).

(** Both nodes up to the barrier in one of the two orders, then both to the end: the
    barrier (Barrier.v) separates the two parts.  The results are what master and
    slave dump. *)
Definition both_before (first second : Z) (s : axrdma_status_t) (zs : zones) : option (Z * Z * zones) :=
  '(r1, zs) ← before_sync max (at_node first s) AXIOM_RET_OK zs;
  '(r2, zs) ← before_sync max (at_node second s) AXIOM_RET_OK zs;
  Some (r1, r2, zs).
Definition both_after (verbose : bool) (first second r1 r2 : Z) (s : axrdma_status_t) (zs : zones) : option (list Z * list Z * zones) :=
  '(zs, d1) ← after_sync max (at_node first s) 0 r1 AXIOM_RET_OK verbose zs;
  '(zs, d2) ← after_sync max (at_node second s) 0 r2 AXIOM_RET_OK verbose zs;
  Some (d1, d2, zs).
Definition application (verbose swap1 swap2 : bool) (s : axrdma_status_t) (zs : zones) : option (list Z * list Z * zones) :=
  let '(m, sl) := (master_id s, slave_id s) in
  '(rm, rs, zs) ← (if swap1 then r ← both_before sl m s zs; Some (r.1.2, r.1.1, r.2) else both_before m sl s zs);
  (if swap2 then r ← both_after verbose sl m rs rm s zs; Some (r.1.2, r.1.1, r.2) else both_after verbose m sl rm rs s zs).

Lemma set_zone_eq n z (zs : zones) : set_zone n z zs n = z.
Proof. unfold set_zone. by rewrite Z.eqb_refl. Qed.
Lemma set_zone_ne n k z (zs : zones) : k ≠ n → set_zone n z zs k = zs k.
Proof. intros H. unfold set_zone. by rewrite (proj2 (Z.eqb_neq k n)). Qed.

(** A status whose accesses are inside of the region, which starts at the same address
    on both nodes. *)
Record fits (s : axrdma_status_t) (zs : zones) : Prop := {
  ft_ids : master_id s ≠ slave_id s ∧ slave_id s ≠ AXIOM_NULL_NODE;
  ft_size : 1 <= payload_size s <= max ∧ payload_size s <= alen (payload s);
  ft_offsets : 0 <= master_offset s ∧ 0 <= slave_offset s;
  ft_region : payload_size s + Z.max (master_offset s) (slave_offset s) < 2 ^ 32;
  ft_starts : zone_start (master_id s) = zone_start (slave_id s);
  ft_zones : alen (zs (master_id s)) = region_size s ∧ alen (zs (slave_id s)) = region_size s
}.

Definition data (s : axrdma_status_t) : list Z := take (Z.to_nat (payload_size s)) (payload s).

Lemma fits_region s zs : fits s zs → region_size s = payload_size s + Z.max (master_offset s) (slave_offset s).
Proof. intros [_ H1 H2 H3 _ _]. unfold region_size. apply u32_small. lia. Qed.

Lemma length_data s zs : fits s zs → length (data s) = Z.to_nat (payload_size s).
Proof. intros [_ H1 _ _ _ _]. unfold data, alen in *. rewrite length_take. lia. Qed.

Lemma remote_ok s zs n : fits s zs → remote_args_ok max (at_node n s) = true.
Proof.
  intros [H1 H2 _ _ _ _]. unfold remote_args_ok. cbn. rewrite (proj2 (Z.eqb_neq (slave_id s) _)), (proj2 (Z.eqb_neq (payload_size s) 0)), (proj2 (Z.ltb_ge max _)) by lia || tauto.
  done.
Qed.

(** Reading and writing at addresses that are the same on both nodes. *)
Lemma in_zone_at n m off size zs : zone_start m = zone_start n → 0 <= off → off + size <= alen (zs n) →
  in_zone n (zone_start m + off) size zs = true.
Proof. intros E Ho Hz. unfold in_zone. rewrite E, !(proj2 (Z.leb_le _ _)) by lia. done. Qed.

(** Storing at one of the offsets, and reading it back. *)
Lemma store_at s n off z : my_offset (at_node n s) = off → 0 <= off → off + payload_size s <= alen z →
  axrdma_store (at_node n s) z = Some (set_field (Z.to_nat off) (data s) z).
Proof. intros E Ho Hz. unfold axrdma_store. rewrite E. cbn [payload_size at_node]. by rewrite (proj2 (Z.leb_le _ _) Hz). Qed.
Lemma dump_at s n off z : my_offset (at_node n s) = off → 0 <= off → 1 <= payload_size s → off + payload_size s <= alen z →
  axrdma_dump (at_node n s) z = Some (0, field (Z.to_nat off) (Z.to_nat (payload_size s)) z).
Proof.
  intros E Ho Hp Hz. unfold axrdma_dump. rewrite E. cbn [payload_size at_node].
  rewrite (proj2 (Z.eqb_neq _ 0)) by lia. by rewrite (proj2 (Z.leb_le _ _) Hz).
Qed.

Lemma field_data s zs off z : fits s zs → 0 <= off → off + payload_size s <= alen z →
  field (Z.to_nat off) (Z.to_nat (payload_size s)) (set_field (Z.to_nat off) (data s) z) = data s.
Proof. intros Hf Ho Hz. pose proof (length_data s zs Hf). destruct (ft_size _ _ Hf). apply field_set_field; [done|]. unfold alen in Hz. lia. Qed.

Lemma alen_set_data s zs off z : fits s zs → 0 <= off → off + payload_size s <= alen z → alen (set_field (Z.to_nat off) (data s) z) = alen z.
Proof.
  intros Hf Ho Hz. pose proof (length_data s zs Hf). destruct (ft_size _ _ Hf). unfold alen in *. unfold set_field.
  rewrite !length_app, length_take, length_drop. lia.
Qed.

Lemma offset_master s : my_offset (at_node (master_id s) s) = master_offset s.
Proof. unfold my_offset. cbn. by rewrite Z.eqb_refl. Qed.
Lemma offset_slave s : master_id s ≠ slave_id s → my_offset (at_node (slave_id s) s) = slave_offset s.
Proof. intros H. unfold my_offset. cbn. by rewrite (proj2 (Z.eqb_neq (slave_id s) _)). Qed.

(** What each node does. *)
Lemma read_before_master s zs : mode s = RDMA_READ → master_id s ≠ slave_id s →
  before_sync max (at_node (master_id s) s) AXIOM_RET_OK zs = Some (0, zs).
Proof. intros Hm Hne. unfold before_sync. cbn [mode at_node local_id slave_id]. rewrite Hm. change (RDMA_READ =? RDMA_READ) with true. cbn iota. by rewrite (proj2 (Z.eqb_neq _ _)). Qed.

Lemma read_before_slave s zs : mode s = RDMA_READ → fits s zs →
  before_sync max (at_node (slave_id s) s) AXIOM_RET_OK zs =
    Some (0, set_zone (slave_id s) (set_field (Z.to_nat (slave_offset s)) (data s) (zs (slave_id s))) zs).
Proof.
  intros Hm Hf. pose proof (fits_region s zs Hf) as Hr. destruct Hf as [[Hne _] Hs Ho _ _ [_ Hz]]. unfold before_sync. cbn [mode at_node local_id slave_id].
  rewrite Hm, !Z.eqb_refl. change (RDMA_READ =? RDMA_READ) with true. cbn iota. change (mk_rdma _ _ _ _ _ _ _ _ _) with (at_node (slave_id s) s).
  rewrite (store_at s (slave_id s) (slave_offset s)); [done|by apply offset_slave|lia|lia].
Qed.

Lemma read_after_master verbose s zs0 zs : mode s = RDMA_READ → fits s zs0 → zs (master_id s) = zs0 (master_id s) →
  zs (slave_id s) = set_field (Z.to_nat (slave_offset s)) (data s) (zs0 (slave_id s)) →
  after_sync max (at_node (master_id s) s) 0 0 AXIOM_RET_OK verbose zs =
    Some (set_zone (master_id s) (set_field (Z.to_nat (master_offset s)) (data s) (zs0 (master_id s))) zs, if verbose then data s else []).
Proof using CNOK.
  intros Hm Hf Em Es. pose proof (fits_region s zs0 Hf) as Hr. pose proof Hf as [[Hne _] Hs Ho _ Hst [Hz1 Hz2]]. unfold after_sync.
  change (0 <? 0) with false. cbn [mode at_node local_id master_id]. rewrite Hm, !Z.eqb_refl. change (RDMA_READ =? RDMA_READ) with true. cbn iota.
  change (mk_rdma _ _ _ _ _ _ _ _ _) with (at_node (master_id s) s). unfold axrdma_read. rewrite (remote_ok s zs0) by done. rewrite ret_ok_ok.
  cbn [negb at_node local_id master_offset slave_offset payload_size slave_id].
  rewrite (in_zone_at (slave_id s) (master_id s)); [|done|lia|rewrite Es, (alen_set_data s zs0) by (lia || done); lia].
  rewrite (in_zone_at (master_id s) (master_id s)); [|done|lia|rewrite Em; lia]. cbn [andb mbind option_bind].
  rewrite Hst, !Z.add_simpl_l, Em, Es, (field_data s zs0) by (lia || done).
  change (negb (0 =? 0)) with false. cbn iota. destruct verbose; [|done]. rewrite set_zone_eq. change (mk_rdma _ _ _ _ _ _ _ _ _) with (at_node (master_id s) s).
  rewrite (dump_at s (master_id s) (master_offset s)); [|apply offset_master|lia|lia|rewrite (alen_set_data s zs0) by (lia || done); lia].
  cbn. rewrite (field_data s zs0) by (lia || done). done.
Qed.

Lemma write_before_master s zs : mode s = RDMA_WRITE → fits s zs →
  before_sync max (at_node (master_id s) s) AXIOM_RET_OK zs =
    Some (0, set_zone (slave_id s) (set_field (Z.to_nat (slave_offset s)) (data s) (zs (slave_id s)))
      (set_zone (master_id s) (set_field (Z.to_nat (master_offset s)) (data s) (zs (master_id s))) zs)).
Proof using CNOK.
  intros Hm Hf. pose proof (fits_region s zs Hf) as Hr. pose proof Hf as [[Hne _] Hs Ho _ Hst [Hz1 Hz2]]. unfold before_sync.
  cbn [mode at_node local_id master_id]. rewrite Hm, !Z.eqb_refl. change (RDMA_WRITE =? RDMA_READ) with false. change (RDMA_WRITE =? RDMA_WRITE) with true. cbn iota.
  change (mk_rdma _ _ _ _ _ _ _ _ _) with (at_node (master_id s) s).
  rewrite (store_at s (master_id s) (master_offset s)); [|apply offset_master|lia|lia]. cbn [mbind option_bind].
  unfold axrdma_write. rewrite (remote_ok s zs) by done. rewrite ret_ok_ok. cbn [negb at_node local_id master_offset slave_offset payload_size slave_id].
  assert (Hlen := alen_set_data s zs (master_offset s) (zs (master_id s)) Hf ltac:(lia) ltac:(lia)).
  rewrite (in_zone_at (master_id s) (master_id s)); [|done|lia|rewrite set_zone_eq, Hlen; lia].
  rewrite (in_zone_at (slave_id s) (master_id s)); [|done|lia|rewrite set_zone_ne by done; lia]. cbn [andb].
  rewrite Hst, !Z.add_simpl_l.
  rewrite set_zone_eq, set_zone_ne by done. rewrite (field_data s zs) by (lia || done). done.
Qed.

Lemma write_before_slave s zs : mode s = RDMA_WRITE → master_id s ≠ slave_id s →
  before_sync max (at_node (slave_id s) s) AXIOM_RET_OK zs = Some (0, zs).
Proof.
  intros Hm Hne. unfold before_sync. cbn [mode at_node local_id master_id]. rewrite Hm. change (RDMA_WRITE =? RDMA_READ) with false.
  change (RDMA_WRITE =? RDMA_WRITE) with true. cbn iota. by rewrite (proj2 (Z.eqb_neq (slave_id s) (master_id s))).
Qed.

(** A node that only dumps. *)
Lemma after_dump verbose s zs0 zs n off : fits s zs0 → (mode s = RDMA_READ ∧ n = slave_id s) ∨ mode s = RDMA_WRITE →
  my_offset (at_node n s) = off → off + payload_size s <= alen (zs0 n) → 0 <= off → zs n = set_field (Z.to_nat off) (data s) (zs0 n) →
  after_sync max (at_node n s) 0 0 AXIOM_RET_OK verbose zs = Some (zs, if verbose then data s else []).
Proof.
  intros Hf Hm Eo Hz Ho En. pose proof Hf as [[Hne _] Hs _ _ _ _].
  assert (Hd : (if verbose then d ← axrdma_dump (at_node n s) (zs n); Some (zs, d.2) else Some (zs, [])) = Some (zs, if verbose then data s else [])).
  { destruct verbose; [|done]. rewrite En, (dump_at s n off) by (try done; try lia; rewrite (alen_set_data s zs0) by (lia || done); lia). cbn.
    by rewrite (field_data s zs0) by (lia || done). }
  unfold after_sync. change (0 <? 0) with false. cbn [mode at_node local_id master_id]. destruct Hm as [[Hm ->]|Hm]; rewrite Hm.
  - change (RDMA_READ =? RDMA_READ) with true. cbn iota. rewrite (proj2 (Z.eqb_neq (slave_id s) (master_id s))) by done. exact Hd.
  - change (RDMA_WRITE =? RDMA_READ) with false. change (RDMA_WRITE =? RDMA_WRITE) with true. change (negb (0 =? 0)) with false. exact Hd.
Qed.
End Application.

(** A remote read and a remote write, on both nodes and in any order before and after
    the barrier: no access is outside of the regions that were allocated, and at the
    end both the master at its offset and the slave at its offset hold the payload,
    which is what both dump when they are verbose; the rest of the zones is unchanged. *)
Lemma application_spec `{CN : NicConsts} {CNOK : NicConstsOk} {RG : Regions} max verbose swap1 swap2 s zs :
  fits max s zs → mode s = RDMA_READ ∨ mode s = RDMA_WRITE →
  let out := (if verbose : bool then data s else []) in
  ∃ zs', application max verbose swap1 swap2 s zs = Some (out, out, zs') ∧
    zs' (master_id s) = set_field (Z.to_nat (master_offset s)) (data s) (zs (master_id s)) ∧
    zs' (slave_id s) = set_field (Z.to_nat (slave_offset s)) (data s) (zs (slave_id s)) ∧
    ∀ n, n ≠ master_id s → n ≠ slave_id s → zs' n = zs n.
Proof.
  intros Hf Hmode out. pose proof (fits_region max s zs Hf) as Hr. pose proof Hf as [[Hne Hnull] Hs Ho _ Hst [Hz1 Hz2]].
  set (zm := set_field (Z.to_nat (master_offset s)) (data s) (zs (master_id s))).
  set (zsl := set_field (Z.to_nat (slave_offset s)) (data s) (zs (slave_id s))).
  destruct Hmode as [Hm|Hm]; unfold application.
  - set (z1 := set_zone (slave_id s) zsl zs).
    assert (Hb : (if swap1 then r ← both_before max (slave_id s) (master_id s) s zs; Some (r.1.2, r.1.1, r.2)
      else both_before max (master_id s) (slave_id s) s zs) = Some (0, 0, z1)).
    { destruct swap1; unfold both_before.
      - rewrite (read_before_slave max) by done. cbn [mbind option_bind]. by rewrite (read_before_master max) by done.
      - rewrite (read_before_master max) by done. cbn [mbind option_bind]. by rewrite (read_before_slave max) by done. }
    rewrite Hb. cbn [mbind option_bind]. exists (set_zone (master_id s) zm z1).
    assert (H1m : z1 (master_id s) = zs (master_id s)) by (unfold z1; by rewrite set_zone_ne).
    assert (H1s : z1 (slave_id s) = zsl) by (unfold z1; by rewrite set_zone_eq).
    split; [|split; [by rewrite set_zone_eq|split; [by rewrite set_zone_ne by done|]]].
    + destruct swap2; unfold both_after.
      * rewrite (after_dump max verbose s zs z1 (slave_id s) (slave_offset s)); try done; [|by left|by apply offset_slave|lia|lia].
        cbn [mbind option_bind]. rewrite (read_after_master max verbose s zs) by done. done.
      * rewrite (read_after_master max verbose s zs) by done. cbn [mbind option_bind].
        rewrite (after_dump max verbose s zs _ (slave_id s) (slave_offset s)); try done; [by left|by apply offset_slave|lia|lia|by rewrite set_zone_ne by done].
    + intros n Hn1 Hn2. rewrite set_zone_ne by done. unfold z1. by rewrite set_zone_ne.
  - set (z1 := set_zone (slave_id s) zsl (set_zone (master_id s) zm zs)).
    assert (Hb : (if swap1 then r ← both_before max (slave_id s) (master_id s) s zs; Some (r.1.2, r.1.1, r.2)
      else both_before max (master_id s) (slave_id s) s zs) = Some (0, 0, z1)).
    { destruct swap1; unfold both_before.
      - rewrite (write_before_slave max) by done. cbn [mbind option_bind]. by rewrite (write_before_master max) by done.
      - rewrite (write_before_master max) by done. cbn [mbind option_bind]. by rewrite (write_before_slave max) by done. }
    rewrite Hb. cbn [mbind option_bind]. exists z1.
    assert (H1m : z1 (master_id s) = zm) by (unfold z1; rewrite set_zone_ne by done; by rewrite set_zone_eq).
    assert (H1s : z1 (slave_id s) = zsl) by (unfold z1; by rewrite set_zone_eq).
    assert (Ham : after_sync max (at_node (master_id s) s) 0 0 AXIOM_RET_OK verbose z1 = Some (z1, out)).
    { apply (after_dump max verbose s zs z1 (master_id s) (master_offset s)); try done; [by right|apply offset_master|lia|lia]. }
    assert (Has : after_sync max (at_node (slave_id s) s) 0 0 AXIOM_RET_OK verbose z1 = Some (z1, out)).
    { apply (after_dump max verbose s zs z1 (slave_id s) (slave_offset s)); try done; [by right|by apply offset_slave|lia|lia]. }
    split; [|split; [done|split; [done|]]].
    + destruct swap2; unfold both_after; [rewrite Has|rewrite Ham]; cbn [mbind option_bind]; [rewrite Ham|rewrite Has]; done.
    + intros n Hn1 Hn2. unfold z1. by rewrite !set_zone_ne.
Qed.

(** On the master a local store and its dump are inside of the zone when the sum does
    not wrap, and the dump shows the payload. *)
Theorem local_store_master `{CN : NicConsts} s zone :
  mode s = LOCAL_STORE → local_id s = master_id s → 1 <= payload_size s <= alen (payload s) → 0 <= master_offset s →
  payload_size s + master_offset s < 2 ^ 32 → payload_size s + master_offset s <= alen zone →
  local_mode s true zone = Some (set_field (Z.to_nat (master_offset s)) (data s) zone, data s).
Proof.
  intros Hm Hl Hp Ho H32 Hz. unfold local_mode, local_check. rewrite u32_small by lia. rewrite (proj2 (Z.leb_le _ _) Hz). cbn [negb].
  cbn [mode set_nodes]. rewrite Hm. change (LOCAL_STORE =? LOCAL_DUMP) with false. change (LOCAL_STORE =? LOCAL_STORE) with true. cbn iota.
  assert (Hoff : my_offset (set_nodes (master_id s) 255 s) = master_offset s) by (unfold my_offset; cbn; by rewrite Hl, Z.eqb_refl).
  change (mk_rdma LOCAL_STORE _ _ _ _ _ _ _ _) with (mk_rdma LOCAL_STORE (port s) (local_id s) (master_id s) 255 (payload_size s) (master_offset s) (slave_offset s) (payload s)).
  unfold axrdma_store, axrdma_dump. rewrite Hoff. cbn [payload_size set_nodes payload]. fold (data s).
  rewrite (proj2 (Z.leb_le (master_offset s + payload_size s) (alen zone))) by lia. cbn [mbind option_bind].
  rewrite (proj2 (Z.eqb_neq (payload_size s) 0)) by lia.
  assert (Hld : length (data s) = Z.to_nat (payload_size s)) by (unfold data, alen in *; rewrite length_take; lia).
  assert (Hls : alen (set_field (Z.to_nat (master_offset s)) (data s) zone) = alen zone).
  { unfold alen in *. unfold set_field. rewrite !length_app, length_take, length_drop. lia. }
  rewrite Hls, (proj2 (Z.leb_le (master_offset s + payload_size s) (alen zone))) by lia. cbn.
  rewrite field_set_field; [done|done|]. unfold alen in *. lia.
Qed.

Section Examples.
#[local] Existing Instances nic8 nic8_ok.

Lemma rdma_payload_cyclic_witness : ∃ buf,
  fill_payload 8 [str "1"; str "2"] (mk_rdma RDMA_READ 1 0 1 2 5 0 0 (replicate 8 0)) = Some (inl (mk_rdma RDMA_READ 1 0 1 2 5 0 0 buf)) ∧
  cyclic [1; 2] buf 5.
Proof.
  destruct (rdma_payload_cyclic 8 [str "1"; str "2"] [1; 2] (mk_rdma RDMA_READ 1 0 1 2 5 0 0 (replicate 8 0))) as (buf & E & _ & Hc);
    try (vm_compute; reflexivity); try (vm_compute; split; congruence); try (vm_compute; congruence).
  exists buf. split; [exact E|exact Hc].
Defined.

Lemma choose_nodes_spec_witness : choose_nodes 2 (pair_mask 1 5) (mk_rdma RDMA_READ 1 0 255 1 5 0 0 []) =
  Some (inl (mk_rdma RDMA_READ 1 0 5 1 5 0 0 [])).
Proof.
  rewrite (choose_nodes_spec 1 5 (mk_rdma RDMA_READ 1 0 255 1 5 0 0 [])); [vm_compute; reflexivity|lia|lia|vm_compute; congruence|by left|].
  right. cbn. lia.
Defined.

(** The check of the local modes looks at the master's offset only: on the other node
    the store runs out of the zone. *)
Example local_store_unchecked : local_mode (mk_rdma LOCAL_STORE 1 2 1 2 3 0 6 [1; 2; 3]) false (replicate 7 0) = None.
Proof. vm_compute. done. Qed.

(** The sums are 32 bits wide: an offset near 4G passes the check, and the region that
    is allocated has one byte instead of more than 4G. *)
Example region_wraps :
  local_mode (mk_rdma LOCAL_STORE 1 1 1 2 2 4294967295 0 [1; 2]) false (replicate 7 0) = None ∧
  region_size (mk_rdma RDMA_READ 1 1 1 2 2 4294967295 0 [1; 2]) = 1.
Proof. vm_compute. done. Qed.
End Examples.
