(* ===== verification/RdmaMain.v ===== *)
(** * axiom-rdma from its command line (axiom-rdma/axiom-rdma.c, [main])

    The whole program of one node: options, payload, roles, the allocation of the
    region (or the mapping of the zone) and the mode, with the barriers as the points
    where the program of one node stops until the other one is there too. *)

From S2P Require Import Prelude Nic RunMsg Text Rdma.

(** Where the program of a node is: it ended with this exit code and printed these
    bytes, or it waits in the barrier of its mode, with the result of the remote write. *)
Inductive rdma_point :=
  | RExit (code : Z) (out : list Z)
  | RBarrier (s : axrdma_status_t) (write_ret : Z).

Section Code.
Context `{CN : NicConsts} {RG : Regions} (AXIOM_RDMA_PAYLOAD_MAX_SIZE : Z).

Definition is_remote (s : axrdma_status_t) : bool := (mode s =? RDMA_READ) || (mode s =? RDMA_WRITE).

(** What the calls of the libraries return on a node: the allocator, the private
    region, the two barriers, the mapping of the zone and the remote call. *)
Record rdma_calls := mk_calls {
  c_allocator : Z;
  c_region : bool;
  c_sync1 : Z;
  c_mapped : bool;
  c_remote : Z;
  c_sync2 : Z
}.

(** The region for the remote modes is there on all nodes. *)
Definition region_ready (c : rdma_calls) : bool :=
  if negb (c_allocator c =? 0) then false
  else if negb (c_region c) then false
  else negb (c_sync1 c <? 0).

Definition verbose_option (opts : list (Z * list Z)) : bool := existsb (fun o => o.1 =? 118) opts.

(** [main] up to its end or to the barrier of the mode. *)
Definition rdma_main1 (opts : list (Z * list Z)) (args : list (list Z)) (dev : bool) (node num_nodes mask : Z) (buffer : list Z)
    (c : rdma_calls) (zs : zones) : option (rdma_point * zones) :=
  r ← rdma_prepare AXIOM_RDMA_PAYLOAD_MAX_SIZE opts args dev node num_nodes mask buffer;
  match r with
  | inr code => Some (RExit code [], zs)
  | inl s =>
      if is_remote s then
        if negb (region_ready c) then Some (RExit 0 [], zs) else
        '(w, zs) ← before_sync AXIOM_RDMA_PAYLOAD_MAX_SIZE s (c_remote c) zs; Some (RBarrier s w, zs)
      else if negb (c_mapped c) then Some (RExit 0 [], zs)
      else
        '(zone, out) ← local_mode s (verbose_option opts) (zs node); Some (RExit 0 out, set_zone node zone zs)
  end.

(** The rest of it, behind the barrier. *)
Definition rdma_main2 (opts : list (Z * list Z)) (c : rdma_calls) (p : rdma_point) (zs : zones) : option (Z * list Z * zones) :=
  match p with
  | RExit code out => Some (code, out, zs)
  | RBarrier s w =>
      '(zs, out) ← after_sync AXIOM_RDMA_PAYLOAD_MAX_SIZE s (c_sync2 c) w (c_remote c) (verbose_option opts) zs; Some (0, out, zs)
  end.

(** The same command on the two nodes [m] and [sl], one after the other up to the
    barrier and then to the end; the flags say whether [sl] is first. *)
Definition rdma_two_nodes (opts : list (Z * list Z)) (args : list (list Z)) (buffer : list Z) (c : rdma_calls)
    (swap1 swap2 : bool) (m sl : Z) (zs : zones) : option ((Z * list Z) * (Z * list Z) * zones) :=
  let main1 n := rdma_main1 opts args true n 2 (pair_mask m sl) buffer c in
  '(pm, ps, zs) ← (if swap1
    then '(ps, zs) ← main1 sl zs; '(pm, zs) ← main1 m zs; Some (pm, ps, zs)
    else '(pm, zs) ← main1 m zs; '(ps, zs) ← main1 sl zs; Some (pm, ps, zs));
  if swap2
  then '(cs, os, zs) ← rdma_main2 opts c ps zs; '(cm, om, zs) ← rdma_main2 opts c pm zs; Some ((cm, om), (cs, os), zs)
  else '(cm, om, zs) ← rdma_main2 opts c pm zs; '(cs, os, zs) ← rdma_main2 opts c ps zs; Some ((cm, om), (cs, os), zs).
End Code.

(** All calls succeed. *)
Definition calls_ok `{CN : NicConsts} : rdma_calls := mk_calls 0 true 0 true AXIOM_RET_OK 0.

(** The bytes of the command line, repeated up to a length. *)
Definition repeated (bytes : list Z) (n : Z) : list Z := (fun i => aget bytes (i mod alen bytes)) <$> seqZ 0 n.

(** The status behind the options, the payload and the choice of the nodes. *)
Definition with_payload (buf : list Z) (s : axrdma_status_t) : axrdma_status_t :=
  mk_rdma (mode s) (port s) (local_id s) (master_id s) (slave_id s) (payload_size s) (master_offset s) (slave_offset s) buf.

Section Facts.
Context `{CN : NicConsts} {CNOK : NicConstsOk} {RG : Regions} (max : Z).

Lemma cyclic_repeated bytes buf n : cyclic bytes buf n → 0 <= n <= alen buf → take (Z.to_nat n) buf = repeated bytes n.
Proof.
  intros Hc Hn. apply list_eq. intros i. unfold repeated. rewrite list_lookup_fmap. destruct (decide (Z.of_nat i < n)) as [Hi|Hi].
  - rewrite lookup_take_lt by lia. rewrite lookup_seqZ_lt by lia. cbn. rewrite Z.add_0_l. rewrite <- Hc by lia.
    unfold aget. destruct (Z.ltb_spec (Z.of_nat i) 0); [lia|]. rewrite Nat2Z.id. apply list_lookup_lookup_total_lt. unfold alen in Hn. lia.
  - rewrite lookup_take_ge by lia. rewrite lookup_seqZ_ge by lia. done.
Qed.

(** The roles depend on the options only, so both nodes find the same ones. *)
Lemma choose_nodes_payload num mask node buf s : choose_nodes num mask (at_node node (with_payload buf s)) =
  (fun r => match r with inl s' => inl (at_node node (with_payload buf s')) | inr e => inr e end) <$> choose_nodes num mask s.
Proof.
  unfold choose_nodes. cbn. destruct (negb (num =? 2)); [done|]. destruct (_ || _); [done|].
  destruct (negb (mask =? _)); done.
Qed.

(** A node of a remote mode reaches the barrier with the common status. *)
Lemma main1_remote opts args node mask buffer buf s0 s zs : rdma_options opts (rdma0 buffer) = inl s0 →
  fill_payload max args s0 = Some (inl (with_payload buf s0)) → choose_nodes 2 mask s0 = Some (inl s) →
  mode s = RDMA_READ ∨ mode s = RDMA_WRITE →
  rdma_main1 max opts args true node 2 mask buffer calls_ok zs =
    '(w, zs) ← before_sync max (at_node node (with_payload buf s)) AXIOM_RET_OK zs; Some (RBarrier (at_node node (with_payload buf s)) w, zs).
Proof.
  intros Eo Ef Ec Hm. unfold rdma_main1, rdma_prepare. rewrite Eo, Ef. cbn [mbind option_bind negb].
  change (mk_rdma _ _ node _ _ _ _ _ _) with (at_node node (with_payload buf s0)).
  rewrite choose_nodes_payload, Ec. cbn [fmap option_fmap option_map option_bind mbind].
  unfold is_remote. change (mode (at_node node (with_payload buf s))) with (mode s).
  destruct Hm as [->| ->]; done.
Qed.

(** With every call successful, the two programs are [application] of the status they share. *)
Lemma two_nodes_application opts args buffer buf s0 s swap1 swap2 zs d1 d2 zs' :
  rdma_options opts (rdma0 buffer) = inl s0 →
  fill_payload max args s0 = Some (inl (with_payload buf s0)) →
  choose_nodes 2 (pair_mask (master_id s) (slave_id s)) s0 = Some (inl s) → mode s = RDMA_READ ∨ mode s = RDMA_WRITE →
  application max (verbose_option opts) swap1 swap2 (with_payload buf s) zs = Some (d1, d2, zs') →
  rdma_two_nodes max opts args buffer calls_ok swap1 swap2 (master_id s) (slave_id s) zs = Some ((0, d1), (0, d2), zs').
Proof.
  intros Eo Ef Ec Hm Ha. unfold rdma_two_nodes.
  assert (E1 := fun n z => main1_remote opts args n _ buffer buf s0 s z Eo Ef Ec Hm).
  unfold application, both_before, both_after in Ha. cbn [master_id slave_id with_payload] in Ha.
  change (mk_rdma (mode s) (port s) (local_id s) (master_id s) (slave_id s) (payload_size s) (master_offset s) (slave_offset s) buf)
    with (with_payload buf s) in Ha.
  destruct swap1; rewrite E1;
    (destruct (before_sync max _ AXIOM_RET_OK zs) as [[w1 z1]|] eqn:B1; cbn [mbind option_bind] in Ha |- *; [|done]); rewrite E1;
    (destruct (before_sync max _ AXIOM_RET_OK z1) as [[w2 z2]|] eqn:B2; cbn [mbind option_bind fst snd] in Ha |- *; [|done]);
    destruct swap2; unfold rdma_main2; change (c_sync2 calls_ok) with 0; change (c_remote calls_ok) with AXIOM_RET_OK;
    (destruct (after_sync max _ 0 _ AXIOM_RET_OK _ z2) as [[z3 o3]|] eqn:A1; cbn [mbind option_bind fst snd] in Ha |- *; [|done]);
    (destruct (after_sync max _ 0 _ AXIOM_RET_OK _ z3) as [[z4 o4]|] eqn:A2; cbn [mbind option_bind fst snd] in Ha |- *; [|done]); congruence.
Qed.
End Facts.

(** ** What the options leave behind *)

Section Typed.
Context `{CN : NicConsts}.

(** The variables are within their types, the options do not touch the payload. *)
Record rdma_typed (buffer : list Z) (s : axrdma_status_t) : Prop := {
  ty_ids : 0 <= master_id s ∧ 0 <= slave_id s;
  ty_port : 0 <= port s <= 7;
  ty_size : 0 <= payload_size s < 2 ^ 32;
  ty_offsets : 0 <= master_offset s < 2 ^ 32 ∧ 0 <= slave_offset s < 2 ^ 32;
  ty_payload : payload s = buffer
}.

Lemma scan_u8_range arg v rest : scan_u8 arg = Some (v, rest) → 0 <= v < 256.
Proof. unfold scan_u8. destruct (scan_ulong arg) as [[n r]|]; [|done]. cbn. intros [= <- _]. apply u8_range. Qed.

Lemma scan_scaled_range arg old v : scan_scaled arg old = Some v → 0 <= old < 2 ^ 32 → 0 <= v < 2 ^ 32.
Proof.
  unfold scan_scaled. destruct (scan_u32 arg) as [[n r]|].
  - intros [= <-] _. apply Z.mod_pos_bound. lia.
  - destruct (bool_decide _); [|done]. by intros [= <-].
Qed.

Lemma rdma_option_typed buffer c arg s s' : rdma_option c arg s = inl s' → rdma_typed buffer s → rdma_typed buffer s'.
Proof.
  intros E [Hi Hp Hs Ho Hb]. unfold rdma_option in E.
  repeat match type of E with
  | (if ?b then _ else _) = _ => destruct b eqn:?
  | match ?x with _ => _ end = _ => destruct x as [[]|] eqn:? || destruct x eqn:?
  end; try done; injection E as <-;
    repeat match goal with
    | H : scan_u8 _ = Some _ |- _ => apply scan_u8_range in H
    | H : scan_scaled _ _ = Some _ |- _ => apply scan_scaled_range in H; [|lia]
    | H : _ || _ = false |- _ => apply orb_false_iff in H as [?%Z.ltb_ge ?%Z.ltb_ge]
    end; split; cbn; (done || lia).
Qed.

Lemma rdma_options_typed buffer l s s' : rdma_options l s = inl s' → rdma_typed buffer s → rdma_typed buffer s'.
Proof.
  revert s. induction l as [|[c arg] l IH]; intros s; cbn; [by intros [= <-]|].
  destruct (rdma_option c arg s) as [s1|e] eqn:E; [|done]. intros H Ht. eapply IH; [done|]. by eapply rdma_option_typed.
Qed.

Lemma rdma0_typed buffer : 0 <= AXIOM_NULL_NODE → rdma_typed buffer (rdma0 buffer).
Proof. intros H. split; cbn; (done || lia). Qed.

Lemma ctz_nonneg fuel i m : 0 <= i → 0 <= ctz fuel i m.
Proof. revert i. induction fuel as [|fuel IH]; intros i Hi; cbn; [done|]. destruct (Z.testbit m i); [done|]. apply IH. lia. Qed.

Lemma choose_nodes_roles num mask s0 s : choose_nodes num mask s0 = Some (inl s) → 0 <= master_id s0 ∧ 0 <= slave_id s0 →
  s = set_nodes (master_id s) (slave_id s) s0 ∧ mask = pair_mask (master_id s) (slave_id s) ∧
  0 <= master_id s < 64 ∧ 0 <= slave_id s < 64.
Proof.
  unfold choose_nodes. destruct (negb (num =? 2)); [done|]. intros E [H1 H2].
  pose proof (ctz_nonneg 64 0 mask ltac:(lia)) as Ht. pose proof (Z.log2_nonneg mask) as Hl. unfold clz in E.
  replace (64 - 1 - (63 - Z.log2 mask)) with (Z.log2 mask) in E by lia.
  set (m := if master_id s0 =? AXIOM_NULL_NODE then _ else _) in E. set (sl := if slave_id s0 =? AXIOM_NULL_NODE then _ else _) in E.
  assert (Hm : 0 <= m) by (unfold m; repeat case_match; lia).
  assert (Hsl : 0 <= sl) by (unfold sl; repeat case_match; lia).
  destruct (_ || _) eqn:E1 in E; [done|]. destruct (negb (mask =? _)) eqn:E2; [done|]. injection E as <-. apply negb_false_iff, Z.eqb_eq in E2.
  apply orb_false_iff in E1 as [E1%Z.leb_gt E3%Z.leb_gt]. cbn [master_id slave_id set_nodes]. done.
Qed.
End Typed.

(** C39. axiom-rdma from its command line: the same options and payload bytes on the two
    nodes [a < b] of the application, for a remote read or write (the modes [-m r] and
    [-m w]), with regions of the size that the program allocates and every call of a
    library successful.  In any order before and after the barrier both programs end
    with 0 and dump, with [-v], the bytes of the command line repeated up to the size
    [-s]; these bytes are at the offset of the master and at the offset of the slave,
    with everything else as it was, and no access, local or remote, leaves a region.
    Conditions: the region starts at the same address on both nodes, on which the remote
    addresses rely; at least one byte and not more than [-s] are given (with more the
    program copies out of its array, [rdma_payload_overflow]); [-s] is not larger than the
    array; size and larger offset together are below 4G (above, the region is too small,
    [region_wraps]). *)
Theorem rdma_from_command_line `{CN : NicConsts} {CNOK : NicConstsOk} {RG : Regions} max opts args bytes buffer a b s0 s swap1 swap2 zs :
  0 <= a < b → b < 64 → 64 <= AXIOM_NULL_NODE → alen buffer = max → max < 2 ^ 31 →
  rdma_options opts (rdma0 buffer) = inl s0 → mode s0 = RDMA_READ ∨ mode s0 = RDMA_WRITE →
  parse_bytes args = Some bytes → 1 <= alen args <= payload_size s0 → payload_size s0 <= max →
  payload_size s0 + Z.max (master_offset s0) (slave_offset s0) < 2 ^ 32 →
  choose_nodes 2 (pair_mask a b) s0 = Some (inl s) →
  zone_start (master_id s) = zone_start (slave_id s) →
  alen (zs (master_id s)) = region_size s → alen (zs (slave_id s)) = region_size s →
  let v := repeated bytes (payload_size s0) in
  let out := if verbose_option opts then v else [] in
  ∃ zs', rdma_two_nodes max opts args buffer calls_ok swap1 swap2 (master_id s) (slave_id s) zs = Some ((0, out), (0, out), zs') ∧
    zs' (master_id s) = set_field (Z.to_nat (master_offset s0)) v (zs (master_id s)) ∧
    zs' (slave_id s) = set_field (Z.to_nat (slave_offset s0)) v (zs (slave_id s)) ∧
    ∀ n, n ≠ master_id s → n ≠ slave_id s → zs' n = zs n.
Proof.
  intros Hab Hb Hnull Hbuf H31 Eo Hm Hp Hn Hsz H32 Ec Hst Hz1 Hz2 v out.
  destruct (rdma_options_typed buffer _ _ _ Eo) as [Hids _ _ Ho Epl]; [apply rdma0_typed; lia|].
  destruct (choose_nodes_roles _ _ _ _ Ec Hids) as (Es & Emask & Hm64 & Hs64).
  assert (Hne : master_id s ≠ slave_id s) by (apply pair_mask_inj in Emask; lia).
  destruct (rdma_payload_cyclic max args bytes s0) as (buf & Ef & Hlb & Hc); try done; [|congruence|].
  { unfold uses_payload. by destruct Hm as [->| ->]. }
  assert (Efields : mode s = mode s0 ∧ payload_size s = payload_size s0 ∧ master_offset s = master_offset s0 ∧ slave_offset s = slave_offset s0)
    by (rewrite Es; done).
  destruct Efields as (Em & Eps & Emo & Eso).
  assert (Hfits : fits max (with_payload buf s) zs).
  { split; cbn [with_payload master_id slave_id payload_size payload master_offset slave_offset]; rewrite ?Eps, ?Emo, ?Eso; try done; lia. }
  assert (Hmode : mode s = RDMA_READ ∨ mode s = RDMA_WRITE) by (by rewrite Em).
  destruct (application_spec max (verbose_option opts) swap1 swap2 (with_payload buf s) zs Hfits Hmode) as (zs' & Ea & H1 & H2 & H3).
  assert (Ed : data (with_payload buf s) = v).
  { unfold data, v. cbn [with_payload payload payload_size]. rewrite Eps. apply cyclic_repeated; [done|lia]. }
  rewrite Ed in Ea, H1, H2. cbn [with_payload master_id slave_id master_offset slave_offset] in H1, H2, H3. rewrite Emo in H1. rewrite Eso in H2.
  exists zs'. split; [|done]. eapply two_nodes_application; try done. by rewrite <- Emask.
Qed.

Section Examples.
#[local] Existing Instances nic8 nic8_ok.
#[local] Instance regions8 : Regions := fun _ => 4096.

(** [axiom-rdma -m w -s 3 -O 4 -o 2 -v 7 8] on the nodes 1 and 2. *)
Definition ex_rdma_opts : list (Z * list Z) :=
  [(109, str "w"); (115, str "3"); (79, str "4"); (111, str "2"); (118, [])].
Definition ex_rdma_zones : zones := fun n => replicate 7 n.
Definition ex_rdma_status : axrdma_status_t := mk_rdma RDMA_WRITE 1 0 1 2 3 4 2 (replicate 4 0).

Lemma rdma_from_command_line_witness : ∃ zs',
  rdma_two_nodes 4 ex_rdma_opts [str "7"; str "8"] (replicate 4 0) calls_ok true false 1 2 ex_rdma_zones = Some ((0, [7; 8; 7]), (0, [7; 8; 7]), zs') ∧
  zs' 1 = [1; 1; 1; 1; 7; 8; 7] ∧ zs' 2 = [2; 2; 7; 8; 7; 2; 2].
Proof.
  destruct (rdma_from_command_line 4 ex_rdma_opts [str "7"; str "8"] [7; 8] (replicate 4 0) 1 2
    (mk_rdma RDMA_WRITE 1 0 255 255 3 4 2 (replicate 4 0)) ex_rdma_status true false ex_rdma_zones) as (zs' & E & Hm & Hs & _);
    try (vm_compute; reflexivity); try (vm_compute; split; congruence); try (vm_compute; congruence); try lia.
  - by right.
  - exists zs'. split; [exact E|]. split; [exact Hm|exact Hs].
Defined.

(** With other starts of the region the remote access leaves it. *)
Example starts_differ :
  rdma_two_nodes (RG := fun n => 4096 * n) 4 ex_rdma_opts [str "7"; str "8"] (replicate 4 0) calls_ok true false 1 2 ex_rdma_zones = None.
Proof. vm_compute. reflexivity. Qed.

(** The errors of the libraries leave the exit code at 0. *)
Example errors_exit_0 : rdma_main1 4 ex_rdma_opts [str "7"; str "8"] true 1 2 (pair_mask 1 2) (replicate 4 0)
  (mk_calls 1 true 0 true AXIOM_RET_OK 0) ex_rdma_zones = Some (RExit 0 [], ex_rdma_zones).
Proof. reflexivity. Qed.
End Examples.
