(* ===== verification/RdmaDbg.v ===== *)
(** * axiom-rdma-dbg (axiom-rdma-dbg/axiom-rdma-dbg.c)

    One operation on the RDMA zone for each run of the program: store bytes of the
    command line locally, dump, read from or write to the zone of another node.  The
    theorem about transfers runs the program three times, with command lines, on two
    nodes. *)

From S2P Require Import Prelude Nic RunMsg Text Rdma.

(** [axrdma_status_t] of this program without the device and the zone, and [verbose]. *)
Record dbg_status := mk_dbg {
  d_mode : Z;
  d_port : Z;
  d_remote : Z;
  d_size : Z;
  d_loff : Z;
  d_roff : Z;
  d_verbose : bool;
  d_payload : list Z
}.

Section Code.
Context `{CN : NicConsts}.
(** The size of the array [payload]. *)
Context (AXIOM_RDMA_PAYLOAD_MAX_SIZE : Z).

Definition dbg0 (buffer : list Z) : dbg_status := mk_dbg (-1) 1 AXIOM_NULL_NODE 0 0 0 false buffer.

(** [sscanf(optarg, "%lu%c", &x, &c) == 0]: the scale is computed but not used. *)
Definition scan_offset (arg : list Z) (old : Z) : option Z :=
  match scan_ulong arg with
  | Some (v, _) => Some v
  | None => if bool_decide (skip_spaces arg = []) then Some old else None
  end.

Definition dbg_option (c : Z) (arg : list Z) (s : dbg_status) : dbg_status + Z :=
  if c =? 109 then
    match head arg with
    | Some m => inl (mk_dbg m (d_port s) (d_remote s) (d_size s) (d_loff s) (d_roff s) (d_verbose s) (d_payload s))
    | None => inr (-1) end
  else if c =? 110 then
    match scan_u8 arg with
    | Some (v, _) => inl (mk_dbg (d_mode s) (d_port s) v (d_size s) (d_loff s) (d_roff s) (d_verbose s) (d_payload s))
    | None => inr (-1) end
  else if c =? 111 then
    match scan_offset arg (d_loff s) with
    | Some v => inl (mk_dbg (d_mode s) (d_port s) (d_remote s) (d_size s) v (d_roff s) (d_verbose s) (d_payload s))
    | None => inr (-1) end
  else if c =? 79 then
    match scan_offset arg (d_roff s) with
    | Some v => inl (mk_dbg (d_mode s) (d_port s) (d_remote s) (d_size s) (d_loff s) v (d_verbose s) (d_payload s))
    | None => inr (-1) end
  else if c =? 115 then
    match scan_scaled arg (d_size s) with
    | Some v => inl (mk_dbg (d_mode s) (d_port s) (d_remote s) v (d_loff s) (d_roff s) (d_verbose s) (d_payload s))
    | None => inr (-1) end
  else if c =? 112 then
    match scan_u8 arg with
    | Some (v, _) => if (v <? 0) || (7 <? v) then inr (-1)
        else inl (mk_dbg (d_mode s) v (d_remote s) (d_size s) (d_loff s) (d_roff s) (d_verbose s) (d_payload s))
    | None => inr (-1) end
  else if c =? 118 then inl (mk_dbg (d_mode s) (d_port s) (d_remote s) (d_size s) (d_loff s) (d_roff s) true (d_payload s))
  else if c =? 86 then inr 0
  else inr (-1).

Fixpoint dbg_options (l : list (Z * list Z)) (s : dbg_status) : dbg_status + Z :=
  match l with
  | [] => inl s
  | (c, arg) :: l => match dbg_option c arg s with inl s => dbg_options l s | inr e => inr e end
  end.

(** The payload is read for a local store only. *)
Definition dbg_fill (args : list (list Z)) (s : dbg_status) : option (dbg_status + Z) :=
  if negb (d_mode s =? LOCAL_STORE) then Some (inl s) else
  r ← fill_bytes AXIOM_RDMA_PAYLOAD_MAX_SIZE (d_size s) args (d_payload s);
  Some (match r with
    | inr e => inr e
    | inl buf => inl (mk_dbg (d_mode s) (d_port s) (d_remote s) (d_size s) (d_loff s) (d_roff s) (d_verbose s) buf)
    end).

(** [axrdma_dump]: the bytes that are printed; [None] when it reads outside. *)
Definition dbg_dump (s : dbg_status) (zone : list Z) : option (list Z) :=
  if d_size s =? 0 then Some []
  else if d_loff s + d_size s <=? alen zone then Some (field (Z.to_nat (d_loff s)) (Z.to_nat (d_size s)) zone) else None.

(** [axrdma_store]: the zone and what is printed. *)
Definition dbg_store (s : dbg_status) (zone : list Z) : option (list Z * list Z) :=
  if d_loff s + d_size s <=? alen zone then
    let zone := set_field (Z.to_nat (d_loff s)) (take (Z.to_nat (d_size s)) (d_payload s)) zone in
    if d_verbose s then out ← dbg_dump s zone; Some (out, zone) else Some ([], zone)
  else None.

Definition dbg_remote_ok (s : dbg_status) : bool :=
  negb (d_remote s =? AXIOM_NULL_NODE) && negb ((d_size s =? 0) || (AXIOM_RDMA_PAYLOAD_MAX_SIZE <? d_size s)).

(** [axrdma_read] and [axrdma_write] on [node], with the result of the driver. *)
Definition dbg_read (s : dbg_status) (node ret : Z) (zs : zones) : zones :=
  if negb (dbg_remote_ok s) then zs
  else if negb (AXIOM_RET_IS_OK ret) then zs
  else set_zone node (set_field (Z.to_nat (d_loff s)) (field (Z.to_nat (d_roff s)) (Z.to_nat (d_size s)) (zs (d_remote s))) (zs node)) zs.
Definition dbg_write (s : dbg_status) (node ret : Z) (zs : zones) : zones :=
  if negb (dbg_remote_ok s) then zs
  else if negb (AXIOM_RET_IS_OK ret) then zs
  else set_zone (d_remote s)
    (set_field (Z.to_nat (d_roff s)) (field (Z.to_nat (d_loff s)) (Z.to_nat (d_size s)) (zs node)) (zs (d_remote s))) zs.

(** The check, on 64 bits, and the mode. *)
Definition dbg_run (s : dbg_status) (node ret : Z) (zs : zones) : option (list Z * zones) :=
  if alen (zs node) <? u64 (d_size s + d_loff s) then Some ([], zs)
  else if d_mode s =? RDMA_READ then Some ([], dbg_read s node ret zs)
  else if d_mode s =? RDMA_WRITE then Some ([], dbg_write s node ret zs)
  else if d_mode s =? LOCAL_DUMP then out ← dbg_dump s (zs node); Some (out, zs)
  else if d_mode s =? LOCAL_STORE then r ← dbg_store s (zs node); Some (r.1, set_zone node r.2 zs)
  else Some ([], zs).

(** [main] on [node]: what it prints and the zones, or an exit code; [None] is
    undefined behaviour.  [dev] and [mapped]: the device opened, the zone mapped. *)
Definition dbg_main (opts : list (Z * list Z)) (args : list (list Z)) (dev mapped : bool) (node ret : Z) (buffer : list Z) (zs : zones) :
    option ((list Z * zones) + Z) :=
  match dbg_options opts (dbg0 buffer) with
  | inr e => Some (inr e)
  | inl s =>
      r ← dbg_fill args s;
      match r with
      | inr e => Some (inr e)
      | inl s =>
          if negb dev then Some (inr (-1))
          else if negb mapped then Some (inl ([], zs))
          else r ← dbg_run s node ret zs; Some (inl r)
      end
  end.
End Code.

(** ** What the program accesses *)

(** The operations of the local modes stay in the zone when the sum of offset and size
    does not wrap at 64 bits. *)
Theorem dbg_local_safe `{CN : NicConsts} max s node ret zs :
  0 <= d_size s → 0 <= d_loff s → d_size s + d_loff s < 2 ^ 64 → is_Some (dbg_run max s node ret zs).
Proof.
  intros Hs Ho Hw. unfold dbg_run. rewrite u64_small by lia. destruct (Z.ltb_spec (alen (zs node)) (d_size s + d_loff s)); [eauto|].
  destruct (d_mode s =? RDMA_READ); [eauto|]. destruct (d_mode s =? RDMA_WRITE); [eauto|].
  assert (Hd : ∀ z, alen z = alen (zs node) → is_Some (dbg_dump s z)).
  { intros z Hz. unfold dbg_dump. destruct (d_size s =? 0); [eauto|]. rewrite Hz, (proj2 (Z.leb_le _ _)) by lia. eauto. }
  destruct (d_mode s =? LOCAL_DUMP).
  { destruct (Hd (zs node) eq_refl) as [out E]. rewrite E. cbn. eauto. }
  destruct (d_mode s =? LOCAL_STORE); [|eauto]. unfold dbg_store. rewrite (proj2 (Z.leb_le _ _)) by lia. destruct (d_verbose s); [|cbn; eauto].
  destruct (Hd (set_field (Z.to_nat (d_loff s)) (take (Z.to_nat (d_size s)) (d_payload s)) (zs node))) as [out E].
  { unfold alen in *. unfold set_field. rewrite !length_app, length_drop, !length_take. lia. }
  rewrite E. cbn. eauto.
Qed.

(** The unit after an offset is read and ignored: [-o 4K] is the offset 4, although the
    help promises units for the offsets too. *)
Theorem dbg_suffix_ignored `{CN : NicConsts} n c s : 0 <= n < 2 ^ 64 → is_digit 10 c = false →
  dbg_option 111 (fmt_unsigned 10 n ++ [c]) s =
    inl (mk_dbg (d_mode s) (d_port s) (d_remote s) (d_size s) n (d_roff s) (d_verbose s) (d_payload s)).
Proof. intros Hn Hc. unfold dbg_option, scan_offset. cbn [Z.eqb Pos.eqb]. by rewrite scan_ulong_fmt. Qed.

(** ** Transfers *)

Section Transfer.
Context `{CN : NicConsts} {CNOK : NicConstsOk} (max : Z).

(** The command lines [-m M -o LOFF -s SIZE], [-m M -n NODE -o LOFF -O ROFF -s SIZE]. *)
Definition local_line (m loff size : Z) : list (Z * list Z) :=
  [(109, [m]); (111, fmt_unsigned 10 loff); (115, fmt_unsigned 10 size)].
Definition remote_line (m node loff roff size : Z) : list (Z * list Z) :=
  [(109, [m]); (110, fmt_unsigned 10 node); (111, fmt_unsigned 10 loff); (79, fmt_unsigned 10 roff); (115, fmt_unsigned 10 size)].

Lemma scan_ulong_whole n : 0 <= n < 2 ^ 64 → scan_ulong (fmt_unsigned 10 n) = Some (n, []).
Proof. intros Hn. rewrite <- (app_nil_r (fmt_unsigned 10 n)). by apply scan_ulong_fmt. Qed.

Lemma scan_scaled_whole n old : 0 <= n < 2 ^ 32 → scan_scaled (fmt_unsigned 10 n) old = Some n.
Proof.
  intros Hn. unfold scan_scaled, scan_u32. rewrite scan_ulong_whole by lia. cbn. rewrite Z.shiftl_0_r, (u32_small n), u32_small by lia. done.
Qed.

Lemma local_line_parsed m loff size buf : 0 <= loff < 2 ^ 64 → 0 <= size < 2 ^ 32 →
  dbg_options (local_line m loff size) (dbg0 buf) = inl (mk_dbg m 1 AXIOM_NULL_NODE size loff 0 false buf).
Proof.
  intros Hl Hs. unfold local_line, dbg0, dbg_options, dbg_option, scan_offset. cbn [Z.eqb Pos.eqb head d_loff d_size d_mode d_port d_remote d_roff d_verbose d_payload].
  by rewrite scan_ulong_whole, scan_scaled_whole.
Qed.

Lemma remote_line_parsed m node loff roff size buf : 0 <= node < 256 → 0 <= loff < 2 ^ 64 → 0 <= roff < 2 ^ 64 → 0 <= size < 2 ^ 32 →
  dbg_options (remote_line m node loff roff size) (dbg0 buf) = inl (mk_dbg m 1 node size loff roff false buf).
Proof.
  intros Hn Hl Hr Hs. unfold remote_line, dbg0, dbg_options, dbg_option, scan_offset, scan_u8.
  cbn [Z.eqb Pos.eqb head d_loff d_size d_mode d_port d_remote d_roff d_verbose d_payload].
  rewrite scan_ulong_whole by lia. cbn [mbind option_bind]. rewrite u8_small by lia.
  cbn [d_loff d_size d_mode d_port d_remote d_roff d_verbose d_payload].
  by rewrite !scan_ulong_whole, scan_scaled_whole.
Qed.

(** The three operations, from their command lines. *)
Lemma dbg_store_run loff size args bytes a ret buf zs : parse_bytes args = Some bytes → alen buf = max → max < 2 ^ 31 →
  1 <= alen args <= size → size <= max → 0 <= loff → loff + size <= alen (zs a) → alen (zs a) < 2 ^ 64 →
  ∃ data, alen data = size ∧ cyclic bytes data size ∧
    dbg_main max (local_line LOCAL_STORE loff size) args true true a ret buf zs =
      Some (inl ([], set_zone a (set_field (Z.to_nat loff) data (zs a)) zs)).
Proof.
  intros Hp Hb Hmax Ha Hs Hl Hz Hw. destruct (fill_bytes_cyclic max size args bytes buf) as (buf' & E & Hl' & Hc); try done.
  exists (take (Z.to_nat size) buf'). unfold alen in *. split; [rewrite length_take; lia|]. split.
  - intros i Hi. rewrite <- Hc by done. unfold aget. destruct (Z.ltb_spec i 0); [lia|]. rewrite !list_lookup_total_alt, lookup_take_lt by lia. done.
  - unfold dbg_main. rewrite local_line_parsed by lia. unfold dbg_fill. cbn [d_mode d_size d_payload]. change (LOCAL_STORE =? LOCAL_STORE) with true. cbn [negb].
    rewrite E. cbn [mbind option_bind negb]. unfold dbg_run. cbn [d_mode d_size d_loff d_payload d_port d_remote d_roff d_verbose]. unfold alen. rewrite u64_small by lia.
    rewrite (proj2 (Z.ltb_ge _ _)) by lia. change (LOCAL_STORE =? RDMA_READ) with false. change (LOCAL_STORE =? RDMA_WRITE) with false.
    change (LOCAL_STORE =? LOCAL_DUMP) with false. change (LOCAL_STORE =? LOCAL_STORE) with true. cbn iota. unfold dbg_store.
    cbn [d_mode d_size d_loff d_payload d_verbose]. unfold alen. rewrite (proj2 (Z.leb_le _ _)) by lia. done.
Qed.

Lemma dbg_dump_run loff size args a ret buf zs : 1 <= size < 2 ^ 32 → 0 <= loff → loff + size <= alen (zs a) → alen (zs a) < 2 ^ 64 →
  dbg_main max (local_line LOCAL_DUMP loff size) args true true a ret buf zs = Some (inl (field (Z.to_nat loff) (Z.to_nat size) (zs a), zs)).
Proof.
  intros Hs Hl Hz Hw. unfold dbg_main. rewrite local_line_parsed by lia. unfold dbg_fill. cbn [d_mode]. change (LOCAL_DUMP =? LOCAL_STORE) with false.
  cbn [negb mbind option_bind]. unfold dbg_run. cbn [d_mode d_size d_loff]. rewrite u64_small by lia. rewrite (proj2 (Z.ltb_ge _ _)) by lia.
  change (LOCAL_DUMP =? RDMA_READ) with false. change (LOCAL_DUMP =? RDMA_WRITE) with false. change (LOCAL_DUMP =? LOCAL_DUMP) with true. cbn iota.
  unfold dbg_dump. cbn [d_size d_loff]. rewrite (proj2 (Z.eqb_neq size 0)) by lia. rewrite (proj2 (Z.leb_le _ _)) by lia. done.
Qed.

(** A read or a write on node [x] towards node [y]. *)
Lemma dbg_remote_run m loff roff size args x y buf zs : m = RDMA_READ ∨ m = RDMA_WRITE → 0 <= y < 256 → y ≠ AXIOM_NULL_NODE →
  1 <= size <= max → max < 2 ^ 31 → 0 <= loff → 0 <= roff < 2 ^ 64 → loff + size <= alen (zs x) → alen (zs x) < 2 ^ 64 →
  dbg_main max (remote_line m y loff roff size) args true true x AXIOM_RET_OK buf zs =
    Some (inl ([], if m =? RDMA_READ
      then set_zone x (set_field (Z.to_nat loff) (field (Z.to_nat roff) (Z.to_nat size) (zs y)) (zs x)) zs
      else set_zone y (set_field (Z.to_nat roff) (field (Z.to_nat loff) (Z.to_nat size) (zs x)) (zs y)) zs)).
Proof using CNOK.
  intros Hm Hy Hnull Hs Hmax Hl Hr Hz Hw. unfold dbg_main. rewrite remote_line_parsed by lia. unfold dbg_fill. cbn [d_mode].
  assert (Hne : (m =? LOCAL_STORE) = false) by (by destruct Hm as [-> | ->]). rewrite Hne. cbn [negb mbind option_bind].
  unfold dbg_run. cbn [d_mode d_size d_loff]. rewrite u64_small by lia. rewrite (proj2 (Z.ltb_ge _ _)) by lia.
  assert (Hok : dbg_remote_ok max (mk_dbg m 1 y size loff roff false buf) = true).
  { unfold dbg_remote_ok. cbn. rewrite (proj2 (Z.eqb_neq y AXIOM_NULL_NODE)), (proj2 (Z.eqb_neq size 0)), (proj2 (Z.ltb_ge max size)) by lia. done. }
  unfold dbg_read, dbg_write. rewrite Hok, ret_ok_ok. cbn [negb d_loff d_roff d_size d_remote]. destruct Hm as [-> | ->]; done.
Qed.
End Transfer.

(** C12. Store on node [a], then carry over, by a write on [a] or a read on [b], then dump on
    [b]: the dump shows the bytes of the first command line, repeated up to the size,
    and nothing else of the two zones has changed. *)
Theorem dbg_transfer `{CN : NicConsts} {CNOK : NicConstsOk} max (by_read : bool) a b aoff boff size args bytes r1 r3 buf1 buf2 buf3 zs :
  parse_bytes args = Some bytes → alen buf1 = max → max < 2 ^ 31 → 1 <= alen args <= size → size <= max →
  0 <= a < 256 → 0 <= b < 256 → a ≠ b → a ≠ AXIOM_NULL_NODE → b ≠ AXIOM_NULL_NODE →
  0 <= aoff → aoff + size <= alen (zs a) → alen (zs a) < 2 ^ 64 → 0 <= boff → boff + size <= alen (zs b) → alen (zs b) < 2 ^ 64 →
  ∃ data zs1 zs2,
    alen data = size ∧ cyclic bytes data size ∧
    dbg_main max (local_line LOCAL_STORE aoff size) args true true a r1 buf1 zs = Some (inl ([], zs1)) ∧
    dbg_main max (if by_read then remote_line RDMA_READ a boff aoff size else remote_line RDMA_WRITE b aoff boff size) [] true true
      (if by_read then b else a) AXIOM_RET_OK buf2 zs1 = Some (inl ([], zs2)) ∧
    dbg_main max (local_line LOCAL_DUMP boff size) [] true true b r3 buf3 zs2 = Some (inl (data, zs2)) ∧
    zs2 a = set_field (Z.to_nat aoff) data (zs a) ∧ zs2 b = set_field (Z.to_nat boff) data (zs b) ∧ ∀ n, n ≠ a → n ≠ b → zs2 n = zs n.
Proof.
  intros Hp Hb1 Hmax Hargs Hs Ha Hb Hab Hna Hnb Hao Haz Haw Hbo Hbz Hbw.
  destruct (dbg_store_run max aoff size args bytes a r1 buf1 zs) as (data & Hl & Hc & E1); try done; try lia.
  set (zs1 := set_zone a (set_field (Z.to_nat aoff) data (zs a)) zs) in *.
  set (zs2 := set_zone b (set_field (Z.to_nat boff) data (zs b)) zs1).
  assert (H1a : zs1 a = set_field (Z.to_nat aoff) data (zs a)) by (unfold zs1; by rewrite set_zone_eq).
  assert (H1b : zs1 b = zs b) by (unfold zs1; by rewrite set_zone_ne).
  assert (Hla : alen (zs1 a) = alen (zs a)).
  { rewrite H1a. unfold alen, set_field in *. rewrite !length_app, length_drop, length_take. lia. }
  assert (Hf : field (Z.to_nat aoff) (Z.to_nat size) (zs1 a) = data) by (rewrite H1a; apply field_set_field; unfold alen in *; lia).
  assert (H2b : zs2 b = set_field (Z.to_nat boff) data (zs b)) by (unfold zs2; by rewrite set_zone_eq).
  assert (Hlb : alen (zs2 b) = alen (zs b)).
  { rewrite H2b. unfold alen, set_field in *. rewrite !length_app, length_drop, length_take. lia. }
  exists data, zs1, zs2. split; [done|]. split; [done|]. split; [exact E1|]. split.
  - destruct by_read.
    + rewrite (dbg_remote_run max RDMA_READ) by (try (by left); try done; rewrite ?H1b; lia).
      change (RDMA_READ =? RDMA_READ) with true. cbn iota. by rewrite Hf, H1b.
    + rewrite (dbg_remote_run max RDMA_WRITE) by (try (by right); try done; rewrite ?Hla; lia).
      change (RDMA_WRITE =? RDMA_READ) with false. cbn iota. by rewrite Hf, H1b.
  - split.
    + rewrite (dbg_dump_run max) by (rewrite ?Hlb; lia). do 3 f_equal. rewrite H2b. apply field_set_field; unfold alen in *; lia.
    + split; [unfold zs2; rewrite set_zone_ne by done; exact H1a|]. split; [exact H2b|]. intros n Hn1 Hn2. unfold zs2, zs1. by rewrite !set_zone_ne.
Qed.

Section Examples.
#[local] Existing Instances nic8 nic8_ok.

Definition dbg_zones : zones := fun n => replicate 8 n.

(** [-m s -o 1 -s 3 5 6] on node 2, [-m w -n 3 -o 1 -O 4 -s 3] there, [-m d -o 4 -s 3] on node 3. *)
Lemma dbg_transfer_witness : ∃ data zs1 zs2,
  dbg_main 4 (local_line LOCAL_STORE 1 3) [str "5"; str "6"] true true 2 0 (replicate 4 0) dbg_zones = Some (inl ([], zs1)) ∧
  dbg_main 4 (local_line LOCAL_DUMP 4 3) [] true true 3 0 [] zs2 = Some (inl (data, zs2)) ∧ cyclic [5; 6] data 3.
Proof.
  destruct (dbg_transfer 4 false 2 3 1 4 3 [str "5"; str "6"] [5; 6] 0 0 (replicate 4 0) [] [] dbg_zones)
    as (data & zs1 & zs2 & _ & Hc & E1 & _ & E3 & _); try lia; try (vm_compute; (reflexivity || congruence || (split; congruence))).
  exists data, zs1, zs2. split; [exact E1|]. split; [exact E3|exact Hc].
Defined.

Lemma dbg_local_safe_witness : is_Some (dbg_run 4 (mk_dbg LOCAL_DUMP 1 255 3 6 0 false []) 2 0 dbg_zones).
Proof. apply (dbg_local_safe 4 (mk_dbg LOCAL_DUMP 1 255 3 6 0 false []) 2 0 dbg_zones); cbn; lia. Defined.

Lemma dbg_suffix_ignored_witness : dbg_option 111 (str "4K") (dbg0 []) = inl (mk_dbg (-1) 1 255 0 4 0 false []).
Proof.
  assert (E : str "4K" = fmt_unsigned 10 4 ++ [75]) by (vm_compute; reflexivity). rewrite E.
  rewrite (dbg_suffix_ignored 4 75 (dbg0 [])); [vm_compute; reflexivity|lia|reflexivity].
Defined.

(** An offset just below 2^64 passes the check, and the dump reads outside of the zone. *)
Example dbg_check_wraps : dbg_run 4 (mk_dbg LOCAL_DUMP 1 255 3 (2 ^ 64 - 1) 0 false []) 2 0 dbg_zones = None.
Proof. vm_compute. done. Qed.
End Examples.
