(* ===== verification/Utility.v ===== *)
(** * axiom-utility and axiom-whoami (axiom-utility/axiom-utility.c,
    axiom-whoami/axiom-whoami.c)

    The utility flushes the messages that wait at ports nobody has bound, or tells the
    daemon of the node to start a discovery; the other program prints the number of
    the node. *)

From S2P Require Import Prelude Nic CStrings Session Spawn Daemon Text.

(** Constants of the headers. *)
Class UtilConsts := {
  AXIOM_PORT_MAX : Z;
  AXIOM_FLAG_NOFLUSH : Z
}.

(** The calls: the device is opened with flags, bound to a port and closed; the two
    tests for a message; [axiom_recv], which stores the port of the message unless it
    fails; the pauses and the output; the socket of the daemon. *)
Class UtilDev (D : Type) := {
  u_open : Z → M D bool;
  u_close : M D unit;
  u_bind : Z → M D Z;
  u_raw_avail : M D bool;
  u_long_avail : M D bool;
  u_recv : M D (option Z);
  u_sleep : M D unit;
  u_say : list Z → M D unit;
  u_node_id : M D Z;
  u_socket : M D Z;
  u_sendmsg : Z → list Z → M D Z;
  u_close_socket : Z → M D unit
}.

Section Code.
Context `{CN : NicConsts} `{UC : UtilConsts} `{IC : InitConsts} {D : Type} `{UD : UtilDev D}.

(** [while (axiom_recv_raw_avail(dev) || axiom_recv_long_avail(dev))]: the variable
    [port] is also where the reception stores the port. *)
Definition drain_turn (st : Z * Z) : M D ((Z * Z) + (Z * Z)) :=
  let '(port, counter) := st in
  raw ← u_raw_avail;
  avail ← (if raw : bool then mret true else u_long_avail);
  if avail : bool then p ← u_recv; mret (inl (default port p, counter + 1)) else mret (inr (port, counter)).

(** [for (;;)] until nothing came during a pause. *)
Definition flush_turn (fuel : nat) (st : Z * Z * Z) : M D ((Z * Z * Z) + (Z * Z)) :=
  let '(port, counter, oldcounter) := st in
  r ← loop fuel drain_turn (port, counter);
  if r.2 =? oldcounter then mret (inr r) else u_sleep ;; mret (inl (r, r.2)).

Definition flushed_text (port counter : Z) : list Z :=
  str "flushing port " ++ fmt_d port ++ str "... flushed (found " ++ fmt_d counter ++ str " lost packets)!" ++ [10].
Definition skipped_text (port : Z) : list Z := str "skipped port " ++ fmt_d port ++ [10].

(** One turn of the loop over the ports, with the device of the turn before; [inr] is
    an exit code.  The two lines about a port are printed as one. *)
Definition port_turn (fuel : nat) (verbose : bool) (st : Z * bool) : M D ((Z * bool) + Z) :=
  let '(port, opened) := st in
  if AXIOM_PORT_MAX <? port then (if opened then u_close else mret tt) ;; mret (inr 0) else
  (if opened then u_close else mret tt) ;;
  dev ← u_open AXIOM_FLAG_NOFLUSH;
  if negb dev then mret (inr (-1)) else
  err ← u_bind port;
  if negb (AXIOM_RET_IS_OK err) then
    (if verbose then u_say (skipped_text port) else mret tt) ;; mret (inl (u8 (port + 1), true))
  else
    r ← loop fuel (flush_turn fuel) (port, 0, -1);
    (if verbose then u_say (flushed_text port r.2) else mret tt) ;; mret (inl (u8 (r.1 + 1), true)).

Definition exec_flush (fuel : nat) (verbose : bool) : M D Z := loop fuel (port_turn fuel verbose) (0, false).

(** The datagram for the daemon is the command alone. *)
Definition exec_start_network_discovery : M D unit :=
  sock ← u_socket;
  if sock =? -1 then mret tt else
  res ← u_sendmsg sock [AXIOM_CMD_START_DISCOVERY];
  u_close_socket sock.

(** The last of [-f] and [-m] counts; [inr] is an exit code. *)
Fixpoint util_options (l : list Z) (cmd : Z) (verbose : bool) : (Z * bool) + Z :=
  match l with
  | [] => inl (cmd, verbose)
  | c :: l =>
      if c =? 102 then util_options l 1 verbose
      else if c =? 109 then util_options l 2 verbose
      else if c =? 118 then util_options l cmd true
      else if c =? 104 then inr (-1)
      else if c =? 86 then inr 0
      else inr (-1)
  end.

Definition util_main (fuel : nat) (args : list Z) : M D Z :=
  match util_options args 0 false with
  | inr code => mret code
  | inl (cmd, verbose) =>
      if cmd =? 1 then exec_flush fuel verbose
      else if cmd =? 2 then exec_start_network_discovery ;; mret 0
      else mret (-1)
  end.

(** axiom-whoami *)
Definition whoami_main : M D Z :=
  dev ← u_open 0;
  if negb dev then mret (-1) else
  node ← u_node_id;
  u_say (str "I'm node " ++ fmt_d node ++ [10]) ;;
  u_close ;; mret 0.
End Code.

(** ** The flush empties every free port *)

(** A device: for each port the waiting messages (long or raw), which ports other
    programs have bound, the port this one has bound, and the output. *)
Record ports := mk_ports { pt_queue : Z → list bool; pt_busy : Z → bool; pt_bound : option Z; pt_said : list (list Z) }.

Section Ports.
Context `{CN : NicConsts} {CNOK : NicConstsOk} `{UC : UtilConsts}.

Definition set_queue (p : Z) (l : list bool) (q : Z → list bool) : Z → list bool := fun k => if k =? p then l else q k.
Definition bound_queue (d : ports) : list bool := match pt_bound d with Some p => pt_queue d p | None => [] end.

#[export] Instance ports_dev : UtilDev ports := {|
  u_open _ d := Ret true (mk_ports (pt_queue d) (pt_busy d) None (pt_said d));
  u_close d := Ret tt (mk_ports (pt_queue d) (pt_busy d) None (pt_said d));
  u_bind p d := if pt_busy d p then Ret AXIOM_RET_ERROR d else Ret AXIOM_RET_OK (mk_ports (pt_queue d) (pt_busy d) (Some p) (pt_said d));
  u_raw_avail d := Ret (existsb negb (bound_queue d)) d;
  u_long_avail d := Ret (existsb id (bound_queue d)) d;
  u_recv d := match pt_bound d with
    | Some p => match pt_queue d p with
        | [] => Stuck Blocked d
        | _ :: l => Ret (Some p) (mk_ports (set_queue p l (pt_queue d)) (pt_busy d) (Some p) (pt_said d)) end
    | None => Ret None d end;
  u_sleep d := Ret tt d;
  u_say t d := Ret tt (mk_ports (pt_queue d) (pt_busy d) (pt_bound d) (pt_said d ++ [t]));
  u_node_id d := Ret 0 d;
  u_socket d := Ret 3 d;
  u_sendmsg _ b d := Ret (alen b) (mk_ports (pt_queue d) (pt_busy d) (pt_bound d) (pt_said d ++ [b]));
  u_close_socket _ d := Ret tt d
|}.

Lemma set_queue_set p l l' q : ∀ k, set_queue p l (set_queue p l' q) k = set_queue p l q k.
Proof. intros k. unfold set_queue. by destruct (k =? p). Qed.

(** Devices with the same queues for every port. *)
Definition same (d d' : ports) : Prop :=
  (∀ k, pt_queue d k = pt_queue d' k) ∧ pt_busy d = pt_busy d' ∧ pt_bound d = pt_bound d' ∧ pt_said d = pt_said d'.

Lemma avail_any (l : list bool) : existsb negb l || existsb id l = negb (bool_decide (l = [])).
Proof. destruct l as [|[] l]; [done|cbn; by rewrite orb_true_r|done]. Qed.

Lemma drain_turn_eq p c d : pt_bound d = Some p → drain_turn (p, c) d =
  match pt_queue d p with
  | [] => Ret (inr (p, c)) d
  | _ :: l => Ret (inl (p, c + 1)) (mk_ports (set_queue p l (pt_queue d)) (pt_busy d) (Some p) (pt_said d))
  end.
Proof.
  intros Hb. unfold drain_turn, mbind, M_bind, mret, M_ret. cbn [u_raw_avail u_long_avail u_recv ports_dev]. unfold bound_queue. rewrite Hb.
  destruct (pt_queue d p) as [|b l] eqn:E; [cbn; by rewrite Hb, E|]. pose proof (avail_any (b :: l)) as Ha. rewrite bool_decide_false in Ha by done.
  destruct (existsb negb (b :: l)); [by rewrite Hb, E|]. cbn [orb negb] in Ha. rewrite Hb, E, Ha. by rewrite Hb, E.
Qed.

Lemma drain_all fuel p c d l : pt_bound d = Some p → pt_queue d p = l → (length l < fuel)%nat →
  ∃ d', loop fuel drain_turn (p, c) d = Ret (p, c + alen l) d' ∧
    same d' (mk_ports (set_queue p [] (pt_queue d)) (pt_busy d) (Some p) (pt_said d)).
Proof.
  revert fuel c d. induction l as [|b l IH]; intros fuel c d Hb Hq Hf; (destruct fuel as [|fuel]; [cbn in Hf; lia|]); cbn [loop];
    unfold mbind, M_bind; rewrite drain_turn_eq, Hq by done.
  - exists d. split; [unfold alen; cbn; by rewrite Z.add_0_r|]. split; [|done]. intros k. cbn. unfold set_queue. by destruct (Z.eqb_spec k p) as [->|].
  - set (d1 := mk_ports (set_queue p l (pt_queue d)) (pt_busy d) (Some p) (pt_said d)).
    assert (Hq1 : pt_queue d1 p = l) by (cbn; unfold set_queue; by rewrite Z.eqb_refl).
    destruct (IH fuel (c + 1) d1 eq_refl Hq1 ltac:(cbn in Hf; lia)) as (d' & E & Hs & Hrest). exists d'. split.
    + rewrite E. do 2 f_equal. unfold alen. cbn. lia.
    + split; [|done]. intros k. rewrite Hs. cbn. apply set_queue_set.
Qed.

(** A port is drained in the first round; the second one finds nothing. *)
Lemma flush_port fuel p d : pt_bound d = Some p → (length (pt_queue d p) < fuel)%nat → (2 <= fuel)%nat →
  ∃ d', loop fuel (flush_turn fuel) (p, 0, -1) d = Ret (p, alen (pt_queue d p)) d' ∧
    same d' (mk_ports (set_queue p [] (pt_queue d)) (pt_busy d) (Some p) (pt_said d)).
Proof.
  intros Hb Hf H2. set (l := pt_queue d p) in *. destruct fuel as [|[|fuel]]; [lia|lia|]. remember (S (S fuel)) as f eqn:Ef.
  destruct (drain_all f p 0 d l Hb eq_refl Hf) as (d1 & E1 & Hs1). rewrite Z.add_0_l in E1.
  assert (Hb1 : pt_bound d1 = Some p) by apply Hs1. assert (Hq1 : pt_queue d1 p = []) by (destruct Hs1 as [H _]; rewrite H; cbn; unfold set_queue; by rewrite Z.eqb_refl).
  destruct (drain_all f p (alen l) d1 [] Hb1 Hq1 ltac:(cbn; lia)) as (d2 & E2 & Hs2).
  assert (Hl : 0 <= alen l) by (unfold alen; lia).
  exists d2. split.
  - rewrite Ef at 1. cbn [loop]. unfold mbind, M_bind, flush_turn at 1, mbind, M_bind. rewrite E1. cbn [snd]. rewrite (proj2 (Z.eqb_neq _ (-1))) by lia.
    cbn [u_sleep ports_dev mret M_ret]. unfold flush_turn at 1, mbind, M_bind. rewrite E2. cbn [snd].
    replace (alen l + alen []) with (alen l) by (unfold alen; cbn; lia). by rewrite Z.eqb_refl.
  - destruct Hs1 as (A1 & A2 & A3 & A4), Hs2 as (B1 & B2 & B3 & B4). split; [|cbn in *; split_and!; congruence].
    intros k. rewrite B1. cbn. unfold set_queue. destruct (Z.eqb_spec k p); [done|]. rewrite A1. cbn. unfold set_queue. by rewrite (proj2 (Z.eqb_neq k p)).
Qed.

(** More fuel does not change the result of a loop that ends. *)
Lemma loop_more {S R} n m body (s : S) (d d' : ports) (r : R) : loop n body s d = Ret r d' → loop (n + m) body s d = Ret r d'.
Proof.
  revert s d. induction n as [|n IH]; intros s d H; [done|]. cbn [loop Nat.add] in *. unfold mbind, M_bind in *.
  destruct (body s d) as [[s'|x] d1|]; [by apply IH|done|done].
Qed.

(** What the flush leaves in the queues and says, for the ports from [k] on. *)
Definition left_over (d : ports) (k p : Z) : list bool :=
  if (k <=? p) && (p <=? AXIOM_PORT_MAX) && negb (pt_busy d p) then [] else pt_queue d p.
Definition report (d : ports) (verbose : bool) (k : Z) : list (list Z) :=
  if verbose then (fun p => if pt_busy d p then skipped_text p else flushed_text p (alen (pt_queue d p))) <$> seqZ k (AXIOM_PORT_MAX + 1 - k) else [].

Lemma report_next d verbose k : k <= AXIOM_PORT_MAX →
  report d verbose k = (if verbose then [if pt_busy d k then skipped_text k else flushed_text k (alen (pt_queue d k))] else []) ++ report d verbose (k + 1).
Proof.
  intros Hk. unfold report. destruct verbose; [|done]. rewrite seqZ_cons by lia. cbn. do 3 f_equal; lia.
Qed.

(** One port: the queue is emptied unless the port is bound. *)
Lemma port_turn_spec fuel verbose k opened d : 0 <= k <= AXIOM_PORT_MAX → AXIOM_PORT_MAX < 255 → (2 <= fuel)%nat →
  (length (pt_queue d k) < fuel)%nat →
  ∃ d', port_turn fuel verbose (k, opened) d = Ret (inl (k + 1, true)) d' ∧ pt_busy d' = pt_busy d ∧
    (∀ p, pt_queue d' p = if (p =? k) && negb (pt_busy d k) then [] else pt_queue d p) ∧
    pt_said d' = pt_said d ++ (if verbose then [if pt_busy d k then skipped_text k else flushed_text k (alen (pt_queue d k))] else []).
Proof using CNOK.
  intros Hk Hmax Hf Hq. unfold port_turn. rewrite (proj2 (Z.ltb_ge AXIOM_PORT_MAX k)) by lia. unfold mbind, M_bind.
  set (d0 := mk_ports (pt_queue d) (pt_busy d) None (pt_said d)).
  assert (E0 : ∃ dc, (if opened then u_close else mret tt) d = Ret tt dc ∧ u_open AXIOM_FLAG_NOFLUSH dc = Ret true d0).
  { destruct opened; eexists; (split; [reflexivity|reflexivity]). }
  destruct E0 as (dc & -> & ->). cbn [negb]. cbn [u_bind ports_dev]. change (pt_busy d0 k) with (pt_busy d k).
  destruct (pt_busy d k) eqn:Eb.
  - rewrite ret_error_not_ok. cbn [negb]. rewrite u8_small by lia.
    destruct verbose; eexists; (split; [reflexivity|]); cbn; rewrite ?app_nil_r; (split; [done|]); (split; [|done]); intros p; by rewrite andb_false_r.
  - rewrite ret_ok_ok. cbn [negb].
    destruct (flush_port fuel k (mk_ports (pt_queue d0) (pt_busy d0) (Some k) (pt_said d0)) eq_refl Hq Hf) as (d' & E & Hs & Hbusy & Hbound & Hsaid).
    rewrite E. cbn [fst snd]. rewrite u8_small by lia. cbn in Hs, Hbusy, Hbound, Hsaid.
    destruct verbose; eexists; (split; [reflexivity|]); cbn; rewrite ?Hsaid, ?app_nil_r; (split; [done|]); (split; [|done]);
      intros p; rewrite Hs; unfold set_queue; by rewrite andb_true_r.
Qed.

Lemma flush_from fuel n verbose k opened d : Z.of_nat n = AXIOM_PORT_MAX + 1 - k → 0 <= k → AXIOM_PORT_MAX < 255 → (2 <= fuel)%nat →
  (∀ p, (length (pt_queue d p) < fuel)%nat) →
  ∃ d', loop (S n) (port_turn fuel verbose) (k, opened) d = Ret 0 d' ∧ pt_busy d' = pt_busy d ∧
    (∀ p, pt_queue d' p = left_over d k p) ∧ pt_said d' = pt_said d ++ report d verbose k.
Proof using CNOK.
  revert k opened d. induction n as [|n IH]; intros k opened d Hn Hk Hmax Hf Hq.
  - cbn [loop]. unfold mbind, M_bind, port_turn, mbind, M_bind. rewrite (proj2 (Z.ltb_lt AXIOM_PORT_MAX k)) by lia.
    assert (Hr : report d verbose k = []).
    { unfold report. destruct verbose; [|done]. replace (AXIOM_PORT_MAX + 1 - k) with 0 by lia. done. }
    assert (Hl : ∀ p, left_over d k p = pt_queue d p).
    { intros p. unfold left_over. destruct (Z.leb_spec k p), (Z.leb_spec p AXIOM_PORT_MAX); try done. lia. }
    rewrite Hr, app_nil_r. destruct opened; eexists; (split; [reflexivity|]); cbn; done.
  - remember (S n) as n' eqn:En. cbn [loop]. unfold mbind, M_bind.
    destruct (port_turn_spec fuel verbose k opened d) as (d1 & E & Hb & Hq1 & Hs); [lia|done|done|done|]. rewrite E. subst n'.
    destruct (IH (k + 1) true d1) as (d' & E' & Hb' & Hq' & Hs'); [lia|lia|done|done| |].
    { intros p. rewrite Hq1. destruct (_ && _); [cbn; lia|done]. }
    exists d'. split; [exact E'|]. split; [congruence|]. split.
    + intros p. rewrite Hq'. unfold left_over. rewrite Hb, Hq1. destruct (Z.eqb_spec p k) as [->|Hne]; cbn [andb].
      * rewrite (proj2 (Z.leb_gt (k + 1) k)), (proj2 (Z.leb_le k k)), (proj2 (Z.leb_le k AXIOM_PORT_MAX)) by lia. cbn. by destruct (pt_busy d k).
      * assert (Hle : (k + 1 <=? p) = (k <=? p)) by (destruct (Z.leb_spec (k + 1) p), (Z.leb_spec k p); lia || done). by rewrite Hle.
    + rewrite Hs', Hs. rewrite (report_next d verbose k) by lia. rewrite <- (assoc_L (++)). do 2 f_equal. unfold report. destruct verbose; [|done].
      apply list_fmap_ext. intros i p Hp. apply list_elem_of_lookup_2, elem_of_seqZ in Hp. rewrite Hb. destruct (pt_busy d p); [done|]. rewrite Hq1.
      destruct (Z.eqb_spec p k); [lia|]. done.
Qed.
End Ports.

(** [axiom-utility -f]: when no new messages come, the program ends with 0, every port
    that nobody has bound is empty, the queues of the bound ports are as before, and
    with [-v] the line of each port says how many messages it had. *)
Theorem flush_empties `{CN : NicConsts} {CNOK : NicConstsOk} `{UC : UtilConsts} `{IC : InitConsts} fuel (verbose : bool) d :
  0 <= AXIOM_PORT_MAX < 255 → (∀ p, (length (pt_queue d p) < fuel)%nat) → AXIOM_PORT_MAX + 2 <= Z.of_nat fuel →
  ∃ d', util_main fuel (if verbose then [118; 102] else [102]) d = Ret 0 d' ∧
    (∀ p, 0 <= p <= AXIOM_PORT_MAX → pt_busy d p = false → pt_queue d' p = []) ∧
    (∀ p, pt_busy d p = true ∨ ¬ 0 <= p <= AXIOM_PORT_MAX → pt_queue d' p = pt_queue d p) ∧
    pt_said d' = pt_said d ++ report d verbose 0.
Proof.
  intros Hmax Hq Hf. assert (Hn : ∃ n m, fuel = (S n + m)%nat ∧ Z.of_nat n = AXIOM_PORT_MAX + 1 - 0).
  { exists (Z.to_nat (AXIOM_PORT_MAX + 1)), (fuel - S (Z.to_nat (AXIOM_PORT_MAX + 1)))%nat. lia. }
  destruct Hn as (n & m & Ef & Hn).
  destruct (flush_from fuel n verbose 0 false d) as (d' & E & _ & Hq' & Hs); [done|lia|lia|lia|done|].
  exists d'. split; [|split; [|split]].
  - assert (Hu : util_main fuel (if verbose then [118; 102] else [102]) d = exec_flush fuel verbose d) by (by destruct verbose).
    rewrite Hu. unfold exec_flush. rewrite Ef at 1. by apply loop_more.
  - intros p Hp Hb. rewrite Hq'. unfold left_over. rewrite (proj2 (Z.leb_le 0 p)), (proj2 (Z.leb_le p AXIOM_PORT_MAX)), Hb by lia. done.
  - intros p Hp. rewrite Hq'. unfold left_over. destruct (Z.leb_spec 0 p), (Z.leb_spec p AXIOM_PORT_MAX); try done. destruct Hp as [-> |]; [done|lia].
  - exact Hs.
Qed.

(** [axiom-utility -m] and the daemon: the datagram makes the daemon run a discovery as
    master, and save the table where that is asked for, without a change of its
    sessions and programs. *)
Theorem utility_starts_discovery `{CN : NicConsts} `{UC : UtilConsts} `{CS : SessionConsts} `{CP : SpawnConsts} `{IC : InitConsts} `{LY : InitLayout}
    fuel d save_rt stale st :
  AXIOM_CMD_START_DISCOVERY ≠ AXIOM_DSCV_CMD_REQ_ID → (∀ c, init_command [c] = c) →
  ∃ b, util_main fuel [109] d = Ret 0 (mk_ports (pt_queue d) (pt_busy d) (pt_bound d) (pt_said d ++ [b])) ∧
    init_turn save_rt (FromSocket stale (Some b)) st = Some (inl (st, DiscoveryMaster :: save save_rt)).
Proof.
  intros Hne Hl. exists [AXIOM_CMD_START_DISCOVERY]. split; [done|]. cbn. rewrite Hl. unfold dispatch.
  by rewrite (proj2 (Z.eqb_neq _ _) Hne), Z.eqb_refl.
Qed.

Section Examples.
#[local] Existing Instances nic8 nic8_ok dm_session dm_spawn dm_init dm_layout.
#[local] Instance util8 : UtilConsts := {| AXIOM_PORT_MAX := 3; AXIOM_FLAG_NOFLUSH := 1 |}.

(** Port 1 has two messages, port 2 is bound and has one. *)
Definition ex_ports : ports :=
  mk_ports (fun p => if p =? 1 then [true; false] else if p =? 2 then [false] else []) (fun p => p =? 2) None [].

Example ex_flush : match util_main 5 [118; 102] ex_ports with
  | Ret c d => (c, pt_queue d 1, pt_queue d 2, alen (pt_said d)) = (0, [], [false], 4)
  | Stuck _ _ => False end.
Proof. vm_compute. reflexivity. Qed.

Lemma flush_empties_witness : ∃ d', util_main 5 [118; 102] ex_ports = Ret 0 d' ∧ pt_queue d' 1 = [] ∧ pt_queue d' 2 = [false] ∧
  pt_said d' = [flushed_text 0 0; flushed_text 1 2; skipped_text 2; flushed_text 3 0].
Proof.
  destruct (flush_empties 5 true ex_ports) as (d' & E & H1 & H2 & Hs).
  - cbn. lia.
  - intros p. cbn. destruct (p =? 1); [cbn; lia|]. destruct (p =? 2); cbn; lia.
  - cbn. lia.
  - exists d'. split; [exact E|]. split; [apply H1; [cbn; lia|reflexivity]|]. split; [apply (H2 2); left; reflexivity|].
    rewrite Hs. vm_compute. reflexivity.
Defined.

Lemma utility_starts_discovery_witness : ∃ b,
  util_main 0 [109] ex_ports = Ret 0 (mk_ports (pt_queue ex_ports) (pt_busy ex_ports) None [b]) ∧
  init_turn true (FromSocket 7 (Some b)) istate0 = Some (inl (istate0, [DiscoveryMaster; SaveTable])).
Proof.
  destruct (utility_starts_discovery 0 ex_ports true 7 istate0) as (b & E1 & E2).
  - discriminate.
  - reflexivity.
  - exists b. split; [exact E1|exact E2].
Defined.

(** axiom-whoami *)
Example ex_whoami : whoami_main ex_ports = Ret 0 (mk_ports (pt_queue ex_ports) (pt_busy ex_ports) None [str "I'm node 0" ++ [10]]).
Proof. reflexivity. Qed.
End Examples.
