(* ===== verification/Info.v ===== *)
(** * axiom-info (axiom-info/axiom-info.c)

    The options select what is printed of the registers of the NIC.  The text is
    modelled byte by byte, except for the columns of the statistics, where the numbers
    that are printed are kept. *)

From S2P Require Import Prelude Nic Text.

(** Bits of the registers and the debug flags of the driver's headers. *)
Class InfoConsts := {
  AXIOMREG_IFINFO_CONNECTED : Z;
  AXIOMREG_IFINFO_TX : Z;
  AXIOMREG_IFINFO_RX : Z;
  AXIOM_DEBUG_FLAG_ALL : Z
}.

Definition PRINT_NODEID : Z := 1.
Definition PRINT_IFNUMBER : Z := 2.
Definition PRINT_IFINFO : Z := 4.
Definition PRINT_ROUTING : Z := 8.
Definition PRINT_ROUTING_ALL : Z := 16.
Definition PRINT_STATUS : Z := 32.
Definition PRINT_CONTROL : Z := 64.
Definition PRINT_NUMNODES : Z := 128.
Definition PRINT_STATS : Z := 256.
Definition PRINT_DEBUG : Z := 32768.
Definition PRINT_ALL : Z := 65535.
Definition PRINT_DEF : Z := Z.land (Z.land PRINT_ALL (Z.lnot PRINT_ROUTING_ALL)) (Z.lnot PRINT_DEBUG).

(** [axiom_stats_t]: interrupts, the counters of one kind of packets, and all kinds. *)
Record counters := mk_counters { c_pkt : Z; c_bytes : Z; c_wait : Z; c_poll : Z; c_poll_avail : Z; c_err : Z }.
Record axiom_stats := mk_stats {
  irq : Z; irq_raw_tx : Z; irq_raw_rx : Z; irq_rdma_tx : Z; irq_rdma_rx : Z;
  raw_tx : counters; raw_rx : counters; long_tx : counters; long_rx : counters; rdma_tx : counters; rdma_rx : counters;
  retries_rdma : Z; discarded_rdma : Z
}.

(** Output: text, or a line of the statistics with its numbers. *)
Inductive item :=
  | OText (t : list Z)
  | OIrq (total : Z) (l : list Z)
  | OPackets (total : Z)
  | ORow (name : list Z) (l : list Z)
  | ORetries (retries discarded : Z).

(** The calls of the driver; those with an error code give it with the value that the
    variable has afterwards. *)
Class InfoDev (D : Type) := {
  i_open : M D bool;
  i_node_id : M D Z;
  i_if_number : M D (Z * Z);
  i_if_info : Z → M D (Z * Z);
  i_num_nodes : M D Z;
  i_routing : Z → M D (Z * Z);
  i_statistics : M D (Z * axiom_stats);
  i_status : M D Z;
  i_control : M D Z;
  i_debug_info : Z → M D unit;
  i_close : M D unit
}.

(** %02x and %08x *)
Definition pad_zero (n : nat) (s : list Z) : list Z := replicate (n - length s) 48 ++ s.
Definition tab : list Z := [9].
Definition nl : list Z := [10].

Section Code.
Context `{CN : NicConsts} `{IC : InfoConsts} {D : Type} `{ID : InfoDev D}.

Definition print_nodeid (quiet : bool) : M D (list item) :=
  n ← i_node_id;
  mret [OText (if quiet then fmt_d n ++ nl else tab ++ str "node id = " ++ fmt_d n ++ nl ++ nl)].

Definition print_ifnumber (quiet : bool) : M D (list item) :=
  r ← i_if_number;
  mret [OText (if quiet then fmt_d r.2 ++ nl else tab ++ str "number of interfaces = " ++ fmt_d r.2 ++ nl ++ nl)].

Definition flag_text (name : list Z) (features mask : Z) : list Z :=
  tab ++ tab ++ name ++ (if negb (Z.land features mask =? 0) then str " = 1" else str " = 0") ++ nl.

Definition print_ifinfo (if_id : Z) : M D (list item) :=
  r ← i_if_info if_id;
  mret [OText (tab ++ str "interfaces[" ++ fmt_d if_id ++ str "] status: 0x" ++ pad_zero 2 (fmt_x r.2) ++ nl ++
    flag_text (str "connceted") r.2 AXIOMREG_IFINFO_CONNECTED ++
    flag_text (str "tx-enabled") r.2 AXIOMREG_IFINFO_TX ++
    flag_text (str "rx-enabled") r.2 AXIOMREG_IFINFO_RX ++ nl)].

Definition print_ifinfo_all : M D (list item) :=
  r ← i_if_number;
  x ← for_m 0 r.2 (fun i out => l ← print_ifinfo i; mret (inl (out ++ l) : list item + unit)) [];
  mret (match x with inl out => out | inr _ => [] end).

Definition print_num_nodes (quiet : bool) : M D (list item) :=
  n ← i_num_nodes;
  mret [OText (if quiet then fmt_d n ++ nl else tab ++ str "number of nodes = " ++ fmt_d n ++ nl ++ nl)].

(** One line of the routing table. *)
Definition routing_row (i mask : Z) : list Z :=
  tab ++ tab ++ fmt_d i ++ tab ++
  concat ((fun j => fmt_d (if negb (Z.land mask (bit j) =? 0) then 1 else 0) ++ tab) <$> seqZ 0 AXIOM_INTERFACES_NUM) ++ nl.

Definition print_routing_table (all_nodes : bool) : M D (list item) :=
  x ← for_m 0 AXIOM_NODES_NUM (fun i out =>
    r ← i_routing i;
    if negb (r.1 =? 0) then mret (inr out)
    else mret (inl (if negb all_nodes && (r.2 =? 0) then out else out ++ routing_row i r.2)))
    (tab ++ str "routing table" ++ (if all_nodes then str " [all nodes]" else str " [only reachable nodes]") ++
     nl ++ tab ++ tab ++ str "node" ++ tab ++ str "IF0" ++ tab ++ str "IF1" ++ tab ++ str "IF2" ++ tab ++ str "IF3" ++ nl);
  mret [OText (match x with inl out | inr out => out end ++ nl)].

Definition stats_row (name : list Z) (c : counters) : item :=
  ORow name [c_pkt c; c_bytes c; (if negb (c_pkt c =? 0) then c_bytes c / c_pkt c else 0); c_wait c; c_poll c; c_poll_avail c; c_err c].

Definition print_ni_statistics : M D (list item) :=
  r ← i_statistics;
  if negb (AXIOM_RET_IS_OK r.1) then mret [] else
  let s := r.2 in
  mret [OText (tab ++ str "NIC statistics" ++ nl);
    OIrq (irq s) [irq_raw_tx s; irq_raw_rx s; irq_rdma_tx s; irq_rdma_rx s];
    OPackets (u64 (c_pkt (raw_tx s) + c_pkt (raw_rx s) + c_pkt (rdma_tx s) + c_pkt (long_rx s)));
    stats_row (str "RAW-TX") (raw_tx s); stats_row (str "RAW-RX") (raw_rx s);
    stats_row (str "LONG-TX") (long_tx s); stats_row (str "LONG-RX") (long_rx s);
    stats_row (str "RDMA") (rdma_tx s); stats_row (str "RDMA-ACK") (rdma_rx s);
    ORetries (retries_rdma s) (discarded_rdma s); OText nl].

Definition print_ni_status (quiet : bool) : M D (list item) :=
  v ← i_status;
  mret [OText ((if quiet then str "0x" ++ pad_zero 8 (fmt_x v) ++ nl
                else tab ++ str "status register = 0x" ++ pad_zero 8 (fmt_x v) ++ nl) ++ nl)].

Definition print_ni_control : M D (list item) :=
  v ← i_control;
  mret [OText (tab ++ str "control register = 0x" ++ pad_zero 8 (fmt_x v) ++ nl ++ nl)].

(** The options: bitmap, debug flags and [quiet]; [inr] is an exit code. *)
Fixpoint info_options (l : list (Z * list Z)) (bitmap flags : Z) (quiet : bool) : (Z * Z * bool) + Z :=
  match l with
  | [] => inl (bitmap, flags, quiet)
  | (c, arg) :: l =>
      if c =? 97 then info_options l (Z.lor bitmap (Z.land PRINT_ALL (Z.lnot PRINT_DEBUG))) flags quiet
      else if c =? 110 then info_options l (Z.lor bitmap PRINT_NODEID) flags quiet
      else if c =? 105 then info_options l (Z.lor bitmap PRINT_IFNUMBER) flags quiet
      else if c =? 102 then info_options l (Z.lor bitmap PRINT_IFINFO) flags quiet
      else if c =? 78 then info_options l (Z.lor bitmap PRINT_NUMNODES) flags quiet
      else if c =? 114 then info_options l (Z.lor bitmap PRINT_ROUTING) flags quiet
      else if c =? 82 then info_options l (Z.lor bitmap (Z.lor PRINT_ROUTING PRINT_ROUTING_ALL)) flags quiet
      else if c =? 115 then info_options l (Z.lor bitmap PRINT_STATUS) flags quiet
      else if c =? 83 then info_options l (Z.lor bitmap PRINT_STATS) flags quiet
      else if c =? 99 then info_options l (Z.lor bitmap PRINT_CONTROL) flags quiet
      else if c =? 100 then
        match scan_hex arg with
        | Some (v, _) => info_options l (Z.lor bitmap PRINT_DEBUG) (u32 v) quiet
        | None => inr (-1) end
      else if c =? 68 then info_options l (Z.lor bitmap PRINT_DEBUG) AXIOM_DEBUG_FLAG_ALL quiet
      else if c =? 113 then info_options l bitmap flags true
      else if c =? 86 then inr 0
      else inr (-1)
  end.

Definition has_bit (bitmap b : Z) : bool := negb (Z.land bitmap b =? 0).

(** A part of the output, printed when its bit is set. *)
Definition section (bitmap b : Z) (print : M D (list item)) : M D (list item) := if has_bit bitmap b then print else mret [].

(** [main]: the exit code and the output. *)
Definition info_main (args : list (Z * list Z)) : M D (Z * list item) :=
  match info_options args 0 0 false with
  | inr code => mret (code, [])
  | inl (bitmap, flags, quiet) =>
      let bitmap := if bitmap =? 0 then PRINT_DEF else bitmap in
      let title := if quiet then [] else [OText (str "AXIOM NIC informations" ++ nl)] in
      dev ← i_open;
      if negb dev then mret (-1, title) else
      o1 ← section bitmap PRINT_NODEID (print_nodeid quiet);
      o2 ← section bitmap PRINT_IFNUMBER (print_ifnumber quiet);
      o3 ← section bitmap PRINT_IFINFO print_ifinfo_all;
      o4 ← section bitmap PRINT_NUMNODES (print_num_nodes quiet);
      o5 ← section bitmap PRINT_ROUTING (print_routing_table (has_bit bitmap PRINT_ROUTING_ALL));
      o6 ← section bitmap PRINT_STATS print_ni_statistics;
      o7 ← section bitmap PRINT_STATUS (print_ni_status quiet);
      o8 ← section bitmap PRINT_CONTROL print_ni_control;
      o9 ← section bitmap PRINT_DEBUG (i_debug_info flags ;; mret []);
      i_close ;; mret (0, title ++ o1 ++ o2 ++ o3 ++ o4 ++ o5 ++ o6 ++ o7 ++ o8 ++ o9)
  end.
End Code.

(** ** The routing table can be read back *)

(** Words of lines: the tokens of a line behind the tabulators, as numbers. *)
Definition read_row (line : list Z) : list Z := atoi <$> strtok 9 line.
(** The lines of the text without the two of the heading. *)
Definition read_table (text : list Z) : list (list Z) := read_row <$> drop 2 (strtok 10 text).

Section Reading.
Context `{CN : NicConsts} {CNOK : NicConstsOk}.

Lemma strtok_skip c s : strtok c (c :: s) = strtok c s.
Proof. unfold strtok. cbn. rewrite Z.eqb_refl. by rewrite filter_cons_False by auto. Qed.

Lemma strtok_token c a s : c ∉ a → a ≠ [] → strtok c (a ++ c :: s) = a :: strtok c s.
Proof. intros Hc Ha. unfold strtok. rewrite split_on_app by done. by rewrite filter_cons_True. Qed.

Lemma strtok_tokens c ls : Forall (fun a => (c ∉ a) ∧ a ≠ []) ls → strtok c (concat ((fun a => a ++ [c]) <$> ls)) = ls.
Proof.
  induction 1 as [|a ls [Hc Ha] _ IH]; [done|]. cbn [fmap list_fmap concat]. rewrite <- (assoc_L (++)). cbn [app]. by rewrite strtok_token, IH.
Qed.

(** The numbers of a line: the node and a bit for each interface. *)
Definition row_numbers (i mask : Z) : list Z := i :: ((fun j => Z.b2z (Z.testbit mask j)) <$> seqZ 0 AXIOM_INTERFACES_NUM).
Definition row_line (i mask : Z) : list Z := 9 :: 9 :: concat ((fun a => a ++ [9]) <$> (fmt_d <$> row_numbers i mask)).

Lemma routing_row_line i mask : routing_row i mask = row_line i mask ++ [10].
Proof using CNOK.
  unfold routing_row, row_line, row_numbers, tab, nl. cbn [app fmap list_fmap concat]. do 2 f_equal. rewrite <- !(assoc_L (++)). do 3 f_equal.
  rewrite <- !list_fmap_compose. f_equal. apply list_fmap_ext. intros k j Hj. apply list_elem_of_lookup_2, elem_of_seqZ in Hj. cbn [compose].
  do 2 f_equal. pose proof interfaces_num_range. rewrite <- land_bit_test by lia.
  assert (Hb : u8 (bit j) = bit j).
  { apply u8_small. unfold bit. rewrite Z.shiftl_1_l. split; [apply Z.pow_nonneg; lia|]. apply (Z.pow_lt_mono_r 2 j 8); lia. }
  rewrite Hb. by destruct (_ =? 0).
Qed.

Lemma fmt_d_token c n : 0 <= n < 2 ^ 31 → is_digit 10 c = false → (c ∉ fmt_d n) ∧ fmt_d n ≠ [].
Proof.
  intros Hn Hc. unfold fmt_d. destruct (Z.ltb_spec n 0); [lia|]. split; [apply fmt_unsigned_not; try done; lia|].
  by destruct (fmt_unsigned_spec 10 n ltac:(lia) ltac:(lia)) as (_ & ? & _).
Qed.

Lemma row_numbers_range i mask : 0 <= i < 2 ^ 31 → Forall (fun n => 0 <= n < 2 ^ 31) (row_numbers i mask).
Proof.
  intros Hi. constructor; [done|]. apply Forall_fmap, Forall_forall. intros j _. cbn. destruct (Z.testbit mask j); cbn; lia.
Qed.

Lemma read_row_line i mask : 0 <= i < 2 ^ 31 → read_row (row_line i mask) = row_numbers i mask.
Proof.
  intros Hi. pose proof (row_numbers_range i mask Hi) as Hr. unfold read_row, row_line. rewrite !strtok_skip, strtok_tokens.
  - rewrite <- list_fmap_compose. rewrite <- (list_fmap_id (row_numbers i mask)) at 2. apply list_fmap_ext. intros k n Hn. cbn.
    rewrite Forall_forall in Hr. apply atoi_fmt. specialize (Hr n (list_elem_of_lookup_2 _ _ _ Hn)). lia.
  - apply Forall_fmap. eapply Forall_impl; [exact Hr|]. intros n Hn. by apply fmt_d_token.
Qed.

Lemma row_line_token i mask : 0 <= i < 2 ^ 31 → (10 ∉ row_line i mask) ∧ row_line i mask ≠ [].
Proof.
  intros Hi. split; [|done]. unfold row_line. rewrite !not_elem_of_cons. split; [done|]. split; [done|]. intros (l & Hl & Hin)%elem_of_concat.
  apply list_elem_of_fmap in Hl as (a & -> & Ha). apply list_elem_of_fmap in Ha as (n & -> & Hn).
  pose proof (row_numbers_range i mask Hi) as Hr. rewrite Forall_forall in Hr. apply elem_of_app in Hin as [Hin|Hin%list_elem_of_singleton]; [|done].
  by destruct (fmt_d_token 10 n (Hr n Hn) eq_refl) as [? _].
Qed.

Lemma read_lines h1 h2 (rows : list (Z * Z)) : 10 ∉ h1 → h1 ≠ [] → 10 ∉ h2 → h2 ≠ [] → Forall (fun r => 0 <= r.1 < 2 ^ 31) rows →
  read_table (h1 ++ 10 :: h2 ++ 10 :: concat ((fun r => routing_row r.1 r.2) <$> rows) ++ [10]) = (fun r => row_numbers r.1 r.2) <$> rows.
Proof using CNOK.
  intros H1 H1' H2 H2' Hr. unfold read_table. rewrite strtok_token, strtok_token by done. cbn [drop].
  assert (Hc : concat ((fun r => routing_row r.1 r.2) <$> rows) ++ [10] = concat ((fun a => a ++ [10]) <$> ((fun r => row_line r.1 r.2) <$> rows)) ++ [10]).
  { f_equal. f_equal. rewrite <- list_fmap_compose. apply list_fmap_ext. intros k r _. cbn. apply routing_row_line. }
  rewrite Hc. clear Hc. assert (Hs : strtok 10 (concat ((fun a => a ++ [10]) <$> ((fun r => row_line r.1 r.2) <$> rows)) ++ [10]) = (fun r => row_line r.1 r.2) <$> rows).
  { induction Hr as [|r rows Hr Hrs IH]; [done|]. cbn [fmap list_fmap concat]. rewrite <- !(assoc_L (++)). cbn [app].
    destruct (row_line_token r.1 r.2 Hr) as [Ha Hb]. rewrite strtok_token by done. f_equal. exact IH. }
  rewrite Hs, drop_0, <- list_fmap_compose. apply list_fmap_ext. intros k r Hk. cbn [compose]. rewrite Forall_forall in Hr. apply read_row_line.
  by apply Hr, (list_elem_of_lookup_2 _ k).
Qed.

Context `{IC : InfoConsts} {D : Type} `{ID : InfoDev D} (table : Z → Z).
Hypothesis routing_table : ∀ i (d : D), i_routing i d = Ret (0, table i) d.

(** The nodes that are printed. *)
Definition shown_nodes (all_nodes : bool) : list Z := filter (fun i => all_nodes = true ∨ table i ≠ 0) (seqZ 0 AXIOM_NODES_NUM).

Lemma routing_loop all_nodes l out (d : D) :
  for_list l (fun i out =>
    r ← i_routing i;
    if negb (r.1 =? 0) then mret (inr out)
    else mret (inl (if negb all_nodes && (r.2 =? 0) then out else out ++ routing_row i r.2))) out d =
  Ret (inl (out ++ concat ((fun r => routing_row r.1 r.2) <$> ((fun i => (i, table i)) <$> filter (fun i => all_nodes = true ∨ table i ≠ 0) l)))) d.
Proof using routing_table.
  revert out. induction l as [|i l IH]; intros out; cbn [for_list]; [cbn; by rewrite app_nil_r|].
  unfold mbind, M_bind at 1. unfold mbind, M_bind at 1. rewrite routing_table. cbn [fst snd Z.eqb negb mret M_ret]. rewrite IH. f_equal. f_equal.
  destruct (decide (all_nodes = true ∨ table i ≠ 0)) as [Hd|Hd].
  - rewrite filter_cons_True by done. assert (Hb : negb all_nodes && (table i =? 0) = false).
    { destruct Hd as [->|Hd]; [done|]. rewrite (proj2 (Z.eqb_neq _ _) Hd). apply andb_false_r. }
    rewrite Hb. cbn [fmap list_fmap concat fst snd]. by rewrite (assoc_L (++)).
  - rewrite filter_cons_False by done. assert (Hb : negb all_nodes && (table i =? 0) = true).
    { destruct all_nodes; [exfalso; apply Hd; by left|]. destruct (Z.eqb_spec (table i) 0); [done|]. exfalso. apply Hd. by right. }
    by rewrite Hb.
Qed.

Lemma print_routing_text all_nodes (d : D) : ∃ text, print_routing_table all_nodes d = Ret [OText text] d ∧
  read_table text = (fun i => row_numbers i (table i)) <$> shown_nodes all_nodes.
Proof using routing_table CNOK.
  eexists. split.
  - unfold print_routing_table, mbind, M_bind, for_m. rewrite Z.sub_0_r.
    pose proof (routing_loop all_nodes (seqZ 0 AXIOM_NODES_NUM)) as Hl. unfold mbind, M_bind in Hl. rewrite Hl. reflexivity.
  - set (h1 := tab ++ str "routing table" ++ (if all_nodes then str " [all nodes]" else str " [only reachable nodes]")).
    set (h2 := tab ++ tab ++ str "node" ++ tab ++ str "IF0" ++ tab ++ str "IF1" ++ tab ++ str "IF2" ++ tab ++ str "IF3").
    match goal with |- read_table ?t = _ => assert (Ht : t = h1 ++ 10 :: h2 ++ 10 ::
      concat ((fun r => routing_row r.1 r.2) <$> ((fun i => (i, table i)) <$> shown_nodes all_nodes)) ++ [10]) end.
    { unfold h1, h2, nl. rewrite <- !(assoc_L (++)). by destruct all_nodes. }
    rewrite Ht, read_lines; [by rewrite <- list_fmap_compose|by destruct all_nodes; vm_compute; set_solver|by destruct all_nodes|by vm_compute; set_solver|done|].
    apply Forall_fmap, Forall_forall. intros i [_ Hi%elem_of_seqZ]%list_elem_of_filter. pose proof nodes_num_range. cbn. lia.
Qed.
End Reading.

(** [axiom-info -r] and [-R]: the printed table can be read back, line by line, to the
    registers: the nodes that have a route (or all of them), in order, each with the
    interfaces of its mask. *)
Theorem info_routing_roundtrip `{CN : NicConsts} {CNOK : NicConstsOk} `{IC : InfoConsts} {D} `{ID : InfoDev D} table (all_nodes : bool) (d d1 d2 : D) :
  (∀ i (d : D), i_routing i d = Ret (0, table i) d) → i_open d = Ret true d1 → i_close d1 = Ret tt d2 →
  ∃ title text, info_main [(if all_nodes then 82 else 114, [])] d = Ret (0, [OText title; OText text]) d2 ∧
    read_table text = (fun i => row_numbers i (table i)) <$> shown_nodes table all_nodes.
Proof.
  intros Ht Ho Hc. destruct (print_routing_text table Ht all_nodes d1) as (text & E & Hr). eexists _, text. split; [|exact Hr].
  destruct all_nodes; unfold info_main, mbind, M_bind; cbn [info_options Z.eqb Pos.eqb]; rewrite Ho; cbn [negb];
    unfold section; cbn [has_bit]; unfold mret, M_ret;
    repeat match goal with |- context [has_bit ?a ?b] => let v := eval vm_compute in (has_bit a b) in change (has_bit a b) with v end;
    cbn beta iota; rewrite E, Hc; reflexivity.
Qed.

Section Examples.
#[local] Existing Instances nic8 nic8_ok.
#[local] Instance info8 : InfoConsts := {|
  AXIOMREG_IFINFO_CONNECTED := 4; AXIOMREG_IFINFO_TX := 2; AXIOMREG_IFINFO_RX := 1; AXIOM_DEBUG_FLAG_ALL := 255 |}.

(** Node 2 of a small network: routes to the nodes 1 and 3. *)
Definition ex_table (i : Z) : Z := if i =? 1 then 2 else if i =? 3 then 12 else 0.
Definition ex_counters (n : Z) : counters := mk_counters n (10 * n) 0 0 0 0.
#[local] Instance unit_dev : InfoDev unit := {|
  i_open d := Ret true d; i_node_id d := Ret 2 d; i_if_number d := Ret (0, 2) d; i_if_info i d := Ret (0, 7) d; i_num_nodes d := Ret 3 d;
  i_routing i d := Ret (0, ex_table i) d;
  i_statistics d := Ret (AXIOM_RET_OK, mk_stats 0 0 0 0 0 (ex_counters 1) (ex_counters 2) (ex_counters 4) (ex_counters 8) (ex_counters 16) (ex_counters 32) 0 0) d;
  i_status d := Ret 5 d; i_control d := Ret 6 d; i_debug_info _ d := Ret tt d; i_close d := Ret tt d |}.

Example ex_ifinfo : print_ifinfo 0 tt = Ret [OText (tab ++ str "interfaces[0] status: 0x07" ++ nl ++ tab ++ tab ++ str "connceted = 1" ++ nl ++
  tab ++ tab ++ str "tx-enabled = 1" ++ nl ++ tab ++ tab ++ str "rx-enabled = 1" ++ nl ++ nl)] tt.
Proof. vm_compute. reflexivity. Qed.

Lemma info_routing_roundtrip_witness : ∃ title text, info_main [(114, [])] tt = Ret (0, [OText title; OText text]) tt ∧
  read_table text = [[1; 0; 1; 0; 0]; [3; 0; 0; 1; 1]].
Proof.
  destruct (info_routing_roundtrip ex_table false tt tt tt) as (title & text & E & Hr); try reflexivity.
  exists title, text. split; [exact E|]. rewrite Hr. vm_compute. reflexivity.
Defined.

(** [-a] is not the default: it also prints the nodes without a route. *)
Example all_not_default : match info_main [] tt, info_main [(97, [])] tt with
  | Ret (_, o1) _, Ret (_, o2) _ => o1 ≠ o2 ∧ length o1 = length o2
  | _, _ => False end.
Proof. vm_compute. split; [discriminate|reflexivity]. Qed.

(** The total of the packets leaves out the LONG packets sent and the RDMA answers. *)
Example total_incomplete : match print_ni_statistics tt with
  | Ret (_ :: _ :: OPackets total :: _) _ => total = 1 + 2 + 16 + 8
  | _ => False end.
Proof. vm_compute. reflexivity. Qed.
End Examples.
